(* ===== verification/_CoqProject ===== *)
-Q . S2P
Prelude.v
Words.v
Buffers.v
LinkedList.v
Ordered.v
Utf8.v
Base64.v
SHA1.v
Properties.v
PacketIn.v
Names.v
Clients.v
PacketOut.v
Receive.v
Wire.v
Protocol.v
Persistence.v
Queue.v
Sessions.v
ProtocolLaws.v
MessageIds.v
Inbound.v
Outbound.v
SessionFacts.v
Invariant.v
Exchange.v
RestoreOrder.v
Restore.v
Disk.v
Records.v
SocketBuffer.v
Socket.v
SocketReads.v
Pipes.v
SocketPackets.v
Connections.v
SocketWrites.v
Sending.v
Delivery.v
QueueLaws.v
Recovery.v
Crash.v
JsString.v
Dom.v
SearchData.v
SearchResults.v
ResultsFacts.v
ResultsPage.v
ResultsNav.v
SearchBox.v
BoxFacts.v
AsyncIndex.v
ClientIndex.v
InternalIndex.v
SearchSite.v
Searching.v
Dynsections.v
Folders.v
Levels.v
Menu.v
