(* ===== verification/Prelude.v ===== *)
(** * Eclipse Paho MQTT C client: verification library

    The repository holds two programs.  The one under src/src is the client
    library for the MQTT protocol, in C.  The one under src/docs is the set of
    scripts of the documentation pages Doxygen made for the library, in
    JavaScript, with the search index of the three sets of pages.  This library
    models the protocol part of the first and all of the second but its
    third-party code, and proves what each promises.

    ** The parts and their files

    Shared by all:
    - [Prelude] (this file): machine integers, the state and error monad [M]
      with its faults, weakest preconditions [wp], tactics, hint databases and
      lemmas on lists.

    The client library (src/src):
    - [Buffers]: the scalar readers and writers of MQTTPacket.c over a block
      with a cursor; a read outside the block is [OutOfBounds].
    - [Words]: words of bytes in both byte orders.  [Utf8], [Base64], [SHA1]:
      utf-8.c, Base64.c and SHA1.c, each with the reference definition it is
      compared with.
    - [LinkedList]: LinkedList.c on a heap of elements with pointers, and the
      sequence with a cursor the callers see.
    - [Properties]: MQTTProperties.c, the property lists of MQTT 5.
    - [PacketIn], [PacketOut]: the parsers of the table new_packets and the
      functions MQTTPacket_send... of MQTTPacket.c and MQTTPacketOut.c.
    - [Receive]: MQTTPacket_Factory over an abstract socket.
    - [Wire]: a network in memory, and the properties of packets on it.
    - [Names]: the tables of names and codes.
    - [Clients]: the records of Clients.h; [Transport] is the class of what the
      packet code uses of the network and of the store below.
    - [Protocol], [Sessions]: MQTTProtocolClient.c, MQTTProtocolOut.c and the
      functions of MQTTClient.c they call, on a state [pstate] with the list of
      clients, the publications shared by reference count and the layers below
      (the class [Session]).
    - [ProtocolLaws], [SessionFacts], [Invariant]: the rules of the operations,
      and the invariant [wf] that all of them keep.
    - [MessageIds], [Inbound], [Outbound]: message ids, and the automata of the
      QoS exchanges in both directions, which the handlers implement.
    - [Exchange]: the properties of the exchanges, each on a network in memory.
    - [Persistence], [Queue]: MQTTPersistence.c over an abstract store (the class
      [Store]): the records of messages in flight, and those of the queue of
      messages for the application.
    - [Ordered], [RestoreOrder]: insertion in order, and the order of message ids
      that wrap.  [Restore]: the laws of a store ([StoreLaws]), what records are,
      and the loop that restores them.  [Disk]: a store in memory.  [Records]:
      what the packet code writes.  [Recovery], [Crash], [QueueLaws]: the
      properties of the store.
    - [SocketBuffer], [Socket]: SocketBuffer.c, and the functions of Socket.c
      that read and write, over the system calls (the class [Kernel]); they
      implement [Receiver] and the network half of [Transport].
    - [SocketReads], [SocketPackets], [Connections]: the laws of the system
      ([KernelLaws]), the rules of interrupted reads, and reads of packets from
      many connections.  [SocketWrites], [Sending]: the rules of pending writes,
      and the senders over them.  [Delivery]: a program that sends and one that
      receives.  [Pipes]: a system in memory.

    The documentation pages (src/docs); the scripts search.js, dynsections.js
    and menu.js are the same in the three sets of pages, and are modelled from
    the one in src/docs/MQTTClient/html:
    - [JsString]: strings of UTF-16 code units, convertToId, escape.
    - [Dom]: trees of elements, nodes named by their positions.
    - [SearchData], [AsyncIndex], [ClientIndex], [InternalIndex]: the tables of
      every results page, searchdata.js and menudata.js.
    - [SearchResults]: the results page: createResults, and the object
      SearchResults with its search and its keys.  [ResultsFacts],
      [ResultsPage], [ResultsNav]: its walks, what a search leaves on the page,
      and where its keys go.
    - [SearchBox]: the object SearchBox of a page: its handlers as functions on
      the state of the box, with timers and the frame of the results.
      [BoxFacts]: its invariant.
    - [SearchSite], [Searching]: the pages of a site as the frame loads them,
      and the properties of the search from the key to the rows.
    - [Dynsections]: dynsections.js.  [Folders], [Levels]: directory tables as
      trees of folders, and what toggleFolder and toggleLevel do to them.
    - [Menu]: menu.js.

    How the parts interact.  A handler of [Protocol] finds its client by the
    socket, changes its lists of messages, shares publications with the state,
    answers through [PacketOut], and hands messages to the application queue.
    The senders of [PacketOut] and the handlers call the store through the
    classes [Transport] and [Session]; [Records.stored_below] says that the
    functions of [Persistence] are behind them, and [Disk] is such a stack.
    The packet code reads and writes through [Socket], which keeps the rest of
    what the system did not give or take in [SocketBuffer].
    The box of [SearchBox] asks the frame for a URL; [SearchSite.load] gives the
    table the URL names; [SearchResults.open_page] runs the scripts of that page
    on it.

    ** What the theorems show

    - Packets and buffers: what is written is read back (property lists,
      PUBLISH, acknowledgements); the parsers of version 3 stay inside the packet
      for any bytes and all parsers end; the senders fill their blocks exactly;
      the exceptions, where the code has them, are stated as theorems
      ([MQTTProperties_read_past_enddata], [new_packets_terminate_and_free]).
    - Encodings: UTF8_validate accepts the encodings of Unicode scalar values;
      Base64 is that of RFC 4648, decodes to what was encoded, and stays in its
      blocks; the incremental SHA-1 is the one-shot hash of FIPS 180-4.
    - Structures: the linked list implements a sequence for any operations and
      any failures of allocation; property lists stay well formed.
    - Exchanges: the handlers implement the receiver and the sender automaton;
      exactly once delivery for QoS 2; messages in flight are kept until their
      exchange ends and are sent again after a reconnection; acknowledgements
      that waited are sent; any sequence of operations runs without a memory
      fault; silent servers are noticed.
    - The store: after any exchanges the records are those of the messages in
      flight, and a new client restored from them stands where the old one stood,
      or a step before it for a PUBREL that was only queued
      ([crash_recovery]); what is restored from any store of well formed records
      ([restorePackets_restores]); the queue for the application survives with
      its order and contents, while its numbers do not wrap ([queue_survives]).
    - Sockets that do not block: packets are handed out whole and in order
      however their bytes are cut and the reads of connections alternate
      ([fragmented_reads]); packets leave whole, in order and without leaks
      whatever the system takes of each write ([packets_leave_whole]), and all of
      them leave if it takes something ([writes_drain]); so messages cross from
      one program to the other ([messages_cross]).
    - Search: typing a value shows exactly the entries of the section it means
      ([typed_search_finds]), which composes the box, the URL, the choice of the
      page, the tables and the results page; the box keeps its invariant over
      all events but one, which throws ([down_on_last]); a results page shows the
      matches of any table; the keys go from match to match; the encoding of
      words loses nothing; the tables have the shape the search needs.
    - Pages: toggling a folder keeps a directory a tree, and choosing a level
      makes it one; the menu written as HTML reads back as the tree of its data.

    ** Conventions

    Integers of C are [Z] with the wrap-around written out; a fault is a value
    of [fault], and a theorem that an operation runs says it has none.  An
    exception of JavaScript is [Err TypeError].  malloc may fail: whether the
    next allocation succeeds is an oracle in the state.  Loops that are not
    structural have fuel.  It is the number of bytes of the packet for the
    readers (each turn reads one), the 65535 ids of assignMsgId, the number of
    nodes of the page for the walks (each turn visits another node) and for the
    loops over Item0, Item1, ... (ids of different nodes), and for a round of n
    pending writes n (n + 1) + n + 1, since a write that is over may take the loop
    back; theorems show that
    what they return is not [Diverge].  The bytes of a buffer that a pending write
    keeps are a value: its owner does not change them before it is written, and
    the blocks are counted in [live_of].  The topics and payloads of publications
    and messages are values too: of the protocol code only the publications are
    counted.  The length of a property list, an int of the code, is not bounded.
    The callbacks of the API layers that a round of pending writes calls are a
    parameter, assumed to leave the writes alone ([polite]); the one that is
    installed for a socket that can be written again, MQTTProtocol_writeAvailable,
    is modelled in [Sessions], and the theorems on sockets hold for rounds in
    which it finds no acknowledgement to send.  System calls, store, clock and the lower case
    of characters outside ASCII are parameters: classes with the laws of their
    documented behaviour, which the network in memory of [Wire] and [Exchange]
    satisfies.

    ** Not modelled

    In C: the API layers MQTTClient.c (but for the functions above) and
    MQTTAsync*.c with their threads; MQTTProtocol_connect and
    MQTTProtocol_freeClient; of the sockets the initialisation, connects and the
    arrays of select and poll; TLS, WebSocket frames and proxies; the
    store on files of MQTTPersistenceDefault.c and MQTTPersistence_create, which
    sets up its table of functions; the debugging heap and its tree, logging and
    traces; samples and tests.  In JavaScript: jquery.js, a minified third-party library; the
    scripts use it to select elements, and the models of [Dynsections] and [Menu]
    have the elements selected and the calls made.  Styles, and the layout but
    for the offsets the box adds up.

    ** Plan

    Next: WebSocket.c; Tree.c as a search tree; the sockets of select and poll;
    the commands of MQTTAsyncUtils.c in the store; Toggle and the
    keys of shown children on results pages. *)
From Stdlib Require Export ZArith Lia.
From stdpp Require Export base tactics option list numbers gmap strings.

(** ** Machine integers

    A C integer is a [Z]; the conversions below are the wrap-around of the
    unsigned types and the two's complement reading of the signed ones. *)
Definition u8 (z : Z) : Z := z `mod` 2 ^ 8.
Definition u16 (z : Z) : Z := z `mod` 2 ^ 16.
Definition u32 (z : Z) : Z := z `mod` 2 ^ 32.
Definition u64 (z : Z) : Z := z `mod` 2 ^ 64.
Definition i8 (z : Z) : Z := (z + 2 ^ 7) `mod` 2 ^ 8 - 2 ^ 7.
Definition i32 (z : Z) : Z := (z + 2 ^ 31) `mod` 2 ^ 32 - 2 ^ 31.

(** The value of a plain [char] with the bits of the byte [b]; whether [char] is
    signed is the choice [sg] of the compiler. *)
Definition char_of (sg : bool) (b : Z) : Z := if sg then i8 b else u8 b.

(** A byte of memory, read as [unsigned char]. *)
Definition is_byte (z : Z) : Prop := (0 ≤ z < 256)%Z.
Notation bytes := (Forall is_byte).

#[export] Instance is_byte_dec z : Decision (is_byte z).
Proof. unfold is_byte. apply _. Defined.

(** ** Faults and the state-error monad

    [fault] lists the ways a C expression of the code leaves the defined
    behaviour (or, for [Diverge], runs out of the fuel of a loop), and the
    exception a JavaScript expression throws. *)
Inductive fault :=
  | OutOfBounds    (* read or write outside the block a pointer points into *)
  | Uninitialised  (* use of memory that was never written *)
  | WrongMember    (* read of a union member other than the one last written *)
  | NullDeref      (* access through a null pointer *)
  | BadFree        (* free of a block that is not allocated *)
  | Dangling       (* access to a block that was freed *)
  | TypeError      (* use of a property of null or undefined *)
  | Diverge.       (* the loop's fuel is exhausted *)

#[export] Instance fault_eq_dec : EqDecision fault.
Proof. solve_decision. Defined.

Inductive res (A : Type) :=
  | Ok (a : A)
  | Err (f : fault).
Arguments Ok {_} _.
Arguments Err {_} _.

Definition M (S A : Type) : Type := S → res (A * S).

#[export] Instance M_ret {S} : MRet (M S) := λ A a s, Ok (a, s).
#[export] Instance M_bind {S} : MBind (M S) := λ A B k m s,
  match m s with
  | Ok (a, s') => k a s'
  | Err f => Err f
  end.

Definition fail {S A} (f : fault) : M S A := λ _, Err f.
Definition get {S} : M S S := λ s, Ok (s, s).
Definition put {S} (s : S) : M S unit := λ _, Ok (tt, s).
Definition modify {S} (f : S → S) : M S unit := λ s, Ok (tt, f s).
Definition gets {S A} (f : S → A) : M S A := λ s, Ok (f s, s).

(** The result of a run without its final state. *)
Definition res_val {A S} (r : res (A * S)) : option A :=
  match r with Ok (a, _) => Some a | Err _ => None end.

Definition is_ok {A} (r : res A) : Prop := ∃ a, r = Ok a.

#[export] Instance is_ok_dec {A} (r : res A) : Decision (is_ok r).
Proof. destruct r as [a | f]; [left; by exists a | right; by intros [? ?]]. Defined.

Lemma bind_ok {S A B} (m : M S A) (k : A → M S B) s a s' :
  m s = Ok (a, s') → (m ≫= k) s = k a s'.
Proof. intros H. unfold mbind, M_bind. by rewrite H. Qed.

Lemma bind_err {S A B} (m : M S A) (k : A → M S B) s f :
  m s = Err f → (m ≫= k) s = Err f.
Proof. intros H. unfold mbind, M_bind. by rewrite H. Qed.

Lemma bind_ok_eq {S A B} (m : M S A) (k : A → M S B) s a s' r :
  m s = Ok (a, s') → k a s' = r → (m ≫= k) s = r.
Proof. intros H <-. by apply bind_ok. Qed.

Lemma ret_run {S A} (a : A) (s : S) : (mret a : M S A) s = Ok (a, s).
Proof. done. Qed.

Lemma ret_bind {S A B} (a : A) (k : A → M S B) s : (mret a ≫= k) s = k a s.
Proof. done. Qed.

Lemma gets_bind {S A B} (f : S → A) (k : A → M S B) s : (gets f ≫= k) s = k (f s) s.
Proof. done. Qed.

Lemma modify_bind {S B} (f : S → S) (k : unit → M S B) s : (modify f ≫= k) s = k tt (f s).
Proof. done. Qed.

Lemma bind_assoc_run {S A B C} (m : M S A) (k : A → M S B) (h : B → M S C) s :
  ((m ≫= k) ≫= h) s = (m ≫= λ a, k a ≫= h) s.
Proof. unfold mbind, M_bind. by destruct (m s) as [[a s'] |]. Qed.

(** A run that succeeds runs both halves of a bind. *)
Lemma bind_inv {S A B} (m : M S A) (k : A → M S B) s r :
  (m ≫= k) s = Ok r → ∃ a s', m s = Ok (a, s') ∧ k a s' = Ok r.
Proof.
  unfold mbind, M_bind. destruct (m s) as [[a s'] | f]; [eauto | done].
Qed.

(** ** Weakest preconditions

    [wp m Q s]: the run of [m] from [s] has no fault, and [Q] holds of its
    result and final state. *)
Definition wp {S A} (m : M S A) (Q : A → S → Prop) (s : S) : Prop :=
  match m s with Ok (a, s') => Q a s' | Err _ => False end.

Section Wp.
Context {S A B : Type}.
Implicit Types (m : M S A) (k : A → M S B) (s : S).

Lemma wp_ok m (Q : A → S → Prop) s :
  wp m Q s ↔ ∃ a s', m s = Ok (a, s') ∧ Q a s'.
Proof.
  unfold wp. destruct (m s) as [[a s'] | f]; [| naive_solver].
  split; [eauto | intros (? & ? & [= <- <-] & ?); done].
Qed.

Lemma wp_intro m (Q : A → S → Prop) s a s' : m s = Ok (a, s') → Q a s' → wp m Q s.
Proof. intros H ?. unfold wp. by rewrite H. Qed.

Lemma wp_mono m (Q R : A → S → Prop) s :
  wp m Q s → (∀ a s', Q a s' → R a s') → wp m R s.
Proof. unfold wp. destruct (m s) as [[a s'] |]; auto. Qed.

Lemma wp_bind m k (Q : B → S → Prop) s :
  wp m (λ a, wp (k a) Q) s → wp (m ≫= k) Q s.
Proof. unfold wp, mbind, M_bind. by destruct (m s) as [[a s'] |]. Qed.

Lemma wp_bind_inv m k (Q : B → S → Prop) s :
  wp (m ≫= k) Q s → wp m (λ a, wp (k a) Q) s.
Proof. unfold wp, mbind, M_bind. by destruct (m s) as [[a s'] |]. Qed.

Lemma wp_conj m (Q R : A → S → Prop) s :
  wp m Q s → wp m R s → wp m (λ a s', Q a s' ∧ R a s') s.
Proof. unfold wp. destruct (m s) as [[a s'] |]; auto. Qed.
End Wp.

Lemma wp_ret {S A} (a : A) (Q : A → S → Prop) s : Q a s → wp (mret a) Q s.
Proof. done. Qed.

Lemma wp_gets {S A} (f : S → A) (Q : A → S → Prop) s : Q (f s) s → wp (gets f) Q s.
Proof. done. Qed.

Lemma wp_modify {S} (f : S → S) (Q : unit → S → Prop) s : Q tt (f s) → wp (modify f) Q s.
Proof. done. Qed.

Lemma wp_if {S A} (P : Prop) `{!Decision P} (m m' : M S A) (Q : A → S → Prop) s :
  (P → wp m Q s) → (¬ P → wp m' Q s) → wp (if decide P then m else m') Q s.
Proof. destruct (decide P); auto. Qed.

(** [wlp m Q s]: if the run of [m] from [s] has no fault, [Q] holds of its
    result and final state. *)
Definition wlp {S A} (m : M S A) (Q : A → S → Prop) (s : S) : Prop :=
  ∀ a s', m s = Ok (a, s') → Q a s'.

Section Wlp.
Context {S A B : Type}.
Implicit Types (m : M S A) (k : A → M S B) (s : S).

Lemma wlp_bind m k (Q : B → S → Prop) s :
  wlp m (λ a, wlp (k a) Q) s → wlp (m ≫= k) Q s.
Proof. intros Hm b s' Hr. apply bind_inv in Hr as (a & s1 & H1 & H2). by eapply Hm. Qed.

Lemma wlp_mono m (Q R : A → S → Prop) s :
  wlp m Q s → (∀ a s', Q a s' → R a s') → wlp m R s.
Proof. unfold wlp. eauto. Qed.

Lemma wp_wlp m (Q : A → S → Prop) s : wp m Q s → wlp m Q s.
Proof. unfold wp, wlp. intros Hm a s' Hr. by rewrite Hr in Hm. Qed.

Lemma wp_and_wlp m (Q R : A → S → Prop) s :
  wp m Q s → wlp m R s → wp m (λ a s', Q a s' ∧ R a s') s.
Proof. unfold wp, wlp. destruct (m s) as [[a s'] |]; auto. Qed.
End Wlp.

Lemma wlp_ret {S A} (a : A) (Q : A → S → Prop) s : Q a s → wlp (mret a) Q s.
Proof. by intros HQ ? ? [= <- <-]. Qed.

Lemma wlp_fail {S A} f (Q : A → S → Prop) s : wlp (fail f) Q s.
Proof. done. Qed.

(** ** Notations of the development *)
Declare Scope paho_scope.
Delimit Scope paho_scope with paho.
Notation "'when' b 'do' m" := (if b then m else mret tt)
  (at level 200, b at level 100, m at level 200) : paho_scope.

(** ** Tactics and hint databases *)
Create HintDb paho.
Create HintDb pahorw.
#[export] Hint Rewrite @ret_run : pahorw.

(** Run one monadic step whose result is known. *)
Ltac step_with H := rewrite (bind_ok _ _ _ _ _ H).
Ltac mrun := unfold mbind, mret, M_bind, M_ret, gets, get, put, modify, fail; simpl.

(** ** Lists of bytes *)
Lemma bytes_app l k : bytes (l ++ k) ↔ bytes l ∧ bytes k.
Proof. apply Forall_app. Qed.

Lemma is_byte_u8 z : is_byte (u8 z).
Proof. unfold is_byte, u8. apply Z.mod_pos_bound. lia. Qed.
#[export] Hint Resolve is_byte_u8 : paho.

Lemma u8_small z : is_byte z → u8 z = z.
Proof. intros H. unfold u8. apply Z.mod_small. exact H. Qed.

Lemma u32_small z : (0 ≤ z < 2 ^ 32)%Z → u32 z = z.
Proof. intros H. unfold u32. by apply Z.mod_small. Qed.

Lemma i32_small z : (- 2 ^ 31 ≤ z < 2 ^ 31)%Z → i32 z = z.
Proof. intros H. unfold i32. rewrite Z.mod_small; lia. Qed.

Lemma i32_range z : (- 2 ^ 31 ≤ i32 z < 2 ^ 31)%Z.
Proof. unfold i32. pose proof (Z.mod_pos_bound (z + 2 ^ 31) (2 ^ 32)). lia. Qed.

(** Bit tests of a byte as arithmetic. *)
Lemma land_127 z : Z.land z 127 = (z `mod` 128)%Z.
Proof. change 127%Z with (Z.ones 7). rewrite Z.land_ones by lia. done. Qed.

Lemma land_128 z : is_byte z → Z.land z 128 = (if decide (128 ≤ z)%Z then 128 else 0)%Z.
Proof.
  intros [H1 H2].
  assert (Hall : forallb (λ n : nat, Z.eqb (Z.land (Z.of_nat n) 128)
    (if decide (128 ≤ Z.of_nat n)%Z then 128 else 0)%Z) (seq 0 256) = true)
    by (vm_compute; reflexivity).
  rewrite forallb_forall in Hall. specialize (Hall (Z.to_nat z)).
  rewrite Z2Nat.id in Hall by done. apply Z.eqb_eq, Hall, in_seq. lia.
Qed.

(** A boolean property of all bytes is decided by enumeration. *)
Definition all_bytes : list Z := Z.of_nat <$> seq 0 256.

Lemma elem_of_all_bytes z : is_byte z → z ∈ all_bytes.
Proof.
  intros [H1 H2]. unfold all_bytes. apply list_elem_of_fmap.
  exists (Z.to_nat z). split; [lia | apply elem_of_seq; lia].
Qed.

Lemma all_bytes_forall (P : Z → bool) :
  forallb P all_bytes = true → ∀ z, is_byte z → P z = true.
Proof.
  intros H z Hz. rewrite forallb_forall in H. apply H.
  by apply list_elem_of_In, elem_of_all_bytes.
Qed.

(** ** Lists *)
Lemma filter_none {A} (P : A → Prop) `{!∀ x, Decision (P x)} l :
  Forall (λ x, ¬ P x) l → filter P l = [].
Proof. induction 1 as [| x l Hx _ IH]; [done |]. rewrite filter_cons, IH. by rewrite decide_False. Qed.

Lemma filter_ext_in {A} (P Q : A → Prop) `{!∀ x, Decision (P x), !∀ x, Decision (Q x)}
    (l : list A) :
  (∀ x, x ∈ l → P x ↔ Q x) → filter P l = filter Q l.
Proof.
  induction l as [| x l IH]; intros Hiff; [done |]. rewrite !filter_cons.
  rewrite IH by (intros; apply Hiff; by right). pose proof (Hiff x ltac:(left)).
  destruct (decide (P x)), (decide (Q x)); tauto.
Qed.

Lemma filter_concat_nil {A} (P : A → Prop) `{!∀ x, Decision (P x)} (ls : list (list A)) :
  (∀ l, l ∈ ls → filter P l = []) → filter P (concat ls) = [].
Proof.
  induction ls as [| l ls IH]; intros Hl; [done |]. cbn [concat].
  rewrite filter_app, (Hl l) by constructor. apply IH. intros l' ?. apply Hl. by constructor.
Qed.

Lemma filter_concat_one {A} (P : A → Prop) `{!∀ x, Decision (P x)} (ls : list (list A)) i l :
  ls !! i = Some l → (∀ j l', ls !! j = Some l' → j ≠ i → filter P l' = []) →
  filter P (concat ls) = filter P l.
Proof.
  revert i. induction ls as [| l0 ls IH]; intros i Hi Hj; [done |]. cbn [concat].
  rewrite filter_app. destruct i as [| i].
  - injection Hi as ->. rewrite filter_concat_nil; [apply app_nil_r |].
    intros l' [j Hl']%list_elem_of_lookup. by apply (Hj (S j)).
  - rewrite (Hj 0%nat l0) by done. cbn [app]. apply (IH i); [done |].
    intros j l' Hl' Hne. apply (Hj (S j)); [done | congruence].
Qed.

Lemma drop_shift {A} (l d tl : list A) p k :
  drop p l = d ++ tl → (k ≤ length d)%nat → drop (p + k) l = drop k d ++ tl.
Proof. intros E Hk. by rewrite Nat.add_comm, <- skipn_skipn, E, drop_app_le by done. Qed.

Lemma head_prefix {A} (s t : list A) c : head s = Some c → s `prefix_of` t → head t = Some c.
Proof. intros Hs [u ->]. by destruct s. Qed.

Lemma prefix_snoc_inv {A} (p q : list A) x : p `prefix_of` q ++ [x] → p `prefix_of` q ∨ p = q ++ [x].
Proof.
  intros [t E]. destruct t as [| y t _] using rev_ind; [right; by rewrite app_nil_r in E |].
  left. rewrite (assoc_L (++)) in E. apply app_inj_tail in E as [-> _]. by eexists.
Qed.

Lemma existsb_fmap {A B} (f : B → bool) (g : A → B) l : existsb f (g <$> l) = existsb (f ∘ g) l.
Proof. induction l as [| x l IH]; [done |]. cbn. by rewrite IH. Qed.

Lemma existsb_ext_in {A} (f g : A → bool) l : (∀ x, f x = g x) → existsb f l = existsb g l.
Proof. intros Hfg. induction l as [| x l IH]; [done |]. cbn. by rewrite Hfg, IH. Qed.

Lemma splice_lookup {A} (f g : A → A) l k x j :
  l !! k = Some x →
  (take k l ++ f x :: (g <$> drop (S k) l)) !! j =
    (if decide (j < k)%nat then id else if decide (j = k) then f else g) <$> l !! j.
Proof.
  intros Hk. pose proof (lookup_lt_Some _ _ _ Hk) as Hlt.
  assert (length (take k l) = k) as Hlen by (rewrite length_take; lia).
  destruct (decide (j < k)%nat) as [Hj | Hj].
  - rewrite lookup_app_l, lookup_take_lt by lia. by rewrite option_fmap_id.
  - rewrite lookup_app_r, Hlen by lia. destruct (decide (j = k)) as [-> | Hne].
    + by rewrite Nat.sub_diag, Hk.
    + destruct (j - k)%nat as [| m] eqn:Hm; [lia |].
      trans ((g <$> drop (S k) l) !! m); [done |].
      rewrite list_lookup_fmap, lookup_drop. by replace (S k + m)%nat with j by lia.
Qed.

(** ** C strings

    A [char*] that points to a NUL terminated block is the list of the bytes
    before the end of the block's data; [strlen] stops at the first NUL. *)
Fixpoint strlen (s : list Z) : nat :=
  match s with
  | [] => 0
  | c :: s' => if decide (c = 0)%Z then 0 else S (strlen s')
  end.

Definition cstr (s : list Z) : list Z := take (strlen s) s.

Definition no_nul (s : list Z) : Prop := Forall (λ c, c ≠ 0%Z) s.

Lemma strlen_no_nul s : no_nul s → strlen s = length s.
Proof.
  induction 1 as [| c s Hc _ IH]; simpl; [done |].
  rewrite decide_False by done. by rewrite IH.
Qed.

Lemma strlen_le s : strlen s ≤ length s.
Proof. induction s as [| c s IH]; simpl; [lia | case_decide; lia]. Qed.

Lemma cstr_no_nul s : no_nul s → cstr s = s.
Proof. intros H. unfold cstr. rewrite strlen_no_nul by done. by rewrite firstn_all. Qed.

Lemma length_cstr s : length (cstr s) = strlen s.
Proof. unfold cstr. rewrite length_take. pose proof (strlen_le s). lia. Qed.

Lemma cstr_bytes s : bytes s → bytes (cstr s).
Proof. intros. by apply Forall_take. Qed.
#[export] Hint Resolve cstr_bytes : paho.
#[export] Hint Rewrite length_cstr : pahorw.
