(* ===== verification/Words.v ===== *)
(** * Words of 32 bits in memory

    The big endian value of four bytes and back, and the same in the byte order
    of the host, little endian when [le] is true: what a load and a store of a
    [uint32_t] or an [int] through a pointer mean. *)
From S2P Require Import Prelude.
Local Open Scope Z_scope.

Definition be_word (bs : list Z) : Z := foldl (λ acc b, acc * 256 + b) 0 bs.
Definition be_bytes (v : Z) : list Z :=
  [(v / 16777216) `mod` 256; (v / 65536) `mod` 256; (v / 256) `mod` 256; v `mod` 256].

(** The value of a uint32_t whose bytes in memory are [bs], and its bytes *)
Definition native_word (le : bool) (bs : list Z) : Z := be_word (if le then rev bs else bs).
Definition native_bytes (le : bool) (v : Z) : list Z :=
  if le then rev (be_bytes v) else be_bytes v.

(** An [int] in memory *)
Definition int_bytes (le : bool) (n : Z) : list Z := native_bytes le (u32 n).
Definition int_of_bytes (le : bool) (bs : list Z) : Z := i32 (native_word le bs).

(** ** Laws *)
Ltac split_digits := unfold is_byte in *; Z.div_mod_to_equations; lia.

Lemma be_bytes_word a b c d :
  is_byte a → is_byte b → is_byte c → is_byte d → be_bytes (be_word [a; b; c; d]) = [a; b; c; d].
Proof.
  intros. unfold be_bytes, be_word. cbn [foldl].
  repeat (apply (f_equal2 cons); [split_digits |]). reflexivity.
Qed.

Lemma be_word_bytes v : 0 ≤ v < 2 ^ 32 → be_word (be_bytes v) = v.
Proof. intros. unfold be_bytes, be_word. cbn [foldl]. split_digits. Qed.

Lemma length_be_bytes v : length (be_bytes v) = 4%nat.
Proof. done. Qed.

Lemma bytes_be_bytes v : bytes (be_bytes v).
Proof. unfold be_bytes. rewrite !Forall_cons. unfold is_byte. split_and!; try apply Z.mod_pos_bound; done. Qed.

Lemma length_native_bytes le v : length (native_bytes le v) = 4%nat.
Proof. by destruct le. Qed.

Lemma native_bytes_word le bs :
  length bs = 4%nat → bytes bs → native_bytes le (native_word le bs) = bs.
Proof.
  intros Hlen Hb. destruct bs as [| a [| b [| c [| d [|]]]]]; try done.
  rewrite !Forall_cons in Hb. destruct_and ?. unfold native_bytes, native_word.
  destruct le; cbn [rev app]; by rewrite be_bytes_word.
Qed.


Lemma native_word_bytes le v : 0 ≤ v < 2 ^ 32 → native_word le (native_bytes le v) = v.
Proof.
  intros Hv. unfold native_word, native_bytes. destruct le; rewrite ?rev_involutive; by apply be_word_bytes.
Qed.

Lemma length_int_bytes le n : length (int_bytes le n) = 4%nat.
Proof. apply length_native_bytes. Qed.

Lemma int_bytes_bytes le n : bytes (int_bytes le n).
Proof.
  unfold int_bytes, native_bytes. destruct le; [apply Forall_rev |]; apply bytes_be_bytes.
Qed.

(** An [int] is read back. *)
Lemma int_of_bytes_int le n : - 2 ^ 31 ≤ n < 2 ^ 31 → int_of_bytes le (int_bytes le n) = n.
Proof.
  intros Hn. unfold int_of_bytes, int_bytes.
  rewrite native_word_bytes by (apply Z.mod_pos_bound; done).
  unfold i32, u32. Z.div_mod_to_equations. lia.
Qed.
