(* ===== verification/Buffers.v ===== *)
(** * Reading and writing packet buffers (src/src/MQTTPacket.c, src/src/MQTTProperties.c)

    The scalar readers and writers of MQTTPacket.c, the length delimited
    strings, and the variable byte integers.

    A [char**] that walks over a received packet is a [reader]: the memory
    block the pointer points into, the position in it, and the outcomes of the
    calls of [malloc] to come.  A read at or past the end of the block is the
    fault [OutOfBounds]; [enddata] is a position, and the code compares with it
    where it does.  A [char**] that fills a [malloc]ed block is a [writer]: the
    size of the block and the bytes written so far; a write past the size is
    [OutOfBounds]. *)
From S2P Require Import Prelude.
Local Open Scope Z_scope.

(** ** The allocator

    The outcomes of the calls of [malloc] to come, the next one first; when the
    list is used up every call succeeds, so [[]] is an allocator that never
    fails. *)
Class HasHeap (S : Type) := {
  heap_of : S → list bool;
  set_heap : list bool → S → S;
}.

Definition malloc {S} `{HasHeap S} : M S bool := λ s,
  match heap_of s with
  | [] => Ok (true, s)
  | b :: h => Ok (b, set_heap h s)
  end.

(** ** Readers *)
Record reader := Reader { r_mem : list Z; r_pos : nat; r_heap : list bool }.

#[export] Instance reader_heap : HasHeap reader := {
  heap_of := r_heap;
  set_heap h s := Reader (r_mem s) (r_pos s) h;
}.

(** [*( *pptr + k)] *)
Definition peek (k : nat) : M reader Z := λ s,
  match r_mem s !! (r_pos s + k)%nat with
  | Some c => Ok (c, s)
  | None => Err OutOfBounds
  end.

(** [*pptr += n] *)
Definition advance (n : nat) : M reader unit :=
  modify (λ s, Reader (r_mem s) (r_pos s + n) (r_heap s)).

(** [memcpy] of [n] bytes from [*pptr] *)
Definition read_block (n : nat) : M reader (list Z) := λ s,
  let d := take n (drop (r_pos s) (r_mem s)) in
  if decide (length d = n) then Ok (d, s) else Err OutOfBounds.

Definition readInt : M reader Z :=
  a ← peek 0;
  b ← peek 1;
  _ ← advance 2;
  mret (256 * a + b).

Definition readChar : M reader Z :=
  c ← peek 0;
  _ ← advance 1;
  mret c.

Definition readInt4 : M reader Z :=
  a ← peek 0;
  b ← peek 1;
  c ← peek 2;
  d ← peek 3;
  _ ← advance 4;
  mret (u32 (16777216 * a + 65536 * b + 256 * c + d)).

(** [readUTFlen]: the string ([None]: a null pointer) and the value left in
    [*len] ([None]: not assigned).  The block allocated holds [*len] bytes and
    a NUL. *)
Definition readUTFlen (enddata : nat) : M reader (option (list Z) * option Z) :=
  pos ← gets r_pos;
  if decide (pos + 1 < enddata)%nat then
    len ← readInt;
    pos ← gets r_pos;
    if decide (pos + Z.to_nat len ≤ enddata)%nat then
      ok ← malloc;
      if ok : bool then
        d ← read_block (Z.to_nat len);
        _ ← advance (Z.to_nat len);
        mret (Some d, Some len)
      else mret (None, Some len)
    else mret (None, Some len)
  else mret (None, None).

Definition readUTF (enddata : nat) : M reader (option (list Z)) :=
  r ← readUTFlen enddata;
  mret (fst r).

(** [MQTTLenString]: a length and a pointer ([None]: null) to a block that
    holds the data. *)
Record MQTTLenString := mkLenString { ls_len : Z; ls_data : option (list Z) }.

#[export] Instance MQTTLenString_eq_dec : EqDecision MQTTLenString.
Proof. solve_decision. Defined.

(** [memcpy] of [len] bytes from [data] *)
Definition lenstring_copy {S} (s : MQTTLenString) : M S (list Z) :=
  match ls_data s with
  | None => if decide (ls_len s = 0) then mret [] else fail NullDeref
  | Some d =>
    if decide (Z.to_nat (ls_len s) ≤ length d)%nat
    then mret (take (Z.to_nat (ls_len s)) d) else fail OutOfBounds
  end.

(** A length delimited string that owns exactly its bytes. *)
Definition lenstring (d : list Z) : MQTTLenString :=
  mkLenString (Z.of_nat (length d)) (Some d).

(** [MQTTLenStringRead]: the return code and, when it is not -1, the string
    structure, whose [data] points at the bytes in the buffer. *)
Definition MQTTLenStringRead (enddata : nat) : M reader (Z * option MQTTLenString) :=
  pos ← gets r_pos;
  if decide (pos + 1 < enddata)%nat then
    len ← readInt;
    pos ← gets r_pos;
    if decide (pos + Z.to_nat len ≤ enddata)%nat then
      d ← read_block (Z.to_nat len);
      _ ← advance (Z.to_nat len);
      mret (2 + len, Some (mkLenString len (Some d)))
    else mret (-1, None)
  else mret (-1, None).

(** ** Writers *)
Record writer := Writer { w_cap : nat; w_out : list Z }.

(** Store the bytes [d] at [*pptr] and move the pointer past them. *)
Definition emit (d : list Z) : M writer unit := λ s,
  if decide (length (w_out s) + length d ≤ w_cap s)%nat
  then Ok (tt, Writer (w_cap s) (w_out s ++ d))
  else Err OutOfBounds.

Definition writeChar (c : Z) : M writer unit := emit [u8 c].

Definition writeInt (anInt : Z) : M writer unit :=
  _ ← emit [u8 (Z.quot anInt 256)];
  emit [u8 (Z.rem anInt 256)].

Definition writeInt4 (anInt : Z) : M writer unit :=
  _ ← emit [u8 (anInt / 16777216)];
  let anInt := anInt `mod` 16777216 in
  _ ← emit [u8 (anInt / 65536)];
  let anInt := anInt `mod` 65536 in
  _ ← emit [u8 (anInt / 256)];
  emit [u8 (anInt `mod` 256)].

Definition writeUTF (string : list Z) : M writer unit :=
  let len := strlen string in
  _ ← writeInt (i32 (Z.of_nat len));
  emit (take len string).

Definition writeData (data : list Z) (datalen : Z) : M writer unit :=
  _ ← writeInt datalen;
  if decide (0 ≤ datalen ≤ Z.of_nat (length data))
  then emit (take (Z.to_nat datalen) data) else fail OutOfBounds.

Definition writeMQTTLenString (lenstring : MQTTLenString) : M writer unit :=
  _ ← writeInt (ls_len lenstring);
  d ← lenstring_copy lenstring;
  emit d.

(** ** Variable byte integers *)

(** The bytes [MQTTPacket_encode] stores from [buf] on; its return value is
    their number, with or without a buffer.  [fuel] bounds the number of
    digits. *)
Fixpoint encode_loop (fuel : nat) (len : Z) : list Z :=
  let d := len `mod` 128 in
  let len := len / 128 in
  match fuel with
  | S fuel => if decide (0 < len) then Z.lor d 128 :: encode_loop fuel len else [d]
  | O => [d]
  end.

(** A [size_t] of 64 bits has at most ten digits of base 128. *)
Definition MQTTPacket_encode (len : Z) : list Z := encode_loop 9 (u64 len).

Definition MQTTPacket_VBIlen (rem_len : Z) : Z :=
  if decide (rem_len < 128) then 1
  else if decide (rem_len < 16384) then 2
  else if decide (rem_len < 2097152) then 3
  else 4.

Definition MAX_NO_OF_REMAINING_LENGTH_BYTES : Z := 4.

(** The loop of [MQTTPacket_VBIdecode]; [getcharfn] returns the number of
    bytes it read and the byte.  The result is the length returned and
    [*value]. *)
Fixpoint VBIdecode_loop {S} (getcharfn : M S (Z * Z)) (fuel : nat)
    (len multiplier value : Z) : M S (Z * Z) :=
  match fuel with
  | O => fail Diverge
  | Datatypes.S fuel =>
    let len := len + 1 in
    if decide (MAX_NO_OF_REMAINING_LENGTH_BYTES < len) then mret (len, value) else
    rc_c ← getcharfn;
    let '(rc, c) := rc_c : Z * Z in
    if decide (rc = 1) then
      let value := u32 (value + Z.land c 127 * multiplier) in
      if decide (Z.land c 128 = 0) then mret (len, value)
      else VBIdecode_loop getcharfn fuel len (multiplier * 128) value
    else mret (len, value)
  end.

Definition MQTTPacket_VBIdecode {S} (getcharfn : M S (Z * Z)) : M S (Z * Z) :=
  VBIdecode_loop getcharfn 5 0 1 0.

(** [bufchar(c, 1)]: the reader's position is [bufptr]. *)
Definition bufchar : M reader (Z * Z) :=
  c ← readChar;
  mret (1, c).

(** [bufptr] is set to [buf], so the caller's pointer does not move. *)
Definition MQTTPacket_decodeBuf : M reader (Z * Z) := λ s,
  match MQTTPacket_VBIdecode bufchar s with
  | Ok (r, _) => Ok (r, s)
  | Err f => Err f
  end.

(** ** Specifications of single steps

    [parses m l a]: where the memory from the position on starts with [l], and
    [l] lies before [enddata], [m enddata] reads exactly [l] and returns [a]
    (with an allocator that does not fail). *)
Definition parses {A} (m : nat → M reader A) (l : list Z) (a : A) : Prop :=
  ∀ mem pos e rest,
    drop pos mem = l ++ rest → (pos + length l ≤ e)%nat →
    m e (Reader mem pos []) = Ok (a, Reader mem (pos + length l) []).

(** [writes m l a]: [m] appends exactly [l] where the block has room for it,
    and returns [a]. *)
Definition writes {A} (m : M writer A) (l : list Z) (a : A) : Prop :=
  ∀ cap out, (length out + length l ≤ cap)%nat →
    m (Writer cap out) = Ok (a, Writer cap (out ++ l)).

(** ** Composing the specifications *)
Lemma malloc_succeeds {S} `{HasHeap S} (s : S) :
  heap_of s = [] → malloc s = Ok (true, s).
Proof. intros Hs. unfold malloc. by rewrite Hs. Qed.

Lemma reader_malloc mem pos : malloc (Reader mem pos []) = Ok (true, Reader mem pos []).
Proof. done. Qed.

Lemma parses_ret {A} (a : A) : parses (λ _, mret a) [] a.
Proof. intros mem pos e rest _ _. simpl. by rewrite Nat.add_0_r. Qed.

Lemma parses_bind {A B} (m : nat → M reader A) (k : A → nat → M reader B) l1 l2 a b :
  parses m l1 a → parses (k a) l2 b →
  parses (λ e, m e ≫= λ x, k x e) (l1 ++ l2) b.
Proof.
  intros Hm Hk mem pos e rest Hd He. rewrite length_app in *.
  rewrite <- (assoc_L (++)) in Hd.
  rewrite (bind_ok _ _ _ _ _ (Hm mem pos e (l2 ++ rest) Hd ltac:(lia))).
  rewrite (Hk mem (pos + length l1)%nat e rest).
  - by rewrite Nat.add_assoc.
  - rewrite <- drop_drop, Hd. by rewrite drop_app_length.
  - lia.
Qed.

Lemma parses_ext {A} (m m' : nat → M reader A) l a :
  (∀ e s, m e s = m' e s) → parses m' l a → parses m l a.
Proof. intros Hm H mem pos e rest ??. rewrite Hm. eauto. Qed.

Lemma peek_at mem pos h l rest k c :
  drop pos mem = l ++ rest → l !! k = Some c →
  peek k (Reader mem pos h) = Ok (c, Reader mem pos h).
Proof.
  intros Hd Hk. unfold peek. simpl.
  assert (mem !! (pos + k)%nat = Some c) as ->; [| done].
  rewrite <- lookup_drop, Hd. by apply lookup_app_l_Some.
Qed.

Lemma parses_readChar c : parses (λ _, readChar) [c] c.
Proof.
  intros mem pos e rest Hd _. unfold readChar.
  by rewrite (bind_ok _ _ _ _ _ (peek_at _ _ _ _ _ 0 c Hd eq_refl)).
Qed.

Lemma parses_readInt a b : parses (λ _, readInt) [a; b] (256 * a + b).
Proof.
  intros mem pos e rest Hd _. unfold readInt.
  rewrite (bind_ok _ _ _ _ _ (peek_at _ _ _ _ _ 0 a Hd eq_refl)).
  by rewrite (bind_ok _ _ _ _ _ (peek_at _ _ _ _ _ 1 b Hd eq_refl)).
Qed.

Lemma parses_readInt4 a b c d :
  parses (λ _, readInt4) [a; b; c; d] (u32 (16777216 * a + 65536 * b + 256 * c + d)).
Proof.
  intros mem pos e rest Hd _. unfold readInt4.
  rewrite (bind_ok _ _ _ _ _ (peek_at _ _ _ _ _ 0 a Hd eq_refl)).
  rewrite (bind_ok _ _ _ _ _ (peek_at _ _ _ _ _ 1 b Hd eq_refl)).
  rewrite (bind_ok _ _ _ _ _ (peek_at _ _ _ _ _ 2 c Hd eq_refl)).
  by rewrite (bind_ok _ _ _ _ _ (peek_at _ _ _ _ _ 3 d Hd eq_refl)).
Qed.

Lemma read_block_at mem pos h l rest :
  drop pos mem = l ++ rest →
  read_block (length l) (Reader mem pos h) = Ok (l, Reader mem pos h).
Proof.
  intros Hd. unfold read_block. simpl. rewrite Hd, take_app_length.
  by rewrite decide_True.
Qed.

(** The two byte length that the readers and writers put before a string. *)
Definition len_prefix (n : Z) : list Z := [n / 256; n `mod` 256].

Definition len_string (d : list Z) : list Z := len_prefix (Z.of_nat (length d)) ++ d.

Lemma length_len_string d : length (len_string d) = S (S (length d)).
Proof. done. Qed.

Lemma len_prefix_value n : 256 * (n / 256) + n `mod` 256 = n.
Proof. symmetry. apply Z.div_mod. lia. Qed.

(** The length prefix of a string read by both readers. *)
Lemma readInt_prefix mem pos h d rest :
  drop pos mem = len_string d ++ rest →
  readInt (Reader mem pos h) = Ok (Z.of_nat (length d), Reader mem (pos + 2) h) ∧
  drop (pos + 2) mem = d ++ rest.
Proof.
  intros Hd. split.
  - unfold readInt.
    rewrite (bind_ok _ _ _ _ _ (peek_at _ _ _ _ _ 0 _ Hd eq_refl)).
    rewrite (bind_ok _ _ _ _ _ (peek_at _ _ _ _ _ 1 _ Hd eq_refl)).
    mrun. by rewrite len_prefix_value.
  - by rewrite <- drop_drop, Hd.
Qed.

Lemma parses_readUTFlen d :
  parses readUTFlen (len_string d) (Some d, Some (Z.of_nat (length d))).
Proof.
  intros mem pos e rest Hd He. rewrite !length_len_string in *.
  destruct (readInt_prefix mem pos [] d rest Hd) as [Hi Hd'].
  unfold readUTFlen, gets. rewrite (bind_ok _ _ _ _ _ eq_refl). cbn [r_pos].
  rewrite decide_True, (bind_ok _ _ _ _ _ Hi) by lia.
  rewrite (bind_ok _ _ _ _ _ eq_refl). cbn [r_pos].
  rewrite Nat2Z.id, decide_True by lia.
  rewrite (bind_ok _ _ _ _ _ (reader_malloc _ _)).
  rewrite (bind_ok _ _ _ _ _ (read_block_at _ _ _ _ _ Hd')).
  mrun. do 3 f_equal. lia.
Qed.

Lemma parses_MQTTLenStringRead d :
  parses MQTTLenStringRead (len_string d) (2 + Z.of_nat (length d), Some (lenstring d)).
Proof.
  intros mem pos e rest Hd He. rewrite !length_len_string in *.
  destruct (readInt_prefix mem pos [] d rest Hd) as [Hi Hd'].
  unfold MQTTLenStringRead, gets. rewrite (bind_ok _ _ _ _ _ eq_refl). cbn [r_pos].
  rewrite decide_True, (bind_ok _ _ _ _ _ Hi) by lia.
  rewrite (bind_ok _ _ _ _ _ eq_refl). cbn [r_pos].
  rewrite Nat2Z.id, decide_True by lia.
  rewrite (bind_ok _ _ _ _ _ (read_block_at _ _ _ _ _ Hd')).
  mrun. do 3 f_equal. lia.
Qed.

Lemma writes_ret {A} (a : A) : writes (mret a) [] a.
Proof. intros cap out _. by rewrite app_nil_r. Qed.

Lemma writes_bind {A B} (m : M writer A) (k : A → M writer B) l1 l2 a b :
  writes m l1 a → writes (k a) l2 b → writes (m ≫= k) (l1 ++ l2) b.
Proof.
  intros Hm Hk cap out Hc. rewrite length_app in Hc.
  rewrite (bind_ok _ _ _ _ _ (Hm cap out ltac:(lia))).
  rewrite (Hk cap (out ++ l1)) by (rewrite length_app; lia).
  by rewrite (assoc_L (++)).
Qed.

(** A write followed by a pure step, and a pure step followed by a write. *)
Lemma writes_then_ret {A B} (m : M writer A) (f : A → B) l a :
  writes m l a → writes (m ≫= λ a, mret (f a)) l (f a).
Proof.
  intros Hm. rewrite <- (app_nil_r l). eapply writes_bind; [exact Hm | apply writes_ret].
Qed.

Lemma writes_ret_then {A B} (a : A) (k : A → M writer B) l b :
  writes (k a) l b → writes (mret a ≫= k) l b.
Proof. intros Hk. exact Hk. Qed.

Lemma writes_emit d : writes (emit d) d tt.
Proof. intros cap out Hc. unfold emit. simpl. by rewrite decide_True. Qed.

Lemma writes_writeChar c : writes (writeChar c) [u8 c] tt.
Proof. apply writes_emit. Qed.

Lemma writes_writeInt n : 0 ≤ n < 65536 → writes (writeInt n) (len_prefix n) tt.
Proof.
  intros Hn. unfold writeInt, len_prefix.
  rewrite Z.quot_div_nonneg, Z.rem_mod_nonneg by lia.
  rewrite !u8_small by (unfold is_byte; Z.to_euclidean_division_equations; lia).
  apply (writes_bind _ _ [_] [_] tt tt); apply writes_emit.
Qed.

(** Big-endian bytes of a 32-bit integer. *)
Definition be32 (n : Z) : list Z :=
  [n / 16777216; (n / 65536) `mod` 256; (n / 256) `mod` 256; n `mod` 256].

(** The digit of weight [b] of a number reduced modulo [b * c]. *)
Lemma mod_mul_div n b c : 0 < b → 0 < c → (n `mod` (b * c)) / b = (n / b) `mod` c.
Proof.
  intros Hb Hc. rewrite Z.rem_mul_r, (Z.mul_comm b (_ `mod` _)), Z.div_add by lia.
  rewrite (Z.div_small (n `mod` b)) by (by apply Z.mod_pos_bound). apply Z.add_0_l.
Qed.

Lemma mod_mul_mod n b c : 0 < b → 0 < c → (n `mod` (b * c)) `mod` b = n `mod` b.
Proof.
  intros Hb Hc. rewrite Z.rem_mul_r, (Z.mul_comm b (_ `mod` _)), Z_mod_plus_full, Z.mod_mod; lia.
Qed.

Lemma writes_writeInt4 n : 0 ≤ n < 2 ^ 32 → writes (writeInt4 n) (be32 n) tt.
Proof.
  intros Hn. unfold writeInt4, be32.
  pose proof (mod_mul_div n 65536 256 ltac:(lia) ltac:(lia)) as H1.
  pose proof (mod_mul_mod n 65536 256 ltac:(lia) ltac:(lia)) as H2.
  pose proof (mod_mul_div n 256 256 ltac:(lia) ltac:(lia)) as H3.
  pose proof (mod_mul_mod n 256 256 ltac:(lia) ltac:(lia)) as H4.
  change (65536 * 256) with 16777216 in *. change (256 * 256) with 65536 in *.
  rewrite H1, H2, H3, H4.
  pose proof (Z.div_lt_upper_bound n 16777216 256). pose proof (Z.div_pos n 16777216).
  rewrite !u8_small by
    (unfold is_byte; first [apply Z.mod_pos_bound; lia | lia]).
  apply (writes_bind _ _ [_] [_; _; _] tt tt); [apply writes_emit |].
  apply (writes_bind _ _ [_] [_; _] tt tt); [apply writes_emit |].
  apply (writes_bind _ _ [_] [_] tt tt); apply writes_emit.
Qed.

Lemma be32_value n : 0 ≤ n < 2 ^ 32 →
  u32 (16777216 * (n / 16777216) + 65536 * ((n / 65536) `mod` 256)
       + 256 * ((n / 256) `mod` 256) + n `mod` 256) = n.
Proof.
  intros Hn. assert (16777216 * (n / 16777216) + 65536 * ((n / 65536) `mod` 256)
    + 256 * ((n / 256) `mod` 256) + n `mod` 256 = n) as ->; [| by apply u32_small].
  pose proof (Z_div_mod_eq_full n 256) as H1.
  pose proof (Z_div_mod_eq_full (n / 256) 256) as H2.
  pose proof (Z_div_mod_eq_full (n / 65536) 256) as H3.
  rewrite Z.div_div in H2, H3 by lia. change (256 * 256) with 65536 in H2. change (65536 * 256) with 16777216 in H3. clear - H1 H2 H3. lia.
Qed.

Lemma writes_writeUTF s :
  Z.of_nat (strlen s) < 65536 → writes (writeUTF s) (len_string (cstr s)) tt.
Proof.
  intros Hs. unfold writeUTF, len_string. rewrite length_cstr.
  rewrite i32_small by lia.
  apply (writes_bind _ _ _ _ tt tt); [apply writes_writeInt; lia | apply writes_emit].
Qed.

Lemma writes_writeData d :
  Z.of_nat (length d) < 65536 → writes (writeData d (Z.of_nat (length d))) (len_string d) tt.
Proof.
  intros Hs. unfold writeData, len_string. rewrite decide_True, Nat2Z.id, firstn_all by lia.
  apply (writes_bind _ _ _ _ tt tt); [apply writes_writeInt; lia | apply writes_emit].
Qed.

Lemma writes_writeMQTTLenString d :
  Z.of_nat (length d) < 65536 → writes (writeMQTTLenString (lenstring d)) (len_string d) tt.
Proof.
  intros Hs. unfold writeMQTTLenString, len_string, lenstring_copy. cbn [ls_len ls_data lenstring].
  apply (writes_bind _ _ _ _ tt tt); [apply writes_writeInt; lia |].
  rewrite Nat2Z.id, decide_True, firstn_all by done.
  apply (writes_bind _ _ [] _ d tt); [apply writes_ret | apply writes_emit].
Qed.

#[export] Hint Resolve parses_ret parses_readChar parses_readInt parses_readInt4
  parses_readUTFlen parses_MQTTLenStringRead : paho.
#[export] Hint Resolve writes_ret writes_emit writes_writeChar writes_writeInt
  writes_writeInt4 writes_writeUTF writes_writeData writes_writeMQTTLenString : paho.

(** The readers on what the writers produce. *)
Lemma parses_len_prefix n : parses (λ _, readInt) (len_prefix n) n.
Proof. rewrite <- (len_prefix_value n) at 2. apply parses_readInt. Qed.

Lemma parses_be32 n : 0 ≤ n < 2 ^ 32 → parses (λ _, readInt4) (be32 n) n.
Proof. intros Hn. rewrite <- (be32_value n Hn) at 2. apply parses_readInt4. Qed.

#[export] Hint Resolve parses_len_prefix parses_be32 : paho.

(** ** Variable byte integers: the encoder against its length and the decoder *)

(** The continuation bit on a digit. *)
Lemma digit_facts d : 0 ≤ d < 128 →
  Z.lor d 128 = d + 128 ∧ Z.land (Z.lor d 128) 127 = d ∧ Z.land (Z.lor d 128) 128 = 128 ∧
  Z.land d 127 = d ∧ Z.land d 128 = 0.
Proof.
  intros Hd.
  assert (Hall : forallb (λ d, (Z.lor d 128 =? d + 128) && (Z.land (Z.lor d 128) 127 =? d)
     && (Z.land (Z.lor d 128) 128 =? 128) && (Z.land d 127 =? d) && (Z.land d 128 =? 0))
     (Z.of_nat <$> seq 0 128) = true) by (vm_compute; reflexivity).
  rewrite forallb_forall in Hall. specialize (Hall d).
  assert (In d (Z.of_nat <$> seq 0 128)) as Hin.
  { apply list_elem_of_In, list_elem_of_fmap. exists (Z.to_nat d).
    split; [lia | apply elem_of_seq; lia]. }
  specialize (Hall Hin). rewrite !andb_true_iff, !Z.eqb_eq in Hall. tauto.
Qed.

Lemma encode_loop_S k n : 0 ≤ n →
  encode_loop (S k) n =
  if decide (n < 128) then [n] else Z.lor (n `mod` 128) 128 :: encode_loop k (n / 128).
Proof.
  intros Hn. simpl. case_decide as H; case_decide as H'.
  - rewrite Z.div_small in H; lia.
  - done.
  - rewrite Z.mod_small; [done | lia].
  - pose proof (Z.div_le_lower_bound n 128 1). lia.
Qed.

Lemma encode_loop_length k j n :
  (1 ≤ j ≤ S k)%nat → 0 ≤ n < 128 ^ Z.of_nat j → (length (encode_loop k n) ≤ j)%nat.
Proof.
  revert j n. induction k as [| k IH]; intros j n Hj Hn.
  - simpl. lia.
  - rewrite encode_loop_S by lia. case_decide; [simpl; lia |]. simpl.
    destruct j as [| [| j]]; [lia | lia |].
    apply le_n_S, IH; [lia |]. split; [apply Z.div_pos; lia |].
    apply Z.div_lt_upper_bound; [lia |].
    rewrite <- Z.pow_succ_r, <- Nat2Z.inj_succ by lia. lia.
Qed.

Lemma encode_loop_nonempty k n : encode_loop k n ≠ [].
Proof. destruct k; simpl; [done | case_decide; done]. Qed.

Lemma encode_loop_bytes k n : 0 ≤ n → bytes (encode_loop k n).
Proof.
  revert n. induction k as [| k IH]; intros n Hn.
  - constructor; [| constructor]. unfold is_byte. pose proof (Z.mod_pos_bound n 128). lia.
  - rewrite encode_loop_S by done. case_decide; constructor; try constructor.
    + lia.
    + lia.
    + destruct (digit_facts (n `mod` 128)) as [-> _]; [by apply Z.mod_pos_bound |].
      pose proof (Z.mod_pos_bound n 128). lia.
    + destruct (digit_facts (n `mod` 128)) as [-> _]; [by apply Z.mod_pos_bound |].
      pose proof (Z.mod_pos_bound n 128). lia.
    + apply IH, Z.div_pos; lia.
Qed.

Lemma encode_small n : 0 ≤ n < 2 ^ 64 → MQTTPacket_encode n = encode_loop 9 n.
Proof. intros Hn. unfold MQTTPacket_encode, u64. by rewrite Z.mod_small. Qed.

(** The number of digits for the lengths MQTT allows. *)
Lemma encode_length_VBIlen n : 0 ≤ n < 268435456 →
  Z.of_nat (length (MQTTPacket_encode n)) = MQTTPacket_VBIlen n.
Proof.
  intros Hn. rewrite encode_small by lia. unfold MQTTPacket_VBIlen.
  assert (Hdiv : ∀ m, 0 ≤ m → 0 ≤ m / 128) by (intros; apply Z.div_pos; lia).
  assert (Hlt : ∀ m b, 0 < b → (m / 128 < b ↔ m < 128 * b)).
  { intros m b Hb. split; intros H.
    - pose proof (Z_div_mod_eq_full m 128). pose proof (Z.mod_pos_bound m 128). nia.
    - by apply Z.div_lt_upper_bound. }
  rewrite encode_loop_S by lia. case_decide; [done |]. cbn [length].
  rewrite encode_loop_S by auto with lia.
  assert (Z.of_nat 0 = 0) by done.
  destruct (decide (n < 16384)).
  { rewrite decide_True; [done |]. apply Hlt; lia. }
  rewrite decide_False by (rewrite Hlt; lia). cbn [length].
  rewrite encode_loop_S by auto 10 with lia.
  destruct (decide (n < 2097152)).
  { rewrite decide_True; [done |]. rewrite !Hlt; lia. }
  rewrite decide_False by (rewrite !Hlt; lia). cbn [length].
  rewrite encode_loop_S by auto 10 with lia.
  rewrite decide_True; [done |]. rewrite !Hlt; lia.
Qed.

Lemma parses_bufchar c : parses (λ _, bufchar) [c] (1, c).
Proof.
  change [c] with ([c] ++ []). unfold bufchar.
  apply (parses_bind (λ _, readChar) (λ c _, mret (1, c)) _ _ c); eauto with paho.
Qed.

(** One digit of the decoder's loop. *)
Lemma VBIdecode_loop_S fuel len multiplier value :
  len < MAX_NO_OF_REMAINING_LENGTH_BYTES →
  VBIdecode_loop bufchar (S fuel) len multiplier value =
  (rc_c ← bufchar;
   let '(rc, c) := rc_c : Z * Z in
   if decide (rc = 1) then
     let value := u32 (value + Z.land c 127 * multiplier) in
     if decide (Z.land c 128 = 0) then mret (len + 1, value)
     else VBIdecode_loop bufchar fuel (len + 1) (multiplier * 128) value
   else mret (len + 1, value)).
Proof. intros H. cbn [VBIdecode_loop]. by rewrite decide_False by lia. Qed.

(** The last digit of a number ... *)
Lemma VBIdecode_last d fuel len multiplier value :
  0 ≤ d < 128 → len < MAX_NO_OF_REMAINING_LENGTH_BYTES →
  0 ≤ value + d * multiplier < 2 ^ 32 →
  parses (λ _, VBIdecode_loop bufchar (S fuel) len multiplier value) [d]
    (len + 1, value + d * multiplier).
Proof.
  intros Hd Hl Hv. destruct (digit_facts d Hd) as (_ & _ & _ & H127 & H128).
  eapply parses_ext; [intros e s; by rewrite VBIdecode_loop_S by done |].
  eapply (parses_bind (λ _, bufchar) _ [d] [] (1, d)); [apply parses_bufchar |].
  cbn -[Z.land]. rewrite H127, H128, u32_small by lia. apply parses_ret.
Qed.

(** ... and one before it. *)
Lemma VBIdecode_more d l r fuel len multiplier value :
  0 ≤ d < 128 → len < MAX_NO_OF_REMAINING_LENGTH_BYTES →
  0 ≤ value + d * multiplier < 2 ^ 32 →
  parses (λ _, VBIdecode_loop bufchar fuel (len + 1) (multiplier * 128)
    (value + d * multiplier)) l r →
  parses (λ _, VBIdecode_loop bufchar (S fuel) len multiplier value)
    (Z.lor d 128 :: l) r.
Proof.
  intros Hd Hl Hv Hr. destruct (digit_facts d Hd) as (_ & H127 & H128 & _).
  eapply parses_ext; [intros e s; by rewrite VBIdecode_loop_S by done |].
  eapply (parses_bind (λ _, bufchar) _ [_] l (1, _)); [apply parses_bufchar |].
  cbn -[Z.land Z.lor VBIdecode_loop]. rewrite H127, H128. cbn -[VBIdecode_loop].
  by rewrite u32_small by lia.
Qed.

Lemma VBIdecode_loop_encode k n fuel len multiplier value :
  0 ≤ n < 128 ^ (Z.of_nat k + 1) → 0 ≤ value → 0 ≤ multiplier →
  value + n * multiplier < 2 ^ 32 →
  len + Z.of_nat (length (encode_loop k n)) ≤ MAX_NO_OF_REMAINING_LENGTH_BYTES →
  (length (encode_loop k n) ≤ fuel)%nat →
  parses (λ _, VBIdecode_loop bufchar fuel len multiplier value) (encode_loop k n)
    (len + Z.of_nat (length (encode_loop k n)), value + n * multiplier).
Proof.
  revert n fuel len multiplier value.
  induction k as [| k IH]; intros n fuel len multiplier value Hn Hv Hm Hb Hl Hf.
  - cbn [encode_loop length] in *. destruct fuel as [| fuel]; [lia |].
    rewrite Z.mod_small by lia. apply VBIdecode_last; nia.
  - rewrite encode_loop_S in * by lia. case_decide as Hc; cbn [length] in *.
    + destruct fuel as [| fuel]; [lia |]. apply VBIdecode_last; nia.
    + destruct fuel as [| fuel]; [lia |].
      pose proof (Z_div_mod_eq_full n 128) as Hdm.
      pose proof (Z.mod_pos_bound n 128 ltac:(lia)) as Hmod.
      assert (0 ≤ n / 128 < 128 ^ (Z.of_nat k + 1)) as Hq.
      { split; [apply Z.div_pos; lia |]. apply Z.div_lt_upper_bound; [lia |].
        rewrite <- Z.pow_succ_r by lia. replace (Z.succ (Z.of_nat k + 1)) with (Z.of_nat (S k) + 1) by lia. apply Hn. }
      replace (len + Z.of_nat (S (length (encode_loop k (n / 128))))) with
        (len + 1 + Z.of_nat (length (encode_loop k (n / 128)))) by lia.
      replace (value + n * multiplier) with
        (value + n `mod` 128 * multiplier + (n / 128) * (multiplier * 128)) by nia.
      apply VBIdecode_more; [lia | lia | nia |]. apply IH; first [lia | nia].
Qed.

(** A length below 2^28 is decoded from its own encoding, without moving the
    pointer. *)
Lemma decodeBuf_encode n mem pos rest :
  0 ≤ n < 268435456 → drop pos mem = MQTTPacket_encode n ++ rest →
  MQTTPacket_decodeBuf (Reader mem pos []) =
  Ok (Z.of_nat (length (MQTTPacket_encode n)), n, Reader mem pos []).
Proof.
  intros Hn Hd.
  pose proof (encode_length_VBIlen n Hn) as Hlen.
  assert (MQTTPacket_VBIlen n ≤ 4) by (unfold MQTTPacket_VBIlen; repeat case_decide; lia).
  rewrite encode_small in Hd, Hlen |- * by lia.
  pose proof (VBIdecode_loop_encode 9 n 5 0 1 0 ltac:(lia) ltac:(lia) ltac:(lia) ltac:(lia)
    ltac:(unfold MAX_NO_OF_REMAINING_LENGTH_BYTES; lia) ltac:(lia)) as Hrun.
  specialize (Hrun mem pos _ rest Hd (Nat.le_refl _)).
  unfold MQTTPacket_decodeBuf, MQTTPacket_VBIdecode. rewrite Hrun.
  by rewrite Z.mul_1_r.
Qed.

(** The length and the value the decoder returns are bounded, whatever the
    bytes are; the only fault is a read past the end of the block. *)
Lemma VBIdecode_loop_bounds fuel len multiplier value s :
  (1 ≤ fuel)%nat → 0 ≤ len → len + Z.of_nat fuel = 5 →
  multiplier = 128 ^ len → 0 ≤ value < 128 ^ len →
  VBIdecode_loop bufchar fuel len multiplier value s = Err OutOfBounds ∨
  ∃ l v s', VBIdecode_loop bufchar fuel len multiplier value s = Ok (l, v, s') ∧
    len < l ≤ 5 ∧ 0 ≤ v < 268435456.
Proof.
  revert len multiplier value s. induction fuel as [| fuel IH]; intros len mu v s Hf Hl Hlf -> Hv; [lia |].
  cbn [VBIdecode_loop]. unfold MAX_NO_OF_REMAINING_LENGTH_BYTES. case_decide as Hmax.
  { right. exists (len + 1), v, s. split; [done |].
    replace len with 4 in * by lia. change (128 ^ 4) with 268435456 in Hv. lia. }
  assert (Hbuf : bufchar s = Err OutOfBounds ∨ ∃ c s', bufchar s = Ok (1, c, s')).
  { unfold bufchar, readChar, peek. mrun. destruct (_ !! _); eauto. }
  destruct Hbuf as [Hbuf | (c & s' & Hbuf)].
  { left. by rewrite (bind_err _ _ _ _ Hbuf). }
  rewrite (bind_ok _ _ _ _ _ Hbuf). cbn -[Z.land VBIdecode_loop u32].
  rewrite land_127. pose proof (Z.mod_pos_bound c 128 ltac:(lia)) as Hc.
  assert (128 ^ (len + 1) = 128 * 128 ^ len) as Hp by (rewrite Z.pow_add_r by lia; lia).
  assert (128 ^ (len + 1) ≤ 128 ^ 4) as Hp4 by (apply Z.pow_le_mono_r; lia).
  change (128 ^ 4) with 268435456 in Hp4.
  rewrite u32_small by nia. rewrite decide_True by done. case_decide as Hcont.
  - right. exists (len + 1), (v + c `mod` 128 * 128 ^ len), s'. split; [done | nia].
  - destruct (IH (len + 1) (128 ^ len * 128) (v + c `mod` 128 * 128 ^ len) s'
      ltac:(lia) ltac:(lia) ltac:(lia) ltac:(lia) ltac:(nia))
      as [? | (l & v' & s'' & ? & ? & ?)]; [by left |].
    right. exists l, v', s''. split_and!; (done || lia).
Qed.

Lemma decodeBuf_bounds s :
  MQTTPacket_decodeBuf s = Err OutOfBounds ∨
  ∃ l v, MQTTPacket_decodeBuf s = Ok (l, v, s) ∧ 1 ≤ l ≤ 5 ∧ 0 ≤ v < 268435456.
Proof.
  unfold MQTTPacket_decodeBuf, MQTTPacket_VBIdecode.
  destruct (VBIdecode_loop_bounds 5 0 1 0 s ltac:(lia) ltac:(lia) ltac:(lia) eq_refl ltac:(lia))
    as [-> | (l & v & s' & -> & ? & ?)]; [by left | right].
  exists l, v. split_and!; (done || lia).
Qed.

(** ** Steady readers

    Whatever the memory holds, a steady reader does not run out of fuel, does
    not change the block and does not move the pointer back. *)
Definition steady_at {A} (m : M reader A) (s : reader) : Prop :=
  match m s with
  | Ok (_, s') => r_mem s' = r_mem s ∧ (r_pos s ≤ r_pos s')%nat
  | Err f => f ≠ Diverge
  end.

Definition steady {A} (m : M reader A) : Prop := ∀ s, steady_at m s.

Lemma steady_ret {A} (a : A) : steady (mret a).
Proof. intros s. unfold steady_at. simpl. split; [done | lia]. Qed.

Lemma steady_at_bind {A B} (m : M reader A) (k : A → M reader B) s :
  steady_at m s →
  (∀ a s', m s = Ok (a, s') → r_mem s' = r_mem s → (r_pos s ≤ r_pos s')%nat →
     steady_at (k a) s') →
  steady_at (m ≫= k) s.
Proof.
  unfold steady_at. intros Hm Hk. unfold mbind, M_bind.
  destruct (m s) as [[a s1] | f]; [| done]. destruct Hm as [Hm1 Hm2].
  specialize (Hk a s1 eq_refl Hm1 Hm2).
  destruct (k a s1) as [[b s2] | f]; [| done]. destruct Hk. split; [congruence | lia].
Qed.

Lemma steady_bind {A B} (m : M reader A) (k : A → M reader B) :
  steady m → (∀ a, steady (k a)) → steady (m ≫= k).
Proof. intros Hm Hk s. apply steady_at_bind; [done |]. intros. apply Hk. Qed.

Lemma steady_fail {A} f : f ≠ Diverge → steady (fail (A:=A) f).
Proof. by intros Hf s. Qed.

Lemma steady_peek k : steady (peek k).
Proof. intros s. unfold steady_at, peek. destruct (_ !! _); [by split | done]. Qed.

Lemma steady_advance n : steady (advance n).
Proof. intros s. unfold steady_at. simpl. split; [done | lia]. Qed.

Lemma steady_gets {A} (f : reader → A) : steady (gets f).
Proof. by intros s. Qed.

Lemma steady_malloc : steady malloc.
Proof. intros [mem pos h]. unfold steady_at, malloc. simpl. by destruct h. Qed.

Lemma steady_read_block n : steady (read_block n).
Proof. intros s. unfold steady_at, read_block. by case_decide. Qed.

Lemma steady_decodeBuf : steady MQTTPacket_decodeBuf.
Proof.
  intros s. unfold steady_at. by destruct (decodeBuf_bounds s) as [-> | (l & v & -> & _)].
Qed.

#[export] Hint Resolve steady_ret steady_fail steady_peek steady_advance steady_gets
  steady_malloc steady_read_block steady_decodeBuf : paho.

(** Steadiness of straight-line code and of its branches. *)
Ltac solve_steady :=
  repeat first
    [ solve [auto with paho]
    | apply steady_bind; [| intros ?]
    | progress cbv zeta
    | case_match ].

Lemma steady_readChar : steady readChar.
Proof. unfold readChar. solve_steady. Qed.
Lemma steady_readInt : steady readInt.
Proof. unfold readInt. solve_steady. Qed.
Lemma steady_readInt4 : steady readInt4.
Proof. unfold readInt4. solve_steady. Qed.
#[export] Hint Resolve steady_readChar steady_readInt steady_readInt4 : paho.

Lemma steady_readUTFlen e : steady (readUTFlen e).
Proof. unfold readUTFlen. solve_steady. Qed.
Lemma steady_MQTTLenStringRead e : steady (MQTTLenStringRead e).
Proof. unfold MQTTLenStringRead. solve_steady. Qed.
Lemma steady_lenstring_copy s : steady (lenstring_copy s).
Proof. unfold lenstring_copy. solve_steady. Qed.
#[export] Hint Resolve steady_readUTFlen steady_MQTTLenStringRead steady_lenstring_copy : paho.

(** A reader that starts with a byte moves the pointer past a byte of the
    block. *)
Lemma readChar_bind_moves {A} (k : Z → M reader A) s a s' :
  (∀ c, steady (k c)) → (readChar ≫= k) s = Ok (a, s') →
  (r_pos s < length (r_mem s))%nat ∧ r_mem s' = r_mem s ∧ (r_pos s < r_pos s')%nat.
Proof.
  intros Hk Hr. apply bind_inv in Hr as (c & s1 & H1 & H2).
  unfold readChar in H1. apply bind_inv in H1 as (c' & s2 & Hp & H1).
  unfold peek in Hp. destruct (_ !! _) as [x |] eqn:E; [| done]. simplify_eq.
  apply lookup_lt_Some in E. revert H1. mrun. intros [= <- <-].
  specialize (Hk c' (Reader (r_mem s2) (r_pos s2 + 1) (r_heap s2))).
  unfold steady_at in Hk. rewrite H2 in Hk. simpl in Hk. destruct Hk. split_and!; [lia | done | lia].
Qed.

Lemma decodeBuf_in_block s r :
  MQTTPacket_decodeBuf s = Ok r → (r_pos s < length (r_mem s))%nat.
Proof.
  unfold MQTTPacket_decodeBuf, MQTTPacket_VBIdecode. cbn [VBIdecode_loop].
  rewrite decide_False by done. unfold bufchar, readChar, peek.
  destruct (r_mem s !! (r_pos s + 0)%nat) as [c |] eqn:E.
  - intros _. apply lookup_lt_Some in E. lia.
  - mrun. by rewrite E.
Qed.
