(* ===== verification/LinkedList.v ===== *)
(** * Doubly linked lists (src/src/LinkedList.c, src/src/LinkedList.h)

    The list of the library at the level of its pointers: the elements live in
    a map from addresses to [ListElement]s, the structure [List] holds the
    pointers to the first, last and current element.  Following a null or
    dangling pointer is a fault.  The second part gives the list as a sequence
    with a cursor, [alist], its operations, and the proof that the pointer
    code implements them. *)
From S2P Require Import Prelude Buffers.
Local Open Scope Z_scope.

(** ** The data *)
Definition ptr : Type := option positive.

Record ListElement := mkElement { prev : ptr; next : ptr; content : ptr }.

Record List := mkList {
  first : ptr;
  last : ptr;
  current : ptr;
  list_count : Z;
  list_size : Z;
}.

(** The elements allocated, the outcomes of [malloc] to come, and the contents
    given to [free], in order. *)
Record lheap := mkLHeap {
  elems : gmap positive ListElement;
  l_mallocs : list bool;
  freed : list positive;
}.

#[export] Instance lheap_heap : HasHeap lheap := {
  heap_of := l_mallocs;
  set_heap h s := mkLHeap (elems s) h (freed s);
}.

(** ** Memory *)
Definition load (p : ptr) : M lheap ListElement := λ s,
  match p with
  | None => Err NullDeref
  | Some a => match elems s !! a with Some e => Ok (e, s) | None => Err OutOfBounds end
  end.

Definition store (p : ptr) (e : ListElement) : M lheap unit := λ s,
  match p with
  | None => Err NullDeref
  | Some a =>
    match elems s !! a with
    | Some _ => Ok (tt, mkLHeap (<[a := e]> (elems s)) (l_mallocs s) (freed s))
    | None => Err OutOfBounds
    end
  end.

(** [malloc(sizeof(ListElement))]; the fields are written by the caller. *)
Definition new_element (e : ListElement) : M lheap ptr := λ s,
  match malloc s with
  | Ok (true, s) =>
    let a := fresh (dom (elems s)) in
    Ok (Some a, mkLHeap (<[a := e]> (elems s)) (l_mallocs s) (freed s))
  | Ok (false, s) => Ok (None, s)
  | Err f => Err f
  end.

Definition free_element (p : ptr) : M lheap unit := λ s,
  match p with
  | None => Ok (tt, s)
  | Some a =>
    match elems s !! a with
    | Some _ => Ok (tt, mkLHeap (delete a (elems s)) (l_mallocs s) (freed s))
    | None => Err OutOfBounds
    end
  end.

Definition free_content (p : ptr) : M lheap unit := λ s,
  match p with
  | None => Ok (tt, s)
  | Some a => Ok (tt, mkLHeap (elems s) (l_mallocs s) (freed s ++ [a]))
  end.

Definition set_prev (p : ptr) (q : ptr) : M lheap unit :=
  e ← load p; store p (mkElement q (next e) (content e)).
Definition set_next (p : ptr) (q : ptr) : M lheap unit :=
  e ← load p; store p (mkElement (prev e) q (content e)).

(** ** Operations *)
Definition ListZero : List := mkList None None None 0 0.

Definition ListInitialize : M lheap (option List) :=
  ok ← malloc;
  mret (if ok : bool then Some ListZero else None).

Definition ListAppendNoMalloc (aList : List) (aContent : ptr) (newel : ptr) (size : Z)
  : M lheap List :=
  _ ← store newel (mkElement (last aList) None aContent);
  fst ← (if decide (first aList = None) then mret newel
         else _ ← set_next (last aList) newel; mret (first aList) : M lheap ptr);
  mret (mkList fst newel (current aList) (list_count aList + 1) (u64 (list_size aList + size))).

(** A block that was allocated and not written yet. *)
Definition raw_element : ListElement := mkElement None None None.

Definition ListAppend (aList : List) (aContent : ptr) (size : Z) : M lheap (ptr * List) :=
  newel ← new_element raw_element;
  match newel : ptr with
  | Some _ => l ← ListAppendNoMalloc aList aContent newel size; mret (newel, l)
  | None => mret (None, aList)
  end.

Definition ListInsert (aList : List) (aContent : ptr) (size : Z) (index : ptr)
  : M lheap (ptr * List) :=
  newel ← new_element raw_element;
  match newel : ptr with
  | None => mret (None, aList)
  | Some _ =>
    if decide (index = None) then
      l ← ListAppendNoMalloc aList aContent newel size; mret (newel, l)
    else
      e ← load index;
      _ ← store newel (mkElement (prev e) index aContent);
      _ ← set_prev index newel;
      fst ← (if decide (prev e ≠ None)
             then _ ← set_next (prev e) newel; mret (first aList)
             else mret newel : M lheap ptr);
      mret (newel, mkList fst (last aList) (current aList) (list_count aList + 1)
                     (u64 (list_size aList + size)))
  end.

Definition ListNextElement (aList : List) (pos : ptr) : M lheap ptr :=
  match pos with
  | None => mret (first aList)
  | Some _ => e ← load pos; mret (next e)
  end.

Definition ListPrevElement (aList : List) (pos : ptr) : M lheap ptr :=
  match pos with
  | None => mret (last aList)
  | Some _ => e ← load pos; mret (prev e)
  end.

(** The search of [ListFindItem], from the position [pos] on.  [matches] is the
    comparison of an element's content with the one looked for, by the
    callback or of the pointers. *)
Fixpoint find_loop (fuel : nat) (matches : ptr → bool) (aList : List) (pos : ptr)
  : M lheap ptr :=
  match fuel with
  | O => fail Diverge
  | S fuel =>
    pos ← ListNextElement aList pos;
    match pos : ptr with
    | None => mret None
    | Some _ =>
      e ← load pos;
      if matches (content e) then mret pos else find_loop fuel matches aList pos
    end
  end.

Definition set_current (aList : List) (p : ptr) : List :=
  mkList (first aList) (last aList) p (list_count aList) (list_size aList).

(** A list of [n] elements takes at most [n + 1] steps. *)
Definition ListFindItem (aList : List) (matches : ptr → bool) : M lheap (ptr * List) :=
  hit ← (match current aList with
         | None => mret false
         | Some _ => e ← load (current aList); mret (matches (content e))
         end : M lheap bool);
  if hit : bool then mret (current aList, aList) else
  n ← gets (λ s, size (elems s));
  rc ← find_loop (S n) matches aList None;
  mret (rc, match rc : ptr with Some _ => set_current aList rc | None => aList end).

(** Comparison of content pointers: the callback is null. *)
Definition same_content (c : ptr) : ptr → bool := λ c', bool_decide (c' = c).

Definition ListFind (aList : List) (c : ptr) : M lheap (ptr * List) :=
  ListFindItem aList (same_content c).

Definition ListUnlink (aList : List) (matches : ptr → bool) (freeContent : bool)
  : M lheap (bool * List) :=
  let saved := current aList in
  r ← ListFindItem aList matches;
  let '(found, aList) := r : ptr * List in
  match found with
  | None => mret (false, aList)
  | Some _ =>
    e ← load (current aList);
    fst ← (if decide (prev e = None) then mret (next e)
           else _ ← set_next (prev e) (next e); mret (first aList) : M lheap ptr);
    lst ← (if decide (next e = None) then mret (prev e)
           else _ ← set_prev (next e) (prev e); mret (last aList) : M lheap ptr);
    _ ← (if freeContent then free_content (content e) else mret tt);
    _ ← free_element (current aList);
    mret (true, mkList fst lst (if decide (saved = current aList) then next e else saved)
                  (list_count aList - 1) (list_size aList))
  end.

Definition ListDetach (aList : List) (c : ptr) := ListUnlink aList (same_content c) false.
Definition ListRemove (aList : List) (c : ptr) := ListUnlink aList (same_content c) true.
Definition ListDetachItem (aList : List) (matches : ptr → bool) :=
  ListUnlink aList matches false.
Definition ListRemoveItem (aList : List) (matches : ptr → bool) :=
  ListUnlink aList matches true.

Definition ListDetachHead (aList : List) : M lheap (ptr * List) :=
  if decide (0 < list_count aList) then
    let fst := first aList in
    e ← load fst;
    let cur := if decide (current aList = fst) then next e else current aList in
    let lst := if decide (last aList = fst) then None else last aList in
    _ ← (match next e with
         | None => mret tt
         | Some _ => set_prev (next e) None
         end : M lheap unit);
    _ ← free_element fst;
    mret (content e, mkList (next e) lst cur (list_count aList - 1) (list_size aList))
  else mret (None, aList).

Definition ListRemoveHead (aList : List) : M lheap (Z * List) :=
  r ← ListDetachHead aList;
  let '(c, aList) := r : ptr * List in
  _ ← free_content c;
  mret (0, aList).

Definition ListPopTail (aList : List) : M lheap (ptr * List) :=
  if decide (0 < list_count aList) then
    let lst := last aList in
    e ← load lst;
    let cur := if decide (current aList = lst) then prev e else current aList in
    let fst := if decide (first aList = lst) then None else first aList in
    _ ← (match prev e with
         | None => mret tt
         | Some _ => set_next (prev e) None
         end : M lheap unit);
    _ ← free_element lst;
    mret (content e, mkList fst (prev e) cur (list_count aList - 1) (list_size aList))
  else mret (None, aList).

(** The [while] of [ListEmpty] and [ListFreeNoContent]. *)
Fixpoint empty_loop (fuel : nat) (freeContent : bool) (fst : ptr) : M lheap unit :=
  match fst with
  | None => mret tt
  | Some _ =>
    match fuel with
    | O => fail Diverge
    | S fuel =>
      e ← load fst;
      _ ← (if freeContent then free_content (content e) else mret tt);
      _ ← free_element fst;
      empty_loop fuel freeContent (next e)
    end
  end.

Definition ListEmpty (aList : List) : M lheap List :=
  n ← gets (λ s, size (elems s));
  _ ← empty_loop n true (first aList);
  mret ListZero.

Definition ListFree (aList : List) : M lheap unit :=
  _ ← ListEmpty aList; mret tt.

Definition ListFreeNoContent (aList : List) : M lheap unit :=
  n ← gets (λ s, size (elems s));
  empty_loop n false (first aList).

(** ** The sequence with a cursor *)
Record alist (A : Type) := AList { items : list A; cursor : option nat }.
Arguments AList {_} _ _.
Arguments items {_} _.
Arguments cursor {_} _.

Section Alist.
Context {A : Type}.
Implicit Types (l : alist A) (p : A → bool).

Definition al_nil : alist A := AList [] None.

Definition al_append (x : A) l : alist A := AList (items l ++ [x]) (cursor l).

(** Insertion before the index [k]. *)
Definition al_insert (k : nat) (x : A) l : alist A :=
  AList (take k (items l) ++ x :: drop k (items l))
    ((λ j, if decide (k ≤ j)%nat then S j else j) <$> cursor l).

(** The index of an element that matches: the cursor's, if it matches, or the
    first one; it becomes the cursor. *)
Definition al_find p l : option nat * alist A :=
  match k ← cursor l; x ← items l !! k; if p x then Some k else None with
  | Some k => (Some k, l)
  | None =>
    match list_find p (items l) with
    | Some (k, _) => (Some k, AList (items l) (Some k))
    | None => (None, l)
    end
  end.

(** Removal of the index [k]; the cursor moves to the next element when it was
    there. *)
Definition al_delete (k : nat) l : alist A :=
  AList (delete k (items l))
    (j ← cursor l;
     if decide (j < k)%nat then Some j
     else if decide (j = k) then if decide (S k < length (items l))%nat then Some k else None
     else Some (pred j)).

(** The element removed, if one matches. *)
Definition al_unlink p l : option A * alist A :=
  match fst (al_find p l) with
  | Some k => (items l !! k, al_delete k l)
  | None => (None, l)
  end.

Definition al_detach_head l : option A * alist A := (items l !! 0%nat, al_delete 0 l).

(** Removal of the last element; the cursor moves to the one before. *)
Definition al_pop_tail l : option A * alist A :=
  let k := pred (length (items l)) in
  (items l !! k,
   AList (take k (items l))
     (j ← cursor l; if decide (j = k) then match k with O => None | S k => Some k end
                    else Some j)).
End Alist.

(** ** The representation

    [rep s L ids l]: in the heap [s] the structure [L] is a well linked list
    of the elements at the addresses [ids], with the contents and the cursor
    of [l]. *)
Definition prev_id (ids : list positive) (i : nat) : ptr :=
  match i with O => None | S j => ids !! j end.

Record rep (s : lheap) (L : List) (ids : list positive) (l : alist ptr) : Prop := {
  rep_length : length ids = length (items l);
  rep_nodup : NoDup ids;
  rep_elems i a c : ids !! i = Some a → items l !! i = Some c →
    elems s !! a = Some (mkElement (prev_id ids i) (ids !! S i) c);
  rep_first : first L = ids !! 0%nat;
  rep_last : last L = prev_id ids (length ids);
  rep_current : current L = (cursor l ≫= λ k, ids !! k);
  rep_cursor k : cursor l = Some k → (k < length ids)%nat;
  rep_count : list_count L = Z.of_nat (length ids);
}.

(** From a list of the elements [ids] to one of [ids']: what is no longer in
    the list is freed, what is new was not allocated before, and the elements
    of other lists are left alone. *)
Definition frame (ids ids' : list positive) (s s' : lheap) : Prop :=
  (∀ a, a ∉ ids' → elems s' !! a = if decide (a ∈ ids) then None else elems s !! a) ∧
  (∀ a, a ∈ ids' → a ∈ ids ∨ elems s !! a = None).

Lemma frame_refl ids s s' : elems s' = elems s → frame ids ids s s'.
Proof.
  unfold frame. intros ->. split; [| by left]. intros a Ha. by rewrite decide_False.
Qed.

Lemma rep_nil s : rep s ListZero [] al_nil.
Proof. constructor; (done || by constructor). Qed.

Section Rep.
Context (s : lheap) (L : List) (ids : list positive) (l : alist ptr).
Context (HR : rep s L ids l).

Lemma rep_lookup i a : ids !! i = Some a → ∃ c, items l !! i = Some c ∧
  elems s !! a = Some (mkElement (prev_id ids i) (ids !! S i) c).
Proof.
  intros Hi. destruct (lookup_lt_is_Some_2 (items l) i) as [c Hc].
  { rewrite <- (rep_length _ _ _ _ HR). by eapply lookup_lt_Some. }
  exists c. split; [done | by eapply rep_elems].
Qed.

Lemma rep_load i a c : ids !! i = Some a → items l !! i = Some c →
  load (Some a) s = Ok (mkElement (prev_id ids i) (ids !! S i) c, s).
Proof. intros Hi Hc. unfold load. by rewrite (rep_elems _ _ _ _ HR i a c Hi Hc). Qed.

Lemma rep_id_eq i j a : ids !! i = Some a → ids !! j = Some a → i = j.
Proof. intros. eapply NoDup_lookup; [exact (rep_nodup _ _ _ _ HR) | done | done]. Qed.

Lemma rep_address i c : items l !! i = Some c → ∃ a, ids !! i = Some a.
Proof.
  intros Hc. apply lookup_lt_is_Some_2. rewrite (rep_length _ _ _ _ HR).
  by eapply lookup_lt_Some.
Qed.

Lemma fresh_not_id : fresh (dom (elems s)) ∉ ids.
Proof.
  intros Hin. apply list_elem_of_lookup in Hin as [i Hi].
  destruct (rep_lookup i _ Hi) as (c & _ & He).
  apply (is_fresh (dom (elems s))). apply elem_of_dom. eauto.
Qed.

(** All elements of the list are in the heap. *)
Lemma rep_size : (length ids ≤ size (elems s))%nat.
Proof.
  rewrite <- (size_list_to_set (C:=gset positive) ids) by exact (rep_nodup _ _ _ _ HR).
  rewrite <- (size_dom (D:=gset positive)). apply subseteq_size. intros a Ha.
  apply elem_of_list_to_set, list_elem_of_lookup in Ha as [i Hi].
  destruct (rep_lookup i a Hi) as (c & _ & He). apply elem_of_dom. eauto.
Qed.
End Rep.

(** ** Iteration and search *)
Lemma ListNextElement_rep s L ids l k :
  rep s L ids l → (k < length ids)%nat →
  ListNextElement L (ids !! k) s = Ok (ids !! S k, s).
Proof.
  intros HR Hk. destruct (lookup_lt_is_Some_2 ids k Hk) as [a Ha].
  destruct (rep_lookup _ _ _ _ HR k a Ha) as (c & Hc & _). rewrite Ha.
  unfold ListNextElement. by rewrite (bind_ok _ _ _ _ _ (rep_load _ _ _ _ HR k a c Ha Hc)).
Qed.

(** The search from the index [k] on. *)
Lemma find_loop_rep s L ids l matches fuel k :
  rep s L ids l → (k ≤ length ids)%nat → (length ids - k < fuel)%nat →
  find_loop fuel matches L (prev_id ids k) s =
  Ok ((r ← list_find matches (drop k (items l)); ids !! (k + fst r)%nat), s).
Proof.
  intros HR. revert k. induction fuel as [| fuel IH]; intros k Hk Hf; [lia |]. cbn [find_loop].
  assert (ListNextElement L (prev_id ids k) s = Ok (ids !! k, s)) as Hn.
  { destruct k as [| k]; [cbn; by rewrite (rep_first _ _ _ _ HR) |].
    by apply (ListNextElement_rep _ _ _ l); [| lia]. }
  rewrite (bind_ok _ _ _ _ _ Hn). destruct (ids !! k) as [a |] eqn:Ha.
  - destruct (rep_lookup _ _ _ _ HR k a Ha) as (c & Hc & _).
    rewrite (bind_ok _ _ _ _ _ (rep_load _ _ _ _ HR k a c Ha Hc)). cbn [content].
    rewrite (drop_S _ _ _ Hc). cbn [list_find]. destruct (decide (matches c)) as [Hm | Hm].
    + rewrite Is_true_true in Hm. rewrite Hm. cbn. by rewrite Nat.add_0_r, Ha.
    + rewrite Is_true_true, not_true_iff_false in Hm. rewrite Hm.
      apply lookup_lt_Some in Ha as Hlt.
      change (Some a) with (Some a : ptr). rewrite <- Ha.
      change (ids !! k) with (prev_id ids (S k)). rewrite IH by lia.
      destruct (list_find matches (drop (S k) (items l))) as [[j x] |]; cbn; [| done].
      by rewrite <- Nat.add_succ_comm.
  - apply lookup_ge_None in Ha. rewrite drop_ge by (rewrite <- (rep_length _ _ _ _ HR); lia).
    done.
Qed.

(** [ListFindItem] finds what [al_find] finds, and the list stays. *)
Lemma ListFindItem_rep s L ids l matches :
  rep s L ids l →
  ∃ L', ListFindItem L matches s = Ok (fst (al_find matches l) ≫= λ k, ids !! k, L', s) ∧
    rep s L' ids (snd (al_find matches l)) ∧
    (∀ k, fst (al_find matches l) = Some k → (k < length ids)%nat ∧
       cursor (snd (al_find matches l)) = Some k ∧ ∃ c, items l !! k = Some c ∧ matches c = true) ∧
    items (snd (al_find matches l)) = items l.
Proof.
  intros HR. unfold ListFindItem.
  set (hit := bool_decide (is_Some (k ← cursor l; x ← items l !! k;
                            if matches x then Some k else None))).
  assert ((match current L with
           | None => mret false
           | Some _ => e ← load (current L); mret (matches (content e))
           end : M lheap bool) s = Ok (hit, s)) as Hhit.
  { unfold hit. rewrite (rep_current _ _ _ _ HR). destruct (cursor l) as [k |] eqn:Hcur; [| done]. cbn.
    pose proof (rep_cursor _ _ _ _ HR k Hcur) as Hk.
    destruct (lookup_lt_is_Some_2 ids k Hk) as [a Ha]. rewrite Ha.
    destruct (rep_lookup _ _ _ _ HR k a Ha) as (c & Hc & _).
    rewrite (bind_ok _ _ _ _ _ (rep_load _ _ _ _ HR k a c Ha Hc)), Hc. cbn.
    destruct (matches c); by rewrite ?bool_decide_true, ?bool_decide_false by (by eauto || by intros []). }
  rewrite (bind_ok _ _ _ _ _ Hhit). unfold al_find, hit.
  destruct (k ← cursor l; x ← items l !! k; if matches x then Some k else None) as [k |] eqn:Ek.
  - destruct (cursor l) as [k' |] eqn:Hcur; [| done]. cbn in Ek.
    destruct (items l !! k') as [c |] eqn:Hc; [| done]. cbn in Ek.
    destruct (matches c) eqn:Hm; [| done]. injection Ek as ->. cbn.
    exists L. rewrite (rep_current _ _ _ _ HR), Hcur. cbn. split_and!; [done | done | | done].
    intros k' [= <-]. split_and!; [by apply (rep_cursor _ _ _ _ HR) | done | eauto].
  - cbn. rewrite gets_bind.
    pose proof (find_loop_rep s L ids l matches (S (size (elems s))) 0 HR) as Hloop.
    cbn [prev_id] in Hloop. rewrite drop_0 in Hloop. rewrite (bind_ok _ _ _ _ _ (Hloop ltac:(lia)
      ltac:(pose proof (rep_size _ _ _ _ HR); lia))).
    destruct (list_find matches (items l)) as [[k c] |] eqn:Ef; cbn.
    + apply list_find_Some in Ef as (Hc & Hm & _).
      destruct (rep_address _ _ _ _ HR k c Hc) as [a Ha]. rewrite Ha.
      eexists. split_and!; [done | | | done].
      * destruct HR. constructor; try done; cbn.
        intros j [= <-]. by eapply lookup_lt_Some.
      * intros j [= <-]. split_and!; [by eapply lookup_lt_Some | done |].
        exists c. split; [done | by apply Is_true_true].
    + eexists. split_and!; [done | done | done | done].
Qed.

(** ** Relinking *)
Definition set_next_of (q : ptr) (e : ListElement) : ListElement := mkElement (prev e) q (content e).
Definition set_prev_of (q : ptr) (e : ListElement) : ListElement := mkElement q (next e) (content e).

(** The element at [p], and no other, becomes [f] of what it was. *)
Definition updates (p : ptr) (f : ListElement → ListElement) (s s' : lheap) : Prop :=
  l_mallocs s' = l_mallocs s ∧ freed s' = freed s ∧
  ∀ b, elems s' !! b = (if decide (p = Some b) then f else id) <$> elems s !! b.

Lemma updates_none f s : updates None f s s.
Proof. split_and!; [done | done |]. intros b. rewrite decide_False by done. by rewrite option_fmap_id. Qed.

Lemma update_run f a e s :
  elems s !! a = Some e →
  ∃ s', (e ← load (Some a); store (Some a) (f e)) s = Ok (tt, s') ∧ updates (Some a) f s s'.
Proof.
  intros He. eexists. split.
  { unfold load, store. mrun. by rewrite He; simpl; rewrite He. }
  split_and!; [done | done |]. intros b. cbn. case_decide as H.
  - injection H as ->. by rewrite lookup_insert_eq, He.
  - rewrite lookup_insert_ne by congruence. by rewrite option_fmap_id.
Qed.

Lemma set_next_run q a e s :
  elems s !! a = Some e →
  ∃ s', set_next (Some a) q s = Ok (tt, s') ∧ updates (Some a) (set_next_of q) s s'.
Proof. apply (update_run (set_next_of q)). Qed.

Lemma set_prev_run q a e s :
  elems s !! a = Some e →
  ∃ s', set_prev (Some a) q s = Ok (tt, s') ∧ updates (Some a) (set_prev_of q) s s'.
Proof. apply (update_run (set_prev_of q)). Qed.

(** The index in a list of an index after the removal of [k]. *)
Definition skip (k i : nat) : nat := if decide (i < k)%nat then i else S i.

Lemma lookup_delete_skip {A} (l : list A) k i : delete k l !! i = l !! skip k i.
Proof.
  unfold skip. case_decide.
  - by apply list_lookup_delete_lt.
  - apply list_lookup_delete_ge. lia.
Qed.

Lemma skip_ne k i : skip k i ≠ k.
Proof. unfold skip. case_decide; lia. Qed.

Lemma skip_inv k m : m ≠ k → ∃ i, skip k i = m.
Proof.
  intros Hm. unfold skip. destruct (decide (m < k)%nat).
  - exists m. by rewrite decide_True.
  - exists (pred m). rewrite decide_False by lia. lia.
Qed.

(** The links around the removed index [k]. *)
Lemma rep_delete s s' L fst lst cur cnt sz ids l k :
  rep s L ids l → (k < length ids)%nat →
  (∀ m a c, m ≠ k → ids !! m = Some a → items l !! m = Some c →
     elems s' !! a = Some (mkElement (if decide (m = S k) then prev_id ids k else prev_id ids m)
                             (if decide (S m = k) then ids !! S k else ids !! S m) c)) →
  fst = (if decide (k = 0)%nat then ids !! 1%nat else first L) →
  lst = (if decide (S k = length ids) then prev_id ids k else last L) →
  cnt = list_count L - 1 →
  ∀ cursor', cur = (cursor' ≫= λ j, delete k ids !! j) →
  (∀ j, cursor' = Some j → (j < pred (length ids))%nat) →
  rep s' (mkList fst lst cur cnt sz) (delete k ids) (AList (delete k (items l)) cursor').
Proof.
  intros HR Hk Hel Hf Hl Hc cursor' Hcur Hcb. pose proof (rep_length _ _ _ _ HR) as Hlen.
  assert (length (delete k ids) = pred (length ids)) as Hdel
    by (rewrite length_delete by (by apply lookup_lt_is_Some_2); lia).
  constructor; cbn [items cursor first last current list_count].
  - rewrite Hdel. rewrite length_delete by (apply lookup_lt_is_Some_2; lia). lia.
  - eapply sublist_NoDup; [| apply sublist_delete]. exact (rep_nodup _ _ _ _ HR).
  - intros i a c Ha Hcc. rewrite lookup_delete_skip in Ha; rewrite lookup_delete_skip in Hcc.
    pose proof (skip_ne k i) as Hne. clear Hf Hl Hcur.
    rewrite (Hel _ a c Hne Ha Hcc). f_equal. f_equal.
    + destruct i as [| i]; cbn [prev_id]; [| rewrite lookup_delete_skip];
        unfold skip in *; repeat case_decide; try lia; try done.
      * by destruct k; [| lia].
      * by replace k with (S i) by lia.
    + rewrite lookup_delete_skip. unfold skip in *. repeat case_decide; try lia; try done.
      all: f_equal; lia.
  - clear Hl. rewrite Hf, lookup_delete_skip. unfold skip. repeat case_decide; try lia; try done.
    by rewrite (rep_first _ _ _ _ HR).
  - clear Hf. rewrite Hl, Hdel. destruct (length ids) as [| n] eqn:En; [lia |]. cbn [pred].
    case_decide as Hlast.
    + injection Hlast as ->. destruct n as [| n]; [done |]. cbn [prev_id].
      rewrite lookup_delete_skip. unfold skip. by rewrite decide_True by lia.
    + rewrite (rep_last _ _ _ _ HR), En. cbn [prev_id]. destruct n as [| n]; [lia |]. cbn [prev_id].
      rewrite lookup_delete_skip. unfold skip. by rewrite decide_False by lia.
  - done.
  - intros j Hj. rewrite Hdel. by apply Hcb.
  - rewrite Hc, (rep_count _ _ _ _ HR), Hdel. lia.
Qed.

Lemma prev_id_iff s L ids l k m b :
  rep s L ids l → ids !! m = Some b → prev_id ids k = Some b ↔ S m = k.
Proof.
  intros HR Hb. split.
  - destruct k as [| j]; [done |]. cbn. intros Hj. f_equal. by eapply rep_id_eq.
  - by intros <-.
Qed.

(** The heap after the neighbours of [k] were linked and [k] was freed. *)
Lemma unlinked_elems s s1 s2 s3 L ids l k a :
  rep s L ids l → ids !! k = Some a →
  updates (prev_id ids k) (set_next_of (ids !! S k)) s s1 →
  updates (ids !! S k) (set_prev_of (prev_id ids k)) s1 s2 →
  elems s3 = delete a (elems s2) →
  ∀ m b c, m ≠ k → ids !! m = Some b → items l !! m = Some c →
    elems s3 !! b = Some (mkElement (if decide (m = S k) then prev_id ids k else prev_id ids m)
                            (if decide (S m = k) then ids !! S k else ids !! S m) c).
Proof.
  intros HR Ha (_ & _ & H1) (_ & _ & H2) H3 m b c Hm Hb Hc.
  assert (a ≠ b) as Hab by (intros <-; apply Hm; by eapply rep_id_eq).
  rewrite H3, lookup_delete_ne, H2, H1 by done.
  rewrite (rep_elems _ _ _ _ HR m b c Hb Hc).
  pose proof (prev_id_iff _ _ _ _ k m b HR Hb) as Hp.
  assert (ids !! S k = Some b ↔ m = S k) as Hn.
  { split; [intros; by eapply rep_id_eq | by intros <-]. }
  repeat case_decide; try done; exfalso; tauto.
Qed.

(** Nothing else was changed. *)
Lemma unlinked_frame s s1 s2 s3 L ids l k a :
  rep s L ids l → ids !! k = Some a →
  updates (prev_id ids k) (set_next_of (ids !! S k)) s s1 →
  updates (ids !! S k) (set_prev_of (prev_id ids k)) s1 s2 →
  elems s3 = delete a (elems s2) → frame ids (delete k ids) s s3.
Proof.
  intros HR Ha (_ & _ & H1) (_ & _ & H2) H3. split.
  - intros b Hb. rewrite H3. destruct (decide (b = a)) as [-> | Hne].
    { rewrite lookup_delete_eq, decide_True; [done |]. apply list_elem_of_lookup. eauto. }
    assert (b ∉ ids) as Hni.
    { intros Hin. apply Hb. apply list_elem_of_lookup in Hin as [m Hm].
      destruct (skip_inv k m) as [i Hi]; [by intros ->; simplify_eq |].
      apply list_elem_of_lookup. exists i. by rewrite lookup_delete_skip, Hi. }
    assert (∀ i, ids !! i ≠ Some b) as Hnl.
    { intros i Hi. apply Hni, list_elem_of_lookup. eauto. }
    assert (prev_id ids k ≠ Some b) by (destruct k as [| j]; [done | apply Hnl]).
    rewrite lookup_delete_ne, H2, H1 by done.
    rewrite (decide_False (P := b ∈ ids)) by done.
    rewrite !decide_False by (done || apply Hnl). by rewrite !option_fmap_id.
  - intros b Hb. left. by eapply list_elem_of_delete_inv.
Qed.

(** The removal of the element at the index [k]: the two links and the free. *)
Lemma relink_run s L ids l k a c :
  rep s L ids l → ids !! k = Some a → items l !! k = Some c →
  ∃ s1 s2 s3,
    (if decide (prev_id ids k = None) then mret (ids !! S k)
     else _ ← set_next (prev_id ids k) (ids !! S k); mret (first L) : M lheap ptr) s
      = Ok (if decide (k = 0)%nat then ids !! 1%nat else first L, s1) ∧
    (if decide (ids !! S k = None) then mret (prev_id ids k)
     else _ ← set_prev (ids !! S k) (prev_id ids k); mret (last L) : M lheap ptr) s1
      = Ok (if decide (S k = length ids) then prev_id ids k else last L, s2) ∧
    free_element (Some a) s2 = Ok (tt, s3) ∧
    updates (prev_id ids k) (set_next_of (ids !! S k)) s s1 ∧
    updates (ids !! S k) (set_prev_of (prev_id ids k)) s1 s2 ∧
    elems s3 = delete a (elems s2) ∧ l_mallocs s3 = l_mallocs s ∧ freed s3 = freed s.
Proof.
  intros HR Ha Hc.
  assert (∃ s1, (if decide (prev_id ids k = None) then mret (ids !! S k)
     else _ ← set_next (prev_id ids k) (ids !! S k); mret (first L) : M lheap ptr) s
      = Ok (if decide (k = 0)%nat then ids !! 1%nat else first L, s1) ∧
    updates (prev_id ids k) (set_next_of (ids !! S k)) s s1) as (s1 & Hr1 & Hu1).
  { destruct k as [| j]; cbn [prev_id].
    - exists s. split; [done | apply updates_none].
    - apply lookup_lt_Some in Ha as Hlt.
      destruct (lookup_lt_is_Some_2 ids j ltac:(lia)) as [b Hb]. rewrite Hb.
      destruct (rep_lookup _ _ _ _ HR j b Hb) as (cb & _ & Heb).
      destruct (set_next_run (ids !! S (S j)) b _ s Heb) as (s1 & Hr & Hu).
      exists s1. split; [| done]. rewrite decide_False by done.
      by rewrite (bind_ok _ _ _ _ _ Hr). }
  assert (∃ s2, (if decide (ids !! S k = None) then mret (prev_id ids k)
     else _ ← set_prev (ids !! S k) (prev_id ids k); mret (last L) : M lheap ptr) s1
      = Ok (if decide (S k = length ids) then prev_id ids k else last L, s2) ∧
    updates (ids !! S k) (set_prev_of (prev_id ids k)) s1 s2) as (s2 & Hr2 & Hu2).
  { apply lookup_lt_Some in Ha as Hlt. destruct (ids !! S k) as [b |] eqn:Hb.
    - apply lookup_lt_Some in Hb as Hlt2. rewrite (decide_False (P := S k = length ids)) by lia.
      destruct (rep_lookup _ _ _ _ HR (S k) b Hb) as (cb & _ & Heb).
      destruct Hu1 as (_ & _ & Hu1).
      assert (∃ e, elems s1 !! b = Some e) as [e He].
      { rewrite Hu1, Heb. case_decide; eexists; done. }
      destruct (set_prev_run (prev_id ids k) b _ s1 He) as (s2 & Hr & Hu).
      exists s2. split; [| done]. rewrite decide_False by done.
      by rewrite (bind_ok _ _ _ _ _ Hr).
    - apply lookup_ge_None in Hb. rewrite (decide_True (P := S k = length ids)) by lia.
      exists s1. split; [done | apply updates_none]. }
  destruct (rep_lookup _ _ _ _ HR k a Ha) as (c' & _ & Hea).
  destruct Hu1 as (Hm1 & Hf1 & Hu1). destruct Hu2 as (Hm2 & Hf2 & Hu2).
  assert (∃ e, elems s2 !! a = Some e) as [e He].
  { rewrite Hu2, Hu1, Hea. repeat case_decide; eexists; done. }
  exists s1, s2, (mkLHeap (delete a (elems s2)) (l_mallocs s2) (freed s2)).
  split_and!; try done.
  - unfold free_element. by rewrite He.
  - cbn. congruence.
  - cbn. congruence.
Qed.

(** The cursor after a removal, as a pointer. *)
Lemma cursor_delete s L ids l k a :
  rep s L ids l → ids !! k = Some a →
  (if decide (current L = Some a) then ids !! S k else current L) =
    (cursor (al_delete k l) ≫= λ j, delete k ids !! j) ∧
  (∀ j, cursor (al_delete k l) = Some j → (j < pred (length ids))%nat).
Proof.
  intros HR Ha. rewrite (rep_current _ _ _ _ HR). unfold al_delete. cbn [cursor].
  apply lookup_lt_Some in Ha as Hk. pose proof (rep_length _ _ _ _ HR) as Hlen.
  destruct (cursor l) as [j |] eqn:Hcur; cbn; [| done].
  pose proof (rep_cursor _ _ _ _ HR j Hcur) as Hj.
  destruct (lookup_lt_is_Some_2 ids j Hj) as [b Hb]. rewrite Hb.
  destruct (decide (j = k)) as [-> | Hne].
  - rewrite (decide_True (P := Some b = Some a)) by congruence.
    rewrite (decide_False (P := (k < k)%nat)) by lia.
    rewrite <- Hlen. case_decide; cbn.
    + rewrite lookup_delete_skip. unfold skip. rewrite decide_False by lia.
      split; [done |]. intros j [= <-]. lia.
    + split; [| done]. apply lookup_ge_None. lia.
  - rewrite (decide_False (P := Some b = Some a))
      by (intros [= ->]; apply Hne; by eapply rep_id_eq).
    case_decide; cbn; rewrite lookup_delete_skip; unfold skip.
    + rewrite decide_True, Hb by done. split; [done |]. intros ? [= <-]. lia.
    + rewrite decide_False by lia. replace (S (pred j)) with j by lia. rewrite Hb.
      split; [done |]. intros ? [= <-]. lia.
Qed.

(** What an operation does besides the list: the contents it frees. *)
Definition frees (ids ids' cs : list positive) (s s' : lheap) : Prop :=
  l_mallocs s' = l_mallocs s ∧ freed s' = freed s ++ cs ∧ frame ids ids' s s'.

Lemma frees_none ids s : frees ids ids [] s s.
Proof. split_and!; [done | by rewrite app_nil_r | by apply frame_refl]. Qed.

Definition content_list (x : option ptr) : list positive :=
  match x with Some (Some c) => [c] | _ => [] end.

Lemma ListUnlink_rep s L ids l matches freeContent :
  rep s L ids l →
  ∃ L' s' ids',
    ListUnlink L matches freeContent s = Ok (bool_decide (is_Some (fst (al_unlink matches l))), L', s') ∧
    rep s' L' ids' (snd (al_unlink matches l)) ∧
    frees ids ids' (if freeContent then content_list (fst (al_unlink matches l)) else []) s s'.
Proof.
  intros HR. destruct (ListFindItem_rep s L ids l matches HR) as (L1 & Hfind & HR1 & Hk & Hitems).
  unfold ListUnlink. rewrite (bind_ok _ _ _ _ _ Hfind). unfold al_unlink.
  assert (current L = (cursor l ≫= λ k, ids !! k)) as Hsaved by apply HR.
  destruct (fst (al_find matches l)) as [k |] eqn:Ek; cbn [mbind option_bind].
  - destruct (Hk k eq_refl) as (Hlt & Hcur & c & Hc & _).
    destruct (lookup_lt_is_Some_2 ids k Hlt) as [a Ha]. rewrite Ha. cbn [fst snd]. rewrite Hc.
    assert (current L1 = Some a) as Hc1 by by rewrite (rep_current _ _ _ _ HR1), Hcur; cbn.
    assert (items (snd (al_find matches l)) !! k = Some c) as Hc' by congruence.
    rewrite Hc1, (bind_ok _ _ _ _ _ (rep_load _ _ _ _ HR1 k a c Ha Hc')).
    cbn [prev next content].
    destruct (relink_run _ _ _ _ k a c HR1 Ha Hc') as
      (s1 & s2 & s3 & Hr1 & Hr2 & Hr3 & Hu1 & Hu2 & He3 & Hm3 & Hf3).
    rewrite (bind_ok _ _ _ _ _ Hr1), (bind_ok _ _ _ _ _ Hr2).
    set (cs := if freeContent then content_list (Some c) else []).
    set (s2' := mkLHeap (elems s2) (l_mallocs s2) (freed s2 ++ cs)).
    assert ((if freeContent then free_content c else mret tt) s2 = Ok (tt, s2')) as Hfree.
    { unfold s2', cs. destruct freeContent, c; cbn; rewrite ?app_nil_r; by destruct s2. }
    rewrite (bind_ok _ _ _ _ _ Hfree).
    destruct (free_element (Some a) s2') as [[[] s3'] |] eqn:Hr3'; [| exfalso].
    2: { unfold free_element in Hr3, Hr3'. cbn in Hr3'. by destruct (elems s2 !! a). }
    assert (elems s3' = elems s3 ∧ l_mallocs s3' = l_mallocs s3 ∧ freed s3' = freed s3 ++ cs)
      as (He & Hm & Hf).
    { unfold free_element in Hr3, Hr3'. cbn in Hr3'. destruct (elems s2 !! a); [| done].
      by simplify_eq. }
    rewrite (bind_ok _ _ _ _ _ Hr3').
    destruct (cursor_delete _ _ _ _ k a HR Ha) as [Hcd Hcb].
    do 2 eexists. exists (delete k ids). split_and!; [done | |].
    + unfold al_delete in *. rewrite <- Hitems. rewrite <- Hitems in Hcd, Hcb.
      eapply (rep_delete s s3' L1); try done.
      intros m b d Hm' Hb Hd. rewrite He.
      eapply unlinked_elems; done.
    + split_and!; [congruence | congruence |]. unfold frame. rewrite He.
      by eapply unlinked_frame.
  - exists L1, s, ids. split; [done |]. split.
    + cbn. unfold al_find in *. destruct (_ ≫= _); [done |].
      by destruct (list_find _ _) as [[] |].
    + destruct freeContent; apply frees_none.
Qed.

(** ** Insertion *)
Lemma lookup_insert_at {A} (l : list A) k x i :
  (k ≤ length l)%nat →
  (take k l ++ x :: drop k l) !! i =
  if decide (i < k)%nat then l !! i else if decide (i = k) then Some x else l !! pred i.
Proof.
  intros Hk. case_decide; [| case_decide].
  - rewrite lookup_app_l by (rewrite length_take; lia). by apply lookup_take_lt.
  - subst. rewrite lookup_app_r by (rewrite length_take; lia). rewrite length_take.
    by replace (k - k `min` length l)%nat with 0%nat by lia.
  - rewrite lookup_app_r by (rewrite length_take; lia). rewrite length_take.
    rewrite lookup_cons_ne_0, lookup_drop by lia. f_equal. lia.
Qed.

(** The heap with a new element [a] linked in before the index [k]. *)
Lemma rep_insert s s' L ids l k a c sz :
  rep s L ids l → (k ≤ length ids)%nat → a ∉ ids →
  elems s' !! a = Some (mkElement (prev_id ids k) (ids !! k) c) →
  (∀ m b d, ids !! m = Some b → items l !! m = Some d →
     elems s' !! b = Some (mkElement (if decide (m = k) then Some a else prev_id ids m)
                             (if decide (S m = k) then Some a else ids !! S m) d)) →
  rep s' (mkList (if decide (k = 0)%nat then Some a else first L)
            (if decide (k = length ids) then Some a else last L)
            (current L) (list_count L + 1) sz)
    (take k ids ++ a :: drop k ids) (al_insert k c l).
Proof.
  intros HR Hk Ha Hea Hel. pose proof (rep_length _ _ _ _ HR) as Hlen.
  assert (length (take k ids ++ a :: drop k ids) = S (length ids)) as Hins
    by (rewrite length_app, length_take; cbn; rewrite length_drop; lia).
  unfold al_insert. constructor; cbn [items cursor first last current list_count].
  - rewrite Hins, length_app, length_take. cbn. rewrite length_drop. lia.
  - rewrite <- Permutation_middle, take_drop. constructor; [done | exact (rep_nodup _ _ _ _ HR)].
  - intros i b d. rewrite lookup_insert_at by lia. rewrite lookup_insert_at by lia.
    intros Hb Hd.
    assert (prev_id (take k ids ++ a :: drop k ids) i =
      if decide (i ≤ k)%nat then prev_id ids i
      else if decide (i = S k) then Some a else prev_id ids (pred i)) as ->.
    { destruct i as [| i]; cbn [prev_id pred]; [done |]. rewrite lookup_insert_at by lia.
      repeat case_decide; try lia; try done. destruct i; [lia | done]. }
    rewrite (lookup_insert_at ids k a (S i)) by lia. cbn [pred].
    destruct (decide (i < k)%nat); [| destruct (decide (i = k)) as [-> |]].
    + rewrite (Hel i b d Hb Hd). rewrite decide_False, (decide_True (P := (i ≤ k)%nat)) by lia.
      do 2 f_equal. repeat case_decide; try lia; done.
    + simplify_eq. rewrite Hea. rewrite decide_True by lia. do 2 f_equal.
      by rewrite decide_False, decide_False by lia.
    + destruct i as [| i]; [lia |]. cbn [pred] in *. rewrite (Hel i b d Hb Hd).
      rewrite (decide_False (P := (S i ≤ k)%nat)) by lia. do 2 f_equal.
      * repeat case_decide; try lia; done.
      * repeat case_decide; try lia; done.
  - rewrite lookup_insert_at by lia. repeat case_decide; try lia; try done.
    by rewrite (rep_first _ _ _ _ HR).
  - rewrite Hins. cbn [prev_id]. rewrite lookup_insert_at by lia.
    repeat case_decide; try lia; try done.
    rewrite (rep_last _ _ _ _ HR). destruct (length ids); [lia | done].
  - rewrite (rep_current _ _ _ _ HR). destruct (cursor l) as [j |] eqn:Hcur; [| done]. cbn.
    pose proof (rep_cursor _ _ _ _ HR j Hcur). rewrite lookup_insert_at by lia.
    repeat case_decide; try lia; done.
  - intros j Hj. rewrite Hins. destruct (cursor l) as [j' |] eqn:Hcur; [| done]. cbn in Hj.
    pose proof (rep_cursor _ _ _ _ HR j' Hcur). simplify_eq. case_decide; lia.
  - rewrite (rep_count _ _ _ _ HR), Hins. lia.
Qed.

(** The neighbours of the new element, after both links were set. *)
Lemma inserted_elems s s0 s1 s2 L ids l k a c :
  rep s L ids l → a ∉ ids →
  elems s0 = <[a := mkElement (prev_id ids k) (ids !! k) c]> (elems s) →
  updates (ids !! k) (set_prev_of (Some a)) s0 s1 →
  updates (prev_id ids k) (set_next_of (Some a)) s1 s2 →
  elems s2 !! a = Some (mkElement (prev_id ids k) (ids !! k) c) ∧
  (∀ m b d, ids !! m = Some b → items l !! m = Some d →
     elems s2 !! b = Some (mkElement (if decide (m = k) then Some a else prev_id ids m)
                             (if decide (S m = k) then Some a else ids !! S m) d)) ∧
  (∀ b, b ∉ ids → b ≠ a → elems s2 !! b = elems s !! b).
Proof.
  intros HR Ha H0 (_ & _ & H1) (_ & _ & H2).
  assert (Hni : ∀ b i, b ∉ ids → ids !! i ≠ Some b).
  { intros b i Hb Hi. apply Hb, list_elem_of_lookup. eauto. }
  assert (Hnp : ∀ b i, b ∉ ids → prev_id ids i ≠ Some b).
  { intros b [| i] Hb; [done | by apply Hni]. }
  split_and!.
  - rewrite H2, H1, H0, lookup_insert_eq. by rewrite decide_False, decide_False by auto.
  - intros m b d Hb Hd.
    assert (b ∈ ids) as Hin by (apply list_elem_of_lookup; eauto).
    rewrite H2, H1, H0, lookup_insert_ne by congruence.
    rewrite (rep_elems _ _ _ _ HR m b d Hb Hd).
    pose proof (prev_id_iff _ _ _ _ k m b HR Hb) as Hp.
    assert (ids !! k = Some b ↔ m = k) as Hn.
    { split; [intros; by eapply rep_id_eq | by intros <-]. }
    repeat case_decide; try done; exfalso; tauto.
  - intros b Hb Hne. rewrite H2, H1, H0, lookup_insert_ne by done.
    rewrite decide_False, decide_False by auto. by rewrite !option_fmap_id.
Qed.

(** Whether the next allocation succeeds. *)
Definition alloc_ok (h : list bool) : bool := default true (head h).

Lemma new_element_run e s :
  new_element e s =
  if alloc_ok (l_mallocs s)
  then Ok (Some (fresh (dom (elems s))),
           mkLHeap (<[fresh (dom (elems s)) := e]> (elems s)) (tail (l_mallocs s)) (freed s))
  else Ok (None, mkLHeap (elems s) (tail (l_mallocs s)) (freed s)).
Proof.
  unfold new_element, malloc, alloc_ok. destruct s as [el [| [|] h] fr]; done.
Qed.

(** The links to a new element [a] that already has its own fields. *)
Lemma link_new_run s s0 L ids l k a c :
  rep s L ids l → (k ≤ length ids)%nat → a ∉ ids →
  elems s0 = <[a := mkElement (prev_id ids k) (ids !! k) c]> (elems s) →
  ∃ s1 s2,
    (match ids !! k with None => mret tt | Some _ => set_prev (ids !! k) (Some a) end
       : M lheap unit) s0 = Ok (tt, s1) ∧
    (match prev_id ids k with None => mret tt | Some _ => set_next (prev_id ids k) (Some a) end
       : M lheap unit) s1 = Ok (tt, s2) ∧
    updates (ids !! k) (set_prev_of (Some a)) s0 s1 ∧
    updates (prev_id ids k) (set_next_of (Some a)) s1 s2.
Proof.
  intros HR Hk Ha H0.
  assert (∀ b, b ∈ ids → ∃ e, elems s0 !! b = Some e) as Hel.
  { intros b Hb. apply list_elem_of_lookup in Hb as Hi. destruct Hi as [i Hi].
    destruct (rep_lookup _ _ _ _ HR i b Hi) as (d & _ & He).
    rewrite H0, lookup_insert_ne by congruence. eauto. }
  assert (∃ s1, (match ids !! k with None => mret tt | Some _ => set_prev (ids !! k) (Some a) end
       : M lheap unit) s0 = Ok (tt, s1) ∧ updates (ids !! k) (set_prev_of (Some a)) s0 s1)
    as (s1 & Hr1 & Hu1).
  { destruct (ids !! k) as [b |] eqn:Hb; [| exists s0; split; [done | apply updates_none]].
    destruct (Hel b) as [e He]; [apply list_elem_of_lookup; eauto |].
    by apply (set_prev_run _ b e). }
  assert (∃ s2, (match prev_id ids k with None => mret tt
       | Some _ => set_next (prev_id ids k) (Some a) end : M lheap unit) s1 = Ok (tt, s2) ∧
       updates (prev_id ids k) (set_next_of (Some a)) s1 s2) as (s2 & Hr2 & Hu2).
  { destruct (prev_id ids k) as [b |] eqn:Hb; [| exists s1; split; [done | apply updates_none]].
    destruct (Hel b) as [e He].
    { destruct k as [| j]; [done |]. apply list_elem_of_lookup. eauto. }
    destruct Hu1 as (_ & _ & Hu1).
    assert (∃ e', elems s1 !! b = Some e') as [e' He'].
    { rewrite Hu1, He. case_decide; eexists; done. }
    by apply (set_next_run _ b e'). }
  eauto 10.
Qed.

Definition same_memory (s s' : lheap) : Prop :=
  l_mallocs s' = tail (l_mallocs s) ∧ freed s' = freed s.

(** Insertion at the end, the new element being allocated. *)
Lemma ListAppendNoMalloc_rep s s0 L ids l a c sz :
  rep s L ids l → a ∉ ids → elems s0 = <[a := raw_element]> (elems s) →
  ∃ L' s', ListAppendNoMalloc L c (Some a) sz s0 = Ok (L', s') ∧
    rep s' L' (ids ++ [a]) (al_append c l) ∧
    l_mallocs s' = l_mallocs s0 ∧ freed s' = freed s0 ∧
    (∀ b, b ∉ ids → b ≠ a → elems s' !! b = elems s !! b).
Proof.
  intros HR Ha H0. unfold ListAppendNoMalloc.
  set (el := mkElement (prev_id ids (length ids)) (ids !! length ids) c).
  set (sa := mkLHeap (<[a := el]> (elems s)) (l_mallocs s0) (freed s0)).
  assert (ids !! length ids = None) as Hend by (apply lookup_ge_None; lia).
  assert (store (Some a) (mkElement (last L) None c) s0 = Ok (tt, sa)) as Hst.
  { unfold store. rewrite H0, lookup_insert_eq, insert_insert_eq.
    rewrite (rep_last _ _ _ _ HR). unfold sa, el. by rewrite Hend. }
  rewrite (bind_ok _ _ _ _ _ Hst).
  destruct (link_new_run s sa L ids l (length ids) a c HR (Nat.le_refl _) Ha eq_refl)
    as (s1 & s2 & Hr1 & Hr2 & Hu1 & Hu2).
  destruct (inserted_elems s sa s1 s2 L ids l (length ids) a c HR Ha eq_refl Hu1 Hu2) as (He1 & He2 & He3).
  pose proof (rep_insert s s2 L ids l (length ids) a c
    (u64 (list_size L + sz)) HR (Nat.le_refl _) Ha He1 He2) as HR'.
  rewrite take_ge, drop_ge in HR' by lia.
  replace (al_insert (length ids) c l) with (al_append c l) in HR'.
  2: { unfold al_append, al_insert. rewrite (rep_length _ _ _ _ HR), take_ge, drop_ge by lia.
       f_equal. destruct (cursor l) as [j |] eqn:Hcur; [| done]. cbn.
       pose proof (rep_cursor _ _ _ _ HR j Hcur). rewrite (rep_length _ _ _ _ HR) in *.
       by rewrite decide_False by lia. }
  rewrite Hend in Hr1. injection Hr1 as <-.
  assert ((if decide (first L = None) then mret (Some a)
           else _ ← set_next (last L) (Some a); mret (first L) : M lheap ptr) sa
    = Ok (if decide (length ids = 0)%nat then Some a else first L, s2)) as Hfst.
  { rewrite (rep_first _ _ _ _ HR), (rep_last _ _ _ _ HR). revert Hr2.
    destruct ids as [| b ids']; cbn [length lookup list_lookup prev_id].
    - by intros [= <-].
    - rewrite !decide_False by done. cbn [length] in *.
      destruct (lookup_lt_is_Some_2 (b :: ids') (length ids')) as [d Hd]; [cbn; lia |].
      rewrite Hd. intros Hr2. by rewrite (bind_ok _ _ _ _ _ Hr2). }
  rewrite (bind_ok _ _ _ _ _ Hfst). do 2 eexists. split; [done |].
  destruct Hu1 as (Hm1 & Hf1 & _). destruct Hu2 as (Hm2 & Hf2 & _).
  split_and!; [| by rewrite Hm2 | by rewrite Hf2 | done].
  by rewrite (decide_True (P := length ids = length ids)) in HR' by done.
Qed.

Lemma new_frame ids k a s s' :
  a ∉ dom (elems s) → (∀ b, b ∉ ids → b ≠ a → elems s' !! b = elems s !! b) →
  frame ids (take k ids ++ a :: drop k ids) s s'.
Proof.
  intros Ha H. assert (∀ b, b ∈ take k ids ++ a :: drop k ids ↔ b = a ∨ b ∈ ids) as Hin.
  { intros b. rewrite <- Permutation_middle, take_drop. apply elem_of_cons. }
  split; intros b; rewrite Hin; intros Hb.
  - rewrite decide_False by tauto. apply H; tauto.
  - destruct Hb as [-> | Hb]; [right | by left]. by apply not_elem_of_dom.
Qed.

Lemma rep_heap s h fr L ids l : rep s L ids l → rep (mkLHeap (elems s) h fr) L ids l.
Proof. intros [???]. by constructor. Qed.

Lemma ListAppend_rep s L ids l c sz :
  rep s L ids l →
  ∃ r L' s' ids', ListAppend L c sz s = Ok (r, L', s') ∧ same_memory s s' ∧ frame ids ids' s s' ∧
    bool_decide (is_Some r) = alloc_ok (l_mallocs s) ∧
    rep s' L' ids' (if alloc_ok (l_mallocs s) then al_append c l else l).
Proof.
  intros HR. unfold ListAppend. pose proof (new_element_run raw_element s) as Hnew.
  destruct (alloc_ok (l_mallocs s)); rewrite (bind_ok _ _ _ _ _ Hnew).
  - set (a := fresh (dom (elems s))) in *.
    destruct (ListAppendNoMalloc_rep s (mkLHeap (<[a:=raw_element]> (elems s))
      (tail (l_mallocs s)) (freed s)) L ids l a c sz HR (fresh_not_id _ _ _ _ HR) eq_refl)
      as (L' & s' & Hr & HR' & Hm & Hf & Hfr).
    rewrite (bind_ok _ _ _ _ _ Hr). do 4 eexists.
    split; [done |]. split; [by split |]. split; [| by split].
    rewrite <- (take_ge ids (length ids)) at 2 by lia. rewrite <- (drop_ge ids (length ids)) by lia.
    apply new_frame; [apply is_fresh | done].
  - do 4 eexists. split; [done |]. split; [by split |]. split; [by apply frame_refl |].
    split; [done | by apply rep_heap].
Qed.

Lemma ListInsert_rep s L ids l c sz k :
  rep s L ids l → (k < length ids)%nat →
  ∃ r L' s' ids', ListInsert L c sz (ids !! k) s = Ok (r, L', s') ∧ same_memory s s' ∧
    frame ids ids' s s' ∧ bool_decide (is_Some r) = alloc_ok (l_mallocs s) ∧
    rep s' L' ids' (if alloc_ok (l_mallocs s) then al_insert k c l else l).
Proof.
  intros HR Hk. unfold ListInsert. pose proof (new_element_run raw_element s) as Hnew.
  destruct (alloc_ok (l_mallocs s)); rewrite (bind_ok _ _ _ _ _ Hnew).
  2: { do 4 eexists. split; [done |]. split; [by split |]. split; [by apply frame_refl |].
       split; [done | by apply rep_heap]. }
  pose proof (fresh_not_id _ _ _ _ HR) as Ha. pose proof (is_fresh (dom (elems s))) as Hfresh.
  set (a := fresh (dom (elems s))) in *.
  destruct (lookup_lt_is_Some_2 ids k Hk) as [b Hb].
  destruct (rep_lookup _ _ _ _ HR k b Hb) as (d & Hd & Heb).
  assert (Hnn : ∀ B (x y : B), (if decide ((ids !! k : ptr) = None) then x else y) = y)
    by (intros B x y; case_decide as Hnone; [by rewrite Hb in Hnone | done]).
  assert (b ≠ a) as Hba by (intros ->; apply Ha, list_elem_of_lookup; eauto).
  set (s0 := mkLHeap (<[a := raw_element]> (elems s)) (tail (l_mallocs s)) (freed s)) in *.
  set (el := mkElement (prev_id ids k) (ids !! k) c).
  set (sa := mkLHeap (<[a := el]> (elems s)) (tail (l_mallocs s)) (freed s)).
  assert (load (ids !! k) s0 = Ok (mkElement (prev_id ids k) (ids !! S k) d, s0)) as Hload.
  { unfold load. rewrite Hb. cbn. by rewrite lookup_insert_ne, Heb by done. }
  assert (store (Some a) (mkElement (prev_id ids k) (ids !! k) c) s0 = Ok (tt, sa)) as Hst.
  { unfold store. cbn. by rewrite lookup_insert_eq, insert_insert_eq. }
  destruct (link_new_run s sa L ids l k a c HR ltac:(lia) Ha eq_refl)
    as (s1 & s2 & Hr1 & Hr2 & Hu1 & Hu2).
  destruct (inserted_elems s sa s1 s2 L ids l k a c HR Ha eq_refl Hu1 Hu2) as (He1 & He2 & He3).
  pose proof (rep_insert s s2 L ids l k a c (u64 (list_size L + sz)) HR ltac:(lia) Ha He1 He2)
    as HR'.
  rewrite (decide_False (P := k = length ids)) in HR' by lia.
  assert (set_prev (ids !! k) (Some a) sa = Ok (tt, s1)) as Hr1'
    by (revert Hr1; by rewrite Hb).
  assert ((if decide (prev_id ids k ≠ None)
           then _ ← set_next (prev_id ids k) (Some a); mret (first L) else mret (Some a)
           : M lheap ptr) s1 = Ok (if decide (k = 0)%nat then Some a else first L, s2)) as Hfst.
  { revert Hr2. destruct k as [| j]; cbn [prev_id].
    - by intros [= <-].
    - destruct (lookup_lt_is_Some_2 ids j ltac:(lia)) as [e He]. rewrite He. intros Hr2.
      rewrite decide_True, decide_False by done. by rewrite (bind_ok _ _ _ _ _ Hr2). }
  do 4 eexists. split.
  - rewrite Hnn. rewrite (bind_ok _ _ _ _ _ Hload). cbn [prev]. rewrite (bind_ok _ _ _ _ _ Hst).
    rewrite (bind_ok _ _ _ _ _ Hr1'). exact (bind_ok_eq _ _ _ _ _ _ Hfst eq_refl).
  - destruct Hu1 as (Hm1 & Hf1 & _). destruct Hu2 as (Hm2 & Hf2 & _).
    split; [by split; [rewrite Hm2, Hm1 | rewrite Hf2, Hf1] |].
    split; [by apply new_frame |]. by split.
Qed.

(** ** The ends of the list *)
Lemma ListDetachHead_rep s L ids l :
  rep s L ids l →
  ∃ L' s' ids', ListDetachHead L s = Ok (default None (fst (al_detach_head l)), L', s') ∧
    rep s' L' ids' (snd (al_detach_head l)) ∧ frees ids ids' [] s s'.
Proof.
  intros HR. unfold ListDetachHead, al_detach_head. rewrite (rep_count _ _ _ _ HR).
  destruct ids as [| a ids'] eqn:Eids.
  { cbn. exists L, s, []. split; [| split].
    - pose proof (rep_length _ _ _ _ HR) as Hl. by destruct (items l).
    - pose proof (rep_length _ _ _ _ HR) as Hl. unfold al_delete.
      assert (cursor l = None) as Hcur.
      { destruct (cursor l) as [k |] eqn:Hc; [| done].
        by pose proof (rep_cursor _ _ _ _ HR k Hc) as Hk; cbn in Hk; lia. }
      rewrite Hcur. cbn. destruct l as [[| x xs] cur]; [cbn in Hcur; by rewrite Hcur in HR | done].
    - apply frees_none. }
  rewrite <- Eids in *. assert (ids !! 0%nat = Some a) as Ha by by rewrite Eids.
  apply lookup_lt_Some in Ha as Hlt.
  rewrite decide_True by lia.
  destruct (rep_lookup _ _ _ _ HR 0 a Ha) as (c & Hc & _). rewrite Hc.
  rewrite (rep_first _ _ _ _ HR), Ha.
  rewrite (bind_ok _ _ _ _ _ (rep_load _ _ _ _ HR 0 a c Ha Hc)). cbn [prev next content].
  destruct (relink_run _ _ _ _ 0 a c HR Ha Hc) as
    (s1 & s2 & s3 & Hr1 & Hr2 & Hr3 & Hu1 & Hu2 & He3 & Hm3 & Hf3).
  injection Hr1 as ->.
  assert ((match ids !! 1%nat with None => mret tt | Some _ => set_prev (ids !! 1%nat) None end
    : M lheap unit) s1 = Ok (tt, s2)) as Hset.
  { revert Hr2. cbn [prev_id]. destruct (ids !! 1%nat) as [b |]; [| by intros [= _ <-]].
    rewrite (decide_False (P := Some b = None)) by done.
    intros Hr2. apply bind_inv in Hr2 as ([] & s' & Hs & Hret).
    rewrite Hs. unfold mret, M_ret in Hret. congruence. }
  rewrite (bind_ok _ _ _ _ _ Hset), (bind_ok _ _ _ _ _ Hr3).
  destruct (cursor_delete _ _ _ _ 0 a HR Ha) as [Hcd Hcb].
  do 2 eexists. exists (delete 0%nat ids). split; [done |]. split.
  - unfold al_delete in *. eapply (rep_delete s1 s3 L); try done.
    + intros m b d Hm' Hb Hd. eapply unlinked_elems; done.
    + rewrite (rep_last _ _ _ _ HR). cbn [snd].
      destruct (length ids) as [| [| n]] eqn:En; [lia | |]; cbn [prev_id].
      * rewrite Ha. by rewrite decide_True, decide_True by done.
      * rewrite decide_False, decide_False; [done | done |].
        destruct (lookup_lt_is_Some_2 ids (S n) ltac:(lia)) as [b Hb]. rewrite Hb.
        intros [= ->]. by pose proof (rep_id_eq _ _ _ _ HR _ _ _ Ha Hb).
    + by rewrite (rep_count _ _ _ _ HR).
  - split_and!; [done | by rewrite app_nil_r |]. by eapply unlinked_frame.
Qed.

Lemma delete_last {A} (l : list A) : delete (pred (length l)) l = take (pred (length l)) l.
Proof.
  rewrite delete_take_drop. destruct l as [| x l]; [done |].
  rewrite drop_ge by (cbn; lia). by rewrite app_nil_r.
Qed.

Lemma ListPopTail_rep s L ids l :
  rep s L ids l →
  ∃ L' s' ids', ListPopTail L s = Ok (default None (fst (al_pop_tail l)), L', s') ∧
    rep s' L' ids' (snd (al_pop_tail l)) ∧ frees ids ids' [] s s'.
Proof.
  intros HR. unfold ListPopTail, al_pop_tail. rewrite (rep_count _ _ _ _ HR).
  pose proof (rep_length _ _ _ _ HR) as Hlen.
  destruct (decide (0 < Z.of_nat (length ids))) as [Hpos | Hpos].
  2: { assert (items l = []) as Hi by (destruct (items l); [done | cbn in Hlen; lia]).
       assert (cursor l = None) as Hcur.
       { destruct (cursor l) as [k |] eqn:Hc; [| done].
         pose proof (rep_cursor _ _ _ _ HR k Hc). lia. }
       exists L, s, ids. rewrite Hi, Hcur. cbn. split; [done |]. split.
       - destruct l as [xs cur]. cbn in *. by subst.
       - apply frees_none. }
  set (k := pred (length ids)). assert (k < length ids)%nat as Hk by lia.
  replace (pred (length (items l))) with k by lia.
  destruct (lookup_lt_is_Some_2 ids k Hk) as [a Ha].
  destruct (rep_lookup _ _ _ _ HR k a Ha) as (c & Hc & _). rewrite Hc.
  assert (ids !! S k = None) as Hend by (apply lookup_ge_None; lia).
  assert (last L = Some a) as Hlast.
  { rewrite (rep_last _ _ _ _ HR). replace (length ids) with (S k) by lia. done. }
  rewrite Hlast, (bind_ok _ _ _ _ _ (rep_load _ _ _ _ HR k a c Ha Hc)). cbn [prev next content].
  destruct (relink_run _ _ _ _ k a c HR Ha Hc) as
    (s1 & s2 & s3 & Hr1 & Hr2 & Hr3 & Hu1 & Hu2 & He3 & Hm3 & Hf3).
  rewrite Hend in Hr1, Hr2. injection Hr2 as _ <-.
  assert ((match prev_id ids k with None => mret tt | Some _ => set_next (prev_id ids k) None end
    : M lheap unit) s = Ok (tt, s1)) as Hset.
  { revert Hr1. destruct (prev_id ids k) as [b |]; [| by intros [= _ <-]].
    rewrite (decide_False (P := Some b = None)) by done.
    intros Hr1. apply bind_inv in Hr1 as ([] & s' & Hs & Hret).
    rewrite Hs. unfold mret, M_ret in Hret. congruence. }
  rewrite (bind_ok _ _ _ _ _ Hset), (bind_ok _ _ _ _ _ Hr3).
  do 2 eexists. exists (delete k ids). split; [done |]. split.
  - cbn [snd].
    replace (take k (items l)) with (delete k (items l))
      by (unfold k; rewrite Hlen; apply delete_last).
    eapply (rep_delete s s3 L); try done.
    + intros m b d Hm' Hb Hd. eapply unlinked_elems; done.
    + rewrite (rep_first _ _ _ _ HR). destruct k as [| j] eqn:Ek.
      * rewrite Ha, decide_True by done. by rewrite Hend.
      * rewrite (decide_False (P := S j = 0%nat)) by done.
        destruct (lookup_lt_is_Some_2 ids 0 ltac:(lia)) as [b Hb]. rewrite Hb.
        rewrite decide_False; [done |]. intros [= ->].
        by pose proof (rep_id_eq _ _ _ _ HR _ _ _ Ha Hb).
    + by rewrite decide_True by lia.
    + by rewrite (rep_count _ _ _ _ HR).
    + rewrite (rep_current _ _ _ _ HR). destruct (cursor l) as [j |] eqn:Hcur; [| done]. cbn.
      pose proof (rep_cursor _ _ _ _ HR j Hcur) as Hj.
      destruct (lookup_lt_is_Some_2 ids j Hj) as [b Hb]. rewrite Hb.
      destruct (decide (j = k)) as [-> | Hne].
      * rewrite decide_True by congruence. destruct k as [| i]; [done |]. cbn.
        rewrite lookup_delete_skip. unfold skip. by rewrite decide_True by lia.
      * rewrite decide_False by (intros [= ->]; apply Hne; by eapply rep_id_eq). cbn.
        rewrite lookup_delete_skip. unfold skip. by rewrite decide_True by lia.
    + intros j. destruct (cursor l) as [j' |] eqn:Hcur; [| done]. cbn.
      pose proof (rep_cursor _ _ _ _ HR j' Hcur) as Hj.
      destruct (decide (j' = k)); [destruct k as [| i]; [done |] |]; intros [= <-]; lia.
  - split_and!; [done | by rewrite app_nil_r |].
    eapply unlinked_frame; [done | done | done | | done]. rewrite Hend in *. done.
Qed.

(** ** Emptying *)
Lemma empty_loop_rep ids (cs : list ptr) freeContent fuel k s :
  length ids = length cs → NoDup ids → (k ≤ length ids)%nat → (length ids - k ≤ fuel)%nat →
  (∀ m a c, (k ≤ m)%nat → ids !! m = Some a → cs !! m = Some c →
     ∃ p, elems s !! a = Some (mkElement p (ids !! S m) c)) →
  ∃ s', empty_loop fuel freeContent (ids !! k) s = Ok (tt, s') ∧
    l_mallocs s' = l_mallocs s ∧
    freed s' = freed s ++ (if freeContent then omap id (drop k cs) else []) ∧
    ∀ b, elems s' !! b = if decide (b ∈ drop k ids) then None else elems s !! b.
Proof.
  intros Hlen Hnd. revert fuel s. remember (length ids - k)%nat as n eqn:En.
  revert k En. induction n as [| n IH]; intros k En fuel s Hk Hfuel Hel.
  - rewrite (lookup_ge_None_2 ids k) by lia. exists s. rewrite !drop_ge by lia.
    split_and!; [by destruct fuel | done | by destruct freeContent; rewrite app_nil_r | done].
  - destruct (lookup_lt_is_Some_2 ids k ltac:(lia)) as [a Ha].
    destruct (lookup_lt_is_Some_2 cs k ltac:(lia)) as [c Hc].
    destruct (Hel k a c ltac:(lia) Ha Hc) as [p He].
    destruct fuel as [| fuel]; [lia |]. rewrite Ha. cbn [empty_loop].
    assert (load (Some a) s = Ok (mkElement p (ids !! S k) c, s)) as Hl.
    { unfold load. by rewrite He. }
    rewrite (bind_ok _ _ _ _ _ Hl). cbn [content next].
    set (s1 := mkLHeap (elems s) (l_mallocs s)
                 (freed s ++ (if freeContent then content_list (Some c) else []))).
    assert ((if freeContent then free_content c else mret tt) s = Ok (tt, s1)) as Hf.
    { unfold s1. destruct freeContent, c; cbn; rewrite ?app_nil_r; by destruct s. }
    rewrite (bind_ok _ _ _ _ _ Hf).
    set (s2 := mkLHeap (delete a (elems s)) (l_mallocs s1) (freed s1)).
    assert (free_element (Some a) s1 = Ok (tt, s2)) as Hd.
    { unfold free_element. cbn. by rewrite He. }
    rewrite (bind_ok _ _ _ _ _ Hd).
    destruct (IH (S k) ltac:(lia) fuel s2 ltac:(lia) ltac:(lia)) as (s' & Hr & Hm & Hfr & Hb).
    { intros m b d Hkm Hmb Hmd. destruct (Hel m b d ltac:(lia) Hmb Hmd) as [p' He'].
      exists p'. cbn. rewrite lookup_delete_ne; [done |]. intros ->.
      assert (k = m) by by eapply NoDup_lookup. lia. }
    exists s'. split_and!; [done | done | |].
    + rewrite Hfr. cbn. rewrite <- (assoc_L (++)). f_equal.
      destruct freeContent; [| done]. rewrite (drop_S cs c k Hc). by destruct c.
    + intros b. rewrite Hb. cbn. rewrite (drop_S ids a k Ha).
      destruct (decide (b = a)) as [-> | Hne].
      * rewrite lookup_delete_eq, (decide_True (P := a ∈ a :: drop (S k) ids)) by constructor.
        by case_decide.
      * rewrite lookup_delete_ne by done.
        destruct (decide (b ∈ drop (S k) ids)); [by rewrite decide_True by by constructor |].
        rewrite decide_False; [done |]. by rewrite elem_of_cons; intros [|].
Qed.

Lemma empty_rep s L ids l freeContent :
  rep s L ids l →
  ∃ s', empty_loop (size (elems s)) freeContent (first L) s = Ok (tt, s') ∧
    frees ids [] (if freeContent then omap id (items l) else []) s s'.
Proof.
  intros HR. rewrite (rep_first _ _ _ _ HR).
  destruct (empty_loop_rep ids (items l) freeContent (size (elems s)) 0 s)
    as (s' & Hr & Hm & Hf & Hb); try apply HR.
  - lia.
  - pose proof (rep_size _ _ _ _ HR). lia.
  - intros m a c _ Ha Hc. eexists. by apply (rep_elems _ _ _ _ HR).
  - rewrite drop_0 in Hf. exists s'. split; [done |]. split_and!; [done | done |].
    split; [intros a _; by rewrite Hb, drop_0 | by intros a Ha%elem_of_nil].
Qed.

Lemma ListEmpty_rep s L ids l :
  rep s L ids l →
  ∃ s', ListEmpty L s = Ok (ListZero, s') ∧ frees ids [] (omap id (items l)) s s'.
Proof.
  intros HR. destruct (empty_rep s L ids l true HR) as (s' & Hr & Hf).
  exists s'. split; [| done]. unfold ListEmpty. rewrite gets_bind.
  by rewrite (bind_ok _ _ _ _ _ Hr).
Qed.

Lemma ListRemoveHead_rep s L ids l :
  rep s L ids l →
  ∃ L' s' ids', ListRemoveHead L s = Ok (0, L', s') ∧
    rep s' L' ids' (snd (al_detach_head l)) ∧
    frees ids ids' (content_list (fst (al_detach_head l))) s s'.
Proof.
  intros HR. destruct (ListDetachHead_rep s L ids l HR) as (L' & s' & ids' & Hr & HR' & Hm & Hf & Hfr).
  rewrite app_nil_r in Hf. set (cs := content_list (fst (al_detach_head l))).
  exists L', (mkLHeap (elems s') (l_mallocs s') (freed s' ++ cs)), ids'. split_and!.
  - unfold ListRemoveHead. rewrite (bind_ok _ _ _ _ _ Hr). cbv beta iota.
    unfold cs. destruct (fst (al_detach_head l)) as [[c |] |]; cbn [default content_list];
      rewrite ?app_nil_r; by destruct s'.
  - destruct HR'. by constructor.
  - split_and!; [done | cbn; by rewrite Hf | exact Hfr].
Qed.

(** ** Sequences of operations

    The abstract machine: the sequence with its cursor, and the outcomes of
    [malloc] to come. *)
Inductive list_op :=
  | OpAppend (c : ptr) (size : Z)
  | OpInsert (k : nat) (c : ptr) (size : Z)    (* before the element of index [k] *)
  | OpFind (matches : ptr → bool)
  | OpUnlink (matches : ptr → bool) (freeContent : bool)
  | OpDetachHead
  | OpRemoveHead
  | OpPopTail
  | OpEmpty.

(** What the caller sees: success, or the content of an element. *)
Inductive list_obs := ObsDone (ok : bool) | ObsFound (c : option ptr) | ObsContent (c : ptr).

Fixpoint walk (aList : List) (n : nat) (pos : ptr) : M lheap ptr :=
  match n with
  | O => mret pos
  | S n => pos ← ListNextElement aList pos;
           match pos : ptr with None => mret None | Some _ => walk aList n pos end
  end.

Definition run_op (op : list_op) (aList : List) : M lheap (list_obs * List) :=
  match op with
  | OpAppend c size =>
    r ← ListAppend aList c size; mret (ObsDone (bool_decide (is_Some (fst r))), snd r)
  | OpInsert k c size =>
    index ← walk aList (S k) None;
    r ← ListInsert aList c size index; mret (ObsDone (bool_decide (is_Some (fst r))), snd r)
  | OpFind matches =>
    r ← ListFindItem aList matches;
    c ← (match fst r with
         | None => mret None
         | Some _ => e ← load (fst r); mret (Some (content e))
         end : M lheap (option ptr));
    mret (ObsFound c, snd r)
  | OpUnlink matches freeContent =>
    r ← ListUnlink aList matches freeContent; mret (ObsDone (fst r), snd r)
  | OpDetachHead => r ← ListDetachHead aList; mret (ObsContent (fst r), snd r)
  | OpRemoveHead => r ← ListRemoveHead aList; mret (ObsDone (bool_decide (fst r ≠ 0)), snd r)
  | OpPopTail => r ← ListPopTail aList; mret (ObsContent (fst r), snd r)
  | OpEmpty => l ← ListEmpty aList; mret (ObsDone true, l)
  end.

(** The same on the sequence: observation, contents freed, mallocs, list. *)
Definition spec_op (op : list_op) (h : list bool) (l : alist ptr)
  : list_obs * list positive * list bool * alist ptr :=
  match op with
  | OpAppend c _ => (ObsDone (alloc_ok h), [], tail h, if alloc_ok h then al_append c l else l)
  | OpInsert k c _ =>
    (ObsDone (alloc_ok h), [], tail h,
     if alloc_ok h
     then if decide (k < length (items l))%nat then al_insert k c l else al_append c l
     else l)
  | OpFind matches =>
    let r := al_find matches l in
    (ObsFound (k ← fst r; items l !! k), [], h, snd r)
  | OpUnlink matches freeContent =>
    let r := al_unlink matches l in
    (ObsDone (bool_decide (is_Some (fst r))),
     if freeContent then content_list (fst r) else [], h, snd r)
  | OpDetachHead =>
    let r := al_detach_head l in (ObsContent (default None (fst r)), [], h, snd r)
  | OpRemoveHead =>
    let r := al_detach_head l in (ObsDone false, content_list (fst r), h, snd r)
  | OpPopTail =>
    let r := al_pop_tail l in (ObsContent (default None (fst r)), [], h, snd r)
  | OpEmpty => (ObsDone true, omap id (items l), h, al_nil)
  end.

Fixpoint run_ops (ops : list list_op) (aList : List) : M lheap (list list_obs * List) :=
  match ops with
  | [] => mret ([], aList)
  | op :: ops =>
    r ← run_op op aList;
    rs ← run_ops ops (snd r);
    mret (fst r :: fst rs, snd rs)
  end.

Fixpoint spec_ops (ops : list list_op) (h : list bool) (l : alist ptr)
  : list list_obs * list positive * list bool * alist ptr :=
  match ops with
  | [] => ([], [], h, l)
  | op :: ops =>
    let '(o, f, h, l) := spec_op op h l in
    let '(os, fs, h, l) := spec_ops ops h l in
    (o :: os, f ++ fs, h, l)
  end.

Lemma walk_rep s L ids l n j :
  rep s L ids l → (j ≤ length ids)%nat → (0 < n + j)%nat →
  walk L n (prev_id ids j) s = Ok (if decide (n + j ≤ length ids)%nat then prev_id ids (n + j) else None, s)
  ∨ n = 0%nat.
Proof.
  intros HR. revert j. induction n as [| n IH]; intros j Hj _; [by right | left]. cbn [walk].
  assert (ListNextElement L (prev_id ids j) s = Ok (ids !! j, s)) as Hn.
  { destruct j as [| j]; [cbn; by rewrite (rep_first _ _ _ _ HR) |].
    by apply (ListNextElement_rep _ _ _ l); [| lia]. }
  rewrite (bind_ok _ _ _ _ _ Hn). destruct (ids !! j) as [a |] eqn:Ha.
  - apply lookup_lt_Some in Ha as Hlt. change (Some a) with (Some a : ptr). rewrite <- Ha.
    change (ids !! j) with (prev_id ids (S j)).
    destruct (IH (S j) ltac:(lia) ltac:(lia)) as [-> | ->].
    + rewrite <- Nat.add_succ_comm. by rewrite Nat.add_succ_comm.
    + cbn [walk Nat.add]. by rewrite decide_True by lia.
  - apply lookup_ge_None in Ha. by rewrite decide_False by lia.
Qed.

Lemma run_op_rep op s L ids l :
  rep s L ids l →
  let '(o, f, h, l') := spec_op op (l_mallocs s) l in
  ∃ L' s' ids', run_op op L s = Ok (o, L', s') ∧ rep s' L' ids' l' ∧
    l_mallocs s' = h ∧ freed s' = freed s ++ f ∧ frame ids ids' s s'.
Proof.
  intros HR. destruct op as [c sz | k c sz | matches | matches fc | | | |]; cbn [spec_op run_op].
  - destruct (ListAppend_rep s L ids l c sz HR) as (r & L' & s' & ids' & Hr & [Hm Hf] & Hfr & Ho & HR').
    exists L', s', ids'. rewrite (bind_ok _ _ _ _ _ Hr). cbn [fst snd]. rewrite Ho, app_nil_r. done.
  - destruct (walk_rep s L ids l (S k) 0 HR ltac:(lia) ltac:(lia)) as [Hw | ?]; [| done].
    cbn [prev_id] in Hw. rewrite (bind_ok _ _ _ _ _ Hw). rewrite Nat.add_0_r.
    rewrite <- (rep_length _ _ _ _ HR). destruct (decide (k < length ids)%nat) as [Hk | Hk].
    + rewrite decide_True by lia. cbn [prev_id].
      destruct (ListInsert_rep s L ids l c sz k HR Hk)
        as (r & L' & s' & ids' & Hr & [Hm Hf] & Hfr & Ho & HR').
      exists L', s', ids'. rewrite (bind_ok _ _ _ _ _ Hr). cbn [fst snd]. by rewrite Ho, app_nil_r.
    + rewrite decide_False by lia.
      destruct (ListAppend_rep s L ids l c sz HR)
        as (r & L' & s' & ids' & Hr & [Hm Hf] & Hfr & Ho & HR').
      change (ListInsert L c sz None) with (ListAppend L c sz).
      exists L', s', ids'. rewrite (bind_ok _ _ _ _ _ Hr). cbn [fst snd]. by rewrite Ho, app_nil_r.
  - destruct (ListFindItem_rep s L ids l matches HR) as (L' & Hr & HR' & Hk & Hi).
    exists L', s, ids. rewrite (bind_ok _ _ _ _ _ Hr). cbn [fst snd].
    split; [| split_and!; [done | done | by rewrite app_nil_r | by apply frame_refl]].
    destruct (fst (al_find matches l)) as [k |] eqn:Ek; cbn; [| done].
    destruct (Hk k eq_refl) as (Hlt & _ & c & Hc & _).
    destruct (lookup_lt_is_Some_2 ids k Hlt) as [a Ha]. rewrite Ha, Hc.
    by rewrite (bind_ok _ _ _ _ _ (bind_ok_eq _ _ _ _ _ _ (rep_load _ _ _ _ HR k a c Ha Hc) eq_refl)).
  - destruct (ListUnlink_rep s L ids l matches fc HR) as (L' & s' & ids' & Hr & HR' & Hm & Hf & Hfr).
    exists L', s', ids'. rewrite (bind_ok _ _ _ _ _ Hr). done.
  - destruct (ListDetachHead_rep s L ids l HR) as (L' & s' & ids' & Hr & HR' & Hm & Hf & Hfr).
    exists L', s', ids'. rewrite (bind_ok _ _ _ _ _ Hr). done.
  - destruct (ListRemoveHead_rep s L ids l HR) as (L' & s' & ids' & Hr & HR' & Hm & Hf & Hfr).
    exists L', s', ids'. rewrite (bind_ok _ _ _ _ _ Hr). done.
  - destruct (ListPopTail_rep s L ids l HR) as (L' & s' & ids' & Hr & HR' & Hm & Hf & Hfr).
    exists L', s', ids'. rewrite (bind_ok _ _ _ _ _ Hr). done.
  - destruct (ListEmpty_rep s L ids l HR) as (s' & Hr & Hm & Hf & Hfr).
    exists ListZero, s', []. rewrite (bind_ok _ _ _ _ _ Hr).
    split; [done |]. split; [apply rep_nil | done].
Qed.

(** The elements of the list are what was allocated since [s0]. *)
Definition owns (s0 s : lheap) (ids : list positive) : Prop :=
  (∀ a, a ∉ ids → elems s !! a = elems s0 !! a) ∧ (∀ a, a ∈ ids → elems s0 !! a = None).

Lemma owns_frame s0 s s' ids ids' : owns s0 s ids → frame ids ids' s s' → owns s0 s' ids'.
Proof.
  intros [Ho1 Ho2] [Hf1 Hf2]. split.
  - intros a Ha. rewrite (Hf1 a Ha). case_decide; [by rewrite Ho2 | by apply Ho1].
  - intros a Ha. destruct (Hf2 a Ha) as [Hin | Hnone]; [by apply Ho2 |].
    destruct (decide (a ∈ ids)); [by apply Ho2 |]. by rewrite <- Ho1.
Qed.

Lemma run_ops_rep ops s0 s L ids l :
  rep s L ids l → owns s0 s ids →
  let '(os, f, h, l') := spec_ops ops (l_mallocs s) l in
  ∃ L' s' ids', run_ops ops L s = Ok (os, L', s') ∧ rep s' L' ids' l' ∧
    l_mallocs s' = h ∧ freed s' = freed s ++ f ∧ owns s0 s' ids'.
Proof.
  revert s L ids l. induction ops as [| op ops IH]; intros s L ids l HR Ho; cbn [spec_ops run_ops].
  { exists L, s, ids. by rewrite app_nil_r. }
  pose proof (run_op_rep op s L ids l HR) as Hstep.
  destruct (spec_op op (l_mallocs s) l) as [[[o f] h] l1].
  destruct Hstep as (L1 & s1 & ids1 & Hr1 & HR1 & Hm1 & Hf1 & Hfr1).
  pose proof (IH s1 L1 ids1 l1 HR1 (owns_frame _ _ _ _ _ Ho Hfr1)) as Hrest.
  rewrite Hm1 in Hrest. destruct (spec_ops ops h l1) as [[[os fs] h'] l'].
  destruct Hrest as (L' & s' & ids' & Hr & HR' & Hm & Hf & Ho').
  exists L', s', ids'. rewrite (bind_ok _ _ _ _ _ Hr1). cbn [fst snd].
  rewrite (bind_ok _ _ _ _ _ Hr). cbn [fst snd]. split_and!; [done | done | done | | done].
  by rewrite Hf, Hf1, (assoc_L (++)).
Qed.

(** C34: The pointer code implements a sequence with a cursor.  Any sequence of
    appends, insertions, searches, removals (by content or by comparison, with
    or without freeing the content), removals at the two ends and emptyings,
    started on an empty list, runs without following a null or dangling
    pointer and without getting stuck in a loop, whichever allocations fail;
    the caller sees the results of the same operations on a sequence, exactly
    the contents the sequence gives up are freed, in order, and a final
    [ListFree] releases every element and leaves those of other lists as they
    were.  Two comments of the code say something else about the head of the
    list: of [ListDetachHead] that it frees the item and returns 1 or 0, where
    it returns the content and frees the element only, and of [ListRemoveHead]
    that it returns 1 for a removed item, where it always returns 0. *)
Theorem list_operations_refine_sequence ops s :
  let '(os, f, h, l) := spec_ops ops (l_mallocs s) al_nil in
  ∃ aList s' s'', run_ops ops ListZero s = Ok (os, aList, s') ∧
    list_count aList = Z.of_nat (length (items l)) ∧
    l_mallocs s' = h ∧ freed s' = freed s ++ f ∧
    ListFree aList s' = Ok (tt, s'') ∧ elems s'' = elems s ∧
    freed s'' = freed s' ++ omap id (items l).
Proof.
  pose proof (run_ops_rep ops s s ListZero [] al_nil (rep_nil s)) as Hrun.
  destruct (spec_ops ops (l_mallocs s) al_nil) as [[[os f] h] l].
  destruct Hrun as (L & s' & ids & Hr & HR & Hm & Hf & Ho).
  { split; [done |]. by intros a Ha%elem_of_nil. }
  destruct (ListEmpty_rep s' L ids l HR) as (s'' & He & Hm' & Hf' & Hfr).
  exists L, s', s''. split_and!; try done.
  - by rewrite (rep_count _ _ _ _ HR), (rep_length _ _ _ _ HR).
  - unfold ListFree. by rewrite (bind_ok _ _ _ _ _ He).
  - destruct (owns_frame _ _ _ _ _ Ho Hfr) as [Hown _].
    apply map_eq. intros a. apply Hown. by intros Ha%elem_of_nil.
Qed.
