(* ===== verification/Ordered.v ===== *)
(** * Insertion in order

    A list kept in the order of a key by inserting before the first greater
    element, as MQTTPersistence_insertInOrder does for message ids and
    MQTTPersistence_insertInSeqOrder for sequence numbers: the inserted
    elements, sorted. *)
From stdpp Require Import sorting.
From S2P Require Import Prelude.
Local Open Scope Z_scope.

Section Ordered.
Context {A : Type} (key : A → Z).
Implicit Types (m n : A) (l : list A).

(** The position of the first element with a key above [k] *)
Fixpoint position_above (k : Z) l : option nat :=
  match l with
  | [] => None
  | m :: l' => if decide (k < key m) then Some 0%nat else S <$> position_above k l'
  end.

Definition insert_by m l : list A :=
  match position_above (key m) l with
  | Some k => take k l ++ m :: drop k l
  | None => l ++ [m]
  end.

Definition key_lt m n : Prop := key m < key n.
Definition sorted_by l : Prop := StronglySorted key_lt l.

Lemma insert_by_cons m n l :
  insert_by m (n :: l) = if decide (key m < key n) then m :: n :: l else n :: insert_by m l.
Proof.
  unfold insert_by. cbn [position_above]. destruct (decide (key m < key n)); [done |].
  by destruct (position_above (key m) l).
Qed.

Lemma insert_by_perm m l : insert_by m l ≡ₚ m :: l.
Proof.
  induction l as [| n l IH]; [done |]. rewrite insert_by_cons. case_decide; [done |].
  rewrite IH. apply Permutation_swap.
Qed.

Lemma insert_by_sorted m l :
  sorted_by l → key m ∉ key <$> l → sorted_by (insert_by m l).
Proof.
  intros Hl Hm. induction Hl as [| n l Hl IH Hn]; [repeat constructor |].
  rewrite insert_by_cons. rewrite fmap_cons, not_elem_of_cons in Hm. destruct Hm as [Hne Hm].
  case_decide as Hlt.
  - constructor; [by constructor |]. constructor; [done |].
    eapply Forall_impl; [done |]. unfold key_lt. lia.
  - constructor; [by apply IH |]. rewrite insert_by_perm. constructor; [unfold key_lt; lia | done].
Qed.

(** The keys determine the order. *)
Lemma sorted_by_unique l l' : sorted_by l → sorted_by l' → l ≡ₚ l' → l = l'.
Proof.
  intros. apply (StronglySorted_unique_strong key_lt); [| done..].
  unfold key_lt. intros x y _ _ ??. lia.
Qed.

(** The elements inserted one after the other *)
Definition insert_all (ms l : list A) : list A := foldl (λ l m, insert_by m l) l ms.

Lemma insert_all_snoc ms m l : insert_all (ms ++ [m]) l = insert_by m (insert_all ms l).
Proof. unfold insert_all. by rewrite foldl_app. Qed.

Lemma insert_all_sorted ms : ∀ l,
  sorted_by l → NoDup (key <$> l ++ ms) → sorted_by (insert_all ms l) ∧ insert_all ms l ≡ₚ l ++ ms.
Proof.
  induction ms as [| m ms IH]; intros l Hl Hnd; [by rewrite app_nil_r |]. cbn.
  assert (l ++ m :: ms ≡ₚ insert_by m l ++ ms) as Hp.
  { by rewrite insert_by_perm, <- Permutation_middle. }
  rewrite Hp in Hnd |- *. apply IH; [| done]. apply insert_by_sorted; [done |].
  rewrite insert_by_perm in Hnd. cbn in Hnd. apply NoDup_cons in Hnd as [Hm _].
  rewrite fmap_app, elem_of_app in Hm. tauto.
Qed.

(** In whatever order they are inserted *)
Lemma insert_all_perm ms l : sorted_by l → ms ≡ₚ l → NoDup (key <$> l) → insert_all ms [] = l.
Proof.
  intros Hl Hp Hnd. destruct (insert_all_sorted ms []) as [Hs Hp']; [constructor | by rewrite Hp |].
  apply sorted_by_unique; [done | done |]. by rewrite Hp'.
Qed.
End Ordered.
