(* ===== verification/Utf8.v ===== *)
(** * Checking UTF-8 (src/src/utf-8.c)

    The table [valid_ranges] and the three functions that use it, and a
    reference definition of UTF-8: the encoder of Unicode scalar values.

    A [const char*] is a position in the block [mem], the state of the monad,
    which no function here changes; [None] is a null pointer.  Whether [char] is
    signed is left to the C compiler: [sg] says which, and the bounds of the
    table, which are [char] too, are converted in the same way as the data. *)
From S2P Require Import Prelude.
Local Open Scope Z_scope.

(** ** The code *)

Record range_row := mkRow { row_len : nat; row_bytes : list (Z * Z) }.

(** The bounds not given are 0, as for any initialiser of C. *)
Definition valid_ranges : list range_row :=
  [ mkRow 1 [(0x00, 0x7F); (0, 0); (0, 0); (0, 0)];
    mkRow 2 [(0xC2, 0xDF); (0x80, 0xBF); (0, 0); (0, 0)];
    mkRow 3 [(0xE0, 0xE0); (0xA0, 0xBF); (0x80, 0xBF); (0, 0)];
    mkRow 3 [(0xE1, 0xEC); (0x80, 0xBF); (0x80, 0xBF); (0, 0)];
    mkRow 3 [(0xED, 0xED); (0x80, 0x9F); (0x80, 0xBF); (0, 0)];
    mkRow 3 [(0xEE, 0xEF); (0x80, 0xBF); (0x80, 0xBF); (0, 0)];
    mkRow 4 [(0xF0, 0xF0); (0x90, 0xBF); (0x80, 0xBF); (0x80, 0xBF)];
    mkRow 4 [(0xF1, 0xF3); (0x80, 0xBF); (0x80, 0xBF); (0x80, 0xBF)];
    mkRow 4 [(0xF4, 0xF4); (0x80, 0x8F); (0x80, 0xBF); (0x80, 0xBF)] ].

(** The byte at the position [p] of the block *)
Definition byte_at (p : nat) : M (list Z) Z := λ mem,
  match mem !! p with Some c => Ok (c, mem) | None => Err OutOfBounds end.

(** The inner loop: whether the bytes from [p] are in their ranges *)
Fixpoint check_bytes (sg : bool) (ranges : list (Z * Z)) (p : nat) : M (list Z) bool :=
  match ranges with
  | [] => mret true
  | (lower, upper) :: ranges' =>
    c ← byte_at p;
    if decide (char_of sg c < char_of sg lower ∨ char_of sg c > char_of sg upper)
    then mret false
    else check_bytes sg ranges' (S p)
  end.

(** The outer loop: the first row of the length of the character that fits *)
Fixpoint check_rows (sg : bool) (rows : list range_row) (charlen p : nat) : M (list Z) bool :=
  match rows with
  | [] => mret false
  | row :: rows' =>
    if decide (row_len row = charlen) then
      good ← check_bytes sg (take charlen (row_bytes row)) p;
      if good : bool then mret true else check_rows sg rows' charlen p
    else check_rows sg rows' charlen p
  end.

Definition char_length (c : Z) : nat :=
  if decide (Z.land c 128 = 0) then 1
  else if decide (Z.land c 0xF0 = 0xF0) then 4
  else if decide (Z.land c 0xE0 = 0xE0) then 3
  else 2.

Definition UTF8_char_validate (sg : bool) (len : Z) (data : option nat) :
    M (list Z) (option nat) :=
  match data with
  | None => mret None
  | Some p =>
    c ← byte_at p;
    let charlen := char_length (char_of sg c) in
    if decide (Z.of_nat charlen > len) then mret None
    else
      good ← check_rows sg valid_ranges charlen p;
      mret (if good : bool then Some (p + charlen)%nat else None)
  end.

(** The loop of UTF8_validate over the characters: [fin] is data + len *)
Fixpoint validate_loop (sg : bool) (fuel : nat) (fin : Z) (curdata : option nat) :
    M (list Z) (option nat) :=
  match curdata with
  | Some p =>
    if decide (Z.of_nat p < fin) then
      match fuel with
      | O => fail Diverge
      | S fuel' =>
        next ← UTF8_char_validate sg (i32 (fin - Z.of_nat p)) (Some p);
        validate_loop sg fuel' fin next
      end
    else mret curdata
  | None => mret None
  end.

Definition UTF8_validate (sg : bool) (len : Z) (data : option nat) : M (list Z) Z :=
  match data with
  | None => mret 1
  | Some p =>
    if decide (len = 0) then mret 1
    else
      first ← UTF8_char_validate sg len (Some p);
      curdata ← validate_loop sg (Z.to_nat len) (Z.of_nat p + len) first;
      mret (match curdata with Some _ => 1 | None => 0 end)
  end.

(** [strlen] of the string at the position [p] *)
Definition strlen_at (p : nat) : M (list Z) nat := λ mem,
  if decide (strlen (drop p mem) < length (drop p mem))%nat
  then Ok (strlen (drop p mem), mem) else Err OutOfBounds.

Definition UTF8_validateString (sg : bool) (string : option nat) : M (list Z) Z :=
  match string with
  | None => mret 0
  | Some p => n ← strlen_at p; UTF8_validate sg (i32 (Z.of_nat n)) (Some p)
  end.

(** ** Reference: the encoding of Unicode scalar values *)
Definition scalar (z : Z) : Prop := 0 ≤ z < 0xD800 ∨ 0xE000 ≤ z ≤ 0x10FFFF.

Definition utf8_encode (z : Z) : list Z :=
  if decide (z < 0x80) then [z]
  else if decide (z < 0x800) then [0xC0 + z / 64; 0x80 + z `mod` 64]
  else if decide (z < 0x10000) then
    [0xE0 + z / 4096; 0x80 + (z / 64) `mod` 64; 0x80 + z `mod` 64]
  else [0xF0 + z / 262144; 0x80 + (z / 4096) `mod` 64; 0x80 + (z / 64) `mod` 64;
        0x80 + z `mod` 64].

(** The text of a list of scalar values *)
Definition utf8_text (zs : list Z) : list Z := concat (utf8_encode <$> zs).

#[export] Instance scalar_dec z : Decision (scalar z).
Proof. unfold scalar. apply _. Defined.

(** ** Single characters *)

(** Both readings of [char] compare a byte with the bounds of a range of bytes
    of one half in the same way. *)
Lemma char_range sg l u b :
  is_byte l → is_byte u → is_byte b → (l < 128 ↔ u < 128) → l ≤ u →
  (char_of sg b < char_of sg l ∨ char_of sg b > char_of sg u) ↔ ¬ (l ≤ b ≤ u).
Proof.
  unfold is_byte, char_of, i8, u8. intros ???? Hlu.
  destruct sg; [| rewrite !Z.mod_small by lia; lia].
  change (2 ^ 7) with 128. change (2 ^ 8) with 256.
  Z.div_mod_to_equations. lia.
Qed.

Lemma char_length_byte sg b : is_byte b →
  char_length (char_of sg b) =
    if decide (b < 0x80) then 1%nat else if decide (0xF0 ≤ b) then 4%nat
    else if decide (0xE0 ≤ b) then 3%nat else 2%nat.
Proof.
  intros Hb. apply (bool_decide_unpack _).
  apply (all_bytes_forall (λ b, bool_decide (char_length (char_of sg b) =
    if decide (b < 0x80) then 1%nat else if decide (0xF0 ≤ b) then 4%nat
    else if decide (0xE0 ≤ b) then 3%nat else 2%nat))) in Hb.
  - by rewrite Hb.
  - destruct sg; vm_compute; reflexivity.
Qed.

(** The bytes [bs] are in the ranges. *)
Definition in_ranges (ranges : list (Z * Z)) (bs : list Z) : Prop :=
  Forall2 (λ r b, fst r ≤ b ≤ snd r) ranges bs.

#[export] Instance in_ranges_dec rs bs : Decision (in_ranges rs bs).
Proof. unfold in_ranges. apply _. Defined.

(** The ranges of the table: bounds of one half of the bytes *)
Definition good_range (r : Z * Z) : Prop :=
  is_byte (fst r) ∧ is_byte (snd r) ∧ (fst r < 128 ↔ snd r < 128) ∧ fst r ≤ snd r.

#[export] Instance good_range_dec r : Decision (good_range r).
Proof. unfold good_range. apply _. Defined.

Lemma byte_at_run mem p c rest :
  drop p mem = c :: rest → byte_at p mem = Ok (c, mem) ∧ drop (S p) mem = rest.
Proof.
  intros E. unfold byte_at.
  assert (mem !! p = Some c) as ->.
  { rewrite <- (Nat.add_0_r p), <- lookup_drop, E. done. }
  split; [done |]. change (S p) with (1 + p)%nat. by rewrite <- skipn_skipn, E.
Qed.

Lemma check_bytes_run sg mem ranges : ∀ p bs rest,
  Forall good_range ranges → bytes bs → length bs = length ranges → drop p mem = bs ++ rest →
  check_bytes sg ranges p mem = Ok (bool_decide (in_ranges ranges bs), mem).
Proof.
  induction ranges as [| [l u] rs IH]; intros p bs rest Hr Hbs Hlen E.
  { destruct bs; [| done]. by rewrite bool_decide_true by constructor. }
  destruct bs as [| b bs]; [done |]. cbn [check_bytes].
  apply Forall_cons in Hr as [(?&?&?&?) Hr], Hbs as [? Hbs].
  destruct (byte_at_run _ _ _ _ E) as [Hb E']. step_with Hb. cbn [fst snd] in *.
  destruct (decide (_ ∨ _)) as [Hout | Hin].
  - rewrite char_range in Hout by done.
    rewrite bool_decide_false; [done |]. by intros [? _]%Forall2_cons_1.
  - rewrite char_range in Hin by done. apply dec_stable in Hin.
    rewrite (IH _ bs rest) by (cbn in *; first [done | lia]).
    do 2 f_equal. apply bool_decide_ext. unfold in_ranges. rewrite Forall2_cons. naive_solver.
Qed.

(** The rows of the length [n] *)
Definition ranges_of (n : nat) : list (list (Z * Z)) :=
  (λ row, take n (row_bytes row)) <$> filter (λ row, row_len row = n) valid_ranges.

(** The bytes are a row of the table. *)
Definition well_formed_char (bs : list Z) : Prop :=
  Exists (λ rs, in_ranges rs bs) (ranges_of (length bs)).

#[export] Instance well_formed_char_dec bs : Decision (well_formed_char bs).
Proof. unfold well_formed_char. apply _. Defined.

Lemma check_rows_run sg mem rows p bs rest :
  Forall (λ row, length (row_bytes row) = 4%nat ∧
    Forall good_range (take (length bs) (row_bytes row))) rows →
  bytes bs → (length bs ≤ 4)%nat → drop p mem = bs ++ rest →
  check_rows sg rows (length bs) p mem =
    Ok (bool_decide (Exists (λ rs, in_ranges rs bs)
      ((λ row, take (length bs) (row_bytes row)) <$>
        filter (λ row, row_len row = length bs) rows)), mem).
Proof.
  intros Hrows Hbs Hlen E. induction rows as [| row rows IH].
  { rewrite bool_decide_false; [done |]. by intros ?%Exists_nil. }
  apply Forall_cons in Hrows as [[Hrow Hgood] Hrows]. specialize (IH Hrows).
  cbn [check_rows]. rewrite filter_cons.
  destruct (decide (row_len row = length bs)) as [Hn | _]; [| done].
  erewrite bind_ok by (eapply check_bytes_run; [done | done | rewrite length_take; lia | done]).
  cbn [fmap list_fmap]. destruct (decide (in_ranges (take (length bs) (row_bytes row)) bs)) as [Hin | Hin].
  - rewrite !bool_decide_true by first [done | by left]. done.
  - rewrite (bool_decide_false (in_ranges _ _)) by done. cbv iota. rewrite IH. do 2 f_equal. apply bool_decide_ext. rewrite Exists_cons. tauto.
Qed.

Lemma valid_ranges_good n : Forall (λ row, length (row_bytes row) = 4%nat ∧
    Forall good_range (take n (row_bytes row))) valid_ranges.
Proof.
  eapply Forall_impl with (P := λ row, length (row_bytes row) = 4%nat ∧
    Forall good_range (row_bytes row)).
  - apply (bool_decide_unpack _). vm_compute. reflexivity.
  - intros row [H1 H2]. split; [done |]. by apply Forall_take.
Qed.

(** The rows of the table of each length, as inequalities *)
Ltac table_rows n :=
  let rows := eval vm_compute in (ranges_of n) in
  unfold well_formed_char; cbn [length]; change (ranges_of n) with rows;
  rewrite ?Exists_cons, Exists_nil; unfold in_ranges;
  rewrite ?Forall2_cons, Forall2_nil; cbn [fst snd]; lia.

Lemma well_formed_1 a : well_formed_char [a] ↔ 0 ≤ a < 0x80.
Proof. table_rows 1%nat. Qed.

Lemma well_formed_2 a b :
  well_formed_char [a; b] ↔ 0xC2 ≤ a ≤ 0xDF ∧ 0x80 ≤ b < 0xC0.
Proof. table_rows 2%nat. Qed.

Lemma well_formed_3 a b c :
  well_formed_char [a; b; c] ↔ 0xE0 ≤ a ≤ 0xEF ∧ 0x80 ≤ b < 0xC0 ∧ 0x80 ≤ c < 0xC0 ∧
    (a = 0xE0 → 0xA0 ≤ b) ∧ (a = 0xED → b < 0xA0).
Proof. table_rows 3%nat. Qed.

Lemma well_formed_4 a b c d :
  well_formed_char [a; b; c; d] ↔ 0xF0 ≤ a ≤ 0xF4 ∧ 0x80 ≤ b < 0xC0 ∧ 0x80 ≤ c < 0xC0 ∧
    0x80 ≤ d < 0xC0 ∧ (a = 0xF0 → 0x90 ≤ b) ∧ (a = 0xF4 → b < 0x90).
Proof. table_rows 4%nat. Qed.

(** The rows of the table are the encodings of the scalar values. *)
Lemma well_formed_char_encode z : scalar z → well_formed_char (utf8_encode z).
Proof.
  unfold scalar, utf8_encode. intros Hz. repeat case_decide;
    rewrite ?well_formed_1, ?well_formed_2, ?well_formed_3, ?well_formed_4;
    Z.div_mod_to_equations; lia.
Qed.

Ltac units_equal :=
  repeat (apply (f_equal2 cons); [Z.div_mod_to_equations; lia |]); reflexivity.

Lemma well_formed_char_decode bs :
  (length bs ≤ 4)%nat → well_formed_char bs → ∃ z, scalar z ∧ bs = utf8_encode z.
Proof.
  destruct bs as [| a [| b [| c [| d [|]]]]]; cbn; intros Hlen; [| | | | | lia].
  - unfold well_formed_char. change (ranges_of (length [])) with ([] : list (list (Z * Z))).
    by rewrite Exists_nil.
  - rewrite well_formed_1. intros H. exists a. unfold scalar, utf8_encode.
    rewrite decide_True by lia. split; [lia | done].
  - rewrite well_formed_2. intros H. exists ((a - 0xC0) * 64 + (b - 0x80)).
    unfold scalar, utf8_encode. rewrite decide_False, decide_True by lia.
    split; [lia |]. units_equal.
  - rewrite well_formed_3. intros H.
    exists ((a - 0xE0) * 4096 + (b - 0x80) * 64 + (c - 0x80)).
    unfold scalar, utf8_encode. rewrite !decide_False, decide_True by lia.
    split; [lia |]. units_equal.
  - rewrite well_formed_4. intros H.
    exists ((a - 0xF0) * 262144 + (b - 0x80) * 4096 + (c - 0x80) * 64 + (d - 0x80)).
    unfold scalar, utf8_encode. rewrite !decide_False by lia.
    split; [lia |]. units_equal.
Qed.

Lemma utf8_encode_length z : (1 ≤ length (utf8_encode z) ≤ 4)%nat.
Proof. unfold utf8_encode. repeat case_decide; cbn; lia. Qed.

Lemma utf8_encode_bytes z : scalar z → bytes (utf8_encode z).
Proof.
  unfold scalar, utf8_encode, is_byte. intros Hz.
  repeat case_decide; repeat constructor; Z.div_mod_to_equations; lia.
Qed.

(** The first byte tells the length. *)
Lemma utf8_encode_char_length sg z :
  scalar z → ∃ b rest, utf8_encode z = b :: rest ∧ is_byte b ∧
    char_length (char_of sg b) = length (utf8_encode z).
Proof.
  intros Hz. pose proof (utf8_encode_bytes z Hz) as Hb. revert Hb. unfold utf8_encode, scalar in *.
  repeat case_decide; intros [Hb _]%Forall_cons; eexists _, _; (split; [done |]);
    (split; [done |]); rewrite char_length_byte by done; cbn [length];
    repeat case_decide; Z.div_mod_to_equations; lia.
Qed.

(** UTF8_char_validate goes past the scalar value the bytes start with, and
    finds none when there is none. *)
Lemma char_validate_scalar sg mem p z rest len :
  scalar z → drop p mem = utf8_encode z ++ rest → Z.of_nat (length (utf8_encode z)) ≤ len →
  UTF8_char_validate sg len (Some p) mem = Ok (Some (p + length (utf8_encode z))%nat, mem).
Proof.
  intros Hz E Hlen. destruct (utf8_encode_char_length sg z Hz) as (b & bs & Eb & _ & Hcl).
  cbn [UTF8_char_validate]. assert (drop p mem = b :: bs ++ rest) as E1 by (by rewrite E, Eb).
  destruct (byte_at_run _ _ _ _ E1) as [Hrun _]. step_with Hrun. rewrite Hcl.
  rewrite decide_False by lia.
  erewrite bind_ok by (apply (check_rows_run sg mem valid_ranges p _ rest);
    [apply valid_ranges_good | by apply utf8_encode_bytes | apply utf8_encode_length | done]).
  rewrite bool_decide_true; [done |]. by apply well_formed_char_encode.
Qed.

Lemma char_validate_none sg mem p t rest len :
  drop p mem = t ++ rest → bytes t → t ≠ [] → len = Z.of_nat (length t) →
  (∀ z, scalar z → ¬ utf8_encode z `prefix_of` t) →
  UTF8_char_validate sg len (Some p) mem = Ok (None, mem).
Proof.
  intros E Hb Hne -> Hno. destruct t as [| b t]; [done |]. cbn [UTF8_char_validate].
  destruct (byte_at_run _ _ _ _ E) as [Hrun _]. step_with Hrun.
  set (k := char_length (char_of sg b)). destruct (decide _) as [| Hk]; [done |].
  assert (k ≤ 4)%nat as Hk4 by (unfold k, char_length; repeat case_decide; lia).
  assert (length (take k (b :: t)) = k) as Hlen by (rewrite length_take; lia).
  rewrite <- (take_drop k (b :: t)), <- (assoc_L (++)) in E.
  pose proof (check_rows_run sg mem valid_ranges p _ _ (valid_ranges_good _)
    (Forall_take _ k _ Hb) ltac:(lia) E) as Hrows. rewrite Hlen in Hrows.
  step_with Hrows. rewrite bool_decide_false; [done |]. intros Hin.
  destruct (well_formed_char_decode (take k (b :: t))) as (z & Hz & Ez); [lia | |].
  - unfold well_formed_char. by rewrite Hlen.
  - apply (Hno z Hz). rewrite <- Ez. by apply prefix_take.
Qed.

(** ** Whole strings *)
Lemma utf8_text_cons z zs : utf8_text (z :: zs) = utf8_encode z ++ utf8_text zs.
Proof. done. Qed.

(** [t] is the text of some scalar values. *)
Definition is_utf8 (t : list Z) : Prop := ∃ zs, Forall scalar zs ∧ t = utf8_text zs.

Lemma is_utf8_nil : is_utf8 [].
Proof. by exists []. Qed.

(** Two encodings, one of which starts the other, are the same. *)
Lemma utf8_encode_prefix z z' t :
  scalar z → scalar z' → utf8_encode z `prefix_of` t → utf8_encode z' `prefix_of` t →
  utf8_encode z = utf8_encode z'.
Proof.
  intros Hz Hz' [u Hu] [u' Hu'].
  destruct (utf8_encode_char_length false z Hz) as (b & bs & E & _ & L).
  destruct (utf8_encode_char_length false z' Hz') as (b' & bs' & E' & _ & L').
  assert (b = b') as Ebb by (rewrite E in Hu; rewrite E' in Hu'; cbn in Hu, Hu'; congruence).
  rewrite Hu in Hu'. apply app_inj_1 in Hu' as [? _]; [done | by rewrite <- L, <- L', Ebb].
Qed.

(** A text starts with a scalar value, and is a text after it. *)
Lemma is_utf8_cases t : is_utf8 t →
  t = [] ∨ ∃ z t', scalar z ∧ t = utf8_encode z ++ t' ∧ is_utf8 t'.
Proof.
  intros ([| z zs] & Hzs & ->); [by left |]. right. apply Forall_cons in Hzs as [Hz Hzs].
  exists z, (utf8_text zs). split_and!; [done | done | by exists zs].
Qed.

Lemma is_utf8_app z t : scalar z → is_utf8 (utf8_encode z ++ t) ↔ is_utf8 t.
Proof.
  intros Hz. split.
  - intros [E | (z' & t' & Hz' & E & Ht')]%is_utf8_cases.
    { destruct (utf8_encode z) eqn:Ez; [| done]. pose proof (utf8_encode_length z). rewrite Ez in *.
      cbn in *. lia. }
    assert (utf8_encode z = utf8_encode z') as Heq.
    { apply (utf8_encode_prefix z z' (utf8_encode z ++ t)); [done | done | by eexists |].
      rewrite E. by eexists. }
    rewrite <- Heq in E. by apply app_inv_head in E as ->.
  - intros (zs & Hzs & ->). exists (z :: zs). split; [by constructor | done].
Qed.

(** Whether a scalar value starts a list of bytes is decided by the table. *)
Lemma scalar_prefix_or t :
  (∃ z t', scalar z ∧ t = utf8_encode z ++ t') ∨ (∀ z, scalar z → ¬ utf8_encode z `prefix_of` t).
Proof.
  destruct (decide (Exists (λ k, well_formed_char (take k t)) [1; 2; 3; 4]%nat)) as [H | H].
  - left. apply Exists_exists in H as (k & Hk & Hwf).
    apply well_formed_char_decode in Hwf as (z & Hz & Ez).
    + exists z, (drop k t). by rewrite <- Ez, take_drop.
    + rewrite length_take. set_unfold in Hk. lia.
  - right. intros z Hz [t' ->]. apply H, Exists_exists.
    exists (length (utf8_encode z)). rewrite take_app_length.
    split; [| by apply well_formed_char_encode].
    pose proof (utf8_encode_length z). set_unfold. lia.
Qed.

(** The loop from a character on accepts the texts. *)
Lemma validate_loop_text sg mem : ∀ fuel p t rest,
  drop p mem = t ++ rest → bytes t → (length t ≤ fuel)%nat → Z.of_nat (length t) < 2 ^ 31 →
  ∃ r, validate_loop sg fuel (Z.of_nat p + Z.of_nat (length t)) (Some p) mem = Ok (r, mem) ∧
    (is_Some r ↔ is_utf8 t).
Proof.
  induction fuel as [| fuel IH]; intros p t rest E Hb Hfuel Hmax.
  { destruct t; [| cbn in *; lia]. cbn [validate_loop]. rewrite decide_False by (cbn; lia).
    exists (Some p). split; [done |]. split; [intros; apply is_utf8_nil | done]. }
  cbn [validate_loop]. destruct (decide (t = [])) as [-> | Hne].
  { rewrite decide_False by (cbn; lia). exists (Some p).
    split; [done |]. split; [intros; apply is_utf8_nil | done]. }
  assert (0 < length t)%nat by (destruct t; [done | cbn; lia]).
  rewrite decide_True by lia. rewrite i32_small by lia.
  replace (Z.of_nat p + Z.of_nat (length t) - Z.of_nat p) with (Z.of_nat (length t)) by lia.
  destruct (scalar_prefix_or t) as [(z & t' & Hz & ->) | Hno].
  - rewrite <- (assoc_L (++)) in E. rewrite length_app in *.
    erewrite bind_ok by (apply (char_validate_scalar sg mem p z _ _ Hz E); lia).
    pose proof (utf8_encode_length z). apply bytes_app in Hb as [_ Hb].
    destruct (IH (p + length (utf8_encode z))%nat t' rest) as (r & Hr & Hiff);
      [| done | lia | lia |].
    { by rewrite Nat.add_comm, <- skipn_skipn, E, drop_app_length. }
    exists r. rewrite is_utf8_app by done. split; [| done]. rewrite <- Hr. f_equal. lia.
  - erewrite bind_ok by (apply (char_validate_none sg mem p t rest); done).
    exists None. split; [destruct fuel; done |].
    split; [by intros [? ?] |].
    intros [-> | (z & t' & Hz & -> & _)]%is_utf8_cases; [done |].
    exfalso. apply (Hno z Hz). by eexists.
Qed.

(** What UTF8_validate answers on the bytes [t] of a block *)
Lemma validate_run sg mem p t rest :
  drop p mem = t ++ rest → bytes t → Z.of_nat (length t) < 2 ^ 31 →
  ∃ rc, UTF8_validate sg (Z.of_nat (length t)) (Some p) mem = Ok (rc, mem) ∧
    (rc = 0 ∨ rc = 1) ∧ (rc = 1 ↔ is_utf8 t).
Proof.
  intros E Hb Hmax. unfold UTF8_validate. destruct (decide (Z.of_nat (length t) = 0)) as [H0 | H0].
  { exists 1. destruct t; [| done]. split_and!; [done | by right | split; [intros; apply is_utf8_nil | done]]. }
  (* the call before the loop is the first turn of the loop with one more unit of fuel *)
  destruct (validate_loop_text sg mem (S (length t)) p t rest) as (r & Hr & Hiff); [done | done | lia | done |].
  cbn [validate_loop] in Hr. rewrite decide_True in Hr by lia.
  rewrite i32_small in Hr by lia.
  replace (Z.of_nat p + Z.of_nat (length t) - Z.of_nat p) with (Z.of_nat (length t)) in Hr by lia.
  rewrite Nat2Z.id. apply bind_inv in Hr as (first & mem' & H1 & H2). step_with H1.
  step_with H2. eexists. split; [done |]. destruct r; (split; [first [by left | by right] |]);
    rewrite <- Hiff; split; intros; by simplify_eq.
Qed.

(** C37: UTF8_validate accepts exactly the UTF-8 encodings of sequences of
    Unicode scalar values (no overlong forms, no surrogates, nothing above
    U+10FFFF, no sequence cut short), whether [char] is signed or not; it always
    answers 0 or 1, and reads only the [len] bytes it is given: the block may
    end after them. *)
Theorem UTF8_validate_scalars sg mem p t rest :
  drop p mem = t ++ rest → bytes t → Z.of_nat (length t) < 2 ^ 31 →
  ∃ rc, UTF8_validate sg (Z.of_nat (length t)) (Some p) mem = Ok (rc, mem) ∧
    (rc = 0 ∨ rc = 1) ∧
    (rc = 1 ↔ ∃ zs, Forall scalar zs ∧ t = concat (utf8_encode <$> zs)).
Proof. apply validate_run. Qed.

(** The bytes of the test [valid_strings] "A, not identical to, Alpha, full stop" *)
Definition utf8_sample : list Z := [0x41; 0xE2; 0x89; 0xA2; 0xCE; 0x91; 0x2E].

Lemma UTF8_validate_scalars_witness :
  ∃ rc, UTF8_validate true 7 (Some 0%nat) utf8_sample = Ok (rc, utf8_sample) ∧
    (rc = 0 ∨ rc = 1) ∧
    (rc = 1 ↔ ∃ zs, Forall scalar zs ∧ utf8_sample = concat (utf8_encode <$> zs)).
Proof.
  apply (UTF8_validate_scalars true utf8_sample 0 utf8_sample []).
  - reflexivity.
  - apply (bool_decide_unpack _). vm_compute. reflexivity.
  - reflexivity.
Defined.

(** The tests of utf-8.c *)
Example utf8_tests_valid :
  UTF8_validate true 7 (Some 0%nat) utf8_sample = Ok (1, utf8_sample).
Proof. vm_compute. reflexivity. Qed.

Example utf8_tests_invalid :
  Forall (λ t, ∀ sg, UTF8_validate sg (Z.of_nat (length t)) (Some 0%nat) t = Ok (0, t))
    [[0xC0; 0x80]; [0x2F; 0xC0; 0xAE; 0x2E; 0x2F];
     [0xED; 0xA1; 0x8C; 0xED; 0xBE; 0xB4]; [0xF4]].
Proof. repeat constructor; intros []; vm_compute; reflexivity. Qed.

(** UTF8_validateString checks the bytes before the first NUL; a null pointer
    is not valid there, but it is for UTF8_validate. *)
Lemma UTF8_validateString_run sg mem p t rest :
  drop p mem = t ++ 0 :: rest → no_nul t → bytes t → Z.of_nat (length t) < 2 ^ 31 →
  ∃ rc, UTF8_validateString sg (Some p) mem = Ok (rc, mem) ∧
    (rc = 0 ∨ rc = 1) ∧ (rc = 1 ↔ is_utf8 t).
Proof.
  intros E Hn Hb Hmax. unfold UTF8_validateString.
  assert (strlen (t ++ 0 :: rest) = length t) as Hlen.
  { clear E Hb Hmax. induction Hn; cbn; [done |]. rewrite decide_False by done. lia. }
  erewrite bind_ok by (unfold strlen_at; rewrite E, Hlen, decide_True
    by (rewrite length_app; cbn; lia); done).
  rewrite i32_small by lia. by eapply validate_run.
Qed.

Lemma UTF8_null sg mem len :
  UTF8_validateString sg None mem = Ok (0, mem) ∧ UTF8_validate sg len None mem = Ok (1, mem).
Proof. done. Qed.
