(* ===== verification/Base64.v ===== *)
(** * Base64 (src/src/Base64.c)

    The encoder and the decoder the file has for builds without OpenSSL and
    Windows, the two functions that compute lengths, and a reference definition of Base64.

    [in] is a block of bytes; a read outside it is [OutOfBounds], as is a read
    outside a table.  The block at [out] is the state: its bytes, and the
    position the pointer has reached. *)
From S2P Require Import Prelude.
Local Open Scope Z_scope.

(** ** The output block *)
Record outbuf := OutBuf { o_mem : list Z; o_pos : nat }.

(** [*out = v] *)
Definition put_byte (v : Z) : M outbuf unit := λ s,
  if decide (o_pos s < length (o_mem s))%nat
  then Ok (tt, OutBuf (<[o_pos s := u8 v]> (o_mem s)) (o_pos s)) else Err OutOfBounds.

(** [*out |= v] *)
Definition or_byte (v : Z) : M outbuf unit := λ s,
  match o_mem s !! o_pos s with
  | Some b => Ok (tt, OutBuf (<[o_pos s := u8 (Z.lor b v)]> (o_mem s)) (o_pos s))
  | None => Err OutOfBounds
  end.

(** [++out] *)
Definition next_byte : M outbuf unit := modify (λ s, OutBuf (o_mem s) (S (o_pos s))).

(** A read of a byte of the block [mem] *)
Definition read_at {S} (mem : list Z) (p : nat) : M S Z :=
  match mem !! p with Some b => mret b | None => fail OutOfBounds end.

(** [TABLE[i]]; [i] may be negative. *)
Definition table_at {S} (table : list Z) (i : Z) : M S Z :=
  if decide (i < 0) then fail OutOfBounds else read_at table (Z.to_nat i).

(** ** Decoding *)
Definition NV : Z := 64.

Definition BASE64_DECODE_TABLE : list Z :=
  [ NV; NV; NV; NV; NV; NV; NV; NV; NV; NV; NV; NV; NV; NV; NV; NV;
    NV; NV; NV; NV; NV; NV; NV; NV; NV; NV; NV; NV; NV; NV; NV; NV;
    NV; NV; NV; NV; NV; NV; NV; NV; NV; NV; NV; 62; NV; NV; NV; 63;
    52; 53; 54; 55; 56; 57; 58; 59; 60; 61; NV; NV; NV; NV; NV; NV;
    NV;  0;  1;  2;  3;  4;  5;  6;  7;  8;  9; 10; 11; 12; 13; 14;
    15; 16; 17; 18; 19; 20; 21; 22; 23; 24; 25; NV; NV; NV; NV; NV;
    NV; 26; 27; 28; 29; 30; 31; 32; 33; 34; 35; 36; 37; 38; 39; 40;
    41; 42; 43; 44; 45; 46; 47; 48; 49; 50; 51; NV; NV; NV; NV; NV;
    NV; NV; NV; NV; NV; NV; NV; NV; NV; NV; NV; NV; NV; NV; NV; NV;
    NV; NV; NV; NV; NV; NV; NV; NV; NV; NV; NV; NV; NV; NV; NV; NV;
    NV; NV; NV; NV; NV; NV; NV; NV; NV; NV; NV; NV; NV; NV; NV; NV;
    NV; NV; NV; NV; NV; NV; NV; NV; NV; NV; NV; NV; NV; NV; NV; NV;
    NV; NV; NV; NV; NV; NV; NV; NV; NV; NV; NV; NV; NV; NV; NV; NV;
    NV; NV; NV; NV; NV; NV; NV; NV; NV; NV; NV; NV; NV; NV; NV; NV;
    NV; NV; NV; NV; NV; NV; NV; NV; NV; NV; NV; NV; NV; NV; NV; NV;
    NV; NV; NV; NV; NV; NV; NV; NV; NV; NV; NV; NV; NV; NV; NV; NV ].

(** [c[i] = BASE64_DECODE_TABLE[(int)( *in)]]: [*in] is a plain [char]. *)
Definition decode_char {S} (sg : bool) (inp : list Z) (p : nat) : M S Z :=
  b ← read_at inp p;
  table_at BASE64_DECODE_TABLE (char_of sg b).

(** The bytes of a group after the first; the new [in_len] and [out_count] *)
Definition decode_third (c2 c3 in_len out_count : Z) : M outbuf (Z * Z) :=
  _ ← put_byte (Z.shiftl (Z.land c2 0x3) 6);
  if decide (c3 < NV) then
    _ ← or_byte c3;
    _ ← next_byte;
    mret (in_len, u32 (out_count + 1))
  else mret (0, out_count).

Definition decode_second (c1 c2 c3 in_len out_count out_len : Z) : M outbuf (Z * Z) :=
  _ ← put_byte (Z.shiftl (Z.land c1 0xF) 4);
  if decide (c2 < NV) then
    _ ← or_byte (Z.shiftr (Z.land c2 (Z.lnot 0x3)) 2);
    _ ← next_byte;
    let out_count := u32 (out_count + 1) in
    if decide (out_count < out_len) then decode_third c2 c3 in_len out_count
    else mret (in_len, out_count)
  else mret (0, out_count).

(** The turn of the loop after the reads; the new [in_len] and [out_count] *)
Definition decode_body (c0 c1 c2 c3 in_len out_count out_len : Z) : M outbuf (Z * Z) :=
  _ ← put_byte (Z.shiftl c0 2);
  _ ← or_byte (Z.shiftr (Z.land c1 (Z.lnot 0xF)) 4);
  _ ← next_byte;
  if decide (u32 (out_count + 1) < out_len)
  then decode_second c1 c2 c3 in_len (u32 (out_count + 1)) out_len
  else mret (in_len, u32 (out_count + 1)).

(** The loop of Base64_decode; the result is the final [out_count]. *)
Fixpoint decode_groups (sg : bool) (fuel : nat) (inp : list Z) (p : nat)
    (in_len out_count out_len : Z) : M outbuf Z :=
  if decide (in_len > 3 ∧ out_count < out_len) then
    match fuel with
    | O => fail Diverge
    | S fuel' =>
      c0 ← decode_char sg inp p;
      c1 ← decode_char sg inp (p + 1);
      c2 ← decode_char sg inp (p + 2);
      c3 ← decode_char sg inp (p + 3);
      r ← decode_body c0 c1 c2 c3 (in_len - 4) out_count out_len;
      decode_groups sg fuel' inp (p + 4) (fst r) (snd r) out_len
    end
  else mret out_count.

Definition Base64_decode (sg : bool) (out_len : Z) (inp : list Z) (in_len : Z) : M outbuf Z :=
  out_count ← decode_groups sg (Z.to_nat in_len) inp 0 in_len 0 out_len;
  if decide (out_count ≤ out_len) then
    _ ← (if decide (out_count < out_len) then put_byte 0 else mret tt);
    mret out_count
  else mret 0.

(** ** Encoding *)

(** The characters of the string literal, without its NUL *)
Definition BASE64_ENCODE_TABLE : list Z :=
  (λ a, Z.of_N (Ascii.N_of_ascii a)) <$> String.list_ascii_of_string
    ("ABCDEFGHIJKLMNOPQRSTUVWXYZ" ++ "abcdefghijklmnopqrstuvwxyz" ++ "0123456789+/=")%string.

(** The array [c] of a group, from the bytes at [p]: the indexes of its four
    characters, and the new [in] and [in_len] *)
Definition encode_group {S} (inp : list Z) (p : nat) (in_len : Z) :
    M S (list Z * nat * Z) :=
  i ← read_at inp p;
  let c0 := u8 (Z.shiftr (Z.land i (Z.lnot 0x3)) 2) in
  let c1 := u8 (Z.shiftl (Z.land i 0x3) 4) in
  let in_len := in_len - 1 in
  if decide (in_len > 0) then
    i ← read_at inp (p + 1);
    let c1 := u8 (Z.lor c1 (Z.shiftr (Z.land i (Z.lnot 0xF)) 4)) in
    let c2 := u8 (Z.shiftl (Z.land i 0xF) 2) in
    let in_len := in_len - 1 in
    if decide (in_len > 0) then
      i ← read_at inp (p + 2);
      let c2 := u8 (Z.lor c2 (Z.shiftr (Z.land i (Z.lnot 0x3F)) 6)) in
      let c3 := u8 (Z.land i 0x3F) in
      mret ([c0; c1; c2; c3], (p + 3)%nat, in_len - 1)
    else mret ([c0; c1; c2; 64], (p + 1)%nat, in_len)
  else mret ([c0; c1; 64; 64], p, in_len).

(** [for (i = 0; i < 4 && out_count <= out_len; ++i, ++out) *out = ...] *)
Fixpoint emit_chars (c : list Z) (out_count out_len : Z) : M outbuf unit :=
  match c with
  | [] => mret tt
  | ci :: c' =>
    if decide (out_count ≤ out_len) then
      ch ← table_at BASE64_ENCODE_TABLE ci;
      _ ← put_byte ch;
      _ ← next_byte;
      emit_chars c' out_count out_len
    else mret tt
  end.

Fixpoint encode_groups (fuel : nat) (inp : list Z) (p : nat) (in_len out_count out_len : Z) :
    M outbuf Z :=
  if decide (in_len > 0 ∧ out_count < out_len) then
    match fuel with
    | O => fail Diverge
    | S fuel' =>
      g ← encode_group inp p in_len;
      let '(c, p, in_len) := g in
      let out_count := u32 (out_count + 4) in
      _ ← emit_chars c out_count out_len;
      encode_groups fuel' inp p in_len out_count out_len
    end
  else mret out_count.

Definition Base64_encode (out_len : Z) (inp : list Z) (in_len : Z) : M outbuf Z :=
  out_count ← encode_groups (Z.to_nat in_len) inp 0 in_len 0 out_len;
  if decide (out_count ≤ out_len) then
    _ ← (if decide (out_count < out_len) then put_byte 0 else mret tt);
    mret out_count
  else mret 0.

(** ** Lengths; [None] is a null pointer. *)
Definition Base64_decodeLength {S} (inp : option (list Z)) (in_len : Z) : M S Z :=
  pad ← (match inp with
         | Some mem =>
           if decide (in_len > 1) then
             b ← read_at mem (Z.to_nat (in_len - 2));
             mret (if decide (b = 61) then 1 else 0)
           else mret 0
         | None => mret 0
         end);
  pad ← (match inp with
         | Some mem =>
           if decide (in_len > 0) then
             b ← read_at mem (Z.to_nat (in_len - 1));
             mret (pad + if decide (b = 61) then 1 else 0)
           else mret pad
         | None => mret pad
         end);
  mret (u32 (u32 (in_len / 4 * 3) - pad)).

Definition Base64_encodeLength (in_len : Z) : Z :=
  Z.land (u32 (u32 (4 * in_len) / 3 + 3)) (u32 (Z.lnot 0x3)).

(** ** Reference: the encoding of RFC 4648 *)

(** The character of a value of six bits *)
Definition b64_char (v : Z) : Z :=
  if decide (v < 26) then 65 + v
  else if decide (v < 52) then 97 + (v - 26)
  else if decide (v < 62) then 48 + (v - 52)
  else if decide (v = 62) then 43 else 47.

(** Groups of 24 bits in four characters, the last one padded with [=] *)
Fixpoint base64 (d : list Z) : list Z :=
  match d with
  | [] => []
  | [a] => [b64_char (a / 4); b64_char (a `mod` 4 * 16); 61; 61]
  | [a; b] =>
    [b64_char (a / 4); b64_char (a `mod` 4 * 16 + b / 16); b64_char (b `mod` 16 * 4); 61]
  | a :: b :: c :: d' =>
    [b64_char (a / 4); b64_char (a `mod` 4 * 16 + b / 16);
     b64_char (b `mod` 16 * 4 + c / 64); b64_char (c `mod` 64)] ++ base64 d'
  end.

(** ** Rules of the output block: [lft] is what is written, [rest] what follows. *)
Definition at_out (lft rest : list Z) : outbuf := OutBuf (lft ++ rest) (length lft).

Lemma put_byte_run v lft x rest :
  put_byte v (at_out lft (x :: rest)) = Ok (tt, at_out lft (u8 v :: rest)).
Proof.
  unfold put_byte, at_out. cbn. rewrite decide_True by (rewrite length_app; cbn; lia).
  do 3 f_equal. by rewrite insert_app_r_alt, Nat.sub_diag by lia.
Qed.

Lemma or_byte_run v lft b rest :
  or_byte v (at_out lft (b :: rest)) = Ok (tt, at_out lft (u8 (Z.lor b v) :: rest)).
Proof.
  unfold or_byte, at_out. cbn. rewrite lookup_app_r, Nat.sub_diag by lia. cbn.
  do 3 f_equal. by rewrite insert_app_r_alt, Nat.sub_diag by lia.
Qed.

Lemma next_byte_run lft b rest :
  next_byte (at_out lft (b :: rest)) = Ok (tt, at_out (lft ++ [b]) rest).
Proof.
  unfold next_byte, at_out, modify. cbn. do 3 f_equal; [by rewrite <- (assoc_L (++)) |].
  rewrite length_app. cbn. lia.
Qed.

Lemma read_at_run {S} mem p b tl (s : S) : drop p mem = b :: tl → read_at mem p s = Ok (b, s).
Proof.
  intros E. unfold read_at. assert (mem !! p = Some b) as ->; [| done].
  by rewrite <- (Nat.add_0_r p), <- lookup_drop, E.
Qed.

Lemma read_at_nth {S} mem p k d b tl (s : S) :
  drop p mem = d ++ tl → d !! k = Some b → read_at mem (p + k) s = Ok (b, s).
Proof.
  intros E Hk. unfold read_at. by rewrite <- lookup_drop, E, lookup_app_l, Hk
    by eauto using lookup_lt_Some.
Qed.

(** ** Bits of bytes as arithmetic *)
Lemma lor_small x y k : 0 ≤ k → 0 ≤ y < 2 ^ k → Z.lor (x * 2 ^ k) y = x * 2 ^ k + y.
Proof.
  intros Hk Hy. symmetry. apply Z.add_nocarry_lor. apply Z.bits_inj'. intros n Hn.
  rewrite Z.land_spec, Z.bits_0. destruct (decide (n < k)).
  - rewrite Z.mul_pow2_bits_low by lia. done.
  - rewrite <- (Z.mod_small y (2 ^ k)) by done. rewrite Z.mod_pow2_bits_high by lia.
    apply andb_false_r.
Qed.

(** Decide an equality of functions of a byte by enumeration. *)
Lemma bytes_eq (f g : Z → Z) :
  forallb (λ b, Z.eqb (f b) (g b)) all_bytes = true → ∀ b, is_byte b → f b = g b.
Proof. intros H b Hb. apply Z.eqb_eq. by apply (all_bytes_forall _ H). Qed.

Ltac by_bytes := apply bytes_eq; vm_compute; reflexivity.

Lemma high6 : ∀ b, is_byte b → u8 (Z.shiftr (Z.land b (Z.lnot 0x3)) 2) = b / 4.
Proof. by_bytes. Qed.
Lemma low2 : ∀ b, is_byte b → u8 (Z.shiftl (Z.land b 0x3) 4) = b `mod` 4 * 16.
Proof. by_bytes. Qed.
Lemma high4 : ∀ b, is_byte b → Z.shiftr (Z.land b (Z.lnot 0xF)) 4 = b / 16.
Proof. by_bytes. Qed.
Lemma low4 : ∀ b, is_byte b → u8 (Z.shiftl (Z.land b 0xF) 2) = b `mod` 16 * 4.
Proof. by_bytes. Qed.
Lemma high2 : ∀ b, is_byte b → Z.shiftr (Z.land b (Z.lnot 0x3F)) 6 = b / 64.
Proof. by_bytes. Qed.
Lemma low6 : ∀ b, is_byte b → u8 (Z.land b 0x3F) = b `mod` 64.
Proof. by_bytes. Qed.

Lemma u8_lor_small x y k m :
  m = 2 ^ k → 0 ≤ k → 0 ≤ x → 0 ≤ y < m → x * m + y < 256 → u8 (Z.lor (x * m) y) = x * m + y.
Proof. intros -> ????. rewrite lor_small by done. apply u8_small. unfold is_byte. nia. Qed.

(** ** The encoder *)

(** The character of an index; 64 is the padding. *)
Definition code_char (v : Z) : Z := if decide (v = 64) then 61 else b64_char v.

Lemma encode_table_run {S} v (s : S) :
  0 ≤ v ≤ 64 → table_at BASE64_ENCODE_TABLE v s = Ok (code_char v, s).
Proof.
  intros Hv. unfold table_at, read_at. rewrite decide_False by lia.
  assert (BASE64_ENCODE_TABLE !! Z.to_nat v = Some (code_char v)) as ->; [| done].
  assert (Forall (λ n : nat, BASE64_ENCODE_TABLE !! n = Some (code_char (Z.of_nat n))) (seq 0 65))
    as Hall by (apply (bool_decide_unpack _); vm_compute; reflexivity).
  rewrite Forall_forall in Hall. rewrite (Hall (Z.to_nat v)) by (apply elem_of_seq; lia).
  by rewrite Z2Nat.id by lia.
Qed.

Lemma code_char_byte v : 0 ≤ v ≤ 64 → is_byte (code_char v).
Proof. intros. unfold code_char, b64_char, is_byte. repeat case_decide; lia. Qed.

Lemma emit_chars_run count out_len : count ≤ out_len → ∀ c lft rest,
  Forall (λ v, 0 ≤ v ≤ 64) c → (length c ≤ length rest)%nat →
  emit_chars c count out_len (at_out lft rest) =
    Ok (tt, at_out (lft ++ (code_char <$> c)) (drop (length c) rest)).
Proof.
  intros Hle. induction c as [| v c IH]; intros lft rest Hc Hlen.
  { cbn. by rewrite app_nil_r. }
  apply Forall_cons in Hc as [Hv Hc]. destruct rest as [| x rest]; [cbn in *; lia |].
  cbn [emit_chars]. rewrite decide_True by done. step_with (encode_table_run v (at_out lft (x :: rest)) Hv).
  step_with (put_byte_run (code_char v) lft x rest). rewrite u8_small by by apply code_char_byte.
  step_with (next_byte_run lft (code_char v) rest).
  rewrite IH by (cbn in *; first [done | lia]). cbn. by rewrite <- (assoc_L (++)).
Qed.

Lemma emit_chars_full count out_len c s : ¬ count ≤ out_len → emit_chars c count out_len s = Ok (tt, s).
Proof. destruct c; cbn [emit_chars]; intros; [done |]. by rewrite decide_False by done. Qed.

(** The groups of three bytes *)
Lemma list_ind3 {A} (P : list A → Prop) :
  P [] → (∀ a, P [a]) → (∀ a b, P [a; b]) → (∀ a b c l, P l → P (a :: b :: c :: l)) → ∀ l, P l.
Proof.
  intros H0 H1 H2 H3. fix IH 1. intros [| a [| b [| c l]]]; [done | apply H1 | apply H2 |].
  apply H3, IH.
Qed.

Lemma code_char_small v : v < 64 → code_char v = b64_char v.
Proof. intros. unfold code_char. by rewrite decide_False by lia. Qed.

Ltac byte_bounds := unfold is_byte in *; Z.div_mod_to_equations; lia.

Lemma encode_group_run {S} inp p d tl (s : S) :
  drop p inp = d ++ tl → bytes d → d ≠ [] →
  ∃ c p' tl', encode_group inp p (Z.of_nat (length d)) s =
      Ok ((c, p', Z.of_nat (length (drop 3 d))), s) ∧
    base64 d = (code_char <$> c) ++ base64 (drop 3 d) ∧ length c = 4%nat ∧
    Forall (λ v, 0 ≤ v ≤ 64) c ∧ drop p' inp = drop 3 d ++ tl'.
Proof.
  intros E Hd Hne. unfold encode_group.
  destruct d as [| a [| b [| c d]]]; [done | | |].
  all: step_with (read_at_run inp p a _ s E).
  all: rewrite ?Forall_cons in Hd; destruct_and ?; rewrite high6, low2 by done.
  - rewrite decide_False by done. eexists _, _, _. split_and!; [done | | done | | done].
    + cbn. rewrite !code_char_small by byte_bounds. done.
    + repeat constructor; byte_bounds.
  - rewrite decide_True by (cbn; lia).
    step_with (read_at_nth inp p 1 _ b tl s E eq_refl).
    rewrite high4, low4, (u8_lor_small _ _ 4 16) by (first [done | byte_bounds]).
    rewrite decide_False by done. eexists _, _, _.
    split_and!; [done | | done | | exact (drop_shift inp [a; b] tl p 1 E ltac:(cbn; lia))].
    + cbn. rewrite !code_char_small by byte_bounds. done.
    + repeat constructor; byte_bounds.
  - rewrite decide_True by (cbn; lia).
    step_with (read_at_nth inp p 1 _ b tl s E eq_refl).
    rewrite high4, low4, (u8_lor_small _ _ 4 16) by (first [done | byte_bounds]).
    rewrite decide_True by (cbn; lia).
    step_with (read_at_nth inp p 2 _ c tl s E eq_refl).
    rewrite high2, low6, (u8_lor_small _ _ 2 4) by (first [done | byte_bounds]).
    eexists _, _, tl. split_and!.
    + replace (_ - 1 - 1 - 1) with (Z.of_nat (length (drop 3 (a :: b :: c :: d))))
        by (rewrite length_drop; cbn [length]; lia).
      done.
    + cbn. rewrite !code_char_small by byte_bounds. done.
    + done.
    + repeat constructor; byte_bounds.
    + exact (drop_shift inp (a :: b :: c :: d) tl p 3 E ltac:(cbn; lia)).
Qed.

Lemma base64_length d : length (base64 d) = (4 * ((length d + 2) / 3))%nat.
Proof.
  induction d as [| a | a b | a b c d IH] using list_ind3; [done.. |].
  cbn [base64 app length]. rewrite IH.
  replace (S (S (S (length d))) + 2)%nat with (length d + 2 + 1 * 3)%nat by lia.
  rewrite Nat.div_add by lia. lia.
Qed.

Lemma div4_step n : (4 * ((n + 4) / 4) = 4 + 4 * (n / 4))%nat.
Proof. pose proof (Nat.div_add n 1 4 ltac:(lia)) as H. rewrite Nat.mul_1_l in H. lia. Qed.

(** What the loop writes when there is room for [room] characters *)
Lemma encode_groups_run inp out_len : out_len < 2 ^ 32 - 4 → ∀ fuel p d tl lft rest count room,
  drop p inp = d ++ tl → bytes d → (length d ≤ fuel)%nat →
  0 ≤ count → count + Z.of_nat room = out_len → (room ≤ length rest)%nat →
  let k := (length (base64 d) `min` (4 * (room / 4)))%nat in
  encode_groups fuel inp p (Z.of_nat (length d)) count out_len (at_out lft rest) =
    Ok (count + Z.of_nat (length (base64 d) `min` (4 * ((room + 3) / 4)))%nat,
        at_out (lft ++ take k (base64 d)) (drop k rest)).
Proof.
  intros Hout. induction fuel as [| fuel IH]; intros p d tl lft rest count room E Hd Hfuel Hc Hroom Hrest k.
  { destruct d; [| cbn in *; lia]. cbn. by rewrite ?decide_False, app_nil_r, Z.add_0_r by lia. }
  destruct (decide (d = [])) as [-> | Hne].
  { cbn. by rewrite ?decide_False, app_nil_r, Z.add_0_r by lia. }
  destruct (decide (room = 0%nat)) as [-> | Hr0].
  { cbn [encode_groups]. rewrite decide_False by lia. subst k. rewrite Nat.min_0_r. cbn.
    rewrite Nat.min_0_r. by rewrite app_nil_r, Z.add_0_r. }
  assert (0 < length d)%nat by (destruct d; [done | cbn; lia]).
  cbn [encode_groups]. rewrite decide_True by lia.
  destruct (encode_group_run inp p d tl (at_out lft rest) E Hd Hne)
    as (c & p' & tl' & Hg & Eb & Hc4 & Hcv & E').
  step_with Hg. unfold u32. rewrite Z.mod_small by lia.
  assert (length (base64 d) = 4 + length (base64 (drop 3 d)))%nat as Hl
    by (rewrite Eb, length_app, length_fmap; lia).
  destruct (decide (count + 4 ≤ out_len)) as [Hfit | Hfull].
  - step_with (emit_chars_run (count + 4) out_len Hfit c lft rest Hcv ltac:(lia)).
    rewrite Hc4. destruct (Nat.le_exists_sub 4 room) as (room' & -> & _); [lia |].
    rewrite (IH p' (drop 3 d) tl' _ _ _ room') by
      first [done | by apply Forall_drop | rewrite ?length_drop; lia].
    subst k. rewrite Hl.
    rewrite (Nat.add_shuffle0 room' 4 3), !(div4_step _).
    rewrite Eb, take_app, length_fmap, Hc4.
    rewrite (take_ge (code_char <$> c)) by (rewrite length_fmap; lia).
    rewrite <- !(assoc_L (++)), skipn_skipn.
    do 2 f_equal; [lia |]. f_equal; [do 2 f_equal; f_equal; lia | f_equal; lia].
  - step_with (emit_chars_full (count + 4) out_len c (at_out lft rest) Hfull).
    replace (encode_groups fuel inp p' (Z.of_nat (length (drop 3 d))) (count + 4) out_len
      (at_out lft rest)) with (Ok (count + 4, at_out lft rest))
      by (destruct fuel; cbn [encode_groups]; by rewrite decide_False by lia).
    subst k. rewrite Hl. assert (room < 4)%nat by lia.
    rewrite (Nat.div_small room 4) by lia. change (4 * 0)%nat with 0%nat. rewrite Nat.min_0_r.
    destruct (Nat.le_exists_sub 1 room) as (m & -> & _); [lia |].
    rewrite <- Nat.add_assoc, div4_step, (Nat.div_small m 4) by lia.
    cbn [take drop]. rewrite app_nil_r. do 2 f_equal. lia.
Qed.

(** A NUL in the place of the first byte, when there is one *)
Definition nul_first (l : list Z) : list Z := match l with [] => [] | _ :: l' => 0 :: l' end.

Lemma put_nul_run (b : bool) lft out rest :
  b = bool_decide (0 < length out)%nat →
  (if b then put_byte 0 else mret tt) (at_out lft (out ++ rest)) =
    Ok (tt, at_out lft (nul_first out ++ rest)).
Proof.
  intros ->. destruct out as [| x out]; [done |]. rewrite bool_decide_true by (cbn; lia).
  exact (put_byte_run 0 lft x (out ++ rest)).
Qed.

Lemma encode_run d tl out rest :
  bytes d → Z.of_nat (length out) < 2 ^ 32 - 4 →
  let l := length (base64 d) in
  let k := (4 * (length out / 4))%nat in
  ∃ pos, Base64_encode (Z.of_nat (length out)) (d ++ tl) (Z.of_nat (length d)) (OutBuf (out ++ rest) 0) =
    if decide (l ≤ length out)%nat
    then Ok (Z.of_nat l, OutBuf (base64 d ++ nul_first (drop l out) ++ rest) pos)
    else Ok (if decide (k = length out) then Z.of_nat (length out) else 0,
             OutBuf (take k (base64 d) ++ drop k out ++ rest) pos).
Proof.
  intros Hd Hmax l k. unfold Base64_encode. rewrite Nat2Z.id.
  step_with (encode_groups_run (d ++ tl) _ Hmax (length d) 0 d tl [] (out ++ rest) 0 (length out)
    eq_refl Hd ltac:(lia) ltac:(lia) eq_refl ltac:(rewrite length_app; lia)).
  fold l. fold k. cbn [app]. rewrite Z.add_0_l.
  assert (k ≤ length out < k + 4)%nat as Hk by (unfold k; pose proof (Nat.div_mod_eq (length out) 4);
    pose proof (Nat.mod_upper_bound (length out) 4); lia).
  assert (∃ g, l = 4 * g)%nat as [g Hg] by (eexists; apply base64_length).
  assert ((length out = k ∧ 4 * ((length out + 3) / 4) = k)%nat ∨
    (k < length out ∧ 4 * ((length out + 3) / 4) = k + 4)%nat) as Hk'.
  { unfold k in *. pose proof (Nat.div_mod_eq (length out) 4). pose proof (Nat.div_mod_eq (length out + 3) 4).
    pose proof (Nat.mod_upper_bound (length out + 3) 4). lia. }
  rewrite (drop_app_le out) by lia. destruct (decide (l ≤ length out)%nat) as [Hfit | Hfull].
  - eexists. replace (l `min` _)%nat with l by lia. replace (l `min` _)%nat with l by lia.
    rewrite decide_True by lia. rewrite take_ge by lia.
    replace (if decide (Z.of_nat l < Z.of_nat (length out)) then put_byte 0 else mret tt)
      with (if bool_decide (0 < length (drop l out))%nat then put_byte 0 else mret tt).
    2: { rewrite length_drop. destruct (decide (Z.of_nat l < _)); case_bool_decide; first [done | lia]. }
    step_with (put_nul_run _ (base64 d) (drop l out) rest eq_refl). done.
  - replace (l `min` k)%nat with k by lia. destruct Hk' as [[Hk1 ->] | [Hk1 ->]]; eexists.
    + replace (l `min` k)%nat with k by lia. rewrite decide_True by lia.
      rewrite decide_False by lia. rewrite (decide_True (P := k = length out)) by lia.
      unfold mbind, M_bind, mret, M_ret. rewrite <- Hk1. done.
    + replace (l `min` (k + 4))%nat with (k + 4)%nat by lia. rewrite decide_False by lia.
      rewrite (decide_False (P := k = length out)) by lia. done.
Qed.

(** ** The decoder *)
Lemma join1 : ∀ b, is_byte b → u8 (Z.shiftl b 2) = b `mod` 64 * 4.
Proof. by_bytes. Qed.
Lemma join2 : ∀ b, is_byte b → u8 (Z.shiftl (Z.land b 0xF) 4) = b `mod` 16 * 16.
Proof. by_bytes. Qed.
Lemma join3 : ∀ b, is_byte b → u8 (Z.shiftl (Z.land b 0x3) 6) = b `mod` 4 * 64.
Proof. by_bytes. Qed.
Lemma split2 : ∀ b, is_byte b → Z.shiftr (Z.land b (Z.lnot 0x3)) 2 = b / 4.
Proof. by_bytes. Qed.

(** The entry of the table for a character *)
Definition char_value (b : Z) : Z := default NV (BASE64_DECODE_TABLE !! Z.to_nat b).

Lemma char_value_range b : is_byte b → 0 ≤ char_value b ≤ 64.
Proof.
  intros Hb. apply (bool_decide_unpack _).
  apply (all_bytes_forall (λ b, bool_decide (0 ≤ char_value b ≤ 64))) in Hb;
    [by rewrite Hb | vm_compute; reflexivity].
Qed.

Lemma char_value_char v : 0 ≤ v < 64 → char_value (b64_char v) = v ∧ 0 ≤ b64_char v < 128.
Proof.
  intros Hv. apply (bool_decide_unpack _).
  assert (Hall : forallb (λ n : nat, bool_decide (char_value (b64_char (Z.of_nat n)) = Z.of_nat n ∧
    0 ≤ b64_char (Z.of_nat n) < 128)) (seq 0 64) = true) by (vm_compute; reflexivity).
  rewrite forallb_forall in Hall. specialize (Hall (Z.to_nat v)).
  rewrite Z2Nat.id in Hall by lia. rewrite Hall; [done |]. apply in_seq. lia.
Qed.

(** A plain [char] that is not negative indexes the table. *)
Definition plain_char (sg : bool) (b : Z) : Prop := is_byte b ∧ (sg = true → b < 128).

Lemma char_of_plain sg b : plain_char sg b → char_of sg b = b.
Proof.
  intros [[??] ?]. unfold char_of, i8, u8. destruct sg; [| by apply Z.mod_small].
  rewrite Z.mod_small by lia. lia.
Qed.

Lemma decode_char_run {S} sg inp p k t b tl (s : S) :
  drop p inp = t ++ tl → t !! k = Some b → plain_char sg b →
  decode_char sg inp (p + k) s = Ok (char_value b, s).
Proof.
  intros E Hk Hb. unfold decode_char. step_with (read_at_nth inp p k t b tl s E Hk).
  rewrite char_of_plain by done. destruct Hb as [Hb _]. unfold is_byte in Hb.
  unfold table_at, char_value, read_at. rewrite decide_False by lia.
  destruct (lookup_lt_is_Some_2 BASE64_DECODE_TABLE (Z.to_nat b)) as [v Hv]; [cbn; lia |].
  by rewrite Hv.
Qed.

(** The bytes a group of four values stands for *)
Definition first_byte (c0 c1 : Z) : Z := u8 (Z.lor (c0 `mod` 64 * 4) (c1 / 16)).
Definition second_byte (c1 c2 : Z) : Z := u8 (Z.lor (c1 `mod` 16 * 16) (c2 / 4)).
Definition third_byte (c2 c3 : Z) : Z := u8 (Z.lor (c2 `mod` 4 * 64) c3).

(** One group: the bytes [w] it adds are at most three, and the byte after them
    may change, when it is one of the [room] bytes left. *)
Definition group_bytes (c0 c1 c2 c3 : Z) (room : nat) : list Z :=
  take room (first_byte c0 c1 ::
    (if decide (c2 < NV) then second_byte c1 c2 ::
      (if decide (c3 < NV) then [third_byte c2 c3] else []) else [])).

(** [rest'] is [rest] but for its first byte, which is one of [room]. *)
Definition same_after (room : nat) (rest rest' : list Z) : Prop :=
  length rest' = length rest ∧ drop 1 rest' = drop 1 rest ∧ (room = 0%nat → rest' = rest).

Lemma same_after_refl room rest : same_after room rest rest.
Proof. done. Qed.

Lemma same_after_put room x y rest : (0 < room)%nat → same_after room (x :: rest) (y :: rest).
Proof. intros. split_and!; [done | done | lia]. Qed.

(** The bytes after the first: [w] is what is added, in a room of [room] bytes. *)
Definition tail_result (c2 c3 in_len count : Z) (room : nat) (lft rest w : list Z)
    (r : res ((Z * Z) * outbuf)) : Prop :=
  ∃ in_len' rest',
    r = Ok ((in_len', count + Z.of_nat (length w)), at_out (lft ++ w) rest') ∧
    same_after (room - length w) (drop (length w) rest) rest' ∧
    (in_len' = in_len ∨ in_len' = 0) ∧ (c2 < NV → c3 < NV → in_len' = in_len).

Lemma tail_result_stop c2 c3 in_len in_len' count room lft rest rest' :
  same_after room rest rest' → in_len' = in_len ∨ in_len' = 0 ∧ ¬ (c2 < NV ∧ c3 < NV) →
  tail_result c2 c3 in_len count room lft rest [] (Ok ((in_len', count), at_out lft rest')).
Proof.
  intros Hs Hin. exists in_len', rest'. rewrite app_nil_r, Nat.sub_0_r.
  split_and!; [do 3 f_equal; cbn; lia | done | tauto | tauto].
Qed.

Lemma tail_result_cons c2 c3 in_len count room lft x rest b w r :
  tail_result c2 c3 in_len (count + 1) room (lft ++ [b]) rest w r →
  tail_result c2 c3 in_len count (S room) lft (x :: rest) (b :: w) r.
Proof.
  intros (in_len' & rest' & -> & Hs & Hin). exists in_len', rest'.
  split_and!; [| done | tauto | tauto].
  rewrite <- (assoc_L (++)). do 3 f_equal. cbn [length]. lia.
Qed.

Lemma decode_third_run c2 c3 in_len count room lft rest :
  0 ≤ c2 ≤ 64 → 0 ≤ c3 ≤ 64 → 0 ≤ count < 2 ^ 32 - 1 → (1 ≤ room ≤ length rest)%nat →
  tail_result c2 c3 in_len count room lft rest
    (take room (if decide (c3 < NV) then [third_byte c2 c3] else []))
    (decode_third c2 c3 in_len count (at_out lft rest)).
Proof.
  intros H2 H3 Hc Hroom. destruct rest as [| x rest]; [cbn in *; lia |].
  destruct room as [| room]; [lia |]. unfold decode_third.
  step_with (put_byte_run (Z.shiftl (Z.land c2 0x3) 6) lft x rest).
  rewrite join3 by (unfold is_byte; lia). destruct (decide (c3 < NV)) as [Hlt | Hge].
  - step_with (or_byte_run c3 lft (c2 `mod` 4 * 64) rest).
    step_with (next_byte_run lft (third_byte c2 c3) rest).
    unfold u32. rewrite Z.mod_small by lia. cbn [take]. rewrite firstn_nil.
    apply tail_result_cons, tail_result_stop; [done | by left].
  - rewrite firstn_nil. apply tail_result_stop; [by apply same_after_put; lia | tauto].
Qed.

Lemma decode_second_run c1 c2 c3 in_len count room out_len lft rest :
  0 ≤ c1 ≤ 64 → 0 ≤ c2 ≤ 64 → 0 ≤ c3 ≤ 64 → 0 ≤ count → out_len < 2 ^ 32 →
  count + Z.of_nat room = out_len → (1 ≤ room ≤ length rest)%nat →
  tail_result c2 c3 in_len count room lft rest
    (take room (if decide (c2 < NV) then second_byte c1 c2 ::
      (if decide (c3 < NV) then [third_byte c2 c3] else []) else []))
    (decode_second c1 c2 c3 in_len count out_len (at_out lft rest)).
Proof.
  intros H1 H2 H3 Hc Hmax Hout Hroom. destruct rest as [| x rest]; [cbn in *; lia |].
  destruct room as [| room]; [lia |]. unfold decode_second.
  step_with (put_byte_run (Z.shiftl (Z.land c1 0xF) 4) lft x rest).
  rewrite join2 by (unfold is_byte; lia). destruct (decide (c2 < NV)) as [Hlt | Hge].
  2: { rewrite firstn_nil. apply tail_result_stop; [by apply same_after_put; lia | tauto]. }
  rewrite split2 by (unfold is_byte; lia).
  step_with (or_byte_run (c2 / 4) lft (c1 `mod` 16 * 16) rest).
  step_with (next_byte_run lft (second_byte c1 c2) rest).
  unfold u32. rewrite Z.mod_small by lia. cbn [take]. apply tail_result_cons.
  destruct (decide (count + 1 < out_len)) as [Hr | Hr].
  - apply decode_third_run; cbn in *; lia.
  - replace room with 0%nat by lia. apply tail_result_stop; [done | by left].
Qed.

Lemma decode_body_run c0 c1 c2 c3 in_len count room out_len lft rest :
  Forall (λ c, 0 ≤ c ≤ 64) [c0; c1; c2; c3] → 0 ≤ count → out_len < 2 ^ 32 →
  count + Z.of_nat room = out_len → (1 ≤ room ≤ length rest)%nat →
  tail_result c2 c3 in_len count room lft rest (group_bytes c0 c1 c2 c3 room)
    (decode_body c0 c1 c2 c3 in_len count out_len (at_out lft rest)).
Proof.
  intros Hc Hcount Hmax Hout Hroom. rewrite !Forall_cons in Hc.
  destruct Hc as (H0 & H1 & H2 & H3 & _). destruct rest as [| x rest]; [cbn in *; lia |].
  destruct room as [| room]; [lia |]. unfold decode_body.
  step_with (put_byte_run (Z.shiftl c0 2) lft x rest).
  rewrite high4, join1 by (unfold is_byte; lia).
  step_with (or_byte_run (c1 / 16) lft (c0 `mod` 64 * 4) rest).
  step_with (next_byte_run lft (first_byte c0 c1) rest).
  unfold u32. rewrite Z.mod_small by lia. apply tail_result_cons.
  destruct (decide (count + 1 < out_len)) as [Hr | Hr].
  - apply decode_second_run; cbn in *; lia.
  - replace room with 0%nat by lia. apply tail_result_stop; [done | by left].
Qed.

Lemma same_after_trans room k rest rest1 rest2 :
  same_after room rest rest1 → same_after (room - k) (drop k rest1) rest2 → (k ≤ room)%nat →
  same_after (room - k) (drop k rest) rest2.
Proof.
  intros (L1 & D1 & Z1) (L2 & D2 & Z2) Hk. rewrite length_drop in *.
  assert (∀ j, drop (S j) rest1 = drop (S j) rest) as Hd.
  { intros j. replace (S j) with (j + 1)%nat by lia. by rewrite <- !skipn_skipn, D1. }
  split_and!.
  - by rewrite L2, L1, length_drop.
  - by rewrite D2, !skipn_skipn, Hd.
  - intros Hz. rewrite Z2 by done. destruct k; [| by rewrite Hd]. cbn. apply Z1. lia.
Qed.

Lemma group_bytes_length c0 c1 c2 c3 room : (length (group_bytes c0 c1 c2 c3 room) ≤ room)%nat.
Proof. unfold group_bytes. rewrite length_take. lia. Qed.

(** The results of the loop: [w] is added in a room of [room] bytes. *)
Definition loop_result (count : Z) (room : nat) (lft rest w : list Z) (r : res (Z * outbuf)) : Prop :=
  ∃ rest', r = Ok (count + Z.of_nat (length w), at_out (lft ++ w) rest') ∧
    same_after (room - length w) (drop (length w) rest) rest'.

Lemma loop_result_nil count room lft rest :
  loop_result count room lft rest [] (Ok (count, at_out lft rest)).
Proof. exists rest. rewrite app_nil_r, Z.add_0_r. by rewrite Nat.sub_0_r. Qed.

Lemma loop_result_app count room lft rest rest1 w1 w2 r :
  same_after (room - length w1) (drop (length w1) rest) rest1 →
  (length w1 + length w2 ≤ room)%nat →
  loop_result (count + Z.of_nat (length w1)) (room - length w1) (lft ++ w1) rest1 w2 r →
  loop_result count room lft rest (w1 ++ w2) r.
Proof.
  intros Hs1 Hlen (rest2 & -> & Hs2). exists rest2. rewrite length_app. split.
  - rewrite (assoc_L (++)). do 2 f_equal. lia.
  - pose proof (same_after_trans _ _ _ _ _ Hs1 Hs2 ltac:(lia)) as Hs.
    rewrite skipn_skipn in Hs. by rewrite Nat.sub_add_distr, (Nat.add_comm (length w1)).
Qed.

(** The reads of a turn, for characters that are not negative *)
Lemma decode_turn sg fuel inp p ch tl in_len count out_len s :
  drop p inp = ch ++ tl → length ch = 4%nat → Forall (plain_char sg) ch →
  in_len > 3 → count < out_len →
  ∃ c0 c1 c2 c3, char_value <$> ch = [c0; c1; c2; c3] ∧
    decode_groups sg (S fuel) inp p in_len count out_len s =
      (r ← decode_body c0 c1 c2 c3 (in_len - 4) count out_len;
       decode_groups sg fuel inp (p + 4) (fst r) (snd r) out_len) s.
Proof.
  intros E Hlen Hch Hin Hc. destruct ch as [| x0 [| x1 [| x2 [| x3 [|]]]]]; try done.
  rewrite !Forall_cons in Hch. destruct Hch as (H0 & H1 & H2 & H3 & _).
  eexists _, _, _, _. split; [done |]. cbn [decode_groups]. rewrite decide_True by lia.
  rewrite <- (Nat.add_0_r p) at 1.
  step_with (decode_char_run sg inp p 0 _ _ _ s E eq_refl H0).
  step_with (decode_char_run sg inp p 1 _ _ _ s E eq_refl H1).
  step_with (decode_char_run sg inp p 2 _ _ _ s E eq_refl H2).
  step_with (decode_char_run sg inp p 3 _ _ _ s E eq_refl H3). done.
Qed.

Lemma decode_groups_stop sg fuel inp p in_len count out_len s :
  ¬ (in_len > 3 ∧ count < out_len) → decode_groups sg fuel inp p in_len count out_len s = Ok (count, s).
Proof. intros Hs. destruct fuel; cbn [decode_groups]; by rewrite decide_False by done. Qed.

Lemma char_values_range sg ch :
  Forall (plain_char sg) ch → Forall (λ c, 0 ≤ c ≤ 64) (char_value <$> ch).
Proof. intros Hch. apply Forall_fmap. eapply Forall_impl; [done |]. intros b [Hb _]. by apply char_value_range. Qed.

(** A turn of the loop *)
Lemma decode_groups_turn sg fuel inp p ch tl in_len count room out_len lft rest :
  drop p inp = ch ++ tl → length ch = 4%nat → Forall (plain_char sg) ch → in_len > 3 →
  0 ≤ count → out_len < 2 ^ 32 → count + Z.of_nat room = out_len → (1 ≤ room ≤ length rest)%nat →
  ∃ c0 c1 c2 c3 in_len' rest1, char_value <$> ch = [c0; c1; c2; c3] ∧
    let w := group_bytes c0 c1 c2 c3 room in
    decode_groups sg (S fuel) inp p in_len count out_len (at_out lft rest) =
      decode_groups sg fuel inp (p + 4) in_len' (count + Z.of_nat (length w)) out_len
        (at_out (lft ++ w) rest1) ∧
    same_after (room - length w) (drop (length w) rest) rest1 ∧
    (in_len' = in_len - 4 ∨ in_len' = 0) ∧ (c2 < NV → c3 < NV → in_len' = in_len - 4).
Proof.
  intros E Hlen Hch Hin Hc Hmax Hout Hroom.
  destruct (decode_turn sg fuel inp p ch tl in_len count out_len (at_out lft rest))
    as (c0 & c1 & c2 & c3 & Hv & ->); [done | done | done | done | lia |].
  destruct (decode_body_run c0 c1 c2 c3 (in_len - 4) count room out_len lft rest)
    as (in_len' & rest1 & Hrun & Hs); [| done | done | done | lia |].
  { rewrite <- Hv. by eapply char_values_range. }
  exists c0, c1, c2, c3, in_len', rest1. split; [done |]. split; [by step_with Hrun | done].
Qed.

(** The loop on any characters that are not negative *)
Lemma decode_groups_any sg inp out_len : out_len < 2 ^ 32 → ∀ fuel p t tl count room lft rest,
  drop p inp = t ++ tl → Forall (plain_char sg) t → (length t ≤ fuel)%nat →
  0 ≤ count → count + Z.of_nat room = out_len → (room ≤ length rest)%nat →
  ∃ w, (length w ≤ room)%nat ∧ loop_result count room lft rest w
    (decode_groups sg fuel inp p (Z.of_nat (length t)) count out_len (at_out lft rest)).
Proof.
  intros Hmax. induction fuel as [| fuel IH]; intros p t tl count room lft rest E Ht Hfuel Hc Hout Hroom.
  { exists []. rewrite decode_groups_stop by lia. split; [cbn; lia | apply loop_result_nil]. }
  destruct (decide (Z.of_nat (length t) > 3 ∧ count < out_len)) as [[Hin Hlt] | Hstop].
  2: { exists []. rewrite decode_groups_stop by done. split; [cbn; lia | apply loop_result_nil]. }
  pose proof E as E4. rewrite <- (take_drop 4 t), <- (assoc_L (++)) in E4.
  destruct (decode_groups_turn sg fuel inp p (take 4 t) _ (Z.of_nat (length t)) count room out_len lft rest E4)
    as (c0 & c1 & c2 & c3 & in_len' & rest1 & _ & -> & Hs & Hin' & _);
    [rewrite length_take; lia | by apply Forall_take | done | done | done | done | lia |].
  pose proof (group_bytes_length c0 c1 c2 c3 room) as Hw.
  set (w := group_bytes c0 c1 c2 c3 room) in *.
  assert (∃ t' tl', drop (p + 4) inp = t' ++ tl' ∧ in_len' = Z.of_nat (length t') ∧
    Forall (plain_char sg) t' ∧ (length t' ≤ fuel)%nat) as (t' & tl' & E' & -> & Ht' & Hf').
  { destruct Hin' as [-> | ->].
    - exists (drop 4 t), tl. rewrite (drop_shift _ _ _ p 4 E), length_drop by lia.
      split_and!; [done | lia | by apply Forall_drop | lia].
    - exists [], (drop (p + 4) inp). split_and!; [done | done | constructor | cbn; lia]. }
  destruct Hs as (Hl & Hs1 & Hs0).
  destruct (IH (p + 4)%nat t' tl' (count + Z.of_nat (length w)) (room - length w)%nat (lft ++ w) rest1)
    as (w' & Hw' & Hres); [done | done | done | lia | lia | rewrite Hl, length_drop; lia |].
  exists (w ++ w'). rewrite length_app. split; [lia |].
  eapply loop_result_app; [done | lia | done].
Qed.

(** The loop on an encoding *)
Lemma base64_plain sg d : bytes d → Forall (plain_char sg) (base64 d).
Proof.
  assert (plain_char sg 61) as Hpad by (split; [done | lia]).
  assert (∀ v, 0 ≤ v < 64 → plain_char sg (b64_char v)) as Hch.
  { intros v Hv. destruct (char_value_char v Hv). split; [unfold is_byte |]; lia. }
  induction d as [| a | a b | a b c d IH] using list_ind3; rewrite ?Forall_cons; intros;
    destruct_and ?; cbn [base64 app]; repeat (apply Forall_cons; split);
    first [done | by apply Forall_nil | apply Hch; byte_bounds | by apply IH].
Qed.

Lemma first_byte_eq a y : is_byte a → 0 ≤ y < 16 → first_byte (a / 4) (a `mod` 4 * 16 + y) = a.
Proof.
  intros Ha Hy. unfold first_byte.
  rewrite (u8_lor_small _ _ 2 4) by (first [done | byte_bounds]). byte_bounds.
Qed.

Lemma second_byte_eq x b y :
  is_byte b → 0 ≤ y < 4 → second_byte (x * 16 + b / 16) (b `mod` 16 * 4 + y) = b.
Proof.
  intros Hb Hy. unfold second_byte. rewrite Z.add_comm, Z.mod_add by lia.
  rewrite (u8_lor_small _ _ 4 16) by (first [done | byte_bounds]). byte_bounds.
Qed.

Lemma third_byte_eq x c : is_byte c → third_byte (x * 4 + c / 64) (c `mod` 64) = c.
Proof.
  intros Hc. unfold third_byte. rewrite Z.add_comm, Z.mod_add by lia.
  rewrite (u8_lor_small _ _ 6 64) by (first [done | byte_bounds]). byte_bounds.
Qed.

Lemma char_value_eq v : 0 ≤ v < 64 → char_value (b64_char v) = v.
Proof. intros. by apply char_value_char. Qed.

Lemma char_value_pad : char_value 61 = NV.
Proof. reflexivity. Qed.

(** The values of a group, and the bytes they stand for *)
Lemma base64_values a b c : is_byte a → is_byte b → is_byte c →
  char_value <$> take 4 (base64 [a]) = [a / 4; a `mod` 4 * 16; NV; NV] ∧
  char_value <$> take 4 (base64 [a; b]) = [a / 4; a `mod` 4 * 16 + b / 16; b `mod` 16 * 4; NV] ∧
  ∀ d, char_value <$> take 4 (base64 (a :: b :: c :: d)) =
    [a / 4; a `mod` 4 * 16 + b / 16; b `mod` 16 * 4 + c / 64; c `mod` 64].
Proof.
  intros ???. cbn [base64 app take fmap list_fmap].
  rewrite !char_value_pad, !char_value_eq by byte_bounds. split_and!; [done | done |].
  intros d. by rewrite ?char_value_eq by byte_bounds.
Qed.

Lemma group_bytes_eq a b c room : is_byte a → is_byte b → is_byte c →
  ((1 ≤ room)%nat → group_bytes (a / 4) (a `mod` 4 * 16) NV NV room = [a]) ∧
  ((2 ≤ room)%nat →
    group_bytes (a / 4) (a `mod` 4 * 16 + b / 16) (b `mod` 16 * 4) NV room = [a; b]) ∧
  ((3 ≤ room)%nat → group_bytes (a / 4) (a `mod` 4 * 16 + b / 16) (b `mod` 16 * 4 + c / 64)
    (c `mod` 64) room = [a; b; c]).
Proof.
  intros Ha Hb Hc. unfold group_bytes. rewrite !first_byte_eq by byte_bounds.
  rewrite third_byte_eq, !second_byte_eq by first [done | byte_bounds].
  rewrite !(decide_False (P := NV < NV)) by lia.
  pose proof (first_byte_eq a 0 Ha ltac:(lia)) as Ha0. rewrite Z.add_0_r in Ha0. rewrite Ha0.
  pose proof (second_byte_eq (a `mod` 4) b 0 Hb ltac:(lia)) as Hb0. rewrite Z.add_0_r in Hb0.
  rewrite Hb0, !decide_True by (unfold NV; byte_bounds).
  split_and!; intros; by rewrite take_ge by (cbn; lia).
Qed.

(** A padded group ends the loop. *)
Lemma last_group sg inp out_len fuel p d tl count room lft rest :
  drop p inp = base64 d ++ tl → bytes d → (length d = 1 ∨ length d = 2)%nat →
  Forall (plain_char sg) (base64 d) → 0 ≤ count → out_len < 2 ^ 32 →
  count + Z.of_nat room = out_len → (length d ≤ room ≤ length rest)%nat →
  loop_result count room lft rest d
    (decode_groups sg (S fuel) inp p (Z.of_nat (length (base64 d))) count out_len (at_out lft rest)).
Proof.
  intros E Hd Hlen Hpl Hc Hmax Hout Hroom.
  assert (length (base64 d) = 4%nat) as H4 by (rewrite base64_length; by destruct Hlen as [-> | ->]).
  destruct (decode_groups_turn sg fuel inp p (base64 d) tl (Z.of_nat (length (base64 d))) count room
    out_len lft rest) as (c0 & c1 & c2 & c3 & in_len' & rest1 & Hv & -> & Hs & Hin' & _);
    [done | done | done | lia | done | done | done | lia |].
  assert (group_bytes c0 c1 c2 c3 room = d) as Hw.
  { destruct d as [| a [| b [|]]]; cbn in Hlen; [lia | | | lia]; rewrite !Forall_cons in Hd; destruct_and ?.
    - pose proof (proj1 (base64_values a 0 0 ltac:(done) ltac:(done) ltac:(done))) as Hval.
      pose proof (eq_trans (eq_sym Hval) Hv) as Heq. injection Heq as <- <- <- <-.
      by apply (group_bytes_eq a 0 0); first [done | lia].
    - pose proof (proj1 (proj2 (base64_values a b 0 ltac:(done) ltac:(done) ltac:(done)))) as Hval.
      pose proof (eq_trans (eq_sym Hval) Hv) as Heq. injection Heq as <- <- <- <-.
      by apply (group_bytes_eq a b 0); first [done | cbn in *; lia]. }
  rewrite Hw in *. rewrite decode_groups_stop by lia.
  exists rest1. split; [done | done].
Qed.

Lemma decode_groups_base64 sg inp out_len : out_len < 2 ^ 32 → ∀ d fuel p tl count room lft rest,
  drop p inp = base64 d ++ tl → bytes d → (length (base64 d) ≤ fuel)%nat →
  0 ≤ count → count + Z.of_nat room = out_len → (length d ≤ room ≤ length rest)%nat →
  loop_result count room lft rest d
    (decode_groups sg fuel inp p (Z.of_nat (length (base64 d))) count out_len (at_out lft rest)).
Proof.
  intros Hmax d. induction d as [| a | a b | a b c d IH] using list_ind3;
    intros fuel p tl count room lft rest E Hd Hfuel Hc Hout Hroom.
  { rewrite decode_groups_stop by (cbn; lia). apply loop_result_nil. }
  all: pose proof (base64_plain sg _ Hd) as Hpl; rewrite ?Forall_cons in Hd; destruct_and ?;
    destruct fuel as [| fuel]; [cbn in *; lia |].
  - apply (last_group sg inp out_len fuel p [a] tl);
      first [done | by rewrite !Forall_cons | cbn in *; lia].
  - apply (last_group sg inp out_len fuel p [a; b] tl);
      first [done | by rewrite !Forall_cons | cbn in *; lia].
  - set (d' := a :: b :: c :: d) in *. set (ch := take 4 (base64 d')).
    assert (base64 d' = ch ++ base64 d) as Eb by done.
    rewrite Eb, <- (assoc_L (++)) in E. rewrite Eb in Hpl |- *. apply Forall_app in Hpl as [Hpl _].
    destruct (decode_groups_turn sg fuel inp p ch (base64 d ++ tl) (Z.of_nat (length (ch ++ base64 d))) count room
      out_len lft rest E eq_refl Hpl) as (c0 & c1 & c2 & c3 & in_len' & rest1 & Hv & -> & Hs & _ & Hin');
      [rewrite length_app; change (length ch) with 4%nat; lia | done | done | done | cbn in *; lia |].
    destruct (base64_values a b c) as (_ & _ & Hval); [done.. |].
    pose proof (eq_trans (eq_sym (Hval d)) Hv) as Heq. injection Heq as <- <- <- <-.
    destruct (group_bytes_eq a b c room) as (_ & _ & Hw); [done.. |].
    rewrite Hw in * by (cbn in *; lia).
    rewrite Hin', length_app by (unfold NV; byte_bounds).
    apply (loop_result_app _ _ _ _ rest1 [a; b; c] d); [done | cbn in *; lia |].
    replace (Z.of_nat (length ch + length (base64 d)) - 4) with (Z.of_nat (length (base64 d)))
      by (change (length ch) with 4%nat; lia).
    destruct Hs as (Hl & _).
    apply (IH fuel (p + 4)%nat tl); [exact (drop_shift _ ch _ p 4 E (le_n 4)) | done | | | |].
    all: rewrite ?Hl, ?length_drop; cbn in *; lia.
Qed.

(** ** Lengths *)
Lemma land_multiple4 x : 0 ≤ x < 2 ^ 32 → Z.land x (u32 (Z.lnot 0x3)) = x / 4 * 4.
Proof.
  intros Hx. unfold u32. rewrite <- Z.land_ones by lia.
  rewrite (Z.land_comm (Z.lnot 3)), Z.land_assoc, Z.land_ones, Z.mod_small by lia.
  change 3 with (Z.ones 2). rewrite <- Z.ldiff_land, Z.ldiff_ones_r, Z.shiftl_mul_pow2, Z.shiftr_div_pow2 by lia.
  done.
Qed.

(** [4u * in_len] does not overflow below 2^30. *)
Lemma encodeLength_eq d :
  Z.of_nat (length d) < 2 ^ 30 →
  Base64_encodeLength (Z.of_nat (length d)) = Z.of_nat (length (base64 d)).
Proof.
  intros Hd. unfold Base64_encodeLength, u32 at 1 2. rewrite base64_length.
  rewrite (Z.mod_small (4 * _)) by lia. rewrite Z.mod_small by (Z.div_mod_to_equations; lia).
  rewrite land_multiple4 by (Z.div_mod_to_equations; lia).
  rewrite Nat2Z.inj_mul, Nat2Z.inj_div, Nat2Z.inj_add. Z.div_mod_to_equations; lia.
Qed.

Lemma b64_char_not_pad v : 0 ≤ v < 64 → b64_char v ≠ 61.
Proof. intros. unfold b64_char. repeat case_decide; lia. Qed.

(** The characters of [=] at the end *)
Lemma base64_pads d : bytes d → d ≠ [] → ∃ l y z, base64 d = l ++ [y; z] ∧
  (Z.of_nat (length l) + 2) / 4 * 3 = Z.of_nat (length d) +
    ((if decide (y = 61) then 1 else 0) + (if decide (z = 61) then 1 else 0)).
Proof.
  induction d as [| a | a b | a b c d IH] using list_ind3; intros Hd Hne; [done | | |];
    rewrite ?Forall_cons in Hd; destruct_and ?.
  - eexists [_; _], _, _. split; [done |]. done.
  - eexists [_; _], _, _. split; [done |].
    rewrite decide_False by (apply b64_char_not_pad; byte_bounds). done.
  - destruct (decide (d = [])) as [-> | Hd'].
    + eexists [_; _], _, _. split; [done |].
      rewrite !decide_False by (apply b64_char_not_pad; byte_bounds). done.
    + destruct IH as (l & y & z & E & Hl); [done | done |]. cbn [base64]. rewrite E.
      eexists (_ :: _ :: _ :: _ :: l), y, z. split; [done |]. cbn [length].
      replace (Z.of_nat (S (S (S (S (length l))))) + 2) with (Z.of_nat (length l) + 2 + 1 * 4) by lia.
      rewrite Z.div_add by lia. lia.
Qed.

Lemma decodeLength_base64 {S} d tl (s : S) :
  bytes d → Z.of_nat (length (base64 d)) < 2 ^ 32 →
  Base64_decodeLength (Some (base64 d ++ tl)) (Z.of_nat (length (base64 d))) s =
    Ok (Z.of_nat (length d), s).
Proof.
  intros Hd Hmax. destruct (decide (d = [])) as [-> | Hne]; [done |].
  destruct (base64_pads d Hd Hne) as (l & y & z & E & Hl). unfold Base64_decodeLength.
  assert (length (base64 d) = length l + 2)%nat as Hlen by (rewrite E, length_app; done).
  rewrite Hlen in *. rewrite !decide_True by lia. rewrite E, <- (assoc_L (++)). cbn [app].
  assert ((l ++ y :: z :: tl) !! Z.to_nat (Z.of_nat (length l + 2) - 2) = Some y) as Hy
    by (apply list_lookup_middle; lia).
  assert ((l ++ y :: z :: tl) !! Z.to_nat (Z.of_nat (length l + 2) - 1) = Some z) as Hz.
  { change (y :: z :: tl) with ([y] ++ z :: tl). rewrite (assoc_L (++)).
    apply list_lookup_middle. rewrite length_app. cbn. lia. }
  unfold read_at. rewrite Hy, Hz. unfold mret, M_ret, mbind, M_bind.
  rewrite (decide_True (P := _ > 0)) by lia.
  do 2 f_equal. rewrite Nat2Z.inj_add. change (Z.of_nat 2) with 2. rewrite Hl. unfold u32.
  rewrite (Z.mod_small (_ + _)) by (repeat case_decide; Z.div_mod_to_equations; lia).
  rewrite Z.mod_small; [lia |]. repeat case_decide; Z.div_mod_to_equations; lia.
Qed.

(** ** The properties *)

(** C40: Base64_encode writes the encoding of RFC 4648 and a NUL after it when
    the block has room for one, changes nothing behind it, and returns its length.  When
    the encoding does not fit it writes the groups that do; it then returns 0,
    unless the block ends with a group: then it returns the size of the block. *)
Theorem Base64_encode_reference d tl out rest :
  bytes d → Z.of_nat (length out) < 2 ^ 32 - 4 →
  let l := length (base64 d) in
  let k := (4 * (length out / 4))%nat in
  ∃ pos, Base64_encode (Z.of_nat (length out)) (d ++ tl) (Z.of_nat (length d)) (OutBuf (out ++ rest) 0) =
    if decide (l ≤ length out)%nat
    then Ok (Z.of_nat l, OutBuf (base64 d ++ nul_first (drop l out) ++ rest) pos)
    else Ok (if decide (k = length out) then Z.of_nat (length out) else 0,
             OutBuf (take k (base64 d) ++ drop k out ++ rest) pos).
Proof. apply encode_run. Qed.

(** The bytes of an ASCII string *)
Definition ascii_bytes (s : string) : list Z :=
  (λ a, Z.of_N (Ascii.N_of_ascii a)) <$> String.list_ascii_of_string s.

Lemma Base64_encode_reference_witness :
  ∃ pos, Base64_encode 25 (ascii_bytes "paho with web") 13 (OutBuf (replicate 26 7) 0) =
    Ok (20, OutBuf (ascii_bytes "cGFobyB3aXRoIHdlYg==" ++ 0 :: replicate 5 7) pos).
Proof.
  destruct (Base64_encode_reference (ascii_bytes "paho with web") [] (replicate 25 7) [7]) as [pos H].
  - apply (bool_decide_unpack _). vm_compute. reflexivity.
  - vm_compute. reflexivity.
  - exists pos. vm_compute in H |- *. exact H.
Defined.

(** The end of Base64_decode: a NUL after what was written *)
Lemma finish_run count w out rest (r : res (Z * outbuf)) :
  loop_result 0 (length out) [] (out ++ rest) w r → (length w ≤ length out)%nat →
  count = Z.of_nat (length out) →
  ∃ pos, (match r with
    | Ok (n, s) => (if decide (n ≤ count) then
        _ ← (if decide (n < count) then put_byte 0 else mret tt); mret n
      else mret 0) s
    | Err f => Err f end) =
    Ok (Z.of_nat (length w), OutBuf (w ++ nul_first (drop (length w) out) ++ rest) pos).
Proof.
  intros (rest' & -> & Hl & Hs & H0) Hfit ->. rewrite Z.add_0_l, decide_True by lia. cbn [app].
  rewrite drop_app_le in Hl, Hs, H0 by done.
  destruct (decide (Z.of_nat (length w) < _)) as [Hlt | Hge].
  - destruct (drop (length w) out) as [| x out'] eqn:Eo.
    { apply (f_equal length) in Eo. rewrite length_drop in Eo. cbn in Eo. lia. }
    destruct rest' as [| y rest']; [done |]. cbn in Hs. rewrite !drop_0 in Hs. subst rest'.
    step_with (put_byte_run 0 w y (out' ++ rest)). by eexists.
  - rewrite H0 by lia. rewrite (drop_ge out) by lia. by eexists.
Qed.

Lemma decode_run sg d tl out rest :
  bytes d → Z.of_nat (length out) < 2 ^ 32 → (length d ≤ length out)%nat →
  ∃ pos, Base64_decode sg (Z.of_nat (length out)) (base64 d ++ tl) (Z.of_nat (length (base64 d)))
      (OutBuf (out ++ rest) 0) =
    Ok (Z.of_nat (length d), OutBuf (d ++ nul_first (drop (length d) out) ++ rest) pos).
Proof.
  intros Hd Hmax Hfit. unfold Base64_decode. rewrite Nat2Z.id.
  eapply (finish_run _ d out rest); [| done | done].
  apply (decode_groups_base64 sg (base64 d ++ tl) _ Hmax d (length (base64 d)) 0 tl);
    first [done | rewrite ?length_app; lia].
Qed.

(** C39: decoding an encoding gives the bytes back: for any bytes and any two
    blocks the size functions find large enough, Base64_decode applied to what
    Base64_encode wrote returns the bytes, their number, and a NUL behind them
    when there is room, and changes nothing else; Base64_encodeLength
    is the length of the encoding and Base64_decodeLength the number of the bytes. *)
Theorem Base64_roundtrip sg d code out rest :
  bytes d → Z.of_nat (length d) < 2 ^ 30 → Z.of_nat (length code) < 2 ^ 32 - 4 →
  Z.of_nat (length out) < 2 ^ 32 →
  Base64_encodeLength (Z.of_nat (length d)) ≤ Z.of_nat (length code) →
  (length d ≤ length out)%nat →
  ∃ n text pos pos',
    Base64_encode (Z.of_nat (length code)) d (Z.of_nat (length d)) (OutBuf code 0) =
      Ok (n, OutBuf text pos) ∧
    n = Base64_encodeLength (Z.of_nat (length d)) ∧
    Base64_decodeLength (Some text) n () = Ok (Z.of_nat (length d), ()) ∧
    Base64_decode sg (Z.of_nat (length out)) text n (OutBuf (out ++ rest) 0) =
      Ok (Z.of_nat (length d), OutBuf (d ++ nul_first (drop (length d) out) ++ rest) pos').
Proof.
  intros Hd Hmax Hcode Hout Hfit Hfit2. rewrite encodeLength_eq in * by done.
  destruct (encode_run d [] code [] Hd Hcode) as [pos He]. rewrite !app_nil_r in He.
  rewrite decide_True in He by lia.
  set (tl := nul_first (drop (length (base64 d)) code)) in *.
  destruct (decode_run sg d tl out rest Hd Hout Hfit2) as [pos' Hdec].
  exists (Z.of_nat (length (base64 d))), (base64 d ++ tl), pos, pos'.
  split_and!; [done | done | by apply decodeLength_base64; [done | lia] | done].
Qed.

Lemma Base64_roundtrip_witness :
  ∃ n text pos pos',
    Base64_encode 29 (ascii_bytes "paho with websockets") 20 (OutBuf (replicate 29 7) 0) =
      Ok (n, OutBuf text pos) ∧ n = 28 ∧ Base64_decodeLength (Some text) n () = Ok (20, ()) ∧
    Base64_decode true 21 text n (OutBuf (replicate 21 9) 0) =
      Ok (20, OutBuf (ascii_bytes "paho with websockets" ++ [0]) pos').
Proof.
  apply (Base64_roundtrip true (ascii_bytes "paho with websockets") (replicate 29 7) (replicate 21 9) []).
  - apply (bool_decide_unpack _). vm_compute. reflexivity.
  - vm_compute. reflexivity.
  - vm_compute. reflexivity.
  - vm_compute. reflexivity.
  - vm_compute. discriminate.
  - vm_compute. lia.
Defined.

(** Base64_decode stays inside its blocks on any text: when no character is
    negative as a plain [char], it has no fault, changes nothing behind the
    [out_len] bytes it may write, and the number it returns is at most [out_len].
    (A negative character is an index before the table: see
    [decode_negative_index].) *)
Theorem Base64_decode_bounds sg text tl out rest :
  Forall (plain_char sg) text → Z.of_nat (length out) < 2 ^ 32 →
  ∃ n out' pos,
    Base64_decode sg (Z.of_nat (length out)) (text ++ tl) (Z.of_nat (length text))
      (OutBuf (out ++ rest) 0) = Ok (n, OutBuf (out' ++ rest) pos) ∧
    0 ≤ n ≤ Z.of_nat (length out) ∧ length out' = length out ∧
    (n < Z.of_nat (length out) → out' !! Z.to_nat n = Some 0).
Proof.
  intros Ht Hmax. unfold Base64_decode. rewrite Nat2Z.id.
  destruct (decode_groups_any sg (text ++ tl) _ Hmax (length text) 0 text tl 0 (length out) [] (out ++ rest))
    as (w & Hw & Hres); [done | done | done | done | done | rewrite length_app; lia |].
  destruct (finish_run _ w out rest _ Hres Hw eq_refl) as [pos Hrun].
  exists (Z.of_nat (length w)), (w ++ nul_first (drop (length w) out)), pos.
  rewrite <- (assoc_L (++)). split_and!; [done | lia | lia | |].
  - rewrite length_app. pose proof (length_drop out (length w)) as Hlen. revert Hlen.
    destruct (drop (length w) out); cbn; lia.
  - intros Hlt. rewrite Nat2Z.id, lookup_app_r, Nat.sub_diag by lia.
    pose proof (length_drop out (length w)) as Hlen. revert Hlen.
    destruct (drop (length w) out); cbn; [lia | done].
Qed.

Lemma Base64_decode_bounds_witness :
  ∃ n out' pos,
    Base64_decode false 4 [0xC3; 0xA9; 61; 61; 61; 65; 65; 65; 10] 9 (OutBuf [1; 2; 3; 4; 5] 0) =
      Ok (n, OutBuf (out' ++ [5]) pos) ∧
    0 ≤ n ≤ 4 ∧ length out' = 4%nat ∧ (n < 4 → out' !! Z.to_nat n = Some 0).
Proof.
  apply (Base64_decode_bounds false [0xC3; 0xA9; 61; 61; 61; 65; 65; 65; 10] [] [1; 2; 3; 4] [5]).
  - repeat apply List.Forall_cons; try apply List.Forall_nil; split; first [done | lia].
  - vm_compute. reflexivity.
Defined.

(** With a signed [char] a byte from 128 on reads before the table. *)
Lemma decode_negative_index out :
  (0 < length out)%nat →
  Base64_decode true (Z.of_nat (length out)) [0xC3; 0xA9; 61; 61] 4 (OutBuf out 0) = Err OutOfBounds.
Proof.
  intros Hout. unfold Base64_decode. cbn [decode_groups Z.to_nat Pos.to_nat]. change (Z.to_nat 4) with 4%nat.
  cbn [decode_groups]. by rewrite decide_True by lia.
Qed.
