(* ===== verification/SHA1.v ===== *)
(** * SHA-1 (src/src/SHA1.c, src/src/SHA1.h)

    The incremental hash the file has for builds without OpenSSL and Windows,
    and the one-shot function of FIPS 180-4 as a reference definition.

    The union of [w] and [buffer] is the 64 bytes in memory: a word of [w] is
    read and written in the byte order of the host, little endian when [le] is
    true, so that the conversions be32toh and htobe32 mean what they do in C. *)
From S2P Require Import Prelude Words.
Local Open Scope Z_scope.

(** ** Byte order *)

(** [be32toh]: the value of the bytes of [v] as a big endian word; [htobe32]: the
    value whose bytes are the big endian bytes of [v]. *)
Definition be32toh (le : bool) (v : Z) : Z := be_word (native_bytes le v).
Definition htobe32 (le : bool) (v : Z) : Z := native_word le (be_bytes v).

(** ** The context *)

(** An array of five words *)
Record words5 := Words5 { x0 : Z; x1 : Z; x2 : Z; x3 : Z; x4 : Z }.

Definition map5 (f : Z → Z) (h : words5) : words5 :=
  Words5 (f (x0 h)) (f (x1 h)) (f (x2 h)) (f (x3 h)) (f (x4 h)).
Definition list5 (h : words5) : list Z := [x0 h; x1 h; x2 h; x3 h; x4 h].

Record SHA_CTX := mkCtx { c_h : words5; c_buffer : list Z; c_size : Z; c_total : Z }.

Definition SHA1_DIGEST_LENGTH : Z := 160 / 8.

(** The words [w] of the union, and the bytes of the words *)
Definition load_words (le : bool) (buffer : list Z) : list Z :=
  (λ i : nat, native_word le (take 4 (drop (4 * i) buffer))) <$> seq 0 16.
Definition store_words (le : bool) (w : list Z) : list Z := concat (native_bytes le <$> w).

Definition pad : list Z := 0x80 :: replicate 63 0.

(** A null pointer is [None]. *)
Definition SHA1_Init (ctx : option SHA_CTX) : Z * option SHA_CTX :=
  match ctx with
  | None => (0, None)
  | Some c =>
    (1, Some (mkCtx (Words5 0x67452301 0xEFCDAB89 0x98BADCFE 0x10325476 0xC3D2E1F0)
                (c_buffer c) 0 0))
  end.

(** ** The hash of a block *)
Definition ROTATE_LEFT32 (a n : Z) : Z := Z.lor (u32 (Z.shiftl a n)) (Z.shiftr a (32 - n)).

(** [w[i & 0x0F]] *)
Definition slot (i : nat) : nat := i `mod` 16.

Definition expand (i : nat) (w : list Z) : list Z :=
  if decide (16 ≤ i)%nat then
    <[slot i := ROTATE_LEFT32 (Z.lxor (Z.lxor (Z.lxor (w !!! slot (i + 13)) (w !!! slot (i + 8)))
      (w !!! slot (i + 2))) (w !!! slot i)) 1]> w
  else w.

(** [tmp], an int, and the words after the turn *)
Definition round (i : nat) (w : list Z) (blks : words5) : words5 :=
  let '(Words5 b0 b1 b2 b3 b4) := blks in
  let wi := w !!! slot i in
  let tmp := i32 (
    if decide (i < 20)%nat then
      ROTATE_LEFT32 b0 5 + Z.lor (Z.land b1 b2) (Z.land (u32 (Z.lnot b1)) b3) + b4 + wi + 0x5A827999
    else if decide (i < 40)%nat then
      ROTATE_LEFT32 b0 5 + Z.lxor (Z.lxor b1 b2) b3 + b4 + wi + 0x6ED9EBA1
    else if decide (i < 60)%nat then
      ROTATE_LEFT32 b0 5 + Z.lor (Z.lor (Z.land b1 b2) (Z.land b1 b3)) (Z.land b2 b3) + b4 + wi
        + 0x8F1BBCDC
    else ROTATE_LEFT32 b0 5 + Z.lxor (Z.lxor b1 b2) b3 + b4 + wi + 0xCA62C1D6) in
  Words5 (u32 tmp) b0 (ROTATE_LEFT32 b1 30) b2 b3.

(** The turns from [i] on *)
Fixpoint hash_loop (n i : nat) (w : list Z) (blks : words5) : list Z * words5 :=
  match n with
  | O => (w, blks)
  | S n' => let w := expand i w in hash_loop n' (S i) w (round i w blks)
  end.

Definition add5 (h blks : words5) : words5 :=
  Words5 (u32 (x0 h + x0 blks)) (u32 (x1 h + x1 blks)) (u32 (x2 h + x2 blks))
    (u32 (x3 h + x3 blks)) (u32 (x4 h + x4 blks)).

Definition SHA1_ProcessBlock (le : bool) : M SHA_CTX unit :=
  modify (λ ctx,
    let w := be32toh le <$> load_words le (c_buffer ctx) in
    let '(w, blks) := hash_loop 80 0 w (c_h ctx) in
    mkCtx (add5 (c_h ctx) blks) (store_words le w) (c_size ctx) (c_total ctx)).

(** ** Updates *)

(** [memcpy(ctx->buffer + ctx->size, data + p, n)], and the two counters *)
Definition add_bytes (data : list Z) (p n : nat) : M SHA_CTX unit := λ ctx,
  let size := Z.to_nat (c_size ctx) in
  let d := take n (drop p data) in
  if decide (length d = n ∧ (size + n ≤ length (c_buffer ctx))%nat) then
    Ok (tt, mkCtx (c_h ctx) (take size (c_buffer ctx) ++ d ++ drop (size + n) (c_buffer ctx))
              (u32 (c_size ctx + Z.of_nat n)) (u32 (c_total ctx + Z.of_nat n)))
  else Err OutOfBounds.

(** The end of a turn: a full buffer is hashed. *)
Definition flush (le : bool) : M SHA_CTX unit :=
  size ← gets c_size;
  if decide (size = 64) then
    _ ← SHA1_ProcessBlock le;
    modify (λ ctx, mkCtx (c_h ctx) (c_buffer ctx) 0 (c_total ctx))
  else mret tt.

Fixpoint update_loop (le : bool) (fuel : nat) (data : list Z) (p : nat) (len : Z) :
    M SHA_CTX unit :=
  if decide (len > 0) then
    match fuel with
    | O => fail Diverge
    | S fuel' =>
      size ← gets c_size;
      let n := u32 (64 - size) in
      let n := if decide (len < n) then len else n in
      _ ← add_bytes data p (Z.to_nat n);
      _ ← flush le;
      update_loop le fuel' data (p + Z.to_nat n) (len - n)
    end
  else mret tt.

Definition SHA1_Update (le : bool) (data : list Z) (len : Z) : M SHA_CTX Z :=
  _ ← update_loop le (Z.to_nat len) data 0 len;
  mret 1.

(** [ctx->w[i] = v] *)
Definition set_word (le : bool) (i : nat) (v : Z) : M SHA_CTX unit :=
  modify (λ ctx, mkCtx (c_h ctx)
    (take (4 * i) (c_buffer ctx) ++ native_bytes le v ++ drop (4 * i + 4) (c_buffer ctx))
    (c_size ctx) (c_total ctx)).

(** The result and, when [md] is not null, the bytes at [md] *)
Definition SHA1_Final (le : bool) (md : bool) : M SHA_CTX (Z * option (list Z)) :=
  ctx ← get;
  let total := u32 (c_total ctx * 8) in
  let pad_amount :=
    if decide (c_size ctx < 56) then u32 (56 - c_size ctx) else u32 (64 + 56 - c_size ctx) in
  _ ← SHA1_Update le pad pad_amount;
  _ ← set_word le 14 (htobe32 le (u32 (Z.shiftr total 32)));
  _ ← set_word le 15 (htobe32 le (u32 total));
  _ ← SHA1_ProcessBlock le;
  _ ← modify (λ ctx, mkCtx (map5 (htobe32 le) (c_h ctx)) (c_buffer ctx) (c_size ctx) (c_total ctx));
  ctx ← get;
  if md then mret (1, Some (concat (native_bytes le <$> list5 (c_h ctx)))) else mret (0, None).

(** ** Reference: FIPS 180-4, for messages of bytes *)
Definition ROTL (n x : Z) : Z := Z.lor (u32 (Z.shiftl x n)) (Z.shiftr x (32 - n)).

Definition Ch (x y z : Z) : Z := Z.lxor (Z.land x y) (Z.land (u32 (Z.lnot x)) z).
Definition Parity (x y z : Z) : Z := Z.lxor (Z.lxor x y) z.
Definition Maj (x y z : Z) : Z := Z.lxor (Z.lxor (Z.land x y) (Z.land x z)) (Z.land y z).

Definition f_t (t : nat) (x y z : Z) : Z :=
  if decide (t < 20)%nat then Ch x y z
  else if decide (t < 40)%nat then Parity x y z
  else if decide (t < 60)%nat then Maj x y z else Parity x y z.

Definition K_t (t : nat) : Z :=
  if decide (t < 20)%nat then 0x5A827999
  else if decide (t < 40)%nat then 0x6ED9EBA1
  else if decide (t < 60)%nat then 0x8F1BBCDC else 0xCA62C1D6.

(** The message schedule: [n] words more than the sixteen of the block *)
Fixpoint schedule (n : nat) (W : list Z) : list Z :=
  match n with
  | O => W
  | S n' =>
    let t := length W in
    schedule n' (W ++ [ROTL 1 (Z.lxor (Z.lxor (Z.lxor (W !!! (t - 3)%nat) (W !!! (t - 8)%nat))
      (W !!! (t - 14)%nat)) (W !!! (t - 16)%nat))])
  end.

Definition step_t (W : list Z) (r : words5) (t : nat) : words5 :=
  let '(Words5 a b c d e) := r in
  Words5 (u32 (ROTL 5 a + f_t t b c d + e + K_t t + W !!! t)) a (ROTL 30 b) c d.

Definition block_words (block : list Z) : list Z :=
  (λ i : nat, be_word (take 4 (drop (4 * i) block))) <$> seq 0 16.

Definition compress (h : words5) (block : list Z) : words5 :=
  add5 h (foldl (step_t (schedule 64 (block_words block))) h (seq 0 80)).

(** The block [i] of a message, and the hash of its first [n] blocks *)
Definition block_of (msg : list Z) (i : nat) : list Z := take 64 (drop (64 * i) msg).
Definition hash_blocks (msg : list Z) (n : nat) : words5 :=
  foldl compress (Words5 0x67452301 0xEFCDAB89 0x98BADCFE 0x10325476 0xC3D2E1F0)
    (block_of msg <$> seq 0 n).

(** The padding: a bit 1, zeros up to 448 modulo 512, and the length [bits] in
    64 bits *)
Definition padded (msg : list Z) (bits : Z) : list Z :=
  msg ++ [0x80] ++ replicate ((119 - length msg `mod` 64) `mod` 64) 0 ++
  be_bytes (bits / 2 ^ 32) ++ be_bytes bits.

Definition digest_of (h : words5) : list Z := concat (be_bytes <$> list5 h).

Definition sha1 (msg : list Z) : list Z :=
  let m := padded msg (8 * Z.of_nat (length msg)) in
  digest_of (hash_blocks m (length m / 64)).

(** ** Loads and stores *)
(** A load and its conversion read a big endian word, and so for stores. *)
Lemma be32toh_load le bs :
  length bs = 4%nat → bytes bs → be32toh le (native_word le bs) = be_word bs.
Proof. intros. unfold be32toh. by rewrite native_bytes_word. Qed.

Lemma native_bytes_htobe32 le v : native_bytes le (htobe32 le v) = be_bytes v.
Proof. apply native_bytes_word; [done | apply bytes_be_bytes]. Qed.

Lemma load_words_block le buffer :
  length buffer = 64%nat → bytes buffer → be32toh le <$> load_words le buffer = block_words buffer.
Proof.
  intros Hlen Hb. unfold load_words, block_words. rewrite <- list_fmap_compose.
  apply list_fmap_ext. intros i k Hk%list_elem_of_lookup_2. apply elem_of_seq in Hk.
  apply be32toh_load; [rewrite length_take, length_drop; lia | by apply Forall_take, Forall_drop].
Qed.

Lemma length_store_words le w : length (store_words le w) = (4 * length w)%nat.
Proof.
  unfold store_words. induction w as [| v w IH]; [done |]. cbn [fmap list_fmap concat].
  rewrite length_app, IH, length_native_bytes. cbn. lia.
Qed.

Lemma u32_i32 x : u32 (i32 x) = u32 x.
Proof. unfold u32, i32. Z.div_mod_to_equations; lia. Qed.

(** ** The functions of the rounds *)
Lemma choose_eq x y z :
  Z.lor (Z.land x y) (Z.land (u32 (Z.lnot x)) z) = Ch x y z.
Proof.
  unfold Ch. apply Z.bits_inj'. intros n Hn. rewrite Z.lor_spec, Z.lxor_spec, !Z.land_spec.
  unfold u32. destruct (decide (n < 32)).
  - rewrite Z.mod_pow2_bits_low, Z.lnot_spec by lia.
    by destruct (Z.testbit x n), (Z.testbit y n), (Z.testbit z n).
  - rewrite Z.mod_pow2_bits_high by lia. by destruct (Z.testbit x n), (Z.testbit y n).
Qed.

Lemma majority_eq x y z :
  Z.lor (Z.lor (Z.land x y) (Z.land x z)) (Z.land y z) = Maj x y z.
Proof.
  unfold Maj. apply Z.bits_inj'. intros n _. rewrite !Z.lor_spec, !Z.lxor_spec, !Z.land_spec.
  by destruct (Z.testbit x n), (Z.testbit y n), (Z.testbit z n).
Qed.

Lemma round_step W w i r : w !!! slot i = W !!! i → round i w r = step_t W r i.
Proof.
  intros E. destruct r as [a b c d e]. unfold round, step_t. rewrite E, u32_i32.
  rewrite choose_eq, majority_eq. unfold f_t, K_t, Parity, ROTL, ROTATE_LEFT32.
  f_equal; [f_equal; repeat case_decide; lia | done..].
Qed.

(** ** The schedule in sixteen words *)
Definition next_word (W : list Z) (t : nat) : Z :=
  ROTL 1 (Z.lxor (Z.lxor (Z.lxor (W !!! (t - 3)%nat) (W !!! (t - 8)%nat))
    (W !!! (t - 14)%nat)) (W !!! (t - 16)%nat)).

Lemma schedule_prefix n : ∀ W, ∃ V, schedule n W = W ++ V ∧ length V = n.
Proof.
  induction n as [| n IH]; intros W; [by exists []; rewrite app_nil_r |].
  cbn [schedule]. fold (next_word W (length W)).
  destruct (IH (W ++ [next_word W (length W)])) as (V & -> & HV).
  exists (next_word W (length W) :: V). rewrite <- (assoc_L (++)). split; [done | cbn; lia].
Qed.

Lemma schedule_next n : ∀ W t, (16 ≤ length W)%nat → (length W ≤ t < length W + n)%nat →
  schedule n W !!! t = next_word (schedule n W) t.
Proof.
  induction n as [| n IH]; intros W t HW Ht; [lia |]. cbn [schedule].
  fold (next_word W (length W)). destruct (decide (t = length W)) as [-> | Hne].
  - destruct (schedule_prefix n (W ++ [next_word W (length W)])) as (V & E & _). rewrite E.
    rewrite <- (assoc_L (++)).
    rewrite (lookup_total_app_r W _ (length W)), Nat.sub_diag by lia.
    trans (next_word W (length W)); [done |]. unfold next_word.
    by rewrite !(lookup_total_app_l W) by lia.
  - apply IH; rewrite length_app; cbn; lia.
Qed.

(** The circular buffer holds the sixteen words before the turn [i]. *)
Definition window (W w : list Z) (i : nat) : Prop :=
  length w = 16%nat ∧ ∀ j, (j < 16 `max` i)%nat → (i ≤ j + 16)%nat → w !!! slot j = W !!! j.

Lemma slot_neq i j : (j < i ≤ j + 15)%nat → slot j ≠ slot i.
Proof.
  unfold slot. intros Hij E. pose proof (Nat.div_mod_eq i 16). pose proof (Nat.div_mod_eq j 16). lia.
Qed.

Lemma slot_shift i k m : (k + m = 16)%nat → (16 ≤ i)%nat → slot (i + m) = slot (i - k).
Proof.
  intros Hk Hi. unfold slot. replace (i + m)%nat with (i - k + 1 * 16)%nat by lia.
  apply Nat.Div0.mod_add.
Qed.

Lemma slot_back i : (16 ≤ i)%nat → slot i = slot (i - 16).
Proof. intros. rewrite <- (slot_shift i 16 0) by lia. by rewrite Nat.add_0_r. Qed.

Lemma slot_lt i : (slot i < 16)%nat.
Proof. apply Nat.mod_upper_bound. lia. Qed.

Lemma expand_window W w i :
  (∀ t, (16 ≤ t < 80)%nat → W !!! t = next_word W t) → (i < 80)%nat → window W w i →
  window W (expand i w) (S i) ∧ expand i w !!! slot i = W !!! i.
Proof.
  intros HW Hi [Hlen Hw]. unfold expand. destruct (decide (16 ≤ i)%nat) as [Hge | Hlt].
  2: { split; [split; [done |]; intros; apply Hw; lia | apply Hw; lia]. }
  pose proof (slot_lt i) as Hs.
  assert (ROTATE_LEFT32 (Z.lxor (Z.lxor (Z.lxor (w !!! slot (i + 13)) (w !!! slot (i + 8)))
      (w !!! slot (i + 2))) (w !!! slot i)) 1 = W !!! i) as ->.
  { rewrite (HW i) by lia. unfold next_word.
    rewrite (slot_shift i 3 13), (slot_shift i 8 8), (slot_shift i 14 2), (slot_back i) by lia.
    by rewrite !Hw by lia. }
  split; [split; [by rewrite length_insert |] |].
  - intros j Hj Hj'. destruct (decide (j = i)) as [-> | Hne].
    + by rewrite list_lookup_total_insert_eq by lia.
    + rewrite list_lookup_total_insert_ne by (intros E; by apply (slot_neq i j); [lia |]).
      apply Hw; lia.
  - by rewrite list_lookup_total_insert_eq by lia.
Qed.

Lemma hash_loop_run W n : ∀ i w r,
  (∀ t, (16 ≤ t < 80)%nat → W !!! t = next_word W t) → (i + n ≤ 80)%nat → window W w i →
  ∃ w', hash_loop n i w r = (w', foldl (step_t W) r (seq i n)) ∧ length w' = 16%nat.
Proof.
  induction n as [| n IH]; intros i w r HW Hi Hw; [by exists w; destruct Hw |].
  destruct (expand_window W w i HW) as [Hw' E]; [lia | done |]. cbn [hash_loop seq foldl].
  rewrite (round_step W) by done. apply IH; [done | lia | done].
Qed.

(** A block through SHA1_ProcessBlock *)
Lemma process_block_run le h buffer size total :
  length buffer = 64%nat → bytes buffer →
  ∃ buffer', SHA1_ProcessBlock le (mkCtx h buffer size total) =
      Ok (tt, mkCtx (compress h buffer) buffer' size total) ∧ length buffer' = 64%nat.
Proof.
  intros Hlen Hb. unfold SHA1_ProcessBlock, modify. cbn [c_h c_buffer c_size c_total].
  rewrite load_words_block by done.
  destruct (schedule_prefix 64 (block_words buffer)) as (V & EV & HV).
  destruct (hash_loop_run (schedule 64 (block_words buffer)) 80 0 (block_words buffer) h)
    as (w' & -> & Hw').
  - intros t Ht. apply schedule_next; cbn [block_words length fmap list_fmap seq]; lia.
  - done.
  - split; [done |]. intros j Hj _. unfold slot. rewrite Nat.mod_small by lia.
    rewrite EV. by rewrite lookup_total_app_l by (cbn; lia).
  - eexists. split; [done |]. by rewrite length_store_words, Hw'.
Qed.

(** ** The context represents the bytes hashed so far *)
Lemma take_length_mod (l : list Z) q r :
  length l = (64 * q + r)%nat → length (drop (64 * q) l) = r.
Proof. intros. rewrite length_drop. lia. Qed.

Lemma hash_blocks_S msg n : hash_blocks msg (S n) = compress (hash_blocks msg n) (block_of msg n).
Proof.
  unfold hash_blocks. rewrite seq_S, fmap_app, foldl_app. done.
Qed.

(** The first [n] blocks are those of a longer message. *)
Lemma hash_blocks_app msg t n :
  (64 * n ≤ length msg)%nat → hash_blocks (msg ++ t) n = hash_blocks msg n.
Proof.
  induction n as [| n IH]; intros Hn; [done |]. rewrite !hash_blocks_S, IH by lia.
  apply (f_equal (compress _)). unfold block_of. rewrite drop_app_le by lia. apply take_app_le. rewrite length_drop. lia.
Qed.

#[local] Opaque compress hash_blocks SHA1_ProcessBlock.

(** [q] blocks are hashed, and [r] bytes are in the buffer. *)
Record represents (ctx : SHA_CTX) (msg : list Z) (q r : nat) : Prop := {
  rep_length : length msg = (64 * q + r)%nat;
  rep_small : (r < 64)%nat;
  rep_bytes : bytes msg;
  rep_hash : c_h ctx = hash_blocks msg q;
  rep_size : c_size ctx = Z.of_nat r;
  rep_total : c_total ctx = u32 (Z.of_nat (length msg));
  rep_buffer : length (c_buffer ctx) = 64%nat;
  rep_tail : take r (c_buffer ctx) = drop (64 * q) msg;
}.

Lemma represents_init c :
  length (c_buffer c) = 64%nat →
  ∃ c', SHA1_Init (Some c) = (1, Some c') ∧ represents c' [] 0 0.
Proof. intros Hlen. eexists. split; [done |].
  constructor; first [done | cbn; lia].
Qed.

Lemma u32_add_l x y : u32 (u32 x + y) = u32 (x + y).
Proof. unfold u32. by rewrite Zplus_mod_idemp_l. Qed.

(** [d] is copied behind the bytes of the buffer. *)
Lemma add_bytes_run ctx msg q r data p d tl :
  represents ctx msg q r → drop p data = d ++ tl → (r + length d ≤ 64)%nat →
  ∃ buf, add_bytes data p (length d) ctx =
      Ok (tt, mkCtx (c_h ctx) buf (Z.of_nat (r + length d))
        (u32 (Z.of_nat (length (msg ++ d))))) ∧
    length buf = 64%nat ∧ take (r + length d) buf = drop (64 * q) (msg ++ d).
Proof.
  intros [Hlen Hsm Hb Hh Hs Ht Hbuf Htail] E Hfit. unfold add_bytes.
  rewrite Hs, Nat2Z.id, E, take_app_length, Ht, u32_add_l, Hbuf.
  rewrite decide_True by done. rewrite u32_small by lia. eexists. split_and!.
  - rewrite length_app, <- !Nat2Z.inj_add. done.
  - rewrite !length_app, length_take, length_drop. lia.
  - rewrite Htail. rewrite drop_app_le by lia. rewrite (assoc_L (++)).
    rewrite take_app_le by (rewrite length_app, length_drop; lia).
    apply take_ge. rewrite length_app, length_drop. lia.
Qed.

Lemma flush_run le h buf msg q r :
  length msg = (64 * q + r)%nat → (r ≤ 64)%nat → bytes msg → h = hash_blocks msg q →
  length buf = 64%nat → take r buf = drop (64 * q) msg →
  ∃ ctx' q' r', flush le (mkCtx h buf (Z.of_nat r) (u32 (Z.of_nat (length msg)))) = Ok (tt, ctx') ∧
    represents ctx' msg q' r'.
Proof.
  intros Hlen Hr Hb -> Hbuf Htail. unfold flush. rewrite gets_bind. cbn [c_size].
  destruct (decide (Z.of_nat r = 64)) as [H64 | H64].
  - assert (r = 64%nat) as -> by lia. rewrite take_ge in Htail by lia.
    destruct (process_block_run le (hash_blocks msg q) buf (Z.of_nat 64) (u32 (Z.of_nat (length msg))))
      as (buf' & Hrun & Hbuf'); [done | rewrite Htail; by apply Forall_drop |].
    step_with Hrun. eexists _, (S q), 0%nat. split; [done |]. constructor; cbn [c_h c_size c_total c_buffer];
      [lia | lia | done | | done | done | done |].
    + rewrite hash_blocks_S, Htail. apply (f_equal (compress _)). unfold block_of. symmetry.
      apply take_ge. rewrite length_drop. lia.
    + by rewrite drop_ge by lia.
  - eexists _, q, r. split; [done |]. constructor; try done. lia.
Qed.

Lemma update_loop_run le data : ∀ fuel ctx msg q r p t tl,
  represents ctx msg q r → drop p data = t ++ tl → bytes t → (length t ≤ fuel)%nat →
  ∃ ctx' q' r', update_loop le fuel data p (Z.of_nat (length t)) ctx = Ok (tt, ctx') ∧
    represents ctx' (msg ++ t) q' r'.
Proof.
  induction fuel as [| fuel IH]; intros ctx msg q r p t tl Hrep E Ht Hfuel.
  { destruct t; [| cbn in *; lia]. rewrite app_nil_r. by exists ctx, q, r. }
  destruct (decide (t = [])) as [-> | Hne]; [rewrite app_nil_r; by exists ctx, q, r |].
  assert (0 < length t)%nat by (destruct t; [done | cbn; lia]).
  pose proof (rep_small _ _ _ _ Hrep). cbn [update_loop]. rewrite decide_True by lia.
  rewrite gets_bind, (rep_size _ _ _ _ Hrep), u32_small by lia.
  set (n := (length t `min` (64 - r))%nat).
  replace (if decide (Z.of_nat (length t) < _) then _ else _) with (Z.of_nat n)
    by (unfold n; case_decide; lia).
  rewrite Nat2Z.id.
  pose proof E as E1. rewrite <- (take_drop n t), <- (assoc_L (++)) in E1.
  assert (length (take n t) = n) as Hn by (rewrite length_take; lia).
  destruct (add_bytes_run ctx msg q r data p (take n t) _ Hrep E1) as (buf & Hadd & Hbuf & Htail); [lia |].
  rewrite Hn in *. step_with Hadd.
  destruct (flush_run le (c_h ctx) buf (msg ++ take n t) q (r + n)) as (ctx' & q' & r' & Hfl & Hrep');
    [| lia | | | done | done |].
  { rewrite length_app, Hn, (rep_length _ _ _ _ Hrep). lia. }
  { apply bytes_app. split; [apply Hrep | by apply Forall_take]. }
  { rewrite hash_blocks_app by (rewrite (rep_length _ _ _ _ Hrep); lia). apply Hrep. }
  step_with Hfl. replace (Z.of_nat (length t) - Z.of_nat n) with (Z.of_nat (length (drop n t)))
    by (rewrite length_drop; lia).
  destruct (IH ctx' _ q' r' (p + n)%nat (drop n t) tl Hrep') as (ctx2 & q2 & r2 & Hrun & Hrep2).
  - apply (drop_shift _ _ _ _ _ E). lia.
  - by apply Forall_drop.
  - rewrite length_drop. lia.
  - exists ctx2, q2, r2. rewrite <- (assoc_L (++)), take_drop in Hrep2. done.
Qed.

Lemma SHA1_Update_run le ctx msg q r t tl :
  represents ctx msg q r → bytes t →
  ∃ ctx' q' r', SHA1_Update le (t ++ tl) (Z.of_nat (length t)) ctx = Ok (1, ctx') ∧
    represents ctx' (msg ++ t) q' r'.
Proof.
  intros Hrep Ht. unfold SHA1_Update. rewrite Nat2Z.id.
  destruct (update_loop_run le (t ++ tl) (length t) ctx msg q r 0 t tl Hrep eq_refl Ht) as (c & q' & r' & H & ?);
    [lia |]. step_with H. by exists c, q', r'.
Qed.

(** ** The end *)
Lemma set_word_run le h buf size total i v :
  set_word le i (htobe32 le v) (mkCtx h buf size total) =
    Ok (tt, mkCtx h (take (4 * i) buf ++ be_bytes v ++ drop (4 * i + 4) buf) size total).
Proof. unfold set_word, modify. cbn [c_h c_buffer c_size c_total]. by rewrite native_bytes_htobe32. Qed.

Lemma digest_native le h :
  concat (native_bytes le <$> list5 (map5 (htobe32 le) h)) = digest_of h.
Proof. destruct h. unfold digest_of. cbn [list5 map5 fmap list_fmap x0 x1 x2 x3 x4]. by rewrite !native_bytes_htobe32. Qed.

(** What is hashed in the end: the message, and its length modulo 2^32 bits *)
Definition sha1_bits (msg : list Z) (bits : Z) : list Z :=
  digest_of (hash_blocks (padded msg bits) (length (padded msg bits) / 64)).

Lemma take_pad n : (0 < n ≤ 64)%nat → take n pad = 0x80 :: replicate (n - 1) 0.
Proof.
  intros Hn. destruct n as [| n]; [lia |]. unfold pad. cbn [take]. rewrite take_replicate.
  f_equal. f_equal. lia.
Qed.

Lemma bytes_pad n : bytes (take n pad).
Proof.
  apply Forall_take. unfold pad. constructor; [done |]. apply Forall_replicate. done.
Qed.

(** The amount of the code is the one of the padding. *)
Lemma pad_amount_eq q r :
  (r < 64)%nat →
  let n := if decide (r < 56)%nat then (56 - r)%nat else (120 - r)%nat in
  (0 < n ≤ 64)%nat ∧ (n - 1 = (119 - (64 * q + r) `mod` 64) `mod` 64)%nat ∧
  ∃ q', (64 * q + r + n = 64 * q' + 56)%nat.
Proof.
  intros Hr n. rewrite (Nat.mul_comm 64), Nat.add_comm, Nat.Div0.mod_add, (Nat.mod_small r) by done.
  unfold n. destruct (decide (r < 56)%nat).
  - replace (119 - r)%nat with (55 - r + 1 * 64)%nat by lia.
    rewrite Nat.Div0.mod_add, Nat.mod_small by lia. split_and!; try lia. exists q. lia.
  - rewrite Nat.mod_small by lia. split_and!; try lia. exists (S q). lia.
Qed.

(** The last block: the tail in the buffer and the two words of the length *)
Lemma last_block_run le ctx msg q hi lo :
  represents ctx msg q 56 →
  ∃ buf, (_ ← set_word le 14 (htobe32 le hi); _ ← set_word le 15 (htobe32 le lo);
          SHA1_ProcessBlock le) ctx =
    Ok (tt, mkCtx (hash_blocks (msg ++ be_bytes hi ++ be_bytes lo) (S q)) buf (c_size ctx) (c_total ctx)).
Proof.
  intros [Hlen Hsm Hb Hh Hs Ht Hbuf Htail]. destruct ctx as [h buf size total].
  cbn [c_h c_buffer c_size c_total] in *. subst h.
  step_with (set_word_run le (hash_blocks msg q) buf size total 14 hi).
  change (4 * 14)%nat with 56%nat. rewrite Htail. set (tail := drop (64 * q) msg) in *.
  assert (length tail = 56)%nat as Hl by (unfold tail; rewrite length_drop; lia).
  step_with (set_word_run le (hash_blocks msg q) (tail ++ be_bytes hi ++ drop 60 buf) size total 15 lo).
  assert (take 60 (tail ++ be_bytes hi ++ drop 60 buf) ++ be_bytes lo ++
    drop 64 (tail ++ be_bytes hi ++ drop 60 buf) = tail ++ be_bytes hi ++ be_bytes lo) as Hblock.
  { rewrite !(assoc_L (++)). rewrite take_app_length' by (rewrite length_app, Hl; done).
    rewrite drop_ge, app_nil_r; [done |]. rewrite !length_app, length_drop, Hl. cbn. lia. }
  change (4 * 15)%nat with 60%nat. change (60 + 4)%nat with 64%nat. rewrite Hblock.
  assert (bytes (tail ++ be_bytes hi ++ be_bytes lo)) as Hbb.
  { rewrite !bytes_app. split_and!; [by apply Forall_drop | apply bytes_be_bytes..]. }
  destruct (process_block_run le (hash_blocks msg q) (tail ++ be_bytes hi ++ be_bytes lo) size total)
    as (buf' & Hrun & _); [by rewrite !length_app, Hl | done |].
  exists buf'. rewrite Hrun. do 4 f_equal. rewrite hash_blocks_S, hash_blocks_app by lia.
  apply (f_equal (compress _)). unfold block_of. rewrite drop_app_le by lia. fold tail.
  symmetry. apply take_ge. rewrite !length_app, Hl. cbn. lia.
Qed.

Lemma represents_unique ctx msg q r q' r' :
  represents ctx msg q r → length msg = (64 * q' + r')%nat → (r' < 64)%nat → q = q' ∧ r = r'.
Proof. intros Hrep Hl Hr. destruct Hrep. lia. Qed.

Lemma padded_eq msg bits n :
  (0 < n ≤ 64)%nat → (n - 1 = (119 - length msg `mod` 64) `mod` 64)%nat →
  padded msg bits = (msg ++ take n pad) ++ be_bytes (bits / 2 ^ 32) ++ be_bytes bits.
Proof. intros Hn E. unfold padded. rewrite take_pad, E, <- (assoc_L (++)) by done. done. Qed.

Lemma SHA1_Final_run le ctx msg q r :
  represents ctx msg q r →
  ∃ ctx', SHA1_Final le true ctx =
    Ok ((1, Some (sha1_bits msg (u32 (8 * Z.of_nat (length msg))))), ctx').
Proof.
  intros Hrep. pose proof Hrep as [Hlen Hsm _ _ Hs Ht _ _]. unfold SHA1_Final, get.
  unfold mbind at 1, M_bind at 1. rewrite Hs, Ht.
  destruct (pad_amount_eq q r Hsm) as (Hn & Hz & q' & Hq'). rewrite <- Hlen in Hz.
  set (n := if decide (r < 56)%nat then (56 - r)%nat else (120 - r)%nat) in *.
  assert (length (take n pad) = n) as Hnp
    by (rewrite length_take; change (length pad) with 64%nat; lia).
  replace (if decide (Z.of_nat r < 56) then _ else _) with (Z.of_nat (length (take n pad)))
    by (rewrite Hnp; unfold n; repeat case_decide; rewrite ?u32_small by lia; lia).
  destruct (SHA1_Update_run le ctx msg q r (take n pad) (drop n pad) Hrep (bytes_pad n))
    as (ctx1 & q1 & r1 & Hup & Hrep1). rewrite take_drop in Hup. step_with Hup.
  destruct (represents_unique ctx1 _ _ _ q' 56 Hrep1) as [-> ->]; [| lia |].
  { rewrite length_app, Hnp. lia. }
  set (bits := u32 (u32 (Z.of_nat (length msg)) * 8)).
  assert (u32 (8 * Z.of_nat (length msg)) = bits) as ->.
  { unfold bits, u32. by rewrite Zmult_mod_idemp_l, Z.mul_comm. }
  destruct (last_block_run le ctx1 (msg ++ take n pad) q' (u32 (Z.shiftr bits 32)) (u32 bits) Hrep1) as (buf & Hl).
  apply bind_inv in Hl as ([] & c1 & H1 & Hl). apply bind_inv in Hl as ([] & c2 & H2 & H3).
  step_with H1. step_with H2. step_with H3. rewrite modify_bind.
  eexists. unfold mbind, M_bind, mret, M_ret. cbn [c_h c_buffer c_size c_total].
  rewrite digest_native. unfold sha1_bits.
  rewrite (padded_eq msg bits n Hn Hz).
  assert (0 ≤ bits < 2 ^ 32) as Hbits by (apply Z.mod_pos_bound; done).
  rewrite Z.shiftr_div_pow2, !u32_small by (rewrite ?Z.div_small by done; lia).
  do 6 f_equal. rewrite !length_app, Hnp, !length_be_bytes, Hlen.
  replace (64 * q + r + n + (4 + 4))%nat with (S q' * 64)%nat by lia. by rewrite Nat.div_mul.
Qed.

(** ** The hash of chunks *)
Fixpoint update_all (le : bool) (chunks : list (list Z)) : M SHA_CTX unit :=
  match chunks with
  | [] => mret tt
  | c :: chunks' => _ ← SHA1_Update le c (Z.of_nat (length c)); update_all le chunks'
  end.

Lemma update_all_run le chunks : ∀ ctx msg q r,
  represents ctx msg q r → Forall bytes chunks →
  ∃ ctx' q' r', update_all le chunks ctx = Ok (tt, ctx') ∧
    represents ctx' (msg ++ concat chunks) q' r'.
Proof.
  induction chunks as [| c chunks IH]; intros ctx msg q r Hrep Hb.
  { rewrite app_nil_r. by exists ctx, q, r. }
  apply Forall_cons in Hb as [Hc Hb]. cbn [update_all concat].
  destruct (SHA1_Update_run le ctx msg q r c [] Hrep Hc) as (c1 & q1 & r1 & H1 & Hrep1).
  rewrite app_nil_r in H1. step_with H1. rewrite (assoc_L (++)). by eapply IH.
Qed.

Lemma sha1_eq msg : sha1 msg = sha1_bits msg (8 * Z.of_nat (length msg)).
Proof. done. Qed.

(** C38: the incremental hash is SHA-1: on a host of either byte order, from a
    context of any contents, SHA1_Init, any updates and SHA1_Final run without a
    fault and give the digest that FIPS 180-4 defines for the bytes together,
    however they are cut into chunks, when they are fewer than 2^29.  (From
    there on the length in the padding is wrong, since [ctx->total * 8] is
    computed in 32 bits: it is the number of bits modulo 2^32.) *)
Theorem SHA1_chunks le ctx chunks :
  length (c_buffer ctx) = 64%nat → Forall bytes chunks →
  ∃ ctx1 digest ctx2,
    SHA1_Init (Some ctx) = (1, Some ctx1) ∧
    (_ ← update_all le chunks; SHA1_Final le true) ctx1 = Ok ((1, Some digest), ctx2) ∧
    digest = sha1_bits (concat chunks) (u32 (8 * Z.of_nat (length (concat chunks)))) ∧
    (Z.of_nat (length (concat chunks)) < 2 ^ 29 → digest = sha1 (concat chunks)).
Proof.
  intros Hbuf Hb. destruct (represents_init ctx Hbuf) as (ctx1 & Hi & Hrep).
  destruct (update_all_run le chunks ctx1 [] 0 0 Hrep Hb) as (c & q & r & Hup & Hrep').
  destruct (SHA1_Final_run le c _ q r Hrep') as (ctx2 & Hfin). cbn [app] in *.
  eexists ctx1, _, ctx2. split_and!; [done | by step_with Hup | done |].
  intros Hlen. rewrite sha1_eq. by rewrite u32_small by lia.
Qed.

(** The test "this string" of SHA1.c, in two chunks *)
Definition sha1_test_chunks : list (list Z) :=
  [[0x74; 0x68; 0x69; 0x73; 0x20]; [0x73; 0x74; 0x72; 0x69; 0x6e; 0x67]].

Definition sha1_test_digest : list Z :=
  [0xfd; 0xa4; 0xe7; 0x4b; 0xc7; 0x48; 0x9a; 0x18; 0xb1; 0x46; 0xab; 0xdf; 0x23; 0x34; 0x6d; 0x16;
   0x66; 0x63; 0xda; 0xb8].

Definition sha1_test_ctx : SHA_CTX := mkCtx (Words5 1 2 3 4 5) (replicate 64 0xA5) 17 99.

Lemma SHA1_chunks_witness :
  ∃ ctx1 digest ctx2,
    SHA1_Init (Some sha1_test_ctx) = (1, Some ctx1) ∧
    (_ ← update_all true sha1_test_chunks; SHA1_Final true true) ctx1 = Ok ((1, Some digest), ctx2) ∧
    digest = sha1_test_digest.
Proof.
  destruct (SHA1_chunks true sha1_test_ctx sha1_test_chunks) as (ctx1 & digest & ctx2 & H1 & H2 & _ & H3).
  - reflexivity.
  - apply (bool_decide_unpack _). vm_compute. reflexivity.
  - exists ctx1, digest, ctx2. split; [exact H1 |]. split; [exact H2 |].
    rewrite H3 by (vm_compute; reflexivity). vm_compute. reflexivity.
Defined.

(** A null context, and a null [md]: the context is hashed, nothing is written. *)
Lemma SHA1_null : SHA1_Init None = (0, None).
Proof. done. Qed.
