(* ===== verification/Properties.v ===== *)
(** * MQTT 5 properties (src/src/MQTTProperties.c, src/src/MQTTProperties.h)

    The property list of an MQTT 5 packet: a growing array of tagged values
    with a running total of the encoded length.  [MQTTProperties_add] appends
    to it, [MQTTProperties_write] and [MQTTProperties_read] convert it to and
    from the bytes of a packet. *)
From S2P Require Import Prelude Buffers.
Local Open Scope Z_scope.

(** ** Codes and types *)
Definition MQTTPROPERTY_CODE_PAYLOAD_FORMAT_INDICATOR : Z := 1.
Definition MQTTPROPERTY_CODE_MESSAGE_EXPIRY_INTERVAL : Z := 2.
Definition MQTTPROPERTY_CODE_CONTENT_TYPE : Z := 3.
Definition MQTTPROPERTY_CODE_RESPONSE_TOPIC : Z := 8.
Definition MQTTPROPERTY_CODE_CORRELATION_DATA : Z := 9.
Definition MQTTPROPERTY_CODE_SUBSCRIPTION_IDENTIFIER : Z := 11.
Definition MQTTPROPERTY_CODE_SESSION_EXPIRY_INTERVAL : Z := 17.
Definition MQTTPROPERTY_CODE_ASSIGNED_CLIENT_IDENTIFER : Z := 18.
Definition MQTTPROPERTY_CODE_SERVER_KEEP_ALIVE : Z := 19.
Definition MQTTPROPERTY_CODE_AUTHENTICATION_METHOD : Z := 21.
Definition MQTTPROPERTY_CODE_AUTHENTICATION_DATA : Z := 22.
Definition MQTTPROPERTY_CODE_REQUEST_PROBLEM_INFORMATION : Z := 23.
Definition MQTTPROPERTY_CODE_WILL_DELAY_INTERVAL : Z := 24.
Definition MQTTPROPERTY_CODE_REQUEST_RESPONSE_INFORMATION : Z := 25.
Definition MQTTPROPERTY_CODE_RESPONSE_INFORMATION : Z := 26.
Definition MQTTPROPERTY_CODE_SERVER_REFERENCE : Z := 28.
Definition MQTTPROPERTY_CODE_REASON_STRING : Z := 31.
Definition MQTTPROPERTY_CODE_RECEIVE_MAXIMUM : Z := 33.
Definition MQTTPROPERTY_CODE_TOPIC_ALIAS_MAXIMUM : Z := 34.
Definition MQTTPROPERTY_CODE_TOPIC_ALIAS : Z := 35.
Definition MQTTPROPERTY_CODE_MAXIMUM_QOS : Z := 36.
Definition MQTTPROPERTY_CODE_RETAIN_AVAILABLE : Z := 37.
Definition MQTTPROPERTY_CODE_USER_PROPERTY : Z := 38.
Definition MQTTPROPERTY_CODE_MAXIMUM_PACKET_SIZE : Z := 39.
Definition MQTTPROPERTY_CODE_WILDCARD_SUBSCRIPTION_AVAILABLE : Z := 40.
Definition MQTTPROPERTY_CODE_SUBSCRIPTION_IDENTIFIERS_AVAILABLE : Z := 41.
Definition MQTTPROPERTY_CODE_SHARED_SUBSCRIPTION_AVAILABLE : Z := 42.

Inductive MQTTPropertyTypes :=
  | MQTTPROPERTY_TYPE_BYTE
  | MQTTPROPERTY_TYPE_TWO_BYTE_INTEGER
  | MQTTPROPERTY_TYPE_FOUR_BYTE_INTEGER
  | MQTTPROPERTY_TYPE_VARIABLE_BYTE_INTEGER
  | MQTTPROPERTY_TYPE_BINARY_DATA
  | MQTTPROPERTY_TYPE_UTF_8_ENCODED_STRING
  | MQTTPROPERTY_TYPE_UTF_8_STRING_PAIR.

#[export] Instance MQTTPropertyTypes_eq_dec : EqDecision MQTTPropertyTypes.
Proof. solve_decision. Defined.

Definition namesToTypes : list (Z * MQTTPropertyTypes) := [
  (MQTTPROPERTY_CODE_PAYLOAD_FORMAT_INDICATOR, MQTTPROPERTY_TYPE_BYTE);
  (MQTTPROPERTY_CODE_MESSAGE_EXPIRY_INTERVAL, MQTTPROPERTY_TYPE_FOUR_BYTE_INTEGER);
  (MQTTPROPERTY_CODE_CONTENT_TYPE, MQTTPROPERTY_TYPE_UTF_8_ENCODED_STRING);
  (MQTTPROPERTY_CODE_RESPONSE_TOPIC, MQTTPROPERTY_TYPE_UTF_8_ENCODED_STRING);
  (MQTTPROPERTY_CODE_CORRELATION_DATA, MQTTPROPERTY_TYPE_BINARY_DATA);
  (MQTTPROPERTY_CODE_SUBSCRIPTION_IDENTIFIER, MQTTPROPERTY_TYPE_VARIABLE_BYTE_INTEGER);
  (MQTTPROPERTY_CODE_SESSION_EXPIRY_INTERVAL, MQTTPROPERTY_TYPE_FOUR_BYTE_INTEGER);
  (MQTTPROPERTY_CODE_ASSIGNED_CLIENT_IDENTIFER, MQTTPROPERTY_TYPE_UTF_8_ENCODED_STRING);
  (MQTTPROPERTY_CODE_SERVER_KEEP_ALIVE, MQTTPROPERTY_TYPE_TWO_BYTE_INTEGER);
  (MQTTPROPERTY_CODE_AUTHENTICATION_METHOD, MQTTPROPERTY_TYPE_UTF_8_ENCODED_STRING);
  (MQTTPROPERTY_CODE_AUTHENTICATION_DATA, MQTTPROPERTY_TYPE_BINARY_DATA);
  (MQTTPROPERTY_CODE_REQUEST_PROBLEM_INFORMATION, MQTTPROPERTY_TYPE_BYTE);
  (MQTTPROPERTY_CODE_WILL_DELAY_INTERVAL, MQTTPROPERTY_TYPE_FOUR_BYTE_INTEGER);
  (MQTTPROPERTY_CODE_REQUEST_RESPONSE_INFORMATION, MQTTPROPERTY_TYPE_BYTE);
  (MQTTPROPERTY_CODE_RESPONSE_INFORMATION, MQTTPROPERTY_TYPE_UTF_8_ENCODED_STRING);
  (MQTTPROPERTY_CODE_SERVER_REFERENCE, MQTTPROPERTY_TYPE_UTF_8_ENCODED_STRING);
  (MQTTPROPERTY_CODE_REASON_STRING, MQTTPROPERTY_TYPE_UTF_8_ENCODED_STRING);
  (MQTTPROPERTY_CODE_RECEIVE_MAXIMUM, MQTTPROPERTY_TYPE_TWO_BYTE_INTEGER);
  (MQTTPROPERTY_CODE_TOPIC_ALIAS_MAXIMUM, MQTTPROPERTY_TYPE_TWO_BYTE_INTEGER);
  (MQTTPROPERTY_CODE_TOPIC_ALIAS, MQTTPROPERTY_TYPE_TWO_BYTE_INTEGER);
  (MQTTPROPERTY_CODE_MAXIMUM_QOS, MQTTPROPERTY_TYPE_BYTE);
  (MQTTPROPERTY_CODE_RETAIN_AVAILABLE, MQTTPROPERTY_TYPE_BYTE);
  (MQTTPROPERTY_CODE_USER_PROPERTY, MQTTPROPERTY_TYPE_UTF_8_STRING_PAIR);
  (MQTTPROPERTY_CODE_MAXIMUM_PACKET_SIZE, MQTTPROPERTY_TYPE_FOUR_BYTE_INTEGER);
  (MQTTPROPERTY_CODE_WILDCARD_SUBSCRIPTION_AVAILABLE, MQTTPROPERTY_TYPE_BYTE);
  (MQTTPROPERTY_CODE_SUBSCRIPTION_IDENTIFIERS_AVAILABLE, MQTTPROPERTY_TYPE_BYTE);
  (MQTTPROPERTY_CODE_SHARED_SUBSCRIPTION_AVAILABLE, MQTTPROPERTY_TYPE_BYTE)].

(** The first row of a table whose key is [value]: the loops of
    [MQTTProperty_getType] and of the name lookups. *)
Fixpoint table_lookup {A} (table : list (Z * A)) (value : Z) : option A :=
  match table with
  | [] => None
  | (name, a) :: table => if decide (name = value) then Some a else table_lookup table value
  end.

(** [None] stands for the return value -1. *)
Definition MQTTProperty_getType (value : Z) : option MQTTPropertyTypes :=
  table_lookup namesToTypes value.

(** ** The data

    The union of a property's value; the anonymous structure of two strings is
    one member, whose second string is [None] while it is not assigned. *)
Inductive property_value :=
  | VByte (byte : Z)
  | VInteger2 (integer2 : Z)
  | VInteger4 (integer4 : Z)
  | VStrings (data : MQTTLenString) (value : option MQTTLenString).

Record MQTTProperty := mkProperty { identifier : Z; value : property_value }.

#[export] Instance property_value_eq_dec : EqDecision property_value.
Proof. solve_decision. Defined.
#[export] Instance MQTTProperty_eq_dec : EqDecision MQTTProperty.
Proof. solve_decision. Defined.

(** [array] is null or a block of slots; a slot is [None] until written. *)
Record MQTTProperties := mkProperties {
  count : nat;
  max_count : nat;
  length_ : Z;
  array : option (list (option MQTTProperty));
}.

Definition MQTTProperties_initializer : MQTTProperties := mkProperties 0 0 0 None.

#[export] Instance pair_heap {A} : HasHeap (A * list bool) := {
  heap_of := snd;
  set_heap h s := (fst s, h);
}.

(** Reads of the union's members. *)
Definition as_byte {S} (v : property_value) : M S Z :=
  match v with VByte b => mret b | _ => fail WrongMember end.
Definition as_integer2 {S} (v : property_value) : M S Z :=
  match v with VInteger2 n => mret n | _ => fail WrongMember end.
Definition as_integer4 {S} (v : property_value) : M S Z :=
  match v with VInteger4 n => mret n | _ => fail WrongMember end.
Definition as_data {S} (v : property_value) : M S MQTTLenString :=
  match v with VStrings d _ => mret d | _ => fail WrongMember end.
Definition as_value {S} (v : property_value) : M S MQTTLenString :=
  match v with
  | VStrings _ (Some d) => mret d
  | VStrings _ None => fail Uninitialised
  | _ => fail WrongMember
  end.

(** [props->array[i]] *)
Definition array_at {S} (props : MQTTProperties) (i : nat) : M S MQTTProperty :=
  match array props with
  | None => fail NullDeref
  | Some a =>
    match a !! i with
    | None => fail OutOfBounds
    | Some None => fail Uninitialised
    | Some (Some p) => mret p
    end
  end.

(** [props->array[i] = prop] *)
Definition array_store {S} (props : MQTTProperties) (i : nat) (prop : MQTTProperty)
  : M S MQTTProperties :=
  match array props with
  | None => fail NullDeref
  | Some a =>
    if decide (i < length a)%nat
    then mret (mkProperties (count props) (max_count props) (length_ props)
                 (Some (<[i := Some prop]> a)))
    else fail OutOfBounds
  end.

(** Ten more slots, by [malloc] where there is no array and by [realloc]
    where there is one; a failed [realloc] leaves a null pointer. *)
Definition array_grow {S} `{HasHeap S} (props : MQTTProperties) : M S MQTTProperties :=
  ok ← malloc;
  mret (mkProperties (count props) (max_count props + 10) (length_ props)
    (if ok : bool then Some (default [] (array props) ++ replicate 10 None) else None)).

(** ** Operations *)

(** A copy of the [len] bytes of a string on the heap, or null. *)
Definition datadup {S} `{HasHeap S} (str : MQTTLenString) : M S (option (list Z)) :=
  ok ← malloc;
  if ok : bool then d ← lenstring_copy str; mret (Some d) else mret None.

Definition MQTTProperties_len (props : option MQTTProperties) : Z :=
  match props with
  | None => 1
  | Some props => length_ props + MQTTPacket_VBIlen (length_ props)
  end.

Definition MQTT_INVALID_PROPERTY_ID : Z := -2.
Definition PAHO_MEMORY_ERROR : Z := -99.

(** The encoded length of a value and the value with its strings duplicated:
    the [switch] of [MQTTProperties_add]. *)
Definition add_value {S} `{HasHeap S} (type : MQTTPropertyTypes) (v : property_value)
  : M S (Z * property_value) :=
  match type with
  | MQTTPROPERTY_TYPE_BYTE => mret (1, v)
  | MQTTPROPERTY_TYPE_TWO_BYTE_INTEGER => mret (2, v)
  | MQTTPROPERTY_TYPE_FOUR_BYTE_INTEGER => mret (4, v)
  | MQTTPROPERTY_TYPE_VARIABLE_BYTE_INTEGER =>
    n ← as_integer4 v;
    mret (MQTTPacket_VBIlen (i32 n), v)
  | MQTTPROPERTY_TYPE_BINARY_DATA | MQTTPROPERTY_TYPE_UTF_8_ENCODED_STRING =>
    data ← as_data v;
    d ← datadup data;
    mret (2 + ls_len data, VStrings (mkLenString (ls_len data) d)
           (match v with VStrings _ w => w | _ => None end))
  | MQTTPROPERTY_TYPE_UTF_8_STRING_PAIR =>
    data ← as_data v;
    d ← datadup data;
    val ← as_value v;
    w ← datadup val;
    mret (2 + ls_len data + (2 + ls_len val),
          VStrings (mkLenString (ls_len data) d) (Some (mkLenString (ls_len val) w)))
  end.

(** [props->length] is an int of the code that grows without a comparison; here
    it is an unbounded number, so the model is of lists whose encoding has less
    than 2^31 bytes. *)
Definition MQTTProperties_add {S} `{HasHeap S} (props : MQTTProperties) (prop : MQTTProperty)
  : M S (Z * MQTTProperties) :=
  match MQTTProperty_getType (identifier prop) with
  | None => mret (MQTT_INVALID_PROPERTY_ID, props)
  | Some type =>
    props ← (match array props with
             | None =>
               array_grow (mkProperties (count props) 0 (length_ props) None)
             | Some _ =>
               if decide (count props = max_count props) then array_grow props
               else mret props
             end : M S MQTTProperties);
    match array props with
    | None => mret (PAHO_MEMORY_ERROR, props)
    | Some _ =>
      len_v ← add_value type (value prop);
      let '(len, v) := len_v : Z * property_value in
      props ← array_store props (count props) (mkProperty (identifier prop) v);
      mret (0, mkProperties (count props + 1) (max_count props)
                 (length_ props + (len + 1)) (array props))
    end
  end.

(** The return value counts the identifier byte, so it is 0 for an identifier
    that is not in the table. *)
Definition MQTTProperty_write (prop : MQTTProperty) : M writer Z :=
  match MQTTProperty_getType (identifier prop) with
  | None => mret (-1 + 1)
  | Some type =>
    _ ← writeChar (identifier prop);
    rc ← (match type with
          | MQTTPROPERTY_TYPE_BYTE =>
            b ← as_byte (value prop);
            _ ← writeChar b;
            mret 1
          | MQTTPROPERTY_TYPE_TWO_BYTE_INTEGER =>
            n ← as_integer2 (value prop);
            _ ← writeInt n;
            mret 2
          | MQTTPROPERTY_TYPE_FOUR_BYTE_INTEGER =>
            n ← as_integer4 (value prop);
            _ ← writeInt4 n;
            mret 4
          | MQTTPROPERTY_TYPE_VARIABLE_BYTE_INTEGER =>
            n ← as_integer4 (value prop);
            _ ← emit (MQTTPacket_encode n);
            mret (Z.of_nat (length (MQTTPacket_encode n)))
          | MQTTPROPERTY_TYPE_BINARY_DATA | MQTTPROPERTY_TYPE_UTF_8_ENCODED_STRING =>
            d ← as_data (value prop);
            _ ← writeMQTTLenString d;
            mret (ls_len d + 2)
          | MQTTPROPERTY_TYPE_UTF_8_STRING_PAIR =>
            d ← as_data (value prop);
            _ ← writeMQTTLenString d;
            v ← as_value (value prop);
            _ ← writeMQTTLenString v;
            mret (ls_len d + ls_len v + 4)
          end : M writer Z);
    mret (rc + 1)
  end.

(** The loop of [MQTTProperties_write] over the entries from [i] on; [n] of
    them are left.  The result is [rc] and [len]. *)
Fixpoint write_entries (props : MQTTProperties) (i n : nat) (rc len : Z) : M writer (Z * Z) :=
  match n with
  | O => mret (rc, len)
  | S n =>
    prop ← array_at props i;
    rc ← MQTTProperty_write prop;
    if decide (rc < 0) then mret (rc, len)
    else write_entries props (i + 1) n rc (len + rc)
  end.

Definition MQTTProperties_write (properties : option MQTTProperties) : M writer Z :=
  match properties with
  | None => _ ← emit (MQTTPacket_encode 0); mret 1
  | Some properties =>
    _ ← emit (MQTTPacket_encode (length_ properties));
    rc_len ← write_entries properties 0 (count properties) 1 1;
    let '(rc, len) := rc_len : Z * Z in
    mret (if decide (0 ≤ rc) then len else rc)
  end.

(** The string member read by [MQTTProperty_read], duplicated: its length
    code (-1 for an error) and the string. *)
Definition read_string (enddata : nat) : M reader (Z * option MQTTLenString) :=
  r ← MQTTLenStringRead enddata;
  match r : Z * option MQTTLenString with
  | (len, Some s) =>
    if decide (len = -1) then mret (-1, None) else
    d ← datadup s;
    match d : option (list Z) with
    | None => mret (-1, None)
    | Some d => mret (len, Some (mkLenString (ls_len s) (Some d)))
    end
  | (_, None) => mret (-1, None)
  end.

(** The return value and the property, which is [None] where the value was not
    completed. *)
Definition MQTTProperty_read (enddata : nat) : M reader (Z * option MQTTProperty) :=
  identifier ← readChar;
  let done (len : Z) (v : property_value) : M reader (Z * option MQTTProperty) :=
    mret (len + 1, Some (mkProperty identifier v)) in
  match MQTTProperty_getType identifier with
  | None => mret (-1, None)
  | Some MQTTPROPERTY_TYPE_BYTE => b ← readChar; done 1 (VByte b)
  | Some MQTTPROPERTY_TYPE_TWO_BYTE_INTEGER => n ← readInt; done 2 (VInteger2 n)
  | Some MQTTPROPERTY_TYPE_FOUR_BYTE_INTEGER => n ← readInt4; done 4 (VInteger4 n)
  | Some MQTTPROPERTY_TYPE_VARIABLE_BYTE_INTEGER =>
    len_n ← MQTTPacket_decodeBuf;
    let '(len, n) := len_n : Z * Z in
    _ ← advance (Z.to_nat len);
    done len (VInteger4 n)
  | Some MQTTPROPERTY_TYPE_BINARY_DATA | Some MQTTPROPERTY_TYPE_UTF_8_ENCODED_STRING =>
    r ← read_string enddata;
    match r : Z * option MQTTLenString with
    | (len, Some s) => done len (VStrings s None)
    | (_, None) => mret (-1, None)
    end
  | Some MQTTPROPERTY_TYPE_UTF_8_STRING_PAIR =>
    r ← read_string enddata;
    match r : Z * option MQTTLenString with
    | (len, Some s) =>
      r ← read_string enddata;
      match r : Z * option MQTTLenString with
      | (proplen, Some v) => done (len + proplen) (VStrings s (Some v))
      | (_, None) => mret (-1, None)
      end
    | (_, None) => mret (-1, None)
    end
  end.

(** The entries the loop of [MQTTProperties_free] visits; reading one that was
    never written is a fault. *)
Fixpoint free_entries {S} (props : MQTTProperties) (i n : nat) : M S unit :=
  match n with
  | O => mret tt
  | Datatypes.S n =>
    p ← array_at props i;
    _ ← (match MQTTProperty_getType (identifier p) with
         | Some MQTTPROPERTY_TYPE_BINARY_DATA | Some MQTTPROPERTY_TYPE_UTF_8_ENCODED_STRING =>
           _ ← as_data (value p); mret tt
         | Some MQTTPROPERTY_TYPE_UTF_8_STRING_PAIR =>
           _ ← as_data (value p); _ ← as_value (value p); mret tt
         | _ => mret tt
         end : M S unit);
    free_entries props (i + 1) n
  end.

(** The structure after [MQTTProperties_free]: all fields zero. *)
Definition MQTTProperties_free {S} (props : MQTTProperties) : M S MQTTProperties :=
  _ ← free_entries props 0 (count props);
  mret MQTTProperties_initializer.

(** The [while] of [MQTTProperties_read]: how it ended and the list. *)
Inductive read_end := ReadDone (remlength : Z) | ReadNoMemory.

Fixpoint read_loop (fuel : nat) (enddata : nat) (props : MQTTProperties) (remlength : Z)
  : M reader (read_end * MQTTProperties) :=
  if decide (remlength = 0) then mret (ReadDone 0, props) else
  match fuel with
  | O => fail Diverge
  | Datatypes.S fuel =>
    props ← (if decide (count props = max_count props) then array_grow props else mret props
             : M reader MQTTProperties);
    match array props with
    | None => mret (ReadNoMemory, props)
    | Some _ =>
      r ← MQTTProperty_read enddata;
      match r : Z * option MQTTProperty with
      | (proplen, Some p) =>
        if decide (0 < proplen) then
          props ← array_store props (count props) p;
          read_loop fuel enddata
            (mkProperties (count props + 1) (max_count props) (length_ props) (array props))
            (u32 (remlength - proplen))
        else mret (ReadDone remlength, props)
      | (_, None) => mret (ReadDone remlength, props)
      end
    end
  end.

(** Every turn of the loop that goes on reads at least two bytes of the block,
    so its length is enough fuel. *)
Definition MQTTProperties_read (properties : MQTTProperties) (enddata : nat)
  : M reader (Z * MQTTProperties) :=
  pos ← gets r_pos;
  r ← (if decide (pos < enddata)%nat then
         len_rem ← MQTTPacket_decodeBuf;
         let '(len, remlength) := len_rem : Z * Z in
         _ ← advance (Z.to_nat len);
         mem ← gets r_mem;
         r ← read_loop (length mem) enddata
               (mkProperties (count properties) (max_count properties) (i32 remlength)
                  (array properties)) remlength;
         mret (Some (r : read_end * MQTTProperties))
       else mret None : M reader (option (read_end * MQTTProperties)));
  match r : option (read_end * MQTTProperties) with
  | Some (ReadNoMemory, props) => mret (PAHO_MEMORY_ERROR, props)
  | Some (ReadDone remlength, props) =>
    if decide (remlength = 0) then mret (1, props)
    else if array props then props ← MQTTProperties_free props; mret (0, props)
    else mret (0, props)
  | None =>
    if array properties
    then props ← MQTTProperties_free properties; mret (0, props)
    else mret (0, properties)
  end.

Fixpoint copy_entries {S} `{HasHeap S} (props result : MQTTProperties) (i n : nat)
  : M S MQTTProperties :=
  match n with
  | O => mret result
  | Datatypes.S n =>
    p ← array_at props i;
    rc_result ← MQTTProperties_add result p;
    copy_entries props (snd (rc_result : Z * MQTTProperties)) (i + 1) n
  end.

Definition MQTTProperties_copy {S} `{HasHeap S} (props : MQTTProperties)
  : M S MQTTProperties :=
  copy_entries props MQTTProperties_initializer 0 (count props).

(** ** Queries

    The loops over [array[0..count-1]] are recursions on the entries
    [propid] is compared with. *)
Definition entries (props : MQTTProperties) : list MQTTProperty :=
  omap id (take (count props) (default [] (array props))).

Definition MQTTProperties_hasProperty (props : MQTTProperties) (propid : Z) : bool :=
  existsb (λ p, bool_decide (propid = identifier p)) (entries props).

Fixpoint count_property (propid : Z) (l : list MQTTProperty) (count : Z) : Z :=
  match l with
  | [] => count
  | p :: l => count_property propid l
                (if decide (propid = identifier p) then count + 1 else count)
  end.

Definition MQTTProperties_propertyCount (props : MQTTProperties) (propid : Z) : Z :=
  count_property propid (entries props) 0.

(** [rc] of the [switch] in [MQTTProperties_getNumericValueAt]; [int] wraps a
    four byte value. *)
Definition numeric_value {S} (p : MQTTProperty) : M S Z :=
  match MQTTProperty_getType (identifier p) with
  | Some MQTTPROPERTY_TYPE_BYTE => as_byte (value p)
  | Some MQTTPROPERTY_TYPE_TWO_BYTE_INTEGER => as_integer2 (value p)
  | Some MQTTPROPERTY_TYPE_FOUR_BYTE_INTEGER
  | Some MQTTPROPERTY_TYPE_VARIABLE_BYTE_INTEGER =>
    n ← as_integer4 (value p); mret (i32 n)
  | _ => mret (-999999)
  end.

Fixpoint numeric_value_at {S} (propid index cur_index : Z) (l : list MQTTProperty) : M S Z :=
  match l with
  | [] => mret (-9999999)
  | p :: l =>
    if decide (identifier p = propid) then
      if decide (cur_index < index) then numeric_value_at propid index (cur_index + 1) l
      else numeric_value p
    else numeric_value_at propid index cur_index l
  end.

Definition MQTTProperties_getNumericValueAt {S} (props : MQTTProperties) (propid index : Z)
  : M S Z := numeric_value_at propid index 0 (entries props).

Definition MQTTProperties_getNumericValue {S} (props : MQTTProperties) (propid : Z)
  : M S Z := MQTTProperties_getNumericValueAt props propid 0.

Fixpoint property_at (propid index cur_index : Z) (l : list MQTTProperty)
  : option MQTTProperty :=
  match l with
  | [] => None
  | p :: l =>
    if decide (identifier p = propid) then
      if decide (cur_index = index) then Some p
      else property_at propid index (cur_index + 1) l
    else property_at propid index cur_index l
  end.

Definition MQTTProperties_getPropertyAt (props : MQTTProperties) (propid index : Z)
  : option MQTTProperty := property_at propid index 0 (entries props).

Definition MQTTProperties_getProperty (props : MQTTProperties) (propid : Z)
  : option MQTTProperty := MQTTProperties_getPropertyAt props propid 0.

(** ** The encoding of MQTT 5 properties, as a reference

    A property is its identifier byte and its value; a list is the variable
    byte integer of its length and the properties. *)
Definition enc_value (v : property_value) (type : MQTTPropertyTypes) : list Z :=
  match type, v with
  | MQTTPROPERTY_TYPE_BYTE, VByte b => [b]
  | MQTTPROPERTY_TYPE_TWO_BYTE_INTEGER, VInteger2 n => len_prefix n
  | MQTTPROPERTY_TYPE_FOUR_BYTE_INTEGER, VInteger4 n => be32 n
  | MQTTPROPERTY_TYPE_VARIABLE_BYTE_INTEGER, VInteger4 n => MQTTPacket_encode n
  | (MQTTPROPERTY_TYPE_BINARY_DATA | MQTTPROPERTY_TYPE_UTF_8_ENCODED_STRING),
      VStrings (mkLenString _ (Some d)) _ => len_string d
  | MQTTPROPERTY_TYPE_UTF_8_STRING_PAIR,
      VStrings (mkLenString _ (Some d)) (Some (mkLenString _ (Some w))) =>
      len_string d ++ len_string w
  | _, _ => []
  end.

Definition enc_property (p : MQTTProperty) : list Z :=
  match MQTTProperty_getType (identifier p) with
  | Some type => identifier p :: enc_value (value p) type
  | None => []
  end.

Definition enc_entries (l : list MQTTProperty) : list Z := mjoin (enc_property <$> l).

Definition enc_properties (l : list MQTTProperty) : list Z :=
  MQTTPacket_encode (Z.of_nat (length (enc_entries l))) ++ enc_entries l.

(** A value of the right member and in the range of its type. *)
Inductive valid_value : MQTTPropertyTypes → property_value → Prop :=
  | valid_byte b : is_byte b → valid_value MQTTPROPERTY_TYPE_BYTE (VByte b)
  | valid_two n : 0 ≤ n < 65536 →
      valid_value MQTTPROPERTY_TYPE_TWO_BYTE_INTEGER (VInteger2 n)
  | valid_four n : 0 ≤ n < 2 ^ 32 →
      valid_value MQTTPROPERTY_TYPE_FOUR_BYTE_INTEGER (VInteger4 n)
  | valid_variable n : 0 ≤ n < 268435456 →
      valid_value MQTTPROPERTY_TYPE_VARIABLE_BYTE_INTEGER (VInteger4 n)
  | valid_binary d : Z.of_nat (length d) < 65536 →
      valid_value MQTTPROPERTY_TYPE_BINARY_DATA (VStrings (lenstring d) None)
  | valid_utf8 d : Z.of_nat (length d) < 65536 →
      valid_value MQTTPROPERTY_TYPE_UTF_8_ENCODED_STRING (VStrings (lenstring d) None)
  | valid_pair d w : Z.of_nat (length d) < 65536 → Z.of_nat (length w) < 65536 →
      valid_value MQTTPROPERTY_TYPE_UTF_8_STRING_PAIR
        (VStrings (lenstring d) (Some (lenstring w))).

Definition valid_property (p : MQTTProperty) : Prop :=
  ∃ type, MQTTProperty_getType (identifier p) = Some type ∧ valid_value type (value p).

(** The list [l] is what the structure holds: the slots before [count], the
    rest of the block unwritten, and [length] the bytes they take. *)
Record props_repr (p : MQTTProperties) (l : list MQTTProperty) : Prop := {
  repr_count : count p = length l;
  repr_length : length_ p = Z.of_nat (length (enc_entries l));
  repr_valid : Forall valid_property l;
  repr_array :
    match array p with
    | None => l = [] ∧ max_count p = 0%nat
    | Some a => ∃ m, a = (Some <$> l) ++ replicate m None ∧
                     max_count p = (length l + m)%nat
    end;
}.

(** The size up to which the lengths fit a variable byte integer. *)
Definition fits (l : list MQTTProperty) : Prop :=
  Z.of_nat (length (enc_entries l)) < 268435456.

Lemma props_repr_initializer : props_repr MQTTProperties_initializer [].
Proof. by constructor. Qed.

Lemma enc_entries_app l k : enc_entries (l ++ k) = enc_entries l ++ enc_entries k.
Proof. unfold enc_entries. by rewrite fmap_app, join_app. Qed.

Lemma enc_entries_one p : enc_entries [p] = enc_property p.
Proof. unfold enc_entries. simpl. apply app_nil_r. Qed.

Lemma fits_app l k : fits (l ++ k) → fits l ∧ fits k.
Proof. unfold fits. rewrite enc_entries_app, length_app. lia. Qed.

Lemma getType_byte id type : MQTTProperty_getType id = Some type → is_byte id.
Proof.
  assert (Hall : Forall (λ r : Z * MQTTPropertyTypes, is_byte (fst r)) namesToTypes).
  { apply (bool_decide_unpack _). by vm_compute. }
  unfold MQTTProperty_getType. revert Hall. generalize namesToTypes.
  intros table. induction 1 as [| [name t] table Hn _ IH]; simpl; [done |].
  case_decide as H; [subst; by intros _ | done].
Qed.

Lemma enc_property_valid p : valid_property p →
  ∃ type, MQTTProperty_getType (identifier p) = Some type ∧
    valid_value type (value p) ∧ enc_property p = identifier p :: enc_value (value p) type.
Proof.
  intros (type & Ht & Hv). exists type. split_and!; [done.. |].
  unfold enc_property. by rewrite Ht.
Qed.

(** ** Queries against the list *)
Lemma omap_id_some {A} (l : list A) : omap id (Some <$> l) = l.
Proof. induction l as [| x l IH]; [done |]. cbn. f_equal. exact IH. Qed.

Lemma entries_repr p l : props_repr p l → entries p = l.
Proof.
  intros [Hc _ _ Ha]. unfold entries. rewrite Hc.
  destruct (array p) as [a |]; [| by destruct Ha as [-> _]].
  destruct Ha as (m & -> & _). simpl.
  rewrite take_app_le by (by rewrite length_fmap).
  rewrite take_ge by (by rewrite length_fmap). apply omap_id_some.
Qed.

Lemma array_at_repr {S} p l i x :
  props_repr p l → l !! i = Some x → array_at (S:=S) p i = mret x.
Proof.
  intros Hr Hi. destruct Hr as [_ _ _ Ha]. unfold array_at.
  destruct (array p) as [a |]; [| by destruct Ha as [-> _]].
  destruct Ha as (m & -> & _).
  rewrite lookup_app_l by (rewrite length_fmap; by eapply lookup_lt_Some).
  by rewrite list_lookup_fmap, Hi.
Qed.

(** A slot for the entry at [count] after the array was grown when full. *)
Lemma ensure_slot {S} `{HasHeap S} p l (s : S) :
  props_repr p l → heap_of s = [] →
  ∃ p', (if decide (count p = max_count p) then array_grow p else mret p) s = Ok (p', s) ∧
    props_repr p' l ∧ is_Some (array p') ∧ (count p' < max_count p')%nat.
Proof.
  intros [Hc Hl Hv Ha] Hs. case_decide as Hd.
  - unfold array_grow. rewrite (bind_ok _ _ _ _ _ (malloc_succeeds s Hs)).
    eexists. split; [done |]. cbn [array count max_count]. split_and!; [| eauto | lia].
    constructor; [done.. |]. cbn [array count max_count].
    destruct (array p) as [a |] eqn:Ea; cbn [default from_option id].
    + destruct Ha as (m & -> & Hm). exists (m + 10)%nat.
      rewrite <- (assoc_L (++)), <- replicate_add. split; [done | lia].
    + destruct Ha as [-> Hm]. exists 10%nat. split; [done | simpl in *; lia].
  - exists p. split; [done |]. split_and!; [done | |].
    + destruct (array p) as [a |]; [eauto | destruct Ha as [-> ?]; simpl in *; lia].
    + destruct (array p) as [a |]; [| destruct Ha as [-> ?]; simpl in *; lia].
      destruct Ha as (m & -> & ?). lia.
Qed.

(** The store of a new entry in the first free slot. *)
Lemma store_repr {S} p l x n (s : S) :
  props_repr p l → is_Some (array p) → (count p < max_count p)%nat → valid_property x →
  n = length_ p + Z.of_nat (length (enc_property x)) →
  ∃ p', array_store p (count p) x s = Ok (p', s) ∧
    count p' = count p ∧ max_count p' = max_count p ∧ length_ p' = length_ p ∧
    is_Some (array p') ∧
    props_repr (mkProperties (count p + 1) (max_count p) n (array p')) (l ++ [x]).
Proof.
  intros [Hc Hl Hv Ha] [a Ea] Hm Hx ->. rewrite Ea in Ha. destruct Ha as (m & -> & Hm').
  unfold array_store. rewrite Ea.
  rewrite decide_True by (rewrite length_app, length_fmap, length_replicate; lia).
  eexists. split; [done |]. simpl. split_and!; [done.. | eauto |].
  destruct m as [| m]; [lia |].
  constructor; simpl.
  - rewrite length_app; simpl; lia.
  - rewrite enc_entries_app, enc_entries_one, length_app. lia.
  - apply Forall_app. by split; [| constructor].
  - exists m. rewrite fmap_app. simpl. rewrite <- (assoc_L (++)). simpl. split.
    + rewrite Hc, <- (length_fmap Some l).
      rewrite insert_app_r_alt by lia. by rewrite Nat.sub_diag.
    + rewrite length_app. simpl. lia.
Qed.

(** ** Adding a property *)
Lemma datadup_lenstring {S} `{HasHeap S} d (s : S) :
  heap_of s = [] → datadup (lenstring d) s = Ok (Some d, s).
Proof.
  intros Hs. unfold datadup. rewrite (bind_ok _ _ _ _ _ (malloc_succeeds s Hs)).
  unfold lenstring_copy. cbn [ls_data ls_len lenstring].
  by rewrite Nat2Z.id, decide_True, firstn_all by done.
Qed.

Lemma add_value_valid {S} `{HasHeap S} type v (s : S) :
  valid_value type v → heap_of s = [] →
  add_value type v s = Ok (Z.of_nat (length (enc_value v type)), v, s).
Proof.
  intros Hv Hs. destruct Hv; simpl; try done.
  - mrun. rewrite i32_small by lia. by rewrite encode_length_VBIlen.
  - unfold as_data. rewrite bind_ok with (1 := ret_run _ _).
    rewrite bind_ok with (1 := datadup_lenstring d s Hs).
    cbn [ls_len lenstring]. mrun. do 3 f_equal. lia.
  - unfold as_data. rewrite bind_ok with (1 := ret_run _ _).
    rewrite bind_ok with (1 := datadup_lenstring d s Hs).
    cbn [ls_len lenstring]. mrun. do 3 f_equal. lia.
  - unfold as_data, as_value. rewrite bind_ok with (1 := ret_run _ _).
    rewrite bind_ok with (1 := datadup_lenstring d s Hs).
    rewrite bind_ok with (1 := ret_run _ _).
    rewrite bind_ok with (1 := datadup_lenstring w s Hs).
    cbn [ls_len lenstring]. mrun. rewrite length_app. simpl. do 3 f_equal. lia.
Qed.

Lemma MQTTProperties_add_repr {S} `{HasHeap S} p l x (s : S) :
  props_repr p l → valid_property x → heap_of s = [] →
  ∃ p', MQTTProperties_add p x s = Ok (0, p', s) ∧ props_repr p' (l ++ [x]).
Proof.
  intros Hr Hx Hs. destruct (enc_property_valid x Hx) as (type & Ht & Hv & He).
  assert (Hslot : ∃ p', (match array p with
       | None => array_grow (mkProperties (count p) 0 (length_ p) None)
       | Some _ => if decide (count p = max_count p) then array_grow p else mret p
       end) s = Ok (p', s) ∧ props_repr p' l ∧ is_Some (array p') ∧ (count p' < max_count p')%nat).
  { destruct (ensure_slot p l s Hr Hs) as (p' & Hp' & Hrest).
    exists p'. split; [| done]. rewrite <- Hp'.
    destruct Hr as [Hc Hl Hval Ha]. destruct (array p) as [a |] eqn:Ea; [done |].
    destruct Ha as [-> Hm]. rewrite decide_True by (simpl in *; lia).
    destruct p; simpl in *; by subst. }
  destruct Hslot as (p1 & Hp1 & Hr1 & Hsome & Hlt).
  unfold MQTTProperties_add. rewrite Ht, (bind_ok _ _ _ _ _ Hp1).
  destruct (array p1) as [a |] eqn:Ea; [| by destruct Hsome].
  rewrite (bind_ok _ _ _ _ _ (add_value_valid type (value x) s Hv Hs)).
  replace (mkProperty (identifier x) (value x)) with x by (by destruct x).
  destruct (store_repr p1 l x (length_ p1 + (Z.of_nat (length (enc_value (value x) type)) + 1)) s
    Hr1 ltac:(eauto) Hlt Hx ltac:(rewrite He; simpl; lia)) as (p2 & Hp2 & Hc & Hm & Hl & _ & Hr2).
  rewrite (bind_ok _ _ _ _ _ Hp2). rewrite Hc, Hm, Hl. eauto.
Qed.

(** An identifier that is not in the table changes nothing. *)
Lemma MQTTProperties_add_invalid {S} `{HasHeap S} p x (s : S) :
  MQTTProperty_getType (identifier x) = None →
  MQTTProperties_add p x s = Ok (MQTT_INVALID_PROPERTY_ID, p, s).
Proof. intros Ht. unfold MQTTProperties_add. by rewrite Ht. Qed.

Lemma copy_entries_repr {S} `{HasHeap S} p l r done_ i n (s : S) :
  props_repr p l → props_repr r done_ → take i l = done_ → (i + n = length l)%nat →
  heap_of s = [] →
  ∃ p', copy_entries p r i n s = Ok (p', s) ∧ props_repr p' l.
Proof.
  revert r done_ i. induction n as [| n IH]; intros r done_ i Hp Hr Ht Hi Hs; simpl.
  - exists r. split; [done |]. rewrite take_ge in Ht by lia. by subst.
  - destruct (lookup_lt_is_Some_2 l i) as [x Hx]; [lia |].
    rewrite (array_at_repr p l i x Hp Hx), bind_ok with (1 := ret_run _ _).
    assert (Hvx : valid_property x).
    { destruct Hp as [_ _ Hv _]. by eapply Forall_lookup_1. }
    destruct (MQTTProperties_add_repr r done_ x s Hr Hvx Hs) as (r' & Hadd & Hr').
    rewrite (bind_ok _ _ _ _ _ Hadd). simpl.
    apply (IH r' (done_ ++ [x]) (i + 1)%nat Hp Hr'); [| lia | done].
    rewrite Nat.add_1_r, (take_S_r l i x) by done. by rewrite Ht.
Qed.

Lemma MQTTProperties_copy_repr {S} `{HasHeap S} p l (s : S) :
  props_repr p l → heap_of s = [] →
  ∃ p', MQTTProperties_copy p s = Ok (p', s) ∧ props_repr p' l.
Proof.
  intros Hr Hs. unfold MQTTProperties_copy.
  apply (copy_entries_repr p l _ [] 0); [done | apply props_repr_initializer | done | | done].
  by destruct Hr.
Qed.

(** ** Writing *)
Lemma write_value_valid type v id :
  MQTTProperty_getType id = Some type → valid_value type v →
  writes (MQTTProperty_write (mkProperty id v)) (id :: enc_value v type)
    (Z.of_nat (length (enc_value v type)) + 1).
Proof.
  intros Ht Hv. unfold MQTTProperty_write. cbn [identifier value]. rewrite Ht.
  eapply (writes_bind _ _ [id] (enc_value v type) tt).
  { rewrite <- (u8_small id) at 2 by (by eapply getType_byte). apply writes_writeChar. }
  apply (writes_then_ret _ (λ rc, rc + 1)).
  destruct Hv; unfold as_byte, as_integer2, as_integer4, as_data, as_value;
    cbn [enc_value lenstring]; apply writes_ret_then.
  - apply (writes_then_ret _ (λ _, 1) _ tt).
    rewrite <- (u8_small b) at 2 by done. apply writes_writeChar.
  - apply (writes_then_ret _ (λ _, 2) _ tt). by apply writes_writeInt.
  - apply (writes_then_ret _ (λ _, 4) _ tt). by apply writes_writeInt4.
  - apply (writes_then_ret _ (λ _, Z.of_nat (length (MQTTPacket_encode n))) _ tt), writes_emit.
  - replace (Z.of_nat (length (len_string d))) with (Z.of_nat (length d) + 2)
      by (rewrite length_len_string; lia).
    apply (writes_then_ret _ (λ _, ls_len (lenstring d) + 2) _ tt).
    by apply writes_writeMQTTLenString.
  - replace (Z.of_nat (length (len_string d))) with (Z.of_nat (length d) + 2)
      by (rewrite length_len_string; lia).
    apply (writes_then_ret _ (λ _, ls_len (lenstring d) + 2) _ tt).
    by apply writes_writeMQTTLenString.
  - replace (Z.of_nat (length (len_string d ++ len_string w)))
      with (Z.of_nat (length d) + Z.of_nat (length w) + 4)
      by (rewrite length_app, !length_len_string; lia).
    eapply (writes_bind _ _ _ _ tt); [by apply writes_writeMQTTLenString |].
    apply writes_ret_then.
    apply (writes_then_ret _ (λ _, ls_len (lenstring d) + ls_len (lenstring w) + 4) _ tt).
    by apply writes_writeMQTTLenString.
Qed.

Lemma MQTTProperty_write_valid p :
  valid_property p →
  writes (MQTTProperty_write p) (enc_property p) (Z.of_nat (length (enc_property p))).
Proof.
  intros Hp. destruct (enc_property_valid p Hp) as (type & Ht & Hv & ->).
  replace (Z.of_nat (length (identifier p :: enc_value (value p) type)))
    with (Z.of_nat (length (enc_value (value p) type)) + 1) by (simpl; lia).
  destruct p. by apply write_value_valid.
Qed.

Lemma enc_entries_drop l i x :
  l !! i = Some x → enc_entries (drop i l) = enc_property x ++ enc_entries (drop (S i) l).
Proof. intros Hx. by rewrite (drop_S l x i Hx). Qed.

Lemma write_entries_repr p l i n rc len :
  props_repr p l → (i + n = length l)%nat → 0 ≤ rc →
  ∃ rc', 0 ≤ rc' ∧
    writes (write_entries p i n rc len) (enc_entries (drop i l))
      (rc', len + Z.of_nat (length (enc_entries (drop i l)))).
Proof.
  intros Hr. revert i rc len. induction n as [| n IH]; intros i rc len Hi Hrc; simpl.
  - exists rc. split; [done |]. rewrite drop_ge by lia. rewrite Z.add_0_r. apply writes_ret.
  - destruct (lookup_lt_is_Some_2 l i) as [x Hx]; [lia |].
    assert (Hvx : valid_property x).
    { destruct Hr as [_ _ Hv _]. by eapply Forall_lookup_1. }
    destruct (IH (i + 1)%nat (Z.of_nat (length (enc_property x)))
      (len + Z.of_nat (length (enc_property x)))) as (rc' & Hrc' & Hw); [lia | lia |].
    exists rc'. split; [done |]. rewrite (enc_entries_drop l i x Hx).
    rewrite (array_at_repr p l i x Hr Hx). apply writes_ret_then.
    eapply writes_bind; [by apply MQTTProperty_write_valid |].
    rewrite decide_False by lia. rewrite length_app, Nat2Z.inj_add, Z.add_assoc.
    rewrite Nat.add_1_r in Hw |- *. exact Hw.
Qed.

(** The bytes written are the encoding of the list. *)
Lemma MQTTProperties_write_repr p l :
  props_repr p l →
  writes (MQTTProperties_write (Some p)) (enc_properties l)
    (1 + Z.of_nat (length (enc_entries l))).
Proof.
  intros Hr. unfold MQTTProperties_write, enc_properties.
  pose proof (repr_length _ _ Hr) as ->.
  eapply (writes_bind _ _ _ _ tt); [apply writes_emit |].
  pose proof (repr_count _ _ Hr) as ->.
  destruct (write_entries_repr p l 0 (length l) 1 1 Hr) as (rc' & Hrc' & Hw); [done.. |].
  rewrite drop_0 in Hw. rewrite <- (app_nil_r (enc_entries l)) at 1.
  eapply writes_bind; [exact Hw |]. simpl. rewrite decide_True by done. apply writes_ret.
Qed.

(** ... and [MQTTProperties_len] is their number. *)
Lemma MQTTProperties_len_repr p l :
  props_repr p l → fits l →
  MQTTProperties_len (Some p) = Z.of_nat (length (enc_properties l)).
Proof.
  intros Hr Hf. unfold MQTTProperties_len, enc_properties. rewrite length_app.
  rewrite (repr_length _ _ Hr).
  rewrite <- encode_length_VBIlen by (unfold fits in Hf; lia). lia.
Qed.

(** ** Reading *)
Lemma datadup_reader d mem pos :
  datadup (lenstring d) (Reader mem pos []) = Ok (Some d, Reader mem pos []).
Proof. by apply datadup_lenstring. Qed.

Lemma parses_read_string d :
  parses read_string (len_string d) (2 + Z.of_nat (length d), Some (lenstring d)).
Proof.
  intros mem pos e rest Hd He. unfold read_string.
  rewrite (bind_ok _ _ _ _ _ (parses_MQTTLenStringRead d mem pos e rest Hd He)).
  rewrite decide_False by lia.
  by rewrite (bind_ok _ _ _ _ _ (datadup_reader _ _ _)).
Qed.

Lemma parses_then_ret {A B} (m : nat → M reader A) (f : A → B) l a :
  parses m l a → parses (λ e, m e ≫= λ a, mret (f a)) l (f a).
Proof.
  intros Hm. rewrite <- (app_nil_r l).
  apply (parses_bind m (λ a _, mret (f a)) l [] a); [exact Hm | apply parses_ret].
Qed.

(** A variable byte integer read through [bufptr], then skipped. *)
Lemma parses_decodeBuf {B} n (k : Z → Z → nat → M reader B) l b :
  0 ≤ n < 268435456 →
  parses (k (Z.of_nat (length (MQTTPacket_encode n))) n) l b →
  parses (λ e, MQTTPacket_decodeBuf ≫= λ len_n, let '(len, n) := len_n : Z * Z in
    advance (Z.to_nat len) ≫= λ _, k len n e) (MQTTPacket_encode n ++ l) b.
Proof.
  intros Hn Hk mem pos e rest Hd He. rewrite length_app in *.
  rewrite <- (assoc_L (++)) in Hd.
  rewrite (bind_ok _ _ _ _ _ (decodeBuf_encode n mem pos _ Hn Hd)).
  unfold advance, modify. rewrite (bind_ok _ _ _ _ _ eq_refl). cbn [r_mem r_pos r_heap].
  rewrite Nat2Z.id. rewrite (Hk mem _ e rest).
  - by rewrite Nat.add_assoc.
  - by rewrite <- drop_drop, Hd, drop_app_length.
  - lia.
Qed.

Lemma parses_value type v id :
  MQTTProperty_getType id = Some type → valid_value type v →
  parses MQTTProperty_read (id :: enc_value v type)
    (Z.of_nat (length (enc_value v type)) + 1, Some (mkProperty id v)).
Proof.
  intros Ht Hv. unfold MQTTProperty_read.
  apply (parses_bind (λ _, readChar) _ [id] (enc_value v type) id); [apply parses_readChar |].
  cbv beta zeta. rewrite Ht. destruct Hv; cbn [enc_value lenstring].
  - apply (parses_then_ret (λ _, readChar) (λ b, (1 + 1, Some (mkProperty id (VByte b))))).
    apply parses_readChar.
  - apply (parses_then_ret (λ _, readInt) (λ n, (2 + 1, Some (mkProperty id (VInteger2 n))))).
    apply parses_len_prefix.
  - apply (parses_then_ret (λ _, readInt4) (λ n, (4 + 1, Some (mkProperty id (VInteger4 n))))).
    by apply parses_be32.
  - rewrite <- (app_nil_r (MQTTPacket_encode n)) at 1.
    apply (parses_decodeBuf n
      (λ len n _, mret (len + 1, Some (mkProperty id (VInteger4 n))))); [done |].
    apply parses_ret.
  - replace (Z.of_nat (length (len_string d))) with (2 + Z.of_nat (length d))
      by (rewrite length_len_string; lia).
    rewrite <- (app_nil_r (len_string d)) at 1.
    eapply (parses_bind read_string); [apply parses_read_string | apply parses_ret].
  - replace (Z.of_nat (length (len_string d))) with (2 + Z.of_nat (length d))
      by (rewrite length_len_string; lia).
    rewrite <- (app_nil_r (len_string d)) at 1.
    eapply (parses_bind read_string); [apply parses_read_string | apply parses_ret].
  - replace (Z.of_nat (length (len_string d ++ len_string w)))
      with (2 + Z.of_nat (length d) + (2 + Z.of_nat (length w)))
      by (rewrite length_app, !length_len_string; lia).
    eapply (parses_bind read_string); [apply parses_read_string |]. cbv beta iota.
    rewrite <- (app_nil_r (len_string w)) at 1.
    eapply (parses_bind read_string); [apply parses_read_string | apply parses_ret].
Qed.

Lemma parses_MQTTProperty_read p :
  valid_property p →
  parses MQTTProperty_read (enc_property p) (Z.of_nat (length (enc_property p)), Some p).
Proof.
  intros Hp. destruct (enc_property_valid p Hp) as (type & Ht & Hv & ->).
  replace (Z.of_nat (length (identifier p :: enc_value (value p) type)))
    with (Z.of_nat (length (enc_value (value p) type)) + 1) by (simpl; lia).
  destruct p. by apply parses_value.
Qed.

Lemma enc_property_length p : valid_property p → (2 ≤ length (enc_property p))%nat.
Proof.
  intros Hp. destruct (enc_property_valid p Hp) as (type & _ & Hv & ->).
  destruct Hv; simpl; try lia.
  pose proof (encode_loop_nonempty 9 (u64 n)). unfold MQTTPacket_encode in *.
  destruct (encode_loop 9 (u64 n)); simpl; [done | lia].
Qed.

Definition set_length (p : MQTTProperties) (n : Z) : MQTTProperties :=
  mkProperties (count p) (max_count p) n (array p).

(** The store does not look at the running length. *)
Lemma array_store_frame {S S'} q n i x (s : S) p' s' (r : S') :
  array_store q i x s = Ok (p', s') →
  array_store (set_length q n) i x r = Ok (set_length p' n, r).
Proof.
  unfold array_store. cbn [array set_length]. destruct (array q); [| done].
  case_decide; [| done]. mrun. by intros [= <- _].
Qed.

(** One entry: the slot, the property, the store. *)
Lemma read_loop_step fuel p done_ x l r :
  props_repr (set_length p (Z.of_nat (length (enc_entries done_)))) done_ →
  valid_property x → Z.of_nat (length (enc_entries (x :: l))) < 2 ^ 32 →
  (∀ p', props_repr (set_length p' (Z.of_nat (length (enc_entries (done_ ++ [x])))))
           (done_ ++ [x]) → length_ p' = length_ p →
     ∃ p'', parses (λ e, read_loop fuel e p' (Z.of_nat (length (enc_entries l))))
       (enc_entries l) (ReadDone 0, p'') ∧ r p'') →
  ∃ p'', parses (λ e, read_loop (S fuel) e p (Z.of_nat (length (enc_entries (x :: l)))))
    (enc_entries (x :: l)) (ReadDone 0, p'') ∧ r p''.
Proof.
  intros Hr Hx Hfit Hrest.
  change (x :: l) with ([x] ++ l) in *. rewrite enc_entries_app, enc_entries_one in *.
  rewrite length_app in *. pose proof (enc_property_length x Hx) as Hlen.
  destruct (ensure_slot _ _ (Reader [] 0 []) Hr ltac:(done)) as (q & Hq & Hqr & Hqs & Hqc).
  set (p1 := set_length q (length_ p)).
  assert (Hp1 : ∀ mem pos, (if decide (count p = max_count p) then array_grow p else mret p)
    (Reader mem pos []) = Ok (p1, Reader mem pos [])).
  { intros mem pos. revert Hq. cbn [count max_count set_length]. case_decide.
    - unfold array_grow. mrun. intros [= <-]. done.
    - mrun. intros [= <-]. unfold p1. by destruct p. }
  destruct (store_repr q done_ x (length_ q + Z.of_nat (length (enc_property x))) (Reader [] 0 [])
    Hqr Hqs Hqc Hx eq_refl) as (p2 & Hst & Hc2 & Hm2 & Hl2 & Hs2 & Hr2).
  rewrite <- Hc2, <- Hm2 in Hr2.
  set (p3 := mkProperties (count p2 + 1) (max_count p2) (length_ p) (array p2)).
  destruct (Hrest p3) as (p'' & Hpar & Hp''); [| done |].
  { rewrite Nat2Z.inj_add. rewrite (repr_length _ _ Hqr) in Hr2. exact Hr2. }
  exists p''. split; [| done]. intros mem pos e rest Hd He. cbn [read_loop].
  rewrite decide_False by lia. rewrite (bind_ok _ _ _ _ _ (Hp1 mem pos)).
  replace (array p1) with (array q) by done. destruct Hqs as [a Ha]. rewrite Ha.
  rewrite length_app in He. rewrite <- (assoc_L (++)) in Hd.
  rewrite (bind_ok _ _ _ _ _ (parses_MQTTProperty_read x Hx mem pos e _ Hd ltac:(lia))).
  rewrite decide_True by lia.
  rewrite (bind_ok _ _ _ _ _ (array_store_frame q (length_ p) _ _ _ _ _ _ Hst)). cbn [count max_count length_ array].
  replace (Z.of_nat (length (enc_property x) + length (enc_entries l))
    - Z.of_nat (length (enc_property x))) with (Z.of_nat (length (enc_entries l))) by lia.
  rewrite u32_small by lia. rewrite length_app, Nat.add_assoc.
  apply (Hpar mem _ e rest); [| lia].
  by rewrite <- drop_drop, Hd, drop_app_length.
Qed.

Lemma parses_read_loop l : ∀ fuel p done_,
  props_repr (set_length p (Z.of_nat (length (enc_entries done_)))) done_ →
  Forall valid_property l → fits l → (length l ≤ fuel)%nat →
  ∃ p', parses (λ e, read_loop fuel e p (Z.of_nat (length (enc_entries l))))
          (enc_entries l) (ReadDone 0, p') ∧
    (length_ p' = length_ p ∧
     props_repr (set_length p' (Z.of_nat (length (enc_entries (done_ ++ l))))) (done_ ++ l)).
Proof.
  induction l as [| x l IH]; intros fuel p done_ Hr Hv Hf Hl.
  - exists p. rewrite app_nil_r. split; [| done].
    intros mem pos e rest _ _. rewrite Nat.add_0_r. by destruct fuel.
  - destruct fuel as [| fuel]; [simpl in Hl; lia |].
    apply Forall_cons in Hv as [Hx Hv].
    assert (Hf' := Hf). apply (fits_app [x] l) in Hf' as [_ Hfl].
    apply (read_loop_step fuel p done_ x l (λ p', length_ p' = length_ p ∧ props_repr
      (set_length p' (Z.of_nat (length (enc_entries (done_ ++ x :: l))))) (done_ ++ x :: l)));
      [done | done | unfold fits in Hf; lia |].
    intros p1 Hr1 Hl1. destruct (IH fuel p1 (done_ ++ [x]) Hr1 Hv Hfl) as (p' & Hp & Hl' & Hr');
      [simpl in Hl; lia |].
    exists p'. split; [exact Hp |]. rewrite <- (assoc_L (++)) in Hr'. split; [congruence | done].
Qed.

Lemma enc_entries_length l : Forall valid_property l → (length l ≤ length (enc_entries l))%nat.
Proof.
  induction 1 as [| x l Hx _ IH]; [done |].
  change (x :: l) with ([x] ++ l). rewrite enc_entries_app, enc_entries_one, !length_app.
  pose proof (enc_property_length x Hx). simpl. lia.
Qed.

(** More fuel does not change a run that ended. *)
Lemma read_loop_more fuel fuel' e p n s r :
  read_loop fuel e p n s = Ok r → (fuel ≤ fuel')%nat → read_loop fuel' e p n s = Ok r.
Proof.
  revert fuel' p n s. induction fuel as [| fuel IH]; intros fuel' p n s Hr Hle.
  - destruct fuel'; simpl in *; by case_decide.
  - destruct fuel' as [| fuel']; [lia |]. cbn [read_loop] in *. case_decide; [done |].
    apply bind_inv in Hr as (p1 & s1 & H1 & Hr). rewrite (bind_ok _ _ _ _ _ H1).
    destruct (array p1); [| done].
    apply bind_inv in Hr as ([len q] & s2 & H2 & Hr). rewrite (bind_ok _ _ _ _ _ H2).
    destruct q as [q |]; [| done]. case_decide; [| done].
    apply bind_inv in Hr as (p2 & s3 & H3 & Hr). rewrite (bind_ok _ _ _ _ _ H3).
    apply IH; [done | lia].
Qed.

Lemma encode_nonempty n : (0 < length (MQTTPacket_encode n))%nat.
Proof.
  unfold MQTTPacket_encode. pose proof (encode_loop_nonempty 9 (u64 n)).
  destruct (encode_loop 9 (u64 n)); simpl; [done | lia].
Qed.

(** The reader on the encoding of a list of valid properties. *)
Lemma parses_MQTTProperties_read l :
  Forall valid_property l → fits l →
  ∃ p, props_repr p l ∧
    parses (MQTTProperties_read MQTTProperties_initializer) (enc_properties l) (1, p).
Proof.
  intros Hv Hf. pose proof (enc_entries_length l Hv) as Hle.
  set (n := Z.of_nat (length (enc_entries l))).
  destruct (parses_read_loop l (length l) (set_length MQTTProperties_initializer n) [])
    as (p & Hp & Hpl & Hpr); [apply props_repr_initializer | done.. |].
  unfold fits in Hf. fold n in Hp, Hf. simpl in Hpr, Hpl. fold n in Hpr.
  exists p. split.
  { replace p with (set_length p n); [done |]. rewrite <- Hpl. by destruct p. }
  intros mem pos e rest Hd He. unfold enc_properties in *. fold n in Hd, He |- *.
  pose proof (encode_nonempty n) as Hpos.
  rewrite length_app in He |- *. rewrite <- (assoc_L (++)) in Hd.
  assert (Hmem : (length l ≤ length mem)%nat).
  { apply (f_equal length) in Hd. rewrite length_drop, !length_app in Hd. lia. }
  assert (Hrun : read_loop (length mem) e (set_length MQTTProperties_initializer n) n
      (Reader mem (pos + length (MQTTPacket_encode n)) []) =
    Ok (ReadDone 0, p, Reader mem (pos + (length (MQTTPacket_encode n) + length (enc_entries l))) [])).
  { rewrite Nat.add_assoc. eapply read_loop_more; [| exact Hmem].
    apply (Hp mem _ e rest); [| lia]. by rewrite <- drop_drop, Hd, drop_app_length. }
  unfold MQTTProperties_read. change (gets r_pos (Reader mem pos [])) with (Ok (pos, Reader mem pos [])).
  rewrite (bind_ok (gets r_pos) _ (Reader mem pos []) pos _ eq_refl).
  rewrite decide_True by lia.
  eapply bind_ok_eq.
  - rewrite (bind_ok _ _ _ _ _ (decodeBuf_encode n mem pos _ ltac:(lia) Hd)).
    cbn [count max_count array MQTTProperties_initializer]. rewrite Nat2Z.id, i32_small by lia.
    rewrite (bind_ok (advance _) _ _ tt _ eq_refl). cbn [r_mem r_pos r_heap].
    rewrite (bind_ok (gets r_mem) _ (Reader mem _ []) mem _ eq_refl).
    rewrite (bind_ok _ _ _ _ _ Hrun). done.
  - cbn. by rewrite decide_True by done.
Qed.

(** ** Termination of the reader *)
Lemma steady_datadup s : steady (datadup s).
Proof. unfold datadup. solve_steady. Qed.
#[export] Hint Resolve steady_datadup : paho.
Lemma steady_read_string e : steady (read_string e).
Proof. unfold read_string. solve_steady. Qed.
#[export] Hint Resolve steady_read_string : paho.

Lemma steady_array_grow p : steady (array_grow p).
Proof. unfold array_grow. solve_steady. Qed.
Lemma steady_array_store p i x : steady (array_store p i x).
Proof. unfold array_store. solve_steady. Qed.
Lemma steady_array_at p i : steady (array_at p i).
Proof. unfold array_at. solve_steady. Qed.
Lemma steady_as_data v : steady (as_data v).
Proof. unfold as_data. solve_steady. Qed.
Lemma steady_as_value v : steady (as_value v).
Proof. unfold as_value. solve_steady. Qed.
#[export] Hint Resolve steady_array_grow steady_array_store steady_array_at
  steady_as_data steady_as_value : paho.

Lemma steady_free p : steady (MQTTProperties_free p).
Proof.
  unfold MQTTProperties_free. apply steady_bind; [| solve_steady].
  generalize 0%nat. induction (count p) as [| n IH]; intros i; simpl; [auto with paho |].
  apply steady_bind; [auto with paho | intros q].
  apply steady_bind; [solve_steady | intros _; apply IH].
Qed.
#[export] Hint Resolve steady_free : paho.

Lemma MQTTProperty_read_moves e s r s' :
  MQTTProperty_read e s = Ok (r, s') →
  (r_pos s < length (r_mem s))%nat ∧ r_mem s' = r_mem s ∧ (r_pos s < r_pos s')%nat.
Proof. unfold MQTTProperty_read. apply readChar_bind_moves. intros c. solve_steady. Qed.

Lemma steady_MQTTProperty_read e : steady (MQTTProperty_read e).
Proof. unfold MQTTProperty_read. solve_steady. Qed.
#[export] Hint Resolve steady_MQTTProperty_read : paho.

Lemma read_loop_enough_fuel fuel e p n s :
  (length (r_mem s) - r_pos s < fuel)%nat → steady_at (read_loop fuel e p n) s.
Proof.
  revert p n s. induction fuel as [| fuel IH]; intros p n s Hf; [lia |]. cbn [read_loop].
  case_decide; [apply steady_ret |].
  apply steady_at_bind; [assert (steady (array_grow p)) by auto with paho; by case_decide |].
  intros p1 s1 _ Hm1 Hp1. destruct (array p1); [| apply steady_ret].
  apply steady_at_bind; [apply steady_MQTTProperty_read |].
  intros [len q] s2 Hr Hm2 Hp2. apply MQTTProperty_read_moves in Hr as (Hb & _ & Hmv).
  destruct q as [q |]; [| apply steady_ret]. case_decide; [| apply steady_ret].
  apply steady_at_bind; [apply steady_array_store |].
  intros p2 s3 _ Hm3 Hp3. apply IH. rewrite Hm3, Hm2, Hm1. rewrite Hm1 in Hb. lia.
Qed.

Lemma steady_MQTTProperties_read p e : steady (MQTTProperties_read p e).
Proof.
  unfold MQTTProperties_read. apply steady_bind; [auto with paho | intros pos].
  apply steady_bind; [| intros r; solve_steady].
  case_decide; [| auto with paho].
  intros s. apply steady_at_bind; [apply steady_decodeBuf |].
  intros [len rem] s0 Hd Hm0 Hp0. pose proof (decodeBuf_in_block _ _ Hd) as Hin.
  destruct (decodeBuf_bounds s) as [Hd' | (l & v & Hd' & Hl & _)]; [congruence |].
  rewrite Hd in Hd'. injection Hd' as -> -> ->.
  apply steady_at_bind; [apply steady_advance |]. intros _ s1 [= <-] Hm1 Hp1.
  apply steady_at_bind; [apply steady_gets |]. intros mem s2 [= <- <-] Hm2 Hp2.
  apply steady_at_bind; [apply read_loop_enough_fuel; subst s1; simpl in *; lia |].
  intros. apply steady_ret.
Qed.
#[export] Hint Resolve steady_MQTTProperties_read : paho.

(** ** What the reader returns can be freed *)
Definition freeable_property (p : MQTTProperty) : Prop :=
  match MQTTProperty_getType (identifier p) with
  | Some MQTTPROPERTY_TYPE_BINARY_DATA | Some MQTTPROPERTY_TYPE_UTF_8_ENCODED_STRING =>
    ∃ d w, value p = VStrings d w
  | Some MQTTPROPERTY_TYPE_UTF_8_STRING_PAIR => ∃ d w, value p = VStrings d (Some w)
  | _ => True
  end.

Definition freeable (props : MQTTProperties) : Prop :=
  ∀ i, (i < count props)%nat →
    ∃ a p, array props = Some a ∧ a !! i = Some (Some p) ∧ freeable_property p.

Lemma freeable_initializer : freeable MQTTProperties_initializer.
Proof. intros i Hi. simpl in Hi. lia. Qed.

Lemma MQTTProperties_free_freeable {S} props (s : S) :
  freeable props → MQTTProperties_free props s = Ok (MQTTProperties_initializer, s).
Proof.
  intros Hf. unfold MQTTProperties_free.
  enough (∀ n i, (i + n ≤ count props)%nat → free_entries props i n s = Ok (tt, s)) as H
    by by rewrite (bind_ok _ _ _ _ _ (H (count props) 0%nat (Nat.le_refl _))).
  induction n as [| n IH]; intros i Hi; [done |]. cbn [free_entries].
  destruct (Hf i ltac:(lia)) as (a & p & Ha & Hp & Hk).
  unfold array_at. rewrite Ha, Hp, (bind_ok (mret p) _ s p s eq_refl).
  eapply bind_ok_eq; [| apply IH; lia].
  unfold freeable_property in Hk. destruct (MQTTProperty_getType _) as [[] |]; try done.
  - by destruct Hk as (d & w & ->).
  - by destruct Hk as (d & w & ->).
  - by destruct Hk as (d & w & ->).
Qed.

Lemma MQTTProperty_read_freeable e s len p s' :
  MQTTProperty_read e s = Ok (len, Some p, s') → freeable_property p.
Proof.
  unfold MQTTProperty_read. intros Hr. apply bind_inv in Hr as (id & s1 & _ & Hr).
  unfold freeable_property.
  destruct (MQTTProperty_getType id) as [type |] eqn:Et; [| done].
  assert (∀ n v s0, (mret (n, Some (mkProperty id v)) : M reader _) s0
    = Ok (len, Some p, s') → p = mkProperty id v) as Hret
    by (intros ???; mrun; by intros [= _ <- _]).
  destruct type; repeat
    match type of Hr with
    | (_ ≫= _) _ = _ => apply bind_inv in Hr as (? & ? & _ & Hr)
    | (match ?x with _ => _ end) _ = _ => destruct x
    | _ => first [done | apply Hret in Hr as ->]; cbn [identifier value]; rewrite Et; eauto
    end.
Qed.

Lemma array_store_freeable {S} props p (s : S) props' s' :
  freeable props → freeable_property p → array_store props (count props) p s = Ok (props', s') →
  freeable (mkProperties (count props' + 1) (max_count props') (length_ props') (array props')).
Proof.
  unfold array_store. intros Hf Hp Hs. destruct (array props) as [a |] eqn:Ea; [| done].
  case_decide as Hlen; [| done]. revert Hs. mrun. intros [= <- <-].
  intros i Hi. cbn [count array] in *.
  destruct (decide (i = count props)) as [-> |].
  - do 2 eexists. split_and!; [done | by apply list_lookup_insert_eq | done].
  - destruct (Hf i ltac:(lia)) as (a' & q & Ha' & Hq & ?). rewrite Ea in Ha'. simplify_eq.
    do 2 eexists. split_and!; [done | by rewrite list_lookup_insert_ne | done].
Qed.

Lemma array_grow_freeable props (s : reader) props' s' :
  freeable props → array_grow props s = Ok (props', s') → is_Some (array props') →
  freeable props'.
Proof.
  unfold array_grow. intros Hf Hg [a Ha]. apply bind_inv in Hg as (ok & s1 & _ & Hg).
  revert Hg. mrun. intros [= <- _]. intros i Hi. cbn [count array] in *.
  destruct ok; [| done]. simplify_eq. destruct (Hf i Hi) as (a & q & Hb & Hq & ?).
  rewrite Hb. do 2 eexists. split_and!; [done | by apply lookup_app_l_Some | done].
Qed.

Lemma read_loop_freeable fuel e props n s m props' s' :
  freeable props → read_loop fuel e props n s = Ok (ReadDone m, props', s') → freeable props'.
Proof.
  revert props n s. induction fuel as [| fuel IH]; intros props n s Hf; cbn [read_loop].
  { case_decide; mrun; [by intros [= _ <- _] | done]. }
  case_decide; [mrun; by intros [= _ <- _] |]. intros Hr.
  apply bind_inv in Hr as (p1 & s1 & H1 & Hr).
  destruct (array p1) as [a |] eqn:Ea; [| done].
  assert (freeable p1) as Hf1.
  { case_decide; [eapply array_grow_freeable; by eauto |].
    revert H1. mrun. by intros [= <- _]. }
  apply bind_inv in Hr as ([len [p |]] & s2 & H2 & Hr).
  - apply MQTTProperty_read_freeable in H2. case_decide; [| revert Hr; mrun; by intros [= _ <- _]].
    apply bind_inv in Hr as (p2 & s3 & H3 & Hr). eapply IH, Hr.
    by eapply array_store_freeable.
  - revert Hr. mrun. by intros [= _ <- _].
Qed.

Lemma MQTTProperties_read_freeable props e s props' s' :
  freeable props → MQTTProperties_read props e s = Ok (1, props', s') → freeable props'.
Proof.
  intros Hf Hr. unfold MQTTProperties_read in Hr.
  apply bind_inv in Hr as (pos & s1 & _ & Hr).
  apply bind_inv in Hr as (r & s2 & H & Hr).
  destruct r as [[[rem |] p] |]; [| done |].
  - case_decide.
    + revert Hr. mrun. intros [= <- _]. case_decide; [| done].
      apply bind_inv in H as ([len rem'] & s3 & _ & H).
      apply bind_inv in H as (? & s4 & _ & H).
      apply bind_inv in H as (mem & s5 & _ & H).
      apply bind_inv in H as (r & s6 & H & Hret).
      revert Hret. mrun. intros [= -> _]. eapply read_loop_freeable, H.
      exact Hf.
    + case_match; [| done]. by apply bind_inv in Hr as (? & ? & _ & [=]).
  - case_match; [| done]. by apply bind_inv in Hr as (? & ? & _ & [=]).
Qed.

(** ** Queries as operations on the list *)
Definition with_id (propid : Z) (l : list MQTTProperty) : list MQTTProperty :=
  filter (λ p, identifier p = propid) l.

Lemma count_property_filter propid l n :
  count_property propid l n = n + Z.of_nat (length (with_id propid l)).
Proof.
  revert n. induction l as [| p l IH]; intros n; simpl; [lia |].
  unfold with_id. rewrite filter_cons. rewrite IH.
  destruct (decide (propid = identifier p)) as [-> | Hne].
  - rewrite decide_True by done. simpl. unfold with_id. lia.
  - rewrite decide_False by done. done.
Qed.

Lemma property_at_filter propid index cur l :
  cur ≤ index → property_at propid index cur l = with_id propid l !! Z.to_nat (index - cur).
Proof.
  unfold with_id. revert cur. induction l as [| p l IH]; intros cur Hc; [done |].
  simpl property_at. rewrite filter_cons. case_decide; [| by apply IH].
  case_decide as Hi.
  - subst. by rewrite Z.sub_diag.
  - rewrite IH by lia. by replace (Z.to_nat (index - cur)) with (S (Z.to_nat (index - (cur + 1)))) by lia.
Qed.

Lemma property_at_below propid index cur l :
  index < cur → property_at propid index cur l = None.
Proof.
  revert cur. induction l as [| p l IH]; intros cur Hc; [done |]. simpl.
  case_decide; [| by apply IH]. rewrite decide_False by lia. apply IH. lia.
Qed.

Lemma numeric_value_at_filter {S} propid index cur l :
  numeric_value_at (S:=S) propid index cur l =
  match with_id propid l !! Z.to_nat (index - cur) with
  | Some p => numeric_value p
  | None => mret (-9999999)
  end.
Proof.
  unfold with_id. revert cur. induction l as [| p l IH]; intros cur; [done |].
  simpl numeric_value_at. rewrite filter_cons. case_decide; [| apply IH].
  case_decide as Hi.
  - rewrite IH. by replace (Z.to_nat (index - cur)) with (Datatypes.S (Z.to_nat (index - (cur + 1)))) by lia.
  - by replace (Z.to_nat (index - cur)) with 0%nat by lia.
Qed.

(** * Properties of the component *)

(** Two properties, and the structure two calls of [MQTTProperties_add] build
    from them. *)
Definition sample_entries : list MQTTProperty := [
  mkProperty MQTTPROPERTY_CODE_MESSAGE_EXPIRY_INTERVAL (VInteger4 70000);
  mkProperty MQTTPROPERTY_CODE_USER_PROPERTY
    (VStrings (lenstring [97; 98]) (Some (lenstring [99])))].

Definition sample_properties : MQTTProperties :=
  mkProperties 2 10 13 (Some ((Some <$> sample_entries) ++ replicate 8 None)).

Lemma sample_valid : Forall valid_property sample_entries.
Proof.
  repeat constructor.
  - exists MQTTPROPERTY_TYPE_FOUR_BYTE_INTEGER. split; [done | constructor; lia].
  - exists MQTTPROPERTY_TYPE_UTF_8_STRING_PAIR. split; [done | constructor; simpl; lia].
Qed.

Lemma sample_repr : props_repr sample_properties sample_entries.
Proof.
  constructor; [done | by vm_compute | apply sample_valid |].
  exists 8%nat. by split.
Qed.

Lemma sample_fits : fits sample_entries.
Proof. by vm_compute. Qed.

(** C29: Round trip of MQTT 5 properties.  A property list that the code built
    ([props_repr p l]) and whose encoded length is below 2^28 is written by
    [MQTTProperties_write] into a block of exactly [MQTTProperties_len] bytes
    without overflow and filling it, and [MQTTProperties_read] on those bytes,
    wherever they lie in a received packet, succeeds, stops behind them and
    yields the same list. *)
Theorem MQTTProperties_roundtrip p l pre post :
  props_repr p l → fits l →
  ∃ rc out p', let n := Z.to_nat (MQTTProperties_len (Some p)) in
    MQTTProperties_write (Some p) (Writer n []) = Ok (rc, Writer n out) ∧ length out = n ∧
    MQTTProperties_read MQTTProperties_initializer (length pre + n)
      (Reader (pre ++ out ++ post) (length pre) []) =
      Ok (1, p', Reader (pre ++ out ++ post) (length pre + n) []) ∧
    props_repr p' l.
Proof.
  intros Hr Hf. rewrite (MQTTProperties_len_repr p l Hr Hf), Nat2Z.id.
  destruct (parses_MQTTProperties_read l (repr_valid _ _ Hr) Hf) as (p' & Hr' & Hread).
  exists (1 + Z.of_nat (length (enc_entries l))), (enc_properties l), p'.
  split_and!; [| done | | done].
  - by apply (MQTTProperties_write_repr p l Hr).
  - apply (Hread _ _ _ post); [by rewrite drop_app_length | done].
Qed.

Lemma MQTTProperties_roundtrip_witness :
  ∃ rc out p', let n := Z.to_nat (MQTTProperties_len (Some sample_properties)) in
    MQTTProperties_write (Some sample_properties) (Writer n []) = Ok (rc, Writer n out) ∧
    length out = n ∧
    MQTTProperties_read MQTTProperties_initializer (length [7; 7] + n)
      (Reader ([7; 7] ++ out ++ [9]) (length [7; 7]) []) =
      Ok (1, p', Reader ([7; 7] ++ out ++ [9]) (length [7; 7] + n) []) ∧
    props_repr p' sample_entries.
Proof.
  apply (MQTTProperties_roundtrip sample_properties sample_entries [7; 7] [9]).
  - exact sample_repr.
  - exact sample_fits.
Defined.

(** C30: [MQTTProperties_add] keeps the structure well formed and accounts for
    the length: adding a valid property to a structure that represents [l]
    returns 0, where the allocations succeed, and the structure then represents
    [l] followed by the property, the array grown when it was full.  An
    identifier outside the table returns MQTT_INVALID_PROPERTY_ID, -2, and
    changes nothing; where the array is full, or there is none, and cannot be
    allocated, the result is PAHO_MEMORY_ERROR, -99, and the pointer to the
    array is lost while the count stays.  The header MQTTProperties.h documents 0 and -1 as the only
    results, and -1 is none of them. *)
Theorem MQTTProperties_add_sound p l x :
  props_repr p l →
  (valid_property x → ∃ p', MQTTProperties_add p x (tt, []) = Ok (0, p', (tt, [])) ∧
     props_repr p' (l ++ [x])) ∧
  (MQTTProperty_getType (identifier x) = None → ∀ h,
     MQTTProperties_add p x (tt, h) = Ok (MQTT_INVALID_PROPERTY_ID, p, (tt, h))) ∧
  (is_Some (MQTTProperty_getType (identifier x)) → length l = max_count p → ∀ h,
     ∃ p', MQTTProperties_add p x (tt, false :: h) = Ok (PAHO_MEMORY_ERROR, p', (tt, h)) ∧
       array p' = None ∧ count p' = count p).
Proof.
  intros Hr. split_and!.
  - intros Hx. by apply (MQTTProperties_add_repr p l x).
  - intros Ht h. by apply MQTTProperties_add_invalid.
  - intros [type Ht] Hfull h. unfold MQTTProperties_add. rewrite Ht.
    rewrite <- (repr_count _ _ Hr) in Hfull.
    destruct (array p) as [a |].
    + rewrite decide_True by done. eexists. by split_and!.
    + eexists. by split_and!.
Qed.

Lemma MQTTProperties_add_sound_witness :
  ∃ p', MQTTProperties_add sample_properties
          (mkProperty MQTTPROPERTY_CODE_TOPIC_ALIAS (VInteger2 513)) (tt, []) =
          Ok (0, p', (tt, [])) ∧
    props_repr p' (sample_entries ++ [mkProperty MQTTPROPERTY_CODE_TOPIC_ALIAS (VInteger2 513)]).
Proof.
  apply (MQTTProperties_add_sound sample_properties sample_entries).
  - exact sample_repr.
  - exists MQTTPROPERTY_TYPE_TWO_BYTE_INTEGER. split; [reflexivity | constructor; lia].
Defined.

(** C31: [MQTTProperties_read] terminates on every input: whatever the bytes,
    the declared length, [enddata], the initial structure and the outcomes of
    the allocator, the loop that a declared length can wrap around below zero
    ends within as many turns as the block has bytes. *)
Theorem MQTTProperties_read_terminates p enddata s :
  MQTTProperties_read p enddata s ≠ Err Diverge.
Proof.
  intros Hd. pose proof (steady_MQTTProperties_read p enddata s) as Hs.
  unfold steady_at in Hs. by rewrite Hd in Hs.
Qed.

(** [MQTTProperties_read] does not honour [enddata] for numeric values: in
    a two byte property section that declares one byte property of length two,
    the value is the byte [b] that lies at [enddata], after the packet, and the
    call reports success; where the block ends at [enddata] the read is out of
    bounds. *)
Theorem MQTTProperties_read_past_enddata b post :
  (∃ p, MQTTProperties_read MQTTProperties_initializer 2 (Reader ([2; 1] ++ b :: post) 0 []) =
          Ok (1, p, Reader ([2; 1] ++ b :: post) 3 []) ∧
        entries p = [mkProperty MQTTPROPERTY_CODE_PAYLOAD_FORMAT_INDICATOR (VByte b)]) ∧
  MQTTProperties_read MQTTProperties_initializer 2 (Reader [2; 1] 0 []) = Err OutOfBounds.
Proof.
  split; [| by vm_compute].
  exists (mkProperties 1 10 2 (Some (Some
    (mkProperty MQTTPROPERTY_CODE_PAYLOAD_FORMAT_INDICATOR (VByte b)) :: replicate 9 None))).
  split; by vm_compute.
Qed.

(** The return value of [MQTTProperties_write] is the number of bytes
    written only for a property section shorter than 128 bytes: the length
    field is counted as one byte whatever its size. *)
Theorem MQTTProperties_write_count p l cap :
  props_repr p l → (length (enc_properties l) ≤ cap)%nat →
  ∃ rc out, MQTTProperties_write (Some p) (Writer cap []) = Ok (rc, Writer cap out) ∧
    (fits l → (rc = Z.of_nat (length out) ↔ length_ p < 128)).
Proof.
  intros Hr Hcap.
  exists (1 + Z.of_nat (length (enc_entries l))), (enc_properties l). split.
  - by apply (MQTTProperties_write_repr p l Hr).
  - intros Hf. rewrite (repr_length _ _ Hr). unfold enc_properties. rewrite length_app.
    rewrite Nat2Z.inj_add, encode_length_VBIlen by (unfold fits in Hf; lia).
    unfold MQTTPacket_VBIlen. repeat case_decide; lia.
Qed.

Lemma MQTTProperties_write_count_witness :
  ∃ rc out, MQTTProperties_write (Some sample_properties) (Writer 14 []) =
              Ok (rc, Writer 14 out) ∧
    (fits sample_entries → (rc = Z.of_nat (length out) ↔ length_ sample_properties < 128)).
Proof.
  apply (MQTTProperties_write_count sample_properties sample_entries 14).
  - exact sample_repr.
  - vm_compute. lia.
Defined.

(** The queries are the list operations they stand for: the number of
    properties with an identifier is the length of the sublist with it,
    [MQTTProperties_hasProperty] says whether it is non-empty,
    [MQTTProperties_getPropertyAt] is its element at the index (null outside),
    and [MQTTProperties_getNumericValueAt] is the numeric value of that
    element, -9999999 where there is none. *)
Theorem MQTTProperties_queries p l propid index :
  props_repr p l → 0 ≤ index →
  MQTTProperties_propertyCount p propid = Z.of_nat (length (with_id propid l)) ∧
  (MQTTProperties_hasProperty p propid = true ↔ with_id propid l ≠ []) ∧
  MQTTProperties_getPropertyAt p propid index = with_id propid l !! Z.to_nat index ∧
  (∀ i, i < 0 → MQTTProperties_getPropertyAt p propid i = None) ∧
  MQTTProperties_getNumericValueAt (S:=unit) p propid index =
    match MQTTProperties_getPropertyAt p propid index with
    | Some q => numeric_value q
    | None => mret (-9999999)
    end ∧
  MQTTProperties_getNumericValue (S:=unit) p propid =
    match MQTTProperties_getProperty p propid with
    | Some q => numeric_value q
    | None => mret (-9999999)
    end.
Proof.
  intros Hr Hi.
  unfold MQTTProperties_propertyCount, MQTTProperties_hasProperty, MQTTProperties_getPropertyAt,
    MQTTProperties_getNumericValueAt, MQTTProperties_getNumericValue,
    MQTTProperties_getProperty, MQTTProperties_getNumericValueAt, MQTTProperties_getPropertyAt.
  rewrite (entries_repr p l Hr).
  rewrite count_property_filter, !numeric_value_at_filter, !property_at_filter, !Z.sub_0_r by lia.
  split_and!; try done; [| intros i Hlt; by apply property_at_below].
  unfold with_id. rewrite existsb_exists. split.
  - intros (x & Hx & Heq). apply bool_decide_eq_true in Heq. intros Hnil.
    assert (x ∈ filter (λ p, identifier p = propid) l) as Hin.
    { apply list_elem_of_filter. split; [done | by apply list_elem_of_In]. }
    rewrite Hnil in Hin. by apply not_elem_of_nil in Hin.
  - intros Hne. destruct (filter _ l) as [| x k] eqn:E; [done |].
    assert (x ∈ filter (λ p, identifier p = propid) l) as Hin by (rewrite E; left).
    apply list_elem_of_filter in Hin as [Hid Hin].
    exists x. split; [by apply list_elem_of_In | by apply bool_decide_eq_true].
Qed.

Lemma MQTTProperties_queries_witness :
  MQTTProperties_propertyCount sample_properties 38 = 1 ∧
  MQTTProperties_getPropertyAt sample_properties 38 0 = sample_entries !! 1%nat.
Proof.
  destruct (MQTTProperties_queries sample_properties sample_entries 38 0 sample_repr
              ltac:(lia)) as (H1 & _ & H2 & _).
  split; [exact H1 | exact H2].
Defined.
