(* ===== verification/PacketIn.v ===== *)
(** * Incoming packets (src/src/MQTTPacket.c, src/src/MQTTPacketOut.c)

    The functions of the [new_packets] table, which turn the bytes of one
    packet into a structure, and the functions that free the structures.

    A parser runs on a [reader] whose position is [data]; a result of [None]
    is the null pointer, which the caller reports as a bad packet.  A field
    that the code may leave unwritten has an option type, and using it is the
    fault [Uninitialised]. *)
From S2P Require Import Prelude Buffers Properties.
Local Open Scope Z_scope.

Definition MQTTVERSION_3_1 : Z := 3.
Definition MQTTVERSION_3_1_1 : Z := 4.
Definition MQTTVERSION_5 : Z := 5.

(** ** Packet types and the header byte *)
Definition CONNECT : Z := 1.
Definition CONNACK : Z := 2.
Definition PUBLISH : Z := 3.
Definition PUBACK : Z := 4.
Definition PUBREC : Z := 5.
Definition PUBREL : Z := 6.
Definition PUBCOMP : Z := 7.
Definition SUBSCRIBE : Z := 8.
Definition SUBACK : Z := 9.
Definition UNSUBSCRIBE : Z := 10.
Definition UNSUBACK : Z := 11.
Definition PINGREQ : Z := 12.
Definition PINGRESP : Z := 13.
Definition DISCONNECT : Z := 14.
Definition AUTH : Z := 15.

(** The bit fields of [Header], from the low bit of the byte: retain, two
    bits of QoS, dup, four bits of type. *)
Record Header := mkHeader { type : Z; dup : Z; qos : Z; retain : Z }.

Definition header_of_byte (byte : Z) : Header := {|
  retain := Z.land byte 1;
  qos := Z.land (Z.shiftr byte 1) 3;
  dup := Z.land (Z.shiftr byte 3) 1;
  type := Z.land (Z.shiftr byte 4) 15;
|}.

(** Assigning a bit field keeps the low bits of the value. *)
Definition byte_of_header (h : Header) : Z :=
  Z.lor (Z.land (retain h) 1)
    (Z.lor (Z.shiftl (Z.land (qos h) 3) 1)
       (Z.lor (Z.shiftl (Z.land (dup h) 1) 3)
          (Z.shiftl (Z.land (type h) 15) 4))).

(** ** Packet structures *)
Record Publish := mkPublish {
  pub_header : Header;
  topic : option (list Z);
  topiclen : Z;
  pub_msgId : Z;
  payload : option (list Z);   (* a pointer: the bytes from it to the end of its block *)
  payloadlen : Z;
  pub_MQTTVersion : Z;
  pub_properties : MQTTProperties;
  mask : list Z;
}.

Record Ack := mkAck {
  ack_header : Header;
  ack_msgId : option Z;
  ack_rc : option Z;
  ack_MQTTVersion : Z;
  ack_properties : option MQTTProperties;
}.

Record Connack := mkConnack {
  connack_header : Header;
  connack_flags : Z;
  connack_rc : Z;
  connack_MQTTVersion : Z;
  connack_properties : option MQTTProperties;
}.

(** [sessionPresent], the low bit of the flags. *)
Definition sessionPresent (c : Connack) : Z := Z.land (connack_flags c) 1.

Record Suback := mkSuback {
  suback_header : Header;
  suback_msgId : Z;
  suback_MQTTVersion : Z;
  suback_properties : option MQTTProperties;
  qoss : list Z;
}.

Record Unsuback := mkUnsuback {
  unsuback_header : Header;
  unsuback_msgId : Z;
  unsuback_MQTTVersion : Z;
  unsuback_properties : option MQTTProperties;
  reasonCodes : option (list Z);   (* [None]: a null pointer *)
}.

(** What the functions of the table return a pointer to. *)
Inductive Packet :=
  | PacketHeader (h : Header)
  | PacketPublish (p : Publish)
  | PacketAck (a : Ack)
  | PacketConnack (c : Connack)
  | PacketSuback (s : Suback)
  | PacketUnsuback (u : Unsuback).

(** ** The parsers *)
Section Parsers.
Variable MQTTVersion : Z.
Variable aHeader : Z.
Variable datalen : nat.

Definition MQTTPacket_header_only : M reader (option Header) :=
  mret (Some (header_of_byte aHeader)).

(** The properties of a packet; [None]: a protocol error, and the packet was
    freed. *)
Definition packet_properties (enddata : nat) : M reader (option MQTTProperties) :=
  r ← MQTTProperties_read MQTTProperties_initializer enddata;
  let '(rc, props) := r : Z * MQTTProperties in
  mret (if decide (rc = 1) then Some props else None).

Definition MQTTPacket_publish : M reader (option Publish) :=
  data ← gets r_pos;
  let enddata := (data + datalen)%nat in
  let header := header_of_byte aHeader in
  ok ← malloc;
  if negb ok then mret None else
  r ← readUTFlen enddata;
  match r : option (list Z) * option Z with
  | (Some topic, Some topiclen) =>
    curdata ← gets r_pos;
    msgId ← (if decide (0 < qos header) then
               if decide (enddata - curdata < 2)%nat then mret None
               else n ← readInt; mret (Some n)
             else mret (Some 0) : M reader (option Z));
    match msgId : option Z with
    | None => mret None
    | Some msgId =>
      props ← (if decide (MQTTVERSION_5 ≤ MQTTVersion) then packet_properties enddata
               else mret (Some MQTTProperties_initializer));
      match props : option MQTTProperties with
      | None => mret None
      | Some props =>
        curdata ← gets r_pos;
        block ← gets (λ s, drop (r_pos s) (r_mem s));
        mret (Some (mkPublish header (Some topic) topiclen msgId (Some block)
          (i32 (Z.of_nat datalen - (Z.of_nat curdata - Z.of_nat data))) MQTTVersion props
          [0; 0; 0; 0]))
      end
    end
  | _ => mret None
  end.

Definition MQTTPacket_ack : M reader (option Ack) :=
  data ← gets r_pos;
  let enddata := (data + datalen)%nat in
  let header := header_of_byte aHeader in
  ok ← malloc;
  if negb ok then mret None else
  msgId ← (if decide (type header ≠ DISCONNECT) then
             if decide (enddata - data < 2)%nat then mret None
             else n ← readInt; mret (Some (Some n))
           else mret (Some None) : M reader (option (option Z)));
  match msgId : option (option Z) with
  | None => mret None
  | Some msgId =>
    if decide (MQTTVERSION_5 ≤ MQTTVersion) then
      rc ← (if decide (2 < datalen ∨ type header = DISCONNECT ∧ 0 < datalen)%nat
            then readChar else mret 0);
      props ← (if decide (3 < datalen ∨ type header = DISCONNECT ∧ 1 < datalen)%nat
               then packet_properties enddata
               else mret (Some MQTTProperties_initializer));
      match props : option MQTTProperties with
      | None => mret None
      | Some props => mret (Some (mkAck header msgId (Some rc) MQTTVersion (Some props)))
      end
    else mret (Some (mkAck header msgId None MQTTVersion None))
  end.

Definition MQTTPacket_connack : M reader (option Connack) :=
  data ← gets r_pos;
  let enddata := (data + datalen)%nat in
  ok ← malloc;
  if negb ok then mret None else
  if decide (datalen < 2)%nat then mret None else
  flags ← readChar;
  rc ← readChar;
  if decide (MQTTVERSION_5 ≤ MQTTVersion ∧ (2 < datalen)%nat) then
    props ← packet_properties enddata;
    match props : option MQTTProperties with
    | None => mret None
    | Some props =>
      mret (Some (mkConnack (header_of_byte aHeader) flags rc MQTTVersion (Some props)))
    end
  else mret (Some (mkConnack (header_of_byte aHeader) flags rc MQTTVersion None)).

(** The loop that reads a byte into a new block and appends the block to the
    list, while bytes of the packet are left; [None] where the block could not
    be allocated.  [ListAppend] allocates the list element first: without it
    the value is lost; with it, it stores through the list pointer, which is
    null when [have_list] is false.  So does the test of [count] at the end. *)
Fixpoint read_codes (have_list : bool) (n : nat) (codes : list Z)
    : M reader (option (list Z)) :=
  match n with
  | O => if have_list then mret (Some codes) else fail NullDeref
  | S n =>
    ok ← malloc;
    if negb ok then mret None else
    c ← readChar;
    ok ← malloc;
    if (ok : bool) && negb have_list then fail NullDeref
    else read_codes have_list n (if ok : bool then codes ++ [c] else codes)
  end.

(** [ListInitialize] and the loop. *)
Definition code_list (enddata : nat) : M reader (option (list Z)) :=
  have_list ← malloc;
  curdata ← gets r_pos;
  read_codes have_list (enddata - curdata) [].

(** [if (pack->properties.array) free(pack->properties.array)] *)
Definition check_properties (props : option MQTTProperties) : M reader unit :=
  match props with None => fail Uninitialised | Some _ => mret tt end.

Definition MQTTPacket_suback : M reader (option Suback) :=
  data ← gets r_pos;
  let enddata := (data + datalen)%nat in
  ok ← malloc;
  if negb ok then mret None else
  if decide (enddata - data < 2)%nat then mret None else
  msgId ← readInt;
  props ← (if decide (MQTTVERSION_5 ≤ MQTTVersion) then
             props ← packet_properties enddata;
             mret (Some <$> (props : option MQTTProperties))
           else mret (Some None) : M reader (option (option MQTTProperties)));
  match props : option (option MQTTProperties) with
  | None => mret None
  | Some props =>
    codes ← code_list enddata;
    match codes : option (list Z) with
    | None => _ ← check_properties props; mret None
    | Some [] => _ ← check_properties props; mret None
    | Some codes =>
      mret (Some (mkSuback (header_of_byte aHeader) msgId MQTTVersion props codes))
    end
  end.

Definition MQTTPacket_unsuback : M reader (option Unsuback) :=
  data ← gets r_pos;
  let enddata := (data + datalen)%nat in
  let header := header_of_byte aHeader in
  ok ← malloc;
  if negb ok then mret None else
  if decide (enddata - data < 2)%nat then mret None else
  msgId ← readInt;
  if decide (MQTTVERSION_5 ≤ MQTTVersion) then
    props ← packet_properties enddata;
    match props : option MQTTProperties with
    | None => mret None
    | Some props =>
      codes ← code_list enddata;
      match codes : option (list Z) with
      | None => mret None
      | Some [] => mret None
      | Some codes =>
        mret (Some (mkUnsuback header msgId MQTTVersion (Some props) (Some codes)))
      end
    end
  else mret (Some (mkUnsuback header msgId MQTTVersion None None)).

(** [new_packets[ptype]]: [None] for an entry of the table that is null. *)
Definition new_packets (ptype : Z) : option (M reader (option Packet)) :=
  if decide (ptype = CONNACK) then
    Some (r ← MQTTPacket_connack; mret (PacketConnack <$> (r : option Connack)))
  else if decide (ptype = PUBLISH) then
    Some (r ← MQTTPacket_publish; mret (PacketPublish <$> (r : option Publish)))
  else if decide (ptype ∈ [PUBACK; PUBREC; PUBREL; PUBCOMP; DISCONNECT; AUTH]) then
    Some (r ← MQTTPacket_ack; mret (PacketAck <$> (r : option Ack)))
  else if decide (ptype = SUBACK) then
    Some (r ← MQTTPacket_suback; mret (PacketSuback <$> (r : option Suback)))
  else if decide (ptype = UNSUBACK) then
    Some (r ← MQTTPacket_unsuback; mret (PacketUnsuback <$> (r : option Unsuback)))
  else if decide (ptype ∈ [PINGREQ; PINGRESP]) then
    Some (r ← MQTTPacket_header_only; mret (PacketHeader <$> (r : option Header)))
  else None.
End Parsers.

(** ** Freeing the structures

    What is freed has to be a pointer that was assigned. *)
Definition free_properties {S} (MQTTVersion : Z) (props : option MQTTProperties) : M S unit :=
  if decide (MQTTVERSION_5 ≤ MQTTVersion) then
    match props with
    | None => fail Uninitialised
    | Some props => _ ← MQTTProperties_free props; mret tt
    end
  else mret tt.

Definition MQTTPacket_freePublish {S} (pack : Publish) : M S unit :=
  free_properties (pub_MQTTVersion pack) (Some (pub_properties pack)).

Definition MQTTPacket_freeAck {S} (pack : Ack) : M S unit :=
  free_properties (ack_MQTTVersion pack) (ack_properties pack).

Definition MQTTPacket_freeConnack {S} (pack : Connack) : M S unit :=
  free_properties (connack_MQTTVersion pack) (connack_properties pack).

Definition MQTTPacket_freeSuback {S} (pack : Suback) : M S unit :=
  free_properties (suback_MQTTVersion pack) (suback_properties pack).

Definition MQTTPacket_freeUnsuback {S} (pack : Unsuback) : M S unit :=
  free_properties (unsuback_MQTTVersion pack) (unsuback_properties pack).

(** The function that frees what an entry of the table returned; the header
    of a header-only packet is a static variable. *)
Definition free_parsed {S} (pack : Packet) : M S unit :=
  match pack with
  | PacketHeader _ => mret tt
  | PacketPublish p => MQTTPacket_freePublish p
  | PacketAck a => MQTTPacket_freeAck a
  | PacketConnack c => MQTTPacket_freeConnack c
  | PacketSuback s => MQTTPacket_freeSuback s
  | PacketUnsuback u => MQTTPacket_freeUnsuback u
  end.

(** ** The header byte *)
Lemma header_of_byte_roundtrip b : is_byte b → byte_of_header (header_of_byte b) = b.
Proof.
  intros Hb. apply Z.eqb_eq, (all_bytes_forall (λ b, byte_of_header (header_of_byte b) =? b));
    [by vm_compute | done].
Qed.

(** Fields that fit their widths. *)
Definition valid_header (h : Header) : Prop :=
  0 ≤ type h < 16 ∧ 0 ≤ dup h < 2 ∧ 0 ≤ qos h < 4 ∧ 0 ≤ retain h < 2.

#[export] Instance valid_header_dec h : Decision (valid_header h).
Proof. unfold valid_header. apply _. Defined.
#[export] Instance Header_eq_dec : EqDecision Header.
Proof. solve_decision. Defined.

Lemma in_range n z : 0 ≤ z < Z.of_nat n → z ∈ Z.of_nat <$> seq 0 n.
Proof.
  intros H. apply list_elem_of_fmap. exists (Z.to_nat z). split; [lia |].
  apply elem_of_seq. lia.
Qed.

Lemma byte_of_header_roundtrip h :
  valid_header h → is_byte (byte_of_header h) ∧ header_of_byte (byte_of_header h) = h.
Proof.
  destruct h as [t d q r]. intros (Ht & Hd & Hq & Hr). cbn in Ht, Hd, Hq, Hr.
  set (hs := t ← Z.of_nat <$> seq 0 16; d ← Z.of_nat <$> seq 0 2; q ← Z.of_nat <$> seq 0 4;
             r ← Z.of_nat <$> seq 0 2; mret (mkHeader t d q r)).
  assert (Forall (λ h, is_byte (byte_of_header h) ∧ header_of_byte (byte_of_header h) = h) hs)
    as Hall by (apply (bool_decide_unpack _); by vm_compute).
  rewrite Forall_forall in Hall. apply Hall. unfold hs.
  apply list_elem_of_bind. exists t. split; [| by apply (in_range 16)].
  apply list_elem_of_bind. exists d. split; [| by apply (in_range 2)].
  apply list_elem_of_bind. exists q. split; [| by apply (in_range 4)].
  apply list_elem_of_bind. exists r. split; [| by apply (in_range 2)].
  by apply list_elem_of_ret.
Qed.

(** ** Bounds of the version 3 parsers

    [bounded e m]: started between the start of the block and [e], where [e]
    lies in the block, [m] succeeds, keeps the block and stops at or before
    [e]. *)
Definition bounded_at {A} (e : nat) (m : M reader A) (s : reader) : Prop :=
  ∃ a s', m s = Ok (a, s') ∧ r_mem s' = r_mem s ∧ (r_pos s' ≤ e)%nat.

Definition bounded {A} (e : nat) (m : M reader A) : Prop :=
  ∀ s, (r_pos s ≤ e ≤ length (r_mem s))%nat → bounded_at e m s.

Lemma bounded_at_bind {A B} e (m : M reader A) (k : A → M reader B) s :
  (r_pos s ≤ e ≤ length (r_mem s))%nat →
  bounded_at e m s →
  (∀ a s', m s = Ok (a, s') → (r_pos s' ≤ e ≤ length (r_mem s'))%nat → bounded_at e (k a) s') →
  bounded_at e (m ≫= k) s.
Proof.
  intros He (a & s1 & Hm & Hmem & Hp) Hk.
  destruct (Hk a s1 Hm ltac:(rewrite Hmem; lia)) as (b & s2 & Hk' & Hmem' & Hp').
  exists b, s2. rewrite (bind_ok _ _ _ _ _ Hm). split_and!; [done | congruence | done].
Qed.

Lemma bounded_bind {A B} e (m : M reader A) (k : A → M reader B) :
  bounded e m → (∀ a, bounded e (k a)) → bounded e (m ≫= k).
Proof. intros Hm Hk s He. apply bounded_at_bind; [done | by apply Hm |]. intros. by apply Hk. Qed.

Lemma bounded_ret {A} e (a : A) : bounded e (mret a).
Proof. intros s He. exists a, s. split_and!; [done | done | lia]. Qed.

Lemma bounded_gets {A} e (f : reader → A) : bounded e (gets f).
Proof. intros s He. exists (f s), s. split_and!; [done | done | lia]. Qed.

Lemma bounded_malloc e : bounded e malloc.
Proof.
  intros [mem pos h] He. unfold malloc. cbn [heap_of reader_heap r_heap].
  destruct h as [| b h]; do 2 eexists; (split_and!; [done | done | cbn in *; lia]).
Qed.

(** The scalar readers, where the bytes they need are there. *)
Lemma readChar_bounded e s :
  (r_pos s + 1 ≤ e ≤ length (r_mem s))%nat →
  ∃ c, readChar s = Ok (c, Reader (r_mem s) (r_pos s + 1) (r_heap s)).
Proof.
  intros He. destruct (lookup_lt_is_Some_2 (r_mem s) (r_pos s + 0)) as [c Hc]; [lia |].
  exists c. unfold readChar, peek. mrun. by rewrite Hc.
Qed.

Lemma readInt_bounded e s :
  (r_pos s + 2 ≤ e ≤ length (r_mem s))%nat →
  ∃ n, readInt s = Ok (n, Reader (r_mem s) (r_pos s + 2) (r_heap s)).
Proof.
  intros He. destruct (lookup_lt_is_Some_2 (r_mem s) (r_pos s + 0)) as [a Ha]; [lia |].
  destruct (lookup_lt_is_Some_2 (r_mem s) (r_pos s + 1)) as [b Hb]; [lia |].
  exists (256 * a + b). unfold readInt, peek. mrun. by rewrite Ha, Hb.
Qed.

Lemma readChar_bounded_at e s :
  (r_pos s + 1 ≤ e ≤ length (r_mem s))%nat → bounded_at e readChar s.
Proof.
  intros He. destruct (readChar_bounded e s He) as [c Hc].
  do 2 eexists. split_and!; [exact Hc | done | cbn; lia].
Qed.

Lemma readInt_bounded_at e s :
  (r_pos s + 2 ≤ e ≤ length (r_mem s))%nat → bounded_at e readInt s.
Proof.
  intros He. destruct (readInt_bounded e s He) as [c Hc].
  do 2 eexists. split_and!; [exact Hc | done | cbn; lia].
Qed.

Lemma bounded_readUTFlen e : bounded e (readUTFlen e).
Proof.
  intros s He. unfold readUTFlen. apply bounded_at_bind; [done | by apply bounded_gets |].
  intros pos s0 [= <- <-] _. case_decide; [| by apply bounded_ret].
  apply bounded_at_bind; [done | apply readInt_bounded_at; lia |]. intros len s1 _ He1.
  apply bounded_at_bind; [done | by apply bounded_gets |]. intros pos s2 [= <- <-] _.
  case_decide; [| by apply bounded_ret].
  apply bounded_at_bind; [done | by apply bounded_malloc |]. intros ok s2 Hok He2.
  destruct ok; [| by apply bounded_ret].
  assert (r_mem s2 = r_mem s1 ∧ r_pos s2 = r_pos s1) as [Hm Hp].
  { revert Hok. unfold malloc. cbn. case_match; intros ?; by simplify_eq. }
  set (d := take (Z.to_nat len) (drop (r_pos s2) (r_mem s2))).
  assert (read_block (Z.to_nat len) s2 = Ok (d, s2)) as Hd.
  { unfold read_block. fold d. rewrite decide_True; [done |].
    unfold d. rewrite length_take, length_drop. lia. }
  do 2 eexists. split_and!; [by rewrite (bind_ok _ _ _ _ _ Hd) | done | cbn; lia].
Qed.

#[export] Hint Resolve bounded_ret bounded_gets bounded_malloc bounded_readUTFlen : paho.

(** A record built after a run that is bounded. *)
Lemma bounded_at_map {A B} e (m : M reader (option A)) (f : A → B) s :
  (r_pos s ≤ e ≤ length (r_mem s))%nat → bounded_at e m s →
  bounded_at e (r ← m; mret (f <$> (r : option A))) s.
Proof. intros He Hm. apply bounded_at_bind; [done.. |]. intros. by apply bounded_ret. Qed.

(** Steps of a parser of which no byte is read but after a length test. *)
Ltac solve_bounded :=
  repeat first
    [ solve [by apply bounded_ret]
    | apply bounded_at_bind; [done | solve [auto with paho] | intros]
    | apply bounded_at_bind; [done | apply readInt_bounded_at; simpl in *; lia | intros]
    | case_decide ].

Section Version3.
Context (MQTTVersion : Z) (Hversion : MQTTVersion < MQTTVERSION_5).
Context (aHeader : Z) (datalen : nat) (s : reader).
Context (Hblock : (r_pos s + datalen ≤ length (r_mem s))%nat).
Let e := (r_pos s + datalen)%nat.

Local Lemma start_in_block : (r_pos s ≤ e ≤ length (r_mem s))%nat.
Proof. unfold e. lia. Qed.

(** [data] and the block for the structure. *)
Local Lemma bounded_start {A} (k : nat → M reader A) :
  (∀ s', r_pos s' = r_pos s → r_mem s' = r_mem s → bounded_at e (k (r_pos s)) s') →
  bounded_at e (data ← gets r_pos; k data) s.
Proof.
  intros Hk. apply bounded_at_bind; [exact start_in_block | apply bounded_gets, start_in_block |].
  intros pos s' [= <- <-] He. by apply Hk.
Qed.

Local Lemma malloc_frame (s' : reader) ok s1 :
  malloc s' = Ok (ok, s1) → r_pos s1 = r_pos s' ∧ r_mem s1 = r_mem s'.
Proof.
  unfold malloc. destruct s' as [mem pos h]. cbn. case_match; intros ?; simplify_eq; done.
Qed.

Lemma publish_bounded : bounded_at e (MQTTPacket_publish MQTTVersion aHeader datalen) s.
Proof.
  apply bounded_start. intros s0 Hp0 Hm0. fold e.
  pose proof start_in_block as Hin.
  apply bounded_at_bind; [rewrite Hp0, Hm0; done | apply bounded_malloc; by rewrite Hp0, Hm0 |].
  intros ok s1 _ Hin1. destruct ok; [| by apply bounded_ret]. cbv iota beta delta [negb].
  apply bounded_at_bind; [done | by apply bounded_readUTFlen |].
  intros [[t |] [tl |]] s2 _ Hin2; try (by apply bounded_ret).
  apply bounded_at_bind; [done | by apply bounded_gets |]. intros pos s3 [= <- <-] Hin3.
  apply bounded_at_bind; [done | solve_bounded |]. intros [id |] s4 _ Hin4; [| by apply bounded_ret].
  rewrite decide_False by (unfold MQTTVERSION_5 in *; lia).
  apply bounded_at_bind; [done | by apply bounded_ret |]. intros [p |] s5 _ Hin5; [| by apply bounded_ret].
  solve_bounded.
Qed.

Lemma ack_bounded : bounded_at e (MQTTPacket_ack MQTTVersion aHeader datalen) s.
Proof.
  apply bounded_start. intros s0 Hp0 Hm0. fold e.
  pose proof start_in_block as Hin.
  apply bounded_at_bind; [rewrite Hp0, Hm0; done | apply bounded_malloc; by rewrite Hp0, Hm0 |].
  intros ok s1 Hok Hin1. destruct ok; [| by apply bounded_ret]. cbv iota beta delta [negb].
  destruct (malloc_frame _ _ _ Hok) as (Hp1 & Hm1).
  apply bounded_at_bind; [done | |].
  { case_decide; [case_decide |]; solve_bounded. }
  intros [id |] s4 _ Hin4; [| by apply bounded_ret].
  rewrite decide_False by (unfold MQTTVERSION_5 in *; lia). by apply bounded_ret.
Qed.

Lemma connack_bounded : bounded_at e (MQTTPacket_connack MQTTVersion aHeader datalen) s.
Proof.
  apply bounded_start. intros s0 Hp0 Hm0. fold e.
  pose proof start_in_block as Hin.
  apply bounded_at_bind; [rewrite Hp0, Hm0; done | apply bounded_malloc; by rewrite Hp0, Hm0 |].
  intros ok s1 Hok Hin1. destruct ok; [| by apply bounded_ret]. cbv iota beta delta [negb].
  destruct (malloc_frame _ _ _ Hok) as (Hp1 & Hm1).
  case_decide; [by apply bounded_ret |].
  destruct (readChar_bounded e s1) as [c Hc]; [unfold e in *; lia |].
  apply bounded_at_bind; [done | apply readChar_bounded_at; unfold e in *; lia |].
  intros c' s2 Hc' Hin2. rewrite Hc in Hc'. simplify_eq.
  apply bounded_at_bind; [done | apply readChar_bounded_at; unfold e in *; cbn in *; lia |].
  intros c'' s3 _ Hin3. rewrite decide_False by (unfold MQTTVERSION_5 in *; lia).
  by apply bounded_ret.
Qed.

Lemma unsuback_bounded : bounded_at e (MQTTPacket_unsuback MQTTVersion aHeader datalen) s.
Proof.
  apply bounded_start. intros s0 Hp0 Hm0. fold e.
  pose proof start_in_block as Hin.
  apply bounded_at_bind; [rewrite Hp0, Hm0; done | apply bounded_malloc; by rewrite Hp0, Hm0 |].
  intros ok s1 Hok Hin1. destruct ok; [| by apply bounded_ret]. cbv iota beta delta [negb].
  destruct (malloc_frame _ _ _ Hok) as (Hp1 & Hm1).
  case_decide; [by apply bounded_ret |].
  apply bounded_at_bind; [done | apply readInt_bounded_at; unfold e in *; lia |].
  intros id s4 _ Hin4.
  rewrite decide_False by (unfold MQTTVERSION_5 in *; lia). by apply bounded_ret.
Qed.

End Version3.

(** *** The list of return codes, for any allocator *)
Lemma reader_alloc mem pos h :
  malloc (Reader mem pos h) = Ok (default true (head h), Reader mem pos (tail h)).
Proof. by destruct h. Qed.

Lemma false_in_tail (h : list bool) : false ∈ tail h → false ∈ h.
Proof. destruct h; [done | by right]. Qed.

Lemma read_codes_step have_list n codes mem pos h c :
  mem !! pos = Some c → head h ≠ Some false →
  read_codes have_list (S n) codes (Reader mem pos h) =
    if default true (head (tail h)) && negb have_list then Err NullDeref
    else read_codes have_list n (if default true (head (tail h)) then codes ++ [c] else codes)
           (Reader mem (pos + 1) (tail (tail h))).
Proof.
  intros Hc Hh. cbn [read_codes]. rewrite (bind_ok _ _ _ _ _ (reader_alloc mem pos h)).
  assert (default true (head h) = true) as -> by (by destruct (head h) as [[] |]). cbn [negb].
  assert (readChar (Reader mem pos (tail h)) = Ok (c, Reader mem (pos + 1) (tail h))) as Hr.
  { unfold readChar, peek. mrun. rewrite Nat.add_0_r. by rewrite Hc. }
  rewrite (bind_ok _ _ _ _ _ Hr), (bind_ok _ _ _ _ _ (reader_alloc mem (pos + 1) (tail h))).
  by destruct (_ && _).
Qed.

Lemma read_codes_failed have_list n codes mem pos h :
  head h = Some false →
  read_codes have_list (S n) codes (Reader mem pos h) = Ok (None, Reader mem pos (tail h)).
Proof.
  intros Hh. cbn [read_codes]. rewrite (bind_ok _ _ _ _ _ (reader_alloc mem pos h)). by rewrite Hh.
Qed.

(** The loop stays in the packet; it ends without a code only if there was
    none or an allocation failed, and faults only without a list. *)
Lemma read_codes_outcome have_list n : ∀ codes mem pos h,
  (pos + n ≤ length mem)%nat →
  (∃ r pos' h', read_codes have_list n codes (Reader mem pos h) = Ok (r, Reader mem pos' h') ∧
     (pos' ≤ pos + n)%nat ∧
     (r = None ∨ r = Some [] → codes = [] ∧ n = 0%nat ∨ false ∈ h)) ∨
  read_codes have_list n codes (Reader mem pos h) = Err NullDeref ∧ have_list = false.
Proof.
  induction n as [| n IH]; intros codes mem pos h Hn.
  { destruct have_list; [left | by right]. exists (Some codes), pos, h. split_and!; [done | lia |].
    intros [| [= ->]]; [done | by left]. }
  destruct (decide (head h = Some false)) as [Hh | Hh].
  { left. exists None, pos, (tail h). split_and!; [by apply read_codes_failed | lia |]. intros _. right.
    destruct h as [| [] h]; [done.. | by left]. }
  destruct (lookup_lt_is_Some_2 mem pos) as [c Hc]; [lia |].
  rewrite (read_codes_step _ _ _ _ _ _ c) by done.
  destruct (default true (head (tail h)) && negb have_list) eqn:E.
  { right. split; [done |]. destruct have_list; [| done]. by rewrite andb_false_r in E. }
  destruct (IH (if default true (head (tail h)) then codes ++ [c] else codes) mem (pos + 1)%nat
    (tail (tail h)) ltac:(lia)) as [(r & pos' & h' & Hr & Hp & He) | Hf]; [left | by right].
  exists r, pos', h'. split_and!; [done | lia |]. intros Hnone. right.
  destruct (He Hnone) as [[Hcodes _] | Hin]; [| by do 2 apply false_in_tail].
  apply false_in_tail. destruct (tail h) as [| [] t]; cbn in Hcodes; [by destruct codes.. | by left].
Qed.

Lemma read_codes_exhausted j : ∀ n codes mem pos h,
  (j < n)%nat → (pos + n ≤ length mem)%nat →
  ∃ s', read_codes true n codes (Reader mem pos (replicate (2 * j) true ++ false :: h)) = Ok (None, s').
Proof.
  induction j as [| j IH]; intros n codes mem pos h Hj Hn; (destruct n as [| n]; [lia |]).
  { eexists. by apply read_codes_failed. }
  destruct (lookup_lt_is_Some_2 mem pos) as [c Hc]; [lia |].
  replace (2 * S j)%nat with (S (S (2 * j))) by lia. cbn [replicate app].
  rewrite (read_codes_step _ _ _ _ _ _ c) by done. cbn [tail head default andb negb].
  apply IH; lia.
Qed.

(** A SUBACK of version 3 after its message id *)
Lemma suback_run MQTTVersion aHeader datalen mem pos h :
  MQTTVersion < MQTTVERSION_5 → (2 ≤ datalen)%nat → (pos + datalen ≤ length mem)%nat →
  head h ≠ Some false →
  ∃ id, MQTTPacket_suback MQTTVersion aHeader datalen (Reader mem pos h) =
    (codes ← read_codes (default true (head (tail h))) (datalen - 2) [];
     match codes : option (list Z) with
     | None | Some [] => fail Uninitialised
     | Some codes => mret (Some (mkSuback (header_of_byte aHeader) id MQTTVersion None codes))
     end) (Reader mem (pos + 2) (tail (tail h))).
Proof.
  intros Hv H2 Hb Hh.
  destruct (readInt_bounded (pos + datalen) (Reader mem pos (tail h))) as [id Hid]; [cbn; lia |].
  exists id. unfold MQTTPacket_suback. rewrite gets_bind. cbn [r_pos].
  rewrite (bind_ok _ _ _ _ _ (reader_alloc mem pos h)).
  assert (default true (head h) = true) as -> by (by destruct (head h) as [[] |]). cbn [negb].
  rewrite decide_False by lia. rewrite (bind_ok _ _ _ _ _ Hid). cbn [r_mem r_pos r_heap].
  rewrite (decide_False (P := MQTTVERSION_5 ≤ MQTTVersion)) by (unfold MQTTVERSION_5 in *; lia).
  rewrite ret_bind. cbv iota beta. unfold code_list.
  rewrite bind_assoc_run, (bind_ok _ _ _ _ _ (reader_alloc mem (pos + 2) (tail h))), bind_assoc_run, gets_bind.
  cbn [r_pos]. replace (pos + datalen - (pos + 2))%nat with (datalen - 2)%nat by lia.
  unfold mbind, M_bind. destruct (read_codes _ _ _ _) as [[[[|] |] s'] |]; done.
Qed.

Lemma failed_later (h : list bool) : false ∈ tail (tail h) → ∃ k, (2 ≤ k)%nat ∧ h !! k = Some false.
Proof.
  intros [k Hk]%list_elem_of_lookup. exists (S (S k)). split; [lia |].
  destruct h as [| ? [| ? h]]; done.
Qed.

(** What a SUBACK of version 3 does, for any allocator *)
Lemma suback_outcome MQTTVersion aHeader datalen mem pos h :
  MQTTVersion < MQTTVERSION_5 → (pos + datalen ≤ length mem)%nat →
  let m := MQTTPacket_suback MQTTVersion aHeader datalen in
  let s := Reader mem pos h in
  bounded_at (pos + datalen) m s ∨
  m s = Err Uninitialised ∧ (datalen = 2%nat ∨ ∃ k, (2 ≤ k)%nat ∧ h !! k = Some false) ∨
  m s = Err NullDeref ∧ h !! 1%nat = Some false.
Proof.
  intros Hv Hb. cbv zeta. destruct (decide (head h = Some false ∨ (datalen < 2)%nat)) as [Hshort | Hlong].
  { left. unfold MQTTPacket_suback, bounded_at. rewrite gets_bind. cbn [r_pos].
    rewrite (bind_ok _ _ _ _ _ (reader_alloc mem pos h)).
    exists None, (Reader mem pos (tail h)). split_and!; [| done | cbn; lia].
    destruct Hshort as [-> | Hd]; [done |]. rewrite decide_True by lia. by case_match. }
  destruct (suback_run MQTTVersion aHeader datalen mem pos h) as [id Hrun]; [done | lia | done | tauto |].
  rewrite Hrun. unfold bounded_at. rewrite Hrun.
  destruct (read_codes_outcome (default true (head (tail h))) (datalen - 2) [] mem (pos + 2) (tail (tail h)))
    as [(r & pos' & h' & Hr & Hp & He) | [Hf Hlist]]; [lia | |].
  - rewrite !(bind_ok _ _ _ _ _ Hr).
    assert (r = None ∨ r = Some [] → datalen = 2%nat ∨ ∃ k, (2 ≤ k)%nat ∧ h !! k = Some false) as Hwhy.
    { intros Hno. destruct (He Hno) as [[_ Hn] | Hin]; [left; lia | right; by apply failed_later]. }
    destruct r as [[| c codes] |]; [right; left; auto | left | right; left; auto].
    do 2 eexists. split_and!; [done | done | cbn; lia].
  - right. right. rewrite (bind_err _ _ _ _ Hf). split; [done |].
    destruct h as [| ? [| [] h]]; done.
Qed.

Lemma suback_code_fails MQTTVersion aHeader datalen mem pos j h :
  MQTTVersion < MQTTVERSION_5 → (pos + datalen ≤ length mem)%nat → (j < datalen - 2)%nat →
  MQTTPacket_suback MQTTVersion aHeader datalen
    (Reader mem pos (replicate (2 + 2 * j) true ++ false :: h)) = Err Uninitialised.
Proof.
  intros Hv Hb Hj. cbn [Nat.add replicate app].
  destruct (suback_run MQTTVersion aHeader datalen mem pos
    (true :: true :: replicate (2 * j) true ++ false :: h)) as [id Hrun]; [done | lia | done | done |].
  rewrite Hrun. cbn [tail head default].
  destruct (read_codes_exhausted j (datalen - 2) [] mem (pos + 2) h) as [s' Hr]; [done | lia |].
  by rewrite (bind_ok _ _ _ _ _ Hr).
Qed.

Lemma suback_id_only MQTTVersion aHeader mem pos :
  MQTTVersion < MQTTVERSION_5 → (pos + 2 ≤ length mem)%nat →
  MQTTPacket_suback MQTTVersion aHeader 2 (Reader mem pos []) = Err Uninitialised.
Proof.
  intros Hv Hb. destruct (suback_run MQTTVersion aHeader 2 mem pos []) as [id Hrun]; [done | lia | done | done |].
  by rewrite Hrun.
Qed.

(** ** Every parser *)
Lemma steady_map {A B} (m : M reader (option A)) (f : A → B) :
  steady m → steady (r ← m; mret (f <$> (r : option A))).
Proof. intros Hm. apply steady_bind; [done | intros; apply steady_ret]. Qed.

Lemma steady_packet_properties e : steady (packet_properties e).
Proof. unfold packet_properties. solve_steady. Qed.
#[export] Hint Resolve steady_packet_properties : paho.

Lemma steady_read_codes b n l : steady (read_codes b n l).
Proof.
  revert l. induction n as [| n IH]; intros l; cbn [read_codes]; solve_steady.
Qed.
#[export] Hint Resolve steady_read_codes : paho.

Lemma steady_code_list e : steady (code_list e).
Proof. unfold code_list. solve_steady. Qed.
#[export] Hint Resolve steady_code_list : paho.

Lemma steady_check_properties p : steady (check_properties p).
Proof. unfold check_properties. solve_steady. Qed.
#[export] Hint Resolve steady_check_properties : paho.

Lemma steady_new_packets v h n ptype parse : new_packets v h n ptype = Some parse → steady parse.
Proof.
  unfold new_packets. intros H.
  repeat case_decide; simplify_eq; apply steady_map.
  - unfold MQTTPacket_connack. solve_steady.
  - unfold MQTTPacket_publish. solve_steady.
  - unfold MQTTPacket_ack. solve_steady.
  - unfold MQTTPacket_suback. solve_steady.
  - unfold MQTTPacket_unsuback. solve_steady.
  - unfold MQTTPacket_header_only. solve_steady.
Qed.

(** The parser behind an entry of the table. *)
Lemma new_packets_bounded v h n ptype parse s :
  v < MQTTVERSION_5 → (r_pos s + n ≤ length (r_mem s))%nat → ptype ≠ SUBACK →
  new_packets v h n ptype = Some parse → bounded_at (r_pos s + n) parse s.
Proof.
  intros Hv Hs Hp H. unfold new_packets in H.
  repeat case_decide; simplify_eq; apply bounded_at_map; try lia.
  - by apply connack_bounded.
  - by apply publish_bounded.
  - by apply ack_bounded.
  - by apply unsuback_bounded.
  - apply bounded_ret. lia.
Qed.

(** The properties a parser hands out can be freed. *)
Lemma packet_properties_freeable e s props s' :
  packet_properties e s = Ok (Some props, s') → freeable props.
Proof.
  unfold packet_properties. intros H. apply bind_inv in H as ([rc p] & s1 & H1 & H).
  revert H. mrun. case_decide; [| done]. intros [= <- _]. subst.
  eapply MQTTProperties_read_freeable, H1. apply freeable_initializer.
Qed.

Lemma free_properties_freeable {S} v props (s : S) :
  freeable props → free_properties v (Some props) s = Ok (tt, s).
Proof.
  intros Hf. unfold free_properties. case_decide; [| done].
  by rewrite (bind_ok _ _ _ _ _ (MQTTProperties_free_freeable props s Hf)).
Qed.

Lemma free_properties_old {S} v props (s : S) :
  v < MQTTVERSION_5 → free_properties v props s = Ok (tt, s).
Proof. intros Hf. unfold free_properties. by rewrite decide_False by lia. Qed.

(** Take a successful run of a parser apart. *)
Ltac run_inv H :=
  cbv zeta in H; repeat match type of H with
  | (_ ≫= _) _ = _ => let H1 := fresh "Hrun" in apply bind_inv in H as (? & ? & H1 & H)
  | (match ?x with _ => _ end) _ = _ => let E := fresh "E" in destruct x eqn:E
  | (mret _) _ = _ => unfold mret, M_ret in H; simplify_eq
  | (fail _) _ = _ => done
  end.

Lemma publish_freeable v h n s p s' {S} (t : S) :
  MQTTPacket_publish v h n s = Ok (Some p, s') → MQTTPacket_freePublish p t = Ok (tt, t).
Proof.
  unfold MQTTPacket_publish, MQTTPacket_freePublish. intros H. run_inv H.
  apply free_properties_freeable. cbn [pub_properties].
  match goal with H : _ = Ok (Some ?m, _) |- freeable ?m => rename H into Hp end.
  case_decide; [by eapply packet_properties_freeable |].
  revert Hp. mrun. intros [= <- _]. apply freeable_initializer.
Qed.

Lemma ack_freeable v h n s p s' {S} (t : S) :
  MQTTPacket_ack v h n s = Ok (Some p, s') → MQTTPacket_freeAck p t = Ok (tt, t).
Proof.
  unfold MQTTPacket_ack, MQTTPacket_freeAck. intros H. run_inv H; cbn.
  - apply free_properties_freeable.
    match goal with H : _ = Ok (Some ?m, _) |- freeable ?m => rename H into Hp end.
    case_decide; [by eapply packet_properties_freeable |].
    revert Hp. mrun. intros [= <- _]. apply freeable_initializer.
  - apply free_properties_old. lia.
Qed.

Lemma connack_freeable v h n s p s' {S} (t : S) :
  (n ≠ 2)%nat ∨ v < MQTTVERSION_5 →
  MQTTPacket_connack v h n s = Ok (Some p, s') → MQTTPacket_freeConnack p t = Ok (tt, t).
Proof.
  unfold MQTTPacket_connack, MQTTPacket_freeConnack. intros Hn H. run_inv H; cbn.
  - by eapply free_properties_freeable, packet_properties_freeable.
  - apply free_properties_old. destruct (decide (v < MQTTVERSION_5)); [done | lia].
Qed.

Lemma suback_freeable v h n s p s' {S} (t : S) :
  MQTTPacket_suback v h n s = Ok (Some p, s') → MQTTPacket_freeSuback p t = Ok (tt, t).
Proof.
  unfold MQTTPacket_suback, MQTTPacket_freeSuback. intros H. run_inv H; cbn.
  match goal with H : (if decide (_ ≤ _) then _ else _) _ = _ |- _ => rename H into Hp end.
  case_decide.
  - run_inv Hp.
    match goal with H : Some <$> ?x = _ |- _ => destruct x; simplify_eq/= end.
    by eapply free_properties_freeable, packet_properties_freeable.
  - run_inv Hp. apply free_properties_old. lia.
Qed.

Lemma unsuback_freeable v h n s p s' {S} (t : S) :
  MQTTPacket_unsuback v h n s = Ok (Some p, s') → MQTTPacket_freeUnsuback p t = Ok (tt, t).
Proof.
  unfold MQTTPacket_unsuback, MQTTPacket_freeUnsuback. intros H. run_inv H; cbn.
  - by eapply free_properties_freeable, packet_properties_freeable.
  - apply free_properties_old. lia.
Qed.

Lemma connack_short v h s p s' {S} (t : S) :
  MQTTVERSION_5 ≤ v →
  MQTTPacket_connack v h 2 s = Ok (Some p, s') → MQTTPacket_freeConnack p t = Err Uninitialised.
Proof.
  intros Hv. unfold MQTTPacket_connack, MQTTPacket_freeConnack. intros H. run_inv H; cbn; [lia |].
  unfold free_properties. by rewrite decide_True by done.
Qed.

(** ** Properties *)

(** C32: The parsers of protocol versions 3.1 and 3.1.1 stay inside the packet.
    Whatever the [datalen] bytes are and whichever allocations fail, an entry
    of [new_packets] returns a structure or null, having moved its pointer to
    at most [enddata].  The exceptions are all of SUBACK, and the theorem says
    when they occur.  Where there is no code in the list, or the block of a code
    cannot be allocated, the code tests [pack->properties.array] of a structure
    whose [properties] was not written: this needs a packet that consists of a
    message id only, or a failing allocation after the first two, and it does
    happen for the message id only, and for a failing allocation of the block of
    any code.  And a code is appended to the list without a test that
    [ListInitialize], the second allocation, succeeded. *)
Theorem new_packets_in_bounds MQTTVersion aHeader datalen ptype parse s :
  MQTTVersion < MQTTVERSION_5 → (r_pos s + datalen ≤ length (r_mem s))%nat →
  new_packets MQTTVersion aHeader datalen ptype = Some parse →
  ((∃ pack s', parse s = Ok (pack, s') ∧ r_mem s' = r_mem s ∧
      (r_pos s' ≤ r_pos s + datalen)%nat) ∨
   ptype = SUBACK ∧
     (parse s = Err Uninitialised ∧
        (datalen = 2%nat ∨ ∃ k, (2 ≤ k)%nat ∧ r_heap s !! k = Some false) ∨
      parse s = Err NullDeref ∧ r_heap s !! 1%nat = Some false)) ∧
  (ptype = SUBACK →
     (datalen = 2%nat → r_heap s = [] → parse s = Err Uninitialised) ∧
     ∀ j h, (j < datalen - 2)%nat → r_heap s = replicate (2 + 2 * j) true ++ false :: h →
       parse s = Err Uninitialised).
Proof.
  intros Hv Hs H. destruct (decide (ptype = SUBACK)) as [-> | Hp].
  2: { split; [left; by eapply new_packets_bounded | done]. }
  destruct s as [mem pos h]. cbn [r_mem r_pos r_heap] in *. cbn in H. injection H as <-. split.
  - destruct (suback_outcome MQTTVersion aHeader datalen mem pos h Hv Hs) as [Hok | [[He Hw] | [He Hw]]].
    + left. apply bounded_at_map; [cbn; lia | done].
    + right. split; [done |]. left. by rewrite (bind_err _ _ _ _ He).
    + right. split; [done |]. right. by rewrite (bind_err _ _ _ _ He).
  - intros _. split.
    + intros -> ->. by rewrite (bind_err _ _ _ _ (suback_id_only MQTTVersion aHeader mem pos Hv Hs)).
    + intros j h' Hj ->.
      by rewrite (bind_err _ _ _ _ (suback_code_fails MQTTVersion aHeader datalen mem pos j h' Hv Hs Hj)).
Qed.

Lemma new_packets_in_bounds_witness :
  (∃ pack s', MQTTPacket_publish 4 0x32 9 (Reader [0;3;97;47;98;0;7;104;105] 0 []) =
     Ok (Some pack, s') ∧ pub_msgId pack = 7 ∧ payload pack = Some [104; 105]) ∧
  is_ok (MQTTPacket_suback 4 0x90 3 (Reader [0;7;1] 0 [])) ∧
  MQTTPacket_suback 4 0x90 3 (Reader [0;7;1] 0 [true;false]) = Err NullDeref ∧
  let parse := r ← MQTTPacket_suback 4 0x90 3; mret (PacketSuback <$> (r : option Suback)) in
  let s := Reader [0;7;1] 0 [true;true;false] in
  ((∃ pack s', parse s = Ok (pack, s') ∧ r_mem s' = r_mem s ∧
      (r_pos s' ≤ r_pos s + 3)%nat) ∨
   SUBACK = SUBACK ∧
     (parse s = Err Uninitialised ∧
        (3%nat = 2%nat ∨ ∃ k, (2 ≤ k)%nat ∧ r_heap s !! k = Some false) ∨
      parse s = Err NullDeref ∧ r_heap s !! 1%nat = Some false)) ∧
  (SUBACK = SUBACK →
     (3%nat = 2%nat → r_heap s = [] → parse s = Err Uninitialised) ∧
     ∀ j h, (j < 3 - 2)%nat → r_heap s = replicate (2 + 2 * j) true ++ false :: h →
       parse s = Err Uninitialised).
Proof.
  split_and!.
  - vm_compute. do 2 eexists. split_and!; reflexivity.
  - vm_compute. eexists. reflexivity.
  - by vm_compute.
  - intros parse s. apply (new_packets_in_bounds 4 0x90 3 SUBACK parse s); (reflexivity || done || (cbn; lia)).
Defined.

(** C33: The parsers of every version terminate, and what they hand out can be
    freed: for any bytes, any version and any failures of the allocator, an
    entry of [new_packets] does not run forever, and the structure it returns
    is one that the packet's free function only reads where it was written -
    except the structure of a version 5 CONNACK of two bytes, whose
    [properties] [MQTTPacket_freeConnack] walks although nothing wrote it. *)
Theorem new_packets_terminate_and_free MQTTVersion aHeader datalen ptype parse s :
  new_packets MQTTVersion aHeader datalen ptype = Some parse →
  parse s ≠ Err Diverge ∧
  ∀ pack s' {T} (t : T), parse s = Ok (Some pack, s') →
    free_parsed pack t =
      if decide (ptype = CONNACK ∧ datalen = 2%nat ∧ MQTTVERSION_5 ≤ MQTTVersion)
      then Err Uninitialised else Ok (tt, t).
Proof.
  intros H. split.
  { pose proof (steady_new_packets _ _ _ _ _ H s) as Hs. unfold steady_at in Hs.
    destruct (parse s); [done | congruence]. }
  intros pack s' T t Hr. unfold new_packets in H.
  repeat case_decide; simplify_eq;
    apply bind_inv in Hr as ([r |] & s1 & Hr & Hret); try done;
    revert Hret; mrun; intros [= <- _]; cbn [free_parsed];
    try match goal with H : _ ∧ _ |- _ => destruct H as (? & -> & ?) end; try done.
  - by eapply connack_short.
  - eapply connack_freeable, Hr.
    destruct (decide (datalen = 2%nat)); [right | by left].
    destruct (decide (MQTTVersion < MQTTVERSION_5)); [done |].
    match goal with H : ¬ (_ ∧ _) |- _ => destruct H end. split_and!; [done | done | lia].
  - by eapply publish_freeable.
  - by eapply ack_freeable.
  - by eapply suback_freeable.
  - by eapply unsuback_freeable.
Qed.

Lemma new_packets_terminate_and_free_witness :
  let parse := (r ← MQTTPacket_connack 5 0x20 2; mret (PacketConnack <$> (r : option Connack))) in
  let pack := mkConnack (header_of_byte 0x20) 0 0 5 None in
  parse (Reader [0;0] 0 []) = Ok (Some (PacketConnack pack), Reader [0;0] 2 []) ∧
  (free_parsed (PacketConnack pack) : M unit unit) tt =
    if decide (CONNACK = CONNACK ∧ 2%nat = 2%nat ∧ MQTTVERSION_5 ≤ 5)
    then Err Uninitialised else Ok (tt, tt).
Proof.
  split; [reflexivity |].
  by eapply (new_packets_terminate_and_free 5 0x20 2 CONNACK _ (Reader [0;0] 0 []) eq_refl).
Defined.
