(* ===== verification/Names.v ===== *)
(** * Name tables (src/src/MQTTProperties.c, src/src/MQTTReasonCodes.c, src/src/MQTTPacket.c)

    The tables the trace and the applications use to print property
    identifiers, reason codes and packet types, and their lookups.  [None] is
    the null pointer. *)
From S2P Require Import Prelude Buffers Properties PacketIn.
Local Open Scope Z_scope.

(** ** Reason codes *)
Definition MQTTREASONCODE_SUCCESS : Z := 0.
Definition MQTTREASONCODE_NORMAL_DISCONNECTION : Z := 0.
Definition MQTTREASONCODE_GRANTED_QOS_0 : Z := 0.
Definition MQTTREASONCODE_GRANTED_QOS_1 : Z := 1.
Definition MQTTREASONCODE_GRANTED_QOS_2 : Z := 2.
Definition MQTTREASONCODE_DISCONNECT_WITH_WILL_MESSAGE : Z := 4.
Definition MQTTREASONCODE_NO_MATCHING_SUBSCRIBERS : Z := 16.
Definition MQTTREASONCODE_NO_SUBSCRIPTION_FOUND : Z := 17.
Definition MQTTREASONCODE_CONTINUE_AUTHENTICATION : Z := 24.
Definition MQTTREASONCODE_RE_AUTHENTICATE : Z := 25.
Definition MQTTREASONCODE_UNSPECIFIED_ERROR : Z := 128.
Definition MQTTREASONCODE_MALFORMED_PACKET : Z := 129.
Definition MQTTREASONCODE_PROTOCOL_ERROR : Z := 130.
Definition MQTTREASONCODE_IMPLEMENTATION_SPECIFIC_ERROR : Z := 131.
Definition MQTTREASONCODE_UNSUPPORTED_PROTOCOL_VERSION : Z := 132.
Definition MQTTREASONCODE_CLIENT_IDENTIFIER_NOT_VALID : Z := 133.
Definition MQTTREASONCODE_BAD_USER_NAME_OR_PASSWORD : Z := 134.
Definition MQTTREASONCODE_NOT_AUTHORIZED : Z := 135.
Definition MQTTREASONCODE_SERVER_UNAVAILABLE : Z := 136.
Definition MQTTREASONCODE_SERVER_BUSY : Z := 137.
Definition MQTTREASONCODE_BANNED : Z := 138.
Definition MQTTREASONCODE_SERVER_SHUTTING_DOWN : Z := 139.
Definition MQTTREASONCODE_BAD_AUTHENTICATION_METHOD : Z := 140.
Definition MQTTREASONCODE_KEEP_ALIVE_TIMEOUT : Z := 141.
Definition MQTTREASONCODE_SESSION_TAKEN_OVER : Z := 142.
Definition MQTTREASONCODE_TOPIC_FILTER_INVALID : Z := 143.
Definition MQTTREASONCODE_TOPIC_NAME_INVALID : Z := 144.
Definition MQTTREASONCODE_PACKET_IDENTIFIER_IN_USE : Z := 145.
Definition MQTTREASONCODE_PACKET_IDENTIFIER_NOT_FOUND : Z := 146.
Definition MQTTREASONCODE_RECEIVE_MAXIMUM_EXCEEDED : Z := 147.
Definition MQTTREASONCODE_TOPIC_ALIAS_INVALID : Z := 148.
Definition MQTTREASONCODE_PACKET_TOO_LARGE : Z := 149.
Definition MQTTREASONCODE_MESSAGE_RATE_TOO_HIGH : Z := 150.
Definition MQTTREASONCODE_QUOTA_EXCEEDED : Z := 151.
Definition MQTTREASONCODE_ADMINISTRATIVE_ACTION : Z := 152.
Definition MQTTREASONCODE_PAYLOAD_FORMAT_INVALID : Z := 153.
Definition MQTTREASONCODE_RETAIN_NOT_SUPPORTED : Z := 154.
Definition MQTTREASONCODE_QOS_NOT_SUPPORTED : Z := 155.
Definition MQTTREASONCODE_USE_ANOTHER_SERVER : Z := 156.
Definition MQTTREASONCODE_SERVER_MOVED : Z := 157.
Definition MQTTREASONCODE_SHARED_SUBSCRIPTIONS_NOT_SUPPORTED : Z := 158.
Definition MQTTREASONCODE_CONNECTION_RATE_EXCEEDED : Z := 159.
Definition MQTTREASONCODE_MAXIMUM_CONNECT_TIME : Z := 160.
Definition MQTTREASONCODE_SUBSCRIPTION_IDENTIFIERS_NOT_SUPPORTED : Z := 161.
Definition MQTTREASONCODE_WILDCARD_SUBSCRIPTIONS_NOT_SUPPORTED : Z := 162.

(** ** The tables *)
Definition propertyNames : list (Z * string) := [
  (MQTTPROPERTY_CODE_PAYLOAD_FORMAT_INDICATOR, "PAYLOAD_FORMAT_INDICATOR"%string);
  (MQTTPROPERTY_CODE_MESSAGE_EXPIRY_INTERVAL, "MESSAGE_EXPIRY_INTERVAL"%string);
  (MQTTPROPERTY_CODE_CONTENT_TYPE, "CONTENT_TYPE"%string);
  (MQTTPROPERTY_CODE_RESPONSE_TOPIC, "RESPONSE_TOPIC"%string);
  (MQTTPROPERTY_CODE_CORRELATION_DATA, "CORRELATION_DATA"%string);
  (MQTTPROPERTY_CODE_SUBSCRIPTION_IDENTIFIER, "SUBSCRIPTION_IDENTIFIER"%string);
  (MQTTPROPERTY_CODE_SESSION_EXPIRY_INTERVAL, "SESSION_EXPIRY_INTERVAL"%string);
  (MQTTPROPERTY_CODE_ASSIGNED_CLIENT_IDENTIFER, "ASSIGNED_CLIENT_IDENTIFER"%string);
  (MQTTPROPERTY_CODE_SERVER_KEEP_ALIVE, "SERVER_KEEP_ALIVE"%string);
  (MQTTPROPERTY_CODE_AUTHENTICATION_METHOD, "AUTHENTICATION_METHOD"%string);
  (MQTTPROPERTY_CODE_AUTHENTICATION_DATA, "AUTHENTICATION_DATA"%string);
  (MQTTPROPERTY_CODE_REQUEST_PROBLEM_INFORMATION, "REQUEST_PROBLEM_INFORMATION"%string);
  (MQTTPROPERTY_CODE_WILL_DELAY_INTERVAL, "WILL_DELAY_INTERVAL"%string);
  (MQTTPROPERTY_CODE_REQUEST_RESPONSE_INFORMATION, "REQUEST_RESPONSE_INFORMATION"%string);
  (MQTTPROPERTY_CODE_RESPONSE_INFORMATION, "RESPONSE_INFORMATION"%string);
  (MQTTPROPERTY_CODE_SERVER_REFERENCE, "SERVER_REFERENCE"%string);
  (MQTTPROPERTY_CODE_REASON_STRING, "REASON_STRING"%string);
  (MQTTPROPERTY_CODE_RECEIVE_MAXIMUM, "RECEIVE_MAXIMUM"%string);
  (MQTTPROPERTY_CODE_TOPIC_ALIAS_MAXIMUM, "TOPIC_ALIAS_MAXIMUM"%string);
  (MQTTPROPERTY_CODE_TOPIC_ALIAS, "TOPIC_ALIAS"%string);
  (MQTTPROPERTY_CODE_MAXIMUM_QOS, "MAXIMUM_QOS"%string);
  (MQTTPROPERTY_CODE_RETAIN_AVAILABLE, "RETAIN_AVAILABLE"%string);
  (MQTTPROPERTY_CODE_USER_PROPERTY, "USER_PROPERTY"%string);
  (MQTTPROPERTY_CODE_MAXIMUM_PACKET_SIZE, "MAXIMUM_PACKET_SIZE"%string);
  (MQTTPROPERTY_CODE_WILDCARD_SUBSCRIPTION_AVAILABLE, "WILDCARD_SUBSCRIPTION_AVAILABLE"%string);
  (MQTTPROPERTY_CODE_SUBSCRIPTION_IDENTIFIERS_AVAILABLE, "SUBSCRIPTION_IDENTIFIERS_AVAILABLE"%string);
  (MQTTPROPERTY_CODE_SHARED_SUBSCRIPTION_AVAILABLE, "SHARED_SUBSCRIPTION_AVAILABLE"%string)].

Definition MQTTPropertyName (value : Z) : option string := table_lookup propertyNames value.

Definition reasonCodeNames : list (Z * string) := [
  (MQTTREASONCODE_SUCCESS, "SUCCESS"%string);
  (MQTTREASONCODE_NORMAL_DISCONNECTION, "Normal disconnection"%string);
  (MQTTREASONCODE_GRANTED_QOS_0, "Granted QoS 0"%string);
  (MQTTREASONCODE_GRANTED_QOS_1, "Granted QoS 1"%string);
  (MQTTREASONCODE_GRANTED_QOS_2, "Granted QoS 2"%string);
  (MQTTREASONCODE_DISCONNECT_WITH_WILL_MESSAGE, "Disconnect with Will Message"%string);
  (MQTTREASONCODE_NO_MATCHING_SUBSCRIBERS, "No matching subscribers"%string);
  (MQTTREASONCODE_NO_SUBSCRIPTION_FOUND, "No subscription found"%string);
  (MQTTREASONCODE_CONTINUE_AUTHENTICATION, "Continue authentication"%string);
  (MQTTREASONCODE_RE_AUTHENTICATE, "Re-authenticate"%string);
  (MQTTREASONCODE_UNSPECIFIED_ERROR, "Unspecified error"%string);
  (MQTTREASONCODE_MALFORMED_PACKET, "Malformed Packet"%string);
  (MQTTREASONCODE_PROTOCOL_ERROR, "Protocol error"%string);
  (MQTTREASONCODE_IMPLEMENTATION_SPECIFIC_ERROR, "Implementation specific error"%string);
  (MQTTREASONCODE_UNSUPPORTED_PROTOCOL_VERSION, "Unsupported Protocol Version"%string);
  (MQTTREASONCODE_CLIENT_IDENTIFIER_NOT_VALID, "Client Identifier not valid"%string);
  (MQTTREASONCODE_BAD_USER_NAME_OR_PASSWORD, "Bad User Name or Password"%string);
  (MQTTREASONCODE_NOT_AUTHORIZED, "Not authorized"%string);
  (MQTTREASONCODE_SERVER_UNAVAILABLE, "Server unavailable"%string);
  (MQTTREASONCODE_SERVER_BUSY, "Server busy"%string);
  (MQTTREASONCODE_BANNED, "Banned"%string);
  (MQTTREASONCODE_SERVER_SHUTTING_DOWN, "Server shutting down"%string);
  (MQTTREASONCODE_BAD_AUTHENTICATION_METHOD, "Bad authentication method"%string);
  (MQTTREASONCODE_KEEP_ALIVE_TIMEOUT, "Keep Alive timeout"%string);
  (MQTTREASONCODE_SESSION_TAKEN_OVER, "Session taken over"%string);
  (MQTTREASONCODE_TOPIC_FILTER_INVALID, "Topic filter invalid"%string);
  (MQTTREASONCODE_TOPIC_NAME_INVALID, "Topic name invalid"%string);
  (MQTTREASONCODE_PACKET_IDENTIFIER_IN_USE, "Packet Identifier in use"%string);
  (MQTTREASONCODE_PACKET_IDENTIFIER_NOT_FOUND, "Packet Identifier not found"%string);
  (MQTTREASONCODE_RECEIVE_MAXIMUM_EXCEEDED, "Receive Maximum exceeded"%string);
  (MQTTREASONCODE_TOPIC_ALIAS_INVALID, "Topic Alias invalid"%string);
  (MQTTREASONCODE_PACKET_TOO_LARGE, "Packet too large"%string);
  (MQTTREASONCODE_MESSAGE_RATE_TOO_HIGH, "Message rate too high"%string);
  (MQTTREASONCODE_QUOTA_EXCEEDED, "Quota exceeded"%string);
  (MQTTREASONCODE_ADMINISTRATIVE_ACTION, "Administrative action"%string);
  (MQTTREASONCODE_PAYLOAD_FORMAT_INVALID, "Payload format invalid"%string);
  (MQTTREASONCODE_RETAIN_NOT_SUPPORTED, "Retain not supported"%string);
  (MQTTREASONCODE_QOS_NOT_SUPPORTED, "QoS not supported"%string);
  (MQTTREASONCODE_USE_ANOTHER_SERVER, "Use another server"%string);
  (MQTTREASONCODE_SERVER_MOVED, "Server moved"%string);
  (MQTTREASONCODE_SHARED_SUBSCRIPTIONS_NOT_SUPPORTED, "Shared subscriptions not supported"%string);
  (MQTTREASONCODE_CONNECTION_RATE_EXCEEDED, "Connection rate exceeded"%string);
  (MQTTREASONCODE_MAXIMUM_CONNECT_TIME, "Maximum connect time"%string);
  (MQTTREASONCODE_SUBSCRIPTION_IDENTIFIERS_NOT_SUPPORTED, "Subscription Identifiers not supported"%string);
  (MQTTREASONCODE_WILDCARD_SUBSCRIPTIONS_NOT_SUPPORTED, "Wildcard Subscriptions not supported"%string)].

Definition MQTTReasonCode_toString (value : Z) : option string :=
  table_lookup reasonCodeNames value.

Definition packet_names : list string := [
  "RESERVED"; "CONNECT"; "CONNACK"; "PUBLISH"; "PUBACK"; "PUBREC"; "PUBREL";
  "PUBCOMP"; "SUBSCRIBE"; "SUBACK"; "UNSUBSCRIBE"; "UNSUBACK";
  "PINGREQ"; "PINGRESP"; "DISCONNECT"; "AUTH"]%string.

Definition MQTTPacket_name (ptype : Z) : string :=
  if decide (0 ≤ ptype ≤ AUTH)
  then default "UNKNOWN"%string (packet_names !! Z.to_nat ptype) else "UNKNOWN"%string.

(** ** Lookups in two tables with the same keys *)
Lemma table_lookup_same_keys {A B} (t : list (Z * A)) (u : list (Z * B)) v :
  t.*1 = u.*1 → is_Some (table_lookup t v) ↔ is_Some (table_lookup u v).
Proof.
  revert u. induction t as [| [k a] t IH]; intros [| [k' b] u] Hk; simplify_eq/=; [done |].
  case_decide; [by split; eauto | by apply IH].
Qed.

Lemma table_lookup_elem {A} (t : list (Z * A)) k :
  is_Some (table_lookup t k) ↔ k ∈ t.*1.
Proof.
  induction t as [| [k' a] t IH]; cbn.
  - rewrite elem_of_nil. by split; [intros [? ?] |].
  - rewrite elem_of_cons, <- IH. case_decide; naive_solver.
Qed.

(** The property tables agree: an identifier has a printable name exactly
    when it has a type, the types' table holds the 27 identifiers of MQTT 5,
    each of them once, and no two identifiers have the same name. *)
Theorem property_tables_agree v :
  (is_Some (MQTTPropertyName v) ↔ is_Some (MQTTProperty_getType v)) ∧
  length namesToTypes = 27%nat ∧ NoDup namesToTypes.*1 ∧ NoDup propertyNames.*2.
Proof.
  split_and!; [by apply table_lookup_same_keys | done | |];
    by apply (bool_decide_unpack _); vm_compute.
Qed.
