(* ===== verification/Clients.v ===== *)
(** * Client structures (src/src/Clients.h, src/src/Socket.h)

    The records the protocol code keeps for a client, and the interface to the
    network and the persistence store through which the packets go.  Fields
    that only the application layers, the TLS and proxy code use are left out. *)
From S2P Require Import Prelude Buffers LinkedList Properties PacketIn.
Local Open Scope Z_scope.

Definition TCPSOCKET_COMPLETE : Z := 0.
Definition SOCKET_ERROR : Z := -1.
Definition TCPSOCKET_INTERRUPTED : Z := -22.

(** Publication data kept for retries, shared by reference count. *)
Record Publications := mkPublications {
  p_topic : option (list Z);
  p_topiclen : Z;
  p_payload : option (list Z);
  p_payloadlen : Z;
  refcount : Z;
  p_mask : list Z;
}.

(** A message in flight; [m_publish] points to its publication. *)
Record Messages := mkMessages {
  m_qos : Z;
  m_retain : Z;
  msgid : Z;
  m_MQTTVersion : Z;
  m_properties : option MQTTProperties;   (* [None]: not written *)
  m_publish : ptr;
  lastTouch : option Z;
  nextMessageType : option Z;
  m_len : Z;
}.

Record willMessages := mkWill {
  will_topic : list Z;
  will_payloadlen : Z;
  will_payload : list Z;
  retained : Z;
  will_qos : Z;
}.

Record networkHandles := mkNet {
  socket : Z;
  lastSent : Z;
  lastReceived : Z;
  lastPing : Z;
}.

(** A message for the application ([qEntry] and its [MQTTClient_message]). *)
Record qEntry := mkQEntry {
  topicName : option (list Z);
  topicLen : Z;
  q_payload : option (list Z);
  q_payloadlen : Z;
  q_qos : Z;
  q_retained : Z;
  q_dup : Z;
  q_msgid : Z;
  q_properties : MQTTProperties;
}.

(** An acknowledgement waiting for the socket. *)
Record AckRequest := mkAckRequest { messageId : Z; ackType : Z }.

Record Clients := mkClients {
  clientID : list Z;
  username : option (list Z);
  passwordlen : Z;
  password : option (list Z);
  cleansession : Z;
  cleanstart : Z;
  connected : Z;
  good : Z;
  ping_outstanding : Z;
  ping_due : Z;
  ping_due_time : Z;
  net : networkHandles;
  msgID : Z;
  keepAliveInterval : Z;
  retryInterval : Z;
  maxInflightMessages : Z;
  will : option willMessages;
  inboundMsgs : alist Messages;
  outboundMsgs : alist Messages;
  connect_count : Z;
  connect_sent : Z;
  messageQueue : alist qEntry;
  outboundQueue : alist AckRequest;
  c_MQTTVersion : Z;
}.

(** ** Updates of a client's fields *)
Definition set_net (n : networkHandles) (c : Clients) : Clients :=
  mkClients (clientID c) (username c) (passwordlen c) (password c) (cleansession c)
    (cleanstart c) (connected c) (good c) (ping_outstanding c) (ping_due c) (ping_due_time c)
    n (msgID c) (keepAliveInterval c) (retryInterval c) (maxInflightMessages c) (will c)
    (inboundMsgs c) (outboundMsgs c) (connect_count c) (connect_sent c) (messageQueue c)
    (outboundQueue c) (c_MQTTVersion c).
Definition set_msgID (n : Z) (c : Clients) : Clients :=
  mkClients (clientID c) (username c) (passwordlen c) (password c) (cleansession c)
    (cleanstart c) (connected c) (good c) (ping_outstanding c) (ping_due c) (ping_due_time c)
    (net c) n (keepAliveInterval c) (retryInterval c) (maxInflightMessages c) (will c)
    (inboundMsgs c) (outboundMsgs c) (connect_count c) (connect_sent c) (messageQueue c)
    (outboundQueue c) (c_MQTTVersion c).
Definition set_inboundMsgs (l : alist Messages) (c : Clients) : Clients :=
  mkClients (clientID c) (username c) (passwordlen c) (password c) (cleansession c)
    (cleanstart c) (connected c) (good c) (ping_outstanding c) (ping_due c) (ping_due_time c)
    (net c) (msgID c) (keepAliveInterval c) (retryInterval c) (maxInflightMessages c) (will c)
    l (outboundMsgs c) (connect_count c) (connect_sent c) (messageQueue c) (outboundQueue c)
    (c_MQTTVersion c).
Definition set_outboundMsgs (l : alist Messages) (c : Clients) : Clients :=
  mkClients (clientID c) (username c) (passwordlen c) (password c) (cleansession c)
    (cleanstart c) (connected c) (good c) (ping_outstanding c) (ping_due c) (ping_due_time c)
    (net c) (msgID c) (keepAliveInterval c) (retryInterval c) (maxInflightMessages c) (will c)
    (inboundMsgs c) l (connect_count c) (connect_sent c) (messageQueue c) (outboundQueue c)
    (c_MQTTVersion c).
Definition set_messageQueue (l : alist qEntry) (c : Clients) : Clients :=
  mkClients (clientID c) (username c) (passwordlen c) (password c) (cleansession c)
    (cleanstart c) (connected c) (good c) (ping_outstanding c) (ping_due c) (ping_due_time c)
    (net c) (msgID c) (keepAliveInterval c) (retryInterval c) (maxInflightMessages c) (will c)
    (inboundMsgs c) (outboundMsgs c) (connect_count c) (connect_sent c) l (outboundQueue c)
    (c_MQTTVersion c).
Definition set_outboundQueue (l : alist AckRequest) (c : Clients) : Clients :=
  mkClients (clientID c) (username c) (passwordlen c) (password c) (cleansession c)
    (cleanstart c) (connected c) (good c) (ping_outstanding c) (ping_due c) (ping_due_time c)
    (net c) (msgID c) (keepAliveInterval c) (retryInterval c) (maxInflightMessages c) (will c)
    (inboundMsgs c) (outboundMsgs c) (connect_count c) (connect_sent c) (messageQueue c) l
    (c_MQTTVersion c).
Definition set_good (n : Z) (c : Clients) : Clients :=
  mkClients (clientID c) (username c) (passwordlen c) (password c) (cleansession c)
    (cleanstart c) (connected c) n (ping_outstanding c) (ping_due c) (ping_due_time c) (net c)
    (msgID c) (keepAliveInterval c) (retryInterval c) (maxInflightMessages c) (will c)
    (inboundMsgs c) (outboundMsgs c) (connect_count c) (connect_sent c) (messageQueue c)
    (outboundQueue c) (c_MQTTVersion c).
Definition set_ping (outstanding due due_time : Z) (c : Clients) : Clients :=
  mkClients (clientID c) (username c) (passwordlen c) (password c) (cleansession c)
    (cleanstart c) (connected c) (good c) outstanding due due_time (net c) (msgID c)
    (keepAliveInterval c) (retryInterval c) (maxInflightMessages c) (will c) (inboundMsgs c)
    (outboundMsgs c) (connect_count c) (connect_sent c) (messageQueue c) (outboundQueue c)
    (c_MQTTVersion c).
Definition set_connect (count sent : Z) (c : Clients) : Clients :=
  mkClients (clientID c) (username c) (passwordlen c) (password c) (cleansession c)
    (cleanstart c) (connected c) (good c) (ping_outstanding c) (ping_due c) (ping_due_time c)
    (net c) (msgID c) (keepAliveInterval c) (retryInterval c) (maxInflightMessages c) (will c)
    (inboundMsgs c) (outboundMsgs c) count sent (messageQueue c) (outboundQueue c)
    (c_MQTTVersion c).
Definition set_connected (n : Z) (c : Clients) : Clients :=
  mkClients (clientID c) (username c) (passwordlen c) (password c) (cleansession c)
    (cleanstart c) n (good c) (ping_outstanding c) (ping_due c) (ping_due_time c) (net c)
    (msgID c) (keepAliveInterval c) (retryInterval c) (maxInflightMessages c) (will c)
    (inboundMsgs c) (outboundMsgs c) (connect_count c) (connect_sent c) (messageQueue c)
    (outboundQueue c) (c_MQTTVersion c).

(** ** Time

    A [struct timeval] is its microseconds. *)
Definition MQTTTime_difftime (t_new t_old : Z) : Z :=
  let result := t_new - t_old in   (* timersub *)
  let tv_sec := result / 1000000 in
  let tv_usec := result `mod` 1000000 in
  tv_sec * 1000 + tv_usec `quot` 1000.

Lemma MQTTTime_difftime_ms t_new t_old : MQTTTime_difftime t_new t_old = (t_new - t_old) / 1000.
Proof. unfold MQTTTime_difftime. Z.to_euclidean_division_equations. lia. Qed.

(** ** Blocks

    The blocks a sender allocates for its buffers. *)
Class HasBlocks (T : Type) := {
  live_of : T → gset positive;
  set_live : gset positive → T → T;
}.

Definition new_block {T} `{HasHeap T, HasBlocks T} : M T ptr :=
  ok ← malloc;
  if ok : bool then
    live ← gets live_of;
    let a := fresh live in
    _ ← modify (set_live ({[a]} ∪ live));
    mret (Some a)
  else mret None.

Definition free_block {T} `{HasBlocks T} (p : ptr) : M T unit := λ s,
  match p with
  | None => Ok (tt, s)
  | Some a =>
    if decide (a ∈ live_of s) then Ok (tt, set_live (live_of s ∖ {[a]}) s) else Err BadFree
  end.

(** ** The network and the persistence store, as the packet code sees them

    A buffer is the block it lies in, its bytes, and whether the writer takes
    the block over when it could not send everything. *)
Record Buffer := mkBuffer { b_block : ptr; b_data : list Z; b_free : bool }.

Class Transport (T : Type) := {
  (* [WebSocket_putdatas]: the completion code and the mask used *)
  putdatas : Z → Buffer → list Buffer → list Z → M T (Z * list Z);
  (* [Socket_noPendingWrites] *)
  noPendingWrites : Z → M T bool;
  (* [MQTTTime_now] *)
  now : M T Z;
  (* [MQTTPersistence_putPacket]: socket, header, buffers, type, message id,
     1 for a packet received, version *)
  putPacket : Z → list Z → list (list Z) → Z → Z → Z → Z → M T Z;
}.

(** What the packet code relies on: the calls return, they do not touch the
    blocks of the packet code, and a write that is not an error sends (or
    queues to be sent, in order) the bytes of its buffers and nothing else. *)
Class TransportLaws (T : Type) `{HasHeap T, HasBlocks T, Transport T} := {
  sent : T → list Z;
  sent_set_heap h s : sent (set_heap h s) = sent s;
  sent_set_live l s : sent (set_live l s) = sent s;
  live_set_heap h s : live_of (set_heap h s) = live_of s;
  live_set_live l s : live_of (set_live l s) = l;
  heap_set_live l s : heap_of (set_live l s) = heap_of s;
  putdatas_law sock hdr bufs mask s : ∃ rc mask' s',
    putdatas sock hdr bufs mask s = Ok (rc, mask', s') ∧ live_of s' = live_of s ∧
    (rc = TCPSOCKET_COMPLETE ∨ rc = TCPSOCKET_INTERRUPTED →
     sent s' = sent s ++ b_data hdr ++ mjoin (b_data <$> bufs));
  now_law s : ∃ t s', now s = Ok (t, s') ∧ live_of s' = live_of s ∧ sent s' = sent s;
  putPacket_law sock hdr bufs ty id scr v s : ∃ rc s',
    putPacket sock hdr bufs ty id scr v s = Ok (rc, s') ∧
    live_of s' = live_of s ∧ sent s' = sent s;
}.
