(* ===== verification/PacketOut.v ===== *)
(** * Outgoing packets (src/src/MQTTPacket.c, src/src/MQTTPacketOut.c)

    The functions that build a packet in blocks of their own and give it to the
    network.  Every sender computes the size of a block, allocates it, fills
    it and frees it again, unless the network took it over because it could
    not write everything at once.  Sending a block that was not filled to its
    size is the fault [Uninitialised]. *)
From S2P Require Import Prelude Buffers LinkedList Properties PacketIn Clients.
Local Open Scope Z_scope.

(** ** Filling a block *)

(** [malloc(n)], where a negative [int] becomes a size no allocator serves,
    and the writes through a pointer that starts at the block. *)
Definition alloc_block {T} `{HasHeap T, HasBlocks T} (n : Z) : M T ptr :=
  if decide (0 ≤ n) then new_block else mret None.

(** The bytes of a block of [n] bytes after [w]; all of them are sent. *)
Definition fill {T} (n : Z) (w : M writer unit) : M T (list Z) := λ s,
  match w (Writer (Z.to_nat n) []) with
  | Ok (_, w') =>
    if decide (length (w_out w') = Z.to_nat n) then Ok (w_out w', s) else Err Uninitialised
  | Err f => Err f
  end.

(** [len] bytes at a pointer. *)
Definition slice {T} (len : Z) (p : option (list Z)) : M T (list Z) :=
  match p with
  | None => if decide (len = 0) then mret [] else fail NullDeref
  | Some d =>
    if decide (0 ≤ len ≤ Z.of_nat (length d)) then mret (take (Z.to_nat len) d)
    else fail OutOfBounds
  end.

(** A pointer to a C string. *)
Definition deref {T} (p : option (list Z)) : M T (list Z) :=
  match p with None => fail NullDeref | Some d => mret d end.

Section Senders.
Context {T : Type} `{HasHeap T, HasBlocks T, Transport T}.

Definition header_of (ty dp q rt : Z) : Header := {|
  type := Z.land ty 15; dup := Z.land dp 1; qos := Z.land q 3; retain := Z.land rt 1 |}.

(** The header byte and the remaining length. *)
Definition fixed_header (header : Header) (buflen : Z) : list Z :=
  byte_of_header header :: MQTTPacket_encode buflen.

(** [net->lastSent = MQTTTime_now()] *)
Definition touch_sent (rc : Z) (net : networkHandles) : M T networkHandles :=
  if decide (rc = TCPSOCKET_COMPLETE) then
    t ← now;
    mret (mkNet (socket net) t (lastReceived net) (lastPing net))
  else mret net.

Definition free_unless_interrupted (rc : Z) (p : ptr) : M T unit :=
  if decide (rc ≠ TCPSOCKET_INTERRUPTED) then free_block p else mret tt.

(** [readInt(&ptraux)] on a buffer. *)
Definition msgid_of (buffer : list Z) : M T Z := λ s,
  match readInt (Reader buffer 0 []) with
  | Ok (n, _) => Ok (n, s)
  | Err f => Err f
  end.

(** The two senders share their bodies: [persist] stands for the call of
    [MQTTPersistence_putPacket], whose result is overwritten. *)
Definition MQTTPacket_send (net : networkHandles) (header : Header) (block : ptr)
    (buffer : list Z) (freeData : bool) (MQTTVersion : Z) : M T (Z * networkHandles) :=
  let buflen := Z.of_nat (length buffer) in
  let buf0 := fixed_header header buflen in
  buf ← new_block;
  match buf : ptr with
  | None => mret (SOCKET_ERROR, net)
  | Some _ =>
    _ ← (if decide (type header = PUBREL) then
           msgId ← msgid_of buffer;
           _ ← putPacket (socket net) buf0 [buffer] (type header) msgId 0 MQTTVersion;
           mret tt
         else mret tt);
    r ← putdatas (socket net) (mkBuffer buf buf0 true) [mkBuffer block buffer freeData]
          [0; 0; 0; 0];
    let rc := fst r in
    net ← touch_sent rc net;
    _ ← free_unless_interrupted rc buf;
    mret (rc, net)
  end.

Definition MQTTPacket_sends (net : networkHandles) (header : Header) (bufs : list Buffer)
    (msk : list Z) (MQTTVersion : Z) : M T (Z * list Z * networkHandles) :=
  let total := Z.of_nat (length (mjoin (b_data <$> bufs))) in
  let buf0 := fixed_header header total in
  buf ← new_block;
  match buf : ptr with
  | None => mret (SOCKET_ERROR, msk, net)
  | Some _ =>
    _ ← (if decide (type header = PUBLISH ∧ qos header ≠ 0) then
           match bufs !! 2%nat with
           | None => fail OutOfBounds
           | Some b =>
             msgId ← msgid_of (b_data b);
             _ ← putPacket (socket net) buf0 (b_data <$> bufs) (type header) msgId 0 MQTTVersion;
             mret tt
           end
         else mret tt);
    r ← putdatas (socket net) (mkBuffer buf buf0 true) bufs msk;
    let '(rc, msk) := r : Z * list Z in
    net ← touch_sent rc net;
    _ ← free_unless_interrupted rc buf;
    mret (rc, msk, net)
  end.

(** A block filled by [w], sent and freed. *)
Definition send_block (net : networkHandles) (header : Header) (n : Z) (w : M writer unit)
    (MQTTVersion : Z) : M T (Z * networkHandles) :=
  buf ← alloc_block n;
  match buf : ptr with
  | None => mret (SOCKET_ERROR, net)
  | Some _ =>
    data ← fill n w;
    r ← MQTTPacket_send net header buf data true MQTTVersion;
    _ ← free_unless_interrupted (fst r) buf;
    mret r
  end.

Definition MQTTPacket_send_disconnect (client : Clients) (reason : Z)
    (props : option MQTTProperties) : M T (Z * networkHandles) :=
  let header := header_of DISCONNECT 0 0 0 in
  if decide (5 ≤ c_MQTTVersion client ∧ (props ≠ None ∨ reason ≠ 0)) then
    let buflen := 1 + (match props with None => 0 | Some _ => MQTTProperties_len props end) in
    send_block (net client) header buflen
      (_ ← writeChar reason;
       match props with
       | None => mret tt
       | Some _ => _ ← MQTTProperties_write props; mret tt
       end)
      (c_MQTTVersion client)
  else MQTTPacket_send (net client) header None [] false (c_MQTTVersion client).

Definition MQTTPacket_send_ack (MQTTVersion ty msgid dp : Z) (net : networkHandles)
  : M T (Z * networkHandles) :=
  send_block net (header_of ty dp (if decide (ty = PUBREL) then 1 else 0) 0) 2
    (writeInt msgid) MQTTVersion.

Definition MQTTPacket_send_puback (MQTTVersion msgid : Z) (net : networkHandles) :=
  MQTTPacket_send_ack MQTTVersion PUBACK msgid 0 net.
Definition MQTTPacket_send_pubrec (MQTTVersion msgid : Z) (net : networkHandles) :=
  MQTTPacket_send_ack MQTTVersion PUBREC msgid 0 net.
Definition MQTTPacket_send_pubrel (MQTTVersion msgid dp : Z) (net : networkHandles) :=
  MQTTPacket_send_ack MQTTVersion PUBREL msgid dp net.
Definition MQTTPacket_send_pubcomp (MQTTVersion msgid : Z) (net : networkHandles) :=
  MQTTPacket_send_ack MQTTVersion PUBCOMP msgid 0 net.

Definition MQTTPacket_send_pingreq (net : networkHandles) : M T (Z * networkHandles) :=
  MQTTPacket_send net (header_of PINGREQ 0 0 0) None [] false MQTTVERSION_3_1_1.

Definition MQTTPacket_send_publish (pack : Publish) (dp q retained : Z) (net : networkHandles)
  : M T (Z * list Z * networkHandles) :=
  topiclen_block ← new_block;
  match topiclen_block : ptr with
  | None => mret (SOCKET_ERROR, mask pack, net)
  | Some _ =>
    let header := header_of PUBLISH dp q retained in
    topic ← deref (topic pack);
    let topic := cstr topic in
    let lens1 := i32 (Z.of_nat (length topic)) in
    r ← (if decide (0 < q ∨ 5 ≤ pub_MQTTVersion pack) then
           let buflen := (if decide (0 < q) then 2 else 0) +
             (if decide (5 ≤ pub_MQTTVersion pack)
              then MQTTProperties_len (Some (pub_properties pack)) else 0) in
           buf ← alloc_block buflen;
           match buf : ptr with
           | None => mret (SOCKET_ERROR, mask pack, net)
           | Some _ =>
             vhdr ← fill buflen
               (_ ← (if decide (0 < q) then writeInt (pub_msgId pack) else mret tt);
                if decide (5 ≤ pub_MQTTVersion pack)
                then _ ← MQTTProperties_write (Some (pub_properties pack)); mret tt
                else mret tt);
             tl ← fill 2 (writeInt lens1);
             payload ← slice (payloadlen pack) (payload pack);
             r ← MQTTPacket_sends net header
                   [mkBuffer topiclen_block tl true; mkBuffer None topic false;
                    mkBuffer buf vhdr true; mkBuffer None payload false]
                   (mask pack) (pub_MQTTVersion pack);
             let '(rc, msk, net) := r : Z * list Z * networkHandles in
             _ ← free_unless_interrupted rc buf;
             mret (rc, msk, net)
           end
         else
           tl ← fill 2 (writeInt lens1);
           payload ← slice (payloadlen pack) (payload pack);
           MQTTPacket_sends net header
             [mkBuffer topiclen_block tl true; mkBuffer None topic false;
              mkBuffer None payload false]
             (mask pack) (pub_MQTTVersion pack));
    let '(rc, msk, net) := r : Z * list Z * networkHandles in
    _ ← free_unless_interrupted rc topiclen_block;
    mret (rc, msk, net)
  end.

(** ** CONNECT, SUBSCRIBE, UNSUBSCRIBE (MQTTPacketOut.c) *)

(** The flags byte, from the low bit: unused, clean start, will, two bits of
    will QoS, will retain, password, user name. *)
Definition connect_flags (client : Clients) (MQTTVersion : Z) : Z :=
  let bit (b : Z) (k : Z) := Z.shiftl (Z.land b 1) k in
  let cs := if decide (MQTTVERSION_5 ≤ MQTTVersion) then cleanstart client
            else cleansession client in
  Z.lor (bit cs 1)
    (Z.lor (match will client with
            | None => 0
            | Some w => Z.lor (bit 1 2) (Z.lor (Z.shiftl (Z.land (will_qos w) 3) 3)
                                           (bit (retained w) 5))
            end)
       (Z.lor (match password client with None => 0 | Some _ => bit 1 6 end)
          (match username client with None => 0 | Some _ => bit 1 7 end))).

Definition strlen_int (s : list Z) : Z := i32 (Z.of_nat (strlen s)).

Definition connect_length (client : Clients) (MQTTVersion : Z)
    (connectProperties willProperties : option MQTTProperties) : Z :=
  (if decide (MQTTVersion = MQTTVERSION_3_1) then 12 else 10) + strlen_int (clientID client) + 2
  + (match will client with
     | None => 0
     | Some w => strlen_int (will_topic w) + 2 + will_payloadlen w + 2
     end)
  + (match username client with None => 0 | Some u => strlen_int u + 2 end)
  + (match password client with None => 0 | Some _ => passwordlen client + 2 end)
  + (if decide (MQTTVERSION_5 ≤ MQTTVersion) then
       MQTTProperties_len connectProperties
       + (match will client with None => 0 | Some _ => MQTTProperties_len willProperties end)
     else 0).

Definition str_MQIsdp : list Z := [77; 81; 73; 115; 100; 112].
Definition str_MQTT : list Z := [77; 81; 84; 84].

Definition write_properties_if (MQTTVersion : Z) (props : option MQTTProperties)
  : M writer unit :=
  if decide (MQTTVERSION_5 ≤ MQTTVersion)
  then _ ← MQTTProperties_write props; mret tt else mret tt.

(** The writes of [MQTTPacket_send_connect] after the version test. *)
Definition write_connect (client : Clients) (MQTTVersion : Z)
    (connectProperties willProperties : option MQTTProperties) : M writer unit :=
  _ ← (if decide (MQTTVersion = MQTTVERSION_3_1)
       then _ ← writeUTF str_MQIsdp; writeChar MQTTVERSION_3_1
       else _ ← writeUTF str_MQTT; writeChar MQTTVersion);
  _ ← writeChar (connect_flags client MQTTVersion);
  _ ← writeInt (keepAliveInterval client);
  _ ← write_properties_if MQTTVersion connectProperties;
  _ ← writeUTF (clientID client);
  _ ← (match will client with
       | None => mret tt
       | Some w =>
         _ ← write_properties_if MQTTVersion willProperties;
         _ ← writeUTF (will_topic w);
         writeData (will_payload w) (will_payloadlen w)
       end);
  _ ← (match username client with None => mret tt | Some u => writeUTF u end);
  match password client with
  | None => mret tt
  | Some p => writeData p (passwordlen client)
  end.

Definition MQTTPacket_send_connect (client : Clients) (MQTTVersion : Z)
    (connectProperties willProperties : option MQTTProperties) : M T (Z * networkHandles) :=
  let len := i32 (connect_length client MQTTVersion connectProperties willProperties) in
  buf ← alloc_block len;
  match buf : ptr with
  | None => mret (SOCKET_ERROR, net client)
  | Some _ =>
    if decide (MQTTVersion ∈ [MQTTVERSION_3_1; MQTTVERSION_3_1_1; MQTTVERSION_5]) then
      data ← fill len (write_connect client MQTTVersion connectProperties willProperties);
      r ← MQTTPacket_send (net client) (header_of CONNECT 0 0 0) buf data true MQTTVersion;
      _ ← free_unless_interrupted (fst r) buf;
      mret r
    else
      _ ← free_unless_interrupted SOCKET_ERROR buf;
      mret (SOCKET_ERROR, net client)
  end.

(** The [MQTTSubscribe_options] of a topic. *)
Record MQTTSubscribe_options := mkSubOpts {
  noLocal : Z;
  retainAsPublished : Z;
  retainHandling : Z;
}.

(** The loop over the topics; [qoss] is walked alongside, [opts] is indexed. *)
Fixpoint write_topics (topics : list (list Z)) (qoss : list Z)
    (opts : option (list MQTTSubscribe_options)) (i : nat) : M writer unit :=
  match topics with
  | [] => mret tt
  | t :: topics =>
    _ ← writeUTF t;
    match qoss with
    | [] => fail NullDeref
    | q :: qoss =>
      subopts ← (match opts with
                 | None => mret q
                 | Some os =>
                   match os !! i with
                   | None => fail OutOfBounds
                   | Some o => mret (Z.lor q (Z.lor (Z.shiftl (noLocal o) 2)
                       (Z.lor (Z.shiftl (retainAsPublished o) 3)
                          (Z.shiftl (retainHandling o) 4))))
                   end
                 end);
      _ ← writeChar subopts;
      write_topics topics qoss opts (i + 1)
    end
  end.

Definition sum_strlen (topics : list (list Z)) : Z :=
  foldr (λ t n, strlen_int t + n) 0 topics.

Definition MQTTPacket_send_subscribe (topics : list (list Z)) (qoss : list Z)
    (opts : option (list MQTTSubscribe_options)) (props : option MQTTProperties)
    (msgid dp : Z) (client : Clients) : M T (Z * networkHandles) :=
  let datalen := 2 + Z.of_nat (length topics) * 3 + sum_strlen topics +
    (if decide (MQTTVERSION_5 ≤ c_MQTTVersion client) then MQTTProperties_len props else 0) in
  send_block (net client) (header_of SUBSCRIBE dp 1 0) datalen
    (_ ← writeInt msgid;
     _ ← write_properties_if (c_MQTTVersion client) props;
     write_topics topics qoss
       (if decide (MQTTVERSION_5 ≤ c_MQTTVersion client) then opts else None) 0)
    (c_MQTTVersion client).

Fixpoint write_filters (topics : list (list Z)) : M writer unit :=
  match topics with
  | [] => mret tt
  | t :: topics => _ ← writeUTF t; write_filters topics
  end.

Definition MQTTPacket_send_unsubscribe (topics : list (list Z)) (props : option MQTTProperties)
    (msgid dp : Z) (client : Clients) : M T (Z * networkHandles) :=
  let datalen := 2 + Z.of_nat (length topics) * 2 + sum_strlen topics +
    (if decide (MQTTVERSION_5 ≤ c_MQTTVersion client) then MQTTProperties_len props else 0) in
  send_block (net client) (header_of UNSUBSCRIBE dp 1 0) datalen
    (_ ← writeInt msgid;
     _ ← write_properties_if (c_MQTTVersion client) props;
     write_filters topics)
    (c_MQTTVersion client).
End Senders.

(** ** Specification: the bytes of a packet *)
Definition enc_packet (header : Header) (body : list Z) : list Z :=
  fixed_header header (Z.of_nat (length body)) ++ body.

Lemma fill_writes {T} n w l (s : T) :
  writes w l tt → n = Z.of_nat (length l) → fill n w s = Ok (l, s).
Proof.
  intros Hw ->. unfold fill. rewrite Nat2Z.id, (Hw (length l) []) by (simpl; lia).
  by rewrite decide_True.
Qed.

Lemma slice_run {T} len d (s : T) :
  0 ≤ len ≤ Z.of_nat (length d) → slice len (Some d) s = Ok (take (Z.to_nat len) d, s).
Proof. intros Hl. unfold slice. by rewrite decide_True. Qed.

Lemma remove_added (a : positive) (X : gset positive) :
  a ∉ X → (∅ ∪ ({[a]} ∪ X)) ∖ {[a]} = ∅ ∪ X.
Proof. intros Ha. apply set_eq. intros x. set_solver. Qed.

Section Outcomes.
Context {T : Type} `{TransportLaws T}.
Implicit Types (s : T) (rc : Z).

(** What a call that sent [bytes] leaves: unless it reports an error the bytes
    are on their way, and exactly [k] blocks more than before stay allocated if
    it reports that the write is not finished, none otherwise. *)
Definition outcome (k : nat) (bytes : list Z) s rc s' : Prop :=
  (rc = TCPSOCKET_COMPLETE ∨ rc = TCPSOCKET_INTERRUPTED → sent s' = sent s ++ bytes) ∧
  ∃ h : gset positive, h ## live_of s ∧ live_of s' = h ∪ live_of s ∧
    size h = if decide (rc = TCPSOCKET_INTERRUPTED) then k else 0%nat.

(** The same network handles, but for the time of the last write. *)
Definition same_net (n n' : networkHandles) : Prop :=
  socket n' = socket n ∧ lastReceived n' = lastReceived n ∧ lastPing n' = lastPing n.

Lemma malloc_law s : ∃ b s', malloc s = Ok (b, s') ∧ live_of s' = live_of s ∧ sent s' = sent s.
Proof.
  unfold malloc. destruct (heap_of s) as [| b h]; [by exists true, s |].
  exists b, (set_heap h s). by rewrite live_set_heap, sent_set_heap.
Qed.

Lemma new_block_law s :
  (∃ s', new_block s = Ok (None, s') ∧ live_of s' = live_of s ∧ sent s' = sent s) ∨
  (∃ a s', new_block s = Ok (Some a, s') ∧ a ∉ live_of s ∧
     live_of s' = {[a]} ∪ live_of s ∧ sent s' = sent s).
Proof.
  unfold new_block. destruct (malloc_law s) as ([|] & s1 & Hm & Hl & Hs).
  - right. rewrite (bind_ok _ _ _ _ _ Hm). rewrite gets_bind, modify_bind.
    do 2 eexists. split; [done |]. rewrite live_set_live, sent_set_live, Hl, Hs.
    split_and!; [apply is_fresh | done | done].
  - left. by rewrite (bind_ok _ _ _ _ _ Hm); eauto.
Qed.

Lemma free_block_law a s :
  a ∈ live_of s → ∃ s', free_block (Some a) s = Ok (tt, s') ∧
    live_of s' = live_of s ∖ {[a]} ∧ sent s' = sent s.
Proof.
  intros Ha. unfold free_block. rewrite decide_True by done.
  eexists. split; [done |]. by rewrite live_set_live, sent_set_live.
Qed.

Lemma touch_sent_law rc n s :
  ∃ n' s', touch_sent rc n s = Ok (n', s') ∧ same_net n n' ∧
    live_of s' = live_of s ∧ sent s' = sent s.
Proof.
  unfold touch_sent. case_decide; [| by exists n, s].
  destruct (now_law s) as (t & s' & Ht & Hl & Hs).
  eexists _, s'. by rewrite (bind_ok _ _ _ _ _ Ht).
Qed.

(** The end of a sender that allocated [a]: the block is freed unless the
    network took it over. *)
Lemma free_unless_interrupted_law k bytes rc a s0 s1 s2 :
  a ∉ live_of s0 → live_of s1 = {[a]} ∪ live_of s0 → sent s1 = sent s0 →
  outcome k bytes s1 rc s2 →
  ∃ s3, free_unless_interrupted rc (Some a) s2 = Ok (tt, s3) ∧ outcome (S k) bytes s0 rc s3.
Proof.
  intros Ha Hl1 Hs1 (Hsent & h & Hh & Hl2 & Hk). unfold free_unless_interrupted.
  rewrite Hl1 in Hh, Hl2. apply disjoint_union_r in Hh as [Hah Hh].
  destruct (decide (rc = TCPSOCKET_INTERRUPTED)) as [Hrc | Hrc].
  - rewrite decide_False by tauto. exists s2. split; [done |]. split; [by rewrite <- Hs1 |].
    exists ({[a]} ∪ h). rewrite decide_True by done. split_and!.
    + apply disjoint_union_l. split; [by apply disjoint_singleton_l | done].
    + by rewrite Hl2, (assoc_L (∪)), (comm_L (∪) h).
    + by rewrite size_union, size_singleton, Hk by (by symmetry).
  - rewrite decide_True by done. apply size_empty_inv in Hk. apply leibniz_equiv in Hk. subst h.
    destruct (free_block_law a s2) as (s3 & Hf & Hl3 & Hs3).
    { rewrite Hl2. apply elem_of_union_r, elem_of_union_l, elem_of_singleton. done. }
    exists s3. split; [done |]. split; [by rewrite Hs3, <- Hs1 |].
    exists ∅. rewrite decide_False by done.
    split_and!; [done | | by apply size_empty]. by rewrite Hl3, Hl2, remove_added.
Qed.

(** A failed allocation reports an error and leaves everything as it was. *)
Lemma outcome_error k bytes s s' :
  live_of s' = live_of s → outcome k bytes s SOCKET_ERROR s'.
Proof.
  intros Hl. split; [by intros [|] |]. exists ∅. rewrite decide_False by done.
  split_and!; [apply disjoint_empty_l | by rewrite Hl, (left_id_L ∅ (∪)) | by apply size_empty].
Qed.

Lemma persist_law (P : Prop) `{!Decision P} sock hdr bufs (buf : list Z) ty scr v s :
  (P → (2 ≤ length buf)%nat) →
  ∃ s', (if decide P then msgId ← msgid_of buf; _ ← putPacket sock hdr bufs ty msgId scr v; mret tt
         else mret tt) s = Ok (tt, s') ∧ live_of s' = live_of s ∧ sent s' = sent s.
Proof.
  intros Hb. destruct (decide P) as [HP |]; [| by exists s].
  destruct (readInt_bounded (length buf) (Reader buf 0 [])) as [n Hn].
  { cbn. specialize (Hb HP). lia. }
  assert (msgid_of buf s = Ok (n, s)) as Hid by (unfold msgid_of; by rewrite Hn).
  rewrite (bind_ok _ _ _ _ _ Hid).
  destruct (putPacket_law sock hdr bufs ty n scr v s) as (rc & s' & Hp & Hl & Hs).
  exists s'. by rewrite (bind_ok _ _ _ _ _ Hp).
Qed.

(** ** The senders *)
Lemma MQTTPacket_send_outcome net header block buf fd v s :
  (type header = PUBREL → (2 ≤ length buf)%nat) →
  ∃ rc net' s', MQTTPacket_send net header block buf fd v s = Ok (rc, net', s') ∧
    same_net net net' ∧ outcome 1 (enc_packet header buf) s rc s'.
Proof.
  intros Hty. unfold MQTTPacket_send.
  destruct (new_block_law s) as [(s1 & Hn & Hl1 & Hs1) | (a & s1 & Hn & Ha & Hl1 & Hs1)];
    rewrite (bind_ok _ _ _ _ _ Hn).
  { exists SOCKET_ERROR, net, s1. split; [done |]. split; [done |]. by apply outcome_error. }
  destruct (persist_law (type header = PUBREL) (socket net)
    (fixed_header header (Z.of_nat (length buf))) [buf] buf (type header) 0 v s1 Hty)
    as (s2 & Hp & Hl2 & Hs2).
  rewrite (bind_ok _ _ _ _ _ Hp).
  destruct (putdatas_law (socket net) (mkBuffer (Some a) (fixed_header header (Z.of_nat (length buf))) true)
    [mkBuffer block buf fd] [0; 0; 0; 0] s2) as (rc & msk & s3 & Hw & Hl3 & Hs3).
  rewrite (bind_ok _ _ _ _ _ Hw). cbn [fst].
  destruct (touch_sent_law rc net s3) as (net' & s4 & Ht & Hnet & Hl4 & Hs4).
  rewrite (bind_ok _ _ _ _ _ Ht).
  destruct (free_unless_interrupted_law 0 (enc_packet header buf) rc a s s2 s4 Ha)
    as (s5 & Hf & Ho); [congruence | congruence | |].
  { split.
    - intros Hrc. rewrite Hs4, (Hs3 Hrc). cbn. by rewrite app_nil_r.
    - exists ∅. split_and!; [apply disjoint_empty_l | | rewrite size_empty; by destruct (decide (rc = TCPSOCKET_INTERRUPTED))].
      by rewrite (left_id_L ∅ (∪)), Hl4. }
  rewrite (bind_ok _ _ _ _ _ Hf). exists rc, net', s5. done.
Qed.

Lemma MQTTPacket_sends_outcome net header bufs msk v s :
  (type header = PUBLISH → qos header ≠ 0 → ∃ b, bufs !! 2%nat = Some b ∧ (2 ≤ length (b_data b))%nat) →
  ∃ rc msk' net' s', MQTTPacket_sends net header bufs msk v s = Ok (rc, msk', net', s') ∧
    same_net net net' ∧ outcome 1 (enc_packet header (mjoin (b_data <$> bufs))) s rc s'.
Proof.
  intros Hty. unfold MQTTPacket_sends.
  destruct (new_block_law s) as [(s1 & Hn & Hl1 & Hs1) | (a & s1 & Hn & Ha & Hl1 & Hs1)];
    rewrite (bind_ok _ _ _ _ _ Hn).
  { exists SOCKET_ERROR, msk, net, s1. split; [done |]. split; [done |]. by apply outcome_error. }
  set (hdr := fixed_header header (Z.of_nat (length (mjoin (b_data <$> bufs))))).
  assert (∃ s2, (if decide (type header = PUBLISH ∧ qos header ≠ 0) then
           match bufs !! 2%nat with
           | None => fail OutOfBounds
           | Some b =>
             msgId ← msgid_of (b_data b);
             _ ← putPacket (socket net) hdr (b_data <$> bufs) (type header) msgId 0 v;
             mret tt
           end
         else mret tt) s1 = Ok (tt, s2) ∧ live_of s2 = live_of s1 ∧ sent s2 = sent s1)
    as (s2 & Hp & Hl2 & Hs2).
  { case_decide as Hd; [| by exists s1]. destruct Hd as [Hd1 Hd2].
    destruct (Hty Hd1 Hd2) as (b & -> & Hlen).
    destruct (persist_law True (socket net) hdr (b_data <$> bufs) (b_data b) (type header) 0 v s1
      (λ _, Hlen)) as (s2 & Hp & ? & ?). exists s2. rewrite decide_True in Hp by done. done. }
  rewrite (bind_ok _ _ _ _ _ Hp).
  destruct (putdatas_law (socket net) (mkBuffer (Some a) hdr true) bufs msk s2)
    as (rc & msk' & s3 & Hw & Hl3 & Hs3).
  rewrite (bind_ok _ _ _ _ _ Hw).
  destruct (touch_sent_law rc net s3) as (net' & s4 & Ht & Hnet & Hl4 & Hs4).
  rewrite (bind_ok _ _ _ _ _ Ht).
  destruct (free_unless_interrupted_law 0 (enc_packet header (mjoin (b_data <$> bufs))) rc a s s2 s4 Ha)
    as (s5 & Hf & Ho); [congruence | congruence | |].
  { split.
    - intros Hrc. by rewrite Hs4, (Hs3 Hrc).
    - exists ∅. split_and!; [apply disjoint_empty_l | | rewrite size_empty; by destruct (decide (rc = TCPSOCKET_INTERRUPTED))].
      by rewrite (left_id_L ∅ (∪)), Hl4. }
  rewrite (bind_ok _ _ _ _ _ Hf). exists rc, msk', net', s5. done.
Qed.

(** A packet whose body is written into one block. *)
Lemma send_block_outcome net header n w l v s :
  writes w l tt → n = Z.of_nat (length l) →
  (type header = PUBREL → (2 ≤ length l)%nat) →
  ∃ rc net' s', send_block net header n w v s = Ok (rc, net', s') ∧
    same_net net net' ∧ outcome 2 (enc_packet header l) s rc s'.
Proof.
  intros Hw Hn Hty. unfold send_block, alloc_block. rewrite decide_True by lia.
  destruct (new_block_law s) as [(s1 & Hnew & Hl1 & Hs1) | (a & s1 & Hnew & Ha & Hl1 & Hs1)];
    rewrite (bind_ok _ _ _ _ _ Hnew).
  { exists SOCKET_ERROR, net, s1. split; [done |]. split; [done |]. by apply outcome_error. }
  rewrite (bind_ok _ _ _ _ _ (fill_writes n w l s1 Hw Hn)).
  destruct (MQTTPacket_send_outcome net header (Some a) l true v s1 Hty)
    as (rc & net' & s2 & Hs & Hnet & Ho).
  rewrite (bind_ok _ _ _ _ _ Hs). cbn [fst].
  destruct (free_unless_interrupted_law 1 (enc_packet header l) rc a s s1 s2 Ha Hl1 Hs1 Ho)
    as (s3 & Hf & Ho').
  rewrite (bind_ok _ _ _ _ _ Hf). exists rc, net', s3. done.
Qed.
End Outcomes.

(** ** The bodies of the packets *)

(** The properties a pointer stands for; a null pointer is the empty list. *)
Definition props_opt (props : option MQTTProperties) (l : list MQTTProperty) : Prop :=
  match props with
  | None => l = []
  | Some p => props_repr p l ∧ fits l
  end.

Definition enc_props_if (v : Z) (l : list MQTTProperty) : list Z :=
  if decide (MQTTVERSION_5 ≤ v) then enc_properties l else [].

Lemma enc_properties_nil : enc_properties [] = [0].
Proof. reflexivity. Qed.

Lemma props_opt_len props l :
  props_opt props l → MQTTProperties_len props = Z.of_nat (length (enc_properties l)).
Proof.
  destruct props as [p |]; cbn; [intros [Hr Hf]; by apply MQTTProperties_len_repr |].
  by intros ->.
Qed.

Lemma writes_discard {A} (w : M writer A) l a :
  writes w l a → writes (_ ← w; mret tt) l tt.
Proof. intros Hw. rewrite <- (app_nil_r l). eapply writes_bind; [exact Hw | apply writes_ret]. Qed.

Lemma writes_seq (w w' : M writer unit) l l' :
  writes w l tt → writes w' l' tt → writes (_ ← w; w') (l ++ l') tt.
Proof. intros Hw Hw'. by eapply (writes_bind w (λ _, w')). Qed.

Lemma writes_props_opt props l :
  props_opt props l → writes (_ ← MQTTProperties_write props; mret tt) (enc_properties l) tt.
Proof.
  destruct props as [p |]; [intros [Hr _] | intros ->].
  - eapply writes_discard. by apply MQTTProperties_write_repr.
  - apply (writes_discard _ _ 1), (writes_then_ret (emit [0]) (λ _, 1) [0] tt), writes_emit.
Qed.

Lemma writes_properties_if v props l :
  props_opt props l → writes (write_properties_if v props) (enc_props_if v l) tt.
Proof.
  intros Hp. unfold write_properties_if, enc_props_if.
  case_decide; [by apply writes_props_opt | apply writes_ret].
Qed.

Lemma props_if_len v props l :
  props_opt props l →
  (if decide (MQTTVERSION_5 ≤ v) then MQTTProperties_len props else 0) =
  Z.of_nat (length (enc_props_if v l)).
Proof. intros Hp. unfold enc_props_if. case_decide; [by apply props_opt_len | done]. Qed.

(** *** Subscriptions *)
Definition option_bits (opts : option (list MQTTSubscribe_options)) (i : nat) (q : Z) : Z :=
  match opts ≫= (λ os, os !! i) with
  | None => q
  | Some o => Z.lor q (Z.lor (Z.shiftl (noLocal o) 2)
      (Z.lor (Z.shiftl (retainAsPublished o) 3) (Z.shiftl (retainHandling o) 4)))
  end.

Fixpoint enc_topics (topics : list (list Z)) (qoss : list Z)
    (opts : option (list MQTTSubscribe_options)) (i : nat) : list Z :=
  match topics, qoss with
  | t :: topics, q :: qoss =>
    len_string (cstr t) ++ [u8 (option_bits opts i q)] ++ enc_topics topics qoss opts (i + 1)
  | _, _ => []
  end.

Definition short (t : list Z) : Prop := Z.of_nat (strlen t) < 65536.

Lemma strlen_int_short t : short t → strlen_int t = Z.of_nat (strlen t).
Proof. intros Ht. unfold strlen_int. apply i32_small. unfold short in Ht. lia. Qed.

Lemma writes_topics topics qoss opts i :
  Forall short topics → length topics = length qoss →
  (∀ os, opts = Some os → (length topics + i ≤ length os)%nat) →
  writes (write_topics topics qoss opts i) (enc_topics topics qoss opts i) tt ∧
  Z.of_nat (length (enc_topics topics qoss opts i)) =
    Z.of_nat (length topics) * 3 + sum_strlen topics.
Proof.
  intros Hs. revert qoss i. induction Hs as [| t topics Ht Hs IH]; intros [| q qoss] i Hl Ho;
    try discriminate Hl; [split; [apply writes_ret | done] |].
  injection Hl as Hl. cbn [length] in *. cbn [write_topics enc_topics].
  unfold sum_strlen. cbn [foldr]. fold (sum_strlen topics).
  destruct (IH qoss (i + 1)%nat Hl) as [Hw Hlen].
  { intros os Hos. specialize (Ho os Hos). lia. }
  split.
  - apply writes_seq; [by apply writes_writeUTF |].
    assert ((match opts with
             | None => mret q
             | Some os => match os !! i with
                | None => fail OutOfBounds
                | Some o => mret (Z.lor q (Z.lor (Z.shiftl (noLocal o) 2)
                    (Z.lor (Z.shiftl (retainAsPublished o) 3) (Z.shiftl (retainHandling o) 4))))
                end
             end : M writer Z) = mret (option_bits opts i q)) as ->.
    { unfold option_bits. destruct opts as [os |]; [| done]. cbn.
      destruct (lookup_lt_is_Some_2 os i) as [o ->]; [specialize (Ho os eq_refl); lia | done]. }
    apply writes_ret_then. by apply writes_seq; [apply writes_writeChar |].
  - rewrite !length_app, length_len_string, length_cstr, (strlen_int_short t Ht). cbn [length]. lia.
Qed.

Definition enc_filters (topics : list (list Z)) : list Z := mjoin ((λ t, len_string (cstr t)) <$> topics).

Lemma writes_filters topics :
  Forall short topics →
  writes (write_filters topics) (enc_filters topics) tt ∧
  Z.of_nat (length (enc_filters topics)) = Z.of_nat (length topics) * 2 + sum_strlen topics.
Proof.
  induction 1 as [| t topics Ht Hs [Hw Hlen]]; [split; [apply writes_ret | done] |].
  change (enc_filters (t :: topics)) with (len_string (cstr t) ++ enc_filters topics).
  change (sum_strlen (t :: topics)) with (strlen_int t + sum_strlen topics).
  cbn [write_filters]. split; [by apply writes_seq; [apply writes_writeUTF |] |].
  rewrite (strlen_int_short t Ht), length_app, length_len_string, length_cstr. cbn [length]. lia.
Qed.

(** *** CONNECT *)
Definition enc_opt {A} (f : A → list Z) (o : option A) : list Z :=
  match o with None => [] | Some a => f a end.

(** The flags byte in the terms of the specification of MQTT: bit 1 is the clean
    start, bit 2 says there is a will, bits 3 and 4 are its QoS, bit 5 its retain
    flag, and bits 6 and 7 say there is a password and a user name. *)
Definition enc_flags (client : Clients) (v : Z) : Z :=
  2 * ((if decide (MQTTVERSION_5 ≤ v) then cleanstart client else cleansession client) `mod` 2) +
  match will client with
  | None => 0
  | Some w => 4 + 8 * (will_qos w `mod` 4) + 32 * (retained w `mod` 2)
  end +
  (if password client is Some _ then 64 else 0) + (if username client is Some _ then 128 else 0).

Lemma connect_flags_enc client v : u8 (connect_flags client v) = enc_flags client v.
Proof.
  assert (∀ b, Z.land b 1 = b `mod` 2) as H1.
  { intros b. change 1 with (Z.ones 1). by rewrite Z.land_ones by lia. }
  assert (∀ b, Z.land b 3 = b `mod` 4) as H3.
  { intros b. change 3 with (Z.ones 2). by rewrite Z.land_ones by lia. }
  assert (∀ b, b `mod` 2 = 0 ∨ b `mod` 2 = 1) as B2.
  { intros b. pose proof (Z.mod_pos_bound b 2 eq_refl). lia. }
  assert (∀ b, b `mod` 4 = 0 ∨ b `mod` 4 = 1 ∨ b `mod` 4 = 2 ∨ b `mod` 4 = 3) as B4.
  { intros b. pose proof (Z.mod_pos_bound b 4 eq_refl). lia. }
  unfold connect_flags, enc_flags. cbv zeta. rewrite H1.
  set (cs := if decide (MQTTVERSION_5 ≤ v) then _ else _).
  destruct (will client) as [w |]; rewrite ?H1, ?H3.
  - destruct (B2 cs) as [-> | ->], (B4 (will_qos w)) as [-> | [-> | [-> | ->]]],
      (B2 (retained w)) as [-> | ->]; by destruct (password client), (username client).
  - destruct (B2 cs) as [-> | ->]; by destruct (password client), (username client).
Qed.

Definition enc_connect (client : Clients) (v : Z) (lc lw : list MQTTProperty) : list Z :=
  (if decide (v = MQTTVERSION_3_1) then len_string str_MQIsdp else len_string str_MQTT) ++ [v] ++
  [enc_flags client v] ++
  len_prefix (keepAliveInterval client) ++
  enc_props_if v lc ++
  len_string (cstr (clientID client)) ++
  enc_opt (λ w, enc_props_if v lw ++ len_string (cstr (will_topic w)) ++
                len_string (take (Z.to_nat (will_payloadlen w)) (will_payload w))) (will client) ++
  enc_opt (λ u, len_string (cstr u)) (username client) ++
  enc_opt (λ p, len_string (take (Z.to_nat (passwordlen client)) p)) (password client).

(** What the caller of [MQTTPacket_send_connect] has to provide. *)
Definition data_ok (n : Z) (d : list Z) : Prop := 0 ≤ n < 65536 ∧ n ≤ Z.of_nat (length d).

Record connectable (client : Clients) (v : Z) : Prop := {
  ok_version : v ∈ [MQTTVERSION_3_1; MQTTVERSION_3_1_1; MQTTVERSION_5];
  ok_keepalive : 0 ≤ keepAliveInterval client < 65536;
  ok_clientID : short (clientID client);
  ok_will w : will client = Some w → short (will_topic w) ∧ data_ok (will_payloadlen w) (will_payload w);
  ok_username u : username client = Some u → short u;
  ok_password p : password client = Some p → data_ok (passwordlen client) p;
}.

Lemma writes_data_ok n d :
  data_ok n d → writes (writeData d n) (len_string (take (Z.to_nat n) d)) tt.
Proof.
  intros [Hn Hd]. unfold writeData, len_string.
  rewrite length_take, Nat.min_l, Z2Nat.id by lia.
  apply writes_seq; [apply writes_writeInt; lia |].
  rewrite decide_True by lia. apply writes_emit.
Qed.

Lemma length_data_ok n d :
  data_ok n d → Z.of_nat (length (len_string (take (Z.to_nat n) d))) = n + 2.
Proof. intros [Hn Hd]. rewrite length_len_string, length_take. lia. Qed.

Lemma writes_option {A} (o : option A) (f : A → M writer unit) (e : A → list Z) :
  (∀ a, o = Some a → writes (f a) (e a) tt) →
  writes (match o with None => mret tt | Some a => f a end) (enc_opt e o) tt.
Proof. intros Hf. destruct o as [a |]; [by apply Hf | apply writes_ret]. Qed.

Lemma length_short_string t : short t → Z.of_nat (length (len_string (cstr t))) = strlen_int t + 2.
Proof. intros Ht. rewrite length_len_string, length_cstr, strlen_int_short by done. lia. Qed.

(** The block of a CONNECT has the size computed for it. *)
Lemma length_enc_connect client v cp wp lc lw :
  connectable client v → props_opt cp lc → props_opt wp lw →
  Z.of_nat (length (enc_connect client v lc lw)) = connect_length client v cp wp.
Proof.
  intros Hc Hcp Hwp. unfold enc_connect, connect_length. rewrite !length_app, !Nat2Z.inj_add.
  rewrite (length_short_string _ (ok_clientID _ _ Hc)).
  assert (Z.of_nat (length (enc_opt (λ w, enc_props_if v lw ++ len_string (cstr (will_topic w)) ++
        len_string (take (Z.to_nat (will_payloadlen w)) (will_payload w))) (will client))) =
    match will client with None => 0 | Some w => strlen_int (will_topic w) + 2 + will_payloadlen w + 2 end
    + match will client with None => 0 | Some _ => Z.of_nat (length (enc_props_if v lw)) end) as ->.
  { destruct (will client) as [w |] eqn:Ew; [| done]. destruct (ok_will _ _ Hc w Ew) as [Ht Hp].
    cbn [enc_opt]. rewrite !length_app, !Nat2Z.inj_add, (length_short_string _ Ht), (length_data_ok _ _ Hp). lia. }
  assert (Z.of_nat (length (enc_opt (λ u, len_string (cstr u)) (username client))) =
    match username client with None => 0 | Some u => strlen_int u + 2 end) as ->.
  { destruct (username client) as [u |] eqn:Eu; [| done]. apply length_short_string.
    by apply (ok_username _ _ Hc). }
  assert (Z.of_nat (length (enc_opt (λ p, len_string (take (Z.to_nat (passwordlen client)) p)) (password client))) =
    match password client with None => 0 | Some _ => passwordlen client + 2 end) as ->.
  { destruct (password client) as [p |] eqn:Ep; [| done]. apply length_data_ok.
    by apply (ok_password _ _ Hc). }
  assert (Z.of_nat (length (if decide (v = MQTTVERSION_3_1) then len_string str_MQIsdp else len_string str_MQTT)) + 4
    = if decide (v = MQTTVERSION_3_1) then 12 else 10) as <- by by case_decide.
  unfold enc_props_if. cbn [length len_prefix].
  repeat case_decide; rewrite ?(props_opt_len _ _ Hcp), ?(props_opt_len _ _ Hwp);
    destruct (will client); cbn [length]; lia.
Qed.

Lemma writes_connect client v cp wp lc lw :
  connectable client v → props_opt cp lc → props_opt wp lw →
  writes (write_connect client v cp wp) (enc_connect client v lc lw) tt.
Proof.
  intros Hc Hcp Hwp. unfold write_connect, enc_connect. rewrite <- connect_flags_enc.
  assert (is_byte v) as Hv.
  { pose proof (ok_version _ _ Hc) as Hin. revert Hin. unfold is_byte.
    rewrite !elem_of_cons. by intros [-> | [-> | [-> | ?%elem_of_nil]]]. }
  rewrite (assoc_L (++)). apply writes_seq.
  { case_decide as Hd.
    - subst v. apply writes_seq; [by apply writes_writeUTF | apply writes_writeChar].
    - replace [v] with [u8 v] by (by rewrite u8_small).
      apply writes_seq; [by apply writes_writeUTF | apply writes_writeChar]. }
  apply writes_seq; [apply writes_writeChar |].
  apply writes_seq; [apply writes_writeInt, Hc |].
  apply writes_seq; [by apply writes_properties_if |].
  apply writes_seq; [apply writes_writeUTF, Hc |].
  apply writes_seq; [apply writes_option; intros w Hw |].
  { destruct (ok_will _ _ Hc w Hw) as [Ht Hp].
    apply writes_seq; [by apply writes_properties_if |].
    apply writes_seq; [by apply writes_writeUTF | by apply writes_data_ok]. }
  apply writes_seq; apply writes_option.
  - intros u Hu. apply writes_writeUTF. by apply (ok_username _ _ Hc).
  - intros p Hp. apply writes_data_ok. by apply (ok_password _ _ Hc).
Qed.

(** The header a sender builds. *)
Lemma header_of_small ty dp q rt :
  0 ≤ ty < 16 → 0 ≤ dp < 2 → 0 ≤ q < 4 → 0 ≤ rt < 2 → header_of ty dp q rt = mkHeader ty dp q rt.
Proof.
  intros Ht Hd Hq Hr. unfold header_of.
  change 15 with (Z.ones 4). change 1 with (Z.ones 1). change 3 with (Z.ones 2).
  rewrite !Z.land_ones by lia. by rewrite !Z.mod_small by lia.
Qed.

Lemma header_of_valid ty dp q rt : valid_header (header_of ty dp q rt).
Proof.
  unfold valid_header, header_of. cbn [type dup qos retain].
  change 15 with (Z.ones 4). change 1 with (Z.ones 1). change 3 with (Z.ones 2).
  rewrite !Z.land_ones by lia. split_and!; try apply Z.mod_pos_bound; lia.
Qed.

(** *** PUBLISH *)
Definition enc_publish (topic : list Z) (q v msgId : Z) (l : list MQTTProperty)
    (payload : list Z) : list Z :=
  len_string topic ++ (if decide (0 < q) then len_prefix msgId else []) ++
  enc_props_if v l ++ payload.

(** A publish structure whose fields are what the sender needs. *)
Record publishable (pack : Publish) (topic_ payload_ : list Z) (q : Z) (l : list MQTTProperty)
  : Prop := {
  pub_topic : ∃ block, topic pack = Some block ∧ cstr block = topic_;
  pub_topic_short : Z.of_nat (length topic_) < 65536;
  pub_payload : ∃ block, payload pack = Some block ∧
    0 ≤ payloadlen pack ≤ Z.of_nat (length block) ∧
    payload_ = take (Z.to_nat (payloadlen pack)) block;
  pub_id : 0 ≤ pub_msgId pack < 65536;
  pub_qos : 0 ≤ q ≤ 2;
  pub_props : MQTTVERSION_5 ≤ pub_MQTTVersion pack → props_opt (Some (pub_properties pack)) l;
}.

(** The message id and the properties of a PUBLISH, in one block. *)
Lemma writes_publish_header pack t pl q l :
  publishable pack t pl q l →
  writes (_ ← (if decide (0 < q) then writeInt (pub_msgId pack) else mret tt);
          if decide (5 ≤ pub_MQTTVersion pack)
          then _ ← MQTTProperties_write (Some (pub_properties pack)); mret tt else mret tt)
    ((if decide (0 < q) then len_prefix (pub_msgId pack) else []) ++
     enc_props_if (pub_MQTTVersion pack) l) tt ∧
  (if decide (0 < q) then 2 else 0) +
    (if decide (5 ≤ pub_MQTTVersion pack) then MQTTProperties_len (Some (pub_properties pack)) else 0)
  = Z.of_nat (length ((if decide (0 < q) then len_prefix (pub_msgId pack) else []) ++
     enc_props_if (pub_MQTTVersion pack) l)).
Proof.
  intros Hp. split.
  - apply writes_seq.
    + case_decide; [apply writes_writeInt, Hp | apply writes_ret].
    + unfold enc_props_if. change 5 with MQTTVERSION_5.
      case_decide as Hv; [| apply writes_ret].
      by apply writes_props_opt, (pub_props _ _ _ _ _ Hp).
  - rewrite length_app, Nat2Z.inj_add. unfold enc_props_if. change 5 with MQTTVERSION_5.
    destruct (decide (MQTTVERSION_5 ≤ pub_MQTTVersion pack)) as [Hv |].
    + rewrite (props_opt_len _ _ (pub_props _ _ _ _ _ Hp Hv)).
      by destruct (decide (0 < q)).
    + by destruct (decide (0 < q)).
Qed.

Section Publish.
Context {T : Type} `{TransportLaws T}.

Lemma MQTTPacket_send_publish_outcome pack t pl dp q rt l net s :
  publishable pack t pl q l →
  ∃ rc msk net' s', MQTTPacket_send_publish pack dp q rt net s = Ok (rc, msk, net', s') ∧
    same_net net net' ∧
    outcome (if decide (0 < q ∨ 5 ≤ pub_MQTTVersion pack) then 3 else 2)
      (enc_packet (header_of PUBLISH dp q rt)
         (enc_publish t q (pub_MQTTVersion pack) (pub_msgId pack) l pl)) s rc s'.
Proof.
  intros Hp. destruct (pub_topic _ _ _ _ _ Hp) as (blk & Htopic & <-).
  destruct (pub_payload _ _ _ _ _ Hp) as (pblk & Hpay & Hplen & ->).
  unfold MQTTPacket_send_publish.
  destruct (new_block_law s) as [(s1 & Hn & Hl1 & Hs1) | (a & s1 & Hn & Ha & Hl1 & Hs1)];
    rewrite (bind_ok _ _ _ _ _ Hn).
  { exists SOCKET_ERROR, (mask pack), net, s1. split; [done |]. split; [done |]. by apply outcome_error. }
  rewrite Htopic. cbn [deref]. rewrite ret_bind.
  pose proof (pub_topic_short _ _ _ _ _ Hp) as Hshort.
  rewrite (i32_small (Z.of_nat (length (cstr blk)))) by lia.
  set (tl := len_prefix (Z.of_nat (length (cstr blk)))).
  assert (∀ s0 : T, fill 2 (writeInt (Z.of_nat (length (cstr blk)))) s0 = Ok (tl, s0)) as Htl.
  { intros s0. apply fill_writes; [apply writes_writeInt; lia | done]. }
  assert (∀ s0 : T, slice (payloadlen pack) (payload pack) s0 =
    Ok (take (Z.to_nat (payloadlen pack)) pblk, s0)) as Hslice.
  { intros s0. rewrite Hpay. by apply slice_run. }
  set (pl := take (Z.to_nat (payloadlen pack)) pblk) in *.
  destruct (writes_publish_header _ _ _ _ _ Hp) as [Hw Hlen].
  assert (∀ hd : list Z, tl ++ cstr blk ++ hd ++ pl = (len_string (cstr blk)) ++ hd ++ pl) as Hassoc.
  { intros hd. unfold len_string, tl. by rewrite <- !(assoc_L (++)). }
  destruct (decide (0 < q ∨ 5 ≤ pub_MQTTVersion pack)) as [Hd | Hd].
  - unfold alloc_block. rewrite Hlen, (decide_True (P := 0 ≤ Z.of_nat _)) by lia.
    destruct (new_block_law s1) as [(s2 & Hn2 & Hl2 & Hs2) | (b & s2 & Hn2 & Hb & Hl2 & Hs2)].
    { rewrite (bind_ok_eq _ _ _ _ _ _ (bind_ok_eq _ _ _ _ _ _ Hn2 eq_refl) eq_refl).
      destruct (free_unless_interrupted_law 2 (enc_packet (header_of PUBLISH dp q rt)
         (enc_publish (cstr blk) q (pub_MQTTVersion pack) (pub_msgId pack) l pl))
         SOCKET_ERROR a s s1 s2 Ha Hl1 Hs1 (outcome_error _ _ _ _ Hl2)) as (s3 & Hf & Ho).
      rewrite (bind_ok _ _ _ _ _ Hf). by exists SOCKET_ERROR, (mask pack), net, s3. }
    set (hd := (if decide (0 < q) then len_prefix (pub_msgId pack) else []) ++
      enc_props_if (pub_MQTTVersion pack) l) in *.
    destruct (MQTTPacket_sends_outcome net (header_of PUBLISH dp q rt)
      [mkBuffer (Some a) tl true; mkBuffer None (cstr blk) false;
       mkBuffer (Some b) hd true; mkBuffer None pl false] (mask pack) (pub_MQTTVersion pack) s2)
      as (rc & msk & net' & s3 & Hsend & Hnet & Ho).
    { intros _ Hq. exists (mkBuffer (Some b) hd true). split; [done |]. cbn.
      destruct (decide (0 < q)) as [Hq0 | Hq0]; [cbn; lia |].
      exfalso. apply Hq. replace q with 0; [done |]. pose proof (pub_qos _ _ _ _ _ Hp). lia. }
    destruct (free_unless_interrupted_law _ _ rc b s1 s2 s3 Hb Hl2 Hs2 Ho) as (s4 & Hf4 & Ho4).
    destruct (free_unless_interrupted_law _ _ rc a s s1 s4 Ha Hl1 Hs1 Ho4) as (s5 & Hf5 & Ho5).
    exists rc, msk, net', s5. split; [| split; [done |]].
    + eapply bind_ok_eq.
      * rewrite (bind_ok _ _ _ _ _ Hn2).
        rewrite (bind_ok _ _ _ _ _ (fill_writes _ _ _ s2 Hw eq_refl)).
        rewrite (bind_ok _ _ _ _ _ (Htl s2)), (bind_ok _ _ _ _ _ (Hslice s2)).
        rewrite (bind_ok _ _ _ _ _ Hsend). exact (bind_ok _ _ _ _ _ Hf4).
      * exact (bind_ok _ _ _ _ _ Hf5).
    + cbn [fmap list_fmap b_data mjoin list_join] in Ho5. rewrite app_nil_r, Hassoc in Ho5.
      unfold hd in Ho5. unfold enc_publish. by rewrite <- (assoc_L (++)) in Ho5.
  - destruct (MQTTPacket_sends_outcome net (header_of PUBLISH dp q rt)
      [mkBuffer (Some a) tl true; mkBuffer None (cstr blk) false; mkBuffer None pl false]
      (mask pack) (pub_MQTTVersion pack) s1) as (rc & msk & net' & s3 & Hsend & Hnet & Ho).
    { intros _ Hq. exfalso. apply Hq. replace q with 0; [done |].
      pose proof (pub_qos _ _ _ _ _ Hp). lia. }
    destruct (free_unless_interrupted_law _ _ rc a s s1 s3 Ha Hl1 Hs1 Ho) as (s4 & Hf4 & Ho4).
    exists rc, msk, net', s4. split; [| split; [done |]].
    + eapply bind_ok_eq.
      * rewrite (bind_ok _ _ _ _ _ (Htl s1)), (bind_ok _ _ _ _ _ (Hslice s1)). exact Hsend.
      * exact (bind_ok _ _ _ _ _ Hf4).
    + cbn [fmap list_fmap b_data mjoin list_join] in Ho4. rewrite app_nil_r in Ho4.
      unfold enc_publish, enc_props_if. rewrite decide_False, decide_False by
        (unfold MQTTVERSION_5; lia). 
      change (tl ++ cstr blk ++ pl) with (tl ++ cstr blk ++ [] ++ pl) in Ho4.
      by rewrite Hassoc in Ho4.
Qed.
End Publish.
