(* ===== verification/Receive.v ===== *)
(** * Reading a packet from the network (src/src/MQTTPacket.c)

    [MQTTPacket_decode] and [MQTTPacket_Factory], against an interface of the
    network's reading side. *)
From S2P Require Import Prelude Buffers LinkedList Properties PacketIn Clients PacketOut.
Local Open Scope Z_scope.

(** ** The reading side of the network *)
Class Receiver (T : Type) := {
  framePos : M T Z;                       (* [WebSocket_framePos] *)
  getch : M T (Z * Z);                    (* [WebSocket_getch]: code and byte *)
  getdata : Z → M T (option (list Z) * Z);  (* [WebSocket_getdata]: data, actual length *)
  framePosSeekTo : Z → M T unit;          (* [WebSocket_framePosSeekTo] *)
}.

Section Receive.
Context {T : Type} `{HasHeap T, HasBlocks T, Transport T, Receiver T}.

(** The loop of [MQTTPacket_decode]: the completion code and [*value]. *)
Fixpoint decode_loop (fuel : nat) (len multiplier value : Z) : M T (Z * Z) :=
  match fuel with
  | O => fail Diverge
  | S fuel =>
    let len := len + 1 in
    if decide (MAX_NO_OF_REMAINING_LENGTH_BYTES < len) then mret (SOCKET_ERROR, value) else
    rc_c ← getch;
    let '(rc, c) := rc_c : Z * Z in
    if decide (rc ≠ TCPSOCKET_COMPLETE) then mret (rc, value) else
    let value := u64 (value + Z.land c 127 * multiplier) in
    if decide (Z.land c 128 ≠ 0) then decode_loop fuel len (multiplier * 128) value
    else mret (rc, value)
  end.

Definition MQTTPacket_decode : M T (Z * Z) := decode_loop 5 0 1 0.

(** A call of a parser on the data of the packet. *)
Definition run_parser {A} (parse : M reader A) (data : list Z) : M T A := λ s,
  match parse (Reader data 0 (heap_of s)) with
  | Ok (a, r) => Ok (a, set_heap (r_heap r) s)
  | Err f => Err f
  end.

(** [net->lastReceived = MQTTTime_now()] *)
Definition touch_received (net : networkHandles) : M T networkHandles :=
  t ← now; mret (mkNet (socket net) (lastSent net) t (lastPing net)).

(** The part of [MQTTPacket_Factory] after the data was read: the packet, the
    error code, and whether control went to [exit] before the second update of
    [lastReceived]. *)
Definition factory_parse (MQTTVersion : Z) (net : networkHandles) (byte remaining_length : Z)
    (data : list Z) (error : Z) : M T (option Packet * Z * bool) :=
  let header := header_of_byte byte in
  let ptype := type header in
  if decide (ptype < CONNECT ∨ (MQTTVersion < MQTTVERSION_5 ∧ DISCONNECT ≤ ptype) ∨
             (MQTTVERSION_5 ≤ MQTTVersion ∧ AUTH < ptype))
  then mret (None, error, false) else
  match new_packets MQTTVersion byte (Z.to_nat remaining_length) ptype with
  | None => mret (None, error, false)
  | Some parse =>
    pack ← run_parser parse data;
    match pack : option Packet with
    | None => mret (None, SOCKET_ERROR, false)
    | Some pack =>
      match pack with
      | PacketPublish p =>
        if decide (qos header = 2) then
          buf ← new_block;
          match buf : ptr with
          | None => mret (Some pack, SOCKET_ERROR, true)
          | Some _ =>
            data ← slice remaining_length (Some data);
            error ← putPacket (socket net) (byte :: MQTTPacket_encode remaining_length) [data]
                      (type header) (pub_msgId p) 1 MQTTVersion;
            _ ← free_block buf;
            mret (Some pack, error, false)
          end
        else mret (Some pack, error, false)
      | _ => mret (Some pack, error, false)
      end
    end
  end.

Definition factory_body (MQTTVersion : Z) (net : networkHandles)
  : M T (option Packet * Z * networkHandles) :=
  rc_byte ← getch;
  let '(error, byte) := rc_byte : Z * Z in
  if decide (error ≠ TCPSOCKET_COMPLETE) then mret (None, error, net) else
  rc_len ← MQTTPacket_decode;
  let '(error, remaining_length) := rc_len : Z * Z in
  if decide (error ≠ TCPSOCKET_COMPLETE) then mret (None, error, net) else
  data_len ← getdata remaining_length;
  let '(data, actual_len) := data_len : option (list Z) * Z in
  if decide (remaining_length ≠ 0 ∧ data = None) then mret (None, SOCKET_ERROR, net) else
  if decide (actual_len < remaining_length) then
    net ← touch_received net;
    mret (None, TCPSOCKET_INTERRUPTED, net)
  else
    r ← factory_parse MQTTVersion net byte remaining_length (default [] data) error;
    let '(pack, error, exit) := r : option Packet * Z * bool in
    net ← (match pack with
           | Some _ => if exit : bool then mret net else touch_received net
           | None => mret net
           end);
    mret (pack, error, net).

Definition MQTTPacket_Factory (MQTTVersion : Z) (net : networkHandles)
  : M T (option Packet * Z * networkHandles) :=
  headerWsFramePos ← framePos;
  r ← factory_body MQTTVersion net;
  let '(pack, error, net) := r : option Packet * Z * networkHandles in
  _ ← (if decide (error = TCPSOCKET_INTERRUPTED) then framePosSeekTo headerWsFramePos
       else mret tt);
  mret (pack, error, net).
End Receive.

(** ** What the reading side promises *)
Class ReceiverLaws (T : Type) `{HasHeap T, HasBlocks T, Transport T, Receiver T} := {
  incoming : T → list Z;
  framePos_law s : ∃ n s', framePos s = Ok (n, s') ∧ incoming s' = incoming s ∧ heap_of s' = heap_of s;
  getch_law c rest s : incoming s = c :: rest →
    ∃ s', getch s = Ok (TCPSOCKET_COMPLETE, c, s') ∧ incoming s' = rest ∧ heap_of s' = heap_of s;
  getdata_law n s : 0 ≤ n ≤ Z.of_nat (length (incoming s)) →
    ∃ d s', getdata n s = Ok (d, n, s') ∧ default [] d = take (Z.to_nat n) (incoming s) ∧
      (n ≠ 0 → d ≠ None) ∧ incoming s' = drop (Z.to_nat n) (incoming s) ∧ heap_of s' = heap_of s;
  set_heap_incoming h s : incoming (set_heap h s) = incoming s;
  set_heap_heap h s : heap_of (set_heap h s) = h;
  set_live_incoming l s : incoming (set_live l s) = incoming s;
  set_live_heap l s : heap_of (set_live l s) = heap_of s;
  set_live_live l s : live_of (set_live l s) = l;
  now_incoming s : ∃ t s', now s = Ok (t, s') ∧ incoming s' = incoming s;
  putPacket_incoming sock hdr bufs ty id scr v s : ∃ rc s',
    putPacket sock hdr bufs ty id scr v s = Ok (rc, s') ∧ live_of s' = live_of s ∧
    incoming s' = incoming s ∧ rc = TCPSOCKET_COMPLETE;
}.

(** ** Parsing a PUBLISH *)
Lemma parse_publish v byte t q id l pl :
  qos (header_of_byte byte) = q →
  Z.of_nat (length t) < 65536 → 0 ≤ id < 65536 → 0 ≤ q →
  Z.of_nat (length (enc_publish t q v id l pl)) < 268435456 →
  (MQTTVERSION_5 ≤ v → Forall valid_property l ∧ fits l) →
  ∃ props, (MQTTVERSION_5 ≤ v → props_repr props l) ∧
    MQTTPacket_publish v byte (length (enc_publish t q v id l pl))
      (Reader (enc_publish t q v id l pl) 0%nat []) =
    Ok (Some (mkPublish (header_of_byte byte) (Some t) (Z.of_nat (length t))
                (if decide (0 < q) then id else 0) (Some pl) (Z.of_nat (length pl)) v props
                [0; 0; 0; 0]),
        Reader (enc_publish t q v id l pl) (length (enc_publish t q v id l pl) - length pl) []).
Proof.
  intros Hq Ht Hid Hq0 Hlen Hl. set (body := enc_publish t q v id l pl) in *.
  set (idb := if decide (0 < q) then len_prefix id else []).
  assert (body = len_string t ++ idb ++ enc_props_if v l ++ pl) as Hbody by done.
  set (k1 := length (len_string t)). set (k2 := (k1 + length idb)%nat).
  set (k3 := (k2 + length (enc_props_if v l))%nat).
  assert (length body = k3 + length pl)%nat as Hk
    by (rewrite Hbody, !length_app; unfold k3, k2, k1; lia).
  assert (length body = k1 + length idb + length (enc_props_if v l) + length pl)%nat as Hk'
    by (rewrite Hk; unfold k3, k2; lia).
  assert (drop k1 body = idb ++ enc_props_if v l ++ pl) as Hd1
    by (rewrite Hbody; unfold k1; by rewrite drop_app_length).
  assert (drop k2 body = enc_props_if v l ++ pl) as Hd2.
  { unfold k2. rewrite <- drop_drop, Hd1. by rewrite drop_app_length. }
  assert (drop k3 body = pl) as Hd3.
  { unfold k3. rewrite <- drop_drop, Hd2. by rewrite drop_app_length. }
  pose proof (parses_readUTFlen t body 0%nat (length body) (idb ++ enc_props_if v l ++ pl) Hbody
    ltac:(fold k1; lia)) as Hutf. fold k1 in Hutf. cbn [Nat.add] in Hutf.
  assert (∃ props, (MQTTVERSION_5 ≤ v → props_repr props l) ∧
    (if decide (MQTTVERSION_5 ≤ v) then packet_properties (length body)
     else mret (Some MQTTProperties_initializer) : M reader (option MQTTProperties))
      (Reader body k2 []) = Ok (Some props, Reader body k3 [])) as (props & Hprops & Hpr).
  { unfold enc_props_if in *. destruct (decide (MQTTVERSION_5 ≤ v)) as [Hv |].
    - destruct (Hl Hv) as [Hval Hfit].
      destruct (parses_MQTTProperties_read l Hval Hfit) as (p & Hp & Hparse).
      exists p. split; [done |]. unfold packet_properties.
      pose proof (Hparse body k2 (length body) pl Hd2 ltac:(unfold k3 in Hk; lia)) as Hrun.
      fold k3 in Hrun. by rewrite (bind_ok _ _ _ _ _ Hrun).
    - exists MQTTProperties_initializer. split; [done |]. unfold k3. cbn.
      by rewrite Nat.add_0_r. }
  exists props. split; [done |]. unfold MQTTPacket_publish. rewrite gets_bind. cbn [r_pos Nat.add].
  rewrite (bind_ok _ _ _ _ _ (reader_malloc body 0%nat)). cbv iota beta delta [negb].
  rewrite (bind_ok _ _ _ _ _ Hutf). rewrite gets_bind. cbn [r_pos]. rewrite Hq.
  assert ((if decide (0 < q) then if decide (length body - k1 < 2)%nat then mret None
           else n ← readInt; mret (Some n) else mret (Some 0) : M reader (option Z))
    (Reader body k1 []) = Ok (Some (if decide (0 < q) then id else 0), Reader body k2 [])) as Hidr.
  { clear Hutf Hpr. unfold k2. unfold idb in *. destruct (decide (0 < q)).
    - change (length (len_prefix id)) with 2%nat in *. rewrite decide_False by lia.
      pose proof (parses_len_prefix id body k1 (length body) _ Hd1
        ltac:(change (length (len_prefix id)) with 2%nat; lia)) as Hr.
      by rewrite (bind_ok _ _ _ _ _ Hr).
    - cbn. by rewrite Nat.add_0_r. }
  rewrite (bind_ok _ _ _ _ _ Hidr), (bind_ok _ _ _ _ _ Hpr).
  rewrite !gets_bind. cbn [r_pos r_mem]. rewrite Hd3.
  replace (i32 (Z.of_nat (length body) - (Z.of_nat k3 - Z.of_nat 0%nat))) with (Z.of_nat (length pl)).
  2: { rewrite i32_small; lia. }
  by replace (length body - length pl)%nat with k3 by lia.
Qed.

(** Two bytes parsed as an acknowledgement. *)
Lemma parse_ack v byte id :
  type (header_of_byte byte) ≠ DISCONNECT →
  MQTTPacket_ack v byte 2 (Reader (len_prefix id) 0 []) =
  Ok (Some (mkAck (header_of_byte byte) (Some id)
              (if decide (MQTTVERSION_5 ≤ v) then Some 0 else None) v
              (if decide (MQTTVERSION_5 ≤ v) then Some MQTTProperties_initializer else None)),
      Reader (len_prefix id) 2 []).
Proof.
  intros Hty. unfold MQTTPacket_ack. rewrite gets_bind.
  rewrite (bind_ok _ _ _ _ _ (reader_malloc _ _)). cbv iota beta delta [negb].
  cbn [r_pos Nat.add Nat.sub].
  assert (readInt (Reader (len_prefix id) 0 []) = Ok (id, Reader (len_prefix id) 2 [])) as Hi
    by (apply (parses_len_prefix id _ 0%nat 2%nat []); cbn; done || lia).
  assert ((if decide (type (header_of_byte byte) ≠ DISCONNECT) then
             if decide (2 < 2)%nat then mret None else n ← readInt; mret (Some (Some n))
           else mret (Some None) : M reader (option (option Z))) (Reader (len_prefix id) 0 [])
    = Ok (Some (Some id), Reader (len_prefix id) 2 [])) as Hid.
  { rewrite decide_True, decide_False by (done || lia). by rewrite (bind_ok _ _ _ _ _ Hi). }
  rewrite (bind_ok _ _ _ _ _ Hid). destruct (decide (MQTTVERSION_5 ≤ v)); [| done].
  rewrite decide_False by (intros [|[? ?]]; [lia | done]).
  rewrite decide_False by (intros [|[? ?]]; [lia | done]). done.
Qed.

Section Laws.
Context {T : Type} `{RL : ReceiverLaws T}.

(** Remaining lengths: the digits of the encoder are read back. *)
Lemma decode_loop_encode k n fuel len multiplier value s rest :
  0 ≤ n < 128 ^ (Z.of_nat k + 1) → 0 ≤ value → 0 ≤ multiplier →
  value + n * multiplier < 2 ^ 64 →
  len + Z.of_nat (length (encode_loop k n)) ≤ MAX_NO_OF_REMAINING_LENGTH_BYTES →
  (length (encode_loop k n) ≤ fuel)%nat → incoming s = encode_loop k n ++ rest →
  ∃ s', decode_loop fuel len multiplier value s = Ok (TCPSOCKET_COMPLETE, value + n * multiplier, s') ∧
    incoming s' = rest ∧ heap_of s' = heap_of s.
Proof.
  revert n fuel len multiplier value s.
  induction k as [| k IH]; intros n fuel len multiplier value s Hn Hv Hm Hb Hl Hf Hin.
  - cbn [encode_loop length app] in *. destruct fuel as [| fuel]; [lia |]. cbn [decode_loop].
    rewrite decide_False by lia. rewrite Z.mod_small in Hin by lia.
    destruct (getch_law n rest s Hin) as (s' & Hg & Hi & Hh). rewrite (bind_ok _ _ _ _ _ Hg).
    destruct (digit_facts n ltac:(lia)) as (_ & _ & _ & H127 & H128).
    exists s'. rewrite decide_False by tauto. rewrite H127, H128, decide_False by tauto.
    unfold u64. by rewrite Z.mod_small by nia.
  - rewrite encode_loop_S in * by lia. destruct fuel as [| fuel]; [case_decide; cbn in Hf; lia |].
    cbn [decode_loop]. rewrite (decide_False (P := MAX_NO_OF_REMAINING_LENGTH_BYTES < len + 1))
      by (case_decide; cbn [length] in Hl; lia).
    case_decide as Hc; cbn [length app] in *.
    + destruct (getch_law n rest s Hin) as (s' & Hg & Hi & Hh). rewrite (bind_ok _ _ _ _ _ Hg).
      destruct (digit_facts n ltac:(lia)) as (_ & _ & _ & H127 & H128).
      exists s'. rewrite decide_False by tauto. rewrite H127, H128, decide_False by tauto.
      unfold u64. by rewrite Z.mod_small by nia.
    + destruct (getch_law _ _ s Hin) as (s1 & Hg & Hi & Hh). rewrite (bind_ok _ _ _ _ _ Hg).
      pose proof (Z_div_mod_eq_full n 128) as Hdm.
      pose proof (Z.mod_pos_bound n 128 ltac:(lia)) as Hmod.
      destruct (digit_facts (n `mod` 128) Hmod) as (_ & H127 & H128 & _).
      rewrite decide_False by tauto. rewrite H127, H128, decide_True by done.
      unfold u64. rewrite Z.mod_small by nia.
      assert (0 ≤ n / 128 < 128 ^ (Z.of_nat k + 1)) as Hq.
      { split; [apply Z.div_pos; lia |]. apply Z.div_lt_upper_bound; [lia |].
        rewrite <- Z.pow_succ_r by lia.
        replace (Z.succ (Z.of_nat k + 1)) with (Z.of_nat (S k) + 1) by lia. apply Hn. }
      destruct (IH (n / 128) fuel (len + 1) (multiplier * 128) (value + n `mod` 128 * multiplier) s1)
        as (s' & Hr & Hi' & Hh'); try done; try lia; try nia.
      exists s'. split; [| split; [done | congruence]]. rewrite Hr. do 3 f_equal. nia.
Qed.

Lemma decode_encode n s rest :
  0 ≤ n < 268435456 → incoming s = MQTTPacket_encode n ++ rest →
  ∃ s', MQTTPacket_decode s = Ok (TCPSOCKET_COMPLETE, n, s') ∧
    incoming s' = rest ∧ heap_of s' = heap_of s.
Proof.
  intros Hn Hin. pose proof (encode_length_VBIlen n Hn) as Hlen.
  assert (MQTTPacket_VBIlen n ≤ 4) by (unfold MQTTPacket_VBIlen; repeat case_decide; lia).
  rewrite encode_small in Hin, Hlen by lia.
  destruct (decode_loop_encode 9 n 5 0 1 0 s rest) as (s' & Hr & Hi & Hh);
    try done; try lia; try (unfold MAX_NO_OF_REMAINING_LENGTH_BYTES; lia).
  exists s'. unfold MQTTPacket_decode. by rewrite Hr, Z.mul_1_r.
Qed.

(** What was read: the packet's type byte, its length and its body. *)
Lemma factory_read v net byte body rest s :
  incoming s = byte :: MQTTPacket_encode (Z.of_nat (length body)) ++ body ++ rest →
  Z.of_nat (length body) < 268435456 →
  ∃ s', incoming s' = rest ∧ heap_of s' = heap_of s ∧
    factory_body v net s =
    (r ← factory_parse v net byte (Z.of_nat (length body)) body TCPSOCKET_COMPLETE;
     let '(pack, error, exit) := r : option Packet * Z * bool in
     net ← (match pack with
            | Some _ => if exit : bool then mret net else touch_received net
            | None => mret net
            end);
     mret (pack, error, net)) s'.
Proof.
  intros Hin Hlen. destruct (getch_law _ _ s Hin) as (s1 & Hg & Hi1 & Hh1).
  destruct (decode_encode (Z.of_nat (length body)) s1 _ ltac:(lia) Hi1) as (s2 & Hd & Hi2 & Hh2).
  destruct (getdata_law (Z.of_nat (length body)) s2) as (d & s3 & Hdata & Hdd & Hne & Hi3 & Hh3).
  { rewrite Hi2, length_app. lia. }
  exists s3. split; [| split; [congruence |]].
  { by rewrite Hi3, Hi2, Nat2Z.id, drop_app_length. }
  unfold factory_body. rewrite (bind_ok _ _ _ _ _ Hg), decide_False by tauto.
  rewrite (bind_ok _ _ _ _ _ Hd), decide_False by tauto.
  rewrite (bind_ok _ _ _ _ _ Hdata), decide_False by tauto.
  rewrite decide_False by lia. rewrite Hdd, Hi2, Nat2Z.id, take_app_length. done.
Qed.
End Laws.

Section EndToEnd.
Context {T : Type} `{RL : ReceiverLaws T}.

Lemma new_block_nofail (s : T) :
  heap_of s = [] → new_block s = Ok (Some (fresh (live_of s)), set_live ({[fresh (live_of s)]} ∪ live_of s) s).
Proof.
  intros Hh. unfold new_block. by rewrite (bind_ok _ _ _ _ _ (malloc_succeeds s Hh)).
Qed.

(** A PUBLISH that parses is handed out; at QoS 2 it is persisted first. *)
Lemma factory_parse_publish v net byte (body : list Z) p r (s : T) :
  type (header_of_byte byte) = PUBLISH →
  heap_of s = [] →
  MQTTPacket_publish v byte (length body) (Reader body 0 []) = Ok (Some p, r) → r_heap r = [] →
  ∃ s', factory_parse v net byte (Z.of_nat (length body)) body TCPSOCKET_COMPLETE s =
    Ok (Some (PacketPublish p), TCPSOCKET_COMPLETE, false, s') ∧ incoming s' = incoming s.
Proof.
  intros Hty Hh Hp Hr. unfold factory_parse. rewrite Hty.
  rewrite (decide_False (P := _ ∨ _)) by (unfold PUBLISH, CONNECT, DISCONNECT, AUTH; lia).
  rewrite Nat2Z.id. cbn [new_packets decide].
  change (new_packets v byte (length body) PUBLISH) with
    (Some (r ← MQTTPacket_publish v byte (length body); mret (PacketPublish <$> (r : option Publish)))).
  assert (run_parser (r ← MQTTPacket_publish v byte (length body);
      mret (PacketPublish <$> (r : option Publish))) body s
    = Ok (Some (PacketPublish p), set_heap [] s)) as Hrun.
  { unfold run_parser. rewrite Hh. by rewrite (bind_ok _ _ _ _ _ Hp), ret_run, Hr. }
  cbv iota. rewrite (bind_ok _ _ _ _ _ Hrun).
  destruct (decide (qos (header_of_byte byte) = 2)).
  - rewrite (bind_ok _ _ _ _ _ (new_block_nofail (set_heap [] s) (set_heap_heap [] s))).
    set (a := fresh (live_of (set_heap [] s))).
    set (s1 := set_live ({[a]} ∪ live_of (set_heap [] s)) (set_heap [] s)).
    rewrite (bind_ok _ _ _ _ _ (slice_run (Z.of_nat (length body)) body s1 ltac:(lia))).
    destruct (putPacket_incoming (socket net) (byte :: MQTTPacket_encode (Z.of_nat (length body)))
      [take (Z.to_nat (Z.of_nat (length body))) body] PUBLISH (pub_msgId p) 1 v s1)
      as (rc & s2 & Hput & Hl & Hi & ->).
    rewrite (bind_ok _ _ _ _ _ Hput). unfold free_block. rewrite ?(bind_ok _ _ _ _ _ eq_refl).
    assert (a ∈ live_of s2) as Ha.
    { rewrite Hl. unfold s1. rewrite set_live_live. set_solver. }
    eexists. split.
    + unfold mbind, M_bind. by rewrite decide_True by done.
    + rewrite set_live_incoming, Hi. unfold s1. by rewrite set_live_incoming, set_heap_incoming.
  - eexists. split; [done |]. apply set_heap_incoming.
Qed.
End EndToEnd.
