(* ===== verification/Wire.v ===== *)
(** * Properties of the packets on the network

    A network in memory that satisfies the interfaces of [Clients] and
    [Receive], and the properties of the senders of [PacketOut] and of
    [MQTTPacket_Factory] in [Receive], each with an instance on that network. *)
From S2P Require Import Prelude Buffers LinkedList Properties PacketIn Clients PacketOut Receive.
Local Open Scope Z_scope.

(** ** A network in memory

    What is written goes to [wi_out], what is read comes from [wi_in]; nothing
    fails.  It satisfies the interfaces of both directions. *)
Record wire := mkWire {
  wi_heap : list bool;
  wi_live : gset positive;
  wi_out : list Z;
  wi_in : list Z;
  wi_clock : Z;
}.

#[export] Instance wire_heap : HasHeap wire := {
  heap_of := wi_heap;
  set_heap h s := mkWire h (wi_live s) (wi_out s) (wi_in s) (wi_clock s);
}.
#[export] Instance wire_blocks : HasBlocks wire := {
  live_of := wi_live;
  set_live l s := mkWire (wi_heap s) l (wi_out s) (wi_in s) (wi_clock s);
}.
#[export] Instance wire_transport : Transport wire := {
  putdatas _ hdr bufs mask s :=
    Ok (TCPSOCKET_COMPLETE, mask,
        mkWire (wi_heap s) (wi_live s) (wi_out s ++ b_data hdr ++ mjoin (b_data <$> bufs))
          (wi_in s) (wi_clock s));
  noPendingWrites _ s := Ok (true, s);
  now s := Ok (wi_clock s, mkWire (wi_heap s) (wi_live s) (wi_out s) (wi_in s) (wi_clock s + 1));
  putPacket _ _ _ _ _ _ _ s := Ok (TCPSOCKET_COMPLETE, s);
}.
#[export] Instance wire_receiver : Receiver wire := {
  framePos s := Ok (0, s);
  getch s :=
    match wi_in s with
    | [] => Ok (TCPSOCKET_INTERRUPTED, 0, s)
    | c :: l => Ok (TCPSOCKET_COMPLETE, c, mkWire (wi_heap s) (wi_live s) (wi_out s) l (wi_clock s))
    end;
  getdata n s :=
    if decide (n ≤ Z.of_nat (length (wi_in s)))
    then Ok (Some (take (Z.to_nat n) (wi_in s)), n,
             mkWire (wi_heap s) (wi_live s) (wi_out s) (drop (Z.to_nat n) (wi_in s)) (wi_clock s))
    else Ok (None, Z.of_nat (length (wi_in s)), s);
  framePosSeekTo _ s := Ok (tt, s);
}.

#[export] Instance wire_transport_laws : TransportLaws wire.
Proof.
  refine {| sent := wi_out |}; try done.
  - intros sock hdr bufs msk s. do 3 eexists. split; [reflexivity | done].
  - intros s. do 2 eexists. done.
  - intros. exists TCPSOCKET_COMPLETE, s. done.
Defined.

#[export] Instance wire_receiver_laws : ReceiverLaws wire.
Proof.
  refine {| incoming := wi_in |}; try done.
  - intros s. by exists 0, s.
  - intros c rest s Hin. eexists. cbn. by rewrite Hin.
  - intros n s Hn. do 2 eexists. cbn. rewrite decide_True by lia. done.
  - intros s. do 2 eexists. done.
  - intros. exists TCPSOCKET_COMPLETE, s. done.
Defined.

(** ** Properties *)
Definition net0 : networkHandles := mkNet 3 0 0 0.
Definition wire0 : wire := mkWire [] ∅ [] [] 0.
Definition wire_with (l : list Z) : wire := mkWire [] ∅ [] l 0.
Definition sent_by {A} (r : res (A * wire)) : list Z :=
  match r with Ok (_, s) => wi_out s | Err _ => [] end.

Definition sample_publish : Publish :=
  mkPublish (mkHeader PUBLISH 0 2 0) (Some [97; 47; 98]) 3 7 (Some [104; 105; 33]) 2 5
    sample_properties [0; 0; 0; 0].

Lemma sample_publishable : publishable sample_publish [97; 47; 98] [104; 105] 2 sample_entries.
Proof.
  unfold sample_publish. constructor; cbn; try lia.
  - by exists [97; 47; 98].
  - exists [104; 105; 33]. split_and!; [done | lia | cbn; lia | done].
  - intros _. split; [exact sample_repr | exact sample_fits].
Defined.

(** A PUBLISH arrives as it was sent.  If [MQTTPacket_send_publish] does
    not report an error, and the bytes it sent are the next ones the receiving
    side reads, then [MQTTPacket_Factory] hands out a publish packet with the
    same DUP, QoS and RETAIN bits, the same topic, payload and (for QoS 1 and
    2) message id and, in version 5, a property structure with the same
    properties, and reads exactly the bytes of the packet; this for every
    version, QoS, topic, payload and property list whose encoding fits the
    remaining length of MQTT. *)
Theorem publish_end_to_end {S R} `{TransportLaws S, ReceiverLaws R} pack t pl dp q rt l
    net net2 (s : S) (r : R) rc msk net' s' w rest :
  publishable pack t pl q l → 0 ≤ dp < 2 → 0 ≤ rt < 2 →
  Z.of_nat (length (enc_publish t q (pub_MQTTVersion pack) (pub_msgId pack) l pl)) < 268435456 →
  MQTTPacket_send_publish pack dp q rt net s = Ok (rc, msk, net', s') →
  (rc = TCPSOCKET_COMPLETE ∨ rc = TCPSOCKET_INTERRUPTED) → sent s' = sent s ++ w →
  incoming r = w ++ rest → heap_of r = [] →
  ∃ p net2' r', MQTTPacket_Factory (pub_MQTTVersion pack) net2 r =
      Ok (Some (PacketPublish p), TCPSOCKET_COMPLETE, net2', r') ∧
    incoming r' = rest ∧ pub_header p = mkHeader PUBLISH dp q rt ∧
    topic p = Some t ∧ topiclen p = Z.of_nat (length t) ∧
    payload p = Some pl ∧ payloadlen p = Z.of_nat (length pl) ∧
    (0 < q → pub_msgId p = pub_msgId pack) ∧
    (MQTTVERSION_5 ≤ pub_MQTTVersion pack → props_repr (pub_properties p) l).
Proof.
  intros Hp Hdp Hrt Hlen Hsend Hrc Hsent Hin Hheap.
  destruct (MQTTPacket_send_publish_outcome pack t pl dp q rt l net s Hp)
    as (rc' & msk' & n' & s'' & Hsend' & _ & [Hout _]).
  rewrite Hsend in Hsend'. simplify_eq. specialize (Hout Hrc). rewrite Hsent in Hout.
  apply app_inv_head in Hout. subst w. pose proof (pub_qos _ _ _ _ _ Hp) as Hq.
  rewrite header_of_small in Hin by (unfold PUBLISH; lia).
  set (h := mkHeader PUBLISH dp q rt) in *.
  set (body := enc_publish t q (pub_MQTTVersion pack) (pub_msgId pack) l pl) in *.
  destruct (byte_of_header_roundtrip h) as [_ Hh].
  { unfold valid_header, h, PUBLISH. cbn. lia. }
  unfold enc_packet, fixed_header in Hin. cbn [app] in Hin. rewrite <- (assoc_L (++)) in Hin.
  destruct (parse_publish (pub_MQTTVersion pack) (byte_of_header h) t q (pub_msgId pack) l pl)
    as (props & Hprops & Hparse); try done.
  - by rewrite Hh.
  - exact (pub_topic_short _ _ _ _ _ Hp).
  - exact (pub_id _ _ _ _ _ Hp).
  - lia.
  - intros Hv. destruct (pub_props _ _ _ _ _ Hp Hv) as [Hrepr Hfits].
    split; [exact (repr_valid _ _ Hrepr) | done].
  - fold body in Hparse. rewrite Hh in Hparse.
    destruct (framePos_law r) as (fp & r0 & Hfp & Hi0 & Hh0).
    destruct (factory_read (pub_MQTTVersion pack) net2 (byte_of_header h) body rest r0)
      as (r1 & Hi1 & Hh1 & Hbody); [by rewrite Hi0 | done |].
    destruct (factory_parse_publish (pub_MQTTVersion pack) net2 (byte_of_header h) body
      _ _ r1 ltac:(by rewrite Hh) ltac:(congruence) Hparse eq_refl) as (r2 & Hfac & Hi2).
    destruct (now_incoming r2) as (tm & r3 & Hnow & Hi3).
    assert (touch_received net2 r2 = Ok (mkNet (socket net2) (lastSent net2) tm (lastPing net2), r3))
      as Htouch by (unfold touch_received; by rewrite (bind_ok _ _ _ _ _ Hnow)).
    do 2 eexists. exists r3. split.
    + unfold MQTTPacket_Factory. rewrite (bind_ok _ _ _ _ _ Hfp).
      eapply bind_ok_eq.
      * rewrite Hbody, (bind_ok _ _ _ _ _ Hfac).
        by rewrite (bind_ok _ _ _ _ _ Htouch).
      * reflexivity.
    + cbn. split_and!; try done; [congruence |]. intros Hq0. by rewrite decide_True.
Qed.

Lemma publish_end_to_end_witness :
  let w := sent_by (MQTTPacket_send_publish sample_publish 0 2 1 net0 wire0) in
  w ≠ [] ∧
  ∃ p net2' r', MQTTPacket_Factory 5 net0 (wire_with (w ++ [208; 0])) =
      Ok (Some (PacketPublish p), TCPSOCKET_COMPLETE, net2', r') ∧
    wi_in r' = [208; 0] ∧ pub_header p = mkHeader PUBLISH 0 2 1 ∧
    topic p = Some [97; 47; 98] ∧ topiclen p = 3 ∧
    payload p = Some [104; 105] ∧ payloadlen p = 2 ∧
    (0 < 2 → pub_msgId p = 7) ∧
    (MQTTVERSION_5 ≤ 5 → props_repr (pub_properties p) sample_entries).
Proof.
  intros w. split; [by vm_compute |].
  epose proof (publish_end_to_end (S := wire) (R := wire) sample_publish [97; 47; 98] [104; 105]
    0 2 1 sample_entries net0 net0 wire0 (wire_with (w ++ [208; 0])) TCPSOCKET_COMPLETE _ _ _ w
    [208; 0] sample_publishable ltac:(lia) ltac:(lia) ltac:(by vm_compute)
    ltac:(vm_compute; reflexivity) ltac:(by left) eq_refl eq_refl eq_refl) as Hx.
  exact Hx.
Defined.

(** C35: [MQTTPacket_send_publish] is memory safe and sends a PUBLISH.  For
    every structure whose pointers and lengths agree, whichever allocations
    fail, no block is overrun, sent before it is filled or freed twice; unless
    the code is an error the bytes sent are the MQTT encoding of the packet;
    the topic and the payload stay the caller's, and of the blocks the sender
    allocates none is left, or, when the write is interrupted, exactly those
    the network took over. *)
Theorem send_publish_sound {T} `{TransportLaws T} pack t pl dp q rt l net (s : T) :
  publishable pack t pl q l →
  ∃ rc msk net' s', MQTTPacket_send_publish pack dp q rt net s = Ok (rc, msk, net', s') ∧
    same_net net net' ∧
    outcome (if decide (0 < q ∨ 5 ≤ pub_MQTTVersion pack) then 3 else 2)
      (enc_packet (header_of PUBLISH dp q rt)
         (enc_publish t q (pub_MQTTVersion pack) (pub_msgId pack) l pl)) s rc s'.
Proof. intros Hp. by apply MQTTPacket_send_publish_outcome. Qed.

Lemma send_publish_sound_witness :
  ∃ rc msk net' s', MQTTPacket_send_publish sample_publish 1 2 0 net0
      (mkWire [true; true; false] ∅ [] [] 0) = Ok (rc, msk, net', s') ∧
    same_net net0 net' ∧
    outcome 3 (enc_packet (header_of PUBLISH 1 2 0)
      (enc_publish [97; 47; 98] 2 5 7 sample_entries [104; 105]))
      (mkWire [true; true; false] ∅ [] [] 0) rc s'.
Proof.
  exact (send_publish_sound sample_publish [97; 47; 98] [104; 105] 1 2 0 sample_entries net0
    (mkWire [true; true; false] ∅ [] [] 0) sample_publishable).
Defined.

(** C36: A CONNECT fits its block.  The length [MQTTPacket_send_connect]
    computes is the number of bytes its writes store, for every version,
    client identifier, will, user name, password and property lists whose
    lengths fit their two byte prefixes; so nothing is overrun, all of the
    block is written before it is sent, and the bytes are the protocol name
    and level, the flags ([enc_flags], which says what each bit means), the keep
    alive interval, and the payload fields in the order of the specification. *)
Theorem send_connect_sound {T} `{TransportLaws T} client v cp wp lc lw (s : T) :
  connectable client v → props_opt cp lc → props_opt wp lw →
  Z.of_nat (length (enc_connect client v lc lw)) < 2 ^ 31 →
  ∃ rc net' s', MQTTPacket_send_connect client v cp wp s = Ok (rc, net', s') ∧
    same_net (net client) net' ∧
    outcome 2 (enc_packet (header_of CONNECT 0 0 0) (enc_connect client v lc lw)) s rc s'.
Proof.
  intros Hc Hcp Hwp Hlen. unfold MQTTPacket_send_connect.
  pose proof (length_enc_connect client v cp wp lc lw Hc Hcp Hwp) as Hl.
  rewrite <- Hl, i32_small by lia.
  pose proof (writes_connect client v cp wp lc lw Hc Hcp Hwp) as Hw.
  destruct (send_block_outcome (net client) (header_of CONNECT 0 0 0)
    (Z.of_nat (length (enc_connect client v lc lw))) _ _ v s Hw eq_refl ltac:(done))
    as (rc & net' & s' & Hr & Hn & Ho).
  exists rc, net', s'. split; [| done]. unfold send_block in Hr. rewrite <- Hr.
  pose proof (ok_version _ _ Hc) as Hin.
  by destruct (decide (v ∈ [MQTTVERSION_3_1; MQTTVERSION_3_1_1; MQTTVERSION_5])).
Qed.

Definition sample_client : Clients := {|
  clientID := [99; 49]; username := Some [117]; passwordlen := 2; password := Some [1; 0; 9];
  cleansession := 0; cleanstart := 1; connected := 0; good := 1; ping_outstanding := 0;
  ping_due := 0; ping_due_time := 0; net := net0; msgID := 0; keepAliveInterval := 60;
  retryInterval := 0; maxInflightMessages := 10;
  will := Some (mkWill [119] 1 [33] 1 2);
  inboundMsgs := al_nil; outboundMsgs := al_nil; connect_count := 0; connect_sent := 0; messageQueue := al_nil;
  outboundQueue := al_nil; c_MQTTVersion := 5 |}.

Lemma send_connect_sound_witness :
  ∃ rc net' s', MQTTPacket_send_connect sample_client 5 (Some sample_properties) None wire0
      = Ok (rc, net', s') ∧ same_net net0 net' ∧
    outcome 2 (enc_packet (header_of CONNECT 0 0 0) (enc_connect sample_client 5 sample_entries []))
      wire0 rc s'.
Proof.
  refine (send_connect_sound sample_client 5 (Some sample_properties) None sample_entries []
    wire0 _ _ _ _).
  - constructor; cbn; try (intros ? [= <-]); unfold short, data_ok;
      apply (bool_decide_unpack _); by vm_compute.
  - split; [exact sample_repr | exact sample_fits].
  - done.
  - by vm_compute.
Defined.

(** SUBSCRIBE and UNSUBSCRIBE fit their blocks.  For any topics shorter
    than 65536 bytes, one QoS for each of them and, if there are options, one
    set for each of them, the computed length is the number of bytes written,
    and the body is the message id, the properties in version 5, and the
    length delimited topics, followed for SUBSCRIBE by the option byte. *)
Theorem send_subscriptions_sound {T} `{TransportLaws T} client topics qoss opts props l id dp (s : T) :
  Forall short topics → length topics = length qoss → 0 ≤ id < 65536 →
  (∀ os, opts = Some os → length topics = length os) → props_opt props l →
  (∃ rc net' s', MQTTPacket_send_subscribe topics qoss opts props id dp client s = Ok (rc, net', s') ∧
     same_net (net client) net' ∧
     outcome 2 (enc_packet (header_of SUBSCRIBE dp 1 0)
       (len_prefix id ++ enc_props_if (c_MQTTVersion client) l ++
        enc_topics topics qoss
          (if decide (MQTTVERSION_5 ≤ c_MQTTVersion client) then opts else None) 0)) s rc s') ∧
  (∃ rc net' s', MQTTPacket_send_unsubscribe topics props id dp client s = Ok (rc, net', s') ∧
     same_net (net client) net' ∧
     outcome 2 (enc_packet (header_of UNSUBSCRIBE dp 1 0)
       (len_prefix id ++ enc_props_if (c_MQTTVersion client) l ++ enc_filters topics)) s rc s').
Proof.
  intros Hshort Hlen Hid Hopts Hprops. split.
  - destruct (writes_topics topics qoss
      (if decide (MQTTVERSION_5 ≤ c_MQTTVersion client) then opts else None) 0 Hshort Hlen)
      as [Hw Hwl].
    { intros os Hos. case_decide; [| done]. rewrite (Hopts os Hos). lia. }
    apply send_block_outcome; [| | done].
    + apply writes_seq; [by apply writes_writeInt |].
      apply writes_seq; [by apply writes_properties_if | done].
    + rewrite !length_app, !Nat2Z.inj_add, Hwl, (props_if_len _ _ _ Hprops). cbn [length len_prefix]. lia.
  - destruct (writes_filters topics Hshort) as [Hw Hwl].
    apply send_block_outcome; [| | done].
    + apply writes_seq; [by apply writes_writeInt |].
      apply writes_seq; [by apply writes_properties_if | done].
    + rewrite !length_app, !Nat2Z.inj_add, Hwl, (props_if_len _ _ _ Hprops). cbn [length len_prefix]. lia.
Qed.

Lemma send_subscriptions_sound_witness :
  (∃ rc net' s', MQTTPacket_send_subscribe [[97]; [98; 35]] [1; 2] (Some [mkSubOpts 1 0 2; mkSubOpts 0 1 0])
       None 9 0 sample_client wire0 = Ok (rc, net', s') ∧
     same_net net0 net' ∧
     outcome 2 (enc_packet (header_of SUBSCRIBE 0 1 0)
       ([0; 9] ++ [0] ++ [0; 1; 97; 37; 0; 2; 98; 35; 10])) wire0 rc s') ∧
  (∃ rc net' s', MQTTPacket_send_unsubscribe [[97]; [98; 35]] None 9 0 sample_client wire0
       = Ok (rc, net', s') ∧ same_net net0 net' ∧
     outcome 2 (enc_packet (header_of UNSUBSCRIBE 0 1 0)
       ([0; 9] ++ [0] ++ [0; 1; 97; 0; 2; 98; 35])) wire0 rc s').
Proof.
  refine (send_subscriptions_sound sample_client [[97]; [98; 35]] [1; 2]
    (Some [mkSubOpts 1 0 2; mkSubOpts 0 1 0]) None [] 9 0 wire0 _ _ _ _ _);
    [repeat constructor | done | lia | by intros ? [= <-] | done].
Defined.

(** Acknowledgements arrive as they were sent.  [MQTTPacket_send_puback],
    [_pubrec], [_pubrel] and [_pubcomp] send a packet of their type - PUBREL
    with the QoS bits the protocol demands - that holds the message id, leave
    no block behind unless the network took it over, and the parser of the
    receiving side turns the bytes into an acknowledgement with the same
    header and id and, in version 5, reason code 0 and no properties. *)
Theorem acks_arrive {T} `{TransportLaws T} v ty id dp net (s : T) :
  ty ∈ [PUBACK; PUBREC; PUBREL; PUBCOMP] → 0 ≤ id < 65536 → 0 ≤ dp < 2 →
  let h := mkHeader ty dp (if decide (ty = PUBREL) then 1 else 0) 0 in
  (∃ rc net' s', MQTTPacket_send_ack v ty id dp net s = Ok (rc, net', s') ∧
     same_net net net' ∧ outcome 2 (enc_packet h (len_prefix id)) s rc s') ∧
  ∃ parse, new_packets v (byte_of_header h) 2 ty = Some parse ∧
    parse (Reader (len_prefix id) 0 []) =
    Ok (Some (PacketAck (mkAck h (Some id) (if decide (MQTTVERSION_5 ≤ v) then Some 0 else None) v
                           (if decide (MQTTVERSION_5 ≤ v) then Some MQTTProperties_initializer
                            else None))),
        Reader (len_prefix id) 2 []).
Proof.
  intros Hty Hid Hdp h.
  assert (4 ≤ ty ≤ 7) as Hr.
  { revert Hty. rewrite !elem_of_cons. unfold PUBACK, PUBREC, PUBREL, PUBCOMP.
    intros [-> | [-> | [-> | [-> | ?%elem_of_nil]]]]; done || lia. }
  split.
  - unfold MQTTPacket_send_ack.
    rewrite header_of_small by (repeat case_decide; lia). fold h.
    apply send_block_outcome; [by apply writes_writeInt | done | cbn; lia].
  - destruct (byte_of_header_roundtrip h) as [_ Hh].
    { unfold valid_header, h. cbn. case_decide; lia. }
    exists (r ← MQTTPacket_ack v (byte_of_header h) 2; mret (PacketAck <$> (r : option Ack))).
    split.
    + unfold new_packets. rewrite decide_False, decide_False by (unfold CONNACK, PUBLISH; lia).
      rewrite decide_True; [done |]. revert Hty. rewrite !elem_of_cons. tauto.
    + assert (type (header_of_byte (byte_of_header h)) ≠ DISCONNECT) as Hnd
        by (rewrite Hh; unfold DISCONNECT; cbn; lia).
      rewrite (bind_ok _ _ _ _ _ (parse_ack v _ id Hnd)). by rewrite Hh.
Qed.

Lemma acks_arrive_witness :
  (∃ rc net' s', MQTTPacket_send_ack 5 PUBREL 513 0 net0 wire0 = Ok (rc, net', s') ∧
     same_net net0 net' ∧
     outcome 2 (enc_packet (mkHeader PUBREL 0 1 0) (len_prefix 513)) wire0 rc s') ∧
  ∃ parse, new_packets 5 (byte_of_header (mkHeader PUBREL 0 1 0)) 2 PUBREL = Some parse ∧
    parse (Reader (len_prefix 513) 0 []) =
    Ok (Some (PacketAck (mkAck (mkHeader PUBREL 0 1 0) (Some 513) (Some 0) 5
                           (Some MQTTProperties_initializer))),
        Reader (len_prefix 513) 2 []).
Proof.
  refine (acks_arrive 5 PUBREL 513 0 net0 wire0 _ _ _);
    [apply (bool_decide_unpack _); by vm_compute | lia | lia].
Defined.
