(* ===== verification/Protocol.v ===== *)
(** * The MQTT protocol of a client (src/src/MQTTProtocolClient.c, src/src/MQTTProtocolOut.c)

    The message exchanges of QoS 0, 1 and 2 in both directions, the keep alive
    timer and the retries, as functions on the state of the client library:
    the list of clients, the publications they share by reference count, the
    counters, and the network and persistence store below ([T]).  The last
    step of an incoming message, [Protocol_processPublication], is that of
    src/src/MQTTClient.c, which queues the message for the application. *)
From S2P Require Import Prelude Buffers LinkedList Properties PacketIn Names Clients PacketOut.
Local Open Scope Z_scope.

Definition MAX_MSG_ID : Z := 65535.
Definition PERSISTENCE_PUBLISH_SENT : string := "s-".
Definition PERSISTENCE_PUBLISH_RECEIVED : string := "r-".
Definition PERSISTENCE_V5_PUBLISH_SENT : string := "s5-".
Definition PERSISTENCE_V5_PUBLISH_RECEIVED : string := "r5-".


(** ** The layers around the protocol code

    The persistence store, the hook of the socket buffer for QoS 0
    publications, and what happens to the socket and to the threads of the
    application when a session ends. *)
Class Session (T : Type) := {
  (* [MQTTPersistence_remove]: client, kind of key, QoS, message id *)
  persistence_remove : list Z → string → Z → Z → M T Z;
  (* [MQTTPersistence_clear] *)
  persistence_clear : list Z → M T Z;
  (* [MQTTPersistence_persistQueueEntry], if the client has a store *)
  persist_queue_entry : list Z → qEntry → M T unit;
  (* [SocketBuffer_updateWrite] *)
  updateWrite : Z → option (list Z) → option (list Z) → M T unit;
  (* [WebSocket_close], [SSLSocket_close] and [Socket_close] *)
  close_socket : networkHandles → M T unit;
  (* [MQTTClient_stop] and, if the client was connected, [connectionLost] *)
  connection_lost : list Z → Z → M T unit;
}.

(** A QoS 0 publication whose write is not finished. *)
Record pending_write := mkPendingWrite { pw_socket : Z; pw_p : ptr }.

Record pstate (T : Type) := mkPState {
  clients : alist Clients;               (* [bstate->clients] *)
  blocks : gmap positive Publications;   (* the [Publications] allocated *)
  publications : alist positive;         (* [state.publications] *)
  msgs_received : Z;
  msgs_sent : Z;
  pending_writes : alist pending_write;
  below : T;
}.
Arguments mkPState {_} _ _ _ _ _ _ _.
Arguments clients {_} _.
Arguments blocks {_} _.
Arguments publications {_} _.
Arguments msgs_received {_} _.
Arguments msgs_sent {_} _.
Arguments pending_writes {_} _.
Arguments below {_} _.

Section State.
Context {T : Type}.
Implicit Types s : pstate T.

Definition set_clients (l : alist Clients) s : pstate T :=
  mkPState l (blocks s) (publications s) (msgs_received s) (msgs_sent s) (pending_writes s)
    (below s).
Definition set_publications (g : gmap positive Publications) (l : alist positive) s : pstate T :=
  mkPState (clients s) g l (msgs_received s) (msgs_sent s) (pending_writes s) (below s).
Definition set_counters (r n : Z) s : pstate T :=
  mkPState (clients s) (blocks s) (publications s) r n (pending_writes s) (below s).
Definition set_pending_writes (l : alist pending_write) s : pstate T :=
  mkPState (clients s) (blocks s) (publications s) (msgs_received s) (msgs_sent s) l (below s).
Definition set_below (t : T) s : pstate T :=
  mkPState (clients s) (blocks s) (publications s) (msgs_received s) (msgs_sent s)
    (pending_writes s) t.

(** An operation of the layers below. *)
Definition lift {A} (m : M T A) : M (pstate T) A := λ s,
  match m (below s) with
  | Ok (a, t) => Ok (a, set_below t s)
  | Err f => Err f
  end.

#[export] Instance pstate_heap `{HasHeap T} : HasHeap (pstate T) := {
  heap_of s := heap_of (below s);
  set_heap h s := set_below (set_heap h (below s)) s;
}.

(** [ListFindItem(bstate->clients, &sock, clientSocketCompare)->content]: the
    client is its position in the list, which no function below changes. *)
Definition clientSocketCompare (sock : Z) (c : Clients) : bool :=
  bool_decide (socket (net c) = sock).

Definition findClient (sock : Z) : M (pstate T) nat := λ s,
  let r := al_find (clientSocketCompare sock) (clients s) in
  match fst r with
  | Some i => Ok (i, set_clients (snd r) s)
  | None => Err NullDeref
  end.

Definition client_at (i : nat) : M (pstate T) Clients := λ s,
  match items (clients s) !! i with
  | Some c => Ok (c, s)
  | None => Err OutOfBounds
  end.

Definition with_client (i : nat) (f : Clients → Clients) s : pstate T :=
  set_clients (AList (alter f i (items (clients s))) (cursor (clients s))) s.

Definition update_client (i : nat) (f : Clients → Clients) : M (pstate T) unit :=
  modify (with_client i f).

(** A publication behind a pointer. *)
Definition publication_at (p : ptr) : M (pstate T) Publications := λ s,
  match p with
  | None => Err NullDeref
  | Some a => match blocks s !! a with Some pb => Ok (pb, s) | None => Err Dangling end
  end.

Definition update_publication (p : ptr) (f : Publications → Publications) : M (pstate T) unit :=
  pb ← publication_at p;
  match p with
  | None => fail NullDeref
  | Some a => modify (λ s, set_publications (<[a := f pb]> (blocks s)) (publications s) s)
  end.

Definition free_publication (a : positive) : M (pstate T) unit := λ s,
  if decide (is_Some (blocks s !! a))
  then Ok (tt, set_publications (delete a (blocks s)) (publications s) s) else Err BadFree.

(** [ListRemove(&(state.publications), p)], which frees [p] if it is in the
    list. *)
Definition remove_publication (p : ptr) : M (pstate T) unit := λ s,
  match p with
  | None => Ok (tt, s)
  | Some a =>
    match al_unlink (λ b, bool_decide (b = a)) (publications s) with
    | (Some _, l) => free_publication a (set_publications (blocks s) l s)
    | (None, _) => Ok (tt, s)
    end
  end.
End State.

(** [malloc] of the size [n], negative when an [int] overflowed, and [memcpy]
    of as many bytes. *)
Definition alloc_size {T} `{HasHeap T} (n : Z) : M T bool :=
  if decide (0 ≤ n) then malloc else mret false.

Definition copy_bytes {T} `{HasHeap T} (n : Z) (p : option (list Z)) : M T (option (list Z)) :=
  ok ← alloc_size n;
  if ok : bool then d ← slice n p; mret (Some d) else mret None.

(** [ListAppend] and [ListInsert], which need memory for the list element. *)
Definition list_append {T} `{HasHeap T} {A} (l : alist A) (x : A) : M T (bool * alist A) :=
  ok ← malloc;
  mret (ok : bool, if ok : bool then al_append x l else l).

Definition list_insert {T} `{HasHeap T} {A} (l : alist A) (k : nat) (x : A)
  : M T (bool * alist A) :=
  ok ← malloc;
  mret (ok : bool, if ok : bool then al_insert k x l else l).

(** ** Assigning message ids *)
Definition messageIDCompare (id : Z) (m : Messages) : bool := bool_decide (msgid m = id).

Definition next_msgid (id : Z) : Z := if decide (id = MAX_MSG_ID) then 1 else id + 1.

(** The loop; the list of outbound messages remembers the last one found. *)
Fixpoint assign_loop (fuel : nat) (start_msgid id : Z) : M Clients Z :=
  r ← gets (λ c, al_find (messageIDCompare id) (outboundMsgs c));
  _ ← modify (set_outboundMsgs (snd (r : option nat * alist Messages)));
  match fst r with
  | None => mret id
  | Some _ =>
    match fuel with
    | O => fail Diverge
    | S fuel =>
      let id := next_msgid id in
      if decide (id = start_msgid) then mret 0 else assign_loop fuel start_msgid id
    end
  end.

Definition MQTTProtocol_assignMsgId : M Clients Z :=
  start_msgid ← gets msgID;
  id ← assign_loop 65535 start_msgid (next_msgid start_msgid);
  _ ← (if decide (id ≠ 0) then modify (set_msgID id) else mret tt);
  mret id.

(** ** Publications and messages *)
Section Protocol.
Context {T : Type} `{HasHeap T, HasBlocks T, Transport T, Session T}.
Notation P := (M (pstate T)).

(** The packet with its topic or payload pointer replaced. *)
Definition set_topic (t : option (list Z)) (p : Publish) : Publish :=
  mkPublish (pub_header p) t (topiclen p) (pub_msgId p) (payload p) (payloadlen p)
    (pub_MQTTVersion p) (pub_properties p) (mask p).
Definition set_payload (d : option (list Z)) (p : Publish) : Publish :=
  mkPublish (pub_header p) (topic p) (topiclen p) (pub_msgId p) d (payloadlen p)
    (pub_MQTTVersion p) (pub_properties p) (mask p).
Definition set_mask (k : list Z) (p : Publish) : Publish :=
  mkPublish (pub_header p) (topic p) (topiclen p) (pub_msgId p) (payload p) (payloadlen p)
    (pub_MQTTVersion p) (pub_properties p) k.

(** The sizes of the structures on an LP64 machine. *)
Definition sizeof_Publications : Z := 40.
Definition sizeof_Messages : Z := 72.

(** The publication stored (null: no memory), the packet, whose topic and
    payload move to it, and the length stored to [*len]. *)
Definition MQTTProtocol_storePublication (publish : Publish) : P (ptr * Publish * Z) :=
  ok ← malloc;
  if negb ok then mret (None, publish, 0) else
  t ← deref (topic publish);
  let len := i32 (Z.of_nat (strlen t) + 1 + sizeof_Publications + payloadlen publish) in
  let p := {| p_topic := Some t; p_topiclen := topiclen publish;
              p_payload := payload publish; p_payloadlen := payloadlen publish;
              refcount := 1; p_mask := mask publish |} in
  let publish := set_payload None (set_topic None publish) in
  bs ← gets blocks;
  l ← gets publications;
  r ← list_append l (fresh (dom (bs : gmap positive Publications)));
  let '(ok, l) := r : bool * alist positive in
  if ok then
    let a := fresh (dom bs) in
    _ ← modify (λ s, set_publications (<[a := p]> (blocks s)) l s);
    mret (Some a, publish, len)
  else mret (None, publish, len).

Definition set_refcount (n : Z) (pb : Publications) : Publications :=
  mkPublications (p_topic pb) (p_topiclen pb) (p_payload pb) (p_payloadlen pb) n (p_mask pb).
Definition set_p_payload (d : option (list Z)) (pb : Publications) : Publications :=
  mkPublications (p_topic pb) (p_topiclen pb) d (p_payloadlen pb) (refcount pb) (p_mask pb).
Definition set_p_mask (k : list Z) (pb : Publications) : Publications :=
  mkPublications (p_topic pb) (p_topiclen pb) (p_payload pb) (p_payloadlen pb) (refcount pb) k.

Definition MQTTProtocol_removePublication (p : ptr) : P unit :=
  match p with
  | None => mret tt
  | Some _ =>
    pb ← publication_at p;
    let n := refcount pb - 1 in
    _ ← update_publication p (set_refcount n);
    if decide (n = 0) then remove_publication p else mret tt
  end.

(** What a [Messages*] points to. *)
Inductive message_ref :=
  | MsgNull
  | MsgFreed            (* a block that was freed again *)
  | MsgAt (m : Messages).

Definition message_of (r : message_ref) : P Messages :=
  match r with MsgNull => fail NullDeref | MsgFreed => fail Dangling | MsgAt m => mret m end.

(** The fields of a new message that are set at the end. *)
Definition finish_message (publish : Publish) (q retained_ : Z) (p : ptr) (len : Z)
  : P message_ref :=
  props ← (if decide (5 ≤ pub_MQTTVersion publish) then
             p ← MQTTProperties_copy (pub_properties publish); mret (Some p)
           else mret None : P (option MQTTProperties));
  t ← lift now;
  mret (MsgAt {| m_qos := q; m_retain := retained_; msgid := pub_msgId publish;
    m_MQTTVersion := pub_MQTTVersion publish; m_properties := props; m_publish := p;
    lastTouch := Some t; nextMessageType := if decide (q = 2) then Some PUBREC else None;
    m_len := len |}).

(** The message returned, the value stored to [*mm] (the caller's variable
    before the call is [mm]), and the packet.  A path that frees the message
    still returns the pointer to it. *)
Definition MQTTProtocol_createMessage (publish : Publish) (mm : message_ref)
    (q retained_ : Z) (allocatePayload : bool) : P (message_ref * message_ref * Publish) :=
  ok ← malloc;
  if negb ok then mret (MsgNull, mm, publish) else
  shared ← (match mm with
            | MsgNull => mret None
            | _ => m ← message_of mm; mret (m_publish m)
            end : P ptr);
  match shared : ptr with
  | None =>
    r ← MQTTProtocol_storePublication publish;
    let '(p, publish, len1) := r : ptr * Publish * Z in
    match p with
    | None => mret (MsgFreed, MsgFreed, publish)
    | Some _ =>
      ok ← (if allocatePayload then
              pb ← publication_at p;
              d ← copy_bytes (p_payloadlen pb) (p_payload pb);
              _ ← update_publication p (set_p_payload d);
              mret (bool_decide (is_Some (d : option (list Z))))
            else mret true : P bool);
      if ok : bool then
        m ← finish_message publish q retained_ p (sizeof_Messages + len1);
        mret (m, m, publish)
      else mret (MsgFreed, MsgFreed, publish)
    end
  | Some _ =>
    pb ← publication_at shared;
    _ ← update_publication shared (set_refcount (refcount pb + 1));
    m ← finish_message publish q retained_ shared sizeof_Messages;
    mret (m, mm, publish)
  end.

(** ** Publishing *)
Definition MQTTProtocol_storeQoS0 (i : nat) (publish : Publish) : P Publish :=
  ok ← malloc;
  if negb ok then mret publish else
  r ← MQTTProtocol_storePublication publish;
  let '(p, publish, _) := r : ptr * Publish * Z in
  match p with
  | None => mret publish
  | Some a =>
    c ← client_at i;
    pws ← gets pending_writes;
    r ← list_append pws (mkPendingWrite (socket (net c)) p);
    let '(ok, pws) := r : bool * alist pending_write in
    if ok then
      _ ← modify (set_pending_writes pws);
      pb ← publication_at p;
      _ ← lift (updateWrite (socket (net c)) (p_topic pb) (p_payload pb));
      mret (set_payload None (set_topic None publish))
    else
      _ ← free_publication a; mret publish
  end.

Definition MQTTProtocol_startPublishCommon (i : nat) (publish : Publish) (q retained_ : Z)
  : P (Z * Publish) :=
  c ← client_at i;
  r ← lift (MQTTPacket_send_publish publish 0 q retained_ (net c));
  let '(rc, msk, n) := r : Z * list Z * networkHandles in
  _ ← update_client i (set_net n);
  let publish := set_mask msk publish in
  if decide (q = 0 ∧ rc = TCPSOCKET_INTERRUPTED) then
    publish ← MQTTProtocol_storeQoS0 i publish; mret (rc, publish)
  else mret (rc, publish).

(** The packet that is sent for QoS 1 and 2 points into the stored copies. *)
Definition stored_publish (publish : Publish) (m : Messages) (pb : Publications)
    (props : MQTTProperties) : Publish :=
  mkPublish (pub_header publish) (p_topic pb) (topiclen publish) (pub_msgId publish)
    (p_payload pb) (payloadlen publish) (m_MQTTVersion m) props (mask publish).

(** The completion code, [*mm], and the caller's packet. *)
Definition MQTTProtocol_startPublish (i : nat) (publish : Publish) (q retained_ : Z)
    (mm : message_ref) : P (Z * message_ref * Publish) :=
  if decide (0 < q) then
    r ← MQTTProtocol_createMessage publish mm q retained_ false;
    let '(mm, _, publish') := r : message_ref * message_ref * Publish in
    m ← message_of mm;
    c ← client_at i;
    r ← list_append (outboundMsgs c) m;
    _ ← update_client i (set_outboundMsgs (snd (r : bool * alist Messages)));
    pb ← publication_at (m_publish m);
    (* where [m->properties] was not written its value is not used either *)
    let props := default (pub_properties publish) (m_properties m) in
    r ← MQTTProtocol_startPublishCommon i (stored_publish publish m pb props) q retained_;
    let '(rc, publish) := r : Z * Publish in
    _ ← update_publication (m_publish m) (set_p_mask (mask publish));
    mret (rc, mm, publish')
  else
    r ← MQTTProtocol_startPublishCommon i publish q retained_;
    let '(rc, publish) := r : Z * Publish in
    mret (rc, mm, publish).

(** ** Receiving publications *)

(** [Protocol_processPublication] of src/src/MQTTClient.c: the message is put
    on the queue for the application.  The result is the packet, from which
    the topic is taken. *)
Definition Protocol_processPublication (i : nat) (publish : Publish) (allocatePayload : bool)
  : P Publish :=
  qe ← malloc;
  if negb qe then mret publish else
  mm ← malloc;
  if negb mm then mret publish else
  let publish' := set_topic None publish in
  d ← (if allocatePayload then
         d ← copy_bytes (payloadlen publish) (payload publish);
         mret (Some <$> (d : option (list Z)))
       else mret (Some (payload publish)) : P (option (option (list Z))));
  match d : option (option (list Z)) with
  | None => mret publish'
  | Some d =>
    props ← (if decide (5 ≤ pub_MQTTVersion publish)
             then MQTTProperties_copy (pub_properties publish)
             else mret MQTTProperties_initializer);
    let qe := {| topicName := topic publish; topicLen := topiclen publish; q_payload := d;
      q_payloadlen := payloadlen publish; q_qos := qos (pub_header publish);
      q_retained := retain (pub_header publish);
      q_dup := if decide (qos (pub_header publish) = 2) then 0 else dup (pub_header publish);
      q_msgid := pub_msgId publish; q_properties := props |} in
    _ ← deref (topic publish);
    c ← client_at i;
    r ← list_append (messageQueue c) qe;
    _ ← update_client i (set_messageQueue (snd (r : bool * alist qEntry)));
    _ ← lift (persist_queue_entry (clientID c) qe);
    mret publish'
  end.

(** A packet sent on the client's socket. *)
Definition send_on (i : nat) (send : networkHandles → M T (Z * networkHandles)) : P Z :=
  c ← client_at i;
  r ← lift (send (net c));
  _ ← update_client i (set_net (snd (r : Z * networkHandles)));
  mret (fst r).

(** The completion code is 0 even if there is no memory for the list element,
    and the acknowledgement is lost. *)
Definition MQTTProtocol_queueAck (i : nat) (ackType_ msgId : Z) : P Z :=
  ok ← malloc;
  if negb ok then mret PAHO_MEMORY_ERROR else
  c ← client_at i;
  r ← list_append (outboundQueue c) (mkAckRequest msgId ackType_);
  _ ← update_client i (set_outboundQueue (snd (r : bool * alist AckRequest)));
  mret 0.

(** A field that may not have been written. *)
Definition written {S A} (x : option A) : M S A :=
  match x with None => fail Uninitialised | Some a => mret a end.

Definition update_inbound (i : nat) (f : alist Messages → alist Messages) : P unit :=
  update_client i (λ c, set_inboundMsgs (f (inboundMsgs c)) c).
Definition update_outbound (i : nat) (f : alist Messages → alist Messages) : P unit :=
  update_client i (λ c, set_outboundMsgs (f (outboundMsgs c)) c).

(** A message in a list, changed through the pointer to it. *)
Definition al_alter {A} (f : A → A) (k : nat) (l : alist A) : alist A :=
  AList (alter f k (items l)) (cursor l).

Definition set_m_publish (p : ptr) (m : Messages) : Messages :=
  mkMessages (m_qos m) (m_retain m) (msgid m) (m_MQTTVersion m) (m_properties m) p
    (lastTouch m) (nextMessageType m) (m_len m).
Definition touch_message (ty t : option Z) (m : Messages) : Messages :=
  mkMessages (m_qos m) (m_retain m) (msgid m) (m_MQTTVersion m) (m_properties m)
    (m_publish m) t ty (m_len m).

(** The message and its position in the list of inbound messages, after an
    earlier message with the same id was discarded; there is no position when
    there was no memory for the list element.  The third component says
    whether there was an earlier message. *)
Definition insert_inbound (i : nat) (m : Messages) : P (option nat * bool) :=
  c ← client_at i;
  let f := al_find (messageIDCompare (msgid m)) (inboundMsgs c) in
  _ ← update_inbound i (λ _, snd f);
  match fst f with
  | Some k =>
    msg ← written (items (snd f) !! k);
    _ ← MQTTProtocol_removePublication (m_publish (msg : Messages));
    _ ← free_properties (m_MQTTVersion msg) (m_properties msg);
    r ← list_insert (snd f) k m;
    let '(ok, l) := r : bool * alist Messages in
    _ ← update_inbound i (λ _, al_delete (if ok then S k else k) l);
    mret (if ok then Some k else None, true)
  | None =>
    r ← list_append (snd f) m;
    let '(ok, l) := r : bool * alist Messages in
    _ ← update_inbound i (λ _, l);
    mret (if ok then Some (length (items (snd f))) else None, false)
  end.

(** The completion code and whether the function goes on to acknowledge; the
    length of an inbound message is not written. *)
Definition handle_qos2 (i : nat) (publish : Publish) : P (Z * bool) :=
  ok ← malloc;
  if negb ok then mret (PAHO_MEMORY_ERROR, false) else
  r ← MQTTProtocol_storePublication publish;
  let '(p, publish', len) := r : ptr * Publish * Z in
  let v := pub_MQTTVersion publish in
  props ← (if decide (MQTTVERSION_5 ≤ v) then
             p ← MQTTProperties_copy (pub_properties publish); mret (Some p)
           else mret None : P (option MQTTProperties));
  let m := {| m_qos := qos (pub_header publish); m_retain := retain (pub_header publish);
    msgid := pub_msgId publish; m_MQTTVersion := v; m_properties := props; m_publish := p;
    lastTouch := None; nextMessageType := Some PUBREL; m_len := 0 |} in
  r ← insert_inbound i m;
  let '(pos, already_received) := r : option nat * bool in
  pb ← publication_at p;
  if decide (MQTTVERSION_5 ≤ v ∧ already_received = false) then
    props ← written props;
    _ ← Protocol_processPublication i
      (mkPublish (mkHeader 0 0 (Z.land (m_qos m) 3) (Z.land (m_retain m) 1)) (p_topic pb)
         (p_topiclen pb) (msgid m) (p_payload pb) (p_payloadlen pb) v props []) true;
    _ ← remove_publication p;
    _ ← update_inbound i (λ l, match pos with
                               | Some k => al_alter (set_m_publish None) k l
                               | None => l
                               end);
    mret (TCPSOCKET_COMPLETE, true)
  else
    d ← copy_bytes (p_payloadlen pb) (p_payload pb);
    _ ← update_publication p (set_p_payload d);
    mret (match d : option (list Z) with
          | None => (PAHO_MEMORY_ERROR, false)
          | Some _ => (TCPSOCKET_COMPLETE, true)
          end).

(** [Socket_noPendingWrites] *)
Definition nothing_pending (sock : Z) : P bool := lift (noPendingWrites sock).

Definition ack_or_queue (i : nat) (free : bool) (ty id : Z)
    (send : networkHandles → M T (Z * networkHandles)) : P Z :=
  if free then send_on i send else MQTTProtocol_queueAck i ty id.

Definition MQTTProtocol_handlePublishes (publish : Publish) (sock : Z) : P Z :=
  i ← findClient sock;
  rc ← (if decide (qos (pub_header publish) = 0) then
          _ ← Protocol_processPublication i publish true;
          mret TCPSOCKET_COMPLETE
        else
          free ← nothing_pending sock;
          if decide (qos (pub_header publish) = 1) then
            _ ← Protocol_processPublication i publish true;
            ack_or_queue i free PUBACK (pub_msgId publish)
              (MQTTPacket_send_puback (pub_MQTTVersion publish) (pub_msgId publish))
          else if decide (qos (pub_header publish) = 2) then
            r ← handle_qos2 i publish;
            if snd (r : Z * bool) then
              ack_or_queue i free PUBREC (pub_msgId publish)
                (MQTTPacket_send_pubrec (pub_MQTTVersion publish) (pub_msgId publish))
            else mret (fst r)
          else mret TCPSOCKET_COMPLETE);
  _ ← MQTTPacket_freePublish publish;
  mret rc.

(** ** Acknowledgements *)

(** The end of the exchange of an outbound message: the publication is given
    to the caller ([pubToRemove] not null) or removed. *)
Definition finish_outbound (i k : nat) (m : Messages) (defer : bool) : P ptr :=
  _ ← (if defer then mret tt else MQTTProtocol_removePublication (m_publish m));
  _ ← free_properties (m_MQTTVersion m) (m_properties m);
  _ ← update_outbound i (al_delete k);
  mret (if defer then m_publish m else None).

Definition find_outbound (i : nat) (id : Z) : P (option (nat * Messages)) :=
  c ← client_at i;
  let f := al_find (messageIDCompare id) (outboundMsgs c) in
  _ ← update_outbound i (λ _, snd f);
  match fst f with
  | None => mret None
  | Some k => m ← written (items (snd f) !! k); mret (Some (k, m : Messages))
  end.

Definition sent_key (v : Z) : string :=
  if decide (MQTTVERSION_5 ≤ v) then PERSISTENCE_V5_PUBLISH_SENT else PERSISTENCE_PUBLISH_SENT.
Definition received_key (v : Z) : string :=
  if decide (MQTTVERSION_5 ≤ v) then PERSISTENCE_V5_PUBLISH_RECEIVED
  else PERSISTENCE_PUBLISH_RECEIVED.

Definition remove_persisted (i : nat) (key : string) (q id : Z) : P Z :=
  c ← client_at i; lift (persistence_remove (clientID c) key q id).

Definition MQTTProtocol_handlePubacks (puback : Ack) (sock : Z) (defer : bool) : P (Z * ptr) :=
  i ← findClient sock;
  id ← written (ack_msgId puback);
  f ← find_outbound i id;
  r ← (match f : option (nat * Messages) with
       | None => mret (TCPSOCKET_COMPLETE, None)
       | Some (k, m) =>
         if decide (m_qos m ≠ 1) then mret (TCPSOCKET_COMPLETE, None) else
         rc ← remove_persisted i (sent_key (m_MQTTVersion m)) (m_qos m) id;
         p ← finish_outbound i k m defer;
         mret (rc, p)
       end : P (Z * ptr));
  _ ← MQTTPacket_freeAck puback;
  mret r.

Definition MQTTProtocol_handlePubrecs (pubrec : Ack) (sock : Z) (defer : bool) : P (Z * ptr) :=
  i ← findClient sock;
  id ← written (ack_msgId pubrec);
  _ ← update_outbound i (λ l, AList (items l) None);
  f ← find_outbound i id;
  r ← (match f : option (nat * Messages) with
       | None => mret (TCPSOCKET_COMPLETE, None, true)
       | Some (k, m) =>
         if decide (m_qos m ≠ 2) then mret (TCPSOCKET_COMPLETE, None, true) else
         next ← written (nextMessageType m);
         if decide (next ≠ PUBREC) then mret (TCPSOCKET_COMPLETE, None, true) else
         error ← (if decide (MQTTVERSION_5 ≤ ack_MQTTVersion pubrec) then
                    rc ← written (ack_rc pubrec);
                    mret (bool_decide (MQTTREASONCODE_UNSPECIFIED_ERROR ≤ rc))
                  else mret false : P bool);
         if error : bool then
           rc ← remove_persisted i (sent_key (ack_MQTTVersion pubrec)) (m_qos m) id;
           p ← finish_outbound i k m defer;
           _ ← modify (λ s, set_counters (msgs_received s) (msgs_sent s + 1) s);
           mret (rc, p, false)
         else
           t ← lift now;
           _ ← update_outbound i (al_alter (touch_message (Some PUBCOMP) (Some t)) k);
           mret (TCPSOCKET_COMPLETE, None, true)
       end : P (Z * ptr * bool));
  let '(rc, p, send_pubrel) := r : Z * ptr * bool in
  rc ← (if send_pubrel : bool then
          free ← nothing_pending sock;
          ack_or_queue i free PUBREL id (MQTTPacket_send_pubrel (ack_MQTTVersion pubrec) id 0)
        else mret rc);
  _ ← MQTTPacket_freeAck pubrec;
  mret (rc, p).

(** The PUBREL of an inbound message: before version 5 the message is delivered
    now, from the stored publication. *)
Definition deliver_released (i : nat) (m : Messages) : P unit :=
  let h := mkHeader 0 0 (Z.land (m_qos m) 3) (Z.land (m_retain m) 1) in
  publish ← (match m_publish m with
             | None => mret (mkPublish h None 0 (msgid m) None 0 (m_MQTTVersion m)
                               MQTTProperties_initializer [0; 0; 0; 0])
             | Some _ =>
               pb ← publication_at (m_publish m);
               mret (mkPublish h (p_topic pb) (p_topiclen pb) (msgid m) (p_payload pb)
                       (p_payloadlen pb) (m_MQTTVersion m) MQTTProperties_initializer
                       [0; 0; 0; 0])
             end);
  if decide (MQTTVERSION_5 ≤ m_MQTTVersion m) then mret tt
  else _ ← Protocol_processPublication i publish false; mret tt.

(** The end of the exchange of an inbound message: the lookup of
    [MQTTProtocol_handlePubrels] and what follows it. *)
Definition release_inbound (i : nat) (id : Z) : P unit :=
  c ← client_at i;
  let f := al_find (messageIDCompare id) (inboundMsgs c) in
  _ ← update_inbound i (λ _, snd f);
  match fst f with
  | None => mret tt
  | Some k =>
    m ← written (items (snd f) !! k);
    if decide (m_qos (m : Messages) ≠ 2) then mret tt else
    next ← written (nextMessageType m);
    if decide (next ≠ PUBREL) then mret tt else
    _ ← deliver_released i m;
    _ ← remove_persisted i (received_key (m_MQTTVersion m)) (m_qos m) id;
    _ ← free_properties (m_MQTTVersion m) (m_properties m);
    _ ← remove_publication (m_publish m);
    _ ← update_inbound i (al_delete k);
    modify (λ s, set_counters (msgs_received s + 1) (msgs_sent s) s)
  end.

Definition MQTTProtocol_handlePubrels (pubrel : Ack) (sock : Z) : P Z :=
  i ← findClient sock;
  id ← written (ack_msgId pubrel);
  _ ← release_inbound i id;
  free ← nothing_pending sock;
  rc ← ack_or_queue i free PUBCOMP id (MQTTPacket_send_pubcomp (ack_MQTTVersion pubrel) id);
  _ ← MQTTPacket_freeAck pubrel;
  mret rc.

Definition MQTTProtocol_handlePubcomps (pubcomp : Ack) (sock : Z) (defer : bool)
  : P (Z * ptr) :=
  i ← findClient sock;
  id ← written (ack_msgId pubcomp);
  f ← find_outbound i id;
  r ← (match f : option (nat * Messages) with
       | None => mret (TCPSOCKET_COMPLETE, None)
       | Some (k, m) =>
         if decide (m_qos m ≠ 2) then mret (TCPSOCKET_COMPLETE, None) else
         next ← written (nextMessageType m);
         if decide (next ≠ PUBCOMP) then mret (TCPSOCKET_COMPLETE, None) else
         rc ← remove_persisted i (sent_key (m_MQTTVersion m)) (m_qos m) id;
         p ← finish_outbound i k m defer;
         _ ← modify (λ s, set_counters (msgs_received s) (msgs_sent s + 1) s);
         mret (rc, p)
       end : P (Z * ptr));
  _ ← MQTTPacket_freeAck pubcomp;
  mret r.
End Protocol.
