(* ===== verification/Persistence.v ===== *)
(** * The persistent store (src/src/MQTTPersistence.c)

    The functions that keep messages in flight and messages for the application
    in a store of keys and buffers, and restore them when a client is created
    again.

    The store itself is a table of functions the application may provide
    (MQTTClient_persistence): the class [Store], whose laws say what the
    documentation of the table asks for.  The fields of the client that belong
    to it ([persistence], [beforeWrite], [afterRead]) are the record
    [persistence]; [phandle] is part of the state of the store. *)
From stdpp Require Import pretty.
From S2P Require Import Prelude Words Buffers LinkedList Properties PacketIn Clients PacketOut Receive Protocol.
Local Open Scope Z_scope.

(** ** Keys *)
Definition PERSISTENCE_PUBREL : string := "sc-".
Definition PERSISTENCE_V5_PUBREL : string := "sc5-".
Definition PERSISTENCE_COMMAND_KEY : string := "c-".
Definition PERSISTENCE_V5_COMMAND_KEY : string := "c5-".
Definition PERSISTENCE_QUEUE_KEY : string := "q-".
Definition PERSISTENCE_V5_QUEUE_KEY : string := "q5-".
Definition PERSISTENCE_MAX_KEY_LENGTH : nat := 10.
Definition PERSISTENCE_SEQNO_LIMIT : Z := 1000000.
Definition MQTTCLIENT_PERSISTENCE_ERROR : Z := -2.

(** [snprintf(key, keysize, "%s%d", stem, id)], if it fits *)
Definition key_of (stem : string) (id : Z) : string := stem +:+ pretty id.
Definition print_key (stem : string) (id : Z) : option string :=
  if decide (String.length (key_of stem id) < PERSISTENCE_MAX_KEY_LENGTH + 1)%nat
  then Some (key_of stem id) else None.

(** [strncmp(key, stem, strlen(stem)) == 0] *)
Definition has_stem (stem key : string) : bool := String.prefix stem key.

(** ** The store *)
Class Store (T : Type) := {
  popen : list Z → list Z → M T Z;
  pclose : M T Z;
  pput : string → list (list Z) → M T Z;
  pget : string → M T (Z * option (list Z));
  premove : string → M T Z;
  pkeys : M T (Z * list string);
  pclear : M T Z;
  pcontainskey : string → M T Z;
}.

(** The callbacks return a code and the buffers, which they may change. *)
Record persistence (T : Type) := mkPersistence {
  has_store : bool;
  beforeWrite : option (list (list Z) → M T (Z * list (list Z)));
  afterRead : option (list Z → M T (Z * list Z));
}.
Arguments mkPersistence {_} _ _ _.
Arguments has_store {_} _.
Arguments beforeWrite {_} _.
Arguments afterRead {_} _.

Section Packets.
Context {T : Type} `{HasHeap T, HasBlocks T, Transport T, Session T, Store T}.
Variable per : persistence T.
Notation P := (M (pstate T)).

(** ** Opening and closing *)
Definition MQTTPersistence_close : M T Z :=
  if has_store per then pclose else mret 0.

Definition MQTTPersistence_clear : M T Z :=
  if has_store per then pclear else mret 0.

(** ** Writing *)

(** The call of a hook, when there is one *)
Definition before_write (bufs : list (list Z)) : M T (Z * list (list Z)) :=
  match beforeWrite per with Some f => f bufs | None => mret (0, bufs) end.
Definition after_read (buffer : list Z) : M T (Z * list Z) :=
  match afterRead per with Some f => f buffer | None => mret (0, buffer) end.

(** The stem of the key of a packet; with another [scr] the key is not written. *)
Definition packet_stem (htype scr MQTTVersion : Z) : option string :=
  if decide (scr = 0) then
    Some (if decide (htype = PUBLISH) then
            if decide (MQTTVersion >= MQTTVERSION_5) then PERSISTENCE_V5_PUBLISH_SENT
            else PERSISTENCE_PUBLISH_SENT
          else if decide (htype = PUBREL) then
            if decide (MQTTVersion >= MQTTVERSION_5) then PERSISTENCE_V5_PUBREL
            else PERSISTENCE_PUBREL
          else PERSISTENCE_PUBLISH_SENT)
  else if decide (scr = 1) then
    Some (if decide (MQTTVersion >= MQTTVERSION_5) then PERSISTENCE_V5_PUBLISH_RECEIVED
          else PERSISTENCE_PUBLISH_RECEIVED)
  else None.

(** The part of MQTTPersistence_putPacket after the client is found *)
Definition put_packet (buf0 : list Z) (buffers : list (list Z)) (htype msgId scr MQTTVersion : Z) :
    M T Z :=
  if negb (has_store per) then mret 0 else
  key_ok ← malloc;
  if negb key_ok then mret PAHO_MEMORY_ERROR else
  lens_ok ← malloc;
  if negb lens_ok then mret PAHO_MEMORY_ERROR else
  bufs_ok ← malloc;
  if negb bufs_ok then mret PAHO_MEMORY_ERROR else
  match packet_stem htype scr MQTTVersion with
  | None => fail Uninitialised
  | Some stem =>
    match print_key stem msgId with
    | None => mret MQTTCLIENT_PERSISTENCE_ERROR
    | Some key =>
      r ← before_write (buf0 :: buffers);
      let '(rc, bufs) := r : Z * list (list Z) in
      if decide (rc = 0) then pput key bufs else mret rc
    end
  end.

Definition MQTTPersistence_putPacket (sock : Z) (buf0 : list Z) (buffers : list (list Z))
    (htype msgId scr MQTTVersion : Z) : P Z :=
  _ ← findClient sock;
  lift (put_packet buf0 buffers htype msgId scr MQTTVersion).

(** The records with the given stems are removed, one after the other, and the
    codes added up, until a key does not fit. *)
Fixpoint remove_stems (stems : list string) (msgId rc : Z) : M T Z :=
  match stems with
  | [] => mret rc
  | stem :: stems' =>
    match print_key stem msgId with
    | None => mret MQTTCLIENT_PERSISTENCE_ERROR
    | Some key => rc1 ← premove key; remove_stems stems' msgId (rc + rc1)
    end
  end.

Definition MQTTPersistence_remove (type : string) (qos msgId : Z) : M T Z :=
  if negb (has_store per) then mret 0 else
  ok ← malloc;
  if negb ok then mret PAHO_MEMORY_ERROR else
  if decide (type = PERSISTENCE_PUBLISH_SENT ∨ type = PERSISTENCE_V5_PUBLISH_SENT) then
    remove_stems [PERSISTENCE_V5_PUBLISH_SENT; PERSISTENCE_V5_PUBREL; PERSISTENCE_PUBLISH_SENT;
      PERSISTENCE_PUBREL] msgId 0
  else
    remove_stems [PERSISTENCE_V5_PUBLISH_RECEIVED; PERSISTENCE_PUBLISH_RECEIVED] msgId 0.

(** ** Restoring *)

(** The do loop of MQTTPersistence_restorePacket from the byte [k] on: the
    remaining length and the length of the fixed header *)
Fixpoint stored_length (buffer : list Z) (multiplier remaining_length : Z) (k : nat) : res (Z * nat) :=
  match buffer with
  | [] => Err OutOfBounds
  | c :: buffer' =>
    let remaining_length := i32 (remaining_length + Z.land c 127 * multiplier) in
    let multiplier := i32 (multiplier * 128) in
    if decide (Z.land c 128 ≠ 0) then stored_length buffer' multiplier remaining_length (S k)
    else Ok (remaining_length, S k)
  end.

Definition MQTTPersistence_restorePacket (MQTTVersion : Z) (buffer : list Z) : M T (option Packet) :=
  match buffer with
  | [] => fail OutOfBounds
  | byte :: rest =>
    match stored_length rest 1 0 1 with
    | Err f => fail f
    | Ok (remaining_length, fixed_header_length) =>
      if decide (u64 (i32 (Z.of_nat fixed_header_length + remaining_length)) =
                 Z.of_nat (length buffer)) then
        let ptype := type (header_of_byte byte) in
        if decide (CONNECT ≤ ptype ≤ DISCONNECT) then
          match new_packets MQTTVersion byte (Z.to_nat remaining_length) ptype with
          | Some parse => run_parser parse (drop fixed_header_length buffer)
          | None => mret None
          end
        else mret None
      else mret None
    end
  end.

(** MQTTPersistence_insertInOrder: the first message with a greater id *)
Fixpoint index_above (id : Z) (l : list Messages) : option nat :=
  match l with
  | [] => None
  | m :: l' => if decide (id < msgid m) then Some 0%nat else S <$> index_above id l'
  end.

Definition MQTTPersistence_insertInOrder (l : alist Messages) (m : Messages) :
    M T (bool * alist Messages) :=
  match index_above (msgid m) (items l) with
  | Some k => list_insert l k m
  | None => list_append l m
  end.

(** The elements from the position [k] on go to the front. *)
Definition al_rotate {A} (k : nat) (l : alist A) : alist A :=
  AList (drop k (items l) ++ take k (items l))
    ((λ j, if decide (k ≤ j) then j - k else j + (length (items l) - k))%nat <$> cursor l).

(** The loop of MQTTPersistence_wrapMsgID: the position of [wrapel] *)
Fixpoint wrap_loop (prev_id : Z) (l : list Messages) (pos : nat) (gap : Z) (wrapel : option nat) :
    option nat :=
  match l with
  | [] => wrapel
  | m :: l' =>
    let curgap := msgid m - prev_id in
    if decide (curgap > gap) then wrap_loop (msgid m) l' (S pos) curgap (Some pos)
    else wrap_loop (msgid m) l' (S pos) gap wrapel
  end.

Definition MQTTPersistence_wrapMsgID (l : alist Messages) : alist Messages :=
  match items l with
  | [] => l
  | m :: rest =>
    let lastMsgID := default 0 (msgid <$> items l !! (length (items l) - 1)%nat) in
    match wrap_loop (msgid m) rest 1 (MAX_MSG_ID - lastMsgID + msgid m) None with
    | Some k => al_rotate k l
    | None => l
    end
  end.

(** Fields of a restored message *)
Definition set_next_type (ty : option Z) (m : Messages) : Messages :=
  mkMessages (m_qos m) (m_retain m) (msgid m) (m_MQTTVersion m) (m_properties m) (m_publish m)
    (lastTouch m) ty (m_len m).
Definition clear_touch (m : Messages) : Messages :=
  mkMessages (m_qos m) (m_retain m) (msgid m) (m_MQTTVersion m) (m_properties m) (m_publish m)
    (Some 0) (nextMessageType m) (m_len m).
Definition set_version (v : Z) (p : Publish) : Publish :=
  mkPublish (pub_header p) (topic p) (topiclen p) (pub_msgId p) (payload p) (payloadlen p) v
    (pub_properties p) (mask p).

(** A record of a PUBLISH received *)
Definition restore_received (i : nat) (publish : Publish) : P Z :=
  c ← client_at i;
  let publish := set_version (c_MQTTVersion c) publish in
  r ← MQTTProtocol_createMessage publish MsgNull (qos (pub_header publish))
        (retain (pub_header publish)) true;
  let '(mr, _, publish) := r : message_ref * message_ref * Publish in
  m ← message_of mr;
  let m := set_next_type (Some PUBREL) m in
  r ← list_append (inboundMsgs c) m;
  _ ← update_client i (set_inboundMsgs (snd r));
  _ ← (if decide (c_MQTTVersion c >= MQTTVERSION_5) then
         update_publication (m_publish m)
           (λ pb, mkPublications None (p_topiclen pb) None (p_payloadlen pb) (refcount pb) (p_mask pb))
       else mret tt);
  _ ← MQTTPacket_freePublish (set_topic None publish);
  mret 0.

(** A record of a PUBLISH sent; the flag says that control goes to [exit]. *)
Definition restore_sent (i : nat) (publish : Publish) : P (Z * bool) :=
  ok ← malloc;
  if negb ok then mret (PAHO_MEMORY_ERROR, true) else
  c ← client_at i;
  let publish := set_version (c_MQTTVersion c) publish in
  let stem := if decide (pub_MQTTVersion publish >= MQTTVERSION_5) then PERSISTENCE_V5_PUBREL
              else PERSISTENCE_PUBREL in
  match print_key stem (pub_msgId publish) with
  | None => mret (MQTTCLIENT_PERSISTENCE_ERROR, false)
  | Some key =>
    r ← MQTTProtocol_createMessage publish MsgNull (qos (pub_header publish))
          (retain (pub_header publish)) true;
    let '(mr, _, publish) := r : message_ref * message_ref * Publish in
    found ← lift (pcontainskey key);
    m ← message_of mr;
    let m := if decide (found = 0) then set_next_type (Some PUBCOMP) m else m in
    let m := clear_touch m in
    r ← lift (MQTTPersistence_insertInOrder (outboundMsgs c) m);
    _ ← update_client i (set_outboundMsgs (snd r));
    _ ← MQTTPacket_freePublish (set_topic None publish);
    mret (0, false)
  end.

(** A record of a PUBREL: removed when its PUBLISH is not there *)
Definition restore_pubrel (i : nat) (key : string) (pubrel : Ack) : P (Z * bool) :=
  ok ← malloc;
  if negb ok then mret (PAHO_MEMORY_ERROR, true) else
  c ← client_at i;
  let stem := if decide (c_MQTTVersion c >= MQTTVERSION_5) then PERSISTENCE_V5_PUBLISH_SENT
              else PERSISTENCE_PUBLISH_SENT in
  match ack_msgId pubrel with
  | None => fail Uninitialised
  | Some id =>
    match print_key stem id with
    | None => mret (MQTTCLIENT_PERSISTENCE_ERROR, false)
    | Some sent_key =>
      found ← lift (pcontainskey sent_key);
      if decide (found ≠ 0) then rc ← lift (premove key); mret (rc, false) else mret (0, false)
    end
  end.

(** What the key of a record says *)
Inductive record_kind := KindIgnored | KindReceived | KindSent | KindPubrel | KindOther.

#[export] Instance record_kind_eq_dec : EqDecision record_kind.
Proof. solve_decision. Defined.

Definition kind_of_key (key : string) : record_kind * Z :=
  if has_stem PERSISTENCE_COMMAND_KEY key || has_stem PERSISTENCE_V5_COMMAND_KEY key ||
     has_stem PERSISTENCE_QUEUE_KEY key || has_stem PERSISTENCE_V5_QUEUE_KEY key
  then (KindIgnored, MQTTVERSION_3_1_1)
  else if has_stem PERSISTENCE_V5_PUBLISH_RECEIVED key then (KindReceived, MQTTVERSION_5)
  else if has_stem PERSISTENCE_V5_PUBLISH_SENT key then (KindSent, MQTTVERSION_5)
  else if has_stem PERSISTENCE_V5_PUBREL key then (KindPubrel, MQTTVERSION_5)
  else if has_stem PERSISTENCE_PUBLISH_RECEIVED key then (KindReceived, MQTTVERSION_3_1_1)
  else if has_stem PERSISTENCE_PUBLISH_SENT key then (KindSent, MQTTVERSION_3_1_1)
  else if has_stem PERSISTENCE_PUBREL key then (KindPubrel, MQTTVERSION_3_1_1)
  else (KindOther, MQTTVERSION_3_1_1).

(** What becomes of the packet of a record of that kind: the parser is the one
    for the type in the packet, the casts go by the key. *)
Definition restore_record (i : nat) (kind : record_kind) (key : string) (pack : Packet) : P (Z * bool) :=
  match kind, pack with
  | KindReceived, PacketPublish p => rc ← restore_received i p; mret (rc, false)
  | KindSent, PacketPublish p => restore_sent i p
  | KindPubrel, PacketAck a => restore_pubrel i key a
  | KindIgnored, _ | KindOther, _ => mret (0, false)
  | _, _ => fail WrongMember
  end.

(** The turn of the loop of MQTTPersistence_restorePackets for a key *)
Definition restore_key (i : nat) (key : string) : P (Z * bool) :=
  let '(kind, data_MQTTVersion) := kind_of_key key in
  if decide (kind = KindIgnored) then mret (0, false) else
  r ← lift (pget key);
  let '(rc, buffer) := r : Z * option (list Z) in
  if decide (rc ≠ 0) then mret (rc, false) else
  match buffer with
  | None => fail NullDeref
  | Some buffer =>
    r ← lift (after_read buffer);
    let '(rc, buffer) := r : Z * list Z in
    if decide (rc ≠ 0) then mret (rc, false) else
    c ← client_at i;
    if decide (data_MQTTVersion = MQTTVERSION_5 ∧ c_MQTTVersion c < MQTTVERSION_5)
    then mret (MQTTCLIENT_PERSISTENCE_ERROR, true) else
    pack ← lift (MQTTPersistence_restorePacket data_MQTTVersion buffer);
    match pack : option Packet with
    | None => rc ← lift (premove key); mret (rc, false)
    | Some pack => restore_record i kind key pack
    end
  end.

Fixpoint restore_keys (i : nat) (keys : list string) : P (Z * bool) :=
  match keys with
  | [] => mret (0, false)
  | key :: keys' =>
    r ← restore_key i key;
    let '(rc, exit) := r : Z * bool in
    if decide (rc = 0 ∧ exit = false) then restore_keys i keys' else mret (rc, exit)
  end.

Definition MQTTPersistence_restorePackets (i : nat) : P Z :=
  r ← (if has_store per then
         r ← lift pkeys;
         let '(rc, keys) := r : Z * list string in
         if decide (rc = 0) then restore_keys i keys else mret (rc, false)
       else mret (0, false) : P (Z * bool));
  let '(rc, exit) := r : Z * bool in
  _ ← (if exit : bool then mret tt else
         c ← client_at i;
         update_client i (set_outboundMsgs (MQTTPersistence_wrapMsgID (outboundMsgs c))));
  mret rc.

Definition MQTTPersistence_initialize (i : nat) (serverURI : list Z) : P Z :=
  if has_store per then
    c ← client_at i;
    rc ← lift (popen (clientID c) serverURI);
    if decide (rc = 0) then MQTTPersistence_restorePackets i else mret rc
  else mret 0.
End Packets.
