(* ===== verification/Queue.v ===== *)
(** * The persisted queue of messages for the application (src/src/MQTTPersistence.c)

    A message that waits for the application is a record of its own: its
    fields one after the other, in the byte order of the host, and in version
    5 its properties as in a packet.  The key holds a sequence number
    ([qentry_seqno] of the client), by which the queue is ordered again when it
    is restored. *)
From stdpp Require Import pretty sorting.
From S2P Require Import Prelude Words Buffers LinkedList Properties PacketIn Clients PacketOut Receive Protocol Persistence.
Local Open Scope Z_scope.

(** An entry of the queue and its sequence number *)
Record queued_entry := mkQueued { q_entry : qEntry; q_seqno : Z }.

(** ** The C library *)

Definition dash : Ascii.ascii := Ascii.ascii_of_nat 45.
Definition plus : Ascii.ascii := Ascii.ascii_of_nat 43.

(** [atoi], for a number that fits *)
Definition digit_of (c : Ascii.ascii) : option Z :=
  let n := Z.of_nat (Ascii.nat_of_ascii c) in
  if decide (48 ≤ n ≤ 57) then Some (n - 48) else None.

Fixpoint digits_value (acc : Z) (s : string) : Z :=
  match s with
  | EmptyString => acc
  | String c s' => match digit_of c with Some d => digits_value (acc * 10 + d) s' | None => acc end
  end.

Definition is_space (c : Ascii.ascii) : bool :=
  let n := Z.of_nat (Ascii.nat_of_ascii c) in bool_decide (n = 32 ∨ 9 ≤ n ≤ 13).

Fixpoint atoi (s : string) : Z :=
  match s with
  | EmptyString => 0
  | String c s' =>
    if is_space c then atoi s'
    else if decide (c = dash) then - digits_value 0 s'
    else if decide (c = plus) then digits_value 0 s'
    else digits_value 0 s
  end.

(** [strchr(s, '-') + 1]; a null pointer when there is none *)
Fixpoint after_dash (s : string) : option string :=
  match s with
  | EmptyString => None
  | String c s' => if decide (c = dash) then Some s' else after_dash s'
  end.

(** ** Reading a record *)
Section Read.
Variable le : bool.   (* the byte order of the host *)

(** [*(int* )ptr; ptr += sizeof(int)] *)
Definition read_int : M reader Z :=
  bs ← read_block 4;
  _ ← advance 4;
  mret (int_of_bytes le bs).

(** [strlen(ptr)]: there has to be a NUL in the rest of the block. *)
Definition read_strlen : M reader nat := λ s,
  let rest := drop (r_pos s) (r_mem s) in
  if decide (strlen rest < length rest)%nat then Ok (strlen rest, s) else Err OutOfBounds.

Definition MQTTPersistence_restoreQueueEntry (MQTTVersion : Z) (buflen : nat) : M reader (option qEntry) :=
  qe ← malloc;
  if negb qe then mret None else
  msg ← malloc;
  if negb msg then mret None else
  payloadlen ← read_int;
  ok ← alloc_size payloadlen;
  if negb ok then mret None else
  payload ← read_block (Z.to_nat payloadlen);
  _ ← advance (Z.to_nat payloadlen);
  qos ← read_int;
  retained ← read_int;
  dup ← read_int;
  msgid ← read_int;
  n ← read_strlen;
  ok ← malloc;
  if negb ok then mret None else
  topic ← read_block (n + 1);
  _ ← advance (n + 1);
  topicLen ← read_int;
  props ← (if decide (MQTTVersion >= MQTTVERSION_5) then
             r ← MQTTProperties_read MQTTProperties_initializer buflen;
             mret (snd (r : Z * MQTTProperties))
           else mret MQTTProperties_initializer);
  mret (Some {| topicName := Some topic; topicLen := topicLen; q_payload := Some payload;
    q_payloadlen := payloadlen; q_qos := qos; q_retained := retained; q_dup := dup;
    q_msgid := msgid; q_properties := props |}).
End Read.

Section Queue.
Context {T : Type} `{HasHeap T, HasBlocks T, Transport T, Session T, Store T}.
Variable per : persistence T.
Variable le : bool.

(** ** Keys *)
Definition queue_stem (MQTTVersion : Z) : string :=
  if decide (MQTTVersion >= MQTTVERSION_5) then PERSISTENCE_V5_QUEUE_KEY else PERSISTENCE_QUEUE_KEY.

Definition is_queue_key (key : string) : bool :=
  has_stem PERSISTENCE_QUEUE_KEY key || has_stem PERSISTENCE_V5_QUEUE_KEY key.

(** ** Writing *)

(** [++aclient->qentry_seqno], an [unsigned int], back to 0 at the limit *)
Definition next_seqno (n : Z) : Z :=
  let n := u32 (n + 1) in if decide (n = PERSISTENCE_SEQNO_LIMIT) then 0 else n.

(** The buffers but the properties *)
Definition entry_buffers (qe : qEntry) : M T (list (list Z)) :=
  payload ← slice (q_payloadlen qe) (q_payload qe);
  topic ← deref (topicName qe);
  mret [int_bytes le (q_payloadlen qe); payload; int_bytes le (q_qos qe); int_bytes le (q_retained qe);
    int_bytes le (q_dup qe); int_bytes le (q_msgid qe); cstr topic ++ [0]; int_bytes le (topicLen qe)].

(** A block of [n] bytes filled by [w], and what [w] returns *)
Definition fill_result {A} (n : Z) (w : M writer A) : M T (list Z * A) := λ s,
  match w (Writer (Z.to_nat n) []) with
  | Ok (a, w') =>
    if decide (length (w_out w') = Z.to_nat n) then Ok (w_out w', a, s) else Err Uninitialised
  | Err f => Err f
  end.

(** The completion code, the client's [qentry_seqno] and, if it was set, the
    sequence number of the entry.  The completion code of the properties is
    that of [MQTTProperties_write], and the entry is put only if the code is 0. *)
Definition MQTTPersistence_persistQueueEntry (MQTTVersion qentry_seqno : Z) (qe : qEntry) :
    M T (Z * Z * option Z) :=
  bufs ← entry_buffers qe;
  let qentry_seqno := next_seqno qentry_seqno in
  r ← (if decide (MQTTVersion >= MQTTVERSION_5) then
         let temp_len := MQTTProperties_len (Some (q_properties qe)) in
         ok ← alloc_size temp_len;
         if negb ok then mret None else
         r ← fill_result temp_len (MQTTProperties_write (Some (q_properties qe)));
         let '(data, rc) := r : list Z * Z in
         mret (Some (bufs ++ [data], rc))
       else mret (Some (bufs, 0)) : M T (option (list (list Z) * Z)));
  match r : option (list (list Z) * Z) with
  | None => mret (PAHO_MEMORY_ERROR, qentry_seqno, None)
  | Some (bufs, rc) =>
    match print_key (queue_stem MQTTVersion) qentry_seqno with
    | None => mret (MQTTCLIENT_PERSISTENCE_ERROR, qentry_seqno, None)
    | Some key =>
      r ← (match beforeWrite per with Some f => f bufs | None => mret (rc, bufs) end);
      let '(rc, bufs) := r : Z * list (list Z) in
      rc ← (if decide (rc = 0) then pput key bufs else mret rc);
      mret (rc, qentry_seqno, Some qentry_seqno)
    end
  end.

Definition MQTTPersistence_unpersistQueueEntry (MQTTVersion : Z) (seqno : Z) : M T Z :=
  match print_key (queue_stem MQTTVersion) seqno with
  | None => mret MQTTCLIENT_PERSISTENCE_ERROR
  | Some key => premove key
  end.

(** ** Restoring *)
Fixpoint seqno_above (seqno : Z) (l : list queued_entry) : option nat :=
  match l with
  | [] => None
  | q :: l' => if decide (seqno < q_seqno q) then Some 0%nat else S <$> seqno_above seqno l'
  end.

Definition MQTTPersistence_insertInSeqOrder (l : alist queued_entry) (q : queued_entry) :
    M T (bool * alist queued_entry) :=
  match seqno_above (q_seqno q) (items l) with
  | Some k => list_insert l k q
  | None => list_append l q
  end.

(** The turn of the loop for a key, with the queue and the [qentry_seqno] of
    the client *)
Definition restore_queue_key (key : string) (queue : alist queued_entry) (qentry_seqno : Z) :
    M T (Z * alist queued_entry * Z) :=
  if negb (is_queue_key key) then mret (0, queue, qentry_seqno) else
  r ← pget key;
  let '(rc, buffer) := r : Z * option (list Z) in
  if decide (rc ≠ 0) then mret (rc, queue, qentry_seqno) else
  match buffer with
  | None => fail NullDeref
  | Some buffer =>
    r ← after_read per buffer;
    let '(rc, buffer) := r : Z * list Z in
    if decide (rc ≠ 0) then mret (rc, queue, qentry_seqno) else
    let MQTTVersion := if has_stem PERSISTENCE_V5_QUEUE_KEY key then MQTTVERSION_5
                       else MQTTVERSION_3_1_1 in
    qe ← run_parser (MQTTPersistence_restoreQueueEntry le MQTTVersion (length buffer)) buffer;
    match qe : option qEntry with
    | None => mret (rc, queue, qentry_seqno)
    | Some qe =>
      match after_dash key with
      | None => fail NullDeref
      | Some digits =>
        let seqno := u32 (atoi digits) in
        r ← MQTTPersistence_insertInSeqOrder queue (mkQueued qe seqno);
        mret (rc, snd (r : bool * alist queued_entry), Z.max qentry_seqno seqno)
      end
    end
  end.

Fixpoint restore_queue_keys (keys : list string) (queue : alist queued_entry) (qentry_seqno : Z) :
    M T (Z * alist queued_entry * Z) :=
  match keys with
  | [] => mret (0, queue, qentry_seqno)
  | key :: keys' =>
    r ← restore_queue_key key queue qentry_seqno;
    let '(rc, queue, qentry_seqno) := r : Z * alist queued_entry * Z in
    if decide (rc = 0) then restore_queue_keys keys' queue qentry_seqno
    else mret (rc, queue, qentry_seqno)
  end.

Definition MQTTPersistence_restoreMessageQueue (queue : alist queued_entry) (qentry_seqno : Z) :
    M T (Z * alist queued_entry * Z) :=
  if has_store per then
    r ← pkeys;
    let '(rc, keys) := r : Z * list string in
    if decide (rc = 0) then restore_queue_keys keys queue qentry_seqno
    else mret (rc, queue, qentry_seqno)
  else mret (0, queue, qentry_seqno).
End Queue.
