(* ===== verification/Sessions.v ===== *)
(** * Sessions, keep alive and retries (src/src/MQTTProtocolClient.c, src/src/MQTTProtocolOut.c, src/src/MQTTClient.c)

    What the library does with its clients from time to time: keep alive
    processing, resending what is in flight, acknowledgements that had to
    wait for the socket, and the end of a session. *)
From S2P Require Import Prelude Buffers LinkedList Properties PacketIn Names Clients PacketOut.
From S2P Require Import Protocol.
Local Open Scope Z_scope.


Section Sessions.
Context {T : Type} `{HasHeap T, HasBlocks T, Transport T, Session T}.
Notation P := (M (pstate T)).

(** ** The end of a session *)

(** The walk over the messages of a list before it is emptied. *)
Fixpoint empty_messages (ms : list Messages) : P unit :=
  match ms with
  | [] => mret tt
  | m :: ms =>
    _ ← MQTTProtocol_removePublication (m_publish m);
    _ ← free_properties (m_MQTTVersion m) (m_properties m);
    empty_messages ms
  end.

(** The list after [MQTTProtocol_emptyMessageList]. *)
Definition MQTTProtocol_emptyMessageList (msgList : alist Messages) : P (alist Messages) :=
  _ ← empty_messages (items msgList); mret al_nil.

Fixpoint empty_queue (qes : list qEntry) : P unit :=
  match qes with
  | [] => mret tt
  | qe :: qes => _ ← MQTTProperties_free (q_properties qe); empty_queue qes
  end.

Definition MQTTClient_emptyMessageQueue (i : nat) : P unit :=
  c ← client_at i;
  if decide (items (messageQueue c) = []) then mret tt else
  _ ← empty_queue (items (messageQueue c));
  update_client i (set_messageQueue al_nil).

Definition MQTTClient_cleanSession (i : nat) : P Z :=
  c ← client_at i;
  rc ← lift (persistence_clear (clientID c));
  l ← MQTTProtocol_emptyMessageList (inboundMsgs c);
  _ ← update_client i (set_inboundMsgs l);
  l ← MQTTProtocol_emptyMessageList (outboundMsgs c);
  _ ← update_client i (set_outboundMsgs l);
  _ ← MQTTClient_emptyMessageQueue i;
  _ ← update_client i (set_msgID 0);
  mret rc.

Definition set_socket (sock : Z) (c : Clients) : Clients :=
  set_net (mkNet sock (lastSent (net c)) (lastReceived (net c)) (lastPing (net c))) c.

Definition MQTTClient_closeSession (i : nat) (reason : Z) (props : option MQTTProperties)
  : P unit :=
  _ ← update_client i (λ c, set_ping 0 0 (ping_due_time c) (set_good 0 c));
  c ← client_at i;
  _ ← (if decide (0 < socket (net c)) then
         _ ← (if decide (connected c ≠ 0)
              then send_on i (λ _, MQTTPacket_send_disconnect c reason props) else mret 0);
         c ← client_at i;
         _ ← lift (close_socket (net c));
         update_client i (set_socket 0)
       else mret tt);
  _ ← update_client i (set_connected 0);
  c ← client_at i;
  if decide (c_MQTTVersion c < MQTTVERSION_5 ∧ cleansession c ≠ 0) then
    _ ← MQTTClient_cleanSession i; mret tt
  else mret tt.

(** [MQTTClient_disconnect1] with the time limit 0, as
    [MQTTClient_disconnect_internal] calls it, does not wait for the messages
    in flight. *)
Definition MQTTProtocol_closeSession (i : nat) : P unit :=
  c ← client_at i;
  let was_connected := connected c in
  _ ← MQTTClient_closeSession i MQTTREASONCODE_NORMAL_DISCONNECTION None;
  lift (connection_lost (clientID c) was_connected).

(** ** Keep alive *)
Definition keepalive_client (now_ : Z) (i : nat) : P unit :=
  client ← client_at i;
  let ping :=
    rc ← send_on i MQTTPacket_send_pingreq;
    if decide (rc ≠ TCPSOCKET_COMPLETE) then MQTTProtocol_closeSession i
    else
      update_client i (λ c, set_ping 1 0 (ping_due_time c)
        (set_net (mkNet (socket (net c)) (lastSent (net c)) (lastReceived (net c)) now_) c)) in
  let since t := MQTTTime_difftime now_ t in
  if decide (connected client = 0 ∨ keepAliveInterval client = 0) then mret tt
  else if decide (ping_outstanding client = 1) then
    if decide (keepAliveInterval client * 1500 ≤ since (lastPing (net client)) ∧
               keepAliveInterval client * 1500 ≤ since (lastReceived (net client)))
    then MQTTProtocol_closeSession i else mret tt
  else if decide (ping_due client = 1 ∧
                  keepAliveInterval client * 1500 ≤ since (ping_due_time client)) then
    if decide (since (ping_due_time client) ≤ since (lastReceived (net client)))
    then MQTTProtocol_closeSession i else mret tt
  else if decide (keepAliveInterval client * 1000 ≤ since (lastSent (net client))) then
    free ← nothing_pending (socket (net client));
    if free : bool then ping
    else if decide (ping_due client = 0)
    then update_client i (set_ping (ping_outstanding client) 1 now_) else mret tt
  else if decide (keepAliveInterval client * 1000 ≤ since (lastReceived (net client))) then
    free ← nothing_pending (socket (net client));
    if free : bool then ping else mret tt
  else mret tt.

Fixpoint each_client (f : nat → P unit) (js : list nat) : P unit :=
  match js with
  | [] => mret tt
  | i :: js => _ ← f i; each_client f js
  end.

(** The loop over [bstate->clients]. *)
Definition for_clients (f : nat → P unit) : P unit :=
  n ← gets (λ s, length (items (clients s)));
  each_client f (seq 0 n).

Definition MQTTProtocol_keepalive (now_ : Z) : P unit := for_clients (keepalive_client now_).

(** ** Retries *)
Definition update_message (i k : nat) (f : Messages → Messages) : P unit :=
  update_outbound i (al_alter f k).

(** One message is sent again; [false]: the session was closed.  The messages
    of the list have QoS 1 or 2, so that the branch for an unfinished write of
    QoS 0 has nothing to do. *)
Definition retry_message (i k : nat) (m : Messages) : P bool :=
  let lost := _ ← update_client i (set_good 0); _ ← MQTTProtocol_closeSession i; mret false in
  let touch := t ← lift now; _ ← update_message i k (λ m, touch_message (nextMessageType m) (Some t) m);
               mret true in
  next ← (if decide (m_qos m = 2) then written (nextMessageType m) else mret 0);
  if decide (m_qos m = 1 ∨ m_qos m = 2 ∧ next = PUBREC) then
    c ← client_at i;
    pb ← publication_at (m_publish m);
    let publish := mkPublish (mkHeader 0 0 0 0) (p_topic pb) 0 (msgid m) (p_payload pb)
      (p_payloadlen pb) (m_MQTTVersion m) (default MQTTProperties_initializer (m_properties m))
      (p_mask pb) in
    r ← lift (MQTTPacket_send_publish publish 1 (m_qos m) (m_retain m) (net c));
    let '(rc, msk, n) := r : Z * list Z * networkHandles in
    _ ← update_client i (set_net n);
    _ ← update_publication (m_publish m) (set_p_mask msk);
    if decide (rc = SOCKET_ERROR) then lost else touch
  else if decide (m_qos m ≠ 0 ∧ next = PUBCOMP) then
    rc ← send_on i (MQTTPacket_send_pubrel (m_MQTTVersion m) (msgid m) 0);
    if decide (rc ≠ TCPSOCKET_COMPLETE) then lost else touch
  else mret true.

(** The loop over the outbound messages from the index [k] on; [n] are left. *)
Fixpoint retries_loop (now_ : Z) (i : nat) (regardless : bool) (k n : nat) : P unit :=
  match n with
  | O => mret tt
  | S n =>
    c ← client_at i;
    if decide (connected c = 0 ∨ good c = 0) then mret tt else
    free ← nothing_pending (socket (net c));
    if negb free then mret tt else
    m ← written (items (outboundMsgs c) !! k);
    due ← (if regardless then mret true
           else t ← written (lastTouch (m : Messages));
                mret (bool_decide (Z.max (retryInterval c) 10 * 1000 < MQTTTime_difftime now_ t))
           : P bool);
    if due : bool then
      _ ← (if regardless
           then update_client i (λ c, set_connect (connect_count c) (connect_sent c + 1) c)
           else mret tt);
      goes_on ← retry_message i k m;
      if goes_on : bool then retries_loop now_ i regardless (S k) n else mret tt
    else retries_loop now_ i regardless (S k) n
  end.

Definition MQTTProtocol_retries (now_ : Z) (i : nat) (regardless : bool) : P unit :=
  c ← client_at i;
  if decide (regardless = false ∧ retryInterval c ≤ 0 ∧ connect_sent c = connect_count c)
  then mret tt
  else
    let n := length (items (outboundMsgs c)) in
    _ ← (if regardless
         then update_client i (λ c, set_connect (Z.of_nat n) (connect_sent c) c)
         else mret tt);
    retries_loop now_ i (regardless || bool_decide (connect_sent c < connect_count c)) 0 n.

Definition MQTTProtocol_retry (now_ : Z) (doRetry regardless : bool) : P unit :=
  for_clients (λ i,
    client ← client_at i;
    if decide (connected client = 0) then mret tt
    else if decide (good client = 0) then MQTTProtocol_closeSession i
    else
      free ← nothing_pending (socket (net client));
      if (free : bool) && doRetry then MQTTProtocol_retries now_ i regardless else mret tt).

(** ** Writes that waited for the socket *)
Definition send_queued (i : nat) (v : Z) (ackReq : AckRequest) : P Z :=
  if decide (ackType ackReq = PUBACK) then
    send_on i (MQTTPacket_send_puback v (messageId ackReq))
  else if decide (ackType ackReq = PUBREC) then
    send_on i (MQTTPacket_send_pubrec v (messageId ackReq))
  else if decide (ackType ackReq = PUBREL) then
    send_on i (MQTTPacket_send_pubrel v (messageId ackReq) 0)
  else if decide (ackType ackReq = PUBCOMP) then
    send_on i (MQTTPacket_send_pubcomp v (messageId ackReq))
  else mret 0.

Fixpoint send_acks (i : nat) (v : Z) (l : list AckRequest) : P unit :=
  match l with
  | [] => mret tt
  | a :: l => rc ← send_queued i v a; if decide (rc = 0) then send_acks i v l else mret tt
  end.

Definition MQTTProtocol_writeAvailable (sock : Z) : P unit :=
  i ← findClient sock;
  c ← client_at i;
  _ ← send_acks i (c_MQTTVersion c) (items (outboundQueue c));
  update_client i (set_outboundQueue al_nil).

(** The loop over [state.pending_writes]; [n] entries are left from [k] on. *)
Fixpoint check_writes (k n : nat) : P unit :=
  match n with
  | O => mret tt
  | S n =>
    l ← gets pending_writes;
    match items l !! k with
    | None => mret tt
    | Some w =>
      free ← nothing_pending (pw_socket w);
      if free : bool then
        _ ← MQTTProtocol_removePublication (pw_p w);
        _ ← modify (set_pending_writes (al_delete k (AList (items l) (Some k))));
        check_writes k n
      else check_writes (S k) n
    end
  end.

Definition MQTTProtocol_checkPendingWrites : P unit :=
  n ← gets (λ s, length (items (pending_writes s)));
  check_writes 0 n.

(** ** The other packets *)
Definition MQTTProtocol_handlePingresps (sock : Z) : P Z :=
  i ← findClient sock;
  _ ← update_client i (λ c, set_ping 0 (ping_due c) (ping_due_time c) c);
  mret TCPSOCKET_COMPLETE.

Definition MQTTProtocol_subscribe (i : nat) (topics : list (list Z)) (qoss : list Z)
    (id : Z) (opts : option (list MQTTSubscribe_options)) (props : option MQTTProperties)
  : P Z :=
  c ← client_at i;
  send_on i (λ _, MQTTPacket_send_subscribe topics qoss opts props id 0 c).

Definition MQTTProtocol_unsubscribe (i : nat) (topics : list (list Z)) (id : Z)
    (props : option MQTTProperties) : P Z :=
  c ← client_at i;
  send_on i (λ _, MQTTPacket_send_unsubscribe topics props id 0 c).

Definition MQTTProtocol_handleSubacks (suback : Suback) (sock : Z) : P Z :=
  _ ← findClient sock; _ ← MQTTPacket_freeSuback suback; mret TCPSOCKET_COMPLETE.

Definition MQTTProtocol_handleUnsubacks (unsuback : Unsuback) (sock : Z) : P Z :=
  _ ← findClient sock; _ ← MQTTPacket_freeUnsuback unsuback; mret TCPSOCKET_COMPLETE.

Definition MQTTProtocol_handleDisconnects (disconnect : Ack) (sock : Z) : P Z :=
  _ ← findClient sock; _ ← MQTTPacket_freeAck disconnect; mret TCPSOCKET_COMPLETE.
End Sessions.
