(* ===== verification/ProtocolLaws.v ===== *)
(** * Rules for the protocol functions

    What the protocol code relies on below ([SessionLaws]), the invariant of
    the state it works on, and a rule for each of its building blocks.

    The rules speak about one client: [loc i O W bs pl out c s] says that in
    the state [s] the client at position [i] is [c], the others are [O], the
    unfinished QoS 0 writes are [W], the publications allocated are [bs], the
    list of them is [pl], the bytes on their way are [out], and allocations do
    not fail. *)
From S2P Require Import Prelude Buffers LinkedList Properties PacketIn Names Clients PacketOut.
From S2P Require Import Protocol Sessions.
Local Open Scope Z_scope.

(** ** What the layers below promise *)

(** The operation returns and sends nothing. *)
Definition quiet {T} `{TransportLaws T} {A} (m : M T A) : Prop :=
  ∀ t, ∃ a t', m t = Ok (a, t') ∧ sent t' = sent t.

(** The operation does not make allocations fail. *)
Definition keeps_heap {T} `{HasHeap T} {A} (m : M T A) : Prop :=
  ∀ t a t', m t = Ok (a, t') → heap_of t = [] → heap_of t' = [].

Class SessionLaws (T : Type) `{TransportLaws T, !Session T} := {
  noPendingWrites_quiet sock : quiet (noPendingWrites sock);
  persistence_remove_quiet id key q n : quiet (persistence_remove id key q n);
  persistence_clear_quiet id : quiet (persistence_clear id);
  persist_queue_entry_quiet id qe : quiet (persist_queue_entry id qe);
  updateWrite_quiet sock t d : quiet (updateWrite sock t d);
  close_socket_quiet net : quiet (close_socket net);
  connection_lost_quiet id was : quiet (connection_lost id was);
  heap_noPendingWrites sock : keeps_heap (noPendingWrites sock);
  heap_persistence_remove id key q n : keeps_heap (persistence_remove id key q n);
  heap_persistence_clear id : keeps_heap (persistence_clear id);
  heap_persist_queue_entry id qe : keeps_heap (persist_queue_entry id qe);
  heap_updateWrite sock t d : keeps_heap (updateWrite sock t d);
  heap_close_socket net : keeps_heap (close_socket net);
  heap_connection_lost id was : keeps_heap (connection_lost id was);
  heap_putdatas sock hdr bufs msk : keeps_heap (putdatas sock hdr bufs msk);
  heap_now : keeps_heap now;
  heap_putPacket sock hdr bufs ty id scr v : keeps_heap (putPacket sock hdr bufs ty id scr v);
  heap_set_live l (t : T) : heap_of (set_live l t) = heap_of t;
}.

(** ** Allocation in the senders *)
Section Keeps.
Context {T : Type} `{SessionLaws T}.

Lemma keeps_ret {A} (a : A) : keeps_heap (mret a : M T A).
Proof. by intros t ? ? [= _ <-]. Qed.

Lemma keeps_fail {A} f : keeps_heap (fail f : M T A).
Proof. done. Qed.

Lemma keeps_bind {A B} (m : M T A) (k : A → M T B) :
  keeps_heap m → (∀ a, keeps_heap (k a)) → keeps_heap (m ≫= k).
Proof.
  intros Hm Hk t b t' Hr Ht. apply bind_inv in Hr as (a & t1 & Hr1 & Hr2).
  eapply Hk; [exact Hr2 | by eapply Hm].
Qed.

Lemma keeps_malloc : keeps_heap (malloc : M T bool).
Proof. intros t a t' Hr Ht. rewrite malloc_succeeds in Hr by done. by injection Hr as _ <-. Qed.

Lemma keeps_new_block : keeps_heap (new_block : M T ptr).
Proof.
  unfold new_block. apply keeps_bind; [apply keeps_malloc |]. intros [|]; [| apply keeps_ret].
  intros t a t'. mrun. intros [= _ <-]. by rewrite heap_set_live.
Qed.

Lemma keeps_free_block p : keeps_heap (free_block p : M T unit).
Proof.
  intros t a t'. unfold free_block. destruct p as [b |]; [| by intros [= _ <-]].
  case_decide; [| done]. intros [= _ <-]. by rewrite heap_set_live.
Qed.

Lemma keeps_state {A} (m : M T A) : (∀ t a t', m t = Ok (a, t') → t' = t) → keeps_heap m.
Proof. intros Hm t a t' Hr. by apply Hm in Hr as ->. Qed.

Lemma keeps_fill n w : keeps_heap (fill n w : M T (list Z)).
Proof.
  apply keeps_state. intros t a t'. unfold fill. destruct (w _) as [[? ?] |]; [| done].
  case_decide; [by intros [= _ <-] | done].
Qed.

Lemma keeps_slice n p : keeps_heap (slice n p : M T (list Z)).
Proof.
  apply keeps_state. intros t a t'. unfold slice. destruct p; case_decide; by intros [= _ <-].
Qed.

Lemma keeps_deref p : keeps_heap (deref p : M T (list Z)).
Proof. apply keeps_state. intros t a t'. destruct p; by intros [= _ <-]. Qed.

Lemma keeps_msgid_of b : keeps_heap (msgid_of b : M T Z).
Proof.
  apply keeps_state. intros t a t'. unfold msgid_of. destruct (readInt _) as [[? ?] |]; [| done].
  by intros [= _ <-].
Qed.
End Keeps.
#[export] Hint Resolve keeps_ret keeps_fail keeps_malloc keeps_new_block keeps_free_block
  keeps_fill keeps_slice keeps_deref keeps_msgid_of heap_putdatas heap_now heap_putPacket : paho.

Ltac solve_keeps :=
  repeat first
    [ solve [eauto with paho]
    | apply keeps_bind; [| intros]
    | match goal with |- keeps_heap (if decide ?P then _ else _) => destruct (decide P) end
    | match goal with |- keeps_heap (match ?x with _ => _ end) => destruct x end ].

Section KeepsSenders.
Context {T : Type} `{SessionLaws T}.

Lemma keeps_touch_sent rc net : keeps_heap (touch_sent rc net : M T networkHandles).
Proof. unfold touch_sent. solve_keeps. Qed.
Lemma keeps_free_unless rc p : keeps_heap (free_unless_interrupted rc p : M T unit).
Proof. unfold free_unless_interrupted. solve_keeps. Qed.
#[local] Hint Resolve keeps_touch_sent keeps_free_unless : paho.

Lemma keeps_send net h b buf fd v : keeps_heap (MQTTPacket_send net h b buf fd v : M T _).
Proof. unfold MQTTPacket_send. solve_keeps. Qed.
Lemma keeps_sends net h bufs msk v : keeps_heap (MQTTPacket_sends net h bufs msk v : M T _).
Proof. unfold MQTTPacket_sends. solve_keeps. Qed.
#[local] Hint Resolve keeps_send keeps_sends : paho.

Lemma keeps_send_block net h n w v : keeps_heap (send_block net h n w v : M T _).
Proof. unfold send_block, alloc_block. solve_keeps. Qed.
#[local] Hint Resolve keeps_send_block : paho.

Lemma keeps_send_ack v ty id dp net : keeps_heap (MQTTPacket_send_ack v ty id dp net : M T _).
Proof. apply keeps_send_block. Qed.
Lemma keeps_send_disconnect c r p : keeps_heap (MQTTPacket_send_disconnect c r p : M T _).
Proof. unfold MQTTPacket_send_disconnect. solve_keeps. Qed.
Lemma keeps_send_publish p dp q rt net : keeps_heap (MQTTPacket_send_publish p dp q rt net : M T _).
Proof. unfold MQTTPacket_send_publish, alloc_block. solve_keeps. Qed.
End KeepsSenders.

(** ** On a network that takes every write

    There the senders report completion. *)

(** Every write is completed at once. *)
Record reliable (T : Type) `{Transport T} : Prop := {
  rel_putdatas sock hdr bufs msk t rc msk' t' :
    putdatas (T := T) sock hdr bufs msk t = Ok (rc, msk', t') → rc = TCPSOCKET_COMPLETE;
  rel_pending sock t b t' : noPendingWrites (T := T) sock t = Ok (b, t') → b = true;
}.

Section Complete.
Context {T : Type} {HH : HasHeap T} {HB : HasBlocks T} {HT : Transport T}
  {TL : TransportLaws T} {HS : Session T} {SL : SessionLaws T}.
Context (HR : reliable T).

Lemma new_block_some (t : T) p t' :
  heap_of t = [] → new_block t = Ok (p, t') → is_Some p ∧ heap_of t' = [].
Proof.
  intros Ht Hn. split; [| by eapply keeps_new_block]. unfold new_block in Hn.
  rewrite (bind_ok _ _ _ _ _ (malloc_succeeds t Ht)) in Hn. revert Hn. mrun.
  intros [= <- _]. by eexists.
Qed.

Lemma send_complete net h b buf fd v (t : T) rc n t' :
  heap_of t = [] → MQTTPacket_send net h b buf fd v t = Ok (rc, n, t') → rc = TCPSOCKET_COMPLETE.
Proof.
  intros Ht Hr. unfold MQTTPacket_send in Hr.
  apply bind_inv in Hr as (p & t1 & Hp & Hr).
  apply new_block_some in Hp as [[a ->] _]; [| done].
  apply bind_inv in Hr as ([] & t2 & _ & Hr).
  apply bind_inv in Hr as ([rc' msk] & t3 & Hput & Hr). cbn [fst] in Hr.
  apply (rel_putdatas _ HR) in Hput as ->.
  apply bind_inv in Hr as (n' & t4 & _ & Hr). apply bind_inv in Hr as ([] & t5 & _ & Hr).
  revert Hr. mrun. by intros [= <- _ _].
Qed.

Lemma sends_complete net h bufs msk v (t : T) rc k n t' :
  heap_of t = [] → MQTTPacket_sends net h bufs msk v t = Ok (rc, k, n, t') →
  rc = TCPSOCKET_COMPLETE.
Proof.
  intros Ht Hr. unfold MQTTPacket_sends in Hr.
  apply bind_inv in Hr as (p & t1 & Hp & Hr).
  apply new_block_some in Hp as [[a ->] _]; [| done].
  apply bind_inv in Hr as ([] & t2 & _ & Hr).
  apply bind_inv in Hr as ([rc' msk'] & t3 & Hput & Hr).
  apply (rel_putdatas _ HR) in Hput as ->.
  apply bind_inv in Hr as (n' & t4 & _ & Hr). apply bind_inv in Hr as ([] & t5 & _ & Hr).
  revert Hr. mrun. by intros [= <- _ _ _].
Qed.

Lemma send_block_complete net h n w v (t : T) rc n' t' :
  0 ≤ n → heap_of t = [] → send_block net h n w v t = Ok (rc, n', t') → rc = TCPSOCKET_COMPLETE.
Proof.
  intros Hn Ht Hr. unfold send_block, alloc_block in Hr. rewrite decide_True in Hr by done.
  apply bind_inv in Hr as (p & t1 & Hp & Hr).
  apply new_block_some in Hp as [[a ->] Ht1]; [| done].
  apply bind_inv in Hr as (data & t2 & Hfill & Hr).
  pose proof (keeps_fill _ _ _ _ _ Hfill Ht1) as Ht2.
  apply bind_inv in Hr as ([rc' net'] & t3 & Hsend & Hr).
  apply send_complete in Hsend as ->; [| done].
  apply bind_inv in Hr as ([] & t4 & _ & Hr). revert Hr. mrun. by intros [= <- _ _].
Qed.

Lemma send_publish_complete p dp q rt net (t : T) rc k n t' :
  (0 < q ∨ 5 ≤ pub_MQTTVersion p →
   0 ≤ (if decide (0 < q) then 2 else 0) +
     (if decide (5 ≤ pub_MQTTVersion p) then MQTTProperties_len (Some (pub_properties p)) else 0)) →
  heap_of t = [] → MQTTPacket_send_publish p dp q rt net t = Ok (rc, k, n, t') →
  rc = TCPSOCKET_COMPLETE.
Proof.
  intros Hlen Ht Hr. unfold MQTTPacket_send_publish in Hr.
  apply bind_inv in Hr as (b & t1 & Hb & Hr). apply new_block_some in Hb as [[a ->] Ht1]; [| done].
  apply bind_inv in Hr as (tp & t2 & Htp & Hr). pose proof (keeps_deref _ _ _ _ Htp Ht1) as Ht2.
  apply bind_inv in Hr as ([[rc' k'] n'] & t3 & Hr3 & Hr).
  assert (rc' = TCPSOCKET_COMPLETE) as ->.
  { destruct (decide (0 < q ∨ 5 ≤ pub_MQTTVersion p)) as [Hd |].
    - apply bind_inv in Hr3 as (b2 & t4 & Hb2 & Hr3). unfold alloc_block in Hb2.
      rewrite decide_True in Hb2 by auto. apply new_block_some in Hb2 as [[a2 ->] Ht4]; [| done].
      apply bind_inv in Hr3 as (vh & t5 & Hvh & Hr3). pose proof (keeps_fill _ _ _ _ _ Hvh Ht4) as Ht5.
      apply bind_inv in Hr3 as (tl & t6 & Htl & Hr3). pose proof (keeps_fill _ _ _ _ _ Htl Ht5) as Ht6.
      apply bind_inv in Hr3 as (pl & t7 & Hpl & Hr3). pose proof (keeps_slice _ _ _ _ _ Hpl Ht6) as Ht7.
      apply bind_inv in Hr3 as ([[rc2 k2] n2] & t8 & Hs & Hr3).
      apply sends_complete in Hs as ->; [| done].
      apply bind_inv in Hr3 as ([] & t9 & _ & Hr3). revert Hr3. mrun. by intros [= <- _ _ _].
    - apply bind_inv in Hr3 as (tl & t6 & Htl & Hr3). pose proof (keeps_fill _ _ _ _ _ Htl Ht2) as Ht6.
      apply bind_inv in Hr3 as (pl & t7 & Hpl & Hr3). pose proof (keeps_slice _ _ _ _ _ Hpl Ht6) as Ht7.
      by apply sends_complete in Hr3. }
  apply bind_inv in Hr as ([] & t4 & _ & Hr). revert Hr. mrun. by intros [= <- _ _ _].
Qed.
End Complete.

(** ** Publications *)

(** A publication that one message refers to. *)
Record pub_ok (pb : Publications) : Prop := {
  pub_ok_count : refcount pb = 1;
  pub_ok_topic : ∃ t, p_topic pb = Some t ∧ short t;
  pub_ok_payload : ∃ d, p_payload pb = Some d ∧ 0 ≤ p_payloadlen pb ≤ Z.of_nat (length d);
}.

(** The list holds the publications allocated, and [R] are the references to
    them: one for each, so that none is leaked and none is used after it was
    freed. *)
Record pubs_ok (R : list positive) (bs : gmap positive Publications) (pl : list positive)
  : Prop := {
  pubs_nodup : NoDup pl;
  pubs_dom a : is_Some (bs !! a) ↔ a ∈ pl;
  pubs_exact : R ≡ₚ pl;
  refs_live a : a ∈ R → ∃ pb, bs !! a = Some pb ∧ pub_ok pb;
}.

Lemma refs_nodup R bs pl : pubs_ok R bs pl → NoDup R.
Proof. intros []. by rewrite pubs_exact0. Qed.

#[export] Instance pubs_ok_perm : Proper (Permutation ==> eq ==> eq ==> iff) pubs_ok.
Proof.
  intros R R' HR bs ? <- pl ? <-.
  split; intros [P1 P2 P3 P4]; constructor; try done; try (by rewrite <- P3); intros a Ha;
    apply P4; by rewrite HR in Ha || rewrite HR.
Qed.

Lemma pubs_ok_facts R bs pl :
  pubs_ok R bs pl →
  (∀ a, is_Some (bs !! a) ↔ a ∈ R) ∧ NoDup R ∧ (∀ a pb, bs !! a = Some pb → refcount pb = 1).
Proof.
  intros HP. pose proof (refs_nodup _ _ _ HP) as Hnd. destruct HP as [P1 P2 P3 P4].
  split_and!; [| done |].
  - intros a. by rewrite P3.
  - intros a pb Ha. destruct (P4 a) as (pb' & Hb & [Hc _ _]).
    + rewrite P3. apply P2. by eexists.
    + by simplify_eq.
Qed.

Lemma pubs_ok_new R bs pl pb :
  let a := fresh (dom bs) in
  pubs_ok R bs pl → pub_ok pb → bs !! a = None ∧ pubs_ok (a :: R) (<[a := pb]> bs) (pl ++ [a]).
Proof.
  intros a [H1 H2 H3 H4] Hp.
  assert (bs !! a = None) as Ha.
  { apply not_elem_of_dom. subst a. apply is_fresh. }
  assert (a ∉ pl) as Hpl by (rewrite <- H2, Ha; by intros [? ?]).
  split; [done |]. constructor.
  - apply NoDup_app. split_and!; [done | | apply NoDup_singleton].
    intros b Hb Hba. apply list_elem_of_singleton in Hba. by subst.
  - intros b. rewrite elem_of_app, list_elem_of_singleton, <- H2.
    destruct (decide (b = a)) as [-> |].
    + rewrite lookup_insert_eq. split; [by right | by eexists].
    + rewrite lookup_insert_ne by done. naive_solver.
  - rewrite H3. by apply Permutation_cons_append.
  - intros b Hb. destruct (decide (b = a)) as [-> |].
    + exists pb. by rewrite lookup_insert_eq.
    + rewrite lookup_insert_ne by done. apply H4. set_solver.
Qed.

Lemma pubs_ok_update R bs pl a pb pb' :
  bs !! a = Some pb → pub_ok pb' → pubs_ok R bs pl → pubs_ok R (<[a := pb']> bs) pl.
Proof.
  intros Ha Hp [H1 H2 H3 H4]. constructor; [done | | done |].
  - intros b. rewrite <- H2. destruct (decide (b = a)) as [-> |].
    + rewrite lookup_insert_eq, Ha. split; by eexists.
    + by rewrite lookup_insert_ne.
  - intros b Hb. destruct (decide (b = a)) as [-> |].
    + exists pb'. by rewrite lookup_insert_eq.
    + rewrite lookup_insert_ne by done. by apply H4.
Qed.

(** Removing a publication takes its first (and only) entry from the list. *)
Definition remove_one (a : positive) (pl : list positive) : list positive :=
  match list_find (λ b, bool_decide (b = a)) pl with
  | Some (k, _) => delete k pl
  | None => pl
  end.

Lemma remove_one_perm a pl : a ∈ pl → pl ≡ₚ a :: remove_one a pl.
Proof.
  intros Ha. unfold remove_one.
  destruct (list_find _ pl) as [[k b] |] eqn:E.
  - apply list_find_Some in E as (Hk & Hb & _). apply bool_decide_unpack in Hb as ->.
    by apply delete_Permutation.
  - apply list_find_None in E. rewrite Forall_forall in E. exfalso. apply (E a Ha).
    by apply bool_decide_pack.
Qed.

Lemma pubs_ok_remove R bs pl a :
  pubs_ok (a :: R) bs pl → pubs_ok R (delete a bs) (remove_one a pl).
Proof.
  intros HP. pose proof (refs_nodup _ _ _ HP) as Hnd. destruct HP as [H1 H2 H3 H4].
  apply NoDup_cons in Hnd as [Ha Hnd].
  assert (a ∈ pl) as Hin by (rewrite <- H3; left).
  pose proof (remove_one_perm a pl Hin) as Hp. rewrite Hp in H3. apply Permutation_cons_inv in H3.
  rewrite Hp in H1. apply NoDup_cons in H1 as [Hna H1]. constructor; [done | | done |].
  - intros b. destruct (decide (b = a)) as [-> |].
    + rewrite lookup_delete_eq. split; [by intros [? ?] | done].
    + rewrite lookup_delete_ne, H2 by done. rewrite Hp at 1. set_solver.
  - intros b Hb. rewrite lookup_delete_ne by (intros <-; done). apply H4. by right.
Qed.

(** ** Searching a list *)
Lemma al_find_items {A} (p : A → bool) l : items (snd (al_find p l)) = items l.
Proof. unfold al_find. destruct (_ ≫= _); [done |]. by destruct (list_find _ _) as [[? ?] |]. Qed.

Lemma al_find_some {A} (p : A → bool) l k :
  fst (al_find p l) = Some k → ∃ x, items l !! k = Some x ∧ p x.
Proof.
  unfold al_find. destruct (_ ≫= _) as [j |] eqn:E; cbn.
  - intros [= ->]. apply bind_Some in E as (j & _ & E). apply bind_Some in E as (x & Hx & E).
    destruct (p x) eqn:Hp; simplify_eq. exists x. split; [done | by rewrite Hp].
  - destruct (list_find _ _) as [[j x] |] eqn:E'; cbn; [| done]. intros [= ->].
    apply list_find_Some in E' as (Hx & Hp & _). eauto.
Qed.

Lemma al_find_none {A} (p : A → bool) l :
  fst (al_find p l) = None → Forall (λ x, ¬ p x) (items l).
Proof.
  unfold al_find. destruct (_ ≫= _); [done |].
  destruct (list_find _ _) as [[? ?] |] eqn:E; [done |]. intros _. by apply list_find_None in E.
Qed.

Lemma delete_other {A} (l : list A) k j x :
  l !! j = Some x → j ≠ k → x ∈ delete k l.
Proof.
  intros Hj Hne. destruct (decide (j < k)%nat).
  - apply (list_elem_of_lookup_2 _ j). by rewrite list_lookup_delete_lt.
  - apply (list_elem_of_lookup_2 _ (pred j)). rewrite list_lookup_delete_ge by lia.
    by replace (S (pred j)) with j by lia.
Qed.

(** ** The state of one client *)
Record loc {T} `{HasHeap T} {X} (snd_ : T → X) (i : nat) (O : list Clients) (W : alist pending_write)
    (bs : gmap positive Publications) (pl : list positive) (out : X) (c : Clients)
    (s : pstate T) : Prop := {
  loc_client : items (clients s) !! i = Some c;
  loc_others : delete i (items (clients s)) = O;
  loc_writes : pending_writes s = W;
  loc_blocks : blocks s = bs;
  loc_pubs : items (publications s) = pl;
  loc_sent : snd_ (below s) = out;
  loc_heap : heap_of (below s) = [];
}.

(** The rules of the operations that leave the layers below alone hold for any
    view [snd_] of them. *)
Section Frame.
Context {T : Type} {HH : HasHeap T} {X : Type} {snd_ : T → X}.
Notation P := (M (pstate T)).
Notation loc := (loc snd_).
Implicit Types (s : pstate T) (c : Clients).

Lemma wp_lift {A} (m : M T A) (Q : A → pstate T → Prop) s :
  wp m (λ a t, Q a (set_below t s)) (below s) → wp (lift m) Q s.
Proof. unfold wp, lift. by destruct (m (below s)) as [[a t] |]. Qed.

(** The operation returns and does not change what is seen of the layers below. *)
Definition frames (snd_ : T → X) {A} (m : M T A) : Prop :=
  ∀ t, ∃ a t', m t = Ok (a, t') ∧ snd_ t' = snd_ t.

Lemma wp_lift_frames {A} (m : M T A) i O W bs pl out c s (Q : A → pstate T → Prop) :
  frames snd_ m → keeps_heap m → loc i O W bs pl out c s →
  (∀ a s', loc i O W bs pl out c s' → Q a s') → wp (lift m) Q s.
Proof.
  intros Hq Hk [H1 H2 H3 H4 H5 H6 H7] HQ. apply wp_lift.
  destruct (Hq (below s)) as (a & t & Hm & Hs). eapply wp_intro; [exact Hm |].
  apply HQ. constructor; [done.. | |]; cbn; [by rewrite Hs | by eapply Hk].
Qed.

Lemma wp_findClient sock i O W bs pl out c s (Q : nat → pstate T → Prop) :
  loc i O W bs pl out c s → socket (net c) = sock →
  Forall (λ c', socket (net c') ≠ sock) O →
  (∀ s', loc i O W bs pl out c s' → Q i s') → wp (findClient sock) Q s.
Proof.
  intros [H1 H2 H3 H4 H5 H6 H7] Hc HO HQ. unfold wp, findClient.
  pose proof (al_find_items (clientSocketCompare sock) (clients s)) as Hitems.
  destruct (fst (al_find (clientSocketCompare sock) (clients s))) as [j |] eqn:E.
  - pose proof (al_find_some _ _ _ E) as (x & Hx & Hs). apply bool_decide_unpack in Hs.
    assert (j = i) as ->.
    { destruct (decide (j = i)) as [| Hne]; [done |]. exfalso. rewrite Forall_forall in HO.
      apply (HO x); [| done]. rewrite <- H2. by eapply delete_other. }
    apply HQ. constructor; try done; cbn; by rewrite Hitems.
  - apply al_find_none in E. rewrite Forall_forall in E. exfalso. apply (E c).
    + by eapply list_elem_of_lookup_2.
    + by apply bool_decide_pack.
Qed.

Lemma wp_client_at i O W bs pl out c s (Q : Clients → pstate T → Prop) :
  loc i O W bs pl out c s → Q c s → wp (client_at i) Q s.
Proof. intros HL HQ. unfold wp, client_at. by rewrite (loc_client _ _ _ _ _ _ _ _ _ HL). Qed.

Lemma loc_update i O W bs pl out c s f :
  loc i O W bs pl out c s → loc i O W bs pl out (f c) (with_client i f s).
Proof.
  intros [H1 H2 H3 H4 H5 H6 H7]. constructor; try done; cbn.
  - rewrite list_lookup_alter_eq. by rewrite H1.
  - rewrite <- H2. apply list_eq. intros j. rewrite !list_lookup_delete.
    case_match; by rewrite list_lookup_alter_ne by lia.
Qed.

Lemma wp_update_client i O W bs pl out c s f (Q : unit → pstate T → Prop) :
  loc i O W bs pl out c s →
  (∀ s', loc i O W bs pl out (f c) s' → Q tt s') → wp (update_client i f) Q s.
Proof. intros HL HQ. apply wp_modify, HQ. by apply loc_update. Qed.

Lemma wp_malloc i O W bs pl out c s (Q : bool → pstate T → Prop) :
  loc i O W bs pl out c s → Q true s → wp malloc Q s.
Proof.
  intros HL HQ. eapply wp_intro; [| exact HQ].
  apply malloc_succeeds. exact (loc_heap _ _ _ _ _ _ _ _ _ HL).
Qed.

Lemma wp_list_append {A} (l : alist A) x i O W bs pl out c s (Q : bool * alist A → pstate T → Prop) :
  loc i O W bs pl out c s → Q (true, al_append x l) s → wp (list_append l x) Q s.
Proof. intros HL HQ. apply wp_bind. eapply wp_malloc; [exact HL |]. exact HQ. Qed.

Lemma wp_list_insert {A} (l : alist A) k x i O W bs pl out c s
    (Q : bool * alist A → pstate T → Prop) :
  loc i O W bs pl out c s → Q (true, al_insert k x l) s → wp (list_insert l k x) Q s.
Proof. intros HL HQ. apply wp_bind. eapply wp_malloc; [exact HL |]. exact HQ. Qed.

Lemma wp_copy_bytes n d i O W bs pl out c s (Q : option (list Z) → pstate T → Prop) :
  loc i O W bs pl out c s → 0 ≤ n ≤ Z.of_nat (length d) → Q (Some (take (Z.to_nat n) d)) s →
  wp (copy_bytes n (Some d)) Q s.
Proof.
  intros HL Hn HQ. unfold copy_bytes, alloc_size. rewrite decide_True by lia.
  apply wp_bind. eapply wp_malloc; [exact HL |]. apply wp_bind.
  unfold slice. rewrite decide_True by lia. exact HQ.
Qed.

Lemma wp_publication_at a pb i O W bs pl out c s (Q : Publications → pstate T → Prop) :
  loc i O W bs pl out c s → bs !! a = Some pb → Q pb s → wp (publication_at (Some a)) Q s.
Proof.
  intros HL Ha HQ. unfold wp, publication_at.
  by rewrite (loc_blocks _ _ _ _ _ _ _ _ _ HL), Ha.
Qed.

Lemma wp_update_publication a pb f i O W bs pl out c s (Q : unit → pstate T → Prop) :
  loc i O W bs pl out c s → bs !! a = Some pb →
  (∀ s', loc i O W (<[a := f pb]> bs) pl out c s' → Q tt s') →
  wp (update_publication (Some a) f) Q s.
Proof.
  intros HL Ha HQ. apply wp_bind. eapply wp_publication_at; [done.. |].
  apply wp_modify, HQ. destruct HL as [H1 H2 H3 H4 H5 H6 H7].
  constructor; try done. cbn. by rewrite H4.
Qed.

Lemma al_unlink_remove_one a l :
  a ∈ items l → NoDup (items l) →
  ∃ l', al_unlink (λ b, bool_decide (b = a)) l = (Some a, l') ∧ items l' = remove_one a (items l).
Proof.
  intros Ha Hnd. unfold al_unlink.
  assert (∃ k, fst (al_find (λ b, bool_decide (b = a)) l) = Some k ∧ items l !! k = Some a)
    as (k & Hk & Hka).
  { unfold al_find. destruct (_ ≫= _) as [k |] eqn:E.
    - apply bind_Some in E as (j & Hj & E). apply bind_Some in E as (b & Hb & E).
      case_bool_decide; simplify_eq. by exists k.
    - destruct (list_find _ (items l)) as [[k b] |] eqn:E'; cbn.
      + apply list_find_Some in E' as (Hk & Hb & _). apply bool_decide_unpack in Hb as ->. eauto.
      + apply list_find_None in E'. rewrite Forall_forall in E'. exfalso. apply (E' a Ha).
        by apply bool_decide_pack. }
  rewrite Hk, Hka. eexists. split; [done |]. cbn. unfold remove_one.
  destruct (list_find _ (items l)) as [[j b] |] eqn:E'; cbn.
  - apply list_find_Some in E' as (Hj & Hb & _). apply bool_decide_unpack in Hb as ->.
    by rewrite (NoDup_lookup _ _ _ _ Hnd Hka Hj).
  - apply list_find_None in E'. rewrite Forall_forall in E'. exfalso. apply (E' a Ha).
    by apply bool_decide_pack.
Qed.

Lemma wp_remove_publication a pb i O W bs pl out c s (Q : unit → pstate T → Prop) :
  loc i O W bs pl out c s → NoDup pl → a ∈ pl → bs !! a = Some pb →
  (∀ s', loc i O W (delete a bs) (remove_one a pl) out c s' → Q tt s') →
  wp (remove_publication (Some a)) Q s.
Proof.
  intros [H1 H2 H3 H4 H5 H6 H7] Hnd Hin Ha HQ.
  destruct (al_unlink_remove_one a (publications s)) as (l' & Hu & Hl'); [by rewrite H5 | by rewrite H5 |].
  unfold wp, remove_publication. rewrite Hu. unfold free_publication. cbn.
  rewrite H4, decide_True by (by rewrite Ha). apply HQ.
  constructor; try done. cbn. by rewrite Hl', H5.
Qed.

Lemma pubs_ok_in R bs pl a :
  pubs_ok R bs pl → a ∈ R → ∃ pb, bs !! a = Some pb ∧ pub_ok pb ∧ a ∈ pl.
Proof.
  intros [P1 P2 P3 P4] Ha. destruct (P4 a Ha) as (pb & Hb & Hok). exists pb.
  split_and!; [done | done |]. by rewrite <- P3.
Qed.

Lemma wp_removePublication a R i O W bs pl out c s (Q : unit → pstate T → Prop) :
  loc i O W bs pl out c s → pubs_ok R bs pl → a ∈ R →
  (∀ s', loc i O W (delete a bs) (remove_one a pl) out c s' → Q tt s') →
  wp (MQTTProtocol_removePublication (Some a)) Q s.
Proof.
  intros HL HP Hin HQ. destruct (pubs_ok_in _ _ _ _ HP Hin) as (pb & Ha & Hpb & Hpl).
  unfold MQTTProtocol_removePublication. apply wp_bind.
  eapply wp_publication_at; [done.. |]. apply wp_bind.
  eapply wp_update_publication; [done.. |]. intros s1 HL1.
  rewrite (pub_ok_count _ Hpb), decide_True by done.
  eapply wp_remove_publication; [exact HL1 | apply HP | done | by apply lookup_insert_eq |].
  intros s2 HL2. apply HQ. by rewrite delete_insert_eq in HL2.
Qed.

Lemma wp_storePublication publish t i O W bs pl out c s
    (Q : ptr * Publish * Z → pstate T → Prop) :
  loc i O W bs pl out c s → topic publish = Some t →
  (∀ len s', let a := fresh (dom bs) in
   loc i O W (<[a := mkPublications (Some t) (topiclen publish) (payload publish)
                      (payloadlen publish) 1 (mask publish)]> bs) (pl ++ [a]) out c s' →
   Q (Some a, set_payload None (set_topic None publish), len) s') →
  wp (MQTTProtocol_storePublication publish) Q s.
Proof.
  intros HL Ht HQ. unfold MQTTProtocol_storePublication. apply wp_bind.
  eapply wp_malloc; [done |]. cbn [negb]. rewrite Ht. cbn [deref].
  apply wp_bind, wp_ret. apply wp_bind, wp_gets. apply wp_bind, wp_gets. apply wp_bind.
  eapply wp_list_append; [done |]. cbn. apply wp_bind, wp_modify, wp_ret.
  rewrite (loc_blocks _ _ _ _ _ _ _ _ _ HL). apply HQ.
  destruct HL as [H1 H2 H3 H4 H5 H6 H7]. constructor; try done; cbn; by subst.
Qed.

Lemma wp_written {A} (x : option A) a (Q : A → pstate T → Prop) s :
  x = Some a → Q a s → wp (written x) Q s.
Proof. by intros ->. Qed.

(** ** Properties of messages *)

(** The entries of the structure are [l], whatever the length it records. *)
Definition holds (p : MQTTProperties) (l : list MQTTProperty) : Prop :=
  props_repr (mkProperties (count p) (max_count p) (Z.of_nat (length (enc_entries l))) (array p)) l.

Lemma repr_holds p l : props_repr p l → holds p l.
Proof. intros [H1 H2 H3 H4]. by constructor. Qed.

Lemma holds_freeable p l : holds p l → freeable p.
Proof.
  intros [Hc _ Hv Ha] i Hi. cbn in *.
  destruct (lookup_lt_is_Some_2 l i) as [x Hx]; [lia |].
  destruct (array p) as [a |]; [| by destruct Ha as [-> _]].
  destruct Ha as (m & -> & _). exists ((Some <$> l) ++ replicate m None), x. split; [done |].
  split.
  - rewrite lookup_app_l by (rewrite length_fmap; by eapply lookup_lt_Some).
    by rewrite list_lookup_fmap, Hx.
  - rewrite Forall_forall in Hv. destruct (Hv x) as (ty & Hty & Hval).
    { by eapply list_elem_of_lookup_2. }
    unfold freeable_property. rewrite Hty. destruct Hval; eauto.
Qed.

Lemma copy_holds {S} `{HasHeap S} p l (s : S) :
  holds p l → heap_of s = [] → ∃ p', MQTTProperties_copy p s = Ok (p', s) ∧ props_repr p' l.
Proof.
  intros Hh Hs. destruct (MQTTProperties_copy_repr _ l s Hh Hs) as (p' & Hc & Hr).
  exists p'. split; [| done]. rewrite <- Hc. unfold MQTTProperties_copy. cbn [count].
  generalize (count p) at 2 as k. generalize MQTTProperties_initializer 0%nat (count p) s. clear.
  intros r i n s k. revert r i s. induction n as [| n IH]; intros r i s; [done |].
  cbn [copy_entries]. unfold mbind, M_bind. cbn [array_at array].
  destruct (array_at p i s) as [[x s1] |] eqn:E; unfold array_at in *; cbn [array]; rewrite E;
    [| done].
  destruct (MQTTProperties_add r x s1) as [[? s2] |]; [apply IH | done].
Qed.

(** The properties of a packet or message of version [v] are [l]. *)
Definition props_at (v : Z) (p : option MQTTProperties) (l : list MQTTProperty) : Prop :=
  if decide (MQTTVERSION_5 ≤ v) then ∃ p', p = Some p' ∧ holds p' l else l = [].

Lemma free_properties_at {S} v p l (s : S) :
  props_at v p l → free_properties v p s = Ok (tt, s).
Proof.
  unfold props_at, free_properties. destruct (decide _) as [Hv |]; [| done].
  intros (p' & -> & Hp). rewrite (bind_ok _ _ _ _ _ (MQTTProperties_free_freeable _ _ (holds_freeable _ _ Hp))).
  done.
Qed.

Lemma wp_free_properties v p l (Q : unit → pstate T → Prop) s :
  props_at v p l → Q tt s → wp (free_properties v p) Q s.
Proof. intros Hp HQ. eapply wp_intro; [by eapply free_properties_at | done]. Qed.

(** The copy of the properties of a packet in a message. *)
Lemma wp_copy_properties v p l i O W bs pl out c s (Q : option MQTTProperties → pstate T → Prop) :
  loc i O W bs pl out c s → props_at v (Some p) l →
  (∀ o, (if decide (MQTTVERSION_5 ≤ v) then ∃ p', o = Some p' ∧ props_repr p' l
         else o = None ∧ l = []) → Q o s) →
  wp (if decide (MQTTVERSION_5 ≤ v) then p ← MQTTProperties_copy p; mret (Some p)
      else mret None) Q s.
Proof.
  intros HL Hp HQ. unfold props_at in Hp. destruct (decide (MQTTVERSION_5 ≤ v)).
  - destruct Hp as (p' & [= <-] & Hp).
    destruct (copy_holds (S := pstate T) p l s Hp) as (q & Hq & Hr);
      [exact (loc_heap _ _ _ _ _ _ _ _ _ HL) |].
    apply wp_bind. eapply wp_intro; [exact Hq |]. apply wp_ret, HQ. eauto.
  - apply wp_ret, HQ. by split.
Qed.

Lemma wp_queueAck ty id i O W bs pl out c s (Q : Z → pstate T → Prop) :
  loc i O W bs pl out c s →
  (∀ s', loc i O W bs pl out
     (set_outboundQueue (al_append (mkAckRequest id ty) (outboundQueue c)) c) s' → Q 0 s') →
  wp (MQTTProtocol_queueAck i ty id) Q s.
Proof.
  intros HL HQ. unfold MQTTProtocol_queueAck. apply wp_bind. eapply wp_malloc; [done |].
  apply wp_bind. eapply wp_client_at; [done |]. apply wp_bind.
  eapply wp_list_append; [done |]. apply wp_bind. eapply wp_update_client; [done |]. exact HQ.
Qed.

End Frame.

Section Rules.
Context {T : Type} {HH : HasHeap T} {HB : HasBlocks T} {HT : Transport T}
  {TL : TransportLaws T} {HS : Session T} {SL : SessionLaws T}.
Notation P := (M (pstate T)).
Notation loc := (loc sent).
Implicit Types (s : pstate T) (c : Clients).

Lemma now_quiet : quiet (now : M T Z).
Proof. intros t. destruct (now_law t) as (a & t' & Hn & _ & Hs). eauto. Qed.

Lemma wp_lift_quiet {A} (m : M T A) i O W bs pl out c s (Q : A → pstate T → Prop) :
  quiet m → keeps_heap m → loc i O W bs pl out c s →
  (∀ a s', loc i O W bs pl out c s' → Q a s') → wp (lift m) Q s.
Proof. apply wp_lift_frames. Qed.

(** ** Sending *)

(** The function sends the packet [bytes], if it reports no error. *)
Definition sender (n : networkHandles) (bytes : list Z)
    (send : networkHandles → M T (Z * networkHandles)) : Prop :=
  ∀ t, ∃ rc n' t', send n t = Ok (rc, n', t') ∧ same_net n n' ∧
    (rc = TCPSOCKET_COMPLETE ∨ rc = TCPSOCKET_INTERRUPTED → sent t' = sent t ++ bytes) ∧
    (heap_of t = [] → heap_of t' = []) ∧
    (reliable T → heap_of t = [] → rc = TCPSOCKET_COMPLETE).

Lemma wp_send_on bytes send i O W bs pl out c s (Q : Z → pstate T → Prop) :
  sender (net c) bytes send → loc i O W bs pl out c s →
  (∀ rc n out' s', same_net (net c) n →
     (rc = TCPSOCKET_COMPLETE ∨ rc = TCPSOCKET_INTERRUPTED → out' = out ++ bytes) →
     (reliable T → rc = TCPSOCKET_COMPLETE) →
     loc i O W bs pl out' (set_net n c) s' → Q rc s') →
  wp (send_on i send) Q s.
Proof.
  intros Hs HL HQ. unfold send_on. apply wp_bind. eapply wp_client_at; [done |].
  destruct (Hs (below s)) as (rc & n & t & Hrun & Hnet & Hsent & Hheap & Hrel).
  apply wp_bind, wp_lift. eapply wp_intro; [exact Hrun |]. apply wp_bind.
  assert (loc i O W bs pl (sent t) c (set_below t s)) as HL'.
  { destruct HL as [H1 H2 H3 H4 H5 H6 H7]. constructor; try done. cbn. by apply Hheap. }
  eapply wp_update_client; [exact HL' |]. intros s' HL2. apply wp_ret. cbn in *.
  eapply HQ; [done | | | done].
  - intros Hok. rewrite (Hsent Hok). by rewrite (loc_sent _ _ _ _ _ _ _ _ _ HL).
  - intros HR. by apply Hrel, HL.
Qed.

(** The bytes of an acknowledgement. *)
Definition enc_ack (ty id : Z) : list Z :=
  enc_packet (mkHeader ty 0 (if decide (ty = PUBREL) then 1 else 0) 0) (len_prefix id).

Lemma send_ack_sender v ty id n :
  4 ≤ ty ≤ 7 → 0 ≤ id < 65536 → sender n (enc_ack ty id) (MQTTPacket_send_ack v ty id 0).
Proof.
  intros Hty Hid t.
  destruct (send_block_outcome n (header_of ty 0 (if decide (ty = PUBREL) then 1 else 0) 0)
    2 (writeInt id) (len_prefix id) v t) as (rc & n' & t' & Hrun & Hnet & Hsent & _).
  { by apply writes_writeInt. }
  { done. }
  { done. }
  exists rc, n', t'. split_and!; [done | done | | by eapply keeps_send_ack |].
  - intros Hok. rewrite (Hsent Hok). unfold enc_ack. do 2 f_equal.
    rewrite header_of_small; [done | lia | lia | case_decide; lia | lia].
  - intros HR Ht. by eapply (send_block_complete HR); [| | exact Hrun].
Qed.

Lemma pingreq_sender n : sender n (enc_packet (mkHeader PINGREQ 0 0 0) []) MQTTPacket_send_pingreq.
Proof.
  intros t. destruct (MQTTPacket_send_outcome n (header_of PINGREQ 0 0 0) None [] false
    MQTTVERSION_3_1_1 t) as (rc & n' & t' & Hrun & Hnet & Hsent & _); [done |].
  exists rc, n', t'. split_and!; [done | done | done | by eapply keeps_send |].
  intros HR Ht. by eapply (send_complete HR); [| exact Hrun].
Qed.

Lemma disconnect_sender c :
  sender (net c) (enc_packet (mkHeader DISCONNECT 0 0 0) [])
    (λ _, MQTTPacket_send_disconnect c MQTTREASONCODE_NORMAL_DISCONNECTION None).
Proof.
  intros t. unfold MQTTPacket_send_disconnect.
  rewrite decide_False by (unfold MQTTREASONCODE_NORMAL_DISCONNECTION; intros [_ [|]]; done).
  destruct (MQTTPacket_send_outcome (net c) (header_of DISCONNECT 0 0 0) None [] false
    (c_MQTTVersion c) t) as (rc & n' & t' & Hrun & Hnet & Hsent & _); [done |].
  exists rc, n', t'. split_and!; [done | done | done | by eapply keeps_send |].
  intros HR Ht. by eapply (send_complete HR); [| exact Hrun].
Qed.

Lemma wp_nothing_pending sock i O W bs pl out c s (Q : bool → pstate T → Prop) :
  loc i O W bs pl out c s →
  (∀ b s', (reliable T → b = true) → loc i O W bs pl out c s' → Q b s') →
  wp (nothing_pending sock) Q s.
Proof.
  intros [H1 H2 H3 H4 H5 H6 H7] HQ. apply wp_lift.
  destruct (noPendingWrites_quiet sock (below s)) as (b & t & Hm & Hs).
  eapply wp_intro; [exact Hm |]. apply HQ.
  - intros HR. by eapply (rel_pending _ HR).
  - constructor; [done.. | |]; cbn; [by rewrite Hs | by eapply heap_noPendingWrites].
Qed.

(** The acknowledgement is sent, or queued when something waits for the
    socket, or the write fails. *)
Definition acked (ty id : Z) (out out' : list Z) (q q' : alist AckRequest) : Prop :=
  out' = out ++ enc_ack ty id ∧ q' = q ∨
  ¬ reliable T ∧ out' = out ∧ q' = al_append (mkAckRequest id ty) q ∨
  ¬ reliable T ∧ q' = q.

Lemma wp_ack_or_queue (free : bool) ty id send i O W bs pl out c s (Q : Z → pstate T → Prop) :
  sender (net c) (enc_ack ty id) send → loc i O W bs pl out c s → (reliable T → free = true) →
  (∀ rc n out' q s', same_net (net c) n → acked ty id out out' (outboundQueue c) q →
     loc i O W bs pl out' (set_outboundQueue q (set_net n c)) s' → Q rc s') →
  wp (ack_or_queue i free ty id send) Q s.
Proof.
  intros Hs HL Hfree HQ. destruct free; cbn.
  - eapply wp_send_on; [done.. |]. intros rc n out' s' Hn Ho Hrel HL'.
    eapply (HQ rc n out' (outboundQueue c)); [done | | exact HL'].
    destruct (decide (rc = TCPSOCKET_COMPLETE ∨ rc = TCPSOCKET_INTERRUPTED)) as [Hok | Hno].
    + left. by rewrite (Ho Hok).
    + right. right. split; [| done]. intros HR. apply Hno. left. by apply Hrel.
  - eapply wp_queueAck; [done |]. intros s' HL'.
    eapply (HQ 0 (net c) out); [done | |].
    + right. left. split_and!; [| done | done]. intros HR. by specialize (Hfree HR).
    + by replace (set_net (net c) c) with c by (by destruct c).
Qed.

(** ** Delivery to the application *)

(** The entry of the message queue made from a packet. *)
Definition queued (publish : Publish) (d : option (list Z)) (l : list MQTTProperty)
    (qe : qEntry) : Prop :=
  ∃ props, props_repr props l ∧ qe = {|
    topicName := topic publish; topicLen := topiclen publish; q_payload := d;
    q_payloadlen := payloadlen publish; q_qos := qos (pub_header publish);
    q_retained := retain (pub_header publish);
    q_dup := if decide (qos (pub_header publish) = 2) then 0 else dup (pub_header publish);
    q_msgid := pub_msgId publish; q_properties := props |}.

Lemma wp_processPublication publish t d (b : bool) l i O W bs pl out c s
    (Q : Publish → pstate T → Prop) :
  loc i O W bs pl out c s → topic publish = Some t → payload publish = Some d →
  0 ≤ payloadlen publish ≤ Z.of_nat (length d) →
  props_at (pub_MQTTVersion publish) (Some (pub_properties publish)) l →
  (∀ qe s', queued publish (Some (if b then take (Z.to_nat (payloadlen publish)) d else d)) l qe →
     loc i O W bs pl out (set_messageQueue (al_append qe (messageQueue c)) c) s' →
     Q (set_topic None publish) s') →
  wp (Protocol_processPublication i publish b) Q s.
Proof.
  intros HL Ht Hd Hlen Hp HQ. unfold Protocol_processPublication.
  apply wp_bind. eapply wp_malloc; [done |]. cbn [negb].
  apply wp_bind. eapply wp_malloc; [done |]. cbn [negb]. apply wp_bind.
  set (d' := if b then take (Z.to_nat (payloadlen publish)) d else d) in *.
  apply (wp_mono _ (λ (r : option (option (list Z))) (s' : pstate T),
    r = Some (Some d') ∧ s' = s)).
  { destruct b.
    - apply wp_bind. rewrite Hd. eapply wp_copy_bytes; [done.. |]. by apply wp_ret.
    - apply wp_ret. by rewrite Hd. }
  intros ? ? [-> ->]. apply wp_bind.
  apply (wp_mono _ (λ (r : MQTTProperties) (s' : pstate T), props_repr r l ∧ s' = s)).
  { unfold props_at in Hp. change 5 with MQTTVERSION_5.
    destruct (decide (MQTTVERSION_5 ≤ pub_MQTTVersion publish)).
    - destruct Hp as (p' & [= <-] & Hp).
      destruct (copy_holds (S := pstate T) _ l s Hp) as (q & Hq & Hr);
        [exact (loc_heap _ _ _ _ _ _ _ _ _ HL) |]. by eapply wp_intro.
    - apply wp_ret. subst l. split; [apply props_repr_initializer | done]. }
  intros props ? [Hprops ->]. rewrite Ht. cbn [deref]. apply wp_bind, wp_ret. apply wp_bind.
  eapply wp_client_at; [done |]. apply wp_bind. eapply wp_list_append; [done |].
  apply wp_bind. eapply wp_update_client; [done |]. intros s1 HL1. apply wp_bind.
  eapply wp_lift_quiet;
    [apply persist_queue_entry_quiet | apply heap_persist_queue_entry | exact HL1 |].
  intros _ s2 HL2. apply wp_ret. eapply HQ; [| exact HL2].
  exists props. split; [done |]. by rewrite Ht.
Qed.

Lemma wp_remove_persisted key q id i O W bs pl out c s (Q : Z → pstate T → Prop) :
  loc i O W bs pl out c s → (∀ rc s', loc i O W bs pl out c s' → Q rc s') →
  wp (remove_persisted i key q id) Q s.
Proof.
  intros HL HQ. apply wp_bind. eapply wp_client_at; [done |].
  eapply wp_lift_quiet; [apply persistence_remove_quiet | apply heap_persistence_remove
    | exact HL | exact HQ].
Qed.
End Rules.

(** ** The invariant *)

(** A message in flight whose version and properties go together. *)
Definition message_props (m : Messages) : Prop :=
  ∃ l, props_at (m_MQTTVersion m) (m_properties m) l.

(** The properties are the copy [MQTTProperties_copy] made of [l]. *)
Definition repr_at (v : Z) (p : option MQTTProperties) (l : list MQTTProperty) : Prop :=
  if decide (MQTTVERSION_5 ≤ v) then ∃ p', p = Some p' ∧ props_repr p' l
  else p = None ∧ l = [].

Lemma repr_at_props_at v p l : repr_at v p l → props_at v p l.
Proof.
  unfold repr_at, props_at. case_decide; [| tauto].
  intros (p' & -> & Hp). exists p'. split; [done | by apply repr_holds].
Qed.

Record inbound_ok (m : Messages) : Prop := {
  inbound_qos : m_qos m = 2;
  inbound_next : nextMessageType m = Some PUBREL;
  inbound_props : message_props m;
  (* before version 5 the publication is delivered at the end of the exchange *)
  inbound_publish : m_MQTTVersion m < MQTTVERSION_5 → is_Some (m_publish m);
}.

Record outbound_ok (m : Messages) : Prop := {
  outbound_qos : m_qos m = 1 ∨ m_qos m = 2 ∧ nextMessageType m = Some PUBREC ∨
                 m_qos m = 2 ∧ nextMessageType m = Some PUBCOMP;
  outbound_id : 0 ≤ msgid m < 65536;
  outbound_props : ∃ l, repr_at (m_MQTTVersion m) (m_properties m) l ∧ fits l;
  outbound_publish : is_Some (m_publish m);
  outbound_touched : is_Some (lastTouch m);
}.

(** An acknowledgement that waits. *)
Definition ack_ok (a : AckRequest) : Prop :=
  4 ≤ ackType a ≤ 7 ∧ 0 ≤ messageId a < 65536.

Record client_ok (c : Clients) : Prop := {
  client_inbound : Forall inbound_ok (items (inboundMsgs c));
  client_inbound_ids : NoDup (msgid <$> items (inboundMsgs c));
  client_outbound : Forall outbound_ok (items (outboundMsgs c));
  client_outbound_ids : NoDup (msgid <$> items (outboundMsgs c));
  client_queue : Forall (λ qe, freeable (q_properties qe)) (items (messageQueue c));
  client_acks : Forall ack_ok (items (outboundQueue c));
}.

(** The references to publications. *)
Definition client_refs (c : Clients) : list positive :=
  omap m_publish (items (inboundMsgs c) ++ items (outboundMsgs c)).
Definition write_refs (W : alist pending_write) : list positive := omap pw_p (items W).
Definition refs {T} (s : pstate T) : list positive :=
  (items (clients s) ≫= client_refs) ++ write_refs (pending_writes s).

(** Every unfinished write has its publication. *)
Definition writes_ok (W : alist pending_write) : Prop :=
  Forall (λ w, is_Some (pw_p w)) (items W).

Record wf {T} `{HasHeap T} (s : pstate T) : Prop := {
  wf_pubs : pubs_ok (refs s) (blocks s) (items (publications s));
  wf_clients : Forall client_ok (items (clients s));
  wf_writes : writes_ok (pending_writes s);
  wf_heap : heap_of (below s) = [];
}.

(** The references of the other clients and of the unfinished writes. *)
Definition other_refs (O : list Clients) (W : alist pending_write) : list positive :=
  (O ≫= client_refs) ++ write_refs W.

Lemma refs_split (l : list Clients) i c W :
  l !! i = Some c →
  (l ≫= client_refs) ++ write_refs W ≡ₚ client_refs c ++ other_refs (delete i l) W.
Proof.
  intros Hi. unfold other_refs. rewrite (assoc_L (++)). f_equiv.
  rewrite (delete_Permutation l i c Hi) at 1. by rewrite bind_cons.
Qed.

Section Invariant.
Context {T : Type} {HH : HasHeap T} {HB : HasBlocks T} {HT : Transport T}
  {TL : TransportLaws T} {HS : Session T} {SL : SessionLaws T}.
Notation loc := (loc sent).

Lemma wf_loc (s : pstate T) i c :
  wf s → items (clients s) !! i = Some c →
  client_ok c ∧ Forall client_ok (delete i (items (clients s))) ∧
  pubs_ok (client_refs c ++ other_refs (delete i (items (clients s))) (pending_writes s))
    (blocks s) (items (publications s)) ∧
  loc i (delete i (items (clients s))) (pending_writes s) (blocks s) (items (publications s))
    (sent (below s)) c s.
Proof.
  intros [Hp Hc Hw Hh] Hi. rewrite (delete_Permutation _ _ _ Hi), Forall_cons in Hc.
  destruct Hc as [Hc HO]. split_and!; [done | done | | by constructor].
  unfold refs in Hp. by rewrite (refs_split _ _ _ _ Hi) in Hp.
Qed.

Lemma loc_wf i O W bs pl out c (s : pstate T) :
  loc i O W bs pl out c s → client_ok c → Forall client_ok O → writes_ok W →
  pubs_ok (client_refs c ++ other_refs O W) bs pl → wf s.
Proof.
  intros [H1 H2 H3 H4 H5 H6 H7] Hc HO HW Hp. subst. constructor; [| | done | done].
  - unfold refs. by rewrite (refs_split _ _ _ _ H1).
  - rewrite (delete_Permutation _ _ _ H1). by constructor.
Qed.
End Invariant.
