(* ===== verification/MessageIds.v ===== *)
(** * Message ids of outgoing packets

    [MQTTProtocol_assignMsgId] tries the ids after the last one used, in the
    cyclic order of 1 to 65535. *)
From S2P Require Import Prelude Buffers LinkedList Properties PacketIn Names Clients PacketOut.
From S2P Require Import Wire Protocol Sessions ProtocolLaws.
Local Open Scope Z_scope.

Definition id_used (c : Clients) (id : Z) : Prop := id ∈ msgid <$> items (outboundMsgs c).

#[export] Instance id_used_dec c id : Decision (id_used c id).
Proof. unfold id_used. apply _. Defined.

(** The [k]th id after [start]. *)
Definition id_after (start k : Z) : Z := (start - 1 + k) `mod` 65535 + 1.

Lemma id_after_range start k : 1 ≤ id_after start k ≤ 65535.
Proof. unfold id_after. pose proof (Z.mod_pos_bound (start - 1 + k) 65535). lia. Qed.

Lemma next_id_after start k :
  next_msgid (id_after start k) = id_after start (k + 1).
Proof.
  pose proof (Z.mod_pos_bound (start - 1 + k) 65535 eq_refl).
  unfold next_msgid, id_after, MAX_MSG_ID in *. rewrite Z.add_assoc.
  rewrite (Z.add_mod (start - 1 + k) 1) by done.
  case_decide as Hd.
  - by replace ((start - 1 + k) `mod` 65535) with 65534 by lia.
  - rewrite (Z.mod_small 1) by done. rewrite (Z.mod_small (_ + 1)) by lia. done.
Qed.

Lemma first_id_after start : 0 ≤ start ≤ 65535 → next_msgid start = id_after start 1.
Proof.
  intros Hs. unfold next_msgid, id_after, MAX_MSG_ID.
  replace (start - 1 + 1) with start by lia.
  case_decide as Hd; [by subst |]. by rewrite Z.mod_small by lia.
Qed.

Lemma id_after_start start k :
  1 ≤ start ≤ 65535 → 1 ≤ k ≤ 65535 → id_after start k = start → k = 65535.
Proof.
  unfold id_after. intros Hs Hk Heq. destruct (decide (start - 1 + k < 65535)).
  - rewrite Z.mod_small in Heq by lia. lia.
  - replace (start - 1 + k) with (start - 1 + k - 65535 + 1 * 65535) in Heq by lia.
    rewrite Z.mod_add in Heq by done.
    destruct (decide (k = 65535)); [done |]. rewrite Z.mod_small in Heq by lia. lia.
Qed.

Lemma id_after_back start : 1 ≤ start ≤ 65535 → id_after start 65535 = start.
Proof.
  intros Hs. unfold id_after.
  replace (start - 1 + 65535) with (start - 1 + 1 * 65535) by lia.
  rewrite Z.mod_add, Z.mod_small by lia. lia.
Qed.

(** Every id but [start] is one of the first 65534 after it. *)
Lemma id_after_all start id :
  1 ≤ start ≤ 65535 → 1 ≤ id ≤ 65535 → id ≠ start →
  ∃ k, 1 ≤ k < 65535 ∧ id = id_after start k.
Proof.
  intros Hs Hi Hne. destruct (decide (start < id)).
  - exists (id - start). unfold id_after.
    replace (start - 1 + (id - start)) with (id - 1) by lia. rewrite Z.mod_small; lia.
  - exists (id + 65535 - start). unfold id_after.
    replace (start - 1 + (id + 65535 - start)) with (id - 1 + 1 * 65535) by lia.
    rewrite Z.mod_add, Z.mod_small; lia.
Qed.

Lemma find_id c id :
  fst (al_find (messageIDCompare id) (outboundMsgs c)) = None ↔ ¬ id_used c id.
Proof.
  unfold id_used. split.
  - intros Hf%al_find_none Hin. apply list_elem_of_fmap in Hin as (m & -> & Hm).
    rewrite Forall_forall in Hf. apply (Hf m Hm). by apply bool_decide_pack.
  - intros Hn. destruct (fst _) as [k |] eqn:E; [| done]. exfalso. apply Hn.
    apply al_find_some in E as (m & Hm & Hid). apply bool_decide_unpack in Hid as <-.
    apply list_elem_of_fmap. exists m. split; [done | by eapply list_elem_of_lookup_2].
Qed.

(** A client whose list of outbound messages has another cursor. *)
Definition same_outbound (c c' : Clients) : Prop :=
  ∃ l, c' = set_outboundMsgs l c ∧ items l = items (outboundMsgs c).

Lemma same_outbound_used c c' id : same_outbound c c' → id_used c' id ↔ id_used c id.
Proof. intros (l & -> & Hl). unfold id_used. cbn. by rewrite Hl. Qed.

(** From the [k]th id on: the first free one, or 0 when [start] comes round. *)
Lemma assign_loop_spec start fuel k c :
  0 ≤ start ≤ 65535 → 1 ≤ k → k + Z.of_nat fuel = 65536 →
  (start ≠ 0 → k < 65535) →
  (start = 0 → ∃ id, k ≤ id ≤ 65535 ∧ ¬ id_used c id) →
  ∃ id c', assign_loop fuel start (id_after start k) c = Ok (id, c') ∧ same_outbound c c' ∧
    ((∃ j, k ≤ j ≤ 65535 ∧ (start ≠ 0 → j < 65535) ∧ id = id_after start j ∧ ¬ id_used c id ∧
        ∀ j', k ≤ j' < j → id_used c (id_after start j')) ∨
     (id = 0 ∧ start ≠ 0 ∧ ∀ j', k ≤ j' < 65535 → id_used c (id_after start j'))).
Proof.
  intros Hs. revert k c. induction fuel as [| fuel IH]; intros k c Hk Hf Hlt Hfree.
  { exfalso. destruct (decide (start = 0)) as [H0 |]; [| lia].
    destruct (Hfree H0) as (? & ? & _). lia. }
  cbn [assign_loop]. rewrite gets_bind, modify_bind.
  pose proof (al_find_items (messageIDCompare (id_after start k)) (outboundMsgs c)) as Hitems.
  destruct (fst (al_find (messageIDCompare (id_after start k)) (outboundMsgs c))) as [j |] eqn:E.
  2: { eexists _, _. split; [done |]. split; [by eexists |]. left. exists k.
       split_and!; [lia | lia | done | done | by apply find_id | lia]. }
  assert (id_used c (id_after start k)) as Hused.
  { destruct (decide (id_used c (id_after start k))) as [| Hn]; [done |].
    apply find_id in Hn. congruence. }
  rewrite next_id_after. destruct (decide (id_after start (k + 1) = start)) as [Hback | Hback].
  - assert (start ≠ 0) as H0 by (pose proof (id_after_range start (k + 1)); lia).
    apply id_after_start in Hback; [| lia.. | specialize (Hlt H0); lia].
    eexists 0, _. split; [done |]. split; [by eexists |]. right. split_and!; [done | done |].
    intros j' Hj'. by replace j' with k by lia.
  - set (c1 := set_outboundMsgs _ c).
    assert (same_outbound c c1) as Hsame by by eexists.
    destruct (IH (k + 1) c1) as (id & c' & Hrun & Hsame' & Hres); [lia | lia | | |].
    + intros H0. destruct (decide (k + 1 = 65535)) as [Heq |]; [| specialize (Hlt H0); lia].
      rewrite Heq in Hback. by rewrite id_after_back in Hback by lia.
    + intros H0. destruct (Hfree H0) as (id & Hid & Hn). exists id.
      rewrite (same_outbound_used _ _ _ Hsame). split; [| done].
      destruct (decide (id = k)) as [-> |]; [| lia]. exfalso. apply Hn.
      replace k with (id_after start k); [done |]. subst start. unfold id_after.
      rewrite Z.mod_small; lia.
    + exists id, c'. split; [exact Hrun |]. split.
      { destruct Hsame' as (l & -> & Hl). exists l. split; [done |]. rewrite Hl. exact Hitems. }
      assert (∀ x, id_used c1 x ↔ id_used c x) as Hiff
        by (intros x; by apply same_outbound_used).
      destruct Hres as [(j1 & Hj1 & Hj1' & Hid & Hn & Hall) | (-> & H0 & Hall)]; [left | right].
      * exists j1. rewrite <- Hiff. split_and!; [lia | lia | done | done | done |].
        intros j' Hj'. destruct (decide (j' = k)) as [-> |]; [done |]. apply Hiff, Hall. lia.
      * split_and!; [done | done |]. intros j' Hj'.
        destruct (decide (j' = k)) as [-> |]; [done |]. apply Hiff, Hall. lia.
Qed.

(** With every id in use, a search that started at 0 never comes back to it. *)
Lemma assign_loop_endless fuel : ∀ k c,
  (∀ id, 1 ≤ id ≤ 65535 → id_used c id) → assign_loop fuel 0 (id_after 0 k) c = Err Diverge.
Proof.
  induction fuel as [| fuel IH]; intros k c Hall; cbn [assign_loop]; rewrite gets_bind, modify_bind;
    pose proof (al_find_items (messageIDCompare (id_after 0 k)) (outboundMsgs c)) as Hitems;
    (destruct (fst (al_find (messageIDCompare (id_after 0 k)) (outboundMsgs c))) as [j |] eqn:E;
     [| exfalso; apply find_id in E; apply E, Hall, id_after_range]); [done |].
  rewrite next_id_after, decide_False by (pose proof (id_after_range 0 (k + 1)); lia).
  apply IH. intros id Hid. rewrite (same_outbound_used c); [by apply Hall | by eexists].
Qed.

Lemma free_id_dec c :
  (∃ id, 1 ≤ id ≤ 65535 ∧ ¬ id_used c id) ∨ (∀ id, 1 ≤ id ≤ 65535 → id_used c id).
Proof.
  destruct (decide (Exists (λ id, ¬ id_used c id) (seqZ 1 65535))) as [He | Hn].
  - apply Exists_exists in He as (id & Hid%elem_of_seqZ & Hfree). left. exists id. split; [lia | done].
  - right. intros id Hid. destruct (decide (id_used c id)) as [| Hfree]; [done |]. exfalso. apply Hn.
    apply Exists_exists. exists id. split; [apply elem_of_seqZ; lia | done].
Qed.

(** C28: Message ids.  [MQTTProtocol_assignMsgId] returns the first id after the
    last one used - in the cyclic order of 1 to 65535 - that no outbound message
    has, and records it; or it returns 0 and records nothing, exactly when every
    id but the last one used is taken: that one is not tried again, so 0 is
    returned also where it is free, and not only "if none available", as the
    comment of the function says.  And a client that never used an id, with all
    65535 taken, makes the code search for ever, however many turns of the loop
    are allowed. *)
Theorem assignMsgId_sound c :
  0 ≤ msgID c ≤ 65535 →
  (msgID c = 0 ∧ (∀ id, 1 ≤ id ≤ 65535 → id_used c id) ∧
    ∀ fuel, assign_loop fuel 0 (next_msgid 0) c = Err Diverge) ∨
  ∃ id c', MQTTProtocol_assignMsgId c = Ok (id, c') ∧
    items (outboundMsgs c') = items (outboundMsgs c) ∧
    ((1 ≤ id ≤ 65535 ∧ ¬ id_used c id ∧ id ≠ msgID c ∧ msgID c' = id ∧
      ∃ j, id = id_after (msgID c) j ∧ 1 ≤ j ≤ 65535 ∧
        ∀ j', 1 ≤ j' < j → id_used c (id_after (msgID c) j')) ∨
     (id = 0 ∧ msgID c' = msgID c ∧ msgID c ≠ 0 ∧
      ∀ id', 1 ≤ id' ≤ 65535 → id' ≠ msgID c → id_used c id')).
Proof.
  intros Hs. assert (msgID c = 0 ∧ (∀ id, 1 ≤ id ≤ 65535 → id_used c id) ∨
    (msgID c = 0 → ∃ id, 1 ≤ id ≤ 65535 ∧ ¬ id_used c id)) as [[H0 Hall] | Hfree].
  { destruct (decide (msgID c = 0)); [destruct (free_id_dec c); auto | by right]. }
  { left. split_and!; [done | done |]. intros fuel. rewrite first_id_after by done.
    by apply assign_loop_endless. }
  right. unfold MQTTProtocol_assignMsgId. rewrite gets_bind, first_id_after by done.
  destruct (assign_loop_spec (msgID c) 65535 1 c) as (id & c1 & Hrun & (l & -> & Hl) & Hres);
    [done | done | by vm_compute | done | done |].
  rewrite (bind_ok _ _ _ _ _ Hrun).
  destruct Hres as [(j & Hj & Hj' & Hid & Hn & Hall) | (-> & H0 & Hall)].
  - pose proof (id_after_range (msgID c) j) as Hr. rewrite decide_True by lia.
    assert (id ≠ msgID c) as Hne.
    { intros Heq. rewrite Heq in Hid. symmetry in Hid. destruct (decide (msgID c = 0)); [lia |].
      apply id_after_start in Hid; [| lia.. ]. lia. }
    eexists _, _. split; [reflexivity |]. split; [exact Hl |]. left.
    split_and!; [lia | lia | done | done | done |]. by exists j.
  - rewrite decide_False by (by intros []). eexists _, _. split; [reflexivity |].
    split; [exact Hl |]. right. split_and!; [done | done | done |]. intros id' Hid' Hne.
    destruct (id_after_all (msgID c) id') as (k & Hk & ->); [lia | done | done |]. by apply Hall.
Qed.

(** A client whose last id was the largest, with a message that has the id 1. *)
Definition wrapping_client : Clients :=
  set_msgID 65535 (set_outboundMsgs (AList [mkMessages 1 0 1 4 None (Some 1%positive) (Some 0)
    None 0] None) sample_client).

Lemma assignMsgId_sound_witness :
  (msgID wrapping_client = 0 ∧ (∀ id, 1 ≤ id ≤ 65535 → id_used wrapping_client id) ∧
    ∀ fuel, assign_loop fuel 0 (next_msgid 0) wrapping_client = Err Diverge) ∨
  ∃ id c', MQTTProtocol_assignMsgId wrapping_client = Ok (id, c') ∧
    items (outboundMsgs c') = items (outboundMsgs wrapping_client) ∧
    ((1 ≤ id ≤ 65535 ∧ ¬ id_used wrapping_client id ∧ id ≠ 65535 ∧ msgID c' = id ∧
      ∃ j, id = id_after 65535 j ∧ 1 ≤ j ≤ 65535 ∧
        ∀ j', 1 ≤ j' < j → id_used wrapping_client (id_after 65535 j')) ∨
     (id = 0 ∧ msgID c' = 65535 ∧ 65535 ≠ 0 ∧
      ∀ id', 1 ≤ id' ≤ 65535 → id' ≠ 65535 → id_used wrapping_client id')).
Proof. apply (assignMsgId_sound wrapping_client). cbn. lia. Defined.
