(* ===== verification/Inbound.v ===== *)
(** * QoS 2 from the broker to the application

    The exchange for incoming messages of QoS 2 as an automaton on the
    messages whose PUBREL has not arrived, and the proof that
    [MQTTProtocol_handlePublishes] and [MQTTProtocol_handlePubrels] implement
    it. *)
From S2P Require Import Prelude Buffers LinkedList Properties PacketIn Names Clients PacketOut.
From S2P Require Import Protocol Sessions ProtocolLaws.
Local Open Scope Z_scope.

(** ** The automaton *)

(** A message as the application sees it. *)
Record app_message := mkApp {
  a_version : Z;
  a_id : Z;
  a_topic : list Z;
  a_topiclen : Z;
  a_payload : list Z;
  a_payloadlen : Z;
  a_retain : Z;
  a_props : list MQTTProperty;
}.

Definition has_id (id : Z) (a : app_message) : bool := bool_decide (a_id a = id).

Inductive inbound_event :=
  | RecvPublish (a : app_message)
  | RecvPubrel (id : Z).

Definition event_id (e : inbound_event) : Z :=
  match e with RecvPublish a => a_id a | RecvPubrel id => id end.

(** The pending messages and the messages delivered by an event: version 5
    delivers with the first PUBLISH, the earlier versions with the PUBREL. *)
Definition inbound_step (pend : list app_message) (e : inbound_event)
  : list app_message * list app_message :=
  match e with
  | RecvPublish a =>
    match list_find (has_id (a_id a)) pend with
    | Some (k, _) => (<[k := a]> pend, [])
    | None => (pend ++ [a], if decide (MQTTVERSION_5 ≤ a_version a) then [a] else [])
    end
  | RecvPubrel id =>
    match list_find (has_id id) pend with
    | Some (k, a) => (delete k pend, if decide (MQTTVERSION_5 ≤ a_version a) then [] else [a])
    | None => (pend, [])
    end
  end.

Fixpoint inbound_run (pend : list app_message) (es : list inbound_event)
  : list app_message * list app_message :=
  match es with
  | [] => (pend, [])
  | e :: es =>
    let '(pend, d) := inbound_step pend e in
    let '(pend, ds) := inbound_run pend es in
    (pend, d ++ ds)
  end.

(** ** One message id

    What happens to the messages of an id depends on the events of that id
    only. *)
Definition of_id (id : Z) (l : list app_message) : list app_message :=
  filter (λ a, a_id a = id) l.

Definition id_step (o : option app_message) (e : inbound_event)
  : option app_message * list app_message :=
  match e, o with
  | RecvPublish a, Some _ => (Some a, [])
  | RecvPublish a, None => (Some a, if decide (MQTTVERSION_5 ≤ a_version a) then [a] else [])
  | RecvPubrel _, Some a => (None, if decide (MQTTVERSION_5 ≤ a_version a) then [] else [a])
  | RecvPubrel _, None => (None, [])
  end.

Fixpoint id_run (o : option app_message) (es : list inbound_event)
  : option app_message * list app_message :=
  match es with
  | [] => (o, [])
  | e :: es => let '(o, d) := id_step o e in let '(o, ds) := id_run o es in (o, d ++ ds)
  end.

Lemma of_id_middle id l1 a l2 :
  of_id id (l1 ++ a :: l2) =
  of_id id l1 ++ (if decide (a_id a = id) then [a] else []) ++ of_id id l2.
Proof. unfold of_id. rewrite filter_app, filter_cons. by case_decide. Qed.

Lemma list_find_split id (l : list app_message) k a :
  list_find (has_id id) l = Some (k, a) →
  ∃ l1 l2, l = l1 ++ a :: l2 ∧ length l1 = k ∧ a_id a = id.
Proof.
  intros (Hk & Ha & _)%list_find_Some. apply bool_decide_unpack in Ha.
  exists (take k l), (drop (S k) l). split_and!; [| | done].
  - symmetry. by apply take_drop_middle.
  - apply length_take_le. apply lookup_lt_Some in Hk. lia.
Qed.

Lemma of_id_none id (l : list app_message) : list_find (has_id id) l = None → of_id id l = [].
Proof.
  intros Hf%list_find_None. induction Hf as [| a l Ha _ IH]; [done |].
  unfold of_id. rewrite filter_cons, decide_False; [exact IH |].
  intros Heq. by apply Ha, bool_decide_pack.
Qed.

Lemma cons_middle_two (x a : app_message) l l2 o :
  (x :: l) ++ [a] ++ l2 ≠ option_list o.
Proof. destruct o as [b |]; cbn; [| done]. intros [= _ Hl]. by destruct l. Qed.

Lemma step_projects id pend e o :
  of_id id pend = option_list o →
  of_id id (fst (inbound_step pend e)) =
    option_list (if decide (event_id e = id) then fst (id_step o e) else o) ∧
  of_id id (snd (inbound_step pend e)) =
    if decide (event_id e = id) then snd (id_step o e) else [].
Proof.
  intros Ho. destruct e as [a | id']; cbn [inbound_step event_id].
  - destruct (list_find (has_id (a_id a)) pend) as [[k a0] |] eqn:Ef; cbn [fst snd].
    + destruct (list_find_split _ _ _ _ Ef) as (l1 & l2 & -> & <- & Hid).
      rewrite insert_app_r_alt, Nat.sub_diag by lia. change (<[0%nat:=a]> (a0 :: l2)) with (a :: l2).
      rewrite of_id_middle in Ho |- *. destruct (decide (a_id a = id)) as [<- | Hne].
      * rewrite decide_True in Ho by done.
        destruct (of_id (a_id a) l1); [| exfalso; by eapply cons_middle_two].
        destruct o as [b |]; [| done]. cbn in Ho |- *. injection Ho as _ Ho. by rewrite Ho.
      * rewrite decide_False in Ho by congruence. done.
    + rewrite of_id_middle. cbn. destruct (decide (a_id a = id)) as [<- | Hne].
      * rewrite (of_id_none _ _ Ef) in Ho. destruct o; [done |].
        rewrite (of_id_none _ _ Ef). cbn. split; [done |].
        case_decide; [| done]. unfold of_id. by rewrite filter_cons, decide_True.
      * rewrite app_nil_r. split; [done |]. case_decide; [| done].
        unfold of_id. by rewrite filter_cons, decide_False.
  - destruct (list_find (has_id id') pend) as [[k a0] |] eqn:Ef; cbn [fst snd].
    + destruct (list_find_split _ _ _ _ Ef) as (l1 & l2 & -> & <- & Hid).
      rewrite delete_middle. rewrite of_id_middle in Ho.
      replace (of_id id (l1 ++ l2)) with (of_id id l1 ++ of_id id l2)
        by (unfold of_id; by rewrite filter_app).
      destruct (decide (id' = id)) as [-> | Hne].
      * rewrite decide_True in Ho by done.
        destruct (of_id id l1); [| exfalso; by eapply cons_middle_two].
        destruct o as [b |]; [| done]. cbn in Ho |- *. injection Ho as -> Ho. rewrite Ho.
        split; [done |].
        case_decide; [done |]. unfold of_id. by rewrite filter_cons, decide_True.
      * rewrite decide_False in Ho by congruence. split; [done |].
        case_decide; [done |]. unfold of_id. by rewrite filter_cons, decide_False by congruence.
    + rewrite Ho. destruct (decide (id' = id)) as [-> | Hne]; [| done].
      rewrite (of_id_none _ _ Ef) in Ho. by destruct o.
Qed.

Lemma run_projects id pend es o :
  of_id id pend = option_list o →
  of_id id (fst (inbound_run pend es)) =
    option_list (fst (id_run o (filter (λ e, event_id e = id) es))) ∧
  of_id id (snd (inbound_run pend es)) = snd (id_run o (filter (λ e, event_id e = id) es)).
Proof.
  revert pend o. induction es as [| e es IH]; intros pend o Ho; [done |].
  cbn [inbound_run]. destruct (step_projects id pend e o Ho) as [H1 H2].
  destruct (inbound_step pend e) as [pend1 d1]. cbn [fst snd] in *.
  destruct (IH _ _ H1) as [H3 H4]. destruct (inbound_run pend1 es) as [pend2 d2]. cbn [fst snd] in *.
  rewrite filter_cons. unfold of_id in *. rewrite filter_app, H2, H4.
  destruct (decide (event_id e = id)); [| done]. cbn [id_run].
  destruct (id_step o e) as [o1 d]. cbn [fst snd] in *.
  by destruct (id_run o1 _) as [o2 ds].
Qed.

(** A PUBLISH, sent any number of times, and the PUBREL, sent any number of
    times, deliver the message once. *)
Lemma exchange_once a id n m :
  id_run None (replicate (S n) (RecvPublish a) ++ replicate (S m) (RecvPubrel id)) = (None, [a]).
Proof.
  assert (∀ k, id_run None (replicate k (RecvPubrel id)) = (None, [])) as Hrels.
  { induction k as [| k IH]; [done |]. cbn. by rewrite IH. }
  assert (∀ rels r, id_run (Some a) rels = r →
    ∀ k, id_run (Some a) (replicate k (RecvPublish a) ++ rels) = r) as Hpubs.
  { intros rels [o ds] Hr. induction k as [| k IH]; [done |]. cbn. by rewrite IH. }
  change (replicate (S n) (RecvPublish a)) with (RecvPublish a :: replicate n (RecvPublish a)).
  cbn [app id_run id_step].
  rewrite (Hpubs _ (None, if decide (MQTTVERSION_5 ≤ a_version a) then [] else [a])).
  - by case_decide.
  - cbn. rewrite Hrels. by rewrite app_nil_r.
Qed.

(** With distinct ids the element found is the one with the id. *)
Lemma list_find_id pend k a id :
  NoDup (a_id <$> pend) → pend !! k = Some a → a_id a = id →
  list_find (has_id id) pend = Some (k, a).
Proof.
  intros Hnd Hk Ha. apply list_find_Some. split_and!; [done | by apply bool_decide_pack |].
  intros j y Hj Hlt Hid. apply bool_decide_unpack in Hid.
  assert (j = k) as ->; [| lia]. eapply (NoDup_lookup _ j k id Hnd).
  - by rewrite list_lookup_fmap, Hj; cbn; rewrite Hid.
  - by rewrite list_lookup_fmap, Hk; cbn; rewrite Ha.
Qed.

Lemma list_find_no_id pend id :
  Forall (λ a, a_id a ≠ id) pend → list_find (has_id id) pend = None.
Proof.
  intros Hall. apply list_find_None. eapply Forall_impl; [exact Hall |].
  intros a Ha Hid. by apply bool_decide_unpack in Hid.
Qed.

(** ** The representation *)
Record entry_rep (bs : gmap positive Publications) (m : Messages) (a : app_message) : Prop := {
  entry_ok : inbound_ok m;
  entry_id : msgid m = a_id a;
  entry_version : m_MQTTVersion m = a_version a;
  entry_retain : Z.land (m_retain m) 1 = a_retain a;
  entry_props : props_at (m_MQTTVersion m) (m_properties m) (a_props a);
  entry_publish : a_version a < MQTTVERSION_5 → ∃ ad pb d,
    m_publish m = Some ad ∧ bs !! ad = Some pb ∧ p_topic pb = Some (a_topic a) ∧
    p_topiclen pb = a_topiclen a ∧ p_payload pb = Some d ∧ p_payloadlen pb = a_payloadlen a ∧
    0 ≤ a_payloadlen a ≤ Z.of_nat (length d) ∧
    a_payload a = take (Z.to_nat (a_payloadlen a)) d;
}.

Definition inbound_rep (bs : gmap positive Publications) (ms : list Messages)
    (pend : list app_message) : Prop :=
  Forall2 (entry_rep bs) ms pend ∧ NoDup (a_id <$> pend).

(** The entry of the message queue for a message. *)
Record delivered (qe : qEntry) (a : app_message) : Prop := {
  delivered_topic : topicName qe = Some (a_topic a);
  delivered_topiclen : topicLen qe = a_topiclen a;
  delivered_payload : ∃ d, q_payload qe = Some d ∧ 0 ≤ a_payloadlen a ≤ Z.of_nat (length d) ∧
    a_payload a = take (Z.to_nat (a_payloadlen a)) d;
  delivered_payloadlen : q_payloadlen qe = a_payloadlen a;
  delivered_header : q_qos qe = 2 ∧ q_dup qe = 0 ∧ q_retained qe = a_retain a ∧ q_msgid qe = a_id a;
  delivered_props : props_repr (q_properties qe) (a_props a);
}.

(** A PUBLISH packet of QoS [q] that carries a message. *)
Record carries (q : Z) (p : Publish) (a : app_message) : Prop := {
  carries_qos : qos (pub_header p) = q;
  carries_retain : Z.land (retain (pub_header p)) 1 = a_retain a;
  carries_version : pub_MQTTVersion p = a_version a;
  carries_id : pub_msgId p = a_id a ∧ 0 ≤ a_id a < 65536;
  carries_topic : topic p = Some (a_topic a) ∧ topiclen p = a_topiclen a ∧ short (a_topic a);
  carries_payload : ∃ d, payload p = Some d ∧ payloadlen p = a_payloadlen a ∧
    0 ≤ a_payloadlen a ≤ Z.of_nat (length d) ∧ a_payload a = take (Z.to_nat (a_payloadlen a)) d;
  carries_props : props_at (pub_MQTTVersion p) (Some (pub_properties p)) (a_props a);
}.

(** Other publications may change. *)
Lemma entry_rep_frame bs bs' m a :
  (∀ ad, m_publish m = Some ad → bs' !! ad = bs !! ad) →
  entry_rep bs m a → entry_rep bs' m a.
Proof.
  intros Hbs [H1 H2 H3 H4 H5 H6]. constructor; try done. intros Hv.
  destruct (H6 Hv) as (ad & pb & d & Hp & Hb & Hrest).
  exists ad, pb, d. by rewrite Hbs.
Qed.

Lemma entries_frame bs bs' ms pend :
  (∀ ad, ad ∈ omap m_publish ms → bs' !! ad = bs !! ad) →
  Forall2 (entry_rep bs) ms pend → Forall2 (entry_rep bs') ms pend.
Proof.
  intros Hbs Hrep. induction Hrep as [| m a ms pend Hm _ IH]; [done |]. constructor.
  - eapply entry_rep_frame; [| done]. intros ad Had. apply Hbs. cbn. rewrite Had. left.
  - apply IH. intros ad Had. apply Hbs. cbn. destruct (m_publish m); [by right | done].
Qed.

Lemma entries_ids bs ms pend : Forall2 (entry_rep bs) ms pend → msgid <$> ms = a_id <$> pend.
Proof. induction 1 as [| m a ms pend [] _ IH]; [done |]. cbn. by f_equal. Qed.

Lemma entries_ok bs ms pend : Forall2 (entry_rep bs) ms pend → Forall inbound_ok ms.
Proof. induction 1 as [| m a ms pend [] _ IH]; by constructor. Qed.

(** The references of a list of messages around one of them. *)
Lemma omap_delete_perm (ms : list Messages) k m :
  ms !! k = Some m →
  omap m_publish ms ≡ₚ option_list (m_publish m) ++ omap m_publish (delete k ms).
Proof.
  intros Hk. rewrite (delete_Permutation ms k m Hk) at 1. cbn. by destruct (m_publish m).
Qed.

Section Steps.
Context {T : Type} {HH : HasHeap T} {HB : HasBlocks T} {HT : Transport T}
  {TL : TransportLaws T} {HS : Session T} {SL : SessionLaws T}.
Notation P := (M (pstate T)).
Notation loc := (loc sent).
Implicit Types (s : pstate T) (c : Clients).

Lemma wp_update_inbound f i O W bs pl out c s (Q : unit → pstate T → Prop) :
  loc i O W bs pl out c s →
  (∀ s', loc i O W bs pl out (set_inboundMsgs (f (inboundMsgs c)) c) s' → Q tt s') →
  wp (update_inbound i f) Q s.
Proof. intros HL HQ. eapply wp_update_client; [exact HL | exact HQ]. Qed.

(** Dropping the publication of a message, if it still has one. *)
Lemma wp_drop_publication (p : ptr) R i O W bs pl out c s (Q : unit → pstate T → Prop) :
  loc i O W bs pl out c s → pubs_ok (option_list p ++ R) bs pl →
  (∀ bs' pl' s', loc i O W bs' pl' out c s' → pubs_ok R bs' pl' →
     (∀ ad, ad ∈ R → bs' !! ad = bs !! ad) → Q tt s') →
  wp (MQTTProtocol_removePublication p) Q s.
Proof.
  intros HL HP HQ. destruct p as [a |]; cbn in HP.
  - eapply wp_removePublication; [exact HL | exact HP | left |]. intros s' HL'.
    eapply HQ; [exact HL' | by apply pubs_ok_remove |]. intros ad Had.
    rewrite lookup_delete_ne; [done |]. intros ->. by apply refs_nodup, NoDup_cons in HP as [? _].
  - apply wp_ret. by eapply HQ.
Qed.

(** The same for a publication that [ListRemove] frees directly. *)
Lemma wp_take_publication (p : ptr) R i O W bs pl out c s (Q : unit → pstate T → Prop) :
  loc i O W bs pl out c s → pubs_ok (option_list p ++ R) bs pl →
  (∀ bs' pl' s', loc i O W bs' pl' out c s' → pubs_ok R bs' pl' →
     (∀ ad, ad ∈ R → bs' !! ad = bs !! ad) → Q tt s') →
  wp (remove_publication p) Q s.
Proof.
  intros HL HP HQ. destruct p as [a |]; cbn in HP.
  - destruct (pubs_ok_in _ _ _ a HP) as (pb & Hb & _ & Hpl); [left |].
    eapply wp_remove_publication; [exact HL | apply HP | done | done |]. intros s' HL'.
    eapply HQ; [exact HL' | by apply pubs_ok_remove |]. intros ad Had.
    rewrite lookup_delete_ne; [done |]. intros ->. by apply refs_nodup, NoDup_cons in HP as [? _].
  - apply wp_ret. by eapply HQ.
Qed.

Lemma take_cons_delete {A} (l : list A) k x y :
  l !! k = Some y → delete (S k) (take k l ++ x :: drop k l) = <[k := x]> l.
Proof.
  intros Hk. pose proof (lookup_lt_Some _ _ _ Hk) as Hlt.
  rewrite insert_take_drop by done.
  rewrite (drop_S l y k Hk).
  rewrite <- (length_take_le l k) at 1 by lia.
  replace (S (length (take k l))) with (length (take k l ++ [x])) by (rewrite length_app; simpl; lia).
  change (x :: y :: drop (S k) l) with ([x] ++ y :: drop (S k) l).
  rewrite (assoc_L (++)), delete_middle. by rewrite <- (assoc_L (++)).
Qed.

Lemma wp_insert_inbound m a R i O W bs pl out c s (Q : option nat * bool → pstate T → Prop) :
  let J := items (inboundMsgs c) in
  loc i O W bs pl out c s → pubs_ok (a :: omap m_publish J ++ R) bs pl →
  Forall inbound_ok J →
  (∀ k m0 bs' pl' l s', J !! k = Some m0 → msgid m0 = msgid m → items l = <[k := m]> J →
     pubs_ok (a :: omap m_publish (delete k J) ++ R) bs' pl' →
     (∀ ad, ad ∈ a :: omap m_publish (delete k J) ++ R → bs' !! ad = bs !! ad) →
     loc i O W bs' pl' out (set_inboundMsgs l c) s' → Q (Some k, true) s') →
  (∀ l s', Forall (λ m0, msgid m0 ≠ msgid m) J → items l = J ++ [m] →
     loc i O W bs pl out (set_inboundMsgs l c) s' → Q (Some (length J), false) s') →
  wp (insert_inbound i m) Q s.
Proof.
  intros J HL HP Hok HQ1 HQ2. unfold insert_inbound.
  apply wp_bind. eapply wp_client_at; [done |].
  pose proof (al_find_items (messageIDCompare (msgid m)) (inboundMsgs c)) as Hitems.
  apply wp_bind. eapply wp_update_inbound; [done |]. intros s1 HL1.
  destruct (fst (al_find (messageIDCompare (msgid m)) (inboundMsgs c))) as [k |] eqn:Ef.
  - apply al_find_some in Ef as (m0 & Hk & Hm0). apply bool_decide_unpack in Hm0.
    apply wp_bind. eapply wp_written; [by rewrite Hitems |]. apply wp_bind.
    eapply (wp_drop_publication (m_publish m0) (a :: omap m_publish (delete k J) ++ R));
      [exact HL1 | |].
    { rewrite (omap_delete_perm J k m0 Hk) in HP.
      eapply pubs_ok_perm; [| done | done | exact HP]. solve_Permutation. }
    intros bs' pl' s2 HL2 HP2 Hbs. apply wp_bind.
    assert (inbound_ok m0) as [_ _ (l0 & Hl0) _] by (by eapply Forall_lookup_1).
    eapply wp_free_properties; [exact Hl0 |]. apply wp_bind.
    eapply wp_list_insert; [exact HL2 |]. apply wp_bind.
    eapply wp_update_inbound; [exact HL2 |]. intros s3 HL3. apply wp_ret.
    eapply HQ1; [exact Hk | done | | exact HP2 | done | exact HL3].
    cbn. rewrite Hitems. by eapply take_cons_delete.
  - apply al_find_none in Ef. apply wp_bind. eapply wp_list_append; [done |].
    apply wp_bind. eapply wp_update_inbound; [done |]. intros s2 HL2. apply wp_ret.
    rewrite Hitems. eapply HQ2; [| | exact HL2].
    + eapply Forall_impl; [exact Ef |]. intros m0 Hm0 Heq. by apply Hm0, bool_decide_pack.
    + cbn. by rewrite Hitems.
Qed.

(** The new message and its publication, as the list will hold them. *)
Lemma new_entry p a ad o pb d bs t :
  carries 2 p a →
  (if decide (MQTTVERSION_5 ≤ pub_MQTTVersion p) then ∃ p', o = Some p' ∧ props_repr p' (a_props a)
   else o = None ∧ a_props a = []) →
  bs !! ad = Some pb → p_topic pb = Some (a_topic a) → p_topiclen pb = a_topiclen a →
  p_payload pb = Some d → p_payloadlen pb = a_payloadlen a →
  0 ≤ a_payloadlen a ≤ Z.of_nat (length d) → a_payload a = take (Z.to_nat (a_payloadlen a)) d →
  entry_rep bs {| m_qos := qos (pub_header p); m_retain := retain (pub_header p);
    msgid := pub_msgId p; m_MQTTVersion := pub_MQTTVersion p; m_properties := o;
    m_publish := Some ad; lastTouch := t; nextMessageType := Some PUBREL; m_len := 0 |} a.
Proof.
  intros Hc Ho Hb Ht Htl Hd Hdl Hlen Hpl.
  assert (props_at (pub_MQTTVersion p) o (a_props a)) as Hprops.
  { unfold props_at. destruct (decide _); [| by destruct Ho].
    destruct Ho as (p' & -> & Hp'). exists p'. split; [done | by apply repr_holds]. }
  destruct Hc. constructor; cbn; try done; try tauto.
  - constructor; cbn; [done | done | | by eexists]. by exists (a_props a).
  - intros _. exists ad, pb, d. tauto.
Qed.

Lemma drop_publish_entry bs bs' m a :
  MQTTVERSION_5 ≤ a_version a → entry_rep bs m a → entry_rep bs' (set_m_publish None m) a.
Proof.
  intros Hv [[H1 H2 H3 H4] H5 H6 H7 H8 H9]. constructor; cbn; try done; [| lia].
  constructor; cbn; [done | done | exact H3 | rewrite H6; lia].
Qed.

Lemma delete_insert_list {A} (l : list A) k x : delete k (<[k := x]> l) = delete k l.
Proof.
  apply list_eq. intros j. rewrite !list_lookup_delete.
  case_match; by rewrite list_lookup_insert_ne by lia.
Qed.

Lemma omap_delete_sub (J : list Messages) k e :
  e ∈ omap m_publish (delete k J) → e ∈ omap m_publish J.
Proof.
  rewrite !list_elem_of_omap. intros (m & Hm & He). exists m. split; [| done].
  eapply elem_of_submseteq; [exact Hm |]. apply sublist_submseteq, sublist_delete.
Qed.

Lemma publish_in_omap (ms : list Messages) m ad :
  m ∈ ms → m_publish m = Some ad → ad ∈ omap m_publish ms.
Proof. intros Hm Ha. apply list_elem_of_omap. eauto. Qed.

Lemma entries_insert bs bs' J pend k m a :
  Forall2 (entry_rep bs) J pend → entry_rep bs' m a →
  (∀ e, e ∈ omap m_publish (delete k J) → bs' !! e = bs !! e) →
  Forall2 (entry_rep bs') (<[k := m]> J) (<[k := a]> pend).
Proof.
  intros Hrep Hm Hbs. apply Forall2_same_length_lookup.
  split; [rewrite !length_insert; by eapply Forall2_length |]. intros j x y Hx Hy.
  destruct (decide (j = k)) as [-> |].
  - apply list_lookup_insert_Some in Hx, Hy. naive_solver.
  - rewrite list_lookup_insert_ne in Hx by done. rewrite list_lookup_insert_ne in Hy by done.
    eapply entry_rep_frame; [| by eapply Forall2_lookup_lr].
    intros ad Had. apply Hbs. eapply publish_in_omap; [| done]. by eapply delete_other.
Qed.

Lemma entries_delete bs bs' J pend k :
  Forall2 (entry_rep bs) J pend →
  (∀ e, e ∈ omap m_publish (delete k J) → bs' !! e = bs !! e) →
  Forall2 (entry_rep bs') (delete k J) (delete k pend).
Proof. intros Hrep Hbs. eapply entries_frame; [done |]. by apply Forall2_delete. Qed.

(** The abstract search finds what the code found. *)
Lemma entries_find bs J pend k m id :
  Forall2 (entry_rep bs) J pend → NoDup (a_id <$> pend) → J !! k = Some m → msgid m = id →
  ∃ a, pend !! k = Some a ∧ entry_rep bs m a ∧ list_find (has_id id) pend = Some (k, a).
Proof.
  intros Hrep Hnd Hk Hid. destruct (Forall2_lookup_l _ _ _ _ _ Hrep Hk) as (a & Ha & Hm).
  exists a. split_and!; [done.. |]. apply list_find_id; [done | done |].
  by rewrite <- (entry_id _ _ _ Hm).
Qed.

Lemma entries_find_none bs J pend id :
  Forall2 (entry_rep bs) J pend → Forall (λ m, msgid m ≠ id) J → list_find (has_id id) pend = None.
Proof.
  intros Hrep Hall. apply list_find_no_id. apply entries_ids in Hrep.
  apply (Forall_fmap a_id (λ n, n ≠ id)). rewrite <- Hrep. by apply Forall_fmap.
Qed.

Lemma wp_handle_qos2 p a pend R i O W bs pl out c s (Q : Z * bool → pstate T → Prop) :
  loc i O W bs pl out c s →
  pubs_ok (omap m_publish (items (inboundMsgs c)) ++ R) bs pl →
  inbound_rep bs (items (inboundMsgs c)) pend → carries 2 p a →
  (∀ bs' pl' l q qes s',
     loc i O W bs' pl' out (set_messageQueue q (set_inboundMsgs l c)) s' →
     pubs_ok (omap m_publish (items l) ++ R) bs' pl' →
     inbound_rep bs' (items l) (fst (inbound_step pend (RecvPublish a))) →
     items q = items (messageQueue c) ++ qes →
     Forall2 delivered qes (snd (inbound_step pend (RecvPublish a))) →
     Q (TCPSOCKET_COMPLETE, true) s') →
  wp (handle_qos2 i p) Q s.
Proof.
  intros HL HP [Hrep Hnd] Hc HQ. set (J := items (inboundMsgs c)) in *.
  destruct (carries_topic _ _ _ Hc) as (Ht & Htl & Hshort).
  destruct (carries_payload _ _ _ Hc) as (d & Hd & Hdl & Hlen & Hpl).
  pose proof (carries_props _ _ _ Hc) as Hprops.
  unfold handle_qos2. apply wp_bind. eapply wp_malloc; [done |]. cbn [negb].
  apply wp_bind. eapply wp_storePublication; [done.. |]. intros len s1 ad HL1.
  destruct (pubs_ok_new _ bs pl (mkPublications (Some (a_topic a)) (topiclen p) (payload p)
    (payloadlen p) 1 (mask p)) HP) as [Hfresh HP1].
  { constructor; cbn; [done | eauto |]. exists d. split; [done | by rewrite Hdl]. }
  fold ad in HP1, Hfresh. set (pb := mkPublications _ _ _ _ _ _) in *.
  apply wp_bind. eapply wp_copy_properties; [exact HL1 | exact Hprops |].
  intros o Ho. apply wp_bind.
  set (m := {| m_qos := _; m_retain := _; msgid := _; m_MQTTVersion := _; m_properties := _;
               m_publish := _; lastTouch := _; nextMessageType := _; m_len := _ |}).
  assert (∀ bs', bs' !! ad = Some pb → entry_rep bs' m a) as Hm.
  { intros bs' Hb. eapply (new_entry p a ad o pb d); try done. }
  assert (ad ∉ omap m_publish J ++ R) as Hnew.
  { intros Hin. by apply refs_nodup, NoDup_cons in HP1 as [? _]. }
  assert (∀ bs', bs' !! ad = Some pb → entry_rep (<[ad := set_p_payload
      (Some (take (Z.to_nat (p_payloadlen pb)) d)) pb]> bs') m a ∧
      pub_ok (set_p_payload (Some (take (Z.to_nat (p_payloadlen pb)) d)) pb)) as Hm'.
  { intros bs' Hb. cbn [p_payloadlen pb]. rewrite Hdl. split.
    - eapply (new_entry p a ad o _ (take (Z.to_nat (a_payloadlen a)) d));
        [exact Hc | exact Ho | apply lookup_insert_eq | done | done | done | done
        | rewrite length_take; lia | by rewrite take_take, Nat.min_id].
    - constructor; cbn; [done | eauto |]. eexists. split; [done |]. rewrite length_take. lia. }
  eapply wp_insert_inbound; [exact HL1 | exact HP1 | by eapply entries_ok | |].
  - intros k m0 bs' pl' l s2 Hk Hid Hl HP2 Hbs HL2. fold J in Hk, Hl, HP2, Hbs.
    assert (bs' !! ad = Some pb) as Hb by (rewrite Hbs; [by apply lookup_insert_eq | left]).
    destruct (Hm' bs' Hb) as [Hent Hok].
    destruct (entries_find _ _ _ _ _ _ Hrep Hnd Hk Hid) as (a0 & Ha0 & Hm0 & Hfind).
    assert (a_id a = a_id a0) as Hida.
    { rewrite <- (entry_id _ _ _ Hm0), Hid. symmetry. apply Hc. }
    apply wp_bind. eapply wp_publication_at; [exact HL2 | exact Hb |].
    rewrite decide_False by (by intros [_ ?]). apply wp_bind.
    rewrite (Hd : p_payload pb = Some d).
    eapply wp_copy_bytes; [exact HL2 | cbn; by rewrite Hdl |]. apply wp_bind.
    eapply wp_update_publication; [exact HL2 | exact Hb |]. intros s3 HL3. apply wp_ret.
    assert (msgid m = a_id a) as Hma by apply Hc. rewrite Hma in Hfind, Hid.
    unfold inbound_step in HQ. rewrite Hfind in HQ. cbn in HQ.
    eapply (HQ _ _ l (messageQueue c) []); [| | | by rewrite app_nil_r | constructor].
    + by replace (set_messageQueue _ _) with (set_inboundMsgs l c) by done.
    + eapply pubs_ok_update; [exact Hb | exact Hok |].
      rewrite Hl, (omap_delete_perm _ k m) by (apply list_lookup_insert_eq; by eapply lookup_lt_Some).
      rewrite delete_insert_list. exact HP2.
    + split.
      * rewrite Hl. eapply entries_insert; [exact Hrep | exact Hent |]. intros e He.
        rewrite lookup_insert_ne.
        -- rewrite Hbs by (right; apply elem_of_app; by left).
           apply lookup_insert_ne. intros ->. apply Hnew, elem_of_app. left.
           by eapply (omap_delete_sub J k).
        -- intros ->. apply Hnew, elem_of_app. left. by eapply (omap_delete_sub J k).
      * rewrite list_fmap_insert, Hida, list_insert_id; [done |].
        by rewrite list_lookup_fmap, Ha0.
  - intros l s2 Hall Hl HL2. fold J in Hall, Hl.
    assert ((<[ad := pb]> bs) !! ad = Some pb) as Hb by apply lookup_insert_eq.
    destruct (Hm' _ Hb) as [Hent Hok].
    assert (msgid m = a_id a) as Hma by apply Hc. rewrite Hma in Hall.
    assert (NoDup (a_id <$> pend ++ [a])) as Hnd'.
    { rewrite fmap_app. apply NoDup_app. split_and!; [done | | apply NoDup_singleton].
      rewrite <- (entries_ids _ _ _ Hrep). intros n Hn Hna.
      apply list_elem_of_singleton in Hna as ->. apply list_elem_of_fmap in Hn as (m0 & Hid & Hm0).
      rewrite Forall_forall in Hall. by apply (Hall m0). }
    unfold inbound_step in HQ. rewrite (entries_find_none _ _ _ _ Hrep Hall) in HQ. cbn [fst snd] in HQ.
    rewrite <- (carries_version _ _ _ Hc) in HQ.
    apply wp_bind. eapply wp_publication_at; [exact HL2 | exact Hb |].
    rewrite (Hd : p_payload pb = Some d).
    destruct (decide (MQTTVERSION_5 ≤ pub_MQTTVersion p)) as [Hv | Hv].
    + rewrite decide_True by done. destruct Ho as (o' & -> & Ho'). apply wp_bind.
      eapply wp_written; [done |]. apply wp_bind.
      eapply (wp_processPublication _ (a_topic a) d true (a_props a)); [exact HL2 | done | done
        | cbn; by rewrite Hdl | |].
      { unfold props_at. cbn. rewrite decide_True by done. exists o'. split; [done |].
        by apply repr_holds. }
      intros qe s3 Hqe HL3. apply wp_bind.
      eapply (wp_take_publication (Some ad) (omap m_publish J ++ R)); [exact HL3 | exact HP1 |].
      intros bs' pl' s4 HL4 HP4 Hbs. apply wp_bind.
      eapply wp_update_inbound; [exact HL4 |]. intros s5 HL5. apply wp_ret.
      assert (items (al_alter (set_m_publish None) (length J) l) = J ++ [set_m_publish None m])
        as Hitems.
      { cbn [al_alter items]. rewrite Hl. rewrite <- (Nat.add_0_r (length J)).
        by rewrite alter_app_r. }
      eapply (HQ bs' pl' (al_alter (set_m_publish None) (length J) l)
        (al_append qe (messageQueue c)) [qe]); [exact HL5 | | | done |].
      * rewrite Hitems, omap_app. cbn. by rewrite app_nil_r.
      * split; [| done]. rewrite Hitems. apply Forall2_app.
        -- eapply entries_frame; [| exact Hrep]. intros e He.
           rewrite Hbs by (apply elem_of_app; by left). apply lookup_insert_ne. intros <-.
           apply Hnew, elem_of_app. by left.
        -- constructor; [| done]. apply (drop_publish_entry (<[ad := pb]> bs)); [| by apply Hm].
           by rewrite <- (carries_version _ _ _ Hc).
      * constructor; [| done]. destruct Hqe as (props & Hr & ->). destruct Hc.
        constructor; cbn; [done | done | | done | | done].
        -- exists (take (Z.to_nat (payloadlen p)) d). split; [done |]. rewrite Hdl.
           split; [rewrite length_take; lia | by rewrite take_take, Nat.min_id].
        -- rewrite carries_qos0. cbn. tauto.
    + rewrite decide_False by tauto. apply wp_bind.
      eapply wp_copy_bytes; [exact HL2 | cbn; by rewrite Hdl |]. apply wp_bind.
      eapply wp_update_publication; [exact HL2 | exact Hb |]. intros s3 HL3. apply wp_ret.
      eapply (HQ _ _ l (messageQueue c) []); [| | | by rewrite app_nil_r | constructor].
      * by replace (set_messageQueue _ _) with (set_inboundMsgs l c) by done.
      * eapply pubs_ok_update; [exact Hb | exact Hok |]. rewrite Hl, omap_app. cbn.
        eapply pubs_ok_perm; [| done | done | exact HP1]. solve_Permutation.
      * split; [| done]. rewrite Hl. apply Forall2_app; [| by constructor].
        eapply entries_frame; [| exact Hrep]. intros e He.
        rewrite !lookup_insert_ne; [done | |]; intros <-; apply Hnew, elem_of_app; by left.
Qed.

(** The delivery of a message at the end of its exchange. *)
Lemma wp_deliver_released m a i O W bs pl out c s (Q : unit → pstate T → Prop) :
  loc i O W bs pl out c s → entry_rep bs m a →
  (∀ ad, m_publish m = Some ad → is_Some (bs !! ad)) →
  (∀ q qes s', items q = items (messageQueue c) ++ qes →
     Forall2 delivered qes (if decide (MQTTVERSION_5 ≤ a_version a) then [] else [a]) →
     loc i O W bs pl out (set_messageQueue q c) s' → Q tt s') →
  wp (deliver_released i m) Q s.
Proof.
  intros HL [Hok Hid Hv Hr Hp Hpub] Hlive HQ. unfold deliver_released. rewrite Hv.
  destruct (decide (MQTTVERSION_5 ≤ a_version a)) as [Hge | Hlt].
  - assert (Q tt s) as Hdone.
    { eapply (HQ (messageQueue c) []); [by rewrite app_nil_r | constructor |].
      by destruct c. }
    apply wp_bind. destruct (m_publish m) as [ad |]; [| by do 2 apply wp_ret].
    destruct (Hlive ad eq_refl) as [pb Hb]. apply wp_bind.
    eapply wp_publication_at; [exact HL | exact Hb |]. by do 2 apply wp_ret.
  - destruct Hpub as (ad & pb & d & Had & Hb & Ht & Htl & Hd & Hdl & Hlen & Hpl); [lia |].
    unfold props_at in Hp. rewrite Hv, decide_False in Hp by done.
    rewrite Had. apply wp_bind, wp_bind. eapply wp_publication_at; [exact HL | exact Hb |].
    apply wp_ret. apply wp_bind.
    eapply (wp_processPublication _ (a_topic a) d false []); [exact HL | done | done
      | cbn; by rewrite Hdl | |].
    { unfold props_at. cbn. by rewrite decide_False. }
    intros qe s' (props & Hprops & ->) HL'. apply wp_ret.
    eapply HQ; [| | exact HL']; [done |]. constructor; [| done].
    pose proof (inbound_qos _ Hok) as Hq.
    constructor; cbn; [done | done | | done | | by rewrite Hp].
    + exists d. tauto.
    + rewrite Hq. cbn. tauto.
Qed.

Lemma wp_release_inbound id pend R i O W bs pl out c s (Q : unit → pstate T → Prop) :
  loc i O W bs pl out c s →
  pubs_ok (omap m_publish (items (inboundMsgs c)) ++ R) bs pl →
  inbound_rep bs (items (inboundMsgs c)) pend →
  (∀ bs' pl' l q qes s',
     loc i O W bs' pl' out (set_messageQueue q (set_inboundMsgs l c)) s' →
     pubs_ok (omap m_publish (items l) ++ R) bs' pl' →
     inbound_rep bs' (items l) (fst (inbound_step pend (RecvPubrel id))) →
     items q = items (messageQueue c) ++ qes →
     Forall2 delivered qes (snd (inbound_step pend (RecvPubrel id))) →
     Q tt s') →
  wp (release_inbound i id) Q s.
Proof.
  intros HL HP [Hrep Hnd] HQ. set (J := items (inboundMsgs c)) in *. unfold release_inbound.
  apply wp_bind. eapply wp_client_at; [done |].
  pose proof (al_find_items (messageIDCompare id) (inboundMsgs c)) as Hitems.
  apply wp_bind. eapply wp_update_inbound; [done |]. intros s1 HL1.
  unfold inbound_step in HQ.
  destruct (fst (al_find (messageIDCompare id) (inboundMsgs c))) as [k |] eqn:Ef.
  - apply al_find_some in Ef as (m & Hk & Hm). apply bool_decide_unpack in Hm. fold J in Hk, Hitems.
    destruct (entries_find _ _ _ _ _ _ Hrep Hnd Hk Hm) as (a & Ha & Hent & Hfind).
    rewrite Hfind in HQ. cbn [fst snd] in HQ.
    apply wp_bind. eapply wp_written; [by rewrite Hitems |].
    pose proof (entry_ok _ _ _ Hent) as [Hq Hnext _ _].
    rewrite Hq, decide_False by (by intros []). apply wp_bind.
    eapply wp_written; [exact Hnext |]. rewrite decide_False by (by intros []).
    apply wp_bind. eapply wp_deliver_released; [exact HL1 | exact Hent | |].
    { intros ad Had. destruct (refs_live _ _ _ HP ad) as (pb & Hb & _); [| by eexists].
      apply elem_of_app. left. eapply publish_in_omap; [| done]. by eapply list_elem_of_lookup_2. }
    intros q qes s2 Hqitems Hdel HL2. apply wp_bind.
    eapply wp_remove_persisted; [exact HL2 |]. intros _ s3 HL3. apply wp_bind.
    eapply wp_free_properties; [exact (entry_props _ _ _ Hent) |]. apply wp_bind.
    eapply (wp_take_publication (m_publish m) (omap m_publish (delete k J) ++ R)); [exact HL3 | |].
    { rewrite (omap_delete_perm J k m Hk) in HP. by rewrite <- (assoc_L (++)) in HP. }
    intros bs' pl' s4 HL4 HP4 Hbs. apply wp_bind.
    eapply wp_update_inbound; [exact HL4 |]. intros s5 HL5. apply wp_modify.
    eapply (HQ bs' pl' (al_delete k (snd (al_find (messageIDCompare id) (inboundMsgs c)))) q);
      [| | | exact Hqitems | exact Hdel].
    + destruct HL5 as [? ? ? ? ? ? ?]. by constructor.
    + cbn. by rewrite Hitems.
    + split; cbn.
      * rewrite Hitems. eapply entries_delete; [exact Hrep |]. intros e He.
        apply Hbs, elem_of_app. by left.
      * rewrite list_fmap_delete. eapply sublist_NoDup; [exact Hnd | apply sublist_delete].
  - apply al_find_none in Ef. fold J in Ef.
    rewrite (entries_find_none _ _ _ _ Hrep) in HQ.
    2: { eapply Forall_impl; [exact Ef |]. intros m Hm Heq. by apply Hm, bool_decide_pack. }
    apply wp_ret.
    eapply (HQ bs pl (snd (al_find (messageIDCompare id) (inboundMsgs c))) (messageQueue c) []);
      [exact HL1 | | | by rewrite app_nil_r | constructor].
    + by rewrite Hitems.
    + split; [by rewrite Hitems | done].
Qed.

(** ** The handlers *)
Inductive in_packet :=
  | InPublish (p : Publish)
  | InPubrel (a : Ack).

Definition handle_in (sock : Z) (pk : in_packet) : P Z :=
  match pk with
  | InPublish p => MQTTProtocol_handlePublishes p sock
  | InPubrel a => MQTTProtocol_handlePubrels a sock
  end.

Fixpoint handle_all_in (sock : Z) (pks : list in_packet) : P unit :=
  match pks with
  | [] => mret tt
  | pk :: pks => _ ← handle_in sock pk; handle_all_in sock pks
  end.

(** The id of an acknowledgement that was parsed. *)
Record acknowledges (a : Ack) (id : Z) : Prop := {
  ack_id : ack_msgId a = Some id ∧ 0 ≤ id < 65536;
  ack_props : ∃ l, props_at (ack_MQTTVersion a) (ack_properties a) l;
}.

Inductive in_event : in_packet → inbound_event → Prop :=
  | in_publish p a : carries 2 p a → in_event (InPublish p) (RecvPublish a)
  | in_pubrel ack id : acknowledges ack id → in_event (InPubrel ack) (RecvPubrel id).

(** The part of the client the inbound exchanges do not change. *)
Definition same_client (c c' : Clients) : Prop :=
  ∃ l q w n, same_net (net c) n ∧
    c' = set_outboundQueue w (set_net n (set_messageQueue q (set_inboundMsgs l c))).

Lemma acks_grow ty id out out' q w :
  4 ≤ ty ≤ 7 → 0 ≤ id < 65536 → Forall ack_ok (items q) → acked (T := T) ty id out out' q w →
  Forall ack_ok (items w).
Proof.
  intros Hty Hid Hacks [[_ ->] | [(_ & _ & ->) | [_ ->]]]; [done | | done].
  cbn. apply Forall_app. split; [done |]. by constructor.
Qed.

(** The acknowledgement a packet asks for. *)
Definition answer_type (e : inbound_event) : Z :=
  match e with RecvPublish _ => PUBREC | RecvPubrel _ => PUBCOMP end.
Definition answers (e : inbound_event) : list Z → list Z → alist AckRequest → alist AckRequest → Prop :=
  acked (T := T) (answer_type e) (event_id e).
Definition answer (e : inbound_event) : list Z := enc_ack (answer_type e) (event_id e).

Lemma queue_grows qes v as_ :
  Forall (λ qe, freeable (q_properties qe)) v → Forall2 delivered qes as_ →
  Forall (λ qe, freeable (q_properties qe)) (v ++ qes).
Proof.
  intros Hv Hd. apply Forall_app. split; [done |].
  induction Hd as [| qe a qes as_ [] _ IH]; constructor; [| done].
  by eapply holds_freeable, repr_holds.
Qed.

(** One packet. *)
Lemma wp_handle_in sock pk e pend R i O W bs pl out c s (Q : Z → pstate T → Prop) :
  in_event pk e →
  loc i O W bs pl out c s → socket (net c) = sock → Forall (λ c', socket (net c') ≠ sock) O →
  pubs_ok (omap m_publish (items (inboundMsgs c)) ++ R) bs pl →
  inbound_rep bs (items (inboundMsgs c)) pend →
  (∀ bs' pl' out' c' qes rc s',
     loc i O W bs' pl' out' c' s' → same_client c c' →
     pubs_ok (omap m_publish (items (inboundMsgs c')) ++ R) bs' pl' →
     inbound_rep bs' (items (inboundMsgs c')) (fst (inbound_step pend e)) →
     items (messageQueue c') = items (messageQueue c) ++ qes →
     Forall2 delivered qes (snd (inbound_step pend e)) →
     (Forall ack_ok (items (outboundQueue c)) → Forall ack_ok (items (outboundQueue c'))) →
     answers e out out' (outboundQueue c) (outboundQueue c') →
     Q rc s') →
  wp (handle_in sock pk) Q s.
Proof.
  intros He HL Hsock HO HP Hrep HQ. destruct He as [p a Hc | ack id [[Hid Hrange] [lp Hlp]]]; cbn.
  - unfold MQTTProtocol_handlePublishes. apply wp_bind.
    eapply wp_findClient; [exact HL | done | done |]. intros s1 HL1. apply wp_bind.
    rewrite (carries_qos _ _ _ Hc), decide_False by done. apply wp_bind.
    eapply wp_nothing_pending; [exact HL1 |]. intros free s2 Hfree HL2.
    rewrite decide_False, decide_True by done. apply wp_bind.
    eapply wp_handle_qos2; [exact HL2 | exact HP | exact Hrep | exact Hc |].
    intros bs' pl' l q qes s3 HL3 HP3 Hrep3 Hq Hdel. cbn [snd].
    destruct (carries_id _ _ _ Hc) as [Hid Hrange]. rewrite Hid.
    eapply wp_ack_or_queue; [apply send_ack_sender; [unfold PUBREC; lia | done] | exact HL3 | done |].
    intros rc n out' w s4 Hn Hw HL4. apply wp_bind. unfold MQTTPacket_freePublish.
    eapply wp_free_properties; [apply (carries_props _ _ _ Hc) |]. apply wp_ret.
    eapply HQ; [exact HL4 | by exists l, q, w, n | exact HP3 | exact Hrep3 | exact Hq | exact Hdel | |].
    + intros Hacks. eapply acks_grow; [| | exact Hacks | exact Hw]; [unfold PUBREC; lia | done].
    + exact Hw.
  - unfold MQTTProtocol_handlePubrels. apply wp_bind.
    eapply wp_findClient; [exact HL | done | done |]. intros s1 HL1. apply wp_bind.
    eapply wp_written; [exact Hid |]. apply wp_bind.
    eapply wp_release_inbound; [exact HL1 | exact HP | exact Hrep |].
    intros bs' pl' l q qes s2 HL2 HP2 Hrep2 Hq Hdel. apply wp_bind.
    eapply wp_nothing_pending; [exact HL2 |]. intros free s3 Hfree HL3. apply wp_bind.
    eapply wp_ack_or_queue; [apply send_ack_sender; [unfold PUBCOMP; lia | done] | exact HL3 | done |].
    intros rc n out' w s4 Hn Hw HL4. apply wp_bind.
    eapply wp_free_properties; [exact Hlp |]. apply wp_ret.
    eapply HQ; [exact HL4 | by exists l, q, w, n | exact HP2 | exact Hrep2 | exact Hq | exact Hdel | |].
    + intros Hacks. eapply acks_grow; [| | exact Hacks | exact Hw]; [unfold PUBCOMP; lia | done].
    + exact Hw.
Qed.

Lemma same_client_refs c c' :
  same_client c c' → client_refs c' = omap m_publish (items (inboundMsgs c')) ++
                                      omap m_publish (items (outboundMsgs c)).
Proof. intros (l & q & w & n & _ & ->). unfold client_refs. by rewrite omap_app. Qed.

(** The state of the library around the exchanges of one client. *)
Record serving (sock : Z) (i : nat) (c : Clients) (pend : list app_message) (s : pstate T)
  : Prop := {
  serving_wf : wf s;
  serving_client : items (clients s) !! i = Some c;
  serving_socket : socket (net c) = sock;
  serving_only : ∀ j c', items (clients s) !! j = Some c' → socket (net c') = sock → j = i;
  serving_rep : inbound_rep (blocks s) (items (inboundMsgs c)) pend;
}.

Lemma others_not (l : list Clients) i sock :
  (∀ j c', l !! j = Some c' → socket (net c') = sock → j = i) ↔
  Forall (λ c', socket (net c') ≠ sock) (delete i l).
Proof.
  split.
  - intros Honly. apply Forall_lookup. intros j x Hx Hs. rewrite list_lookup_delete in Hx.
    case_match; specialize (Honly _ _ Hx Hs); lia.
  - intros Hall j x Hx Hs. destruct (decide (j = i)) as [| Hne]; [done |]. exfalso.
    rewrite Forall_forall in Hall. apply (Hall x); [| done]. by eapply delete_other.
Qed.

Lemma handle_in_serving sock pk e i c pend s :
  in_event pk e → serving sock i c pend s →
  wp (handle_in sock pk) (λ _ s', ∃ c' qes,
    serving sock i c' (fst (inbound_step pend e)) s' ∧
    items (messageQueue c') = items (messageQueue c) ++ qes ∧
    Forall2 delivered qes (snd (inbound_step pend e)) ∧
    answers e (sent (below s)) (sent (below s')) (outboundQueue c) (outboundQueue c')) s.
Proof.
  intros He [Hwf Hi Hsock Honly Hrep].
  destruct (wf_loc s i c Hwf Hi) as (Hc & HO & HP & HL). apply others_not in Honly.
  unfold client_refs in HP. rewrite omap_app, <- (assoc_L (++)) in HP.
  eapply wp_handle_in; [exact He | exact HL | done | done | exact HP | exact Hrep |].
  intros bs' pl' out' c' qes rc s' HL' Hsame HP' Hrep' Hq Hdel Hacks Hans.
  exists c', qes. split_and!; [| done | done | by rewrite (loc_sent _ _ _ _ _ _ _ _ _ HL')].
  pose proof (same_client_refs _ _ Hsame) as Hrefs.
  destruct Hsame as (l & q & w & n & Hn & ->). destruct Hrep' as [Hrep' Hnd'].
  constructor.
  - eapply loc_wf; [exact HL' | | done | apply Hwf |].
    + destruct Hc as [C1 C2 C3 C4 C5 C6]. constructor; cbn in *; [| | done | done | |].
      * by eapply entries_ok.
      * by rewrite (entries_ids _ _ _ Hrep').
      * rewrite Hq. by eapply queue_grows.
      * by apply Hacks.
    + rewrite Hrefs, <- (assoc_L (++)). exact HP'.
  - apply HL'.
  - cbn. by rewrite (proj1 Hn).
  - apply others_not. by rewrite (loc_others _ _ _ _ _ _ _ _ _ HL').
  - rewrite (loc_blocks _ _ _ _ _ _ _ _ _ HL'). by split.
Qed.

Lemma handle_all_in_serving sock pks es i c pend s :
  Forall2 in_event pks es → serving sock i c pend s →
  wp (handle_all_in sock pks) (λ _ s', ∃ c' qes,
    serving sock i c' (fst (inbound_run pend es)) s' ∧
    items (messageQueue c') = items (messageQueue c) ++ qes ∧
    Forall2 delivered qes (snd (inbound_run pend es)) ∧
    (reliable T → sent (below s') = sent (below s) ++ mjoin (answer <$> es))) s.
Proof.
  intros Hes. revert c pend s. induction Hes as [| pk e pks es He _ IH]; intros c pend s Hs.
  { apply wp_ret. exists c, []. cbn. by rewrite !app_nil_r. }
  cbn [handle_all_in inbound_run]. apply wp_bind.
  eapply wp_mono; [by eapply handle_in_serving |].
  intros _ s1 (c1 & q1 & Hs1 & Hq1 & Hd1 & Ha1). destruct (inbound_step pend e) as [pend1 d1].
  eapply wp_mono; [by eapply IH |].
  intros _ s2 (c2 & q2 & Hs2 & Hq2 & Hd2 & Ha2). cbn [fst] in *.
  destruct (inbound_run pend1 es) as [pend2 d2]. cbn [fst snd] in *.
  exists c2, (q1 ++ q2). split_and!; [done | by rewrite Hq2, Hq1, (assoc_L (++)) | |].
  - by apply Forall2_app.
  - intros HR. rewrite (Ha2 HR). cbn [fmap list_fmap mjoin list_join].
    destruct Ha1 as [[-> _] | [[] | []]]; [by rewrite <- (assoc_L (++)) | done | done].
Qed.
End Steps.
