(* ===== verification/Outbound.v ===== *)
(** * QoS 1 and 2 from the application to the broker

    The exchange for outgoing messages as an automaton on the messages that
    are not acknowledged, and the proof that [MQTTProtocol_startPublish] and
    the handlers of PUBACK, PUBREC and PUBCOMP implement it. *)
From S2P Require Import Prelude Buffers LinkedList Properties PacketIn Names Clients PacketOut.
From S2P Require Import Protocol Sessions ProtocolLaws Inbound.
Local Open Scope Z_scope.

(** ** The automaton *)
Inductive stage := WaitPuback | WaitPubrec | WaitPubcomp.

#[export] Instance stage_eq_dec : EqDecision stage.
Proof. solve_decision. Defined.

Inductive outbound_event :=
  | Sent (id : Z) (st : stage)     (* a PUBLISH of QoS 1 or 2 *)
  | GotPuback (id : Z)
  | GotPubrec (id : Z) (error : bool)
  | GotPubcomp (id : Z).

Definition at_id (id : Z) (e : Z * stage) : bool := bool_decide (fst e = id).

(** [f] applied to the message with the id, if it is at the stage. *)
Definition at_stage (id : Z) (st : stage)
    (f : nat → list (Z * stage) → list (Z * stage)) (l : list (Z * stage)) : list (Z * stage) :=
  match list_find (at_id id) l with
  | Some (k, (_, st')) => if decide (st' = st) then f k l else l
  | None => l
  end.

Definition outbound_step (l : list (Z * stage)) (e : outbound_event) : list (Z * stage) :=
  match e with
  | Sent id st => l ++ [(id, st)]
  | GotPuback id => at_stage id WaitPuback delete l
  | GotPubrec id error =>
    at_stage id WaitPubrec (if error then delete else λ k, <[k := (id, WaitPubcomp)]>) l
  | GotPubcomp id => at_stage id WaitPubcomp delete l
  end.

(** The events that end an exchange. *)
Definition finishes (id : Z) (e : outbound_event) : Prop :=
  match e with
  | GotPuback id' | GotPubcomp id' => id' = id
  | GotPubrec id' error => id' = id ∧ error = true
  | Sent _ _ => False
  end.

Lemma delete_keeps {A B} (f : A → B) (l : list A) k x b :
  l !! k = Some x → f x ≠ b → b ∈ f <$> l → b ∈ f <$> delete k l.
Proof.
  intros Hk Hx Hb. rewrite (delete_Permutation l k x Hk) in Hb. cbn in Hb.
  apply elem_of_cons in Hb as [-> |]; done.
Qed.

Lemma step_keeps id l e :
  ¬ finishes id e → id ∈ fst <$> l → id ∈ fst <$> outbound_step l e.
Proof.
  intros He Hin.
  assert (∀ id' st f, (∀ k st', l !! k = Some (id', st') → id ∈ fst <$> f k l) →
    id ∈ fst <$> at_stage id' st f l) as Hat.
  { intros id' st f Hf. unfold at_stage. destruct (list_find _ l) as [[k [id2 st2]] |] eqn:Ef; [| done].
    apply list_find_Some in Ef as (Hk & Hid & _). apply bool_decide_unpack in Hid. cbn in Hid. subst id2.
    case_decide; [by eapply Hf | done]. }
  destruct e as [id' st | id' | id' error | id']; cbn in *.
  - rewrite fmap_app, elem_of_app. by left.
  - apply Hat. intros k st' Hk. by eapply delete_keeps.
  - apply Hat. intros k st' Hk. destruct error; [eapply delete_keeps; [done | | done]; cbn; tauto |].
    rewrite list_fmap_insert, list_insert_id; [done |]. by rewrite list_lookup_fmap, Hk.
  - apply Hat. intros k st' Hk. by eapply delete_keeps.
Qed.

Lemma run_keeps id l es :
  Forall (λ e, ¬ finishes id e) es → id ∈ fst <$> l → id ∈ fst <$> foldl outbound_step l es.
Proof.
  intros Hes. revert l. induction Hes as [| e es He _ IH]; intros l Hin; [done |].
  by apply IH, step_keeps.
Qed.

(** The stage of a message of the list. *)
Definition stage_of (m : Messages) : stage :=
  if decide (m_qos m = 1) then WaitPuback
  else if decide (nextMessageType m = Some PUBREC) then WaitPubrec else WaitPubcomp.

Definition entry_of (m : Messages) : Z * stage := (msgid m, stage_of m).
Definition stages (c : Clients) : list (Z * stage) := entry_of <$> items (outboundMsgs c).

Lemma stages_ids c : fst <$> stages c = msgid <$> items (outboundMsgs c).
Proof. unfold stages. by rewrite <- list_fmap_compose. Qed.

Lemma find_entry l k m id :
  NoDup (msgid <$> l) → l !! k = Some m → msgid m = id →
  list_find (at_id id) (entry_of <$> l) = Some (k, entry_of m).
Proof.
  intros Hnd Hk Hid. apply list_find_Some. split_and!.
  - by rewrite list_lookup_fmap, Hk.
  - by apply bool_decide_pack.
  - intros j y Hj Hlt Hy. apply bool_decide_unpack in Hy.
    rewrite list_lookup_fmap in Hj. apply fmap_Some in Hj as (m' & Hm' & ->).
    assert (j = k) as ->; [| lia]. eapply (NoDup_lookup _ j k id Hnd).
    + rewrite list_lookup_fmap, Hm'. cbn in *. by rewrite Hy.
    + rewrite list_lookup_fmap, Hk. cbn. by rewrite Hid.
Qed.

Lemma find_entry_none l id :
  Forall (λ m, msgid m ≠ id) l → list_find (at_id id) (entry_of <$> l) = None.
Proof.
  intros Hall. apply list_find_None, Forall_fmap. eapply Forall_impl; [exact Hall |].
  intros m Hm Hid. apply Hm. by apply bool_decide_unpack in Hid.
Qed.

Lemma at_stage_here id st f l k m :
  NoDup (msgid <$> l) → l !! k = Some m → msgid m = id →
  at_stage id st f (entry_of <$> l) =
    if decide (stage_of m = st) then f k (entry_of <$> l) else entry_of <$> l.
Proof. intros Hnd Hk Hid. unfold at_stage. by rewrite (find_entry _ _ _ _ Hnd Hk Hid). Qed.

Lemma at_stage_none id st f l :
  Forall (λ m, msgid m ≠ id) l → at_stage id st f (entry_of <$> l) = entry_of <$> l.
Proof. intros Hall. unfold at_stage. by rewrite (find_entry_none _ _ Hall). Qed.

(** The tests of the handlers decide the stage. *)
Lemma stage_puback m : outbound_ok m → stage_of m = WaitPuback ↔ m_qos m = 1.
Proof.
  intros [Hq _ _ _ _]. unfold stage_of. case_decide; [done |].
  split; [by case_decide | done].
Qed.

Lemma stage_qos2 m st next :
  outbound_ok m → st ≠ WaitPuback → nextMessageType m = Some next →
  stage_of m = st ↔ m_qos m = 2 ∧ next = (if decide (st = WaitPubrec) then PUBREC else PUBCOMP).
Proof.
  intros [Hq _ _ _ _] Hst Hn. unfold stage_of. rewrite Hn in *.
  destruct (decide (m_qos m = 1)) as [Hm | Hm]; [rewrite Hm; naive_solver |].
  destruct Hq as [| [[H2 Hnext] | [H2 Hnext]]]; [done | |]; injection Hnext as ->.
  - rewrite decide_True by done. split; [by intros <- |]. destruct st; [done | done |].
    by intros [_ ?].
  - rewrite decide_False by (by intros [=]). split; [by intros <- |].
    destruct st; [done | by intros [_ ?] | done].
Qed.

Lemma qos2_next m : outbound_ok m → m_qos m = 2 → is_Some (nextMessageType m).
Proof. intros [Hq _ _ _ _] H2. destruct Hq as [| [[_ ->] | [_ ->]]]; [congruence | eauto | eauto]. Qed.

Lemma wait_pubcomp_qos m : outbound_ok m → stage_of m ≠ WaitPuback → m_qos m = 2.
Proof.
  intros Hok Hs. destruct (outbound_qos _ Hok) as [H1 | [[] | []]]; [| done | done].
  exfalso. by apply Hs, stage_puback.
Qed.

(** The outbound messages of a client, for any view of the layers below *)
Section Finding.
Context {T : Type} {HH : HasHeap T} {X : Type} {snd_ : T → X}.
Notation loc := (loc snd_).
Implicit Types (s : pstate T) (c : Clients).

Lemma wp_update_outbound f i O W bs pl out c s (Q : unit → pstate T → Prop) :
  loc i O W bs pl out c s →
  (∀ s', loc i O W bs pl out (set_outboundMsgs (f (outboundMsgs c)) c) s' → Q tt s') →
  wp (update_outbound i f) Q s.
Proof. intros HL HQ. eapply wp_update_client; [exact HL | exact HQ]. Qed.

Lemma wp_find_outbound id i O W bs pl out c s (Q : option (nat * Messages) → pstate T → Prop) :
  loc i O W bs pl out c s →
  (∀ k m l s', items (outboundMsgs c) !! k = Some m → msgid m = id →
     items l = items (outboundMsgs c) →
     loc i O W bs pl out (set_outboundMsgs l c) s' → Q (Some (k, m)) s') →
  (∀ l s', Forall (λ m, msgid m ≠ id) (items (outboundMsgs c)) →
     items l = items (outboundMsgs c) →
     loc i O W bs pl out (set_outboundMsgs l c) s' → Q None s') →
  wp (find_outbound i id) Q s.
Proof.
  intros HL HQ1 HQ2. unfold find_outbound. apply wp_bind. eapply wp_client_at; [done |].
  pose proof (al_find_items (messageIDCompare id) (outboundMsgs c)) as Hitems.
  apply wp_bind. eapply wp_update_outbound; [done |]. intros s1 HL1.
  destruct (fst (al_find (messageIDCompare id) (outboundMsgs c))) as [k |] eqn:Ef.
  - apply al_find_some in Ef as (m & Hk & Hm). apply bool_decide_unpack in Hm.
    apply wp_bind. eapply wp_written; [by rewrite Hitems |]. apply wp_ret.
    eapply HQ1; [exact Hk | exact Hm | exact Hitems | exact HL1].
  - apply al_find_none in Ef. apply wp_ret. eapply HQ2; [| exact Hitems | exact HL1].
    eapply Forall_impl; [exact Ef |]. intros m Hm Heq. by apply Hm, bool_decide_pack.
Qed.
End Finding.

(** ** Messages from packets *)

(** The publication that [MQTTProtocol_storePublication] makes of a packet. *)
Definition stored (p : Publish) : Publications :=
  mkPublications (topic p) (topiclen p) (payload p) (payloadlen p) 1 (mask p).

Lemma publishable_stored p t pl q l : publishable p t pl q l → pub_ok (stored p).
Proof.
  intros [(b & Hb & Ht) Hs (d & Hd & Hlen & _) _ _ _]. constructor; cbn; [done | | eauto].
  exists b. split; [done |]. unfold short. by rewrite <- length_cstr, Ht.
Qed.

Definition stored_message (p : Publish) (q rt : Z) (o : option MQTTProperties) (a : positive)
    (t len : Z) : Messages := {|
  m_qos := q; m_retain := rt; msgid := pub_msgId p; m_MQTTVersion := pub_MQTTVersion p;
  m_properties := o; m_publish := Some a; lastTouch := Some t;
  nextMessageType := if decide (q = 2) then Some PUBREC else None; m_len := len |}.

Lemma wp_createMessage {T} {HH : HasHeap T} {HB : HasBlocks T} {HT : Transport T} {X} (snd_ : T → X)
    p q rt t pl l i O W bs pl' out c s
    (Q : message_ref * message_ref * Publish → pstate T → Prop) :
  frames snd_ (now : M T Z) → keeps_heap (now : M T Z) →
  publishable p t pl q l → loc snd_ i O W bs pl' out c s →
  (∀ o tm len s', let a := fresh (dom bs) in
     let m := stored_message p q rt o a tm len in
     repr_at (pub_MQTTVersion p) o l ∨ ¬ MQTTVERSION_5 ≤ pub_MQTTVersion p ∧ o = None →
     loc snd_ i O W (<[a := stored p]> bs) (pl' ++ [a]) out c s' →
     Q (MsgAt m, MsgAt m, set_payload None (set_topic None p)) s') →
  wp (MQTTProtocol_createMessage p MsgNull q rt false) Q s.
Proof.
  intros Hnow Hnowh Hp HL HQ. unfold MQTTProtocol_createMessage.
  destruct (pub_topic _ _ _ _ _ Hp) as (b & Hb & Ht).
  apply wp_bind. eapply wp_malloc; [done |]. cbn [negb]. apply wp_bind, wp_ret. apply wp_bind.
  eapply wp_storePublication; [done.. |]. rewrite <- Hb. fold (stored p). intros len s1 a HL1.
  apply wp_bind, wp_ret. cbv iota. apply wp_bind. unfold finish_message. apply wp_bind.
  apply (wp_mono _ (λ (o : option MQTTProperties) s', s' = s1 ∧
    (repr_at (pub_MQTTVersion p) o l ∨ ¬ MQTTVERSION_5 ≤ pub_MQTTVersion p ∧ o = None))).
  { cbn [pub_MQTTVersion pub_properties set_payload set_topic]. change 5 with MQTTVERSION_5.
    unfold repr_at. destruct (decide (MQTTVERSION_5 ≤ pub_MQTTVersion p)) as [Hv | Hv].
    - destruct (pub_props _ _ _ _ _ Hp Hv) as [Hr _].
      destruct (MQTTProperties_copy_repr (S := pstate T) _ l s1 Hr) as (p' & Hc & Hr').
      { exact (loc_heap _ _ _ _ _ _ _ _ _ HL1). }
      apply wp_bind. eapply wp_intro; [exact Hc |]. apply wp_ret. eauto.
    - apply wp_ret. by auto. }
  intros o ? [-> Ho]. apply wp_bind.
  eapply wp_lift_frames; [exact Hnow | exact Hnowh | exact HL1 |]. intros tm s2 HL2.
  do 2 apply wp_ret. by eapply HQ.
Qed.

Section Steps.
Context {T : Type} {HH : HasHeap T} {HB : HasBlocks T} {HT : Transport T}
  {TL : TransportLaws T} {HS : Session T} {SL : SessionLaws T}.
Notation P := (M (pstate T)).
Notation loc := (loc sent).
Implicit Types (s : pstate T) (c : Clients).

(** The references of the client around its outbound messages. *)
Lemma wp_finish_outbound k m defer R i O W bs pl out c s (Q : ptr → pstate T → Prop) :
  loc i O W bs pl out c s → items (outboundMsgs c) !! k = Some m → outbound_ok m →
  pubs_ok (omap m_publish (items (outboundMsgs c)) ++ R) bs pl →
  (∀ p bs' pl' s', (defer = false → p = None) →
     loc i O W bs' pl' out (set_outboundMsgs (al_delete k (outboundMsgs c)) c) s' →
     pubs_ok (option_list p ++ omap m_publish (delete k (items (outboundMsgs c))) ++ R) bs' pl' →
     Q p s') →
  wp (finish_outbound i k m defer) Q s.
Proof.
  intros HL Hk Hok HP HQ. rewrite (omap_delete_perm _ k m Hk), <- (assoc_L (++)) in HP.
  destruct (outbound_props _ Hok) as (l & Hl & _). apply repr_at_props_at in Hl.
  unfold finish_outbound. apply wp_bind.
  apply (wp_mono _ (λ (_ : unit) s', ∃ bs' pl', loc i O W bs' pl' out c s' ∧
    pubs_ok (option_list (if defer then m_publish m else None) ++
             omap m_publish (delete k (items (outboundMsgs c))) ++ R) bs' pl')).
  { destruct defer; [apply wp_ret; eauto |].
    eapply wp_drop_publication; [exact HL | exact HP |]. intros bs' pl' s' HL' HP' _. eauto. }
  intros _ s1 (bs' & pl' & HL1 & HP1). apply wp_bind.
  eapply wp_free_properties; [exact Hl |]. apply wp_bind.
  eapply wp_update_outbound; [exact HL1 |]. intros s2 HL2. apply wp_ret.
  eapply HQ; [| exact HL2 | exact HP1]. by intros ->.
Qed.

(** ** The handlers *)

(** What a step of an outgoing exchange may change in a client. *)
Definition same_out_client c c' : Prop :=
  ∃ l w n, same_net (net c) n ∧ c' = set_outboundQueue w (set_net n (set_outboundMsgs l c)).

(** The client after the event [e]; [p] is a publication left to the caller. *)
Record after_out (e : outbound_event) (R : list positive) c (p : ptr)
    (bs : gmap positive Publications) (pl : list positive) c' : Prop := {
  after_same : same_out_client c c';
  after_stages : stages c' = outbound_step (stages c) e;
  after_ok : Forall outbound_ok (items (outboundMsgs c'));
  after_pubs : pubs_ok (option_list p ++ omap m_publish (items (outboundMsgs c')) ++ R) bs pl;
  after_acks : Forall ack_ok (items (outboundQueue c)) → Forall ack_ok (items (outboundQueue c'));
}.

(** A list of outbound messages that is in order. *)
Record out_list (R : list positive) (bs : gmap positive Publications) (pl : list positive) c
  : Prop := {
  out_ok : Forall outbound_ok (items (outboundMsgs c));
  out_ids : NoDup (msgid <$> items (outboundMsgs c));
  out_pubs : pubs_ok (omap m_publish (items (outboundMsgs c)) ++ R) bs pl;
}.

(** An event that finds nothing to do. *)
Lemma after_nothing e R c bs pl l :
  out_list R bs pl c → items l = items (outboundMsgs c) → outbound_step (stages c) e = stages c →
  after_out e R c None bs pl (set_outboundMsgs l c).
Proof.
  intros [H1 H2 H3] Hl He. constructor; cbn; [| | by rewrite Hl | by rewrite Hl | done].
  - exists l, (outboundQueue c), (net c). split; [done | by destruct c].
  - unfold stages in *. cbn. by rewrite Hl, He.
Qed.

(** The removal of a message at the end of its exchange. *)
Lemma wp_complete e k m l R i O W bs pl out c s defer (Q : ptr → pstate T → Prop) :
  loc i O W bs pl out (set_outboundMsgs l c) s → out_list R bs pl c →
  items l = items (outboundMsgs c) → items (outboundMsgs c) !! k = Some m →
  outbound_step (stages c) e = delete k (stages c) →
  (∀ p bs' pl' s', (defer = false → p = None) →
     after_out e R c p bs' pl' (set_outboundMsgs (al_delete k l) c) →
     loc i O W bs' pl' out (set_outboundMsgs (al_delete k l) c) s' → Q p s') →
  wp (finish_outbound i k m defer) Q s.
Proof.
  intros HL [H1 H2 H3] Hl Hk He HQ.
  eapply (wp_finish_outbound k m defer R); [exact HL | by rewrite <- Hl in Hk | by eapply Forall_lookup_1
    | cbn; by rewrite Hl |].
  intros p bs' pl' s' Hp HL' HP'. cbn in HP'. eapply HQ; [exact Hp | | exact HL'].
  constructor; cbn.
  - exists (al_delete k l), (outboundQueue c), (net c). split; [done | by destruct c].
  - rewrite He. unfold stages. cbn. by rewrite Hl, list_fmap_delete.
  - apply Forall_delete. by rewrite Hl.
  - exact HP'.
  - done.
Qed.

Lemma wp_handlePubacks ack id sock defer R i O W bs pl out c s (Q : Z * ptr → pstate T → Prop) :
  acknowledges ack id → loc i O W bs pl out c s → socket (net c) = sock →
  Forall (λ c', socket (net c') ≠ sock) O → out_list R bs pl c →
  (∀ rc p bs' pl' c' s', (defer = false → p = None) →
     after_out (GotPuback id) R c p bs' pl' c' → loc i O W bs' pl' out c' s' → Q (rc, p) s') →
  wp (MQTTProtocol_handlePubacks ack sock defer) Q s.
Proof.
  intros [[Hid _] [lp Hlp]] HL Hsock HO Hout HQ. unfold MQTTProtocol_handlePubacks.
  apply wp_bind. eapply wp_findClient; [exact HL | done | done |]. intros s1 HL1.
  apply wp_bind. eapply wp_written; [exact Hid |].
  assert (∀ l s', items l = items (outboundMsgs c) →
    outbound_step (stages c) (GotPuback id) = stages c →
    loc i O W bs pl out (set_outboundMsgs l c) s' →
    wp (_ ← MQTTPacket_freeAck ack; mret (TCPSOCKET_COMPLETE, None : ptr)) Q s') as Hnothing.
  { intros l s' Hl He HL'. apply wp_bind. eapply wp_free_properties; [exact Hlp |].
    apply wp_ret. eapply HQ; [done | | exact HL']. by apply after_nothing. }
  apply wp_bind. eapply wp_find_outbound; [exact HL1 | |].
  - intros k m l s2 Hk Hm Hl HL2. pose proof (out_ok _ _ _ _ Hout) as Hok.
    eapply Forall_lookup_1 in Hok; [| exact Hk].
    pose proof (at_stage_here id WaitPuback delete _ k m (out_ids _ _ _ _ Hout) Hk Hm) as Hst.
    apply wp_bind. destruct (decide (m_qos m ≠ 1)) as [Hq | Hq].
    { apply wp_ret. eapply Hnothing; [exact Hl | | exact HL2]. cbn. unfold stages. rewrite Hst.
      rewrite decide_False; [done |]. by rewrite stage_puback. }
    apply wp_bind. eapply wp_remove_persisted; [exact HL2 |]. intros rc s3 HL3. apply wp_bind.
    eapply (wp_complete (GotPuback id)); [exact HL3 | exact Hout | exact Hl | exact Hk | |].
    { cbn. unfold stages. rewrite Hst. rewrite decide_True; [done |].
      apply stage_puback; [done |]. by apply dec_stable. }
    intros p bs' pl' s4 Hp Hafter HL4. apply wp_ret. apply wp_bind.
    eapply wp_free_properties; [exact Hlp |]. apply wp_ret. by eapply HQ.
  - intros l s2 Hall Hl HL2. apply wp_bind, wp_ret. eapply Hnothing; [exact Hl | | exact HL2].
    cbn. by apply at_stage_none.
Qed.

Lemma wp_handlePubcomps ack id sock defer R i O W bs pl out c s (Q : Z * ptr → pstate T → Prop) :
  acknowledges ack id → loc i O W bs pl out c s → socket (net c) = sock →
  Forall (λ c', socket (net c') ≠ sock) O → out_list R bs pl c →
  (∀ rc p bs' pl' c' s', (defer = false → p = None) →
     after_out (GotPubcomp id) R c p bs' pl' c' → loc i O W bs' pl' out c' s' → Q (rc, p) s') →
  wp (MQTTProtocol_handlePubcomps ack sock defer) Q s.
Proof.
  intros [[Hid _] [lp Hlp]] HL Hsock HO Hout HQ. unfold MQTTProtocol_handlePubcomps.
  apply wp_bind. eapply wp_findClient; [exact HL | done | done |]. intros s1 HL1.
  apply wp_bind. eapply wp_written; [exact Hid |].
  assert (∀ l s', items l = items (outboundMsgs c) →
    outbound_step (stages c) (GotPubcomp id) = stages c →
    loc i O W bs pl out (set_outboundMsgs l c) s' →
    wp (_ ← MQTTPacket_freeAck ack; mret (TCPSOCKET_COMPLETE, None : ptr)) Q s') as Hnothing.
  { intros l s' Hl He HL'. apply wp_bind. eapply wp_free_properties; [exact Hlp |].
    apply wp_ret. eapply HQ; [done | | exact HL']. by apply after_nothing. }
  apply wp_bind. eapply wp_find_outbound; [exact HL1 | |].
  - intros k m l s2 Hk Hm Hl HL2. pose proof (out_ok _ _ _ _ Hout) as Hok.
    eapply Forall_lookup_1 in Hok; [| exact Hk].
    pose proof (at_stage_here id WaitPubcomp delete _ k m (out_ids _ _ _ _ Hout) Hk Hm) as Hst.
    apply wp_bind. destruct (decide (m_qos m ≠ 2)) as [Hq | Hq].
    { apply wp_ret. eapply Hnothing; [exact Hl | | exact HL2]. cbn. unfold stages. rewrite Hst.
      rewrite decide_False; [done |]. intros Hs. apply Hq, wait_pubcomp_qos; [done | by rewrite Hs]. }
    apply dec_stable in Hq. destruct (qos2_next m Hok Hq) as [next Hnext].
    pose proof (stage_qos2 m WaitPubcomp next Hok ltac:(done) Hnext) as Hiff. cbn in Hiff.
    apply wp_bind. eapply wp_written; [exact Hnext |].
    destruct (decide (next ≠ PUBCOMP)) as [Hne | Heq].
    { apply wp_ret. eapply Hnothing; [exact Hl | | exact HL2]. cbn. unfold stages. rewrite Hst.
      rewrite decide_False; [done |]. by intros [_ Hs]%Hiff. }
    apply dec_stable in Heq. apply wp_bind.
    eapply wp_remove_persisted; [exact HL2 |]. intros rc s3 HL3. apply wp_bind.
    eapply (wp_complete (GotPubcomp id)); [exact HL3 | exact Hout | exact Hl | exact Hk | |].
    { cbn. unfold stages. rewrite Hst. rewrite decide_True; [done |]. by apply Hiff. }
    intros p bs' pl' s4 Hp Hafter HL4. apply wp_bind, wp_modify, wp_ret. apply wp_bind.
    eapply wp_free_properties; [exact Hlp |]. apply wp_ret. eapply HQ; [done | exact Hafter |].
    destruct HL4 as [? ? ? ? ? ? ?]. by constructor.
  - intros l s2 Hall Hl HL2. apply wp_bind, wp_ret. eapply Hnothing; [exact Hl | | exact HL2].
    cbn. by apply at_stage_none.
Qed.

(** The end of [MQTTProtocol_handlePubrecs]: a PUBREL, always but after an
    error. *)
Lemma wp_answer_pubrec ack id sock e R bs pl c0 i O W out c s (Q : Z * ptr → pstate T → Prop) :
  acknowledges ack id → loc i O W bs pl out c s → after_out e R c0 None bs pl c →
  (∀ rc out' c' s', after_out e R c0 None bs pl c' → loc i O W bs pl out' c' s' →
     Q (rc, None) s') →
  wp (rc ← (free ← nothing_pending sock;
            ack_or_queue i free PUBREL id (MQTTPacket_send_pubrel (ack_MQTTVersion ack) id 0));
      _ ← MQTTPacket_freeAck ack; mret (rc, None : ptr)) Q s.
Proof.
  intros [[_ Hr] [lp Hlp]] HL [Hsame Hst Hok Hpubs Hacks] HQ. apply wp_bind, wp_bind.
  eapply wp_nothing_pending; [exact HL |]. intros free s1 Hfree HL1.
  eapply wp_ack_or_queue; [apply send_ack_sender; [unfold PUBREL; lia | done] | exact HL1 | done |].
  intros rc n out' w s2 Hn Hw HL2. apply wp_bind.
  eapply wp_free_properties; [exact Hlp |]. apply wp_ret. eapply HQ; [| exact HL2].
  constructor; cbn; [| done | done | done |].
  - destruct Hsame as (l & w0 & n0 & Hn0 & ->). exists l, w, n. split; [| done].
    unfold same_net in *. cbn in Hn. intuition congruence.
  - intros Ha. eapply acks_grow; [| exact Hr | by apply Hacks | exact Hw]. unfold PUBREL. lia.
Qed.

(** The message moves to the second half of its exchange. *)
Lemma after_pubrec id k m l t R c bs pl :
  out_list R bs pl c → items l = items (outboundMsgs c) → items (outboundMsgs c) !! k = Some m →
  msgid m = id → m_qos m = 2 →
  outbound_step (stages c) (GotPubrec id false) = <[k := (id, WaitPubcomp)]> (stages c) →
  after_out (GotPubrec id false) R c None bs pl
    (set_outboundMsgs (al_alter (touch_message (Some PUBCOMP) (Some t)) k l) c).
Proof.
  intros [H1 H2 H3] Hl Hk Hid Hq He.
  assert (items (al_alter (touch_message (Some PUBCOMP) (Some t)) k l) =
    <[k := touch_message (Some PUBCOMP) (Some t) m]> (items (outboundMsgs c))) as Hitems.
  { cbn. rewrite Hl. apply list_eq. intros j. destruct (decide (j = k)) as [-> |].
    - rewrite list_lookup_alter_eq, Hk, list_lookup_insert_eq; [done |].
      by eapply lookup_lt_Some.
    - by rewrite list_lookup_alter_ne, list_lookup_insert_ne. }
  constructor.
  - exists (al_alter (touch_message (Some PUBCOMP) (Some t)) k l), (outboundQueue c), (net c).
    split; [done | by destruct c].
  - unfold stages at 1. cbn [outboundMsgs set_outboundMsgs]. rewrite Hitems, He, list_fmap_insert.
    f_equal. unfold entry_of, stage_of. cbn. by rewrite Hid, Hq.
  - cbn [outboundMsgs set_outboundMsgs]. rewrite Hitems. apply Forall_insert; [done |].
    eapply Forall_lookup_1 in H1 as [_ Hi Hp Hpub _]; [| exact Hk].
    constructor; cbn; [tauto | done | done | done | by eexists].
  - cbn [outboundMsgs set_outboundMsgs option_list app]. rewrite Hitems.
    rewrite (omap_delete_perm _ k (touch_message (Some PUBCOMP) (Some t) m))
      by (apply list_lookup_insert_eq; by eapply lookup_lt_Some).
    rewrite delete_insert_list. by rewrite <- (omap_delete_perm _ k m Hk : _ ≡ₚ _).
  - done.
Qed.

(** The reason code of a PUBREC, from version 5 on. *)
Definition pubrec_error (ack : Ack) (error : bool) : Prop :=
  if decide (MQTTVERSION_5 ≤ ack_MQTTVersion ack)
  then ∃ rc, ack_rc ack = Some rc ∧ error = bool_decide (MQTTREASONCODE_UNSPECIFIED_ERROR ≤ rc)
  else error = false.

Lemma wp_pubrec_error ack error (Q : bool → pstate T → Prop) s :
  pubrec_error ack error → Q error s →
  wp (if decide (MQTTVERSION_5 ≤ ack_MQTTVersion ack) then
        rc ← written (ack_rc ack);
        mret (bool_decide (MQTTREASONCODE_UNSPECIFIED_ERROR ≤ rc))
      else mret false) Q s.
Proof.
  unfold pubrec_error. destruct (decide _); [| by intros ->].
  intros (rc & Hrc & ->) HQ. apply wp_bind. eapply wp_written; [exact Hrc | by apply wp_ret].
Qed.

Lemma wp_handlePubrecs ack id error sock defer R i O W bs pl out c s
    (Q : Z * ptr → pstate T → Prop) :
  acknowledges ack id → pubrec_error ack error → loc i O W bs pl out c s →
  socket (net c) = sock → Forall (λ c', socket (net c') ≠ sock) O → out_list R bs pl c →
  (∀ rc p bs' pl' out' c' s', (defer = false → p = None) →
     after_out (GotPubrec id error) R c p bs' pl' c' → loc i O W bs' pl' out' c' s' →
     Q (rc, p) s') →
  wp (MQTTProtocol_handlePubrecs ack sock defer) Q s.
Proof.
  intros Hack Herr HL Hsock HO Hout HQ. unfold MQTTProtocol_handlePubrecs.
  apply wp_bind. eapply wp_findClient; [exact HL | done | done |]. intros s1 HL1.
  apply wp_bind. eapply wp_written; [apply Hack |].
  apply wp_bind. eapply wp_update_outbound; [exact HL1 |]. intros s2 HL2.
  assert (∀ l bs' pl' s', after_out (GotPubrec id error) R c None bs' pl' (set_outboundMsgs l c) →
    loc i O W bs' pl' out (set_outboundMsgs l c) s' →
    wp (rc ← (free ← nothing_pending sock;
            ack_or_queue i free PUBREL id (MQTTPacket_send_pubrel (ack_MQTTVersion ack) id 0));
      _ ← MQTTPacket_freeAck ack; mret (rc, None : ptr)) Q s') as Hanswer.
  { intros l bs' pl' s' Hafter HL'. eapply wp_answer_pubrec; [done | exact HL' | exact Hafter |].
    intros rc out' c' s3 Hafter' HL3. by eapply HQ. }
  apply wp_bind. eapply wp_find_outbound; [exact HL2 | |].
  - intros k m l s3 Hk Hm Hl HL3. cbn in Hk, Hl.
    change (set_outboundMsgs l (set_outboundMsgs _ c)) with (set_outboundMsgs l c) in HL3. pose proof (out_ok _ _ _ _ Hout) as Hok.
    eapply Forall_lookup_1 in Hok; [| exact Hk].
    pose proof (at_stage_here id WaitPubrec (if error then delete else λ k, <[k := (id, WaitPubcomp)]>)
      _ k m (out_ids _ _ _ _ Hout) Hk Hm) as Hst.
    apply wp_bind. destruct (decide (m_qos m ≠ 2)) as [Hq | Hq].
    { apply wp_ret. eapply Hanswer; [| exact HL3]. apply after_nothing; [done | done |].
      cbn. unfold stages. rewrite Hst, decide_False; [done |].
      intros Hs. apply Hq, wait_pubcomp_qos; [done | by rewrite Hs]. }
    apply dec_stable in Hq. destruct (qos2_next m Hok Hq) as [next Hnext].
    pose proof (stage_qos2 m WaitPubrec next Hok ltac:(done) Hnext) as Hiff. cbn in Hiff.
    apply wp_bind. eapply wp_written; [exact Hnext |].
    destruct (decide (next ≠ PUBREC)) as [Hne | Heq].
    { apply wp_ret. eapply Hanswer; [| exact HL3]. apply after_nothing; [done | done |].
      cbn. unfold stages. rewrite Hst, decide_False; [done |]. by intros [_ Hs]%Hiff. }
    apply dec_stable in Heq. rewrite decide_True in Hst by (by apply Hiff).
    apply wp_bind. eapply wp_pubrec_error; [exact Herr |]. destruct error.
    + apply wp_bind. eapply wp_remove_persisted; [exact HL3 |]. intros rc s4 HL4. apply wp_bind.
      eapply (wp_complete (GotPubrec id true)); [exact HL4 | exact Hout | exact Hl | exact Hk
        | exact Hst |].
      intros p bs' pl' s5 Hp Hafter HL5. apply wp_bind, wp_modify, wp_ret. apply wp_bind, wp_ret.
      apply wp_bind. destruct (ack_props _ _ Hack) as [lp Hlp].
      eapply wp_free_properties; [exact Hlp |]. apply wp_ret. eapply HQ; [done | exact Hafter |].
      destruct HL5 as [? ? ? ? ? ? ?]. by constructor.
    + apply wp_bind. eapply wp_lift_quiet; [apply now_quiet | apply heap_now | exact HL3 |].
      intros t s4 HL4. apply wp_bind. eapply wp_update_outbound; [exact HL4 |].
      intros s5 HL5. apply wp_ret. eapply Hanswer; [| exact HL5].
      eapply after_pubrec; [exact Hout | exact Hl | exact Hk | exact Hm | exact Hq | exact Hst].
  - intros l s3 Hall Hl HL3.
    change (set_outboundMsgs l (set_outboundMsgs _ c)) with (set_outboundMsgs l c) in HL3.
    apply wp_bind, wp_ret. eapply Hanswer; [| exact HL3].
    apply after_nothing; [done | done |]. cbn. by apply at_stage_none.
Qed.

(** ** Publishing *)
Definition enc_publish_packet (p : Publish) (t pl : list Z) (dp q rt : Z) (l : list MQTTProperty)
  : list Z :=
  enc_packet (header_of PUBLISH dp q rt)
    (enc_publish t q (pub_MQTTVersion p) (pub_msgId p) l pl).

Lemma wp_send_publish p t pl q l dp rt i O W bs pl' out c s
    (Q : Z * list Z * networkHandles → pstate T → Prop) :
  publishable p t pl q l → loc i O W bs pl' out c s →
  (∀ rc msk n out' s', same_net (net c) n →
     (rc = TCPSOCKET_COMPLETE ∨ rc = TCPSOCKET_INTERRUPTED →
      out' = out ++ enc_publish_packet p t pl dp q rt l) →
     (reliable T → rc = TCPSOCKET_COMPLETE) →
     loc i O W bs pl' out' c s' → Q (rc, msk, n) s') →
  wp (lift (MQTTPacket_send_publish p dp q rt (net c))) Q s.
Proof.
  intros Hp HL HQ. apply wp_lift.
  destruct (MQTTPacket_send_publish_outcome p t pl dp q rt l (net c) (below s) Hp)
    as (rc & msk & n & b & Hrun & Hn & Hsent & _).
  eapply wp_intro; [exact Hrun |]. eapply (HQ _ _ _ (sent b)); [exact Hn | | |].
  - intros Hok. rewrite (Hsent Hok). by rewrite (loc_sent _ _ _ _ _ _ _ _ _ HL).
  - intros HR. eapply (send_publish_complete HR); [| | exact Hrun]; [| apply HL].
    intros _. destruct (writes_publish_header _ _ _ _ _ Hp) as [_ ->]. lia.
  - destruct HL as [H1 H2 H3 H4 H5 H6 H7]. constructor; try done. cbn.
    by eapply keeps_send_publish.
Qed.

Definition first_stage (q : Z) : stage := if decide (q = 1) then WaitPuback else WaitPubrec.

Lemma stored_message_ok p q rt t pl l o a tm len :
  publishable p t pl q l → 0 < q →
  repr_at (pub_MQTTVersion p) o l ∨ ¬ MQTTVERSION_5 ≤ pub_MQTTVersion p ∧ o = None →
  outbound_ok (stored_message p q rt o a tm len) ∧
  entry_of (stored_message p q rt o a tm len) = (pub_msgId p, first_stage q).
Proof.
  intros Hp Hq Ho. pose proof (pub_qos _ _ _ _ _ Hp) as Hrange. split.
  - constructor; cbn; [| apply Hp | | by eexists | by eexists].
    + destruct (decide (q = 2)); [by right; left | left; lia].
    + unfold repr_at in *. destruct (decide (MQTTVERSION_5 ≤ pub_MQTTVersion p)) as [Hv |].
      * exists l. split; [by destruct Ho as [| [? _]] |]. apply (pub_props _ _ _ _ _ Hp Hv).
      * exists []. split; [| by vm_compute]. split; [| done]. by destruct Ho as [[? _] | [_ ?]].
  - unfold entry_of, stage_of, first_stage. cbn. destruct (decide (q = 1)); [done |].
    by rewrite (decide_True (P := q = 2)) by lia.
Qed.

Lemma stored_publishable p q rt t pl l o a tm len :
  publishable p t pl q l →
  repr_at (pub_MQTTVersion p) o l ∨ ¬ MQTTVERSION_5 ≤ pub_MQTTVersion p ∧ o = None →
  publishable (stored_publish p (stored_message p q rt o a tm len) (stored p)
    (default (pub_properties p) o)) t pl q l.
Proof.
  intros [H1 H2 H3 H4 H5 H6] Ho. constructor; cbn; [done | done | done | done | done |].
  intros Hv. split; [| by apply H6]. unfold repr_at in Ho. rewrite decide_True in Ho by done.
  by destruct Ho as [(p' & -> & Hr) | [? _]].
Qed.

Lemma wp_startPublish p q rt t pl l R i O W bs pl' out c s
    (Q : Z * message_ref * Publish → pstate T → Prop) :
  publishable p t pl q l → 0 < q → loc i O W bs pl' out c s → out_list R bs pl' c →
  (∀ rc mm p' bs2 pl2 out' c' s',
     after_out (Sent (pub_msgId p) (first_stage q)) R c None bs2 pl2 c' →
     (rc = TCPSOCKET_COMPLETE ∨ rc = TCPSOCKET_INTERRUPTED →
      out' = out ++ enc_publish_packet p t pl 0 q rt l) →
     loc i O W bs2 pl2 out' c' s' → Q (rc, mm, p') s') →
  wp (MQTTProtocol_startPublish i p q rt MsgNull) Q s.
Proof.
  intros Hp Hq HL [Hok Hids HP] HQ. unfold MQTTProtocol_startPublish. rewrite decide_True by done.
  apply wp_bind.
  eapply wp_createMessage; [apply now_quiet | apply heap_now | exact Hp | exact HL |].
  intros o tm len s1 a m Ho HL1. destruct (stored_message_ok p q rt t pl l o a tm len Hp Hq Ho)
    as [Hmok Hentry]. fold m in Hmok, Hentry.
  destruct (pubs_ok_new _ bs pl' (stored p) HP) as [Hfresh HP1]; [by eapply publishable_stored |].
  pose proof (λ pb' Hpb', proj2 (pubs_ok_new _ bs pl' pb' HP Hpb')) as Hnew.
  fold a in Hfresh, HP1, Hnew. apply wp_bind, wp_ret. apply wp_bind.
  eapply wp_client_at; [exact HL1 |]. apply wp_bind. eapply wp_list_append; [exact HL1 |].
  apply wp_bind. eapply wp_update_client; [exact HL1 |]. cbn [snd]. intros s2 HL2. apply wp_bind.
  eapply wp_publication_at; [exact HL2 | apply lookup_insert_eq |]. apply wp_bind.
  unfold MQTTProtocol_startPublishCommon. apply wp_bind. eapply wp_client_at; [exact HL2 |].
  apply wp_bind. eapply (wp_send_publish _ t pl q l); [by apply stored_publishable | exact HL2 |].
  intros rc msk n out' s3 Hn Hsent _ HL3. apply wp_bind. eapply wp_update_client; [exact HL3 |].
  intros s4 HL4. rewrite decide_False by lia. apply wp_ret. apply wp_bind.
  eapply wp_update_publication; [exact HL4 | apply lookup_insert_eq |]. intros s5 HL5. apply wp_ret.
  rewrite insert_insert_eq in HL5. eapply HQ; [| exact Hsent | exact HL5]. constructor; cbn.
  - exists (al_append m (outboundMsgs c)), (outboundQueue c), n. split; [exact Hn | by destruct c].
  - unfold stages. cbn. by rewrite fmap_app, <- Hentry.
  - apply Forall_app. split; [done | by constructor].
  - rewrite omap_app. cbn. eapply pubs_ok_perm; [| done | done |].
    2: { apply Hnew. destruct (publishable_stored _ _ _ _ _ Hp) as [P1 P2 P3]. by constructor. }
    solve_Permutation.
  - done.
Qed.

(** ** Sequences of packets *)
Inductive out_packet :=
  | OutPublish (p : Publish) (q rt : Z)
  | OutPuback (a : Ack)
  | OutPubrec (a : Ack)
  | OutPubcomp (a : Ack).

(** A packet is sent, or handled as the callers of the handlers do: a
    publication left to them is removed afterwards. *)
Definition handle_out (sock : Z) (i : nat) (defer : bool) (pk : out_packet) : P unit :=
  match pk with
  | OutPublish p q rt => _ ← MQTTProtocol_startPublish i p q rt MsgNull; mret tt
  | OutPuback a =>
    r ← MQTTProtocol_handlePubacks a sock defer; MQTTProtocol_removePublication (snd r)
  | OutPubrec a =>
    r ← MQTTProtocol_handlePubrecs a sock defer; MQTTProtocol_removePublication (snd r)
  | OutPubcomp a =>
    r ← MQTTProtocol_handlePubcomps a sock defer; MQTTProtocol_removePublication (snd r)
  end.

Fixpoint handle_all_out (sock : Z) (i : nat) (defer : bool) (pks : list out_packet) : P unit :=
  match pks with
  | [] => mret tt
  | pk :: pks => _ ← handle_out sock i defer pk; handle_all_out sock i defer pks
  end.

Inductive out_event : out_packet → outbound_event → Prop :=
  | out_publish p q rt t pl l : publishable p t pl q l → 0 < q →
      out_event (OutPublish p q rt) (Sent (pub_msgId p) (first_stage q))
  | out_puback a id : acknowledges a id → out_event (OutPuback a) (GotPuback id)
  | out_pubrec a id error : acknowledges a id → pubrec_error a error →
      out_event (OutPubrec a) (GotPubrec id error)
  | out_pubcomp a id : acknowledges a id → out_event (OutPubcomp a) (GotPubcomp id).

(** A new publication has an id that is not in use. *)
Definition sends_fresh (l : list (Z * stage)) (e : outbound_event) : Prop :=
  match e with Sent id _ => id ∉ fst <$> l | _ => True end.

Fixpoint all_fresh (l : list (Z * stage)) (es : list outbound_event) : Prop :=
  match es with
  | [] => True
  | e :: es => sends_fresh l e ∧ all_fresh (outbound_step l e) es
  end.

Lemma at_stage_nodup id st f l :
  NoDup (fst <$> l) → (∀ k e, list_find (at_id id) l = Some (k, e) → NoDup (fst <$> f k l)) →
  NoDup (fst <$> at_stage id st f l).
Proof.
  intros Hnd Hf. unfold at_stage. destruct (list_find _ l) as [[k [id' st']] |]; [| done].
  case_decide; [by eapply Hf | done].
Qed.

Lemma step_nodup l e :
  sends_fresh l e → NoDup (fst <$> l) → NoDup (fst <$> outbound_step l e).
Proof.
  intros Hfresh Hnd.
  assert (∀ k, NoDup (fst <$> delete k l)) as Hdel.
  { intros k. rewrite list_fmap_delete. eapply sublist_NoDup; [exact Hnd | apply sublist_delete]. }
  destruct e as [id st | id | id error | id]; cbn.
  - rewrite fmap_app. apply NoDup_app. split_and!; [done | | apply NoDup_singleton].
    intros x Hx Hin. apply list_elem_of_singleton in Hin as ->. by apply Hfresh.
  - apply at_stage_nodup; auto.
  - apply at_stage_nodup; [done |]. intros k [id' st'] Hk. destruct error; [done |].
    apply list_find_Some in Hk as (Hk & Hid & _). apply bool_decide_unpack in Hid. cbn in Hid.
    rewrite list_fmap_insert, list_insert_id; [done |]. by rewrite list_lookup_fmap, Hk, <- Hid.
  - apply at_stage_nodup; auto.
Qed.

(** The publication left to the caller is removed. *)
Lemma wp_caller_removes e R c p bs' pl' out' c' i O W s (Q : unit → pstate T → Prop) :
  after_out e R c p bs' pl' c' → loc i O W bs' pl' out' c' s →
  (∀ bs2 pl2 s', after_out e R c None bs2 pl2 c' → loc i O W bs2 pl2 out' c' s' → Q tt s') →
  wp (MQTTProtocol_removePublication p) Q s.
Proof.
  intros [H1 H2 H3 H4 H5] HL HQ. eapply wp_drop_publication; [exact HL | exact H4 |].
  intros bs2 pl2 s' HL' HP' _. eapply HQ; [| exact HL']. by constructor.
Qed.

Lemma wp_handle_out sock defer pk e R i O W bs pl out c s (Q : unit → pstate T → Prop) :
  out_event pk e → loc i O W bs pl out c s → socket (net c) = sock →
  Forall (λ c', socket (net c') ≠ sock) O → out_list R bs pl c →
  (∀ bs' pl' out' c' s', after_out e R c None bs' pl' c' → loc i O W bs' pl' out' c' s' → Q tt s') →
  wp (handle_out sock i defer pk) Q s.
Proof.
  intros He HL Hsock HO Hout HQ.
  destruct He as [p q rt t pl0 l Hp Hq | a id Ha | a id error Ha Herr | a id Ha]; cbn; apply wp_bind.
  - eapply wp_startPublish; [exact Hp | exact Hq | exact HL | exact Hout |].
    intros rc mm p' bs2 pl2 out' c' s' Hafter _ HL'. apply wp_ret. by eapply HQ.
  - eapply wp_handlePubacks; [exact Ha | exact HL | done | done | exact Hout |].
    intros rc p bs' pl' c' s' _ Hafter HL'.
    eapply wp_caller_removes; [exact Hafter | exact HL' |]. intros. by eapply HQ.
  - eapply wp_handlePubrecs; [exact Ha | exact Herr | exact HL | done | done | exact Hout |].
    intros rc p bs' pl' out' c' s' _ Hafter HL'.
    eapply wp_caller_removes; [exact Hafter | exact HL' |]. intros. by eapply HQ.
  - eapply wp_handlePubcomps; [exact Ha | exact HL | done | done | exact Hout |].
    intros rc p bs' pl' c' s' _ Hafter HL'.
    eapply wp_caller_removes; [exact Hafter | exact HL' |]. intros. by eapply HQ.
Qed.

(** The client at a position, with a socket of its own. *)
Record owning (sock : Z) (i : nat) (c : Clients) (s : pstate T) : Prop := {
  owning_wf : wf s;
  owning_client : items (clients s) !! i = Some c;
  owning_socket : socket (net c) = sock;
  owning_only : ∀ j c', items (clients s) !! j = Some c' → socket (net c') = sock → j = i;
}.

Lemma client_refs_perm c :
  client_refs c ≡ₚ omap m_publish (items (outboundMsgs c)) ++ omap m_publish (items (inboundMsgs c)).
Proof. unfold client_refs. rewrite omap_app. apply Permutation_app_comm. Qed.

(** The references elsewhere than in the outbound messages of a client. *)
Definition out_refs (O : list Clients) (W : alist pending_write) c : list positive :=
  omap m_publish (items (inboundMsgs c)) ++ other_refs O W.

Lemma owning_loc sock i c s :
  owning sock i c s →
  let O := delete i (items (clients s)) in
  let W := pending_writes s in
  loc i O W (blocks s) (items (publications s)) (sent (below s)) c s ∧
  Forall (λ c', socket (net c') ≠ sock) O ∧
  out_list (out_refs O W c) (blocks s) (items (publications s)) c.
Proof.
  intros [Hwf Hi Hsock Honly].
  destruct (wf_loc s i c Hwf Hi) as (Hc & HO & HP & HL). apply others_not in Honly.
  rewrite client_refs_perm, <- (assoc_L (++)) in HP.
  split_and!; [done | done |]. constructor; [apply Hc | apply Hc | exact HP].
Qed.

Lemma owning_after sock i e c c' bs' pl' out' s s' :
  let O := delete i (items (clients s)) in
  let W := pending_writes s in
  owning sock i c s → sends_fresh (stages c) e →
  after_out e (out_refs O W c) c None bs' pl' c' → loc i O W bs' pl' out' c' s' →
  owning sock i c' s'.
Proof.
  intros O W [Hwf Hi Hsock Honly] Hfresh [H1 H2 H3 H4 H5] HL'.
  destruct (wf_loc s i c Hwf Hi) as (Hc & HO & _ & _). apply others_not in Honly.
  pose proof (step_nodup (stages c) e Hfresh) as Hnd. rewrite stages_ids in Hnd.
  specialize (Hnd (client_outbound_ids _ Hc)).
  rewrite <- H2, stages_ids in Hnd. cbn [option_list app] in H4.
  destruct H1 as (l & w & n & Hn & ->). constructor.
  - eapply loc_wf; [exact HL' | | done | apply Hwf |].
    + destruct Hc as [C1 C2 C3 C4 C5 C6]. constructor; cbn in *; auto.
    + rewrite client_refs_perm, <- (assoc_L (++)). exact H4.
  - apply HL'.
  - cbn. by rewrite (proj1 Hn).
  - apply others_not. by rewrite (loc_others _ _ _ _ _ _ _ _ _ HL').
Qed.

Lemma handle_out_owning sock defer pk e i c s :
  out_event pk e → owning sock i c s → sends_fresh (stages c) e →
  wp (handle_out sock i defer pk) (λ _ s', ∃ c', owning sock i c' s' ∧
    stages c' = outbound_step (stages c) e) s.
Proof.
  intros He Hown Hfresh. destruct (owning_loc _ _ _ _ Hown) as (HL & HO & Hout).
  eapply wp_handle_out; [exact He | exact HL | apply Hown | exact HO | exact Hout |].
  intros bs' pl' out' c' s' Hafter HL'. exists c'. split; [by eapply owning_after | apply Hafter].
Qed.

(** A publication of QoS 1 or 2 in the state of the library. *)
Lemma startPublish_owning p q rt t pl l sock i c s :
  publishable p t pl q l → 0 < q → owning sock i c s → pub_msgId p ∉ fst <$> stages c →
  wp (MQTTProtocol_startPublish i p q rt MsgNull) (λ r s', ∃ c', owning sock i c' s' ∧
    stages c' = stages c ++ [(pub_msgId p, first_stage q)] ∧
    (fst (fst r) = TCPSOCKET_COMPLETE ∨ fst (fst r) = TCPSOCKET_INTERRUPTED →
     sent (below s') = sent (below s) ++ enc_publish_packet p t pl 0 q rt l)) s.
Proof.
  intros Hp Hq Hown Hfresh. destruct (owning_loc _ _ _ _ Hown) as (HL & HO & Hout).
  eapply wp_startPublish; [exact Hp | exact Hq | exact HL | exact Hout |].
  intros rc mm p' bs2 pl2 out' c' s' Hafter Hsent HL'. exists c'. split_and!.
  - by eapply (owning_after _ _ (Sent (pub_msgId p) (first_stage q))).
  - apply Hafter.
  - intros Hrc. rewrite (loc_sent _ _ _ _ _ _ _ _ _ HL'). by apply Hsent.
Qed.

Lemma handle_all_out_owning sock defer pks es i c s :
  Forall2 out_event pks es → owning sock i c s → all_fresh (stages c) es →
  wp (handle_all_out sock i defer pks) (λ _ s', ∃ c', owning sock i c' s' ∧
    stages c' = foldl outbound_step (stages c) es) s.
Proof.
  intros Hes. revert c s. induction Hes as [| pk e pks es He _ IH]; intros c s Hs Hfresh.
  { apply wp_ret. by exists c. }
  destruct Hfresh as [Hf1 Hf2]. cbn [handle_all_out foldl]. apply wp_bind.
  eapply wp_mono; [by eapply handle_out_owning |]. intros _ s1 (c1 & Hs1 & Hst1). rewrite <- Hst1 in *.
  by apply IH.
Qed.
End Steps.
