(* ===== verification/SessionFacts.v ===== *)
(** * Rules for sessions, keep alive and retries

    The end of a session, the keep alive timer, retries and queued
    acknowledgements, as rules on the state of one client, and the
    preservation of the invariant. *)
From S2P Require Import Prelude Buffers LinkedList Properties PacketIn Names Clients PacketOut.
From S2P Require Import Protocol Sessions ProtocolLaws Inbound Outbound.
Local Open Scope Z_scope.

Section Facts.
Context {T : Type} {HH : HasHeap T} {HB : HasBlocks T} {HT : Transport T}
  {TL : TransportLaws T} {HS : Session T} {SL : SessionLaws T}.
Notation P := (M (pstate T)).
Notation loc := (loc sent).
Implicit Types (s : pstate T) (c : Clients).

(** A client that is in order, with the references [R] elsewhere. *)
Record client_in (R : list positive) (bs : gmap positive Publications) (pl : list positive) c
  : Prop := {
  in_ok : client_ok c;
  in_pubs : pubs_ok (client_refs c ++ R) bs pl;
}.

(** ** The end of a session *)
Lemma wp_empty_messages ms R i O W bs pl out c s (Q : unit → pstate T → Prop) :
  Forall message_props ms → loc i O W bs pl out c s → pubs_ok (omap m_publish ms ++ R) bs pl →
  (∀ bs' pl' s', loc i O W bs' pl' out c s' → pubs_ok R bs' pl' → Q tt s') →
  wp (empty_messages ms) Q s.
Proof.
  intros Hms. revert bs pl s.
  induction Hms as [| m ms [l Hl] _ IH]; intros bs pl s HL HP HQ; cbn [empty_messages].
  { apply wp_ret. by eapply HQ. }
  assert (pubs_ok (option_list (m_publish m) ++ omap m_publish ms ++ R) bs pl) as HP'.
  { cbn in HP. by destruct (m_publish m). }
  apply wp_bind. eapply wp_drop_publication; [exact HL | exact HP' |].
  intros bs' pl' s' HL' HP2 _. apply wp_bind.
  eapply wp_free_properties; [exact Hl |]. by eapply IH.
Qed.

Lemma outbound_message_props m : outbound_ok m → message_props m.
Proof. intros [_ _ (l & Hl & _) _ _]. exists l. by apply repr_at_props_at. Qed.

Lemma empty_queue_run qes s :
  Forall (λ qe, freeable (q_properties qe)) qes → empty_queue qes s = Ok (tt, s).
Proof.
  induction 1 as [| qe qes Hqe _ IH]; [done |]. cbn [empty_queue].
  by rewrite (bind_ok _ _ _ _ _ (MQTTProperties_free_freeable _ _ Hqe)).
Qed.

(** The client after [MQTTClient_cleanSession]. *)
Definition cleaned c : Clients :=
  set_msgID 0 (set_messageQueue al_nil (set_outboundMsgs al_nil (set_inboundMsgs al_nil c))).

Lemma wp_cleanSession R i O W bs pl out c s (Q : Z → pstate T → Prop) :
  loc i O W bs pl out c s → client_in R bs pl c →
  (∀ rc bs' pl' q s', items q = [] → loc i O W bs' pl' out (set_messageQueue q (cleaned c)) s' →
     pubs_ok R bs' pl' → Q rc s') →
  wp (MQTTClient_cleanSession i) Q s.
Proof.
  intros HL [[C1 C2 C3 C4 C5 C6] HP] HQ. unfold MQTTClient_cleanSession.
  apply wp_bind. eapply wp_client_at; [exact HL |]. apply wp_bind.
  eapply wp_lift_quiet; [apply persistence_clear_quiet | apply heap_persistence_clear | exact HL |].
  intros rc s1 HL1. unfold MQTTProtocol_emptyMessageList.
  unfold client_refs in HP. rewrite omap_app, <- (assoc_L (++)) in HP.
  apply wp_bind, wp_bind. eapply wp_empty_messages; [| exact HL1 | exact HP |].
  { eapply Forall_impl; [exact C1 |]. by intros m []. }
  intros bs2 pl2 s2 HL2 HP2. apply wp_ret. apply wp_bind.
  eapply wp_update_client; [exact HL2 |]. intros s3 HL3. apply wp_bind, wp_bind.
  eapply wp_empty_messages; [| exact HL3 | exact HP2 |].
  { eapply Forall_impl; [exact C3 |]. intros m. apply outbound_message_props. }
  intros bs4 pl4 s4 HL4 HP4. apply wp_ret. apply wp_bind.
  eapply wp_update_client; [exact HL4 |]. intros s5 HL5. apply wp_bind.
  apply (wp_mono _ (λ (_ : unit) s', ∃ q, items q = [] ∧
    loc i O W bs4 pl4 out (set_messageQueue q (set_outboundMsgs al_nil (set_inboundMsgs al_nil c))) s')).
  { unfold MQTTClient_emptyMessageQueue. apply wp_bind. eapply wp_client_at; [exact HL5 |]. cbn.
    destruct (decide (items (messageQueue c) = [])) as [Hq |].
    - apply wp_ret. exists (messageQueue c). split; [done |]. by destruct c.
    - apply wp_bind. eapply wp_intro; [by apply empty_queue_run |].
      eapply wp_update_client; [exact HL5 |]. intros s6 HL6. by exists al_nil. }
  intros _ s6 (q & Hq & HL6). apply wp_bind. eapply wp_update_client; [exact HL6 |].
  intros s7 HL7. apply wp_ret. eapply HQ; [exact Hq | exact HL7 | exact HP4].
Qed.

(** What the end of a session leaves. *)
Record closed c c' : Prop := {
  closed_connected : connected c' = 0;
  closed_good : good c' = 0;
  closed_ping : ping_outstanding c' = 0 ∧ ping_due c' = 0;
  closed_socket : socket (net c') ≤ 0;
  closed_id : clientID c' = clientID c ∧ keepAliveInterval c' = keepAliveInterval c ∧
    c_MQTTVersion c' = c_MQTTVersion c ∧ cleansession c' = cleansession c;
  (* the messages survive unless the session is a clean one of version 3 *)
  closed_messages :
    if decide (c_MQTTVersion c < MQTTVERSION_5 ∧ cleansession c ≠ 0)
    then items (inboundMsgs c') = [] ∧ items (outboundMsgs c') = [] ∧ items (messageQueue c') = [] ∧
         msgID c' = 0
    else inboundMsgs c' = inboundMsgs c ∧ outboundMsgs c' = outboundMsgs c ∧
         messageQueue c' = messageQueue c ∧ msgID c' = msgID c;
  closed_acks : outboundQueue c' = outboundQueue c;
}.

Lemma client_in_same R bs pl c c' :
  client_in R bs pl c → inboundMsgs c' = inboundMsgs c → outboundMsgs c' = outboundMsgs c →
  messageQueue c' = messageQueue c → Forall ack_ok (items (outboundQueue c')) →
  client_in R bs pl c'.
Proof.
  intros [[C1 C2 C3 C4 C5 C6] HP] E1 E2 E3 E4. constructor.
  - constructor; by rewrite ?E1, ?E2, ?E3.
  - unfold client_refs. by rewrite E1, E2.
Qed.

(** The socket is closed if there is one. *)
Lemma wp_close_net reason i O W bs pl out c s (Q : unit → pstate T → Prop) :
  reason = MQTTREASONCODE_NORMAL_DISCONNECTION → loc i O W bs pl out c s →
  (∀ n out' s', socket n ≤ 0 → loc i O W bs pl out' (set_net n c) s' → Q tt s') →
  wp (if decide (0 < socket (net c)) then
        _ ← (if decide (connected c ≠ 0)
             then send_on i (λ _, MQTTPacket_send_disconnect c reason None) else mret 0);
        c ← client_at i;
        _ ← lift (close_socket (net c));
        update_client i (set_socket 0)
      else mret tt) Q s.
Proof.
  intros -> HL HQ. destruct (decide (0 < socket (net c))) as [Hs | Hs].
  2: { apply wp_ret. apply (HQ (net c) out); [lia |]. by destruct c. }
  apply wp_bind. apply (wp_mono _ (λ (_ : Z) s', ∃ n out', loc i O W bs pl out' (set_net n c) s')).
  { destruct (decide (connected c ≠ 0)).
    - eapply wp_send_on; [apply disconnect_sender | exact HL |]. eauto.
    - apply wp_ret. exists (net c), out. by destruct c. }
  intros _ s1 (n & out' & HL1). apply wp_bind. eapply wp_client_at; [exact HL1 |]. apply wp_bind.
  eapply wp_lift_quiet; [apply close_socket_quiet | apply heap_close_socket | exact HL1 |].
  intros _ s2 HL2. eapply wp_update_client; [exact HL2 |]. intros s3 HL3.
  eapply HQ; [| exact HL3]. done.
Qed.

Lemma wp_closeSession R i O W bs pl out c s (Q : unit → pstate T → Prop) :
  loc i O W bs pl out c s → client_in R bs pl c →
  (∀ bs' pl' out' c' s', loc i O W bs' pl' out' c' s' → client_in R bs' pl' c' → closed c c' →
     Q tt s') →
  wp (MQTTProtocol_closeSession i) Q s.
Proof.
  intros HL HC HQ. unfold MQTTProtocol_closeSession. apply wp_bind.
  eapply wp_client_at; [exact HL |]. apply wp_bind. unfold MQTTClient_closeSession.
  apply wp_bind. eapply wp_update_client; [exact HL |]. intros s1 HL1.
  set (c1 := set_ping 0 0 (ping_due_time c) (set_good 0 c)) in *. apply wp_bind.
  eapply wp_client_at; [exact HL1 |]. apply wp_bind.
  eapply wp_close_net; [done | exact HL1 |]. intros n out' s2 Hn HL2. apply wp_bind.
  eapply wp_update_client; [exact HL2 |]. intros s3 HL3.
  set (c3 := set_connected 0 (set_net n c1)) in *. apply wp_bind.
  eapply wp_client_at; [exact HL3 |].
  assert (client_in R bs pl c3) as HC3.
  { eapply client_in_same; [exact HC | done | done | done |]. apply HC. }
  assert (∀ bs' pl' c' s', loc i O W bs' pl' out' c' s' → client_in R bs' pl' c' → closed c c' →
    wp (lift (connection_lost (clientID c) (connected c))) Q s') as Hend.
  { intros bs' pl' c' s' HL' HC' Hclosed.
    eapply wp_lift_quiet; [apply connection_lost_quiet | apply heap_connection_lost | exact HL' |].
    intros [] s4 HL4. by eapply HQ. }
  change (c_MQTTVersion c3) with (c_MQTTVersion c). change (cleansession c3) with (cleansession c).
  destruct (decide (c_MQTTVersion c < MQTTVERSION_5 ∧ cleansession c ≠ 0)) as [Hd | Hd].
  - apply wp_bind. eapply wp_cleanSession; [exact HL3 | exact HC3 |].
    intros rc bs' pl' q s4 Hq HL4 HP4. apply wp_ret. eapply Hend; [exact HL4 | |].
    + destruct HC as [[C1 C2 C3 C4 C5 C6] HP]. constructor; [| exact HP4].
      constructor; cbn; try constructor; [by rewrite Hq | done].
    + constructor; try done. by rewrite decide_True.
  - apply wp_ret. eapply Hend; [exact HL3 | exact HC3 |]. constructor; try done.
    by rewrite decide_False.
Qed.

(** ** Acknowledgements that waited *)
Lemma send_queued_sender a v n :
  ack_ok a → ∃ send, sender n (enc_ack (ackType a) (messageId a)) send ∧
    ∀ i, send_queued (T := T) i v a = send_on i send.
Proof.
  intros [Hty Hid].
  assert (∀ ty, ackType a = ty → sender n (enc_ack (ackType a) (messageId a))
    (MQTTPacket_send_ack v ty (messageId a) 0)) as Hs.
  { intros ty <-. by apply send_ack_sender. }
  unfold send_queued, MQTTPacket_send_puback, MQTTPacket_send_pubrec, MQTTPacket_send_pubrel,
    MQTTPacket_send_pubcomp.
  destruct (decide (ackType a = PUBACK)) as [E |]; [exists (MQTTPacket_send_ack v PUBACK (messageId a) 0); auto |].
  destruct (decide (ackType a = PUBREC)) as [E |]; [exists (MQTTPacket_send_ack v PUBREC (messageId a) 0); auto |].
  destruct (decide (ackType a = PUBREL)) as [E |]; [exists (MQTTPacket_send_ack v PUBREL (messageId a) 0); auto |].
  destruct (decide (ackType a = PUBCOMP)) as [E | N]; [exists (MQTTPacket_send_ack v PUBCOMP (messageId a) 0); auto |].
  exfalso. unfold PUBACK, PUBREC, PUBREL, PUBCOMP in *. lia.
Qed.

Lemma wp_send_acks v l i O W bs pl out c s (Q : unit → pstate T → Prop) :
  Forall ack_ok l → loc i O W bs pl out c s →
  (∀ n out' s', same_net (net c) n →
     (reliable T → out' = out ++ mjoin ((λ a, enc_ack (ackType a) (messageId a)) <$> l)) →
     loc i O W bs pl out' (set_net n c) s' → Q tt s') →
  wp (send_acks i v l) Q s.
Proof.
  intros Hl. revert out c s Q. induction Hl as [| a l Ha _ IH]; intros out c s Q HL HQ; cbn [send_acks].
  { apply wp_ret. apply (HQ (net c) out); [done | by rewrite app_nil_r | by destruct c]. }
  destruct (send_queued_sender a v (net c) Ha) as (send & Hsend & Heq). rewrite Heq.
  apply wp_bind. eapply wp_send_on; [exact Hsend | exact HL |].
  intros rc n out' s' Hn Hsent Hrel HL'. destruct (decide (rc = 0)) as [-> | Hrc].
  2: { apply wp_ret. eapply HQ; [exact Hn | | exact HL']. intros HR. by specialize (Hrel HR). }
  eapply IH; [exact HL' |]. intros n2 out2 s2 Hn2 Hout2 HL2. eapply HQ; [| | exact HL2].
  - unfold same_net in *. cbn in Hn2. intuition congruence.
  - intros HR. rewrite (Hout2 HR), Hsent by by left. cbn [fmap list_fmap mjoin list_join].
    by rewrite (assoc_L (++)).
Qed.

(** ** Retries *)

(** Publications that differ in the mask at most. *)
Definition same_pubs (bs bs' : gmap positive Publications) : Prop :=
  ∀ a, set_p_mask [] <$> bs' !! a = set_p_mask [] <$> bs !! a.

Lemma same_pubs_mask bs a pb k : bs !! a = Some pb → same_pubs bs (<[a := set_p_mask k pb]> bs).
Proof.
  intros Ha b. destruct (decide (b = a)) as [-> |].
  - by rewrite lookup_insert_eq, Ha.
  - by rewrite lookup_insert_ne.
Qed.

(** The packet that resends a message: a PUBLISH with the DUP bit while the
    exchange is in its first half, a PUBREL in the second. *)
Definition resend (bs : gmap positive Publications) (m : Messages) : list Z :=
  match stage_of m with
  | WaitPubcomp => enc_ack PUBREL (msgid m)
  | _ =>
    match m_publish m ≫= (bs !!.) with
    | None => []
    | Some pb =>
      enc_packet (header_of PUBLISH 1 (m_qos m) (m_retain m))
        (enc_publish (cstr (default [] (p_topic pb))) (m_qos m) (m_MQTTVersion m) (msgid m)
           (default [] (entries <$> m_properties m))
           (take (Z.to_nat (p_payloadlen pb)) (default [] (p_payload pb))))
    end
  end.

Lemma resend_same bs bs' m : same_pubs bs bs' → resend bs' m = resend bs m.
Proof.
  intros Hs. unfold resend. destruct (stage_of m); try done;
    (destruct (m_publish m) as [a |]; [| done]; cbn; specialize (Hs a);
     destruct (bs !! a) as [[] |], (bs' !! a) as [[] |]; try done; cbn in *; by simplify_eq).
Qed.

(** The packet [retry_message] builds for a message. *)
Lemma retry_publishable m pb l :
  outbound_ok m → repr_at (m_MQTTVersion m) (m_properties m) l → fits l → pub_ok pb →
  publishable (mkPublish (mkHeader 0 0 0 0) (p_topic pb) 0 (msgid m) (p_payload pb)
      (p_payloadlen pb) (m_MQTTVersion m) (default MQTTProperties_initializer (m_properties m))
      (p_mask pb))
    (cstr (default [] (p_topic pb)))
    (take (Z.to_nat (p_payloadlen pb)) (default [] (p_payload pb))) (m_qos m) l.
Proof.
  intros [Hq Hid _ _ _] Hr Hf [_ (t & Ht & Hshort) (d & Hd & Hlen)]. rewrite Ht, Hd.
  constructor; cbn; [by exists t | | by exists d | done | naive_solver lia |].
  - unfold short in Hshort. rewrite <- length_cstr in Hshort. exact Hshort.
  - intros Hv. unfold repr_at in Hr. rewrite decide_True in Hr by done.
    destruct Hr as (p' & -> & Hr). by split.
Qed.

(** A client whose message at [k] was touched. *)
Definition touched (k : nat) (n : networkHandles) (t : Z) c : Clients :=
  set_outboundMsgs (al_alter (λ m, touch_message (nextMessageType m) (Some t) m) k (outboundMsgs c))
    (set_net n c).

Lemma touched_items k n t c m :
  items (outboundMsgs c) !! k = Some m →
  items (outboundMsgs (touched k n t c)) =
    <[k := touch_message (nextMessageType m) (Some t) m]> (items (outboundMsgs c)).
Proof.
  intros Hk. cbn. apply list_eq. intros j. destruct (decide (j = k)) as [-> |].
  - rewrite list_lookup_alter_eq, Hk, list_lookup_insert_eq; [done |].
    by eapply lookup_lt_Some.
  - by rewrite list_lookup_alter_ne, list_lookup_insert_ne.
Qed.

Lemma touched_in R bs bs' pl k n t c m :
  client_in R bs pl c → items (outboundMsgs c) !! k = Some m →
  pubs_ok (client_refs c ++ R) bs' pl → client_in R bs' pl (touched k n t c).
Proof.
  intros [[C1 C2 C3 C4 C5 C6] _] Hk HP.
  assert (msgid <$> items (outboundMsgs (touched k n t c)) = msgid <$> items (outboundMsgs c)) as Hids.
  { rewrite (touched_items k n t c m Hk), list_fmap_insert, list_insert_id; [done |].
    by rewrite list_lookup_fmap, Hk. }
  assert (omap m_publish (items (outboundMsgs (touched k n t c))) ≡ₚ
    omap m_publish (items (outboundMsgs c))) as Homap.
  { rewrite (touched_items k n t c m Hk).
    rewrite (omap_delete_perm _ k (touch_message (nextMessageType m) (Some t) m))
      by (apply list_lookup_insert_eq; by eapply lookup_lt_Some).
    rewrite delete_insert_list. by rewrite <- (omap_delete_perm _ k m Hk). }
  constructor.
  - constructor; [done | done | | by rewrite Hids | done | done].
    rewrite (touched_items k n t c m Hk). apply Forall_insert; [done |].
    eapply Forall_lookup_1 in C3 as [D1 D2 D3 D4 D5]; [| exact Hk].
    constructor; cbn; first [done | by eexists].
  - unfold client_refs in *. rewrite omap_app in HP |- *. by rewrite Homap.
Qed.

(** A write failed: the session is closed. *)
Lemma wp_lost R i O W bs pl out c s (Q : bool → pstate T → Prop) :
  loc i O W bs pl out c s → client_in R bs pl c →
  (∀ bs' pl' out' c' s', loc i O W bs' pl' out' c' s' → client_in R bs' pl' c' →
     closed c c' → Q false s') →
  wp (_ ← update_client i (set_good 0); _ ← MQTTProtocol_closeSession i; mret false) Q s.
Proof.
  intros HL HC HQ. apply wp_bind. eapply wp_update_client; [exact HL |]. intros s1 HL1.
  apply wp_bind. eapply wp_closeSession; [exact HL1 | |].
  - eapply client_in_same; [exact HC | done | done | done | apply HC].
  - intros bs' pl' out' c' s2 HL2 HC2 [? ? ? ? ? ? ?]. apply wp_ret.
    eapply HQ; [exact HL2 | exact HC2 | by constructor].
Qed.

(** The end of a retry that was not lost. *)
Lemma wp_touch k m n i O W bs pl out c s (Q : bool → pstate T → Prop) :
  loc i O W bs pl out (set_net n c) s → items (outboundMsgs c) !! k = Some m →
  (∀ t s', loc i O W bs pl out (touched k n t c) s' → Q true s') →
  wp (t ← lift now; _ ← update_message i k (λ m, touch_message (nextMessageType m) (Some t) m);
      mret true) Q s.
Proof.
  intros HL Hk HQ. apply wp_bind.
  eapply wp_lift_quiet; [apply now_quiet | apply heap_now | exact HL |]. intros t s1 HL1.
  apply wp_bind. eapply wp_update_outbound; [exact HL1 |]. intros s2 HL2. apply wp_ret.
  by eapply HQ.
Qed.

Lemma pubs_ok_mask R bs pl a pb k :
  pubs_ok R bs pl → bs !! a = Some pb → pub_ok pb → pubs_ok R (<[a := set_p_mask k pb]> bs) pl.
Proof.
  intros HP Ha [P1 P2 P3]. eapply pubs_ok_update; [exact Ha | | exact HP]. by constructor.
Qed.

Lemma wp_retry_message k m R i O W bs pl out c s (Q : bool → pstate T → Prop) :
  loc i O W bs pl out c s → client_in R bs pl c → items (outboundMsgs c) !! k = Some m →
  (∀ bs' n t out' s', same_pubs bs bs' → same_net (net c) n →
     (reliable T → out' = out ++ resend bs m) →
     client_in R bs' pl (touched k n t c) →
     loc i O W bs' pl out' (touched k n t c) s' → Q true s') →
  (∀ bs' pl' out' c' s', ¬ reliable T → loc i O W bs' pl' out' c' s' → client_in R bs' pl' c' →
     closed c c' → Q false s') →
  wp (retry_message i k m) Q s.
Proof.
  intros HL HC Hk HQt HQf. pose proof HC as [[_ _ C3 _ _ _] HP].
  pose proof C3 as Hm. eapply Forall_lookup_1 in Hm; [| exact Hk].
  destruct (outbound_props _ Hm) as (l & Hl & Hfits). destruct (outbound_publish _ Hm) as [a Ha].
  assert (a ∈ client_refs c ++ R) as Hin.
  { unfold client_refs. rewrite omap_app, !elem_of_app. left. right.
    eapply publish_in_omap; [by eapply list_elem_of_lookup_2 | done]. }
  destruct (pubs_ok_in _ _ _ _ HP Hin) as (pb & Hb & Hpb & _).
  assert (∀ n bs' pl' out', ¬ reliable T → ∀ s', loc i O W bs' pl' out' (set_net n c) s' →
    pubs_ok (client_refs c ++ R) bs' pl' →
    wp (_ ← update_client i (set_good 0); _ ← MQTTProtocol_closeSession i; mret false) Q s') as Hlost.
  { intros n bs' pl' out' HR s' HL' HP'. eapply wp_lost; [exact HL' | |].
    - destruct HC as [Hok _]. constructor; [| exact HP']. destruct Hok. by constructor.
    - intros bs2 pl2 out2 c2 s2 HL2 HC2 [? ? ? ? ? ? ?].
      eapply HQf; [exact HR | exact HL2 | exact HC2 | by constructor]. }
  unfold retry_message. apply wp_bind.
  apply (wp_mono _ (λ (next : Z) s', s' = s ∧
    (m_qos m = 1 ∨ m_qos m = 2 ∧ nextMessageType m = Some next))).
  { destruct (outbound_qos _ Hm) as [Hq | [[Hq Hn] | [Hq Hn]]]; rewrite Hq; cbn.
    - apply wp_ret. auto.
    - eapply wp_written; [exact Hn |]. auto.
    - eapply wp_written; [exact Hn |]. auto. }
  intros next ? [-> Hnext].
  destruct (decide (m_qos m = 1 ∨ m_qos m = 2 ∧ next = PUBREC)) as [Hfirst | Hsecond].
  - apply wp_bind. eapply wp_client_at; [exact HL |]. rewrite Ha. apply wp_bind.
    eapply wp_publication_at; [exact HL | exact Hb |]. apply wp_bind.
    eapply (wp_send_publish _ _ _ _ l); [by apply retry_publishable | exact HL |].
    intros rc msk n out' s1 Hn Hsent Hrel HL1. apply wp_bind.
    eapply wp_update_client; [exact HL1 |]. intros s2 HL2. apply wp_bind.
    eapply wp_update_publication; [exact HL2 | exact Hb |]. intros s3 HL3.
    pose proof (pubs_ok_mask _ _ _ a pb msk HP Hb Hpb) as HP3.
    destruct (decide (rc = SOCKET_ERROR)) as [-> | Hrc].
    + eapply Hlost; [| exact HL3 | exact HP3]. intros HR. by specialize (Hrel HR).
    + eapply wp_touch; [exact HL3 | exact Hk |]. intros t s4 HL4.
      eapply HQt; [by apply same_pubs_mask | exact Hn | | by eapply touched_in | exact HL4].
      intros HR. specialize (Hrel HR). subst rc. rewrite Hsent by by left. f_equal.
      unfold resend, stage_of. rewrite Ha. cbn [mbind option_bind]. rewrite Hb.
      assert (entries <$> m_properties m = (if decide (MQTTVERSION_5 ≤ m_MQTTVersion m) then Some l
        else None)) as He.
      { unfold repr_at in Hl. destruct (decide _).
        - destruct Hl as (p' & -> & Hr). cbn. by rewrite (entries_repr _ _ Hr).
        - by destruct Hl as [-> _]. }
      rewrite He. unfold enc_publish_packet, enc_publish, enc_props_if. cbn [pub_MQTTVersion pub_msgId].
      destruct Hfirst as [Hq | [Hq ->]].
      * rewrite (decide_True (P := m_qos m = 1)) by done. by case_decide.
      * destruct Hnext as [|[_ Hnx]]; [congruence |].
        rewrite (decide_False (P := m_qos m = 1)) by lia.
        rewrite (decide_True (P := nextMessageType m = Some PUBREC)) by done. by case_decide.
  - assert (m_qos m = 2 ∧ nextMessageType m = Some next ∧ next = PUBCOMP) as (Hq & Hnx & ->).
    { destruct Hnext as [| [Hq Hnx]]; [tauto |].
      destruct (outbound_qos _ Hm) as [| [[_ Hn] | [_ Hn]]]; [tauto | |]; rewrite Hnx in Hn;
        injection Hn as ->; tauto. }
    rewrite decide_True by (split; [lia | done]). apply wp_bind.
    eapply wp_send_on; [apply send_ack_sender; [unfold PUBREL; lia | apply Hm] | exact HL |].
    intros rc n out' s1 Hn Hsent Hrel HL1. destruct (decide (rc ≠ TCPSOCKET_COMPLETE)) as [Hrc | Hrc].
    + eapply Hlost; [| exact HL1 | exact HP]. intros HR. by specialize (Hrel HR).
    + eapply wp_touch; [exact HL1 | exact Hk |]. intros t s4 HL4. apply dec_stable in Hrc.
      eapply (HQt bs); [done | exact Hn | | by eapply touched_in | exact HL4].
      intros HR. rewrite Hsent by by left. f_equal. unfold resend, stage_of. rewrite Hq, Hnx. done.
Qed.

Lemma client_in_connect R bs pl c a b : client_in R bs pl c → client_in R bs pl (set_connect a b c).
Proof. intros HC. eapply client_in_same; [exact HC | done | done | done | apply HC]. Qed.

(** What a pass of retries does when every write is completed at once. *)
Definition resent (k : nat) (bs : gmap positive Publications) out c out' c' : Prop :=
  out' = out ++ mjoin (resend bs <$> drop k (items (outboundMsgs c))) ∧
  stages c' = stages c ∧ connected c' = connected c ∧ inboundMsgs c' = inboundMsgs c ∧
  messageQueue c' = messageQueue c.

Lemma resent_step k m bs bs' n t out c c1 out' c' :
  items (outboundMsgs c) !! k = Some m → same_pubs bs bs' →
  outboundMsgs c1 = outboundMsgs c → connected c1 = connected c →
  inboundMsgs c1 = inboundMsgs c → messageQueue c1 = messageQueue c →
  resent (S k) bs' (out ++ resend bs m) (touched k n t c1) out' c' →
  resent k bs out c out' c'.
Proof.
  intros Hk Hbs E1 E2 E3 E4 (-> & Hst & Hc & Hi & Hq).
  assert (items (outboundMsgs (touched k n t c1)) =
    <[k := touch_message (nextMessageType m) (Some t) m]> (items (outboundMsgs c))) as Hitems.
  { rewrite (touched_items k n t c1 m); [by rewrite E1 | by rewrite E1]. }
  split_and!.
  - rewrite Hitems, drop_insert_lt by lia. rewrite (drop_S _ m k Hk). cbn [fmap list_fmap mjoin list_join].
    rewrite <- (assoc_L (++)).
    assert (resend bs' <$> drop (S k) (items (outboundMsgs c)) =
      resend bs <$> drop (S k) (items (outboundMsgs c))) as ->; [| done].
    apply list_fmap_ext. intros j x _. by apply resend_same.
  - rewrite Hst. unfold stages. rewrite Hitems, list_fmap_insert, list_insert_id; [done |].
    by rewrite list_lookup_fmap, Hk.
  - rewrite Hc. cbn. exact E2.
  - rewrite Hi. cbn. exact E3.
  - rewrite Hq. cbn. exact E4.
Qed.

Lemma wp_retries_loop now_ regardless k n R i O W bs pl out c s (Q : unit → pstate T → Prop) :
  loc i O W bs pl out c s → client_in R bs pl c →
  (k + n)%nat = length (items (outboundMsgs c)) →
  (∀ bs' pl' out' c' s', loc i O W bs' pl' out' c' s' → client_in R bs' pl' c' →
     (reliable T → connected c ≠ 0 → good c ≠ 0 → regardless = true → resent k bs out c out' c') →
     Q tt s') →
  wp (retries_loop now_ i regardless k n) Q s.
Proof.
  revert k bs out c s Q. induction n as [| n IH]; intros k bs out c s Q HL HC Hlen HQ;
    cbn [retries_loop].
  { apply wp_ret. eapply HQ; [exact HL | exact HC |]. intros _ _ _ _. unfold resent.
    rewrite drop_ge by lia. by rewrite app_nil_r. }
  apply wp_bind. eapply wp_client_at; [exact HL |].
  destruct (decide (connected c = 0 ∨ good c = 0)) as [Hd | Hd].
  { apply wp_ret. eapply HQ; [exact HL | exact HC |]. tauto. }
  apply wp_bind. eapply wp_nothing_pending; [exact HL |]. intros free s1 Hfree HL1.
  destruct free; cbn [negb].
  2: { apply wp_ret. eapply HQ; [exact HL1 | exact HC |]. intros HR. by specialize (Hfree HR). }
  destruct (lookup_lt_is_Some_2 (items (outboundMsgs c)) k) as [m Hk]; [lia |].
  apply wp_bind. eapply wp_written; [exact Hk |]. apply wp_bind.
  pose proof (client_outbound _ (in_ok _ _ _ _ HC)) as Hm. eapply Forall_lookup_1 in Hm; [| exact Hk].
  apply (wp_mono _ (λ (due : bool) s', s' = s1 ∧ (regardless = true → due = true))).
  { destruct regardless; [by apply wp_ret |]. destruct (outbound_touched _ Hm) as [tm Htm].
    apply wp_bind. eapply wp_written; [exact Htm |]. by apply wp_ret. }
  intros due ? [-> Hdue]. destruct due.
  2: { eapply IH; [exact HL1 | exact HC | lia |]. intros bs' pl' out' c' s2 HL2 HC2 _.
       eapply HQ; [exact HL2 | exact HC2 |]. intros _ _ _ Hr. by specialize (Hdue Hr). }
  apply wp_bind.
  apply (wp_mono _ (λ (_ : unit) s', ∃ a b, loc i O W bs pl out (set_connect a b c) s')).
  { destruct regardless.
    - eapply wp_update_client; [exact HL1 |]. eauto.
    - apply wp_ret. exists (connect_count c), (connect_sent c). by destruct c. }
  intros _ s2 (a & b & HL2). apply wp_bind.
  eapply (wp_retry_message k m R); [exact HL2 | by apply client_in_connect | exact Hk | |].
  - intros bs' nh tm out' s3 Hbs Hnet Hout HC3 HL3.
    eapply IH; [exact HL3 | exact HC3 | |].
    { rewrite (touched_items k nh tm (set_connect a b c) m Hk), length_insert. cbn. lia. }
    intros bs2 pl2 out2 c2 s4 HL4 HC4 Hres. eapply HQ; [exact HL4 | exact HC4 |].
    intros HR H1 H2 H3. specialize (Hres HR H1 H2 H3). rewrite (Hout HR) in Hres.
    by eapply (resent_step k m bs bs' nh tm out c (set_connect a b c)).
  - intros bs' pl' out' c' s3 HR HL3 HC3 _. apply wp_ret.
    eapply HQ; [exact HL3 | exact HC3 |]. intros HR'. by destruct HR.
Qed.

Lemma wp_retries now_ regardless R i O W bs pl out c s (Q : unit → pstate T → Prop) :
  loc i O W bs pl out c s → client_in R bs pl c →
  (∀ bs' pl' out' c' s', loc i O W bs' pl' out' c' s' → client_in R bs' pl' c' →
     (reliable T → connected c ≠ 0 → good c ≠ 0 → regardless = true → resent 0 bs out c out' c') →
     Q tt s') →
  wp (MQTTProtocol_retries now_ i regardless) Q s.
Proof.
  intros HL HC HQ. unfold MQTTProtocol_retries. apply wp_bind. eapply wp_client_at; [exact HL |].
  destruct (decide (regardless = false ∧ retryInterval c ≤ 0 ∧ connect_sent c = connect_count c))
    as [(-> & _) | _].
  { apply wp_ret. by eapply HQ. }
  apply wp_bind.
  apply (wp_mono _ (λ (_ : unit) s', ∃ a b, loc i O W bs pl out (set_connect a b c) s')).
  { destruct regardless.
    - eapply wp_update_client; [exact HL |]. eauto.
    - apply wp_ret. exists (connect_count c), (connect_sent c). by destruct c. }
  intros _ s1 (a & b & HL1).
  eapply (wp_retries_loop _ _ _ _ R); [exact HL1 | by apply client_in_connect | done |].
  intros bs' pl' out' c' s2 HL2 HC2 Hres. eapply HQ; [exact HL2 | exact HC2 |].
  intros HR H1 H2 ->. exact (Hres HR H1 H2 eq_refl).
Qed.

(** ** Keep alive *)
Definition since (now_ t : Z) : Z := MQTTTime_difftime now_ t.

(** The server was silent for one and a half intervals after a ping, or after
    a ping that could not be sent. *)
Definition expired (now_ : Z) c : Prop :=
  ping_outstanding c = 1 ∧ keepAliveInterval c * 1500 ≤ since now_ (lastPing (net c)) ∧
    keepAliveInterval c * 1500 ≤ since now_ (lastReceived (net c)) ∨
  ping_outstanding c ≠ 1 ∧ ping_due c = 1 ∧
    keepAliveInterval c * 1500 ≤ since now_ (ping_due_time c) ∧
    since now_ (ping_due_time c) ≤ since now_ (lastReceived (net c)).

(** Nothing was sent for an interval: the client owes the server a packet. *)
Definition send_due (now_ : Z) c : Prop :=
  keepAliveInterval c * 1000 ≤ since now_ (lastSent (net c)).

(** A ping is due: nothing was sent, or nothing received, for an interval. *)
Definition due (now_ : Z) c : Prop :=
  ping_outstanding c ≠ 1 ∧ (send_due now_ c ∨
                            keepAliveInterval c * 1000 ≤ since now_ (lastReceived (net c))).

Definition pinged (now_ : Z) (n : networkHandles) c : Clients :=
  set_ping 1 0 (ping_due_time c)
    (set_net (mkNet (socket n) (lastSent n) (lastReceived n) now_) c).

(** Nothing is ever waiting for the socket. *)
Definition idle_network : Prop :=
  ∀ sock t b t', noPendingWrites (T := T) sock t = Ok (b, t') → b = true.

(** What a pass of keep alive does to a client.  A ping that is due because
    nothing was sent is sent or noted; one that is due only because nothing was
    received is forgotten when a write is pending. *)
Inductive keepalive_result (now_ : Z) c : Clients → Prop :=
  | ka_nothing :
      (connected c ≠ 0 → keepAliveInterval c ≠ 0 →
       ¬ expired now_ c ∧ (due now_ c → idle_network ∨ send_due now_ c → ping_due c ≠ 0)) →
      keepalive_result now_ c c
  | ka_closed c' : connected c ≠ 0 → keepAliveInterval c ≠ 0 →
      expired now_ c ∨ due now_ c ∧ ¬ reliable T → closed c c' → keepalive_result now_ c c'
  | ka_pinged n : connected c ≠ 0 → keepAliveInterval c ≠ 0 → due now_ c → ¬ expired now_ c →
      same_net (net c) n → keepalive_result now_ c (pinged now_ n c)
  | ka_noted : connected c ≠ 0 → due now_ c → send_due now_ c → ¬ idle_network → ping_due c = 0 →
      keepalive_result now_ c (set_ping (ping_outstanding c) 1 now_ c).

Lemma wp_idle_pending sock i O W bs pl out c s (Q : bool → pstate T → Prop) :
  loc i O W bs pl out c s →
  (∀ b s', (idle_network → b = true) → loc i O W bs pl out c s' → Q b s') →
  wp (nothing_pending sock) Q s.
Proof.
  intros [H1 H2 H3 H4 H5 H6 H7] HQ. apply wp_lift.
  destruct (noPendingWrites_quiet sock (below s)) as (b & t & Hm & Hs).
  eapply wp_intro; [exact Hm |]. apply HQ.
  - intros HR. by eapply HR.
  - constructor; [done.. | |]; cbn; [by rewrite Hs | by eapply heap_noPendingWrites].
Qed.

(** The ping of [MQTTProtocol_keepalive]. *)
Lemma wp_ping now_ R i O W bs pl out c s (Q : unit → pstate T → Prop) :
  loc i O W bs pl out c s → client_in R bs pl c →
  (∀ bs' pl' out' c' s', loc i O W bs' pl' out' c' s' → client_in R bs' pl' c' →
     (∃ n, same_net (net c) n ∧ c' = pinged now_ n c) ∨ (¬ reliable T ∧ closed c c') → Q tt s') →
  wp (rc ← send_on i MQTTPacket_send_pingreq;
      if decide (rc ≠ TCPSOCKET_COMPLETE) then MQTTProtocol_closeSession i
      else update_client i (λ c, set_ping 1 0 (ping_due_time c)
        (set_net (mkNet (socket (net c)) (lastSent (net c)) (lastReceived (net c)) now_) c))) Q s.
Proof.
  intros HL HC HQ. apply wp_bind. eapply wp_send_on; [apply pingreq_sender | exact HL |].
  intros rc n out' s1 Hn _ Hrel HL1.
  destruct (decide (rc ≠ TCPSOCKET_COMPLETE)) as [Hrc | Hrc].
  - eapply wp_closeSession; [exact HL1 | |].
    + eapply client_in_same; [exact HC | done | done | done | apply HC].
    + intros bs' pl' out2 c' s2 HL2 HC2 [? ? ? ? ? ? ?]. eapply HQ; [exact HL2 | exact HC2 |].
      right. split; [| by constructor]. intros HR. by apply Hrc, Hrel.
  - eapply wp_update_client; [exact HL1 |]. intros s2 HL2. eapply HQ; [exact HL2 | |].
    + eapply client_in_same; [exact HC | done | done | done | apply HC].
    + left. by exists n.
Qed.

Lemma wp_keepalive_client now_ R i O W bs pl out c s (Q : unit → pstate T → Prop) :
  loc i O W bs pl out c s → client_in R bs pl c →
  (∀ bs' pl' out' c' s', loc i O W bs' pl' out' c' s' → client_in R bs' pl' c' →
     keepalive_result now_ c c' → Q tt s') →
  wp (keepalive_client now_ i) Q s.
Proof.
  intros HL HC HQ. unfold keepalive_client. apply wp_bind. eapply wp_client_at; [exact HL |].
  assert (∀ s', loc i O W bs pl out c s' →
    (connected c ≠ 0 → keepAliveInterval c ≠ 0 →
       ¬ expired now_ c ∧ (due now_ c → idle_network ∨ send_due now_ c → ping_due c ≠ 0)) →
    wp (mret tt) Q s') as Hnothing.
  { intros s' HL' Hn. apply wp_ret. eapply HQ; [exact HL' | exact HC | by constructor]. }
  destruct (decide (connected c = 0 ∨ keepAliveInterval c = 0)) as [Hoff | Hon].
  { apply Hnothing; [done | tauto]. }
  apply Decidable.not_or in Hon as [Hc Hk].
  assert (expired now_ c → wp (MQTTProtocol_closeSession i) Q s) as Hclose.
  { intros He. eapply wp_closeSession; [exact HL | exact HC |]. intros bs' pl' out' c' s' HL' HC' Hcl.
    eapply HQ; [exact HL' | exact HC' |]. apply ka_closed; auto. }
  assert (∀ s', due now_ c → ¬ expired now_ c → loc i O W bs pl out c s' →
    wp (rc ← send_on i MQTTPacket_send_pingreq;
      if decide (rc ≠ TCPSOCKET_COMPLETE) then MQTTProtocol_closeSession i
      else update_client i (λ c, set_ping 1 0 (ping_due_time c)
        (set_net (mkNet (socket (net c)) (lastSent (net c)) (lastReceived (net c)) now_) c))) Q s')
    as Hping.
  { intros s' Hd He HL'. eapply wp_ping; [exact HL' | exact HC |].
    intros bs' pl' out' c' s2 HL2 HC2 [(n & Hn & ->) | [HR Hcl]];
      (eapply HQ; [exact HL2 | exact HC2 |]); [by apply ka_pinged | by apply ka_closed; auto]. }
  fold (since now_). unfold expired, due, send_due in *. fold (since now_) in *.
  destruct (decide (ping_outstanding c = 1)) as [Ho | Ho].
  { destruct (decide (keepAliveInterval c * 1500 ≤ MQTTTime_difftime now_ (lastPing (net c)) ∧
      keepAliveInterval c * 1500 ≤ MQTTTime_difftime now_ (lastReceived (net c)))) as [He | He].
    - apply Hclose. left. tauto.
    - apply Hnothing; [done |]. unfold expired, due, send_due, since. tauto. }
  destruct (decide (ping_due c = 1 ∧
    keepAliveInterval c * 1500 ≤ MQTTTime_difftime now_ (ping_due_time c))) as [Hd | Hd].
  { destruct (decide (MQTTTime_difftime now_ (ping_due_time c) ≤
      MQTTTime_difftime now_ (lastReceived (net c)))) as [He | He].
    - apply Hclose. right. unfold since. tauto.
    - apply Hnothing; [done |]. unfold expired, due, send_due, since. split; [tauto | lia]. }
  destruct (decide (keepAliveInterval c * 1000 ≤ MQTTTime_difftime now_ (lastSent (net c))))
    as [Hs | Hs].
  { apply wp_bind. eapply wp_idle_pending; [exact HL |]. intros free s1 Hfree HL1. destruct free.
    - apply Hping; [unfold since; tauto.. | done].
    - destruct (decide (ping_due c = 0)) as [Hp | Hp].
      + eapply wp_update_client; [exact HL1 |]. intros s2 HL2. eapply HQ; [exact HL2 | |].
        * eapply client_in_same; [exact HC | done | done | done | apply HC].
        * apply ka_noted; [done | unfold due, send_due, since; tauto | unfold send_due, since; tauto | | done]. intros HI.
          by specialize (Hfree HI).
      + apply Hnothing; [done |]. unfold expired, due, send_due, since. split; [tauto |]. done. }
  destruct (decide (keepAliveInterval c * 1000 ≤ MQTTTime_difftime now_ (lastReceived (net c))))
    as [Hr | Hr].
  { apply wp_bind. eapply wp_idle_pending; [exact HL |]. intros free s1 Hfree HL1. destruct free.
    - apply Hping; [unfold since; tauto.. | done].
    - apply Hnothing; [done |]. unfold expired, due, send_due, since. split; [tauto |].
      intros _ [HI | ?]; [by specialize (Hfree HI) | done]. }
  apply Hnothing; [done |]. unfold expired, due, send_due, since. tauto.
Qed.
End Facts.
