(* ===== verification/Invariant.v ===== *)
(** * The invariant of the protocol state

    Every operation of the protocol code keeps the state well formed ([wf]):
    the publications allocated are exactly those a message or an unfinished
    write refers to, each by one reference; the message ids in flight are
    distinct; every message is at a stage of its exchange. *)
From S2P Require Import Prelude Buffers LinkedList Properties PacketIn Names Clients PacketOut.
From S2P Require Import Protocol Sessions ProtocolLaws Inbound Outbound SessionFacts.
Local Open Scope Z_scope.

Section Invariant.
Context {T : Type} {HH : HasHeap T} {HB : HasBlocks T} {HT : Transport T}
  {TL : TransportLaws T} {HS : Session T} {SL : SessionLaws T}.
Notation P := (M (pstate T)).
Notation loc := (loc sent).
Implicit Types (s : pstate T) (c : Clients).

(** The state of a client changed to one that satisfies [Φ], the others did
    not. *)
Record client_step (i : nat) (Φ : Clients → Prop) s s' : Prop := {
  step_wf : wf s';
  step_client : ∃ c', items (clients s') !! i = Some c' ∧ Φ c';
  step_others : ∀ j, j ≠ i → items (clients s') !! j = items (clients s) !! j;
}.

Lemma delete_eq_others {A} (l l' : list A) i j x y :
  delete i l = delete i l' → l !! i = Some x → l' !! i = Some y → j ≠ i → l !! j = l' !! j.
Proof.
  intros Hd Hx Hy Hne. destruct (decide (j < i)%nat).
  - rewrite <- (list_lookup_delete_lt l i j), <- (list_lookup_delete_lt l' i j) by done.
    by rewrite Hd.
  - replace j with (S (pred j)) by lia.
    rewrite <- (list_lookup_delete_ge l i (pred j)), <- (list_lookup_delete_ge l' i (pred j)) by lia.
    by rewrite Hd.
Qed.

(** A rule for one client as a statement about the invariant. *)
Lemma wp_client_step {A} (m : P A) i c s (Φ : A → Clients → Prop) :
  wf s → items (clients s) !! i = Some c →
  (∀ O W bs pl out R (Q : A → pstate T → Prop),
     loc i O W bs pl out c s → client_in R bs pl c →
     (∀ a bs' pl' out' c' s', loc i O W bs' pl' out' c' s' → client_in R bs' pl' c' →
        Φ a c' → Q a s') → wp m Q s) →
  wp m (λ a s', client_step i (Φ a) s s') s.
Proof.
  intros Hwf Hi Hrule. destruct (wf_loc s i c Hwf Hi) as (Hc & HO & HP & HL).
  eapply Hrule; [exact HL | by constructor |].
  intros a bs' pl' out' c' s' HL' [HC' HP'] HΦ. constructor.
  - eapply loc_wf; [exact HL' | done | done | apply Hwf | done].
  - exists c'. split; [apply HL' | done].
  - intros j Hj. eapply delete_eq_others; [| apply HL' | exact Hi | done]. apply HL'.
Qed.

Lemma client_step_length i (Φ : Clients → Prop) s s' c :
  client_step i Φ s s' → items (clients s) !! i = Some c →
  length (items (clients s')) = length (items (clients s)).
Proof.
  intros [_ (c' & Hc' & _) Ho] Hc.
  assert (∀ j, is_Some (items (clients s') !! j) ↔ is_Some (items (clients s) !! j)) as Hiff.
  { intros j. destruct (decide (j = i)) as [-> |]; [rewrite Hc, Hc'; split; by eexists |].
    by rewrite Ho. }
  apply Nat.le_antisymm; apply Nat.nlt_ge; intros Hlt.
  - apply lookup_lt_is_Some, Hiff, lookup_lt_is_Some in Hlt. lia.
  - apply lookup_lt_is_Some, Hiff, lookup_lt_is_Some in Hlt. lia.
Qed.

(** An operation on each client in turn: [R] relates a client to what becomes
    of it. *)
Definition safe_client (R : Clients → Clients → Prop) (f : nat → P unit) : Prop :=
  ∀ i c s, wf s → items (clients s) !! i = Some c →
    wp (f i) (λ _ s', client_step i (R c) s s') s.

Definition each_related (R : Clients → Clients → Prop) (js : list nat) s s' : Prop :=
  ∀ j c, items (clients s) !! j = Some c →
    ∃ c', items (clients s') !! j = Some c' ∧ (if decide (j ∈ js) then R c c' else c' = c).

Lemma wp_each_client R f js s :
  safe_client R f → Forall (λ i, i < length (items (clients s)))%nat js → NoDup js → wf s →
  wp (each_client f js) (λ _ s', wf s' ∧ each_related R js s s') s.
Proof.
  intros Hf. revert s. induction js as [| i js IH]; intros s Hjs Hnd Hwf; cbn [each_client].
  { apply wp_ret. split; [done |]. intros j c Hj. exists c. split; [done |].
    rewrite decide_False by (by intros ?%elem_of_nil). done. }
  apply Forall_cons in Hjs as [Hi Hjs]. apply lookup_lt_is_Some in Hi as [c Hi].
  apply NoDup_cons in Hnd as [Hni Hnd].
  apply wp_bind. eapply wp_mono; [exact (Hf i c s Hwf Hi) |]. intros [] s1 Hstep.
  pose proof (client_step_length _ _ _ _ _ Hstep Hi) as Hlen.
  destruct Hstep as [Hwf1 (c1 & Hc1 & HR1) Ho].
  eapply wp_mono; [apply IH; [by rewrite Hlen | done | done] |].
  intros _ s2 [Hwf2 Hrel]. split; [done |]. intros j d Hj.
  destruct (decide (j = i)) as [-> | Hne].
  - destruct (Hrel i c1 Hc1) as (c2 & Hc2 & Heq). rewrite decide_False in Heq by done.
    subst c2. exists c1. split; [done |]. rewrite decide_True by left. by simplify_eq.
  - destruct (Hrel j d) as (d2 & Hd2 & HR2); [by rewrite Ho |]. exists d2. split; [done |].
    destruct (decide (j ∈ js)) as [Hin | Hin].
    + by rewrite decide_True by (by right).
    + rewrite decide_False; [done |]. by intros [|]%elem_of_cons.
Qed.

Lemma wp_for_clients R f s :
  safe_client R f → wf s →
  wp (for_clients f) (λ _ s', wf s' ∧
    ∀ j c, items (clients s) !! j = Some c →
      ∃ c', items (clients s') !! j = Some c' ∧ R c c') s.
Proof.
  intros Hf Hwf. apply wp_bind, wp_gets.
  eapply wp_mono; [apply (wp_each_client R); [done | | apply NoDup_seq | done] |].
  - apply Forall_forall. intros j Hj. apply elem_of_seq in Hj. lia.
  - intros _ s' [? Hrel]. split; [done |]. intros j c Hj.
    destruct (Hrel j c Hj) as (c' & Hc' & HR). exists c'. split; [done |].
    rewrite decide_True in HR; [done |]. apply elem_of_seq. apply lookup_lt_Some in Hj. lia.
Qed.

Lemma keepalive_safe now_ : safe_client (keepalive_result now_) (keepalive_client now_).
Proof.
  intros i c s Hwf Hi. apply (wp_client_step _ i c s (λ _, keepalive_result now_ c) Hwf Hi).
  intros O W bs pl out R Q HL HC HQ. eapply wp_keepalive_client; [exact HL | exact HC |].
  intros bs' pl' out' c' s' HL' HC' Hres. by eapply HQ.
Qed.

Lemma retry_safe now_ doRetry regardless :
  safe_client (λ _ _, True) (λ i,
    client ← client_at i;
    if decide (connected client = 0) then mret tt
    else if decide (good client = 0) then MQTTProtocol_closeSession i
    else
      free ← nothing_pending (socket (net client));
      if (free : bool) && doRetry then MQTTProtocol_retries now_ i regardless else mret tt).
Proof.
  intros i c s Hwf Hi. apply (wp_client_step _ i c s (λ _ _, True) Hwf Hi).
  intros O W bs pl out R Q HL HC HQ. apply wp_bind. eapply wp_client_at; [exact HL |].
  destruct (decide (connected c = 0)); [apply wp_ret; by eapply HQ |].
  destruct (decide (good c = 0)).
  { eapply wp_closeSession; [exact HL | exact HC |]. intros; by eapply HQ. }
  apply wp_bind. eapply wp_nothing_pending; [exact HL |]. intros free s1 _ HL1.
  destruct (free && doRetry); [| apply wp_ret; by eapply HQ].
  eapply (wp_retries _ _ R); [exact HL1 | exact HC |]. intros; by eapply HQ.
Qed.

Lemma closeSession_safe : safe_client closed MQTTProtocol_closeSession.
Proof.
  intros i c s Hwf Hi. apply (wp_client_step _ i c s (λ _, closed c) Hwf Hi).
  intros O W bs pl out R Q HL HC HQ.
  eapply wp_closeSession; [exact HL | exact HC |]. intros; by eapply HQ.
Qed.

(** ** Packets of QoS 0 and 1 *)

(** The entry of the message queue for a PUBLISH of any QoS. *)
Record delivered_at (q dp : Z) (qe : qEntry) (a : app_message) : Prop := {
  at_topic : topicName qe = Some (a_topic a) ∧ topicLen qe = a_topiclen a;
  at_payload : q_payload qe = Some (a_payload a) ∧ q_payloadlen qe = a_payloadlen a;
  at_header : q_qos qe = q ∧ q_dup qe = dp ∧ q_msgid qe = a_id a;
  at_props : props_repr (q_properties qe) (a_props a);
}.

(** QoS 0 and 1: delivered at once, with the DUP bit as it came; QoS 1 is
    acknowledged. *)
Lemma wp_handlePublishes_low q sock p a i O W bs pl out c s (Q : Z → pstate T → Prop) :
  q = 0 ∨ q = 1 → carries q p a → loc i O W bs pl out c s → socket (net c) = sock →
  Forall (λ c', socket (net c') ≠ sock) O →
  (∀ rc out' n w qe s', delivered_at q (dup (pub_header p)) qe a → same_net (net c) n →
     (Forall ack_ok (items (outboundQueue c)) → Forall ack_ok (items w)) →
     (if decide (q = 0) then rc = TCPSOCKET_COMPLETE ∧ out' = out ∧ w = outboundQueue c
      else acked (T := T) PUBACK (a_id a) out out' (outboundQueue c) w) →
     loc i O W bs pl out'
       (set_outboundQueue w (set_net n (set_messageQueue (al_append qe (messageQueue c)) c))) s' →
     Q rc s') →
  wp (MQTTProtocol_handlePublishes p sock) Q s.
Proof.
  intros Hq Hc HL Hsock HO HQ. unfold MQTTProtocol_handlePublishes. apply wp_bind.
  eapply wp_findClient; [exact HL | done | done |]. intros s1 HL1.
  destruct (carries_topic _ _ _ Hc) as (Ht & Htl & _).
  destruct (carries_payload _ _ _ Hc) as (d & Hd & Hdl & Hlen & Hpl).
  assert (∀ qe, queued p (Some (take (Z.to_nat (payloadlen p)) d)) (a_props a) qe →
    delivered_at q (dup (pub_header p)) qe a) as Hdel.
  { intros qe (props & Hr & ->). constructor; cbn; [by rewrite Ht | by rewrite Hdl, Hpl | | done].
    rewrite (carries_qos _ _ _ Hc). destruct (carries_id _ _ _ Hc) as [-> _].
    by rewrite decide_False by lia. }
  rewrite (carries_qos _ _ _ Hc). apply wp_bind. destruct (decide (q = 0)) as [-> | Hq0].
  - apply wp_bind. eapply (wp_processPublication _ _ d true (a_props a));
      [exact HL1 | exact Ht | exact Hd | by rewrite Hdl | apply Hc |].
    intros qe s2 Hqe HL2. apply wp_ret. apply wp_bind.
    eapply wp_free_properties; [apply Hc |]. apply wp_ret.
    eapply (HQ _ out (net c) (outboundQueue c) qe); [by apply Hdel | done | done | done |].
    by destruct c.
  - assert (q = 1) as -> by lia. apply wp_bind. eapply wp_nothing_pending; [exact HL1 |].
    intros free s2 Hfree HL2. rewrite decide_True by done. apply wp_bind.
    eapply (wp_processPublication _ _ d true (a_props a));
      [exact HL2 | exact Ht | exact Hd | by rewrite Hdl | apply Hc |].
    intros qe s3 Hqe HL3. destruct (carries_id _ _ _ Hc) as [Hid Hrange]. rewrite Hid.
    eapply wp_ack_or_queue; [apply send_ack_sender; [unfold PUBACK; lia | done] | exact HL3 | done |].
    intros rc n out' w s4 Hn Hw HL4. apply wp_bind.
    eapply wp_free_properties; [apply Hc |]. apply wp_ret.
    eapply (HQ _ out' n w qe); [by apply Hdel | exact Hn | | exact Hw | exact HL4].
    intros Hacks. eapply acks_grow; [| exact Hrange | exact Hacks | exact Hw]. unfold PUBACK. lia.
Qed.

(** A publication of QoS 0 is kept while its write is not finished. *)
Lemma wp_startPublish0 p t pl l rt R i O W bs pl' out c s
    (Q : Z * message_ref * Publish → pstate T → Prop) :
  publishable p t pl 0 l → loc i O W bs pl' out c s → pubs_ok (R ++ other_refs O W) bs pl' →
  (∀ r W' bs2 pl2 out' n s', same_net (net c) n → loc i O W' bs2 pl2 out' (set_net n c) s' →
     (writes_ok W → writes_ok W') → pubs_ok (R ++ other_refs O W') bs2 pl2 → Q r s') →
  wp (MQTTProtocol_startPublish i p 0 rt MsgNull) Q s.
Proof.
  intros Hp HL HP HQ. unfold MQTTProtocol_startPublish. cbn [decide]. rewrite decide_False by lia.
  apply wp_bind. unfold MQTTProtocol_startPublishCommon. apply wp_bind.
  eapply wp_client_at; [exact HL |]. apply wp_bind.
  eapply (wp_send_publish _ t pl 0 l); [exact Hp | exact HL |].
  intros rc msk n out' s1 Hn _ _ HL1. apply wp_bind. eapply wp_update_client; [exact HL1 |].
  intros s2 HL2. destruct (decide (0 = 0 ∧ rc = TCPSOCKET_INTERRUPTED)) as [_ | _].
  2: { do 2 apply wp_ret. by eapply HQ. }
  apply wp_bind. unfold MQTTProtocol_storeQoS0. apply wp_bind.
  eapply wp_malloc; [exact HL2 |]. cbn [negb]. apply wp_bind.
  destruct (pub_topic _ _ _ _ _ Hp) as (b & Hb & _).
  eapply wp_storePublication; [exact HL2 | exact Hb |]. intros len s3 a HL3. cbn in HL3.
  apply wp_bind. eapply wp_client_at; [exact HL3 |]. apply wp_bind, wp_gets. apply wp_bind.
  eapply wp_list_append; [exact HL3 |]. apply wp_bind, wp_modify.
  set (pb := mkPublications _ _ _ _ _ _) in HL3.
  assert (loc i O (al_append (mkPendingWrite (socket n) (Some a)) W) (<[a := pb]> bs) (pl' ++ [a])
    out' (set_net n c) (set_pending_writes (al_append (mkPendingWrite (socket (net (set_net n c))) (Some a)) (pending_writes s3)) s3))
    as HL4.
  { destruct HL3 as [H1 H2 H3 H4 H5 H6 H7]. constructor; try done. cbn. by rewrite H3. }
  apply wp_bind. eapply wp_publication_at; [exact HL4 | apply lookup_insert_eq |]. apply wp_bind.
  eapply wp_lift_quiet; [apply updateWrite_quiet | apply heap_updateWrite | exact HL4 |].
  intros _ s5 HL5. do 2 apply wp_ret. eapply HQ; [exact Hn | exact HL5 | |].
  { intros HW. apply Forall_app. split; [exact HW |]. constructor; [by eexists | done]. }
  destruct (publishable_stored _ _ _ _ _ Hp) as [P1 P2 P3]. cbn in P2. rewrite Hb in P2.
  assert (pub_ok pb) as Hpb by by constructor.
  eapply pubs_ok_perm; [| done | done | exact (proj2 (pubs_ok_new _ bs pl' pb HP Hpb))].
  unfold other_refs, write_refs. cbn [items al_append]. rewrite omap_app. cbn. fold a. solve_Permutation.
Qed.

(** ** Inbound messages of any state *)
Lemma entry_exists bs m :
  inbound_ok m → (∀ ad, m_publish m = Some ad → ∃ pb, bs !! ad = Some pb ∧ pub_ok pb) →
  ∃ a, entry_rep bs m a.
Proof.
  intros Hok Hlive. destruct (inbound_props _ Hok) as [l Hl].
  destruct (decide (m_MQTTVersion m < MQTTVERSION_5)) as [Hv | Hv].
  - destruct (inbound_publish _ Hok Hv) as [ad Had].
    destruct (Hlive ad Had) as (pb & Hb & [_ (t & Ht & _) (d & Hd & Hlen)]).
    exists (mkApp (m_MQTTVersion m) (msgid m) t (p_topiclen pb) (take (Z.to_nat (p_payloadlen pb)) d)
      (p_payloadlen pb) (Z.land (m_retain m) 1) l).
    constructor; cbn; try done. intros _. exists ad, pb, d. tauto.
  - exists (mkApp (m_MQTTVersion m) (msgid m) [] 0 [] 0 (Z.land (m_retain m) 1) l).
    constructor; cbn; done.
Qed.

Lemma inbound_rep_exists s i c :
  wf s → items (clients s) !! i = Some c →
  ∃ pend, inbound_rep (blocks s) (items (inboundMsgs c)) pend.
Proof.
  intros Hwf Hi. destruct (wf_loc s i c Hwf Hi) as ([C1 C2 _ _ _ _] & _ & HP & _).
  assert (∃ pend, Forall2 (entry_rep (blocks s)) (items (inboundMsgs c)) pend) as [pend Hrep].
  { assert (∀ ad, ad ∈ omap m_publish (items (inboundMsgs c)) →
      ∃ pb, blocks s !! ad = Some pb ∧ pub_ok pb) as Hlive.
    { intros ad Had. apply (refs_live _ _ _ HP). unfold client_refs.
      rewrite omap_app, !elem_of_app. auto. }
    revert C1 Hlive. generalize (items (inboundMsgs c)) as ms. clear.
    induction 1 as [| m ms Hm _ IH]; intros Hlive; [by exists [] |].
    destruct (entry_exists (blocks s) m Hm) as [a Ha].
    { intros ad Had. apply Hlive. cbn. rewrite Had. left. }
    destruct IH as [pend Hp].
    { intros ad Had. apply Hlive. cbn. destruct (m_publish m); [by right | done]. }
    exists (a :: pend). by constructor. }
  exists pend. split; [done |]. by rewrite <- (entries_ids _ _ _ Hrep).
Qed.

(** ** Unfinished writes *)
Lemma wf_write_removed s k w :
  wf s → items (pending_writes s) !! k = Some w → is_Some (pw_p w) →
  wp (MQTTProtocol_removePublication (pw_p w)) (λ _ s1,
    items (pending_writes s1) = items (pending_writes s) ∧
    ∀ l, items l = delete k (items (pending_writes s)) → wf (set_pending_writes l s1)) s.
Proof.
  intros [HP Hc Hw Hh] Hk [a Ha]. rewrite Ha.
  assert (refs s ≡ₚ a :: (items (clients s) ≫= client_refs) ++
    omap pw_p (delete k (items (pending_writes s)))) as Hrefs.
  { unfold refs, write_refs. rewrite (delete_Permutation _ k w Hk) at 1. cbn. rewrite Ha.
    solve_Permutation. }
  rewrite Hrefs in HP. destruct (pubs_ok_in _ _ _ a HP) as (pb & Hb & Hpb & Hpl); [left |].
  destruct (al_unlink_remove_one a (publications s)) as (l' & Hu & Hl'); [done | apply HP |].
  unfold MQTTProtocol_removePublication. apply wp_bind.
  eapply wp_intro; [unfold publication_at; by rewrite Hb |]. rewrite (pub_ok_count _ Hpb).
  rewrite decide_True by done. apply wp_bind.
  eapply wp_intro; [unfold update_publication, publication_at; mrun; by rewrite Hb |].
  unfold wp, remove_publication. cbn. rewrite Hu. unfold free_publication. cbn.
  rewrite lookup_insert_eq, decide_True by (by eexists). split; [done |]. intros l Hl.
  constructor; cbn; [| done | rewrite <- Hl in *; unfold writes_ok; cbn; rewrite Hl; by apply Forall_delete | done].
  unfold refs, write_refs. cbn. rewrite Hl, Hl', delete_insert_eq. by apply pubs_ok_remove.
Qed.

Lemma wp_check_writes n k s :
  wf s → wp (check_writes k n) (λ _ s', wf s') s.
Proof.
  revert k s. induction n as [| n IH]; intros k s Hwf; cbn [check_writes]; [by apply wp_ret |].
  apply wp_bind, wp_gets. destruct (items (pending_writes s) !! k) as [w |] eqn:Hk; [| by apply wp_ret].
  apply wp_bind, wp_lift.
  destruct (noPendingWrites_quiet (pw_socket w) (below s)) as (b & t & Hm & Hs).
  eapply wp_intro; [exact Hm |].
  assert (wf (set_below t s)) as Hwf'.
  { destruct Hwf as [H1 H2 H3 H4]. constructor; [done | done | done |]. by eapply heap_noPendingWrites. }
  destruct b; [| by apply IH]. apply wp_bind.
  pose proof (wf_writes _ Hwf) as Hwk. eapply Forall_lookup_1 in Hwk; [| exact Hk].
  eapply wp_mono; [by apply (wf_write_removed (set_below t s) k w) |].
  intros _ s1 [Hitems Hwf1]. apply wp_bind, wp_modify. apply IH. by apply Hwf1.
Qed.

(** ** Retries and sessions *)
Lemma retries_step now_ i c s :
  wf s → items (clients s) !! i = Some c → connected c ≠ 0 → good c ≠ 0 → reliable T →
  wp (MQTTProtocol_retries now_ i true) (λ _ s', wf s' ∧ ∃ c',
    items (clients s') !! i = Some c' ∧ stages c' = stages c ∧
    sent (below s') = sent (below s) ++ mjoin (resend (blocks s) <$> items (outboundMsgs c))) s.
Proof.
  intros Hwf Hi Hcon Hgood HR. destruct (wf_loc s i c Hwf Hi) as (Hok & HO & HP & HL).
  eapply wp_retries; [exact HL | by constructor |].
  intros bs' pl' out' c' s' HL' [Hok' HP'] Hres.
  destruct (Hres HR Hcon Hgood eq_refl) as (Hout & Hst & _). split.
  - eapply loc_wf; [exact HL' | done | done | apply Hwf | exact HP'].
  - exists c'. rewrite (loc_sent _ _ _ _ _ _ _ _ _ HL'). split_and!; [apply HL' | done | exact Hout].
Qed.

(** ** The operations *)
Inductive operation :=
  | OpReceive (sock : Z) (p : Publish)
  | OpPubrel (sock : Z) (a : Ack)
  | OpExchange (sock : Z) (i : nat) (defer : bool) (pk : out_packet)
  | OpPublish0 (i : nat) (p : Publish) (rt : Z)
  | OpPingresp (sock : Z)
  | OpKeepalive (now_ : Z)
  | OpRetry (now_ : Z) (doRetry regardless : bool)
  | OpWriteAvailable (sock : Z)
  | OpCheckWrites
  | OpClose (i : nat).

Definition run_operation (op : operation) : P unit :=
  match op with
  | OpReceive sock p => _ ← MQTTProtocol_handlePublishes p sock; mret tt
  | OpPubrel sock a => _ ← MQTTProtocol_handlePubrels a sock; mret tt
  | OpExchange sock i defer pk => handle_out sock i defer pk
  | OpPublish0 i p rt => _ ← MQTTProtocol_startPublish i p 0 rt MsgNull; mret tt
  | OpPingresp sock => _ ← MQTTProtocol_handlePingresps sock; mret tt
  | OpKeepalive now_ => MQTTProtocol_keepalive now_
  | OpRetry now_ doRetry regardless => MQTTProtocol_retry now_ doRetry regardless
  | OpWriteAvailable sock => MQTTProtocol_writeAvailable sock
  | OpCheckWrites => MQTTProtocol_checkPendingWrites
  | OpClose i => MQTTProtocol_closeSession i
  end.

(** When an operation may happen: the socket belongs to one client, the
    packets are as the parsers return them, a publication has an id that is
    not in use. *)
Inductive enabled s : operation → Prop :=
  | en_receive sock p i c q a : owning sock i c s → 0 ≤ q ≤ 2 → carries q p a →
      enabled s (OpReceive sock p)
  | en_pubrel sock a i c id : owning sock i c s → acknowledges a id → enabled s (OpPubrel sock a)
  | en_exchange sock i c defer pk e : owning sock i c s → out_event pk e →
      sends_fresh (stages c) e → enabled s (OpExchange sock i defer pk)
  | en_publish0 i c p rt t pl l : items (clients s) !! i = Some c → publishable p t pl 0 l →
      enabled s (OpPublish0 i p rt)
  | en_pingresp sock i c : owning sock i c s → enabled s (OpPingresp sock)
  | en_keepalive now_ : enabled s (OpKeepalive now_)
  | en_retry now_ doRetry regardless : enabled s (OpRetry now_ doRetry regardless)
  | en_write sock i c : owning sock i c s → enabled s (OpWriteAvailable sock)
  | en_check : enabled s OpCheckWrites
  | en_close i c : items (clients s) !! i = Some c → enabled s (OpClose i).

Lemma wp_discard {A} (m : P A) (Q : pstate T → Prop) s :
  wp m (λ _ s', Q s') s → wp (_ ← m; mret tt) (λ _ s', Q s') s.
Proof. intros Hm. apply wp_bind. eapply wp_mono; [exact Hm |]. by intros a s' ?. Qed.

(** An operation on the client of a socket. *)
Lemma wp_owned {A} (m : P A) sock i c s :
  owning sock i c s →
  (∀ O W bs pl out R (Q : A → pstate T → Prop),
     loc i O W bs pl out c s → Forall (λ c', socket (net c') ≠ sock) O → client_in R bs pl c →
     (∀ a bs' pl' out' c' s', loc i O W bs' pl' out' c' s' → client_in R bs' pl' c' → Q a s') →
     wp m Q s) →
  wp m (λ _ s', wf s') s.
Proof.
  intros [Hwf Hi Hsock Honly] Hrule. apply others_not in Honly.
  eapply wp_mono; [apply (wp_client_step m i c s (λ _ _, True) Hwf Hi) |].
  - intros O W bs pl out R Q HL HC HQ.
    eapply Hrule; [exact HL | | exact HC | intros; by eapply HQ].
    by rewrite (loc_others _ _ _ _ _ _ _ _ _ HL) in Honly.
  - by intros a s' [].
Qed.

Lemma receive_low_step q sock p a i c s :
  q = 0 ∨ q = 1 → carries q p a → owning sock i c s →
  wp (MQTTProtocol_handlePublishes p sock) (λ rc s', wf s' ∧ ∃ c' qe,
    items (clients s') !! i = Some c' ∧
    items (messageQueue c') = items (messageQueue c) ++ [qe] ∧
    delivered_at q (dup (pub_header p)) qe a ∧
    inboundMsgs c' = inboundMsgs c ∧ outboundMsgs c' = outboundMsgs c ∧
    if decide (q = 0)
    then rc = TCPSOCKET_COMPLETE ∧ sent (below s') = sent (below s) ∧ outboundQueue c' = outboundQueue c
    else acked (T := T) PUBACK (a_id a) (sent (below s)) (sent (below s'))
           (outboundQueue c) (outboundQueue c')) s.
Proof.
  intros Hq Hc [Hwf Hi Hsock Honly]. destruct (wf_loc s i c Hwf Hi) as (Hok & HO & HP & HL).
  apply others_not in Honly.
  eapply (wp_handlePublishes_low q); [exact Hq | exact Hc | exact HL | exact Hsock | exact Honly |].
  intros rc out' n w qe s' Hdel Hn Hw Hans HL'. split.
  - eapply loc_wf; [exact HL' | | done | apply Hwf | exact HP].
    destruct Hok as [C1 C2 C3 C4 C5 C6].
    constructor; cbn; [done | done | done | done | | by apply Hw].
    apply Forall_app. split; [done |]. constructor; [| done].
    by eapply holds_freeable, repr_holds, Hdel.
  - eexists _, qe. split; [apply HL' |]. cbn. rewrite (loc_sent _ _ _ _ _ _ _ _ _ HL').
    split_and!; done.
Qed.

Lemma wp_receive_low q sock p a i c s :
  q = 0 ∨ q = 1 → carries q p a → owning sock i c s →
  wp (MQTTProtocol_handlePublishes p sock) (λ _ s', wf s') s.
Proof.
  intros Hq Hc Hown. eapply wp_mono; [by eapply receive_low_step |]. by intros a' s' [].
Qed.

Lemma wp_receive_inbound sock pk e i c s :
  in_event pk e → owning sock i c s → wp (handle_in sock pk) (λ _ s', wf s') s.
Proof.
  intros He [Hwf Hi Hsock Honly]. destruct (inbound_rep_exists s i c Hwf Hi) as [pend Hrep].
  eapply wp_mono; [eapply handle_in_serving; [exact He | by constructor] |].
  intros a s' (c' & qes & [] & _). done.
Qed.

(** The bytes of the acknowledgements that wait. *)
Definition ack_bytes c : list Z :=
  mjoin ((λ a, enc_ack (ackType a) (messageId a)) <$> items (outboundQueue c)).

Lemma writeAvailable_step sock i c s :
  owning sock i c s → wp (MQTTProtocol_writeAvailable sock) (λ _ s', wf s' ∧ ∃ n,
    same_net (net c) n ∧ items (clients s') !! i = Some (set_outboundQueue al_nil (set_net n c)) ∧
    (∀ j, j ≠ i → items (clients s') !! j = items (clients s) !! j) ∧
    (reliable T → sent (below s') = sent (below s) ++ ack_bytes c)) s.
Proof.
  intros [Hwf Hi Hsock Honly]. destruct (wf_loc s i c Hwf Hi) as (Hok & HO & HP & HL).
  apply others_not in Honly. unfold MQTTProtocol_writeAvailable. apply wp_bind.
  eapply wp_findClient; [exact HL | exact Hsock | exact Honly |]. intros s1 HL1. apply wp_bind.
  eapply wp_client_at; [exact HL1 |]. apply wp_bind.
  eapply wp_send_acks; [apply Hok | exact HL1 |]. intros n out' s2 Hn Hout HL2.
  eapply wp_update_client; [exact HL2 |]. intros s3 HL3. split.
  - eapply loc_wf; [exact HL3 | | done | apply Hwf | exact HP].
    destruct Hok. by constructor; cbn.
  - exists n. split_and!; [done | apply HL3 | |].
    + intros j Hj. eapply delete_eq_others; [apply HL3 | apply HL3 | exact Hi | exact Hj].
    + rewrite (loc_sent _ _ _ _ _ _ _ _ _ HL3). exact Hout.
Qed.

Lemma wp_writeAvailable_wf sock i c s :
  owning sock i c s → wp (MQTTProtocol_writeAvailable sock) (λ _ s', wf s') s.
Proof. intros Hown. eapply wp_mono; [by eapply writeAvailable_step |]. by intros _ s' []. Qed.

Lemma wp_pingresp_wf sock i c s :
  owning sock i c s → wp (MQTTProtocol_handlePingresps sock) (λ _ s', wf s') s.
Proof.
  intros Hown. eapply wp_owned; [exact Hown |]. intros O W bs pl out R Q HL HO HC HQ.
  apply wp_bind. eapply wp_findClient; [exact HL | apply Hown | exact HO |]. intros s1 HL1.
  apply wp_bind. eapply wp_update_client; [exact HL1 |]. intros s2 HL2. apply wp_ret.
  eapply HQ; [exact HL2 |]. eapply client_in_same; [exact HC | done | done | done | apply HC].
Qed.

Lemma wp_publish0_wf i c p rt t pl l s :
  wf s → items (clients s) !! i = Some c → publishable p t pl 0 l →
  wp (MQTTProtocol_startPublish i p 0 rt MsgNull) (λ _ s', wf s') s.
Proof.
  intros Hwf Hi Hp. destruct (wf_loc s i c Hwf Hi) as (Hc & HO & HP & HL).
  eapply wp_startPublish0; [exact Hp | exact HL | exact HP |].
  intros r W' bs2 pl2 out' n s' Hn HL' HW HP'. eapply loc_wf; [exact HL' | | exact HO | | exact HP'].
  - destruct Hc. by constructor.
  - apply HW, Hwf.
Qed.

Lemma operation_wf op s : wf s → enabled s op → wp (run_operation op) (λ _ s', wf s') s.
Proof.
  intros Hwf Hen. destruct Hen as [sock p i c q a Hown Hq Hc | sock a i c id Hown Ha
    | sock i c defer pk e Hown He Hf | i c p rt t pl l Hi Hp | sock i c Hown | now_
    | now_ doRetry regardless | sock i c Hown | | i c Hi]; cbn [run_operation].
  - apply wp_discard. destruct (decide (q = 2)) as [-> |].
    + apply (wp_receive_inbound sock (InPublish p) (RecvPublish a) i c); [by constructor | done].
    + eapply (wp_receive_low q); [lia | exact Hc | exact Hown].
  - apply wp_discard.
    apply (wp_receive_inbound sock (InPubrel a) (RecvPubrel id) i c); [by constructor | done].
  - eapply wp_mono; [by eapply handle_out_owning |]. by intros _ s' (c' & [] & _).
  - apply wp_discard. by eapply wp_publish0_wf.
  - apply wp_discard. by eapply wp_pingresp_wf.
  - eapply wp_mono; [by eapply wp_for_clients, Hwf; apply keepalive_safe |]. by intros _ s' [].
  - eapply wp_mono; [by eapply wp_for_clients, Hwf; apply retry_safe |]. by intros _ s' [].
  - by eapply wp_writeAvailable_wf.
  - apply wp_bind, wp_gets. by apply wp_check_writes.
  - eapply wp_mono; [by apply (closeSession_safe i c s) |]. by intros _ s' [].
Qed.
End Invariant.
