(* ===== verification/Exchange.v ===== *)
(** * Properties of the message exchanges

    The layers below the protocol code on the network in memory of [Wire], and
    the properties of the exchanges with an instance of each on it. *)
From S2P Require Import Prelude Buffers LinkedList Properties PacketIn Names Clients PacketOut.
From S2P Require Import Receive Wire Protocol Sessions ProtocolLaws MessageIds Inbound Outbound.
From S2P Require Import SessionFacts Invariant.
Local Open Scope Z_scope.

#[export] Instance wire_session : Session wire := {
  persistence_remove _ _ _ _ s := Ok (0, s);
  persistence_clear _ s := Ok (0, s);
  persist_queue_entry _ _ s := Ok (tt, s);
  updateWrite _ _ _ s := Ok (tt, s);
  close_socket _ s := Ok (tt, s);
  connection_lost _ _ s := Ok (tt, s);
}.

#[export] Instance wire_session_laws : SessionLaws wire.
Proof.
  constructor; first
    [ intros; intros w; by do 2 eexists
    | intros; intros w r w'; cbn; intros [= _ <-]; done
    | done ].
Defined.

(** ** Sample states *)

(** A connected client with nothing in flight. *)
Definition idle_client : Clients := {|
  clientID := [99; 49]; username := None; passwordlen := 0; password := None;
  cleansession := 1; cleanstart := 0; connected := 1; good := 1; ping_outstanding := 0;
  ping_due := 0; ping_due_time := 0; net := net0; msgID := 0; keepAliveInterval := 60;
  retryInterval := 0; maxInflightMessages := 10; will := None; inboundMsgs := al_nil;
  outboundMsgs := al_nil; connect_count := 0; connect_sent := 0; messageQueue := al_nil;
  outboundQueue := al_nil; c_MQTTVersion := 4 |}.

Definition state_of (c : Clients) : pstate wire :=
  mkPState (AList [c] None) ∅ al_nil 0 0 al_nil wire0.
Definition idle_state : pstate wire := state_of idle_client.

Lemma state_of_wf c : client_ok c → client_refs c = [] → wf (state_of c).
Proof.
  intros Hc Hr.
  assert (refs (state_of c) = []) as Hrefs by (unfold refs; cbn; by rewrite Hr).
  constructor; [| | constructor | done].
  - rewrite Hrefs. constructor; cbn; [constructor | | constructor | by intros a ?%elem_of_nil].
    intros a. rewrite lookup_empty. split; [by intros [? ?] | by intros ?%elem_of_nil].
  - cbn. by constructor.
Qed.

Lemma state_of_owning c :
  client_ok c → client_refs c = [] → owning (socket (net c)) 0 c (state_of c).
Proof.
  intros Hc Hr. constructor; [by apply state_of_wf | done | done |].
  intros [| j] c' Hj _; [done | by destruct j].
Qed.

Lemma idle_wf : wf idle_state.
Proof. apply state_of_wf; [| done]. by constructor; constructor. Qed.

Lemma idle_serving : serving 3 0 idle_client [] idle_state.
Proof.
  constructor; [apply idle_wf | done | done | | by split; constructor].
  intros [| j] c' Hj _; [done | by destruct j].
Qed.

(** A message of QoS 2 in three packets: the PUBLISH, sent again, and the
    PUBREL. *)
Definition hello : app_message := mkApp 4 7 [97] 1 [104; 105] 2 0 [].
Definition hello_publish (dp : Z) : Publish :=
  mkPublish (mkHeader PUBLISH dp 2 0) (Some [97]) 1 7 (Some [104; 105]) 2 4
    MQTTProperties_initializer [0; 0; 0; 0].
Definition hello_pubrel : Ack := mkAck (mkHeader PUBREL 0 1 0) (Some 7) None 4 None.
Definition hello_packets : list in_packet :=
  [InPublish (hello_publish 0); InPublish (hello_publish 1); InPubrel hello_pubrel].
Definition hello_events : list inbound_event :=
  [RecvPublish hello; RecvPublish hello; RecvPubrel 7].

Lemma hello_in_events : Forall2 in_event hello_packets hello_events.
Proof.
  assert (∀ dp, carries 2 (hello_publish dp) hello) as Hc.
  { intros dp. constructor; cbn; try done.
    exists [104; 105]. split_and!; [done | done | lia | cbn; lia | done]. }
  constructor; [by constructor |]. constructor; [by constructor |].
  constructor; [| constructor]. constructor. constructor; [cbn; lia || done | by exists []].
Qed.

(** ** Receiving QoS 2 *)

(** C1: QoS 2 messages from the broker.  [MQTTProtocol_handlePublishes] and
    [MQTTProtocol_handlePubrels] implement the automaton [inbound_run] for
    every sequence of PUBLISH (QoS 2) and PUBREL packets, repeated or not, of
    any version, whatever the network does with the acknowledgements: no
    access to memory fails, the state stays well formed, the list of inbound
    messages represents the messages that wait for their PUBREL, and the
    message queue of the application grows by exactly the messages the
    automaton delivers, in order.  Where every write succeeds each packet
    is answered by its acknowledgement, a repeated one again. *)
Theorem qos2_inbound_refines {T} `{SessionLaws T} sock pks es i c pend (s : pstate T) :
  Forall2 in_event pks es → serving sock i c pend s →
  ∃ s' c' qes, handle_all_in sock pks s = Ok (tt, s') ∧
    serving sock i c' (fst (inbound_run pend es)) s' ∧
    items (messageQueue c') = items (messageQueue c) ++ qes ∧
    Forall2 delivered qes (snd (inbound_run pend es)) ∧
    (reliable T → sent (below s') = sent (below s) ++ mjoin (answer <$> es)).
Proof.
  intros Hes Hs.
  pose proof (proj1 (wp_ok _ _ _) (handle_all_in_serving sock pks es i c pend s Hes Hs))
    as ([] & s' & Hrun & c' & qes & Hrest).
  by exists s', c', qes.
Qed.

Lemma qos2_inbound_refines_witness :
  ∃ s' c' qes, handle_all_in 3 hello_packets idle_state = Ok (tt, s') ∧
    serving 3 0 c' [] s' ∧ items (messageQueue c') = qes ∧ Forall2 delivered qes [hello] ∧
    (reliable wire → sent (below s') = [80; 2; 0; 7; 80; 2; 0; 7; 112; 2; 0; 7]).
Proof.
  exact (qos2_inbound_refines (T := wire) 3 hello_packets hello_events 0 idle_client []
    idle_state hello_in_events idle_serving).
Defined.

Lemma delivered_of_id id qes as_ :
  Forall2 delivered qes as_ → Forall2 delivered (filter (λ qe, q_msgid qe = id) qes) (of_id id as_).
Proof.
  unfold of_id. induction 1 as [| qe a qes as_ Hd _ IH]; [constructor |].
  assert (q_msgid qe = a_id a) as Hid by apply Hd.
  rewrite !filter_cons, Hid. case_decide; [by constructor | done].
Qed.

(** C2: QoS 2 messages are delivered exactly once.  Among any other traffic,
    a message whose PUBLISH arrives one or more times and then its PUBREL one
    or more times is put on the application's queue exactly once, and nothing
    of its exchange is left. *)
Theorem qos2_exactly_once {T} `{SessionLaws T} sock pks es i c pend a id n m (s : pstate T) :
  Forall2 in_event pks es → serving sock i c pend s → of_id id pend = [] →
  filter (λ e, event_id e = id) es =
    replicate (S n) (RecvPublish a) ++ replicate (S m) (RecvPubrel id) →
  ∃ s' c' pend' qes, handle_all_in sock pks s = Ok (tt, s') ∧
    serving sock i c' pend' s' ∧ of_id id pend' = [] ∧
    items (messageQueue c') = items (messageQueue c) ++ qes ∧
    ∃ qe, filter (λ qe, q_msgid qe = id) qes = [qe] ∧ delivered qe a.
Proof.
  intros Hes Hs Hpend Hfilter.
  pose proof (proj1 (wp_ok _ _ _) (handle_all_in_serving sock pks es i c pend s Hes Hs))
    as ([] & s' & Hrun & c' & qes & Hs' & Hq & Hd & _).
  destruct (run_projects id pend es None Hpend) as [Hp1 Hp2].
  rewrite Hfilter, exchange_once in Hp1, Hp2. cbn in Hp1, Hp2.
  exists s', c', (fst (inbound_run pend es)), qes. split_and!; [done.. |].
  apply (delivered_of_id id) in Hd. rewrite Hp2 in Hd.
  inversion Hd as [| qe ? ? ? Hqe Hnil Heq]; subst. inversion Hnil; subst. by exists qe.
Qed.

Lemma qos2_exactly_once_witness :
  ∃ s' c' pend' qes, handle_all_in 3 hello_packets idle_state = Ok (tt, s') ∧
    serving 3 0 c' pend' s' ∧ of_id 7 pend' = [] ∧ items (messageQueue c') = qes ∧
    ∃ qe, filter (λ qe, q_msgid qe = 7) qes = [qe] ∧ delivered qe hello.
Proof.
  exact (qos2_exactly_once (T := wire) 3 hello_packets hello_events 0 idle_client [] hello 7 1 0
    idle_state hello_in_events idle_serving eq_refl eq_refl).
Defined.

(** ** Messages of the application *)

Lemma idle_owning : owning 3 0 idle_client idle_state.
Proof.
  apply (state_of_owning idle_client); [| done]. by constructor; constructor.
Qed.

(** A message of QoS 2 and its exchange. *)
Definition news (id : Z) : Publish :=
  mkPublish (mkHeader PUBLISH 0 2 0) (Some [98; 0]) 1 id (Some [104; 105]) 2 4
    MQTTProperties_initializer [0; 0; 0; 0].

Lemma news_publishable id : 0 ≤ id < 65536 → publishable (news id) [98] [104; 105] 2 [].
Proof.
  intros Hid. constructor; cbn; [by exists [98; 0] | by vm_compute | by exists [104; 105] | done | done |].
  by intros ?.
Qed.

Definition ack_of (ty id : Z) : Ack := mkAck (mkHeader ty 0 0 0) (Some id) None 4 None.

Lemma ack_of_acknowledges ty id : 0 ≤ id < 65536 → acknowledges (ack_of ty id) id.
Proof. intros Hid. constructor; [by split | by exists []]. Qed.

Definition news_packets : list out_packet :=
  [OutPublish (news 9) 2 0; OutPubrec (ack_of PUBREC 9); OutPublish (news 10) 2 0].
Definition news_events : list outbound_event :=
  [Sent 9 WaitPubrec; GotPubrec 9 false; Sent 10 WaitPubrec].

Lemma news_out_events : Forall2 out_event news_packets news_events.
Proof.
  constructor; [apply (out_publish (news 9) 2 0 [98] [104; 105] []); [by apply news_publishable | done] |].
  constructor; [apply (out_pubrec (ack_of PUBREC 9) 9 false); [by apply ack_of_acknowledges |] |].
  { done. }
  constructor; [| constructor].
  apply (out_publish (news 10) 2 0 [98] [104; 105] []); [by apply news_publishable | done].
Qed.

Lemma news_fresh : all_fresh (stages idle_client) news_events.
Proof. cbn. split_and!; try done; set_solver. Qed.

(** C3: messages to the broker.  [MQTTProtocol_startPublish] and the handlers
    of PUBACK, PUBREC and PUBCOMP implement the automaton [outbound_step] for
    every sequence of packets, in any order and repeated or not, whatever the
    network does with what they send, and whether the publications are freed
    by the handler or by its caller: no access to memory fails, the state stays
    well formed, and the outbound messages of the client, in their order, are
    at the stages of their exchanges.  A new publication has an id that no
    message in flight has ([all_fresh]). *)
Theorem outbound_refines {T} `{SessionLaws T} sock i defer pks es c (s : pstate T) :
  Forall2 out_event pks es → owning sock i c s → all_fresh (stages c) es →
  ∃ s' c', handle_all_out sock i defer pks s = Ok (tt, s') ∧ owning sock i c' s' ∧
    stages c' = foldl outbound_step (stages c) es.
Proof.
  intros Hes Hown Hfresh.
  pose proof (proj1 (wp_ok _ _ _) (handle_all_out_owning sock defer pks es i c s Hes Hown Hfresh))
    as ([] & s' & Hrun & c' & Hown' & Hst).
  by exists s', c'.
Qed.

Lemma outbound_refines_witness :
  ∃ s' c', handle_all_out 3 0 false news_packets idle_state = Ok (tt, s') ∧
    owning 3 0 c' s' ∧ stages c' = [(9, WaitPubcomp); (10, WaitPubrec)].
Proof.
  exact (outbound_refines (T := wire) 3 0 false news_packets news_events idle_client idle_state
    news_out_events idle_owning news_fresh).
Defined.

(** The state after those packets: two messages are not acknowledged. *)
Definition after {A} (m : M (pstate wire) A) (s : pstate wire) : pstate wire :=
  match m s with Ok (_, s') => s' | Err _ => s end.
Definition busy_state : pstate wire := after (handle_all_out 3 0 false news_packets) idle_state.
Definition busy_client : Clients := default idle_client (items (clients busy_state) !! 0%nat).

Lemma busy_owning : owning 3 0 busy_client busy_state.
Proof.
  pose proof (proj1 (wp_ok _ _ _) (handle_all_out_owning (T := wire) 3 false news_packets news_events
    0 idle_client idle_state news_out_events idle_owning news_fresh)) as (u & s' & Hrun & c' & Hown & _).
  assert (busy_state = s') as Hb by (unfold busy_state, after; by rewrite Hrun).
  assert (busy_client = c') as Hc.
  { unfold busy_client. by rewrite Hb, (owning_client _ _ _ _ Hown). }
  by rewrite Hb, Hc.
Qed.

(** C12: a message to the broker is kept until it is acknowledged.  A message
    of QoS 1 or 2 that is in flight stays in the outbound messages of its
    client, and its publication allocated, as long as no PUBACK, PUBCOMP or
    PUBREC with an error for its id arrives, whatever else does. *)
Theorem outbound_kept {T} `{SessionLaws T} sock i defer pks es c id (s : pstate T) :
  Forall2 out_event pks es → owning sock i c s → all_fresh (stages c) es →
  id ∈ fst <$> stages c → Forall (λ e, ¬ finishes id e) es →
  ∃ s' c', handle_all_out sock i defer pks s = Ok (tt, s') ∧ owning sock i c' s' ∧
    ∃ m a pb, m ∈ items (outboundMsgs c') ∧ msgid m = id ∧ m_publish m = Some a ∧
      blocks s' !! a = Some pb ∧ refcount pb = 1.
Proof.
  intros Hes Hown Hfresh Hin Hno.
  pose proof (proj1 (wp_ok _ _ _) (handle_all_out_owning sock defer pks es i c s Hes Hown Hfresh))
    as ([] & s' & Hrun & c' & Hown' & Hst).
  exists s', c'. split_and!; [done | done |].
  pose proof (run_keeps id _ _ Hno Hin) as Hkept. rewrite <- Hst, stages_ids in Hkept.
  apply list_elem_of_fmap in Hkept as (m & -> & Hm).
  destruct (owning_loc _ _ _ _ Hown') as (_ & _ & Hout).
  pose proof (out_ok _ _ _ _ Hout) as Hok. rewrite Forall_forall in Hok.
  destruct (outbound_publish _ (Hok m Hm)) as [a Ha].
  destruct (pubs_ok_in _ _ _ a (out_pubs _ _ _ _ Hout)) as (pb & Hb & Hpb & _).
  { apply elem_of_app. left. by eapply publish_in_omap. }
  exists m, a, pb. split_and!; [done | done | done | done |]. apply Hpb.
Qed.

Lemma outbound_kept_witness :
  ∃ s' c', handle_all_out 3 0 true [OutPuback (ack_of PUBACK 9); OutPubcomp (ack_of PUBCOMP 9)]
      busy_state = Ok (tt, s') ∧ owning 3 0 c' s' ∧
    ∃ m a pb, m ∈ items (outboundMsgs c') ∧ msgid m = 10 ∧ m_publish m = Some a ∧
      blocks s' !! a = Some pb ∧ refcount pb = 1.
Proof.
  apply (outbound_kept (T := wire) 3 0 true _ [GotPuback 9; GotPubcomp 9] busy_client 10 busy_state).
  - constructor; [| constructor; [| constructor]]; constructor; by apply ack_of_acknowledges.
  - exact busy_owning.
  - done.
  - vm_compute. right. left.
  - by repeat constructor.
Defined.

(** A PUBLISH of QoS 1 or 2.  With an id that is not in flight it is put
    at the end of the outbound messages, at the first stage of its exchange,
    whatever the network does, and the bytes sent, unless the write failed, are
    the encoding of the packet. *)
Theorem startPublish_sound {T} `{SessionLaws T} p q rt t pl l sock i c (s : pstate T) :
  publishable p t pl q l → 0 < q → owning sock i c s → pub_msgId p ∉ fst <$> stages c →
  ∃ rc mm p' s' c', MQTTProtocol_startPublish i p q rt MsgNull s = Ok ((rc, mm, p'), s') ∧
    owning sock i c' s' ∧ stages c' = stages c ++ [(pub_msgId p, first_stage q)] ∧
    (rc = TCPSOCKET_COMPLETE ∨ rc = TCPSOCKET_INTERRUPTED →
     sent (below s') = sent (below s) ++ enc_publish_packet p t pl 0 q rt l).
Proof.
  intros Hp Hq Hown Hfresh.
  pose proof (proj1 (wp_ok _ _ _) (startPublish_owning p q rt t pl l sock i c s Hp Hq Hown Hfresh))
    as ([[rc mm] p'] & s' & Hrun & c' & Hrest).
  by exists rc, mm, p', s', c'.
Qed.

Lemma startPublish_sound_witness :
  ∃ rc mm p' s' c', MQTTProtocol_startPublish 0 (news 11) 2 0 MsgNull busy_state
      = Ok ((rc, mm, p'), s') ∧
    owning 3 0 c' s' ∧ stages c' = [(9, WaitPubcomp); (10, WaitPubrec); (11, WaitPubrec)] ∧
    (rc = TCPSOCKET_COMPLETE ∨ rc = TCPSOCKET_INTERRUPTED →
     wi_out (below s') = wi_out (below busy_state) ++ [52; 7; 0; 1; 98; 0; 11; 104; 105]).
Proof.
  assert (stages busy_client = [(9, WaitPubcomp); (10, WaitPubrec)]) as Hst by (by vm_compute).
  assert (enc_publish_packet (news 11) [98] [104; 105] 0 2 0 [] = [52; 7; 0; 1; 98; 0; 11; 104; 105])
    as Henc by (by vm_compute).
  assert (pub_msgId (news 11) ∉ fst <$> stages busy_client) as Hfresh 
    by (rewrite Hst; by apply (bool_decide_unpack _)).
  pose proof (startPublish_sound (T := wire) (news 11) 2 0 [98] [104; 105] [] 3 0 busy_client busy_state
    (news_publishable 11 ltac:(lia)) eq_refl busy_owning Hfresh) as Hs.
  rewrite Hst, Henc in Hs. exact Hs.
Defined.

(** C27: messages of QoS 0 and 1 from the broker are delivered at once, in one
    entry at the end of the application's queue, as they came.  One of QoS 1
    is answered by a PUBACK with its id: sent, or queued while the socket has
    unfinished writes, or lost in a write that fails. *)
Theorem publish_low_delivered {T} `{SessionLaws T} q sock p a i c (s : pstate T) :
  q = 0 ∨ q = 1 → carries q p a → owning sock i c s →
  ∃ rc s' c' qe, MQTTProtocol_handlePublishes p sock s = Ok (rc, s') ∧ wf s' ∧
    items (clients s') !! i = Some c' ∧
    items (messageQueue c') = items (messageQueue c) ++ [qe] ∧
    delivered_at q (dup (pub_header p)) qe a ∧
    inboundMsgs c' = inboundMsgs c ∧ outboundMsgs c' = outboundMsgs c ∧
    if decide (q = 0)
    then rc = TCPSOCKET_COMPLETE ∧ sent (below s') = sent (below s) ∧ outboundQueue c' = outboundQueue c
    else acked (T := T) PUBACK (a_id a) (sent (below s)) (sent (below s'))
           (outboundQueue c) (outboundQueue c').
Proof.
  intros Hq Hc Hown.
  pose proof (proj1 (wp_ok _ _ _) (receive_low_step q sock p a i c s Hq Hc Hown))
    as (rc & s' & Hrun & Hwf & c' & qe & Hrest).
  by exists rc, s', c', qe.
Qed.

Definition hi : app_message := mkApp 4 8 [97] 1 [104; 105] 2 1 [].
Definition hi_publish : Publish :=
  mkPublish (mkHeader PUBLISH 0 1 1) (Some [97]) 1 8 (Some [104; 105]) 2 4
    MQTTProperties_initializer [0; 0; 0; 0].

Lemma hi_carries : carries 1 hi_publish hi.
Proof.
  constructor; cbn; try done.
  exists [104; 105]. split_and!; [done | done | lia | cbn; lia | done].
Qed.

Lemma publish_low_delivered_witness :
  ∃ rc s' c' qe, MQTTProtocol_handlePublishes hi_publish 3 busy_state = Ok (rc, s') ∧ wf s' ∧
    items (clients s') !! 0%nat = Some c' ∧
    items (messageQueue c') = [qe] ∧ delivered_at 1 0 qe hi ∧
    inboundMsgs c' = inboundMsgs busy_client ∧ outboundMsgs c' = outboundMsgs busy_client ∧
    acked (T := wire) PUBACK 8 (sent (below busy_state)) (sent (below s'))
      (outboundQueue busy_client) (outboundQueue c').
Proof.
  assert (items (messageQueue busy_client) = []) as Hq by (by vm_compute).
  pose proof (publish_low_delivered (T := wire) 1 3 hi_publish hi 0 busy_client busy_state
    (or_intror eq_refl) hi_carries busy_owning) as Hd.
  rewrite Hq in Hd. exact Hd.
Defined.

(** ** All operations *)

(** C4: memory safety of the protocol code.  From a well formed state every
    sequence of enabled operations - packets received, publications, keep
    alive, retries, writes resumed, sessions closed - runs without a fault,
    and in every state on the way the publications allocated are exactly those
    that a message in flight or an unfinished write refers to, each with one
    reference: no publication is leaked, freed twice or used after it was freed.
    [wf] includes that the allocations succeed.  The blocks of topics and
    payloads are values of the model, so the statement is not about them. *)
Theorem protocol_safety {T} `{SessionLaws T} (s s' : pstate T) op :
  wf s → rtc (λ s1 s2, ∃ op, enabled s1 op ∧ run_operation op s1 = Ok (tt, s2)) s s' →
  enabled s' op →
  (∃ s'', run_operation op s' = Ok (tt, s'')) ∧
  (∀ a, is_Some (blocks s' !! a) ↔ a ∈ refs s') ∧ NoDup (refs s') ∧
  (∀ a pb, blocks s' !! a = Some pb → refcount pb = 1).
Proof.
  intros Hwf Hsteps Hen.
  assert (wf s') as Hwf'.
  { revert Hwf. induction Hsteps as [| s1 s2 s3 (o & Ho & Hrun) _ IH]; [done |]. intros Hwf.
    apply IH; [done |]. pose proof (proj1 (wp_ok _ _ _) (operation_wf o s1 Hwf Ho)) as (u & s0 & Hr & ?).
    rewrite Hrun in Hr. by simplify_eq. }
  split.
  - pose proof (proj1 (wp_ok _ _ _) (operation_wf op s' Hwf' Hen)) as ([] & s'' & Hrun & _).
    by exists s''.
  - destruct Hwf' as [HP _ _ _]. exact (pubs_ok_facts _ _ _ HP).
Qed.

Lemma protocol_safety_witness :
  let s := after (run_operation (OpReceive 3 (hello_publish 0))) idle_state in
  (∃ s'', run_operation (OpClose 0) s = Ok (tt, s'')) ∧
  (∀ a, is_Some (blocks s !! a) ↔ a ∈ refs s) ∧ NoDup (refs s) ∧
  (∀ a pb, blocks s !! a = Some pb → refcount pb = 1).
Proof.
  assert (enabled idle_state (OpReceive 3 (hello_publish 0))) as Hen.
  { apply (en_receive _ 3 (hello_publish 0) 0 idle_client 2 hello); [apply idle_owning | lia |].
    pose proof hello_in_events as Hev. inversion Hev as [| ? ? ? ? He]. by inversion He. }
  assert (is_Some (items (clients (after (run_operation (OpReceive 3 (hello_publish 0))) idle_state))
    !! 0%nat)) as [c Hc] by (by vm_compute; eexists).
  apply (protocol_safety (T := wire) idle_state); [apply idle_wf | | by apply (en_close _ 0 c)].
  apply rtc_once. exists (OpReceive 3 (hello_publish 0)). split; [exact Hen | by vm_compute].
Defined.

(** C25: messages in flight are sent again.  After a reconnection
    [MQTTProtocol_retries] writes, on a network where every write succeeds,
    exactly the packets of the messages in flight, in their order: a PUBLISH
    with the DUP bit for a message of QoS 1 or in the first half of QoS 2, a
    PUBREL in the second half; the stages stay as they are. *)
Theorem retries_resend {T} `{SessionLaws T} now_ i c (s : pstate T) :
  wf s → items (clients s) !! i = Some c → connected c ≠ 0 → good c ≠ 0 → reliable T →
  ∃ s' c', MQTTProtocol_retries now_ i true s = Ok (tt, s') ∧ wf s' ∧
    items (clients s') !! i = Some c' ∧ stages c' = stages c ∧
    sent (below s') = sent (below s) ++ mjoin (resend (blocks s) <$> items (outboundMsgs c)).
Proof.
  intros Hwf Hi Hcon Hgood HR.
  pose proof (proj1 (wp_ok _ _ _) (retries_step now_ i c s Hwf Hi Hcon Hgood HR))
    as ([] & s' & Hrun & Hwf' & c' & Hrest).
  by exists s', c'.
Qed.

Lemma wire_reliable : reliable wire.
Proof. constructor; cbn; congruence. Qed.

Lemma retries_resend_witness :
  ∃ s' c', MQTTProtocol_retries 0 0 true busy_state = Ok (tt, s') ∧ wf s' ∧
    items (clients s') !! 0%nat = Some c' ∧ stages c' = stages busy_client ∧
    sent (below s') = sent (below busy_state) ++
      [98; 2; 0; 9] ++ [60; 7; 0; 1; 98; 0; 10; 104; 105].
Proof.
  assert (mjoin (resend (blocks busy_state) <$> items (outboundMsgs busy_client)) =
    [98; 2; 0; 9] ++ [60; 7; 0; 1; 98; 0; 10; 104; 105]) as Hbytes by (by vm_compute).
  pose proof (retries_resend (T := wire) 0 0 busy_client busy_state (owning_wf _ _ _ _ busy_owning)
    (owning_client _ _ _ _ busy_owning) ltac:(by vm_compute) ltac:(by vm_compute) wire_reliable) as Hs.
  rewrite Hbytes in Hs. exact Hs.
Defined.

(** ** Keep alive and the end of a session *)

(** A pass of keep alive.  [MQTTProtocol_keepalive] deals with every
    client on its own, as [keepalive_result] says: a client whose server was
    silent for one and a half intervals after a ping is closed, and only such a
    client, or one whose ping could not be written, is; a ping is sent, or
    noted as due while the socket has unfinished writes, when an interval went
    by without a packet sent or without one received, and else nothing
    changes. *)
Theorem keepalive_clients {T} `{SessionLaws T} now_ (s : pstate T) :
  wf s → ∃ s', MQTTProtocol_keepalive now_ s = Ok (tt, s') ∧ wf s' ∧
    ∀ j c, items (clients s) !! j = Some c →
      ∃ c', items (clients s') !! j = Some c' ∧ keepalive_result now_ c c'.
Proof.
  intros Hwf.
  pose proof (proj1 (wp_ok _ _ _) (wp_for_clients _ _ s (keepalive_safe now_) Hwf))
    as ([] & s' & Hrun & Hrest).
  by exists s'.
Qed.

Lemma keepalive_clients_witness :
  ∃ s', MQTTProtocol_keepalive 60000000 idle_state = Ok (tt, s') ∧ wf s' ∧
    ∀ j c, items (clients idle_state) !! j = Some c →
      ∃ c', items (clients s') !! j = Some c' ∧ keepalive_result 60000000 c c'.
Proof. exact (keepalive_clients (T := wire) 60000000 idle_state idle_wf). Defined.






(** The end of a session.  [MQTTProtocol_closeSession] leaves the client
    closed as [closed] says - disconnected, without a socket, its messages kept
    for the next session unless it is a clean one of version 3, in which case
    each of them is freed - and changes no other client. *)
Theorem closeSession_ends {T} `{SessionLaws T} i c (s : pstate T) :
  wf s → items (clients s) !! i = Some c →
  ∃ s' c', MQTTProtocol_closeSession i s = Ok (tt, s') ∧ wf s' ∧
    items (clients s') !! i = Some c' ∧ closed c c' ∧
    ∀ j, j ≠ i → items (clients s') !! j = items (clients s) !! j.
Proof.
  intros Hwf Hi.
  pose proof (proj1 (wp_ok _ _ _) (closeSession_safe i c s Hwf Hi))
    as ([] & s' & Hrun & [Hwf' (c' & Hc' & Hcl) Ho]).
  by exists s', c'.
Qed.

Lemma closeSession_ends_witness :
  ∃ s' c', MQTTProtocol_closeSession 0 busy_state = Ok (tt, s') ∧ wf s' ∧
    items (clients s') !! 0%nat = Some c' ∧ closed busy_client c' ∧
    ∀ j, j ≠ 0%nat → items (clients s') !! j = items (clients busy_state) !! j.
Proof.
  exact (closeSession_ends (T := wire) 0 busy_client busy_state (owning_wf _ _ _ _ busy_owning)
    (owning_client _ _ _ _ busy_owning)).
Defined.


Definition waiting_client : Clients :=
  set_outboundQueue (AList [mkAckRequest 7 PUBREC; mkAckRequest 8 PUBACK] None) idle_client.


(** A network that has to finish every write later *)
Definition slow_transport : Transport wire := {|
  putdatas sock hdr bufs msk :=
    r ← putdatas (T := wire) sock hdr bufs msk; mret (TCPSOCKET_INTERRUPTED, snd r);
  noPendingWrites _ := mret false;
  now := now (T := wire);
  putPacket _ _ _ _ _ _ _ := mret TCPSOCKET_COMPLETE;
|}.

(** The acknowledgement after a write that was only started is lost. *)
Lemma writeAvailable_drops :
  match MQTTProtocol_writeAvailable (H1 := slow_transport) 3 (state_of waiting_client) with
  | Ok (_, s') => sent (below s') = [80; 2; 0; 7] ∧
      (λ c, items (outboundQueue c)) <$> items (clients s') !! 0%nat = Some []
  | Err _ => False
  end.
Proof. by vm_compute. Qed.

(** A ping that is due because nothing was received is forgotten while a write
    is pending: nothing is sent and nothing is noted. *)
Definition talking_client : Clients := set_net (mkNet 3 30000000 0 0) idle_client.

Lemma forgotten_ping :
  due 70000000 talking_client ∧
  MQTTProtocol_keepalive (H1 := slow_transport) 70000000 (state_of talking_client) =
    Ok (tt, state_of talking_client).
Proof. split; [split; [done |]; right; by vm_compute | by vm_compute]. Qed.
