(* ===== verification/RestoreOrder.v ===== *)
(** * The order of restored messages

    The keys of a store come in any order, so MQTTPersistence_insertInOrder puts
    the messages in the order of their ids, and MQTTPersistence_wrapMsgID then
    cuts the circle of ids at its largest gap.  This file shows when that is
    the order in which the messages were sent. *)
From stdpp Require Import sorting.
From S2P Require Import Prelude LinkedList Ordered Clients Protocol Persistence.
Local Open Scope Z_scope.

(** ** Messages in the order of their ids *)
Notation by_id := (sorted_by msgid).
Notation insert_msg := (insert_by msgid).

Lemma index_above_position id l : index_above id l = position_above msgid id l.
Proof. induction l as [| m l IH]; [done |]. cbn. by rewrite IH. Qed.

(** ** The circle of ids *)
Definition valid_id (id : Z) : Prop := 1 ≤ id ≤ MAX_MSG_ID.

(** The steps from [x] forward to [y], as MQTTProtocol_assignMsgId takes them *)
Definition id_gap (x y : Z) : Z := (y - x) `mod` MAX_MSG_ID.

Fixpoint span (x : Z) (l : list Z) : Z :=
  match l with [] => 0 | y :: l' => id_gap x y + span y l' end.

(** Every step is shorter than [g]. *)
Fixpoint gaps_below (g : Z) (x : Z) (l : list Z) : Prop :=
  match l with [] => True | y :: l' => 0 < id_gap x y < g ∧ gaps_below g y l' end.

(** Ids in the order they were given out: the steps from each to the next are
    shorter than the step that closes the circle, from the last to the first. *)
Definition window (ids : list Z) : Prop :=
  Forall valid_id ids ∧
  match ids with [] => True | x :: l => gaps_below (MAX_MSG_ID - span x l) x l end.

Lemma id_gap_next id : valid_id id → id_gap id (next_msgid id) = 1.
Proof.
  unfold valid_id, id_gap, next_msgid, MAX_MSG_ID. intros Hid. case_decide as Heq.
  - subst. done.
  - replace (id + 1 - id) with 1 by lia. done.
Qed.

Lemma id_gap_cases x y : valid_id x → valid_id y →
  (x < y ∧ id_gap x y = y - x) ∨ (x = y ∧ id_gap x y = 0) ∨ (y < x ∧ id_gap x y = MAX_MSG_ID + y - x).
Proof.
  unfold valid_id, id_gap, MAX_MSG_ID. intros Hx Hy.
  destruct (Z.lt_trichotomy x y) as [? | [-> | ?]].
  - left. split; [done |]. apply Z.mod_small. lia.
  - right; left. split; [done |]. by rewrite Z.sub_diag.
  - right; right. split; [done |]. replace (y - x) with (65535 + y - x + (-1) * 65535) by lia.
    rewrite Z.mod_add by lia. apply Z.mod_small. lia.
Qed.

Lemma span_nonneg x l : Forall valid_id (x :: l) → 0 ≤ span x l.
Proof.
  revert x. induction l as [| y l IH]; intros x Hv; [done |]. cbn.
  apply Forall_cons in Hv as [Hx Hv]. pose proof (IH y Hv).
  apply Forall_cons in Hv as [Hy _]. destruct (id_gap_cases x y Hx Hy); unfold valid_id in *; lia.
Qed.

(** A window that is short compared to the circle: fewer than half of the ids
    from the first to the last *)
Lemma gaps_below_mono g g' x l : g ≤ g' → gaps_below g x l → gaps_below g' x l.
Proof. intros Hg. revert x. induction l as [| y l IH]; intros x; [done |]. cbn. intros [? ?]. split; [lia | by apply IH]. Qed.

Lemma gaps_below_span x l g :
  Forall valid_id (x :: l) → NoDup (x :: l) → span x l < g → gaps_below g x l.
Proof.
  revert x g. induction l as [| y l IH]; intros x g Hv Hnd Hs; [done |]. cbn in *.
  pose proof Hv as [Hx Hv']%Forall_cons. pose proof (span_nonneg y l Hv').
  apply NoDup_cons in Hnd as [Hne Hnd]. rewrite not_elem_of_cons in Hne.
  pose proof Hv' as [Hy _]%Forall_cons.
  destruct (id_gap_cases x y Hx Hy) as [? | [? | ?]]; unfold valid_id in *; [| lia |];
    (split; [lia |]; apply IH; [done | done | lia]).
Qed.

Lemma short_window x l :
  Forall valid_id (x :: l) → NoDup (x :: l) → 2 * span x l < MAX_MSG_ID → window (x :: l).
Proof. intros Hv Hnd Hs. split; [done |]. apply gaps_below_span; [done | done | lia]. Qed.

(** ** The circle cut open *)
Fixpoint last_id (x : Z) (l : list Z) : Z :=
  match l with [] => x | y :: l' => last_id y l' end.

Lemma last_id_cons x y l : last_id x (y :: l) = last_id y l.
Proof. done. Qed.

Lemma last_id_app x k y l : last_id x (k ++ y :: l) = last_id y l.
Proof. revert x. induction k as [| z k IH]; intros x; [done |]. apply IH. Qed.

Lemma last_id_lookup x l : (x :: l) !! length l = Some (last_id x l).
Proof. revert x. induction l as [| y l IH]; intros x; [done |]. apply (IH y). Qed.

(** The ids of a window rise up to some point, and from there on again, below the first. *)
Lemma window_split x l :
  Forall valid_id (x :: l) → gaps_below MAX_MSG_ID x l → span x l < MAX_MSG_ID →
  ∃ A B, l = A ++ B ∧ StronglySorted Z.lt (x :: A) ∧ StronglySorted Z.lt B ∧
    Forall (λ b, b ≤ x + span x l - MAX_MSG_ID) B ∧
    last_id x l = x + span x l - (if B then 0 else MAX_MSG_ID).
Proof.
  revert x. induction l as [| y l IH]; intros x Hv Hg Hs.
  { exists [], []. split_and!; try constructor; try constructor. unfold last_id. cbn. lia. }
  cbn [span gaps_below] in *. apply Forall_cons in Hv as [Hx Hv]. destruct Hg as [Hg0 Hg].
  pose proof (span_nonneg y l Hv) as Hnn. rewrite last_id_cons.
  destruct (IH y Hv Hg) as (A & B & -> & HA & HB & HBle & Hlast); [lia |].
  pose proof Hv as [Hy Hv']%Forall_cons.
  destruct (id_gap_cases x y Hx Hy) as [[Hlt E] | [[-> E] | [Hlt E]]]; [| lia |].
  - exists (y :: A), B. split_and!; [done | | done | | destruct B; lia].
    + constructor; [done |]. constructor; [done |].
      apply StronglySorted_inv in HA as [_ HA]. eapply Forall_impl; [done |]. cbv beta. intros; lia.
    + eapply Forall_impl; [done |]. cbv beta. intros; lia.
  - (* the ids start again at [y]: none of them can do so once more *)
    destruct B as [| b B].
    2: { exfalso. apply Forall_cons in HBle as [Hb _].
         apply Forall_app in Hv' as [_ [Hvb _]%Forall_cons]. unfold valid_id in *. lia. }
    rewrite app_nil_r in *. exists [], (y :: A).
    split_and!; [done | repeat constructor | done | | lia].
    apply StronglySorted_inv in HA as [HA1 HA2].
    (* the last id is the greatest *)
    assert (∀ z, z ∈ y :: A → z ≤ last_id y A) as Hle.
    { clear -HA1 HA2. revert y HA2. induction HA1 as [| w A HA1 IH Hw]; intros y Hy z Hz.
      - apply list_elem_of_singleton in Hz as ->. done.
      - rewrite last_id_cons. apply Forall_cons in Hy as [? Hy].
        pose proof (IH w Hw w ltac:(left)). apply elem_of_cons in Hz as [-> | Hz]; [lia |].
        by apply (IH w Hw). }
    apply Forall_forall. intros z Hz. specialize (Hle z Hz). lia.
Qed.

(** ** The search for the largest gap *)
Fixpoint wrap_ids (prev_id : Z) (l : list Z) (pos : nat) (gap : Z) (w : option nat) : option nat :=
  match l with
  | [] => w
  | y :: l' =>
    if decide (y - prev_id > gap) then wrap_ids y l' (S pos) (y - prev_id) (Some pos)
    else wrap_ids y l' (S pos) gap w
  end.

Lemma wrap_loop_ids l : ∀ x pos gap w,
  wrap_loop x l pos gap w = wrap_ids x (msgid <$> l) pos gap w.
Proof. induction l as [| m l IH]; intros; [done |]. cbn. by rewrite !IH. Qed.

Fixpoint steps_below (g : Z) (x : Z) (l : list Z) : Prop :=
  match l with [] => True | y :: l' => y - x < g ∧ steps_below g y l' end.

Lemma wrap_ids_below g x l : ∀ pos w, steps_below g x l → wrap_ids x l pos g w = w.
Proof.
  revert x. induction l as [| y l IH]; intros x pos w; [done |]. cbn. intros [Hy Hl].
  rewrite decide_False by lia. by apply IH.
Qed.

(** A gap greater than all others is found. *)
Lemma wrap_ids_found g post : ∀ pre x pos gap w y,
  gap < g → steps_below g x pre → y - last_id x pre = g → steps_below g y post →
  wrap_ids x (pre ++ y :: post) pos gap w = Some (pos + length pre)%nat.
Proof.
  induction pre as [| z pre IH]; intros x pos gap w y Hgap Hpre Hy Hpost; cbn [app wrap_ids].
  - unfold last_id in Hy. cbn in Hy. rewrite decide_True by lia. rewrite Nat.add_0_r.
    rewrite Hy. by apply wrap_ids_below.
  - destruct Hpre as [Hz Hpre]. cbn [length].
    rewrite Nat.add_succ_r, <- Nat.add_succ_l. case_decide; by apply IH.
Qed.

Lemma gaps_below_steps g x l :
  Forall valid_id (x :: l) → StronglySorted Z.lt (x :: l) → gaps_below g x l → steps_below g x l.
Proof.
  revert x. induction l as [| y l IH]; intros x Hv Hs Hg; [done |]. destruct Hg as [Hg0 Hg].
  apply Forall_cons in Hv as [Hx Hv]. apply StronglySorted_inv in Hs as [Hs Hx'].
  apply Forall_cons in Hx' as [Hlt _]. pose proof Hv as [Hy _]%Forall_cons.
  split; [destruct (id_gap_cases x y Hx Hy); lia | by apply IH].
Qed.

Lemma gaps_below_app g k : ∀ x y l,
  gaps_below g x (k ++ y :: l) ↔
    gaps_below g x k ∧ 0 < id_gap (last_id x k) y < g ∧ gaps_below g y l.
Proof.
  induction k as [| z k IH]; intros x y l; cbn; [tauto |]. rewrite IH. tauto.
Qed.

(** The ids of a window, sorted, are cut where the window starts. *)
Lemma wrap_ids_window x l :
  window (x :: l) → ∃ A B, x :: l = A ++ B ∧ StronglySorted Z.lt (B ++ A) ∧
    ∀ y s, B ++ A = y :: s →
      wrap_ids y s 1 (MAX_MSG_ID - last_id y s + y) None =
        if decide (B = []) then None else Some (length B).
Proof.
  intros [Hv Hg]. pose proof (span_nonneg x l Hv) as Hnn.
  set (g := MAX_MSG_ID - span x l) in *.
  assert (span x l < MAX_MSG_ID) as Hs.
  { destruct l as [| y l]; [done |]. destruct Hg as [Hg0 _]. unfold g in *. lia. }
  destruct (window_split x l Hv) as (A & B & -> & HA & HB & HBle & Hlast);
    [by eapply gaps_below_mono; [| exact Hg]; unfold g; lia | done |].
  exists (x :: A), B. split; [done |].
  rewrite app_comm_cons in Hv. apply Forall_app in Hv as [HvA HvB].
  assert (StronglySorted Z.lt (B ++ x :: A)) as Hsorted.
  { apply StronglySorted_app_2; [| done | done]. intros b c Hb Hc.
    rewrite Forall_forall in HBle. specialize (HBle b Hb).
    apply StronglySorted_inv in HA as [_ HA]. rewrite Forall_forall in HA.
    apply elem_of_cons in Hc as [-> | Hc]; [| specialize (HA c Hc)]; lia. }
  split; [done |]. intros y s E. destruct B as [| b B].
  - injection E as <- <-. rewrite app_nil_r in *. rewrite decide_True by done.
    rewrite Hlast. replace (MAX_MSG_ID - _ + x) with g by (unfold g; rewrite app_nil_r; lia).
    apply wrap_ids_below. by apply gaps_below_steps.
  - injection E as <- <-. rewrite decide_False by done.
    apply gaps_below_app in Hg as (HgA & Hgb & HgB).
    rewrite last_id_app in *. cbn [length]. rewrite <- (Nat.add_1_l (length B)).
    pose proof HvB as [Hvb _]%Forall_cons.
    assert (last_id x A ∈ x :: A) as Hin by (apply list_elem_of_lookup; eexists; apply last_id_lookup).
    assert (valid_id (last_id x A)) as HvL by (rewrite Forall_forall in HvA; by apply HvA).
    assert (b < last_id x A) by (eapply StronglySorted_app_1_elem_of; [exact Hsorted | left | done]).
    apply (wrap_ids_found g).
    + destruct (id_gap_cases (last_id x A) b HvL Hvb); unfold valid_id in *; lia.
    + by apply gaps_below_steps.
    + lia.
    + by apply gaps_below_steps.
Qed.

(** ** The order of the messages *)
Lemma by_id_fmap l : by_id l ↔ StronglySorted Z.lt (msgid <$> l).
Proof.
  split.
  - induction 1 as [| m l Hl IH Hm]; [constructor |]. cbn. constructor; [done |].
    by apply Forall_fmap.
  - induction l as [| m l IH]; [constructor |]. cbn. intros [Hl Hm]%StronglySorted_inv.
    constructor; [by apply IH |]. rewrite Forall_fmap in Hm. exact Hm.
Qed.

Lemma NoDup_sorted_ids l : StronglySorted Z.lt l → NoDup l.
Proof.
  induction 1 as [| x l Hl IH Hx]; constructor; [| done]. intros Hin.
  rewrite Forall_forall in Hx. specialize (Hx x Hin). lia.
Qed.

Lemma wrap_window ms p cur :
  window (msgid <$> ms) → p ≡ₚ ms →
  items (MQTTPersistence_wrapMsgID (AList (insert_all msgid p []) cur)) = ms.
Proof.
  intros Hw Hp. destruct ms as [| m ms]; [by apply Permutation_nil_r in Hp as -> |].
  rewrite fmap_cons in Hw. destruct (wrap_ids_window _ _ Hw) as (A & B & E & Hs & Hsearch).
  rewrite <- fmap_cons in E. apply fmap_app_inv in E as (MA & MB & -> & -> & E). rewrite E in *.
  rewrite <- fmap_app in Hs, Hsearch. assert (by_id (MB ++ MA)) as Hsm by by apply by_id_fmap.
  assert (NoDup (msgid <$> [] ++ p)) as Hnd.
  { cbn. rewrite Hp, Permutation_app_comm. by apply NoDup_sorted_ids. }
  destruct (insert_all_sorted msgid p [] ltac:(constructor) Hnd) as [Hsp Hpp].
  assert (insert_all msgid p [] = MB ++ MA) as ->.
  { apply (sorted_by_unique msgid); [done | done |]. rewrite Hpp. cbn. rewrite Hp. apply Permutation_app_comm. }
  unfold MQTTPersistence_wrapMsgID. cbn [items]. destruct (MB ++ MA) as [| n s] eqn:Es.
  { by apply app_nil in Es as [-> ->]. }
  rewrite fmap_cons in Hsearch. specialize (Hsearch _ _ eq_refl). rewrite wrap_loop_ids.
  replace (default 0 (msgid <$> (n :: s) !! (length (n :: s) - 1)%nat))
    with (last_id (msgid n) (msgid <$> s)).
  2: { rewrite <- list_lookup_fmap. cbn [length]. rewrite Nat.sub_succ, Nat.sub_0_r.
       rewrite fmap_cons. pose proof (last_id_lookup (msgid n) (msgid <$> s)) as Hl.
       rewrite length_fmap in Hl. by rewrite Hl. }
  rewrite Hsearch. destruct MB as [| mb MB]; cbn [fmap list_fmap].
  - rewrite decide_True by done. cbn in *. by rewrite app_nil_r.
  - rewrite decide_False by done. cbn [length]. rewrite length_fmap.
    unfold al_rotate. cbn [items]. rewrite <- Es.
    change (S (length MB)) with (length (mb :: MB)).
    by rewrite drop_app_length, take_app_length.
Qed.

Lemma wrap_perm l : items (MQTTPersistence_wrapMsgID l) ≡ₚ items l.
Proof.
  unfold MQTTPersistence_wrapMsgID. destruct (items l) eqn:E; [by rewrite E |].
  rewrite <- E. case_match; [| done]. cbn. by rewrite Permutation_app_comm, take_drop.
Qed.
