(* ===== verification/Restore.v ===== *)
(** * Restoring the messages in flight

    What MQTTPersistence_restorePackets makes of a store: the records a sender
    and a receiver leave in it ([record]), the packets they are read back to,
    and the property that the messages in flight are restored, those sent in
    the order in which they were sent. *)
From stdpp Require Import pretty.
From S2P Require Import Prelude Buffers LinkedList Ordered Properties PacketIn Clients PacketOut Receive Protocol ProtocolLaws Persistence RestoreOrder.
Local Open Scope Z_scope.

(** ** A packet in a record *)
Lemma stored_length_encode k n mult value pos rest :
  0 ≤ n < 128 ^ (Z.of_nat k + 1) → 0 ≤ value → 0 < mult →
  value + n * mult < 2 ^ 31 → mult * 128 ^ Z.of_nat (length (encode_loop k n)) < 2 ^ 31 →
  stored_length (encode_loop k n ++ rest) mult value pos =
    Ok (value + n * mult, (pos + length (encode_loop k n))%nat).
Proof.
  revert n mult value pos.
  induction k as [| k IH]; intros n mult value pos Hn Hv Hm Hb Hl.
  - cbn [encode_loop length app] in *. rewrite Z.mod_small in * by lia.
    destruct (digit_facts n ltac:(lia)) as (_ & _ & _ & H127 & H128).
    cbn [stored_length]. rewrite H127, H128, decide_False by tauto.
    rewrite i32_small by lia. by rewrite Nat.add_1_r.
  - rewrite encode_loop_S in * by lia. case_decide as Hc; cbn [length app stored_length] in *.
    + destruct (digit_facts n ltac:(lia)) as (_ & _ & _ & H127 & H128).
      rewrite H127, H128, decide_False by tauto. rewrite i32_small by lia. by rewrite Nat.add_1_r.
    + pose proof (Z_div_mod_eq_full n 128) as Hdm.
      pose proof (Z.mod_pos_bound n 128 ltac:(lia)) as Hmod.
      destruct (digit_facts (n `mod` 128) Hmod) as (_ & H127 & H128 & _).
      rewrite H127, H128, decide_True by done.
      assert (0 ≤ n / 128 < 128 ^ (Z.of_nat k + 1)) as Hq.
      { split; [apply Z.div_pos; lia |]. apply Z.div_lt_upper_bound; [lia |].
        rewrite <- Z.pow_succ_r by lia.
        replace (Z.succ (Z.of_nat k + 1)) with (Z.of_nat (S k) + 1) by lia. apply Hn. }
      rewrite Nat2Z.inj_succ, Z.pow_succ_r in Hl by lia.
      assert (0 < 128 ^ Z.of_nat (length (encode_loop k (n / 128)))) as Hpow by (apply Z.pow_pos_nonneg; lia).
      rewrite !i32_small by nia. rewrite IH; [| done | nia | nia | nia | nia].
      apply (f_equal Ok). f_equal; [nia | lia].
Qed.

(** The remaining length and the length of the fixed header *)
Lemma stored_length_packet n rest :
  0 ≤ n < 268435456 →
  stored_length (MQTTPacket_encode n ++ rest) 1 0 1 = Ok (n, S (length (MQTTPacket_encode n))).
Proof.
  intros Hn. pose proof (encode_length_VBIlen n Hn) as Hlen.
  assert (MQTTPacket_VBIlen n ≤ 4) by (unfold MQTTPacket_VBIlen; repeat case_decide; lia).
  rewrite encode_small in * by lia. rewrite stored_length_encode; [by rewrite Z.mul_1_r | lia..|].
  assert (128 ^ Z.of_nat (length (encode_loop 9 n)) ≤ 128 ^ 4) by (apply Z.pow_le_mono_r; lia). lia.
Qed.

Section Packet.
Context {T : Type} `{HasHeap T}.

(** A packet as it was sent is parsed again. *)
Lemma restorePacket_packet v h body parse pack (t : T) :
  valid_header h → CONNECT ≤ type h ≤ DISCONNECT → Z.of_nat (length body) < 268435456 →
  new_packets v (byte_of_header h) (length body) (type h) = Some parse →
  res_val (parse (Reader body 0 [])) = Some (Some pack) →
  (∀ a r, parse (Reader body 0 []) = Ok (a, r) → r_heap r = []) → heap_of t = [] →
  MQTTPersistence_restorePacket v (enc_packet h body) t = Ok (Some pack, set_heap [] t).
Proof.
  intros Hh Hty Hlen Hparse Hrun Hheap Ht. unfold enc_packet, fixed_header. cbn [app].
  unfold MQTTPersistence_restorePacket. rewrite stored_length_packet by lia.
  set (hl := S (length (MQTTPacket_encode (Z.of_nat (length body))))) in *.
  assert (MQTTPacket_VBIlen (Z.of_nat (length body)) ≤ 4)
    by (unfold MQTTPacket_VBIlen; repeat case_decide; lia).
  pose proof (encode_length_VBIlen (Z.of_nat (length body)) ltac:(lia)).
  rewrite i32_small by (unfold hl; lia). unfold u64. rewrite Z.mod_small by (unfold hl; lia).
  rewrite decide_True by (unfold hl; rewrite !length_cons, length_app; lia).
  destruct (byte_of_header_roundtrip h Hh) as [_ ->]. rewrite decide_True, Nat2Z.id, Hparse by done.
  unfold hl. cbn [drop]. rewrite drop_app_length. unfold run_parser. rewrite Ht.
  destruct (parse (Reader body 0 [])) as [[a r] |] eqn:E; [| done].
  cbn in Hrun. simplify_eq. by rewrite (Hheap _ _ eq_refl).
Qed.
End Packet.

(** ** Keys *)
Lemma key_of_inj stem id id' : key_of stem id = key_of stem id' → id = id'.
Proof.
  unfold key_of. intros E. apply (inj pretty).
  induction stem as [| c stem IH]; cbn in E; [done |]. injection E as E. by apply IH.
Qed.

(** Every key of a message id fits. *)

Lemma pretty_N_go_length k : ∀ x s, (x < 10 ^ N.of_nat k)%N →
  (String.length (pretty_N_go x s) ≤ k + String.length s)%nat.
Proof.
  induction k as [| k IH]; intros x s Hx.
  - assert (x = 0)%N as -> by (cbn in Hx; lia). by rewrite pretty_N_go_0.
  - destruct (decide (x = 0)%N) as [-> |]; [rewrite pretty_N_go_0; lia |].
    rewrite pretty_N_go_step by lia. etrans; [apply IH | cbn; lia].
    apply N.Div0.div_lt_upper_bound. by rewrite Nat2N.inj_succ, N.pow_succ_r' in Hx.
Qed.

Lemma length_string_app s s' : String.length (s +:+ s') = (String.length s + String.length s')%nat.
Proof. induction s as [| c s IH]; [done |]. exact (f_equal S IH). Qed.

Lemma length_pretty k n : (0 < k)%nat → 0 ≤ n < 10 ^ Z.of_nat k → (String.length (pretty n) ≤ k)%nat.
Proof.
  intros Hk Hn. destruct n as [| p | p]; [cbn; lia | | lia].
  change (String.length (pretty_N_go (N.pos p) "") ≤ k)%nat. rewrite <- (Nat.add_0_r k).
  apply pretty_N_go_length. apply N2Z.inj_lt. rewrite N2Z.inj_pow. cbn. rewrite nat_N_Z. lia.
Qed.

(** Keys of at most [k] digits fit. *)
Lemma print_key_digits k stem n :
  (0 < k)%nat → (String.length stem + k ≤ PERSISTENCE_MAX_KEY_LENGTH)%nat → 0 ≤ n < 10 ^ Z.of_nat k →
  print_key stem n = Some (key_of stem n).
Proof.
  intros Hk Hs Hn. unfold print_key. rewrite decide_True; [done |].
  unfold key_of. rewrite length_string_app. pose proof (length_pretty k n Hk Hn). lia.
Qed.

(** Every key of a message id fits. *)
Lemma print_key_fits stem id :
  (String.length stem ≤ 5)%nat → 0 ≤ id < 65536 → print_key stem id = Some (key_of stem id).
Proof.
  intros Hs Hid. apply (print_key_digits 5); [lia | unfold PERSISTENCE_MAX_KEY_LENGTH; lia |].
  change (10 ^ Z.of_nat 5) with 100000. lia.
Qed.

(** ** A store that does not fail *)
Section Kept.
Context {T : Type} `{TransportLaws T}.

(** What is on its way and what is stored is as before, and allocations do not
    fail if they did not. *)
Definition kept (contents : T → gmap string (list Z)) (t t' : T) : Prop :=
  sent t' = sent t ∧ contents t' = contents t ∧ (heap_of t = [] → heap_of t' = []).
End Kept.

(** The operations of the store as their documentation describes them
    (src/src/MQTTClientPersistence.h) *)
Class StoreLaws (T : Type) `{SessionLaws T, !Store T} := {
  contents : T → gmap string (list Z);
  contents_set_heap h (t : T) : contents (set_heap h t) = contents t;
  heap_set_heap h (t : T) : heap_of (set_heap h t) = h;
  contents_now (t : T) a t' : now t = Ok (a, t') → contents t' = contents t;
  pkeys_law t : ∃ keys t', pkeys t = Ok (0, keys, t') ∧ kept contents t t' ∧
    keys ≡ₚ (map_to_list (contents t)).*1;
  pget_law key t d : contents t !! key = Some d → ∃ t', pget key t = Ok (0, Some d, t') ∧ kept contents t t';
  pcontainskey_law key t : ∃ rc t', pcontainskey key t = Ok (rc, t') ∧ kept contents t t' ∧
    (rc = 0 ↔ is_Some (contents t !! key));
  premove_law key t : ∃ rc t', premove key t = Ok (rc, t') ∧ sent t' = sent t ∧
    contents t' = delete key (contents t) ∧ (heap_of t = [] → heap_of t' = []) ∧
    (is_Some (contents t !! key) → rc = 0);
  pput_law key bufs t : ∃ t', pput key bufs t = Ok (0, t') ∧ sent t' = sent t ∧
    contents t' = <[key := mjoin bufs]> (contents t) ∧ (heap_of t = [] → heap_of t' = []);
}.

(** ** Records *)

(** A PUBLISH in a record *)
Record flight := mkFlight {
  f_id : Z;
  f_qos : Z;
  f_dup : Z;
  f_retain : Z;
  f_topic : list Z;
  f_props : list MQTTProperty;
  f_payload : list Z;
}.

Inductive record :=
  | RecSent (f : flight)
  | RecReceived (f : flight)
  | RecPubrel (id : Z)
  | RecIgnored (key : string) (data : list Z).   (* queued messages and commands *)

#[export] Instance flight_eq_dec : EqDecision flight.
Proof. solve_decision. Defined.
#[export] Instance record_eq_dec : EqDecision record.
Proof. solve_decision. Defined.

(** The publications sent and received among the records *)
Definition sents (rs : list record) : list flight :=
  omap (λ r, match r with RecSent f => Some f | _ => None end) rs.
Definition receiveds (rs : list record) : list flight :=
  omap (λ r, match r with RecReceived f => Some f | _ => None end) rs.

(** A PUBREL without its PUBLISH *)
Definition orphan (rs : list record) (r : record) : bool :=
  match r with
  | RecPubrel id => bool_decide (Forall (λ f, f_id f ≠ id) (sents rs))
  | _ => false
  end.

(** The packet a sent publication waits for *)
Definition next_of (rs : list record) (f : flight) : option Z :=
  if decide (RecPubrel (f_id f) ∈ rs) then Some PUBCOMP
  else if decide (f_qos f = 2) then Some PUBREC else None.

Lemma elem_of_sents rs f : f ∈ sents rs ↔ RecSent f ∈ rs.
Proof.
  unfold sents. rewrite list_elem_of_omap. split; [| intros; by exists (RecSent f)].
  by intros ([] & Hr & [= ->]).
Qed.

Lemma not_orphan rs f : RecSent f ∈ rs → ¬ orphan rs (RecPubrel (f_id f)).
Proof.
  intros Hf. cbn. rewrite bool_decide_spec, Forall_forall. intros Hall.
  by eapply Hall; [apply elem_of_sents |].
Qed.

#[export] Instance sents_perm : Proper (Permutation ==> Permutation) sents.
Proof. intros rs rs' Hp. unfold sents. by rewrite Hp. Qed.
#[export] Instance receiveds_perm : Proper (Permutation ==> Permutation) receiveds.
Proof. intros rs rs' Hp. unfold receiveds. by rewrite Hp. Qed.

Section Records.
(** The version of the client, and what the hook [beforeWrite] makes of the
    bytes of a packet *)
Variable v : Z.
Variable coded : list Z → list Z.

(** The version the key of a record stands for *)
Definition data_version : Z := if decide (MQTTVERSION_5 ≤ v) then MQTTVERSION_5 else MQTTVERSION_3_1_1.

Definition sent_stem : string :=
  if decide (v >= MQTTVERSION_5) then PERSISTENCE_V5_PUBLISH_SENT else PERSISTENCE_PUBLISH_SENT.
Definition received_stem : string :=
  if decide (v >= MQTTVERSION_5) then PERSISTENCE_V5_PUBLISH_RECEIVED else PERSISTENCE_PUBLISH_RECEIVED.
Definition pubrel_stem : string :=
  if decide (v >= MQTTVERSION_5) then PERSISTENCE_V5_PUBREL else PERSISTENCE_PUBREL.

Lemma stems_short :
  (String.length sent_stem ≤ 5)%nat ∧ (String.length received_stem ≤ 5)%nat ∧
  (String.length pubrel_stem ≤ 5)%nat.
Proof.
  unfold sent_stem, received_stem, pubrel_stem.
  destruct (decide (v >= MQTTVERSION_5)); cbn; lia.
Qed.

Definition flight_header (f : flight) : Header := mkHeader PUBLISH (f_dup f) (f_qos f) (f_retain f).
Definition flight_body (f : flight) : list Z :=
  enc_publish (f_topic f) (f_qos f) data_version (f_id f) (f_props f) (f_payload f).

Definition record_key (r : record) : string :=
  match r with
  | RecSent f => key_of sent_stem (f_id f)
  | RecReceived f => key_of received_stem (f_id f)
  | RecPubrel id => key_of pubrel_stem id
  | RecIgnored key _ => key
  end.

Definition record_data (r : record) : list Z :=
  match r with
  | RecSent f | RecReceived f => coded (enc_packet (flight_header f) (flight_body f))
  | RecPubrel id => coded (enc_ack PUBREL id)
  | RecIgnored _ data => data
  end.

Record flight_ok (f : flight) : Prop := {
  f_ok_id : valid_id (f_id f);
  f_ok_qos : f_qos f = 1 ∨ f_qos f = 2;
  f_ok_dup : 0 ≤ f_dup f < 2;
  f_ok_retain : 0 ≤ f_retain f < 2;
  f_ok_topic : Z.of_nat (length (f_topic f)) < 65536;
  f_ok_props : if decide (MQTTVERSION_5 ≤ v) then Forall valid_property (f_props f) ∧ fits (f_props f)
               else f_props f = [];
  f_ok_length : Z.of_nat (length (flight_body f)) < 268435456;
}.

Definition record_ok (r : record) : Prop :=
  match r with
  | RecSent f => flight_ok f
  | RecReceived f => flight_ok f ∧ f_qos f = 2
  | RecPubrel id => valid_id id
  | RecIgnored key _ => fst (kind_of_key key) = KindIgnored
  end.

Definition record_kind_of (r : record) : record_kind :=
  match r with
  | RecSent _ => KindSent
  | RecReceived _ => KindReceived
  | RecPubrel _ => KindPubrel
  | RecIgnored _ _ => KindIgnored
  end.

(** The key tells the kind of the record, and the version. *)
Lemma kind_of_stems id :
  kind_of_key (key_of sent_stem id) = (KindSent, data_version) ∧
  kind_of_key (key_of received_stem id) = (KindReceived, data_version) ∧
  kind_of_key (key_of pubrel_stem id) = (KindPubrel, data_version).
Proof.
  unfold data_version, sent_stem, received_stem, pubrel_stem, key_of, kind_of_key, has_stem.
  destruct (decide (v >= MQTTVERSION_5)), (decide (MQTTVERSION_5 ≤ v)); try lia;
    cbn; by destruct (pretty _).
Qed.

Lemma kind_of_record r : record_ok r →
  fst (kind_of_key (record_key r)) = record_kind_of r ∧
  (record_kind_of r ≠ KindIgnored → snd (kind_of_key (record_key r)) = data_version).
Proof.
  destruct r as [f | f | id | key d]; cbn [record_key record_kind_of];
    [destruct (kind_of_stems (f_id f)) as (-> & _ & _) | destruct (kind_of_stems (f_id f)) as (_ & -> & _)
    | destruct (kind_of_stems id) as (_ & _ & ->) | by intros ->]; done.
Qed.

(** The store holds the records and nothing else. *)
Record describes (K : gmap string (list Z)) (rs : list record) : Prop := {
  desc_ok : Forall record_ok rs;
  desc_keys : NoDup (record_key <$> rs);
  desc_data k d : K !! k = Some d ↔ ∃ r, r ∈ rs ∧ k = record_key r ∧ d = record_data r;
}.

#[export] Instance describes_perm K : Proper (Permutation ==> iff) (describes K).
Proof.
  intros rs rs' Hp. split; intros [H1 H2 H3]; constructor.
  - by rewrite <- Hp.
  - by rewrite <- Hp.
  - intros k d. rewrite H3. by setoid_rewrite Hp.
  - by rewrite Hp.
  - by rewrite Hp.
  - intros k d. rewrite H3. by setoid_rewrite Hp.
Qed.

Lemma describes_list rs :
  Forall record_ok rs → NoDup (record_key <$> rs) →
  describes (list_to_map ((λ r, (record_key r, record_data r)) <$> rs)) rs.
Proof.
  intros Hok Hnd. constructor; [done.. |]. intros k d.
  rewrite <- elem_of_list_to_map by (rewrite <- list_fmap_compose; exact Hnd).
  rewrite list_elem_of_fmap. split; [intros (r & [= -> ->] & Hr) | intros (r & Hr & -> & ->)]; eauto.
Qed.

Lemma describes_lookup K rs r : describes K rs → r ∈ rs → K !! record_key r = Some (record_data r).
Proof. intros [_ _ H3] Hr. apply H3. eauto. Qed.

Lemma describes_delete K r rs : describes K (r :: rs) → describes (delete (record_key r) K) rs.
Proof.
  intros [H1 H2 H3]. apply NoDup_cons in H2 as [Hr H2]. apply Forall_cons in H1 as [_ H1].
  constructor; [done.. |]. intros k d. rewrite lookup_delete_Some, H3. split.
  - intros [Hne (r' & [-> | Hin]%elem_of_cons & -> & ->)]; [done | eauto].
  - intros (r' & Hin & -> & ->). split; [| eauto using list_elem_of_further].
    intros E. apply Hr. rewrite E. by apply list_elem_of_fmap_2.
Qed.

Lemma describes_keys K rs : describes K rs → (map_to_list K).*1 ≡ₚ record_key <$> rs.
Proof.
  intros HK. apply NoDup_Permutation; [apply NoDup_fst_map_to_list | apply HK |].
  intros k. rewrite list_elem_of_fmap. split.
  - intros ([k' d] & -> & Hk). rewrite elem_of_map_to_list in Hk. cbn.
    apply (desc_data _ _ HK) in Hk as (r & Hr & -> & _). by apply list_elem_of_fmap_2.
  - intros (r & -> & Hr)%list_elem_of_fmap. exists (record_key r, record_data r).
    split; [done |]. rewrite elem_of_map_to_list. by apply (describes_lookup _ rs).
Qed.

(** Records of a kind by their ids *)
Lemma sent_key_stored K rs id :
  describes K rs → is_Some (K !! key_of sent_stem id) ↔ ∃ f, RecSent f ∈ rs ∧ f_id f = id.
Proof.
  intros HK. split.
  - intros [d Hd]. apply (desc_data _ _ HK) in Hd as (r & Hr & E & _).
    pose proof (desc_ok _ _ HK) as Hok. rewrite Forall_forall in Hok.
    destruct (kind_of_record r (Hok r Hr)) as [Hkind _]. rewrite <- E in Hkind.
    rewrite (proj1 (kind_of_stems id)) in Hkind. destruct r as [f | | |]; try done. cbn in E. apply key_of_inj in E. eauto.
  - intros (f & Hf & <-). eexists. by apply (describes_lookup K rs (RecSent f)).
Qed.

Lemma pubrel_key_stored K rs id :
  describes K rs → is_Some (K !! key_of pubrel_stem id) ↔ RecPubrel id ∈ rs.
Proof.
  intros HK. split.
  - intros [d Hd]. apply (desc_data _ _ HK) in Hd as (r & Hr & E & _).
    pose proof (desc_ok _ _ HK) as Hok. rewrite Forall_forall in Hok.
    destruct (kind_of_record r (Hok r Hr)) as [Hkind _]. rewrite <- E in Hkind.
    rewrite (proj2 (proj2 (kind_of_stems id))) in Hkind. destruct r as [| | id' |]; try done. cbn in E. by apply key_of_inj in E as ->.
  - intros Hr. eexists. by apply (describes_lookup K rs (RecPubrel id)).
Qed.
End Records.

(** ** Messages *)

(** A message made of a packet of its own, with the publication [pb] *)
Lemma wp_createMessage_copy {T} {HH : HasHeap T} {HB : HasBlocks T} {HT : Transport T} {X}
    (snd_ : T → X) p q rt tp d l i O W bs pl out c s
    (Q : message_ref * message_ref * Publish → pstate T → Prop) :
  frames snd_ (now : M T Z) → keeps_heap (now : M T Z) →
  topic p = Some tp → payload p = Some d → 0 ≤ payloadlen p ≤ Z.of_nat (length d) →
  props_at (pub_MQTTVersion p) (Some (pub_properties p)) l →
  loc snd_ i O W bs pl out c s →
  (∀ o tm len s', let a := fresh (dom bs) in
     let m := {| m_qos := q; m_retain := rt; msgid := pub_msgId p; m_MQTTVersion := pub_MQTTVersion p;
       m_properties := o; m_publish := Some a; lastTouch := Some tm;
       nextMessageType := if decide (q = 2) then Some PUBREC else None; m_len := len |} in
     repr_at (pub_MQTTVersion p) o l →
     loc snd_ i O W (<[a := mkPublications (Some tp) (topiclen p)
       (Some (take (Z.to_nat (payloadlen p)) d)) (payloadlen p) 1 (mask p)]> bs) (pl ++ [a]) out c s' →
     Q (MsgAt m, MsgAt m, set_payload None (set_topic None p)) s') →
  wp (MQTTProtocol_createMessage p MsgNull q rt true) Q s.
Proof.
  intros Hnow Hnowh Ht Hd Hlen Hp HL HQ. unfold MQTTProtocol_createMessage.
  apply wp_bind. eapply wp_malloc; [exact HL |]. cbn [negb]. apply wp_bind, wp_ret. apply wp_bind.
  eapply wp_storePublication; [exact HL | exact Ht |]. intros len s1 a HL1. apply wp_bind.
  apply wp_bind. eapply wp_publication_at; [exact HL1 | by apply lookup_insert_eq |].
  cbn [p_payloadlen p_payload]. apply wp_bind. rewrite Hd.
  eapply wp_copy_bytes; [exact HL1 | done |]. apply wp_bind.
  eapply wp_update_publication; [exact HL1 | by apply lookup_insert_eq |]. intros s2 HL2.
  rewrite insert_insert_eq in HL2. apply wp_ret. rewrite bool_decide_true by by eexists.
  apply wp_bind. unfold finish_message. apply wp_bind. change 5 with MQTTVERSION_5.
  cbn [pub_MQTTVersion pub_properties set_payload set_topic].
  eapply wp_copy_properties; [exact HL2 | exact Hp |]. intros o Ho. apply wp_bind.
  eapply wp_lift_frames; [exact Hnow | exact Hnowh | exact HL2 |]. intros tm s3 HL3.
  do 2 apply wp_ret. eapply HQ; [| exact HL3]. unfold repr_at.
  by destruct (decide (MQTTVERSION_5 ≤ pub_MQTTVersion p)).
Qed.

Section Restored.
Variable v : Z.

(** The publication of a flight; a received one of version 5 was delivered, and
    keeps neither topic nor payload. *)
Definition publication_of (f : flight) : Publications :=
  mkPublications (Some (f_topic f)) (Z.of_nat (length (f_topic f)))
    (Some (f_payload f)) (Z.of_nat (length (f_payload f))) 1 [0; 0; 0; 0].
Definition received_publication (f : flight) : Publications :=
  if decide (v >= MQTTVERSION_5) then
    mkPublications None (Z.of_nat (length (f_topic f))) None (Z.of_nat (length (f_payload f))) 1 [0; 0; 0; 0]
  else publication_of f.

(** The message is that of the flight, in the stage [next]. *)
Record restored (bs : gmap positive Publications) (pb : Publications) (next : option Z) (f : flight)
    (m : Messages) : Prop := {
  res_qos : m_qos m = f_qos f;
  res_retain : m_retain m = f_retain f;
  res_id : msgid m = f_id f;
  res_version : m_MQTTVersion m = v;
  res_props : repr_at v (m_properties m) (f_props f);
  res_touched : is_Some (lastTouch m);
  res_next : nextMessageType m = next;
  res_publish : ∃ a, m_publish m = Some a ∧ bs !! a = Some pb;
}.

Lemma restored_mono bs bs' pb next f m :
  bs ⊆ bs' → restored bs pb next f m → restored bs' pb next f m.
Proof.
  intros Hbs [? ? ? ? ? ? ? (a & Ha & Hb)]. constructor; try done. exists a. split; [done |].
  by eapply lookup_weaken.
Qed.

(** The packet parsed from the record of a flight *)
Definition flight_publish (f : flight) (props : MQTTProperties) : Publish :=
  mkPublish (flight_header f) (Some (f_topic f)) (Z.of_nat (length (f_topic f))) (f_id f)
    (Some (f_payload f)) (Z.of_nat (length (f_payload f))) (data_version v) props [0; 0; 0; 0].

Lemma data_version_5 : MQTTVERSION_5 ≤ data_version v ↔ MQTTVERSION_5 ≤ v.
Proof. unfold data_version. case_decide; unfold MQTTVERSION_5, MQTTVERSION_3_1_1 in *; lia. Qed.

Lemma flight_header_valid f : flight_ok v f → valid_header (flight_header f).
Proof. intros []. unfold valid_header, PUBLISH. cbn. unfold PUBLISH. lia. Qed.

Lemma restorePacket_flight {T} `{HasHeap T} f :
  flight_ok v f → ∃ props, props_at v (Some props) (f_props f) ∧ ∀ t : T, heap_of t = [] →
    MQTTPersistence_restorePacket (data_version v) (enc_packet (flight_header f) (flight_body v f)) t =
      Ok (Some (PacketPublish (flight_publish f props)), set_heap [] t).
Proof.
  intros Hf. pose proof (flight_header_valid f Hf) as Hh. destruct Hf as [Hid Hq _ _ Htop Hp Hlen].
  destruct (parse_publish (data_version v) (byte_of_header (flight_header f)) (f_topic f) (f_qos f) (f_id f)
    (f_props f) (f_payload f)) as (props & Hprops & Hparse).
  { by rewrite (proj2 (byte_of_header_roundtrip _ Hh)). }
  { done. }
  { unfold valid_id, MAX_MSG_ID in Hid. lia. }
  { lia. }
  { exact Hlen. }
  { rewrite data_version_5. intros Hv. by rewrite decide_True in Hp by done. }
  rewrite data_version_5 in Hprops. fold (flight_body v f) in Hparse.
  rewrite (proj2 (byte_of_header_roundtrip _ Hh)), decide_True in Hparse by lia.
  exists props. split.
  - unfold props_at. case_decide; [| done]. exists props. split; [done |]. by apply repr_holds, Hprops.
  - intros t Ht. apply (restorePacket_packet _ _ _
      (r ← MQTTPacket_publish (data_version v) (byte_of_header (flight_header f)) (length (flight_body v f));
       mret (PacketPublish <$> (r : option Publish)))); try done.
    + by rewrite (bind_ok _ _ _ _ _ Hparse).
    + intros a r. rewrite (bind_ok _ _ _ _ _ Hparse). by intros [= _ <-].
Qed.

Lemma restorePacket_pubrel {T} `{HasHeap T} id :
  valid_id id → ∃ a, ack_msgId a = Some id ∧ ∀ t : T, heap_of t = [] →
    MQTTPersistence_restorePacket (data_version v) (enc_ack PUBREL id) t =
      Ok (Some (PacketAck a), set_heap [] t).
Proof.
  intros Hid. set (h := mkHeader PUBREL 0 1 0).
  assert (valid_header h) as Hh by (unfold valid_header; cbn; unfold PUBREL; lia).
  pose proof (parse_ack (data_version v) (byte_of_header h) id) as Hparse.
  rewrite (proj2 (byte_of_header_roundtrip _ Hh)) in Hparse. specialize (Hparse ltac:(done)).
  eexists. split; [shelve |]. intros t Ht. unfold enc_ack. rewrite decide_True by done. fold h.
  apply (restorePacket_packet _ _ _
    (r ← MQTTPacket_ack (data_version v) (byte_of_header h) 2; mret (PacketAck <$> (r : option Ack))));
    try done.
  - by rewrite (bind_ok _ _ _ _ _ Hparse).
  - intros a r. rewrite (bind_ok _ _ _ _ _ Hparse). by intros [= _ <-].
  Unshelve. done.
Qed.
End Restored.

(** ** The restoration *)
Section Restore.
Context {T : Type} {HH : HasHeap T} {HB : HasBlocks T} {HT : Transport T}
  {TL : TransportLaws T} {HS : Session T} {SL : SessionLaws T} {ST : Store T} {STL : StoreLaws T}.
Notation P := (M (pstate T)).
Implicit Types (s : pstate T) (c : Clients).

(** What is seen of the layers below: the bytes on their way and the store *)
Definition view (t : T) : list Z * gmap string (list Z) := (sent t, contents t).
Notation loc := (loc view).

Lemma frames_now : frames view (now : M T Z).
Proof.
  intros t. destruct (now_law t) as (a & t' & Hn & _ & Hs). exists a, t'. split; [done |].
  unfold view. by rewrite Hs, (contents_now _ _ _ Hn).
Qed.

Lemma kept_view (t t' : T) : kept contents t t' → view t' = view t.
Proof. intros (Hs & Hc & _). unfold view. by rewrite Hs, Hc. Qed.

(** An operation of the store that keeps what is stored *)
Lemma wp_lift_kept {A} (m : M T A) a t' i O W bs pl out c s (Q : A → pstate T → Prop) :
  m (below s) = Ok (a, t') → kept contents (below s) t' → loc i O W bs pl out c s →
  (∀ s', loc i O W bs pl out c s' → Q a s') → wp (lift m) Q s.
Proof.
  intros Hm Hk [H1 H2 H3 H4 H5 H6 H7] HQ. apply wp_lift. eapply wp_intro; [exact Hm |].
  apply HQ. constructor; try done; cbn; [by rewrite (kept_view _ _ Hk) | by apply Hk].
Qed.

Lemma wp_pcontainskey key i O W bs pl b K c s (Q : Z → pstate T → Prop) :
  loc i O W bs pl (b, K) c s →
  (∀ rc s', (rc = 0 ↔ is_Some (K !! key)) → loc i O W bs pl (b, K) c s' → Q rc s') →
  wp (lift (pcontainskey key)) Q s.
Proof.
  intros HL HQ. destruct (pcontainskey_law key (below s)) as (rc & t' & Hr & Hk & Hrc).
  eapply wp_lift_kept; [exact Hr | exact Hk | exact HL |]. intros s' HL'. eapply HQ; [| exact HL'].
  pose proof (loc_sent _ _ _ _ _ _ _ _ _ HL) as HK. unfold view in HK. by injection HK as _ <-.
Qed.

Lemma wp_premove key i O W bs pl b K c s (Q : Z → pstate T → Prop) :
  loc i O W bs pl (b, K) c s →
  (∀ rc s', (is_Some (K !! key) → rc = 0) → loc i O W bs pl (b, delete key K) c s' → Q rc s') →
  wp (lift (premove key)) Q s.
Proof.
  intros [H1 H2 H3 H4 H5 H6 H7] HQ. unfold view in H6. injection H6 as Hb HK.
  destruct (premove_law key (below s)) as (rc & t' & Hr & Hs & Hc & Hh & Hrc).
  apply wp_lift. eapply wp_intro; [exact Hr |]. apply HQ; [by rewrite <- HK |].
  constructor; try done; cbn; [| by apply Hh]. unfold view. by rewrite Hs, Hc, Hb, HK.
Qed.

Variable per : persistence T.
Variable v : Z.
Variable coded : list Z → list Z.

(** The hook that reads undoes what the hook that writes did to a packet. *)
Definition reads_back : Prop :=
  ∀ d t, ∃ t', after_read per (coded d) t = Ok (0, d, t') ∧ kept contents t t'.

Hypothesis Hreads : reads_back.

(** *** A record of a PUBLISH received *)
Lemma wp_restore_received f props i O W bs pl out c s (Q : Z → pstate T → Prop) :
  c_MQTTVersion c = v → props_at v (Some props) (f_props f) → loc i O W bs pl out c s →
  bs !! fresh (dom bs) = None →
  (∀ m s', let a := fresh (dom bs) in let bs' := <[a := received_publication v f]> bs in
     restored v bs' (received_publication v f) (Some PUBREL) f m → m_publish m = Some a →
     loc i O W bs' (pl ++ [a]) out (set_inboundMsgs (al_append m (inboundMsgs c)) c) s' → Q 0 s') →
  wp (restore_received i (flight_publish v f props)) Q s.
Proof.
  intros Hv Hp HL Hfresh HQ. unfold restore_received.
  apply wp_bind. eapply wp_client_at; [exact HL |]. rewrite Hv. apply wp_bind.
  eapply (wp_createMessage_copy view); [apply frames_now | apply heap_now | done | done
    | cbn; lia | exact Hp | exact HL |].
  intros o tm len s1 a m Ho HL1. cbn [set_version pub_header pub_msgId pub_MQTTVersion payloadlen
    topiclen mask flight_publish flight_header] in m, Ho, HL1.
  rewrite Nat2Z.id, firstn_all in HL1. fold (publication_of f) in HL1.
  apply wp_bind, wp_ret. apply wp_bind. eapply wp_list_append; [exact HL1 |]. apply wp_bind.
  eapply wp_update_client; [exact HL1 |]. cbn [snd]. intros s2 HL2. apply wp_bind.
  set (m' := set_next_type (Some PUBREL) m) in *.
  assert (∀ s', let bs' := <[a := received_publication v f]> bs in
     loc i O W bs' (pl ++ [a]) out (set_inboundMsgs (al_append m' (inboundMsgs c)) c) s' →
     wp (_ ← MQTTPacket_freePublish (set_payload None (set_topic None (set_version v (flight_publish v f props))));
         mret 0) Q s') as Hend.
  { intros s' bs' HL'. apply wp_bind. eapply wp_free_properties; [exact Hp |]. apply wp_ret.
    eapply HQ; [| | exact HL'].
    - constructor; try done. exists a. split; [done |]. apply lookup_insert_eq.
    - done. }
  unfold received_publication in *. destruct (decide (v >= MQTTVERSION_5)).
  - eapply wp_update_publication; [exact HL2 | by apply lookup_insert_eq |]. intros s3 HL3.
    rewrite insert_insert_eq in HL3. by apply Hend.
  - apply wp_ret. by apply Hend.
Qed.

(** *** A record of a PUBLISH sent *)
Definition next_type (K : gmap string (list Z)) (f : flight) : option Z :=
  if decide (is_Some (K !! key_of (pubrel_stem v) (f_id f))) then Some PUBCOMP
  else if decide (f_qos f = 2) then Some PUBREC else None.

Lemma items_insertInOrder l m i O W bs pl out c s (Q : bool * alist Messages → pstate T → Prop) :
  loc i O W bs pl out c s →
  (∀ b l', items l' = insert_msg m (items l) → Q (b, l') s) →
  wp (lift (MQTTPersistence_insertInOrder l m)) Q s.
Proof.
  intros HL HQ. unfold MQTTPersistence_insertInOrder.
  pose proof (loc_heap _ _ _ _ _ _ _ _ _ HL) as Ht.
  assert (set_below (below s) s = s) as Hs by by destruct s.
  apply wp_lift. unfold insert_by in HQ. rewrite index_above_position.
  destruct (position_above msgid (msgid m) (items l)) as [k |]; apply wp_bind;
    (eapply wp_intro; [by apply malloc_succeeds |]); apply wp_ret; cbn; rewrite Hs; by apply HQ.
Qed.

Lemma wp_restore_sent f props i O W bs pl b K c s (Q : Z * bool → pstate T → Prop) :
  c_MQTTVersion c = v → flight_ok v f → props_at v (Some props) (f_props f) →
  loc i O W bs pl (b, K) c s →
  (∀ m l s', let a := fresh (dom bs) in let bs' := <[a := publication_of f]> bs in
     restored v bs' (publication_of f) (next_type K f) f m → m_publish m = Some a →
     items l = insert_msg m (items (outboundMsgs c)) →
     loc i O W bs' (pl ++ [a]) (b, K) (set_outboundMsgs l c) s' → Q (0, false) s') →
  wp (restore_sent i (flight_publish v f props)) Q s.
Proof.
  intros Hv Hf Hp HL HQ. unfold restore_sent.
  apply wp_bind. eapply wp_malloc; [exact HL |]. cbn [negb]. apply wp_bind.
  eapply wp_client_at; [exact HL |]. rewrite Hv. cbn [set_version pub_MQTTVersion pub_msgId flight_publish].
  fold (pubrel_stem v). rewrite print_key_fits.
  2: { apply stems_short. }
  2: { pose proof (f_ok_id _ _ Hf) as Hid. unfold valid_id, MAX_MSG_ID in Hid. lia. }
  apply wp_bind. eapply (wp_createMessage_copy view); [apply frames_now | apply heap_now | done | done
    | cbn; lia | exact Hp | exact HL |].
  intros o tm len s1 a m Ho HL1. cbn [set_version pub_header pub_msgId pub_MQTTVersion payloadlen
    topiclen mask flight_publish flight_header] in m, Ho, HL1.
  rewrite Nat2Z.id, firstn_all in HL1. fold (publication_of f) in HL1.
  apply wp_bind. eapply wp_pcontainskey; [exact HL1 |]. intros rc s2 Hrc HL2.
  apply wp_bind, wp_ret. apply wp_bind.
  set (m' := clear_touch (if decide (rc = 0) then set_next_type (Some PUBCOMP) m else m)) in *.
  eapply items_insertInOrder; [exact HL2 |]. intros b' l Hl. apply wp_bind.
  eapply wp_update_client; [exact HL2 |]. cbn [snd]. intros s3 HL3. apply wp_bind.
  eapply wp_free_properties; [exact Hp |]. apply wp_ret. eapply HQ; [| | exact Hl | exact HL3].
  - assert (nextMessageType m' = next_type K f) as Hnext.
    { unfold next_type, m'. destruct (decide (rc = 0)) as [E | E].
      - rewrite decide_True by by apply Hrc. done.
      - rewrite decide_False by (intros Hs; by apply E, Hrc). done. }
    constructor; unfold m' in *; try (by destruct (decide (rc = 0))).
    exists a. split; [by destruct (decide (rc = 0)) | apply lookup_insert_eq].
  - unfold m'. by destruct (decide (rc = 0)).
Qed.

(** *** A record of a PUBREL *)
Lemma wp_restore_pubrel key ack id i O W bs pl b K c s (Q : Z * bool → pstate T → Prop) :
  c_MQTTVersion c = v → valid_id id → ack_msgId ack = Some id → is_Some (K !! key) →
  loc i O W bs pl (b, K) c s →
  (∀ s', let K' := if decide (is_Some (K !! key_of (sent_stem v) id)) then K else delete key K in
     loc i O W bs pl (b, K') c s' → Q (0, false) s') →
  wp (restore_pubrel i key ack) Q s.
Proof.
  intros Hv Hid Hack Hkey HL HQ. unfold restore_pubrel.
  apply wp_bind. eapply wp_malloc; [exact HL |]. cbn [negb]. apply wp_bind.
  eapply wp_client_at; [exact HL |]. rewrite Hv, Hack. fold (sent_stem v). rewrite print_key_fits.
  2: { apply stems_short. }
  2: { unfold valid_id, MAX_MSG_ID in Hid. lia. }
  apply wp_bind. eapply wp_pcontainskey; [exact HL |]. intros rc s1 Hrc HL1.
  destruct (decide (rc ≠ 0)) as [Hne | Heq%dec_stable].
  - rewrite decide_False in HQ by (intros Hs; by apply Hne, Hrc).
    apply wp_bind. eapply wp_premove; [exact HL1 |]. intros rc' s2 Hrc' HL2. apply wp_ret.
    rewrite (Hrc' Hkey). by apply HQ.
  - rewrite decide_True in HQ by by apply Hrc. apply wp_ret. by apply HQ.
Qed.

(** *** The turn for a record *)
Lemma wp_restore_key i key kind d pack O W bs pl b K c s (Q : Z * bool → pstate T → Prop) :
  c_MQTTVersion c = v → kind_of_key key = (kind, data_version v) → kind ≠ KindIgnored →
  K !! key = Some (coded d) →
  (∀ t : T, heap_of t = [] →
    MQTTPersistence_restorePacket (data_version v) d t = Ok (Some pack, set_heap [] t)) →
  loc i O W bs pl (b, K) c s →
  (∀ s', loc i O W bs pl (b, K) c s' → wp (restore_record i kind key pack) Q s') →
  wp (restore_key per i key) Q s.
Proof.
  intros Hv Hkind Hne HK Hpack HL HQ. unfold restore_key. rewrite Hkind, decide_False by done.
  assert (∀ s0, loc i O W bs pl (b, K) c s0 → contents (below s0) = K) as Hcont.
  { intros s0 HL0. pose proof (loc_sent _ _ _ _ _ _ _ _ _ HL0) as E. unfold view in E. by injection E. }
  destruct (pget_law key (below s) (coded d)) as (t1 & Hget & Hk1); [by rewrite (Hcont s HL) |].
  apply wp_bind. eapply wp_lift_kept; [exact Hget | exact Hk1 | exact HL |]. intros s1 HL1.
  cbv iota beta. rewrite decide_False by tauto. destruct (Hreads d (below s1)) as (t2 & Hr & Hk2).
  apply wp_bind. eapply wp_lift_kept; [exact Hr | exact Hk2 | exact HL1 |]. intros s2 HL2.
  cbv iota beta. rewrite decide_False by tauto. apply wp_bind. eapply wp_client_at; [exact HL2 |].
  rewrite Hv, decide_False.
  2: { intros [E Hlt]. apply (Zlt_not_le _ _ Hlt), data_version_5. by rewrite E. }
  pose proof (loc_heap _ _ _ _ _ _ _ _ _ HL2) as Ht.
  apply wp_bind. eapply wp_lift_kept; [by apply Hpack | | exact HL2 | exact HQ].
  split_and!; [apply sent_set_heap | apply contents_set_heap | intros _; apply heap_set_heap].
Qed.

(** *** The loop

    The client [c0] has nothing in flight and the store holds the records
    [rs].  After the records [done], with [todo] to come: *)
Variable c0 : Clients.
Variable R : list positive.
Variable rs : list record.

Record progress (todo done : list record) (K : gmap string (list Z)) (bs : gmap positive Publications)
    (pl : list positive) (outs : list Messages) (c : Clients) : Prop := {
  pg_client : c = set_inboundMsgs (inboundMsgs c) (set_outboundMsgs (outboundMsgs c) c0);
  pg_ordered : items (outboundMsgs c) = insert_all msgid outs [];
  pg_sent : Forall2 (λ f, restored v bs (publication_of f) (next_of rs f) f) (sents done) outs;
  pg_received : Forall2 (λ f, restored v bs (received_publication v f) (Some PUBREL) f)
    (receiveds done) (items (inboundMsgs c));
  pg_store : describes v coded K (filter (λ r, ¬ orphan rs r) done ++ todo);
  pg_pubs : v < MQTTVERSION_5 ∨ receiveds rs = [] → pubs_ok (client_refs c ++ R) bs pl;
}.

Lemma publication_of_ok f : flight_ok v f → pub_ok (publication_of f).
Proof.
  intros Hf. constructor; cbn; [done | | eexists; split; [done | lia]].
  eexists. split; [done |]. unfold short. pose proof (f_ok_topic _ _ Hf).
  assert (strlen (f_topic f) ≤ length (f_topic f))%nat by apply strlen_le. lia.
Qed.

Hypothesis Hv : c_MQTTVersion c0 = v.

Lemma progress_version todo done K bs pl outs c : progress todo done K bs pl outs c → c_MQTTVersion c = v.
Proof. intros HP. rewrite (pg_client _ _ _ _ _ _ _ HP). exact Hv. Qed.

Lemma progress_data todo done r K bs pl outs c :
  progress (r :: todo) done K bs pl outs c → record_ok v r ∧ K !! record_key v r = Some (record_data v coded r).
Proof.
  intros HP. pose proof (pg_store _ _ _ _ _ _ _ HP) as HK.
  assert (r ∈ filter (λ r, ¬ orphan rs r) done ++ r :: todo) as Hr by set_solver.
  split; [| by eapply describes_lookup].
  pose proof (desc_ok _ _ _ _ HK) as Hok. rewrite Forall_forall in Hok. by apply Hok.
Qed.

(** A record that stays in the store *)
Lemma progress_stays todo done r K :
  ¬ orphan rs r → describes v coded K (filter (λ r, ¬ orphan rs r) done ++ r :: todo) →
  describes v coded K (filter (λ r, ¬ orphan rs r) (done ++ [r]) ++ todo).
Proof.
  intros Hr HK. rewrite filter_app. rewrite (filter_cons_True _ r []) by done.
  by rewrite filter_nil, <- (assoc_L (++)).
Qed.

Lemma new_reference bs pl pb c c' :
  let a := fresh (dom bs) in
  pubs_ok (client_refs c ++ R) bs pl → pub_ok pb → client_refs c' ≡ₚ a :: client_refs c →
  pubs_ok (client_refs c' ++ R) (<[a := pb]> bs) (pl ++ [a]).
Proof. intros a HP Hpb ->. by apply (pubs_ok_new (client_refs c ++ R)). Qed.

Lemma fresh_block (bs : gmap positive Publications) : bs !! fresh (dom bs) = None.
Proof. apply not_elem_of_dom, is_fresh. Qed.

Lemma restored_more bs pbf next (fs : list flight) ms a pb :
  bs !! a = None → Forall2 (λ f, restored v bs (pbf f) (next f) f) fs ms →
  Forall2 (λ f, restored v (<[a := pb]> bs) (pbf f) (next f) f) fs ms.
Proof.
  intros Ha Hall. eapply Forall2_impl; [exact Hall |]. intros f m. apply restored_mono.
  by apply insert_subseteq.
Qed.

(** What a turn does *)
Definition turn (i : nat) (O : list Clients) (W : alist pending_write) (b : list Z)
    (todo done : list record) (r : Z * bool) (s' : pstate T) : Prop :=
  r = (0, false) ∧ ∃ K bs pl outs c,
    progress todo done K bs pl outs c ∧ loc i O W bs pl (b, K) c s'.

Lemma turn_sent i O W f todo done K bs pl outs c b s :
  done ++ RecSent f :: todo ≡ₚ rs → progress (RecSent f :: todo) done K bs pl outs c →
  loc i O W bs pl (b, K) c s →
  wp (restore_key per i (record_key v (RecSent f))) (turn i O W b todo (done ++ [RecSent f])) s.
Proof.
  intros Hrs HP HL. destruct (progress_data _ _ _ _ _ _ _ _ HP) as [Hf HK]. cbn in Hf.
  pose proof (progress_version _ _ _ _ _ _ _ HP) as Hcv.
  assert (RecSent f ∈ rs) as Hin by (rewrite <- Hrs; set_solver).
  destruct (restorePacket_flight (T := T) v f Hf) as (props & Hp & Hrun).
  eapply (wp_restore_key i _ KindSent); [done | apply kind_of_stems | done | exact HK | exact Hrun
    | exact HL |].
  intros s1 HL1. cbn [restore_record].
  eapply wp_restore_sent; [done | exact Hf | exact Hp | exact HL1 |].
  intros m l s2 a bs' Hm Ha Hl HL2. split; [done |].
  pose proof (not_orphan rs f Hin) as Hno.
  assert (next_type K f = next_of rs f) as Hnext.
  { unfold next_type, next_of. erewrite decide_ext; [done |].
    rewrite pubrel_key_stored by apply HP. rewrite <- Hrs, !elem_of_app, !list_elem_of_filter.
    set_solver. }
  rewrite Hnext in Hm. destruct HP as [P1 P2 P3 P4 P5 P6].
  exists K, bs', (pl ++ [a]), (outs ++ [m]), (set_outboundMsgs l c). split; [| exact HL2]. constructor.
  - by rewrite P1.
  - cbn. by rewrite Hl, P2, insert_all_snoc.
  - unfold sents. rewrite omap_app. apply Forall2_app; [| by constructor].
    apply (restored_more bs publication_of); [apply fresh_block | done].
  - unfold receiveds. rewrite omap_app, app_nil_r. cbn [inboundMsgs set_outboundMsgs].
    apply (restored_more bs (received_publication v) (λ _, Some PUBREL)); [apply fresh_block | done].
  - apply progress_stays; [by intros [] | exact P5].
  - intros Hc. eapply new_reference; [by apply P6 | by apply publication_of_ok |].
    unfold client_refs. cbn [inboundMsgs outboundMsgs set_outboundMsgs].
    rewrite Hl, insert_by_perm, <- Permutation_middle. cbn. by rewrite Ha.
Qed.

Lemma turn_received i O W f todo done K bs pl outs c b s :
  done ++ RecReceived f :: todo ≡ₚ rs → progress (RecReceived f :: todo) done K bs pl outs c →
  loc i O W bs pl (b, K) c s →
  wp (restore_key per i (record_key v (RecReceived f))) (turn i O W b todo (done ++ [RecReceived f])) s.
Proof.
  intros Hrs HP HL. destruct (progress_data _ _ _ _ _ _ _ _ HP) as [[Hf _] HK].
  pose proof (progress_version _ _ _ _ _ _ _ HP) as Hcv.
  destruct (restorePacket_flight (T := T) v f Hf) as (props & Hp & Hrun).
  eapply (wp_restore_key i _ KindReceived); [done | apply kind_of_stems | done | exact HK | exact Hrun
    | exact HL |].
  intros s1 HL1. cbn [restore_record]. apply wp_bind.
  eapply wp_restore_received; [done | exact Hp | exact HL1 | apply fresh_block |].
  intros m s2 a bs' Hm Ha HL2. apply wp_ret. split; [done |]. destruct HP as [P1 P2 P3 P4 P5 P6].
  exists K, bs', (pl ++ [a]), outs, (set_inboundMsgs (al_append m (inboundMsgs c)) c).
  split; [| exact HL2]. constructor.
  - by rewrite P1.
  - done.
  - unfold sents. rewrite omap_app, app_nil_r.
    apply (restored_more bs publication_of); [apply fresh_block | done].
  - unfold receiveds. rewrite omap_app. cbn [inboundMsgs set_inboundMsgs al_append items].
    apply Forall2_app; [| by constructor].
    apply (restored_more bs (received_publication v) (λ _, Some PUBREL)); [apply fresh_block | done].
  - apply progress_stays; [by intros [] | exact P5].
  - intros Hc. eapply new_reference; [by apply P6 | |].
    + destruct Hc as [Hlt | Hnone].
      * unfold received_publication. rewrite decide_False by lia. by apply publication_of_ok.
      * exfalso. apply (not_elem_of_nil f). rewrite <- Hnone. unfold receiveds.
        apply list_elem_of_omap. exists (RecReceived f). split; [| done]. rewrite <- Hrs. set_solver.
    + unfold client_refs. cbn [inboundMsgs outboundMsgs set_inboundMsgs al_append items].
      rewrite !omap_app. cbn. rewrite Ha. solve_Permutation.
Qed.

Lemma turn_pubrel i O W id todo done K bs pl outs c b s :
  done ++ RecPubrel id :: todo ≡ₚ rs → progress (RecPubrel id :: todo) done K bs pl outs c →
  loc i O W bs pl (b, K) c s →
  wp (restore_key per i (record_key v (RecPubrel id))) (turn i O W b todo (done ++ [RecPubrel id])) s.
Proof.
  intros Hrs HP HL. destruct (progress_data _ _ _ _ _ _ _ _ HP) as [Hid HK]. cbn in Hid.
  pose proof (progress_version _ _ _ _ _ _ _ HP) as Hcv.
  destruct (restorePacket_pubrel (T := T) v id Hid) as (ack & Hack & Hrun).
  eapply (wp_restore_key i _ KindPubrel); [done | apply kind_of_stems | done | exact HK | exact Hrun
    | exact HL |].
  intros s1 HL1. cbn [restore_record].
  eapply wp_restore_pubrel; [done | exact Hid | exact Hack | by eexists | exact HL1 |].
  intros s2 K' HL2. split; [done |]. destruct HP as [P1 P2 P3 P4 P5 P6].
  exists K', bs, pl, outs, c. split; [| exact HL2].
  assert (sents (done ++ [RecPubrel id]) = sents done ∧ receiveds (done ++ [RecPubrel id]) = receiveds done)
    as [Hs Hr] by (unfold sents, receiveds; by rewrite !omap_app, !app_nil_r).
  constructor; [done | done | by rewrite Hs | by rewrite Hr | | done]. subst K'.
  assert (is_Some (K !! key_of (sent_stem v) id) ↔ ¬ orphan rs (RecPubrel id)) as Horphan.
  { rewrite sent_key_stored by exact P5. split.
    - intros (f & Hf & <-). apply (not_orphan rs f). rewrite <- Hrs.
      rewrite elem_of_app, list_elem_of_filter in Hf. set_solver.
    - intros Hn. destruct (decide (Exists (λ f, f_id f = id) (sents rs))) as [Hex | Hno].
      + apply Exists_exists in Hex as (f & Hf & Hfid). apply elem_of_sents in Hf. exists f. split; [| done].
        rewrite <- Hrs, elem_of_app in Hf. rewrite elem_of_app, list_elem_of_filter.
        destruct Hf as [Hf | Hf]; [| by right]. left. split; [by intros [] | done].
      + exfalso. apply Hn. cbn [orphan]. apply bool_decide_pack. by apply Forall_Exists_neg in Hno. }
  destruct (decide (is_Some (K !! key_of (sent_stem v) id))) as [Hsome | Hnone].
  - apply progress_stays; [by apply Horphan | exact P5].
  - rewrite filter_app. rewrite (filter_cons_False _ (RecPubrel id) []).
    2: { intros Hn. by apply Hnone, Horphan. }
    rewrite filter_nil, app_nil_r. apply (describes_delete v coded K (RecPubrel id)).
    by rewrite Permutation_middle.
Qed.

Lemma turn_ignored i O W key d todo done K bs pl outs c b s :
  progress (RecIgnored key d :: todo) done K bs pl outs c → loc i O W bs pl (b, K) c s →
  wp (restore_key per i (record_key v (RecIgnored key d))) (turn i O W b todo (done ++ [RecIgnored key d])) s.
Proof.
  intros HP HL. destruct (progress_data _ _ _ _ _ _ _ _ HP) as [Hkind _]. cbn in Hkind |- *.
  unfold restore_key. destruct (kind_of_key key) as [kind dv]. cbn in Hkind. subst kind.
  rewrite decide_True by done. apply wp_ret. split; [done |]. destruct HP as [P1 P2 P3 P4 P5 P6].
  exists K, bs, pl, outs, c. split; [| exact HL]. constructor; try done.
  - unfold sents. by rewrite omap_app, app_nil_r.
  - unfold receiveds. by rewrite omap_app, app_nil_r.
  - apply progress_stays; [by intros [] | exact P5].
Qed.

Lemma wp_restore_keys i O W b todo : ∀ done K bs pl outs c s,
  done ++ todo ≡ₚ rs → progress todo done K bs pl outs c → loc i O W bs pl (b, K) c s →
  wp (restore_keys per i (record_key v <$> todo)) (turn i O W b [] (done ++ todo)) s.
Proof.
  induction todo as [| r todo IH]; intros done K bs pl outs c s Hrs HP HL.
  { apply wp_ret. split; [done |]. rewrite app_nil_r. by do 5 eexists. }
  rewrite fmap_cons. cbn [restore_keys]. apply wp_bind.
  eapply (wp_mono _ (turn i O W b todo (done ++ [r]))).
  - destruct r as [f | f | id | key d];
      [eapply turn_sent | eapply turn_received | eapply turn_pubrel | eapply turn_ignored]; done.
  - intros ret s1 (-> & K1 & bs1 & pl1 & outs1 & c1 & HP1 & HL1). cbv iota beta.
    rewrite decide_True by done. rewrite cons_middle, (assoc_L (++)) in Hrs |- *.
    eapply IH; [exact Hrs | exact HP1 | exact HL1].
Qed.
End Restore.
