(* ===== verification/Disk.v ===== *)
(** * A store in memory

    The network in memory of [Wire] with a table of records, which satisfies
    the laws of the layers below ([SessionLaws]) and of a store
    ([StoreLaws]); the packet code reaches it through the functions of
    src/src/MQTTPersistence.c.  The instances of the properties are on it. *)
From S2P Require Import Prelude Buffers LinkedList Properties PacketIn Clients PacketOut Receive Wire Protocol ProtocolLaws Exchange Persistence Restore.
Local Open Scope Z_scope.

Record disk := mkDisk { dk_wire : wire; dk_files : gmap string (list Z) }.

(** An operation on the network *)
Definition on_wire {A} (m : M wire A) : M disk A := λ d,
  match m (dk_wire d) with
  | Ok (a, w) => Ok (a, mkDisk w (dk_files d))
  | Err f => Err f
  end.

#[export] Instance disk_heap : HasHeap disk := {
  heap_of d := heap_of (dk_wire d);
  set_heap h d := mkDisk (set_heap h (dk_wire d)) (dk_files d);
}.
#[export] Instance disk_blocks : HasBlocks disk := {
  live_of d := live_of (dk_wire d);
  set_live l d := mkDisk (set_live l (dk_wire d)) (dk_files d);
}.
#[export] Instance disk_store : Store disk := {
  popen _ _ := mret 0;
  pclose := mret 0;
  pput key bufs d := Ok (0, mkDisk (dk_wire d) (<[key := mjoin bufs]> (dk_files d)));
  pget key d :=
    match dk_files d !! key with
    | Some data => Ok (0, Some data, d)
    | None => Ok (MQTTCLIENT_PERSISTENCE_ERROR, None, d)
    end;
  premove key d :=
    Ok (if decide (is_Some (dk_files d !! key)) then 0 else MQTTCLIENT_PERSISTENCE_ERROR,
        mkDisk (dk_wire d) (delete key (dk_files d)));
  pkeys d := Ok (0, (map_to_list (dk_files d)).*1, d);
  pclear d := Ok (0, mkDisk (dk_wire d) ∅);
  pcontainskey key d :=
    Ok (if decide (is_Some (dk_files d !! key)) then 0 else MQTTCLIENT_PERSISTENCE_ERROR, d);
}.

(** The client has the store and no hooks. *)
Definition plain : persistence disk := mkPersistence true None None.

#[export] Instance disk_transport : Transport disk := {
  putdatas sock hdr bufs msk := on_wire (putdatas sock hdr bufs msk);
  noPendingWrites sock := on_wire (noPendingWrites sock);
  now := on_wire now;
  putPacket _ hdr bufs ty id scr v :=
    (* the callers pass 0 or 1 *)
    if decide (scr = 0 ∨ scr = 1) then put_packet plain hdr bufs ty id scr v else mret 0;
}.

#[export] Instance disk_session : Session disk := {
  persistence_remove _ key q id := MQTTPersistence_remove plain key q id;
  persistence_clear _ := MQTTPersistence_clear plain;
  persist_queue_entry _ _ := mret tt;
  updateWrite _ _ _ := mret tt;
  close_socket _ := mret tt;
  connection_lost _ _ := mret tt;
}.

(** ** The laws *)
Definition on_disk (d d' : disk) : Prop :=
  wi_out (dk_wire d') = wi_out (dk_wire d) ∧ wi_live (dk_wire d') = wi_live (dk_wire d) ∧
  (wi_heap (dk_wire d) = [] → wi_heap (dk_wire d') = []).

Lemma on_disk_refl d : on_disk d d.
Proof. done. Qed.

Lemma on_disk_trans d1 d2 d3 : on_disk d1 d2 → on_disk d2 d3 → on_disk d1 d3.
Proof. intros (H1 & H2 & H3) (H4 & H5 & H6). split_and!; [congruence | congruence | auto]. Qed.

(** The operation returns and leaves the network alone. *)
Definition stores {A} (m : M disk A) : Prop := ∀ d, ∃ a d', m d = Ok (a, d') ∧ on_disk d d'.

Lemma stores_ret {A} (a : A) : stores (mret a).
Proof. intros d. by exists a, d. Qed.

Lemma stores_bind {A B} (m : M disk A) (k : A → M disk B) :
  stores m → (∀ a, stores (k a)) → stores (m ≫= k).
Proof.
  intros Hm Hk d. destruct (Hm d) as (a & d1 & H1 & Hd1). destruct (Hk a d1) as (b & d2 & H2 & Hd2).
  exists b, d2. rewrite (bind_ok _ _ _ _ _ H1). split; [done | by eapply on_disk_trans].
Qed.

Lemma stores_malloc : stores malloc.
Proof.
  intros d. unfold malloc. cbn. destruct (wi_heap (dk_wire d)) as [| b h] eqn:E.
  - exists true, d. done.
  - do 2 eexists. split; [done |]. split_and!; [done | done |]. by rewrite E.
Qed.

Lemma stores_pput key bufs : stores (pput key bufs).
Proof. intros d. do 2 eexists. split; [done |]. done. Qed.

Lemma stores_premove key : stores (premove key).
Proof. intros d. do 2 eexists. split; [done |]. done. Qed.

Lemma stores_remove_stems stems id : ∀ rc, stores (remove_stems stems id rc).
Proof.
  induction stems as [| stem stems IH]; intros rc; [apply stores_ret |]. cbn [remove_stems].
  destruct (print_key stem id); [| apply stores_ret].
  apply stores_bind; [apply stores_premove | intros; apply IH].
Qed.

Lemma stores_remove key q id : stores (MQTTPersistence_remove plain key q id).
Proof.
  unfold MQTTPersistence_remove. cbn [has_store plain negb]. apply stores_bind; [apply stores_malloc |].
  intros [|]; [| apply stores_ret]. cbn [negb]. case_decide; apply stores_remove_stems.
Qed.

Lemma stores_put hdr bufs ty id scr v :
  scr = 0 ∨ scr = 1 → stores (put_packet plain hdr bufs ty id scr v).
Proof.
  intros Hscr. unfold put_packet. cbn [has_store plain negb].
  do 3 (apply stores_bind; [apply stores_malloc |]; intros [|]; [| apply stores_ret]; cbn [negb]).
  assert (∃ stem, packet_stem ty scr v = Some stem) as [stem ->].
  { unfold packet_stem. destruct Hscr as [-> | ->]; eauto. }
  destruct (print_key stem id); [| apply stores_ret].
  apply stores_bind; [apply stores_ret |]. intros [rc bufs'].
  case_decide; [apply stores_pput | apply stores_ret].
Qed.

#[export] Instance disk_transport_laws : TransportLaws disk.
Proof.
  refine {| sent d := wi_out (dk_wire d) |}; try done.
  - intros sock hdr bufs msk d. do 3 eexists. split; [reflexivity | done].
  - intros d. do 2 eexists. split; [reflexivity | done].
  - intros sock hdr bufs ty id scr v d. cbn. case_decide as Hscr.
    + destruct (stores_put hdr bufs ty id scr v Hscr d) as (rc & d' & Hr & Ho & Hl & _).
      exists rc, d'. done.
    + by exists 0, d.
Defined.

Lemma stores_quiet {A} (m : M disk A) : stores m → quiet m.
Proof. intros Hm d. destruct (Hm d) as (a & d' & Hr & Ho & _). exists a, d'. split; [exact Hr | exact Ho]. Qed.

Lemma stores_keeps {A} (m : M disk A) : stores m → keeps_heap m.
Proof. intros Hm d a d' Hr. destruct (Hm d) as (? & ? & Hr' & _ & _ & Hh).
  rewrite Hr in Hr'. injection Hr' as <- <-. exact Hh.
Qed.

Lemma stores_clear : stores (MQTTPersistence_clear plain).
Proof. intros d. do 2 eexists. split; [done |]. done. Qed.

Lemma keeps_on_wire {A} (m : M wire A) : keeps_heap m → keeps_heap (on_wire m).
Proof.
  intros Hm d a d' Hr Hd. unfold on_wire in Hr. destruct (m (dk_wire d)) as [[? w] |] eqn:E; [| done].
  simplify_eq. by eapply Hm.
Qed.

#[export] Instance disk_session_laws : SessionLaws disk.
Proof.
  constructor.
  - intros sock d. do 2 eexists. split; [reflexivity | done].
  - intros id key q n. apply stores_quiet, stores_remove.
  - intros id. apply stores_quiet, stores_clear.
  - intros. apply stores_quiet, stores_ret.
  - intros. apply stores_quiet, stores_ret.
  - intros. apply stores_quiet, stores_ret.
  - intros. apply stores_quiet, stores_ret.
  - intros sock. apply keeps_on_wire, heap_noPendingWrites.
  - intros id key q n. apply stores_keeps, stores_remove.
  - intros id. apply stores_keeps, stores_clear.
  - intros. apply stores_keeps, stores_ret.
  - intros. apply stores_keeps, stores_ret.
  - intros. apply stores_keeps, stores_ret.
  - intros. apply stores_keeps, stores_ret.
  - intros. apply keeps_on_wire, heap_putdatas.
  - apply keeps_on_wire, heap_now.
  - intros sock hdr bufs ty id scr v. cbn. case_decide; [by apply stores_keeps, stores_put | apply keeps_ret].
  - done.
Defined.

#[export] Instance disk_store_laws : StoreLaws disk.
Proof.
  refine {| contents := dk_files |}; try done.
  - by intros d a d' [= _ <-].
  - intros d. exists (map_to_list (dk_files d)).*1, d. done.
  - intros key d data Hk. exists d. cbn. by rewrite Hk.
  - intros key d. do 2 eexists. split; [reflexivity |]. split; [done |].
    cbn. by destruct (decide (is_Some (dk_files d !! key))).
  - intros key d. do 2 eexists. split; [reflexivity |]. split_and!; [done | done | done |].
    intros Hs. cbn. by destruct (decide (is_Some (dk_files d !! key))).
  - intros key bufs d. eexists. split; [reflexivity |]. done.
Defined.

(** Without hooks the records are what the packet code wrote. *)
Definition no_code (d : list Z) : list Z := d.

Lemma plain_reads_back : reads_back plain no_code.
Proof. intros d t. by exists t. Qed.
