(* ===== verification/Records.v ===== *)
(** * The records the packet code writes

    What MQTTPacket_send_publish and MQTTPacket_send_pubrel put into the store
    through MQTTPersistence_putPacket, and what MQTTPersistence_remove takes
    out again, when the layers below the packet code keep the store with the
    functions of src/src/MQTTPersistence.c ([stored_below]). *)
From S2P Require Import Prelude Buffers LinkedList Properties PacketIn Clients PacketOut Receive Protocol ProtocolLaws Persistence RestoreOrder Restore.
Local Open Scope Z_scope.

Section Records.
Context {T : Type} {HH : HasHeap T} {HB : HasBlocks T} {HT : Transport T}
  {TL : TransportLaws T} {HS : Session T} {SL : SessionLaws T} {ST : Store T} {STL : StoreLaws T}.

(** The hook that writes codes a record; what it codes is its choice. *)
Definition writes_coded (per : persistence T) (coded : list Z → list Z) : Prop :=
  ∀ bufs t, ∃ bufs' t', before_write per bufs t = Ok (0, bufs', t') ∧
    mjoin bufs' = coded (mjoin bufs) ∧ kept contents t t'.

(** The interface of the packet code is implemented by the functions of
    MQTTPersistence.c with the hooks of [per]; nothing else touches the
    records. *)
Record stored_below (per : persistence T) (coded : list Z → list Z) : Prop := {
  below_putPacket sock hdr bufs ty id scr v (t : T) : scr = 0 ∨ scr = 1 →
    putPacket sock hdr bufs ty id scr v t = put_packet per hdr bufs ty id scr v t;
  below_remove cid key q id (t : T) :
    persistence_remove cid key q id t = MQTTPersistence_remove per key q id t;
  below_putdatas sock hdr bufs msk (t : T) a t' :
    putdatas sock hdr bufs msk t = Ok (a, t') → contents t' = contents t;
  below_pending sock (t : T) a t' :
    noPendingWrites sock t = Ok (a, t') → contents t' = contents t;
  below_set_live l (t : T) : contents (set_live l t) = contents t;
  below_store : has_store per = true;
  below_writes : writes_coded per coded;
  below_reads : reads_back per coded;
}.

(** ** Operations that leave the records alone *)
Definition inert {A} (m : M T A) : Prop :=
  ∀ t a t', m t = Ok (a, t') → heap_of t = [] → heap_of t' = [] ∧ contents t' = contents t.

Lemma inert_ret {A} (a : A) : inert (mret a).
Proof. by intros t ? ? [= _ <-]. Qed.

Lemma inert_fail {A} f : inert (fail f : M T A).
Proof. done. Qed.

Lemma inert_bind {A B} (m : M T A) (k : A → M T B) :
  inert m → (∀ a, inert (k a)) → inert (m ≫= k).
Proof.
  intros Hm Hk t b t' Hr Ht. apply bind_inv in Hr as (a & t1 & H1 & H2).
  destruct (Hm _ _ _ H1 Ht) as [Ht1 <-]. by eapply Hk.
Qed.

Lemma inert_state {A} (m : M T A) : (∀ t a t', m t = Ok (a, t') → t' = t) → inert m.
Proof. intros Hm t a t' Hr. by apply Hm in Hr as ->. Qed.

Lemma inert_keeps {A} (m : M T A) :
  keeps_heap m → (∀ t a t', m t = Ok (a, t') → contents t' = contents t) → inert m.
Proof. intros Hk Hm t a t' Hr Ht. split; [by eapply Hk | by eapply Hm]. Qed.

Lemma inert_malloc : inert malloc.
Proof. intros t a t' Hr Ht. rewrite malloc_succeeds in Hr by done. by injection Hr as _ <-. Qed.

Lemma inert_now : inert now.
Proof. apply inert_keeps; [apply heap_now | apply contents_now]. Qed.

Lemma inert_touch_sent rc net : inert (touch_sent rc net : M T networkHandles).
Proof.
  unfold touch_sent. case_decide; [| apply inert_ret].
  apply inert_bind; [apply inert_now | intros; apply inert_ret].
Qed.

Lemma wlp_inert {A} (m : M T A) (Q : A → T → Prop) t :
  inert m → heap_of t = [] →
  (∀ a t', heap_of t' = [] → contents t' = contents t → Q a t') → wlp m Q t.
Proof. intros Hm Ht HQ a t' Hr. destruct (Hm _ _ _ Hr Ht). by apply HQ. Qed.

Section Below.
Context (per : persistence T) (coded : list Z → list Z) (HP : stored_below per coded).

Lemma inert_set_live l : inert (modify (set_live l) : M T unit).
Proof.
  intros t a t' [= <- <-] Ht. by rewrite heap_set_live, (below_set_live _ _ HP).
Qed.

Lemma inert_free_block p : inert (free_block p : M T unit).
Proof.
  intros t a t' Hr Ht. unfold free_block in Hr. destruct p as [b |]; [| by injection Hr as _ <-].
  case_decide; [| done]. injection Hr as _ <-. by rewrite heap_set_live, (below_set_live _ _ HP).
Qed.

Lemma inert_free_unless rc p : inert (free_unless_interrupted rc p : M T unit).
Proof. unfold free_unless_interrupted. case_decide; [apply inert_free_block | apply inert_ret]. Qed.

Lemma inert_putdatas sock hdr bufs msk : inert (putdatas sock hdr bufs msk : M T _).
Proof. apply inert_keeps; [apply heap_putdatas | apply (below_putdatas _ _ HP)]. Qed.

Lemma wlp_new_block (Q : ptr → T → Prop) t :
  heap_of t = [] → (∀ a t', heap_of t' = [] → contents t' = contents t → Q (Some a) t') →
  wlp new_block Q t.
Proof.
  intros Ht HQ p t' Hr. pose proof (new_block_some _ _ _ Ht Hr) as [[a ->] Ht'].
  apply HQ; [done |]. unfold new_block in Hr.
  rewrite (bind_ok _ _ _ _ _ (malloc_succeeds t Ht)) in Hr. revert Hr. mrun.
  intros [= _ <-]. apply (below_set_live _ _ HP).
Qed.

(** ** A record is put *)
Lemma wlp_putPacket sock hdr bufs ty id scr v stem (Q : Z → T → Prop) t :
  scr = 0 ∨ scr = 1 → packet_stem ty scr v = Some stem → (String.length stem ≤ 5)%nat →
  0 ≤ id < 65536 → heap_of t = [] →
  (∀ t', heap_of t' = [] →
     contents t' = <[key_of stem id := coded (mjoin (hdr :: bufs))]> (contents t) → Q 0 t') →
  wlp (putPacket sock hdr bufs ty id scr v) Q t.
Proof.
  intros Hscr Hstem Hlen Hid Ht HQ rc t' Hr. rewrite (below_putPacket _ _ HP) in Hr by done.
  unfold put_packet in Hr. rewrite (below_store _ _ HP) in Hr. cbn [negb] in Hr.
  do 3 (rewrite (bind_ok _ _ _ _ _ (malloc_succeeds t Ht)) in Hr; cbn [negb] in Hr).
  rewrite Hstem, print_key_fits in Hr by done.
  destruct (below_writes _ _ HP (hdr :: bufs) t) as (bufs' & t1 & Hb & Hj & Hs1 & Hc1 & Hh1).
  rewrite (bind_ok _ _ _ _ _ Hb) in Hr. rewrite decide_True in Hr by done.
  destruct (pput_law (key_of stem id) bufs' t1) as (t2 & Hput & _ & Hc2 & Hh2).
  rewrite Hput in Hr. injection Hr as <- <-. apply HQ; [by auto |].
  by rewrite Hc2, Hc1, Hj.
Qed.

(** ** The records of a sent message are removed *)
Definition forget (id : Z) (K : gmap string (list Z)) : gmap string (list Z) :=
  delete (key_of PERSISTENCE_PUBREL id) (delete (key_of PERSISTENCE_PUBLISH_SENT id)
    (delete (key_of PERSISTENCE_V5_PUBREL id) (delete (key_of PERSISTENCE_V5_PUBLISH_SENT id) K))).

Lemma wlp_premove key (Q : Z → T → Prop) t :
  heap_of t = [] →
  (∀ rc t', heap_of t' = [] → contents t' = delete key (contents t) → Q rc t') →
  wlp (premove key) Q t.
Proof.
  intros Ht HQ rc t' Hr. destruct (premove_law key t) as (rc' & t1 & Hr' & _ & Hc & Hh & _).
  rewrite Hr in Hr'. injection Hr' as <- <-. auto.
Qed.

Lemma wlp_malloc (Q : bool → T → Prop) t : heap_of t = [] → Q true t → wlp malloc Q t.
Proof. intros Ht HQ ok t'. rewrite malloc_succeeds by done. by intros [= <- <-]. Qed.

Lemma wlp_remove_stems stems id : ∀ rc (Q : Z → T → Prop) t,
  Forall (λ stem, (String.length stem ≤ 5)%nat) stems → 0 ≤ id < 65536 → heap_of t = [] →
  (∀ rc t', heap_of t' = [] →
     contents t' = foldl (λ K stem, delete (key_of stem id) K) (contents t) stems → Q rc t') →
  wlp (remove_stems stems id rc) Q t.
Proof.
  induction stems as [| stem stems IH]; intros rc Q t Hlen Hid Ht HQ; cbn [remove_stems].
  { apply wlp_ret. by apply HQ. }
  apply Forall_cons in Hlen as [Hs Hlen]. rewrite print_key_fits by done.
  apply wlp_bind, wlp_premove; [done |]. intros rc1 t1 Ht1 Hc1.
  apply IH; [done.. |]. intros rc2 t2 Ht2 Hc2. apply HQ; [done |]. by rewrite Hc2, Hc1.
Qed.

Lemma wlp_remove cid v q id (Q : Z → T → Prop) t :
  0 ≤ id < 65536 → heap_of t = [] →
  (∀ rc t', heap_of t' = [] → contents t' = forget id (contents t) → Q rc t') →
  wlp (persistence_remove cid (sent_key v) q id) Q t.
Proof.
  intros Hid Ht HQ rc t' Hr. rewrite (below_remove _ _ HP) in Hr. revert rc t' Hr.
  unfold MQTTPersistence_remove. rewrite (below_store _ _ HP). cbn [negb].
  apply wlp_bind, wlp_malloc; [done |]. cbn [negb].
  rewrite decide_True by (unfold sent_key; case_decide; auto).
  apply wlp_remove_stems; [by repeat constructor; apply Nat.leb_le | done | done |].
  intros rc t' Ht' Hc'. by apply HQ.
Qed.

(** ** The senders *)
Lemma wlp_send_pubrel v id net (Q : Z * networkHandles → T → Prop) t :
  0 ≤ id < 65536 → heap_of t = [] →
  (∀ r t', heap_of t' = [] →
     contents t' = <[key_of (pubrel_stem v) id := coded (enc_ack PUBREL id)]> (contents t) → Q r t') →
  wlp (MQTTPacket_send_pubrel v id 0 net) Q t.
Proof.
  intros Hid Ht HQ. unfold MQTTPacket_send_pubrel, MQTTPacket_send_ack, send_block, alloc_block.
  rewrite !(decide_True (P := PUBREL = PUBREL)) by done. rewrite (decide_True (P := 0 ≤ 2)) by lia.
  rewrite header_of_small by (unfold PUBREL; lia).
  apply wlp_bind, wlp_new_block; [done |]. intros a t1 Ht1 Hc1.
  apply wlp_bind. intros data t2 Hfill.
  rewrite (fill_writes 2 _ (len_prefix id) t1 (writes_writeInt id Hid) eq_refl) in Hfill.
  injection Hfill as <- <-. apply wlp_bind. unfold MQTTPacket_send.
  apply wlp_bind, wlp_new_block; [done |]. intros a2 t2 Ht2 Hc2.
  rewrite decide_True by done. apply wlp_bind, wlp_bind. intros id' t3 Hm.
  assert (msgid_of (len_prefix id) t2 = Ok (id, t2)) as Hm'.
  { unfold msgid_of. assert (readInt (Reader (len_prefix id) 0 []) = Ok (id, Reader (len_prefix id) 2 [])) as ->
      by (apply (parses_len_prefix id _ 0%nat 2%nat []); cbn; done || lia). done. }
  rewrite Hm' in Hm. injection Hm as <- <-. apply wlp_bind.
  eapply (wlp_putPacket _ _ _ PUBREL id 0 v (pubrel_stem v)); [by left | | apply stems_short | done | done |].
  { unfold packet_stem, pubrel_stem. rewrite decide_True by done. rewrite decide_False by done.
    by rewrite decide_True. }
  intros t3 Ht3 Hc3. apply wlp_ret. apply wlp_bind, wlp_inert; [apply inert_putdatas | done |].
  intros r t4 Ht4 Hc4. apply wlp_bind, wlp_inert; [apply inert_touch_sent | done |].
  intros n t5 Ht5 Hc5. apply wlp_bind, wlp_inert; [apply inert_free_unless | done |].
  intros _ t6 Ht6 Hc6. apply wlp_ret. apply wlp_bind, wlp_inert; [apply inert_free_unless | done |].
  intros _ t7 Ht7 Hc7. apply wlp_ret. apply HQ; [done |].
  rewrite Hc7, Hc6, Hc5, Hc4, Hc3, Hc2, Hc1. done.
Qed.

Lemma wlp_sends net header (bufs : list Buffer) b msk v id stem (Q : Z * list Z * networkHandles → T → Prop) t :
  type header = PUBLISH → qos header ≠ 0 → bufs !! 2%nat = Some b →
  take 2 (b_data b) = len_prefix id → 0 ≤ id < 65536 →
  packet_stem PUBLISH 0 v = Some stem → (String.length stem ≤ 5)%nat → heap_of t = [] →
  (∀ r t', heap_of t' = [] →
     contents t' = <[key_of stem id := coded (enc_packet header (mjoin (b_data <$> bufs)))]> (contents t) →
     Q r t') →
  wlp (MQTTPacket_sends net header bufs msk v) Q t.
Proof.
  intros Hty Hq Hb Hpre Hid Hstem Hlen Ht HQ. unfold MQTTPacket_sends.
  apply wlp_bind, wlp_new_block; [done |]. intros a t1 Ht1 Hc1.
  rewrite decide_True, Hb by done. apply wlp_bind, wlp_bind. intros id' t2 Hm.
  assert (msgid_of (b_data b) t1 = Ok (id, t1)) as Hm'.
  { unfold msgid_of.
    assert (drop 0 (b_data b) = len_prefix id ++ drop 2 (b_data b)) as Hd
      by (rewrite <- Hpre; by rewrite take_drop).
    assert (readInt (Reader (b_data b) 0 []) = Ok (id, Reader (b_data b) 2 [])) as ->; [| done].
    apply (parses_len_prefix id _ 0%nat (length (b_data b)) _ Hd). cbn.
    assert (length (take 2 (b_data b)) = 2%nat) as Hl by (rewrite Hpre; done).
    rewrite length_take in Hl. lia. }
  rewrite Hm' in Hm. injection Hm as <- <-. apply wlp_bind. rewrite Hty.
  eapply (wlp_putPacket _ _ _ PUBLISH id 0 v stem); [by left | done | done | done | done |].
  intros t2 Ht2 Hc2. apply wlp_ret. apply wlp_bind, wlp_inert; [apply inert_putdatas | done |].
  intros [rc msk'] t3 Ht3 Hc3. apply wlp_bind, wlp_inert; [apply inert_touch_sent | done |].
  intros n t4 Ht4 Hc4. apply wlp_bind, wlp_inert; [apply inert_free_unless | done |].
  intros _ t5 Ht5 Hc5. apply wlp_ret. apply HQ; [done |].
  rewrite Hc5, Hc4, Hc3, Hc2, Hc1. done.
Qed.

Lemma wlp_deref p blk (Q : list Z → T → Prop) t : p = Some blk → Q blk t → wlp (deref p) Q t.
Proof. by intros -> HQ a t' [= <- <-]. Qed.

Lemma wlp_send_publish p tp pl q l rt net (Q : Z * list Z * networkHandles → T → Prop) t :
  publishable p tp pl q l → 0 < q → heap_of t = [] →
  (∀ r t', heap_of t' = [] →
     contents t' = <[key_of (sent_stem (pub_MQTTVersion p)) (pub_msgId p) :=
       coded (enc_packet (header_of PUBLISH 0 q rt)
         (enc_publish tp q (pub_MQTTVersion p) (pub_msgId p) l pl))]> (contents t) → Q r t') →
  wlp (MQTTPacket_send_publish p 0 q rt net) Q t.
Proof.
  intros Hp Hq Ht HQ. destruct (pub_topic _ _ _ _ _ Hp) as (blk & Htopic & <-).
  destruct (pub_payload _ _ _ _ _ Hp) as (pblk & Hpay & Hplen & ->).
  pose proof (pub_topic_short _ _ _ _ _ Hp) as Hshort. pose proof (pub_qos _ _ _ _ _ Hp) as Hqr.
  destruct (writes_publish_header _ _ _ _ _ Hp) as [Hw Hlen].
  unfold MQTTPacket_send_publish.
  apply wlp_bind, wlp_new_block; [done |]. intros a t1 Ht1 Hc1.
  apply wlp_bind. eapply wlp_deref; [exact Htopic |]. rewrite i32_small by lia.
  set (hd := (if decide (0 < q) then len_prefix (pub_msgId p) else []) ++
    enc_props_if (pub_MQTTVersion p) l) in *.
  rewrite decide_True by auto. unfold alloc_block. rewrite Hlen, (decide_True (P := 0 ≤ Z.of_nat _)) by lia.
  apply wlp_bind, wlp_bind, wlp_new_block; [done |]. intros b t2 Ht2 Hc2.
  apply wlp_bind. intros hd' t3 Hf. rewrite (fill_writes _ _ _ t2 Hw eq_refl) in Hf. injection Hf as <- <-.
  apply wlp_bind. intros tl t3 Hf.
  rewrite (fill_writes 2 _ (len_prefix (Z.of_nat (length (cstr blk)))) t2) in Hf;
    [| apply writes_writeInt; lia | done].
  injection Hf as <- <-. apply wlp_bind. intros pl t3 Hs. rewrite Hpay, slice_run in Hs by done.
  injection Hs as <- <-. apply wlp_bind.
  eapply (wlp_sends _ _ _ (mkBuffer (Some b) hd true) _ _ (pub_msgId p)
    (sent_stem (pub_MQTTVersion p))); [done | | done | | apply Hp | | apply stems_short | done |].
  { cbn. intros E. rewrite Z.land_ones with (n := 2) in E by lia. rewrite Z.mod_small in E by lia. lia. }
  { cbn [b_data]. unfold hd. rewrite decide_True by done. done. }
  { unfold packet_stem. by rewrite !decide_True by done. }
  intros [[rc msk] n] t3 Ht3 Hc3. apply wlp_bind, wlp_inert; [apply inert_free_unless | done |].
  intros _ t4 Ht4 Hc4. apply wlp_ret. apply wlp_bind, wlp_inert; [apply inert_free_unless | done |].
  intros _ t5 Ht5 Hc5. apply wlp_ret. apply HQ; [done |].
  rewrite Hc5, Hc4, Hc3, Hc2, Hc1. cbn [fmap list_fmap b_data mjoin list_join].
  rewrite app_nil_r. unfold enc_publish, len_string, hd. by rewrite <- !(assoc_L (++)).
Qed.
End Below.
End Records.
