(* ===== verification/SocketBuffer.v ===== *)
(** * Buffers of interrupted reads and writes (src/src/SocketBuffer.c)

    A read that would block leaves what it has read in a queue of its socket;
    the default queue takes the bytes of the packet that is being read until
    then.  A write that is not accepted at once leaves its buffers in a pending
    write.

    A queue is owned by the static [def_queue] or by the list [queues] and moves
    from one to the other, so queues are values; a pointer to one is its place
    ([queue_place]).  The bytes of a block are [None] until they are written.
    The state of these lists and of [mod_s.write_pending] of Socket.c is
    [sockets], a part of the state of the program ([HasSockets]). *)
From S2P Require Import Prelude Buffers LinkedList Properties PacketIn Clients PacketOut Receive Protocol.
Local Open Scope Z_scope.

Record socket_queue := mkQueue {
  q_socket : Z;
  q_index : nat;
  q_headerlen : nat;
  fixed_header : list (option Z);
  q_buflen : nat;
  q_datalen : nat;
  q_buf : option (list (option Z));
}.

(** The static pointer: null, to a queue whose fields are not set, or to a queue *)
Inductive queue_ptr := QNull | QRaw | QReady (q : socket_queue).

(** [struct iovec] with the flag of [frees]: the block, its bytes, the length to
    be written, and whether it is freed when it is written *)
Record iobuf := mkIobuf { iov_block : ptr; iov_bytes : list Z; iov_len : nat; iov_free : bool }.

(** [pending_writes]; [count] is the length of [w_iovecs]. *)
Record socket_write := mkWrite {
  w_socket : Z;
  w_total : nat;
  w_bytes : nat;
  w_iovecs : list iobuf;
}.

Record sockets := mkSockets {
  def_queue : queue_ptr;
  queues : alist socket_queue;
  writes : alist socket_write;
  write_pending : alist Z;
}.

Class HasSockets (T : Type) := {
  sockets_of : T → sockets;
  set_sockets : sockets → T → T;
}.

Definition SOCKETBUFFER_COMPLETE : Z := 0.
Definition SOCKETBUFFER_INTERRUPTED : Z := -22.

Section SocketBuffer.
Context {T : Type} `{HasHeap T, HasBlocks T, HasSockets T}.

(** ** Access to the static variables *)
Definition set_def_queue (q : queue_ptr) : M T unit :=
  modify (λ t, let s := sockets_of t in set_sockets (mkSockets q (queues s) (writes s) (write_pending s)) t).
Definition set_queues (l : alist socket_queue) : M T unit :=
  modify (λ t, let s := sockets_of t in set_sockets (mkSockets (def_queue s) l (writes s) (write_pending s)) t).
Definition set_writes (l : alist socket_write) : M T unit :=
  modify (λ t, let s := sockets_of t in set_sockets (mkSockets (def_queue s) (queues s) l (write_pending s)) t).
Definition set_write_pending (l : alist Z) : M T unit :=
  modify (λ t, let s := sockets_of t in set_sockets (mkSockets (def_queue s) (queues s) (writes s) l) t).

(** [*def_queue] *)
Definition default_queue : M T socket_queue := λ t,
  match def_queue (sockets_of t) with
  | QReady q => Ok (q, t)
  | QRaw => Err Uninitialised
  | QNull => Err NullDeref
  end.

Definition socketcompare (sock : Z) (q : socket_queue) : bool := bool_decide (q_socket q = sock).
Definition pending_socketcompare (sock : Z) (w : socket_write) : bool := bool_decide (w_socket w = sock).

(** [ListFindItem] on a list of the module: the index of the element *)
Definition find_queue (sock : Z) : M T (option nat) :=
  l ← gets (λ t, queues (sockets_of t));
  let '(k, l) := al_find (socketcompare sock) l in
  _ ← set_queues l; mret k.
Definition find_write (sock : Z) : M T (option nat) :=
  l ← gets (λ t, writes (sockets_of t));
  let '(k, l) := al_find (pending_socketcompare sock) l in
  _ ← set_writes l; mret k.

(** Where a queue is *)
Inductive queue_place := InDefault | InQueues (k : nat).

Definition queue_at (p : queue_place) : M T socket_queue :=
  match p with
  | InDefault => default_queue
  | InQueues k => λ t,
    match items (queues (sockets_of t)) !! k with Some q => Ok (q, t) | None => Err NullDeref end
  end.
Definition put_queue (p : queue_place) (q : socket_queue) : M T unit :=
  match p with
  | InDefault => set_def_queue (QReady q)
  | InQueues k => l ← gets (λ t, queues (sockets_of t)); set_queues (al_alter (λ _, q) k l)
  end.

(** [ListFindItem(queues, &socket, socketcompare) ? queues->current : def_queue] *)
Definition queue_for (sock : Z) : M T queue_place :=
  k ← find_queue sock;
  mret (match k : option nat with Some k => InQueues k | None => InDefault end).

(** ** The default queue *)
Definition new_queue : socket_queue :=
  mkQueue 0 0 0 (replicate 5 None) 0 0 (Some (replicate 1000 None)).

Definition SocketBuffer_newDefQ : M T Z :=
  ok ← malloc;
  if negb ok then _ ← set_def_queue QNull; mret PAHO_MEMORY_ERROR else
  ok ← malloc;
  if negb ok then _ ← set_def_queue QRaw; mret PAHO_MEMORY_ERROR else
  _ ← set_def_queue (QReady new_queue);
  mret 0.

(** [free(def_queue->buf); free(def_queue)] *)
Definition SocketBuffer_freeDefQ : M T unit :=
  _ ← default_queue;
  set_def_queue QNull.

(** The fields of a queue that is not in use *)
Definition reset_queue (q : socket_queue) : socket_queue :=
  mkQueue 0 0 0 (fixed_header q) (q_buflen q) 0 (q_buf q).

(** ** Reading *)
Definition set_buffer (buflen : nat) (buf : option (list (option Z))) (q : socket_queue) : socket_queue :=
  mkQueue (q_socket q) (q_index q) (q_headerlen q) (fixed_header q) buflen (q_datalen q) buf.

(** The block at [queue->buf] *)
Definition block_of (q : socket_queue) : M T (list (option Z)) :=
  match q_buf q with Some blk => mret blk | None => fail NullDeref end.

(** [realloc] of a block to [n] bytes, when it succeeds *)
Definition resize (n : nat) (blk : list (option Z)) : list (option Z) :=
  take n blk ++ replicate (n - length blk) None.

(** The place of the queue, whose [buf] is the result, and [*actual_len] *)
Definition SocketBuffer_getQueuedData (sock : Z) (bytes : nat) : M T (queue_place * nat) :=
  p ← queue_for sock;
  q ← queue_at p;
  let actual_len := match p with InQueues _ => q_datalen q | InDefault => 0%nat end in
  if decide (q_buflen q < bytes)%nat then
    if decide (0 < q_datalen q)%nat then
      ok ← malloc;
      if ok : bool then
        blk ← block_of q;
        if decide (q_datalen q ≤ length blk ∧ q_datalen q ≤ bytes)%nat then
          _ ← put_queue p (set_buffer bytes
                (Some (take (q_datalen q) blk ++ replicate (bytes - q_datalen q) None)) q);
          mret (p, actual_len)
        else fail OutOfBounds
      else _ ← put_queue p (set_buffer (q_buflen q) None q); mret (p, actual_len)
    else
      ok ← malloc;
      _ ← put_queue p (set_buffer bytes
            (if ok : bool then Some (resize bytes (default [] (q_buf q))) else None) q);
      mret (p, actual_len)
  else mret (p, actual_len).

Definition set_index (k : nat) (q : socket_queue) : socket_queue :=
  mkQueue (q_socket q) k (q_headerlen q) (fixed_header q) (q_buflen q) (q_datalen q) (q_buf q).

(** The completion code and the character *)
Definition SocketBuffer_getQueuedChar (sock : Z) : M T (Z * Z) :=
  k ← find_queue sock;
  match k : option nat with
  | Some k =>
    q ← queue_at (InQueues k);
    if decide (q_index q < q_headerlen q)%nat then
      match fixed_header q !! q_index q with
      | Some (Some c) =>
        _ ← put_queue (InQueues k) (set_index (S (q_index q)) q);
        mret (SOCKETBUFFER_COMPLETE, c)
      | Some None => fail Uninitialised
      | None => fail OutOfBounds
      end
    else if decide (4 < q_index q)%nat then mret (SOCKET_ERROR, 0)
    else mret (SOCKETBUFFER_INTERRUPTED, 0)
  | None => mret (SOCKETBUFFER_INTERRUPTED, 0)
  end.

Definition SocketBuffer_interrupted (sock : Z) (actual_len : nat) : M T unit :=
  k ← find_queue sock;
  let set q := mkQueue (q_socket q) 0 (q_headerlen q) (fixed_header q) (q_buflen q) actual_len (q_buf q) in
  match k : option nat with
  | Some k => q ← queue_at (InQueues k); put_queue (InQueues k) (set q)
  | None =>
    q ← default_queue;
    let q := mkQueue sock (q_index q) (q_headerlen q) (fixed_header q) (q_buflen q) (q_datalen q) (q_buf q) in
    l ← gets (λ t, queues (sockets_of t));
    r ← list_append l (set q);
    _ ← set_queues (snd (r : bool * alist socket_queue));
    _ ← SocketBuffer_newDefQ;
    mret tt
  end.

Definition SocketBuffer_complete (sock : Z) : M T unit :=
  k ← find_queue sock;
  _ ← (match k : option nat with
       | Some k =>
         q ← queue_at (InQueues k);
         _ ← SocketBuffer_freeDefQ;
         _ ← set_def_queue (QReady q);
         l ← gets (λ t, queues (sockets_of t));
         set_queues (al_delete k l)
       | None => mret tt
       end);
  q ← default_queue;
  set_def_queue (QReady (reset_queue q)).

Definition SocketBuffer_queueChar (sock c : Z) : M T unit :=
  p ← queue_for sock;
  error ← (match p with
           | InQueues _ => mret false
           | InDefault =>
             d ← default_queue;
             if decide (q_socket d = 0) then
               _ ← set_def_queue (QReady (mkQueue sock 0 (q_headerlen d) (fixed_header d) (q_buflen d) 0 (q_buf d)));
               mret false
             else mret (bool_decide (q_socket d ≠ sock))
           end);
  q ← queue_at p;
  let error := (error : bool) || bool_decide (4 < q_index q)%nat in
  if error then mret tt else
  if decide (q_index q < length (fixed_header q))%nat then
    put_queue p (mkQueue (q_socket q) (S (q_index q)) (S (q_index q))
      (<[q_index q := Some c]> (fixed_header q)) (q_buflen q) (q_datalen q) (q_buf q))
  else fail OutOfBounds.

(** ** Writing *)
Definition SocketBuffer_pendingWrite (sock : Z) (iovecs : list iobuf) (total bytes : nat) : M T Z :=
  ok ← malloc;
  if negb ok then mret PAHO_MEMORY_ERROR else
  l ← gets (λ t, writes (sockets_of t));
  r ← list_append l (mkWrite sock total bytes iovecs);
  _ ← set_writes (snd (r : bool * alist socket_write));
  mret 0.

(** The place of the pending write in [writes] *)
Definition SocketBuffer_getWrite (sock : Z) : M T (option nat) := find_write sock.

Definition SocketBuffer_writeComplete (sock : Z) : M T bool :=
  l ← gets (λ t, writes (sockets_of t));
  let '(w, l) := al_unlink (pending_socketcompare sock) l in
  _ ← set_writes l;
  mret (bool_decide (is_Some w)).

Definition write_at (k : nat) : M T socket_write := λ t,
  match items (writes (sockets_of t)) !! k with Some w => Ok (w, t) | None => Err NullDeref end.
Definition put_write (k : nat) (w : socket_write) : M T unit :=
  l ← gets (λ t, writes (sockets_of t)); set_writes (al_alter (λ _, w) k l).

Definition set_base (bytes : list Z) (b : iobuf) : iobuf := mkIobuf (iov_block b) bytes (iov_len b) (iov_free b).

(** [iovecs[2]] and [iovecs[3]] of a PUBLISH are its topic and its payload. *)
Definition SocketBuffer_updateWrite (sock : Z) (topic payload : list Z) : M T (option nat) :=
  k ← find_write sock;
  _ ← (match k : option nat with
       | Some k =>
         w ← write_at k;
         if decide (length (w_iovecs w) = 4%nat) then
           put_write k (mkWrite (w_socket w) (w_total w) (w_bytes w)
             (alter (set_base payload) 3%nat (alter (set_base topic) 2%nat (w_iovecs w))))
         else mret tt
       | None => mret tt
       end);
  mret k.

(** ** The end of a socket *)
Definition SocketBuffer_cleanup (sock : Z) : M T unit :=
  _ ← SocketBuffer_writeComplete sock;
  k ← find_queue sock;
  _ ← (match k : option nat with
       | Some k => l ← gets (λ t, queues (sockets_of t)); set_queues (al_delete k l)
       | None => mret tt
       end);
  q ← default_queue;
  if decide (q_socket q = sock) then set_def_queue (QReady (reset_queue q)) else mret tt.
End SocketBuffer.
