(* ===== verification/Socket.v ===== *)
(** * Reading and writing on sockets (src/src/Socket.c)

    The functions through which the packet code reads and writes when the
    connection has neither TLS nor WebSocket frames.  Sockets do not block: the
    system takes and gives what it can, and [SocketBuffer] keeps the rest.

    The system calls are the class [Kernel]; the state of the program is
    [stack], with the two halves of the interfaces of the packet code
    ([Transport], and [Receiver] for a given socket) implemented by the
    functions of this file. *)
From S2P Require Import Prelude Buffers LinkedList Properties PacketIn Clients PacketOut Receive Protocol SocketBuffer.
Local Open Scope Z_scope.

(** ** The system *)

(** [recv] returns a number of bytes (0 when the peer has closed) or -1 with an
    error code, and [writev] the number of bytes it took or the same. *)
Inductive recv_result := Received (d : list Z) | RecvError (err : Z).
Inductive write_result := Written (n : nat) | WriteError (err : Z).

Class Kernel (K : Type) := {
  would_block : Z → bool;                 (* [err == EAGAIN || err == EWOULDBLOCK] *)
  recv : Z → nat → K → recv_result * K;
  writev : Z → list Z → K → write_result * K;
  pollout : Z → K → bool;                 (* [fd->revents & POLLOUT] *)
  clock : K → Z * K;
  store_packet : Z → list Z → list (list Z) → Z → Z → Z → Z → K → Z * K;  (* the store *)
}.

Record stack (K : Type) := mkStack {
  st_heap : list bool;
  st_live : gset positive;
  st_sockets : sockets;
  st_kernel : K;
}.
Arguments mkStack {_} _ _ _ _.
Arguments st_heap {_} _.
Arguments st_live {_} _.
Arguments st_sockets {_} _.
Arguments st_kernel {_} _.

#[export] Instance stack_heap K : HasHeap (stack K) := {
  heap_of := st_heap;
  set_heap h t := mkStack h (st_live t) (st_sockets t) (st_kernel t);
}.
#[export] Instance stack_blocks K : HasBlocks (stack K) := {
  live_of := st_live;
  set_live l t := mkStack (st_heap t) l (st_sockets t) (st_kernel t);
}.
#[export] Instance stack_sockets K : HasSockets (stack K) := {
  sockets_of := st_sockets;
  set_sockets s t := mkStack (st_heap t) (st_live t) s (st_kernel t);
}.

Section Socket.
Context {K : Type} {HK : Kernel K}.
Notation N := (M (stack K)).

Definition system {A} (f : K → A * K) : N A := λ t,
  let '(a, k) := f (st_kernel t) in
  Ok (a, mkStack (st_heap t) (st_live t) (st_sockets t) k).

(** ** Reading *)

(** The completion code and the character *)
Definition Socket_getch (sock : Z) : N (Z * Z) :=
  r ← SocketBuffer_getQueuedChar sock;
  let '(rc, c) := r : Z * Z in
  if decide (rc ≠ SOCKETBUFFER_INTERRUPTED) then mret (rc, c) else
  r ← system (recv sock 1);
  match r : recv_result with
  | RecvError err =>
    if would_block err then
      _ ← SocketBuffer_interrupted sock 0; mret (TCPSOCKET_INTERRUPTED, 0)
    else mret (SOCKET_ERROR, 0)
  | Received [] => mret (SOCKET_ERROR, 0)
  | Received [c] => _ ← SocketBuffer_queueChar sock c; mret (TCPSOCKET_COMPLETE, c)
  | Received d => mret (Z.of_nat (length d), 0)
  end.

(** [recv] into the block of a queue, from [offset] on *)
Definition write_buffer (p : queue_place) (offset : nat) (d : list Z) : N unit :=
  q ← queue_at p;
  blk ← block_of q;
  if decide (offset + length d ≤ length blk)%nat then
    put_queue p (set_buffer (q_buflen q)
      (Some (take offset blk ++ (Some <$> d) ++ drop (offset + length d) blk)) q)
  else fail OutOfBounds.

(** The first [n] bytes at the pointer that is the result *)
Fixpoint initialised (l : list (option Z)) : option (list Z) :=
  match l with
  | [] => Some []
  | Some c :: l' => cons c <$> initialised l'
  | None :: _ => None
  end.

Definition read_buffer (p : queue_place) (n : nat) : N (list Z) :=
  q ← queue_at p;
  blk ← block_of q;
  if decide (n ≤ length blk)%nat then
    match initialised (take n blk) with Some d => mret d | None => fail Uninitialised end
  else fail OutOfBounds.

(** The pointer that is returned, as the bytes read so far, [*actual_len] and
    [*rc]; the last two are arguments too, for they stay as they are when no
    byte is asked for. *)
Definition Socket_getdata (sock : Z) (bytes actual_len : nat) (rc : Z) : N (option (list Z) * nat * Z) :=
  if decide (bytes = 0%nat) then
    _ ← SocketBuffer_complete sock;
    q ← default_queue;
    mret ((λ _, []) <$> q_buf q, actual_len, rc)
  else
    r ← SocketBuffer_getQueuedData sock bytes;
    let '(p, actual_len) := r : queue_place * nat in
    q ← queue_at p;
    _ ← block_of q;
    r ← system (recv sock (bytes - actual_len));
    let finish actual_len rc :=
      buf ← read_buffer p actual_len;
      _ ← (if decide (actual_len = bytes) then SocketBuffer_complete sock
           else SocketBuffer_interrupted sock actual_len);
      mret (Some buf, actual_len, rc) in
    match r : recv_result with
    | RecvError err => if would_block err then finish actual_len err else mret (None, actual_len, err)
    | Received [] => mret (None, actual_len, 0)
    | Received d =>
      _ ← write_buffer p actual_len d;
      finish (actual_len + length d)%nat (Z.of_nat (length d))
    end.

(** ** Writing *)
Definition intcompare (a b : Z) : bool := bool_decide (b = a).

Definition Socket_noPendingWrites (sock : Z) : N bool :=
  l ← gets (λ t, write_pending (sockets_of t));
  let '(k, l) := al_find (intcompare sock) l in
  _ ← set_write_pending l;
  mret (bool_decide (k = None)).

(** The bytes a buffer stands for *)
Definition iov_data (b : iobuf) : list Z := take (iov_len b) (iov_bytes b).
Definition iov_ok (b : iobuf) : Prop := (iov_len b ≤ length (iov_bytes b))%nat.
#[export] Instance iov_ok_dec b : Decision (iov_ok b).
Proof. unfold iov_ok. apply _. Defined.

(** The completion code and [*bytes] *)
Definition Socket_writev (sock : Z) (iovecs : list iobuf) : N (Z * nat) :=
  if decide (Forall iov_ok iovecs) then
    r ← system (writev sock (mjoin (iov_data <$> iovecs)));
    match r : write_result with
    | WriteError err => mret (if would_block err then TCPSOCKET_INTERRUPTED else SOCKET_ERROR, 0%nat)
    | Written n => mret (Z.of_nat n, n)
    end
  else fail OutOfBounds.

Definition iobuf_of (frees : bool) (b : Buffer) : iobuf :=
  mkIobuf (b_block b) (b_data b) (length (b_data b)) frees.

Definition Socket_putdatas (sock : Z) (buf0 : Buffer) (bufs : list Buffer) : N Z :=
  idle ← Socket_noPendingWrites sock;
  if negb idle then mret SOCKET_ERROR else
  (* [iobuf iovecs[5]] *)
  if decide (4 < length bufs)%nat then fail OutOfBounds else
  let iovecs := iobuf_of true buf0 :: ((λ b, iobuf_of (b_free b) b) <$> bufs) in
  let total := sum_list (iov_len <$> iovecs) in
  r ← Socket_writev sock iovecs;
  let '(rc, bytes) := r : Z * nat in
  if decide (rc = SOCKET_ERROR) then mret rc else
  if decide (bytes = total) then mret TCPSOCKET_COMPLETE else
  ok ← malloc;
  if negb ok then mret PAHO_MEMORY_ERROR else
  _ ← SocketBuffer_pendingWrite sock iovecs total bytes;
  l ← gets (λ t, write_pending (sockets_of t));
  r ← list_append l sock;
  let '(ok, l) := r : bool * alist Z in
  _ ← set_write_pending l;
  if ok then mret TCPSOCKET_INTERRUPTED else mret PAHO_MEMORY_ERROR.

(** The loop of Socket_continueWrite: what was not written, [bytes] bytes having
    been written, of the buffers that start after [curbuflen] bytes *)
Fixpoint remaining_iovecs (bytes curbuflen : nat) (iovecs : list iobuf) : list iobuf :=
  match iovecs with
  | [] => []
  | b :: iovecs' =>
    let rest := remaining_iovecs bytes (curbuflen + iov_len b) iovecs' in
    if decide (bytes ≤ curbuflen)%nat then b :: rest
    else if decide (bytes < curbuflen + iov_len b)%nat then
      let offset := (bytes - curbuflen)%nat in
      mkIobuf (iov_block b) (drop offset (iov_bytes b)) (iov_len b - offset) (iov_free b) :: rest
    else rest
  end.

(** The buffers that are to be freed are, and their pointers set to null. *)
Fixpoint free_iovecs (iovecs : list iobuf) : N (list iobuf) :=
  match iovecs with
  | [] => mret []
  | b :: iovecs' =>
    b ← (if iov_free b then
           _ ← free_block (iov_block b); mret (mkIobuf None [] (iov_len b) true)
         else mret b);
    iovecs' ← free_iovecs iovecs';
    mret (b :: iovecs')
  end.

Definition Socket_continueWrite (sock : Z) : N Z :=
  k ← SocketBuffer_getWrite sock;
  match k : option nat with
  | None => fail NullDeref
  | Some k =>
    w ← write_at k;
    r ← Socket_writev sock (remaining_iovecs (w_bytes w) 0 (w_iovecs w));
    let '(rc, bytes) := r : Z * nat in
    if decide (rc ≠ SOCKET_ERROR) then
      let bytes := (w_bytes w + bytes)%nat in
      if decide (bytes = w_total w) then
        iovecs ← free_iovecs (w_iovecs w);
        _ ← put_write k (mkWrite (w_socket w) (w_total w) bytes iovecs);
        mret 1
      else
        _ ← put_write k (mkWrite (w_socket w) (w_total w) bytes (w_iovecs w));
        mret 0
    else
      iovecs ← free_iovecs (w_iovecs w);
      _ ← put_write k (mkWrite (w_socket w) (w_total w) (w_bytes w) iovecs);
      mret rc
  end.

Definition Socket_abortWrite (sock : Z) : N Z :=
  k ← SocketBuffer_getWrite sock;
  match k : option nat with
  | None => mret 0
  | Some k => w ← write_at k; _ ← free_iovecs (w_iovecs w); mret 0
  end.

(** The callbacks of the API layers, a parameter; a null pointer is [mret tt].
    MQTTClient.c and MQTTAsync.c install MQTTProtocol_writeAvailable as the
    third, which sends the acknowledgements that wait for the socket
    ([Sessions.MQTTProtocol_writeAvailable]). *)
Record callbacks := mkCallbacks {
  writecontinue : Z → N unit;
  writecomplete : Z → Z → N unit;
  writeAvailable : Z → N unit;
}.

(** The loop of Socket_continueWrites from the element [cur] of
    [mod_s.write_pending] on: [rc1] and the socket of an error *)
Fixpoint continue_loop (fuel : nat) (cb : callbacks) (cur : option nat) (rc1 : Z) (err : option Z) :
    N (Z * option Z) :=
  match fuel with
  | O => fail Diverge
  | S fuel =>
    l ← gets (λ t, write_pending (sockets_of t));
    match k ← cur; sock ← items l !! k; Some (k, sock) with
    | None => mret (rc1, err)
    | Some (k, sock) =>
      ready ← gets (λ t, pollout sock (st_kernel t));
      rc ← (if ready : bool then Socket_continueWrite sock else mret 0);
      cur ← (if decide (rc ≠ 0) then
               _ ← SocketBuffer_writeComplete sock;
               l ← gets (λ t, write_pending (sockets_of t));
               let l := al_delete k l in
               _ ← set_write_pending l;
               _ ← (if decide (0 < rc) then writeAvailable cb sock else mret tt);
               _ ← writecomplete cb sock rc;
               mret (cursor l)
             else mret (if decide (S k < length (items l))%nat then Some (S k) else None));
      _ ← (if decide (rc = 0) then writecontinue cb sock else mret tt);
      if decide (rc = SOCKET_ERROR) then continue_loop fuel cb cur SOCKET_ERROR (Some sock)
      else continue_loop fuel cb cur rc1 err
    end
  end.

Definition Socket_continueWrites (fuel : nat) (cb : callbacks) : N (Z * option Z) :=
  l ← gets (λ t, write_pending (sockets_of t));
  continue_loop fuel cb (match items l with [] => None | _ => Some 0%nat end) 0 None.

(** Socket_close, after the socket is shut down: the lists of this module and of
    [SocketBuffer] *)
Definition close_buffers (sock : Z) : N unit :=
  _ ← Socket_abortWrite sock;
  _ ← SocketBuffer_cleanup sock;
  l ← gets (λ t, write_pending (sockets_of t));
  set_write_pending (snd (al_unlink (intcompare sock) l)).
End Socket.

(** ** The interfaces of the packet code

    [WebSocket_getch], [WebSocket_getdata] and [WebSocket_putdatas] for a
    connection that is no WebSocket and has no TLS *)
#[export] Instance stack_transport {K} `{Kernel K} : Transport (stack K) := {
  putdatas sock buf0 bufs msk := rc ← Socket_putdatas sock buf0 bufs; mret (rc, msk);
  noPendingWrites := Socket_noPendingWrites;
  now := system clock;
  putPacket sock buf0 bufs ty id scr v := system (store_packet sock buf0 bufs ty id scr v);
}.

Definition socket_receiver {K} `{Kernel K} (sock : Z) : Receiver (stack K) := {|
  framePos := mret 0;
  getch := Socket_getch sock;
  getdata n :=
    r ← Socket_getdata sock (Z.to_nat n) 0 0;
    let '(buf, actual_len, _) := r : option (list Z) * nat * Z in
    mret (buf, Z.of_nat actual_len);
  framePosSeekTo _ := mret tt;
|}.
