(* ===== verification/SocketReads.v ===== *)
(** * Reads that are interrupted

    What a call of the reading functions does to the bytes of a connection: they
    are in the header and the buffer of its queue, or still to arrive.  The rules
    follow a read of one packet over a socket that would block at any byte. *)
From S2P Require Import Prelude Buffers LinkedList Properties PacketIn Clients PacketOut Receive Protocol ProtocolLaws SocketBuffer Socket.
Local Open Scope Z_scope.

(** ** The system's part: bytes come in the order they were sent, and go in the
    order they are written.  [arriving] is all that a socket will still
    receive, [leaving] what it has taken. *)
Class KernelLaws (K : Type) `{Kernel K} := {
  arriving : K → Z → list Z;
  leaving : K → Z → list Z;
  recv_law sock n k r k' : recv sock n k = (r, k') →
    (∀ x, leaving k' x = leaving k x) ∧ (∀ x, x ≠ sock → arriving k' x = arriving k x) ∧
    match r with
    | Received d => (length d ≤ n)%nat ∧ arriving k sock = d ++ arriving k' sock
    | RecvError _ => arriving k' sock = arriving k sock
    end;
  writev_law sock d k r k' : writev sock d k = (r, k') →
    (∀ x, arriving k' x = arriving k x) ∧ (∀ x, x ≠ sock → leaving k' x = leaving k x) ∧
    match r with
    | Written n => (n ≤ length d)%nat ∧ leaving k' sock = leaving k sock ++ take n d
    | WriteError _ => leaving k' sock = leaving k sock
    end;
  clock_law k r k' : clock k = (r, k') →
    (∀ x, arriving k' x = arriving k x) ∧ (∀ x, leaving k' x = leaving k x);
  store_law sock hdr bufs ty id scr v k r k' : store_packet sock hdr bufs ty id scr v k = (r, k') →
    (∀ x, arriving k' x = arriving k x) ∧ (∀ x, leaving k' x = leaving k x);
}.

(** ** A queue and the bytes it holds *)
Record queue_holds (q : socket_queue) (hd dt : list Z) : Prop := {
  hold_header : take (q_headerlen q) (fixed_header q) = Some <$> hd;
  hold_headerlen : q_headerlen q = length hd;
  hold_five : length (fixed_header q) = 5%nat;
  hold_data : ∃ blk, q_buf q = Some blk ∧ (q_buflen q ≤ length blk)%nat ∧ take (q_datalen q) blk = Some <$> dt;
  hold_datalen : q_datalen q = length dt;
}.

(** The default queue between reads *)
Record idle (q : socket_queue) : Prop := {
  idle_holds : queue_holds q [] [];
  idle_socket : q_socket q = 0;
  idle_index : q_index q = 0%nat;
}.

Lemma new_queue_idle : idle new_queue.
Proof.
  constructor; [| done | done]. constructor; try done. exists (replicate 1000 None).
  split_and!; [done | cbn; lia | done].
Qed.

Lemma reset_idle q hd dt : queue_holds q hd dt → idle (reset_queue q).
Proof.
  intros [H1 H2 H3 (blk & H4 & H5 & H6) H7]. constructor; [| done | done].
  constructor; try done. by exists blk.
Qed.

Section Reads.
Context {K : Type} {HK : Kernel K} {KL : KernelLaws K}.
Notation T := (stack K).
Implicit Types (t : T) (q : socket_queue) (os : list socket_queue).

(** A read for [sock]: [q] is its queue, in the list or (when nothing is kept
    for the socket yet) the default one; [os] are the queues of the others, and
    [A] and [a] what arrives for the others and for [sock]. *)
Record receiving (sock : Z) os (queued : bool) q (A : Z → list Z) (a : list Z) t : Prop := {
  rcv_heap : heap_of t = [];
  rcv_others x : x ≠ sock → arriving (st_kernel t) x = A x;
  rcv_arriving : arriving (st_kernel t) sock = a;
  rcv_sockets : NoDup (sock :: (q_socket <$> os));
  rcv_socket : q_socket q = sock ∨ (queued = false ∧ q_socket q = 0);
  rcv_queues : items (queues (sockets_of t)) ≡ₚ (if queued then q :: os else os);
  rcv_default : if queued then ∃ d, def_queue (sockets_of t) = QReady d ∧ idle d
                else def_queue (sockets_of t) = QReady q;
}.

(** No read in progress *)
Record resting os (A : Z → list Z) t : Prop := {
  rest_heap : heap_of t = [];
  rest_arriving x : arriving (st_kernel t) x = A x;
  rest_sockets : NoDup (q_socket <$> os);
  rest_queues : items (queues (sockets_of t)) ≡ₚ os;
  rest_default : ∃ d, def_queue (sockets_of t) = QReady d ∧ idle d;
}.

Definition place_of (queued : bool) q t (p : queue_place) : Prop :=
  match p with
  | InDefault => queued = false
  | InQueues k => queued = true ∧ items (queues (sockets_of t)) !! k = Some q
  end.

Lemma resting_receiving sock os A t :
  resting os A t →
  ∃ queued q os', receiving sock os' queued q A (A sock) t ∧
    (if queued then os ≡ₚ q :: os' ∧ q_socket q = sock else os' = os ∧ idle q).
Proof.
  intros [R1 R2 R3 R4 (d & R5 & R6)].
  destruct (decide (sock ∈ q_socket <$> os)) as [Hin | Hout].
  - apply list_elem_of_fmap in Hin as (q & -> & Hq).
    apply list_elem_of_split in Hq as (o1 & o2 & ->).
    exists true, q, (o1 ++ o2). rewrite <- (Permutation_middle o1 o2 q) in R3, R4 |- *.
    rewrite fmap_cons in R3. split; [| done]. constructor; eauto.
  - exists false, d, os. split; [| done]. constructor; try done.
    + by apply NoDup_cons.
    + right. split; [done | apply R6].
Qed.

(** ** Rules *)
Lemma al_find_sock (sock : Z) (l : alist socket_queue) :
  match fst (al_find (socketcompare sock) l) with
  | Some k => ∃ q, items l !! k = Some q ∧ q_socket q = sock
  | None => sock ∉ q_socket <$> items l
  end.
Proof.
  destruct (fst (al_find (socketcompare sock) l)) as [k |] eqn:E.
  - apply al_find_some in E as (q & Hq & Hs). exists q. split; [done |].
    by apply bool_decide_unpack in Hs.
  - apply al_find_none in E. intros (q & Hs & Hq)%list_elem_of_fmap.
    rewrite Forall_forall in E. apply (E q Hq). by apply bool_decide_pack.
Qed.

(** ListFindItem only moves the cursor. *)
Lemma receiving_cursor sock os b q A a t l :
  receiving sock os b q A a t → items l = items (queues (sockets_of t)) →
  let s := sockets_of t in
  receiving sock os b q A a (set_sockets (mkSockets (def_queue s) l (writes s) (write_pending s)) t).
Proof. intros [R1 R2 R3 R4 R5 R6 R7] E. constructor; try done. cbn. by rewrite E. Qed.

Lemma wp_find_queue sock os b q A a t (Q : option nat → T → Prop) :
  receiving sock os b q A a t →
  (∀ k t', receiving sock os b q A a t' →
     (if b then ∃ i, k = Some i ∧ place_of b q t' (InQueues i) else k = None) → Q k t') →
  wp (find_queue sock) Q t.
Proof.
  intros HR HQ. unfold find_queue. apply wp_bind, wp_gets.
  pose proof (al_find_sock sock (queues (sockets_of t))) as Hf.
  pose proof (al_find_items (socketcompare sock) (queues (sockets_of t))) as Hi.
  destruct (al_find _ _) as [k l]. cbn [fst snd] in Hf, Hi.
  apply wp_bind, wp_modify, wp_ret, HQ; [by apply receiving_cursor |].
  destruct HR as [R1 R2 R3 R4 R5 R6 R7]. apply NoDup_cons in R4 as [Hos Hnd].
  destruct k as [k |].
  - destruct Hf as (q' & Hk & Hq'). apply list_elem_of_lookup_2 in Hk as Hin. rewrite R6 in Hin.
    destruct b; [| exfalso; apply Hos; rewrite <- Hq'; by apply list_elem_of_fmap_2].
    exists k. split; [done |]. split; [done |]. cbn. rewrite Hi, Hk. f_equal.
    apply elem_of_cons in Hin as [-> | Hin]; [done |].
    exfalso. apply Hos. rewrite <- Hq'. by apply list_elem_of_fmap_2.
  - destruct b; [| done]. exfalso. apply Hf. rewrite R6, fmap_cons.
    destruct R5 as [-> | [? _]]; [by left | done].
Qed.

Lemma wp_queue_for sock os b q A a t (Q : queue_place → T → Prop) :
  receiving sock os b q A a t →
  (∀ p t', receiving sock os b q A a t' → place_of b q t' p → Q p t') →
  wp (queue_for sock) Q t.
Proof.
  intros HR HQ. apply wp_bind. eapply wp_find_queue; [exact HR |]. intros k t' HR' Hk.
  apply wp_ret. destruct b; [by destruct Hk as (i & -> & ?); apply HQ | by subst; apply HQ].
Qed.

Lemma wp_queue_at sock os b q A a t p (Q : socket_queue → T → Prop) :
  receiving sock os b q A a t → place_of b q t p → Q q t → wp (queue_at p) Q t.
Proof.
  intros HR Hp HQ. destruct p as [| k]; cbn in Hp.
  - subst b. eapply wp_intro; [| exact HQ]. cbn. unfold default_queue. by rewrite (rcv_default _ _ _ _ _ _ _ HR).
  - destruct Hp as [-> Hk]. eapply wp_intro; [| exact HQ]. cbn. cbn in Hk. by rewrite Hk.
Qed.

Lemma items_al_alter {A} (f : A → A) k l : items (al_alter f k l) = alter f k (items l).
Proof. done. Qed.

Lemma wp_put_queue sock os b q q' A a t p (Q : unit → T → Prop) :
  receiving sock os b q A a t → place_of b q t p → q_socket q' = q_socket q ∨ q_socket q' = sock →
  (∀ t', receiving sock os b q' A a t' → place_of b q' t' p → Q tt t') →
  wp (put_queue p q') Q t.
Proof.
  intros [R1 R2 R3 R4 R5 R6 R7] Hp Hs HQ. destruct p as [| k]; cbn in Hp.
  - subst b. apply wp_modify, HQ; [| done]. constructor; try done. cbn in *. intuition congruence.
  - destruct Hp as [-> Hk]. apply wp_bind, wp_gets, wp_modify, HQ.
    + constructor; try done; cbn in *; [intuition congruence |].
      apply list_elem_of_split_length in Hk as (l1 & l2 & Hl & ->).
      unfold al_alter. cbn. rewrite Hl in R6 |- *.
      rewrite alter_app_r_alt, Nat.sub_diag by lia. cbn. rewrite <- Permutation_middle in R6 |- *.
      apply Permutation_cons_inv in R6. by rewrite R6.
    + split; [done |]. cbn in *. unfold al_alter. cbn. by rewrite list_lookup_alter_eq, Hk.
Qed.

Definition with_arriving (sock : Z) (a : list Z) (A : Z → list Z) (x : Z) : list Z :=
  if decide (x = sock) then a else A x.

Lemma wp_recv sock os b q A a n t (Q : recv_result → T → Prop) :
  receiving sock os b q A a t →
  (∀ r a' t', receiving sock os b q A a' t' → st_sockets t' = st_sockets t →
     match r with Received d => (length d ≤ n)%nat ∧ a = d ++ a' | RecvError _ => a' = a end → Q r t') →
  wp (system (recv sock n)) Q t.
Proof.
  intros [R1 R2 R3 R4 R5 R6 R7] HQ. unfold system, wp.
  destruct (recv sock n (st_kernel t)) as [r k'] eqn:E.
  destruct (recv_law _ _ _ _ _ E) as (_ & Hothers & Hr).
  apply (HQ r (arriving k' sock)); [| done |].
  - constructor; try done. intros x Hx. cbn. rewrite Hothers by done. by apply R2.
  - destruct r; cbn; rewrite <- R3; [done | by symmetry].
Qed.

Lemma place_same b q t t' p : st_sockets t' = st_sockets t → place_of b q t p → place_of b q t' p.
Proof. intros E. destruct p; [done |]. cbn. by rewrite E. Qed.

(** The end of a read that is not finished: the bytes go to the list. *)
Definition kept_queue (sock : Z) (q : socket_queue) (n : nat) : socket_queue :=
  mkQueue sock 0 (q_headerlen q) (fixed_header q) (q_buflen q) n (q_buf q).

Lemma wp_newDefQ (Q : Z → T → Prop) t :
  heap_of t = [] → (∀ t', t' = set_sockets (mkSockets (QReady new_queue) (queues (sockets_of t))
     (writes (sockets_of t)) (write_pending (sockets_of t))) t → Q 0 t') →
  wp SocketBuffer_newDefQ Q t.
Proof.
  intros Ht HQ. unfold SocketBuffer_newDefQ.
  do 2 (apply wp_bind; eapply wp_intro; [by apply malloc_succeeds |]; cbn [negb]).
  apply wp_bind, wp_modify, wp_ret. by apply HQ.
Qed.

Lemma wp_interrupted sock os b q A a n t (Q : unit → T → Prop) :
  receiving sock os b q A a t →
  (∀ t', resting (kept_queue sock q n :: os) (with_arriving sock a A) t' → Q tt t') →
  wp (SocketBuffer_interrupted sock n) Q t.
Proof.
  intros HR HQ. unfold SocketBuffer_interrupted. apply wp_bind.
  eapply wp_find_queue; [exact HR |]. clear t HR. intros k t HR Hk.
  assert (∀ x, arriving (st_kernel t) x = with_arriving sock a A x) as Harr.
  { intros x. unfold with_arriving. destruct (decide (x = sock)) as [-> | Hx]; apply HR; done. }
  destruct b.
  - destruct Hk as (i & -> & Hp). apply wp_bind. eapply wp_queue_at; [exact HR | exact Hp |].
    destruct (rcv_socket _ _ _ _ _ _ _ HR) as [<- | [? _]]; [| done].
    eapply wp_put_queue; [exact HR | exact Hp | by left |]. intros t' [R1 R2 R3 R4 R5 R6 R7] _.
    apply HQ. constructor; [done | | by rewrite fmap_cons | done | done].
    intros x. unfold with_arriving. destruct (decide (x = _)) as [-> | Hx]; auto.
  - subst k. destruct HR as [R1 R2 R3 R4 R5 R6 R7].
    apply wp_bind. eapply wp_intro; [cbn; unfold default_queue; by rewrite R7 |].
    apply wp_bind, wp_gets. apply wp_bind, wp_bind. eapply wp_intro; [by apply malloc_succeeds |].
    apply wp_ret. apply wp_bind, wp_modify. apply wp_bind, wp_newDefQ; [done |].
    intros t' ->. apply wp_ret, HQ. constructor; cbn; [done | done | done | |].
    + rewrite R6. by rewrite Permutation_app_comm.
    + exists new_queue. split; [done | exact new_queue_idle].
Qed.

(** The end of a read that is finished: the queue becomes the default one. *)
Lemma wp_read_complete sock os b q hd dt A a t (Q : unit → T → Prop) :
  receiving sock os b q A a t → queue_holds q hd dt →
  (∀ t' d, def_queue (sockets_of t') = QReady d → idle d → q_buf d = q_buf q →
     resting os (with_arriving sock a A) t' → Q tt t') →
  wp (SocketBuffer_complete sock) Q t.
Proof.
  intros HR Hq HQ. unfold SocketBuffer_complete. apply wp_bind.
  eapply wp_find_queue; [exact HR |]. clear t HR. intros k t HR Hk.
  assert (∀ x, arriving (st_kernel t) x = with_arriving sock a A x) as Harr.
  { intros x. unfold with_arriving. destruct (decide (x = sock)) as [-> | Hx]; apply HR; done. }
  pose proof (reset_idle _ _ _ Hq) as Hidle. destruct HR as [R1 R2 R3 R4 R5 R6 R7].
  apply NoDup_cons in R4 as [_ R4]. destruct b.
  - destruct Hk as (i & -> & _ & Hi). destruct R7 as (d & Hd & _).
    cbn in Hi. apply wp_bind, wp_bind. eapply wp_intro; [cbn; by rewrite Hi |]. apply wp_bind.
    unfold SocketBuffer_freeDefQ. apply wp_bind. eapply wp_intro; [unfold default_queue; by rewrite Hd |].
    apply wp_modify. apply wp_bind, wp_modify. apply wp_bind, wp_gets, wp_modify.
    apply wp_bind. eapply wp_intro; [done |]. apply wp_modify.
    apply (HQ _ (reset_queue q)); [done | done | done |]. constructor; cbn; [done | done | done | | eauto].
    apply (Permutation_cons_inv (a := q)). rewrite <- R6.
    by rewrite <- delete_Permutation.
  - subst k. apply wp_bind, wp_ret. apply wp_bind. eapply wp_intro; [unfold default_queue; by rewrite R7 |].
    apply wp_modify. apply (HQ _ (reset_queue q)); [done | done | done |].
    constructor; cbn; eauto.
Qed.

(** ** A character *)
Lemma holds_char q hd dt j :
  queue_holds q hd dt → (j < length hd)%nat → fixed_header q !! j = Some (hd !! j).
Proof.
  intros [H1 H2 _ _ _] Hj. rewrite <- (lookup_take_lt (fixed_header q) (q_headerlen q)) by lia.
  rewrite H1, list_lookup_fmap. by destruct (lookup_lt_is_Some_2 hd j Hj) as [c ->].
Qed.

Lemma holds_index k q hd dt : queue_holds q hd dt → queue_holds (set_index k q) hd dt.
Proof. by intros []. Qed.

Lemma holds_snoc q sock n hd dt c :
  queue_holds q hd dt → (length hd < 5)%nat → n = q_datalen q →
  queue_holds (mkQueue sock (S (length hd)) (S (length hd)) (<[length hd := Some c]> (fixed_header q))
    (q_buflen q) n (q_buf q)) (hd ++ [c]) dt.
Proof.
  intros [H1 H2 H3 H4 H5] Hlt ->. constructor; cbn; [| | | done | done].
  - rewrite fmap_app. cbn. rewrite <- H1, H2.
    rewrite (take_S_r _ _ (Some c)) by (apply list_lookup_insert_eq; lia).
    by rewrite take_insert_ge.
  - rewrite length_app. cbn. lia.
  - by rewrite length_insert.
Qed.

(** Part of a header is replayed from the list. *)
Lemma wp_getQueuedChar sock os b q hd dt A a j t (Q : Z * Z → T → Prop) :
  receiving sock os b q A a t → queue_holds q hd dt → q_index q = j → (j ≤ length hd)%nat →
  (b = false → j = length hd) → (j < 5)%nat →
  (∀ c t', (j < length hd)%nat → hd !! j = Some c → b = true →
     receiving sock os b (set_index (S j) q) A a t' → Q (SOCKETBUFFER_COMPLETE, c) t') →
  (j = length hd → ∀ t', receiving sock os b q A a t' → Q (SOCKETBUFFER_INTERRUPTED, 0) t') →
  wp (SocketBuffer_getQueuedChar sock) Q t.
Proof.
  intros HR Hq Hi Hj Hb Hlt HQ1 HQ2. unfold SocketBuffer_getQueuedChar. apply wp_bind.
  eapply wp_find_queue; [exact HR |]. clear t HR. intros k t HR Hk. destruct b.
  - destruct Hk as (i & -> & Hp). apply wp_bind. eapply wp_queue_at; [exact HR | exact Hp |].
    rewrite (hold_headerlen _ _ _ Hq), Hi. destruct (decide (j < length hd)%nat) as [Hlt' |].
    + rewrite (holds_char _ _ _ _ Hq Hlt'). destruct (lookup_lt_is_Some_2 hd j Hlt') as [c Hc]. rewrite Hc.
      apply wp_bind. eapply wp_put_queue; [exact HR | exact Hp | by left |].
      intros t' HR' _. apply wp_ret. by apply HQ1.
    + rewrite decide_False by lia. apply wp_ret, HQ2; [lia | done].
  - subst k. apply wp_ret, HQ2; [auto | done].
Qed.

Lemma wp_queueChar sock os b q hd dt A a c t (Q : unit → T → Prop) :
  receiving sock os b q A a t → queue_holds q hd dt → q_index q = length hd → (length hd < 5)%nat →
  (b = false → dt = [] ∧ (q_socket q = 0 → hd = [])) →
  (∀ q' t', receiving sock os b q' A a t' → queue_holds q' (hd ++ [c]) dt → q_index q' = S (length hd) →
     q_socket q' = sock → Q tt t') →
  wp (SocketBuffer_queueChar sock c) Q t.
Proof.
  intros HR Hq Hi Hlt Hb HQ. unfold SocketBuffer_queueChar. apply wp_bind.
  eapply wp_queue_for; [exact HR |]. clear t HR. intros p t HR Hp.
  assert (∀ q0 t0 e, receiving sock os b q0 A a t0 → place_of b q0 t0 p → queue_holds q0 hd dt →
    q_index q0 = length hd → q_socket q0 = sock → e = false →
    wp (q ← queue_at p;
        let error := (e : bool) || bool_decide (4 < q_index q)%nat in
        if error then mret tt else
        if decide (q_index q < length (fixed_header q))%nat then
          put_queue p (mkQueue (q_socket q) (S (q_index q)) (S (q_index q))
            (<[q_index q := Some c]> (fixed_header q)) (q_buflen q) (q_datalen q) (q_buf q))
        else fail OutOfBounds) Q t0) as Hput.
  { intros q0 t0 e HR0 Hp0 Hq0 Hi0 Hs0 ->. apply wp_bind. eapply wp_queue_at; [exact HR0 | exact Hp0 |].
    rewrite Hi0. cbn [orb]. rewrite bool_decide_false by lia.
    rewrite decide_True by (rewrite (hold_five _ _ _ Hq0); lia).
    eapply wp_put_queue; [exact HR0 | exact Hp0 | by left |]. intros t' HR' _.
    eapply HQ; [exact HR' | by apply holds_snoc | done | done]. }
  apply wp_bind. destruct p as [| k].
  - cbn in Hp. subst b. destruct (Hb eq_refl) as [-> Hhd]. apply wp_bind.
    eapply (wp_queue_at _ _ _ _ _ _ _ InDefault); [exact HR | done |].
    destruct (decide (q_socket q = 0)) as [H0 | Hne].
    + apply wp_bind. rewrite (Hhd H0) in *. 
      eapply (wp_put_queue _ _ _ _ _ _ _ _ InDefault); [exact HR | done | by right |].
      intros t' HR' Hp'. apply wp_ret. eapply Hput; [exact HR' | done | | done | done | done].
      destruct Hq as [H1 H2 H3 H4 H5]. constructor; cbn; [done | done | done | | done].
      destruct H4 as (blk & Hblk & Hlen & _). exists blk. split_and!; [done | done | by rewrite take_0].
    + destruct (rcv_socket _ _ _ _ _ _ _ HR) as [Hs | [_ ?]]; [| done]. apply wp_ret.
      eapply Hput; [exact HR | done | exact Hq | done | done |]. by rewrite bool_decide_false by auto.
  - destruct Hp as [-> Hk]. destruct (rcv_socket _ _ _ _ _ _ _ HR) as [Hs | [? _]]; [| done].
    apply wp_ret. eapply Hput; [exact HR | done | exact Hq | done | done | done].
Qed.

(** A read of a packet in progress: the stream [s] starts with the packet of the
    header [hdr] and a body of [n] bytes, of which the first [j] bytes were
    handed out *)
Record in_header (sock : Z) os A (hdr s : list Z) (n j : nat) (b : bool) q hd dt a t : Prop := {
  inh_receiving : receiving sock os b q A a t;
  inh_holds : queue_holds q hd dt;
  inh_stream : s = hd ++ dt ++ a;
  inh_index : q_index q = j;
  inh_below : (j ≤ length hd)%nat;
  inh_prefix : hd `prefix_of` hdr;
  inh_data : dt ≠ [] → hd = hdr ∧ (length dt < n)%nat;
  inh_default : b = false → j = length hd ∧ dt = [] ∧ (q_socket q = 0 → hd = []);
}.

Definition reading sock os A hdr s n j t : Prop := ∃ b q hd dt a, in_header sock os A hdr s n j b q hd dt a t.

(** What an interruption leaves *)
Definition interrupted sock os A hdr s n t : Prop := ∃ q hd dt a,
  resting (q :: os) (with_arriving sock a A) t ∧ queue_holds q hd dt ∧ q_socket q = sock ∧ q_index q = 0%nat ∧
  s = hd ++ dt ++ a ∧ hd `prefix_of` hdr ∧ (dt ≠ [] → hd = hdr ∧ (length dt < n)%nat).

Lemma reading_receives sock os A hdr s n j t :
  reading sock os A hdr s n j t → ∃ b q a, receiving sock os b q A a t.
Proof. intros (b & q & hd & dt & a & []). eauto. Qed.

Lemma wp_getch sock os A hdr s n j t (Q : Z * Z → T → Prop) :
  sock ≠ 0 → reading sock os A hdr s n j t → (j < 5)%nat →
  (∃ rest, s = hdr ++ rest) → (j < length hdr)%nat ∨ s = [] →
  (∀ c t', hdr !! j = Some c → reading sock os A hdr s n (S j) t' → Q (TCPSOCKET_COMPLETE, c) t') →
  (∀ t', interrupted sock os A hdr s n t' → Q (TCPSOCKET_INTERRUPTED, 0) t') →
  (∀ t', reading sock os A hdr s n j t' → Q (SOCKET_ERROR, 0) t') →
  wp (Socket_getch sock) Q t.
Proof.
  intros Hsock (b & q & hd & dt & a & [HR Hq Hs Hi Hj Hpre Hdt Hb]) H5 [rest Hrest] Hjh HQ1 HQ2 HQ3.
  unfold Socket_getch. apply wp_bind. eapply wp_getQueuedChar; [exact HR | exact Hq | exact Hi | exact Hj
    | by intros E; apply Hb | exact H5 | |].
  - intros c t1 Hlt Hc -> HR1. rewrite decide_True by done. apply wp_ret, HQ1.
    + by eapply prefix_lookup_Some.
    + exists true, (set_index (S j) q), hd, dt, a. by constructor; try done; apply holds_index.
  - intros Hjl t1 HR1. rewrite decide_False by tauto.
    assert (dt = []) as ->.
    { destruct (decide (dt = [])) as [| Hne]; [done |]. destruct (Hdt Hne) as [-> _].
      destruct Hjh as [? | ->]; [lia |]. symmetry in Hs. by destruct hdr, dt. }
    apply wp_bind. eapply wp_recv; [exact HR1 |]. intros r a' t2 HR2 Hsame Hr. destruct r as [d | err].
    + destruct Hr as [Hd ->]. destruct d as [| c d].
      { apply wp_ret, HQ3. exists b, q, hd, [], a'. by constructor. }
      destruct d; [| cbn in Hd; lia]. cbn [app] in Hs. apply wp_bind.
      eapply wp_queueChar; [exact HR2 | exact Hq | congruence | lia | by intros E; destruct (Hb E) as (_ & _ & ?) |].
      intros q' t3 HR3 Hq' Hi' Hs'. apply wp_ret.
      assert (hdr !! j = Some c) as Hc.
      { destruct Hjh as [Hlt | ->]; [| by destruct hd].
        rewrite <- (lookup_app_l hdr rest) by done. rewrite <- Hrest, Hs, Hjl. by rewrite list_lookup_middle. }
      apply HQ1; [done |]. exists b, q', (hd ++ [c]), [], a'. constructor; try done.
      * by rewrite Hs, <- (assoc_L (++)).
      * congruence.
      * rewrite length_app. cbn. lia.
      * destruct Hpre as [k ->]. rewrite Hjl, lookup_app_r, Nat.sub_diag in Hc by lia.
        destruct k as [| c' k]; [done |]. injection Hc as ->. exists k. by rewrite <- (assoc_L (++)).
      * intros E. split_and!; [rewrite length_app; cbn; lia | done | congruence].
    + subst a'. destruct (would_block err).
      * apply wp_bind. eapply wp_interrupted; [exact HR2 |]. intros t3 HR3. apply wp_ret, HQ2.
        exists (kept_queue sock q 0), hd, [], a. split_and!; try done.
        destruct Hq as [H1 H2 H3 (blk & Hblk & Hlen & _) H6]. constructor; try done. by exists blk.
      * apply wp_ret, HQ3. exists b, q, hd, [], a. by constructor.
Qed.
End Reads.
