(* ===== verification/Pipes.v ===== *)
(** * A system of pipes

    Sockets in memory that give and take bytes in pieces, for the instances of
    the properties of [Socket]: [pi_pieces] says how many bytes the next calls
    handle at most, 0 that a call would block, and what is not in the list would
    not block. *)
From S2P Require Import Prelude Buffers LinkedList Properties PacketIn Clients PacketOut Receive Protocol SocketBuffer Socket SocketReads.
Local Open Scope Z_scope.

Record pipes := mkPipes {
  pi_in : gmap Z (list Z);
  pi_out : gmap Z (list Z);
  pi_pieces : list nat;
}.

Definition EAGAIN : Z := 11.

Definition piece (k : pipes) (n : nat) : nat :=
  match pi_pieces k with [] => n | p :: _ => Nat.min p n end.

Definition inflow (k : pipes) (sock : Z) : list Z := default [] (pi_in k !! sock).
Definition outflow (k : pipes) (sock : Z) : list Z := default [] (pi_out k !! sock).

#[export] Instance pipes_kernel : Kernel pipes := {
  would_block err := bool_decide (err = EAGAIN);
  recv sock n k :=
    let d := take (piece k n) (inflow k sock) in
    (match d with [] => RecvError EAGAIN | _ => Received d end,
     mkPipes (<[sock := drop (piece k n) (inflow k sock)]> (pi_in k)) (pi_out k) (drop 1 (pi_pieces k)));
  writev sock d k :=
    let n := piece k (length d) in
    (match n with O => WriteError EAGAIN | _ => Written n end,
     mkPipes (pi_in k) (<[sock := outflow k sock ++ take n d]> (pi_out k)) (drop 1 (pi_pieces k)));
  pollout sock k := true;
  clock k := (0, k);
  store_packet _ _ _ _ _ _ _ k := (0, k);
}.

Lemma inflow_put sock d i o p : inflow (mkPipes (<[sock := d]> i) o p) sock = d.
Proof. unfold inflow. cbn. by rewrite lookup_insert_eq. Qed.
Lemma outflow_put sock d i o p : outflow (mkPipes i (<[sock := d]> o) p) sock = d.
Proof. unfold outflow. cbn. by rewrite lookup_insert_eq. Qed.

#[export] Instance pipes_laws : KernelLaws pipes.
Proof.
  refine {| arriving := inflow; leaving := outflow |}.
  - intros sock n k r k'. cbn. intros [= <- <-]. split_and!; [done | |].
    + intros x Hx. unfold inflow. cbn. by rewrite lookup_insert_ne.
    + assert (inflow k sock = take (piece k n) (inflow k sock) ++ drop (piece k n) (inflow k sock)) as Hd
        by by rewrite take_drop.
      assert (length (take (piece k n) (inflow k sock)) ≤ n)%nat as Hl
        by (rewrite length_take; unfold piece; destruct (pi_pieces k); lia).
      rewrite inflow_put. by destruct (take (piece k n) (inflow k sock)).
  - intros sock d k r k'. cbn. intros [= <- <-]. split_and!; [done | |].
    + intros x Hx. unfold outflow. cbn. by rewrite lookup_insert_ne.
    + assert (piece k (length d) ≤ length d)%nat by (unfold piece; destruct (pi_pieces k); lia).
      rewrite outflow_put. destruct (piece k (length d)); [by rewrite take_0, app_nil_r | done].
  - by intros k r k' [= _ <-].
  - by intros sock hdr bufs ty id scr v k r k' [= _ <-].
Defined.

(** The program at the start: the modules are initialised. *)
Definition fresh_sockets : sockets := mkSockets (QReady new_queue) al_nil al_nil al_nil.
Definition start (k : pipes) : stack pipes := mkStack [] ∅ fresh_sockets k.
