(* ===== verification/SocketPackets.v ===== *)
(** * Packets over sockets that are interrupted

    A call of MQTTPacket_Factory over [Socket] either hands out the next packet
    of the connection, with all its bytes, or leaves the bytes it has read where
    the next call finds them. *)
From S2P Require Import Prelude Buffers LinkedList Properties PacketIn Clients PacketOut Receive Protocol ProtocolLaws SocketBuffer Socket SocketReads.
Local Open Scope Z_scope.

Section Packets.
Context {K : Type} {HK : Kernel K} {KL : KernelLaws K}.
Notation T := (stack K).
Implicit Types (t : T) (q : socket_queue) (os : list socket_queue).

(** ** The remaining length *)
Lemma encode_loop_pos k v : (1 ≤ length (encode_loop k v))%nat.
Proof. pose proof (encode_loop_nonempty k v). destruct (encode_loop k v); [done | cbn; lia]. Qed.

Section Header.
Context (sock : Z) (Hsock : sock ≠ 0) (os : list socket_queue) (A : Z → list Z).
Context (hdr s rest : list Z) (n : nat) (Hs : s = hdr ++ rest) (Hhdr : (length hdr ≤ 5)%nat).

Lemma wp_decode_loop k v : ∀ fuel len multiplier value j t (Q : Z * Z → T → Prop),
  0 ≤ v < 128 ^ (Z.of_nat k + 1) → 0 ≤ value → 0 ≤ multiplier →
  value + v * multiplier < 2 ^ 64 →
  len + Z.of_nat (length (encode_loop k v)) ≤ MAX_NO_OF_REMAINING_LENGTH_BYTES →
  (length (encode_loop k v) ≤ fuel)%nat → drop j hdr = encode_loop k v →
  reading sock os A hdr s n j t →
  (∀ t', reading sock os A hdr s n (length hdr) t' → Q (TCPSOCKET_COMPLETE, value + v * multiplier) t') →
  (∀ x t', interrupted sock os A hdr s n t' → Q (TCPSOCKET_INTERRUPTED, x) t') →
  (∀ x j' t', reading sock os A hdr s n j' t' → Q (SOCKET_ERROR, x) t') →
  wp (@decode_loop T (socket_receiver sock) fuel len multiplier value) Q t.
Proof.
  revert v. induction k as [| k IH]; intros v fuel len multiplier value j t Q Hv Hval Hm Hb Hl Hf Hd HR HQ1 HQ2 HQ3;
    match type of Hd with _ = ?l => pose proof (encode_loop_pos _ v : (1 ≤ length l)%nat) as Hpos end;
    (destruct fuel as [| fuel]; [lia |]);
    cbn [decode_loop]; rewrite (decide_False (P := MAX_NO_OF_REMAINING_LENGTH_BYTES < len + 1)) by lia.
  all: assert (j < length hdr)%nat as Hj
    by (apply not_le; intros Hge; rewrite drop_ge in Hd by done; by eapply encode_loop_nonempty).
  all: apply wp_bind; eapply wp_getch; [done | exact HR | lia | by exists rest | by left | | |].
  all: try (intros t' Ht'; cbv iota beta; rewrite decide_True by done; apply wp_ret; eauto).
  - intros c t' Hc HR'. cbv iota beta. rewrite decide_False by tauto.
    assert (encode_loop 0 v !! 0%nat = Some c) as Hc' by (rewrite <- Hd, lookup_drop, Nat.add_0_r; exact Hc).
    cbn in Hc'. rewrite Z.mod_small in Hc' by lia. injection Hc' as <-.
    destruct (digit_facts v ltac:(lia)) as (_ & _ & _ & H127 & H128).
    rewrite H127, H128, decide_False by tauto. apply wp_ret.
    assert (S j = length hdr) as Hlen.
    { pose proof (f_equal length Hd) as El. rewrite length_drop in El. cbn in El. lia. }
    rewrite Hlen in HR'.
    unfold u64. rewrite Z.mod_small by nia. by apply HQ1.
  - intros c t' Hc HR'. cbv iota beta. rewrite decide_False by tauto.
    rewrite encode_loop_S in * by lia.
    assert ((if decide (v < 128) then [v] else Z.lor (v `mod` 128) 128 :: encode_loop k (v / 128)) !! 0%nat = Some c)
      as Hc' by (rewrite <- Hd, lookup_drop, Nat.add_0_r; exact Hc).
    assert (drop (S j) hdr = drop 1 (drop j hdr)) as Hd' by (rewrite drop_drop; f_equal; lia).
    rewrite Hd in Hd'. pose proof (f_equal length Hd) as El. rewrite length_drop in El.
    destruct (decide (v < 128)) as [Hlt | Hge]; cbn in Hc'; injection Hc' as <-; cbn [length drop] in *.
    + destruct (digit_facts v ltac:(lia)) as (_ & _ & _ & H127 & H128).
      rewrite H127, H128, decide_False by tauto. apply wp_ret.
      assert (S j = length hdr) as Hlen by lia. rewrite Hlen in HR'.
      unfold u64. rewrite Z.mod_small by nia. by apply HQ1.
    + pose proof (Z_div_mod_eq_full v 128) as Hdm.
      pose proof (Z.mod_pos_bound v 128 ltac:(lia)) as Hmod.
      destruct (digit_facts (v `mod` 128) Hmod) as (_ & H127 & H128 & _).
      rewrite H127, H128, decide_True by done. unfold u64. rewrite Z.mod_small by nia.
      assert (0 ≤ v / 128 < 128 ^ (Z.of_nat k + 1)) as Hq.
      { split; [apply Z.div_pos; lia |]. apply Z.div_lt_upper_bound; [lia |].
        rewrite <- Z.pow_succ_r by lia.
        replace (Z.succ (Z.of_nat k + 1)) with (Z.of_nat (S k) + 1) by lia. apply Hv. }
      eapply (IH (v / 128)); [done | lia | lia | nia | lia | lia | by rewrite Hd', drop_0 | exact HR' | | exact HQ2 | exact HQ3].
      intros t2 HR2. replace (value + v `mod` 128 * multiplier + v / 128 * (multiplier * 128))
        with (value + v * multiplier) by nia. by apply HQ1.
Qed.
End Header.

(** ** The body *)
Lemma initialised_fmap (l : list Z) : initialised (Some <$> l) = Some l.
Proof. induction l as [| c l IH]; [done |]. cbn. by rewrite IH. Qed.

Lemma wp_getQueuedData sock os b q hd dt A a bytes t (Q : queue_place * nat → T → Prop) :
  receiving sock os b q A a t → queue_holds q hd dt → (b = false → dt = []) → (length dt ≤ bytes)%nat →
  (∀ p q' t' blk, receiving sock os b q' A a t' → place_of b q' t' p → queue_holds q' hd dt →
     q_socket q' = q_socket q → q_buf q' = Some blk → (bytes ≤ length blk)%nat → Q (p, length dt) t') →
  wp (SocketBuffer_getQueuedData sock bytes) Q t.
Proof.
  intros HR Hq Hb Hlen HQ. unfold SocketBuffer_getQueuedData. apply wp_bind.
  eapply wp_queue_for; [exact HR |]. clear t HR. intros p t HR Hp.
  apply wp_bind. eapply wp_queue_at; [exact HR | exact Hp |].
  assert (match p with InQueues _ => q_datalen q | InDefault => 0%nat end = length dt) as ->.
  { destruct p; [cbn in Hp; by rewrite (Hb Hp) | apply Hq]. }
  destruct Hq as [H1 H2 H3 (blk & Hblk & Hcap & Htake) H5]. cbv zeta.
  destruct (decide (q_buflen q < bytes)%nat) as [Hlt | Hge].
  - destruct (decide (0 < q_datalen q)%nat) as [Hpos | Hzero].
    + apply wp_bind. eapply wp_intro; [by apply malloc_succeeds, HR |]. cbv iota beta.
      unfold block_of. rewrite Hblk. apply wp_bind, wp_ret.
      pose proof (f_equal length Htake) as El. rewrite length_take, length_fmap in El.
      rewrite decide_True by lia. apply wp_bind. eapply wp_put_queue; [exact HR | exact Hp | by left |].
      intros t' HR' Hp'. apply wp_ret. eapply HQ; [exact HR' | exact Hp' | | done | done |].
      * constructor; cbn; [done | done | done | | done]. eexists. split_and!; [done | |].
        -- rewrite length_app, length_take, length_replicate. lia.
        -- rewrite take_app_le by (rewrite length_take; lia). by rewrite take_take, Nat.min_id.
      * rewrite length_app, length_take, length_replicate. lia.
    + assert (dt = []) as -> by (apply length_zero_iff_nil; lia).
      apply wp_bind. eapply wp_intro; [by apply malloc_succeeds, HR |]. cbv iota beta.
      rewrite Hblk. cbn [default from_option]. unfold resize.
      assert (length (take bytes blk ++ replicate (bytes - length blk) None) = bytes) as El
        by (rewrite length_app, length_take, length_replicate; lia).
      apply wp_bind. eapply wp_put_queue; [exact HR | exact Hp | by left |].
      intros t' HR' Hp'. apply wp_ret. eapply HQ; [exact HR' | exact Hp' | | done | done | cbn; lia].
      constructor; cbn; [done | done | done | | done]. eexists. split_and!; [done | lia |].
      rewrite H5. by rewrite take_0.
  - apply wp_ret. eapply HQ; [exact HR | exact Hp | | done | exact Hblk | lia].
    constructor; try done. by exists blk.
Qed.

(** The bytes [d] are put after those that were kept, and read with them. *)
Lemma wp_write_buffer sock os b q hd dt d A a blk t p (Q : unit → T → Prop) :
  receiving sock os b q A a t → place_of b q t p → queue_holds q hd dt → q_buf q = Some blk →
  (length dt + length d ≤ length blk)%nat →
  (∀ q' t' blk', receiving sock os b q' A a t' → place_of b q' t' p → queue_holds q' hd dt →
     q_buf q' = Some blk' → (q_buflen q' ≤ length blk')%nat → take (length dt + length d) blk' = Some <$> dt ++ d →
     Q tt t') →
  wp (write_buffer p (length dt) d) Q t.
Proof.
  intros HR Hp Hq Hblk Hlen HQ. unfold write_buffer. apply wp_bind.
  eapply wp_queue_at; [exact HR | exact Hp |]. unfold block_of. rewrite Hblk. apply wp_bind, wp_ret.
  rewrite decide_True by done. eapply wp_put_queue; [exact HR | exact Hp | by left |]. intros t' HR' Hp'.
  destruct Hq as [H1 H2 H3 (blk0 & Hblk0 & Hcap & Htake) H5]. rewrite Hblk in Hblk0. injection Hblk0 as <-.
  rewrite H5 in Htake.
  assert (length (take (length dt) blk ++ (Some <$> d) ++ drop (length dt + length d) blk) = length blk) as El
    by (rewrite !length_app, length_take, length_fmap, length_drop; lia).
  eapply HQ; [exact HR' | exact Hp' | | done | cbn; lia |].
  - constructor; cbn; [done | done | done | | done]. eexists. split_and!; [done | lia |].
    rewrite H5. rewrite take_app_le by (rewrite length_take; lia). by rewrite take_take, Nat.min_id.
  - rewrite (assoc_L (++)), Htake, <- fmap_app, take_app_le by (rewrite length_fmap, length_app; lia).
    by rewrite take_ge by (rewrite length_fmap, length_app; lia).
Qed.

Lemma wp_read_buffer sock os b q A a blk d n t p (Q : list Z → T → Prop) :
  receiving sock os b q A a t → place_of b q t p → q_buf q = Some blk → take n blk = Some <$> d → length d = n →
  Q d t → wp (read_buffer p n) Q t.
Proof.
  intros HR Hp Hblk Htake Hn HQ. unfold read_buffer. apply wp_bind.
  eapply wp_queue_at; [exact HR | exact Hp |]. unfold block_of. rewrite Hblk. apply wp_bind, wp_ret.
  pose proof (f_equal length Htake) as El. rewrite length_take, length_fmap in El.
  rewrite decide_True by lia. rewrite Htake, initialised_fmap. by apply wp_ret.
Qed.

(** What the queue holds when the bytes of a body are all there or are not *)
Lemma holds_kept sock q hd dt dt' blk :
  queue_holds q hd dt → q_buf q = Some blk → (q_buflen q ≤ length blk)%nat → take (length dt') blk = Some <$> dt' →
  queue_holds (kept_queue sock q (length dt')) hd dt'.
Proof. intros [H1 H2 H3 _ _] Hb Hl Ht. constructor; cbn; try done. by exists blk. Qed.

(** The connection is lost in the middle of a packet. *)
Definition broken sock os A t : Prop := ∃ b q hd dt a,
  receiving sock os b q A a t ∧ queue_holds q hd dt ∧ (b = false → q_socket q = 0 → idle q).

Lemma reading_broken sock os A hdr s n j t : reading sock os A hdr s n j t → broken sock os A t.
Proof.
  intros (b & q & hd & dt & a & [HR Hq _ Hi _ _ _ Hb]). exists b, q, hd, dt, a. split_and!; [done | done |].
  intros E E0. destruct (Hb E) as (Hj & -> & Hhd). rewrite (Hhd E0) in *. constructor; [done | done | by subst].
Qed.

(** The end of Socket_getdata: all of the body is there, or it is kept. *)
Lemma wp_finish sock os b q A hdr s body rest dt blk a rc t p (Q : option (list Z) * nat * Z → T → Prop) :
  receiving sock os b q A a t → place_of b q t p → queue_holds q hdr dt → q_buf q = Some blk →
  (q_buflen q ≤ length blk)%nat →
  ∀ dt', take (length dt') blk = Some <$> dt' → dt' ++ a = body ++ rest → s = hdr ++ body ++ rest →
  (length dt' ≤ length body)%nat → body ≠ [] →
  (∀ t', resting os (with_arriving sock rest A) t' → Q (Some body, length body, rc) t') →
  (∀ t', (length dt' < length body)%nat → interrupted sock os A hdr s (length body) t' → Q (Some dt', length dt', rc) t') →
  wp (buf ← read_buffer p (length dt');
      _ ← (if decide (length dt' = length body) then SocketBuffer_complete sock
           else SocketBuffer_interrupted sock (length dt'));
      mret (Some buf, length dt', rc)) Q t.
Proof.
  intros HR Hp Hq Hblk Hcap dt' Htake Heq -> Hle Hne HQ1 HQ2. apply wp_bind.
  eapply wp_read_buffer; [exact HR | exact Hp | exact Hblk | exact Htake | done |]. apply wp_bind.
  destruct (decide (length dt' = length body)) as [El | Hlt].
  - apply app_inj_1 in Heq as [-> ->]; [| done].
    eapply wp_read_complete; [exact HR | exact Hq |]. intros t' d _ _ _ HR'. apply wp_ret. by apply HQ1.
  - eapply wp_interrupted; [exact HR |]. intros t' HR'. apply wp_ret, HQ2; [lia |].
    exists (kept_queue sock q (length dt')), hdr, dt', a. split_and!; try done.
    + by eapply holds_kept.
    + by rewrite Heq.
    + intros _. split; [done | lia].
Qed.

Lemma wp_getdata sock os A hdr body rest t (Q : option (list Z) * nat * Z → T → Prop) :
  let s := hdr ++ body ++ rest in
  hdr ≠ [] → reading sock os A hdr s (length body) (length hdr) t →
  (∀ rc t', resting os (with_arriving sock rest A) t' → Q (Some body, if decide (length body = 0)%nat then 0%nat else length body, rc) t') →
  (∀ d n rc t', (n < length body)%nat → interrupted sock os A hdr s (length body) t' → Q (Some d, n, rc) t') →
  (∀ n rc t', body ≠ [] → broken sock os A t' → Q (None, n, rc) t') →
  wp (Socket_getdata sock (length body) 0 0) Q t.
Proof.
  intros s Hhdr (b & q & hd & dt & a & [HR Hq Hs Hi Hj Hpre Hdt Hb]) HQ1 HQ2 HQ3.
  assert (hd = hdr) as ->.
  { destruct Hpre as [k ->]. rewrite length_app in Hj. assert (k = []) as -> by (apply length_zero_iff_nil; lia).
    by rewrite app_nil_r. }
  assert (body ++ rest = dt ++ a) as Hda by (unfold s in Hs; by apply app_inv_head in Hs).
  unfold Socket_getdata. destruct (decide (length body = 0)%nat) as [Hz | Hnz].
  - assert (body = []) as -> by by apply length_zero_iff_nil.
    assert (dt = []) as ->.
    { destruct (decide (dt = [])) as [| Hne]; [done |]. destruct (Hdt Hne) as [_ ?]. cbn in *. lia. }
    cbn in Hda. subst a. apply wp_bind. eapply wp_read_complete; [exact HR | exact Hq |].
    intros t' d Hd Hidle Hbuf HR'. apply wp_bind. eapply wp_intro; [unfold default_queue; by rewrite Hd |].
    destruct (hold_data _ _ _ Hq) as (blk & Hblk & _). rewrite Hbuf, Hblk. apply wp_ret. by apply HQ1.
  - assert (length dt < length body)%nat as Hlt.
    { destruct (decide (dt = [])) as [-> | Hne]; [cbn; lia | by apply Hdt]. }
    apply wp_bind. eapply wp_getQueuedData; [exact HR | exact Hq | by intros E; apply Hb | lia |].
    clear t HR Hq. intros p q' t blk HR Hp Hq Hsock Hblk Hcap. cbv iota beta.
    apply wp_bind. eapply wp_queue_at; [exact HR | exact Hp |]. unfold block_of at 1. rewrite Hblk.
    apply wp_bind, wp_ret.
    apply wp_bind. eapply wp_recv; [exact HR |]. intros r a' t' HR' Hsame Hr.
    assert (body ≠ []) as Hne by (intros ->; done).
    assert (broken sock os A t') as Hbroken.
    { exists b, q', hdr, dt, a'. split_and!; [done | done |]. intros E E0. rewrite Hsock in E0.
      exfalso. apply Hhdr. by apply (Hb E). }
    eapply place_same in Hp; [| exact Hsame].
    destruct r as [[| c d] | err].
    + apply wp_ret. by apply HQ3.
    + destruct Hr as [Hd ->]. set (d' := c :: d) in *. apply wp_bind.
      eapply wp_write_buffer; [exact HR' | exact Hp | exact Hq | exact Hblk | lia |].
      intros q2 t2 blk2 HR2 Hp2 Hq2 Hblk2 Hcap2 Htake2. rewrite <- length_app in Htake2 |- *.
      eapply (wp_finish _ _ _ _ _ hdr s body rest); [exact HR2 | exact Hp2 | exact Hq2 | exact Hblk2 | exact Hcap2
        | exact Htake2 | by rewrite <- (assoc_L (++)) | done | rewrite length_app; lia | exact Hne | |].
      * intros t3 HR3. by apply HQ1.
      * intros t3 Hl HR3. by apply HQ2.
    + subst a'. destruct (would_block err); [| apply wp_ret; by apply HQ3].
      destruct (hold_data _ _ _ Hq) as (blk0 & Hblk0 & Hcap0 & Htake0). rewrite Hblk in Hblk0. injection Hblk0 as <-.
      rewrite (hold_datalen _ _ _ Hq) in Htake0.
      eapply (wp_finish _ _ _ _ _ hdr s body rest); [exact HR' | exact Hp | exact Hq | exact Hblk | exact Hcap0
        | exact Htake0 | done | done | lia | exact Hne | |].
      * intros t3 HR3. by apply HQ1.
      * intros t3 Hl HR3. by apply HQ2.
Qed.
End Packets.
