(* ===== verification/Connections.v ===== *)
(** * Whole packets on every connection

    The properties of reading over sockets: whatever pieces the system gives the
    bytes in, and however the reads of several connections alternate, the
    packets of each arrive whole and in order. *)
From S2P Require Import Prelude Buffers LinkedList Properties PacketIn Clients PacketOut Receive Protocol ProtocolLaws Restore SocketBuffer Socket SocketReads Pipes SocketPackets.
Local Open Scope Z_scope.

(** A packet on the way: the byte with its type and flags, and its body *)
Definition packet_bytes := (Z * list Z)%type.
Definition head_bytes (pk : packet_bytes) : list Z :=
  fst pk :: MQTTPacket_encode (Z.of_nat (length (snd pk))).
Definition wire_bytes (pk : packet_bytes) : list Z := head_bytes pk ++ snd pk.
Definition stream_bytes (pks : list packet_bytes) : list Z := mjoin (wire_bytes <$> pks).

Definition short (pk : packet_bytes) : Prop := Z.of_nat (length (snd pk)) < 268435456.

Definition next_head (pks : list packet_bytes) : list Z := from_option head_bytes [] (head pks).
Definition next_body (pks : list packet_bytes) : list Z := from_option snd [] (head pks).

Lemma head_encode n : 0 ≤ n < 268435456 →
  MQTTPacket_encode n = encode_loop 9 n ∧ (1 ≤ length (MQTTPacket_encode n) ≤ 4)%nat.
Proof.
  intros Hn. pose proof (encode_length_VBIlen n Hn) as Hlen. rewrite encode_small in * by lia.
  pose proof (encode_loop_pos 9 n). split; [done |].
  assert (MQTTPacket_VBIlen n ≤ 4) by (unfold MQTTPacket_VBIlen; repeat case_decide; lia). lia.
Qed.

Section Connections.
Context {K : Type} {HK : Kernel K} {KL : KernelLaws K}.
Notation T := (stack K).
Implicit Types (t : T) (q : socket_queue) (os : list socket_queue) (todo : gmap Z (list packet_bytes)).

(** ** What is still to be read

    [todo] are the packets of each connection that were not handed out; their
    bytes are those that are kept and those that will arrive. *)
Definition kept todo (A : Z → list Z) q : Prop :=
  q_index q = 0%nat ∧ ∃ pks hd dt, todo !! q_socket q = Some pks ∧ queue_holds q hd dt ∧
    stream_bytes pks = hd ++ dt ++ A (q_socket q) ∧ hd `prefix_of` next_head pks ∧
    (dt ≠ [] → hd = next_head pks ∧ (length dt < length (next_body pks))%nat).

Record streams todo t : Prop := {
  str_zero : todo !! 0 = None;
  str_short x pks : todo !! x = Some pks → Forall short pks;
  str_rest : ∃ os A, resting os A t ∧ Forall (kept todo A) os ∧
    ∀ x pks, todo !! x = Some pks → x ∉ q_socket <$> os → A x = stream_bytes pks;
}.

(** The connections but that of [sock] *)
Record others_kept todo (sock : Z) os (A : Z → list Z) : Prop := {
  oth_zero : todo !! 0 = None;
  oth_short x pks : todo !! x = Some pks → Forall short pks;
  oth_kept : Forall (kept todo A) os;
  oth_fresh x pks : x ≠ sock → todo !! x = Some pks → x ∉ q_socket <$> os → A x = stream_bytes pks;
  oth_sockets : sock ∉ q_socket <$> os;
}.

Lemma kept_ext todo todo' A A' q :
  A' (q_socket q) = A (q_socket q) → todo' !! q_socket q = todo !! q_socket q →
  kept todo A q → kept todo' A' q.
Proof. intros E1 E2 [H1 H2]. split; [done |]. by rewrite E1, E2. Qed.

Lemma kept_others todo todo' sock a A os :
  sock ∉ q_socket <$> os → (∀ x, x ≠ sock → todo' !! x = todo !! x) →
  Forall (kept todo A) os → Forall (kept todo' (with_arriving sock a A)) os.
Proof.
  intros Hos Htodo Hall. rewrite Forall_forall in Hall |- *. intros q Hq.
  assert (q_socket q ≠ sock) as Hne by (intros <-; apply Hos; by apply list_elem_of_fmap_2).
  eapply kept_ext; [| by apply Htodo | by apply Hall]. unfold with_arriving. by rewrite decide_False.
Qed.

Lemma streams_reading todo t sock pks :
  streams todo t → todo !! sock = Some pks →
  ∃ os A, reading sock os A (next_head pks) (stream_bytes pks) (length (next_body pks)) 0 t ∧
    others_kept todo sock os A.
Proof.
  intros [H0 Hshort (os & A & HR & Hos & HA)] Hsock.
  destruct (resting_receiving sock os A t HR) as (b & q & os' & HR' & Hb).
  pose proof (rcv_sockets _ _ _ _ _ _ _ HR') as Hnd. apply NoDup_cons in Hnd as [Hnotin _].
  exists os', A. destruct b.
  - destruct Hb as [Hp Hs]. rewrite Hp in Hos. apply Forall_cons in Hos as [(Hi & pks' & hd & dt & H1 & H2 & H3 & H4 & H5) Hos].
    rewrite Hs, Hsock in H1. injection H1 as <-. rewrite Hs in H3. split.
    + exists true, q, hd, dt, (A sock). constructor; try done. lia.
    + constructor; try done. intros x pks' Hx Hin Hout. apply HA; [done |]. rewrite Hp, fmap_cons, not_elem_of_cons.
      rewrite Hs. done.
  - destruct Hb as [-> [Hh Hs Hi]]. split.
    + exists false, q, [], [], (A sock). constructor; try done; [| by apply prefix_nil]. symmetry. by apply HA.
    + constructor; try done. intros x pks' _ Hx Hout. by apply HA.
Qed.

Lemma interrupted_streams todo t sock os A pks :
  interrupted sock os A (next_head pks) (stream_bytes pks) (length (next_body pks)) t →
  others_kept todo sock os A → todo !! sock = Some pks → streams todo t.
Proof.
  intros (q & hd & dt & a & HR & Hq & Hs & Hi & Hstr & Hpre & Hdt) [O1 O2 O3 O4 O5] Hsock.
  constructor; [done | done |]. exists (q :: os), (with_arriving sock a A). split_and!; [done | |].
  - constructor; [| by eapply kept_others]. split; [done |]. exists pks, hd, dt. rewrite Hs.
    unfold with_arriving. by rewrite decide_True.
  - intros x pks' Hx Hout. rewrite fmap_cons, not_elem_of_cons, Hs in Hout. destruct Hout as [Hne Hout].
    unfold with_arriving. rewrite decide_False by done. by apply O4.
Qed.

Lemma finished_streams todo t sock os A tl :
  resting os (with_arriving sock (stream_bytes tl) A) t → others_kept todo sock os A →
  sock ≠ 0 → Forall short tl → streams (<[sock := tl]> todo) t.
Proof.
  intros HR [O1 O2 O3 O4 O5] Hne Htl. constructor; [by rewrite lookup_insert_ne | |].
  - intros x pks. rewrite lookup_insert. case_decide; [by intros [= <-] | apply O2].
  - exists os, (with_arriving sock (stream_bytes tl) A). split_and!; [done | |].
    + eapply kept_others; [done | | exact O3]. intros x Hx. by rewrite lookup_insert_ne.
    + intros x pks. unfold with_arriving. rewrite lookup_insert. case_decide as E.
      * intros [= <-] _. by rewrite decide_True by done.
      * rewrite decide_False by congruence. apply O4. congruence.
Qed.

(** The connection is closed. *)
Lemma dropped_streams todo t sock os A a :
  resting os (with_arriving sock a A) t → others_kept todo sock os A → streams (delete sock todo) t.
Proof.
  intros HR [O1 O2 O3 O4 O5]. constructor.
  - destruct (decide (sock = 0)) as [-> |]; [by rewrite lookup_delete_eq | by rewrite lookup_delete_ne].
  - intros x pks [_ Hx]%lookup_delete_Some. by eapply O2.
  - exists os, (with_arriving sock a A). split_and!; [done | |].
    + eapply kept_others; [done | | exact O3]. intros x Hx. by rewrite lookup_delete_ne.
    + intros x pks [Hne Hx]%lookup_delete_Some Hout. unfold with_arriving.
      rewrite decide_False by done. by apply O4.
Qed.

Lemma wp_cleanup sock os A t (Q : unit → T → Prop) :
  sock ≠ 0 → broken sock os A t → (∀ a t', resting os (with_arriving sock a A) t' → Q tt t') →
  wp (SocketBuffer_cleanup sock) Q t.
Proof.
  intros Hne (b & q & hd & dt & a & HR & Hq & Hidle) HQ. unfold SocketBuffer_cleanup. apply wp_bind.
  unfold SocketBuffer_writeComplete. apply wp_bind, wp_gets.
  destruct (al_unlink _ _) as [w l]. apply wp_bind, wp_modify, wp_ret.
  match goal with |- wp _ _ ?t' => assert (receiving sock os b q A a t') as HR1 by (destruct HR; by constructor) end.
  apply wp_bind. eapply wp_find_queue; [exact HR1 |]. clear t HR HR1. intros k t HR Hk.
  assert (∀ x, arriving (st_kernel t) x = with_arriving sock a A x) as Harr.
  { intros x. unfold with_arriving. destruct (decide (x = sock)) as [-> | Hx]; apply HR; done. }
  destruct HR as [R1 R2 R3 R4 R5 R6 R7]. apply NoDup_cons in R4 as [_ R4]. apply wp_bind. destruct b.
  - destruct Hk as (i & -> & _ & Hi). destruct R7 as (d & Hd & Hidle'). cbn in Hi, Hd.
    apply wp_bind, wp_gets, wp_modify. apply wp_bind. eapply wp_intro; [unfold default_queue; cbn; by rewrite Hd |].
    rewrite (idle_socket _ Hidle'), decide_False by done. apply wp_ret, (HQ a).
    constructor; cbn; [done | done | done | | eauto]. apply (Permutation_cons_inv (a := q)). rewrite <- R6.
    by rewrite <- delete_Permutation.
  - subst k. apply wp_ret. apply wp_bind. eapply wp_intro; [unfold default_queue; by rewrite R7 |].
    destruct (decide (q_socket q = sock)) as [E | E].
    + apply wp_modify, (HQ a). pose proof (reset_idle _ _ _ Hq). constructor; cbn; eauto.
    + apply wp_ret, (HQ a). destruct R5 as [? | [_ E0]]; [done |]. constructor; eauto.
Qed.

(** ** A call of MQTTPacket_Factory *)
Definition same_input t t' : Prop :=
  heap_of t' = [] ∧ st_sockets t' = st_sockets t ∧ ∀ x, arriving (st_kernel t') x = arriving (st_kernel t) x.

Lemma streams_same todo t t' : same_input t t' → streams todo t → streams todo t'.
Proof.
  intros (Hh & Hs & Ha) [S1 S2 (os & A & [R1 R2 R3 R4 R5] & S3)]. constructor; [done | done |].
  exists os, A. split; [| done]. constructor; cbn in *; rewrite ?Hs; try done. intros x. by rewrite Ha.
Qed.

Lemma wp_touch_received net t (Q : networkHandles → T → Prop) :
  heap_of t = [] → (∀ n t', same_input t t' → Q n t') → wp (touch_received net) Q t.
Proof.
  intros Ht HQ. apply wp_bind. unfold now, stack_transport, system, wp at 1.
  destruct (clock (st_kernel t)) as [r k'] eqn:E. destruct (clock_law _ _ _ E) as [Ha _].
  apply wp_ret, HQ. done.
Qed.

(** The parser hands out [P] of a packet. *)
Definition parses_to v (pk : packet_bytes) (P : option Packet → Z → Prop) : Prop := ∀ net t,
  heap_of t = [] →
  wp (factory_parse v net (fst pk) (Z.of_nat (length (snd pk))) (snd pk) TCPSOCKET_COMPLETE)
    (λ r t', P (fst (fst r)) (snd (fst r)) ∧ same_input t t') t.

(** What a call of MQTTPacket_Factory for [sock] does *)
Inductive factory_outcome todo (sock : Z) (pks : list packet_bytes) (P : packet_bytes → option Packet → Z → Prop) :
    option Packet → Z → T → Prop :=
  | OutcomeNothing t' : streams todo t' → factory_outcome todo sock pks P None TCPSOCKET_INTERRUPTED t'
  | OutcomePacket pk tl pack err t' : pks = pk :: tl → P pk pack err → streams (<[sock := tl]> todo) t' →
      factory_outcome todo sock pks P pack err t'
  | OutcomeLost os A t' : broken sock os A t' → others_kept todo sock os A →
      factory_outcome todo sock pks P None SOCKET_ERROR t'.

Lemma wp_factory_end todo sock pks P pk tl v net t (Q : option Packet * Z * networkHandles → T → Prop) :
  pks = pk :: tl → parses_to v pk (P pk) → heap_of t = [] → streams (<[sock := tl]> todo) t →
  (∀ pack err n t', factory_outcome todo sock pks P pack err t' → Q (pack, err, n) t') →
  wp (r ← factory_parse v net (fst pk) (Z.of_nat (length (snd pk))) (snd pk) TCPSOCKET_COMPLETE;
      let '(pack, error, exit) := r : option Packet * Z * bool in
      net ← (match pack with
             | Some _ => if exit : bool then mret net else touch_received net
             | None => mret net
             end);
      mret (pack, error, net)) Q t.
Proof.
  intros Hpks Hparse Ht HS HQ. apply wp_bind. eapply wp_mono; [by apply Hparse |].
  intros [[pack err] exit] t1 [HP Hsame]. cbn in HP. pose proof (streams_same _ _ _ Hsame HS) as HS1.
  apply wp_bind. destruct pack as [pack |]; [destruct exit |].
  - do 2 apply wp_ret. apply HQ. by eapply OutcomePacket.
  - apply wp_touch_received; [apply Hsame |]. intros n t2 Hsame2. apply wp_ret, HQ.
    eapply OutcomePacket; [done | done | by eapply streams_same].
  - do 2 apply wp_ret. apply HQ. by eapply OutcomePacket.
Qed.

Lemma wp_factory_body sock v net todo pks P t (Q : option Packet * Z * networkHandles → T → Prop) :
  sock ≠ 0 → streams todo t → todo !! sock = Some pks →
  (∀ pk, head pks = Some pk → parses_to v pk (P pk)) →
  (∀ pack err n t', factory_outcome todo sock pks P pack err t' → Q (pack, err, n) t') →
  wp (@factory_body T _ _ _ (socket_receiver sock) v net) Q t.
Proof.
  intros Hne HS Hsock HP HQ. destruct (streams_reading todo t sock pks HS Hsock) as (os & A & HR & HO).
  pose proof (str_short _ _ HS _ _ Hsock) as Hshort. unfold factory_body. apply wp_bind.
  eapply wp_getch; [done | exact HR | lia | | | | |].
  { destruct pks as [| pk tl]; [by exists [] |]. exists (snd pk ++ stream_bytes tl). cbn. by rewrite <- (assoc_L (++)). }
  { destruct pks; [by right | left; cbn; lia]. }
  2: { intros t1 HI. rewrite decide_True by done. apply wp_ret, HQ, OutcomeNothing. by eapply interrupted_streams. }
  2: { intros t1 HI. rewrite decide_True by done. apply wp_ret, HQ. eapply OutcomeLost; [by eapply reading_broken | done]. }
  intros c t1 Hc HR1. cbv iota beta. rewrite decide_False by tauto.
  destruct pks as [| pk tl]; [done |]. cbn in Hc. injection Hc as <-.
  apply Forall_cons in Hshort as [Hpk Htl]. unfold short in Hpk.
  destruct (head_encode (Z.of_nat (length (snd pk))) ltac:(lia)) as [Henc Hlen].
  assert (stream_bytes (pk :: tl) = head_bytes pk ++ snd pk ++ stream_bytes tl) as Hstr
    by (unfold stream_bytes; cbn; by rewrite <- (assoc_L (++))).
  assert (length (next_head (pk :: tl)) ≤ 5)%nat as Hfive by (change (S (length (MQTTPacket_encode (Z.of_nat (length (snd pk))))) ≤ 5)%nat; lia).
  apply wp_bind. unfold MQTTPacket_decode.
  eapply (wp_decode_loop sock Hne os A (next_head (pk :: tl)) (stream_bytes (pk :: tl)) (snd pk ++ stream_bytes tl)
    (length (next_body (pk :: tl))) Hstr Hfive 9 (Z.of_nat (length (snd pk))) 5%nat 0 1 0 1%nat); try lia.
  { unfold MAX_NO_OF_REMAINING_LENGTH_BYTES. rewrite <- Henc. lia. }
  { rewrite <- Henc. lia. }
  { exact Henc. }
  { exact HR1. }
  2: { intros x t2 HI. rewrite decide_True by done. apply wp_ret, HQ, OutcomeNothing. by eapply interrupted_streams. }
  2: { intros x j' t2 HI. rewrite decide_True by done. apply wp_ret, HQ. eapply OutcomeLost; [by eapply reading_broken | done]. }
  intros t2 HR2. cbv iota beta. rewrite decide_False by tauto. rewrite Z.mul_1_r, Z.add_0_l.
  apply wp_bind, wp_bind. rewrite Nat2Z.id. rewrite Hstr in HR2.
  eapply (wp_getdata sock os A (head_bytes pk) (snd pk) (stream_bytes tl)); [done | exact HR2 | | |].
  - intros rc t3 HR3. apply wp_ret. cbv iota beta. rewrite decide_False by (by intros [_ ?]).
    rewrite decide_False by (case_decide; lia). cbn [default from_option].
    eapply wp_factory_end; [done | by apply HP | apply HR3 | | exact HQ]. by eapply finished_streams.
  - intros d n rc t3 Hlt HI. apply wp_ret. cbv iota beta. rewrite decide_False by (by intros [_ ?]).
    rewrite decide_True by lia. apply wp_bind.
    assert (streams todo t3) as HS3 by (eapply interrupted_streams; [| exact HO | exact Hsock]; by rewrite Hstr).
    destruct HS3 as [S1 S2 (os' & A' & [R1] & S3)].
    apply wp_touch_received; [done |]. intros net' t4 Hsame. apply wp_ret, HQ, OutcomeNothing.
    eapply streams_same; [exact Hsame |]. eapply interrupted_streams; [by rewrite Hstr | exact HO | exact Hsock].
  - intros n rc t3 Hbody HB. apply wp_ret. cbv iota beta. rewrite decide_True.
    2: { split; [| done]. intros E. apply Hbody, length_zero_iff_nil. lia. }
    apply wp_ret, HQ. by eapply OutcomeLost.
Qed.

Lemma wp_factory sock v net todo pks P t :
  sock ≠ 0 → streams todo t → todo !! sock = Some pks →
  (∀ pk, head pks = Some pk → parses_to v pk (P pk)) →
  wp (@MQTTPacket_Factory T _ _ _ (socket_receiver sock) v net)
    (λ r t', factory_outcome todo sock pks P (fst (fst r)) (snd (fst r)) t') t.
Proof.
  intros Hne HS Hsock HP. unfold MQTTPacket_Factory. apply wp_bind, wp_ret, wp_bind.
  eapply wp_factory_body; [done | done | done | exact HP |]. intros pack err n t' HO. cbv iota beta.
  apply wp_bind. by case_decide; do 2 apply wp_ret.
Qed.
End Connections.

(** ** Messages *)
Record sendable (v : Z) (f : flight) : Prop := {
  sd_qos : 0 ≤ f_qos f ≤ 2;
  sd_id : 0 ≤ f_id f < 65536;
  sd_dup : 0 ≤ f_dup f < 2;
  sd_retain : 0 ≤ f_retain f < 2;
  sd_topic : Z.of_nat (length (f_topic f)) < 65536;
  sd_props : MQTTVERSION_5 ≤ v → Forall valid_property (f_props f) ∧ fits (f_props f);
  sd_length : Z.of_nat (length (enc_publish (f_topic f) (f_qos f) v (f_id f) (f_props f) (f_payload f))) < 268435456;
}.

(** The PUBLISH of a message *)
Definition packet_of (v : Z) (f : flight) : packet_bytes :=
  (byte_of_header (flight_header f), enc_publish (f_topic f) (f_qos f) v (f_id f) (f_props f) (f_payload f)).

(** What MQTTPacket_Factory is to hand out for it *)
Definition arrived (v : Z) (f : flight) (p : Packet) : Prop := ∃ props,
  (MQTTVERSION_5 ≤ v → props_repr props (f_props f)) ∧
  p = PacketPublish (mkPublish (flight_header f) (Some (f_topic f)) (Z.of_nat (length (f_topic f)))
    (if decide (0 < f_qos f) then f_id f else 0) (Some (f_payload f)) (Z.of_nat (length (f_payload f)))
    v props [0; 0; 0; 0]).

Section Messages.
Context {K : Type} {HK : Kernel K} {KL : KernelLaws K}.
Notation T := (stack K).
Implicit Types (t : T).

Lemma publish_parses v f : sendable v f →
  parses_to v (packet_of v f) (λ pack _, ∃ p, pack = Some p ∧ arrived v f p).
Proof.
  intros [H1 H2 H3 H4 H5 H6 H7] net t Ht. cbn [packet_of fst snd].
  assert (valid_header (flight_header f)) as Hv by (unfold valid_header, PUBLISH; cbn; unfold PUBLISH; lia).
  destruct (byte_of_header_roundtrip _ Hv) as [_ Hh].
  destruct (parse_publish v (byte_of_header (flight_header f)) (f_topic f) (f_qos f) (f_id f)
    (f_props f) (f_payload f)) as (props & Hprops & Hparse); try done; try lia; [by rewrite Hh |].
  rewrite Hh in Hparse.
  set (p := mkPublish _ _ _ _ _ _ _ _ _) in Hparse.
  set (body := enc_publish _ _ _ _ _ _) in *.
  assert (arrived v f (PacketPublish p)) as Hp by (by exists props).
  unfold factory_parse. rewrite Hh.
  rewrite (decide_False (P := _ ∨ _)) by (cbn; unfold PUBLISH, CONNECT, DISCONNECT, AUTH; lia).
  rewrite Nat2Z.id.
  change (new_packets v (byte_of_header (flight_header f)) (length body) (type (flight_header f))) with
    (Some (r ← MQTTPacket_publish v (byte_of_header (flight_header f)) (length body);
      mret (PacketPublish <$> (r : option Publish)))). cbv iota beta.
  apply wp_bind. unfold run_parser, wp at 1. rewrite Ht, (bind_ok _ _ _ _ _ Hparse), ret_run. cbn [r_heap fmap option_fmap option_map].
  assert (same_input t (set_heap [] t)) as Hsame by done.
  destruct (decide (qos (flight_header f) = 2)).
  - apply wp_bind. eapply wp_intro; [by apply new_block_nofail |]. cbv iota beta.
    apply wp_bind. eapply wp_intro; [apply slice_run; lia |]. rewrite Nat2Z.id, firstn_all.
    apply wp_bind. unfold putPacket, stack_transport, system, wp at 1.
    match goal with |- context [store_packet ?a ?b ?c ?d ?e ?g ?h ?i] =>
      destruct (store_packet a b c d e g h i) as [r k'] eqn:E end.
    destruct (store_law _ _ _ _ _ _ _ _ _ _ E) as [Ha _].
    apply wp_bind. eapply wp_intro; [unfold free_block; cbn; by rewrite decide_True by set_solver |].
    apply wp_ret. cbn. split; [eauto | done].
  - apply wp_ret. cbn. split; [eauto | done].
Qed.

(** ** Any reads of any connections

    A caller that reads a packet from one connection after the other, and drops
    a connection that reports an error: the packets, and the connections that
    are left *)
Fixpoint read_all (v : Z) (nets : Z → networkHandles) (calls : list Z) (live : gset Z) :
    M T (list (Z * Packet) * gset Z) :=
  match calls with
  | [] => mret ([], live)
  | sock :: calls =>
    if decide (sock ∈ live) then
      r ← @MQTTPacket_Factory T _ _ _ (socket_receiver sock) v (nets sock);
      let '(pack, err, _) := r : option Packet * Z * networkHandles in
      match pack with
      | Some p =>
        r ← read_all v nets calls live;
        let '(rs, live) := r : list (Z * Packet) * gset Z in mret ((sock, p) :: rs, live)
      | None =>
        if decide (err = SOCKET_ERROR) then
          _ ← SocketBuffer_cleanup sock; read_all v nets calls (live ∖ {[sock]})
        else read_all v nets calls live
      end
    else read_all v nets calls live
  end.

(** The packets handed out on a connection *)
Definition handed_out (sock : Z) (rs : list (Z * Packet)) : list Packet :=
  omap (λ r, if decide (fst r = sock) then Some (snd r) else None) rs.

Definition todo_of (v : Z) (msgs : gmap Z (list flight)) : gmap Z (list packet_bytes) :=
  (λ fs : list flight, packet_of v <$> fs) <$> msgs.

(** Of the messages [msgs] those in [msgs'] are left, on the connections that
    are left, and the others were handed out in their order. *)
Definition progress (v : Z) (msgs msgs' : gmap Z (list flight)) (rs : list (Z * Packet)) : Prop :=
  ∀ x fs, msgs !! x = Some fs → ∃ k, Forall2 (arrived v) (take k fs) (handed_out x rs) ∧
    (msgs' !! x = Some (drop k fs) ∨ msgs' !! x = None).

Lemma progress_refl v msgs : progress v msgs msgs [].
Proof. intros x fs Hx. exists 0%nat. rewrite take_0, drop_0. auto. Qed.

Lemma progress_next v msgs msgs' rs sock f tl p :
  msgs !! sock = Some (f :: tl) → arrived v f p → progress v (<[sock := tl]> msgs) msgs' rs →
  progress v msgs msgs' ((sock, p) :: rs).
Proof.
  intros Hsock Hp HP x fs Hx. destruct (decide (x = sock)) as [-> | Hne].
  - rewrite Hsock in Hx. injection Hx as <-. destruct (HP sock tl) as (k & Hk & Hm); [by rewrite lookup_insert_eq |].
    exists (S k). cbn. rewrite decide_True by done. split; [by constructor | done].
  - destruct (HP x fs) as (k & Hk & Hm); [by rewrite lookup_insert_ne |]. exists k.
    cbn. by rewrite decide_False.
Qed.

Lemma progress_drop v msgs msgs' rs sock :
  progress v (delete sock msgs) msgs' rs → dom msgs' ⊆ dom (delete sock msgs) →
  Forall (λ r, fst r ∈ dom (delete sock msgs)) rs → progress v msgs msgs' rs.
Proof.
  intros HP Hsub Hrs x fs Hx. destruct (decide (x = sock)) as [-> |].
  - exists 0%nat. rewrite take_0. split.
    + assert (handed_out sock rs = []) as ->; [| done]. clear HP.
      induction Hrs as [| [y p] rs Hy _ IH]; [done |]. cbn in *. rewrite decide_False; [exact IH | set_solver].
    + right. apply not_elem_of_dom. set_solver.
  - apply HP. by rewrite lookup_delete_ne.
Qed.

(** The state when [msgs] are on their way *)
Definition underway (v : Z) (msgs : gmap Z (list flight)) t : Prop :=
  streams (todo_of v msgs) t ∧ (∀ x fs, msgs !! x = Some fs → Forall (sendable v) fs).

Lemma lookup_todo v msgs x fs : msgs !! x = Some fs → todo_of v msgs !! x = Some (packet_of v <$> fs).
Proof. intros Hx. unfold todo_of. by rewrite lookup_fmap, Hx. Qed.

Lemma wp_read_all v nets calls : ∀ msgs t,
  underway v msgs t →
  wp (read_all v nets calls (dom msgs)) (λ r t', ∃ msgs', underway v msgs' t' ∧ dom msgs' = snd r ∧
    dom msgs' ⊆ dom msgs ∧ Forall (λ r, fst r ∈ dom msgs) (fst r) ∧ progress v msgs msgs' (fst r)) t.
Proof.
  induction calls as [| sock calls IH]; intros msgs t [HS Hok]; cbn [read_all].
  { apply wp_ret. exists msgs. split_and!; [done | done | done | done | apply progress_refl]. }
  destruct (decide (sock ∈ dom msgs)) as [Hin | Hout]; [| by apply IH].
  apply elem_of_dom in Hin as [fs Hfs]. pose proof (lookup_todo v _ _ _ Hfs) as Htodo.
  pose proof (Hok _ _ Hfs) as Hall.
  assert (sock ≠ 0) as Hne by (intros ->; by rewrite (str_zero _ _ HS) in Htodo).
  apply wp_bind. eapply wp_mono; [eapply (wp_factory sock v (nets sock) (todo_of v msgs) (packet_of v <$> fs)
    (λ pk pack _, ∃ f p, pk = packet_of v f ∧ head fs = Some f ∧ pack = Some p ∧ arrived v f p)); [done.. |] |].
  { intros pk Hpk. destruct fs as [| f fs]; [done |]. injection Hpk as <-. apply Forall_cons in Hall as [Hf _].
    intros net t1 Ht1. eapply wp_mono; [by apply (publish_parses v f Hf) |]. cbv beta.
    intros r t2 [(p & Hp & Ha) Hsame]. split; [| done]. by exists f, p. }
  intros [[pack err] n] t1 HO. cbn [fst snd] in HO. cbv iota beta.
  destruct HO as [t1 HS1 | pk tl pack err t1 Hpks HP HS1 | os A t1 HB HK1].
  - rewrite decide_False by done. by apply IH.
  - destruct HP as (f & p & -> & Hf & -> & Ha). destruct fs as [| f' fs]; [done |]. injection Hf as ->. injection Hpks as <-.
    apply Forall_cons in Hall as [_ Hall]. apply wp_bind.
    assert (underway v (<[sock := fs]> msgs) t1) as HU.
    { split; [by unfold todo_of; rewrite fmap_insert |]. intros x fs'. rewrite lookup_insert.
      case_decide; [by intros [= <-] | apply Hok]. }
    assert (dom (<[sock := fs]> msgs) = dom msgs) as Hdom by by apply dom_insert_lookup_L.
    rewrite <- Hdom. eapply wp_mono; [by apply IH |]. cbv beta.
    intros [rs live] t2 (msgs' & HU' & Hdom' & Hsub & Hrs & HP). apply wp_ret. exists msgs'. split_and!; [done | done | done | |].
    + constructor; [| done]. rewrite Hdom. by apply elem_of_dom.
    + by eapply progress_next.
  - rewrite decide_True by done. apply wp_bind. eapply wp_cleanup; [done | exact HB |]. intros a t2 HR2.
    assert (underway v (delete sock msgs) t2) as HU.
    { split; [unfold todo_of; rewrite fmap_delete; by eapply dropped_streams |].
      intros x fs' [_ Hx]%lookup_delete_Some. by eapply Hok. }
    replace (dom msgs ∖ {[sock]}) with (dom (delete sock msgs)) by by rewrite dom_delete_L.
    eapply wp_mono; [by apply IH |]. cbv beta.
    intros [rs live] t3 (msgs' & HU' & Hdom' & Hsub & Hrs & HP). exists msgs'. split_and!; [done | done | set_solver | | by eapply progress_drop].
    eapply Forall_impl; [exact Hrs |]. cbv beta. set_solver.
Qed.

Lemma fresh_underway v msgs t :
  st_heap t = [] → st_sockets t = fresh_sockets → msgs !! 0 = None →
  (∀ x fs, msgs !! x = Some fs →
     Forall (sendable v) fs ∧ arriving (st_kernel t) x = stream_bytes (packet_of v <$> fs)) →
  underway v msgs t.
Proof.
  intros Ht Hs H0 Hmsgs. split; [| intros x fs Hx; by apply (Hmsgs x)]. constructor.
  - unfold todo_of. by rewrite lookup_fmap, H0.
  - intros x pks. unfold todo_of. rewrite lookup_fmap. intros (fs & Hx & ->)%fmap_Some.
    destruct (Hmsgs x fs Hx) as [Hall _]. apply Forall_fmap. eapply Forall_impl; [exact Hall |].
    intros f Hf. apply Hf.
  - exists [], (arriving (st_kernel t)). split_and!; [| constructor |].
    + constructor; cbn; rewrite ?Hs; try done; [constructor |]. exists new_queue. split; [done | exact new_queue_idle].
    + intros x pks. unfold todo_of. rewrite lookup_fmap. intros (fs & Hx & ->)%fmap_Some _. by apply Hmsgs.
Qed.

(** A message whose bytes have all been read is not held back. *)
Lemma nothing_held v msgs t x fs :
  underway v msgs t → msgs !! x = Some fs → arriving (st_kernel t) x = [] → fs = [].
Proof.
  intros [[_ _ (os & A & [R1 R2 R3 R4 R5] & Hos & HA)] _] Hx Ha. pose proof (lookup_todo v _ _ _ Hx) as Htodo.
  destruct fs as [| f fs]; [done |]. exfalso. rewrite R2 in Ha.
  set (pk := packet_of v f). assert (2 ≤ length (snd pk))%nat as Hbody.
  { cbn. unfold enc_publish, len_string. rewrite !length_app. cbn. lia. }
  assert (length (stream_bytes (packet_of v <$> f :: fs)) =
    length (head_bytes pk) + length (snd pk) + length (stream_bytes (packet_of v <$> fs)))%nat as Hlen.
  { unfold stream_bytes. cbn [fmap list_fmap mjoin list_join]. rewrite length_app. unfold wire_bytes at 1.
    by rewrite length_app. }
  destruct (decide (x ∈ q_socket <$> os)) as [(q & -> & Hq)%list_elem_of_fmap | Hout].
  - rewrite Forall_forall in Hos. destruct (Hos q Hq) as (_ & pks & hd & dt & H1 & _ & H2 & H3 & H4).
    rewrite Htodo in H1. injection H1 as <-. rewrite Ha, app_nil_r in H2.
    apply prefix_length in H3. change (length hd ≤ length (head_bytes pk))%nat in H3.
    change (dt ≠ [] → hd = head_bytes pk ∧ (length dt < length (snd pk))%nat) in H4.
    apply (f_equal length) in H2. rewrite length_app in H2.
    change (length (stream_bytes (packet_of v <$> f :: fs)) = length hd + length dt)%nat in H2. destruct (decide (dt = [])) as [-> | Hne]; [cbn [length] in H2; lia |].
    destruct (H4 Hne) as [_ ?]. lia.
  - rewrite (HA x _ Htodo Hout) in Ha. rewrite Ha in Hlen. cbn in Hlen. lia.
Qed.

(** The packets handed out for each connection are the first of its messages, and
    all of them when the connection is still open and all its bytes came. *)
Definition whole (v : Z) (msgs : gmap Z (list flight)) (r : list (Z * Packet) * gset Z) t : Prop :=
  ∀ x fs, msgs !! x = Some fs → ∃ k, Forall2 (arrived v) (take k fs) (handed_out x (fst r)) ∧
    (x ∈ snd r → arriving (st_kernel t) x = [] → take k fs = fs).

Lemma wp_read_whole v nets calls msgs t :
  underway v msgs t → wp (read_all v nets calls (dom msgs)) (whole v msgs) t.
Proof.
  intros HU. eapply wp_mono; [by apply wp_read_all |]. cbv beta.
  intros r t' (msgs' & HU' & Hopen & _ & _ & HP) x fs Hx. destruct (HP x fs Hx) as (k & Hk & Hleft).
  exists k. split; [done |]. intros Hin Ha. rewrite <- Hopen in Hin. apply elem_of_dom in Hin as [fs' Hfs'].
  pose proof (nothing_held _ _ _ _ _ HU' Hfs' Ha) as ->. destruct Hleft as [Hleft | Hleft]; rewrite Hfs' in Hleft; [| done].
  injection Hleft as Hd. rewrite <- (take_drop k fs) at 2. by rewrite <- Hd, app_nil_r.
Qed.

(** C10: the packets of every connection arrive whole and in order, however they
    are cut.  When the bytes of PUBLISH packets are under way on some sockets,
    and the program calls MQTTPacket_Factory for these sockets in any order and
    any number of times, while the system hands the bytes out in pieces of any
    size, lets reads fail with EAGAIN at any byte, or drops connections: then no
    call has a memory fault, the packets handed out for each socket are exactly
    the first of its messages, each with its topic, payload and properties, and
    once all bytes of a socket that is still open were received, all its messages
    have been handed out. *)
Theorem fragmented_reads v nets calls (msgs : gmap Z (list flight)) t :
  st_heap t = [] → st_sockets t = fresh_sockets → msgs !! 0 = None →
  (∀ x fs, msgs !! x = Some fs →
     Forall (sendable v) fs ∧ arriving (st_kernel t) x = stream_bytes (packet_of v <$> fs)) →
  wp (read_all v nets calls (dom msgs)) (whole v msgs) t.
Proof. intros Ht Hs H0 Hmsgs. by apply wp_read_whole, fresh_underway. Qed.
End Messages.

(** *** An instance: two connections, their bytes in small pieces *)
Definition hello (id q : Z) : flight := mkFlight id q 0 0 [97; 47; 98] [] [104; 105].
Definition two_streams : gmap Z (list flight) := {[ 3 := [hello 1 2; hello 2 1]; 5 := [hello 0 0] ]}.
Definition cut_pipes : pipes :=
  mkPipes ((λ fs : list flight, stream_bytes (packet_of 4 <$> fs)) <$> two_streams) ∅ [1; 0; 1; 1; 3; 0; 1; 2; 0; 1; 1; 4; 1]%nat.
Definition cut_calls : list Z := [3; 5; 3; 3; 5; 3; 5; 3; 5; 3; 5; 3; 5; 3].

Lemma hello_sendable id q : 0 ≤ id < 65536 → 0 ≤ q ≤ 2 → sendable 4 (hello id q).
Proof.
  intros Hid Hq. constructor; try done; cbn [hello f_qos f_id f_dup f_retain f_topic f_props f_payload]; try done.
  unfold enc_publish, len_string, enc_props_if. rewrite !length_app.
  destruct (decide (0 < q)); rewrite decide_False by (unfold MQTTVERSION_5; lia); cbn; lia.
Qed.

Lemma fragmented_reads_witness :
  wp (read_all 4 (λ sock, mkNet sock 0 0 0) cut_calls (dom two_streams)) (whole 4 two_streams) (start cut_pipes).
Proof.
  apply (fragmented_reads 4 (λ sock, mkNet sock 0 0 0) cut_calls two_streams (start cut_pipes)); [done | done | done |].
  intros x fs Hx. split.
  - unfold two_streams in Hx. apply lookup_insert_Some in Hx as [[_ <-] | [_ Hx]];
      [| apply lookup_singleton_Some in Hx as [_ <-]]; repeat constructor; by apply hello_sendable.
  - cbn. unfold inflow. cbn. by rewrite lookup_fmap, Hx.
Defined.

(** All of them are read. *)
Lemma cut_run :
  match read_all 4 (λ sock, mkNet sock 0 0 0) cut_calls (dom two_streams) (start cut_pipes) with
  | Ok (rs, open, _) => fst <$> rs = [3; 5; 3] ∧ open = {[3; 5]}
  | Err _ => False
  end.
Proof. by vm_compute. Qed.
