(* ===== verification/SocketWrites.v ===== *)
(** * Writes that are interrupted

    What leaves a socket, with what is still in the pending write of the socket,
    is what was given to Socket_putdatas, in order; the blocks of a pending write
    are freed when it is complete and not before. *)
From S2P Require Import Prelude Buffers LinkedList Properties PacketIn Clients PacketOut Receive Protocol ProtocolLaws SocketBuffer Socket SocketReads.
Local Open Scope Z_scope.

(** ** A pending write *)
Definition iov_bytes_of (l : list iobuf) : list Z := mjoin (iov_data <$> l).

(** The blocks that are freed with a list of buffers *)
Definition to_free (b : iobuf) : ptr := if iov_free b then iov_block b else None.
Definition owned (l : list iobuf) : list positive := omap to_free l.

(** The blocks of pending writes *)
Definition blocks (ws : list socket_write) : list positive := mjoin ((λ w, owned (w_iovecs w)) <$> ws).

Record write_ok (w : socket_write) : Prop := {
  wok_iovecs : Forall iov_ok (w_iovecs w);
  wok_total : w_total w = length (iov_bytes_of (w_iovecs w));
  wok_bytes : (w_bytes w < w_total w)%nat;
}.

Definition remaining (w : socket_write) : list Z := drop (w_bytes w) (iov_bytes_of (w_iovecs w)).

(** The bytes that wait for a socket *)
Definition waiting (ws : list socket_write) (x : Z) : list Z :=
  mjoin (remaining <$> filter (λ w, w_socket w = x) ws).

Lemma iov_bytes_of_app l l' : iov_bytes_of (l ++ l') = iov_bytes_of l ++ iov_bytes_of l'.
Proof. unfold iov_bytes_of. by rewrite fmap_app, join_app. Qed.

Lemma length_iov_data b : iov_ok b → length (iov_data b) = iov_len b.
Proof. unfold iov_ok, iov_data. rewrite length_take. lia. Qed.

Lemma waiting_app ws ws' x : waiting (ws ++ ws') x = waiting ws x ++ waiting ws' x.
Proof. unfold waiting. by rewrite filter_app, fmap_app, join_app. Qed.

Lemma waiting_one w x : waiting [w] x = if decide (w_socket w = x) then remaining w else [].
Proof.
  unfold waiting. cbn. case_decide; [| done]. cbn. by rewrite app_nil_r.
Qed.

Lemma waiting_none ws x : x ∉ w_socket <$> ws → waiting ws x = [].
Proof.
  intros Hx. unfold waiting. replace (filter (λ w, w_socket w = x) ws) with ([] : list socket_write); [done |].
  induction ws as [| w ws IH]; [done |].
  rewrite fmap_cons, not_elem_of_cons in Hx. destruct Hx as [Hne Hx].
  rewrite filter_cons_False by congruence. by apply IH.
Qed.

(** The buffers that Socket_continueWrite builds are the rest. *)
Lemma remaining_iovecs_ok bytes l : ∀ cur,
  Forall iov_ok l → Forall iov_ok (remaining_iovecs bytes cur l) ∧
    iov_bytes_of (remaining_iovecs bytes cur l) = drop (bytes - cur) (iov_bytes_of l).
Proof.
  induction l as [| b l IH]; intros cur Hl; [split; [done |]; by destruct (bytes - cur)%nat |].
  apply Forall_cons in Hl as [Hb Hl]. destruct (IH (cur + iov_len b)%nat Hl) as [IH1 IH2].
  cbn [remaining_iovecs]. change (iov_bytes_of (b :: l)) with (iov_data b ++ iov_bytes_of l).
  pose proof (length_iov_data b Hb) as Hlen.
  destruct (decide (bytes ≤ cur)%nat) as [Hle | Hgt].
  - split; [by constructor |]. change (iov_bytes_of (b :: ?r)) with (iov_data b ++ iov_bytes_of r).
    rewrite IH2. replace (bytes - cur)%nat with 0%nat by lia.
    by replace (bytes - (cur + iov_len b))%nat with 0%nat by lia.
  - destruct (decide (bytes < cur + iov_len b)%nat) as [Hlt | Hge].
    + split; [constructor; [| done]; unfold iov_ok in *; cbn; rewrite length_drop; lia |].
      change (iov_bytes_of (?b' :: ?r)) with (iov_data b' ++ iov_bytes_of r). rewrite IH2.
      replace (bytes - (cur + iov_len b))%nat with 0%nat by lia. rewrite drop_0, drop_app_le by lia.
      f_equal. unfold iov_data. cbn. by rewrite skipn_firstn_comm.
    + split; [done |]. rewrite IH2, drop_app_ge by lia. f_equal. lia.
Qed.

Lemma length_iov_bytes_of l : Forall iov_ok l → length (iov_bytes_of l) = sum_list (iov_len <$> l).
Proof.
  induction 1 as [| b l Hb _ IH]; [done |]. change (iov_bytes_of (b :: l)) with (iov_data b ++ iov_bytes_of l).
  rewrite length_app, length_iov_data, IH by done. done.
Qed.

(** The buffers Socket_putdatas builds *)
Definition flagged (buf0 : Buffer) (bufs : list Buffer) : list iobuf :=
  iobuf_of true buf0 :: ((λ b, iobuf_of (b_free b) b) <$> bufs).

Lemma iobuf_of_data frees b : iov_data (iobuf_of frees b) = b_data b.
Proof. unfold iov_data. cbn. apply firstn_all. Qed.

Lemma flagged_bytes buf0 bufs : iov_bytes_of (flagged buf0 bufs) = b_data buf0 ++ mjoin (b_data <$> bufs).
Proof.
  unfold iov_bytes_of, flagged. rewrite fmap_cons. cbn [mjoin list_join]. rewrite iobuf_of_data. f_equal.
  rewrite <- list_fmap_compose. f_equal. apply list_fmap_ext. intros i b _. apply iobuf_of_data.
Qed.

Lemma flagged_ok buf0 bufs : Forall iov_ok (flagged buf0 bufs).
Proof. constructor; [| apply Forall_fmap, Forall_true; intros b]; unfold iov_ok; cbn; done. Qed.

Section Writes.
Context {K : Type} {HK : Kernel K} {KL : KernelLaws K}.
Notation T := (stack K).
Implicit Types (t : T) (ws : list socket_write) (X : gset positive).

(** The pending writes are [ws], [L] left the sockets, and of the blocks those
    of [X] are the packet code's. *)
Record writing ws (L : Z → list Z) X t : Prop := {
  wr_heap : heap_of t = [];
  wr_leaving x : leaving (st_kernel t) x = L x;
  wr_writes : items (writes (sockets_of t)) = ws;
  wr_pending : items (write_pending (sockets_of t)) = w_socket <$> ws;
  wr_sockets : NoDup (w_socket <$> ws);
  wr_ok : Forall write_ok ws;
  wr_owned : NoDup (blocks ws);
  wr_live : live_of t = X ∪ list_to_set (blocks ws);
  wr_apart : X ## list_to_set (blocks ws);
  wr_default : ∃ d, def_queue (sockets_of t) = QReady d;
}.

(** What was accepted for a socket: what left and what waits *)
Definition held ws (L : Z → list Z) (x : Z) : list Z := L x ++ waiting ws x.

(** [out] was accepted, and something waits for the sockets [P]. *)
Definition flowing (out : Z → list Z) X (P : list Z) t : Prop :=
  ∃ ws L, writing ws L X t ∧ w_socket <$> ws = P ∧ ∀ x, out x = held ws L x.

(** No write fails; and every write takes something. *)
Definition gentle : Prop := ∀ sock d (k k' : K) err, writev sock d k = (WriteError err, k') → would_block err = true.
Record eager : Prop := {
  eager_writev sock d (k : K) : ∃ n k', writev sock d k = (Written n, k') ∧ (d ≠ [] → (0 < n)%nat);
  eager_pollout sock (k : K) : pollout sock k = true;
}.

Lemma eager_gentle : eager → gentle.
Proof. intros HE sock d k k' err E. destruct (eager_writev HE sock d k) as (n & k2 & E' & _). congruence. Qed.

Definition grown (sock : Z) (d : list Z) (L : Z → list Z) (x : Z) : list Z :=
  if decide (x = sock) then L x ++ d else L x.

(** ** Rules *)
Lemma al_find_index {A} (p : A → bool) (f : A → Z) (x : Z) l k w :
  (∀ a, p a ↔ f a = x) → NoDup (f <$> items l) → items l !! k = Some w → f w = x →
  fst (al_find p l) = Some k.
Proof.
  intros Hp Hnd Hk Hw. destruct (fst (al_find p l)) as [j |] eqn:E.
  - apply al_find_some in E as (a & Ha & Hpa). apply Hp in Hpa. f_equal.
    apply (NoDup_lookup _ _ _ x Hnd); rewrite list_lookup_fmap; [rewrite Ha | rewrite Hk]; cbn; by f_equal.
  - apply al_find_none in E. rewrite Forall_forall in E. exfalso. apply (E w); [by eapply list_elem_of_lookup_2 | by apply Hp].
Qed.

Lemma wp_noPendingWrites sock ws L X t (Q : bool → T → Prop) :
  writing ws L X t →
  (∀ t', writing ws L X t' → Q (bool_decide (sock ∉ w_socket <$> ws)) t') →
  wp (Socket_noPendingWrites sock) Q t.
Proof.
  intros HW HQ. unfold Socket_noPendingWrites. apply wp_bind, wp_gets.
  pose proof (al_find_items (intcompare sock) (write_pending (sockets_of t))) as Hi.
  assert (bool_decide (fst (al_find (intcompare sock) (write_pending (sockets_of t))) = None) =
    bool_decide (sock ∉ w_socket <$> ws)) as Hb.
  { apply bool_decide_ext. rewrite <- (wr_pending _ _ _ _ HW).
    destruct (fst (al_find _ _)) as [k |] eqn:E.
    - apply al_find_some in E as (x & Hx & Hp). unfold intcompare in Hp. apply bool_decide_unpack in Hp. subst x.
      split; [done |]. intros Hn. exfalso. apply Hn. by eapply list_elem_of_lookup_2.
    - split; [intros _ | done]. apply al_find_none in E. rewrite Forall_forall in E. intros Hin.
      apply (E sock Hin). by apply bool_decide_pack. }
  destruct (al_find _ _) as [k l]. cbn [fst snd] in Hi, Hb. apply wp_bind, wp_modify, wp_ret.
  rewrite Hb. apply HQ. destruct HW. constructor; try done. cbn. by rewrite Hi.
Qed.

Lemma wp_writev sock iovecs ws L X t (Q : Z * nat → T → Prop) :
  writing ws L X t → Forall iov_ok iovecs →
  (∀ rc n t', st_sockets t' = st_sockets t → (n ≤ length (iov_bytes_of iovecs))%nat →
     (rc = SOCKET_ERROR → n = 0%nat ∧ ¬ gentle) →
     (eager → iov_bytes_of iovecs ≠ [] → (0 < n)%nat) →
     writing ws (grown sock (take n (iov_bytes_of iovecs)) L) X t' → Q (rc, n) t') →
  wp (Socket_writev sock iovecs) Q t.
Proof.
  intros [W1 W2 W3 W4 W5 W6 W7 W8 W9] Hok HQ. unfold Socket_writev. rewrite decide_True by done.
  apply wp_bind. unfold system, wp at 1. destruct (writev _ _ _) as [r k'] eqn:E.
  destruct (writev_law _ _ _ _ _ E) as (_ & Hothers & Hr).
  assert (∀ n, leaving k' sock = leaving (st_kernel t) sock ++ take n (iov_bytes_of iovecs) →
    writing ws (grown sock (take n (iov_bytes_of iovecs)) L) X (mkStack (st_heap t) (st_live t) (st_sockets t) k')) as HW.
  { intros n Hn. constructor; try done. intros x. unfold grown. cbn. rewrite <- W2.
    case_decide; [by subst | by apply Hothers]. }
  destruct r as [n | err].
  - destruct Hr as [Hn Hl]. apply wp_ret, HQ; [done | done | unfold SOCKET_ERROR; lia | | by apply HW].
    intros HE Hd. destruct (eager_writev HE sock (iov_bytes_of iovecs) (st_kernel t)) as (n' & k2 & E' & Hpos).
    unfold iov_bytes_of in *. rewrite E in E'. injection E' as <- <-. by apply Hpos.
  - apply wp_ret, HQ; [done | lia | | |].
    + intros Herr. split; [done |]. intros HG. by rewrite (HG _ _ _ _ _ E) in Herr.
    + intros HE. destruct (eager_writev HE sock (iov_bytes_of iovecs) (st_kernel t)) as (n' & k2 & E' & _).
      unfold iov_bytes_of in *. congruence.
    + apply (HW 0%nat). by rewrite take_0, app_nil_r.
Qed.

(** Blocks are freed. *)
Lemma wp_free_iovecs l : ∀ t (Q : list iobuf → T → Prop),
  NoDup (owned l) → list_to_set (owned l) ⊆ live_of t →
  (∀ l', length l' = length l → Q l' (set_live (live_of t ∖ list_to_set (owned l)) t)) →
  wp (free_iovecs l) Q t.
Proof.
  induction l as [| b l IH]; intros t Q Hnd Hsub HQ; cbn [free_iovecs].
  { apply wp_ret. replace t with (set_live (live_of t ∖ list_to_set (owned [])) t) at 1; [by apply HQ |].
    cbn. rewrite difference_empty_L. by destruct t. }
  apply wp_bind. unfold owned in *. cbn [omap list_omap] in *. unfold to_free in *. destruct (iov_free b).
  - apply wp_bind. destruct (iov_block b) as [a |].
    + apply NoDup_cons in Hnd as [Ha Hnd]. cbn [list_to_set] in Hsub.
      eapply wp_intro; [unfold free_block; rewrite decide_True by set_solver; reflexivity |].
      apply wp_ret, wp_bind, IH; [done | cbn; set_unfold; intros x Hx; split; [by apply Hsub; right | by intros ->] |].
      intros l' Hl'. apply wp_ret. cbn in *.
      replace (st_live t ∖ ({[a]} ∪ list_to_set _)) with (st_live t ∖ {[a]} ∖ list_to_set (omap to_free l) : gset positive)
        in HQ by set_solver.
      apply HQ. cbn. by f_equal.
    + eapply wp_intro; [done |]. apply wp_ret, wp_bind, IH; [done | done |]. intros l' Hl'. apply wp_ret, HQ.
      cbn. by f_equal.
  - apply wp_ret, wp_bind, IH; [done | done |]. intros l' Hl'. apply wp_ret, HQ. cbn. by f_equal.
Qed.

(** ** A packet is given to the socket *)
Lemma wp_list_append_stack {A} (l : alist A) x t (Q : bool * alist A → T → Prop) :
  heap_of t = [] → Q (true, al_append x l) t → wp (list_append l x) Q t.
Proof.
  intros Ht HQ. apply wp_bind. eapply wp_intro; [by apply malloc_succeeds |]. by apply wp_ret.
Qed.

(** The outcome of a write: the bytes were accepted or not, and the socket keeps
    the blocks [B] of the packet when it could not write all of them. *)
Definition accepted (sock : Z) (d : list Z) (B : gset positive) (out : Z → list Z) X P rc t : Prop :=
  rc = SOCKET_ERROR ∧ flowing out X P t ∧ (gentle → sock ∈ P) ∨
  rc = TCPSOCKET_COMPLETE ∧ flowing (grown sock d out) X P t ∨
  rc = TCPSOCKET_INTERRUPTED ∧ flowing (grown sock d out) (X ∖ B) (P ++ [sock]) t.

Lemma writing_new sock iovecs n ws L X t t' :
  writing ws L X t → sock ∉ w_socket <$> ws → Forall iov_ok iovecs → (n < length (iov_bytes_of iovecs))%nat →
  NoDup (owned iovecs) → list_to_set (owned iovecs) ⊆ X →
  let w := mkWrite sock (length (iov_bytes_of iovecs)) n iovecs in
  heap_of t' = [] → (∀ x, leaving (st_kernel t') x = L x) → live_of t' = live_of t →
  def_queue (sockets_of t') = def_queue (sockets_of t) →
  items (writes (sockets_of t')) = ws ++ [w] → items (write_pending (sockets_of t')) = w_socket <$> ws ++ [w] →
  writing (ws ++ [w]) L (X ∖ list_to_set (owned iovecs)) t'.
Proof.
  intros [W1 W2 W3 W4 W5 W6 W7 W8 W9 W10] Hs Hok Hn Hnd Hsub w Hh HL Hl Hd Hw Hp.
  assert (blocks (ws ++ [w]) =
    blocks ws ++ owned iovecs) as Hown.
  { unfold blocks. rewrite fmap_app, join_app. cbn. by rewrite app_nil_r. }
  constructor; try done; rewrite ?Hown.
  - rewrite fmap_app. apply NoDup_app. split_and!; [done | | apply NoDup_singleton].
    intros x Hx ->%list_elem_of_singleton. done.
  - apply Forall_app. split; [done |]. by repeat constructor.
  - apply NoDup_app. split_and!; [done | | done]. intros x Hx Hx'. set_solver.
  - rewrite Hl, W8, list_to_set_app_L. apply set_eq. intros x.
    destruct (decide (x ∈ owned iovecs)); set_solver.
  - rewrite list_to_set_app_L. set_solver.
  - by rewrite Hd.
Qed.

Lemma wp_putdatas sock buf0 bufs out X P t (Q : Z → T → Prop) :
  let B := list_to_set (owned (flagged buf0 bufs)) in
  let d := b_data buf0 ++ mjoin (b_data <$> bufs) in
  flowing out X P t → (length bufs ≤ 4)%nat → NoDup (owned (flagged buf0 bufs)) → B ⊆ X →
  (∀ rc t', accepted sock d B out X P rc t' → Q rc t') →
  wp (Socket_putdatas sock buf0 bufs) Q t.
Proof.
  intros B d (ws & L & HW & HP & Hout) Hlen Hnd Hsub HQ. unfold held in Hout. unfold Socket_putdatas.
  apply wp_bind. eapply wp_noPendingWrites; [exact HW |]. clear t HW. intros t HW.
  destruct (bool_decide_reflect (sock ∉ w_socket <$> ws)) as [Hs | Hs]; cbn [negb].
  2: { apply dec_stable in Hs. apply wp_ret, HQ. left. split_and!; [done | by exists ws, L | by rewrite HP in Hs]. }
  rewrite decide_False by lia. fold (flagged buf0 bufs).
  pose proof (flagged_ok buf0 bufs) as Hok. rewrite <- (length_iov_bytes_of _ Hok).
  apply wp_bind. eapply wp_writev; [exact HW | exact Hok |]. intros rc n t1 Hsame Hn Herr _ HW1.
  rewrite (flagged_bytes buf0 bufs) in *. fold d in Hn, HW1 |- *. cbv iota beta.
  destruct (decide (rc = SOCKET_ERROR)) as [-> | Hrc].
  { apply wp_ret, HQ. left. destruct (Herr eq_refl) as [-> Hng]. split_and!; [done | | done].
    exists ws, L. split_and!; [| done | done].
    destruct HW1. constructor; try done. intros x. rewrite wr_leaving0. unfold grown. case_decide; [apply app_nil_r | done]. }
  destruct (decide (n = length d)) as [-> | Hne].
  { apply wp_ret, HQ. right. left. split; [done |]. exists ws, (grown sock d L).
    rewrite firstn_all in HW1. split_and!; [done | done |]. intros x. unfold held. unfold grown. case_decide as Hx; [| done]. subst x.
    by rewrite Hout, waiting_none, !app_nil_r by done. }
  pose proof (wr_heap _ _ _ _ HW1) as Hh1.
  apply wp_bind. eapply wp_intro; [by apply malloc_succeeds |]. cbn [negb]. unfold SocketBuffer_pendingWrite.
  apply wp_bind, wp_bind. eapply wp_intro; [by apply malloc_succeeds |]. cbn [negb].
  apply wp_bind, wp_gets, wp_bind, wp_list_append_stack; [done |].
  apply wp_bind, wp_modify, wp_ret. apply wp_bind, wp_gets, wp_bind, wp_list_append_stack; [done |]. cbv iota beta.
  apply wp_bind, wp_modify, wp_ret, HQ. right. right. split; [done |].
  set (w := mkWrite sock (length d) n (flagged buf0 bufs)).
  exists (ws ++ [w]), (grown sock (take n d) L). split_and!.
  - pose proof (flagged_bytes buf0 bufs) as Hd. fold d in Hd. clearbody d. subst d.
    apply (writing_new sock _ n ws _ X t1 _ HW1); try done.
    + lia.
    + apply (wr_leaving _ _ _ _ HW1).
    + cbn. by rewrite <- (wr_writes _ _ _ _ HW1).
    + cbn. pose proof (wr_pending _ _ _ _ HW1) as Hp. cbn in Hp. by rewrite Hp, fmap_app.
  - by rewrite fmap_app, HP.
  - intros x. unfold held. rewrite waiting_app, waiting_one. unfold grown. cbn [w w_socket]. case_decide as Hx.
    + subst x. rewrite decide_True by done. unfold remaining. cbn [w w_bytes w_iovecs].
      rewrite (flagged_bytes buf0 bufs), waiting_none, Hout, waiting_none, app_nil_r by done. cbn.
      by rewrite <- (assoc_L (++)), take_drop.
    + by rewrite decide_False, app_nil_r by congruence.
Qed.

(** ** A write goes on *)

(** The pending write [w] of [l1 ++ w :: l2] is over: its blocks are freed. *)
Record finished l1 w l2 (L : Z → list Z) X t : Prop := {
  fin_heap : heap_of t = [];
  fin_leaving x : leaving (st_kernel t) x = L x;
  fin_writes : ∃ w', w_socket w' = w_socket w ∧ items (writes (sockets_of t)) = l1 ++ w' :: l2;
  fin_pending : items (write_pending (sockets_of t)) = w_socket <$> l1 ++ w :: l2;
  fin_live : live_of t = X ∪ list_to_set (blocks (l1 ++ l2));
  fin_ok : Forall write_ok (l1 ++ l2);
  fin_sockets : NoDup (w_socket <$> l1 ++ w :: l2);
  fin_owned : NoDup (blocks (l1 ++ l2));
  fin_apart : X ## list_to_set (blocks (l1 ++ l2));
  fin_default : ∃ d, def_queue (sockets_of t) = QReady d;
}.

Lemma blocks_middle l1 w l2 : blocks (l1 ++ w :: l2) ≡ₚ owned (w_iovecs w) ++ blocks (l1 ++ l2).
Proof. unfold blocks. by rewrite <- Permutation_middle. Qed.

Lemma writing_middle l1 w l2 L X t :
  writing (l1 ++ w :: l2) L X t →
  write_ok w ∧ Forall write_ok (l1 ++ l2) ∧ NoDup (w_socket w :: (w_socket <$> l1 ++ l2)) ∧
  NoDup (owned (w_iovecs w) ++ blocks (l1 ++ l2)) ∧
  live_of t = X ∪ list_to_set (owned (w_iovecs w) ++ blocks (l1 ++ l2)) ∧
  X ## list_to_set (owned (w_iovecs w) ++ blocks (l1 ++ l2)).
Proof.
  intros [_ _ _ _ W5 W6 W7 W8 W9]. rewrite <- (blocks_middle l1 w l2).
  split_and!; try done; [| |].
  - rewrite Forall_app, Forall_cons in W6. tauto.
  - rewrite Forall_app, Forall_cons in W6. rewrite Forall_app. tauto.
  - rewrite <- fmap_cons, Permutation_middle. done.
Qed.

Lemma waiting_middle l1 w l2 x : w_socket w ∉ w_socket <$> l1 ++ l2 →
  waiting (l1 ++ w :: l2) x = if decide (x = w_socket w) then remaining w else waiting (l1 ++ l2) x.
Proof.
  intros Hw. rewrite fmap_app, not_elem_of_app in Hw. destruct Hw as [H1 H2].
  change (w :: l2) with ([w] ++ l2). rewrite !waiting_app, waiting_one. case_decide as Hx.
  - subst x. by rewrite decide_True, !waiting_none, app_nil_r by done.
  - by rewrite decide_False by congruence.
Qed.

Lemma alter_middle {A} (f : A → A) l1 x l2 : alter f (length l1) (l1 ++ x :: l2) = l1 ++ f x :: l2.
Proof. by rewrite alter_app_r_alt, Nat.sub_diag by lia. Qed.

Lemma wp_getWrite l1 w l2 L X t (Q : option nat → T → Prop) :
  writing (l1 ++ w :: l2) L X t →
  (∀ t', writing (l1 ++ w :: l2) L X t' → Q (Some (length l1)) t') →
  wp (SocketBuffer_getWrite (w_socket w)) Q t.
Proof.
  intros HW HQ. unfold SocketBuffer_getWrite, find_write. apply wp_bind, wp_gets.
  pose proof (al_find_items (pending_socketcompare (w_socket w)) (writes (sockets_of t))) as Hi.
  pose proof (al_find_index (pending_socketcompare (w_socket w)) w_socket (w_socket w)
    (writes (sockets_of t)) (length l1) w) as Hk.
  rewrite (wr_writes _ _ _ _ HW) in Hk, Hi. destruct (al_find _ _) as [k l]. cbn [fst snd] in Hk, Hi.
  rewrite Hk; [| | apply (wr_sockets _ _ _ _ HW) | by apply list_lookup_middle | done].
  2: { intros a. unfold pending_socketcompare. by rewrite bool_decide_spec. }
  apply wp_bind, wp_modify, wp_ret, HQ. destruct HW. by constructor.
Qed.

Lemma wp_write_at l1 w l2 t (Q : socket_write → T → Prop) :
  items (writes (sockets_of t)) = l1 ++ w :: l2 → Q w t → wp (write_at (length l1)) Q t.
Proof.
  intros Hw HQ. eapply wp_intro; [| exact HQ]. unfold write_at. by rewrite Hw, list_lookup_middle.
Qed.

(** The pending write of the list is replaced. *)
Definition with_write (k : nat) (w : socket_write) t : T :=
  let s := sockets_of t in
  set_sockets (mkSockets (def_queue s) (queues s) (al_alter (λ _, w) k (writes s)) (write_pending s)) t.

Lemma wp_put_write k w t (Q : unit → T → Prop) : Q tt (with_write k w t) → wp (put_write k w) Q t.
Proof. intros HQ. apply wp_bind, wp_gets, wp_modify, HQ. Qed.

(** Its blocks are freed and it is marked as done. *)
Lemma wp_write_over l1 w l2 L X t bytes {A} (a : A) (Q : A → T → Prop) :
  writing (l1 ++ w :: l2) L X t →
  (∀ t', finished l1 w l2 L X t' → Q a t') →
  wp (iovecs ← free_iovecs (w_iovecs w);
      _ ← put_write (length l1) (mkWrite (w_socket w) (w_total w) bytes iovecs); mret a) Q t.
Proof.
  intros HW HQ. destruct (writing_middle _ _ _ _ _ _ HW) as (_ & Hok & _ & Hnd & Hl & HX).
  apply NoDup_app in Hnd as (Hnd & Hdis & Hnd2). rewrite list_to_set_app_L in Hl, HX.
  apply wp_bind, wp_free_iovecs; [done | rewrite Hl; set_solver |]. intros iovecs _.
  apply wp_bind, wp_put_write, wp_ret, HQ. constructor.
  - apply (wr_heap _ _ _ _ HW).
  - apply (wr_leaving _ _ _ _ HW).
  - exists (mkWrite (w_socket w) (w_total w) bytes iovecs). split; [done |]. cbn.
    pose proof (wr_writes _ _ _ _ HW) as Hw. cbn in Hw. by rewrite Hw, alter_middle.
  - apply (wr_pending _ _ _ _ HW).
  - cbn in *. rewrite Hl. apply set_eq. intros x. specialize (HX x). specialize (Hdis x). set_solver.
  - exact Hok.
  - apply (wr_sockets _ _ _ _ HW).
  - exact Hnd2.
  - set_solver.
  - apply (wr_default _ _ _ _ HW).
Qed.

Lemma wp_continueWrite l1 w l2 L X t (Q : Z → T → Prop) :
  writing (l1 ++ w :: l2) L X t →
  (∀ t' w' d, writing (l1 ++ w' :: l2) (grown (w_socket w) d L) X t' →
     w_socket w' = w_socket w → remaining w = d ++ remaining w' → (eager → d ≠ []) → Q 0 t') →
  (∀ t', finished l1 w l2 (grown (w_socket w) (remaining w) L) X t' → Q 1 t') →
  (∀ t', ¬ gentle → finished l1 w l2 L X t' → Q SOCKET_ERROR t') →
  wp (Socket_continueWrite (w_socket w)) Q t.
Proof.
  intros HW HQ0 HQ1 HQ2. unfold Socket_continueWrite. apply wp_bind. eapply wp_getWrite; [exact HW |].
  clear t HW. intros t HW. apply wp_bind. eapply wp_write_at; [apply (wr_writes _ _ _ _ HW) |].
  destruct (writing_middle _ _ _ _ _ _ HW) as ([Hok Htot Hle] & Hrest & _).
  destruct (remaining_iovecs_ok (w_bytes w) (w_iovecs w) 0 Hok) as [Hok' Hbytes].
  rewrite Nat.sub_0_r in Hbytes. fold (remaining w) in Hbytes.
  assert (length (remaining w) = w_total w - w_bytes w)%nat as Hlen by (unfold remaining; rewrite length_drop; lia).
  apply wp_bind. eapply wp_writev; [exact HW | exact Hok' |]. rewrite Hbytes. intros rc n t1 Hsame Hn Herr Hpos HW1.
  cbv iota beta. destruct (decide (rc ≠ SOCKET_ERROR)) as [Hrc | Hrc].
  - destruct (decide (w_bytes w + n = w_total w)%nat) as [Hall | Hpart].
    + eapply wp_write_over; [exact HW1 |]. rewrite take_ge by lia. intros t2. apply HQ1.
    + apply wp_bind, wp_put_write, wp_ret.
      set (w' := mkWrite (w_socket w) (w_total w) (w_bytes w + n) (w_iovecs w)).
      assert (remaining w' = drop n (remaining w)) as Hr by (unfold remaining; by rewrite drop_drop).
      assert (0 < length (remaining w))%nat as Hne by lia.
      eapply (HQ0 _ w' (take n (remaining w))); [| done | by rewrite Hr, take_drop |].
      2: { intros HE E. apply (f_equal length) in E. rewrite length_take in E. cbn in E.
           assert (remaining w ≠ []) as Hd by (intros E'; rewrite E' in Hne; cbn in Hne; lia). specialize (Hpos HE Hd). lia. }
      destruct HW1 as [W1 W2 W3 W4 W5 W6 W7 W8 W9]. rewrite fmap_app, fmap_cons in W4, W5.
      unfold blocks in W7, W8, W9. rewrite fmap_app, fmap_cons in W7, W8, W9.
      constructor; try done; unfold blocks; rewrite ?fmap_app, ?fmap_cons; try done.
      * cbn. cbn in W3. by rewrite W3, alter_middle.
      * rewrite Forall_app, Forall_cons in W6 |- *. split_and!; try apply W6.
        constructor; [done | done | cbn; lia].
  - apply dec_stable in Hrc. subst rc. destruct (Herr eq_refl) as [-> Hng]. eapply wp_write_over; [| intros t2 HF; apply HQ2; [done | exact HF]].
    destruct HW1. constructor; try done. intros x. rewrite wr_leaving0. unfold grown. case_decide; [apply app_nil_r | done].
Qed.

Definition with_pending (l : alist Z) t : T :=
  let s := sockets_of t in set_sockets (mkSockets (def_queue s) (queues s) (writes s) l) t.

Lemma wp_writeComplete l1 w l2 L X t (Q : bool → T → Prop) :
  finished l1 w l2 L X t →
  (∀ t', items (write_pending (sockets_of t')) = w_socket <$> l1 ++ w :: l2 →
     (∀ l, items l = w_socket <$> l1 ++ l2 → writing (l1 ++ l2) L X (with_pending l t')) → Q true t') →
  wp (SocketBuffer_writeComplete (w_socket w)) Q t.
Proof.
  intros [F1 F2 (w' & Hw' & F3) F4 F5 F6 F7 F8 F9 F10] HQ. unfold SocketBuffer_writeComplete.
  apply wp_bind, wp_gets. unfold al_unlink.
  rewrite (al_find_index (pending_socketcompare (w_socket w)) w_socket (w_socket w) _ (length l1) w');
    [| | rewrite F3; by rewrite fmap_app, fmap_cons, Hw', <- fmap_cons, <- fmap_app | rewrite F3; by apply list_lookup_middle | done].
  2: { intros a. unfold pending_socketcompare. by rewrite bool_decide_spec. }
  rewrite F3, list_lookup_middle by done.
  apply wp_bind, wp_modify, wp_ret. rewrite bool_decide_true by by eexists. apply HQ; [exact F4 |].
  intros l Hl. constructor; try done; cbn.
  - cbn in F3. rewrite F3. apply delete_middle.
  - rewrite fmap_app, fmap_cons, <- Permutation_middle in F7. apply NoDup_cons in F7 as [_ F7]. by rewrite fmap_app.
Qed.

(** ** The round of the pending writes *)

(** The callbacks leave the writes alone.  This is so for
    MQTTProtocol_writeAvailable, which the API layers install, in the rounds
    where no acknowledgement waits for a socket that becomes free; otherwise it
    sends them and may start new writes, and the round is not of those the
    theorems are about. *)
Record polite (cb : callbacks) : Prop := {
  pol_continue sock ws L X t : writing ws L X t → wp (writecontinue cb sock) (λ _ t', writing ws L X t') t;
  pol_complete sock rc ws L X t : writing ws L X t → wp (writecomplete cb sock rc) (λ _ t', writing ws L X t') t;
  pol_available sock ws L X t : writing ws L X t → wp (writeAvailable cb sock) (λ _ t', writing ws L X t') t;
}.

(** How often the loop still goes round: a write that is over starts it anew. *)
Definition rounds (n len : nat) (cur : option nat) : nat :=
  len * S n + match cur with Some k => len - k | None => 0 end.

(** What a call of Socket_continueWrite does to the write [w] *)
Inductive stepped l1 w l2 (L : Z → list Z) X : Z → T → Prop :=
  | StepPart w' d t :
    writing (l1 ++ w' :: l2) (grown (w_socket w) d L) X t →
    w_socket w' = w_socket w → remaining w = d ++ remaining w' → (eager → d ≠ []) → stepped l1 w l2 L X 0 t
  | StepDone t : finished l1 w l2 (grown (w_socket w) (remaining w) L) X t → stepped l1 w l2 L X 1 t
  | StepFailed t : ¬ gentle → finished l1 w l2 L X t → stepped l1 w l2 L X SOCKET_ERROR t.

Lemma wp_stepped l1 w l2 L X t (ready : bool) :
  writing (l1 ++ w :: l2) L X t → (eager → ready = true) →
  wp (if ready then Socket_continueWrite (w_socket w) else mret 0) (stepped l1 w l2 L X) t.
Proof.
  intros HW Hready. destruct ready.
  - eapply wp_continueWrite; [exact HW | | |]; intros; by econstructor.
  - apply wp_ret. eapply (StepPart _ _ _ _ _ w []); [| done | done | by intros HE; specialize (Hready HE)].
    destruct HW. constructor; try done. intros x. rewrite wr_leaving0. unfold grown. case_decide; [by rewrite app_nil_r | done].
Qed.

(** What is still accepted after some writes failed: the bytes that left, or wait *)
Definition shrunk (out out' : Z → list Z) : Prop := ∀ x, out' x `prefix_of` out x.

(** The number of bytes that wait *)
Definition backlog ws : nat := length (mjoin (remaining <$> ws)).

Lemma backlog_middle l1 w l2 : backlog (l1 ++ w :: l2) = (length (remaining w) + backlog (l1 ++ l2))%nat.
Proof.
  unfold backlog. rewrite !fmap_app, fmap_cons, !join_app, !length_app.
  change (mjoin (?d :: ?r)) with (d ++ mjoin r). rewrite length_app. lia.
Qed.

Lemma held_part l1 w w' l2 L d x :
  w_socket w ∉ w_socket <$> l1 ++ l2 → w_socket w' = w_socket w → remaining w = d ++ remaining w' →
  held (l1 ++ w' :: l2) (grown (w_socket w) d L) x = held (l1 ++ w :: l2) L x.
Proof.
  intros Hw Hs Hr. unfold held. rewrite !waiting_middle, Hs by (by rewrite ?Hs). unfold grown.
  case_decide; [| done]. by rewrite Hr, (assoc_L (++)).
Qed.

Lemma held_done l1 w l2 L x :
  w_socket w ∉ w_socket <$> l1 ++ l2 →
  held (l1 ++ l2) (grown (w_socket w) (remaining w) L) x = held (l1 ++ w :: l2) L x.
Proof.
  intros Hw. unfold held. rewrite waiting_middle by done. unfold grown. case_decide as Hx; [| done].
  subst x. by rewrite (waiting_none (l1 ++ l2)), app_nil_r by done.
Qed.

Lemma held_failed l1 w l2 L :
  w_socket w ∉ w_socket <$> l1 ++ l2 → shrunk (held (l1 ++ w :: l2) L) (held (l1 ++ l2) L).
Proof.
  intros Hw x. unfold held. rewrite waiting_middle by done. case_decide as Hx; [| done].
  subst x. rewrite (waiting_none (l1 ++ l2)), app_nil_r by done. by eexists.
Qed.

(** The end of a write in the loop *)
Lemma wp_over cb l1 w l2 L X t rc (Q : option nat → T → Prop) :
  polite cb → finished l1 w l2 L X t →
  (∀ cur t', writing (l1 ++ l2) L X t' → Q cur t') →
  wp (_ ← SocketBuffer_writeComplete (w_socket w);
      l ← gets (λ t, write_pending (sockets_of t));
      let l := al_delete (length l1) l in
      _ ← set_write_pending l;
      _ ← (if decide (0 < rc) then writeAvailable cb (w_socket w) else mret tt);
      _ ← writecomplete cb (w_socket w) rc;
      mret (cursor l)) Q t.
Proof.
  intros HC HF HQ. apply wp_bind. eapply wp_writeComplete; [exact HF |]. intros t1 Hp HW.
  apply wp_bind, wp_gets, wp_bind, wp_modify. set (l := al_delete _ _).
  assert (writing (l1 ++ l2) L X (with_pending l t1)) as HW1.
  { apply HW. unfold l, al_delete. cbn [items]. rewrite Hp, !fmap_app, fmap_cons.
    rewrite <- (length_fmap w_socket l1). apply delete_middle. }
  apply wp_bind. eapply (wp_mono _ (λ _, writing (l1 ++ l2) L X)).
  { case_decide; [by apply (pol_available _ HC) | by apply wp_ret]. }
  intros _ t2 HW2. apply wp_bind. eapply wp_mono; [by apply (pol_complete _ HC) |]. cbv beta.
  intros _ t3 HW3. apply wp_ret. by apply HQ.
Qed.

Lemma rounds_less (l1 : list socket_write) w l2 n cur fuel :
  (rounds n (length (l1 ++ w :: l2)) (Some (length l1)) < S fuel)%nat → (length (l1 ++ w :: l2) ≤ n)%nat →
  (rounds n (length (l1 ++ l2)) cur < fuel)%nat.
Proof. unfold rounds. rewrite !length_app. cbn. intros H1 H2. destruct cur; nia. Qed.

(** What the loop does to the pending writes from the element [cur] on; [rc1] is
    the code so far. *)
Record rounded (cur : option nat) (rc1 : Z) ws (L : Z → list Z) (rc : Z) ws' (L' : Z → list Z) : Prop := {
  rnd_shrunk : shrunk (held ws L) (held ws' L');
  rnd_complete : rc = 0 → rc1 = 0 ∧ ∀ x, held ws' L' x = held ws L x;
  rnd_gentle : gentle → rc = rc1;
  rnd_sockets : w_socket <$> ws' ⊆ w_socket <$> ws;
  rnd_backlog : (backlog ws' ≤ backlog ws)%nat;
  rnd_progress k : eager → cur = Some k → (k < length ws)%nat → (backlog ws' < backlog ws)%nat;
}.

Lemma rounded_over cur rc1 rc2 ws L cur1 ws1 L1 rc ws' L' :
  rounded cur1 rc2 ws1 L1 rc ws' L' →
  shrunk (held ws L) (held ws1 L1) → (rc2 = 0 → rc1 = 0 ∧ ∀ x, held ws1 L1 x = held ws L x) →
  (gentle → rc2 = rc1) → w_socket <$> ws1 ⊆ w_socket <$> ws → (backlog ws1 ≤ backlog ws)%nat →
  (eager → (backlog ws1 < backlog ws)%nat) → rounded cur rc1 ws L rc ws' L'.
Proof.
  intros [R1 R2 R3 R4 R5 R6] H1 H2 H3 H4 H5 H6. constructor.
  - intros x. etrans; [apply R1 | apply H1].
  - intros E. destruct (R2 E) as [E1 Hx]. destruct (H2 E1) as [E2 Hy]. split; [done |]. intros x. by rewrite Hx, Hy.
  - intros HG. by rewrite R3, H3.
  - by etrans.
  - lia.
  - intros k HE _ _. specialize (H6 HE). lia.
Qed.

Lemma wp_continue_loop cb n (HC : polite cb) : ∀ fuel ws L X t cur rc1 err (Q : Z * option Z → T → Prop),
  writing ws L X t → (length ws ≤ n)%nat → (rounds n (length ws) cur < fuel)%nat →
  (∀ rc err' ws' L' t', writing ws' L' X t' → rounded cur rc1 ws L rc ws' L' → Q (rc, err') t') →
  wp (continue_loop fuel cb cur rc1 err) Q t.
Proof.
  induction fuel as [| fuel IH]; intros ws L X t cur rc1 err Q HW Hn Hfuel HQ; [lia |].
  cbn [continue_loop]. apply wp_bind, wp_gets. rewrite (wr_pending _ _ _ _ HW).
  assert ((∀ k, cur = Some k → ws !! k = None) → Q (rc1, err) t) as Hdone.
  { intros Hcur. apply (HQ _ _ ws L); [done |]. constructor; try done; [by intros x |].
    intros k _ Hk Hlt. apply Hcur, lookup_ge_None in Hk. lia. }
  destruct cur as [k |]; [| by apply wp_ret, Hdone]. cbn [mbind option_bind]. rewrite list_lookup_fmap.
  destruct (ws !! k) as [w |] eqn:Hk; [| by apply wp_ret, Hdone; intros j [= <-]]. clear Hdone.
  cbn [fmap option_fmap option_map].
  apply list_elem_of_split_length in Hk as (l1 & l2 & -> & ->).
  pose proof (writing_middle _ _ _ _ _ _ HW) as (Hw & _ & Hfresh & _). apply NoDup_cons in Hfresh as [Hfresh _].
  assert (w_socket <$> l1 ++ l2 ⊆ w_socket <$> l1 ++ w :: l2) as Hsub by (rewrite !fmap_app, fmap_cons; set_solver).
  assert (0 < length (remaining w))%nat as Hpos.
  { destruct Hw as [_ Htot Hlt]. unfold remaining. rewrite length_drop. lia. }
  apply wp_bind, wp_gets. cbv iota beta. apply wp_bind.
  eapply wp_mono; [apply wp_stepped; [done | by intros HE; apply (eager_pollout HE)] |]. cbv beta.
  intros rc t1 Hst. destruct Hst as [w' d t1 HW1 Hs Hr Hd | t1 HF | t1 HG HF].
  - (* the write is not over *)
    apply wp_bind. rewrite (decide_False (P := 0 ≠ 0)) by lia. apply wp_ret. apply wp_bind.
    rewrite (decide_True (P := 0 = 0)) by done. eapply wp_mono; [by eapply (pol_continue _ HC) |]. cbv beta.
    intros _ t2 HW2. rewrite decide_False by done. eapply IH; [exact HW2 | rewrite length_app in Hn |- *; cbn in *; lia | |].
    + unfold rounds in *. rewrite length_app in Hfuel |- *. cbn in Hfuel |- *. case_decide; lia.
    + intros rc err' ws' L' t3 HW3 HR. eapply HQ; [exact HW3 |].
      apply (f_equal length) in Hr as Hlen. rewrite length_app in Hlen.
      eapply rounded_over; [exact HR | | | done | | |].
      * intros x. by rewrite (held_part l1 w w' l2 L d x).
      * intros ->. split; [done |]. intros x. by apply held_part.
      * by rewrite !fmap_app, !fmap_cons, Hs.
      * rewrite !backlog_middle. lia.
      * intros HE. rewrite !backlog_middle. specialize (Hd HE). destruct d; [done | cbn in Hlen; lia].
  - (* it is complete *)
    rewrite (decide_True (P := 1 ≠ 0)) by lia. apply wp_bind. eapply wp_over; [exact HC | exact HF |].
    intros cur t2 HW2. rewrite (decide_False (P := 1 = 0)) by lia. apply wp_bind, wp_ret. rewrite decide_False by done.
    eapply IH; [exact HW2 | rewrite length_app in Hn |- *; cbn in Hn; lia | by eapply rounds_less |].
    intros rc err' ws' L' t3 HW3 HR. eapply HQ; [exact HW3 |].
    eapply rounded_over; [exact HR | | | done | done | |]; try (rewrite backlog_middle; lia).
    + intros x. by rewrite held_done.
    + intros ->. split; [done |]. intros x. by apply held_done.
  - (* it failed *)
    rewrite (decide_True (P := SOCKET_ERROR ≠ 0)) by done. apply wp_bind. eapply wp_over; [exact HC | exact HF |].
    intros cur t2 HW2. rewrite (decide_False (P := SOCKET_ERROR = 0)) by done. apply wp_bind, wp_ret. rewrite decide_True by done.
    eapply IH; [exact HW2 | rewrite length_app in Hn |- *; cbn in Hn; lia | by eapply rounds_less |].
    intros rc err' ws' L' t3 HW3 HR. eapply HQ; [exact HW3 |].
    eapply rounded_over; [exact HR | by apply held_failed | done | done | done | |]; rewrite backlog_middle; lia.
Qed.

(** The number of bytes that wait in a state *)
Definition waiting_bytes t : nat := backlog (items (writes (sockets_of t))).

Lemma wp_continueWrites cb fuel out X P t (Q : Z * option Z → T → Prop) :
  polite cb → flowing out X P t →
  (let n := length (items (write_pending (sockets_of t))) in n * S n + n < fuel)%nat →
  (∀ rc err out' P' t', flowing out' X P' t' → shrunk out out' → P' ⊆ P →
     (rc = 0 → ∀ x, out' x = out x) → (gentle → rc = 0) →
     (eager → P' = [] ∨ (waiting_bytes t' < waiting_bytes t)%nat) → Q (rc, err) t') →
  wp (Socket_continueWrites fuel cb) Q t.
Proof.
  intros HC (ws & L & HW & HP & Hout) Hfuel HQ. unfold Socket_continueWrites. apply wp_bind, wp_gets.
  rewrite (wr_pending _ _ _ _ HW), length_fmap in Hfuel. cbn zeta in Hfuel.
  eapply wp_continue_loop; [exact HC | exact HW | done | |].
  - unfold rounds. destruct (items _); lia.
  - intros rc err ws' L' t' HW' [R1 R2 R3 R4 R5 R6]. apply (HQ rc err (held ws' L') (w_socket <$> ws')).
    + by exists ws', L'.
    + intros x. rewrite Hout. apply R1.
    + by rewrite <- HP.
    + intros ->. destruct (R2 eq_refl) as [_ Heq]. intros x. by rewrite Heq, Hout.
    + exact R3.
    + intros HE. unfold waiting_bytes. rewrite (wr_writes _ _ _ _ HW), (wr_writes _ _ _ _ HW').
      destruct ws as [| w ws]; [left; apply list_nil_subseteq, R4 |]. right. apply (R6 0%nat); [done | | cbn; lia].
      by rewrite (wr_pending _ _ _ _ HW).
Qed.

(** ** The end of a socket *)

(** Only the queues of the reads, or the cursor of a list, have changed. *)
Lemma writing_same ws L X t t' :
  writing ws L X t → heap_of t' = heap_of t → st_kernel t' = st_kernel t → live_of t' = live_of t →
  items (writes (sockets_of t')) = items (writes (sockets_of t)) →
  items (write_pending (sockets_of t')) = items (write_pending (sockets_of t)) →
  (∃ d, def_queue (sockets_of t') = QReady d) → writing ws L X t'.
Proof.
  intros [W1 W2 W3 W4 W5 W6 W7 W8 W9 W10] H1 H2 H3 H4 H5 H6. constructor; try done.
  - by rewrite H1.
  - by rewrite H2.
  - by rewrite H4.
  - by rewrite H5.
  - by rewrite H3.
Qed.

(** Nothing waits for the socket: the lists are searched in vain. *)
Lemma al_find_absent {A} (p : A → bool) (f : A → Z) (x : Z) l :
  (∀ a, p a ↔ f a = x) → x ∉ f <$> items l → fst (al_find p l) = None.
Proof.
  intros Hp Hx. destruct (fst (al_find p l)) as [k |] eqn:E; [| done]. exfalso. apply Hx.
  apply al_find_some in E as (a & Ha & Hpa). apply Hp in Hpa as <-.
  apply list_elem_of_fmap_2. by eapply list_elem_of_lookup_2.
Qed.

Lemma pending_socketcompare_spec sock w : pending_socketcompare sock w ↔ w_socket w = sock.
Proof. unfold pending_socketcompare. by rewrite bool_decide_spec. Qed.
Lemma intcompare_spec sock x : intcompare sock x ↔ x = sock.
Proof. unfold intcompare. by rewrite bool_decide_spec. Qed.

Lemma wp_abortWrite l1 w l2 L X t (Q : Z → T → Prop) :
  writing (l1 ++ w :: l2) L X t → (∀ t', finished l1 w l2 L X t' → Q 0 t') →
  wp (Socket_abortWrite (w_socket w)) Q t.
Proof.
  intros HW HQ. unfold Socket_abortWrite. apply wp_bind. eapply wp_getWrite; [exact HW |].
  clear t HW. intros t HW. apply wp_bind. eapply wp_write_at; [apply (wr_writes _ _ _ _ HW) |].
  destruct (writing_middle _ _ _ _ _ _ HW) as (_ & Hok & _ & Hnd & Hl & HX).
  apply NoDup_app in Hnd as (Hnd & Hdis & Hnd2). rewrite list_to_set_app_L in Hl, HX.
  apply wp_bind, wp_free_iovecs; [done | rewrite Hl; set_solver |]. intros iovecs _. apply wp_ret, HQ.
  constructor; try apply HW; try done.
  - exists w. split; [done |]. apply (wr_writes _ _ _ _ HW).
  - cbn in *. rewrite Hl. apply set_eq. intros x. specialize (HX x). specialize (Hdis x). set_solver.
  - set_solver.
Qed.

Lemma wp_abort_nothing sock ws L X t (Q : Z → T → Prop) :
  writing ws L X t → sock ∉ w_socket <$> ws → (∀ t', writing ws L X t' → Q 0 t') →
  wp (Socket_abortWrite sock) Q t.
Proof.
  intros HW Hs HQ. unfold Socket_abortWrite, SocketBuffer_getWrite, find_write. apply wp_bind, wp_bind, wp_gets.
  pose proof (al_find_items (pending_socketcompare sock) (writes (sockets_of t))) as Hi.
  pose proof (al_find_absent (pending_socketcompare sock) w_socket sock (writes (sockets_of t))
    (pending_socketcompare_spec sock)) as Hk.
  rewrite (wr_writes _ _ _ _ HW) in Hk. destruct (al_find _ _) as [k l]. cbn [fst snd] in Hi, Hk.
  rewrite Hk by done. apply wp_bind, wp_modify, wp_ret, wp_ret, HQ.
  eapply writing_same; [exact HW | done | done | done | by cbn | done | apply (wr_default _ _ _ _ HW)].
Qed.

(** The queues of the reads of a socket are forgotten. *)
Lemma wp_forget_reads sock (R : T → Prop) t :
  (∃ d, def_queue (sockets_of t) = QReady d) →
  (∀ d l, R (set_sockets (mkSockets (QReady d) l (writes (sockets_of t)) (write_pending (sockets_of t))) t)) →
  wp (k ← find_queue sock;
      _ ← (match k : option nat with
           | Some k => l ← gets (λ t, queues (sockets_of t)); set_queues (al_delete k l)
           | None => mret tt
           end);
      q ← default_queue;
      if decide (q_socket q = sock) then set_def_queue (QReady (reset_queue q)) else mret tt)
    (λ _, R) t.
Proof.
  intros (d & Hd) HR. unfold find_queue. cbn in *. apply wp_bind, wp_bind, wp_gets.
  destruct (al_find _ _) as [k l]. apply wp_bind, wp_modify, wp_ret, wp_bind.
  assert (∀ l', wp (q ← default_queue;
      if decide (q_socket q = sock) then set_def_queue (QReady (reset_queue q)) else mret tt) (λ _, R)
    (set_sockets (mkSockets (QReady d) l' (writes (sockets_of t)) (write_pending (sockets_of t))) t)) as Hlast.
  { intros l'. apply wp_bind. eapply wp_intro; [done |]. case_decide; [apply wp_modify | apply wp_ret]; apply HR. }
  cbn. rewrite Hd. destruct k as [k |].
  - apply wp_bind, wp_gets, wp_modify. apply Hlast.
  - apply wp_ret. apply Hlast.
Qed.

(** Socket_close drops what waits for the socket, and frees its blocks. *)
Lemma wp_close_buffers sock ws L X t (Q : unit → T → Prop) :
  writing ws L X t →
  (sock ∉ w_socket <$> ws → ∀ t', writing ws L X t' → Q tt t') →
  (∀ l1 w l2 t', ws = l1 ++ w :: l2 → w_socket w = sock → writing (l1 ++ l2) L X t' → Q tt t') →
  wp (close_buffers sock) Q t.
Proof.
  intros HW HQ0 HQ1. unfold close_buffers, SocketBuffer_cleanup.
  destruct (decide (sock ∈ w_socket <$> ws)) as [Hin | Hout].
  - apply list_elem_of_fmap in Hin as (w & -> & (l1 & l2 & ->)%list_elem_of_split).
    apply wp_bind. eapply wp_abortWrite; [exact HW |]. intros t1 HF.
    apply wp_bind, wp_bind. eapply wp_writeComplete; [exact HF |]. intros t2 Hp HW2.
    pose proof (HW2 (AList (w_socket <$> l1 ++ l2) None) eq_refl) as HW3.
    eapply wp_mono; [eapply (wp_forget_reads _ (λ t', items (write_pending (sockets_of t')) = w_socket <$> l1 ++ w :: l2 ∧
      ∀ l, items l = w_socket <$> l1 ++ l2 → writing (l1 ++ l2) L X (with_pending l t'))) |].
    + apply (wr_default _ _ _ _ HW3).
    + intros d l. split; [exact Hp |]. intros l' Hl'.
      eapply writing_same; [exact (HW2 l' Hl') | done | done | done | done | done | by eexists].
    + cbv beta. intros _ t3 [Hp3 HW4]. apply wp_bind, wp_gets, wp_modify.
      apply (HQ1 l1 w l2); [done | done |]. apply HW4. unfold al_unlink.
      rewrite (al_find_index (intcompare (w_socket w)) id (w_socket w) _ (length l1) (w_socket w));
        [| apply intcompare_spec | | | done].
      * cbn [snd]. unfold al_delete. cbn [items]. rewrite Hp3, !fmap_app, fmap_cons.
        rewrite <- (length_fmap w_socket l1). apply delete_middle.
      * rewrite list_fmap_id, Hp3. apply (fin_sockets _ _ _ _ _ _ HF).
      * rewrite Hp3, list_lookup_fmap, list_lookup_middle by done. done.
  - apply wp_bind. eapply wp_abort_nothing; [exact HW | done |]. clear t HW. intros t HW.
    apply wp_bind, wp_bind. unfold SocketBuffer_writeComplete. apply wp_bind, wp_gets. unfold al_unlink.
    rewrite (al_find_absent (pending_socketcompare sock) w_socket sock); [| apply pending_socketcompare_spec |].
    2: { by rewrite (wr_writes _ _ _ _ HW). }
    apply wp_bind, wp_modify, wp_ret. eapply wp_mono; [eapply (wp_forget_reads _ (writing ws L X)) |].
    + apply (wr_default _ _ _ _ HW).
    + intros d l. eapply writing_same; [exact HW | done | done | done | done | done | by eexists].
    + cbv beta. intros _ t3 HW3. apply wp_bind, wp_gets, wp_modify. apply HQ0; [done |]. unfold al_unlink.
      rewrite (al_find_absent (intcompare sock) id sock); [| apply intcompare_spec |].
      2: { by rewrite list_fmap_id, (wr_pending _ _ _ _ HW3). }
      eapply writing_same; [exact HW3 | done | done | done | done | done | apply (wr_default _ _ _ _ HW3)].
Qed.

Lemma wp_close_flowing sock out X P t (Q : unit → T → Prop) :
  flowing out X P t →
  (∀ out' P' t', flowing out' X P' t' → shrunk out out' → (∀ x, x ≠ sock → out' x = out x) → P' ⊆ P → Q tt t') →
  wp (close_buffers sock) Q t.
Proof.
  intros (ws & L & HW & <- & Hout) HQ. eapply wp_close_buffers; [exact HW | |].
  - intros _ t' HW'. apply (HQ out (w_socket <$> ws)); [by exists ws, L | by intros x | done | done].
  - intros l1 w l2 t' -> <- HW'. pose proof (writing_middle _ _ _ _ _ _ HW) as (_ & _ & Hfresh & _).
    apply NoDup_cons in Hfresh as [Hfresh _]. apply (HQ (held (l1 ++ l2) L) (w_socket <$> l1 ++ l2)).
    + by exists (l1 ++ l2), L.
    + intros x. rewrite Hout. by apply held_failed.
    + intros x Hx. rewrite Hout. unfold held. rewrite waiting_middle by done. by rewrite decide_False.
    + rewrite !fmap_app, fmap_cons. set_solver.
Qed.
End Writes.
