(* ===== verification/Sending.v ===== *)
(** * Packets leave whole

    The senders of the packet code over sockets that take what they can: a
    packet is accepted as a whole or not at all, its bytes leave in order
    behind those accepted before, and its blocks are freed exactly once, by the
    sender or when the pending write is over. *)
From S2P Require Import Prelude Buffers LinkedList Properties PacketIn Clients PacketOut Receive Protocol ProtocolLaws SocketBuffer Socket SocketReads Pipes SocketWrites.
Local Open Scope Z_scope.

Section Senders.
Context {K : Type} {HK : Kernel K} {KL : KernelLaws K}.
Notation T := (stack K).
Implicit Types (t : T) (P : list Z) (X B : gset positive) (out : Z → list Z).

(** ** Operations that leave the writes alone *)
Lemma flowing_heap out X P t : flowing out X P t → heap_of t = [].
Proof. intros (ws & L & HW & _ & _). apply HW. Qed.

Lemma flowing_sub out X P t : flowing out X P t → X ⊆ live_of t.
Proof. intros (ws & L & HW & _ & _). rewrite (wr_live _ _ _ _ HW). set_solver. Qed.

Lemma flowing_live out X X' P t :
  flowing out X P t → (∀ a, a ∈ X' → a ∈ X ∨ a ∉ live_of t) →
  flowing out X' P (set_live (X' ∪ live_of t ∖ X) t).
Proof.
  intros (ws & L & [W1 W2 W3 W4 W5 W6 W7 W8 W9] & Hout) HX. exists ws, L. split; [| done].
  assert (X' ## list_to_set (blocks ws)) as Hap by (intros a Ha Hb; destruct (HX a Ha); set_solver).
  constructor; try done. cbn in *. rewrite W8. apply set_eq. intros a. specialize (W9 a). set_solver.
Qed.

Lemma wp_new_block out X P t (Q : ptr → T → Prop) :
  flowing out X P t →
  (∀ a t', a ∉ X → flowing out ({[a]} ∪ X) P t' → Q (Some a) t') → wp new_block Q t.
Proof.
  intros HF HQ. apply wp_bind. eapply wp_intro; [by eapply malloc_succeeds, flowing_heap |].
  apply wp_bind, wp_gets, wp_bind, wp_modify, wp_ret.
  pose proof (is_fresh (live_of t)) as Hf. pose proof (flowing_sub _ _ _ _ HF) as Hsub.
  apply HQ; [set_solver |].
  replace ({[fresh (live_of t)]} ∪ live_of t) with (({[fresh (live_of t)]} ∪ X) ∪ live_of t ∖ X).
  - apply (flowing_live _ X); [done |]. intros a. set_unfold. naive_solver.
  - apply set_eq. intros a. destruct (decide (a ∈ X)); set_solver.
Qed.

Lemma wp_free_block out a X P t (Q : unit → T → Prop) :
  flowing out ({[a]} ∪ X) P t → a ∉ X → (∀ t', flowing out X P t' → Q tt t') → wp (free_block (Some a)) Q t.
Proof.
  intros HF Ha HQ. pose proof (flowing_sub _ _ _ _ HF) as Hsub.
  eapply wp_intro; [unfold free_block; rewrite decide_True by set_solver; reflexivity |]. apply HQ.
  replace (live_of t ∖ {[a]}) with (X ∪ live_of t ∖ ({[a]} ∪ X)).
  - apply (flowing_live _ ({[a]} ∪ X)); [done |]. set_solver.
  - apply set_eq. intros b. destruct (decide (b ∈ X)); set_solver.
Qed.

Lemma flowing_system out X P t (k : K) :
  (∀ x, leaving k x = leaving (st_kernel t) x) → flowing out X P t →
  flowing out X P (mkStack (st_heap t) (st_live t) (st_sockets t) k).
Proof.
  intros Hk (ws & L & [W1 W2 W3 W4 W5 W6 W7 W8 W9] & HP & Hout). exists ws, L. split_and!; [| done | done].
  constructor; try done. intros x. cbn. by rewrite Hk.
Qed.

Lemma wp_touch_sent out X P t rc n (Q : networkHandles → T → Prop) :
  flowing out X P t → (∀ n' t', flowing out X P t' → Q n' t') → wp (touch_sent rc n) Q t.
Proof.
  intros HF HQ. unfold touch_sent. case_decide; [| by apply wp_ret, HQ].
  apply wp_bind. cbn [now stack_transport]. unfold system, wp at 1.
  destruct (clock (st_kernel t)) as [r k] eqn:E. apply clock_law in E as [_ E].
  apply wp_ret, HQ. by apply flowing_system.
Qed.

Lemma wp_store out X P t sock hdr bufs (buf : list Z) ty scr v (Q : unit → T → Prop) :
  flowing out X P t → (2 ≤ length buf)%nat → (∀ t', flowing out X P t' → Q tt t') →
  wp (msgId ← msgid_of buf; _ ← putPacket sock hdr bufs ty msgId scr v; mret tt) Q t.
Proof.
  intros HF Hb HQ. destruct (readInt_bounded (length buf) (Reader buf 0 [])) as [n Hn]; [cbn; lia |].
  apply wp_bind. eapply wp_intro; [unfold msgid_of; by rewrite Hn |].
  apply wp_bind. cbn [putPacket stack_transport]. unfold system, wp at 1.
  destruct (store_packet _ _ _ _ _ _ _ _) as [r k] eqn:E. apply store_law in E as [_ E].
  apply wp_ret, HQ. by apply flowing_system.
Qed.

(** ** A packet is handed over *)

(** A sender that holds the blocks [B] of a packet and the blocks [X] of others
    has handed over the bytes [d]: if the socket could not take all of them, the
    blocks [B] are its. *)
Definition handed (sock : Z) (d : list Z) B out X P rc t : Prop :=
  rc = SOCKET_ERROR ∧ flowing out (B ∪ X) P t ∧ (gentle (K := K) → sock ∈ P) ∨
  rc = TCPSOCKET_COMPLETE ∧ flowing (grown sock d out) (B ∪ X) P t ∨
  rc = TCPSOCKET_INTERRUPTED ∧ flowing (grown sock d out) X (P ++ [sock]) t.

Lemma wp_free_unless sock d a B out X P rc t (Q : unit → T → Prop) :
  handed sock d ({[a]} ∪ B) out X P rc t → a ∉ B → a ∉ X →
  (∀ t', handed sock d B out X P rc t' → Q tt t') → wp (free_unless_interrupted rc (Some a)) Q t.
Proof.
  intros HH HB HX HQ. unfold free_unless_interrupted.
  destruct HH as [(-> & HF & HG) | [[-> HF] | [-> HF]]].
  - rewrite decide_True by done. rewrite <- (assoc_L (∪)) in HF.
    eapply wp_free_block; [exact HF | set_solver |]. intros t' HF'. apply HQ. by left.
  - rewrite decide_True by done. rewrite <- (assoc_L (∪)) in HF.
    eapply wp_free_block; [exact HF | set_solver |]. intros t' HF'. apply HQ. right. by left.
  - rewrite decide_False by tauto. apply wp_ret, HQ. right. by right.
Qed.

Lemma wp_touch_handed sock d B out X P rc n t (Q : networkHandles → T → Prop) :
  handed sock d B out X P rc t → (∀ n' t', handed sock d B out X P rc t' → Q n' t') →
  wp (touch_sent rc n) Q t.
Proof.
  intros HH HQ. destruct HH as [(-> & HF & HG) | [[-> HF] | [-> HF]]];
    (eapply wp_touch_sent; [exact HF |]); intros n' t' HF'; apply HQ; unfold handed; auto.
Qed.

Lemma wp_put sock buf0 bufs msk B out X P t (Q : Z * list Z → T → Prop) :
  flowing out (B ∪ X) P t → B ## X → (length bufs ≤ 4)%nat →
  NoDup (owned (flagged buf0 bufs)) → list_to_set (owned (flagged buf0 bufs)) = B →
  (∀ rc t', handed sock (b_data buf0 ++ mjoin (b_data <$> bufs)) B out X P rc t' → Q (rc, msk) t') →
  wp (putdatas sock buf0 bufs msk) Q t.
Proof.
  intros HF HBX Hlen Hnd HB HQ. cbn [putdatas stack_transport]. apply wp_bind.
  eapply wp_putdatas; [exact HF | done | done | set_solver |]. rewrite HB.
  intros rc t' HA. apply wp_ret, HQ. unfold accepted in HA.
  by replace ((B ∪ X) ∖ B) with X in HA by (apply set_eq; set_solver).
Qed.

(** ** The senders *)
Lemma wp_send net header block buf fd v B out X P t (Q : Z * networkHandles → T → Prop) :
  flowing out (B ∪ X) P t → B ## X → list_to_set (owned [iobuf_of fd (mkBuffer block buf fd)]) = B →
  (type header = PUBREL → (2 ≤ length buf)%nat) →
  (∀ rc n t', handed (socket net) (enc_packet header buf) B out X P rc t' → Q (rc, n) t') →
  wp (MQTTPacket_send net header block buf fd v) Q t.
Proof.
  intros HF HBX HB Hty HQ. unfold MQTTPacket_send. apply wp_bind. eapply wp_new_block; [exact HF |].
  intros a t1 Ha HF1. apply wp_bind. eapply (wp_mono _ (λ _, flowing out ({[a]} ∪ (B ∪ X)) P)).
  { destruct (decide (type header = PUBREL)); [| by apply wp_ret]. eapply wp_store; [exact HF1 | by apply Hty | done]. }
  clear t1 HF1. intros _ t1 HF1.
  rewrite (assoc_L (∪)) in HF1. apply wp_bind. eapply wp_put; [exact HF1 | set_solver | cbn; lia | | |].
  { unfold flagged, owned in *. cbn in *. unfold to_free in *. cbn in *. destruct fd, block as [b |]; cbn in *;
      try apply NoDup_singleton. apply NoDup_cons. split; [set_solver | apply NoDup_singleton]. }
  { unfold flagged, owned in *. cbn in *. unfold to_free in *. cbn in *. by rewrite <- HB. }
  intros rc t2 HH. cbn [fst]. cbn [b_data fmap list_fmap mjoin list_join] in HH. rewrite app_nil_r in HH.
  change (PacketOut.fixed_header header (Z.of_nat (length buf)) ++ buf) with (enc_packet header buf) in HH.
  apply wp_bind. eapply wp_touch_handed; [exact HH |]. intros n t3 HH3.
  apply wp_bind. eapply wp_free_unless; [exact HH3 | set_solver | set_solver |]. intros t4 HH4.
  by apply wp_ret, HQ.
Qed.

Lemma wp_sends net header bufs lb msk v out X P t (Q : Z * list Z * networkHandles → T → Prop) :
  let B := list_to_set lb in
  flowing out (B ∪ X) P t → B ## X → owned ((λ b, iobuf_of (b_free b) b) <$> bufs) = lb → NoDup lb →
  (length bufs ≤ 4)%nat →
  (type header = PUBLISH ∧ qos header ≠ 0 → ∃ b, bufs !! 2%nat = Some b ∧ (2 ≤ length (b_data b))%nat) →
  (∀ rc msk n t', handed (socket net) (enc_packet header (mjoin (b_data <$> bufs))) B out X P rc t' → Q (rc, msk, n) t') →
  wp (MQTTPacket_sends net header bufs msk v) Q t.
Proof.
  intros B HF HBX Hown Hnd Hlen Hty HQ. unfold MQTTPacket_sends. apply wp_bind. eapply wp_new_block; [exact HF |].
  intros a t1 Ha HF1. apply wp_bind. eapply (wp_mono _ (λ _, flowing out ({[a]} ∪ (B ∪ X)) P)).
  { destruct (decide (type header = PUBLISH ∧ qos header ≠ 0)) as [Hd |]; [| by apply wp_ret].
    destruct (Hty Hd) as (b & -> & Hb). eapply wp_store; [exact HF1 | exact Hb | done]. }
  clear t1 HF1. intros _ t1 HF1. rewrite (assoc_L (∪)) in HF1.
  assert (owned (flagged (mkBuffer (Some a) (PacketOut.fixed_header header (Z.of_nat (length (mjoin (b_data <$> bufs))))) true) bufs) = a :: lb)
    as Hfl by (rewrite <- Hown; done).
  apply wp_bind. eapply wp_put; [exact HF1 | set_solver | done | rewrite Hfl; constructor; [set_solver | done] | by rewrite Hfl |].
  intros rc t2 HH. cbv iota beta. cbn [b_data] in HH.
  change (PacketOut.fixed_header header _ ++ mjoin (b_data <$> bufs)) with (enc_packet header (mjoin (b_data <$> bufs))) in HH.
  apply wp_bind. eapply wp_touch_handed; [exact HH |]. intros n t3 HH3.
  apply wp_bind. eapply wp_free_unless; [exact HH3 | set_solver | set_solver |]. intros t4 HH4.
  by apply wp_ret, HQ.
Qed.

(** The outcome of a sender: the packet was accepted or not. *)
Definition took (sock : Z) (d : list Z) out X P rc t : Prop := ∃ P',
  flowing (if decide (rc = SOCKET_ERROR) then out else grown sock d out) X P' t ∧
  (P' = P ∨ rc = TCPSOCKET_INTERRUPTED ∧ P' = P ++ [sock]) ∧
  (rc = SOCKET_ERROR → gentle (K := K) → sock ∈ P).

Lemma handed_took sock d out X P rc t : handed sock d ∅ out X P rc t → took sock d out X P rc t.
Proof.
  unfold handed, took. rewrite (left_id_L ∅ (∪)). intros [(-> & HF & HG) | [[-> HF] | [-> HF]]]; eexists.
  - rewrite decide_True by done. eauto.
  - rewrite decide_False by done. split_and!; [exact HF | by left | done].
  - rewrite decide_False by done. split_and!; [exact HF | by right | done].
Qed.

Lemma wp_send_block net header n w l v out X P t (Q : Z * networkHandles → T → Prop) :
  flowing out X P t → Buffers.writes w l tt → n = Z.of_nat (length l) → (type header = PUBREL → (2 ≤ length l)%nat) →
  (∀ rc n t', took (socket net) (enc_packet header l) out X P rc t' → Q (rc, n) t') →
  wp (send_block net header n w v) Q t.
Proof.
  intros HF Hw Hn Hty HQ. unfold send_block, alloc_block. rewrite decide_True by lia.
  apply wp_bind. eapply wp_new_block; [exact HF |]. intros a t1 Ha HF1.
  apply wp_bind. eapply wp_intro; [by apply fill_writes |].
  apply wp_bind. eapply (wp_send _ _ _ _ _ _ {[a]}); [exact HF1 | set_solver | | exact Hty |].
  { unfold owned. cbn. by rewrite (right_id_L ∅ (∪)). }
  intros rc n' t2 HH. cbn [fst]. apply wp_bind. rewrite <- (right_id_L ∅ (∪) {[a]}) in HH.
  eapply wp_free_unless; [exact HH | set_solver | done |]. intros t3 HH3. apply wp_ret, HQ. by apply handed_took.
Qed.
Lemma wp_publish_taken pack tp pl dp q rt l net out X P t (Q : Z * list Z * networkHandles → T → Prop) :
  publishable pack tp pl q l → flowing out X P t →
  (∀ rc msk n t', took (socket net) (enc_packet (header_of PUBLISH dp q rt)
     (enc_publish tp q (pub_MQTTVersion pack) (pub_msgId pack) l pl)) out X P rc t' → Q (rc, msk, n) t') →
  wp (MQTTPacket_send_publish pack dp q rt net) Q t.
Proof.
  intros Hp HF HQ. destruct (pub_topic _ _ _ _ _ Hp) as (blk & Htopic & <-).
  destruct (pub_payload _ _ _ _ _ Hp) as (pblk & Hpay & Hplen & ->).
  pose proof (pub_topic_short _ _ _ _ _ Hp) as Hshort. pose proof (pub_qos _ _ _ _ _ Hp) as Hqr.
  destruct (writes_publish_header _ _ _ _ _ Hp) as [Hw Hlen].
  unfold MQTTPacket_send_publish. apply wp_bind. eapply wp_new_block; [exact HF |]. intros a t1 Ha HF1.
  rewrite Htopic. cbn [deref]. apply wp_bind, wp_ret. rewrite i32_small by lia.
  set (tl := len_prefix (Z.of_nat (length (cstr blk)))).
  assert (∀ t0 : T, fill 2 (writeInt (Z.of_nat (length (cstr blk)))) t0 = Ok (tl, t0)) as Htl.
  { intros t0. apply fill_writes; [apply writes_writeInt; lia | done]. }
  set (pl := take (Z.to_nat (payloadlen pack)) pblk) in *.
  assert (∀ t0 : T, slice (payloadlen pack) (payload pack) t0 = Ok (pl, t0)) as Hslice.
  { intros t0. rewrite Hpay. by apply slice_run. }
  set (d := enc_packet _ _) in HQ. apply wp_bind.
  (* the first block is freed at the end in both cases *)
  assert (∀ rc msk n t', handed (socket net) d {[a]} out X P rc t' →
    wp (_ ← free_unless_interrupted rc (Some a); mret (rc, msk, n)) Q t') as Hend.
  { intros rc msk n t' HH. apply wp_bind. rewrite <- (right_id_L ∅ (∪) {[a]}) in HH.
    eapply wp_free_unless; [exact HH | set_solver | done |]. intros t2 HH2. apply wp_ret, HQ. by apply handed_took. }
  destruct (decide (0 < q ∨ 5 ≤ pub_MQTTVersion pack)) as [Hd | Hd].
  - set (hd := (if decide (0 < q) then len_prefix (pub_msgId pack) else []) ++
      enc_props_if (pub_MQTTVersion pack) l) in *.
    unfold alloc_block. rewrite Hlen, (decide_True (P := 0 ≤ Z.of_nat _)) by lia.
    apply wp_bind. eapply wp_new_block; [exact HF1 |]. intros b t2 Hb HF2.
    apply wp_bind. eapply wp_intro; [by apply fill_writes |]. apply wp_bind. eapply wp_intro; [apply Htl |].
    apply wp_bind. eapply wp_intro; [apply Hslice |].
    assert (({[b]} ∪ {[a]} : gset positive) = list_to_set [a; b]) as Hab by (apply set_eq; set_solver).
    rewrite (assoc_L (∪)), Hab in HF2. apply wp_bind. eapply (wp_sends _ _ _ [a; b]); [exact HF2 | set_solver | | | | |].
    + done.
    + apply NoDup_cons. split; [set_solver | apply NoDup_singleton].
    + cbn. lia.
    + intros [_ Hq]. exists (mkBuffer (Some b) hd true). split; [done |]. cbn. unfold hd.
      rewrite decide_True; [cbn; lia |]. destruct (decide (0 < q)); [done |]. exfalso. apply Hq. by replace q with 0 by lia.
    + intros rc msk n t3 HH. cbv iota beta. apply wp_bind. rewrite <- Hab in HH.
      eapply wp_free_unless; [exact HH | set_solver | set_solver |]. intros t4 HH4. apply wp_ret. cbv iota beta.
      apply Hend. replace d with (enc_packet (header_of PUBLISH dp q rt)
        (mjoin (b_data <$> [mkBuffer (Some a) tl true; mkBuffer None (cstr blk) false; mkBuffer (Some b) hd true; mkBuffer None pl false])));
        [exact HH4 |].
      unfold d. f_equal. cbn [fmap list_fmap b_data mjoin list_join]. rewrite app_nil_r.
      unfold enc_publish, len_string, hd, tl. by rewrite <- !(assoc_L (++)).
  - apply wp_bind. eapply wp_intro; [apply Htl |]. apply wp_bind. eapply wp_intro; [apply Hslice |].
    assert (({[a]} : gset positive) = list_to_set [a]) as Hab by (apply set_eq; set_solver).
    rewrite Hab in HF1. eapply (wp_sends _ _ _ [a]); [exact HF1 | set_solver | | | | |].
    + done.
    + apply NoDup_singleton.
    + cbn. lia.
    + intros [_ Hq]. exfalso. apply Hq. by replace q with 0 by lia.
    + intros rc msk n t3 HH. rewrite <- Hab in HH. cbv iota beta.
      apply Hend. replace d with (enc_packet (header_of PUBLISH dp q rt)
        (mjoin (b_data <$> [mkBuffer (Some a) tl true; mkBuffer None (cstr blk) false; mkBuffer None pl false])));
        [exact HH |].
      unfold d. f_equal. cbn [fmap list_fmap b_data mjoin list_join]. rewrite app_nil_r.
      unfold enc_publish, enc_props_if, len_string, tl. rewrite !decide_False by (unfold MQTTVERSION_5; lia).
      by rewrite <- !(assoc_L (++)).
Qed.

Lemma wp_send_ack v ty id net out X P t (Q : Z * networkHandles → T → Prop) :
  4 ≤ ty ≤ 7 → 0 ≤ id < 65536 → flowing out X P t →
  (∀ rc n t', took (socket net) (enc_ack ty id) out X P rc t' → Q (rc, n) t') →
  wp (MQTTPacket_send_ack v ty id 0 net) Q t.
Proof.
  intros Hty Hid HF HQ. unfold MQTTPacket_send_ack.
  eapply (wp_send_block _ _ _ _ (len_prefix id)); [exact HF | by apply writes_writeInt | done | done |].
  intros rc n t'. rewrite header_of_small by (try case_decide; lia). apply HQ.
Qed.

Lemma wp_send_pingreq net out X P t (Q : Z * networkHandles → T → Prop) :
  flowing out X P t →
  (∀ rc n t', took (socket net) (enc_packet (mkHeader PINGREQ 0 0 0) []) out X P rc t' → Q (rc, n) t') →
  wp (MQTTPacket_send_pingreq net) Q t.
Proof.
  intros HF HQ. unfold MQTTPacket_send_pingreq. eapply (wp_send _ _ _ _ _ _ ∅); [by rewrite (left_id_L ∅ (∪)) | set_solver | done | done |].
  intros rc n t' HH. apply HQ. by apply handed_took.
Qed.
End Senders.

(** ** A run of the program *)
Inductive request :=
  | SendAck (v ty id : Z) (net : networkHandles)
  | SendPing (net : networkHandles)
  | SendPublish (pack : Publish) (dp q rt : Z) (net : networkHandles)
  | Close (sock : Z)                     (* Socket_close *)
  | WriteRound.                          (* Socket_continueWrites *)

(** The socket and the packet of a request *)
Inductive carries : request → Z → list Z → Prop :=
  | CarriesAck v ty id net : 4 ≤ ty ≤ 7 → 0 ≤ id < 65536 → carries (SendAck v ty id net) (socket net) (enc_ack ty id)
  | CarriesPing net : carries (SendPing net) (socket net) (enc_packet (mkHeader PINGREQ 0 0 0) [])
  | CarriesPublish pack dp q rt net tp pl l : publishable pack tp pl q l →
    carries (SendPublish pack dp q rt net) (socket net) (enc_packet (header_of PUBLISH dp q rt)
      (enc_publish tp q (pub_MQTTVersion pack) (pub_msgId pack) l pl))
  | CarriesClose sock : carries (Close sock) sock []
  | CarriesNothing : carries WriteRound 0 [].

Section Runs.
Context {K : Type} {HK : Kernel K} (cb : callbacks (K := K)).

(** The completion code of a request *)
Definition perform (r : request) : M (stack K) Z :=
  match r with
  | SendAck v ty id net => r ← MQTTPacket_send_ack v ty id 0 net; mret (fst r)
  | SendPing net => r ← MQTTPacket_send_pingreq net; mret (fst r)
  | SendPublish pack dp q rt net => r ← MQTTPacket_send_publish pack dp q rt net; mret (fst (fst r))
  | Close sock => _ ← close_buffers sock; mret 0
  | WriteRound =>
    n ← gets (λ t, length (items (write_pending (sockets_of t))));
    r ← Socket_continueWrites (n * S n + n + 1) cb; mret (fst r)
  end.

Fixpoint perform_all (rs : list request) : M (stack K) (list Z) :=
  match rs with
  | [] => mret []
  | r :: rs => rc ← perform r; rcs ← perform_all rs; mret (rc :: rcs)
  end.
End Runs.

(** A request with its socket and packet *)
Definition order := (request * Z * list Z)%type.
Definition well_formed (o : order) : Prop := let '(r, sock, d) := o in carries r sock d.

(** The bytes of the packets the program was told are on their way *)
Fixpoint taken (x : Z) (os : list order) (rcs : list Z) : list Z :=
  match os, rcs with
  | (_, sock, d) :: os, rc :: rcs =>
    (if decide (x = sock ∧ rc ≠ SOCKET_ERROR) then d else []) ++ taken x os rcs
  | _, _ => []
  end.

(** Only sockets on which an earlier write was interrupted (and those of [P])
    reported errors. *)
Fixpoint justified (P : list Z) (os : list order) (rcs : list Z) : Prop :=
  match os, rcs with
  | (_, sock, _) :: os, rc :: rcs =>
    (rc = SOCKET_ERROR → sock ∈ P) ∧
    justified (if decide (rc = TCPSOCKET_INTERRUPTED) then sock :: P else P) os rcs
  | _, _ => True
  end.

(** The socket is not closed. *)
Definition stays_open (x : Z) (os : list order) : Prop := Forall (λ o, fst (fst o) ≠ Close x) os.

(** No round of writes reported an error. *)
Definition unbroken (os : list order) (rcs : list Z) : Prop :=
  Forall2 (λ o rc, fst (fst o) = WriteRound → rc = 0) os rcs.

Section Runs_laws.
Context {K : Type} {HK : Kernel K} {KL : KernelLaws K} (cb : callbacks (K := K)) (HC : polite cb).
Notation T := (stack K).
Implicit Types (t : T).

Lemma wp_perform r sock d out X P t (Q : Z → T → Prop) :
  carries r sock d → flowing out X P t →
  (∀ rc out' P' t', flowing out' X P' t' →
     ((r = WriteRound → rc = 0) → ∀ x, r ≠ Close x → out' x = out x ++ (if decide (x = sock ∧ rc ≠ SOCKET_ERROR) then d else [])) →
     (∀ x, x ∈ P' → x ∈ P ∨ x = sock ∧ rc = TCPSOCKET_INTERRUPTED) →
     (gentle (K := K) → if decide (rc = SOCKET_ERROR) then r ≠ WriteRound ∧ sock ∈ P else r = WriteRound → rc = 0) →
     Q rc t') →
  wp (perform cb r) Q t.
Proof.
  intros Hr HF HQ.
  assert (r ≠ WriteRound → ∀ rc t', took sock d out X P rc t' → Q rc t') as Htook.
  { intros Hne rc t' (P' & HT & HP & Herr). eapply HQ; [exact HT | | |].
    - intros _ x _. unfold grown.
      destruct (decide (rc = SOCKET_ERROR)) as [-> | Hrc]; [rewrite decide_False by tauto; by rewrite app_nil_r |].
      destruct (decide (x = sock)) as [-> | Hx]; [by rewrite decide_True by done | rewrite decide_False by tauto; by rewrite app_nil_r].
    - intros x Hx. destruct HP as [-> | [-> ->]]; [by left | set_solver].
    - intros HG. case_decide; [auto | done]. }
  destruct Hr as [v ty id net Hty Hid | net | pack dp q rt net tp pl l Hp | sock |]; cbn [perform].
  - apply wp_bind. eapply wp_send_ack; [done | done | exact HF |]. intros rc n t' HT. by apply wp_ret, Htook.
  - apply wp_bind. eapply wp_send_pingreq; [exact HF |]. intros rc n t' HT. by apply wp_ret, Htook.
  - apply wp_bind. eapply wp_publish_taken; [exact Hp | exact HF |]. intros rc msk n t' HT. by apply wp_ret, Htook.
  - apply wp_bind. eapply wp_close_flowing; [exact HF |]. intros out' P' t' HF' _ Hout HP. apply wp_ret.
    eapply HQ; [exact HF' | | |].
    + intros _ x Hx. rewrite Hout by congruence. case_decide; by rewrite app_nil_r.
    + intros x Hx. left. by apply HP.
    + intros _. by rewrite decide_False.
  - apply wp_bind, wp_gets, wp_bind. eapply wp_continueWrites; [exact HC | exact HF | cbn zeta; lia |].
    intros rc err out' P' t' HF' _ HP Hrc HG _. apply wp_ret. eapply HQ; [exact HF' | | |].
    + intros H0 x _. rewrite Hrc by by apply H0. case_decide; by rewrite app_nil_r.
    + intros x Hx. left. by apply HP.
    + intros HG'. by rewrite (HG HG').
Qed.

Lemma wp_perform_all (os : list order) : ∀ out X P P0 t,
  Forall well_formed os → flowing out X P t → P ⊆ P0 →
  wp (perform_all cb ((λ o, fst (fst o)) <$> os)) (λ rcs t', ∃ out' P', flowing out' X P' t' ∧
    (unbroken os rcs → ∀ x, stays_open x os → out' x = out x ++ taken x os rcs) ∧
    (gentle (K := K) → unbroken os rcs ∧ justified P0 os rcs)) t.
Proof.
  induction os as [| [[r sock] d] os IH]; intros out X P P0 t Hos HF HP.
  { apply wp_ret. exists out, P. split_and!; [done | |]; intros _; [intros x _; by rewrite app_nil_r | by split; [constructor |]]. }
  apply Forall_cons in Hos as [Ho Hos]. cbn [fmap list_fmap perform_all fst]. apply wp_bind.
  eapply wp_perform; [exact Ho | exact HF |]. intros rc out1 P1 t1 HF1 H1 H2 H3. apply wp_bind.
  eapply wp_mono; [eapply (IH _ _ _ (if decide (rc = TCPSOCKET_INTERRUPTED) then sock :: P0 else P0)); [done | exact HF1 |] |].
  { intros x Hx. destruct (H2 x Hx) as [Hx' | [-> ->]]; [| by rewrite decide_True by done; left].
    apply HP in Hx'. destruct (decide (rc = TCPSOCKET_INTERRUPTED)); [by right | done]. }
  cbv beta. intros rcs t2 (out2 & P2 & HF2 & H4 & H5). apply wp_ret. exists out2, P2. split_and!; [done | |].
  - intros [Hrc Hrcs]%Forall2_cons x [Hx Hxs]%Forall_cons. cbn [taken]. by rewrite H4, H1, (assoc_L (++)).
  - intros HG. destruct (H5 HG) as [Hu Hj]. specialize (H3 HG). cbn [justified]. destruct (decide (rc = SOCKET_ERROR)) as [Hrc | Hrc].
    + destruct H3 as [Hne Hin]. split_and!; [by constructor | intros _; by apply HP | done].
    + split_and!; [by constructor | done | done].
Qed.

Lemma fresh_flowing t :
  st_heap t = [] → st_live t = ∅ → st_sockets t = fresh_sockets → (∀ x, leaving (st_kernel t) x = []) →
  flowing (λ _, []) ∅ [] t.
Proof.
  intros Hh Hl Hs HL. exists [], (λ _, []). split_and!; [| done | done].
  constructor; cbn; rewrite ?Hs; try done; [apply NoDup_nil_2.. | by eexists].
Qed.

(** C9: packets leave whole, in order, and without leaks.  When the program sends
    acknowledgements, pings and PUBLISH packets on any sockets, lets
    Socket_continueWrites go on with the writes and closes sockets, in any order, while the system
    takes any number of bytes at each write, or none, or reports errors: then
    nothing fails in memory (no block is freed twice or used after it was
    freed), the blocks that are still allocated are those of the pending writes,
    and as long as no round of writes reported an error, the bytes of every
    socket that was not closed that left, followed by those that wait, are exactly the packets whose
    senders reported no error, in order.  If the system reports no error but
    EAGAIN, no round fails, and a sender reports an error only for a socket on
    which an earlier packet could not be written at once.  Two things are
    assumed: the allocations succeed, and the callbacks of a round leave the
    writes alone ([polite]), which MQTTProtocol_writeAvailable, the one the API
    layers install, does while no acknowledgement is queued. *)
Theorem packets_leave_whole (os : list order) t :
  st_heap t = [] → st_live t = ∅ → st_sockets t = fresh_sockets → (∀ x, leaving (st_kernel t) x = []) →
  Forall well_formed os →
  wp (perform_all cb ((λ o, fst (fst o)) <$> os)) (λ rcs t',
    let ws := items (writes (st_sockets t')) in
    st_live t' = list_to_set (blocks ws) ∧
    (unbroken os rcs → ∀ x, stays_open x os → leaving (st_kernel t') x ++ waiting ws x = taken x os rcs) ∧
    (gentle (K := K) → unbroken os rcs ∧ justified [] os rcs)) t.
Proof.
  intros Hh Hl Hs HL Hos. eapply wp_mono; [by eapply wp_perform_all; [| apply fresh_flowing |] |]. cbv beta.
  intros rcs t' (out & P & (ws & L & HW & HP & Hout) & Hrun & Hg). cbv zeta.
  change (st_sockets t') with (sockets_of t'). rewrite (wr_writes _ _ _ _ HW). split_and!; [| | done].
  - change (live_of t' = list_to_set (blocks ws)). by rewrite (wr_live _ _ _ _ HW), (left_id_L ∅ (∪)).
  - intros Hu x Hx. rewrite (wr_leaving _ _ _ _ HW). transitivity (out x); [symmetry; apply Hout | by apply Hrun].
Qed.

(** ** The writes come to an end *)
Lemma nothing_waits out X P t : flowing out X P t → waiting_bytes t = 0%nat → P = [].
Proof.
  intros (ws & L & HW & <- & _) H0. unfold waiting_bytes in H0. rewrite (wr_writes _ _ _ _ HW) in H0.
  destruct ws as [| w ws]; [done |]. exfalso. pose proof (wr_ok _ _ _ _ HW) as [[_ Ht Hb] _]%Forall_cons.
  change (w :: ws) with ([] ++ w :: ws) in H0. rewrite backlog_middle in H0. unfold remaining in H0. rewrite length_drop in H0. lia.
Qed.

Lemma wp_rounds (HE : eager (K := K)) n : ∀ out X P t,
  flowing out X P t → (waiting_bytes t ≤ n)%nat →
  wp (perform_all cb (replicate n WriteRound)) (λ _ t', flowing out X [] t') t.
Proof.
  induction n as [| n IH]; intros out X P t HF Hn; cbn [replicate perform_all].
  { apply wp_ret. by rewrite <- (nothing_waits _ _ _ _ HF) by lia. }
  apply wp_bind. cbn [perform]. apply wp_bind, wp_gets, wp_bind.
  eapply wp_continueWrites; [exact HC | exact HF | cbn zeta; lia |].
  intros rc err out' P' t1 HF1 _ _ Hrc HG Hw. apply wp_ret.
  specialize (Hrc (HG (eager_gentle HE))).
  assert (flowing out X P' t1) as HF2.
  { destruct HF1 as (ws & L & HW & HP & Hout). exists ws, L. split_and!; [done | done |]. intros x. by rewrite <- Hrc. }
  apply wp_bind. eapply wp_mono; [eapply IH; [exact HF2 |] |].
  - destruct (Hw HE) as [-> | ?]; [| lia].
    destruct HF2 as (ws & L & HW & ->%fmap_nil_inv & _). unfold waiting_bytes.
    rewrite (wr_writes _ _ _ _ HW). unfold backlog. cbn. lia.
  - cbv beta. intros rcs t2 HF3. by apply wp_ret.
Qed.

(** The requests, and then as many rounds of writes as bytes wait *)
Definition perform_and_drain (rs : list request) : M T (list Z) :=
  rcs ← perform_all cb rs;
  n ← gets waiting_bytes;
  _ ← perform_all cb (replicate n WriteRound);
  mret rcs.

Lemma wp_drained (HE : eager (K := K)) (os : list order) out X P t :
  Forall well_formed os → flowing out X P t →
  wp (perform_and_drain ((λ o, fst (fst o)) <$> os)) (λ rcs t', ∃ out', flowing out' X [] t' ∧
    justified P os rcs ∧ ∀ x, stays_open x os → out' x = out x ++ taken x os rcs) t.
Proof.
  intros Hos HF. apply wp_bind. eapply wp_mono; [by eapply wp_perform_all |]. cbv beta.
  intros rcs t1 (out1 & P1 & HF1 & Hrun & Hg). destruct (Hg (eager_gentle HE)) as [Hu Hj].
  apply wp_bind, wp_gets, wp_bind. eapply wp_mono; [eapply wp_rounds; [done | exact HF1 | lia] |]. cbv beta.
  intros _ t2 HF2. apply wp_ret. exists out1. auto.
Qed.

Lemma flowing_done out X t x : flowing out X [] t → leaving (st_kernel t) x = out x.
Proof.
  intros (ws & L & HW & ->%fmap_nil_inv & Hout). rewrite (wr_leaving _ _ _ _ HW), Hout.
  symmetry. apply app_nil_r.
Qed.

(** C11: all writes come to an end.  When the system takes at least a byte at each
    write, then after any requests Socket_continueWrites, called as often as
    bytes wait, leaves nothing behind: no write is pending, no block is
    allocated, and the bytes that left every socket that was not closed are exactly
    the packets whose senders reported no error.  The allocations succeed, and
    the callbacks leave the writes alone ([polite]), as in
    the theorem on packets that leave whole. *)
Theorem writes_drain (os : list order) t :
  eager (K := K) →
  st_heap t = [] → st_live t = ∅ → st_sockets t = fresh_sockets → (∀ x, leaving (st_kernel t) x = []) →
  Forall well_formed os →
  wp (perform_and_drain ((λ o, fst (fst o)) <$> os)) (λ rcs t',
    items (writes (st_sockets t')) = [] ∧ st_live t' = ∅ ∧ justified [] os rcs ∧
    ∀ x, stays_open x os → leaving (st_kernel t') x = taken x os rcs) t.
Proof.
  intros HE Hh Hl Hs HL Hos. eapply wp_mono; [by apply wp_drained, fresh_flowing |]. cbv beta.
  intros rcs t2 (out & HF & Hj & Hout). split_and!; [| | done |].
  - destruct HF as (ws & L & HW & ->%fmap_nil_inv & _). apply (wr_writes _ _ _ _ HW).
  - destruct HF as (ws & L & HW & ->%fmap_nil_inv & _). change (live_of t2 = ∅).
    by rewrite (wr_live _ _ _ _ HW), (left_id_L ∅ (∪)).
  - intros x Hx. by rewrite (flowing_done _ _ _ x HF), Hout.
Qed.
End Runs_laws.

(** *** An instance: two connections that take a few bytes at a time *)
Definition no_callbacks {K} : callbacks (K := K) := mkCallbacks (λ _, mret tt) (λ _ _, mret tt) (λ _, mret tt).

Lemma no_callbacks_polite {K} `{KernelLaws K} : polite (no_callbacks (K := K)).
Proof. constructor; intros; by apply wp_ret. Qed.

Definition note : Publish :=
  mkPublish (header_of PUBLISH 0 1 0) (Some [97; 47; 98; 0]) 3 7 (Some [104; 105]) 2 4 MQTTProperties_initializer [0; 0; 0; 0].
Definition to (sock : Z) : networkHandles := mkNet sock 0 0 0.
Definition mixed : list order := [
  (SendAck 4 PUBREC 2 (to 7), 7, enc_ack PUBREC 2); (Close 7, 7, []);
  (SendPublish note 0 1 0 (to 3), 3, enc_packet (header_of PUBLISH 0 1 0) (enc_publish [97; 47; 98] 1 4 7 [] [104; 105]));
  (SendAck 4 PUBACK 9 (to 3), 3, enc_ack PUBACK 9);
  (SendPing (to 5), 5, enc_packet (mkHeader PINGREQ 0 0 0) []);
  (WriteRound, 0, []); (WriteRound, 0, []);
  (SendAck 4 PUBACK 9 (to 3), 3, enc_ack PUBACK 9); (WriteRound, 0, [])].
Definition slow_pipes : pipes := mkPipes ∅ ∅ [1; 5; 0; 4; 1; 100; 1; 2]%nat.

Lemma mixed_well_formed : Forall well_formed mixed.
Proof.
  repeat apply Forall_cons_2; try apply Forall_nil_2; cbn; try by constructor.
  apply (CarriesPublish note 0 1 0 (to 3) [97; 47; 98] [104; 105] []). constructor; try done.
  - by exists [97; 47; 98; 0].
  - by exists [104; 105].
Qed.

Lemma packets_leave_whole_witness :
  wp (perform_all no_callbacks ((λ o, fst (fst o)) <$> mixed)) (λ rcs t',
    let ws := items (writes (st_sockets t')) in
    st_live t' = list_to_set (blocks ws) ∧
    (unbroken mixed rcs → ∀ x, stays_open x mixed → leaving (st_kernel t') x ++ waiting ws x = taken x mixed rcs) ∧
    (gentle (K := pipes) → unbroken mixed rcs ∧ justified [] mixed rcs)) (start slow_pipes).
Proof.
  apply (packets_leave_whole no_callbacks no_callbacks_polite mixed (start slow_pipes));
    [done | done | done | done | exact mixed_well_formed].
Defined.

Lemma mixed_run :
  match perform_all no_callbacks ((λ o, fst (fst o)) <$> mixed) (start slow_pipes) with
  | Ok (rcs, t') => rcs = [-22; 0; -22; -1; -22; 0; 0; -22; 0] ∧ items (writes (st_sockets t')) = [] ∧
    st_live t' = ∅ ∧ outflow (st_kernel t') 7 = [80] ∧
    outflow (st_kernel t') 3 = enc_packet (header_of PUBLISH 0 1 0) (enc_publish [97; 47; 98] 1 4 7 [] [104; 105]) ++ enc_ack PUBACK 9
  | Err _ => False
  end.
Proof. by vm_compute. Qed.

(** *** An instance: a system that takes a few bytes at each write *)
Record steady := mkSteady { sy_out : gmap Z (list Z); sy_pace : nat }.

Definition steady_out (k : steady) (sock : Z) : list Z := default [] (sy_out k !! sock).

Definition portion (k : steady) (d : list Z) : nat := Nat.min (S (sy_pace k)) (length d).

#[export] Instance steady_kernel : Kernel steady := {
  would_block err := bool_decide (err = EAGAIN);
  recv sock n k := (RecvError EAGAIN, k);
  writev sock d k :=
    let n := portion k d in
    (Written n, mkSteady (<[sock := steady_out k sock ++ take n d]> (sy_out k)) (sy_pace k));
  pollout sock k := true;
  clock k := (0, k);
  store_packet _ _ _ _ _ _ _ k := (0, k);
}.

#[export] Instance steady_laws : KernelLaws steady.
Proof.
  refine {| arriving _ _ := []; leaving := steady_out |}.
  - by intros sock n k r k' [= <- <-].
  - intros sock d k r k' [= <- <-]. split_and!; [done | | unfold portion; lia |].
    + intros x Hx. unfold steady_out. cbn. by rewrite lookup_insert_ne.
    + unfold steady_out. cbn [sy_out]. by rewrite lookup_insert_eq.
  - by intros k r k' [= _ <-].
  - by intros sock hdr bufs ty id scr v k r k' [= _ <-].
Defined.

Lemma steady_eager : eager (K := steady).
Proof.
  constructor; [| done]. intros sock d k. exists (portion k d). eexists. split; [done |].
  intros Hd. unfold portion. destruct d; [done |]. cbn [length]. lia.
Qed.

Definition steady_start (pace : nat) : stack steady := mkStack [] ∅ fresh_sockets (mkSteady ∅ pace).

Lemma writes_drain_witness :
  wp (perform_and_drain no_callbacks ((λ o, fst (fst o)) <$> mixed)) (λ rcs t',
    items (writes (st_sockets t')) = [] ∧ st_live t' = ∅ ∧ justified [] mixed rcs ∧
    ∀ x, stays_open x mixed → leaving (st_kernel t') x = taken x mixed rcs) (steady_start 1).
Proof.
  apply (writes_drain no_callbacks no_callbacks_polite mixed (steady_start 1));
    [exact steady_eager | done | done | done | intros x; reflexivity | exact mixed_well_formed].
Defined.
