(* ===== verification/Delivery.v ===== *)
(** * From one program to the other

    The sockets of a program that sends and of one that receives, put together:
    what MQTTPacket_send_publish accepted on one side, MQTTPacket_Factory hands
    out on the other, however the writes and the reads are cut. *)
From S2P Require Import Prelude Buffers LinkedList Properties PacketIn Clients PacketOut Receive Protocol ProtocolLaws Restore SocketBuffer Socket SocketReads Pipes SocketPackets Connections SocketWrites Sending.
Local Open Scope Z_scope.

(** What the sending program does: a message goes out on a socket, or a round of
    writes is made. *)
Inductive step := Publish_on (net : networkHandles) (f : flight) (pack : Publish) | Round.

(** The structure given to MQTTPacket_send_publish stands for the message. *)
Record stands_for (v : Z) (f : flight) (pack : Publish) : Prop := {
  sf_sendable : sendable v f;
  sf_publishable : publishable pack (f_topic f) (f_payload f) (f_qos f) (f_props f);
  sf_id : pub_msgId pack = f_id f;
  sf_version : pub_MQTTVersion pack = v;
}.

Definition step_ok (v : Z) (s : step) : Prop :=
  match s with Publish_on _ f pack => stands_for v f pack | Round => True end.

Definition order_of (v : Z) (s : step) : order :=
  match s with
  | Publish_on net f pack =>
    (SendPublish pack (f_dup f) (f_qos f) (f_retain f) net, socket net, wire_bytes (packet_of v f))
  | Round => (WriteRound, 0, [])
  end.

(** The messages on a socket whose senders reported no error *)
Fixpoint sent_on (x : Z) (plan : list step) (rcs : list Z) : list flight :=
  match plan, rcs with
  | s :: plan, rc :: rcs =>
    match s with
    | Publish_on net f _ => if decide (x = socket net ∧ rc ≠ SOCKET_ERROR) then f :: sent_on x plan rcs else sent_on x plan rcs
    | Round => sent_on x plan rcs
    end
  | _, _ => []
  end.

Lemma order_well_formed v s : step_ok v s → well_formed (order_of v s).
Proof.
  destruct s as [net f pack |]; [| intros _; apply CarriesNothing]. intros [[H1 H2 H3 H4 H5 H6 H7] Hp Hid Hv].
  pose proof (CarriesPublish pack (f_dup f) (f_qos f) (f_retain f) net _ _ _ Hp) as HC.
  rewrite header_of_small, Hid, Hv in HC by (unfold PUBLISH; lia). exact HC.
Qed.

Lemma taken_sent v x plan : ∀ rcs,
  taken x (order_of v <$> plan) rcs = stream_bytes (packet_of v <$> sent_on x plan rcs).
Proof.
  induction plan as [| s plan IH]; intros rcs; [done |]. destruct rcs as [| rc rcs]; [by destruct s |].
  cbn [fmap list_fmap taken sent_on]. destruct s as [net f pack |]; cbn [order_of].
  - destruct (decide (x = socket net ∧ rc ≠ SOCKET_ERROR)); rewrite (IH rcs); [| done]. unfold stream_bytes.
    by rewrite !fmap_cons.
  - rewrite (IH rcs). by case_decide.
Qed.

Lemma sent_sendable v x plan : ∀ rcs, Forall (step_ok v) plan → Forall (sendable v) (sent_on x plan rcs).
Proof.
  induction plan as [| s plan IH]; intros rcs Hok; [constructor |].
  apply Forall_cons in Hok as [Hs Hok]. destruct rcs as [| rc rcs]; [by destruct s; constructor |].
  destruct s as [net f pack |]; cbn [sent_on]; [| by apply IH].
  case_decide; [constructor; [apply Hs | by apply IH] | by apply IH].
Qed.

Lemma orders_open v x plan : stays_open x (order_of v <$> plan).
Proof. apply Forall_fmap, Forall_true. by intros []. Qed.

Section Delivery.
Context {K K' : Type} {HK : Kernel K} {KL : KernelLaws K} {HK' : Kernel K'} {KL' : KernelLaws K'}.
Context (cb : callbacks (K := K)) (HC : polite cb).

(** C8: messages cross whole.  A program sends PUBLISH packets on any sockets,
    with rounds of writes in between, over a system that takes as little as it
    likes at each write, and then lets the writes come to an end.  Another
    program reads what left, over a system that gives the bytes in any pieces,
    with interruptions at any byte.  Then what it reads from each socket are
    exactly the messages, in order, whose senders reported no error, with their
    topics, payloads, ids, flags and properties, and all of them once the bytes
    have arrived; and a sender reported an error only on a socket on which an
    earlier packet could not be written at once.  The callbacks of the rounds
    leave the writes alone ([polite]): in the terms of the library, no
    acknowledgement was queued for MQTTProtocol_writeAvailable to send. *)
Theorem messages_cross v (plan : list step) (t : stack K) :
  eager (K := K) →
  st_heap t = [] → st_live t = ∅ → st_sockets t = fresh_sockets → (∀ x, leaving (st_kernel t) x = []) →
  Forall (step_ok v) plan →
  wp (perform_and_drain cb ((λ s, fst (fst (order_of v s))) <$> plan)) (λ rcs t',
    justified [] (order_of v <$> plan) rcs ∧
    ∀ (u : stack K') nets calls msgs, st_heap u = [] → st_sockets u = fresh_sockets → msgs !! 0 = None →
      (∀ x fs, msgs !! x = Some fs →
         fs = sent_on x plan rcs ∧ arriving (st_kernel u) x = leaving (st_kernel t') x) →
      wp (read_all v nets calls (dom msgs)) (whole v msgs) u) t.
Proof.
  intros HE Hh Hl Hs HL Hok.
  assert (Forall well_formed (order_of v <$> plan)) as Hwf.
  { apply Forall_fmap. eapply Forall_impl; [exact Hok |]. apply order_well_formed. }
  pose proof (wp_drained cb HC HE (order_of v <$> plan) _ _ _ t Hwf (fresh_flowing t Hh Hl Hs HL)) as Hrun.
  rewrite <- list_fmap_compose in Hrun. eapply wp_mono; [exact Hrun |]. cbv beta.
  intros rcs t' (out & HF & Hj & Hout). split; [exact Hj |].
  intros u nets calls msgs Hu Hsu H0 Hmsgs. apply wp_read_whole, fresh_underway; [done | done | done |].
  intros x fs Hx. destruct (Hmsgs x fs Hx) as [-> Ha]. split; [by apply sent_sendable |].
  by rewrite Ha, (flowing_done _ _ _ x HF), Hout, taken_sent by apply orders_open.
Qed.
End Delivery.

(** *** An instance *)
Definition pack_of (f : flight) (topic_ : list Z) : Publish :=
  mkPublish (flight_header f) (Some (topic_ ++ [0])) (Z.of_nat (length topic_)) (f_id f) (Some (f_payload f))
    (Z.of_nat (length (f_payload f))) 4 MQTTProperties_initializer [0; 0; 0; 0].
Definition greet (sock id q : Z) : step := Publish_on (to sock) (hello id q) (pack_of (hello id q) [97; 47; 98]).
Definition greetings : list step := [greet 3 1 1; greet 3 2 2; greet 5 3 1; Round; Round; greet 3 4 1].

Lemma greetings_ok : Forall (step_ok 4) greetings.
Proof.
  assert (∀ sock id q, 0 ≤ id < 65536 → 0 ≤ q ≤ 2 → step_ok 4 (greet sock id q)) as Hg.
  { intros sock id q Hid Hq. constructor; [by apply hello_sendable | | done | done].
    constructor; [by eexists | done | by eexists | done | done | done]. }
  repeat apply Forall_cons_2; try apply Forall_nil_2; try done; by apply Hg.
Qed.

Lemma messages_cross_witness :
  wp (perform_and_drain no_callbacks ((λ s, fst (fst (order_of 4 s))) <$> greetings)) (λ rcs t',
    justified [] (order_of 4 <$> greetings) rcs ∧
    ∀ (u : stack pipes) nets calls msgs, st_heap u = [] → st_sockets u = fresh_sockets → msgs !! 0 = None →
      (∀ x fs, msgs !! x = Some fs →
         fs = sent_on x greetings rcs ∧ arriving (st_kernel u) x = leaving (st_kernel t') x) →
      wp (read_all 4 nets calls (dom msgs)) (whole 4 msgs) u) (steady_start 3).
Proof.
  apply (messages_cross (K' := pipes) no_callbacks no_callbacks_polite 4 greetings (steady_start 3));
    [exact steady_eager | done | done | done | intros x; reflexivity | exact greetings_ok].
Defined.

(** The second message on socket 3 finds the first one pending; the last goes out. *)
Lemma greetings_run :
  match perform_and_drain no_callbacks ((λ s, fst (fst (order_of 4 s))) <$> greetings) (steady_start 3) with
  | Ok (rcs, t') => rcs = [-22; -1; -22; 0; 0; -22] ∧
    steady_out (st_kernel t') 3 = stream_bytes (packet_of 4 <$> [hello 1 1; hello 4 1])
  | Err _ => False
  end.
Proof. by vm_compute. Qed.
