(* ===== verification/QueueLaws.v ===== *)
(** * Properties of the persisted queue

    A record of the queue is read back as it was written, and a queue that is
    written entry by entry is restored in its order, whatever order the keys
    come in. *)
From stdpp Require Import pretty sorting.
From S2P Require Import Prelude Words Buffers LinkedList Ordered Properties PacketIn Clients PacketOut Receive Wire Protocol ProtocolLaws Exchange Persistence Queue Restore Disk Records.
Local Open Scope Z_scope.

(** ** Numbers in keys *)
Lemma digit_of_char d : (d < 10)%N → digit_of (pretty_N_char d) = Some (Z.of_N d).
Proof.
  intros Hd.
  assert (Forall (λ d, digit_of (pretty_N_char d) = Some (Z.of_N d)) (N.of_nat <$> seq 0 10)) as Hall
    by (by apply (bool_decide_unpack _); vm_compute).
  rewrite Forall_forall in Hall. apply Hall. apply list_elem_of_fmap. exists (N.to_nat d).
  split; [lia |]. apply elem_of_seq. lia.
Qed.

Lemma digits_value_pretty x : ∀ s, digits_value 0 (pretty_N_go x s) = digits_value (Z.of_N x) s.
Proof.
  induction x as [x IH] using (well_founded_induction N.lt_wf_0). intros s.
  destruct (decide (x = 0)%N) as [-> | Hx]; [by rewrite pretty_N_go_0 |].
  rewrite pretty_N_go_step by lia. rewrite IH by (apply N.div_lt; lia). cbn [digits_value].
  rewrite digit_of_char by (apply N.mod_upper_bound; lia). f_equal.
  pose proof (N.div_mod x 10 ltac:(done)). lia.
Qed.

Lemma digits_value_id n : 0 ≤ n → digits_value 0 (pretty n) = n.
Proof.
  intros Hn. destruct n as [| p | p]; [done | | lia].
  change (pretty (Z.pos p)) with (pretty_N_go (N.pos p) ""). by rewrite digits_value_pretty.
Qed.

(** A number starts with a digit. *)
Lemma pretty_head n : 0 ≤ n → ∃ d s, (d < 10)%N ∧ pretty n = String (pretty_N_char d) s.
Proof.
  assert (∀ x s, (0 < x)%N → ∃ d s', (d < 10)%N ∧ pretty_N_go x s = String (pretty_N_char d) s') as Hgo.
  { intros x. induction x as [x IH] using (well_founded_induction N.lt_wf_0). intros s Hx.
    rewrite pretty_N_go_step by lia. destruct (decide (x / 10 = 0)%N) as [-> |].
    - rewrite pretty_N_go_0. exists (x `mod` 10)%N, s. split; [by apply N.mod_upper_bound | done].
    - apply IH; [apply N.div_lt; lia | by apply N.neq_0_lt_0]. }
  intros Hn. destruct n as [| p | p]; [by exists 0%N, ""%string | | lia]. by apply (Hgo (N.pos p) "").
Qed.

Lemma atoi_pretty n : 0 ≤ n → atoi (pretty n) = n.
Proof.
  intros Hn. rewrite <- (digits_value_id n Hn) at 2.
  destruct (pretty_head n Hn) as (d & s & Hd & ->).
  assert (is_space (pretty_N_char d) = false ∧ pretty_N_char d ≠ dash ∧ pretty_N_char d ≠ plus) as (H1 & H2 & H3).
  { assert (Forall (λ d, is_space (pretty_N_char d) = false ∧ pretty_N_char d ≠ dash ∧ pretty_N_char d ≠ plus)
      (N.of_nat <$> seq 0 10)) as Hall by (by apply (bool_decide_unpack _); vm_compute).
    rewrite Forall_forall in Hall. apply Hall. apply list_elem_of_fmap. exists (N.to_nat d).
    split; [lia |]. apply elem_of_seq. lia. }
  cbn [atoi]. by rewrite H1, decide_False, decide_False.
Qed.

(** ** A record of the queue *)
Lemma wp_parses {A} (m : nat → M reader A) l a mem pos e rest (Q : A → reader → Prop) :
  parses m l a → drop pos mem = l ++ rest → (pos + length l ≤ e)%nat →
  (∀ pos', pos' = (pos + length l)%nat → drop pos' mem = rest → Q a (Reader mem pos' [])) →
  wp (m e) Q (Reader mem pos []).
Proof.
  intros Hm Hd He HQ. eapply wp_intro; [by eapply Hm |]. apply HQ; [done |].
  rewrite <- drop_drop, Hd. by rewrite drop_app_length.
Qed.

Lemma wp_block {A} n d mem pos rest (k : list Z → M reader A) (Q : A → reader → Prop) :
  drop pos mem = d ++ rest → n = length d →
  (∀ pos', drop pos' mem = rest → wp (k d) Q (Reader mem pos' [])) →
  wp (x ← read_block n; _ ← advance n; k x) Q (Reader mem pos []).
Proof.
  intros Hd -> HQ. apply wp_bind. unfold read_block, wp at 1. cbn [r_mem r_pos].
  rewrite Hd, take_app_length, decide_True by done. apply wp_bind, wp_modify, HQ. cbn.
  rewrite <- drop_drop, Hd. by rewrite drop_app_length.
Qed.

Definition is_int (n : Z) : Prop := - 2 ^ 31 ≤ n < 2 ^ 31.

Lemma wp_read_int le n mem pos rest (Q : Z → reader → Prop) :
  is_int n → drop pos mem = int_bytes le n ++ rest →
  (∀ pos', drop pos' mem = rest → Q n (Reader mem pos' [])) → wp (read_int le) Q (Reader mem pos []).
Proof.
  intros Hn Hd HQ. eapply wp_block; [exact Hd | by rewrite length_int_bytes |].
  intros pos' Hpos. apply wp_ret. rewrite int_of_bytes_int by done. by apply HQ.
Qed.

Lemma wp_reader_malloc mem pos (Q : bool → reader → Prop) :
  Q true (Reader mem pos []) → wp malloc Q (Reader mem pos []).
Proof. done. Qed.

Section Entry.
Variable le : bool.
Variable v : Z.

(** The bytes of the record of an entry with that topic, payload and properties *)
Definition entry_bytes (qe : qEntry) (t d : list Z) (l : list MQTTProperty) : list Z :=
  int_bytes le (q_payloadlen qe) ++ d ++ int_bytes le (q_qos qe) ++ int_bytes le (q_retained qe) ++
  int_bytes le (q_dup qe) ++ int_bytes le (q_msgid qe) ++ (t ++ [0]) ++ int_bytes le (topicLen qe) ++
  enc_props_if v l.

(** An entry the queue can hold *)
Record entry_ok (qe : qEntry) (t d : list Z) (l : list MQTTProperty) : Prop := {
  entry_topic : ∃ blk, topicName qe = Some blk ∧ cstr blk = t;
  entry_payload : ∃ blk, q_payload qe = Some blk ∧
    0 ≤ q_payloadlen qe ≤ Z.of_nat (length blk) ∧ d = take (Z.to_nat (q_payloadlen qe)) blk;
  entry_ints : is_int (q_payloadlen qe) ∧ is_int (q_qos qe) ∧ is_int (q_retained qe) ∧
    is_int (q_dup qe) ∧ is_int (q_msgid qe) ∧ is_int (topicLen qe);
  entry_props : MQTTVERSION_5 ≤ v → props_repr (q_properties qe) l ∧ fits l;
}.

(** The entry that comes back: its topic and payload are copies. *)
Record entry_back (qe : qEntry) (t d : list Z) (l : list MQTTProperty) (qe' : qEntry) : Prop := {
  back_topic : topicName qe' = Some (t ++ [0]);
  back_topicLen : topicLen qe' = topicLen qe;
  back_payload : q_payload qe' = Some d;
  back_payloadlen : q_payloadlen qe' = q_payloadlen qe;
  back_qos : q_qos qe' = q_qos qe;
  back_retained : q_retained qe' = q_retained qe;
  back_dup : q_dup qe' = q_dup qe;
  back_msgid : q_msgid qe' = q_msgid qe;
  back_props : if decide (MQTTVERSION_5 ≤ v) then props_repr (q_properties qe') l
               else q_properties qe' = MQTTProperties_initializer;
}.

Lemma strlen_cstr_nul (t rest : list Z) blk : cstr blk = t → strlen (t ++ 0 :: rest) = length t.
Proof.
  intros <-. clear. unfold cstr. induction blk as [| c blk IH]; [done |]. cbn.
  destruct (decide (c = 0)); [done |]. cbn. rewrite decide_False by done. by rewrite IH.
Qed.

Lemma restoreQueueEntry_entry qe t d l :
  entry_ok qe t d l → Z.of_nat (length (entry_bytes qe t d l)) < 2 ^ 31 →
  wp (MQTTPersistence_restoreQueueEntry le (if decide (MQTTVERSION_5 ≤ v) then MQTTVERSION_5 else MQTTVERSION_3_1_1)
        (length (entry_bytes qe t d l)))
    (λ r s, r_heap s = [] ∧ ∃ qe', r = Some qe' ∧ entry_back qe t d l qe')
    (Reader (entry_bytes qe t d l) 0 []).
Proof.
  intros [(blk & Htn & Ht) (pblk & Hpl & Hplen & Hd) (I1 & I2 & I3 & I4 & I5 & I6) Hprops] Hlen.
  set (mem := entry_bytes qe t d l) in *.
  assert (drop 0 mem = entry_bytes qe t d l) as H0 by done.
  assert (length d = Z.to_nat (q_payloadlen qe)) as Hdl by (rewrite Hd, length_take; lia).
  unfold MQTTPersistence_restoreQueueEntry.
  do 2 (apply wp_bind, wp_reader_malloc; cbn [negb]). unfold entry_bytes in H0.
  apply wp_bind. eapply wp_read_int; [exact I1 | exact H0 |]. intros p1 H1.
  apply wp_bind. unfold alloc_size. rewrite decide_True by lia. apply wp_reader_malloc. cbn [negb].
  eapply wp_block; [exact H1 | done |]. intros p2 H2.
  apply wp_bind. eapply wp_read_int; [exact I2 | exact H2 |]. intros p3 H3.
  apply wp_bind. eapply wp_read_int; [exact I3 | exact H3 |]. intros p4 H4.
  apply wp_bind. eapply wp_read_int; [exact I4 | exact H4 |]. intros p5 H5.
  apply wp_bind. eapply wp_read_int; [exact I5 | exact H5 |]. intros p6 H6.
  apply wp_bind. unfold read_strlen, wp at 1. cbn [r_mem r_pos]. rewrite H6, <- (assoc_L (++)). cbn [app].
  rewrite (strlen_cstr_nul t _ blk Ht). rewrite decide_True by (rewrite length_app; cbn; lia).
  apply wp_bind, wp_reader_malloc. cbn [negb].
  eapply wp_block; [exact H6 | by rewrite length_app |]. intros p7 H7.
  apply wp_bind. eapply wp_read_int; [exact I6 | exact H7 |]. intros p8 H8.
  assert (∀ props, (if decide (MQTTVERSION_5 ≤ v) then props_repr props l else props = MQTTProperties_initializer) →
    entry_back qe t d l {| topicName := Some (t ++ [0]); topicLen := topicLen qe; q_payload := Some d;
      q_payloadlen := q_payloadlen qe; q_qos := q_qos qe; q_retained := q_retained qe; q_dup := q_dup qe;
      q_msgid := q_msgid qe; q_properties := props |}) as Hback by by constructor.
  apply wp_bind. unfold enc_props_if in H8. destruct (decide (MQTTVERSION_5 ≤ v)) as [Hv | Hv].
  - rewrite decide_True by done. destruct (Hprops Hv) as [Hr Hf].
    destruct (parses_MQTTProperties_read l (repr_valid _ _ Hr) Hf) as (p & Hp & Hread).
    apply wp_bind. eapply (wp_parses (MQTTProperties_read MQTTProperties_initializer));
      [exact Hread | by rewrite app_nil_r | |].
    + pose proof (f_equal length H8) as El. rewrite length_drop in El.
      assert (length (enc_properties l) ≠ 0)%nat; [| lia]. unfold enc_properties. rewrite length_app.
      intros E. apply (encode_loop_nonempty 9 (u64 (Z.of_nat (length (enc_entries l))))), length_zero_iff_nil.
      unfold MQTTPacket_encode in E. lia.
    + intros p9 _ _. do 2 apply wp_ret. cbn. eauto.
  - rewrite decide_False by (unfold MQTTVERSION_3_1_1, MQTTVERSION_5; lia). do 2 apply wp_ret. cbn. eauto.
Qed.
End Entry.

(** ** The queue in a store *)

(** A message that waits, as the queue needs it *)
Record content := mkContent {
  ct_entry : qEntry;
  ct_topic : list Z;
  ct_data : list Z;
  ct_props : list MQTTProperty;
}.

Section InStore.
Variable le : bool.
Variable v : Z.
Variable coded : list Z → list Z.

Definition content_bytes (c : content) : list Z :=
  entry_bytes le v (ct_entry c) (ct_topic c) (ct_data c) (ct_props c).

Record content_ok (c : content) : Prop := {
  content_entry : entry_ok v (ct_entry c) (ct_topic c) (ct_data c) (ct_props c);
  content_length : Z.of_nat (length (content_bytes c)) < 2 ^ 31;
}.

Definition seqno_ok (n : Z) : Prop := 0 ≤ n < PERSISTENCE_SEQNO_LIMIT.
Definition entry_key (w : content * Z) : string := key_of (queue_stem v) (snd w).

Lemma queue_key_kind n :
  is_queue_key (key_of (queue_stem v) n) = true ∧
  has_stem PERSISTENCE_V5_QUEUE_KEY (key_of (queue_stem v) n) = bool_decide (MQTTVERSION_5 ≤ v) ∧
  after_dash (key_of (queue_stem v) n) = Some (pretty n).
Proof.
  unfold is_queue_key, has_stem, key_of, queue_stem.
  destruct (decide (v >= MQTTVERSION_5)).
  - rewrite bool_decide_true by lia. cbn. by destruct (pretty n).
  - rewrite bool_decide_false by lia. cbn. by destruct (pretty n).
Qed.

Lemma queue_key_fits n : seqno_ok n → print_key (queue_stem v) n = Some (key_of (queue_stem v) n).
Proof.
  intros Hn. apply (print_key_digits 6); [lia | | exact Hn].
  unfold queue_stem, PERSISTENCE_MAX_KEY_LENGTH. destruct (decide (v >= MQTTVERSION_5)); cbn; lia.
Qed.

(** The records of the queue in the store are those of [ws]. *)
Record queue_in (K : gmap string (list Z)) (ws : list (content * Z)) : Prop := {
  queue_ok : Forall (λ w, content_ok (fst w) ∧ seqno_ok (snd w)) ws;
  queue_seqnos : NoDup (snd <$> ws);
  queue_data w : w ∈ ws → K !! entry_key w = Some (coded (content_bytes (fst w)));
  queue_only key : is_queue_key key → is_Some (K !! key) → key ∈ entry_key <$> ws;
}.

Lemma queue_in_insert K ws c n :
  queue_in K ws → content_ok c → seqno_ok n → n ∉ snd <$> ws →
  queue_in (<[key_of (queue_stem v) n := coded (content_bytes c)]> K) (ws ++ [(c, n)]).
Proof.
  intros [Q1 Q2 Q3 Q4] Hc Hn Hnew. constructor.
  - apply Forall_app. split; [done |]. by constructor.
  - rewrite fmap_app. apply NoDup_app. split_and!; [done | | apply NoDup_singleton].
    intros x Hx ->%list_elem_of_singleton. done.
  - intros w [Hw | ->%list_elem_of_singleton]%elem_of_app; [| by rewrite lookup_insert_eq].
    rewrite lookup_insert_ne; [by apply Q3 |]. intros E%key_of_inj. apply Hnew. rewrite E.
    by apply list_elem_of_fmap_2.
  - intros key Hkey Hs. rewrite fmap_app, elem_of_app. cbn.
    destruct (decide (key = key_of (queue_stem v) n)) as [-> | Hne]; [right; by left |].
    left. apply Q4; [done |]. by rewrite lookup_insert_ne in Hs by done.
Qed.

(** The first message is taken from the queue. *)
Lemma queue_in_delete K w ws :
  queue_in K (w :: ws) → queue_in (delete (entry_key w) K) ws.
Proof.
  intros [Q1 Q2 Q3 Q4]. apply Forall_cons in Q1 as [_ Q1]. rewrite fmap_cons in Q2.
  apply NoDup_cons in Q2 as [Hw Q2]. constructor; [done | done | |].
  - intros x Hx. rewrite lookup_delete_ne; [apply Q3; by right |]. intros E%key_of_inj.
    apply Hw. rewrite E. by apply list_elem_of_fmap_2.
  - intros key Hkey Hs. destruct (decide (key = entry_key w)) as [-> | Hne].
    { rewrite lookup_delete_eq in Hs. by destruct Hs. }
    rewrite lookup_delete_ne in Hs by done. specialize (Q4 key Hkey Hs).
    rewrite fmap_cons in Q4. by apply elem_of_cons in Q4 as [-> | ?].
Qed.

(** The keys, those of the queue and others *)
Definition any_key (x : content * Z + string) : string :=
  match x with inl w => entry_key w | inr key => key end.
Definition queued (xs : list (content * Z + string)) : list (content * Z) :=
  omap (λ x, match x with inl w => Some w | inr _ => None end) xs.

Lemma queue_keys K ws keys :
  queue_in K ws → keys ≡ₚ (map_to_list K).*1 →
  ∃ xs, keys = any_key <$> xs ∧ queued xs ≡ₚ ws ∧
    Forall (λ x, match x with inl w => w ∈ ws | inr key => ¬ is_queue_key key end) xs.
Proof.
  intros [Q1 Q2 Q3 Q4] Hp. set (os := filter (λ key, ¬ is_queue_key key) (map_to_list K).*1).
  assert (keys ≡ₚ any_key <$> ((inl <$> ws) ++ (inr <$> os))) as Hp'.
  { rewrite Hp, fmap_app, <- !list_fmap_compose. apply NoDup_Permutation.
    - apply NoDup_fst_map_to_list.
    - apply NoDup_app. split_and!.
      + assert ((any_key ∘ inl) <$> ws = key_of (queue_stem v) <$> (snd <$> ws)) as ->
          by by rewrite <- list_fmap_compose.
        apply NoDup_fmap_2_strong; [| done]. intros. by eapply key_of_inj.
      + intros k (w & -> & Hw)%list_elem_of_fmap (k' & E & Hk)%list_elem_of_fmap. cbn in E. subst k'.
        apply list_elem_of_filter in Hk as [Hk _]. apply Hk. unfold entry_key. by rewrite (proj1 (queue_key_kind _)).
      + rewrite list_fmap_id. apply NoDup_filter, NoDup_fst_map_to_list.
    - intros k. rewrite elem_of_app. split.
      + intros Hk. destruct (is_queue_key k) eqn:E.
        * left. apply Q4; [by rewrite E |]. apply list_elem_of_fmap in Hk as ([k' d] & -> & Hk).
          rewrite elem_of_map_to_list in Hk. by eexists.
        * right. apply list_elem_of_fmap. exists k. split; [done |].
          apply list_elem_of_filter. split; [intros Hq; by rewrite E in Hq | done].
      + intros [(w & -> & Hw)%list_elem_of_fmap | (k' & -> & Hk)%list_elem_of_fmap].
        * apply list_elem_of_fmap. exists (entry_key w, coded (content_bytes (fst w))).
          split; [done |]. rewrite elem_of_map_to_list. by apply Q3.
        * by apply list_elem_of_filter in Hk as [_ Hk]. }
  apply Permutation_map_inv in Hp' as (xs & -> & Hxs). exists xs. split_and!; [done | |].
  - unfold queued. rewrite <- Hxs, omap_app.
    assert (∀ l : list string, omap (λ x : content * Z + string, match x with inl w => Some w | inr _ => None end)
      (inr <$> l) = []) as -> by (by induction l).
    rewrite app_nil_r. clear. induction ws as [| w ws IH]; [done |]. cbn. by rewrite IH.
  - rewrite <- Hxs. apply Forall_app. split; apply Forall_fmap, Forall_forall; [done |].
    intros k Hk. by apply list_elem_of_filter in Hk as [Hk _].
Qed.
End InStore.

(** ** Writing and removing entries *)
Section Operations.
Context {T : Type} {HH : HasHeap T} {HB : HasBlocks T} {HT : Transport T}
  {TL : TransportLaws T} {HS : Session T} {SL : SessionLaws T} {ST : Store T} {STL : StoreLaws T}.
Variable per : persistence T.
Variable le : bool.
Variable v : Z.
Variable coded : list Z → list Z.

Lemma entry_buffers_run qe t d l (s : T) :
  entry_ok v qe t d l →
  entry_buffers le qe s = Ok ([int_bytes le (q_payloadlen qe); d; int_bytes le (q_qos qe);
    int_bytes le (q_retained qe); int_bytes le (q_dup qe); int_bytes le (q_msgid qe); t ++ [0];
    int_bytes le (topicLen qe)], s).
Proof.
  intros [(blk & Ht & <-) (pblk & Hp & Hlen & ->) _ _]. unfold entry_buffers. rewrite Hp, Ht.
  rewrite (bind_ok _ _ _ _ _ (slice_run _ _ _ Hlen)). done.
Qed.

Lemma fill_result_writes {A} n (w : M writer A) l a (s : T) :
  writes w l a → n = Z.of_nat (length l) → fill_result n w s = Ok (l, a, s).
Proof.
  intros Hw ->. unfold fill_result. rewrite Nat2Z.id, (Hw (length l) []) by (simpl; lia).
  by rewrite decide_True.
Qed.

(** The hook is asked whatever MQTTProperties_write returned; without it the
    entry is put only if that is 0. *)
Lemma persist_hook rc bufs t :
  writes_coded per coded → rc = 0 ∨ beforeWrite per ≠ None →
  ∃ bufs' t', (match beforeWrite per with Some f => f bufs | None => mret (rc, bufs) end) t = Ok (0, bufs', t') ∧
    mjoin bufs' = coded (mjoin bufs) ∧ kept contents t t'.
Proof.
  intros Hw Hrc. specialize (Hw bufs t). unfold before_write in Hw.
  destruct (beforeWrite per) as [f |]; [done |]. destruct Hrc as [-> | ?]; done.
Qed.

Lemma next_seqno_small n : 0 ≤ n → n + 1 < PERSISTENCE_SEQNO_LIMIT → next_seqno n = n + 1.
Proof.
  unfold next_seqno, PERSISTENCE_SEQNO_LIMIT. intros ??. rewrite u32_small by lia.
  rewrite decide_False; [done | lia].
Qed.

Lemma wp_persistQueueEntry c n (Q : Z * Z * option Z → T → Prop) t :
  writes_coded per coded → v < MQTTVERSION_5 ∨ beforeWrite per ≠ None →
  content_ok le v c → 0 ≤ n → n + 1 < PERSISTENCE_SEQNO_LIMIT → heap_of t = [] →
  (∀ t', heap_of t' = [] →
     contents t' = <[key_of (queue_stem v) (n + 1) := coded (content_bytes le v c)]> (contents t) →
     Q (0, n + 1, Some (n + 1)) t') →
  wp (MQTTPersistence_persistQueueEntry per le v n (ct_entry c)) Q t.
Proof.
  intros Hw Hhook [Hc _] Hn Hlim Ht HQ. unfold MQTTPersistence_persistQueueEntry.
  apply wp_bind. eapply wp_intro; [eapply entry_buffers_run; exact Hc |]. cbv beta.
  rewrite next_seqno_small by done. apply wp_bind.
  assert (∀ bufs rc, mjoin bufs = content_bytes le v c → rc = 0 ∨ beforeWrite per ≠ None →
    wp (match print_key (queue_stem v) (n + 1) with
        | None => mret (MQTTCLIENT_PERSISTENCE_ERROR, n + 1, None)
        | Some key =>
          r ← (match beforeWrite per with Some f => f bufs | None => mret (rc, bufs) end);
          let '(rc, bufs) := r : Z * list (list Z) in
          rc ← (if decide (rc = 0) then pput key bufs else mret rc);
          mret (rc, n + 1, Some (n + 1))
        end) Q t) as Hput.
  { intros bufs rc Hbufs Hrc. rewrite queue_key_fits by (unfold seqno_ok; lia).
    destruct (persist_hook rc bufs t Hw Hrc) as (bufs' & t1 & Hr & Hj & _ & Hc1 & Hh1).
    apply wp_bind. eapply wp_intro; [exact Hr |]. cbv iota beta. rewrite decide_True by done.
    destruct (pput_law (key_of (queue_stem v) (n + 1)) bufs' t1) as (t2 & Hr2 & _ & Hc2 & Hh2).
    apply wp_bind. eapply wp_intro; [exact Hr2 |]. apply wp_ret. apply HQ; [by auto |].
    by rewrite Hc2, Hc1, Hj, Hbufs. }
  destruct (decide (v >= MQTTVERSION_5)) as [Hv | Hv].
  - destruct (entry_props _ _ _ _ _ Hc ltac:(lia)) as [Hr Hf].
    rewrite (MQTTProperties_len_repr _ _ Hr Hf). apply wp_bind. unfold alloc_size.
    rewrite decide_True by lia. eapply wp_intro; [by apply malloc_succeeds |]. cbn [negb].
    apply wp_bind. eapply wp_intro; [by apply fill_result_writes; [apply MQTTProperties_write_repr |] |].
    apply wp_ret. apply Hput; [| right; destruct Hhook; [lia | done]].
    unfold content_bytes, entry_bytes, enc_props_if. rewrite decide_True by lia.
    cbn [mjoin list_join app]. by rewrite app_nil_r.
  - apply wp_ret. apply Hput; [| by left].
    unfold content_bytes, entry_bytes, enc_props_if. rewrite decide_False by lia.
    cbn [mjoin list_join app]. by rewrite !app_nil_r.
Qed.

Lemma wp_unpersistQueueEntry n (Q : Z → T → Prop) t :
  seqno_ok n → is_Some (contents t !! key_of (queue_stem v) n) → heap_of t = [] →
  (∀ t', heap_of t' = [] → contents t' = delete (key_of (queue_stem v) n) (contents t) → Q 0 t') →
  wp (MQTTPersistence_unpersistQueueEntry v n) Q t.
Proof.
  intros Hn Hs Ht HQ. unfold MQTTPersistence_unpersistQueueEntry. rewrite queue_key_fits by done.
  destruct (premove_law (key_of (queue_stem v) n) t) as (rc & t' & Hr & _ & Hc & Hh & Hrc).
  eapply wp_intro; [exact Hr |]. rewrite Hrc by done. auto.
Qed.
End Operations.

(** ** Restoring *)
Lemma seqno_above_position n l : seqno_above n l = position_above q_seqno n l.
Proof. induction l as [| q l IH]; [done |]. cbn. by rewrite IH. Qed.

Lemma foldr_max_perm (l k : list Z) : l ≡ₚ k → foldr Z.max 0 l = foldr Z.max 0 k.
Proof. induction 1; cbn; lia. Qed.

Lemma foldr_max_app l (n : Z) : 0 ≤ n → foldr Z.max 0 (l ++ [n]) = Z.max (foldr Z.max 0 l) n.
Proof. intros Hn. induction l as [| m l IH]; cbn; lia. Qed.

Section Restoring.
Context {T : Type} {HH : HasHeap T} {HB : HasBlocks T} {HT : Transport T}
  {TL : TransportLaws T} {HS : Session T} {SL : SessionLaws T} {ST : Store T} {STL : StoreLaws T}.
Variable per : persistence T.
Variable le : bool.
Variable v : Z.
Variable coded : list Z → list Z.
Hypothesis Hreads : reads_back per coded.

(** A restored entry: what was in the record [w] *)
Definition back (w : content * Z) (q : queued_entry) : Prop :=
  entry_back v (ct_entry (fst w)) (ct_topic (fst w)) (ct_data (fst w)) (ct_props (fst w)) (q_entry q) ∧
  q_seqno q = snd w.

(** The queue of the client after the records [ws], in the order of the keys *)
Record requeued (ws : list (content * Z)) (queue : alist queued_entry) (seqno : Z) : Prop := {
  requeued_items : ∃ qs, Forall2 back ws qs ∧ items queue = insert_all q_seqno qs [];
  requeued_seqno : seqno = foldr Z.max 0 (snd <$> ws);
}.

Lemma requeued_insert ws queue seqno w q :
  requeued ws queue seqno → back w q → 0 ≤ snd w →
  ∀ queue', items queue' = insert_by q_seqno q (items queue) →
  requeued (ws ++ [w]) queue' (Z.max seqno (snd w)).
Proof.
  intros [(qs & Hqs & Hits) ->] Hb Hn queue' Hq'. constructor.
  - exists (qs ++ [q]). rewrite insert_all_snoc, <- Hits. split; [| done].
    apply Forall2_app; [done | by constructor].
  - by rewrite fmap_app, <- foldr_max_app.
Qed.

Lemma wp_insertInSeqOrder queue q (Q : bool * alist queued_entry → T → Prop) t :
  heap_of t = [] →
  (∀ queue', items queue' = insert_by q_seqno q (items queue) → Q (true, queue') t) →
  wp (MQTTPersistence_insertInSeqOrder queue q) Q t.
Proof.
  intros Ht HQ. unfold MQTTPersistence_insertInSeqOrder, insert_by in *. rewrite seqno_above_position.
  destruct (position_above q_seqno (q_seqno q) (items queue)) as [k |];
    (apply wp_bind; eapply wp_intro; [by apply malloc_succeeds |]; by apply HQ).
Qed.

Definition requeue_turn K ws (r : Z * alist queued_entry * Z) (t : T) : Prop :=
  heap_of t = [] ∧ contents t = K ∧ ∃ queue seqno, r = (0, queue, seqno) ∧ requeued ws queue seqno.

Lemma wp_restore_queue_key K w ws queue seqno t :
  content_ok le v (fst w) → seqno_ok (snd w) → contents t = K →
  K !! entry_key v w = Some (coded (content_bytes le v (fst w))) →
  requeued ws queue seqno → heap_of t = [] →
  wp (restore_queue_key per le (entry_key v w) queue seqno)
    (requeue_turn K (ws ++ [w])) t.
Proof.
  intros [Hok Hlen] Hn HK Hdata HR Ht. unfold restore_queue_key.
  destruct (queue_key_kind v (snd w)) as (Hq & Hv5 & Hdash). unfold entry_key in *. rewrite Hq. cbn [negb].
  rewrite <- HK in Hdata. destruct (pget_law _ _ _ Hdata) as (t1 & Hr1 & _ & Hc1 & Hh1).
  apply wp_bind. eapply wp_intro; [exact Hr1 |]. cbv iota beta. rewrite decide_False by lia.
  destruct (Hreads (content_bytes le v (fst w)) t1) as (t2 & Hr2 & _ & Hc2 & Hh2).
  apply wp_bind. eapply wp_intro; [exact Hr2 |]. cbv iota beta. rewrite decide_False by lia.
  rewrite Hv5. apply wp_bind. unfold run_parser, wp at 1. rewrite (Hh2 (Hh1 Ht)).
  pose proof (restoreQueueEntry_entry le v _ _ _ _ Hok Hlen) as Hread.
  replace (if bool_decide (MQTTVERSION_5 ≤ v) then MQTTVERSION_5 else MQTTVERSION_3_1_1)
    with (if decide (MQTTVERSION_5 ≤ v) then MQTTVERSION_5 else MQTTVERSION_3_1_1)
    by by destruct (decide (MQTTVERSION_5 ≤ v)); [rewrite bool_decide_true | rewrite bool_decide_false].
  unfold wp in Hread. unfold content_bytes in *.
  destruct (MQTTPersistence_restoreQueueEntry _ _ _ _) as [[r rd] |]; [| done].
  destruct Hread as (Hheap & qe & -> & Hback). cbv beta. rewrite Hheap, Hdash.
  unfold seqno_ok, PERSISTENCE_SEQNO_LIMIT in Hn.
  rewrite atoi_pretty, u32_small by lia. apply wp_bind, wp_insertInSeqOrder; [apply heap_set_heap |].
  intros queue' Hq'. apply wp_ret. split_and!; [apply heap_set_heap | |].
  - by rewrite contents_set_heap, Hc2, Hc1.
  - do 2 eexists. split; [done |].
    eapply requeued_insert; [exact HR | | lia | exact Hq']. by split.
Qed.

Lemma wp_restore_queue_keys K ws xs : ∀ done_ queue seqno t,
  queue_in le v coded K ws → contents t = K → heap_of t = [] → requeued done_ queue seqno →
  Forall (λ x, match x with inl w => w ∈ ws | inr key => ¬ is_queue_key key end) xs →
  wp (restore_queue_keys per le (any_key v <$> xs) queue seqno)
    (requeue_turn K (done_ ++ queued xs)) t.
Proof.
  induction xs as [| x xs IH]; intros done_ queue seqno t HK Hc Ht HR Hxs.
  { apply wp_ret. rewrite app_nil_r. unfold requeue_turn. eauto 8. }
  apply Forall_cons in Hxs as [Hx Hxs]. rewrite fmap_cons. cbn [restore_queue_keys]. apply wp_bind.
  destruct x as [w | key]; cbn [any_key].
  - pose proof (queue_ok _ _ _ _ _ HK) as Hok. rewrite Forall_forall in Hok.
    destruct (Hok w Hx) as [Hw Hn].
    eapply wp_mono; [eapply (wp_restore_queue_key K w done_);
      [done | done | done | by eapply queue_data | exact HR | done] |].
    intros r t1 (Ht1 & Hc1 & queue1 & seqno1 & -> & HR1). cbv iota beta. rewrite decide_True by done.
    replace (done_ ++ queued (inl w :: xs)) with ((done_ ++ [w]) ++ queued xs)
      by by rewrite <- (assoc_L (++)). by apply IH.
  - unfold restore_queue_key. rewrite (Is_true_false_1 _ Hx). cbn [negb]. apply wp_ret.
    rewrite decide_True by done. by apply IH.
Qed.

Lemma requeued_sorted ws ws' queue seqno :
  requeued ws' queue seqno → ws' ≡ₚ ws → StronglySorted Z.lt (snd <$> ws) →
  Forall2 back ws (items queue) ∧ seqno = foldr Z.max 0 (snd <$> ws).
Proof.
  intros [(qs & Hqs & ->) ->] Hp Hs. split; [| apply foldr_max_perm; by rewrite Hp].
  destruct (Permutation_Forall2 Hp Hqs) as (ms & Hms & Hall).
  assert (q_seqno <$> ms = snd <$> ws) as Hids.
  { clear -Hall. induction Hall as [| w q ws ms [_ Hq] _ IH]; [done |]. cbn. by rewrite IH, Hq. }
  rewrite (insert_all_perm q_seqno qs ms); [done | | done |].
  - rewrite <- Hids in Hs. clear -Hs. induction ms as [| m ms IH]; [constructor |].
    rewrite fmap_cons in Hs. apply StronglySorted_inv in Hs as [Hs Hall]. constructor; [by apply IH |].
    rewrite Forall_fmap in Hall. exact Hall.
  - rewrite Hids. clear -Hs. induction Hs as [| x l Hs IH Hx]; [constructor |]. constructor; [| done].
    intros Hin. rewrite Forall_forall in Hx. specialize (Hx x Hin). lia.
Qed.

Lemma wp_restoreMessageQueue K ws t :
  has_store per = true → queue_in le v coded K ws → StronglySorted Z.lt (snd <$> ws) →
  contents t = K → heap_of t = [] →
  wp (MQTTPersistence_restoreMessageQueue per le al_nil 0) (λ r t', ∃ queue,
    r = (0, queue, foldr Z.max 0 (snd <$> ws)) ∧ Forall2 back ws (items queue) ∧ contents t' = K) t.
Proof.
  intros Hper HK Hs Hc Ht. unfold MQTTPersistence_restoreMessageQueue. rewrite Hper.
  destruct (pkeys_law t) as (keys & t1 & Hr & (_ & Hc1 & Hh1) & Hp). rewrite Hc in Hp.
  apply wp_bind. eapply wp_intro; [exact Hr |]. cbv iota beta. rewrite decide_True by done.
  destruct (queue_keys le v coded K ws keys HK Hp) as (xs & -> & Hxs & Hall).
  eapply wp_mono; [eapply (wp_restore_queue_keys K ws xs []);
    [done | congruence | auto | | exact Hall] |].
  { constructor; [by exists [] | done]. }
  intros r t2 (Ht2 & Hc2 & queue & seqno & -> & HR). cbn in HR.
  destruct (requeued_sorted ws _ _ _ HR Hxs Hs) as [Hall2 ->]. by exists queue.
Qed.
End Restoring.

(** ** A queue in use *)
Inductive queue_op := Arrives (c : content) | Delivered.

Definition arrivals (ops : list queue_op) : list content :=
  omap (λ op, match op with Arrives c => Some c | Delivered => None end) ops.

(** What waits, with its sequence numbers, and the last number given *)
Definition queue_next (st : list (content * Z) * Z) (op : queue_op) : list (content * Z) * Z :=
  match op with
  | Arrives c => (fst st ++ [(c, snd st + 1)], snd st + 1)
  | Delivered => (drop 1 (fst st), snd st)
  end.

Lemma strongly_sorted_snoc (l : list Z) n :
  StronglySorted Z.lt l → Forall (λ m, m < n) l → StronglySorted Z.lt (l ++ [n]).
Proof.
  induction 1 as [| m l Hl IH Hm]; intros Hall; [repeat constructor |].
  apply Forall_cons in Hall as [Hn Hall]. cbn. constructor; [by apply IH |].
  apply Forall_app. split; [done | by constructor].
Qed.

Section Life.
Context {T : Type} {HH : HasHeap T} {HB : HasBlocks T} {HT : Transport T}
  {TL : TransportLaws T} {HS : Session T} {SL : SessionLaws T} {ST : Store T} {STL : StoreLaws T}.
Variable per : persistence T.
Variable le : bool.
Variable v : Z.
Variable coded : list Z → list Z.

(** A message arrives (Protocol_processPublication), the first one is delivered
    (MQTTClient_deliverMessage): what becomes of the sequence numbers that
    wait and of [qentry_seqno] *)
Definition queue_step (op : queue_op) (st : list Z * Z) : M T (list Z * Z) :=
  match op with
  | Arrives c =>
    r ← MQTTPersistence_persistQueueEntry per le v (snd st) (ct_entry c);
    let '(_, n, seqno) := r : Z * Z * option Z in
    mret (fst st ++ [default 0 seqno], n)
  | Delivered =>
    match fst st with
    | [] => mret st
    | seqno :: rest => _ ← MQTTPersistence_unpersistQueueEntry v seqno; mret (rest, snd st)
    end
  end.

Fixpoint queue_run (ops : list queue_op) (st : list Z * Z) : M T (list Z * Z) :=
  match ops with [] => mret st | op :: ops' => st ← queue_step op st; queue_run ops' st end.

(** The records of the store are what waits. *)
Record queue_inv (st : list (content * Z) * Z) (t : T) : Prop := {
  inv_queue : queue_in le v coded (contents t) (fst st);
  inv_sorted : StronglySorted Z.lt (snd <$> fst st);
  inv_bound : Forall (λ w, snd w ≤ snd st) (fst st);
  inv_seqno : 0 ≤ snd st;
  inv_heap : heap_of t = [];
}.

Definition numbers (st : list (content * Z) * Z) : list Z * Z := (snd <$> fst st, snd st).

Hypothesis Hwrites : writes_coded per coded.
Hypothesis Hhook : v < MQTTVERSION_5 ∨ beforeWrite per ≠ None.

Lemma queue_step_inv op st t :
  queue_inv st t → Forall (content_ok le v) (arrivals [op]) →
  snd st + Z.of_nat (length (arrivals [op])) < PERSISTENCE_SEQNO_LIMIT →
  wp (queue_step op (numbers st)) (λ r t', r = numbers (queue_next st op) ∧ queue_inv (queue_next st op) t') t.
Proof.
  intros [I1 I2 I3 I4 I5] Hok Hlim. destruct st as [ws n]. cbn [fst snd numbers] in *.
  destruct op as [c |]; cbn [queue_step queue_next].
  - cbn in Hok, Hlim. apply Forall_cons in Hok as [Hok _]. apply wp_bind.
    eapply wp_persistQueueEntry; [done | done | exact Hok | exact I4 | cbn [numbers fst snd]; lia | done |].
    intros t' Ht' Hc'. apply wp_ret. cbn [fst snd default]. unfold numbers. cbn [fst snd].
    split; [by rewrite fmap_app |].
    assert (Forall (λ m, m < n + 1) (snd <$> ws)) as Hlt
      by (apply Forall_fmap; eapply Forall_impl; [exact I3 |]; cbn; lia).
    constructor; cbn [fst snd]; [| | | lia | done].
    + rewrite Hc'. apply queue_in_insert; [done | done | unfold seqno_ok; lia |].
      intros Hin. rewrite Forall_forall in Hlt. specialize (Hlt _ Hin). lia.
    + rewrite fmap_app. by apply strongly_sorted_snoc.
    + apply Forall_app. split; [eapply Forall_impl; [exact I3 |]; cbn; lia | by repeat constructor].
  - destruct ws as [| w ws]; [by apply wp_ret |]. cbn [fmap list_fmap fst snd drop].
    pose proof (queue_ok _ _ _ _ _ I1) as Hw. apply Forall_cons in Hw as [[_ Hw] _].
    apply wp_bind. eapply wp_unpersistQueueEntry; [exact Hw | | done |].
    { exists (coded (content_bytes le v (fst w))). apply (queue_data _ _ _ _ _ I1 w). by left. }
    intros t' Ht' Hc'. apply wp_ret. split; [done |]. cbn in I2. apply StronglySorted_inv in I2 as [I2 _].
    apply Forall_cons in I3 as [_ I3]. constructor; cbn [fst snd]; try done.
    rewrite Hc'. by apply queue_in_delete.
Qed.

Lemma queue_run_inv ops : ∀ st t,
  queue_inv st t → Forall (content_ok le v) (arrivals ops) →
  snd st + Z.of_nat (length (arrivals ops)) < PERSISTENCE_SEQNO_LIMIT →
  wp (queue_run ops (numbers st))
    (λ r t', r = numbers (foldl queue_next st ops) ∧ queue_inv (foldl queue_next st ops) t') t.
Proof.
  induction ops as [| op ops IH]; intros st t HI Hok Hlim; [by apply wp_ret |].
  assert (arrivals (op :: ops) = arrivals [op] ++ arrivals ops) as Ha by by destruct op.
  rewrite Ha in Hok, Hlim. apply Forall_app in Hok as [Hok1 Hok2]. rewrite length_app in Hlim.
  apply wp_bind. eapply wp_mono; [apply queue_step_inv; [exact HI | exact Hok1 | lia] |].
  cbv beta. intros r t1 [-> HI1]. apply IH; [exact HI1 | exact Hok2 |].
  destruct op; cbn in Hlim |- *; lia.
Qed.

Lemma queue_inv_start n t :
  0 ≤ n → heap_of t = [] → (∀ key, is_queue_key key → contents t !! key = None) → queue_inv ([], n) t.
Proof.
  intros Hn Ht Hnone. constructor; [| constructor | constructor | done | done]. constructor.
  - constructor.
  - constructor.
  - by intros w ?%not_elem_of_nil.
  - intros key Hk [d Hd]. by rewrite Hnone in Hd.
Qed.
End Life.

(** C7: the queue of messages for the application survives the end of a client.
    From the sequence number [n], after any sequence of arrivals
    (MQTTPersistence_persistQueueEntry) and deliveries
    (MQTTPersistence_unpersistQueueEntry) whose numbers stay below
    PERSISTENCE_SEQNO_LIMIT, MQTTPersistence_restoreMessageQueue gives a new
    client on the same store the messages that were still waiting, in their order
    and with the contents, properties and sequence numbers they had.  The store
    works, holds no records of a queue at the start, and the allocations
    succeed.  The limit
    is needed: the number starts again at 0 there, and the messages on the two
    sides of it come back in the wrong order ([queue_order_at_limit] below).  A
    version 5 client has to have a write hook: without one the code stores no
    entry at all ([v5_entry_not_persisted] below), so nothing survives. *)
Theorem queue_survives {T} {HH : HasHeap T} {HB : HasBlocks T} {HT : Transport T}
  {TL : TransportLaws T} {HS : Session T} {SL : SessionLaws T} {ST : Store T} {STL : StoreLaws T}
  (per : persistence T) le v coded ops n (t : T) :
  has_store per = true → writes_coded per coded → reads_back per coded →
  v < MQTTVERSION_5 ∨ beforeWrite per ≠ None →
  Forall (content_ok le v) (arrivals ops) →
  0 ≤ n → n + Z.of_nat (length (arrivals ops)) < PERSISTENCE_SEQNO_LIMIT →
  heap_of t = [] → (∀ key, is_queue_key key → contents t !! key = None) →
  wp (queue_run per le v ops ([], n)) (λ r t1, ∃ ws n1,
    (ws, n1) = foldl queue_next ([], n) ops ∧ r = (snd <$> ws, n1) ∧
    ∀ t2, heap_of t2 = [] → contents t2 = contents t1 →
      wp (MQTTPersistence_restoreMessageQueue per le al_nil 0) (λ r t3, ∃ queue,
        r = (0, queue, foldr Z.max 0 (snd <$> ws)) ∧ Forall2 (back v) ws (items queue) ∧
        contents t3 = contents t1) t2) t.
Proof.
  intros Hper Hw Hr Hhook Hok Hn Hlim Ht Hnone.
  eapply wp_mono; [by eapply (queue_run_inv per le v coded Hw Hhook ops ([], n)); [apply queue_inv_start | ..] |].
  cbv beta. intros r t1 [-> [I1 I2 I3 I4 I5]]. destruct (foldl queue_next ([], n) ops) as [ws n1].
  exists ws, n1. split_and!; [done | done |]. intros t2 Ht2 Hc2.
  eapply wp_mono; [by eapply (wp_restoreMessageQueue per le v coded) |]. done.
Qed.

(** *** An instance *)
Definition hooked : persistence disk := mkPersistence true (Some (λ bufs, mret (0, bufs))) None.

Definition sample_content (b : Z) (l : list MQTTProperty) (props : MQTTProperties) : content :=
  mkContent (mkQEntry (Some [97; b; 0]) 0 (Some [b; b; b]) 3 2 0 0 b props) [97; b] [b; b; b] l.

Definition sample_ops : list queue_op := [
  Arrives (sample_content 98 [] MQTTProperties_initializer);
  Arrives (sample_content 99 sample_entries sample_properties);
  Delivered;
  Arrives (sample_content 100 [] MQTTProperties_initializer)].

Lemma sample_content_ok b l props :
  1 ≤ b < 256 → props_repr props l → fits l → Z.of_nat (length (enc_properties l)) < 1000 →
  content_ok true 5 (sample_content b l props).
Proof.
  intros Hb Hr Hf Hlen. constructor.
  - constructor; [| | unfold is_int; cbn; lia | done].
    + exists [97; b; 0]. split; [done |]. cbn. by rewrite (decide_False (P := b = 0)) by lia.
    + exists [b; b; b]. split_and!; [done | cbn; lia | cbn; lia | done].
  - unfold content_bytes, entry_bytes, enc_props_if. rewrite decide_True by (unfold MQTTVERSION_5; lia).
    rewrite !length_app, !length_int_bytes. cbn [sample_content ct_data ct_topic ct_props length]. lia.
Qed.

Lemma hooked_writes : writes_coded hooked no_code.
Proof. intros bufs t. by exists bufs, t. Qed.
Lemma hooked_reads_back : reads_back hooked no_code.
Proof. intros d t. by exists t. Qed.

Lemma queue_survives_witness :
  wp (queue_run hooked true 5 sample_ops ([], 41)) (λ r t1, ∃ ws n1,
    (ws, n1) = foldl queue_next ([], 41) sample_ops ∧ r = (snd <$> ws, n1) ∧
    ∀ t2, heap_of t2 = [] → contents t2 = contents t1 →
      wp (MQTTPersistence_restoreMessageQueue hooked true al_nil 0) (λ r t3, ∃ queue,
        r = (0, queue, foldr Z.max 0 (snd <$> ws)) ∧ Forall2 (back 5) ws (items queue) ∧
        contents t3 = contents t1) t2) (mkDisk wire0 ∅).
Proof.
  apply (queue_survives hooked true 5 no_code sample_ops 41 (mkDisk wire0 ∅));
    [done | exact hooked_writes | exact hooked_reads_back | by right | | done | done | done | done].
  repeat (apply Forall_cons_2); [.. | by constructor]; apply sample_content_ok; try done;
    apply props_repr_initializer || exact sample_repr || exact sample_fits.
Defined.

(** In version 5 and without a hook nothing is written: what
    MQTTProperties_write returns, the number of bytes it has written, is taken
    for an error. *)
Lemma v5_entry_not_persisted {T} {HH : HasHeap T} {HB : HasBlocks T} {HT : Transport T}
  {HS : Session T} {ST : Store T} (per : persistence T) le v c n (t : T) :
  beforeWrite per = None → MQTTVERSION_5 ≤ v → content_ok le v c →
  0 ≤ n → n + 1 < PERSISTENCE_SEQNO_LIMIT → heap_of t = [] →
  ∃ rc, 0 < rc ∧
    MQTTPersistence_persistQueueEntry per le v n (ct_entry c) t = Ok (rc, n + 1, Some (n + 1), t).
Proof.
  intros Hhook Hv [Hc _] Hn Hlim Ht. exists (1 + Z.of_nat (length (enc_entries (ct_props c)))).
  split; [lia |]. destruct (entry_props _ _ _ _ _ Hc Hv) as [Hr Hf].
  unfold MQTTPersistence_persistQueueEntry.
  rewrite (bind_ok _ _ _ _ _ (entry_buffers_run _ _ _ _ _ _ t Hc)), next_seqno_small by done.
  rewrite decide_True by lia. rewrite (MQTTProperties_len_repr _ _ Hr Hf), bind_assoc_run. unfold alloc_size.
  rewrite decide_True by lia. rewrite (bind_ok _ _ _ _ _ (malloc_succeeds t Ht)). cbn [negb].
  rewrite bind_assoc_run.
  rewrite (bind_ok _ _ _ _ _ (fill_result_writes _ _ _ _ t (MQTTProperties_write_repr _ _ Hr) eq_refl)).
  rewrite ret_bind, queue_key_fits by (unfold seqno_ok; lia). rewrite Hhook, ret_bind.
  rewrite decide_False by lia. done.
Qed.

(** Two messages that arrive where the sequence number starts again *)
Definition wrap_ops : list queue_op := [
  Arrives (sample_content 98 [] MQTTProperties_initializer);
  Arrives (sample_content 99 [] MQTTProperties_initializer)].

Lemma queue_order_at_limit :
  match queue_run plain true 4 wrap_ops ([], PERSISTENCE_SEQNO_LIMIT - 2) (mkDisk wire0 ∅) with
  | Ok (_, t1) =>
      match MQTTPersistence_restoreMessageQueue plain true al_nil 0 t1 with
      | Ok ((_, queue, _), _) =>
          (λ e, q_msgid (q_entry e)) <$> items queue = [99; 98]
      | Err _ => False
      end
  | Err _ => False
  end.
Proof. by vm_compute. Qed.
