(* ===== verification/Recovery.v ===== *)
(** * What survives the end of a client

    The properties of the persistent store: the records the protocol code
    writes and removes, and the messages in flight that
    MQTTPersistence_restorePackets makes of them, each with an instance on a
    store in memory. *)
From stdpp Require Import pretty.
From S2P Require Import Prelude Buffers LinkedList Ordered Properties PacketIn Clients PacketOut Receive Wire Protocol ProtocolLaws Outbound Exchange Persistence RestoreOrder Restore Disk.
Local Open Scope Z_scope.

Section Restoration.
Context {T : Type} {HH : HasHeap T} {HB : HasBlocks T} {HT : Transport T}
  {TL : TransportLaws T} {HS : Session T} {SL : SessionLaws T} {ST : Store T} {STL : StoreLaws T}.
Implicit Types (s : pstate T) (c : Clients).

(** The keys come in any order. *)
Lemma keys_of_records v coded K rs keys :
  describes v coded K rs → keys ≡ₚ (map_to_list K).*1 →
  ∃ rs', keys = record_key v <$> rs' ∧ rs' ≡ₚ rs.
Proof.
  intros HK Hp. rewrite (describes_keys _ _ _ _ HK) in Hp.
  apply Permutation_map_inv in Hp as (rs' & -> & Hp). by exists rs'.
Qed.

(** The messages, of which the ids are the sending order, in that order *)
Lemma wrap_restored {A} (P : A → Messages → Prop) (id : A → Z) fs fs' outs l :
  Forall2 P fs' outs → fs' ≡ₚ fs → (∀ f m, P f m → msgid m = id f) → window (id <$> fs) →
  items l = insert_all msgid outs [] → Forall2 P fs (items (MQTTPersistence_wrapMsgID l)).
Proof.
  intros Hall Hp Hid Hw Hl. destruct l as [its cur]. cbn in Hl. subst its.
  destruct (Permutation_Forall2 Hp Hall) as (ms & Hms & Hall').
  rewrite (wrap_window ms); [done | | done].
  replace (msgid <$> ms) with (id <$> fs); [done |].
  clear -Hall' Hid. induction Hall' as [| f m fs ms Hf _ IH]; [done |]. cbn. rewrite IH.
  by rewrite (Hid _ _ Hf).
Qed.

Lemma restored_outbound v bs pb rs f m :
  flight_ok v f → restored v bs pb (next_of rs f) f m → outbound_ok m.
Proof.
  intros Hf [R1 R2 R3 R4 R5 R6 R7 (a & Ha & _)]. constructor; [| | | by eexists | done].
  - rewrite R1, R7. unfold next_of. destruct (f_ok_qos _ _ Hf) as [-> | ->]; [by left |]. right.
    case_decide; auto.
  - rewrite R3. pose proof (f_ok_id _ _ Hf) as Hid. unfold valid_id, MAX_MSG_ID in Hid. lia.
  - rewrite R4. exists (f_props f). split; [done |]. pose proof (f_ok_props _ _ Hf) as Hp.
    destruct (decide (MQTTVERSION_5 ≤ v)); [tauto |]. rewrite Hp. by vm_compute.
Qed.

Lemma restored_inbound v bs pb f m :
  f_qos f = 2 → restored v bs pb (Some PUBREL) f m → inbound_ok m.
Proof.
  intros Hq [R1 R2 R3 R4 R5 R6 R7 (a & Ha & _)]. constructor; [congruence | done | | by rewrite Ha].
  exists (f_props f). rewrite R4. by apply repr_at_props_at.
Qed.

(** The ids of the records of a kind are different. *)
Lemma record_ids (sel : record → option flight) (mk : flight → record) v coded K rs :
  (∀ r f, sel r = Some f → r = mk f) →
  (∀ f g, f_id f = f_id g → record_key v (mk f) = record_key v (mk g)) →
  describes v coded K rs → NoDup (f_id <$> omap sel rs).
Proof.
  intros Hsel Hkey [_ Hnd _]. induction rs as [| r rs IH]; [constructor |].
  rewrite fmap_cons in Hnd. apply NoDup_cons in Hnd as [Hr Hnd]. specialize (IH Hnd). cbn.
  destruct (sel r) as [f |] eqn:E; [| exact IH]. apply Hsel in E as ->. cbn.
  constructor; [| exact IH]. intros (g & Eg & Hg)%list_elem_of_fmap. apply Hr.
  apply list_elem_of_omap in Hg as (r & Hin & ->%Hsel). rewrite (Hkey f g Eg).
  by apply list_elem_of_fmap_2.
Qed.

Lemma sent_ids v coded K rs : describes v coded K rs → NoDup (f_id <$> sents rs).
Proof.
  apply (record_ids _ RecSent); [by intros [] ? [= ->] |]. intros f g E. cbn. by rewrite E.
Qed.
Lemma received_ids v coded K rs : describes v coded K rs → NoDup (f_id <$> receiveds rs).
Proof.
  apply (record_ids _ RecReceived); [by intros [] ? [= ->] |]. intros f g E. cbn. by rewrite E.
Qed.

Lemma restored_ids v bs (pb : flight → Publications) next fs ms :
  Forall2 (λ f, restored v bs (pb f) (next f) f) fs ms → msgid <$> ms = f_id <$> fs.
Proof. induction 1 as [| f m fs ms Hf _ IH]; [done |]. cbn. rewrite IH. by rewrite (res_id _ _ _ _ _ _ Hf). Qed.

(** A client with nothing in flight *)
Lemma progress_start v coded rs rs' i c s :
  wf s → items (clients s) !! i = Some c → items (inboundMsgs c) = [] → items (outboundMsgs c) = [] →
  describes v coded (contents (below s)) rs → rs' ≡ₚ rs →
  progress v coded c (other_refs (delete i (items (clients s))) (pending_writes s)) rs rs' []
    (contents (below s)) (blocks s) (items (publications s)) [] c.
Proof.
  intros Hwf Hi Hin Hout HK Hp. constructor; try done.
  - by destruct c.
  - by rewrite Hin.
  - rewrite filter_nil. cbn. by rewrite Hp.
  - intros _. by destruct (wf_loc s i c Hwf Hi) as (_ & _ & HP & _).
Qed.

(** What the loop leaves, in the order of the records *)
Lemma progress_end v coded c0 R rs rs' K bs pl outs c :
  progress v coded c0 R rs [] rs' K bs pl outs c → rs' ≡ₚ rs → window (f_id <$> sents rs) →
  Forall2 (λ f, restored v bs (publication_of f) (next_of rs f) f) (sents rs)
    (items (MQTTPersistence_wrapMsgID (outboundMsgs c))) ∧
  (∃ fs, fs ≡ₚ receiveds rs ∧
    Forall2 (λ f, restored v bs (received_publication v f) (Some PUBREL) f) fs (items (inboundMsgs c))) ∧
  describes v coded K (filter (λ r, ¬ orphan rs r) rs).
Proof.
  intros [P1 P2 P3 P4 P5 P6] Hp Hw. split_and!.
  - eapply (wrap_restored _ f_id); [exact P3 | by rewrite Hp | | exact Hw | exact P2].
    intros f m Hm. apply Hm.
  - exists (receiveds rs'). split; [by rewrite Hp | exact P4].
  - rewrite app_nil_r in P5. by rewrite <- Hp.
Qed.

(** The restored client is as the protocol code needs it. *)
Lemma restored_client_ok v coded K bs rs fs c0 c lo :
  describes v coded K rs → fs ≡ₚ receiveds rs → client_ok c0 →
  c = set_inboundMsgs (inboundMsgs c) (set_outboundMsgs (outboundMsgs c) c0) →
  Forall2 (λ f, restored v bs (publication_of f) (next_of rs f) f) (sents rs) (items lo) →
  Forall2 (λ f, restored v bs (received_publication v f) (Some PUBREL) f) fs (items (inboundMsgs c)) →
  client_ok (set_outboundMsgs lo c).
Proof.
  intros HK Hfs [C1 C2 C3 C4 C5 C6] Ec Hsent Hrecv. pose proof (desc_ok _ _ _ _ HK) as Hok.
  rewrite Forall_forall in Hok. constructor; cbn [inboundMsgs outboundMsgs set_outboundMsgs].
  - eapply Forall2_Forall_r; [exact Hrecv |]. apply Forall_forall. intros f Hf m Hm.
    rewrite Hfs in Hf. unfold receiveds in Hf. apply list_elem_of_omap in Hf as ([] & Hin & [= ->]).
    eapply restored_inbound; [apply (Hok _ Hin) | exact Hm].
  - rewrite (restored_ids _ _ _ (λ _, Some PUBREL) _ _ Hrecv), Hfs. by eapply received_ids.
  - eapply Forall2_Forall_r; [exact Hsent |]. apply Forall_forall. intros f Hf%elem_of_sents m Hm.
    eapply restored_outbound; [apply (Hok _ Hf) | exact Hm].
  - rewrite (restored_ids _ _ _ _ _ _ Hsent). by eapply sent_ids.
  - by rewrite Ec.
  - by rewrite Ec.
Qed.

(** What a restoration makes of the client [c] at position [i] and of the state
    [s], when the store holds the records [rs]: *)
Record recovered coded rs i c s c' s' : Prop := {
  rec_client : items (clients s') !! i = Some c';
  rec_others : delete i (items (clients s')) = delete i (items (clients s));
  rec_fields : c' = set_inboundMsgs (inboundMsgs c') (set_outboundMsgs (outboundMsgs c') c);
  (* the messages sent, in the order of the records *)
  rec_outbound : Forall2 (λ f, restored (c_MQTTVersion c) (blocks s') (publication_of f) (next_of rs f) f)
    (sents rs) (items (outboundMsgs c'));
  (* the messages received, in any order *)
  rec_inbound : ∃ fs, fs ≡ₚ receiveds rs ∧
    Forall2 (λ f, restored (c_MQTTVersion c) (blocks s') (received_publication (c_MQTTVersion c) f)
      (Some PUBREL) f) fs (items (inboundMsgs c'));
  (* the records left *)
  rec_store : describes (c_MQTTVersion c) coded (contents (below s')) (filter (λ r, ¬ orphan rs r) rs);
  rec_sent : sent (below s') = sent (below s);
  rec_wf : c_MQTTVersion c < MQTTVERSION_5 ∨ receiveds rs = [] → wf s';
}.

Lemma restorePackets_recovered per coded rs i c s :
  has_store per = true → reads_back per coded → wf s → items (clients s) !! i = Some c →
  items (inboundMsgs c) = [] → items (outboundMsgs c) = [] →
  describes (c_MQTTVersion c) coded (contents (below s)) rs → window (f_id <$> sents rs) →
  wp (MQTTPersistence_restorePackets per i) (λ rc s', rc = 0 ∧ ∃ c', recovered coded rs i c s c' s') s.
Proof.
  intros Hstore Hreads Hwf Hi Hin Hout HK Hw. set (v := c_MQTTVersion c) in *.
  destruct (wf_loc s i c Hwf Hi) as (Hc & HO & _ & [H1 H2 H3 H4 H5 H6 H7]).
  set (O := delete i (items (clients s))) in *.
  assert (loc view i O (pending_writes s) (blocks s) (items (publications s))
    (sent (below s), contents (below s)) c s) as HL by by constructor.
  unfold MQTTPersistence_restorePackets. rewrite Hstore.
  destruct (pkeys_law (below s)) as (keys & t & Hkeys & Hkept & Hperm).
  destruct (keys_of_records _ _ _ _ _ HK Hperm) as (rs' & -> & Hp).
  apply wp_bind, wp_bind. eapply wp_lift_kept; [exact Hkeys | exact Hkept | exact HL |].
  intros s1 HL1. cbv iota beta. rewrite decide_True by done.
  eapply wp_mono; [eapply (wp_restore_keys per v coded Hreads c _ rs) with (done := []);
    [done | exact Hp | by eapply progress_start | exact HL1] |].
  intros ret s2 (-> & K & bs & pl & outs & c1 & HP & HL2). cbv iota beta. apply wp_bind.
  destruct (progress_end _ _ _ _ _ _ _ _ _ _ _ HP Hp Hw) as (Hsent & (fs & Hfs & Hrecv) & HK2).
  apply wp_bind. eapply wp_client_at; [exact HL2 |]. eapply wp_update_client; [exact HL2 |].
  intros s3 HL3. apply wp_ret. split; [done |]. eexists. destruct HL3 as [L1 L2 L3 L4 L5 L6 L7].
  unfold view in L6. injection L6 as L6 L8.
  constructor; fold v; rewrite ?L4, ?L8; [exact L1 | exact L2 | | exact Hsent | eauto | exact HK2 | exact L6 |].
  - rewrite (pg_client _ _ _ _ _ _ _ _ _ _ _ _ HP). done.
  - intros Hcase. pose proof (pg_pubs _ _ _ _ _ _ _ _ _ _ _ _ HP Hcase) as Hpubs. rewrite <- L4, <- L5 in Hpubs.
    eapply loc_wf; [by constructor | | exact HO | by apply Hwf |].
    + eapply restored_client_ok; [exact HK | exact Hfs | exact Hc | | exact Hsent | exact Hrecv].
      by eapply pg_client.
    + eapply pubs_ok_perm; [| done | done | exact Hpubs]. f_equiv; [| done]. unfold client_refs.
      cbn [inboundMsgs outboundMsgs set_outboundMsgs]. by rewrite wrap_perm.
Qed.

(** C6: MQTTPersistence_restorePackets succeeds on every store whose records are
    those of PUBLISH packets sent and received, of PUBREL packets and of the
    queue: whatever order the keys come in, the client gets the messages sent in
    the order of their ids (also across the wrap from 65535 to 1), each waiting
    for PUBCOMP where its PUBREL is stored, and the messages received; a PUBREL
    without its PUBLISH is removed, and every other record stays.  The order of
    the ids is that on the circle, so they have to lie in a window of it
    ([window]); the client has no messages yet, and the allocations succeed. *)
Theorem restorePackets_restores per coded rs i c s :
  has_store per = true → reads_back per coded → wf s → items (clients s) !! i = Some c →
  items (inboundMsgs c) = [] → items (outboundMsgs c) = [] →
  describes (c_MQTTVersion c) coded (contents (below s)) rs → window (f_id <$> sents rs) →
  wp (MQTTPersistence_restorePackets per i) (λ rc s', rc = 0 ∧ ∃ c', recovered coded rs i c s c' s') s.
Proof. apply restorePackets_recovered. Qed.
End Restoration.

(** A QoS 2 message whose PUBREL was sent, and a QoS 1 message after it, with
    the first id again; a message received; a PUBREL left over; a message
    queued for the application *)
Definition sample_records : list record := [
  RecSent (mkFlight 65535 2 0 0 [97; 47; 98] [] [104; 105]);
  RecSent (mkFlight 1 1 0 1 [99] [] []);
  RecPubrel 65535; RecPubrel 7;
  RecReceived (mkFlight 9 2 1 0 [120] [] [1; 2; 3]);
  RecIgnored "q-0" [0; 0]].

Definition disk_of (rs : list record) : disk :=
  mkDisk wire0 (list_to_map ((λ r, (record_key 4 r, record_data 4 no_code r)) <$> rs)).
Definition disk_state (d : disk) : pstate disk :=
  mkPState (AList [idle_client] None) ∅ al_nil 0 0 al_nil d.

Lemma sample_describes : describes 4 no_code (contents (disk_of sample_records)) sample_records.
Proof.
  apply describes_list.
  - repeat (apply Forall_cons; split); try apply Forall_nil; cbn; try (split; [| done]);
      try (constructor; cbn; unfold valid_id, MAX_MSG_ID; done || lia); by vm_compute.
  - by apply (bool_decide_unpack _); vm_compute.
Qed.

Lemma sample_window : window (f_id <$> sents sample_records).
Proof. split; [repeat constructor; done | by vm_compute]. Qed.

Lemma disk_wf d : heap_of d = [] → wf (disk_state d).
Proof.
  intros Hd. constructor; [| | constructor | exact Hd].
  - constructor; try done; cbn; [constructor | | intros a Ha; by apply not_elem_of_nil in Ha].
    intros a. rewrite lookup_empty. split; [by intros [] | by intros ?%not_elem_of_nil].
  - repeat constructor.
Qed.

Lemma restorePackets_restores_witness :
  wp (MQTTPersistence_restorePackets plain 0) (λ rc s', rc = 0 ∧ ∃ c',
    recovered no_code sample_records 0 idle_client (disk_state (disk_of sample_records)) c' s')
    (disk_state (disk_of sample_records)).
Proof.
  apply (restorePackets_restores plain no_code sample_records 0 idle_client
    (disk_state (disk_of sample_records))); [done | exact plain_reads_back | by apply disk_wf | done
    | done | done | exact sample_describes | exact sample_window].
Defined.
