(* ===== verification/Crash.v ===== *)
(** * The store follows the messages in flight

    The handlers of outgoing messages keep the records of the store in step
    with the messages that are not acknowledged ([mirror]), so that a client
    that is created again goes on where the one before it ended. *)
From stdpp Require Import pretty.
From S2P Require Import Prelude Buffers LinkedList Properties PacketIn Clients PacketOut Receive Wire Protocol ProtocolLaws Inbound Outbound SessionFacts Exchange Persistence RestoreOrder Restore Disk Records Recovery.
Local Open Scope Z_scope.

(** ** Records in step with the stages *)
Section Mirror.
Variable v : Z.
Variable coded : list Z → list Z.

(** The ids of which a PUBREL was sent *)
Definition released (sts : list (Z * stage)) : list Z :=
  fst <$> filter (λ e, snd e = WaitPubcomp) sts.

Definition records_of (fs : list flight) (sts : list (Z * stage)) : list record :=
  (RecSent <$> fs) ++ (RecPubrel <$> released sts).

Definition same_flight (f : flight) (e : Z * stage) : Prop :=
  f_id f = fst e ∧ (f_qos f = 1 ↔ snd e = WaitPuback).

(** The store holds a PUBLISH for every message, and a PUBREL where it was sent. *)
Record mirror (fs : list flight) (sts : list (Z * stage)) (K : gmap string (list Z)) : Prop := {
  mir_flights : Forall2 same_flight fs sts;
  mir_store : describes v coded K (records_of fs sts);
}.

Lemma describes_insert K rs r :
  describes v coded K rs → record_ok v r → K !! record_key v r = None →
  describes v coded (<[record_key v r := record_data v coded r]> K) (r :: rs).
Proof.
  intros HK Hr Hnew. constructor.
  - constructor; [done | apply HK].
  - rewrite fmap_cons. constructor; [| apply HK].
    intros (r' & E & Hr')%list_elem_of_fmap. rewrite E, (describes_lookup _ _ _ _ _ HK Hr') in Hnew. done.
  - intros k d. rewrite lookup_insert_Some, (desc_data _ _ _ _ HK). split.
    + intros [[<- <-] | [_ (r' & Hr' & -> & ->)]]; [exists r | exists r']; set_solver.
    + intros (r' & [-> | Hr']%elem_of_cons & -> & ->); [by left |]. right. split; [| eauto].
      intros E. rewrite E, (describes_lookup _ _ _ _ _ HK Hr') in Hnew. done.
Qed.

Lemma elem_of_released sts id : id ∈ released sts ↔ (id, WaitPubcomp) ∈ sts.
Proof.
  unfold released. rewrite list_elem_of_fmap. split.
  - intros ([id' st] & -> & [Hst Hin]%list_elem_of_filter). cbn in *. by subst.
  - intros Hin. exists (id, WaitPubcomp). split; [done |]. by apply list_elem_of_filter.
Qed.

Lemma released_delete sts k id st :
  sts !! k = Some (id, st) →
  released sts ≡ₚ (if decide (st = WaitPubcomp) then [id] else []) ++ released (delete k sts).
Proof.
  intros Hk. unfold released. rewrite (delete_Permutation sts k _ Hk) at 1.
  rewrite filter_cons. cbn. by destruct (decide (st = WaitPubcomp)).
Qed.

Lemma mirror_ids fs sts K : mirror fs sts K → f_id <$> fs = fst <$> sts.
Proof.
  intros [Hf _]. induction Hf as [| f e fs sts [Hid _] _ IH]; [done |]. cbn. by rewrite IH, Hid.
Qed.

(** A PUBLISH is sent. *)
Lemma mirror_sent fs sts K f st :
  mirror fs sts K → flight_ok v f → f_id f ∉ fst <$> sts → (f_qos f = 1 ↔ st = WaitPuback) →
  st ≠ WaitPubcomp →
  mirror (fs ++ [f]) (sts ++ [(f_id f, st)])
    (<[record_key v (RecSent f) := record_data v coded (RecSent f)]> K).
Proof.
  intros HM Hf Hnew Hq Hst. pose proof (mirror_ids _ _ _ HM) as Hids. destruct HM as [HF HK].
  constructor; [apply Forall2_app; [exact HF | constructor; [by split | constructor]] |].
  assert (records_of (fs ++ [f]) (sts ++ [(f_id f, st)]) ≡ₚ RecSent f :: records_of fs sts) as ->.
  { unfold records_of, released. rewrite fmap_app, filter_app, filter_cons_False by done.
    rewrite filter_nil, app_nil_r. cbn. solve_Permutation. }
  apply describes_insert; [done | done |]. apply eq_None_not_Some. cbn [record_key].
  rewrite sent_key_stored by exact HK. intros (g & Hg & Eg). apply Hnew. rewrite <- Hids, <- Eg.
  unfold records_of in Hg. rewrite elem_of_app in Hg. destruct Hg as [Hg | Hg].
  - apply list_elem_of_fmap in Hg as (g' & [= ->] & Hg). by apply list_elem_of_fmap_2.
  - by apply list_elem_of_fmap in Hg as (? & [=] & _).
Qed.

(** A message that waits for its PUBREC has no PUBREL in the store. *)
Lemma not_released fs sts K k id st :
  mirror fs sts K → sts !! k = Some (id, st) → NoDup (fst <$> sts) → st ≠ WaitPubcomp →
  K !! key_of (pubrel_stem v) id = None.
Proof.
  intros [_ HK] Hk Hnd Hst. apply eq_None_not_Some. rewrite pubrel_key_stored by exact HK.
  unfold records_of. rewrite elem_of_app. intros [Hin | Hin].
  - by apply list_elem_of_fmap in Hin as (? & [=] & _).
  - apply list_elem_of_fmap in Hin as (id' & [= <-] & Hin). apply elem_of_released in Hin.
    apply list_elem_of_lookup in Hin as [j Hj].
    assert (j = k) as ->.
    { eapply (NoDup_lookup _ j k id Hnd); rewrite list_lookup_fmap; [by rewrite Hj | by rewrite Hk]. }
    rewrite Hk in Hj. by injection Hj.
Qed.

(** A PUBREL is sent. *)
Lemma mirror_released fs sts K k id :
  mirror fs sts K → sts !! k = Some (id, WaitPubrec) → NoDup (fst <$> sts) → valid_id id →
  mirror fs (<[k := (id, WaitPubcomp)]> sts) (<[key_of (pubrel_stem v) id := coded (enc_ack PUBREL id)]> K).
Proof.
  intros HM Hk Hnd Hid. pose proof (not_released _ _ _ _ _ _ HM Hk Hnd ltac:(done)) as Hnew.
  destruct HM as [HF HK]. pose proof (lookup_lt_Some _ _ _ Hk) as Hlt. constructor.
  - apply Forall2_same_length_lookup_2; [by rewrite length_insert, (Forall2_length _ _ _ HF) |].
    intros j f e Hf He. destruct (decide (j = k)) as [-> |].
    + rewrite list_lookup_insert_eq in He by done. injection He as <-.
      destruct (Forall2_lookup_lr _ _ _ _ _ _ HF Hf Hk) as [H1 H2]. split; [done |].
      cbn in *. split; [intros E; by apply H2 in E | done].
    + rewrite list_lookup_insert_ne in He by done. by apply (Forall2_lookup_lr _ _ _ _ _ _ HF Hf He).
  - assert (records_of fs (<[k := (id, WaitPubcomp)]> sts) ≡ₚ RecPubrel id :: records_of fs sts) as ->.
    { unfold records_of. rewrite (released_delete (<[k := (id, WaitPubcomp)]> sts) k id WaitPubcomp)
        by by apply list_lookup_insert_eq.
      rewrite decide_True, delete_insert_list by done. rewrite (released_delete sts k id WaitPubrec Hk).
      cbn. by rewrite <- Permutation_middle. }
    apply (describes_insert K _ (RecPubrel id)); [exact HK | exact Hid | exact Hnew].
Qed.

(** A PUBREL is sent again. *)
Lemma mirror_again fs sts K id :
  mirror fs sts K → (id, WaitPubcomp) ∈ sts →
  <[key_of (pubrel_stem v) id := coded (enc_ack PUBREL id)]> K = K.
Proof.
  intros [_ HK] Hin. apply insert_id. apply (describes_lookup v coded K _ (RecPubrel id) HK).
  unfold records_of. rewrite elem_of_app. right. by apply list_elem_of_fmap_2, elem_of_released.
Qed.

(** The keys of the other version are not in the store. *)
Lemma other_version_absent fs sts K key kind dv :
  mirror fs sts K → kind_of_key key = (kind, dv) → kind ≠ KindIgnored → dv ≠ data_version v →
  K !! key = None.
Proof.
  intros [_ HK] Hkey Hkind Hdv. apply eq_None_not_Some. intros [d Hd].
  apply (desc_data _ _ _ _ HK) in Hd as (r & Hr & -> & _).
  pose proof (desc_ok _ _ _ _ HK) as Hok. rewrite Forall_forall in Hok.
  destruct (kind_of_record v r (Hok r Hr)) as [H1 H2]. rewrite Hkey in H1, H2. cbn in H1, H2.
  apply Hdv, H2. by rewrite <- H1.
Qed.

Lemma kinds_of_keys id :
  kind_of_key (key_of PERSISTENCE_PUBLISH_SENT id) = (KindSent, MQTTVERSION_3_1_1) ∧
  kind_of_key (key_of PERSISTENCE_PUBREL id) = (KindPubrel, MQTTVERSION_3_1_1) ∧
  kind_of_key (key_of PERSISTENCE_V5_PUBLISH_SENT id) = (KindSent, MQTTVERSION_5) ∧
  kind_of_key (key_of PERSISTENCE_V5_PUBREL id) = (KindPubrel, MQTTVERSION_5).
Proof. unfold kind_of_key, has_stem, key_of. cbn. by destruct (pretty id). Qed.

Lemma forget_own fs sts K id :
  mirror fs sts K →
  forget id K = delete (key_of (pubrel_stem v) id) (delete (key_of (sent_stem v) id) K).
Proof.
  intros HM. unfold forget, sent_stem, pubrel_stem.
  assert (∀ key kind dv K', kind_of_key key = (kind, dv) → kind ≠ KindIgnored → dv ≠ data_version v →
    K' ⊆ K → delete key K' = K') as Habsent.
  { intros key kind dv K' Hkey Hkind Hdv Hsub. apply delete_id.
    pose proof (other_version_absent _ _ _ _ _ _ HM Hkey Hkind Hdv) as Hnone.
    destruct (K' !! key) eqn:E; [| done]. eapply lookup_weaken in E; [| exact Hsub]. congruence. }
  unfold data_version in Habsent.
  destruct (decide (v >= MQTTVERSION_5)); destruct (decide (MQTTVERSION_5 ≤ v)); try lia.
  - rewrite (Habsent (key_of PERSISTENCE_PUBLISH_SENT id) KindSent MQTTVERSION_3_1_1);
      [| apply kinds_of_keys | done | done | etrans; apply delete_subseteq].
    rewrite (Habsent (key_of PERSISTENCE_PUBREL id) KindPubrel MQTTVERSION_3_1_1);
      [done | apply kinds_of_keys | done | done | etrans; apply delete_subseteq].
  - rewrite (Habsent (key_of PERSISTENCE_V5_PUBLISH_SENT id) KindSent MQTTVERSION_5);
      [| apply kinds_of_keys | done | done | done].
    rewrite (Habsent (key_of PERSISTENCE_V5_PUBREL id) KindPubrel MQTTVERSION_5);
      [done | apply kinds_of_keys | done | done | done].
Qed.

(** The exchange of a message ends. *)
Lemma mirror_finished fs sts K k id st :
  mirror fs sts K → sts !! k = Some (id, st) → NoDup (fst <$> sts) →
  mirror (delete k fs) (delete k sts) (forget id K).
Proof.
  intros HM Hk Hnd. rewrite (forget_own _ _ _ _ HM). pose proof HM as [HF HK].
  destruct (Forall2_lookup_r _ _ _ _ _ HF Hk) as (f & Hf & Hfid & _). cbn in Hfid.
  constructor; [by apply Forall2_delete |].
  assert (records_of fs sts ≡ₚ RecSent f :: (RecPubrel <$> (if decide (st = WaitPubcomp) then [id] else [])) ++
    records_of (delete k fs) (delete k sts)) as Hrecs.
  { unfold records_of. rewrite (delete_Permutation fs k f Hf) at 1.
    rewrite (released_delete _ _ _ _ Hk), fmap_app. cbn. solve_Permutation. }
  rewrite Hrecs in HK. apply describes_delete in HK. cbn [record_key] in HK. rewrite Hfid in HK.
  destruct (decide (st = WaitPubcomp)) as [| Hst].
  - by apply describes_delete in HK.
  - rewrite delete_id; [exact HK |]. rewrite lookup_delete_None. right. by eapply not_released.
Qed.
End Mirror.

(** What the store may know of a message: how far its exchange is, or, when the
    PUBREL was queued because a write was pending, that it is one step behind. *)
Inductive recorded_as : Z * stage → Z * stage → Prop :=
  | rec_current e : recorded_as e e
  | rec_queued id : recorded_as (id, WaitPubcomp) (id, WaitPubrec).

Lemma recorded_ids sts rsts : Forall2 recorded_as sts rsts → fst <$> rsts = fst <$> sts.
Proof. induction 1 as [| ? ? ? ? [] _ IH]; [done | |]; cbn; by rewrite IH. Qed.

Lemma recorded_refl sts : Forall2 recorded_as sts sts.
Proof. induction sts; constructor; [constructor | done]. Qed.

Lemma recorded_at sts rsts k id st :
  Forall2 recorded_as sts rsts → sts !! k = Some (id, st) →
  ∃ st', rsts !! k = Some (id, st') ∧ (st' = st ∨ st = WaitPubcomp ∧ st' = WaitPubrec).
Proof.
  intros Hr Hk. destruct (Forall2_lookup_l _ _ _ _ _ Hr Hk) as (e & He & Hre).
  inversion Hre; subst; eauto.
Qed.

Lemma Forall2_insert_l {A B} (P : A → B → Prop) l k x y k' :
  Forall2 P l k → k !! k' = Some y → P x y → Forall2 P (<[k' := x]> l) k.
Proof. intros HF Hk HP. rewrite <- (list_insert_id k k' y Hk). by apply Forall2_insert. Qed.

(** ** The handlers and the store *)
Section Handlers.
Context {T : Type} {HH : HasHeap T} {HB : HasBlocks T} {HT : Transport T}
  {TL : TransportLaws T} {HS : Session T} {SL : SessionLaws T} {ST : Store T} {STL : StoreLaws T}.
Context (per : persistence T) (coded : list Z → list Z) (HP : stored_below per coded).
Notation P := (M (pstate T)).
Notation loc := (loc contents).
Implicit Types (s : pstate T) (c : Clients).

Definition has_records (K : gmap string (list Z)) s : Prop :=
  heap_of (below s) = [] ∧ contents (below s) = K.

(** Operations above the store *)
Definition still {A} (m : P A) : Prop := ∀ s a s', m s = Ok (a, s') → below s' = below s.

Lemma wlp_still {A} (m : P A) K (Q : A → pstate T → Prop) s :
  still m → has_records K s → (∀ a s', has_records K s' → Q a s') → wlp m Q s.
Proof. intros Hm Hs HQ a s' Hr. apply HQ. unfold has_records. by rewrite (Hm _ _ _ Hr). Qed.

Lemma still_bind {A B} (m : P A) (k : A → P B) : still m → (∀ a, still (k a)) → still (m ≫= k).
Proof.
  intros Hm Hk s b s' Hr. apply bind_inv in Hr as (a & s1 & H1 & H2).
  by rewrite (Hk _ _ _ _ H2), (Hm _ _ _ H1).
Qed.

Lemma still_ret {A} (a : A) : still (mret a).
Proof. by intros s ? ? [= _ <-]. Qed.

Lemma still_update_client i f : still (update_client i f).
Proof. by intros s ? ? [= _ <-]. Qed.

Lemma still_publication_at p : still (publication_at p).
Proof. intros s a s' Hr. unfold publication_at in Hr. destruct p; [| done]. case_match; by simplify_eq. Qed.

Lemma still_update_publication p f : still (update_publication p f).
Proof.
  apply still_bind; [apply still_publication_at |]. intros pb s a s' Hr.
  destruct p; [| done]. by injection Hr as _ <-.
Qed.

Lemma still_remove_publication p : still (remove_publication p).
Proof.
  intros s a s' Hr. unfold remove_publication, free_publication in Hr. destruct p; [| by simplify_eq].
  destruct (al_unlink _ _) as [[] ?]; [| by simplify_eq]. case_decide; by simplify_eq.
Qed.

Lemma still_removePublication p : still (MQTTProtocol_removePublication p).
Proof.
  destruct p; [| apply still_ret]. apply still_bind; [apply still_publication_at |]. intros pb.
  apply still_bind; [apply still_update_publication |]. intros _.
  case_decide; [apply still_remove_publication | apply still_ret].
Qed.

Lemma loc_records i O W bs pl K c s : loc i O W bs pl K c s → has_records K s.
Proof. intros HL. split; apply HL. Qed.

Lemma loc_below i O W bs pl K K' c s t :
  loc i O W bs pl K c s → heap_of t = [] → contents t = K' → loc i O W bs pl K' c (set_below t s).
Proof. intros [H1 H2 H3 H4 H5 H6 H7] Ht HK. by constructor. Qed.

Lemma wlp_lift {A} (m : M T A) (Q : A → pstate T → Prop) s :
  wlp m (λ a t, Q a (set_below t s)) (below s) → wlp (lift m) Q s.
Proof.
  intros Hm a s' Hr. unfold lift in Hr. destruct (m (below s)) as [[b t] |] eqn:E; [| done].
  injection Hr as <- <-. by eapply Hm.
Qed.

Lemma frames_contents_now : frames contents (now : M T Z).
Proof.
  intros t. destruct (now_law t) as (a & t' & Hn & _). exists a, t'. split; [done |].
  by eapply contents_now.
Qed.

(** *** Publishing *)
Lemma wlp_startPublish p q rt tp pl l i O W bs pls K c s :
  publishable p tp pl q l → 0 < q → loc i O W bs pls K c s →
  wlp (MQTTProtocol_startPublish i p q rt MsgNull) (λ _ s', contents (below s') =
    <[key_of (sent_stem (pub_MQTTVersion p)) (pub_msgId p) :=
      coded (enc_packet (header_of PUBLISH 0 q rt)
        (enc_publish tp q (pub_MQTTVersion p) (pub_msgId p) l pl))]> K) s.
Proof.
  intros Hp Hq HL. unfold MQTTProtocol_startPublish. rewrite decide_True by done.
  apply wlp_bind, wp_wlp. eapply (wp_createMessage contents);
    [apply frames_contents_now | apply heap_now | exact Hp | exact HL |].
  intros o tm len s1 a m Ho HL1. apply wlp_bind, wlp_ret. apply wlp_bind, wp_wlp.
  eapply wp_client_at; [exact HL1 |]. apply wlp_bind, wp_wlp. eapply wp_list_append; [exact HL1 |].
  apply wlp_bind, wp_wlp. eapply wp_update_client; [exact HL1 |]. cbn [snd]. intros s2 HL2.
  apply wlp_bind, wp_wlp. eapply wp_publication_at; [exact HL2 | apply lookup_insert_eq |].
  apply wlp_bind. unfold MQTTProtocol_startPublishCommon. apply wlp_bind, wp_wlp.
  eapply wp_client_at; [exact HL2 |]. apply wlp_bind, wlp_lift.
  eapply (wlp_send_publish per coded HP _ tp pl q l); [by apply stored_publishable | exact Hq
    | exact (loc_heap _ _ _ _ _ _ _ _ _ HL2) |].
  intros [[rc msk] n] t Ht Hc. rewrite (loc_sent _ _ _ _ _ _ _ _ _ HL2) in Hc.
  cbn [pub_MQTTVersion pub_msgId stored_publish m_MQTTVersion m stored_message] in Hc.
  eapply wlp_bind, wlp_still; [apply still_update_client | by split |]. intros _ s3 Hs3.
  rewrite decide_False by lia. apply wlp_ret. eapply wlp_bind, wlp_still; [apply still_update_publication
    | exact Hs3 |]. intros _ s4 [_ Hs4]. by apply wlp_ret.
Qed.

(** *** Acknowledgements *)
Lemma stage_in id st (l : list Messages) k m :
  NoDup (msgid <$> l) → l !! k = Some m → msgid m = id →
  (id, st) ∈ entry_of <$> l ↔ stage_of m = st.
Proof.
  intros Hnd Hk Hm. split.
  - intros (m' & E & Hin)%list_elem_of_fmap. injection E as E1 E2.
    apply list_elem_of_lookup in Hin as [j Hj].
    assert (j = k) as ->.
    { eapply (NoDup_lookup _ j k id Hnd); rewrite list_lookup_fmap; [by rewrite Hj, E1 | by rewrite Hk, <- Hm]. }
    rewrite Hk in Hj. by injection Hj as ->.
  - intros <-. rewrite <- Hm. apply list_elem_of_fmap. exists m. split; [done |].
    by eapply list_elem_of_lookup_2.
Qed.

Lemma stage_not_in id st (l : list Messages) :
  Forall (λ m, msgid m ≠ id) l → (id, st) ∉ entry_of <$> l.
Proof.
  intros Hall (m & E & Hin)%list_elem_of_fmap. injection E as E _. rewrite Forall_forall in Hall.
  by apply (Hall m Hin).
Qed.

Lemma wlp_finish_outbound i k m defer K (Q : ptr → pstate T → Prop) s :
  outbound_ok m → has_records K s → (∀ p s', has_records K s' → Q p s') →
  wlp (finish_outbound i k m defer) Q s.
Proof.
  intros Hok Hs HQ. destruct (outbound_props _ Hok) as (l & Hl & _). apply repr_at_props_at in Hl.
  eapply wlp_bind, wlp_still; [| exact Hs |]; [destruct defer; [apply still_ret | apply still_removePublication] |].
  intros _ s1 Hs1. apply wlp_bind, wp_wlp. eapply wp_free_properties; [exact Hl |].
  eapply wlp_bind, wlp_still; [apply still_update_client | exact Hs1 |]. intros _ s2 Hs2.
  apply wlp_ret. by apply HQ.
Qed.

Lemma wlp_remove_persisted i v q id O W bs pl K c s (Q : Z → pstate T → Prop) :
  0 ≤ id < 65536 → loc i O W bs pl K c s → (∀ rc s', has_records (forget id K) s' → Q rc s') →
  wlp (remove_persisted i (sent_key v) q id) Q s.
Proof.
  intros Hid HL HQ. apply wlp_bind, wp_wlp. eapply wp_client_at; [exact HL |]. apply wlp_lift.
  eapply (wlp_remove per coded HP); [done | apply HL |]. intros rc t Ht Hc. apply HQ.
  split; [done |]. cbn. rewrite Hc. f_equal. apply HL.
Qed.

(** The records after an acknowledgement, with messages at the stages [sts] *)
Definition ack_step (v : Z) (sts : list (Z * stage)) (K : gmap string (list Z)) (e : outbound_event) :
    gmap string (list Z) :=
  match e with
  | Sent _ _ => K
  | GotPuback id => if decide ((id, WaitPuback) ∈ sts) then forget id K else K
  | GotPubrec id error =>
    if decide (error = true ∧ (id, WaitPubrec) ∈ sts) then forget id K
    else <[key_of (pubrel_stem v) id := coded (enc_ack PUBREL id)]> K
  | GotPubcomp id => if decide ((id, WaitPubcomp) ∈ sts) then forget id K else K
  end.

Lemma wlp_freeAck {A} ack id (a : A) K (Q : A → pstate T → Prop) s :
  acknowledges ack id → has_records K s → (∀ s', has_records K s' → Q a s') →
  wlp (_ ← MQTTPacket_freeAck ack; mret a) Q s.
Proof.
  intros [_ [l Hl]] Hs HQ. apply wlp_bind, wp_wlp. eapply wp_free_properties; [exact Hl |].
  by apply wlp_ret, HQ.
Qed.

Lemma wlp_handlePubacks ack id sock defer R i O W bs pl K c v s :
  acknowledges ack id → loc i O W bs pl K c s → socket (net c) = sock →
  Forall (λ c', socket (net c') ≠ sock) O → out_list R bs pl c →
  wlp (MQTTProtocol_handlePubacks ack sock defer)
    (λ _ s', has_records (ack_step v (stages c) K (GotPuback id)) s') s.
Proof.
  intros Hack HL Hsock HO Hout. pose proof Hack as [[Hid Hr] _]. unfold MQTTProtocol_handlePubacks.
  apply wlp_bind, wp_wlp. eapply wp_findClient; [exact HL | done | done |]. intros s1 HL1.
  apply wlp_bind, wp_wlp. eapply wp_written; [exact Hid |]. apply wlp_bind, wp_wlp.
  eapply wp_find_outbound; [exact HL1 | |].
  - intros k m l s2 Hk Hm Hl HL2. pose proof (out_ok _ _ _ _ Hout) as Hok.
    eapply Forall_lookup_1 in Hok; [| exact Hk].
    pose proof (stage_in id WaitPuback _ k m (out_ids _ _ _ _ Hout) Hk Hm) as Hst.
    rewrite (stage_puback m Hok) in Hst. cbn [ack_step]. unfold stages. apply wlp_bind.
    destruct (decide (m_qos m ≠ 1)) as [Hq | Hq].
    + rewrite decide_False by tauto. apply wlp_ret.
      eapply wlp_freeAck; [done | by eapply loc_records | done].
    + rewrite decide_True by (apply Hst; by apply dec_stable). eapply wlp_bind, wlp_remove_persisted; [done | exact HL2 |].
      intros rc s3 Hs3. eapply wlp_bind, wlp_finish_outbound; [done | exact Hs3 |].
      intros p s4 Hs4. apply wlp_ret. eapply wlp_freeAck; [done | exact Hs4 | done].
  - intros l s2 Hall Hl HL2. apply wlp_bind, wlp_ret. cbn [ack_step]. unfold stages.
    rewrite decide_False by by apply stage_not_in.
    eapply wlp_freeAck; [done | by eapply loc_records | done].
Qed.

Lemma wlp_handlePubcomps ack id sock defer R i O W bs pl K c v s :
  acknowledges ack id → loc i O W bs pl K c s → socket (net c) = sock →
  Forall (λ c', socket (net c') ≠ sock) O → out_list R bs pl c →
  wlp (MQTTProtocol_handlePubcomps ack sock defer)
    (λ _ s', has_records (ack_step v (stages c) K (GotPubcomp id)) s') s.
Proof.
  intros Hack HL Hsock HO Hout. pose proof Hack as [[Hid Hr] _]. unfold MQTTProtocol_handlePubcomps.
  apply wlp_bind, wp_wlp. eapply wp_findClient; [exact HL | done | done |]. intros s1 HL1.
  apply wlp_bind, wp_wlp. eapply wp_written; [exact Hid |]. apply wlp_bind, wp_wlp.
  eapply wp_find_outbound; [exact HL1 | |].
  - intros k m l s2 Hk Hm Hl HL2. pose proof (out_ok _ _ _ _ Hout) as Hok.
    eapply Forall_lookup_1 in Hok; [| exact Hk].
    pose proof (stage_in id WaitPubcomp _ k m (out_ids _ _ _ _ Hout) Hk Hm) as Hst.
    cbn [ack_step]. unfold stages. apply wlp_bind.
    destruct (decide (m_qos m ≠ 2)) as [Hq | Hq%dec_stable].
    { rewrite decide_False.
      2: { rewrite Hst. intros Hs. apply Hq, wait_pubcomp_qos; [done | by rewrite Hs]. }
      apply wlp_ret. eapply wlp_freeAck; [done | by eapply loc_records | done]. }
    destruct (qos2_next m Hok Hq) as [next Hnext].
    pose proof (stage_qos2 m WaitPubcomp next Hok ltac:(done) Hnext) as Hiff. cbn in Hiff.
    apply wlp_bind, wp_wlp. eapply wp_written; [exact Hnext |].
    destruct (decide (next ≠ PUBCOMP)) as [Hne | Heq%dec_stable].
    + rewrite decide_False by (rewrite Hst, Hiff; tauto). apply wlp_ret.
      eapply wlp_freeAck; [done | by eapply loc_records | done].
    + rewrite decide_True by by apply Hst, Hiff.
      eapply wlp_bind, wlp_remove_persisted; [done | exact HL2 |].
      intros rc s3 Hs3. eapply wlp_bind, wlp_finish_outbound; [done | exact Hs3 |].
      intros p s4 Hs4. apply wlp_bind. intros ? ? [= _ <-]. apply wlp_ret.
      eapply wlp_freeAck; [done | exact Hs4 | done].
  - intros l s2 Hall Hl HL2. apply wlp_bind, wlp_ret. cbn [ack_step]. unfold stages.
    rewrite decide_False by by apply stage_not_in.
    eapply wlp_freeAck; [done | by eapply loc_records | done].
Qed.

(** The records after an acknowledgement on any network: a PUBREL that is
    queued because a write is pending is not recorded. *)
Definition ack_records (v : Z) (sts : list (Z * stage)) (K : gmap string (list Z)) (e : outbound_event)
    (K' : gmap string (list Z)) : Prop :=
  K' = ack_step v sts K e ∨
  ¬ idle_network (T := T) ∧ K' = K ∧
  match e with GotPubrec id error => ¬ (error = true ∧ (id, WaitPubrec) ∈ sts) | _ => False end.

Lemma answer_records v sts K id error K' :
  ¬ (error = true ∧ (id, WaitPubrec) ∈ sts) →
  K' = <[key_of (pubrel_stem v) id := coded (enc_ack PUBREL id)]> K ∨ ¬ idle_network (T := T) ∧ K' = K →
  ack_records v sts K (GotPubrec id error) K'.
Proof.
  intros Hno [-> | [Hn ->]]; [left | by right]. cbn [ack_step]. by rewrite decide_False.
Qed.

(** The answer to a PUBREC puts a PUBREL into the store, unless it is queued. *)
Lemma wlp_answer_pubrec ack id sock i O W bs pl K c v (Q : Z * ptr → pstate T → Prop) s :
  acknowledges ack id → ack_MQTTVersion ack = v → loc i O W bs pl K c s →
  (∀ r s' K', has_records K' s' →
     K' = <[key_of (pubrel_stem v) id := coded (enc_ack PUBREL id)]> K ∨
     ¬ idle_network (T := T) ∧ K' = K → Q r s') →
  wlp (rc ← (free ← nothing_pending sock;
            ack_or_queue i free PUBREL id (MQTTPacket_send_pubrel (ack_MQTTVersion ack) id 0));
      _ ← MQTTPacket_freeAck ack; mret (rc, None : ptr)) Q s.
Proof.
  intros Hack Hv HL HQ. apply wlp_bind, wlp_bind. apply wlp_lift. intros free t Hfree.
  assert (loc i O W bs pl K c (set_below t s)) as HL1.
  { eapply loc_below; [exact HL | |].
    - eapply heap_noPendingWrites; [exact Hfree | apply HL].
    - rewrite (below_pending _ _ HP _ _ _ _ Hfree). apply HL. }
  destruct free.
  2: { cbn [ack_or_queue]. apply wp_wlp. eapply wp_queueAck; [exact HL1 |]. intros s2 HL2.
       eapply wlp_freeAck; [done | by eapply loc_records |]. intros s3 Hs3.
       eapply HQ; [exact Hs3 |]. right. split; [| done]. intros Hn. by eapply Hn in Hfree. }
  cbn [ack_or_queue]. unfold send_on. apply wlp_bind, wp_wlp. eapply wp_client_at; [exact HL1 |].
  apply wlp_bind, wlp_lift. rewrite Hv.
  eapply (wlp_send_pubrel per coded HP); [apply Hack | exact (loc_heap _ _ _ _ _ _ _ _ _ HL1) |].
  intros r t2 Ht2 Hc2. rewrite (loc_sent _ _ _ _ _ _ _ _ _ HL1) in Hc2.
  eapply wlp_bind, wlp_still; [apply still_update_client | by split |]. intros _ s2 Hs2.
  apply wlp_ret. eapply wlp_freeAck; [done | exact Hs2 |]. intros s3 Hs3.
  eapply HQ; [exact Hs3 | by left].
Qed.

Lemma wlp_handlePubrecs ack id error sock defer R i O W bs pl K c v s :
  acknowledges ack id → ack_MQTTVersion ack = v → pubrec_error ack error →
  loc i O W bs pl K c s → socket (net c) = sock →
  Forall (λ c', socket (net c') ≠ sock) O → out_list R bs pl c →
  wlp (MQTTProtocol_handlePubrecs ack sock defer)
    (λ _ s', ∃ K', has_records K' s' ∧ ack_records v (stages c) K (GotPubrec id error) K') s.
Proof.
  intros Hack Hv Herr HL Hsock HO Hout. unfold MQTTProtocol_handlePubrecs.
  apply wlp_bind, wp_wlp. eapply wp_findClient; [exact HL | done | done |]. intros s1 HL1.
  apply wlp_bind, wp_wlp. eapply wp_written; [apply Hack |].
  apply wlp_bind, wp_wlp. eapply wp_update_outbound; [exact HL1 |]. intros s2 HL2.
  assert (∀ c' s', loc i O W bs pl K c' s' → ¬ (error = true ∧ (id, WaitPubrec) ∈ stages c) →
    wlp (rc ← (free ← nothing_pending sock;
            ack_or_queue i free PUBREL id (MQTTPacket_send_pubrel (ack_MQTTVersion ack) id 0));
      _ ← MQTTPacket_freeAck ack; mret (rc, None : ptr))
      (λ _ s', ∃ K', has_records K' s' ∧ ack_records v (stages c) K (GotPubrec id error) K') s') as Hanswer.
  { intros c' s' HL' Hno. eapply wlp_answer_pubrec; [done | done | exact HL' |].
    intros r s3 K' HK' Hans. exists K'. split; [done | by apply answer_records]. }
  apply wlp_bind, wp_wlp. eapply wp_find_outbound; [exact HL2 | |].
  - intros k m l s3 Hk Hm Hl HL3. cbn in Hk, Hl. pose proof (out_ok _ _ _ _ Hout) as Hok.
    eapply Forall_lookup_1 in Hok; [| exact Hk].
    pose proof (stage_in id WaitPubrec _ k m (out_ids _ _ _ _ Hout) Hk Hm) as Hst. fold (stages c) in Hst.
    apply wlp_bind. destruct (decide (m_qos m ≠ 2)) as [Hq | Hq%dec_stable].
    { apply wlp_ret. eapply Hanswer; [exact HL3 |]. rewrite Hst. intros [_ Hs].
      apply Hq, wait_pubcomp_qos; [done | by rewrite Hs]. }
    destruct (qos2_next m Hok Hq) as [next Hnext].
    pose proof (stage_qos2 m WaitPubrec next Hok ltac:(done) Hnext) as Hiff. cbn in Hiff.
    apply wlp_bind, wp_wlp. eapply wp_written; [exact Hnext |].
    destruct (decide (next ≠ PUBREC)) as [Hne | Heq%dec_stable].
    { apply wlp_ret. eapply Hanswer; [exact HL3 |]. rewrite Hst, Hiff. tauto. }
    apply wlp_bind, wp_wlp. eapply wp_pubrec_error; [exact Herr |]. destruct error.
    + assert ((id, WaitPubrec) ∈ stages c) as Hin by by apply Hst, Hiff.
      eapply wlp_bind, wlp_remove_persisted; [apply Hack | exact HL3 |].
      intros rc s4 Hs4. eapply wlp_bind, wlp_finish_outbound; [done | exact Hs4 |].
      intros p s5 Hs5. apply wlp_bind. intros ? ? [= _ <-]. apply wlp_ret. apply wlp_bind, wlp_ret.
      eapply wlp_freeAck; [done | exact Hs5 |]. intros s6 Hs6. eexists. split; [exact Hs6 |].
      left. cbn [ack_step]. by rewrite decide_True.
    + apply wlp_bind, wp_wlp. eapply wp_lift_frames; [apply frames_contents_now | apply heap_now | exact HL3 |].
      intros t s4 HL4. apply wlp_bind, wp_wlp. eapply wp_update_outbound; [exact HL4 |].
      intros s5 HL5. apply wlp_ret. eapply Hanswer; [exact HL5 | by intros [? _]].
  - intros l s3 Hall Hl HL3. cbn in Hall. apply wlp_bind, wlp_ret. eapply Hanswer; [exact HL3 |].
    intros [_ ?]. by eapply stage_not_in.
Qed.

(** ** Runs *)

(** A packet the store can record: a publication with an id MQTT allows that
    fits into a packet *)
Definition recordable (v : Z) (pk : out_packet) : Prop :=
  match pk with
  | OutPublish p q rt => pub_MQTTVersion p = v ∧ 1 ≤ pub_msgId p ∧
    ∀ t pl l, publishable p t pl q l →
      Z.of_nat (length (enc_publish t q v (pub_msgId p) l pl)) < 268435456
  | OutPubrec a => ack_MQTTVersion a = v
  | OutPuback _ | OutPubcomp _ => True
  end.

(** A new publication has an id that is not in use, and a PUBREC is for a QoS 2
    message that was sent. *)
Definition in_order (sts : list (Z * stage)) (e : outbound_event) : Prop :=
  match e with
  | Sent id _ => id ∉ fst <$> sts
  | GotPubrec id _ => (id, WaitPubrec) ∈ sts ∨ (id, WaitPubcomp) ∈ sts
  | GotPuback _ | GotPubcomp _ => True
  end.

Fixpoint all_in_order (sts : list (Z * stage)) (es : list outbound_event) : Prop :=
  match es with
  | [] => True
  | e :: es => in_order sts e ∧ all_in_order (outbound_step sts e) es
  end.

Lemma in_order_fresh sts e : in_order sts e → sends_fresh sts e.
Proof. by destruct e. Qed.

Lemma at_stage_found id st f sts :
  NoDup (fst <$> sts) → (id, st) ∈ sts →
  ∃ k, sts !! k = Some (id, st) ∧ at_stage id st f sts = f k sts.
Proof.
  intros Hnd [k Hk]%list_elem_of_lookup. exists k. split; [done |]. unfold at_stage.
  assert (list_find (at_id id) sts = Some (k, (id, st))) as ->; [| by rewrite decide_True].
  apply list_find_Some. split_and!; [done | by apply bool_decide_pack |].
  intros j y Hj Hlt Hy. apply bool_decide_unpack in Hy.
  assert (j = k) as ->; [| lia]. eapply (NoDup_lookup _ j k id Hnd); rewrite list_lookup_fmap;
    [rewrite Hj; cbn; by rewrite Hy | by rewrite Hk].
Qed.

Lemma at_stage_absent id st f sts : (id, st) ∉ sts → at_stage id st f sts = sts.
Proof.
  intros Hn. unfold at_stage. destruct (list_find (at_id id) sts) as [[k [id' st']] |] eqn:E; [| done].
  case_decide; [| done]. subst st'. exfalso. apply Hn.
  apply list_find_Some in E as (Hk & Hid & _). apply bool_decide_unpack in Hid. cbn in Hid. subst id'.
  by eapply list_elem_of_lookup_2.
Qed.

(** The flight of a publication *)
Definition flight_of (v : Z) (p : Publish) (q rt : Z) (t pl : list Z) (l : list MQTTProperty) : flight :=
  mkFlight (pub_msgId p) q 0 (Z.land rt 1) t (if decide (MQTTVERSION_5 ≤ v) then l else []) pl.

Lemma flight_of_body v p q rt t pl l :
  flight_body v (flight_of v p q rt t pl l) = enc_publish t q v (pub_msgId p) l pl.
Proof.
  unfold flight_body, enc_publish, enc_props_if, data_version. cbn.
  destruct (decide (MQTTVERSION_5 ≤ v)); done.
Qed.

Lemma flight_of_ok v p q rt t pl l :
  publishable p t pl q l → 0 < q → recordable v (OutPublish p q rt) →
  flight_ok v (flight_of v p q rt t pl l) ∧
  flight_header (flight_of v p q rt t pl l) = header_of PUBLISH 0 q rt.
Proof.
  intros Hp Hq (Hv & Hid & Hlen). pose proof (pub_qos _ _ _ _ _ Hp) as Hqr.
  pose proof (pub_id _ _ _ _ _ Hp) as Hidr. split.
  - constructor; cbn [f_id f_qos f_dup f_retain f_topic f_props flight_of].
    + unfold valid_id, MAX_MSG_ID. lia.
    + lia.
    + lia.
    + change 1 with (Z.ones 1). rewrite Z.land_ones by lia. by apply Z.mod_pos_bound.
    + apply Hp.
    + destruct (decide (MQTTVERSION_5 ≤ v)) as [H5 |]; [| done]. rewrite <- Hv in H5.
      destruct (pub_props _ _ _ _ _ Hp H5) as [Hr Hf]. split; [by eapply repr_valid | done].
    + rewrite flight_of_body. by apply Hlen.
  - unfold flight_header, header_of. cbn. f_equal. change 3 with (Z.ones 2).
    rewrite Z.land_ones by lia. rewrite Z.mod_small; [done |]. change (2 ^ 2) with 4. lia.
Qed.

Lemma mirror_valid v fs sts K id st :
  mirror v coded fs sts K → (id, st) ∈ sts → valid_id id.
Proof.
  intros [HF HK] [k Hk]%list_elem_of_lookup.
  destruct (Forall2_lookup_r _ _ _ _ _ HF Hk) as (f & Hf & Hid & _). cbn in Hid. subst id.
  pose proof (desc_ok _ _ _ _ HK) as Hok. rewrite Forall_forall in Hok.
  apply (Hok (RecSent f)). apply elem_of_app. left. apply list_elem_of_fmap_2. by eapply list_elem_of_lookup_2.
Qed.

(** The store holds the messages, each with the stage it knows; on a network
    where nothing is ever pending that is the stage of the client. *)
Definition mirrored (v : Z) (sts : list (Z * stage)) (K : gmap string (list Z)) : Prop :=
  ∃ fs rsts, Forall2 recorded_as sts rsts ∧ (idle_network (T := T) → rsts = sts) ∧
    mirror v coded fs rsts K.

Lemma mirrored_finished v sts K k id st :
  mirrored v sts K → sts !! k = Some (id, st) → NoDup (fst <$> sts) →
  mirrored v (delete k sts) (forget id K).
Proof.
  intros (fs & rsts & Hr & Hi & HM) Hk Hnd. destruct (recorded_at _ _ _ _ _ Hr Hk) as (st' & Hk' & _).
  exists (delete k fs), (delete k rsts). split_and!; [by apply Forall2_delete | |].
  - intros Hn. by rewrite Hi.
  - eapply mirror_finished; [done | done |]. by rewrite (recorded_ids _ _ Hr).
Qed.

(** A PUBREL is recorded, for a message that waited for its PUBREC or for one
    whose PUBREL was sent or queued before. *)
Lemma mirrored_released v sts K k id st :
  mirrored v sts K → sts !! k = Some (id, st) → NoDup (fst <$> sts) → st ≠ WaitPuback →
  mirrored v (<[k := (id, WaitPubcomp)]> sts) (<[key_of (pubrel_stem v) id := coded (enc_ack PUBREL id)]> K).
Proof.
  intros (fs & rsts & Hr & Hi & HM) Hk Hnd Hst. destruct (recorded_at _ _ _ _ _ Hr Hk) as (st' & Hk' & Hrec).
  exists fs, (<[k := (id, WaitPubcomp)]> rsts). split_and!.
  - apply Forall2_insert; [done | constructor].
  - intros Hn. by rewrite Hi.
  - destruct st' as [| |]; [destruct Hrec as [<- | [_ [=]]]; done | |].
    + eapply mirror_released; [done | done | by rewrite (recorded_ids _ _ Hr) |].
      eapply mirror_valid; [done | by eapply list_elem_of_lookup_2].
    + rewrite list_insert_id by done. erewrite mirror_again; [done | done |].
      by eapply list_elem_of_lookup_2.
Qed.

(** A PUBREL is queued, or its record is not written again. *)
Lemma mirrored_queued v sts K k id st :
  mirrored v sts K → sts !! k = Some (id, st) → st ≠ WaitPuback → ¬ idle_network (T := T) →
  mirrored v (<[k := (id, WaitPubcomp)]> sts) K.
Proof.
  intros (fs & rsts & Hr & Hi & HM) Hk Hst Hn. destruct (recorded_at _ _ _ _ _ Hr Hk) as (st' & Hk' & Hrec).
  exists fs, rsts. split_and!; [| done | done]. eapply Forall2_insert_l; [done | done |].
  destruct Hrec as [-> | [_ ->]]; [| constructor]. destruct st; [done | constructor..].
Qed.

Lemma stage_released sts id : 
  NoDup (fst <$> sts) → (id, WaitPubrec) ∈ sts ∨ (id, WaitPubcomp) ∈ sts →
  ∃ k st, sts !! k = Some (id, st) ∧ st ≠ WaitPuback ∧
    outbound_step sts (GotPubrec id false) = <[k := (id, WaitPubcomp)]> sts.
Proof.
  intros Hnd [Hin | Hin].
  - destruct (at_stage_found id _ (λ k, <[k := (id, WaitPubcomp)]>) sts Hnd Hin) as (k & Hk & E).
    by exists k, WaitPubrec.
  - assert ((id, WaitPubrec) ∉ sts) as Hno.
    { intros Hno. apply list_elem_of_lookup in Hin as [k Hk], Hno as [j Hj].
      assert (j = k) as ->; [| congruence].
      eapply (NoDup_lookup _ j k id Hnd); rewrite list_lookup_fmap; [by rewrite Hj | by rewrite Hk]. }
    pose proof Hin as [k Hk]%list_elem_of_lookup. exists k, WaitPubcomp. split_and!; [done | done |].
    cbn [outbound_step]. rewrite at_stage_absent by done. by rewrite list_insert_id.
Qed.

(** An acknowledgement keeps the records in step. *)
Lemma mirrored_ack v sts K K' e :
  mirrored v sts K → NoDup (fst <$> sts) → in_order sts e →
  match e with Sent _ _ => False | _ => True end → ack_records v sts K e K' →
  mirrored v (outbound_step sts e) K'.
Proof.
  intros HM Hnd Hord He HK'.
  assert (∀ id st, (id, st) ∈ sts → mirrored v (at_stage id st delete sts) (forget id K)) as Hfin.
  { intros id st Hin. destruct (at_stage_found id st delete sts Hnd Hin) as (k & Hk & ->).
    by eapply mirrored_finished. }
  destruct e as [| id | id error | id]; [done | | |].
  - destruct HK' as [-> | (_ & _ & [])]. cbn [outbound_step ack_step].
    case_decide as Hin; [by apply Hfin | by rewrite at_stage_absent].
  - destruct (decide (error = true ∧ (id, WaitPubrec) ∈ sts)) as [[-> Hin] | Hno].
    + destruct HK' as [-> | (_ & _ & Hno)]; [| by destruct Hno]. cbn [outbound_step ack_step].
      rewrite decide_True by done. by apply Hfin.
    + destruct (stage_released sts id Hnd Hord) as (k & st & Hk & Hst & E).
      assert (outbound_step sts (GotPubrec id error) = <[k := (id, WaitPubcomp)]> sts) as ->.
      { rewrite <- E. destruct error; [| done]. cbn [outbound_step]. rewrite !at_stage_absent; tauto. }
      destruct HK' as [-> | (Hn & -> & _)]; [| by eapply mirrored_queued].
      cbn [ack_step]. rewrite decide_False by done. by eapply mirrored_released.
  - destruct HK' as [-> | (_ & _ & [])]. cbn [outbound_step ack_step].
    case_decide as Hin; [by apply Hfin | by rewrite at_stage_absent].
Qed.

Lemma owning_records sock i c s :
  owning sock i c s →
  loc i (delete i (items (clients s))) (pending_writes s) (blocks s) (items (publications s))
    (contents (below s)) c s.
Proof. intros [Hwf Hi _ _]. destruct (wf_loc s i c Hwf Hi) as (_ & _ & _ & [H1 H2 H3 H4 H5 H6 H7]). by constructor. Qed.

(** What a packet does to the records *)
Lemma wlp_handle_out sock defer pk e i c s v :
  out_event pk e → recordable v pk → owning sock i c s → in_order (stages c) e →
  NoDup (fst <$> stages c) → mirrored v (stages c) (contents (below s)) →
  wlp (handle_out sock i defer pk) (λ _ s',
    mirrored v (outbound_step (stages c) e) (contents (below s'))) s.
Proof.
  intros He Hrec Hown Hord Hnd HM. pose proof (owning_records _ _ _ _ Hown) as HL.
  destruct (owning_loc _ _ _ _ Hown) as (_ & HO & Hout). pose proof (owning_socket _ _ _ _ Hown) as Hsock.
  assert (∀ A (m : P (A * ptr)), match e with Sent _ _ => False | _ => True end →
    wlp m (λ _ s', ∃ K', has_records K' s' ∧ ack_records v (stages c) (contents (below s)) e K') s →
    wlp (r ← m; MQTTProtocol_removePublication (snd r)) (λ _ s',
      mirrored v (outbound_step (stages c) e) (contents (below s'))) s) as Hack.
  { intros A m Hno Hm. apply wlp_bind. eapply wlp_mono; [exact Hm |]. intros r s' (K' & Hs' & HK').
    eapply wlp_still; [apply still_removePublication | exact Hs' |]. intros _ s2 [_ ->].
    by eapply mirrored_ack. }
  destruct He as [p q rt t pl l Hp Hq | a id Ha | a id error Ha Herr | a id Ha]; cbn [handle_out].
  - apply wlp_bind. eapply wlp_mono; [by eapply wlp_startPublish |]. cbv beta. intros r s' Hs'.
    apply wlp_ret. rewrite Hs'. destruct (flight_of_ok v p q rt t pl l Hp Hq Hrec) as [Hf Hh].
    pose proof (flight_of_body v p q rt t pl l) as Hb. destruct Hrec as (<- & _ & _).
    destruct HM as (fs & rsts & Hr & Hi & HM).
    exists (fs ++ [flight_of (pub_MQTTVersion p) p q rt t pl l]), (rsts ++ [(pub_msgId p, first_stage q)]).
    cbn [outbound_step]. split_and!; [apply Forall2_app, recorded_refl; exact Hr | intros Hn; by rewrite Hi |].
    unfold in_order in Hord. rewrite <- (recorded_ids _ _ Hr) in Hord.
    pose proof (mirror_sent _ coded fs rsts _ _ (first_stage q) HM Hf Hord) as Hsent.
    cbn [record_key record_data] in Hsent. rewrite Hh, Hb in Hsent. cbn [f_id flight_of] in Hsent.
    apply Hsent; unfold first_stage; cbn; by case_decide.
  - eapply Hack; [done |]. eapply wlp_mono; [by eapply wlp_handlePubacks |]. cbv beta. intros _ s' Hs'.
    eexists. split; [exact Hs' | by left].
  - eapply Hack; [done | by eapply wlp_handlePubrecs].
  - eapply Hack; [done |]. eapply wlp_mono; [by eapply wlp_handlePubcomps |]. cbv beta. intros _ s' Hs'.
    eexists. split; [exact Hs' | by left].
Qed.

Lemma owning_nodup sock i c s : owning sock i c s → NoDup (fst <$> stages c).
Proof. intros Hown. rewrite stages_ids. apply (owning_loc _ _ _ _ Hown). Qed.

Lemma handle_all_out_mirror sock defer pks es i v : ∀ c s,
  Forall2 out_event pks es → Forall (recordable v) pks → owning sock i c s →
  all_in_order (stages c) es → mirrored v (stages c) (contents (below s)) →
  wp (handle_all_out sock i defer pks) (λ _ s', ∃ c', owning sock i c' s' ∧
    stages c' = foldl outbound_step (stages c) es ∧
    mirrored v (stages c') (contents (below s'))) s.
Proof.
  intros c s Hes. revert c s.
  induction Hes as [| pk e pks es He _ IH]; intros c s Hrec Hown Hord HM.
  { apply wp_ret. by exists c. }
  apply Forall_cons in Hrec as [Hrec1 Hrec]. destruct Hord as [Hord1 Hord].
  cbn [handle_all_out foldl]. apply wp_bind.
  eapply wp_mono; [apply wp_and_wlp; [eapply handle_out_owning; [exact He | exact Hown |]
    | eapply wlp_handle_out; [exact He | exact Hrec1 | exact Hown | exact Hord1 | | exact HM]] |].
  - by apply in_order_fresh.
  - by eapply owning_nodup.
  - intros _ s1 [(c1 & Hs1 & Hst1) HM1]. rewrite <- Hst1 in *. by eapply IH.
Qed.

(** The stages of restored messages *)
Lemma restored_stages v bs fs sts ms :
  NoDup (fst <$> sts) → Forall2 same_flight fs sts → Forall (flight_ok v) fs →
  Forall2 (λ f, restored v bs (publication_of f) (next_of (records_of fs sts) f) f) fs ms →
  entry_of <$> ms = sts.
Proof.
  intros Hnd Hsame Hok Hms. apply list_eq. intros k. rewrite list_lookup_fmap.
  destruct (sts !! k) as [[id st] |] eqn:Hk.
  2: { apply lookup_ge_None in Hk. rewrite <- (Forall2_length _ _ _ Hsame), (Forall2_length _ _ _ Hms) in Hk.
       by apply lookup_ge_None in Hk as ->. }
  destruct (Forall2_lookup_r _ _ _ _ _ Hsame Hk) as (f & Hf & Hid & Hq). cbn in Hid, Hq.
  destruct (Forall2_lookup_l _ _ _ _ _ Hms Hf) as (m & Hm & [R1 R2 R3 R4 R5 R6 R7 R8]). rewrite Hm. cbn.
  unfold entry_of, stage_of. rewrite R3, Hid, R1, R7. do 2 f_equal.
  destruct (decide (f_qos f = 1)) as [H1 | H1]; [symmetry; by apply Hq |].
  assert (f_qos f = 2) as H2.
  { rewrite Forall_forall in Hok. destruct (f_ok_qos _ _ (Hok f ltac:(by eapply list_elem_of_lookup_2))); tauto. }
  unfold next_of. rewrite H2, (decide_True (P := 2 = 2)) by done.
  assert (RecPubrel (f_id f) ∈ records_of fs sts ↔ st = WaitPubcomp) as Hiff.
  { unfold records_of. rewrite elem_of_app, Hid. split.
    - intros [(? & [=] & _)%list_elem_of_fmap | (id' & [= <-] & Hin)%list_elem_of_fmap].
      apply elem_of_released, list_elem_of_lookup in Hin as [j Hj].
      assert (j = k) as ->; [| rewrite Hk in Hj; by injection Hj].
      eapply (NoDup_lookup _ j k id Hnd); rewrite list_lookup_fmap; [by rewrite Hj | by rewrite Hk].
    - intros ->. right. apply list_elem_of_fmap_2, elem_of_released. by eapply list_elem_of_lookup_2. }
  destruct (decide (RecPubrel (f_id f) ∈ records_of fs sts)) as [Hr | Hr].
  - rewrite decide_False by by intros [=]. symmetry. by apply Hiff.
  - rewrite decide_True by done. destruct st; [| done |].
    + exfalso. by apply H1, Hq.
    + exfalso. by apply Hr, Hiff.
Qed.

Lemma sents_records fs sts : sents (records_of fs sts) = fs ∧ receiveds (records_of fs sts) = [].
Proof.
  unfold records_of, sents, receiveds. rewrite !omap_app. split.
  - assert (∀ l : list Z, omap (λ r, match r with RecSent f => Some f | _ => None end) (RecPubrel <$> l) = [])
      as -> by (induction l; done).
    rewrite app_nil_r. induction fs as [| f fs IH]; [done |]. cbn. by rewrite IH.
  - assert (∀ l : list Z, omap (λ r, match r with RecReceived f => Some f | _ => None end) (RecPubrel <$> l) = [])
      as -> by (induction l; done).
    rewrite app_nil_r. induction fs as [| f fs IH]; [done |]. exact IH.
Qed.
End Handlers.

(** C5: a crash loses no message.  The traffic is any list of publications,
    PUBACKs, PUBRECs and PUBCOMPs in the order of the exchanges ([all_in_order]:
    a new publication has an id that is not in use, and a PUBREC is for a
    message that was sent with QoS 2), handled by startPublish and the handlers
    on a store that works, over a network that may accept, delay or refuse any
    write.  A new client of the same version that finds the store as it was
    left is given by MQTTPersistence_restorePackets exactly the messages that
    were in flight, in the same order, each waiting for the same packet as
    before, with one exception the code makes: handlePubrecs writes no record
    for a PUBREL that it queues because a write is pending, so a message that
    waits for a PUBCOMP may be restored as one that waits for its PUBREC
    ([recorded_as], and [queued_pubrel] below).  At the start the store is empty
    and no message in flight, and the allocations succeed.  On a network where nothing is
    ever pending the stages are the same.  The ids in flight have to lie in a
    window of the circle of ids ([window]): further apart, the order of the
    restored messages can be another one. *)
Theorem crash_recovery {T} {HH : HasHeap T} {HB : HasBlocks T} {HT : Transport T}
  {TL : TransportLaws T} {HS : Session T} {SL : SessionLaws T} {ST : Store T} {STL : StoreLaws T}
  (per : persistence T) coded sock i defer c (s : pstate T) pks es :
  stored_below per coded → owning sock i c s → items (outboundMsgs c) = [] →
  contents (below s) = ∅ → Forall2 out_event pks es → Forall (recordable (c_MQTTVersion c)) pks →
  all_in_order [] es →
  wp (handle_all_out sock i defer pks) (λ _ s1, ∃ c1, owning sock i c1 s1 ∧
    stages c1 = foldl outbound_step [] es ∧
    ∀ j c2 s2, wf s2 → items (clients s2) !! j = Some c2 →
      items (inboundMsgs c2) = [] → items (outboundMsgs c2) = [] →
      c_MQTTVersion c2 = c_MQTTVersion c → contents (below s2) = contents (below s1) →
      window (fst <$> stages c1) →
      wp (MQTTPersistence_restorePackets per j) (λ rc s3, rc = 0 ∧ ∃ c3,
        items (clients s3) !! j = Some c3 ∧ Forall2 recorded_as (stages c1) (stages c3) ∧
        (idle_network (T := T) → stages c3 = stages c1) ∧ wf s3) s2) s.
Proof.
  intros HP Hown Hout HK Hes Hrec Hord.
  assert (stages c = []) as Hst by (unfold stages; by rewrite Hout).
  eapply wp_mono; [eapply (handle_all_out_mirror per coded HP sock defer pks es i _ c s);
    [exact Hes | exact Hrec | exact Hown | by rewrite Hst | rewrite Hst, HK] |].
  { exists [], []. split_and!; [constructor | done |]. constructor; [constructor |].
    apply (describes_list _ coded []); constructor. }
  cbv beta. intros _ s1 (c1 & Hown1 & Hst1 & (fs & rsts & Hr & Hi & HM)). rewrite Hst in Hst1.
  exists c1. split_and!; [done | done |].
  intros j c2 s2 Hwf2 Hj Hin2 Hout2 Hv2 HK2 Hw. pose proof HM as [Hsame Hdesc].
  destruct (sents_records fs rsts) as [Hsents Hrecvs]. rewrite <- Hv2, <- HK2 in Hdesc.
  eapply wp_mono; [eapply (restorePackets_recovered per coded _ j c2 s2);
    [apply HP | apply HP | done | done | done | done | exact Hdesc |] |].
  { rewrite Hsents, (mirror_ids _ _ _ _ _ HM), (recorded_ids _ _ Hr). exact Hw. }
  cbv beta. intros rc s3 [-> (c3 & [R1 _ _ R4 _ _ _ R8])]. split; [done |]. exists c3. rewrite Hsents in R4.
  assert (stages c3 = rsts) as ->; [| by split_and!; auto].
  eapply restored_stages; [| exact Hsame | | exact R4].
  - rewrite (recorded_ids _ _ Hr). by eapply owning_nodup.
  - pose proof (desc_ok _ _ _ _ Hdesc) as Hok. rewrite Forall_forall in Hok. apply Forall_forall.
    intros f Hf. apply (Hok (RecSent f)), elem_of_sents. by rewrite Hsents.
Qed.

(** *** An instance *)
Definition fresh_disk : pstate disk := disk_state (mkDisk wire0 ∅).

Lemma disk_stored_below : stored_below plain no_code.
Proof.
  constructor; try done.
  - intros sock hdr bufs ty id scr v d Hscr. cbn. by rewrite decide_True.
  - intros sock hdr bufs msk d a d'. cbn. by intros [= _ <-].
  - intros sock d a d'. cbn. by intros [= _ <-].
  - intros bufs d. by exists bufs, d.
  - exact plain_reads_back.
Qed.

Lemma fresh_disk_owning : owning 3 0 idle_client fresh_disk.
Proof. constructor; [by apply disk_wf | done | done |]. intros [| j] c' Hj _; [done | by destruct j]. Qed.

Lemma news_recordable id : 1 ≤ id → recordable 4 (OutPublish (news id) 2 0).
Proof.
  intros Hid. split_and!; [done | exact Hid |]. intros t pl l [(b & [= <-] & <-) _ (d & [= <-] & _ & ->) _ _ _].
  done.
Qed.

Lemma crash_recovery_witness :
  wp (handle_all_out 3 0 false news_packets) (λ _ s1, ∃ c1, owning 3 0 c1 s1 ∧
    stages c1 = foldl outbound_step [] news_events ∧
    ∀ j c2 s2, wf s2 → items (clients s2) !! j = Some c2 →
      items (inboundMsgs c2) = [] → items (outboundMsgs c2) = [] →
      c_MQTTVersion c2 = c_MQTTVersion idle_client → contents (below s2) = contents (below s1) →
      window (fst <$> stages c1) →
      wp (MQTTPersistence_restorePackets plain j) (λ rc s3, rc = 0 ∧ ∃ c3,
        items (clients s3) !! j = Some c3 ∧ Forall2 recorded_as (stages c1) (stages c3) ∧
        (idle_network (T := disk) → stages c3 = stages c1) ∧ wf s3) s2) fresh_disk.
Proof.
  apply (crash_recovery plain no_code 3 0 false idle_client fresh_disk news_packets news_events);
    [exact disk_stored_below | exact fresh_disk_owning | done | done
    | exact news_out_events | | by vm_compute; set_solver].
  repeat constructor; by apply news_recordable.
Defined.

(** Without [in_order] it fails: a PUBREC for an id that is not in use is
    answered with a PUBREL, whose record stays in the store; a message sent
    later with that id is then restored as if the server had it. *)
Definition final {A} (m : M (pstate disk) A) (s : pstate disk) : pstate disk :=
  match m s with Ok (_, s') => s' | Err _ => s end.
Definition first_client (s : pstate disk) : Clients := default idle_client (items (clients s) !! 0%nat).

Lemma stray_pubrec :
  let s1 := final (handle_all_out 3 0 false [OutPubrec (ack_of PUBREC 9); OutPublish (news 9) 2 0]) fresh_disk in
  let s2 := final (MQTTPersistence_restorePackets plain 0) (disk_state (below s1)) in
  stages (first_client s1) = [(9, WaitPubrec)] ∧ stages (first_client s2) = [(9, WaitPubcomp)].
Proof. by vm_compute. Qed.

(** A network where a write is always pending: handlePubrecs queues the PUBREL
    of the message, and writes no record for it. *)
Definition busy_transport : Transport disk := {|
  putdatas sock hdr bufs msk := putdatas (T := disk) sock hdr bufs msk;
  noPendingWrites _ := mret false;
  now := now (T := disk);
  putPacket sock := putPacket (T := disk) sock;
|}.

Lemma queued_pubrel :
  let s1 := final (handle_all_out (HT := busy_transport) 3 0 false
    [OutPublish (news 9) 2 0; OutPubrec (ack_of PUBREC 9)]) fresh_disk in
  let s2 := final (MQTTPersistence_restorePackets plain 0) (disk_state (below s1)) in
  items (outboundQueue (first_client s1)) = [mkAckRequest 9 PUBREL] ∧
  stages (first_client s1) = [(9, WaitPubcomp)] ∧ stages (first_client s2) = [(9, WaitPubrec)].
Proof. by vm_compute. Qed.

(** The records of a version 3 client do not tell a version 5 client how far a
    QoS 2 exchange was: it looks for the PUBREL, and for the PUBLISH of a
    PUBREL, under the keys of version 5 only. *)
Lemma upgrade_forgets_pubrel :
  let disk0 := disk_of [RecSent (mkFlight 1 2 0 0 [99] [] [7]); RecPubrel 1] in
  let restore c := final (MQTTPersistence_restorePackets plain 0)
    (mkPState (AList [c] None) ∅ al_nil 0 0 al_nil disk0) in
  stages (first_client (restore idle_client)) = [(1, WaitPubcomp)] ∧
  stages (first_client (restore sample_client)) = [(1, WaitPubrec)] ∧
  contents (below (restore sample_client)) !! "sc-1"%string = None.
Proof. by vm_compute. Qed.
