(* ===== verification/JsString.v ===== *)
(** * JavaScript strings and convertToId (src/docs/MQTTClient/html/search/search.js)

    A string is the list of its UTF-16 code units.  The string methods and the
    regular expressions the search pages use, [convertToId], and the functions
    [escape] and [unescape] that carry a search from one page to the other. *)
From S2P Require Import Prelude.
From stdpp Require Import pretty.
Local Open Scope Z_scope.

Notation jstr := (list Z).

(** A literal of the source. *)
Fixpoint js (s : string) : jstr :=
  match s with
  | EmptyString => []
  | String a s => Z.of_N (Ascii.N_of_ascii a) :: js s
  end.

Definition code_unit (c : Z) : Prop := 0 ≤ c < 65536.
Notation code_units := (Forall code_unit).
Definition ascii_unit (c : Z) : Prop := 0 ≤ c < 128.
Notation ascii_units := (Forall ascii_unit).

#[export] Instance code_unit_dec c : Decision (code_unit c).
Proof. unfold code_unit. apply _. Defined.
#[export] Instance ascii_unit_dec c : Decision (ascii_unit c).
Proof. unfold ascii_unit. apply _. Defined.

(** ** String methods *)

(** [s.toLowerCase()]: the ASCII letters; a string with other code units is
    mapped by the Unicode tables of the browser, a parameter. *)
Class Unicode := unicode_lower : jstr → jstr.

Definition lower_ascii (c : Z) : Z := if decide (65 ≤ c ≤ 90) then c + 32 else c.
Definition toLowerCase `{Unicode} (s : jstr) : jstr :=
  if decide (ascii_units s) then lower_ascii <$> s else unicode_lower s.

(** [s.replace(/^ +/, '')] and [s.replace(/ +$/, '')] *)
Fixpoint strip_leading (s : jstr) : jstr :=
  match s with
  | c :: s' => if decide (c = 32) then strip_leading s' else s
  | [] => []
  end.
Definition strip_trailing (s : jstr) : jstr := reverse (strip_leading (reverse s)).

(** [s.replace(/ +/g, '')] *)
Definition strip_all (s : jstr) : jstr := filter (λ c, c ≠ 32) s.

(** [s.indexOf(t)], -1 if [t] is not found *)
Fixpoint index_from (k : Z) (t s : jstr) : Z :=
  if decide (t `prefix_of` s) then k
  else match s with [] => -1 | _ :: s => index_from (k + 1) t s end.
Definition indexOf (t s : jstr) : Z := index_from 0 t s.

(** [n.toString(16)] for a number up to 2^64 *)
Definition hex_digit (d : Z) : Z := if decide (d < 10) then 48 + d else 87 + d.
Fixpoint hex_loop (fuel : nat) (n : Z) (acc : jstr) : jstr :=
  match fuel with
  | O => acc
  | S fuel =>
    let acc := hex_digit (n `mod` 16) :: acc in
    if decide (n / 16 = 0) then acc else hex_loop fuel (n / 16) acc
  end.
Definition toString16 (n : Z) : jstr := hex_loop 16 n [].

(** ['' + n] for an integer *)
Definition toString10 (n : Z) : jstr := js (pretty n).

(** The digits of a number. *)
Definition digit (c : Z) : Prop := 48 ≤ c ≤ 57.

Lemma pretty_N_go_digits x s : Forall digit (js s) → Forall digit (js (pretty_N_go x s)).
Proof.
  revert s. induction x as [x IH] using (well_founded_induction N.lt_wf_0); intros s Hs.
  destruct (decide (x = 0)%N) as [-> | Hx]; [by rewrite pretty_N_go_0 |].
  rewrite pretty_N_go_step by lia. apply IH; [apply N.div_lt; lia |].
  cbn [js]. apply Forall_cons. split; [| done].
  assert (Forall (λ k, digit (Z.of_N (Ascii.N_of_ascii (pretty_N_char (N.of_nat k))))) (seq 0 10)) as Hall.
  { unfold digit. by apply (bool_decide_unpack _). }
  rewrite Forall_forall in Hall. assert (x `mod` 10 < 10)%N by (by apply N.mod_lt).
  generalize dependent (x `mod` 10)%N. intros d Hd. rewrite <- (N2Nat.id d). apply Hall, elem_of_seq. lia.
Qed.

Lemma pretty_N_digits (x : N) : Forall digit (js (pretty x)).
Proof.
  unfold pretty, pretty_N. destruct (decide (x = 0)%N).
  - by repeat constructor.
  - apply pretty_N_go_digits. by apply Forall_nil.
Qed.

Lemma toString10_digits n : 0 ≤ n → Forall digit (toString10 n).
Proof.
  intros Hn. unfold toString10. destruct n as [| p | p]; [| apply (pretty_N_digits (Npos p)) | lia].
  apply (pretty_N_digits 0).
Qed.

Lemma digits_no_underscore s : Forall digit s → 95 ∉ s.
Proof. rewrite Forall_forall. intros Hs Hin. apply Hs in Hin. unfold digit in Hin. lia. Qed.

Lemma toString10_no_underscore n : 95 ∉ toString10 n.
Proof.
  destruct (decide (0 ≤ n)); [by apply digits_no_underscore, toString10_digits |].
  unfold toString10. destruct n as [| p | p]; [lia.. |].
  change (pretty (Z.neg p)) with (String (Ascii.ascii_of_N 45) (pretty (Npos p))). cbn [js].
  intros [E | Hin]%elem_of_cons; [done |]. by apply (digits_no_underscore _ (pretty_N_digits (Npos p))).
Qed.

(** ** convertToId *)

(** [c.match(/[a-z0-9\u0080-\uFFFF]/)] *)
Definition id_unit (c : Z) : Prop := 97 ≤ c ≤ 122 ∨ 48 ≤ c ≤ 57 ∨ 128 ≤ c ≤ 65535.
#[export] Instance id_unit_dec c : Decision (id_unit c).
Proof. unfold id_unit. apply _. Defined.

Definition id_of_unit (cn : Z) : jstr :=
  if decide (id_unit cn) then [cn]
  else if decide (cn < 16) then js "_0" ++ toString16 cn
  else js "_" ++ toString16 cn.

(** The loop over the characters, with what it has added to [result]. *)
Fixpoint convert_loop (result search : jstr) : jstr :=
  match search with
  | [] => result
  | c :: search => convert_loop (result ++ id_of_unit c) search
  end.
Definition convertToId (search : jstr) : jstr := convert_loop [] search.

Lemma convert_loop_app r s : convert_loop r s = r ++ (s ≫= id_of_unit).
Proof.
  revert r. induction s as [| c s IH]; intros r; cbn; [by rewrite app_nil_r |].
  by rewrite IH, (assoc_L (++)).
Qed.

Lemma convertToId_bind s : convertToId s = s ≫= id_of_unit.
Proof. apply convert_loop_app. Qed.

Lemma convertToId_cons c s : convertToId (c :: s) = id_of_unit c ++ convertToId s.
Proof. by rewrite !convertToId_bind. Qed.

Lemma convertToId_app s t : convertToId (s ++ t) = convertToId s ++ convertToId t.
Proof. by rewrite !convertToId_bind, bind_app. Qed.

(** An escape is an underscore and two hexadecimal digits. *)
Lemma id_of_unit_plain c : id_unit c → id_of_unit c = [c].
Proof. intros H. unfold id_of_unit. by rewrite decide_True. Qed.

Lemma id_of_unit_escaped c :
  code_unit c → ¬ id_unit c →
  id_of_unit c = [95; hex_digit (c / 16); hex_digit (c `mod` 16)] ∧ c < 128.
Proof.
  intros Hc Hn. unfold id_unit, code_unit in *. assert (c < 128) as Hlt by lia.
  split; [| done]. revert Hn.
  assert (∀ z, is_byte z → (λ z, bool_decide (128 ≤ z ∨ id_unit z ∨
    id_of_unit z = [95; hex_digit (z / 16); hex_digit (z `mod` 16)])) z = true) as Hall.
  { apply all_bytes_forall. by vm_compute. }
  specialize (Hall c ltac:(unfold is_byte; lia)). apply bool_decide_eq_true in Hall.
  unfold id_unit in *. destruct Hall as [| [|]]; [lia | lia | done].
Qed.

Lemma hex_digit_alphabet d : 0 ≤ d < 16 → id_unit (hex_digit d).
Proof. unfold hex_digit, id_unit. case_decide; lia. Qed.

Lemma nibbles c : 0 ≤ c < 256 → 0 ≤ c / 16 < 16 ∧ 0 ≤ c `mod` 16 < 16.
Proof.
  intros Hc. split; [| by apply Z.mod_pos_bound].
  split; [apply Z.div_pos; lia | apply Z.div_lt_upper_bound; lia].
Qed.

Lemma id_of_unit_alphabet c : code_unit c → Forall (λ c, id_unit c ∨ c = 95) (id_of_unit c).
Proof.
  intros Hc. destruct (decide (id_unit c)) as [Hu | Hu].
  - rewrite id_of_unit_plain by done. apply Forall_singleton. by left.
  - destruct (id_of_unit_escaped c Hc Hu) as [-> Hlt]. unfold code_unit in Hc.
    destruct (nibbles c ltac:(lia)) as [H1 H2].
    rewrite !Forall_cons. split_and!; [by right | left; by apply hex_digit_alphabet.. | apply Forall_nil; done].
Qed.

Lemma hex_digit_inj d d' : 0 ≤ d < 16 → 0 ≤ d' < 16 → hex_digit d = hex_digit d' → d = d'.
Proof. unfold hex_digit. intros ??. repeat case_decide; lia. Qed.

Lemma id_of_unit_nil c : code_unit c → id_of_unit c ≠ [].
Proof.
  intros Hc. destruct (decide (id_unit c)) as [H | H].
  - by rewrite id_of_unit_plain.
  - by destruct (id_of_unit_escaped c Hc H) as [-> _].
Qed.

(** The encodings of the characters are a prefix code. *)
Lemma id_of_unit_head c c' s s' :
  code_unit c → code_unit c' → id_of_unit c ++ s `prefix_of` id_of_unit c' ++ s' →
  c = c' ∧ s `prefix_of` s'.
Proof.
  intros Hc Hc' Hp.
  assert (∀ c, id_unit c → c ≠ 95) as H95 by (unfold id_unit; lia).
  destruct (decide (id_unit c)) as [H | H]; destruct (decide (id_unit c')) as [H' | H'].
  - rewrite !id_of_unit_plain in Hp by done. cbn in Hp.
    split; [by eapply prefix_cons_inv_1 | by eapply prefix_cons_inv_2].
  - rewrite id_of_unit_plain in Hp by done. destruct (id_of_unit_escaped c' Hc' H') as [E _].
    rewrite E in Hp. cbn in Hp. apply prefix_cons_inv_1 in Hp. by destruct (H95 c).
  - rewrite (id_of_unit_plain c') in Hp by done. destruct (id_of_unit_escaped c Hc H) as [E _].
    rewrite E in Hp. cbn in Hp. apply prefix_cons_inv_1 in Hp. by destruct (H95 c').
  - destruct (id_of_unit_escaped c Hc H) as [E L], (id_of_unit_escaped c' Hc' H') as [E' L'].
    rewrite E, E' in Hp. cbn in Hp. unfold code_unit in *.
    apply prefix_cons_inv_2 in Hp.
    pose proof (prefix_cons_inv_1 _ _ _ _ Hp) as H1. apply prefix_cons_inv_2 in Hp.
    pose proof (prefix_cons_inv_1 _ _ _ _ Hp) as H2. apply prefix_cons_inv_2 in Hp.
    pose proof (Z.mod_pos_bound c 16 ltac:(lia)). pose proof (Z.mod_pos_bound c' 16 ltac:(lia)).
    apply hex_digit_inj in H1, H2; [| lia | lia | |].
    + split; [| done]. rewrite (Z.div_mod c 16), (Z.div_mod c' 16) by lia. congruence.
    + split; [apply Z.div_pos; lia | apply Z.div_lt_upper_bound; lia].
    + split; [apply Z.div_pos; lia | apply Z.div_lt_upper_bound; lia].
Qed.

Lemma convertToId_prefix_iff s t :
  code_units s → code_units t → convertToId s `prefix_of` convertToId t ↔ s `prefix_of` t.
Proof.
  intros Hs Ht. split.
  - revert t Ht. induction Hs as [| c s Hc _ IH]; intros t Ht; [intros; apply prefix_nil |].
    rewrite convertToId_cons. destruct Ht as [| c' t Hc' Ht].
    + intros Hp%prefix_nil_inv. apply app_eq_nil in Hp as [Hp _]. by apply id_of_unit_nil in Hp.
    + rewrite convertToId_cons. intros Hp. apply id_of_unit_head in Hp as [-> Hp]; [| done | done].
      by apply prefix_cons, IH.
  - intros [u ->]. rewrite convertToId_app. by eexists.
Qed.

(** The id of an entry of a page: the encoded name, an underscore and the
    number of the entry.  A search matches it when it is a prefix of the name;
    a character after the name whose escape is like the number matches too. *)
Lemma convertToId_entry_iff q n ds :
  code_units q → code_units n →
  convertToId q `prefix_of` convertToId n ++ ds ↔
  q `prefix_of` n ∨ ∃ r, r ≠ [] ∧ q = n ++ r ∧ convertToId r `prefix_of` ds.
Proof.
  intros Hq Hn. revert q Hq. induction Hn as [| c' n Hc' _ IH]; intros q Hq.
  - cbn. destruct q as [| c q].
    + split; intros _; [left | cbn]; apply prefix_nil.
    + split; [intros Hp; right; by exists (c :: q) |].
      intros [Hp%prefix_nil_inv | (r & _ & -> & Hp)]; done.
  - destruct Hq as [| c q Hc Hq].
    { split; intros _; [left | cbn]; apply prefix_nil. }
    rewrite !convertToId_cons, <- (assoc_L (++)). split.
    + intros Hp. apply id_of_unit_head in Hp as [-> Hp]; [| done | done].
      apply IH in Hp as [Hp | (r & Hr & -> & Hp)]; [left; by apply prefix_cons | right; by exists r | done].
    + intros [Hp | (r & Hr & [= -> ->] & Hp)].
      * pose proof (prefix_cons_inv_1 _ _ _ _ Hp) as ->. apply prefix_cons_inv_2 in Hp.
        apply prefix_app, IH; auto.
      * apply prefix_app, IH; [done |]. right. by exists r.
Qed.

(** ** escape and unescape *)

(** The characters [escape] keeps: letters, digits and [@*_+-./] *)
Definition escape_keeps (c : Z) : Prop :=
  65 ≤ c ≤ 90 ∨ 97 ≤ c ≤ 122 ∨ 48 ≤ c ≤ 57 ∨ c ∈ js "@*_+-./".
#[export] Instance escape_keeps_dec c : Decision (escape_keeps c).
Proof. unfold escape_keeps. apply _. Defined.

Definition hex_upper (d : Z) : Z := if decide (d < 10) then 48 + d else 55 + d.
Definition unhex (c : Z) : option Z :=
  if decide (48 ≤ c ≤ 57) then Some (c - 48)
  else if decide (65 ≤ c ≤ 70) then Some (c - 55)
  else if decide (97 ≤ c ≤ 102) then Some (c - 87)
  else None.

Definition escape_unit (c : Z) : jstr :=
  if decide (escape_keeps c) then [c]
  else if decide (c < 256) then [37; hex_upper (c / 16); hex_upper (c `mod` 16)]
  else [37; 117; hex_upper (c / 4096); hex_upper ((c / 256) `mod` 16);
        hex_upper ((c / 16) `mod` 16); hex_upper (c `mod` 16)].
Definition escape (s : jstr) : jstr := s ≫= escape_unit.

Definition hex2 (a b : Z) : option Z := x ← unhex a; y ← unhex b; Some (16 * x + y).
Definition hex4 (a b c d : Z) : option Z := x ← hex2 a b; y ← hex2 c d; Some (256 * x + y).

Fixpoint unescape (s : jstr) : jstr :=
  match s with
  | [] => []
  | c :: s1 =>
    if decide (c = 37) then
      match s1 with
      | x :: y :: s3 =>
        match hex2 x y with
        | Some v => v :: unescape s3
        | None =>
          match s3 with
          | z :: u :: w :: s6 =>
            if decide (x = 117) then
              match hex4 y z u w with
              | Some v => v :: unescape s6
              | None => c :: unescape s1
              end
            else c :: unescape s1
          | _ => c :: unescape s1
          end
        end
      | _ => c :: unescape s1
      end
    else c :: unescape s1
  end.

Lemma unhex_upper d : 0 ≤ d < 16 → unhex (hex_upper d) = Some d.
Proof.
  intros Hd. unfold unhex, hex_upper.
  repeat case_decide; first [lia | f_equal; lia].
Qed.

Lemma hex2_upper a b :
  0 ≤ a < 16 → 0 ≤ b < 16 → hex2 (hex_upper a) (hex_upper b) = Some (16 * a + b).
Proof. intros Ha Hb. unfold hex2. by rewrite (unhex_upper a Ha), (unhex_upper b Hb). Qed.

Lemma hex4_upper a b c d :
  0 ≤ a < 16 → 0 ≤ b < 16 → 0 ≤ c < 16 → 0 ≤ d < 16 →
  hex4 (hex_upper a) (hex_upper b) (hex_upper c) (hex_upper d) =
    Some (256 * (16 * a + b) + (16 * c + d)).
Proof. intros Ha Hb Hc Hd. unfold hex4. by rewrite (hex2_upper a b), (hex2_upper c d). Qed.

Lemma unescape_four y z u w s v :
  hex4 y z u w = Some v → unescape (37 :: 117 :: y :: z :: u :: w :: s) = v :: unescape s.
Proof. intros Hv. cbn [unescape]. unfold hex2. cbn -[unescape hex4]. by rewrite Hv. Qed.

Lemma unescape_other c s : c ≠ 37 → unescape (c :: s) = c :: unescape s.
Proof. intros Hc. cbn. by rewrite decide_False. Qed.

Lemma unescape_two x y s v : hex2 x y = Some v → unescape (37 :: x :: y :: s) = v :: unescape s.
Proof. intros Hv. cbn [unescape]. rewrite decide_True by done. by rewrite Hv. Qed.

Lemma hex4_value c :
  256 * (16 * (c / 4096) + (c / 256) `mod` 16) + (16 * ((c / 16) `mod` 16) + c `mod` 16) = c.
Proof.
  assert (16 * (c / 4096) + (c / 256) `mod` 16 = c / 256) as ->.
  { change 4096 with (256 * 16). rewrite <- Z.div_div by lia. symmetry. by apply Z.div_mod. }
  assert (16 * ((c / 16) `mod` 16) + c `mod` 16 = c `mod` 256) as ->.
  { change 256 with (16 * 16). rewrite Z.rem_mul_r by lia. lia. }
  symmetry. by apply Z.div_mod.
Qed.

Lemma unescape_escape s : code_units s → unescape (escape s) = s.
Proof.
  induction 1 as [| c s Hc _ IH]; [done |].
  unfold escape in *. cbn [mbind list_bind]. unfold escape_unit at 1. unfold code_unit in Hc.
  assert (∀ z, 0 ≤ z `mod` 16 < 16) as Hmod by (intros; apply Z.mod_pos_bound; lia).
  destruct (decide (escape_keeps c)) as [Hk | Hk].
  { cbn [app]. rewrite unescape_other; [by rewrite IH |]. intros ->. revert Hk. by apply (bool_decide_unpack _). }
  destruct (decide (c < 256)) as [H2 | H4]; cbn [app].
  - assert (0 ≤ c / 16 < 16) by (split; [apply Z.div_pos | apply Z.div_lt_upper_bound]; lia).
    rewrite (unescape_two _ _ _ c); [by rewrite IH |].
    rewrite (hex2_upper (c / 16) (c `mod` 16)) by auto. f_equal. symmetry. by apply Z.div_mod.
  - assert (0 ≤ c / 4096 < 16) by (split; [apply Z.div_pos | apply Z.div_lt_upper_bound]; lia).
    rewrite (unescape_four _ _ _ _ _ c); [by rewrite IH |].
    rewrite (hex4_upper (c / 4096) ((c / 256) `mod` 16) ((c / 16) `mod` 16) (c `mod` 16)) by auto.
    f_equal. apply hex4_value.
Qed.

Lemma hex_upper_keeps d : 0 ≤ d < 16 → escape_keeps (hex_upper d).
Proof. unfold hex_upper, escape_keeps. case_decide; lia. Qed.

Lemma escape_unit_alphabet c : code_unit c → Forall (λ c, escape_keeps c ∨ c = 37) (escape_unit c).
Proof.
  intros Hc. unfold code_unit in Hc. unfold escape_unit.
  assert (∀ z, 0 ≤ z `mod` 16 < 16) as Hmod by (intros; by apply Z.mod_pos_bound).
  case_decide; [apply Forall_singleton; by left |].
  assert (escape_keeps 117) by (apply (bool_decide_unpack _); done).
  pose proof (nibbles c) as Hn. case_decide; rewrite !Forall_cons.
  - split_and!; [by right | left; apply hex_upper_keeps; destruct Hn; [lia | done].. | by apply Forall_nil].
  - split_and!; [by right | by left | | left; apply hex_upper_keeps, Hmod.. | by apply Forall_nil].
    left. apply hex_upper_keeps. split; [apply Z.div_pos; lia | apply Z.div_lt_upper_bound; lia].
Qed.
