(* ===== verification/Dom.v ===== *)
(** * Documents

    The part of a document the scripts of the search pages use: a tree of
    elements and texts.  A node is named by its position, the list of the
    indices of the children on the way from the root to it. *)
From S2P Require Import Prelude JsString.
Local Open Scope Z_scope.

(** The properties of an element the scripts read or set; an attribute that
    was never set is empty.  [display] is [style.display]. *)
Record elem := mkElem {
  tag : string;
  el_id : jstr;
  className : jstr;
  display : string;
  href : jstr;
  target : string;
  keyAction : jstr;
}.

(** A text holds its HTML source. *)
Inductive dom :=
  | Node (e : elem) (children : list dom)
  | Text (t : jstr).

Notation position := (list nat).

Definition createElement (t : string) : elem := mkElem t [] [] EmptyString [] EmptyString [].
Definition set_id (i : jstr) (e : elem) : elem :=
  mkElem (tag e) i (className e) (display e) (href e) (target e) (keyAction e).
Definition set_class (c : jstr) (e : elem) : elem :=
  mkElem (tag e) (el_id e) c (display e) (href e) (target e) (keyAction e).
Definition set_display (v : string) (e : elem) : elem :=
  mkElem (tag e) (el_id e) (className e) v (href e) (target e) (keyAction e).
Definition set_href (h : jstr) (e : elem) : elem :=
  mkElem (tag e) (el_id e) (className e) (display e) h (target e) (keyAction e).
Definition set_target (t : string) (e : elem) : elem :=
  mkElem (tag e) (el_id e) (className e) (display e) (href e) t (keyAction e).
Definition set_keys (k : jstr) (e : elem) : elem :=
  mkElem (tag e) (el_id e) (className e) (display e) (href e) (target e) k.

#[export] Instance elem_eq_dec : EqDecision elem.
Proof. solve_decision. Defined.

Definition element (d : dom) : option elem :=
  match d with Node e _ => Some e | Text _ => None end.
Definition child_nodes (d : dom) : list dom :=
  match d with Node _ cs => cs | Text _ => [] end.

(** [element.innerHTML = html] *)
Definition html_nodes (html : jstr) : list dom := if decide (html = []) then [] else [Text html].

(** ** Positions *)
Fixpoint subtree (p : position) (d : dom) : option dom :=
  match p with
  | [] => Some d
  | k :: p => c ← child_nodes d !! k; subtree p c
  end.

Definition elem_at (p : position) (d : dom) : option elem := subtree p d ≫= element.

Fixpoint alter_at (f : elem → elem) (p : position) (d : dom) : dom :=
  match d with
  | Text t => Text t
  | Node e cs => match p with [] => Node (f e) cs | k :: p => Node e (alter (alter_at f p) k cs) end
  end.

(** [parent.appendChild] of some nodes *)
Fixpoint append_at (l : list dom) (p : position) (d : dom) : dom :=
  match d with
  | Text t => Text t
  | Node e cs => match p with [] => Node e (cs ++ l) | k :: p => Node e (alter (append_at l p) k cs) end
  end.

(** The positions of the nodes in document order. *)
Fixpoint positions (d : dom) : list position :=
  match d with
  | Text _ => [[]]
  | Node _ cs =>
    [] :: (fix go (k : nat) (cs : list dom) : list position :=
             match cs with
             | [] => []
             | c :: cs => (cons k <$> positions c) ++ go (S k) cs
             end) 0%nat cs
  end.

Fixpoint child_positions (k : nat) (cs : list dom) : list position :=
  match cs with
  | [] => []
  | c :: cs => (cons k <$> positions c) ++ child_positions (S k) cs
  end.

Lemma positions_node e cs : positions (Node e cs) = [] :: child_positions 0 cs.
Proof. done. Qed.

(** [document.getElementById], [document.getElementsByTagName] *)
Definition has_id (i : jstr) (d : dom) (p : position) : Prop := el_id <$> elem_at p d = Some i.
#[export] Instance has_id_dec i d p : Decision (has_id i d p).
Proof. unfold has_id. apply _. Defined.

Definition getElementById (i : jstr) (d : dom) : option position :=
  head (filter (has_id i d) (positions d)).

Definition has_tag (t : string) (d : dom) (p : position) : Prop := tag <$> elem_at p d = Some t.
#[export] Instance has_tag_dec t d p : Decision (has_tag t d p).
Proof. unfold has_tag. apply _. Defined.

Definition getElementsByTagName (t : string) (d : dom) : list position :=
  filter (has_tag t d) (positions d).

(** [node.parentNode]; the root has none *)
Definition parentNode (p : position) : option position :=
  match reverse p with [] => None | _ :: q => Some (reverse q) end.

(** ** Lemmas *)
Lemma dom_rect' (P : dom → Prop) :
  (∀ e cs, Forall P cs → P (Node e cs)) → (∀ t, P (Text t)) → ∀ d, P d.
Proof.
  intros Hn Ht. fix IH 1. intros [e cs | t]; [| apply Ht]. apply Hn.
  induction cs as [| c cs IHcs]; constructor; [apply IH | apply IHcs].
Qed.

Lemma subtree_app p q d : subtree (p ++ q) d = subtree p d ≫= subtree q.
Proof.
  revert d. induction p as [| k p IH]; intros d; [done |]. cbn.
  destruct (child_nodes d !! k); cbn; [apply IH | done].
Qed.

Lemma elem_at_app p q d : elem_at (p ++ q) d = subtree p d ≫= elem_at q.
Proof. unfold elem_at. rewrite subtree_app. by destruct (subtree p d). Qed.

Lemma elem_at_cons k p d : elem_at (k :: p) d = child_nodes d !! k ≫= elem_at p.
Proof. unfold elem_at. cbn. by destruct (child_nodes d !! k). Qed.

Lemma elem_at_alter f p q d :
  elem_at q (alter_at f p d) = (if decide (p = q) then f else id) <$> elem_at q d.
Proof.
  revert q d. induction p as [| k p IH]; intros q d.
  - destruct d as [e cs | t].
    + destruct q as [| j q]; [done |]. rewrite decide_False by done. cbn. by rewrite option_fmap_id.
    + by destruct q.
  - destruct d as [e cs | t].
    2: { by destruct q. }
    destruct q as [| j q]; [cbn; by rewrite decide_False |].
    cbn [alter_at]. rewrite !elem_at_cons. cbn [child_nodes].
    destruct (decide (j = k)) as [-> | Hne].
    + rewrite list_lookup_alter_eq. destruct (cs !! k) as [c |]; [| done]. cbn. rewrite IH.
      destruct (decide (p = q)) as [-> |]; [by rewrite decide_True |].
      rewrite (decide_False (P := k :: p = k :: q)); [done | congruence].
    + rewrite list_lookup_alter_ne by done. rewrite decide_False by congruence.
      by rewrite option_fmap_id.
Qed.

Lemma child_positions_alter f p k cs i :
  (∀ c, positions (alter_at f p c) = positions c) →
  child_positions i (alter (alter_at f p) k cs) = child_positions i cs.
Proof.
  intros Hf. revert k i. induction cs as [| c cs IH]; intros [| k] i; cbn; [done | done | |].
  - by rewrite Hf.
  - f_equal. apply IH.
Qed.

Lemma positions_alter f p d : positions (alter_at f p d) = positions d.
Proof.
  revert d. induction p as [| k p IH]; intros [e cs | t]; [done | done | | done].
  cbn [alter_at]. rewrite !positions_node. f_equal. by apply child_positions_alter.
Qed.

Lemma elem_of_child_positions cs p i :
  p ∈ child_positions i cs ↔ ∃ k q c, p = (i + k)%nat :: q ∧ cs !! k = Some c ∧ q ∈ positions c.
Proof.
  revert i. induction cs as [| c cs IH]; intros i; cbn.
  { split; [by intros ?%elem_of_nil | by intros (k & q & c & _ & Hk & _)]. }
  rewrite elem_of_app, list_elem_of_fmap, IH. split.
  - intros [(q & -> & Hq) | (k & q & c' & -> & Hk & Hq)].
    + exists 0%nat, q, c. split_and!; [f_equal; lia | done | done].
    + exists (S k), q, c'. split_and!; [f_equal; lia | done | done].
  - intros ([| k] & q & c' & -> & Hk & Hq).
    + left. injection Hk as ->. exists q. split; [f_equal; lia | done].
    + right. exists k, q, c'. split_and!; [f_equal; lia | done | done].
Qed.

Lemma elem_of_positions p d : p ∈ positions d ↔ is_Some (subtree p d).
Proof.
  revert p. induction d as [e cs IH | t] using dom_rect'; intros p.
  2: { cbn. rewrite list_elem_of_singleton. destruct p; [by split | split; [done | by intros [? ?]]]. }
  rewrite positions_node, elem_of_cons, elem_of_child_positions.
  destruct p as [| k p]; [cbn; split; [by eexists | by left] |]. cbn. split.
  - intros [| (j & q & c & [= -> ->] & Hj & Hq)]; [done |]. cbn. rewrite Hj.
    rewrite Forall_lookup in IH. by apply (IH _ _ Hj).
  - intros Hs. right. destruct (cs !! k) as [c |] eqn:Hk; [| by destruct Hs].
    exists k, p, c. split_and!; [done | done |]. rewrite Forall_lookup in IH. by apply (IH _ _ Hk).
Qed.

Lemma elem_at_position p d e : elem_at p d = Some e → p ∈ positions d.
Proof.
  intros He. apply elem_of_positions. unfold elem_at in He. by destruct (subtree p d).
Qed.

Lemma NoDup_child_positions i cs :
  Forall (λ c, NoDup (positions c)) cs → NoDup (child_positions i cs).
Proof.
  intros H. revert i. induction H as [| c cs Hc _ IH]; intros i; cbn; [constructor |].
  apply NoDup_app. split_and!; [by apply NoDup_fmap_2; [intros ?? [=] |] | | apply IH].
  intros p Hp Hp'. apply list_elem_of_fmap in Hp as (q & -> & _).
  apply elem_of_child_positions in Hp' as (k & q' & c' & [= Hk _] & _). lia.
Qed.

Lemma NoDup_positions d : NoDup (positions d).
Proof.
  induction d as [e cs IH | t] using dom_rect'; [| apply NoDup_singleton].
  rewrite positions_node. constructor; [| by apply NoDup_child_positions].
  intros (k & q & c & Hq & _)%elem_of_child_positions. done.
Qed.

Lemma getElementById_some i d p :
  getElementById i d = Some p → has_id i d p ∧ p ∈ positions d.
Proof.
  unfold getElementById. intros Hh.
  assert (p ∈ filter (has_id i d) (positions d)) as Hin.
  { destruct (filter _ _); [done |]. injection Hh as ->. left. }
  by apply list_elem_of_filter in Hin.
Qed.

Lemma getElementById_none i d p :
  getElementById i d = None → el_id <$> elem_at p d ≠ Some i.
Proof.
  unfold getElementById. intros Hh Hp.
  assert (p ∈ filter (has_id i d) (positions d)) as Hin.
  { apply list_elem_of_filter. split; [done |].
    destruct (elem_at p d) eqn:He; [by eapply elem_at_position | done]. }
  destruct (filter _ _); [by apply elem_of_nil in Hin | done].
Qed.

(** A change that keeps the ids changes no search by id. *)
Lemma getElementById_alter i f p d :
  (∀ e, el_id (f e) = el_id e) → getElementById i (alter_at f p d) = getElementById i d.
Proof.
  intros Hf. unfold getElementById. rewrite positions_alter. f_equal.
  apply list_filter_iff. intros q. unfold has_id. rewrite elem_at_alter.
  destruct (decide (p = q)); destruct (elem_at q d); cbn; by rewrite ?Hf.
Qed.

Lemma getElementsByTagName_alter t f p d :
  (∀ e, tag (f e) = tag e) → getElementsByTagName t (alter_at f p d) = getElementsByTagName t d.
Proof.
  intros Hf. unfold getElementsByTagName. rewrite positions_alter.
  apply list_filter_iff. intros q. unfold has_tag. rewrite elem_at_alter.
  destruct (decide (p = q)); destruct (elem_at q d); cbn; by rewrite ?Hf.
Qed.

Lemma alter_at_ext f g p d :
  (∀ e, elem_at p d = Some e → f e = g e) → alter_at f p d = alter_at g p d.
Proof.
  revert d. induction p as [| k p IH]; intros [e cs | t] H; cbn; [by rewrite H | done | | done].
  f_equal. apply list_eq. intros j. destruct (decide (j = k)) as [-> |].
  - rewrite !list_lookup_alter_eq. destruct (cs !! k) as [c |] eqn:Hk; [| done]. cbn.
    f_equal. apply IH. intros e' He'. apply H. rewrite elem_at_cons. cbn. by rewrite Hk.
  - by rewrite !list_lookup_alter_ne.
Qed.

Lemma alter_at_id f p d : (∀ e, elem_at p d = Some e → f e = e) → alter_at f p d = d.
Proof.
  intros H. rewrite (alter_at_ext f id); [| done]. clear H.
  revert d. induction p as [| k p IH]; intros [e cs | t]; cbn; [done | done | | done].
  f_equal. apply list_eq. intros j. destruct (decide (j = k)) as [-> |].
  - rewrite list_lookup_alter_eq. destruct (cs !! k); [| done]. cbn. by rewrite IH.
  - by rewrite list_lookup_alter_ne.
Qed.
