(* ===== verification/SearchData.v ===== *)
(** * The data of the search pages

    The shapes of the tables in the data files of src/docs/*/html: an entry of
    [searchData] with its links, the sections of searchdata.js and the tree of
    menudata.js. *)
From S2P Require Import Prelude.
From stdpp Require Import strings.

(** [[href, 1, scope]]; 1: the link opens in the parent of the frame. *)
Record SearchLink := link { l_href : string; l_parent : Z; l_scope : string }.

(** [[id, [name, link, ...]]] *)
Record SearchEntry := entry { e_id : string; e_name : string; e_links : list SearchLink }.

(** [{text, url, children}]; a leaf has no [children]. *)
Inductive MenuItem := item (text url : string) (children : list MenuItem).

(** The data of the pages of one program: the page files by their names, the
    three tables of searchdata.js by their keys 0, 1, ..., and the menu. *)
Record Site := mkSite {
  s_pages : list (string * list SearchEntry);
  s_content : list string;
  s_names : list string;
  s_labels : list string;
  s_menu : list MenuItem;
}.
