(* ===== verification/SearchResults.v ===== *)
(** * The results page (src/docs/MQTTClient/html/search/search.js)

    The page a search opens: [createResults] builds the rows of its table
    [searchData], the [SearchResults] object shows the rows that match and
    moves the focus between them.  An exception is [Err TypeError]. *)
From S2P Require Import Prelude JsString Dom SearchData.
Local Open Scope Z_scope.

(** ** State *)

(** What a handler does outside the page. *)
Inductive effect :=
  | Focus (p : position)      (* elem.focus() *)
  | FocusSearchField          (* parent.document.getElementById("MSearchField").focus() *)
  | CloseResults.             (* parent.searchBox.CloseResultsWindow() *)

Record results := mkResults {
  page : dom;
  lastMatchCount : Z;
  lastKey : Z;
  repeatOn : bool;
  effects : list effect;
}.

(** [new SearchResults(name)] on a page *)
Definition SearchResults (d : dom) : results := mkResults d 0 0 false [].

Definition set_page (d : dom) (s : results) : results :=
  mkResults d (lastMatchCount s) (lastKey s) (repeatOn s) (effects s).
Definition set_matches (n : Z) (s : results) : results :=
  mkResults (page s) n (lastKey s) (repeatOn s) (effects s).
Definition set_key (k : Z) (b : bool) (s : results) : results :=
  mkResults (page s) (lastMatchCount s) k b (effects s).
Definition add_effect (e : effect) (s : results) : results :=
  mkResults (page s) (lastMatchCount s) (lastKey s) (repeatOn s) (effects s ++ [e]).

Notation R := (M results).

(** The value of an expression whose property is used: null and undefined
    have none. *)
Definition defined {S A} (x : option A) : M S A :=
  match x with Some a => mret a | None => fail TypeError end.

Definition byId (i : jstr) : R (option position) := gets (λ s, getElementById i (page s)).
Definition update (f : elem → elem) (p : position) : R unit :=
  modify (λ s, set_page (alter_at f p (page s)) s).
Definition element_of (p : position) : R elem :=
  e ← gets (λ s, elem_at p (page s)); defined e.
Definition show (i : jstr) (v : string) : R unit :=
  p ← byId i; p ← defined p; update (set_display v) p.
Definition focus (p : position) : R unit := modify (add_effect (Focus p)).

(** ** FindChildElement *)
Definition is_div (d : dom) : bool :=
  match d with Node e _ => bool_decide (tag e = "div"%string) | Text _ => false end.
Definition is_children (d : dom) : bool :=
  match d with
  | Node e _ => bool_decide (tag e = "div"%string ∧ className e = js "SRChildren")
  | Text _ => false
  end.

(** [element.nextSibling]; a node under [root] is named by the indices on the
    way up from it. *)
Definition nextSibling (root : dom) (up : list nat) : option (list nat) :=
  match up with
  | [] => None
  | k :: up =>
    match subtree (reverse (S k :: up)) root with Some _ => Some (S k :: up) | None => None end
  end.

(** The loop that climbs to an ancestor with a next sibling, and the step to
    that sibling. *)
Fixpoint climb (root : dom) (up : list nat) : option (list nat) :=
  match up with
  | [] => None
  | _ :: parent =>
    match parent with
    | [] => None     (* parentElement itself *)
    | _ =>
      match nextSibling root parent with
      | Some next => Some next
      | None => climb root parent
      end
    end
  end.

Fixpoint find_child (fuel : nat) (root : dom) (up : list nat) : R (option position) :=
  match fuel with
  | O => fail Diverge
  | S fuel =>
    d ← defined (subtree (reverse up) root);
    if is_children d then mret (Some (reverse up))
    else if is_div d && negb (bool_decide (child_nodes d = [])) then find_child fuel root (0%nat :: up)
    else
      match nextSibling root up with
      | Some next => find_child fuel root next
      | None =>
        match climb root up with
        | Some next => find_child fuel root next
        | None => mret None
        end
      end
  end.

Definition FindChildElement (id : jstr) : R (option position) :=
  p ← byId id;
  p ← defined p;
  root ← gets (λ s, subtree p (page s));
  root ← defined root;
  if decide (child_nodes root = []) then mret None
  else
    r ← find_child (length (positions root)) root [0%nat];
    mret ((p ++.) <$> r).

Definition Toggle (id : jstr) : R unit :=
  element ← FindChildElement id;
  match element with
  | None => mret tt
  | Some p =>
    e ← element_of p;
    if decide (display e = "block"%string) then update (set_display "none") p
    else update (set_display "block") p
  end.

(** ** Search *)
Section Search.
Context `{Unicode}.

Definition decimal_digit (c : Z) : bool := bool_decide (48 ≤ c ≤ 57).
Fixpoint drop_digits (s : jstr) : jstr :=
  match s with c :: s' => if decimal_digit c then drop_digits s' else s | [] => [] end.

(** [rowMatchName.replace(/^sr\d*_/, '')] *)
Definition strip_sr (s : jstr) : jstr :=
  if decide (js "sr" `prefix_of` s) then
    match drop_digits (drop 2 s) with
    | c :: r => if decide (c = 95) then r else s
    | [] => s
    end
  else s.

Definition row_matches (search id : jstr) : Prop :=
  let rowMatchName := strip_sr (toLowerCase id) in
  (length search ≤ length rowMatchName)%nat ∧ take (length search) rowMatchName = search.
#[export] Instance row_matches_dec search id : Decision (row_matches search id).
Proof. unfold row_matches. apply _. Defined.

Fixpoint search_rows (search : jstr) (resultRows : list position) (matches : Z) : R Z :=
  match resultRows with
  | [] => mret matches
  | p :: resultRows =>
    row ← element_of p;
    if decide (className row = js "SRResult") then
      if decide (row_matches search (el_id row)) then
        _ ← update (set_display "block") p; search_rows search resultRows (matches + 1)
      else
        _ ← update (set_display "none") p; search_rows search resultRows matches
    else search_rows search resultRows matches
  end.

(** The search word: the parameter, or the query of the page's URL. *)
Definition search_word (url_search : jstr) (search : option jstr) : jstr :=
  let word := match search with
              | Some (c :: s) => c :: s
              | _ => unescape (drop 1 url_search)
              end in
  convertToId (toLowerCase (strip_trailing (strip_leading word))).

Definition Search (url_search : jstr) (search : option jstr) : R bool :=
  resultRows ← gets (λ s, getElementsByTagName "div" (page s));
  matches ← search_rows (search_word url_search search) resultRows 0;
  _ ← show (js "Searching") "none";
  _ ← (if decide (matches = 0) then show (js "NoMatches") "block" else show (js "NoMatches") "none");
  _ ← modify (set_matches matches);
  mret true.
End Search.

(** ** Navigation *)
Definition item_id (index : Z) : jstr := js "Item" ++ toString10 index.
Definition child_id (index n : Z) : jstr := item_id index ++ js "_c" ++ toString10 n.

(** [item.parentNode.parentNode] *)
Definition grandparent (p : position) : R elem :=
  q ← defined (parentNode p);
  q ← defined (parentNode q);
  element_of q.

(** The loops of [NavNext] ([step] 1) and [NavPrev] (-1). *)
Fixpoint nav_loop (fuel : nat) (step index : Z) : R (option position) :=
  match fuel with
  | O => fail Diverge
  | S fuel =>
    focusItem ← byId (item_id index);
    match focusItem with
    | None => mret None
    | Some p =>
      row ← grandparent p;
      if decide (display row = "block"%string) then mret (Some p)
      else nav_loop fuel step (index + step)
    end
  end.

Definition nav_fuel : R nat := gets (λ s, S (length (positions (page s)))).
Definition NavNext (index : Z) : R (option position) := n ← nav_fuel; nav_loop n 1 index.
Definition NavPrev (index : Z) : R (option position) := n ← nav_fuel; nav_loop n (-1) index.

Inductive event_type := keydown | keypress | keyup.
Record event := mkEvent { e_type : event_type; keyCode : Z }.

Definition ProcessKeys (e : event) : R bool :=
  s ← get;
  match e_type e with
  | keydown => _ ← modify (set_key (keyCode e) false); mret (negb (bool_decide (keyCode e = 0)))
  | keypress =>
    if repeatOn s then mret (negb (bool_decide (lastKey s = 0)))
    else _ ← modify (set_key (lastKey s) (negb (bool_decide (lastKey s = 0)))); mret false
  | keyup => _ ← modify (set_key 0 false); mret false
  end.

(** The last of the children [Item<index>_c<n>] there are, from [n] on. *)
Fixpoint last_child (fuel : nat) (index n : Z) (focusItem : position) : R position :=
  match fuel with
  | O => fail Diverge
  | S fuel =>
    tmpElem ← byId (child_id index n);
    match tmpElem with
    | Some p => last_child fuel index (n + 1) p
    | None => mret focusItem
    end
  end.

Definition shown (p : option position) : R bool :=
  match p with
  | None => mret false
  | Some p => e ← element_of p; mret (bool_decide (display e = "block"%string))
  end.

Definition nav_up (itemIndex : Z) : R unit :=
  let newIndex := itemIndex - 1 in
  focusItem ← NavPrev newIndex;
  match focusItem with
  | None => modify (add_effect FocusSearchField)
  | Some p =>
    row ← grandparent p;
    child ← FindChildElement (el_id row);
    visible ← shown child;
    n ← nav_fuel;
    p ← (if visible : bool then last_child n newIndex 0 p else mret p);
    focus p
  end.

Definition nav_down (itemIndex : Z) : R unit :=
  let newIndex := itemIndex + 1 in
  item ← byId (item_id itemIndex);
  item ← defined item;
  row ← grandparent item;
  elem ← FindChildElement (el_id row);
  visible ← shown elem;
  focusItem ← (if visible : bool then byId (child_id itemIndex 0) else mret None);
  focusItem ← (match focusItem : option position with
               | Some p => mret (Some p)
               | None => NavNext newIndex
               end : R (option position));
  match focusItem with Some p => focus p | None => mret tt end.

(** The children of an item shown or hidden. *)
Definition nav_fold (itemIndex : Z) (v : string) : R unit :=
  item ← byId (item_id itemIndex);
  item ← defined item;
  row ← grandparent item;
  elem ← FindChildElement (el_id row);
  match elem with Some p => update (set_display v) p | None => mret tt end.

Definition nav_escape : R unit :=
  _ ← modify (add_effect CloseResults); modify (add_effect FocusSearchField).

Definition Nav (e : event) (itemIndex : Z) : R bool :=
  if decide (keyCode e = 13) then mret true else
  goes_on ← ProcessKeys e;
  if negb goes_on then mret false else
  key ← gets lastKey;
  if decide (key = 38) then _ ← nav_up itemIndex; mret false
  else if decide (key = 40) then _ ← nav_down itemIndex; mret false
  else if decide (key = 39) then _ ← nav_fold itemIndex "block"; mret false
  else if decide (key = 37) then _ ← nav_fold itemIndex "none"; mret false
  else if decide (key = 27) then _ ← nav_escape; mret false
  else mret (bool_decide (key = 13)).

Definition NavChild (e : event) (itemIndex childIndex : Z) : R bool :=
  if decide (keyCode e = 13) then mret true else
  goes_on ← ProcessKeys e;
  if negb goes_on then mret false else
  key ← gets lastKey;
  if decide (key = 38) then
    elem ← byId (if decide (0 < childIndex) then child_id itemIndex (childIndex - 1)
                 else item_id itemIndex);
    elem ← defined elem;
    _ ← focus elem; mret false
  else if decide (key = 40) then
    elem ← byId (child_id itemIndex (childIndex + 1));
    elem ← (match elem : option position with
            | Some p => mret (Some p)
            | None => NavNext (itemIndex + 1)
            end : R (option position));
    _ ← (match elem with Some p => focus p | None => mret tt end : R unit);
    mret false
  else if decide (key = 27) then _ ← nav_escape; mret false
  else mret (bool_decide (key = 13)).

(** ** createResults *)
Definition setKeyActions (action : jstr) (e : elem) : elem := set_keys action e.
Definition setClassAttr (attr : string) (e : elem) : elem := set_class (js attr) e.

(** The attributes of a link of the table. *)
Definition set_link (l : SearchLink) (e : elem) : elem :=
  let e := set_href (js (l_href l)) e in
  if decide (l_parent l = 0) then e else set_target "_parent" e.

Definition child_link (e c : Z) (l : SearchLink) : dom :=
  let action := js "return searchResults.NavChild(event," ++ toString10 e ++ js "," ++
                toString10 c ++ js ")" in
  Node (set_link l (setClassAttr "SRScope" (setKeyActions action
          (set_id (child_id e c) (createElement "a")))))
    (html_nodes (js (l_scope l))).

Definition result_row (e : nat) (entry : SearchEntry) : dom :=
  let n := Z.of_nat e in
  let id := js (e_id entry) in
  let action := js "return searchResults.Nav(event," ++ toString10 n ++ js ")" in
  let srLink := setClassAttr "SRSymbol" (setKeyActions action
    (set_id (item_id n) (createElement "a"))) in
  let name := html_nodes (js (e_name entry)) in
  let content :=
    match e_links entry with
    | [l] =>
      [Node (set_link l srLink) name;
       Node (setClassAttr "SRScope" (createElement "span")) (html_nodes (js (l_scope l)))]
    | links =>
      let toggle := js "javascript:searchResults.Toggle(" ++ [34] ++ js "SR_" ++ id ++ [34] ++ js ")" in
      [Node (set_href toggle srLink) name;
       Node (setClassAttr "SRChildren" (createElement "div"))
         (imap (λ c l, child_link n (Z.of_nat c) l) links)]
    end in
  Node (setClassAttr "SRResult" (set_id (js "SR_" ++ id) (createElement "div")))
    [Node (setClassAttr "SREntry" (createElement "div")) content].

Definition createResults (searchData : list SearchEntry) : R unit :=
  results ← byId (js "SRResults");
  results ← defined results;
  modify (λ s, set_page (append_at (imap result_row searchData) results (page s)) s).

(** The page as its HTML file has it. *)
Definition status (id text : string) : dom :=
  Node (set_class (js "SRStatus") (set_id (js id) (createElement "div"))) [Text (js text)].
Definition fresh_page : dom :=
  Node (set_class (js "SRPage") (createElement "body"))
    [Node (set_id (js "SRIndex") (createElement "div"))
      [status "Loading" "Loading..."; Node (set_id (js "SRResults") (createElement "div")) [];
       Node (createElement "script") []; status "Searching" "Searching...";
       status "NoMatches" "No Matches"; Node (createElement "script") []]].

(** The scripts of the page, opened with a query. *)
Definition open_page `{Unicode} (searchData : list SearchEntry) (url_search : jstr) : R unit :=
  _ ← createResults searchData;
  _ ← show (js "Loading") "none";
  _ ← show (js "NoMatches") "none";
  _ ← Search url_search None;
  mret tt.
