(* ===== verification/ResultsFacts.v ===== *)
(** * Facts of the results page

    The walk of [FindChildElement] in document order, the loops of the
    navigation, and what a search does to a page. *)
From stdpp Require Import pretty.
From S2P Require Import Prelude JsString Dom SearchData SearchResults.
Local Open Scope Z_scope.

(** ** The first element of a list with a property *)
Fixpoint first {A} (f : A → bool) (l : list A) : option A :=
  match l with [] => None | x :: l => if f x then Some x else first f l end.

Lemma first_app {A} (f : A → bool) l k :
  first f (l ++ k) = match first f l with Some x => Some x | None => first f k end.
Proof. induction l as [| x l IH]; cbn; [done |]. by destruct (f x). Qed.

Lemma first_fmap {A B} (f : B → bool) (g : A → B) l :
  first f (g <$> l) = g <$> first (f ∘ g) l.
Proof. induction l as [| x l IH]; cbn; [done |]. by destruct (f (g x)). Qed.

Lemma first_ext {A} (f g : A → bool) l : (∀ x, f x = g x) → first f l = first g l.
Proof. intros H. induction l as [| x l IH]; cbn; [done |]. by rewrite H, IH. Qed.

Lemma first_filter {A} (f : A → bool) l : first f l = head (filter (λ x, f x = true) l).
Proof.
  induction l as [| x l IH]; [done |]. cbn [first]. rewrite filter_cons.
  destruct (f x) eqn:Hf; [by rewrite decide_True | by rewrite decide_False by congruence].
Qed.

(** ** FindChildElement *)

(** The nodes below a node in document order, where only div elements are
    entered. *)
Fixpoint visited (d : dom) : list position :=
  match d with
  | Text _ => []
  | Node e cs =>
    if decide (tag e = "div"%string) then
      (fix go (k : nat) (cs : list dom) : list position :=
         match cs with
         | [] => []
         | c :: cs => [k] :: (cons k <$> visited c) ++ go (S k) cs
         end) 0%nat cs
    else []
  end.

Fixpoint child_visits (k : nat) (cs : list dom) : list position :=
  match cs with
  | [] => []
  | c :: cs => [k] :: (cons k <$> visited c) ++ child_visits (S k) cs
  end.

Lemma visited_div d : is_div d = true → visited d = child_visits 0 (child_nodes d).
Proof.
  destruct d as [e cs |]; [| done]. cbn. intros H%bool_decide_eq_true. by rewrite decide_True.
Qed.

Lemma visited_other d : is_div d = false ∨ child_nodes d = [] → visited d = [].
Proof.
  destruct d as [e cs |]; [| done]. cbn.
  intros [H%bool_decide_eq_false | ->]; [by rewrite decide_False | by case_decide].
Qed.

Lemma length_child_visits k cs :
  length (child_visits k cs) = sum_list ((λ c, S (length (visited c))) <$> cs).
Proof.
  revert k. induction cs as [| c cs IH]; intros k; cbn; [done |].
  rewrite length_app, length_fmap, IH. lia.
Qed.

(** Fewer nodes are visited than there are. *)
Lemma visited_positions d : (S (length (visited d)) ≤ length (positions d))%nat.
Proof.
  induction d as [e cs IH | t] using dom_rect'; [| cbn; lia].
  assert (length (child_visits 0 cs) ≤ length (child_positions 0 cs))%nat as Hle.
  { generalize 0%nat as k. induction IH as [| c cs Hc _ IHc]; intros k; cbn; [lia |].
    rewrite !length_app, !length_fmap. specialize (IHc (S k)). lia. }
  rewrite positions_node. cbn [length]. cbn in Hle |- *. case_decide; cbn; unfold child_visits in Hle; lia.
Qed.

(** Every node between [d] and the one at [q] is a div. *)
Fixpoint through_divs (q : position) (d : dom) : bool :=
  match q with
  | [] => true
  | k :: q =>
    match child_nodes d !! k with
    | Some c => bool_decide (q = []) || is_div c && through_divs q c
    | None => false
    end
  end.

Definition below (d : dom) (q : position) : Prop := q ≠ [] ∧ through_divs q d = true.
#[export] Instance below_dec d q : Decision (below d q).
Proof. unfold below. apply _. Defined.

Lemma filter_fmap_cons k c d l :
  child_nodes d !! k = Some c → Forall (λ q, q ≠ []) l →
  filter (below d) (cons k <$> l) = cons k <$> filter (λ q, is_div c = true ∧ below c q) l.
Proof.
  intros Hk. induction 1 as [| q l Hq _ IH]; [done |]. rewrite fmap_cons, !filter_cons, IH.
  assert (below d (k :: q) ↔ is_div c = true ∧ below c q) as Hiff.
  { unfold below. cbn [through_divs]. rewrite Hk. rewrite bool_decide_eq_false_2 by done.
    cbn [orb]. rewrite andb_true_iff. intuition done. }
  destruct (decide (below d (k :: q))), (decide (is_div c = true ∧ below c q)); tauto.
Qed.

(** The visited nodes are those below, in document order. *)
Lemma child_visits_filter d cs k :
  drop k (child_nodes d) = cs →
  Forall (λ c, visited c = filter (λ q, is_div c = true ∧ below c q) (positions c)) cs →
  child_visits k cs = filter (below d) (child_positions k cs).
Proof.
  intros Hdrop Hcs. revert k Hdrop. induction Hcs as [| c cs Hc _ IH]; intros k Hdrop; [done |].
  assert (child_nodes d !! k = Some c) as Hk.
  { rewrite <- (Nat.add_0_r k), <- lookup_drop, Hdrop. done. }
  cbn [child_visits child_positions]. rewrite filter_app, Hc, (IH (S k)).
  2: { rewrite <- Nat.add_1_r, <- drop_drop, Hdrop. done. }
  assert (∃ l, positions c = [] :: l ∧ Forall (λ q, q ≠ []) l) as (l & -> & Hl).
  { destruct c as [e cs' | t]; [| by exists []]. rewrite positions_node. eexists. split; [done |].
    apply Forall_forall. intros q Hq. apply elem_of_child_positions in Hq as (? & ? & ? & -> & _). done. }
  rewrite fmap_cons, !filter_cons, (filter_fmap_cons k c d l Hk Hl).
  rewrite (decide_False (P := is_div c = true ∧ below c [])) by (by intros [_ []]).
  rewrite decide_True; [done |]. split; [done |]. cbn. by rewrite Hk.
Qed.

Lemma visited_filter c : visited c = filter (λ q, is_div c = true ∧ below c q) (positions c).
Proof.
  induction c as [e cs IH | t] using dom_rect'; [| done].
  destruct (is_div (Node e cs)) eqn:Hd.
  - rewrite (visited_div _ Hd), positions_node. cbn [child_nodes].
    rewrite (child_visits_filter (Node e cs) cs 0); [| by rewrite drop_0 | done].
    rewrite filter_cons, decide_False by (by intros [_ []]).
    apply list_filter_iff. intros q. tauto.
  - rewrite (visited_other _ (or_introl Hd)). symmetry.
    induction (positions (Node e cs)) as [| q l IHl]; [done |].
    rewrite filter_cons, decide_False; [done | by intros []].
Qed.

Definition children_at (root : dom) (p : position) : bool :=
  match subtree p root with Some d => is_children d | None => false end.

Lemma at_child root k up d :
  subtree (reverse up) root = Some d →
  subtree (reverse (k :: up)) root = child_nodes d !! k.
Proof.
  intros Hd. rewrite reverse_cons, subtree_app, Hd. cbn. by destruct (child_nodes d !! k).
Qed.

(** Where the walk goes on after a node and all below it. *)
Definition advance (root : dom) (up : list nat) : option (list nat) :=
  match nextSibling root up with Some next => Some next | None => climb root up end.

Lemma advance_last root k up d :
  subtree (reverse up) root = Some d → child_nodes d !! S k = None →
  advance root (k :: up) = advance root up.
Proof.
  intros Hd Hk. unfold advance at 1, nextSibling. rewrite (at_child _ _ _ _ Hd), Hk.
  destruct up as [| j up]; [done |]. cbn [climb]. done.
Qed.

Lemma advance_next root k up d c :
  subtree (reverse up) root = Some d → child_nodes d !! S k = Some c →
  nextSibling root (k :: up) = Some (S k :: up).
Proof. intros Hd Hk. unfold nextSibling. by rewrite (at_child _ _ _ _ Hd), Hk. Qed.

Section Walk.
Context (root : dom) (s : results).

(** The walk over a node and what is below it. *)
Definition walks (d : dom) : Prop := ∀ up n,
  subtree (reverse up) root = Some d → up ≠ [] →
  find_child (S (length (visited d)) + n) root up s =
    match first (children_at root) (reverse up :: ((reverse up ++.) <$> visited d)) with
    | Some p => Ok (Some p, s)
    | None =>
      match advance root up with
      | Some next => find_child n root next s
      | None => Ok (None, s)
      end
    end.

Lemma walk_children cs up d k n :
  subtree (reverse up) root = Some d → drop k (child_nodes d) = cs → cs ≠ [] →
  Forall walks cs →
  find_child (length (child_visits k cs) + n) root (k :: up) s =
    match first (children_at root) ((reverse up ++.) <$> child_visits k cs) with
    | Some p => Ok (Some p, s)
    | None =>
      match advance root up with
      | Some next => find_child n root next s
      | None => Ok (None, s)
      end
    end.
Proof.
  intros Hd Hdrop Hne Hcs. revert k Hdrop Hne.
  induction Hcs as [| c cs Hc _ IH]; intros k Hdrop Hne; [done |].
  assert (child_nodes d !! k = Some c) as Hk.
  { rewrite <- (Nat.add_0_r k), <- lookup_drop, Hdrop. done. }
  assert (drop (S k) (child_nodes d) = cs) as Hdrop'.
  { rewrite <- Nat.add_1_r, <- drop_drop, Hdrop. done. }
  cbn [child_visits length]. rewrite length_app, length_fmap.
  replace (S (length (visited c) + length (child_visits (S k) cs)) + n)%nat
    with (S (length (visited c)) + (length (child_visits (S k) cs) + n))%nat by lia.
  rewrite (Hc (k :: up)); [| by rewrite (at_child _ _ _ _ Hd) | done].
  assert (reverse (k :: up) :: ((reverse (k :: up) ++.) <$> visited c) =
    (reverse up ++.) <$> ([k] :: (cons k <$> visited c))) as Heq.
  { rewrite reverse_cons, fmap_cons. f_equal. rewrite <- list_fmap_compose.
    apply list_fmap_ext. intros _ q _. cbn. by rewrite <- (assoc_L (++)). }
  rewrite Heq. clear Heq.
  change ([k] :: (cons k <$> visited c) ++ child_visits (S k) cs)
    with (([k] :: (cons k <$> visited c)) ++ child_visits (S k) cs).
  rewrite (fmap_app _ ([k] :: _)), first_app.
  destruct (first _ (_ <$> ([k] :: _))) as [p |]; [done |].
  destruct cs as [| c' cs].
  - cbn [child_visits length fmap list_fmap first]. rewrite (advance_last _ _ _ d); [done | done |].
    apply lookup_ge_None_2. apply (f_equal length) in Hdrop'. rewrite length_drop in Hdrop'. cbn in Hdrop'. lia.
  - assert (child_nodes d !! S k = Some c') as Hk'.
    { rewrite <- (Nat.add_0_r (S k)), <- lookup_drop, Hdrop'. done. }
    unfold advance at 1. rewrite (advance_next _ _ _ _ _ Hd Hk'). by apply IH.
Qed.

Lemma walk_node d : walks d.
Proof.
  induction d as [e cs IH | t] using dom_rect'; intros up n Hd Hup; cbn [Nat.add find_child];
    rewrite Hd; cbn [defined]; rewrite ret_bind; cbn [first];
    unfold children_at at 1; rewrite Hd.
  2: { cbn. unfold advance. destruct (nextSibling root up); [done |]. by destruct (climb root up). }
  destruct (is_children (Node e cs)) eqn:Hm; [done |].
  destruct (is_div (Node e cs) && negb (bool_decide (child_nodes (Node e cs) = []))) eqn:Hdiv.
  - apply andb_prop in Hdiv as [Hdiv Hcs]. rewrite (visited_div _ Hdiv).
    apply negb_true_iff, bool_decide_eq_false in Hcs.
    by apply (walk_children _ up (Node e cs)).
  - rewrite (visited_other (Node e cs)).
    2: { apply andb_false_iff in Hdiv as [-> | H]; [by left | right].
         apply negb_false_iff, bool_decide_eq_true in H. done. }
    cbn [fmap list_fmap first length]. unfold advance.
    destruct (nextSibling root up); [done |]. by destruct (climb root up).
Qed.

Lemma find_child_first n :
  child_nodes root ≠ [] → (length (child_visits 0 (child_nodes root)) ≤ n)%nat →
  find_child n root [0%nat] s =
    Ok (first (children_at root) (child_visits 0 (child_nodes root)), s).
Proof.
  intros Hne Hn.
  replace n with (length (child_visits 0 (child_nodes root)) +
    (n - length (child_visits 0 (child_nodes root))))%nat by lia.
  rewrite (walk_children (child_nodes root) [] root 0 _); [| done | by rewrite drop_0 | done |].
  - cbn. rewrite first_fmap. rewrite (first_ext _ (children_at root)) by done.
    by destruct (first _ _).
  - apply Forall_forall. intros d _. apply walk_node.
Qed.
End Walk.

Lemma FindChildElement_run id p root s :
  getElementById id (page s) = Some p → subtree p (page s) = Some root →
  FindChildElement id s =
    Ok ((p ++.) <$> first (children_at root) (child_visits 0 (child_nodes root)), s).
Proof.
  intros Hp Hroot. unfold FindChildElement, byId. rewrite gets_bind, Hp. cbn [defined].
  rewrite ret_bind, gets_bind, Hroot. cbn [defined]. rewrite ret_bind.
  destruct (decide (child_nodes root = [])) as [-> | Hne]; [done |].
  erewrite bind_ok; [| apply find_child_first; [done |]]; [done |].
  destruct root as [e cs |]; [| done]. rewrite positions_node. cbn [child_nodes length].
  clear. assert (∀ k, length (child_visits k cs) ≤ length (child_positions k cs))%nat as H;
    [| specialize (H 0%nat); lia].
  induction cs as [| c cs IH]; intros k; cbn; [lia |].
  rewrite !length_app, !length_fmap. pose proof (visited_positions c). specialize (IH (S k)). lia.
Qed.

(** ** Navigation *)
Lemma js_inj : Inj (=) (=) js.
Proof.
  intros s. induction s as [| a s IH]; intros [| b t]; cbn; [done | done | done |].
  intros [= Hab Hst]. apply IH in Hst as ->. f_equal.
  apply N2Z.inj in Hab. by rewrite <- (Ascii.ascii_N_embedding a), <- (Ascii.ascii_N_embedding b), Hab.
Qed.

Lemma toString10_inj : Inj (=) (=) toString10.
Proof. intros n m H. unfold toString10 in H. apply js_inj in H. by apply (inj pretty). Qed.

Lemma item_id_inj n m : item_id n = item_id m → n = m.
Proof. unfold item_id. intros H. apply app_inv_head in H. by apply toString10_inj. Qed.

(** The row of an item. *)
Definition row_of (d : dom) (p : position) : option elem :=
  q ← parentNode p; r ← parentNode q; elem_at r d.

Lemma grandparent_run p row s : row_of (page s) p = Some row → grandparent p s = Ok (row, s).
Proof.
  unfold row_of, grandparent, element_of. destruct (parentNode p) as [q |]; [| done].
  cbn [mbind option_bind defined]. rewrite ret_bind. destruct (parentNode q) as [r |]; [| done].
  cbn [mbind option_bind defined]. rewrite ret_bind, gets_bind. by intros ->.
Qed.

(** Every item is inside a row. *)
Definition items_ok (d : dom) : Prop :=
  ∀ index p, getElementById (item_id index) d = Some p → is_Some (row_of d p).

Definition item_hidden (d : dom) (index : Z) : Prop :=
  ∃ p row, getElementById (item_id index) d = Some p ∧ row_of d p = Some row ∧
    display row ≠ "block"%string.

(** The first item from [index] on, in steps, that is not hidden: [None] where
    the items end. *)
Definition nav_finds (d : dom) (step index : Z) (r : option position) : Prop :=
  ∃ n : nat, (∀ m : nat, (m < n)%nat → item_hidden d (index + step * Z.of_nat m)) ∧
    getElementById (item_id (index + step * Z.of_nat n)) d = r ∧
    (∀ p, r = Some p → ∃ row, row_of d p = Some row ∧ display row = "block"%string).

Lemma nav_finds_later d step index r :
  item_hidden d index → nav_finds d step (index + step) r → nav_finds d step index r.
Proof.
  intros Hi (n & Hn & Hr & Hv). exists (S n). split_and!.
  - intros [| m] Hm; [by rewrite Z.mul_0_r, Z.add_0_r |].
    replace (index + step * Z.of_nat (S m)) with (index + step + step * Z.of_nat m) by lia.
    apply Hn. lia.
  - by replace (index + step * Z.of_nat (S n)) with (index + step + step * Z.of_nat n) by lia.
  - done.
Qed.

Lemma nav_loop_run fuel step index s :
  items_ok (page s) →
  (∃ n : nat, (n < fuel)%nat ∧ getElementById (item_id (index + step * Z.of_nat n)) (page s) = None) →
  ∃ r, nav_loop fuel step index s = Ok (r, s) ∧ nav_finds (page s) step index r.
Proof.
  intros Hok. revert index. induction fuel as [| fuel IH]; intros index (n & Hn & Hnone); [lia |].
  cbn [nav_loop]. unfold byId. rewrite gets_bind.
  destruct (getElementById (item_id index) (page s)) as [p |] eqn:Hp.
  2: { exists None. split; [done |]. exists 0%nat. rewrite Z.mul_0_r, Z.add_0_r.
       split_and!; [lia | done | done]. }
  destruct (Hok index p Hp) as [row Hrow]. rewrite (bind_ok _ _ _ _ _ (grandparent_run _ _ _ Hrow)).
  destruct (decide (display row = "block"%string)) as [Hd | Hd].
  - exists (Some p). split; [done |]. exists 0%nat. rewrite Z.mul_0_r, Z.add_0_r.
    split_and!; [lia | done | intros ? [= <-]; eauto].
  - destruct n as [| n]; [rewrite Z.mul_0_r, Z.add_0_r in Hnone; congruence |].
    destruct (IH (index + step)) as (r & Hr & Hf).
    { exists n. split; [lia |]. rewrite <- Hnone. do 2 f_equal. lia. }
    exists r. split; [done |]. apply nav_finds_later; [| done]. by exists p, row.
Qed.

(** There are fewer items than nodes. *)
Lemma items_end d step index :
  step ≠ 0 → ∃ n : nat, (n < S (length (positions d)))%nat ∧
    getElementById (item_id (index + step * Z.of_nat n)) d = None.
Proof.
  intros Hstep. set (id n := item_id (index + step * Z.of_nat n)).
  destruct (decide (Exists (λ n, getElementById (id n) d = None) (seq 0 (S (length (positions d))))))
    as [He | He].
  { apply Exists_exists in He as (n & Hn & Hnone). apply elem_of_seq in Hn. exists n. split; [lia | done]. }
  exfalso.
  set (ids := omap (λ p, el_id <$> elem_at p d) (positions d)).
  assert (id <$> seq 0 (S (length (positions d))) ⊆+ ids) as Hsub.
  { apply NoDup_submseteq.
    - apply NoDup_fmap_2_strong; [| apply NoDup_seq]. intros n m _ _ Hnm. apply item_id_inj in Hnm. nia.
    - intros i Hi. apply list_elem_of_fmap in Hi as (n & -> & Hn).
      destruct (getElementById (id n) d) as [p |] eqn:Hp.
      + apply getElementById_some in Hp as [Hid Hp]. apply list_elem_of_omap. by exists p.
      + destruct He. apply Exists_exists. by exists n. }
  apply submseteq_length in Hsub. rewrite length_fmap, length_seq in Hsub.
  assert (length ids ≤ length (positions d))%nat; [| lia].
  unfold ids. clear. induction (positions d) as [| p ps IH]; cbn; [lia |].
  destruct (el_id <$> _); cbn; lia.
Qed.

Lemma nav_run step index s :
  step ≠ 0 → items_ok (page s) →
  ∃ r, nav_loop (S (length (positions (page s)))) step index s = Ok (r, s) ∧
    nav_finds (page s) step index r.
Proof. intros Hs Hok. apply nav_loop_run; [done |]. by apply items_end. Qed.
