(* ===== verification/ResultsPage.v ===== *)
(** * Opening a results page

    The page [createResults] builds, what [Search] does to its rows, and that
    the items of the page are inside rows. *)
From stdpp Require Import pretty.
From S2P Require Import Prelude JsString Dom SearchData SearchResults ResultsFacts.
Local Open Scope Z_scope.

(** ** Elements of a tree *)
Inductive all_elems (P : elem → Prop) : dom → Prop :=
  | all_node e cs : P e → Forall (all_elems P) cs → all_elems P (Node e cs)
  | all_text t : all_elems P (Text t).

Lemma all_elems_at P d p e : all_elems P d → elem_at p d = Some e → P e.
Proof.
  revert d. induction p as [| k p IH]; intros d Hd He.
  - destruct Hd; cbn in He; by simplify_eq.
  - rewrite elem_at_cons in He. destruct (child_nodes d !! k) as [c |] eqn:Hk; [| done].
    eapply IH; [| exact He]. destruct Hd as [e0 cs _ Hcs |]; [| done].
    by eapply Forall_lookup_1.
Qed.

Lemma all_elems_nodes P h : Forall (all_elems P) (html_nodes h).
Proof. unfold html_nodes. case_decide; repeat constructor. Qed.

(** ** Marking the rows *)
Section Marks.
Context `{Unicode}.
Implicit Types (s : results) (d : dom).

Definition mark (search : jstr) (e : elem) : elem :=
  if decide (className e = js "SRResult") then
    set_display (if decide (row_matches search (el_id e)) then "block" else "none") e
  else e.

Definition hit (search : jstr) d (p : position) : Prop :=
  match elem_at p d with
  | Some e => className e = js "SRResult" ∧ row_matches search (el_id e)
  | None => False
  end.
#[export] Instance hit_dec search d p : Decision (hit search d p).
Proof. unfold hit. destruct (elem_at p d); apply _. Defined.

(** Two states that differ in the display of elements and the match count. *)
Record same_but_display s s' : Prop := {
  same_ids i : getElementById i (page s') = getElementById i (page s);
  same_tags t : getElementsByTagName t (page s') = getElementsByTagName t (page s);
  same_elems p : set_display EmptyString <$> elem_at p (page s') =
                 set_display EmptyString <$> elem_at p (page s);
  same_rest : lastKey s' = lastKey s ∧ repeatOn s' = repeatOn s ∧ effects s' = effects s;
}.

Lemma same_refl s : same_but_display s s.
Proof. by constructor. Qed.

Lemma same_trans s1 s2 s3 : same_but_display s1 s2 → same_but_display s2 s3 → same_but_display s1 s3.
Proof.
  intros [A1 A2 A3 A4] [B1 B2 B3 B4]. constructor; intros; [congruence.. | intuition congruence].
Qed.

Lemma same_update v p s s' :
  update (set_display v) p s = Ok (tt, s') → same_but_display s s'.
Proof.
  intros [= <-]. constructor; cbn; [| | | done].
  - intros i. by apply getElementById_alter.
  - intros t. by apply getElementsByTagName_alter.
  - intros q. rewrite elem_at_alter. destruct (decide (p = q)); by destruct (elem_at q (page s)).
Qed.

Lemma page_update_run f p s :
  update f p s = Ok (tt, set_page (alter_at f p (page s)) s).
Proof. done. Qed.

Lemma element_run p s e : elem_at p (page s) = Some e → element_of p s = Ok (e, s).
Proof. intros He. unfold element_of. rewrite gets_bind, He. done. Qed.

(** A change of the page by one row of the loop. *)
Lemma mark_step search p row l s :
  NoDup (p :: l) → elem_at p (page s) = Some row →
  let s' := set_page (alter_at (mark search) p (page s)) s in
  (∀ q, q ∈ l → elem_at q (page s') = elem_at q (page s)) ∧
  filter (hit search (page s')) l = filter (hit search (page s)) l.
Proof.
  intros Hnd Hrow s'. apply NoDup_cons in Hnd as [Hp Hnd].
  assert (∀ q, q ∈ l → elem_at q (page s') = elem_at q (page s)) as Hsame.
  { intros q Hq. cbn. rewrite elem_at_alter. rewrite decide_False; [by rewrite option_fmap_id |].
    by intros ->. }
  split; [done |].
  apply filter_ext_in. intros q Hq. unfold hit. by rewrite (Hsame q Hq).
Qed.

Lemma search_rows_run search l n s :
  NoDup l → (∀ p, p ∈ l → is_Some (elem_at p (page s))) →
  ∃ s', search_rows search l n s =
      Ok (n + Z.of_nat (length (filter (hit search (page s)) l)), s') ∧
    (∀ q, elem_at q (page s') = (if decide (q ∈ l) then mark search else id) <$> elem_at q (page s)) ∧
    same_but_display s s' ∧ lastMatchCount s' = lastMatchCount s.
Proof.
  revert n s. induction l as [| p l IH]; intros n s Hnd Hl; cbn [search_rows].
  { exists s. split_and!; [by rewrite filter_nil, Z.add_0_r | | apply same_refl | done].
    intros q. rewrite decide_False by (by intros ?%elem_of_nil). by rewrite option_fmap_id. }
  destruct (Hl p) as [row Hrow]; [left |]. rewrite (bind_ok _ _ _ _ _ (element_run _ _ _ Hrow)).
  set (s1 := set_page (alter_at (mark search) p (page s)) s).
  destruct (mark_step search p row l s Hnd Hrow) as [Hsame Hhits]. fold s1 in Hsame, Hhits.
  apply NoDup_cons in Hnd as [Hp Hnd].
  assert (∀ v, className row = js "SRResult" →
    v = (if decide (row_matches search (el_id row)) then "block" else "none")%string →
    update (set_display v) p s = Ok (tt, s1)) as Hrun.
  { intros v Hc ->. rewrite page_update_run. unfold s1. do 3 f_equal. apply alter_at_ext.
    intros e He. rewrite Hrow in He. injection He as <-. unfold mark.
    by rewrite (decide_True (P := className row = _)). }
  assert (∀ q, elem_at q (page s1) = (if decide (p = q) then mark search else id) <$> elem_at q (page s))
    as Hs1 by (intros; apply elem_at_alter).
  assert (∃ s', search_rows search l (n + (if decide (hit search (page s) p) then 1 else 0)) s1 =
      Ok (n + Z.of_nat (length (filter (hit search (page s)) (p :: l))), s') ∧
    (∀ q, elem_at q (page s') = (if decide (q ∈ p :: l) then mark search else id) <$> elem_at q (page s)) ∧
    same_but_display s1 s' ∧ lastMatchCount s' = lastMatchCount s) as (s' & Hrest & Hq & Hsd & Hm).
  { destruct (IH (n + (if decide (hit search (page s) p) then 1 else 0)) s1) as (s' & Hr & Hq & Hsd & Hm).
    - done.
    - intros q Hq. rewrite Hsame by done. apply Hl. by right.
    - exists s'. split_and!; [| | done | done].
      + rewrite Hr. do 2 f_equal. rewrite filter_cons, Hhits. case_decide; cbn; lia.
      + intros q. rewrite Hq, Hs1. destruct (decide (p = q)) as [<- |].
        * rewrite (decide_False (P := p ∈ l)) by done. rewrite decide_True by left.
          by rewrite option_fmap_id.
        * rewrite option_fmap_id. destruct (decide (q ∈ l)).
          -- by rewrite decide_True by (by right).
          -- rewrite decide_False; [done |]. by intros [|]%elem_of_cons. }
  assert (hit search (page s) p ↔ className row = js "SRResult" ∧ row_matches search (el_id row))
    as Hhit by (unfold hit; by rewrite Hrow).
  destruct (decide (className row = js "SRResult")) as [Hc | Hc].
  - destruct (decide (row_matches search (el_id row))) as [Hr | Hr].
    + rewrite decide_True in Hrest by (by apply Hhit).
      specialize (Hrun "block"%string Hc eq_refl). rewrite (bind_ok _ _ _ _ _ Hrun).
      exists s'. split_and!; [done | done | | done]. by eapply same_trans; [eapply same_update |].
    + rewrite decide_False in Hrest by (rewrite Hhit; tauto). rewrite Z.add_0_r in Hrest.
      specialize (Hrun "none"%string Hc eq_refl). rewrite (bind_ok _ _ _ _ _ Hrun).
      exists s'. split_and!; [done | done | | done]. by eapply same_trans; [eapply same_update |].
  - rewrite decide_False in Hrest by (rewrite Hhit; tauto). rewrite Z.add_0_r in Hrest.
    assert (s1 = s) as E.
    { unfold s1. destruct s. unfold set_page. cbn in *. f_equal. apply alter_at_id.
      intros e He. rewrite Hrow in He. injection He as <-. unfold mark. by rewrite decide_False. }
    rewrite E in *. by exists s'.
Qed.
End Marks.

(** ** The page with its rows *)
Definition row_elem (entry : SearchEntry) : elem :=
  setClassAttr "SRResult" (set_id (js "SR_" ++ js (e_id entry)) (createElement "div")).

(** An element inside a row. *)
Definition inner_elem (e : elem) : Prop :=
  className e ≠ js "SRResult" ∧ el_id e ≠ js "Searching" ∧ el_id e ≠ js "NoMatches" ∧
  el_id e ≠ js "Loading" ∧ display e = EmptyString.

Lemma inner_of c i e :
  className e = js c → el_id e = i → display e = EmptyString → js c ≠ js "SRResult" →
  (i = [] ∨ ∃ r, i = js "Item" ++ r) → inner_elem e.
Proof.
  unfold inner_elem. intros -> -> -> Hc Hi. split; [done |].
  destruct Hi as [-> | [r ->]]; split_and!; (by intros ?%(f_equal head)) || done.
Qed.

Lemma result_row_shape e entry :
  ∃ inner, result_row e entry = Node (row_elem entry) [inner] ∧ all_elems inner_elem inner.
Proof.
  assert (∀ c l, all_elems inner_elem (child_link (Z.of_nat e) c l)) as Hchild.
  { intros c l. constructor; [| apply all_elems_nodes].
    eapply (inner_of "SRScope" (child_id (Z.of_nat e) c)); [| | | done |];
      [unfold set_link; by case_decide.. |].
    right. unfold child_id, item_id. rewrite <- (assoc_L (++)). by eexists. }
  assert (∀ h f, (∀ x, className (f x) = className x ∧ el_id (f x) = el_id x ∧ display (f x) = display x) →
    all_elems inner_elem (Node (f (setClassAttr "SRSymbol" (setKeyActions
      (js "return searchResults.Nav(event," ++ toString10 (Z.of_nat e) ++ js ")")
      (set_id (item_id (Z.of_nat e)) (createElement "a"))))) (html_nodes h))) as Hlink.
  { intros h f Hf. constructor; [| apply all_elems_nodes].
    eapply (inner_of "SRSymbol" (item_id (Z.of_nat e))); [apply Hf | | | done |].
    - by rewrite (proj1 (proj2 (Hf _))).
    - by rewrite (proj2 (proj2 (Hf _))).
    - right. by eexists. }
  assert (∀ (c t : string) cs, js c ≠ js "SRResult" → Forall (all_elems inner_elem) cs →
    all_elems inner_elem (Node (setClassAttr c (createElement t)) cs)) as Hplain.
  { intros c t cs Hc Hcs. constructor; [| done]. eapply (inner_of c []); [done.. | by left]. }
  unfold result_row. eexists. split; [done |]. apply Hplain; [done |].
  assert (∀ links, Forall (all_elems inner_elem)
    [Node (set_href (js "javascript:searchResults.Toggle(" ++ [34] ++ js "SR_" ++ js (e_id entry) ++
        [34] ++ js ")") (setClassAttr "SRSymbol" (setKeyActions
          (js "return searchResults.Nav(event," ++ toString10 (Z.of_nat e) ++ js ")")
          (set_id (item_id (Z.of_nat e)) (createElement "a"))))) (html_nodes (js (e_name entry)));
     Node (setClassAttr "SRChildren" (createElement "div"))
       (imap (λ c l, child_link (Z.of_nat e) (Z.of_nat c) l) links)]) as Hmany.
  { intros links. constructor; [| constructor; [| constructor]].
    - by apply (Hlink _ (set_href _)).
    - apply Hplain; [done |]. apply Forall_lookup. intros k x Hx.
      rewrite list_lookup_imap in Hx. apply fmap_Some in Hx as (l & _ & ->). apply Hchild. }
  destruct (e_links entry) as [| l [| l' links]]; [apply Hmany | | apply Hmany].
  constructor; [| constructor; [| constructor]].
  - apply (Hlink _ (set_link l)). intros x. unfold set_link. by case_decide.
  - apply Hplain; [done | apply all_elems_nodes].
Qed.

Definition results_page (rows : list dom) : dom :=
  Node (set_class (js "SRPage") (createElement "body"))
    [Node (set_id (js "SRIndex") (createElement "div"))
      [status "Loading" "Loading..."; Node (set_id (js "SRResults") (createElement "div")) rows;
       Node (createElement "script") []; status "Searching" "Searching...";
       status "NoMatches" "No Matches"; Node (createElement "script") []]].

Definition page_of (searchData : list SearchEntry) : dom := results_page (imap result_row searchData).

Lemma createResults_fresh sd :
  createResults sd (SearchResults fresh_page) = Ok (tt, SearchResults (page_of sd)).
Proof. done. Qed.

Lemma positions_page rows :
  positions (results_page rows) =
    [[]; [0]; [0; 0]; [0; 0; 0]; [0; 1]]%nat ++
    ((λ q, [0; 1]%nat ++ q) <$> child_positions 0 rows) ++
    [[0; 2]; [0; 3]; [0; 3; 0]; [0; 4]; [0; 4; 0]; [0; 5]]%nat.
Proof.
  unfold results_page, status. rewrite positions_node. cbn [child_positions].
  rewrite app_nil_r, positions_node. cbn [child_positions]. rewrite !positions_node.
  cbn. do 5 f_equal. rewrite !fmap_app. cbn. rewrite <- !list_fmap_compose.
  f_equal.
Qed.

Definition rows_node (sd : list SearchEntry) : dom :=
  Node (set_id (js "SRResults") (createElement "div")) (imap result_row sd).

Lemma page_rows_at sd q : elem_at ([0; 1]%nat ++ q) (page_of sd) = elem_at q (rows_node sd).
Proof. by rewrite elem_at_app. Qed.

Lemma page_row_at sd e entry q :
  sd !! e = Some entry → elem_at ([0; 1; e]%nat ++ q) (page_of sd) = elem_at q (result_row e entry).
Proof.
  intros He. change ([0; 1; e]%nat ++ q) with ([0; 1]%nat ++ e :: q).
  rewrite page_rows_at, elem_at_cons. cbn [child_nodes rows_node]. by rewrite list_lookup_imap, He.
Qed.

Lemma page_inner_at sd q e :
  elem_at ([0; 1]%nat ++ q) (page_of sd) = Some e → q = [] ∨
  (∃ k entry, q = [k] ∧ sd !! k = Some entry ∧ e = row_elem entry) ∨ inner_elem e.
Proof.
  destruct q as [| k q]; [by left |]. intros He. right.
  rewrite page_rows_at, elem_at_cons in He. cbn [child_nodes rows_node] in He.
  rewrite list_lookup_imap in He. destruct (sd !! k) as [entry |] eqn:Hk; [| done].
  cbn [fmap option_fmap option_map mbind option_bind] in He.
  destruct (result_row_shape k entry) as (inner & Hrow & Hin). rewrite Hrow in He.
  destruct q as [| j q].
  - left. exists k, entry. cbn in He. by simplify_eq.
  - right. rewrite elem_at_cons in He. cbn [child_nodes] in He.
    destruct j as [| j]; [| by destruct j]. cbn in He.
    exact (all_elems_at _ _ _ _ Hin He).
Qed.

(** The elements of the page that are found by their ids. *)
Lemma page_ids sd i p :
  i = js "Loading" ∧ p = [0; 0]%nat ∨ i = js "Searching" ∧ p = [0; 3]%nat ∨
  i = js "NoMatches" ∧ p = [0; 4]%nat → getElementById i (page_of sd) = Some p.
Proof.
  intros Hip. unfold getElementById, page_of. rewrite positions_page. fold (page_of sd).
  rewrite !filter_app.
  rewrite (filter_none _ (_ <$> _)).
  { destruct Hip as [[-> ->] | [[-> ->] | [-> ->]]]; reflexivity. }
  apply Forall_forall. intros q Hq. apply list_elem_of_fmap in Hq as (q' & -> & Hq').
  unfold has_id. destruct (elem_at _ (page_of sd)) as [e |] eqn:He; [| done]. cbn.
  intros [= Hi]. apply page_inner_at in He as [-> | [(k & entry & -> & _ & ->) | Hin]].
  - apply elem_of_child_positions in Hq' as (? & ? & ? & ? & _). done.
  - revert Hi. destruct Hip as [[-> _] | [[-> _] | [-> _]]]; done.
  - destruct Hin as (_ & H1 & H2 & H3 & _). destruct Hip as [[-> _] | [[-> _] | [-> _]]]; done.
Qed.

(** ** A search on the page *)
Section Page.
Context `{Unicode}.
Implicit Types (s : results) (sd : list SearchEntry).

(** The test of the loop for the row of an entry. *)
Definition entry_matches (search : jstr) (entry : SearchEntry) : Prop :=
  row_matches search (js "SR_" ++ js (e_id entry)).
#[export] Instance entry_matches_dec search entry : Decision (entry_matches search entry).
Proof. unfold entry_matches. apply _. Defined.

Lemma hit_row w sd k entry :
  sd !! k = Some entry → hit w (page_of sd) [0; 1; k]%nat ↔ entry_matches w entry.
Proof.
  intros Hk. unfold hit. rewrite <- (app_nil_r [0; 1; k]%nat), (page_row_at _ _ _ _ Hk).
  cbn. unfold entry_matches. tauto.
Qed.

Lemma hit_elsewhere w sd q :
  (∀ k, q ≠ [k]) → ¬ hit w (page_of sd) ([0; 1]%nat ++ q).
Proof.
  intros Hq Hh. unfold hit in Hh. destruct (elem_at _ _) as [e |] eqn:He; [| done].
  destruct (page_inner_at _ _ _ He) as [-> | [(k & entry & -> & _) | [Hin _]]].
  - rewrite page_rows_at in He. injection He as <-. by destruct Hh.
  - exact (Hq k eq_refl).
  - destruct Hh. by apply Hin.
Qed.

Lemma count_rows w sd l i :
  (∀ k entry, l !! k = Some entry → sd !! (i + k)%nat = Some entry) →
  length (filter (hit w (page_of sd))
    ((λ q, [0; 1]%nat ++ q) <$> child_positions i (imap (λ k, result_row (i + k)) l))) =
  length (filter (entry_matches w) l).
Proof.
  revert i. induction l as [| entry l IH]; intros i Hl; [done |].
  cbn [imap child_positions]. rewrite fmap_app, filter_app, length_app.
  assert (sd !! i = Some entry) as Hi by (rewrite <- (Nat.add_0_r i); by apply Hl).
  rewrite filter_cons.
  assert (imap ((λ k, result_row (i + k)) ∘ S) l = imap (λ k, result_row (S i + k)) l) as ->.
  { apply imap_ext. intros k x _. cbn. by rewrite Nat.add_succ_r. }
  rewrite IH.
  2: { intros k x Hk. replace (S i + k)%nat with (i + S k)%nat by lia. by apply Hl. }
  rewrite Nat.add_0_r. destruct (result_row_shape i entry) as (inner & -> & _).
  rewrite positions_node. cbn [fmap list_fmap]. rewrite filter_cons.
  rewrite (filter_none _ (_ <$> _)).
  2: { apply Forall_forall. intros p Hp. rewrite <- list_fmap_compose in Hp.
       apply list_elem_of_fmap in Hp as (q & -> & Hq).
       apply elem_of_child_positions in Hq as (k & q' & c & -> & _). apply hit_elsewhere. done. }
  pose proof (hit_row w sd i entry Hi) as Hiff.
  destruct (decide (hit w (page_of sd) ([0; 1]%nat ++ [i]))), (decide (entry_matches w entry));
    cbn; tauto.
Qed.

Lemma page_hits w sd :
  length (filter (hit w (page_of sd)) (getElementsByTagName "div" (page_of sd))) =
  length (filter (entry_matches w) sd).
Proof.
  unfold getElementsByTagName. rewrite list_filter_filter.
  rewrite (filter_ext_in _ (hit w (page_of sd))).
  2: { intros q _. split; [by intros [] |]. intros Hq. split; [done |].
       revert Hq. unfold hit, has_tag. destruct (elem_at q (page_of sd)) as [e |] eqn:He; [| done].
       intros [Hc _]. cbn. f_equal.
       assert (q ∈ positions (page_of sd)) as Hin by (by eapply elem_at_position).
       unfold page_of in Hin. rewrite positions_page in Hin. fold (page_of sd) in Hin.
       rewrite !elem_of_app in Hin. destruct Hin as [Hin | [Hin | Hin]].
       - repeat (apply elem_of_cons in Hin as [-> | Hin]; [first [by injection He as <- | discriminate He] |]).
         by apply elem_of_nil in Hin.
       - apply list_elem_of_fmap in Hin as (q' & -> & _).
         destruct (page_inner_at _ _ _ He) as [-> | [(k & entry & -> & _ & ->) | [Hin _]]]; [| done..].
         rewrite page_rows_at in He. injection He as <-. done.
       - repeat (apply elem_of_cons in Hin as [-> | Hin]; [first [by injection He as <- | discriminate He] |]).
         by apply elem_of_nil in Hin. }
  assert (positions (page_of sd) = positions (results_page (imap result_row sd))) as -> by done.
  rewrite positions_page, !filter_app, !length_app.
  rewrite (filter_none _ [[]; _; _; _; _]), (filter_none _ [_; _; _; _; _; _]).
  - cbn [length]. rewrite Nat.add_0_l, Nat.add_0_r.
    apply (count_rows w sd sd 0). done.
  - repeat (apply Forall_cons; split; [intros Hh; by destruct Hh |]). done.
  - repeat (apply Forall_cons; split; [intros Hh; by destruct Hh |]). done.
Qed.

Lemma show_run i v p s :
  getElementById i (page s) = Some p →
  show i v s = Ok (tt, set_page (alter_at (set_display v) p (page s)) s).
Proof. intros Hp. unfold show, byId. rewrite gets_bind, Hp. done. Qed.

Lemma elem_at_alter_ne f p q d : q ≠ p → elem_at q (alter_at f p d) = elem_at q d.
Proof. intros Hne. rewrite elem_at_alter, decide_False by done. by rewrite option_fmap_id. Qed.

Lemma elem_at_alter_eq f p d : elem_at p (alter_at f p d) = f <$> elem_at p d.
Proof. by rewrite elem_at_alter, decide_True. Qed.

Lemma hit_same w s s' p : same_but_display s s' → hit w (page s') p ↔ hit w (page s) p.
Proof.
  intros Hs. pose proof (same_elems _ _ Hs p) as He. unfold hit.
  destruct (elem_at p (page s')) as [[] |], (elem_at p (page s)) as [[] |]; try done.
  cbn in *. by simplify_eq.
Qed.

Lemma div_at t p d : p ∈ getElementsByTagName t d → is_Some (elem_at p d).
Proof.
  intros [Ht _]%list_elem_of_filter. unfold has_tag in Ht. by destruct (elem_at p d).
Qed.

(** What [Search] leaves on the page of a table. *)
Record searched (w : jstr) sd s : Prop := {
  searched_rows k entry : sd !! k = Some entry →
    elem_at [0; 1; k]%nat (page s) =
      Some (set_display (if decide (entry_matches w entry) then "block" else "none") (row_elem entry));
  searched_count : lastMatchCount s = Z.of_nat (length (filter (entry_matches w) sd));
  searched_nomatches : display <$> elem_at [0; 4]%nat (page s) =
    Some (if decide (filter (entry_matches w) sd = []) then "block" else "none")%string;
  searched_searching : display <$> elem_at [0; 3]%nat (page s) = Some "none"%string;
  searched_elems p : set_display EmptyString <$> elem_at p (page s) =
                     set_display EmptyString <$> elem_at p (page_of sd);
  searched_others p : p ≠ [0; 0]%nat → p ≠ [0; 3]%nat → p ≠ [0; 4]%nat →
    elem_at p (page s) =
      (if decide (p ∈ getElementsByTagName "div" (page_of sd)) then mark w else id) <$> elem_at p (page_of sd);
  searched_ids i : getElementById i (page s) = getElementById i (page_of sd);
}.

Lemma row_mark w entry :
  mark w (row_elem entry) =
    set_display (if decide (entry_matches w entry) then "block" else "none") (row_elem entry).
Proof. done. Qed.

Lemma open_page_searched sd u :
  ∃ s', open_page sd u (SearchResults fresh_page) = Ok (tt, s') ∧ searched (search_word u None) sd s'.
Proof.
  set (w := search_word u None). unfold open_page.
  rewrite (bind_ok _ _ _ _ _ (createResults_fresh sd)).
  assert (∀ i p v s, same_but_display (SearchResults (page_of sd)) s →
    getElementById i (page_of sd) = Some p →
    show i v s = Ok (tt, set_page (alter_at (set_display v) p (page s)) s) ∧
    same_but_display (SearchResults (page_of sd)) (set_page (alter_at (set_display v) p (page s)) s))
    as Hshow.
  { intros i p v s Hs Hp. split.
    - apply show_run. by rewrite (same_ids _ _ Hs).
    - eapply same_trans; [exact Hs |]. by eapply same_update. }
  pose proof (page_ids sd (js "Loading") [0; 0]%nat ltac:(auto)) as HL.
  pose proof (page_ids sd (js "NoMatches") [0; 4]%nat ltac:(auto)) as HN.
  pose proof (page_ids sd (js "Searching") [0; 3]%nat ltac:(auto)) as HS.
  destruct (Hshow _ _ "none"%string _ (same_refl _) HL) as [R1 S1].
  rewrite (bind_ok _ _ _ _ _ R1). set (s1 := set_page (alter_at _ [0; 0]%nat _) _) in *.
  destruct (Hshow _ _ "none"%string _ S1 HN) as [R2 S2].
  rewrite (bind_ok _ _ _ _ _ R2). set (s2 := set_page (alter_at _ [0; 4]%nat _) _) in *.
  unfold Search. rewrite bind_assoc_run, gets_bind. cbv beta.
  pose proof (same_tags _ _ S2 "div"%string) as T2. cbn [page SearchResults] in T2. rewrite T2.
  destruct (search_rows_run w (getElementsByTagName "div" (page_of sd)) 0 s2) as (s3 & R3 & E3 & S3 & _).
  { apply NoDup_filter, NoDup_positions. }
  { intros p Hp. apply (div_at "div"). by rewrite T2. }
  rewrite bind_assoc_run, (bind_ok _ _ _ _ _ R3). clear R3.
  rewrite (filter_ext_in _ (hit w (page_of sd))) by (intros q _; apply (hit_same _ _ _ _ S2)).
  rewrite page_hits, Z.add_0_l. set (n := length (filter (entry_matches w) sd)).
  assert (same_but_display (SearchResults (page_of sd)) s3) as S3' by (by eapply same_trans).
  destruct (Hshow _ _ "none"%string _ S3' HS) as [R4 S4].
  rewrite bind_assoc_run, (bind_ok _ _ _ _ _ R4). set (s4 := set_page (alter_at _ [0; 3]%nat _) _) in *.
  set (v := if decide (filter (entry_matches w) sd = []) then "block"%string else "none"%string).
  destruct (Hshow _ _ v _ S4 HN) as [R5 S5]. set (s5 := set_page (alter_at _ [0; 4]%nat _) s4) in *.
  exists (set_matches (Z.of_nat n) s5). split.
  { rewrite bind_assoc_run, (bind_ok _ _ _ tt s5); [done |]. rewrite <- R5.
    unfold v, n. destruct (filter (entry_matches w) sd); cbn [length];
      [by rewrite (decide_True (P := [] = [])) |].
    rewrite decide_False by lia. by rewrite decide_False. }
  assert (∀ q, q ≠ [0; 3]%nat → q ≠ [0; 4]%nat →
    elem_at q (page s5) = elem_at q (page s3)) as E5.
  { intros q H3 H4. unfold s5, s4. cbn [page set_page SearchResults]. by rewrite !elem_at_alter_ne. }
  constructor; cbn [page lastMatchCount set_matches].
  - intros k entry Hk. rewrite E5, E3 by done.
    unfold s2, s1. cbn [page set_page SearchResults]. rewrite !elem_at_alter_ne by done.
    pose proof (page_row_at sd k entry [] Hk) as He. cbn [app] in He. rewrite He.
    rewrite decide_True; [done |]. apply list_elem_of_filter. split.
    + unfold has_tag. by rewrite He.
    + eapply elem_at_position, He.
  - done.
  - unfold s5. cbn [page set_page SearchResults]. rewrite elem_at_alter_eq. unfold s4. cbn [page set_page SearchResults]. rewrite elem_at_alter_ne by done.
    rewrite E3. unfold s2. cbn [page set_page SearchResults]. rewrite elem_at_alter_eq. unfold s1. cbn [page set_page SearchResults]. rewrite elem_at_alter_ne by done.
    by destruct (decide _).
  - unfold s5. cbn [page set_page SearchResults]. rewrite elem_at_alter_ne by done. unfold s4. cbn [page set_page SearchResults]. rewrite elem_at_alter_eq.
    rewrite E3. unfold s2, s1. cbn [page set_page SearchResults]. rewrite !elem_at_alter_ne by done.
    by destruct (decide _).
  - intros p. apply (same_elems _ _ S5).
  - intros q H0 H3 H4. rewrite E5, E3 by done. unfold s2, s1. cbn [page set_page SearchResults].
    by rewrite !elem_at_alter_ne.
  - intros i. apply (same_ids _ _ S5).
Qed.

(** Every item of an opened page is inside a row or below another node. *)
Lemma page_items_ok sd : items_ok (page_of sd).
Proof.
  intros index p Hp. apply getElementById_some in Hp as [Hid Hp]. unfold has_id in Hid.
  apply elem_of_positions in Hp. unfold row_of, parentNode.
  destruct p as [| k p] using rev_ind; [done |]. clear IHp. rewrite reverse_snoc.
  cbn [mbind option_bind]. rewrite reverse_involutive.
  destruct p as [| j p] using rev_ind.
  { destruct k as [| k]; [done |]. by destruct k. }
  clear IHp. rewrite reverse_snoc. cbn [mbind option_bind]. rewrite reverse_involutive.
  rewrite subtree_app in Hp. destruct Hp as [d Hp]. rewrite subtree_app in Hp.
  unfold elem_at. destruct (subtree p (page_of sd)) as [[e cs | t] |]; [by eexists | done | done].
Qed.

Lemma searched_items_ok w sd s : searched w sd s → items_ok (page s).
Proof.
  intros Hs index p Hp. rewrite (searched_ids _ _ _ Hs) in Hp.
  destruct (page_items_ok sd index p Hp) as [row Hrow]. unfold row_of in *.
  destruct (parentNode p) as [q |]; [cbn in * | done]. destruct (parentNode q) as [r |]; [cbn in * | done].
  pose proof (searched_elems _ _ _ Hs r) as He. rewrite Hrow in He.
  destruct (elem_at r (page s)); [by eexists | done].
Qed.
End Page.
