(* ===== verification/ResultsNav.v ===== *)
(** * Moving between the results

    Where the items of a results page are, and where [NavNext] and [NavPrev]
    go on a page that was searched. *)
From S2P Require Import Prelude JsString Dom SearchData SearchResults ResultsFacts ResultsPage.
Local Open Scope Z_scope.

Lemma child_id_item e c j : child_id e c ≠ item_id j.
Proof.
  unfold child_id, item_id. rewrite <- (assoc_L (++)). intros E%app_inv_head.
  apply (toString10_no_underscore j). rewrite <- E. apply elem_of_app. right. by left.
Qed.

(** ** The items *)
Definition item_position (k : nat) : position := [0; 1; k; 0; 0]%nat.

Definition no_item (e : elem) : Prop := ∀ j, el_id e ≠ item_id j.

Lemma no_item_plain e : el_id e = [] → no_item e.
Proof. by intros He j E%(f_equal head); rewrite He in E. Qed.

Lemma row_item_at k entry q x j :
  elem_at q (result_row k entry) = Some x → el_id x = item_id j → q = [0; 0]%nat ∧ j = Z.of_nat k.
Proof.
  intros Hx Hid. assert (∀ c l, all_elems no_item (child_link (Z.of_nat k) c l)) as Hchild.
  { intros c l. constructor; [| apply all_elems_nodes]. unfold no_item, set_link.
    case_decide; apply child_id_item. }
  assert (∃ a h second, all_elems no_item second ∧ el_id a = item_id (Z.of_nat k) ∧
    result_row k entry = Node (row_elem entry)
      [Node (setClassAttr "SREntry" (createElement "div")) [Node a (html_nodes h); second]])
    as (a & h & second & Hsecond & Ha & Hrow).
  { assert (∀ links, all_elems no_item (Node (setClassAttr "SRChildren" (createElement "div"))
      (imap (λ c l, child_link (Z.of_nat k) (Z.of_nat c) l) links))) as Hmany.
    { intros links. constructor; [by apply no_item_plain |]. apply Forall_lookup. intros c y Hy.
      rewrite list_lookup_imap in Hy. apply fmap_Some in Hy as (l & _ & ->). apply Hchild. }
    unfold result_row. destruct (e_links entry) as [| l [| l' links]];
      do 3 eexists; (split; [| split; [| reflexivity]]); try apply Hmany; try done.
    - constructor; [by apply no_item_plain | apply all_elems_nodes].
    - unfold set_link. by case_decide. }
  rewrite Hrow in Hx. destruct q as [| q0 q].
  { injection Hx as <-. by apply (f_equal head) in Hid. }
  rewrite elem_at_cons in Hx. destruct q0 as [| q0]; [| done]. cbn [child_nodes] in Hx.
  destruct q as [| q1 q].
  { injection Hx as <-. by apply (f_equal head) in Hid. }
  cbn [lookup list_lookup mbind option_bind] in Hx. rewrite elem_at_cons in Hx. cbn [child_nodes] in Hx.
  destruct q1 as [| [| q1]]; [| | done].
  - destruct q as [| q2 q].
    + injection Hx as <-. rewrite Ha in Hid. by apply item_id_inj in Hid as ->.
    + cbn [lookup list_lookup mbind option_bind] in Hx. rewrite elem_at_cons in Hx. cbn [child_nodes] in Hx.
      unfold html_nodes in Hx. case_decide; [done |]. destruct q2; [by destruct q | done].
  - cbn [lookup list_lookup mbind option_bind] in Hx.
    by destruct (all_elems_at _ _ _ _ Hsecond Hx j).
Qed.

Lemma page_item_at sd p x j :
  elem_at p (page_of sd) = Some x → el_id x = item_id j →
  ∃ k, (k < length sd)%nat ∧ p = item_position k ∧ j = Z.of_nat k.
Proof.
  intros Hx Hid.
  assert (p ∈ positions (page_of sd)) as Hin by (by eapply elem_at_position).
  unfold page_of in Hin. rewrite positions_page in Hin. fold (page_of sd) in Hin.
  rewrite !elem_of_app in Hin. destruct Hin as [Hin | [Hin | Hin]].
  - repeat (apply elem_of_cons in Hin as [-> | Hin];
      [first [by injection Hx as <-; apply (f_equal head) in Hid | discriminate Hx] |]).
    by apply elem_of_nil in Hin.
  - apply list_elem_of_fmap in Hin as (q & -> & _). destruct q as [| k q].
    { rewrite page_rows_at in Hx. injection Hx as <-. by apply (f_equal head) in Hid. }
    change ([0; 1]%nat ++ k :: q) with ([0; 1; k]%nat ++ q) in *.
    destruct (sd !! k) as [entry |] eqn:Hk.
    + rewrite (page_row_at _ _ _ _ Hk) in Hx. destruct (row_item_at _ _ _ _ _ Hx Hid) as [-> ->].
      exists k. split; [by eapply lookup_lt_Some | done].
    + change ([0; 1; k]%nat ++ q) with ([0; 1]%nat ++ k :: q) in Hx.
      rewrite page_rows_at, elem_at_cons in Hx. cbn [child_nodes rows_node] in Hx.
      by rewrite list_lookup_imap, Hk in Hx.
  - repeat (apply elem_of_cons in Hin as [-> | Hin];
      [first [by injection Hx as <-; apply (f_equal head) in Hid | discriminate Hx] |]).
    by apply elem_of_nil in Hin.
Qed.

(** The item of an index, if there is an entry with it. *)
Lemma page_item sd j :
  getElementById (item_id j) (page_of sd) =
    if decide (0 ≤ j < Z.of_nat (length sd)) then Some (item_position (Z.to_nat j)) else None.
Proof.
  destruct (getElementById (item_id j) (page_of sd)) as [p |] eqn:Hp.
  - apply getElementById_some in Hp as [Hid _]. unfold has_id in Hid.
    destruct (elem_at p (page_of sd)) as [x |] eqn:Hx; [| done]. injection Hid as Hid.
    destruct (page_item_at _ _ _ _ Hx Hid) as (k & Hk & -> & ->).
    rewrite decide_True by lia. by rewrite Nat2Z.id.
  - case_decide as Hj; [| done]. exfalso.
    destruct (lookup_lt_is_Some_2 sd (Z.to_nat j)) as [entry He]; [lia |].
    assert (∃ x, elem_at ([0; 1; Z.to_nat j]%nat ++ [0; 0]%nat) (page_of sd) = Some x ∧
        el_id x = item_id (Z.of_nat (Z.to_nat j)))
      as (x & Hx & Hid).
    { rewrite (page_row_at _ _ _ _ He).
      unfold result_row, set_link. destruct (e_links entry) as [| l [| l' links]]; cbn.
      - by eexists.
      - case_decide; by eexists.
      - by eexists. }
    rewrite Z2Nat.id in Hid by lia.
    eapply getElementById_none; [exact Hp |]. rewrite Hx. cbn. by rewrite Hid.
Qed.

(** ** A searched page *)
Section Searched.
Context `{Unicode} (w : jstr) (sd : list SearchEntry) (s : results).
Hypothesis Hs : searched w sd s.

Lemma searched_item j :
  getElementById (item_id j) (page s) =
    if decide (0 ≤ j < Z.of_nat (length sd)) then Some (item_position (Z.to_nat j)) else None.
Proof. rewrite (searched_ids _ _ _ Hs). apply page_item. Qed.

Lemma searched_row k e : sd !! k = Some e →
  row_of (page s) (item_position k) =
    Some (set_display (if decide (entry_matches w e) then "block" else "none") (row_elem e)).
Proof. intros Hk. change (row_of (page s) (item_position k)) with (elem_at [0; 1; k]%nat (page s)). by apply (searched_rows _ _ _ Hs). Qed.

Lemma searched_hidden j e : 0 ≤ j → sd !! Z.to_nat j = Some e →
  item_hidden (page s) j → ¬ entry_matches w e.
Proof.
  intros Hj He (p & row & Hp & Hrow & Hd) Hm. rewrite searched_item, decide_True in Hp.
  2: { split; [done |]. apply lookup_lt_Some in He. lia. }
  injection Hp as <-. rewrite (searched_row _ _ He), decide_True in Hrow by done.
  injection Hrow as <-. by apply Hd.
Qed.

(** What the loops find is the next entry that matches, in their direction. *)
Lemma searched_nav step index r :
  step = 1 ∨ step = -1 → nav_finds (page s) step index r →
  match r with
  | Some p => ∃ k e, p = item_position k ∧ sd !! k = Some e ∧ entry_matches w e ∧
      0 ≤ step * (Z.of_nat k - index) ∧
      ∀ j x, 0 ≤ step * (Z.of_nat j - index) < step * (Z.of_nat k - index) →
        sd !! j = Some x → ¬ entry_matches w x
  | None => 0 ≤ index < Z.of_nat (length sd) →
      ∀ j x, 0 ≤ step * (Z.of_nat j - index) → sd !! j = Some x → ¬ entry_matches w x
  end.
Proof.
  intros Hstep (n & Hn & Hr & Hv). rewrite searched_item in Hr.
  assert (∀ j x, 0 ≤ step * (Z.of_nat j - index) < Z.of_nat n → sd !! j = Some x → ¬ entry_matches w x)
    as Hbefore.
  { intros j x Hj Hx. apply (searched_hidden (Z.of_nat j) x); [lia | by rewrite Nat2Z.id |].
    replace (Z.of_nat j) with (index + step * Z.of_nat (Z.to_nat (step * (Z.of_nat j - index)))).
    - apply Hn. lia.
    - rewrite Z2Nat.id by lia. destruct Hstep as [-> | ->]; lia. }
  case_decide as Hrange; subst r.
  - set (k := Z.to_nat (index + step * Z.of_nat n)) in *.
    destruct (lookup_lt_is_Some_2 sd k) as [e He]; [lia |].
    destruct (Hv _ eq_refl) as (row & Hrow & Hd). rewrite (searched_row _ _ He) in Hrow.
    injection Hrow as <-. exists k, e. split_and!; [done | done | | | ].
    + cbn in Hd. by destruct (decide (entry_matches w e)).
    + destruct Hstep as [-> | ->]; lia.
    + intros j x Hj. apply Hbefore. destruct Hstep as [-> | ->]; lia.
  - intros Hindex j x Hj Hx. apply (Hbefore j x); [| done]. apply lookup_lt_Some in Hx.
    destruct Hstep as [-> | ->]; lia.
Qed.

Lemma searched_nav_run step index :
  step = 1 ∨ step = -1 →
  ∃ r, nav_loop (S (length (positions (page s)))) step index s = Ok (r, s) ∧
    nav_finds (page s) step index r.
Proof. intros Hstep. apply nav_run; [lia | by eapply searched_items_ok]. Qed.
End Searched.

(** ** The key Down *)
Lemma page_display sd p e : elem_at p (page_of sd) = Some e → display e = EmptyString.
Proof.
  intros He. assert (p ∈ positions (page_of sd)) as Hin by (by eapply elem_at_position).
  unfold page_of in Hin. rewrite positions_page in Hin. fold (page_of sd) in Hin.
  rewrite !elem_of_app in Hin. destruct Hin as [Hin | [Hin | Hin]].
  - repeat (apply elem_of_cons in Hin as [-> | Hin]; [first [by injection He as <- | discriminate He] |]).
    by apply elem_of_nil in Hin.
  - apply list_elem_of_fmap in Hin as (q & -> & _).
    destruct (page_inner_at _ _ _ He) as [-> | [(k & entry & -> & _ & ->) | Hinner]]; [| done | apply Hinner].
    rewrite page_rows_at in He. by injection He as <-.
  - repeat (apply elem_of_cons in Hin as [-> | Hin]; [first [by injection He as <- | discriminate He] |]).
    by apply elem_of_nil in Hin.
Qed.

Section Down.
Context `{Unicode} (w : jstr) (sd : list SearchEntry) (s : results).
Hypothesis Hs : searched w sd s.

(** No children are displayed on a page that was just opened. *)
Lemma searched_children p e :
  elem_at p (page s) = Some e → className e = js "SRChildren" → display e = EmptyString.
Proof.
  intros He Hc. pose proof (searched_elems _ _ _ Hs p) as Hp. rewrite He in Hp.
  destruct (elem_at p (page_of sd)) as [e0 |] eqn:He0; [| done].
  assert (className e0 = js "SRChildren") as Hc0.
  { injection Hp as Hp. destruct e, e0. cbn in *. by simplify_eq. }
  assert (∀ k, p = [0; k]%nat → (k = 0 ∨ k = 3 ∨ k = 4)%nat → False) as Hstatus.
  { intros k -> Hk. destruct Hk as [-> | [-> | ->]]; by injection He0 as <-. }
  rewrite (searched_others _ _ _ Hs p), He0 in He; [| intros E; apply (Hstatus _ E); auto..].
  assert (e = e0) as ->; [| by eapply page_display].
  cbn in He. injection He as <-. case_decide; [| done]. unfold mark. by rewrite Hc0.
Qed.

Lemma row_children_hidden i p :
  getElementById i (page s) = Some p →
  ∃ r, FindChildElement i s = Ok (r, s) ∧ shown r s = Ok (false, s).
Proof.
  intros Hp. assert (is_Some (subtree p (page s))) as [root Hroot].
  { apply getElementById_some in Hp as [_ Hp]. by apply elem_of_positions. }
  rewrite (FindChildElement_run _ _ _ _ Hp Hroot), first_filter. eexists. split; [done |].
  destruct (filter _ _) as [| q l] eqn:Hf; [done |]. cbn.
  assert (q ∈ q :: l) as Hq by left. rewrite <- Hf in Hq. apply list_elem_of_filter in Hq as [Hq _].
  unfold children_at in Hq. destruct (subtree q root) as [[e cs |] |] eqn:Hd; [| done..].
  cbn in Hq. apply bool_decide_eq_true in Hq as [_ Hclass].
  assert (elem_at (p ++ q) (page s) = Some e) as He.
  { rewrite elem_at_app, Hroot. cbn. unfold elem_at. by rewrite Hd. }
  unfold element_of. rewrite (bind_ok _ _ s e s).
  - by rewrite (searched_children _ _ He Hclass).
  - rewrite gets_bind, He. done.
Qed.

(** Down goes to the next match. *)
Lemma nav_down_run (k : nat) :
  (k < length sd)%nat →
  ∃ r, nav_finds (page s) 1 (Z.of_nat k + 1) r ∧
    nav_down (Z.of_nat k) s = Ok (tt, match r with Some p => add_effect (Focus p) s | None => s end).
Proof.
  intros Hk. destruct (lookup_lt_is_Some_2 sd k Hk) as [e He].
  assert (getElementById (item_id (Z.of_nat k)) (page s) = Some (item_position k)) as Hitem.
  { rewrite (searched_item w sd s Hs), decide_True by lia. by rewrite Nat2Z.id. }
  pose proof (searched_row w sd s Hs k e He) as Hrow.
  assert (is_Some (getElementById (js "SR_" ++ js (e_id e)) (page s))) as [p Hp].
  { apply not_eq_None_Some. intros Hn.
    eapply (getElementById_none _ _ [0; 1; k]%nat); [exact Hn |].
    by rewrite (searched_rows _ _ _ Hs k e He). }
  destruct (row_children_hidden _ _ Hp) as (r0 & Hfind & Hshown).
  destruct (searched_nav_run w sd s Hs 1 (Z.of_nat k + 1)) as (r & Hnav & Hr); [by left |].
  exists r. split; [done |]. unfold nav_down, byId. rewrite gets_bind, Hitem. cbn [defined].
  rewrite ret_bind, (bind_ok _ _ _ _ _ (grandparent_run _ _ _ Hrow)).
  cbn [el_id set_display row_elem setClassAttr set_class set_id].
  rewrite (bind_ok _ _ _ _ _ Hfind), (bind_ok _ _ _ _ _ Hshown), ret_bind.
  unfold NavNext, nav_fuel. rewrite (bind_ok _ _ s r s).
  - by destruct r.
  - rewrite gets_bind. exact Hnav.
Qed.
End Down.

Lemma searched_key `{Unicode} w sd s key b : searched w sd s → searched w sd (set_key key b s).
Proof. intros []. by constructor. Qed.
