(* ===== verification/SearchBox.v ===== *)
(** * The search box (src/docs/MQTTClient/html/search/search.js)

    The object [SearchBox] of a documentation page: the search field, the menu
    of the sections, the timers, and the frame the results are opened in.  Its
    methods are the handlers of the events of the page; an exception is
    [Err TypeError]. *)
From S2P Require Import Prelude JsString SearchData SearchResults.
Local Open Scope Z_scope.

(** ** The page around the box *)

(** An element's size, and the offsets of the element and of its offset
    parents below the body. *)
Record layout := mkLayout {
  offsetWidth : Z;
  offsetHeight : Z;
  offsets : list (Z * Z);
}.

(** The loops over [offsetParent]. *)
Fixpoint sum_left (x : Z) (l : list (Z * Z)) : Z :=
  match l with [] => x | (offsetLeft, _) :: l => sum_left (x + offsetLeft) l end.
Fixpoint sum_top (y : Z) (l : list (Z * Z)) : Z :=
  match l with [] => y | (_, offsetTop) :: l => sum_top (y + offsetTop) l end.
Definition getXPos (item : layout) : Z :=
  if decide (offsetWidth item = 0) then 0 else sum_left 0 (offsets item).
Definition getYPos (item : layout) : Z :=
  if decide (offsetWidth item = 0) then 0 else sum_top 0 (offsets item).

(** What the box is made with: the arguments of its constructor, the tables of
    the site, and the layout of the elements it measures. *)
Record box_config := mkConfig {
  resultsPath : jstr;
  insideFrame : bool;
  searchLabel : jstr;
  extension : jstr;
  indexSectionsWithContent : list string;
  indexSectionNames : list string;
  indexSectionLabels : list string;
  select_layout : layout;        (* MSearchSelect *)
  window_layout : layout;        (* MSearchSelectWindow *)
  box_layout : layout;           (* MSearchBox *)
  popup_layout : layout;         (* MSearchResults *)
  clientWidth : Z;               (* document.body *)
}.

(** ** State *)
Inductive timer_action := RunSearch | RunCloseSelection.
#[export] Instance timer_action_eq_dec : EqDecision timer_action.
Proof. solve_decision. Defined.

Record placement := mkPlacement { p_left : Z; p_top : Z }.

Record searchBox := mkBox {
  keyTimeout : Z;
  lastSearchValue : jstr;
  lastResultsPage : jstr;
  hideTimeout : Z;
  searchIndex : Z;
  searchActive : bool;
  (* the elements: the value of the field, the class of the box, the displays
     of the results window, the close button and the section menu, and the
     marks of the menu's items *)
  field : jstr;
  boxClass : string;
  popup : string;
  close_button : string;
  select_window : string;
  marks : list string;
  select_place : option placement;
  popup_place : option placement;
  popup_width : option Z;
  (* the window: timers with their delays, and what the results frame shows *)
  timers : list (Z * Z * timer_action);
  next_timer : Z;
  location : option jstr;
  take_focus : nat;               (* messages posted to the results frame *)
}.

Notation B := (M searchBox).

Definition set_timeouts (k h : Z) s : searchBox :=
  mkBox k (lastSearchValue s) (lastResultsPage s) h (searchIndex s) (searchActive s) (field s)
    (boxClass s) (popup s) (close_button s) (select_window s) (marks s) (select_place s)
    (popup_place s) (popup_width s) (timers s) (next_timer s) (location s) (take_focus s).
Definition set_last (v p : jstr) s : searchBox :=
  mkBox (keyTimeout s) v p (hideTimeout s) (searchIndex s) (searchActive s) (field s)
    (boxClass s) (popup s) (close_button s) (select_window s) (marks s) (select_place s)
    (popup_place s) (popup_width s) (timers s) (next_timer s) (location s) (take_focus s).
Definition set_index (i : Z) (m : list string) s : searchBox :=
  mkBox (keyTimeout s) (lastSearchValue s) (lastResultsPage s) (hideTimeout s) i (searchActive s)
    (field s) (boxClass s) (popup s) (close_button s) (select_window s) m (select_place s)
    (popup_place s) (popup_width s) (timers s) (next_timer s) (location s) (take_focus s).
Definition set_field (active : bool) (v : jstr) (c : string) s : searchBox :=
  mkBox (keyTimeout s) (lastSearchValue s) (lastResultsPage s) (hideTimeout s) (searchIndex s)
    active v c (popup s) (close_button s) (select_window s) (marks s) (select_place s)
    (popup_place s) (popup_width s) (timers s) (next_timer s) (location s) (take_focus s).
Definition set_windows (p c w : string) s : searchBox :=
  mkBox (keyTimeout s) (lastSearchValue s) (lastResultsPage s) (hideTimeout s) (searchIndex s)
    (searchActive s) (field s) (boxClass s) p c w (marks s) (select_place s)
    (popup_place s) (popup_width s) (timers s) (next_timer s) (location s) (take_focus s).
Definition set_places (sp pp : option placement) (w : option Z) s : searchBox :=
  mkBox (keyTimeout s) (lastSearchValue s) (lastResultsPage s) (hideTimeout s) (searchIndex s)
    (searchActive s) (field s) (boxClass s) (popup s) (close_button s) (select_window s) (marks s)
    sp pp w (timers s) (next_timer s) (location s) (take_focus s).
Definition set_timers (l : list (Z * Z * timer_action)) (n : Z) s : searchBox :=
  mkBox (keyTimeout s) (lastSearchValue s) (lastResultsPage s) (hideTimeout s) (searchIndex s)
    (searchActive s) (field s) (boxClass s) (popup s) (close_button s) (select_window s) (marks s)
    (select_place s) (popup_place s) (popup_width s) l n (location s) (take_focus s).
Definition set_location (u : jstr) s : searchBox :=
  mkBox (keyTimeout s) (lastSearchValue s) (lastResultsPage s) (hideTimeout s) (searchIndex s)
    (searchActive s) (field s) (boxClass s) (popup s) (close_button s) (select_window s) (marks s)
    (select_place s) (popup_place s) (popup_width s) (timers s) (next_timer s) (Some u) (take_focus s).
Definition post_focus s : searchBox :=
  mkBox (keyTimeout s) (lastSearchValue s) (lastResultsPage s) (hideTimeout s) (searchIndex s)
    (searchActive s) (field s) (boxClass s) (popup s) (close_button s) (select_window s) (marks s)
    (select_place s) (popup_place s) (popup_width s) (timers s) (next_timer s) (location s)
    (S (take_focus s)).

(** [setTimeout], [clearTimeout]: a new timer has an id that was never used. *)
Definition setTimeout (action : timer_action) (delay : Z) : B Z :=
  n ← gets next_timer;
  _ ← modify (λ s, set_timers ((n, delay, action) :: timers s) (n + 1) s);
  mret n.
Definition timer_id (t : Z * Z * timer_action) : Z := fst (fst t).
Definition clearTimeout (id : Z) : B unit :=
  modify (λ s, set_timers (filter (λ t, timer_id t ≠ id) (timers s)) (next_timer s) s).

Section SearchBox.
Context `{Unicode} (cfg : box_config).

Definition keyTimeoutLength : Z := 500.
Definition closeSelectionTimeout : Z := 300.

(** [new SearchBox(...)] on the page as it was loaded, with the label in the
    field. *)
Definition newSearchBox : searchBox :=
  mkBox 0 [] [] 0 0 false (searchLabel cfg) "MSearchBoxInactive" EmptyString EmptyString EmptyString
    [] None None None [] 1 None 0.

(** ** Activation *)
Definition Activate (isActive : bool) : B unit :=
  s ← get;
  if isActive || bool_decide (popup s = "block"%string) then
    if decide (field s = searchLabel cfg)
    then modify (set_field true [] "MSearchBoxActive")
    else modify (set_field (searchActive s) (field s) "MSearchBoxActive")
  else
    _ ← modify (set_field false (searchLabel cfg) "MSearchBoxInactive");
    modify (set_last [] []).

Definition OnSearchFieldFocus (isActive : bool) : B unit := Activate isActive.

(** [DOMSearchField().blur()] and [.focus()]: the page's handlers of the two
    events call [OnSearchFieldFocus]. *)
Definition blur_field : B unit := OnSearchFieldFocus false.
Definition focus_field : B unit := OnSearchFieldFocus true.

Definition hide_results : B unit := modify (λ s, set_windows "none" "none" (select_window s) s).
Definition CloseResultsWindow : B unit := _ ← hide_results; Activate false.
Definition CloseSelectionWindow : B unit :=
  modify (λ s, set_windows (popup s) (close_button s) "none" s).

(** ** The section menu *)
Definition OnSearchSelectShow : B bool :=
  let searchField := select_layout cfg in
  let left := getXPos searchField in
  let top := getYPos searchField in
  let place :=
    if insideFrame cfg
    then mkPlacement (left + (offsetWidth searchField + 6) - offsetWidth (window_layout cfg))
           (top + offsetHeight searchField)
    else mkPlacement left (top + offsetHeight searchField) in
  _ ← modify (λ s, set_windows (popup s) (close_button s) "block" s);
  _ ← modify (λ s, set_places (Some place) (popup_place s) (popup_width s) s);
  h ← gets hideTimeout;
  _ ← (if decide (h ≠ 0) then
         _ ← clearTimeout h; modify (λ s, set_timeouts (keyTimeout s) 0 s)
       else mret tt);
  mret false.

Definition OnSearchSelectHide : B unit :=
  t ← setTimeout RunCloseSelection closeSelectionTimeout;
  modify (λ s, set_timeouts (keyTimeout s) t s).

Definition SelectItemCount : B Z := gets (λ s, Z.of_nat (length (marks s))).

Definition bullet : string := "&#8226;".
Definition no_bullet : string := "&#160;".
Definition marks_for (id : Z) (n : nat) : list string :=
  (λ j : nat, if decide (Z.of_nat j = id) then bullet else no_bullet) <$> seq 0 n.

Definition SelectItemSet (id : Z) : B unit :=
  modify (λ s, set_index (searchIndex s) (marks_for id (length (marks s))) s).

(** ** Search *)
Definition section {A} (l : list A) (i : Z) : option A := if decide (0 ≤ i) then l !! Z.to_nat i else None.

(** The character that selects the page: the first one.  The source takes two
    if the first is a surrogate and [searchValue > 1]; that compares the string
    itself with the number, and a string that starts with a surrogate is not a
    numeral, so it is never so. *)
Definition index_char (searchValue : jstr) : jstr := toLowerCase (take 1 searchValue).

Definition page_name (name : option string) (idx : Z) : jstr :=
  js (default "undefined"%string name) ++ js "_" ++ toString16 idx.

(** The page of the results, and whether there is one. *)
Definition results_page_of (content : string) (name : option string) (searchValue : jstr) : jstr * bool :=
  let idx := indexOf (index_char searchValue) (js content) in
  if decide (idx ≠ -1)
  then (resultsPath cfg ++ js "/" ++ page_name name idx ++ extension cfg, true)
  else (resultsPath cfg ++ js "/nomatches" ++ extension cfg, false).

Definition show_popup : B unit :=
  s ← get;
  if decide (popup s = "block"%string) then mret tt else
  _ ← modify (λ s, set_windows "block" "inline-block" (select_window s) s);
  if insideFrame cfg then
    modify (λ s, set_places (select_place s) (popup_place s) (Some (clientWidth cfg - 8)) s)
  else
    let left := getXPos (box_layout cfg) + 150 - offsetWidth (popup_layout cfg) in
    let top := getYPos (box_layout cfg) + 20 in
    modify (λ s, set_places (select_place s) (Some (mkPlacement left top)) (popup_width s) s).

Definition box_Search : B unit :=
  _ ← modify (λ s, set_timeouts 0 (hideTimeout s) s);
  s ← get;
  let searchValue := strip_leading (field s) in
  content ← defined (section (indexSectionsWithContent cfg) (searchIndex s));
  let '(resultsPage, found) :=
    results_page_of content (section (indexSectionNames cfg) (searchIndex s)) searchValue in
  let withSearch := if found : bool then resultsPage ++ js "?" ++ escape searchValue else resultsPage in
  _ ← modify (set_location withSearch);
  _ ← show_popup;
  modify (set_last searchValue resultsPage).

Definition OnSelectItem (id : Z) : B unit :=
  _ ← modify (λ s, set_index id (marks s) s);
  _ ← SelectItemSet id;
  s ← get;
  if decide (strip_all (field s) ≠ [] ∧ searchActive s = true) then box_Search else mret tt.

Definition OnSearchSelectKey (key : Z) : B bool :=
  s ← get;
  count ← SelectItemCount;
  _ ← (if decide (key = 40 ∧ searchIndex s < count) then
         OnSelectItem (searchIndex s + 1)
       else if decide (key = 38 ∧ 0 < searchIndex s) then
         OnSelectItem (searchIndex s - 1)
       else if decide (key = 13 ∨ key = 27) then
         _ ← OnSelectItem (searchIndex s);
         _ ← CloseSelectionWindow;
         focus_field
       else mret tt);
  mret false.

(** ** The search field *)
Definition OnSearchFieldChange (key : Z) (shiftKey : bool) : B unit :=
  s ← get;
  _ ← (if decide (keyTimeout s ≠ 0) then
         _ ← clearTimeout (keyTimeout s); modify (λ s, set_timeouts 0 (hideTimeout s) s)
       else mret tt);
  if decide ((key = 40 ∨ key = 13) ∧ shiftKey = true) then
    _ ← OnSearchSelectShow;
    s ← get;
    (* the focus moves to the first item *)
    if decide (marks s = []) then mret tt else blur_field
  else if decide (key = 27) then
    _ ← blur_field;
    _ ← hide_results;
    _ ← modify (λ s, set_last [] (lastResultsPage s) s);
    Activate false
  else
    _ ← (if decide (key = 40 ∨ key = 13) then modify post_focus else mret tt);
    s ← get;
    let searchValue := strip_all (field s) in
    if decide (searchValue ≠ lastSearchValue s) then
      if decide (searchValue ≠ []) then
        t ← setTimeout RunSearch keyTimeoutLength;
        modify (λ s, set_timeouts t (hideTimeout s) s)
      else
        _ ← hide_results; modify (λ s, set_last [] (lastResultsPage s) s)
    else mret tt.

(** [init_search]: an item for each section. *)
Definition init_search : B unit :=
  _ ← modify (λ s, set_index (searchIndex s)
    (marks s ++ ((λ _, no_bullet) <$> indexSectionLabels cfg)) s);
  OnSelectItem 0.

(** ** Events *)
Inductive box_event :=
  | FieldFocus (isActive : bool)
  | FieldInput (value : jstr)        (* the user edits the field *)
  | FieldKey (key : Z) (shiftKey : bool)
  | SelectShow
  | SelectHide
  | SelectItem (id : Z)
  | SelectKey (key : Z)
  | CloseClick
  | TimerFires (id : Z).

Definition run_action (a : timer_action) : B unit :=
  match a with RunSearch => box_Search | RunCloseSelection => CloseSelectionWindow end.

Definition run_event (e : box_event) : B unit :=
  match e with
  | FieldFocus b => OnSearchFieldFocus b
  | FieldInput v => modify (λ s, set_field (searchActive s) v (boxClass s) s)
  | FieldKey key shiftKey => OnSearchFieldChange key shiftKey
  | SelectShow => _ ← OnSearchSelectShow; mret tt
  | SelectHide => OnSearchSelectHide
  | SelectItem id => OnSelectItem id
  | SelectKey key => _ ← OnSearchSelectKey key; mret tt
  | CloseClick => CloseResultsWindow
  | TimerFires id =>
    l ← gets timers;
    match list_find (λ t, timer_id t = id) l with
    | Some (_, (_, a)) =>
      _ ← clearTimeout id; run_action a
    | None => mret tt
    end
  end.

Fixpoint run_events (es : list box_event) : B unit :=
  match es with [] => mret tt | e :: es => _ ← run_event e; run_events es end.
End SearchBox.
