(* ===== verification/BoxFacts.v ===== *)
(** * Facts of the search box

    The invariant of the box, and that every handler keeps it. *)
From S2P Require Import Prelude JsString SearchData SearchResults SearchBox.
Local Open Scope Z_scope.

(** The tables have the same sections, and there is one. *)
Record config_ok (cfg : box_config) : Prop := {
  config_content : length (indexSectionsWithContent cfg) = length (indexSectionLabels cfg);
  config_names : length (indexSectionNames cfg) = length (indexSectionLabels cfg);
  config_some : (0 < length (indexSectionLabels cfg))%nat;
}.

Section Box.
Context `{Unicode} (cfg : box_config).
Notation n := (length (indexSectionLabels cfg)).
Implicit Types (s : searchBox).

(** The state between two events, but for the selected section: the results
    window and its close button are shown together, and the timer the box
    remembers is pending. *)
Record box_frame s : Prop := {
  frame_windows : popup s = "block"%string ↔ close_button s = "inline-block"%string;
  frame_timer : keyTimeout s ≠ 0 → (keyTimeout s, keyTimeoutLength, RunSearch) ∈ timers s;
  frame_ids : NoDup (timer_id <$> timers s);
  frame_fresh : Forall (λ t, 0 < timer_id t < next_timer s) (timers s);
  frame_next : 0 < next_timer s;
  frame_hide : hideTimeout s < next_timer s;
  frame_distinct : hideTimeout s ≠ 0 → keyTimeout s ≠ hideTimeout s;
}.

(** One section is selected, and its item of the menu is marked. *)
Record box_section (i : Z) s : Prop := {
  section_index : searchIndex s = i;
  section_marks : marks s = marks_for i n;
}.

Record box_ok s : Prop := {
  ok_frame : box_frame s;
  ok_section : box_section (searchIndex s) s;
  ok_range : 0 ≤ searchIndex s < Z.of_nat n;
}.

(** Handlers that keep the frame and do not touch the selection. *)
Definition keeps {A} (m : B A) : Prop := ∀ s, box_frame s →
  wp m (λ _ s', box_frame s' ∧ searchIndex s' = searchIndex s ∧ marks s' = marks s) s.

Lemma box_keeps_ret {A} (a : A) : keeps (mret a).
Proof. intros s Hs. by apply wp_ret. Qed.

Lemma box_keeps_bind {A C} (m : B A) (k : A → B C) : keeps m → (∀ a, keeps (k a)) → keeps (m ≫= k).
Proof.
  intros Hm Hk s Hs. apply wp_bind. eapply wp_mono; [by apply Hm |].
  intros a s' (Hs' & E1 & E2). eapply wp_mono; [by apply Hk |].
  intros b s'' (Hs'' & F1 & F2). split_and!; [done | congruence | congruence].
Qed.

Lemma keeps_gets {A} (f : searchBox → A) : keeps (gets f).
Proof. intros s Hs. by apply wp_gets. Qed.

Lemma keeps_get : keeps get.
Proof. intros s Hs. done. Qed.

(** Modifications of parts the frame does not speak of. *)
Lemma keeps_modify f :
  (∀ s, box_frame s → box_frame (f s) ∧ searchIndex (f s) = searchIndex s ∧ marks (f s) = marks s) →
  keeps (modify f).
Proof. intros Hf s Hs. apply wp_modify. by apply Hf. Qed.

Lemma keeps_field a v c : keeps (modify (set_field a v c)).
Proof. apply keeps_modify. intros s []. split_and!; first [done | by constructor]. Qed.

Lemma keeps_last v p : keeps (modify (set_last v p)).
Proof. apply keeps_modify. intros s []. split_and!; first [done | by constructor]. Qed.

Lemma keeps_last' v : keeps (modify (λ s, set_last v (lastResultsPage s) s)).
Proof. apply keeps_modify. intros s []. split_and!; first [done | by constructor]. Qed.

Lemma keeps_location u : keeps (modify (set_location u)).
Proof. apply keeps_modify. intros s []. split_and!; first [done | by constructor]. Qed.

Lemma keeps_post : keeps (modify post_focus).
Proof. apply keeps_modify. intros s []. split_and!; first [done | by constructor]. Qed.

Lemma keeps_places p : keeps (modify (λ s, set_places (Some p) (popup_place s) (popup_width s) s)).
Proof. apply keeps_modify. intros s []. split_and!; first [done | by constructor]. Qed.

Lemma keeps_hide_results : keeps hide_results.
Proof. apply keeps_modify. intros s []. split_and!; first [done | by constructor]. Qed.

Lemma keeps_select_window w : keeps (modify (λ s, set_windows (popup s) (close_button s) w s)).
Proof. apply keeps_modify. intros s []. split_and!; first [done | by constructor]. Qed.

Lemma frame_no_key s : box_frame s → box_frame (set_timeouts 0 (hideTimeout s) s).
Proof. intros []. constructor; cbn; first [done | by intros ? []]. Qed.

Lemma keeps_no_key_timer : keeps (modify (λ s, set_timeouts 0 (hideTimeout s) s)).
Proof. apply keeps_modify. intros s Hs. split_and!; [by apply frame_no_key | done | done]. Qed.

Lemma keeps_no_hide_timer : keeps (modify (λ s, set_timeouts (keyTimeout s) 0 s)).
Proof. apply keeps_modify. intros s []. split_and!; first [done | by constructor]. Qed.

#[local] Hint Resolve box_keeps_ret keeps_gets keeps_get keeps_field keeps_last keeps_last'
  keeps_location keeps_post keeps_places keeps_hide_results keeps_select_window
  keeps_no_key_timer keeps_no_hide_timer : paho.

(** Runs through a handler that is made of such steps. *)
Ltac keep :=
  repeat first
    [ solve [auto with paho]
    | apply box_keeps_bind; [| intros ?]
    | progress cbv zeta
    | case_decide
    | case_match ].

Lemma keeps_Activate b : keeps (Activate cfg b).
Proof. unfold Activate. keep. Qed.
#[local] Hint Resolve keeps_Activate : paho.

Lemma keeps_close : keeps (CloseResultsWindow cfg).
Proof. unfold CloseResultsWindow. keep. Qed.

Lemma keeps_show_popup : keeps (show_popup cfg).
Proof.
  unfold show_popup. intros s Hs. apply wp_bind. cbn.
  destruct (decide (popup s = "block"%string)); [by apply wp_ret |].
  apply wp_bind, wp_modify. destruct Hs as [H1 H2 H3 H4 H5 H6 H7].
  destruct (insideFrame cfg); apply wp_modify; (split_and!; [| done | done]); by constructor.
Qed.

(** A timer that is stopped: the other timers stay. *)
Lemma filter_ids (P : Z * Z * timer_action → Prop) `{!∀ t, Decision (P t)} l :
  NoDup (timer_id <$> l) → NoDup (timer_id <$> filter P l).
Proof. intros Hl. eapply sublist_NoDup; [exact Hl |]. apply fmap_sublist, sublist_filter. Qed.

Lemma frame_clear id s :
  box_frame s → keyTimeout s ≠ id →
  box_frame (set_timers (filter (λ t, timer_id t ≠ id) (timers s)) (next_timer s) s).
Proof.
  intros [H1 H2 H3 H4 H5 H6 H7] Hid. constructor; cbn; [done | | | | done | done | done].
  - intros Hk. apply list_elem_of_filter. split; [done | by apply H2].
  - by apply filter_ids.
  - apply Forall_forall. intros t [_ Ht]%list_elem_of_filter. rewrite Forall_forall in H4. by apply H4.
Qed.

Lemma frame_set delay action s :
  box_frame s → let id := next_timer s in
  box_frame (set_timers ((id, delay, action) :: timers s) (id + 1) s).
Proof.
  intros [H1 H2 H3 H4 H5 H6 H7] id. constructor; cbn; [done | | | | lia | lia | done].
  - intros Hk. right. by apply H2.
  - constructor; [| done]. intros Hin. apply list_elem_of_fmap in Hin as (t & Ht & Hin).
    rewrite Forall_forall in H4. specialize (H4 t Hin). cbn in Ht. unfold id in *. lia.
  - constructor; [cbn; lia |]. eapply Forall_impl; [exact H4 |]. cbn. unfold id. lia.
Qed.
Lemma stop_hide s : box_frame s →
  wp (if decide (hideTimeout s ≠ 0) then
        _ ← clearTimeout (hideTimeout s); modify (λ s, set_timeouts (keyTimeout s) 0 s)
      else mret tt)
    (λ _ s', box_frame s' ∧ searchIndex s' = searchIndex s ∧ marks s' = marks s) s.
Proof.
  intros Hs. destruct (decide (hideTimeout s ≠ 0)) as [Hh |]; [| by apply wp_ret].
  apply wp_bind, wp_modify, wp_modify.
  pose proof (frame_clear (hideTimeout s) s Hs (frame_distinct _ Hs Hh)) as [H1 H2 H3 H4 H5 H6 H7].
  split_and!; [| done | done]. by constructor.
Qed.

Lemma stop_key s : box_frame s →
  wp (if decide (keyTimeout s ≠ 0) then
        _ ← clearTimeout (keyTimeout s); modify (λ s, set_timeouts 0 (hideTimeout s) s)
      else mret tt)
    (λ _ s', box_frame s' ∧ searchIndex s' = searchIndex s ∧ marks s' = marks s) s.
Proof.
  intros Hs. destruct (decide (keyTimeout s ≠ 0)); [| by apply wp_ret].
  apply wp_bind, wp_modify, wp_modify. split_and!; [| done | done].
  pose proof (frame_no_key s Hs) as Hs0.
  pose proof (frame_clear (keyTimeout s) _ Hs0) as Hc. cbn in Hc.
  destruct Hc as [H1 H2 H3 H4 H5 H6 H7]; [done |]. by constructor.
Qed.

Lemma keeps_start_key : keeps (t ← setTimeout RunSearch keyTimeoutLength;
  modify (λ s, set_timeouts t (hideTimeout s) s)).
Proof.
  intros s Hs. unfold setTimeout. apply wp_bind, wp_bind, wp_gets, wp_bind, wp_modify, wp_ret, wp_modify.
  pose proof (frame_hide _ Hs) as Hh. pose proof (frame_next _ Hs) as Hn.
  destruct (frame_set keyTimeoutLength RunSearch s Hs) as [H1 H2 H3 H4 H5 H6 H7].
  split_and!; [| done | done]. constructor; cbn in *; try done; [intros _; left | lia].
Qed.

Lemma keeps_start_hide : keeps OnSearchSelectHide.
Proof.
  intros s Hs. unfold OnSearchSelectHide, setTimeout.
  apply wp_bind, wp_bind, wp_gets, wp_bind, wp_modify, wp_ret, wp_modify.
  pose proof (frame_fresh _ Hs) as Hf. pose proof (frame_timer _ Hs) as Ht.
  pose proof (frame_next _ Hs) as Hn.
  destruct (frame_set closeSelectionTimeout RunCloseSelection s Hs) as [H1 H2 H3 H4 H5 H6 H7].
  split_and!; [| done | done]. constructor; cbn in *; try done; [lia |].
  intros _ Heq. rewrite Forall_forall in Hf.
  assert (keyTimeout s ≠ 0) as Hk by lia. specialize (Hf _ (Ht Hk)). cbn in Hf. lia.
Qed.
#[local] Hint Resolve keeps_start_key keeps_close : paho.

Lemma keeps_OnSearchSelectShow : keeps (OnSearchSelectShow cfg).
Proof.
  unfold OnSearchSelectShow. cbv zeta. apply box_keeps_bind; [auto with paho | intros ?].
  apply box_keeps_bind; [auto with paho | intros ?].
  intros s Hs. apply wp_bind, wp_gets, wp_bind. eapply wp_mono; [by apply stop_hide |].
  intros ? s' Hs'. by apply wp_ret.
Qed.

(** ** The handlers *)
Lemma keeps_field_change key shift : keeps (OnSearchFieldChange cfg key shift).
Proof.
  intros s Hs. unfold OnSearchFieldChange. apply wp_bind. cbn. apply wp_bind.
  eapply wp_mono; [by apply stop_key |]. intros _ s1 (Hs1 & E1 & E2).
  assert (∀ m : B unit, keeps m → wp m (λ _ s', box_frame s' ∧ searchIndex s' = searchIndex s ∧
    marks s' = marks s) s1) as Hkeep.
  { intros m Hm. eapply wp_mono; [by apply Hm |]. intros _ s' (? & ? & ?). split_and!; congruence. }
  destruct (decide ((key = 40 ∨ key = 13) ∧ shift = true)).
  { apply Hkeep, box_keeps_bind; [apply keeps_OnSearchSelectShow | intros _].
    apply box_keeps_bind; [apply keeps_get | intros s2]. case_decide; [apply box_keeps_ret | apply keeps_Activate]. }
  destruct (decide (key = 27)).
  { apply Hkeep. repeat first [apply keeps_Activate | solve [auto with paho] | apply box_keeps_bind; [| intros _]]. }
  apply Hkeep, box_keeps_bind; [case_decide; auto with paho | intros _].
  apply box_keeps_bind; [apply keeps_get | intros s2]. cbv zeta.
  case_decide; [| apply box_keeps_ret]. case_decide; [apply keeps_start_key |].
  apply box_keeps_bind; [auto with paho | intros _; auto with paho].
Qed.

(** A search finds the tables of its section, whatever timer called it. *)
Lemma wp_Search s :
  config_ok cfg → box_frame (set_timeouts 0 (hideTimeout s) s) → 0 ≤ searchIndex s < Z.of_nat n →
  wp (box_Search cfg) (λ _ s', box_frame s' ∧ searchIndex s' = searchIndex s ∧ marks s' = marks s) s.
Proof.
  intros [Hc _ _] Hs Hi. unfold box_Search. apply wp_bind, wp_modify. set (s0 := set_timeouts _ _ s) in *.
  apply wp_bind. cbn. apply wp_bind. unfold section. change (searchIndex s0) with (searchIndex s).
  rewrite decide_True by lia.
  destruct (lookup_lt_is_Some_2 (indexSectionsWithContent cfg) (Z.to_nat (searchIndex s))) as [content ->];
    [lia |]. cbn [defined]. apply wp_ret.
  destruct (results_page_of _ _ _ _) as [p found].
  apply (box_keeps_bind _ _ (keeps_location _) (λ _, box_keeps_bind _ _ keeps_show_popup (λ _, keeps_last _ _)) s0 Hs).
Qed.

(** With a section there is none of, [Search] throws. *)
Lemma Search_throws s : config_ok cfg → searchIndex s = Z.of_nat n → box_Search cfg s = Err TypeError.
Proof.
  intros [Hc _ _] Hi. unfold box_Search. rewrite modify_bind. unfold mbind, M_bind, get, defined, section.
  cbn [searchIndex set_timeouts]. rewrite decide_True by lia.
  rewrite lookup_ge_None_2; [done | lia].
Qed.

Lemma wp_OnSelectItem id s :
  config_ok cfg → box_ok s → 0 ≤ id < Z.of_nat n →
  wp (OnSelectItem cfg id) (λ _ s', box_ok s' ∧ searchIndex s' = id) s.
Proof.
  intros Hcfg [Hf [_ Hm] Hr] Hid. unfold OnSelectItem. apply wp_bind, wp_modify.
  apply wp_bind, wp_modify. cbn [marks set_index searchIndex].
  assert (length (marks s) = n) as Hlen.
  { rewrite Hm. unfold marks_for. by rewrite length_fmap, length_seq. }
  rewrite Hlen. set (s1 := set_index id (marks_for id n) _).
  assert (box_frame s1) as Hf1 by (destruct Hf; by constructor).
  assert (∀ s', box_frame s' → searchIndex s' = id → marks s' = marks s1 → box_ok s' ∧ searchIndex s' = id)
    as Hok.
  { intros s' H1 H2 H3. split; [| done]. constructor; [done | | by rewrite H2].
    constructor; [done |]. by rewrite H3, H2. }
  apply wp_bind. cbn. destruct (decide _) as [Hd | Hd].
  - eapply wp_mono; [apply wp_Search; [done | by apply frame_no_key | done] |].
    intros _ s' (H1 & H2 & H3). by apply Hok.
  - apply wp_ret. by apply Hok.
Qed.

Lemma keeps_ok {A} (m : B A) s : keeps m → box_ok s → wp m (λ _ s', box_ok s') s.
Proof.
  intros Hm [Hf [_ Hmarks] Hr]. eapply wp_mono; [by apply Hm |]. intros a s' (H1 & H2 & H3).
  constructor; [done | constructor; [done | congruence] | by rewrite H2].
Qed.

(** ** Events *)

(** The items of the menu are those of the sections.  The key Down on the last
    section is left out: see [down_on_last]. *)
Definition box_enabled s (e : box_event) : Prop :=
  match e with
  | SelectItem id => 0 ≤ id < Z.of_nat n
  | SelectKey key => key = 40 → searchIndex s + 1 < Z.of_nat n
  | _ => True
  end.

Lemma wp_SelectKey key s :
  config_ok cfg → box_ok s → (key = 40 → searchIndex s + 1 < Z.of_nat n) →
  wp (OnSearchSelectKey cfg key) (λ _ s', box_ok s') s.
Proof.
  intros Hcfg Hs Hkey. pose proof (ok_range _ Hs) as Hr. unfold OnSearchSelectKey.
  apply wp_bind. cbn. apply wp_bind, wp_gets, wp_bind.
  assert (∀ (m : B unit), wp m (λ _ s', box_ok s') s → wp m (λ _, wp (mret false) (λ _ s', box_ok s')) s)
    as Hend by (intros m Hm; exact Hm).
  apply Hend. destruct (decide _) as [[-> Hd] | _].
  { eapply wp_mono; [apply wp_OnSelectItem; [done | done |] |]; [specialize (Hkey eq_refl); lia |].
    by intros _ s' []. }
  destruct (decide _) as [[-> Hd] | _].
  { eapply wp_mono; [apply wp_OnSelectItem; [done | done |] |]; [lia |]. by intros _ s' []. }
  destruct (decide _) as [Hd | _]; [| by apply wp_ret].
  apply wp_bind. eapply wp_mono; [by apply wp_OnSelectItem |]. intros _ s1 [Hs1 _].
  apply (keeps_ok (A := unit)); [| done].
  apply box_keeps_bind; [apply keeps_select_window | intros _; apply keeps_Activate].
Qed.

Lemma timer_action_unique s t : box_frame s → t ∈ timers s → timer_id t = keyTimeout s →
  t = (keyTimeout s, keyTimeoutLength, RunSearch).
Proof.
  intros Hs Ht Hid. pose proof (frame_fresh _ Hs) as Hf. rewrite Forall_forall in Hf.
  specialize (Hf _ Ht). assert (keyTimeout s ≠ 0) as Hk by lia. apply (frame_timer _ Hs) in Hk.
  apply list_elem_of_lookup in Ht as [i Hi]. apply list_elem_of_lookup in Hk as [j Hj].
  assert (i = j) as ->; [| congruence].
  eapply (NoDup_lookup _ i j (keyTimeout s) (frame_ids _ Hs)); rewrite list_lookup_fmap.
  - rewrite Hi. cbn. by rewrite Hid.
  - by rewrite Hj.
Qed.

Lemma wp_TimerFires id s :
  config_ok cfg → box_ok s → wp (run_event cfg (TimerFires id)) (λ _ s', box_ok s') s.
Proof.
  intros Hcfg Hs. pose proof Hs as [Hf [_ Hm] Hr]. cbn [run_event]. apply wp_bind, wp_gets.
  destruct (list_find _ (timers s)) as [[k [[id' d] a]] |] eqn:Hfind; [| by apply wp_ret].
  apply list_find_Some in Hfind as (Hk & Hid & _). cbn in Hid. subst id'.
  pose proof (list_elem_of_lookup_2 _ _ _ Hk) as Hin.
  assert (id ≠ 0) as Hpos.
  { pose proof (frame_fresh _ Hf) as Hfr. rewrite Forall_forall in Hfr. specialize (Hfr _ Hin).
    cbn in Hfr. lia. }
  apply wp_bind, wp_modify. set (s1 := set_timers _ _ s).
  assert (∀ s', box_frame s' → searchIndex s' = searchIndex s1 → marks s' = marks s1 → box_ok s') as Hok.
  { intros s' H1 H2 H3. constructor; [done | | by rewrite H2].
    constructor; [done |]. by rewrite H3, H2. }
  destruct a; cbn [run_action].
  - eapply wp_mono; [apply wp_Search; [done | | done] |].
    + pose proof (frame_clear id _ (frame_no_key s Hf)) as Hc. by apply Hc.
    + intros _ s' (H1 & H2 & H3). by apply Hok.
  - assert (box_frame s1) as Hf1.
    { apply frame_clear; [done |]. intros Heq.
      by pose proof (timer_action_unique s _ Hf Hin (eq_sym Heq)). }
    eapply wp_mono; [by apply keeps_select_window |]. intros _ s' (H1 & H2 & H3). by apply Hok.
Qed.

Lemma wp_event e s :
  config_ok cfg → box_ok s → box_enabled s e → wp (run_event cfg e) (λ _ s', box_ok s') s.
Proof.
  intros Hcfg Hs He. destruct e as [b | v | key shift | | | id | key | | id]; cbn [run_event].
  - apply keeps_ok; [apply keeps_Activate | done].
  - apply keeps_ok; [| done]. apply keeps_modify. intros s' []. split_and!; first [done | by constructor].
  - apply keeps_ok; [apply keeps_field_change | done].
  - apply keeps_ok; [| done]. apply box_keeps_bind; [apply keeps_OnSearchSelectShow | intros; apply box_keeps_ret].
  - apply keeps_ok; [apply keeps_start_hide | done].
  - eapply wp_mono; [by apply wp_OnSelectItem |]. by intros _ s' [].
  - apply wp_bind. eapply wp_mono; [by apply wp_SelectKey |]. intros ? s' Hs'. by apply wp_ret.
  - apply keeps_ok; [apply keeps_close | done].
  - by apply wp_TimerFires.
Qed.

(** The box after [init_search]. *)
Lemma init_ok : config_ok cfg → wp (init_search cfg) (λ _ s, box_ok s ∧ searchIndex s = 0) (newSearchBox cfg).
Proof.
  intros Hcfg. pose proof (config_some _ Hcfg) as Hn. unfold init_search. apply wp_bind, wp_modify.
  unfold OnSelectItem. apply wp_bind, wp_modify, wp_bind, wp_modify. apply wp_bind. cbn.
  rewrite decide_False by (by intros [_ ?]). apply wp_ret. split; [| done].
  constructor; [| | cbn; lia].
  - constructor; cbn; first [done | constructor].
  - constructor; [done |]. cbn. by rewrite length_fmap.
Qed.

(** A key that leaves a new search word in the field starts the timer of a
    search. *)
Lemma FieldKey_starts s :
  strip_all (field s) ≠ [] → strip_all (field s) ≠ lastSearchValue s →
  ∃ s', run_event cfg (FieldKey 0 false) s = Ok (tt, s') ∧ keyTimeout s' = next_timer s ∧
    (∃ l, timers s' = (next_timer s, keyTimeoutLength, RunSearch) :: l) ∧
    field s' = field s ∧ searchIndex s' = searchIndex s.
Proof.
  intros Hne Hlast. cbn [run_event]. unfold OnSearchFieldChange, mbind at 1, M_bind at 1. cbn [get].
  assert (∃ s1, (if decide (keyTimeout s ≠ 0) then
      _ ← clearTimeout (keyTimeout s); modify (λ s, set_timeouts 0 (hideTimeout s) s)
    else mret tt) s = Ok (tt, s1) ∧ field s1 = field s ∧ lastSearchValue s1 = lastSearchValue s ∧
    next_timer s1 = next_timer s ∧ searchIndex s1 = searchIndex s) as (s1 & Hr & E1 & E2 & E3 & E4).
  { destruct (decide _); by eexists. }
  rewrite (bind_ok _ _ _ _ _ Hr). rewrite decide_False by (by intros [_ ?]).
  rewrite decide_False by done. rewrite decide_False by (by intros [|]). rewrite ret_bind.
  unfold mbind at 1, M_bind at 1. cbn [get]. cbv zeta. rewrite E1, E2.
  rewrite decide_True by done. rewrite decide_True by done.
  eexists. split; [done |]. cbn. rewrite E3. split_and!; [done | by eexists | done | done].
Qed.

(** What a search leaves. *)
Lemma Search_result s content :
  indexSectionsWithContent cfg !! Z.to_nat (searchIndex s) = Some content → 0 ≤ searchIndex s →
  let value := strip_leading (field s) in
  let r := results_page_of cfg content (section (indexSectionNames cfg) (searchIndex s)) value in
  ∃ s', box_Search cfg s = Ok (tt, s') ∧
    location s' = Some (if snd r then fst r ++ js "?" ++ escape value else fst r) ∧
    lastSearchValue s' = value ∧ lastResultsPage s' = fst r ∧ popup s' = "block"%string.
Proof.
  intros Hc Hi value r. unfold box_Search. rewrite modify_bind. unfold mbind at 1, M_bind at 1. cbn [get].
  assert (section (indexSectionsWithContent cfg) (searchIndex s) = Some content) as Hsec.
  { unfold section. by rewrite decide_True. }
  cbn [searchIndex set_timeouts]. rewrite Hsec. cbn [defined]. rewrite ret_bind. cbn [field set_timeouts]. fold value. fold r. destruct r as [p found].
  rewrite modify_bind. unfold show_popup.
  match goal with |- context [set_location ?u ?x] => set (s1 := set_location u x) end.
  destruct (decide (popup s1 = "block"%string)) as [Hp | Hp].
  - rewrite bind_assoc_run. unfold mbind at 1, M_bind at 1. cbn [get].
    rewrite decide_True by done. by eexists.
  - rewrite bind_assoc_run. unfold mbind at 1, M_bind at 1. cbn [get]. rewrite decide_False by done.
    rewrite bind_assoc_run, modify_bind. destruct (insideFrame cfg); by eexists.
Qed.

(** A search that follows typing. *)
Lemma typed_search v s :
  config_ok cfg → box_ok s → strip_all v ≠ [] → strip_all v ≠ lastSearchValue s →
  ∃ s1 s2 content, run_events cfg [FieldInput v; FieldKey 0 false] s = Ok (tt, s1) ∧
    run_event cfg (TimerFires (keyTimeout s1)) s1 = Ok (tt, s2) ∧ box_ok s2 ∧
    indexSectionsWithContent cfg !! Z.to_nat (searchIndex s) = Some content ∧
    let r := results_page_of cfg content (section (indexSectionNames cfg) (searchIndex s)) (strip_leading v) in
    location s2 = Some (if snd r then fst r ++ js "?" ++ escape (strip_leading v) else fst r) ∧
    lastSearchValue s2 = strip_leading v ∧ popup s2 = "block"%string.
Proof.
  intros Hcfg Hs Hne Hlast. pose proof (ok_range _ Hs) as Hr.
  pose proof (proj1 (wp_ok _ _ _) (wp_event (FieldInput v) s Hcfg Hs I)) as ([] & s0 & R0 & Hs0).
  injection R0 as R0.
  destruct (FieldKey_starts s0) as (s1 & R1 & Hk & [l Hl] & Hfield & Hidx);
    [by rewrite <- R0 | by rewrite <- R0 |].
  pose proof (proj1 (wp_ok _ _ _) (wp_event (FieldKey 0 false) s0 Hcfg Hs0 I)) as ([] & s1' & R1' & Hs1).
  rewrite R1 in R1'. injection R1' as <-.
  pose proof (proj1 (wp_ok _ _ _) (wp_event (TimerFires (keyTimeout s1)) s1 Hcfg Hs1 I)) as ([] & s2 & R2 & Hs2).
  destruct (lookup_lt_is_Some_2 (indexSectionsWithContent cfg) (Z.to_nat (searchIndex s))) as [content Hc].
  { rewrite (config_content _ Hcfg). lia. }
  assert (searchIndex s1 = searchIndex s) as Hidx' by (by rewrite Hidx, <- R0).
  assert (field s1 = v) as Hfield' by (by rewrite Hfield, <- R0).
  exists s1, s2, content. split_and!; [| done | done | done |].
  { cbn [run_events]. rewrite (bind_ok _ _ _ tt s0); [| by rewrite <- R0].
    by rewrite (bind_ok _ _ _ _ _ R1). }
  cbn [run_event] in R2. rewrite gets_bind, Hl, Hk in R2. cbn [list_find] in R2.
  rewrite decide_True in R2 by done. unfold clearTimeout in R2. rewrite modify_bind in R2.
  cbn [run_action] in R2.
  match type of R2 with box_Search _ ?x = _ => destruct (Search_result x content) as (s2' & R2' & Hres) end;
    [cbn; by rewrite Hidx' | cbn; lia |].
  rewrite R2 in R2'. injection R2' as <-. cbn [field searchIndex set_timers] in Hres.
  rewrite Hfield', Hidx' in Hres. cbv zeta. tauto.
Qed.
End Box.
