(* ===== verification/AsyncIndex.v ===== *)
(** * The search index of the pages about the asynchronous client

    The tables of src/docs/MQTTAsync/html: a list [searchData] of entries for
    each file of html/search, the sections of searchdata.js, and the menu of
    menudata.js. *)
From S2P Require Import Prelude SearchData.
Local Open Scope string_scope.

Definition all_0 : list SearchEntry := [
  entry "allowdisconnectedsendatanytime_0" "allowDisconnectedSendAtAnyTime" [link "../struct_m_q_t_t_async__create_options.html#abe7fdbe18bfd3577a75d3b386d69406c" 1 "MQTTAsync_createOptions"];
  entry "alt_1" "alt" [link "../struct_m_q_t_t_async__success_data.html#afbc1fee4467369fefa30cb07047fca14" 1 "MQTTAsync_successData::alt()"; link "../struct_m_q_t_t_async__success_data5.html#a4bde812772718b8051b0d6e2000a5f5c" 1 "MQTTAsync_successData5::alt()"];
  entry "array_2" "array" [link "../struct_m_q_t_t_properties.html#a3ac4c38b423393c1553dcf8b71e7dd58" 1 "MQTTProperties"];
  entry "asynchronous_20mqtt_20client_20library_20for_20c_20_28mqttasync_29_3" "Asynchronous MQTT client library for C (MQTTAsync)" [link "../index.html" 1 EmptyString];
  entry "automatic_20reconnect_4" "Automatic Reconnect" [link "../auto_reconnect.html" 1 EmptyString];
  entry "automaticreconnect_5" "automaticReconnect" [link "../struct_m_q_t_t_async__connect_options.html#a7902ce4d11b96d8b19582bdd1f82b630" 1 "MQTTAsync_connectOptions"]].
Definition all_1 : list SearchEntry := [
  entry "binarypwd_6" "binarypwd" [link "../struct_m_q_t_t_async__connect_data.html#ad5c523e5e6dc0105cc7b4a296451915b" 1 "MQTTAsync_connectData::binarypwd()"; link "../struct_m_q_t_t_async__connect_options.html#a3bccd0957cca80fa2200962051093931" 1 "MQTTAsync_connectOptions::binarypwd()"];
  entry "byte_7" "byte" [link "../struct_m_q_t_t_property.html#a1581cde4f73c9a797ae1e7afcc1bb3de" 1 "MQTTProperty"]].
Definition all_2 : list SearchEntry := [
  entry "callbacks_8" "Callbacks" [link "../callbacks.html" 1 EmptyString];
  entry "capath_9" "CApath" [link "../struct_m_q_t_t_async___s_s_l_options.html#a3078b3c824cc9753a57898072445c34d" 1 "MQTTAsync_SSLOptions"];
  entry "cleansession_10" "cleansession" [link "../struct_m_q_t_t_async__connect_options.html#a036c36a2a4d3a3ffae9ab4dd8b3e7f7b" 1 "MQTTAsync_connectOptions"];
  entry "cleanstart_11" "cleanstart" [link "../struct_m_q_t_t_async__connect_options.html#acdcb75a5d5981da027bce83849140f7b" 1 "MQTTAsync_connectOptions"];
  entry "code_12" "code" [link "../struct_m_q_t_t_async__failure_data.html#a45a5b7c00a796a23f01673cef1dbe0a9" 1 "MQTTAsync_failureData::code()"; link "../struct_m_q_t_t_async__failure_data5.html#a45a5b7c00a796a23f01673cef1dbe0a9" 1 "MQTTAsync_failureData5::code()"];
  entry "connect_13" "connect" [link "../struct_m_q_t_t_async__success_data.html#a028701cd79a4923d1d2172422c022447" 1 "MQTTAsync_successData::connect()"; link "../struct_m_q_t_t_async__success_data5.html#ac73a35b7229f7f4193127cac7b20bc8a" 1 "MQTTAsync_successData5::connect()"];
  entry "connectproperties_14" "connectProperties" [link "../struct_m_q_t_t_async__connect_options.html#a9f8b7ffb4a698eb151a3b090548b82e8" 1 "MQTTAsync_connectOptions"];
  entry "connecttimeout_15" "connectTimeout" [link "../struct_m_q_t_t_async__connect_options.html#a38c6aa24b36d981c49405db425c24db0" 1 "MQTTAsync_connectOptions"];
  entry "context_16" "context" [link "../struct_m_q_t_t_async__response_options.html#ae376f130b17d169ee51be68077a89ed0" 1 "MQTTAsync_responseOptions::context()"; link "../struct_m_q_t_t_async__connect_options.html#ae376f130b17d169ee51be68077a89ed0" 1 "MQTTAsync_connectOptions::context()"; link "../struct_m_q_t_t_async__disconnect_options.html#ae376f130b17d169ee51be68077a89ed0" 1 "MQTTAsync_disconnectOptions::context()"; link "../struct_m_q_t_t_client__persistence.html#ae376f130b17d169ee51be68077a89ed0" 1 "MQTTClient_persistence::context()"];
  entry "count_17" "count" [link "../struct_m_q_t_t_properties.html#ad43c3812e6d13e0518d9f8b8f463ffcf" 1 "MQTTProperties"]].
Definition all_3 : list SearchEntry := [
  entry "data_18" "data" [link "../struct_m_q_t_t_async__connect_data.html#a0d49d74db4c035719c3867723cf7e779" 1 "MQTTAsync_connectData::data()"; link "../struct_m_q_t_t_async__will_options.html#a0d49d74db4c035719c3867723cf7e779" 1 "MQTTAsync_willOptions::data()"; link "../struct_m_q_t_t_async__connect_options.html#a0d49d74db4c035719c3867723cf7e779" 1 "MQTTAsync_connectOptions::data()"; link "../struct_m_q_t_t_len_string.html#a91a70b77df95bd8b0830b49a094c2acb" 1 "MQTTLenString::data()"; link "../struct_m_q_t_t_property.html#aa43ebcb9f97210421431a671384ef159" 1 "MQTTProperty::data()"];
  entry "deleteoldestmessages_19" "deleteOldestMessages" [link "../struct_m_q_t_t_async__create_options.html#a76de37b3cff885e83db204a347fe0a2d" 1 "MQTTAsync_createOptions"];
  entry "destinationname_20" "destinationName" [link "../struct_m_q_t_t_async__success_data.html#ae25f4a1d2a3fa952d052a965376d8fef" 1 "MQTTAsync_successData::destinationName()"; link "../struct_m_q_t_t_async__success_data5.html#ae25f4a1d2a3fa952d052a965376d8fef" 1 "MQTTAsync_successData5::destinationName()"];
  entry "disabledefaulttruststore_21" "disableDefaultTrustStore" [link "../struct_m_q_t_t_async___s_s_l_options.html#a0826fcae7c2816e04772c61542c6846b" 1 "MQTTAsync_SSLOptions"];
  entry "do_5fopenssl_5finit_22" "do_openssl_init" [link "../struct_m_q_t_t_async__init__options.html#a5929146596391e2838ef95feb89776da" 1 "MQTTAsync_init_options"];
  entry "dup_23" "dup" [link "../struct_m_q_t_t_async__message.html#adc4cf3f551bb367858644559d69cfdf5" 1 "MQTTAsync_message"]].
Definition all_4 : list SearchEntry := [
  entry "enabledciphersuites_24" "enabledCipherSuites" [link "../struct_m_q_t_t_async___s_s_l_options.html#aa683926d52134077f27d6dc67bda13ab" 1 "MQTTAsync_SSLOptions"];
  entry "enableservercertauth_25" "enableServerCertAuth" [link "../struct_m_q_t_t_async___s_s_l_options.html#a75f6c13b7634e15f96dd9f17db6cf0be" 1 "MQTTAsync_SSLOptions"]].
Definition all_5 : list SearchEntry := [
  entry "httpheaders_26" "httpHeaders" [link "../struct_m_q_t_t_async__connect_options.html#ac4098248961a1ee89f40353eeebab58b" 1 "MQTTAsync_connectOptions"];
  entry "httpproxy_27" "httpProxy" [link "../struct_m_q_t_t_async__connect_options.html#add124780ab2de397a96780576c2f112c" 1 "MQTTAsync_connectOptions"];
  entry "httpsproxy_28" "httpsProxy" [link "../struct_m_q_t_t_async__connect_options.html#a388b78d8a75658928238f700f207ad92" 1 "MQTTAsync_connectOptions"]].
Definition all_6 : list SearchEntry := [
  entry "identifier_29" "identifier" [link "../struct_m_q_t_t_property.html#a2ff04e8cc70fbaa9bcb9a4fb3d510882" 1 "MQTTProperty"];
  entry "integer2_30" "integer2" [link "../struct_m_q_t_t_property.html#a0289ec2e0df8789139386b0ddf5c71c3" 1 "MQTTProperty"];
  entry "integer4_31" "integer4" [link "../struct_m_q_t_t_property.html#a813425ef31abb5ef0091e3043e8a366b" 1 "MQTTProperty"]].
Definition all_7 : list SearchEntry := [
  entry "keepaliveinterval_32" "keepAliveInterval" [link "../struct_m_q_t_t_async__connect_options.html#ac8dd0930672a9c7d71fc645aa1f0521d" 1 "MQTTAsync_connectOptions"];
  entry "keystore_33" "keyStore" [link "../struct_m_q_t_t_async___s_s_l_options.html#a32b476382955289ce427112b59f21c3e" 1 "MQTTAsync_SSLOptions"]].
Definition all_8 : list SearchEntry := [
  entry "len_34" "len" [link "../struct_m_q_t_t_async__connect_data.html#afed088663f8704004425cdae2120b9b3" 1 "MQTTAsync_connectData::len()"; link "../struct_m_q_t_t_async__will_options.html#afed088663f8704004425cdae2120b9b3" 1 "MQTTAsync_willOptions::len()"; link "../struct_m_q_t_t_async__connect_options.html#afed088663f8704004425cdae2120b9b3" 1 "MQTTAsync_connectOptions::len()"; link "../struct_m_q_t_t_len_string.html#afed088663f8704004425cdae2120b9b3" 1 "MQTTLenString::len()"];
  entry "length_35" "length" [link "../struct_m_q_t_t_properties.html#a9f59b34b1f25fe00023291b678246bcc" 1 "MQTTProperties"]].
Definition all_9 : list SearchEntry := [
  entry "max_5fcount_36" "max_count" [link "../struct_m_q_t_t_properties.html#a8de324382d8fd2f5939bf3372e059383" 1 "MQTTProperties"];
  entry "maxbufferedmessages_37" "maxBufferedMessages" [link "../struct_m_q_t_t_async__create_options.html#a3b74acf6f315bb5fe36266bc9647ee97" 1 "MQTTAsync_createOptions"];
  entry "maxinflight_38" "maxInflight" [link "../struct_m_q_t_t_async__connect_options.html#a5c9d6c557453232a1b25cbbec5a31e8c" 1 "MQTTAsync_connectOptions"];
  entry "maxretryinterval_39" "maxRetryInterval" [link "../struct_m_q_t_t_async__connect_options.html#a035ba380dd97a284db04f4eaae5e113b" 1 "MQTTAsync_connectOptions"];
  entry "message_40" "message" [link "../struct_m_q_t_t_async__will_options.html#a254bf0858da09c96a48daf64404eb4f8" 1 "MQTTAsync_willOptions::message()"; link "../struct_m_q_t_t_async__success_data5.html#a6ed8403758cecd2f762af6ba5e0ae525" 1 "MQTTAsync_successData5::message()"; link "../struct_m_q_t_t_async__success_data.html#a6ed8403758cecd2f762af6ba5e0ae525" 1 "MQTTAsync_successData::message()"; link "../struct_m_q_t_t_async__failure_data5.html#a254bf0858da09c96a48daf64404eb4f8" 1 "MQTTAsync_failureData5::message()"; link "../struct_m_q_t_t_async__failure_data.html#a254bf0858da09c96a48daf64404eb4f8" 1 "MQTTAsync_failureData::message()"];
  entry "minretryinterval_41" "minRetryInterval" [link "../struct_m_q_t_t_async__connect_options.html#a166ac1b967f09326b0187f66be3e69af" 1 "MQTTAsync_connectOptions"];
  entry "mqtt_5fbad_5fsubscribe_42" "MQTT_BAD_SUBSCRIBE" [link "../_m_q_t_t_async_8h.html#ade337b363b7f4bc7c1a7b2858e0380bd" 1 "MQTTAsync.h"];
  entry "mqtt_5finvalid_5fproperty_5fid_43" "MQTT_INVALID_PROPERTY_ID" [link "../_m_q_t_t_properties_8h.html#afc56d2e8937a0c8f180d68ad93945945" 1 "MQTTProperties.h"];
  entry "mqtt_5fssl_5fversion_5fdefault_44" "MQTT_SSL_VERSION_DEFAULT" [link "../_m_q_t_t_async_8h.html#a2549ea897af26c76198284731db9e721" 1 "MQTTAsync.h"];
  entry "mqtt_5fssl_5fversion_5ftls_5f1_5f0_45" "MQTT_SSL_VERSION_TLS_1_0" [link "../_m_q_t_t_async_8h.html#a7e5da3d6f0d2b53409bbfcf6e56f3d2d" 1 "MQTTAsync.h"];
  entry "mqtt_5fssl_5fversion_5ftls_5f1_5f1_46" "MQTT_SSL_VERSION_TLS_1_1" [link "../_m_q_t_t_async_8h.html#abdff87efa3f2ee473a1591e10638b537" 1 "MQTTAsync.h"];
  entry "mqtt_5fssl_5fversion_5ftls_5f1_5f2_47" "MQTT_SSL_VERSION_TLS_1_2" [link "../_m_q_t_t_async_8h.html#a3a94dbdeafbb73c73a068e7c2085fbab" 1 "MQTTAsync.h"];
  entry "mqttasync_48" "MQTTAsync" [link "../_m_q_t_t_async_8h.html#a0db1d736cdc0c864fe41abb3afd605bd" 1 "MQTTAsync.h"];
  entry "mqttasync_2eh_49" "MQTTAsync.h" [link "../_m_q_t_t_async_8h.html" 1 EmptyString];
  entry "mqttasync_5f0_5flen_5fwill_5ftopic_50" "MQTTASYNC_0_LEN_WILL_TOPIC" [link "../_m_q_t_t_async_8h.html#a47b3aed75983f48a503e1cad6c862004" 1 "MQTTAsync.h"];
  entry "mqttasync_5fbad_5fmqtt_5foption_51" "MQTTASYNC_BAD_MQTT_OPTION" [link "../_m_q_t_t_async_8h.html#af6f97562573876867ba77460a51ca1d1" 1 "MQTTAsync.h"];
  entry "mqttasync_5fbad_5fprotocol_52" "MQTTASYNC_BAD_PROTOCOL" [link "../_m_q_t_t_async_8h.html#a785250cd4a1938ffeeff67b3538abfba" 1 "MQTTAsync.h"];
  entry "mqttasync_5fbad_5fqos_53" "MQTTASYNC_BAD_QOS" [link "../_m_q_t_t_async_8h.html#a64d111778ce4e0d3a62808f6db11f224" 1 "MQTTAsync.h"];
  entry "mqttasync_5fbad_5fstructure_54" "MQTTASYNC_BAD_STRUCTURE" [link "../_m_q_t_t_async_8h.html#a241fc8db46dca132d591bc2be92247ba" 1 "MQTTAsync.h"];
  entry "mqttasync_5fbad_5futf8_5fstring_55" "MQTTASYNC_BAD_UTF8_STRING" [link "../_m_q_t_t_async_8h.html#a80cbe091930c11b67ca719b3e385aa26" 1 "MQTTAsync.h"];
  entry "mqttasync_5fcalloptions_56" "MQTTAsync_callOptions" [link "../_m_q_t_t_async_8h.html#ab6bfa6beae93c259220e1a131ba1cf9c" 1 "MQTTAsync.h"];
  entry "mqttasync_5fcalloptions_5finitializer_57" "MQTTAsync_callOptions_initializer" [link "../_m_q_t_t_async_8h.html#a570185766fc8a9da410a6f84915b6df5" 1 "MQTTAsync.h"];
  entry "mqttasync_5fcommand_5fignored_58" "MQTTASYNC_COMMAND_IGNORED" [link "../_m_q_t_t_async_8h.html#a8278cf4b50dd818c31fa12e45f074b5c" 1 "MQTTAsync.h"];
  entry "mqttasync_5fconnect_59" "MQTTAsync_connect" [link "../_m_q_t_t_async_8h.html#a0388b226a414b09fa733f6d65004ec32" 1 "MQTTAsync.h"];
  entry "mqttasync_5fconnectdata_60" "MQTTAsync_connectData" [link "../struct_m_q_t_t_async__connect_data.html" 1 EmptyString];
  entry "mqttasync_5fconnectdata_5finitializer_61" "MQTTAsync_connectData_initializer" [link "../_m_q_t_t_async_8h.html#a2e415e68016ae56f6bbbbdc9840a9c6e" 1 "MQTTAsync.h"];
  entry "mqttasync_5fconnected_62" "MQTTAsync_connected" [link "../_m_q_t_t_async_8h.html#a34bb8d321e9d368780b5c832c058f223" 1 "MQTTAsync.h"];
  entry "mqttasync_5fconnectionlost_63" "MQTTAsync_connectionLost" [link "../_m_q_t_t_async_8h.html#a3900a98d7b1d58ad6e686bfce298bb6c" 1 "MQTTAsync.h"];
  entry "mqttasync_5fconnectoptions_64" "MQTTAsync_connectOptions" [link "../struct_m_q_t_t_async__connect_options.html" 1 EmptyString];
  entry "mqttasync_5fconnectoptions_5finitializer_65" "MQTTAsync_connectOptions_initializer" [link "../_m_q_t_t_async_8h.html#ae18b51f22784a43803eb809d6a0c2492" 1 "MQTTAsync.h"];
  entry "mqttasync_5fconnectoptions_5finitializer5_66" "MQTTAsync_connectOptions_initializer5" [link "../_m_q_t_t_async_8h.html#abd403ce21f7aa0348ae1d3eefd031a5d" 1 "MQTTAsync.h"];
  entry "mqttasync_5fconnectoptions_5finitializer5_5fws_67" "MQTTAsync_connectOptions_initializer5_ws" [link "../_m_q_t_t_async_8h.html#a513bfbec7b7d39c827240db75aa4044b" 1 "MQTTAsync.h"];
  entry "mqttasync_5fconnectoptions_5finitializer_5fws_68" "MQTTAsync_connectOptions_initializer_ws" [link "../_m_q_t_t_async_8h.html#a080951d916d7a58c4ceff8c6bacfe313" 1 "MQTTAsync.h"];
  entry "mqttasync_5fcreate_69" "MQTTAsync_create" [link "../_m_q_t_t_async_8h.html#a5462c4618d0a229116db5fbadacf95d2" 1 "MQTTAsync.h"];
  entry "mqttasync_5fcreateoptions_70" "MQTTAsync_createOptions" [link "../struct_m_q_t_t_async__create_options.html" 1 EmptyString];
  entry "mqttasync_5fcreateoptions_5finitializer_71" "MQTTAsync_createOptions_initializer" [link "../_m_q_t_t_async_8h.html#a5fedeafef4753f09b1bcb92773564786" 1 "MQTTAsync.h"];
  entry "mqttasync_5fcreateoptions_5finitializer5_72" "MQTTAsync_createOptions_initializer5" [link "../_m_q_t_t_async_8h.html#a0008776a46e7268ccbef4774ce3d4579" 1 "MQTTAsync.h"];
  entry "mqttasync_5fcreatewithoptions_73" "MQTTAsync_createWithOptions" [link "../_m_q_t_t_async_8h.html#a78cbe1b851fea48001112f7ba9e4ea62" 1 "MQTTAsync.h"];
  entry "mqttasync_5fdeliverycomplete_74" "MQTTAsync_deliveryComplete" [link "../_m_q_t_t_async_8h.html#ab10296618e266b3c02fd117d6616b15d" 1 "MQTTAsync.h"];
  entry "mqttasync_5fdestroy_75" "MQTTAsync_destroy" [link "../_m_q_t_t_async_8h.html#ad5562f9dc71fbd93d25ad20b328cb887" 1 "MQTTAsync.h"];
  entry "mqttasync_5fdisconnect_76" "MQTTAsync_disconnect" [link "../_m_q_t_t_async_8h.html#adc69afa4725f8321bdaa5a05aec5cfd5" 1 "MQTTAsync.h"];
  entry "mqttasync_5fdisconnected_77" "MQTTASYNC_DISCONNECTED" [link "../_m_q_t_t_async_8h.html#a66c0f30b329bc770145c2f04b3929df6" 1 "MQTTAsync.h"];
  entry "mqttasync_5fdisconnected_78" "MQTTAsync_disconnected" [link "../_m_q_t_t_async_8h.html#a52a1d9ab6e5d5064a3de42d0eec88f57" 1 "MQTTAsync.h"];
  entry "mqttasync_5fdisconnectoptions_79" "MQTTAsync_disconnectOptions" [link "../struct_m_q_t_t_async__disconnect_options.html" 1 EmptyString];
  entry "mqttasync_5fdisconnectoptions_5finitializer_80" "MQTTAsync_disconnectOptions_initializer" [link "../_m_q_t_t_async_8h.html#a2fd5d6df31928ae468f3f2e522b9c707" 1 "MQTTAsync.h"];
  entry "mqttasync_5fdisconnectoptions_5finitializer5_81" "MQTTAsync_disconnectOptions_initializer5" [link "../_m_q_t_t_async_8h.html#aaa278001953dc129003eff83c8e7b3db" 1 "MQTTAsync.h"];
  entry "mqttasync_5ffailure_82" "MQTTASYNC_FAILURE" [link "../_m_q_t_t_async_8h.html#a7c8230fef85fc04b8a1035501f3be406" 1 "MQTTAsync.h"];
  entry "mqttasync_5ffailuredata_83" "MQTTAsync_failureData" [link "../struct_m_q_t_t_async__failure_data.html" 1 EmptyString];
  entry "mqttasync_5ffailuredata5_84" "MQTTAsync_failureData5" [link "../struct_m_q_t_t_async__failure_data5.html" 1 EmptyString];
  entry "mqttasync_5ffailuredata5_5finitializer_85" "MQTTAsync_failureData5_initializer" [link "../_m_q_t_t_async_8h.html#a53ce2002ae2c2579575bb41c48c51c29" 1 "MQTTAsync.h"];
  entry "mqttasync_5ffree_86" "MQTTAsync_free" [link "../_m_q_t_t_async_8h.html#a2b836f58612a2c4627e40ae848da190d" 1 "MQTTAsync.h"];
  entry "mqttasync_5ffreemessage_87" "MQTTAsync_freeMessage" [link "../_m_q_t_t_async_8h.html#a9b45db63052fe29ab1fad22d2a00c91c" 1 "MQTTAsync.h"];
  entry "mqttasync_5fgetpendingtokens_88" "MQTTAsync_getPendingTokens" [link "../_m_q_t_t_async_8h.html#abc92f60743fc471643b473abbc987be0" 1 "MQTTAsync.h"];
  entry "mqttasync_5fgetversioninfo_89" "MQTTAsync_getVersionInfo" [link "../_m_q_t_t_async_8h.html#a7cf29b785a1d4ff1de2e67e2f916b658" 1 "MQTTAsync.h"];
  entry "mqttasync_5fglobal_5finit_90" "MQTTAsync_global_init" [link "../_m_q_t_t_async_8h.html#a1705e75a48999cb45bf85c15608478f5" 1 "MQTTAsync.h"];
  entry "mqttasync_5finit_5foptions_91" "MQTTAsync_init_options" [link "../struct_m_q_t_t_async__init__options.html" 1 EmptyString];
  entry "mqttasync_5finit_5foptions_5finitializer_92" "MQTTAsync_init_options_initializer" [link "../_m_q_t_t_async_8h.html#a866e023f70141969d48597930c0ee313" 1 "MQTTAsync.h"];
  entry "mqttasync_5fiscomplete_93" "MQTTAsync_isComplete" [link "../_m_q_t_t_async_8h.html#ab207095cab6f9a48b52cdb593b8456f4" 1 "MQTTAsync.h"];
  entry "mqttasync_5fisconnected_94" "MQTTAsync_isConnected" [link "../_m_q_t_t_async_8h.html#a46c332245c379629ae11f457fc179457" 1 "MQTTAsync.h"];
  entry "mqttasync_5fmalloc_95" "MQTTAsync_malloc" [link "../_m_q_t_t_async_8h.html#af5500ba58592afafaade2fcabdc61e61" 1 "MQTTAsync.h"];
  entry "mqttasync_5fmax_5fbuffered_96" "MQTTASYNC_MAX_BUFFERED" [link "../_m_q_t_t_async_8h.html#a2efee8e190e2c3690c680bde060f78ab" 1 "MQTTAsync.h"];
  entry "mqttasync_5fmax_5fbuffered_5fmessages_97" "MQTTASYNC_MAX_BUFFERED_MESSAGES" [link "../_m_q_t_t_async_8h.html#a4e338072cfd5291b579e4f0c99a6e773" 1 "MQTTAsync.h"];
  entry "mqttasync_5fmax_5fmessages_5finflight_98" "MQTTASYNC_MAX_MESSAGES_INFLIGHT" [link "../_m_q_t_t_async_8h.html#ad577286d43c72fbc49818aac42f4e24a" 1 "MQTTAsync.h"];
  entry "mqttasync_5fmessage_99" "MQTTAsync_message" [link "../struct_m_q_t_t_async__message.html" 1 EmptyString];
  entry "mqttasync_5fmessage_5finitializer_100" "MQTTAsync_message_initializer" [link "../_m_q_t_t_async_8h.html#a6a85061dadab532f28e96e5ab3c600e9" 1 "MQTTAsync.h"];
  entry "mqttasync_5fmessagearrived_101" "MQTTAsync_messageArrived" [link "../_m_q_t_t_async_8h.html#a3918ead59b56816a8d7544def184e48e" 1 "MQTTAsync.h"];
  entry "mqttasync_5fnamevalue_102" "MQTTAsync_nameValue" [link "../struct_m_q_t_t_async__name_value.html" 1 EmptyString];
  entry "mqttasync_5fno_5fmore_5fmsgids_103" "MQTTASYNC_NO_MORE_MSGIDS" [link "../_m_q_t_t_async_8h.html#ab0f54d0bae2c74849022a8009e5d6ff7" 1 "MQTTAsync.h"];
  entry "mqttasync_5fnull_5fparameter_104" "MQTTASYNC_NULL_PARAMETER" [link "../_m_q_t_t_async_8h.html#ab88e1ebcee991099a72429e52a8253fd" 1 "MQTTAsync.h"];
  entry "mqttasync_5fonfailure_105" "MQTTAsync_onFailure" [link "../_m_q_t_t_async_8h.html#a6060c25c2641e878803aef76fefb31ee" 1 "MQTTAsync.h"];
  entry "mqttasync_5fonfailure5_106" "MQTTAsync_onFailure5" [link "../_m_q_t_t_async_8h.html#a8c5023e04d5c3e9805d5dae76df21f4c" 1 "MQTTAsync.h"];
  entry "mqttasync_5fonsuccess_107" "MQTTAsync_onSuccess" [link "../_m_q_t_t_async_8h.html#a7b0c18a0e29e2ce73f3ea109bc32617b" 1 "MQTTAsync.h"];
  entry "mqttasync_5fonsuccess5_108" "MQTTAsync_onSuccess5" [link "../_m_q_t_t_async_8h.html#a892cf122e6e8d8f6cd38c4c8efe8fb67" 1 "MQTTAsync.h"];
  entry "mqttasync_5foperation_5fincomplete_109" "MQTTASYNC_OPERATION_INCOMPLETE" [link "../_m_q_t_t_async_8h.html#aee1b79d0632bec0fe49eb7ea1abd3b2e" 1 "MQTTAsync.h"];
  entry "mqttasync_5fpersistence_5ferror_110" "MQTTASYNC_PERSISTENCE_ERROR" [link "../_m_q_t_t_async_8h.html#a4edf1249c75abd4975fec8ddeae2cdc9" 1 "MQTTAsync.h"];
  entry "mqttasync_5freconnect_111" "MQTTAsync_reconnect" [link "../_m_q_t_t_async_8h.html#abd3ea01869b89ff23f9522640479c395" 1 "MQTTAsync.h"];
  entry "mqttasync_5fresponseoptions_112" "MQTTAsync_responseOptions" [link "../struct_m_q_t_t_async__response_options.html" 1 "MQTTAsync_responseOptions"; link "../_m_q_t_t_async_8h.html#ae1568d96d6418004cc79466c06f3d791" 1 "MQTTAsync_responseOptions():&#160;MQTTAsync.h"];
  entry "mqttasync_5fresponseoptions_5finitializer_113" "MQTTAsync_responseOptions_initializer" [link "../_m_q_t_t_async_8h.html#a3f8b408243b5c2369bc9758f2edf0878" 1 "MQTTAsync.h"];
  entry "mqttasync_5fsend_114" "MQTTAsync_send" [link "../_m_q_t_t_async_8h.html#a63c66a311ab16239a4175ff671871bf2" 1 "MQTTAsync.h"];
  entry "mqttasync_5fsendmessage_115" "MQTTAsync_sendMessage" [link "../_m_q_t_t_async_8h.html#a5687171e67e98f9ea590c9e3b64cde18" 1 "MQTTAsync.h"];
  entry "mqttasync_5fsetafterpersistenceread_116" "MQTTAsync_setAfterPersistenceRead" [link "../_m_q_t_t_async_8h.html#ab4d16e3c57502be6a7d1b1d3bcc382f3" 1 "MQTTAsync.h"];
  entry "mqttasync_5fsetbeforepersistencewrite_117" "MQTTAsync_setBeforePersistenceWrite" [link "../_m_q_t_t_async_8h.html#a1002b09c62a096578c9b3e0135eb98c1" 1 "MQTTAsync.h"];
  entry "mqttasync_5fsetcallbacks_118" "MQTTAsync_setCallbacks" [link "../_m_q_t_t_async_8h.html#ae9ae8d61023e7029ef5a19f5219c3599" 1 "MQTTAsync.h"];
  entry "mqttasync_5fsetconnected_119" "MQTTAsync_setConnected" [link "../_m_q_t_t_async_8h.html#a18cc19740d9b00c629dc53a4420ecf1f" 1 "MQTTAsync.h"];
  entry "mqttasync_5fsetconnectionlostcallback_120" "MQTTAsync_setConnectionLostCallback" [link "../_m_q_t_t_async_8h.html#aee15bbd9224efd9dcce9b4ae491b2e2e" 1 "MQTTAsync.h"];
  entry "mqttasync_5fsetdeliverycompletecallback_121" "MQTTAsync_setDeliveryCompleteCallback" [link "../_m_q_t_t_async_8h.html#a94ec624ee22cc01d2ca58a9e646a2665" 1 "MQTTAsync.h"];
  entry "mqttasync_5fsetdisconnected_122" "MQTTAsync_setDisconnected" [link "../_m_q_t_t_async_8h.html#ada4dd26d23c8849c51e4ab8200339040" 1 "MQTTAsync.h"];
  entry "mqttasync_5fsetmessagearrivedcallback_123" "MQTTAsync_setMessageArrivedCallback" [link "../_m_q_t_t_async_8h.html#a44abc360051b918a39b0596a137775ae" 1 "MQTTAsync.h"];
  entry "mqttasync_5fsettracecallback_124" "MQTTAsync_setTraceCallback" [link "../_m_q_t_t_async_8h.html#a0b350581324a4ff0eaee71e7a6721388" 1 "MQTTAsync.h"];
  entry "mqttasync_5fsettracelevel_125" "MQTTAsync_setTraceLevel" [link "../_m_q_t_t_async_8h.html#ac7fbab13a0b2e5dd4ee11efbbb9f6a3a" 1 "MQTTAsync.h"];
  entry "mqttasync_5fsetupdateconnectoptions_126" "MQTTAsync_setUpdateConnectOptions" [link "../_m_q_t_t_async_8h.html#aa078aec3eba83481f63db3c3939a5da9" 1 "MQTTAsync.h"];
  entry "mqttasync_5fssl_5fnot_5fsupported_127" "MQTTASYNC_SSL_NOT_SUPPORTED" [link "../_m_q_t_t_async_8h.html#a6992c00553db1608aef9e162c161d73c" 1 "MQTTAsync.h"];
  entry "mqttasync_5fssloptions_128" "MQTTAsync_SSLOptions" [link "../struct_m_q_t_t_async___s_s_l_options.html" 1 EmptyString];
  entry "mqttasync_5fssloptions_5finitializer_129" "MQTTAsync_SSLOptions_initializer" [link "../_m_q_t_t_async_8h.html#aac935e2e9d770a53ee8189f128530511" 1 "MQTTAsync.h"];
  entry "mqttasync_5fstrerror_130" "MQTTAsync_strerror" [link "../_m_q_t_t_async_8h.html#a875cd089a8b23eb3fd50c0406fc75d9f" 1 "MQTTAsync.h"];
  entry "mqttasync_5fsubscribe_131" "MQTTAsync_subscribe" [link "../_m_q_t_t_async_8h.html#ae10bd009934b3bb4a9f4abae7424a611" 1 "MQTTAsync.h"];
  entry "mqttasync_5fsubscribemany_132" "MQTTAsync_subscribeMany" [link "../_m_q_t_t_async_8h.html#ac78620b33434a187255bd1a3faec1578" 1 "MQTTAsync.h"];
  entry "mqttasync_5fsuccess_133" "MQTTASYNC_SUCCESS" [link "../_m_q_t_t_async_8h.html#afe0cffcce8efe25186f79c51ac44e16f" 1 "MQTTAsync.h"];
  entry "mqttasync_5fsuccessdata_134" "MQTTAsync_successData" [link "../struct_m_q_t_t_async__success_data.html" 1 EmptyString];
  entry "mqttasync_5fsuccessdata5_135" "MQTTAsync_successData5" [link "../struct_m_q_t_t_async__success_data5.html" 1 EmptyString];
  entry "mqttasync_5fsuccessdata5_5finitializer_136" "MQTTAsync_successData5_initializer" [link "../_m_q_t_t_async_8h.html#a6182ec90ec4a134465f627b324ac5a41" 1 "MQTTAsync.h"];
  entry "mqttasync_5ftoken_137" "MQTTAsync_token" [link "../_m_q_t_t_async_8h.html#a7ca6d2a1813f2bbd0bc3af2771e46ba4" 1 "MQTTAsync.h"];
  entry "mqttasync_5ftopicname_5ftruncated_138" "MQTTASYNC_TOPICNAME_TRUNCATED" [link "../_m_q_t_t_async_8h.html#a77a7106d97ff60be3fe70f90b1867800" 1 "MQTTAsync.h"];
  entry "mqttasync_5ftrace_5ferror_139" "MQTTASYNC_TRACE_ERROR" [link "../_m_q_t_t_async_8h.html#a5de816f986b318947709a34e0787eda5ac428f74ca453dacb7b8271ca741266e8" 1 "MQTTAsync.h"];
  entry "mqttasync_5ftrace_5ffatal_140" "MQTTASYNC_TRACE_FATAL" [link "../_m_q_t_t_async_8h.html#a5de816f986b318947709a34e0787eda5a0b91d2213ebb6655e41a7f6ce1a42295" 1 "MQTTAsync.h"];
  entry "mqttasync_5ftrace_5flevels_141" "MQTTASYNC_TRACE_LEVELS" [link "../_m_q_t_t_async_8h.html#a5de816f986b318947709a34e0787eda5" 1 "MQTTAsync.h"];
  entry "mqttasync_5ftrace_5fmaximum_142" "MQTTASYNC_TRACE_MAXIMUM" [link "../_m_q_t_t_async_8h.html#a5de816f986b318947709a34e0787eda5af684f42971cced68693ce993703548c1" 1 "MQTTAsync.h"];
  entry "mqttasync_5ftrace_5fmedium_143" "MQTTASYNC_TRACE_MEDIUM" [link "../_m_q_t_t_async_8h.html#a5de816f986b318947709a34e0787eda5a133c380b84d75477ff31a2ad732133ce" 1 "MQTTAsync.h"];
  entry "mqttasync_5ftrace_5fminimum_144" "MQTTASYNC_TRACE_MINIMUM" [link "../_m_q_t_t_async_8h.html#a5de816f986b318947709a34e0787eda5a7a45c26816b1cac1fde02d79a9f4337b" 1 "MQTTAsync.h"];
  entry "mqttasync_5ftrace_5fprotocol_145" "MQTTASYNC_TRACE_PROTOCOL" [link "../_m_q_t_t_async_8h.html#a5de816f986b318947709a34e0787eda5a6a719b2b7fc4dfc41494370ff96fec3e" 1 "MQTTAsync.h"];
  entry "mqttasync_5ftrace_5fsevere_146" "MQTTASYNC_TRACE_SEVERE" [link "../_m_q_t_t_async_8h.html#a5de816f986b318947709a34e0787eda5a3084770185f384398cefe4aaba533d40" 1 "MQTTAsync.h"];
  entry "mqttasync_5ftracecallback_147" "MQTTAsync_traceCallback" [link "../_m_q_t_t_async_8h.html#a65aba1caeae9b5af5d5b6c5598a75b02" 1 "MQTTAsync.h"];
  entry "mqttasync_5ftrue_148" "MQTTASYNC_TRUE" [link "../_m_q_t_t_async_8h.html#a61e6ee632e63312d382e2fcbe427f01a" 1 "MQTTAsync.h"];
  entry "mqttasync_5funsubscribe_149" "MQTTAsync_unsubscribe" [link "../_m_q_t_t_async_8h.html#a08d18ece91c1b011011354570d8ac1ab" 1 "MQTTAsync.h"];
  entry "mqttasync_5funsubscribemany_150" "MQTTAsync_unsubscribeMany" [link "../_m_q_t_t_async_8h.html#a69fd433ce1b9b6a1b3b453c4793a9311" 1 "MQTTAsync.h"];
  entry "mqttasync_5fupdateconnectoptions_151" "MQTTAsync_updateConnectOptions" [link "../_m_q_t_t_async_8h.html#a5e44304a2c011a7d61b72c779ad83979" 1 "MQTTAsync.h"];
  entry "mqttasync_5fwaitforcompletion_152" "MQTTAsync_waitForCompletion" [link "../_m_q_t_t_async_8h.html#a4fe09cc9c976b1cf424e13765d6cd8c9" 1 "MQTTAsync.h"];
  entry "mqttasync_5fwilloptions_153" "MQTTAsync_willOptions" [link "../struct_m_q_t_t_async__will_options.html" 1 EmptyString];
  entry "mqttasync_5fwilloptions_5finitializer_154" "MQTTAsync_willOptions_initializer" [link "../_m_q_t_t_async_8h.html#a6c45768e1b28844f2ac0f6ac68709730" 1 "MQTTAsync.h"];
  entry "mqttasync_5fwrong_5fmqtt_5fversion_155" "MQTTASYNC_WRONG_MQTT_VERSION" [link "../_m_q_t_t_async_8h.html#af5df806e9767e1e3182fe089a8ee551b" 1 "MQTTAsync.h"];
  entry "mqttclient_5fpersistence_156" "MQTTClient_persistence" [link "../struct_m_q_t_t_client__persistence.html" 1 EmptyString];
  entry "mqttclient_5fpersistence_5fdefault_157" "MQTTCLIENT_PERSISTENCE_DEFAULT" [link "../_m_q_t_t_client_persistence_8h.html#aaa948291718a9c06369b854b0f64bc32" 1 "MQTTClientPersistence.h"];
  entry "mqttclient_5fpersistence_5ferror_158" "MQTTCLIENT_PERSISTENCE_ERROR" [link "../_m_q_t_t_client_persistence_8h.html#ab716e21e53c84a5ad62aa962a2a8f7db" 1 "MQTTClientPersistence.h"];
  entry "mqttclient_5fpersistence_5fnone_159" "MQTTCLIENT_PERSISTENCE_NONE" [link "../_m_q_t_t_client_persistence_8h.html#ae01e089313a65ac4661ed216b6ac00fa" 1 "MQTTClientPersistence.h"];
  entry "mqttclient_5fpersistence_5fuser_160" "MQTTCLIENT_PERSISTENCE_USER" [link "../_m_q_t_t_client_persistence_8h.html#a5dc68b8616e4041e037bad94ce07681b" 1 "MQTTClientPersistence.h"];
  entry "mqttclientpersistence_2eh_161" "MQTTClientPersistence.h" [link "../_m_q_t_t_client_persistence_8h.html" 1 EmptyString];
  entry "mqttlenstring_162" "MQTTLenString" [link "../struct_m_q_t_t_len_string.html" 1 EmptyString];
  entry "mqttpersistence_5fafterread_163" "MQTTPersistence_afterRead" [link "../_m_q_t_t_client_persistence_8h.html#af5a966a574c6ad7a35f1ebb7edd5c1c4" 1 "MQTTClientPersistence.h"];
  entry "mqttpersistence_5fbeforewrite_164" "MQTTPersistence_beforeWrite" [link "../_m_q_t_t_client_persistence_8h.html#ab865640a1cc53b68622004c5a2d29fae" 1 "MQTTClientPersistence.h"];
  entry "mqttproperties_165" "MQTTProperties" [link "../_m_q_t_t_properties_8h.html#a7758f1a5eceb6f46c8540630e39e2fb4" 1 "MQTTProperties():&#160;MQTTProperties.h"; link "../struct_m_q_t_t_properties.html" 1 "MQTTProperties"];
  entry "mqttproperties_2eh_166" "MQTTProperties.h" [link "../_m_q_t_t_properties_8h.html" 1 EmptyString];
  entry "mqttproperties_5fadd_167" "MQTTProperties_add" [link "../_m_q_t_t_properties_8h.html#a88f1d21556c2d23330d71357cd226a15" 1 "MQTTProperties.h"];
  entry "mqttproperties_5fcopy_168" "MQTTProperties_copy" [link "../_m_q_t_t_properties_8h.html#a69b3e474ee2f828e5b827d615fe0fe72" 1 "MQTTProperties.h"];
  entry "mqttproperties_5ffree_169" "MQTTProperties_free" [link "../_m_q_t_t_properties_8h.html#ab68247ed365ee51170a9309c828b1823" 1 "MQTTProperties.h"];
  entry "mqttproperties_5fgetnumericvalue_170" "MQTTProperties_getNumericValue" [link "../_m_q_t_t_properties_8h.html#afa777eb796532a3c0c59ddc40aca3792" 1 "MQTTProperties.h"];
  entry "mqttproperties_5fgetnumericvalueat_171" "MQTTProperties_getNumericValueAt" [link "../_m_q_t_t_properties_8h.html#abc6bc80d9bb644c9b4a66b6808829a53" 1 "MQTTProperties.h"];
  entry "mqttproperties_5fgetproperty_172" "MQTTProperties_getProperty" [link "../_m_q_t_t_properties_8h.html#a788b033cbed8a7906799fccbb1463f20" 1 "MQTTProperties.h"];
  entry "mqttproperties_5fgetpropertyat_173" "MQTTProperties_getPropertyAt" [link "../_m_q_t_t_properties_8h.html#ac6942d8fafb5794591fc558b4bb06beb" 1 "MQTTProperties.h"];
  entry "mqttproperties_5fhasproperty_174" "MQTTProperties_hasProperty" [link "../_m_q_t_t_properties_8h.html#a4ccdf6a712c3d803a16a4d3f00f9be2f" 1 "MQTTProperties.h"];
  entry "mqttproperties_5finitializer_175" "MQTTProperties_initializer" [link "../_m_q_t_t_properties_8h.html#a5a80e158486a414ccdfcdd7f75f23988" 1 "MQTTProperties.h"];
  entry "mqttproperties_5flen_176" "MQTTProperties_len" [link "../_m_q_t_t_properties_8h.html#ab7ad6f14e2dc7576d35827a28b0dc81d" 1 "MQTTProperties.h"];
  entry "mqttproperties_5fpropertycount_177" "MQTTProperties_propertyCount" [link "../_m_q_t_t_properties_8h.html#a6f0d8b230c2e7008c7639cfce1c04429" 1 "MQTTProperties.h"];
  entry "mqttproperties_5fread_178" "MQTTProperties_read" [link "../_m_q_t_t_properties_8h.html#afcb874dfcc9f0eaa0b063e2fad740871" 1 "MQTTProperties.h"];
  entry "mqttproperties_5fwrite_179" "MQTTProperties_write" [link "../_m_q_t_t_properties_8h.html#ade0027a4e571bd288fe40271ff7aa497" 1 "MQTTProperties.h"];
  entry "mqttproperty_180" "MQTTProperty" [link "../struct_m_q_t_t_property.html" 1 EmptyString];
  entry "mqttproperty_5fcode_5fassigned_5fclient_5fidentifer_181" "MQTTPROPERTY_CODE_ASSIGNED_CLIENT_IDENTIFER" [link "../_m_q_t_t_properties_8h.html#af623c1b670dfe3fda633c068e054d8b4a768d84858fd18d5d5a7dee394929c672" 1 "MQTTProperties.h"];
  entry "mqttproperty_5fcode_5fauthentication_5fdata_182" "MQTTPROPERTY_CODE_AUTHENTICATION_DATA" [link "../_m_q_t_t_properties_8h.html#af623c1b670dfe3fda633c068e054d8b4abdf9feec165aceefbe7aa46764f6ab6e" 1 "MQTTProperties.h"];
  entry "mqttproperty_5fcode_5fauthentication_5fmethod_183" "MQTTPROPERTY_CODE_AUTHENTICATION_METHOD" [link "../_m_q_t_t_properties_8h.html#af623c1b670dfe3fda633c068e054d8b4a7c53f1e414b577d787b5d51af3204100" 1 "MQTTProperties.h"];
  entry "mqttproperty_5fcode_5fcontent_5ftype_184" "MQTTPROPERTY_CODE_CONTENT_TYPE" [link "../_m_q_t_t_properties_8h.html#af623c1b670dfe3fda633c068e054d8b4a4027d9e0fb53a62ae35963e700b56198" 1 "MQTTProperties.h"];
  entry "mqttproperty_5fcode_5fcorrelation_5fdata_185" "MQTTPROPERTY_CODE_CORRELATION_DATA" [link "../_m_q_t_t_properties_8h.html#af623c1b670dfe3fda633c068e054d8b4a887d3dd3f0ce31255324f5a1ba8b72c5" 1 "MQTTProperties.h"];
  entry "mqttproperty_5fcode_5fmaximum_5fpacket_5fsize_186" "MQTTPROPERTY_CODE_MAXIMUM_PACKET_SIZE" [link "../_m_q_t_t_properties_8h.html#af623c1b670dfe3fda633c068e054d8b4a6834ea9878f028d5fbdeccaaeae492e5" 1 "MQTTProperties.h"];
  entry "mqttproperty_5fcode_5fmaximum_5fqos_187" "MQTTPROPERTY_CODE_MAXIMUM_QOS" [link "../_m_q_t_t_properties_8h.html#af623c1b670dfe3fda633c068e054d8b4a506faeb89c407cf78853c777d750fa59" 1 "MQTTProperties.h"];
  entry "mqttproperty_5fcode_5fmessage_5fexpiry_5finterval_188" "MQTTPROPERTY_CODE_MESSAGE_EXPIRY_INTERVAL" [link "../_m_q_t_t_properties_8h.html#af623c1b670dfe3fda633c068e054d8b4a284c0e62d47ee8d358b16a8075632b4a" 1 "MQTTProperties.h"];
  entry "mqttproperty_5fcode_5fpayload_5fformat_5findicator_189" "MQTTPROPERTY_CODE_PAYLOAD_FORMAT_INDICATOR" [link "../_m_q_t_t_properties_8h.html#af623c1b670dfe3fda633c068e054d8b4ae5d077520427d03b44096f631411575d" 1 "MQTTProperties.h"];
  entry "mqttproperty_5fcode_5freason_5fstring_190" "MQTTPROPERTY_CODE_REASON_STRING" [link "../_m_q_t_t_properties_8h.html#af623c1b670dfe3fda633c068e054d8b4a3dce8f679474e901ce4aec076e9e59e1" 1 "MQTTProperties.h"];
  entry "mqttproperty_5fcode_5freceive_5fmaximum_191" "MQTTPROPERTY_CODE_RECEIVE_MAXIMUM" [link "../_m_q_t_t_properties_8h.html#af623c1b670dfe3fda633c068e054d8b4ab2688fe8d7d263c27c00d41776cb8f9f" 1 "MQTTProperties.h"];
  entry "mqttproperty_5fcode_5frequest_5fproblem_5finformation_192" "MQTTPROPERTY_CODE_REQUEST_PROBLEM_INFORMATION" [link "../_m_q_t_t_properties_8h.html#af623c1b670dfe3fda633c068e054d8b4a3954daf1d5772b5d56eefa1ab6a28aa1" 1 "MQTTProperties.h"];
  entry "mqttproperty_5fcode_5frequest_5fresponse_5finformation_193" "MQTTPROPERTY_CODE_REQUEST_RESPONSE_INFORMATION" [link "../_m_q_t_t_properties_8h.html#af623c1b670dfe3fda633c068e054d8b4a420b882a337dc1fd5f336ac6cd0529bf" 1 "MQTTProperties.h"];
  entry "mqttproperty_5fcode_5fresponse_5finformation_194" "MQTTPROPERTY_CODE_RESPONSE_INFORMATION" [link "../_m_q_t_t_properties_8h.html#af623c1b670dfe3fda633c068e054d8b4a2584b050f016af496c7f0b46692dbc00" 1 "MQTTProperties.h"];
  entry "mqttproperty_5fcode_5fresponse_5ftopic_195" "MQTTPROPERTY_CODE_RESPONSE_TOPIC" [link "../_m_q_t_t_properties_8h.html#af623c1b670dfe3fda633c068e054d8b4a7fa9996eef721d318504fbb0a8d4bac5" 1 "MQTTProperties.h"];
  entry "mqttproperty_5fcode_5fretain_5favailable_196" "MQTTPROPERTY_CODE_RETAIN_AVAILABLE" [link "../_m_q_t_t_properties_8h.html#af623c1b670dfe3fda633c068e054d8b4a448b3a40afaa5f7195701e7dc8bed30c" 1 "MQTTProperties.h"];
  entry "mqttproperty_5fcode_5fserver_5fkeep_5falive_197" "MQTTPROPERTY_CODE_SERVER_KEEP_ALIVE" [link "../_m_q_t_t_properties_8h.html#af623c1b670dfe3fda633c068e054d8b4ab106f320e7537b79644f25d3efcd68c7" 1 "MQTTProperties.h"];
  entry "mqttproperty_5fcode_5fserver_5freference_198" "MQTTPROPERTY_CODE_SERVER_REFERENCE" [link "../_m_q_t_t_properties_8h.html#af623c1b670dfe3fda633c068e054d8b4a0168e8a59f7994c02b7a7fd2fc3735c4" 1 "MQTTProperties.h"];
  entry "mqttproperty_5fcode_5fsession_5fexpiry_5finterval_199" "MQTTPROPERTY_CODE_SESSION_EXPIRY_INTERVAL" [link "../_m_q_t_t_properties_8h.html#af623c1b670dfe3fda633c068e054d8b4a22e4caa63f63ca3f9b1c1330711ee766" 1 "MQTTProperties.h"];
  entry "mqttproperty_5fcode_5fshared_5fsubscription_5favailable_200" "MQTTPROPERTY_CODE_SHARED_SUBSCRIPTION_AVAILABLE" [link "../_m_q_t_t_properties_8h.html#af623c1b670dfe3fda633c068e054d8b4ae04a7356f9e11654f15a3b21f2aae636" 1 "MQTTProperties.h"];
  entry "mqttproperty_5fcode_5fsubscription_5fidentifier_201" "MQTTPROPERTY_CODE_SUBSCRIPTION_IDENTIFIER" [link "../_m_q_t_t_properties_8h.html#af623c1b670dfe3fda633c068e054d8b4a70ead9c93f06396a4d9469b65bff0c96" 1 "MQTTProperties.h"];
  entry "mqttproperty_5fcode_5fsubscription_5fidentifiers_5favailable_202" "MQTTPROPERTY_CODE_SUBSCRIPTION_IDENTIFIERS_AVAILABLE" [link "../_m_q_t_t_properties_8h.html#af623c1b670dfe3fda633c068e054d8b4a8b366cfd8bd3f388bafb67f3ebf83505" 1 "MQTTProperties.h"];
  entry "mqttproperty_5fcode_5ftopic_5falias_203" "MQTTPROPERTY_CODE_TOPIC_ALIAS" [link "../_m_q_t_t_properties_8h.html#af623c1b670dfe3fda633c068e054d8b4ad4dfb37d341ea190afc144668e5e3bee" 1 "MQTTProperties.h"];
  entry "mqttproperty_5fcode_5ftopic_5falias_5fmaximum_204" "MQTTPROPERTY_CODE_TOPIC_ALIAS_MAXIMUM" [link "../_m_q_t_t_properties_8h.html#af623c1b670dfe3fda633c068e054d8b4a0a0b0b0715ecc9ccf471c75aa4c21c23" 1 "MQTTProperties.h"];
  entry "mqttproperty_5fcode_5fuser_5fproperty_205" "MQTTPROPERTY_CODE_USER_PROPERTY" [link "../_m_q_t_t_properties_8h.html#af623c1b670dfe3fda633c068e054d8b4a596ff540370235d3eca693ce30dd4af8" 1 "MQTTProperties.h"];
  entry "mqttproperty_5fcode_5fwildcard_5fsubscription_5favailable_206" "MQTTPROPERTY_CODE_WILDCARD_SUBSCRIPTION_AVAILABLE" [link "../_m_q_t_t_properties_8h.html#af623c1b670dfe3fda633c068e054d8b4ad05993f90baaee0ba7094ccef4d378b9" 1 "MQTTProperties.h"];
  entry "mqttproperty_5fcode_5fwill_5fdelay_5finterval_207" "MQTTPROPERTY_CODE_WILL_DELAY_INTERVAL" [link "../_m_q_t_t_properties_8h.html#af623c1b670dfe3fda633c068e054d8b4a53fd81bc554f152a2772d282be7ce5ef" 1 "MQTTProperties.h"];
  entry "mqttproperty_5fgettype_208" "MQTTProperty_getType" [link "../_m_q_t_t_properties_8h.html#a7d30ad0520bc9b9366e700d4b493b173" 1 "MQTTProperties.h"];
  entry "mqttproperty_5ftype_5fbinary_5fdata_209" "MQTTPROPERTY_TYPE_BINARY_DATA" [link "../_m_q_t_t_properties_8h.html#a942f52ef7c232829f6df5c86e07cc958a6643aed682b9b07f98159856776fe7b4" 1 "MQTTProperties.h"];
  entry "mqttproperty_5ftype_5fbyte_210" "MQTTPROPERTY_TYPE_BYTE" [link "../_m_q_t_t_properties_8h.html#a942f52ef7c232829f6df5c86e07cc958ac36f96ce58c98a8ebbe0783df030726a" 1 "MQTTProperties.h"];
  entry "mqttproperty_5ftype_5ffour_5fbyte_5finteger_211" "MQTTPROPERTY_TYPE_FOUR_BYTE_INTEGER" [link "../_m_q_t_t_properties_8h.html#a942f52ef7c232829f6df5c86e07cc958aa49c558733bd735ae872fd87ad0d7e15" 1 "MQTTProperties.h"];
  entry "mqttproperty_5ftype_5ftwo_5fbyte_5finteger_212" "MQTTPROPERTY_TYPE_TWO_BYTE_INTEGER" [link "../_m_q_t_t_properties_8h.html#a942f52ef7c232829f6df5c86e07cc958ae301a9e68326cc2d8bfefeca401e78e6" 1 "MQTTProperties.h"];
  entry "mqttproperty_5ftype_5futf_5f8_5fencoded_5fstring_213" "MQTTPROPERTY_TYPE_UTF_8_ENCODED_STRING" [link "../_m_q_t_t_properties_8h.html#a942f52ef7c232829f6df5c86e07cc958ad45c866a5bef6c5048a7af21405734d1" 1 "MQTTProperties.h"];
  entry "mqttproperty_5ftype_5futf_5f8_5fstring_5fpair_214" "MQTTPROPERTY_TYPE_UTF_8_STRING_PAIR" [link "../_m_q_t_t_properties_8h.html#a942f52ef7c232829f6df5c86e07cc958a28ab5fe5b159f3b3a8884b0f61527214" 1 "MQTTProperties.h"];
  entry "mqttproperty_5ftype_5fvariable_5fbyte_5finteger_215" "MQTTPROPERTY_TYPE_VARIABLE_BYTE_INTEGER" [link "../_m_q_t_t_properties_8h.html#a942f52ef7c232829f6df5c86e07cc958a27bbcb5bc4f584f96612c0cec329c6a7" 1 "MQTTProperties.h"];
  entry "mqttpropertycodes_216" "MQTTPropertyCodes" [link "../_m_q_t_t_properties_8h.html#af623c1b670dfe3fda633c068e054d8b4" 1 "MQTTProperties.h"];
  entry "mqttpropertyname_217" "MQTTPropertyName" [link "../_m_q_t_t_properties_8h.html#afa0a7306d7b6174c5bc417ca49d99851" 1 "MQTTProperties.h"];
  entry "mqttpropertytypes_218" "MQTTPropertyTypes" [link "../_m_q_t_t_properties_8h.html#a942f52ef7c232829f6df5c86e07cc958" 1 "MQTTProperties.h"];
  entry "mqttreasoncode_5fadministrative_5faction_219" "MQTTREASONCODE_ADMINISTRATIVE_ACTION" [link "../_m_q_t_t_reason_codes_8h.html#aba6db0fccfa3f8972ea48117b8b2a279ae1e3b428072be26d2cbf6f88361f76cc" 1 "MQTTReasonCodes.h"];
  entry "mqttreasoncode_5fbad_5fauthentication_5fmethod_220" "MQTTREASONCODE_BAD_AUTHENTICATION_METHOD" [link "../_m_q_t_t_reason_codes_8h.html#aba6db0fccfa3f8972ea48117b8b2a279af62e569703d7a7f0acffaa59522b9dc3" 1 "MQTTReasonCodes.h"];
  entry "mqttreasoncode_5fbad_5fuser_5fname_5for_5fpassword_221" "MQTTREASONCODE_BAD_USER_NAME_OR_PASSWORD" [link "../_m_q_t_t_reason_codes_8h.html#aba6db0fccfa3f8972ea48117b8b2a279abfc617112d5856722108912c5c6633ff" 1 "MQTTReasonCodes.h"];
  entry "mqttreasoncode_5fbanned_222" "MQTTREASONCODE_BANNED" [link "../_m_q_t_t_reason_codes_8h.html#aba6db0fccfa3f8972ea48117b8b2a279ab4cf7578f0078293fa66a4cd5e5d4aa4" 1 "MQTTReasonCodes.h"];
  entry "mqttreasoncode_5fclient_5fidentifier_5fnot_5fvalid_223" "MQTTREASONCODE_CLIENT_IDENTIFIER_NOT_VALID" [link "../_m_q_t_t_reason_codes_8h.html#aba6db0fccfa3f8972ea48117b8b2a279ab58bb236e7dbd000a56c590c01bc73fd" 1 "MQTTReasonCodes.h"];
  entry "mqttreasoncode_5fconnection_5frate_5fexceeded_224" "MQTTREASONCODE_CONNECTION_RATE_EXCEEDED" [link "../_m_q_t_t_reason_codes_8h.html#aba6db0fccfa3f8972ea48117b8b2a279a879c56ed34fa2dd6492e7a34a9747bc1" 1 "MQTTReasonCodes.h"];
  entry "mqttreasoncode_5fcontinue_5fauthentication_225" "MQTTREASONCODE_CONTINUE_AUTHENTICATION" [link "../_m_q_t_t_reason_codes_8h.html#aba6db0fccfa3f8972ea48117b8b2a279a0c0726c0e87eaddd636708497c69d055" 1 "MQTTReasonCodes.h"];
  entry "mqttreasoncode_5fdisconnect_5fwith_5fwill_5fmessage_226" "MQTTREASONCODE_DISCONNECT_WITH_WILL_MESSAGE" [link "../_m_q_t_t_reason_codes_8h.html#aba6db0fccfa3f8972ea48117b8b2a279a55f533a6cc98417d08dac8cc69da0ed3" 1 "MQTTReasonCodes.h"];
  entry "mqttreasoncode_5fgranted_5fqos_5f0_227" "MQTTREASONCODE_GRANTED_QOS_0" [link "../_m_q_t_t_reason_codes_8h.html#aba6db0fccfa3f8972ea48117b8b2a279a3fd0d12c0e44b4df9f716aef89b61aff" 1 "MQTTReasonCodes.h"];
  entry "mqttreasoncode_5fgranted_5fqos_5f1_228" "MQTTREASONCODE_GRANTED_QOS_1" [link "../_m_q_t_t_reason_codes_8h.html#aba6db0fccfa3f8972ea48117b8b2a279a07578b30b2d72af2eeea6be268475876" 1 "MQTTReasonCodes.h"];
  entry "mqttreasoncode_5fgranted_5fqos_5f2_229" "MQTTREASONCODE_GRANTED_QOS_2" [link "../_m_q_t_t_reason_codes_8h.html#aba6db0fccfa3f8972ea48117b8b2a279a74ac34a39a849c9c369b18545a4b1f93" 1 "MQTTReasonCodes.h"];
  entry "mqttreasoncode_5fimplementation_5fspecific_5ferror_230" "MQTTREASONCODE_IMPLEMENTATION_SPECIFIC_ERROR" [link "../_m_q_t_t_reason_codes_8h.html#aba6db0fccfa3f8972ea48117b8b2a279a41629fa453cdf14ef6a5370a16d5a19c" 1 "MQTTReasonCodes.h"];
  entry "mqttreasoncode_5fkeep_5falive_5ftimeout_231" "MQTTREASONCODE_KEEP_ALIVE_TIMEOUT" [link "../_m_q_t_t_reason_codes_8h.html#aba6db0fccfa3f8972ea48117b8b2a279af21a6c320e34993d7aa169330ab23409" 1 "MQTTReasonCodes.h"];
  entry "mqttreasoncode_5fmalformed_5fpacket_232" "MQTTREASONCODE_MALFORMED_PACKET" [link "../_m_q_t_t_reason_codes_8h.html#aba6db0fccfa3f8972ea48117b8b2a279a2cbee3502c00d304bf1091195457fcf5" 1 "MQTTReasonCodes.h"];
  entry "mqttreasoncode_5fmaximum_5fconnect_5ftime_233" "MQTTREASONCODE_MAXIMUM_CONNECT_TIME" [link "../_m_q_t_t_reason_codes_8h.html#aba6db0fccfa3f8972ea48117b8b2a279a6f07c3b42690afc7b117321dc4e2657f" 1 "MQTTReasonCodes.h"];
  entry "mqttreasoncode_5fmessage_5frate_5ftoo_5fhigh_234" "MQTTREASONCODE_MESSAGE_RATE_TOO_HIGH" [link "../_m_q_t_t_reason_codes_8h.html#aba6db0fccfa3f8972ea48117b8b2a279af76d0e32fb44fa94e407b1af5dc7aa4e" 1 "MQTTReasonCodes.h"];
  entry "mqttreasoncode_5fno_5fmatching_5fsubscribers_235" "MQTTREASONCODE_NO_MATCHING_SUBSCRIBERS" [link "../_m_q_t_t_reason_codes_8h.html#aba6db0fccfa3f8972ea48117b8b2a279a1720d8b04af4c0d92e27b378d735e899" 1 "MQTTReasonCodes.h"];
  entry "mqttreasoncode_5fno_5fsubscription_5ffound_236" "MQTTREASONCODE_NO_SUBSCRIPTION_FOUND" [link "../_m_q_t_t_reason_codes_8h.html#aba6db0fccfa3f8972ea48117b8b2a279a55208c34a26f67e112d53c54be37acb9" 1 "MQTTReasonCodes.h"];
  entry "mqttreasoncode_5fnormal_5fdisconnection_237" "MQTTREASONCODE_NORMAL_DISCONNECTION" [link "../_m_q_t_t_reason_codes_8h.html#aba6db0fccfa3f8972ea48117b8b2a279a3590f41d984646bc58c82734c1516c92" 1 "MQTTReasonCodes.h"];
  entry "mqttreasoncode_5fnot_5fauthorized_238" "MQTTREASONCODE_NOT_AUTHORIZED" [link "../_m_q_t_t_reason_codes_8h.html#aba6db0fccfa3f8972ea48117b8b2a279a91a14fc763349cf4a7047d24f13d0803" 1 "MQTTReasonCodes.h"];
  entry "mqttreasoncode_5fpacket_5fidentifier_5fin_5fuse_239" "MQTTREASONCODE_PACKET_IDENTIFIER_IN_USE" [link "../_m_q_t_t_reason_codes_8h.html#aba6db0fccfa3f8972ea48117b8b2a279adaee01dbc97a0773b5032a29c797613a" 1 "MQTTReasonCodes.h"];
  entry "mqttreasoncode_5fpacket_5fidentifier_5fnot_5ffound_240" "MQTTREASONCODE_PACKET_IDENTIFIER_NOT_FOUND" [link "../_m_q_t_t_reason_codes_8h.html#aba6db0fccfa3f8972ea48117b8b2a279a4908a8293054f8ff8d6c47fe0cf31932" 1 "MQTTReasonCodes.h"];
  entry "mqttreasoncode_5fpacket_5ftoo_5flarge_241" "MQTTREASONCODE_PACKET_TOO_LARGE" [link "../_m_q_t_t_reason_codes_8h.html#aba6db0fccfa3f8972ea48117b8b2a279a11a587e15c468bf1c6ba9df7e8fd78aa" 1 "MQTTReasonCodes.h"];
  entry "mqttreasoncode_5fpayload_5fformat_5finvalid_242" "MQTTREASONCODE_PAYLOAD_FORMAT_INVALID" [link "../_m_q_t_t_reason_codes_8h.html#aba6db0fccfa3f8972ea48117b8b2a279a2d629400116e1723c5e2e597bbfe29ca" 1 "MQTTReasonCodes.h"];
  entry "mqttreasoncode_5fprotocol_5ferror_243" "MQTTREASONCODE_PROTOCOL_ERROR" [link "../_m_q_t_t_reason_codes_8h.html#aba6db0fccfa3f8972ea48117b8b2a279ae0dad403f352e31449764e2ac94c7756" 1 "MQTTReasonCodes.h"];
  entry "mqttreasoncode_5fqos_5fnot_5fsupported_244" "MQTTREASONCODE_QOS_NOT_SUPPORTED" [link "../_m_q_t_t_reason_codes_8h.html#aba6db0fccfa3f8972ea48117b8b2a279a83865a2440b512e5602152521e3810bb" 1 "MQTTReasonCodes.h"];
  entry "mqttreasoncode_5fquota_5fexceeded_245" "MQTTREASONCODE_QUOTA_EXCEEDED" [link "../_m_q_t_t_reason_codes_8h.html#aba6db0fccfa3f8972ea48117b8b2a279a954fcabf6e88925b2a57bcd84032d9f9" 1 "MQTTReasonCodes.h"];
  entry "mqttreasoncode_5fre_5fauthenticate_246" "MQTTREASONCODE_RE_AUTHENTICATE" [link "../_m_q_t_t_reason_codes_8h.html#aba6db0fccfa3f8972ea48117b8b2a279a6cc1b342856c1d96d54c368148b536f7" 1 "MQTTReasonCodes.h"];
  entry "mqttreasoncode_5freceive_5fmaximum_5fexceeded_247" "MQTTREASONCODE_RECEIVE_MAXIMUM_EXCEEDED" [link "../_m_q_t_t_reason_codes_8h.html#aba6db0fccfa3f8972ea48117b8b2a279a45afaacbefd2d816fddf9fe9804b61d1" 1 "MQTTReasonCodes.h"];
  entry "mqttreasoncode_5fretain_5fnot_5fsupported_248" "MQTTREASONCODE_RETAIN_NOT_SUPPORTED" [link "../_m_q_t_t_reason_codes_8h.html#aba6db0fccfa3f8972ea48117b8b2a279aa4378012148d98599398bc4a3480c38f" 1 "MQTTReasonCodes.h"];
  entry "mqttreasoncode_5fserver_5fbusy_249" "MQTTREASONCODE_SERVER_BUSY" [link "../_m_q_t_t_reason_codes_8h.html#aba6db0fccfa3f8972ea48117b8b2a279af507e75147b0b34f36955c9f62389a74" 1 "MQTTReasonCodes.h"];
  entry "mqttreasoncode_5fserver_5fmoved_250" "MQTTREASONCODE_SERVER_MOVED" [link "../_m_q_t_t_reason_codes_8h.html#aba6db0fccfa3f8972ea48117b8b2a279a783254c7acf8de52ee345bc176f9d6c0" 1 "MQTTReasonCodes.h"];
  entry "mqttreasoncode_5fserver_5fshutting_5fdown_251" "MQTTREASONCODE_SERVER_SHUTTING_DOWN" [link "../_m_q_t_t_reason_codes_8h.html#aba6db0fccfa3f8972ea48117b8b2a279a085e1572ffce61838807b7429b691113" 1 "MQTTReasonCodes.h"];
  entry "mqttreasoncode_5fserver_5funavailable_252" "MQTTREASONCODE_SERVER_UNAVAILABLE" [link "../_m_q_t_t_reason_codes_8h.html#aba6db0fccfa3f8972ea48117b8b2a279a0cfd4de78870b3fb0499b916d06d40bb" 1 "MQTTReasonCodes.h"];
  entry "mqttreasoncode_5fsession_5ftaken_5fover_253" "MQTTREASONCODE_SESSION_TAKEN_OVER" [link "../_m_q_t_t_reason_codes_8h.html#aba6db0fccfa3f8972ea48117b8b2a279ad15ffa6884f97976e237afafcbccea21" 1 "MQTTReasonCodes.h"];
  entry "mqttreasoncode_5fshared_5fsubscriptions_5fnot_5fsupported_254" "MQTTREASONCODE_SHARED_SUBSCRIPTIONS_NOT_SUPPORTED" [link "../_m_q_t_t_reason_codes_8h.html#aba6db0fccfa3f8972ea48117b8b2a279a1c694648e36a40162939a2785450b6bd" 1 "MQTTReasonCodes.h"];
  entry "mqttreasoncode_5fsubscription_5fidentifiers_5fnot_5fsupported_255" "MQTTREASONCODE_SUBSCRIPTION_IDENTIFIERS_NOT_SUPPORTED" [link "../_m_q_t_t_reason_codes_8h.html#aba6db0fccfa3f8972ea48117b8b2a279a7bcd0f9b21c398a217667aebb4107842" 1 "MQTTReasonCodes.h"];
  entry "mqttreasoncode_5fsuccess_256" "MQTTREASONCODE_SUCCESS" [link "../_m_q_t_t_reason_codes_8h.html#aba6db0fccfa3f8972ea48117b8b2a279a63b379af5fba8c0512b381a4dbe26969" 1 "MQTTReasonCodes.h"];
  entry "mqttreasoncode_5ftopic_5falias_5finvalid_257" "MQTTREASONCODE_TOPIC_ALIAS_INVALID" [link "../_m_q_t_t_reason_codes_8h.html#aba6db0fccfa3f8972ea48117b8b2a279a8e0fcdd051e154e319058600b58652ec" 1 "MQTTReasonCodes.h"];
  entry "mqttreasoncode_5ftopic_5ffilter_5finvalid_258" "MQTTREASONCODE_TOPIC_FILTER_INVALID" [link "../_m_q_t_t_reason_codes_8h.html#aba6db0fccfa3f8972ea48117b8b2a279a00319b171f469824dd6938cbd0212b5b" 1 "MQTTReasonCodes.h"];
  entry "mqttreasoncode_5ftopic_5fname_5finvalid_259" "MQTTREASONCODE_TOPIC_NAME_INVALID" [link "../_m_q_t_t_reason_codes_8h.html#aba6db0fccfa3f8972ea48117b8b2a279a6268968177868576f6b9239aa9afd8ac" 1 "MQTTReasonCodes.h"];
  entry "mqttreasoncode_5ftostring_260" "MQTTReasonCode_toString" [link "../_m_q_t_t_reason_codes_8h.html#a91922a5e3c1e5ec7670b6e296854f1b7" 1 "MQTTReasonCodes.h"];
  entry "mqttreasoncode_5funspecified_5ferror_261" "MQTTREASONCODE_UNSPECIFIED_ERROR" [link "../_m_q_t_t_reason_codes_8h.html#aba6db0fccfa3f8972ea48117b8b2a279a1881ee597bfef9157f0034a1377328e3" 1 "MQTTReasonCodes.h"];
  entry "mqttreasoncode_5funsupported_5fprotocol_5fversion_262" "MQTTREASONCODE_UNSUPPORTED_PROTOCOL_VERSION" [link "../_m_q_t_t_reason_codes_8h.html#aba6db0fccfa3f8972ea48117b8b2a279a021ceca20e6d35279075a2b93ece973d" 1 "MQTTReasonCodes.h"];
  entry "mqttreasoncode_5fuse_5fanother_5fserver_263" "MQTTREASONCODE_USE_ANOTHER_SERVER" [link "../_m_q_t_t_reason_codes_8h.html#aba6db0fccfa3f8972ea48117b8b2a279aabaee4062c4e4941b9eed59f09e9440c" 1 "MQTTReasonCodes.h"];
  entry "mqttreasoncode_5fwildcard_5fsubscriptions_5fnot_5fsupported_264" "MQTTREASONCODE_WILDCARD_SUBSCRIPTIONS_NOT_SUPPORTED" [link "../_m_q_t_t_reason_codes_8h.html#aba6db0fccfa3f8972ea48117b8b2a279a81b5708f676f52594b680f085e444e1f" 1 "MQTTReasonCodes.h"];
  entry "mqttreasoncodes_265" "MQTTReasonCodes" [link "../_m_q_t_t_reason_codes_8h.html#aba6db0fccfa3f8972ea48117b8b2a279" 1 "MQTTReasonCodes.h"];
  entry "mqttreasoncodes_2eh_266" "MQTTReasonCodes.h" [link "../_m_q_t_t_reason_codes_8h.html" 1 EmptyString];
  entry "mqttsubscribe_5foptions_267" "MQTTSubscribe_options" [link "../struct_m_q_t_t_subscribe__options.html" 1 "MQTTSubscribe_options"; link "../_m_q_t_t_subscribe_opts_8h.html#aa68db3eaed272ae1aaea294401079d8a" 1 "MQTTSubscribe_options():&#160;MQTTSubscribeOpts.h"];
  entry "mqttsubscribe_5foptions_5finitializer_268" "MQTTSubscribe_options_initializer" [link "../_m_q_t_t_subscribe_opts_8h.html#aec3b45fd0367106eea344396f87cfda7" 1 "MQTTSubscribeOpts.h"];
  entry "mqttsubscribeopts_2eh_269" "MQTTSubscribeOpts.h" [link "../_m_q_t_t_subscribe_opts_8h.html" 1 EmptyString];
  entry "mqttversion_270" "MQTTVersion" [link "../struct_m_q_t_t_async__connect_options.html#a12d546fd0ccf4e1091b18e1b735c7240" 1 "MQTTAsync_connectOptions::MQTTVersion()"; link "../struct_m_q_t_t_async__success_data.html#a12d546fd0ccf4e1091b18e1b735c7240" 1 "MQTTAsync_successData::MQTTVersion()"; link "../struct_m_q_t_t_async__success_data5.html#a12d546fd0ccf4e1091b18e1b735c7240" 1 "MQTTAsync_successData5::MQTTVersion()"; link "../struct_m_q_t_t_async__create_options.html#a12d546fd0ccf4e1091b18e1b735c7240" 1 "MQTTAsync_createOptions::MQTTVersion()"];
  entry "mqttversion_5f3_5f1_271" "MQTTVERSION_3_1" [link "../_m_q_t_t_async_8h.html#a4603b988e76872e1f23f135d225ce2fb" 1 "MQTTAsync.h"];
  entry "mqttversion_5f3_5f1_5f1_272" "MQTTVERSION_3_1_1" [link "../_m_q_t_t_async_8h.html#ac79cc6fdeaa9e3f4ee12c3418898b1ef" 1 "MQTTAsync.h"];
  entry "mqttversion_5f5_273" "MQTTVERSION_5" [link "../_m_q_t_t_async_8h.html#af8b176fa4d5b89789767ce972338e1e3" 1 "MQTTAsync.h"];
  entry "mqttversion_5fdefault_274" "MQTTVERSION_DEFAULT" [link "../_m_q_t_t_async_8h.html#a75b80b01f98d5a1ffa2a4d42995a8397" 1 "MQTTAsync.h"];
  entry "msgid_275" "msgid" [link "../struct_m_q_t_t_async__message.html#a6174c42da8c55c86e7255be2848dc4ac" 1 "MQTTAsync_message"]].
Definition all_a : list SearchEntry := [
  entry "name_276" "name" [link "../struct_m_q_t_t_async__name_value.html#a8f8f80d37794cde9472343e4487ba3eb" 1 "MQTTAsync_nameValue"];
  entry "nolocal_277" "noLocal" [link "../struct_m_q_t_t_subscribe__options.html#abbb6a188886c12f305cbe69358515d8b" 1 "MQTTSubscribe_options"]].
Definition all_b : list SearchEntry := [
  entry "onfailure_278" "onFailure" [link "../struct_m_q_t_t_async__response_options.html#a09ce26d7cff24e14a6844eaae7b15290" 1 "MQTTAsync_responseOptions::onFailure()"; link "../struct_m_q_t_t_async__connect_options.html#a09ce26d7cff24e14a6844eaae7b15290" 1 "MQTTAsync_connectOptions::onFailure()"; link "../struct_m_q_t_t_async__disconnect_options.html#a09ce26d7cff24e14a6844eaae7b15290" 1 "MQTTAsync_disconnectOptions::onFailure()"];
  entry "onfailure5_279" "onFailure5" [link "../struct_m_q_t_t_async__response_options.html#a4dad726f2b6f79ca5847689c5f2f2ec2" 1 "MQTTAsync_responseOptions::onFailure5()"; link "../struct_m_q_t_t_async__connect_options.html#a4dad726f2b6f79ca5847689c5f2f2ec2" 1 "MQTTAsync_connectOptions::onFailure5()"; link "../struct_m_q_t_t_async__disconnect_options.html#a4dad726f2b6f79ca5847689c5f2f2ec2" 1 "MQTTAsync_disconnectOptions::onFailure5()"];
  entry "onsuccess_280" "onSuccess" [link "../struct_m_q_t_t_async__response_options.html#ac13fb68f736854fcab131b34756bfceb" 1 "MQTTAsync_responseOptions::onSuccess()"; link "../struct_m_q_t_t_async__connect_options.html#ac13fb68f736854fcab131b34756bfceb" 1 "MQTTAsync_connectOptions::onSuccess()"; link "../struct_m_q_t_t_async__disconnect_options.html#ac13fb68f736854fcab131b34756bfceb" 1 "MQTTAsync_disconnectOptions::onSuccess()"];
  entry "onsuccess5_281" "onSuccess5" [link "../struct_m_q_t_t_async__response_options.html#a1c23c490f06428725345de68a4ff0a3e" 1 "MQTTAsync_responseOptions::onSuccess5()"; link "../struct_m_q_t_t_async__connect_options.html#a1c23c490f06428725345de68a4ff0a3e" 1 "MQTTAsync_connectOptions::onSuccess5()"; link "../struct_m_q_t_t_async__disconnect_options.html#a1c23c490f06428725345de68a4ff0a3e" 1 "MQTTAsync_disconnectOptions::onSuccess5()"]].
Definition all_c : list SearchEntry := [
  entry "packet_5ftype_282" "packet_type" [link "../struct_m_q_t_t_async__failure_data5.html#a38dfee9f038f473c95af46fcef5dd3e9" 1 "MQTTAsync_failureData5"];
  entry "password_283" "password" [link "../struct_m_q_t_t_async__connect_options.html#aa4a2ebcb494493f648ae1e6975672575" 1 "MQTTAsync_connectOptions"];
  entry "payload_284" "payload" [link "../struct_m_q_t_t_async__message.html#a9eff55064941fb604452abb0050ea99d" 1 "MQTTAsync_message::payload()"; link "../struct_m_q_t_t_async__will_options.html#a93e9de18277b05bc7a033bdee98c908a" 1 "MQTTAsync_willOptions::payload()"];
  entry "payloadlen_285" "payloadlen" [link "../struct_m_q_t_t_async__message.html#aa3cb44feb3ae6d11b3a4cad2d94cb33a" 1 "MQTTAsync_message"];
  entry "pclear_286" "pclear" [link "../struct_m_q_t_t_client__persistence.html#abc192dc88113c7d933b29d3561badbf5" 1 "MQTTClient_persistence"];
  entry "pclose_287" "pclose" [link "../struct_m_q_t_t_client__persistence.html#a7e50506912d2ec0e014cc25ec28fb402" 1 "MQTTClient_persistence"];
  entry "pcontainskey_288" "pcontainskey" [link "../struct_m_q_t_t_client__persistence.html#ac103711576267f791325f2b70b6dc49d" 1 "MQTTClient_persistence"];
  entry "persistence_5fclear_289" "Persistence_clear" [link "../_m_q_t_t_client_persistence_8h.html#acee7097c1a0ab44b98c870f533687887" 1 "MQTTClientPersistence.h"];
  entry "persistence_5fclose_290" "Persistence_close" [link "../_m_q_t_t_client_persistence_8h.html#a3582de2c87e89f617e8e553b2a0e279a" 1 "MQTTClientPersistence.h"];
  entry "persistence_5fcontainskey_291" "Persistence_containskey" [link "../_m_q_t_t_client_persistence_8h.html#a753a0f9a9c51284d63a907af19c7bbba" 1 "MQTTClientPersistence.h"];
  entry "persistence_5fget_292" "Persistence_get" [link "../_m_q_t_t_client_persistence_8h.html#adc3aff3c570fa5509e9d6814a85ab867" 1 "MQTTClientPersistence.h"];
  entry "persistence_5fkeys_293" "Persistence_keys" [link "../_m_q_t_t_client_persistence_8h.html#a2601cc91eeabdbf9578f8dd45e4997a8" 1 "MQTTClientPersistence.h"];
  entry "persistence_5fopen_294" "Persistence_open" [link "../_m_q_t_t_client_persistence_8h.html#a4c7d332bb16907058ae3b375488b6008" 1 "MQTTClientPersistence.h"];
  entry "persistence_5fput_295" "Persistence_put" [link "../_m_q_t_t_client_persistence_8h.html#a44679cab77cfbd6e2a4639cdd27ac80c" 1 "MQTTClientPersistence.h"];
  entry "persistence_5fremove_296" "Persistence_remove" [link "../_m_q_t_t_client_persistence_8h.html#a73350bf7208658bf5434a59f7bdbae90" 1 "MQTTClientPersistence.h"];
  entry "persistqos0_297" "persistQoS0" [link "../struct_m_q_t_t_async__create_options.html#a0c3ea2641e188542c787e71e2c521a0b" 1 "MQTTAsync_createOptions"];
  entry "pget_298" "pget" [link "../struct_m_q_t_t_client__persistence.html#a49155000b82a28ac3b3cb878f3a092d4" 1 "MQTTClient_persistence"];
  entry "pkeys_299" "pkeys" [link "../struct_m_q_t_t_client__persistence.html#a407e86a809e4b0b098a8c158f53b9606" 1 "MQTTClient_persistence"];
  entry "popen_300" "popen" [link "../struct_m_q_t_t_client__persistence.html#a1bae211b32415e6b349d5ae71599f9f4" 1 "MQTTClient_persistence"];
  entry "pput_301" "pput" [link "../struct_m_q_t_t_client__persistence.html#a4114d9b9971cee18d7e4b9dd5736a608" 1 "MQTTClient_persistence"];
  entry "premove_302" "premove" [link "../struct_m_q_t_t_client__persistence.html#a53150e443ca721b8623689371c2fbdb9" 1 "MQTTClient_persistence"];
  entry "privatekey_303" "privateKey" [link "../struct_m_q_t_t_async___s_s_l_options.html#a7dd436cbb916fba200595c3519f09ec4" 1 "MQTTAsync_SSLOptions"];
  entry "privatekeypassword_304" "privateKeyPassword" [link "../struct_m_q_t_t_async___s_s_l_options.html#abb427571ba37b51f6985f1a6906ca031" 1 "MQTTAsync_SSLOptions"];
  entry "properties_305" "properties" [link "../struct_m_q_t_t_async__failure_data5.html#a1594008402f7307e4de8fa6131656dde" 1 "MQTTAsync_failureData5::properties()"; link "../struct_m_q_t_t_async__disconnect_options.html#a1594008402f7307e4de8fa6131656dde" 1 "MQTTAsync_disconnectOptions::properties()"; link "../struct_m_q_t_t_async__response_options.html#a1594008402f7307e4de8fa6131656dde" 1 "MQTTAsync_responseOptions::properties()"; link "../struct_m_q_t_t_async__success_data5.html#a1594008402f7307e4de8fa6131656dde" 1 "MQTTAsync_successData5::properties()"; link "../struct_m_q_t_t_async__message.html#a1594008402f7307e4de8fa6131656dde" 1 "MQTTAsync_message::properties()"];
  entry "protos_306" "protos" [link "../struct_m_q_t_t_async___s_s_l_options.html#a4f8661600fb8bacf031150f8dcd293a5" 1 "MQTTAsync_SSLOptions"];
  entry "protos_5flen_307" "protos_len" [link "../struct_m_q_t_t_async___s_s_l_options.html#a26f5d839c92f9772c2a5d05486277a42" 1 "MQTTAsync_SSLOptions"];
  entry "pub_308" "pub" [link "../struct_m_q_t_t_async__success_data5.html#a5c41c63d6c37acbe3c493279c5d4c44a" 1 "MQTTAsync_successData5::pub()"; link "../struct_m_q_t_t_async__success_data.html#a7f044c3b839c17a8840cd6f00d7a0e90" 1 "MQTTAsync_successData::pub()"];
  entry "publication_20example_309" "Publication example" [link "../publish.html" 1 EmptyString];
  entry "publish_20while_20disconnected_310" "Publish While Disconnected" [link "../offline_publish.html" 1 EmptyString]].
Definition all_d : list SearchEntry := [
  entry "qos_311" "qos" [link "../struct_m_q_t_t_async__message.html#a35738099155a0e4f54050da474bab2e7" 1 "MQTTAsync_message::qos()"; link "../struct_m_q_t_t_async__success_data.html#a35738099155a0e4f54050da474bab2e7" 1 "MQTTAsync_successData::qos()"; link "../struct_m_q_t_t_async__will_options.html#a35738099155a0e4f54050da474bab2e7" 1 "MQTTAsync_willOptions::qos()"];
  entry "qoslist_312" "qosList" [link "../struct_m_q_t_t_async__success_data.html#a82786d9ba5cae39873f378a48b36c23b" 1 "MQTTAsync_successData"];
  entry "quality_20of_20service_313" "Quality of service" [link "../qos.html" 1 EmptyString]].
Definition all_e : list SearchEntry := [
  entry "reasoncode_314" "reasonCode" [link "../struct_m_q_t_t_async__failure_data5.html#a580d8a8ecb285f5a86c2a3865438f8ee" 1 "MQTTAsync_failureData5::reasonCode()"; link "../struct_m_q_t_t_async__success_data5.html#a580d8a8ecb285f5a86c2a3865438f8ee" 1 "MQTTAsync_successData5::reasonCode()"; link "../struct_m_q_t_t_async__disconnect_options.html#a580d8a8ecb285f5a86c2a3865438f8ee" 1 "MQTTAsync_disconnectOptions::reasonCode()"];
  entry "reasoncodecount_315" "reasonCodeCount" [link "../struct_m_q_t_t_async__success_data5.html#ac97316626bd4faa6b71277c221275f4b" 1 "MQTTAsync_successData5"];
  entry "reasoncodes_316" "reasonCodes" [link "../struct_m_q_t_t_async__success_data5.html#a2199c9d905dbfa279895cf8123c10f4f" 1 "MQTTAsync_successData5"];
  entry "restoremessages_317" "restoreMessages" [link "../struct_m_q_t_t_async__create_options.html#a231b8890c3bc2ea07f7c599896f30691" 1 "MQTTAsync_createOptions"];
  entry "retainaspublished_318" "retainAsPublished" [link "../struct_m_q_t_t_subscribe__options.html#a8ba074ad218224ee4a8ca802c5e36944" 1 "MQTTSubscribe_options"];
  entry "retained_319" "retained" [link "../struct_m_q_t_t_async__message.html#a6a4904c112507a43e7dc8495b62cc0fc" 1 "MQTTAsync_message::retained()"; link "../struct_m_q_t_t_async__will_options.html#a6a4904c112507a43e7dc8495b62cc0fc" 1 "MQTTAsync_willOptions::retained()"];
  entry "retainhandling_320" "retainHandling" [link "../struct_m_q_t_t_subscribe__options.html#a11f17b62e40ecdfe107101ae164367a3" 1 "MQTTSubscribe_options"];
  entry "retryinterval_321" "retryInterval" [link "../struct_m_q_t_t_async__connect_options.html#ac73f57846c42bcaa9a47e6721a957748" 1 "MQTTAsync_connectOptions"]].
Definition all_f : list SearchEntry := [
  entry "sendwhiledisconnected_322" "sendWhileDisconnected" [link "../struct_m_q_t_t_async__create_options.html#a078cd68d8f896ce7eac0cc83d4486a2c" 1 "MQTTAsync_createOptions"];
  entry "serveruri_323" "serverURI" [link "../struct_m_q_t_t_async__success_data.html#a95309fdf27015b12bc4adf56306e557b" 1 "MQTTAsync_successData::serverURI()"; link "../struct_m_q_t_t_async__success_data5.html#a95309fdf27015b12bc4adf56306e557b" 1 "MQTTAsync_successData5::serverURI()"];
  entry "serveruricount_324" "serverURIcount" [link "../struct_m_q_t_t_async__connect_options.html#aa82629005937abd92e97084a428cd61f" 1 "MQTTAsync_connectOptions"];
  entry "serveruris_325" "serverURIs" [link "../struct_m_q_t_t_async__connect_options.html#aba22d81c407fb2ba590dba476240d3e9" 1 "MQTTAsync_connectOptions"];
  entry "sessionpresent_326" "sessionPresent" [link "../struct_m_q_t_t_async__success_data.html#a44baf2cb9a0bbcec3ed2eace43f832d1" 1 "MQTTAsync_successData::sessionPresent()"; link "../struct_m_q_t_t_async__success_data5.html#a44baf2cb9a0bbcec3ed2eace43f832d1" 1 "MQTTAsync_successData5::sessionPresent()"];
  entry "ssl_327" "ssl" [link "../struct_m_q_t_t_async__connect_options.html#a86fd59846f3ba2082fd99906c6b496a6" 1 "MQTTAsync_connectOptions"];
  entry "ssl_5ferror_5fcb_328" "ssl_error_cb" [link "../struct_m_q_t_t_async___s_s_l_options.html#a21b6ca8a73ba197e65f6a93365d39c04" 1 "MQTTAsync_SSLOptions"];
  entry "ssl_5ferror_5fcontext_329" "ssl_error_context" [link "../struct_m_q_t_t_async___s_s_l_options.html#a189f11195f4d5a70024adffdb050885f" 1 "MQTTAsync_SSLOptions"];
  entry "ssl_5fpsk_5fcb_330" "ssl_psk_cb" [link "../struct_m_q_t_t_async___s_s_l_options.html#a94317cdaf352f9ae496976f8a30f8fee" 1 "MQTTAsync_SSLOptions"];
  entry "ssl_5fpsk_5fcontext_331" "ssl_psk_context" [link "../struct_m_q_t_t_async___s_s_l_options.html#ab7f597518dd5b9db5a515081f8e0bd1f" 1 "MQTTAsync_SSLOptions"];
  entry "sslversion_332" "sslVersion" [link "../struct_m_q_t_t_async___s_s_l_options.html#a3543ea1481b68d73cdde833280bb9c45" 1 "MQTTAsync_SSLOptions"];
  entry "struct_5fid_333" "struct_id" [link "../struct_m_q_t_t_subscribe__options.html#aa5326df180cb23c59afbcab711a06479" 1 "MQTTSubscribe_options::struct_id()"; link "../struct_m_q_t_t_async__disconnect_options.html#aa5326df180cb23c59afbcab711a06479" 1 "MQTTAsync_disconnectOptions::struct_id()"; link "../struct_m_q_t_t_async__connect_options.html#aa5326df180cb23c59afbcab711a06479" 1 "MQTTAsync_connectOptions::struct_id()"; link "../struct_m_q_t_t_async___s_s_l_options.html#aa5326df180cb23c59afbcab711a06479" 1 "MQTTAsync_SSLOptions::struct_id()"; link "../struct_m_q_t_t_async__will_options.html#aa5326df180cb23c59afbcab711a06479" 1 "MQTTAsync_willOptions::struct_id()"; link "../struct_m_q_t_t_async__create_options.html#aa5326df180cb23c59afbcab711a06479" 1 "MQTTAsync_createOptions::struct_id()"; link "../struct_m_q_t_t_async__success_data5.html#aa5326df180cb23c59afbcab711a06479" 1 "MQTTAsync_successData5::struct_id()"; link "../struct_m_q_t_t_async__failure_data5.html#aa5326df180cb23c59afbcab711a06479" 1 "MQTTAsync_failureData5::struct_id()"; link "../struct_m_q_t_t_async__connect_data.html#aa5326df180cb23c59afbcab711a06479" 1 "MQTTAsync_connectData::struct_id()"; link "../struct_m_q_t_t_async__message.html#aa5326df180cb23c59afbcab711a06479" 1 "MQTTAsync_message::struct_id()"; link "../struct_m_q_t_t_async__init__options.html#aa5326df180cb23c59afbcab711a06479" 1 "MQTTAsync_init_options::struct_id()"; link "../struct_m_q_t_t_async__response_options.html#aa5326df180cb23c59afbcab711a06479" 1 "MQTTAsync_responseOptions::struct_id()"];
  entry "struct_5fversion_334" "struct_version" [link "../struct_m_q_t_t_async__create_options.html#a0761a5e5be0383882e42924de8e51f82" 1 "MQTTAsync_createOptions::struct_version()"; link "../struct_m_q_t_t_subscribe__options.html#a0761a5e5be0383882e42924de8e51f82" 1 "MQTTSubscribe_options::struct_version()"; link "../struct_m_q_t_t_async__disconnect_options.html#a0761a5e5be0383882e42924de8e51f82" 1 "MQTTAsync_disconnectOptions::struct_version()"; link "../struct_m_q_t_t_async__connect_options.html#a0761a5e5be0383882e42924de8e51f82" 1 "MQTTAsync_connectOptions::struct_version()"; link "../struct_m_q_t_t_async___s_s_l_options.html#a0761a5e5be0383882e42924de8e51f82" 1 "MQTTAsync_SSLOptions::struct_version()"; link "../struct_m_q_t_t_async__will_options.html#a0761a5e5be0383882e42924de8e51f82" 1 "MQTTAsync_willOptions::struct_version()"; link "../struct_m_q_t_t_async__response_options.html#a0761a5e5be0383882e42924de8e51f82" 1 "MQTTAsync_responseOptions::struct_version()"; link "../struct_m_q_t_t_async__success_data5.html#a0761a5e5be0383882e42924de8e51f82" 1 "MQTTAsync_successData5::struct_version()"; link "../struct_m_q_t_t_async__failure_data5.html#a0761a5e5be0383882e42924de8e51f82" 1 "MQTTAsync_failureData5::struct_version()"; link "../struct_m_q_t_t_async__connect_data.html#a0761a5e5be0383882e42924de8e51f82" 1 "MQTTAsync_connectData::struct_version()"; link "../struct_m_q_t_t_async__message.html#a0761a5e5be0383882e42924de8e51f82" 1 "MQTTAsync_message::struct_version()"; link "../struct_m_q_t_t_async__init__options.html#a0761a5e5be0383882e42924de8e51f82" 1 "MQTTAsync_init_options::struct_version()"];
  entry "sub_335" "sub" [link "../struct_m_q_t_t_async__success_data5.html#a26c7d90bad0e00a056dff117b9111346" 1 "MQTTAsync_successData5"];
  entry "subscribeoptions_336" "subscribeOptions" [link "../struct_m_q_t_t_async__response_options.html#a16a3cd2a8c69669e9ed6e420ccd9c517" 1 "MQTTAsync_responseOptions"];
  entry "subscribeoptionscount_337" "subscribeOptionsCount" [link "../struct_m_q_t_t_async__response_options.html#a1a4b9bb2780472ec7bb65d0df1bf5d26" 1 "MQTTAsync_responseOptions"];
  entry "subscribeoptionslist_338" "subscribeOptionsList" [link "../struct_m_q_t_t_async__response_options.html#a98f71c5d03dc5ee86fd9dc0119ccb961" 1 "MQTTAsync_responseOptions"];
  entry "subscription_20example_339" "Subscription example" [link "../subscribe.html" 1 EmptyString];
  entry "subscription_20wildcards_340" "Subscription wildcards" [link "../wildcard.html" 1 EmptyString]].
Definition all_10 : list SearchEntry := [
  entry "threading_341" "Threading" [link "../async.html" 1 EmptyString];
  entry "timeout_342" "timeout" [link "../struct_m_q_t_t_async__disconnect_options.html#a493b57f443cc38b3d3df9c1e584d9d82" 1 "MQTTAsync_disconnectOptions"];
  entry "token_343" "token" [link "../struct_m_q_t_t_async__failure_data.html#af8f771e67d284379111151b003c0d810" 1 "MQTTAsync_failureData::token()"; link "../struct_m_q_t_t_async__failure_data5.html#af8f771e67d284379111151b003c0d810" 1 "MQTTAsync_failureData5::token()"; link "../struct_m_q_t_t_async__success_data.html#af8f771e67d284379111151b003c0d810" 1 "MQTTAsync_successData::token()"; link "../struct_m_q_t_t_async__success_data5.html#af8f771e67d284379111151b003c0d810" 1 "MQTTAsync_successData5::token()"; link "../struct_m_q_t_t_async__response_options.html#af8f771e67d284379111151b003c0d810" 1 "MQTTAsync_responseOptions::token()"];
  entry "topicname_344" "topicName" [link "../struct_m_q_t_t_async__will_options.html#a0e20a7b350881d05108d6342884198a5" 1 "MQTTAsync_willOptions"];
  entry "tracing_345" "Tracing" [link "../tracing.html" 1 EmptyString];
  entry "truststore_346" "trustStore" [link "../struct_m_q_t_t_async___s_s_l_options.html#a032835d4c4a1c1e19b53c330a673a6e0" 1 "MQTTAsync_SSLOptions"]].
Definition all_11 : list SearchEntry := [
  entry "unsub_347" "unsub" [link "../struct_m_q_t_t_async__success_data5.html#a46b20b320d6951e567ebf678ea4ac1a3" 1 "MQTTAsync_successData5"];
  entry "username_348" "username" [link "../struct_m_q_t_t_async__connect_data.html#aba2dfcdfda80edcb531a5a7115d3e043" 1 "MQTTAsync_connectData::username()"; link "../struct_m_q_t_t_async__connect_options.html#aba2dfcdfda80edcb531a5a7115d3e043" 1 "MQTTAsync_connectOptions::username()"]].
Definition all_12 : list SearchEntry := [
  entry "value_349" "value" [link "../struct_m_q_t_t_async__name_value.html#a8556878012feffc9e0beb86cd78f424d" 1 "MQTTAsync_nameValue::value()"; link "../struct_m_q_t_t_property.html#a09e85ff5ad73824d6c2edc1ce4283a17" 1 "MQTTProperty::value()"; link "../struct_m_q_t_t_property.html#af2307539b97777bec0475619af5648f1" 1 "MQTTProperty::value()"];
  entry "verify_350" "verify" [link "../struct_m_q_t_t_async___s_s_l_options.html#a94900629685d5ed08f66fd2931f573ce" 1 "MQTTAsync_SSLOptions"]].
Definition all_13 : list SearchEntry := [
  entry "will_351" "will" [link "../struct_m_q_t_t_async__connect_options.html#a7a9c5105542460d6fd9323facca66648" 1 "MQTTAsync_connectOptions"];
  entry "willproperties_352" "willProperties" [link "../struct_m_q_t_t_async__connect_options.html#ac31f13e964ffb7e3696caef47ecc0641" 1 "MQTTAsync_connectOptions"]].
Definition classes_0 : list SearchEntry := [
  entry "mqttasync_5fconnectdata_353" "MQTTAsync_connectData" [link "../struct_m_q_t_t_async__connect_data.html" 1 EmptyString];
  entry "mqttasync_5fconnectoptions_354" "MQTTAsync_connectOptions" [link "../struct_m_q_t_t_async__connect_options.html" 1 EmptyString];
  entry "mqttasync_5fcreateoptions_355" "MQTTAsync_createOptions" [link "../struct_m_q_t_t_async__create_options.html" 1 EmptyString];
  entry "mqttasync_5fdisconnectoptions_356" "MQTTAsync_disconnectOptions" [link "../struct_m_q_t_t_async__disconnect_options.html" 1 EmptyString];
  entry "mqttasync_5ffailuredata_357" "MQTTAsync_failureData" [link "../struct_m_q_t_t_async__failure_data.html" 1 EmptyString];
  entry "mqttasync_5ffailuredata5_358" "MQTTAsync_failureData5" [link "../struct_m_q_t_t_async__failure_data5.html" 1 EmptyString];
  entry "mqttasync_5finit_5foptions_359" "MQTTAsync_init_options" [link "../struct_m_q_t_t_async__init__options.html" 1 EmptyString];
  entry "mqttasync_5fmessage_360" "MQTTAsync_message" [link "../struct_m_q_t_t_async__message.html" 1 EmptyString];
  entry "mqttasync_5fnamevalue_361" "MQTTAsync_nameValue" [link "../struct_m_q_t_t_async__name_value.html" 1 EmptyString];
  entry "mqttasync_5fresponseoptions_362" "MQTTAsync_responseOptions" [link "../struct_m_q_t_t_async__response_options.html" 1 EmptyString];
  entry "mqttasync_5fssloptions_363" "MQTTAsync_SSLOptions" [link "../struct_m_q_t_t_async___s_s_l_options.html" 1 EmptyString];
  entry "mqttasync_5fsuccessdata_364" "MQTTAsync_successData" [link "../struct_m_q_t_t_async__success_data.html" 1 EmptyString];
  entry "mqttasync_5fsuccessdata5_365" "MQTTAsync_successData5" [link "../struct_m_q_t_t_async__success_data5.html" 1 EmptyString];
  entry "mqttasync_5fwilloptions_366" "MQTTAsync_willOptions" [link "../struct_m_q_t_t_async__will_options.html" 1 EmptyString];
  entry "mqttclient_5fpersistence_367" "MQTTClient_persistence" [link "../struct_m_q_t_t_client__persistence.html" 1 EmptyString];
  entry "mqttlenstring_368" "MQTTLenString" [link "../struct_m_q_t_t_len_string.html" 1 EmptyString];
  entry "mqttproperties_369" "MQTTProperties" [link "../struct_m_q_t_t_properties.html" 1 EmptyString];
  entry "mqttproperty_370" "MQTTProperty" [link "../struct_m_q_t_t_property.html" 1 EmptyString];
  entry "mqttsubscribe_5foptions_371" "MQTTSubscribe_options" [link "../struct_m_q_t_t_subscribe__options.html" 1 EmptyString]].
Definition files_0 : list SearchEntry := [
  entry "mqttasync_2eh_372" "MQTTAsync.h" [link "../_m_q_t_t_async_8h.html" 1 EmptyString];
  entry "mqttclientpersistence_2eh_373" "MQTTClientPersistence.h" [link "../_m_q_t_t_client_persistence_8h.html" 1 EmptyString];
  entry "mqttproperties_2eh_374" "MQTTProperties.h" [link "../_m_q_t_t_properties_8h.html" 1 EmptyString];
  entry "mqttreasoncodes_2eh_375" "MQTTReasonCodes.h" [link "../_m_q_t_t_reason_codes_8h.html" 1 EmptyString];
  entry "mqttsubscribeopts_2eh_376" "MQTTSubscribeOpts.h" [link "../_m_q_t_t_subscribe_opts_8h.html" 1 EmptyString]].
Definition functions_0 : list SearchEntry := [
  entry "mqttasync_5fconnect_377" "MQTTAsync_connect" [link "../_m_q_t_t_async_8h.html#a0388b226a414b09fa733f6d65004ec32" 1 "MQTTAsync.h"];
  entry "mqttasync_5fcreate_378" "MQTTAsync_create" [link "../_m_q_t_t_async_8h.html#a5462c4618d0a229116db5fbadacf95d2" 1 "MQTTAsync.h"];
  entry "mqttasync_5fcreatewithoptions_379" "MQTTAsync_createWithOptions" [link "../_m_q_t_t_async_8h.html#a78cbe1b851fea48001112f7ba9e4ea62" 1 "MQTTAsync.h"];
  entry "mqttasync_5fdestroy_380" "MQTTAsync_destroy" [link "../_m_q_t_t_async_8h.html#ad5562f9dc71fbd93d25ad20b328cb887" 1 "MQTTAsync.h"];
  entry "mqttasync_5fdisconnect_381" "MQTTAsync_disconnect" [link "../_m_q_t_t_async_8h.html#adc69afa4725f8321bdaa5a05aec5cfd5" 1 "MQTTAsync.h"];
  entry "mqttasync_5ffree_382" "MQTTAsync_free" [link "../_m_q_t_t_async_8h.html#a2b836f58612a2c4627e40ae848da190d" 1 "MQTTAsync.h"];
  entry "mqttasync_5ffreemessage_383" "MQTTAsync_freeMessage" [link "../_m_q_t_t_async_8h.html#a9b45db63052fe29ab1fad22d2a00c91c" 1 "MQTTAsync.h"];
  entry "mqttasync_5fgetpendingtokens_384" "MQTTAsync_getPendingTokens" [link "../_m_q_t_t_async_8h.html#abc92f60743fc471643b473abbc987be0" 1 "MQTTAsync.h"];
  entry "mqttasync_5fgetversioninfo_385" "MQTTAsync_getVersionInfo" [link "../_m_q_t_t_async_8h.html#a7cf29b785a1d4ff1de2e67e2f916b658" 1 "MQTTAsync.h"];
  entry "mqttasync_5fglobal_5finit_386" "MQTTAsync_global_init" [link "../_m_q_t_t_async_8h.html#a1705e75a48999cb45bf85c15608478f5" 1 "MQTTAsync.h"];
  entry "mqttasync_5fiscomplete_387" "MQTTAsync_isComplete" [link "../_m_q_t_t_async_8h.html#ab207095cab6f9a48b52cdb593b8456f4" 1 "MQTTAsync.h"];
  entry "mqttasync_5fisconnected_388" "MQTTAsync_isConnected" [link "../_m_q_t_t_async_8h.html#a46c332245c379629ae11f457fc179457" 1 "MQTTAsync.h"];
  entry "mqttasync_5fmalloc_389" "MQTTAsync_malloc" [link "../_m_q_t_t_async_8h.html#af5500ba58592afafaade2fcabdc61e61" 1 "MQTTAsync.h"];
  entry "mqttasync_5freconnect_390" "MQTTAsync_reconnect" [link "../_m_q_t_t_async_8h.html#abd3ea01869b89ff23f9522640479c395" 1 "MQTTAsync.h"];
  entry "mqttasync_5fsend_391" "MQTTAsync_send" [link "../_m_q_t_t_async_8h.html#a63c66a311ab16239a4175ff671871bf2" 1 "MQTTAsync.h"];
  entry "mqttasync_5fsendmessage_392" "MQTTAsync_sendMessage" [link "../_m_q_t_t_async_8h.html#a5687171e67e98f9ea590c9e3b64cde18" 1 "MQTTAsync.h"];
  entry "mqttasync_5fsetafterpersistenceread_393" "MQTTAsync_setAfterPersistenceRead" [link "../_m_q_t_t_async_8h.html#ab4d16e3c57502be6a7d1b1d3bcc382f3" 1 "MQTTAsync.h"];
  entry "mqttasync_5fsetbeforepersistencewrite_394" "MQTTAsync_setBeforePersistenceWrite" [link "../_m_q_t_t_async_8h.html#a1002b09c62a096578c9b3e0135eb98c1" 1 "MQTTAsync.h"];
  entry "mqttasync_5fsetcallbacks_395" "MQTTAsync_setCallbacks" [link "../_m_q_t_t_async_8h.html#ae9ae8d61023e7029ef5a19f5219c3599" 1 "MQTTAsync.h"];
  entry "mqttasync_5fsetconnected_396" "MQTTAsync_setConnected" [link "../_m_q_t_t_async_8h.html#a18cc19740d9b00c629dc53a4420ecf1f" 1 "MQTTAsync.h"];
  entry "mqttasync_5fsetconnectionlostcallback_397" "MQTTAsync_setConnectionLostCallback" [link "../_m_q_t_t_async_8h.html#aee15bbd9224efd9dcce9b4ae491b2e2e" 1 "MQTTAsync.h"];
  entry "mqttasync_5fsetdeliverycompletecallback_398" "MQTTAsync_setDeliveryCompleteCallback" [link "../_m_q_t_t_async_8h.html#a94ec624ee22cc01d2ca58a9e646a2665" 1 "MQTTAsync.h"];
  entry "mqttasync_5fsetdisconnected_399" "MQTTAsync_setDisconnected" [link "../_m_q_t_t_async_8h.html#ada4dd26d23c8849c51e4ab8200339040" 1 "MQTTAsync.h"];
  entry "mqttasync_5fsetmessagearrivedcallback_400" "MQTTAsync_setMessageArrivedCallback" [link "../_m_q_t_t_async_8h.html#a44abc360051b918a39b0596a137775ae" 1 "MQTTAsync.h"];
  entry "mqttasync_5fsettracecallback_401" "MQTTAsync_setTraceCallback" [link "../_m_q_t_t_async_8h.html#a0b350581324a4ff0eaee71e7a6721388" 1 "MQTTAsync.h"];
  entry "mqttasync_5fsettracelevel_402" "MQTTAsync_setTraceLevel" [link "../_m_q_t_t_async_8h.html#ac7fbab13a0b2e5dd4ee11efbbb9f6a3a" 1 "MQTTAsync.h"];
  entry "mqttasync_5fsetupdateconnectoptions_403" "MQTTAsync_setUpdateConnectOptions" [link "../_m_q_t_t_async_8h.html#aa078aec3eba83481f63db3c3939a5da9" 1 "MQTTAsync.h"];
  entry "mqttasync_5fstrerror_404" "MQTTAsync_strerror" [link "../_m_q_t_t_async_8h.html#a875cd089a8b23eb3fd50c0406fc75d9f" 1 "MQTTAsync.h"];
  entry "mqttasync_5fsubscribe_405" "MQTTAsync_subscribe" [link "../_m_q_t_t_async_8h.html#ae10bd009934b3bb4a9f4abae7424a611" 1 "MQTTAsync.h"];
  entry "mqttasync_5fsubscribemany_406" "MQTTAsync_subscribeMany" [link "../_m_q_t_t_async_8h.html#ac78620b33434a187255bd1a3faec1578" 1 "MQTTAsync.h"];
  entry "mqttasync_5funsubscribe_407" "MQTTAsync_unsubscribe" [link "../_m_q_t_t_async_8h.html#a08d18ece91c1b011011354570d8ac1ab" 1 "MQTTAsync.h"];
  entry "mqttasync_5funsubscribemany_408" "MQTTAsync_unsubscribeMany" [link "../_m_q_t_t_async_8h.html#a69fd433ce1b9b6a1b3b453c4793a9311" 1 "MQTTAsync.h"];
  entry "mqttasync_5fwaitforcompletion_409" "MQTTAsync_waitForCompletion" [link "../_m_q_t_t_async_8h.html#a4fe09cc9c976b1cf424e13765d6cd8c9" 1 "MQTTAsync.h"];
  entry "mqttproperties_5fadd_410" "MQTTProperties_add" [link "../_m_q_t_t_properties_8h.html#a88f1d21556c2d23330d71357cd226a15" 1 "MQTTProperties.h"];
  entry "mqttproperties_5fcopy_411" "MQTTProperties_copy" [link "../_m_q_t_t_properties_8h.html#a69b3e474ee2f828e5b827d615fe0fe72" 1 "MQTTProperties.h"];
  entry "mqttproperties_5ffree_412" "MQTTProperties_free" [link "../_m_q_t_t_properties_8h.html#ab68247ed365ee51170a9309c828b1823" 1 "MQTTProperties.h"];
  entry "mqttproperties_5fgetnumericvalue_413" "MQTTProperties_getNumericValue" [link "../_m_q_t_t_properties_8h.html#afa777eb796532a3c0c59ddc40aca3792" 1 "MQTTProperties.h"];
  entry "mqttproperties_5fgetnumericvalueat_414" "MQTTProperties_getNumericValueAt" [link "../_m_q_t_t_properties_8h.html#abc6bc80d9bb644c9b4a66b6808829a53" 1 "MQTTProperties.h"];
  entry "mqttproperties_5fgetproperty_415" "MQTTProperties_getProperty" [link "../_m_q_t_t_properties_8h.html#a788b033cbed8a7906799fccbb1463f20" 1 "MQTTProperties.h"];
  entry "mqttproperties_5fgetpropertyat_416" "MQTTProperties_getPropertyAt" [link "../_m_q_t_t_properties_8h.html#ac6942d8fafb5794591fc558b4bb06beb" 1 "MQTTProperties.h"];
  entry "mqttproperties_5fhasproperty_417" "MQTTProperties_hasProperty" [link "../_m_q_t_t_properties_8h.html#a4ccdf6a712c3d803a16a4d3f00f9be2f" 1 "MQTTProperties.h"];
  entry "mqttproperties_5flen_418" "MQTTProperties_len" [link "../_m_q_t_t_properties_8h.html#ab7ad6f14e2dc7576d35827a28b0dc81d" 1 "MQTTProperties.h"];
  entry "mqttproperties_5fpropertycount_419" "MQTTProperties_propertyCount" [link "../_m_q_t_t_properties_8h.html#a6f0d8b230c2e7008c7639cfce1c04429" 1 "MQTTProperties.h"];
  entry "mqttproperties_5fread_420" "MQTTProperties_read" [link "../_m_q_t_t_properties_8h.html#afcb874dfcc9f0eaa0b063e2fad740871" 1 "MQTTProperties.h"];
  entry "mqttproperties_5fwrite_421" "MQTTProperties_write" [link "../_m_q_t_t_properties_8h.html#ade0027a4e571bd288fe40271ff7aa497" 1 "MQTTProperties.h"];
  entry "mqttproperty_5fgettype_422" "MQTTProperty_getType" [link "../_m_q_t_t_properties_8h.html#a7d30ad0520bc9b9366e700d4b493b173" 1 "MQTTProperties.h"];
  entry "mqttpropertyname_423" "MQTTPropertyName" [link "../_m_q_t_t_properties_8h.html#afa0a7306d7b6174c5bc417ca49d99851" 1 "MQTTProperties.h"];
  entry "mqttreasoncode_5ftostring_424" "MQTTReasonCode_toString" [link "../_m_q_t_t_reason_codes_8h.html#a91922a5e3c1e5ec7670b6e296854f1b7" 1 "MQTTReasonCodes.h"]].
Definition variables_0 : list SearchEntry := [
  entry "allowdisconnectedsendatanytime_425" "allowDisconnectedSendAtAnyTime" [link "../struct_m_q_t_t_async__create_options.html#abe7fdbe18bfd3577a75d3b386d69406c" 1 "MQTTAsync_createOptions"];
  entry "alt_426" "alt" [link "../struct_m_q_t_t_async__success_data.html#afbc1fee4467369fefa30cb07047fca14" 1 "MQTTAsync_successData::alt()"; link "../struct_m_q_t_t_async__success_data5.html#a4bde812772718b8051b0d6e2000a5f5c" 1 "MQTTAsync_successData5::alt()"];
  entry "array_427" "array" [link "../struct_m_q_t_t_properties.html#a3ac4c38b423393c1553dcf8b71e7dd58" 1 "MQTTProperties"];
  entry "automaticreconnect_428" "automaticReconnect" [link "../struct_m_q_t_t_async__connect_options.html#a7902ce4d11b96d8b19582bdd1f82b630" 1 "MQTTAsync_connectOptions"]].
Definition variables_1 : list SearchEntry := [
  entry "binarypwd_429" "binarypwd" [link "../struct_m_q_t_t_async__connect_data.html#ad5c523e5e6dc0105cc7b4a296451915b" 1 "MQTTAsync_connectData::binarypwd()"; link "../struct_m_q_t_t_async__connect_options.html#a3bccd0957cca80fa2200962051093931" 1 "MQTTAsync_connectOptions::binarypwd()"];
  entry "byte_430" "byte" [link "../struct_m_q_t_t_property.html#a1581cde4f73c9a797ae1e7afcc1bb3de" 1 "MQTTProperty"]].
Definition variables_2 : list SearchEntry := [
  entry "capath_431" "CApath" [link "../struct_m_q_t_t_async___s_s_l_options.html#a3078b3c824cc9753a57898072445c34d" 1 "MQTTAsync_SSLOptions"];
  entry "cleansession_432" "cleansession" [link "../struct_m_q_t_t_async__connect_options.html#a036c36a2a4d3a3ffae9ab4dd8b3e7f7b" 1 "MQTTAsync_connectOptions"];
  entry "cleanstart_433" "cleanstart" [link "../struct_m_q_t_t_async__connect_options.html#acdcb75a5d5981da027bce83849140f7b" 1 "MQTTAsync_connectOptions"];
  entry "code_434" "code" [link "../struct_m_q_t_t_async__failure_data.html#a45a5b7c00a796a23f01673cef1dbe0a9" 1 "MQTTAsync_failureData::code()"; link "../struct_m_q_t_t_async__failure_data5.html#a45a5b7c00a796a23f01673cef1dbe0a9" 1 "MQTTAsync_failureData5::code()"];
  entry "connect_435" "connect" [link "../struct_m_q_t_t_async__success_data.html#a028701cd79a4923d1d2172422c022447" 1 "MQTTAsync_successData::connect()"; link "../struct_m_q_t_t_async__success_data5.html#ac73a35b7229f7f4193127cac7b20bc8a" 1 "MQTTAsync_successData5::connect()"];
  entry "connectproperties_436" "connectProperties" [link "../struct_m_q_t_t_async__connect_options.html#a9f8b7ffb4a698eb151a3b090548b82e8" 1 "MQTTAsync_connectOptions"];
  entry "connecttimeout_437" "connectTimeout" [link "../struct_m_q_t_t_async__connect_options.html#a38c6aa24b36d981c49405db425c24db0" 1 "MQTTAsync_connectOptions"];
  entry "context_438" "context" [link "../struct_m_q_t_t_async__response_options.html#ae376f130b17d169ee51be68077a89ed0" 1 "MQTTAsync_responseOptions::context()"; link "../struct_m_q_t_t_async__connect_options.html#ae376f130b17d169ee51be68077a89ed0" 1 "MQTTAsync_connectOptions::context()"; link "../struct_m_q_t_t_async__disconnect_options.html#ae376f130b17d169ee51be68077a89ed0" 1 "MQTTAsync_disconnectOptions::context()"; link "../struct_m_q_t_t_client__persistence.html#ae376f130b17d169ee51be68077a89ed0" 1 "MQTTClient_persistence::context()"];
  entry "count_439" "count" [link "../struct_m_q_t_t_properties.html#ad43c3812e6d13e0518d9f8b8f463ffcf" 1 "MQTTProperties"]].
Definition variables_3 : list SearchEntry := [
  entry "data_440" "data" [link "../struct_m_q_t_t_async__connect_data.html#a0d49d74db4c035719c3867723cf7e779" 1 "MQTTAsync_connectData::data()"; link "../struct_m_q_t_t_async__will_options.html#a0d49d74db4c035719c3867723cf7e779" 1 "MQTTAsync_willOptions::data()"; link "../struct_m_q_t_t_async__connect_options.html#a0d49d74db4c035719c3867723cf7e779" 1 "MQTTAsync_connectOptions::data()"; link "../struct_m_q_t_t_len_string.html#a91a70b77df95bd8b0830b49a094c2acb" 1 "MQTTLenString::data()"; link "../struct_m_q_t_t_property.html#aa43ebcb9f97210421431a671384ef159" 1 "MQTTProperty::data()"];
  entry "deleteoldestmessages_441" "deleteOldestMessages" [link "../struct_m_q_t_t_async__create_options.html#a76de37b3cff885e83db204a347fe0a2d" 1 "MQTTAsync_createOptions"];
  entry "destinationname_442" "destinationName" [link "../struct_m_q_t_t_async__success_data.html#ae25f4a1d2a3fa952d052a965376d8fef" 1 "MQTTAsync_successData::destinationName()"; link "../struct_m_q_t_t_async__success_data5.html#ae25f4a1d2a3fa952d052a965376d8fef" 1 "MQTTAsync_successData5::destinationName()"];
  entry "disabledefaulttruststore_443" "disableDefaultTrustStore" [link "../struct_m_q_t_t_async___s_s_l_options.html#a0826fcae7c2816e04772c61542c6846b" 1 "MQTTAsync_SSLOptions"];
  entry "do_5fopenssl_5finit_444" "do_openssl_init" [link "../struct_m_q_t_t_async__init__options.html#a5929146596391e2838ef95feb89776da" 1 "MQTTAsync_init_options"];
  entry "dup_445" "dup" [link "../struct_m_q_t_t_async__message.html#adc4cf3f551bb367858644559d69cfdf5" 1 "MQTTAsync_message"]].
Definition variables_4 : list SearchEntry := [
  entry "enabledciphersuites_446" "enabledCipherSuites" [link "../struct_m_q_t_t_async___s_s_l_options.html#aa683926d52134077f27d6dc67bda13ab" 1 "MQTTAsync_SSLOptions"];
  entry "enableservercertauth_447" "enableServerCertAuth" [link "../struct_m_q_t_t_async___s_s_l_options.html#a75f6c13b7634e15f96dd9f17db6cf0be" 1 "MQTTAsync_SSLOptions"]].
Definition variables_5 : list SearchEntry := [
  entry "httpheaders_448" "httpHeaders" [link "../struct_m_q_t_t_async__connect_options.html#ac4098248961a1ee89f40353eeebab58b" 1 "MQTTAsync_connectOptions"];
  entry "httpproxy_449" "httpProxy" [link "../struct_m_q_t_t_async__connect_options.html#add124780ab2de397a96780576c2f112c" 1 "MQTTAsync_connectOptions"];
  entry "httpsproxy_450" "httpsProxy" [link "../struct_m_q_t_t_async__connect_options.html#a388b78d8a75658928238f700f207ad92" 1 "MQTTAsync_connectOptions"]].
Definition variables_6 : list SearchEntry := [
  entry "identifier_451" "identifier" [link "../struct_m_q_t_t_property.html#a2ff04e8cc70fbaa9bcb9a4fb3d510882" 1 "MQTTProperty"];
  entry "integer2_452" "integer2" [link "../struct_m_q_t_t_property.html#a0289ec2e0df8789139386b0ddf5c71c3" 1 "MQTTProperty"];
  entry "integer4_453" "integer4" [link "../struct_m_q_t_t_property.html#a813425ef31abb5ef0091e3043e8a366b" 1 "MQTTProperty"]].
Definition variables_7 : list SearchEntry := [
  entry "keepaliveinterval_454" "keepAliveInterval" [link "../struct_m_q_t_t_async__connect_options.html#ac8dd0930672a9c7d71fc645aa1f0521d" 1 "MQTTAsync_connectOptions"];
  entry "keystore_455" "keyStore" [link "../struct_m_q_t_t_async___s_s_l_options.html#a32b476382955289ce427112b59f21c3e" 1 "MQTTAsync_SSLOptions"]].
Definition variables_8 : list SearchEntry := [
  entry "len_456" "len" [link "../struct_m_q_t_t_async__connect_data.html#afed088663f8704004425cdae2120b9b3" 1 "MQTTAsync_connectData::len()"; link "../struct_m_q_t_t_async__will_options.html#afed088663f8704004425cdae2120b9b3" 1 "MQTTAsync_willOptions::len()"; link "../struct_m_q_t_t_async__connect_options.html#afed088663f8704004425cdae2120b9b3" 1 "MQTTAsync_connectOptions::len()"; link "../struct_m_q_t_t_len_string.html#afed088663f8704004425cdae2120b9b3" 1 "MQTTLenString::len()"];
  entry "length_457" "length" [link "../struct_m_q_t_t_properties.html#a9f59b34b1f25fe00023291b678246bcc" 1 "MQTTProperties"]].
Definition variables_9 : list SearchEntry := [
  entry "max_5fcount_458" "max_count" [link "../struct_m_q_t_t_properties.html#a8de324382d8fd2f5939bf3372e059383" 1 "MQTTProperties"];
  entry "maxbufferedmessages_459" "maxBufferedMessages" [link "../struct_m_q_t_t_async__create_options.html#a3b74acf6f315bb5fe36266bc9647ee97" 1 "MQTTAsync_createOptions"];
  entry "maxinflight_460" "maxInflight" [link "../struct_m_q_t_t_async__connect_options.html#a5c9d6c557453232a1b25cbbec5a31e8c" 1 "MQTTAsync_connectOptions"];
  entry "maxretryinterval_461" "maxRetryInterval" [link "../struct_m_q_t_t_async__connect_options.html#a035ba380dd97a284db04f4eaae5e113b" 1 "MQTTAsync_connectOptions"];
  entry "message_462" "message" [link "../struct_m_q_t_t_async__failure_data.html#a254bf0858da09c96a48daf64404eb4f8" 1 "MQTTAsync_failureData::message()"; link "../struct_m_q_t_t_async__failure_data5.html#a254bf0858da09c96a48daf64404eb4f8" 1 "MQTTAsync_failureData5::message()"; link "../struct_m_q_t_t_async__success_data.html#a6ed8403758cecd2f762af6ba5e0ae525" 1 "MQTTAsync_successData::message()"; link "../struct_m_q_t_t_async__success_data5.html#a6ed8403758cecd2f762af6ba5e0ae525" 1 "MQTTAsync_successData5::message()"; link "../struct_m_q_t_t_async__will_options.html#a254bf0858da09c96a48daf64404eb4f8" 1 "MQTTAsync_willOptions::message()"];
  entry "minretryinterval_463" "minRetryInterval" [link "../struct_m_q_t_t_async__connect_options.html#a166ac1b967f09326b0187f66be3e69af" 1 "MQTTAsync_connectOptions"];
  entry "mqttversion_464" "MQTTVersion" [link "../struct_m_q_t_t_async__success_data.html#a12d546fd0ccf4e1091b18e1b735c7240" 1 "MQTTAsync_successData::MQTTVersion()"; link "../struct_m_q_t_t_async__success_data5.html#a12d546fd0ccf4e1091b18e1b735c7240" 1 "MQTTAsync_successData5::MQTTVersion()"; link "../struct_m_q_t_t_async__create_options.html#a12d546fd0ccf4e1091b18e1b735c7240" 1 "MQTTAsync_createOptions::MQTTVersion()"; link "../struct_m_q_t_t_async__connect_options.html#a12d546fd0ccf4e1091b18e1b735c7240" 1 "MQTTAsync_connectOptions::MQTTVersion()"];
  entry "msgid_465" "msgid" [link "../struct_m_q_t_t_async__message.html#a6174c42da8c55c86e7255be2848dc4ac" 1 "MQTTAsync_message"]].
Definition variables_a : list SearchEntry := [
  entry "name_466" "name" [link "../struct_m_q_t_t_async__name_value.html#a8f8f80d37794cde9472343e4487ba3eb" 1 "MQTTAsync_nameValue"];
  entry "nolocal_467" "noLocal" [link "../struct_m_q_t_t_subscribe__options.html#abbb6a188886c12f305cbe69358515d8b" 1 "MQTTSubscribe_options"]].
Definition variables_b : list SearchEntry := [
  entry "onfailure_468" "onFailure" [link "../struct_m_q_t_t_async__response_options.html#a09ce26d7cff24e14a6844eaae7b15290" 1 "MQTTAsync_responseOptions::onFailure()"; link "../struct_m_q_t_t_async__connect_options.html#a09ce26d7cff24e14a6844eaae7b15290" 1 "MQTTAsync_connectOptions::onFailure()"; link "../struct_m_q_t_t_async__disconnect_options.html#a09ce26d7cff24e14a6844eaae7b15290" 1 "MQTTAsync_disconnectOptions::onFailure()"];
  entry "onfailure5_469" "onFailure5" [link "../struct_m_q_t_t_async__response_options.html#a4dad726f2b6f79ca5847689c5f2f2ec2" 1 "MQTTAsync_responseOptions::onFailure5()"; link "../struct_m_q_t_t_async__connect_options.html#a4dad726f2b6f79ca5847689c5f2f2ec2" 1 "MQTTAsync_connectOptions::onFailure5()"; link "../struct_m_q_t_t_async__disconnect_options.html#a4dad726f2b6f79ca5847689c5f2f2ec2" 1 "MQTTAsync_disconnectOptions::onFailure5()"];
  entry "onsuccess_470" "onSuccess" [link "../struct_m_q_t_t_async__response_options.html#ac13fb68f736854fcab131b34756bfceb" 1 "MQTTAsync_responseOptions::onSuccess()"; link "../struct_m_q_t_t_async__connect_options.html#ac13fb68f736854fcab131b34756bfceb" 1 "MQTTAsync_connectOptions::onSuccess()"; link "../struct_m_q_t_t_async__disconnect_options.html#ac13fb68f736854fcab131b34756bfceb" 1 "MQTTAsync_disconnectOptions::onSuccess()"];
  entry "onsuccess5_471" "onSuccess5" [link "../struct_m_q_t_t_async__response_options.html#a1c23c490f06428725345de68a4ff0a3e" 1 "MQTTAsync_responseOptions::onSuccess5()"; link "../struct_m_q_t_t_async__connect_options.html#a1c23c490f06428725345de68a4ff0a3e" 1 "MQTTAsync_connectOptions::onSuccess5()"; link "../struct_m_q_t_t_async__disconnect_options.html#a1c23c490f06428725345de68a4ff0a3e" 1 "MQTTAsync_disconnectOptions::onSuccess5()"]].
Definition variables_c : list SearchEntry := [
  entry "packet_5ftype_472" "packet_type" [link "../struct_m_q_t_t_async__failure_data5.html#a38dfee9f038f473c95af46fcef5dd3e9" 1 "MQTTAsync_failureData5"];
  entry "password_473" "password" [link "../struct_m_q_t_t_async__connect_options.html#aa4a2ebcb494493f648ae1e6975672575" 1 "MQTTAsync_connectOptions"];
  entry "payload_474" "payload" [link "../struct_m_q_t_t_async__message.html#a9eff55064941fb604452abb0050ea99d" 1 "MQTTAsync_message::payload()"; link "../struct_m_q_t_t_async__will_options.html#a93e9de18277b05bc7a033bdee98c908a" 1 "MQTTAsync_willOptions::payload()"];
  entry "payloadlen_475" "payloadlen" [link "../struct_m_q_t_t_async__message.html#aa3cb44feb3ae6d11b3a4cad2d94cb33a" 1 "MQTTAsync_message"];
  entry "pclear_476" "pclear" [link "../struct_m_q_t_t_client__persistence.html#abc192dc88113c7d933b29d3561badbf5" 1 "MQTTClient_persistence"];
  entry "pclose_477" "pclose" [link "../struct_m_q_t_t_client__persistence.html#a7e50506912d2ec0e014cc25ec28fb402" 1 "MQTTClient_persistence"];
  entry "pcontainskey_478" "pcontainskey" [link "../struct_m_q_t_t_client__persistence.html#ac103711576267f791325f2b70b6dc49d" 1 "MQTTClient_persistence"];
  entry "persistqos0_479" "persistQoS0" [link "../struct_m_q_t_t_async__create_options.html#a0c3ea2641e188542c787e71e2c521a0b" 1 "MQTTAsync_createOptions"];
  entry "pget_480" "pget" [link "../struct_m_q_t_t_client__persistence.html#a49155000b82a28ac3b3cb878f3a092d4" 1 "MQTTClient_persistence"];
  entry "pkeys_481" "pkeys" [link "../struct_m_q_t_t_client__persistence.html#a407e86a809e4b0b098a8c158f53b9606" 1 "MQTTClient_persistence"];
  entry "popen_482" "popen" [link "../struct_m_q_t_t_client__persistence.html#a1bae211b32415e6b349d5ae71599f9f4" 1 "MQTTClient_persistence"];
  entry "pput_483" "pput" [link "../struct_m_q_t_t_client__persistence.html#a4114d9b9971cee18d7e4b9dd5736a608" 1 "MQTTClient_persistence"];
  entry "premove_484" "premove" [link "../struct_m_q_t_t_client__persistence.html#a53150e443ca721b8623689371c2fbdb9" 1 "MQTTClient_persistence"];
  entry "privatekey_485" "privateKey" [link "../struct_m_q_t_t_async___s_s_l_options.html#a7dd436cbb916fba200595c3519f09ec4" 1 "MQTTAsync_SSLOptions"];
  entry "privatekeypassword_486" "privateKeyPassword" [link "../struct_m_q_t_t_async___s_s_l_options.html#abb427571ba37b51f6985f1a6906ca031" 1 "MQTTAsync_SSLOptions"];
  entry "properties_487" "properties" [link "../struct_m_q_t_t_async__message.html#a1594008402f7307e4de8fa6131656dde" 1 "MQTTAsync_message::properties()"; link "../struct_m_q_t_t_async__failure_data5.html#a1594008402f7307e4de8fa6131656dde" 1 "MQTTAsync_failureData5::properties()"; link "../struct_m_q_t_t_async__success_data5.html#a1594008402f7307e4de8fa6131656dde" 1 "MQTTAsync_successData5::properties()"; link "../struct_m_q_t_t_async__response_options.html#a1594008402f7307e4de8fa6131656dde" 1 "MQTTAsync_responseOptions::properties()"; link "../struct_m_q_t_t_async__disconnect_options.html#a1594008402f7307e4de8fa6131656dde" 1 "MQTTAsync_disconnectOptions::properties()"];
  entry "protos_488" "protos" [link "../struct_m_q_t_t_async___s_s_l_options.html#a4f8661600fb8bacf031150f8dcd293a5" 1 "MQTTAsync_SSLOptions"];
  entry "protos_5flen_489" "protos_len" [link "../struct_m_q_t_t_async___s_s_l_options.html#a26f5d839c92f9772c2a5d05486277a42" 1 "MQTTAsync_SSLOptions"];
  entry "pub_490" "pub" [link "../struct_m_q_t_t_async__success_data.html#a7f044c3b839c17a8840cd6f00d7a0e90" 1 "MQTTAsync_successData::pub()"; link "../struct_m_q_t_t_async__success_data5.html#a5c41c63d6c37acbe3c493279c5d4c44a" 1 "MQTTAsync_successData5::pub()"]].
Definition variables_d : list SearchEntry := [
  entry "qos_491" "qos" [link "../struct_m_q_t_t_async__message.html#a35738099155a0e4f54050da474bab2e7" 1 "MQTTAsync_message::qos()"; link "../struct_m_q_t_t_async__success_data.html#a35738099155a0e4f54050da474bab2e7" 1 "MQTTAsync_successData::qos()"; link "../struct_m_q_t_t_async__will_options.html#a35738099155a0e4f54050da474bab2e7" 1 "MQTTAsync_willOptions::qos()"];
  entry "qoslist_492" "qosList" [link "../struct_m_q_t_t_async__success_data.html#a82786d9ba5cae39873f378a48b36c23b" 1 "MQTTAsync_successData"]].
Definition variables_e : list SearchEntry := [
  entry "reasoncode_493" "reasonCode" [link "../struct_m_q_t_t_async__failure_data5.html#a580d8a8ecb285f5a86c2a3865438f8ee" 1 "MQTTAsync_failureData5::reasonCode()"; link "../struct_m_q_t_t_async__success_data5.html#a580d8a8ecb285f5a86c2a3865438f8ee" 1 "MQTTAsync_successData5::reasonCode()"; link "../struct_m_q_t_t_async__disconnect_options.html#a580d8a8ecb285f5a86c2a3865438f8ee" 1 "MQTTAsync_disconnectOptions::reasonCode()"];
  entry "reasoncodecount_494" "reasonCodeCount" [link "../struct_m_q_t_t_async__success_data5.html#ac97316626bd4faa6b71277c221275f4b" 1 "MQTTAsync_successData5"];
  entry "reasoncodes_495" "reasonCodes" [link "../struct_m_q_t_t_async__success_data5.html#a2199c9d905dbfa279895cf8123c10f4f" 1 "MQTTAsync_successData5"];
  entry "restoremessages_496" "restoreMessages" [link "../struct_m_q_t_t_async__create_options.html#a231b8890c3bc2ea07f7c599896f30691" 1 "MQTTAsync_createOptions"];
  entry "retainaspublished_497" "retainAsPublished" [link "../struct_m_q_t_t_subscribe__options.html#a8ba074ad218224ee4a8ca802c5e36944" 1 "MQTTSubscribe_options"];
  entry "retained_498" "retained" [link "../struct_m_q_t_t_async__message.html#a6a4904c112507a43e7dc8495b62cc0fc" 1 "MQTTAsync_message::retained()"; link "../struct_m_q_t_t_async__will_options.html#a6a4904c112507a43e7dc8495b62cc0fc" 1 "MQTTAsync_willOptions::retained()"];
  entry "retainhandling_499" "retainHandling" [link "../struct_m_q_t_t_subscribe__options.html#a11f17b62e40ecdfe107101ae164367a3" 1 "MQTTSubscribe_options"];
  entry "retryinterval_500" "retryInterval" [link "../struct_m_q_t_t_async__connect_options.html#ac73f57846c42bcaa9a47e6721a957748" 1 "MQTTAsync_connectOptions"]].
Definition variables_f : list SearchEntry := [
  entry "sendwhiledisconnected_501" "sendWhileDisconnected" [link "../struct_m_q_t_t_async__create_options.html#a078cd68d8f896ce7eac0cc83d4486a2c" 1 "MQTTAsync_createOptions"];
  entry "serveruri_502" "serverURI" [link "../struct_m_q_t_t_async__success_data.html#a95309fdf27015b12bc4adf56306e557b" 1 "MQTTAsync_successData::serverURI()"; link "../struct_m_q_t_t_async__success_data5.html#a95309fdf27015b12bc4adf56306e557b" 1 "MQTTAsync_successData5::serverURI()"];
  entry "serveruricount_503" "serverURIcount" [link "../struct_m_q_t_t_async__connect_options.html#aa82629005937abd92e97084a428cd61f" 1 "MQTTAsync_connectOptions"];
  entry "serveruris_504" "serverURIs" [link "../struct_m_q_t_t_async__connect_options.html#aba22d81c407fb2ba590dba476240d3e9" 1 "MQTTAsync_connectOptions"];
  entry "sessionpresent_505" "sessionPresent" [link "../struct_m_q_t_t_async__success_data.html#a44baf2cb9a0bbcec3ed2eace43f832d1" 1 "MQTTAsync_successData::sessionPresent()"; link "../struct_m_q_t_t_async__success_data5.html#a44baf2cb9a0bbcec3ed2eace43f832d1" 1 "MQTTAsync_successData5::sessionPresent()"];
  entry "ssl_506" "ssl" [link "../struct_m_q_t_t_async__connect_options.html#a86fd59846f3ba2082fd99906c6b496a6" 1 "MQTTAsync_connectOptions"];
  entry "ssl_5ferror_5fcb_507" "ssl_error_cb" [link "../struct_m_q_t_t_async___s_s_l_options.html#a21b6ca8a73ba197e65f6a93365d39c04" 1 "MQTTAsync_SSLOptions"];
  entry "ssl_5ferror_5fcontext_508" "ssl_error_context" [link "../struct_m_q_t_t_async___s_s_l_options.html#a189f11195f4d5a70024adffdb050885f" 1 "MQTTAsync_SSLOptions"];
  entry "ssl_5fpsk_5fcb_509" "ssl_psk_cb" [link "../struct_m_q_t_t_async___s_s_l_options.html#a94317cdaf352f9ae496976f8a30f8fee" 1 "MQTTAsync_SSLOptions"];
  entry "ssl_5fpsk_5fcontext_510" "ssl_psk_context" [link "../struct_m_q_t_t_async___s_s_l_options.html#ab7f597518dd5b9db5a515081f8e0bd1f" 1 "MQTTAsync_SSLOptions"];
  entry "sslversion_511" "sslVersion" [link "../struct_m_q_t_t_async___s_s_l_options.html#a3543ea1481b68d73cdde833280bb9c45" 1 "MQTTAsync_SSLOptions"];
  entry "struct_5fid_512" "struct_id" [link "../struct_m_q_t_t_subscribe__options.html#aa5326df180cb23c59afbcab711a06479" 1 "MQTTSubscribe_options::struct_id()"; link "../struct_m_q_t_t_async__disconnect_options.html#aa5326df180cb23c59afbcab711a06479" 1 "MQTTAsync_disconnectOptions::struct_id()"; link "../struct_m_q_t_t_async__connect_options.html#aa5326df180cb23c59afbcab711a06479" 1 "MQTTAsync_connectOptions::struct_id()"; link "../struct_m_q_t_t_async___s_s_l_options.html#aa5326df180cb23c59afbcab711a06479" 1 "MQTTAsync_SSLOptions::struct_id()"; link "../struct_m_q_t_t_async__will_options.html#aa5326df180cb23c59afbcab711a06479" 1 "MQTTAsync_willOptions::struct_id()"; link "../struct_m_q_t_t_async__create_options.html#aa5326df180cb23c59afbcab711a06479" 1 "MQTTAsync_createOptions::struct_id()"; link "../struct_m_q_t_t_async__success_data5.html#aa5326df180cb23c59afbcab711a06479" 1 "MQTTAsync_successData5::struct_id()"; link "../struct_m_q_t_t_async__failure_data5.html#aa5326df180cb23c59afbcab711a06479" 1 "MQTTAsync_failureData5::struct_id()"; link "../struct_m_q_t_t_async__connect_data.html#aa5326df180cb23c59afbcab711a06479" 1 "MQTTAsync_connectData::struct_id()"; link "../struct_m_q_t_t_async__message.html#aa5326df180cb23c59afbcab711a06479" 1 "MQTTAsync_message::struct_id()"; link "../struct_m_q_t_t_async__init__options.html#aa5326df180cb23c59afbcab711a06479" 1 "MQTTAsync_init_options::struct_id()"; link "../struct_m_q_t_t_async__response_options.html#aa5326df180cb23c59afbcab711a06479" 1 "MQTTAsync_responseOptions::struct_id()"];
  entry "struct_5fversion_513" "struct_version" [link "../struct_m_q_t_t_async__response_options.html#a0761a5e5be0383882e42924de8e51f82" 1 "MQTTAsync_responseOptions::struct_version()"; link "../struct_m_q_t_t_subscribe__options.html#a0761a5e5be0383882e42924de8e51f82" 1 "MQTTSubscribe_options::struct_version()"; link "../struct_m_q_t_t_async__disconnect_options.html#a0761a5e5be0383882e42924de8e51f82" 1 "MQTTAsync_disconnectOptions::struct_version()"; link "../struct_m_q_t_t_async__connect_options.html#a0761a5e5be0383882e42924de8e51f82" 1 "MQTTAsync_connectOptions::struct_version()"; link "../struct_m_q_t_t_async___s_s_l_options.html#a0761a5e5be0383882e42924de8e51f82" 1 "MQTTAsync_SSLOptions::struct_version()"; link "../struct_m_q_t_t_async__will_options.html#a0761a5e5be0383882e42924de8e51f82" 1 "MQTTAsync_willOptions::struct_version()"; link "../struct_m_q_t_t_async__create_options.html#a0761a5e5be0383882e42924de8e51f82" 1 "MQTTAsync_createOptions::struct_version()"; link "../struct_m_q_t_t_async__success_data5.html#a0761a5e5be0383882e42924de8e51f82" 1 "MQTTAsync_successData5::struct_version()"; link "../struct_m_q_t_t_async__failure_data5.html#a0761a5e5be0383882e42924de8e51f82" 1 "MQTTAsync_failureData5::struct_version()"; link "../struct_m_q_t_t_async__connect_data.html#a0761a5e5be0383882e42924de8e51f82" 1 "MQTTAsync_connectData::struct_version()"; link "../struct_m_q_t_t_async__message.html#a0761a5e5be0383882e42924de8e51f82" 1 "MQTTAsync_message::struct_version()"; link "../struct_m_q_t_t_async__init__options.html#a0761a5e5be0383882e42924de8e51f82" 1 "MQTTAsync_init_options::struct_version()"];
  entry "sub_514" "sub" [link "../struct_m_q_t_t_async__success_data5.html#a26c7d90bad0e00a056dff117b9111346" 1 "MQTTAsync_successData5"];
  entry "subscribeoptions_515" "subscribeOptions" [link "../struct_m_q_t_t_async__response_options.html#a16a3cd2a8c69669e9ed6e420ccd9c517" 1 "MQTTAsync_responseOptions"];
  entry "subscribeoptionscount_516" "subscribeOptionsCount" [link "../struct_m_q_t_t_async__response_options.html#a1a4b9bb2780472ec7bb65d0df1bf5d26" 1 "MQTTAsync_responseOptions"];
  entry "subscribeoptionslist_517" "subscribeOptionsList" [link "../struct_m_q_t_t_async__response_options.html#a98f71c5d03dc5ee86fd9dc0119ccb961" 1 "MQTTAsync_responseOptions"]].
Definition variables_10 : list SearchEntry := [
  entry "timeout_518" "timeout" [link "../struct_m_q_t_t_async__disconnect_options.html#a493b57f443cc38b3d3df9c1e584d9d82" 1 "MQTTAsync_disconnectOptions"];
  entry "token_519" "token" [link "../struct_m_q_t_t_async__failure_data.html#af8f771e67d284379111151b003c0d810" 1 "MQTTAsync_failureData::token()"; link "../struct_m_q_t_t_async__failure_data5.html#af8f771e67d284379111151b003c0d810" 1 "MQTTAsync_failureData5::token()"; link "../struct_m_q_t_t_async__success_data.html#af8f771e67d284379111151b003c0d810" 1 "MQTTAsync_successData::token()"; link "../struct_m_q_t_t_async__success_data5.html#af8f771e67d284379111151b003c0d810" 1 "MQTTAsync_successData5::token()"; link "../struct_m_q_t_t_async__response_options.html#af8f771e67d284379111151b003c0d810" 1 "MQTTAsync_responseOptions::token()"];
  entry "topicname_520" "topicName" [link "../struct_m_q_t_t_async__will_options.html#a0e20a7b350881d05108d6342884198a5" 1 "MQTTAsync_willOptions"];
  entry "truststore_521" "trustStore" [link "../struct_m_q_t_t_async___s_s_l_options.html#a032835d4c4a1c1e19b53c330a673a6e0" 1 "MQTTAsync_SSLOptions"]].
Definition variables_11 : list SearchEntry := [
  entry "unsub_522" "unsub" [link "../struct_m_q_t_t_async__success_data5.html#a46b20b320d6951e567ebf678ea4ac1a3" 1 "MQTTAsync_successData5"];
  entry "username_523" "username" [link "../struct_m_q_t_t_async__connect_data.html#aba2dfcdfda80edcb531a5a7115d3e043" 1 "MQTTAsync_connectData::username()"; link "../struct_m_q_t_t_async__connect_options.html#aba2dfcdfda80edcb531a5a7115d3e043" 1 "MQTTAsync_connectOptions::username()"]].
Definition variables_12 : list SearchEntry := [
  entry "value_524" "value" [link "../struct_m_q_t_t_async__name_value.html#a8556878012feffc9e0beb86cd78f424d" 1 "MQTTAsync_nameValue::value()"; link "../struct_m_q_t_t_property.html#a09e85ff5ad73824d6c2edc1ce4283a17" 1 "MQTTProperty::value()"; link "../struct_m_q_t_t_property.html#af2307539b97777bec0475619af5648f1" 1 "MQTTProperty::value()"];
  entry "verify_525" "verify" [link "../struct_m_q_t_t_async___s_s_l_options.html#a94900629685d5ed08f66fd2931f573ce" 1 "MQTTAsync_SSLOptions"]].
Definition variables_13 : list SearchEntry := [
  entry "will_526" "will" [link "../struct_m_q_t_t_async__connect_options.html#a7a9c5105542460d6fd9323facca66648" 1 "MQTTAsync_connectOptions"];
  entry "willproperties_527" "willProperties" [link "../struct_m_q_t_t_async__connect_options.html#ac31f13e964ffb7e3696caef47ecc0641" 1 "MQTTAsync_connectOptions"]].
Definition typedefs_0 : list SearchEntry := [
  entry "mqttasync_528" "MQTTAsync" [link "../_m_q_t_t_async_8h.html#a0db1d736cdc0c864fe41abb3afd605bd" 1 "MQTTAsync.h"];
  entry "mqttasync_5fcalloptions_529" "MQTTAsync_callOptions" [link "../_m_q_t_t_async_8h.html#ab6bfa6beae93c259220e1a131ba1cf9c" 1 "MQTTAsync.h"];
  entry "mqttasync_5fconnected_530" "MQTTAsync_connected" [link "../_m_q_t_t_async_8h.html#a34bb8d321e9d368780b5c832c058f223" 1 "MQTTAsync.h"];
  entry "mqttasync_5fconnectionlost_531" "MQTTAsync_connectionLost" [link "../_m_q_t_t_async_8h.html#a3900a98d7b1d58ad6e686bfce298bb6c" 1 "MQTTAsync.h"];
  entry "mqttasync_5fdeliverycomplete_532" "MQTTAsync_deliveryComplete" [link "../_m_q_t_t_async_8h.html#ab10296618e266b3c02fd117d6616b15d" 1 "MQTTAsync.h"];
  entry "mqttasync_5fdisconnected_533" "MQTTAsync_disconnected" [link "../_m_q_t_t_async_8h.html#a52a1d9ab6e5d5064a3de42d0eec88f57" 1 "MQTTAsync.h"];
  entry "mqttasync_5fmessagearrived_534" "MQTTAsync_messageArrived" [link "../_m_q_t_t_async_8h.html#a3918ead59b56816a8d7544def184e48e" 1 "MQTTAsync.h"];
  entry "mqttasync_5fonfailure_535" "MQTTAsync_onFailure" [link "../_m_q_t_t_async_8h.html#a6060c25c2641e878803aef76fefb31ee" 1 "MQTTAsync.h"];
  entry "mqttasync_5fonfailure5_536" "MQTTAsync_onFailure5" [link "../_m_q_t_t_async_8h.html#a8c5023e04d5c3e9805d5dae76df21f4c" 1 "MQTTAsync.h"];
  entry "mqttasync_5fonsuccess_537" "MQTTAsync_onSuccess" [link "../_m_q_t_t_async_8h.html#a7b0c18a0e29e2ce73f3ea109bc32617b" 1 "MQTTAsync.h"];
  entry "mqttasync_5fonsuccess5_538" "MQTTAsync_onSuccess5" [link "../_m_q_t_t_async_8h.html#a892cf122e6e8d8f6cd38c4c8efe8fb67" 1 "MQTTAsync.h"];
  entry "mqttasync_5fresponseoptions_539" "MQTTAsync_responseOptions" [link "../_m_q_t_t_async_8h.html#ae1568d96d6418004cc79466c06f3d791" 1 "MQTTAsync.h"];
  entry "mqttasync_5ftoken_540" "MQTTAsync_token" [link "../_m_q_t_t_async_8h.html#a7ca6d2a1813f2bbd0bc3af2771e46ba4" 1 "MQTTAsync.h"];
  entry "mqttasync_5ftracecallback_541" "MQTTAsync_traceCallback" [link "../_m_q_t_t_async_8h.html#a65aba1caeae9b5af5d5b6c5598a75b02" 1 "MQTTAsync.h"];
  entry "mqttasync_5fupdateconnectoptions_542" "MQTTAsync_updateConnectOptions" [link "../_m_q_t_t_async_8h.html#a5e44304a2c011a7d61b72c779ad83979" 1 "MQTTAsync.h"];
  entry "mqttpersistence_5fafterread_543" "MQTTPersistence_afterRead" [link "../_m_q_t_t_client_persistence_8h.html#af5a966a574c6ad7a35f1ebb7edd5c1c4" 1 "MQTTClientPersistence.h"];
  entry "mqttpersistence_5fbeforewrite_544" "MQTTPersistence_beforeWrite" [link "../_m_q_t_t_client_persistence_8h.html#ab865640a1cc53b68622004c5a2d29fae" 1 "MQTTClientPersistence.h"];
  entry "mqttproperties_545" "MQTTProperties" [link "../_m_q_t_t_properties_8h.html#a7758f1a5eceb6f46c8540630e39e2fb4" 1 "MQTTProperties.h"];
  entry "mqttsubscribe_5foptions_546" "MQTTSubscribe_options" [link "../_m_q_t_t_subscribe_opts_8h.html#aa68db3eaed272ae1aaea294401079d8a" 1 "MQTTSubscribeOpts.h"]].
Definition typedefs_1 : list SearchEntry := [
  entry "persistence_5fclear_547" "Persistence_clear" [link "../_m_q_t_t_client_persistence_8h.html#acee7097c1a0ab44b98c870f533687887" 1 "MQTTClientPersistence.h"];
  entry "persistence_5fclose_548" "Persistence_close" [link "../_m_q_t_t_client_persistence_8h.html#a3582de2c87e89f617e8e553b2a0e279a" 1 "MQTTClientPersistence.h"];
  entry "persistence_5fcontainskey_549" "Persistence_containskey" [link "../_m_q_t_t_client_persistence_8h.html#a753a0f9a9c51284d63a907af19c7bbba" 1 "MQTTClientPersistence.h"];
  entry "persistence_5fget_550" "Persistence_get" [link "../_m_q_t_t_client_persistence_8h.html#adc3aff3c570fa5509e9d6814a85ab867" 1 "MQTTClientPersistence.h"];
  entry "persistence_5fkeys_551" "Persistence_keys" [link "../_m_q_t_t_client_persistence_8h.html#a2601cc91eeabdbf9578f8dd45e4997a8" 1 "MQTTClientPersistence.h"];
  entry "persistence_5fopen_552" "Persistence_open" [link "../_m_q_t_t_client_persistence_8h.html#a4c7d332bb16907058ae3b375488b6008" 1 "MQTTClientPersistence.h"];
  entry "persistence_5fput_553" "Persistence_put" [link "../_m_q_t_t_client_persistence_8h.html#a44679cab77cfbd6e2a4639cdd27ac80c" 1 "MQTTClientPersistence.h"];
  entry "persistence_5fremove_554" "Persistence_remove" [link "../_m_q_t_t_client_persistence_8h.html#a73350bf7208658bf5434a59f7bdbae90" 1 "MQTTClientPersistence.h"]].
Definition enums_0 : list SearchEntry := [
  entry "mqttasync_5ftrace_5flevels_555" "MQTTASYNC_TRACE_LEVELS" [link "../_m_q_t_t_async_8h.html#a5de816f986b318947709a34e0787eda5" 1 "MQTTAsync.h"];
  entry "mqttpropertycodes_556" "MQTTPropertyCodes" [link "../_m_q_t_t_properties_8h.html#af623c1b670dfe3fda633c068e054d8b4" 1 "MQTTProperties.h"];
  entry "mqttpropertytypes_557" "MQTTPropertyTypes" [link "../_m_q_t_t_properties_8h.html#a942f52ef7c232829f6df5c86e07cc958" 1 "MQTTProperties.h"];
  entry "mqttreasoncodes_558" "MQTTReasonCodes" [link "../_m_q_t_t_reason_codes_8h.html#aba6db0fccfa3f8972ea48117b8b2a279" 1 "MQTTReasonCodes.h"]].
Definition enumvalues_0 : list SearchEntry := [
  entry "mqttasync_5ftrace_5ferror_559" "MQTTASYNC_TRACE_ERROR" [link "../_m_q_t_t_async_8h.html#a5de816f986b318947709a34e0787eda5ac428f74ca453dacb7b8271ca741266e8" 1 "MQTTAsync.h"];
  entry "mqttasync_5ftrace_5ffatal_560" "MQTTASYNC_TRACE_FATAL" [link "../_m_q_t_t_async_8h.html#a5de816f986b318947709a34e0787eda5a0b91d2213ebb6655e41a7f6ce1a42295" 1 "MQTTAsync.h"];
  entry "mqttasync_5ftrace_5fmaximum_561" "MQTTASYNC_TRACE_MAXIMUM" [link "../_m_q_t_t_async_8h.html#a5de816f986b318947709a34e0787eda5af684f42971cced68693ce993703548c1" 1 "MQTTAsync.h"];
  entry "mqttasync_5ftrace_5fmedium_562" "MQTTASYNC_TRACE_MEDIUM" [link "../_m_q_t_t_async_8h.html#a5de816f986b318947709a34e0787eda5a133c380b84d75477ff31a2ad732133ce" 1 "MQTTAsync.h"];
  entry "mqttasync_5ftrace_5fminimum_563" "MQTTASYNC_TRACE_MINIMUM" [link "../_m_q_t_t_async_8h.html#a5de816f986b318947709a34e0787eda5a7a45c26816b1cac1fde02d79a9f4337b" 1 "MQTTAsync.h"];
  entry "mqttasync_5ftrace_5fprotocol_564" "MQTTASYNC_TRACE_PROTOCOL" [link "../_m_q_t_t_async_8h.html#a5de816f986b318947709a34e0787eda5a6a719b2b7fc4dfc41494370ff96fec3e" 1 "MQTTAsync.h"];
  entry "mqttasync_5ftrace_5fsevere_565" "MQTTASYNC_TRACE_SEVERE" [link "../_m_q_t_t_async_8h.html#a5de816f986b318947709a34e0787eda5a3084770185f384398cefe4aaba533d40" 1 "MQTTAsync.h"];
  entry "mqttproperty_5fcode_5fassigned_5fclient_5fidentifer_566" "MQTTPROPERTY_CODE_ASSIGNED_CLIENT_IDENTIFER" [link "../_m_q_t_t_properties_8h.html#af623c1b670dfe3fda633c068e054d8b4a768d84858fd18d5d5a7dee394929c672" 1 "MQTTProperties.h"];
  entry "mqttproperty_5fcode_5fauthentication_5fdata_567" "MQTTPROPERTY_CODE_AUTHENTICATION_DATA" [link "../_m_q_t_t_properties_8h.html#af623c1b670dfe3fda633c068e054d8b4abdf9feec165aceefbe7aa46764f6ab6e" 1 "MQTTProperties.h"];
  entry "mqttproperty_5fcode_5fauthentication_5fmethod_568" "MQTTPROPERTY_CODE_AUTHENTICATION_METHOD" [link "../_m_q_t_t_properties_8h.html#af623c1b670dfe3fda633c068e054d8b4a7c53f1e414b577d787b5d51af3204100" 1 "MQTTProperties.h"];
  entry "mqttproperty_5fcode_5fcontent_5ftype_569" "MQTTPROPERTY_CODE_CONTENT_TYPE" [link "../_m_q_t_t_properties_8h.html#af623c1b670dfe3fda633c068e054d8b4a4027d9e0fb53a62ae35963e700b56198" 1 "MQTTProperties.h"];
  entry "mqttproperty_5fcode_5fcorrelation_5fdata_570" "MQTTPROPERTY_CODE_CORRELATION_DATA" [link "../_m_q_t_t_properties_8h.html#af623c1b670dfe3fda633c068e054d8b4a887d3dd3f0ce31255324f5a1ba8b72c5" 1 "MQTTProperties.h"];
  entry "mqttproperty_5fcode_5fmaximum_5fpacket_5fsize_571" "MQTTPROPERTY_CODE_MAXIMUM_PACKET_SIZE" [link "../_m_q_t_t_properties_8h.html#af623c1b670dfe3fda633c068e054d8b4a6834ea9878f028d5fbdeccaaeae492e5" 1 "MQTTProperties.h"];
  entry "mqttproperty_5fcode_5fmaximum_5fqos_572" "MQTTPROPERTY_CODE_MAXIMUM_QOS" [link "../_m_q_t_t_properties_8h.html#af623c1b670dfe3fda633c068e054d8b4a506faeb89c407cf78853c777d750fa59" 1 "MQTTProperties.h"];
  entry "mqttproperty_5fcode_5fmessage_5fexpiry_5finterval_573" "MQTTPROPERTY_CODE_MESSAGE_EXPIRY_INTERVAL" [link "../_m_q_t_t_properties_8h.html#af623c1b670dfe3fda633c068e054d8b4a284c0e62d47ee8d358b16a8075632b4a" 1 "MQTTProperties.h"];
  entry "mqttproperty_5fcode_5fpayload_5fformat_5findicator_574" "MQTTPROPERTY_CODE_PAYLOAD_FORMAT_INDICATOR" [link "../_m_q_t_t_properties_8h.html#af623c1b670dfe3fda633c068e054d8b4ae5d077520427d03b44096f631411575d" 1 "MQTTProperties.h"];
  entry "mqttproperty_5fcode_5freason_5fstring_575" "MQTTPROPERTY_CODE_REASON_STRING" [link "../_m_q_t_t_properties_8h.html#af623c1b670dfe3fda633c068e054d8b4a3dce8f679474e901ce4aec076e9e59e1" 1 "MQTTProperties.h"];
  entry "mqttproperty_5fcode_5freceive_5fmaximum_576" "MQTTPROPERTY_CODE_RECEIVE_MAXIMUM" [link "../_m_q_t_t_properties_8h.html#af623c1b670dfe3fda633c068e054d8b4ab2688fe8d7d263c27c00d41776cb8f9f" 1 "MQTTProperties.h"];
  entry "mqttproperty_5fcode_5frequest_5fproblem_5finformation_577" "MQTTPROPERTY_CODE_REQUEST_PROBLEM_INFORMATION" [link "../_m_q_t_t_properties_8h.html#af623c1b670dfe3fda633c068e054d8b4a3954daf1d5772b5d56eefa1ab6a28aa1" 1 "MQTTProperties.h"];
  entry "mqttproperty_5fcode_5frequest_5fresponse_5finformation_578" "MQTTPROPERTY_CODE_REQUEST_RESPONSE_INFORMATION" [link "../_m_q_t_t_properties_8h.html#af623c1b670dfe3fda633c068e054d8b4a420b882a337dc1fd5f336ac6cd0529bf" 1 "MQTTProperties.h"];
  entry "mqttproperty_5fcode_5fresponse_5finformation_579" "MQTTPROPERTY_CODE_RESPONSE_INFORMATION" [link "../_m_q_t_t_properties_8h.html#af623c1b670dfe3fda633c068e054d8b4a2584b050f016af496c7f0b46692dbc00" 1 "MQTTProperties.h"];
  entry "mqttproperty_5fcode_5fresponse_5ftopic_580" "MQTTPROPERTY_CODE_RESPONSE_TOPIC" [link "../_m_q_t_t_properties_8h.html#af623c1b670dfe3fda633c068e054d8b4a7fa9996eef721d318504fbb0a8d4bac5" 1 "MQTTProperties.h"];
  entry "mqttproperty_5fcode_5fretain_5favailable_581" "MQTTPROPERTY_CODE_RETAIN_AVAILABLE" [link "../_m_q_t_t_properties_8h.html#af623c1b670dfe3fda633c068e054d8b4a448b3a40afaa5f7195701e7dc8bed30c" 1 "MQTTProperties.h"];
  entry "mqttproperty_5fcode_5fserver_5fkeep_5falive_582" "MQTTPROPERTY_CODE_SERVER_KEEP_ALIVE" [link "../_m_q_t_t_properties_8h.html#af623c1b670dfe3fda633c068e054d8b4ab106f320e7537b79644f25d3efcd68c7" 1 "MQTTProperties.h"];
  entry "mqttproperty_5fcode_5fserver_5freference_583" "MQTTPROPERTY_CODE_SERVER_REFERENCE" [link "../_m_q_t_t_properties_8h.html#af623c1b670dfe3fda633c068e054d8b4a0168e8a59f7994c02b7a7fd2fc3735c4" 1 "MQTTProperties.h"];
  entry "mqttproperty_5fcode_5fsession_5fexpiry_5finterval_584" "MQTTPROPERTY_CODE_SESSION_EXPIRY_INTERVAL" [link "../_m_q_t_t_properties_8h.html#af623c1b670dfe3fda633c068e054d8b4a22e4caa63f63ca3f9b1c1330711ee766" 1 "MQTTProperties.h"];
  entry "mqttproperty_5fcode_5fshared_5fsubscription_5favailable_585" "MQTTPROPERTY_CODE_SHARED_SUBSCRIPTION_AVAILABLE" [link "../_m_q_t_t_properties_8h.html#af623c1b670dfe3fda633c068e054d8b4ae04a7356f9e11654f15a3b21f2aae636" 1 "MQTTProperties.h"];
  entry "mqttproperty_5fcode_5fsubscription_5fidentifier_586" "MQTTPROPERTY_CODE_SUBSCRIPTION_IDENTIFIER" [link "../_m_q_t_t_properties_8h.html#af623c1b670dfe3fda633c068e054d8b4a70ead9c93f06396a4d9469b65bff0c96" 1 "MQTTProperties.h"];
  entry "mqttproperty_5fcode_5fsubscription_5fidentifiers_5favailable_587" "MQTTPROPERTY_CODE_SUBSCRIPTION_IDENTIFIERS_AVAILABLE" [link "../_m_q_t_t_properties_8h.html#af623c1b670dfe3fda633c068e054d8b4a8b366cfd8bd3f388bafb67f3ebf83505" 1 "MQTTProperties.h"];
  entry "mqttproperty_5fcode_5ftopic_5falias_588" "MQTTPROPERTY_CODE_TOPIC_ALIAS" [link "../_m_q_t_t_properties_8h.html#af623c1b670dfe3fda633c068e054d8b4ad4dfb37d341ea190afc144668e5e3bee" 1 "MQTTProperties.h"];
  entry "mqttproperty_5fcode_5ftopic_5falias_5fmaximum_589" "MQTTPROPERTY_CODE_TOPIC_ALIAS_MAXIMUM" [link "../_m_q_t_t_properties_8h.html#af623c1b670dfe3fda633c068e054d8b4a0a0b0b0715ecc9ccf471c75aa4c21c23" 1 "MQTTProperties.h"];
  entry "mqttproperty_5fcode_5fuser_5fproperty_590" "MQTTPROPERTY_CODE_USER_PROPERTY" [link "../_m_q_t_t_properties_8h.html#af623c1b670dfe3fda633c068e054d8b4a596ff540370235d3eca693ce30dd4af8" 1 "MQTTProperties.h"];
  entry "mqttproperty_5fcode_5fwildcard_5fsubscription_5favailable_591" "MQTTPROPERTY_CODE_WILDCARD_SUBSCRIPTION_AVAILABLE" [link "../_m_q_t_t_properties_8h.html#af623c1b670dfe3fda633c068e054d8b4ad05993f90baaee0ba7094ccef4d378b9" 1 "MQTTProperties.h"];
  entry "mqttproperty_5fcode_5fwill_5fdelay_5finterval_592" "MQTTPROPERTY_CODE_WILL_DELAY_INTERVAL" [link "../_m_q_t_t_properties_8h.html#af623c1b670dfe3fda633c068e054d8b4a53fd81bc554f152a2772d282be7ce5ef" 1 "MQTTProperties.h"];
  entry "mqttproperty_5ftype_5fbinary_5fdata_593" "MQTTPROPERTY_TYPE_BINARY_DATA" [link "../_m_q_t_t_properties_8h.html#a942f52ef7c232829f6df5c86e07cc958a6643aed682b9b07f98159856776fe7b4" 1 "MQTTProperties.h"];
  entry "mqttproperty_5ftype_5fbyte_594" "MQTTPROPERTY_TYPE_BYTE" [link "../_m_q_t_t_properties_8h.html#a942f52ef7c232829f6df5c86e07cc958ac36f96ce58c98a8ebbe0783df030726a" 1 "MQTTProperties.h"];
  entry "mqttproperty_5ftype_5ffour_5fbyte_5finteger_595" "MQTTPROPERTY_TYPE_FOUR_BYTE_INTEGER" [link "../_m_q_t_t_properties_8h.html#a942f52ef7c232829f6df5c86e07cc958aa49c558733bd735ae872fd87ad0d7e15" 1 "MQTTProperties.h"];
  entry "mqttproperty_5ftype_5ftwo_5fbyte_5finteger_596" "MQTTPROPERTY_TYPE_TWO_BYTE_INTEGER" [link "../_m_q_t_t_properties_8h.html#a942f52ef7c232829f6df5c86e07cc958ae301a9e68326cc2d8bfefeca401e78e6" 1 "MQTTProperties.h"];
  entry "mqttproperty_5ftype_5futf_5f8_5fencoded_5fstring_597" "MQTTPROPERTY_TYPE_UTF_8_ENCODED_STRING" [link "../_m_q_t_t_properties_8h.html#a942f52ef7c232829f6df5c86e07cc958ad45c866a5bef6c5048a7af21405734d1" 1 "MQTTProperties.h"];
  entry "mqttproperty_5ftype_5futf_5f8_5fstring_5fpair_598" "MQTTPROPERTY_TYPE_UTF_8_STRING_PAIR" [link "../_m_q_t_t_properties_8h.html#a942f52ef7c232829f6df5c86e07cc958a28ab5fe5b159f3b3a8884b0f61527214" 1 "MQTTProperties.h"];
  entry "mqttproperty_5ftype_5fvariable_5fbyte_5finteger_599" "MQTTPROPERTY_TYPE_VARIABLE_BYTE_INTEGER" [link "../_m_q_t_t_properties_8h.html#a942f52ef7c232829f6df5c86e07cc958a27bbcb5bc4f584f96612c0cec329c6a7" 1 "MQTTProperties.h"];
  entry "mqttreasoncode_5fadministrative_5faction_600" "MQTTREASONCODE_ADMINISTRATIVE_ACTION" [link "../_m_q_t_t_reason_codes_8h.html#aba6db0fccfa3f8972ea48117b8b2a279ae1e3b428072be26d2cbf6f88361f76cc" 1 "MQTTReasonCodes.h"];
  entry "mqttreasoncode_5fbad_5fauthentication_5fmethod_601" "MQTTREASONCODE_BAD_AUTHENTICATION_METHOD" [link "../_m_q_t_t_reason_codes_8h.html#aba6db0fccfa3f8972ea48117b8b2a279af62e569703d7a7f0acffaa59522b9dc3" 1 "MQTTReasonCodes.h"];
  entry "mqttreasoncode_5fbad_5fuser_5fname_5for_5fpassword_602" "MQTTREASONCODE_BAD_USER_NAME_OR_PASSWORD" [link "../_m_q_t_t_reason_codes_8h.html#aba6db0fccfa3f8972ea48117b8b2a279abfc617112d5856722108912c5c6633ff" 1 "MQTTReasonCodes.h"];
  entry "mqttreasoncode_5fbanned_603" "MQTTREASONCODE_BANNED" [link "../_m_q_t_t_reason_codes_8h.html#aba6db0fccfa3f8972ea48117b8b2a279ab4cf7578f0078293fa66a4cd5e5d4aa4" 1 "MQTTReasonCodes.h"];
  entry "mqttreasoncode_5fclient_5fidentifier_5fnot_5fvalid_604" "MQTTREASONCODE_CLIENT_IDENTIFIER_NOT_VALID" [link "../_m_q_t_t_reason_codes_8h.html#aba6db0fccfa3f8972ea48117b8b2a279ab58bb236e7dbd000a56c590c01bc73fd" 1 "MQTTReasonCodes.h"];
  entry "mqttreasoncode_5fconnection_5frate_5fexceeded_605" "MQTTREASONCODE_CONNECTION_RATE_EXCEEDED" [link "../_m_q_t_t_reason_codes_8h.html#aba6db0fccfa3f8972ea48117b8b2a279a879c56ed34fa2dd6492e7a34a9747bc1" 1 "MQTTReasonCodes.h"];
  entry "mqttreasoncode_5fcontinue_5fauthentication_606" "MQTTREASONCODE_CONTINUE_AUTHENTICATION" [link "../_m_q_t_t_reason_codes_8h.html#aba6db0fccfa3f8972ea48117b8b2a279a0c0726c0e87eaddd636708497c69d055" 1 "MQTTReasonCodes.h"];
  entry "mqttreasoncode_5fdisconnect_5fwith_5fwill_5fmessage_607" "MQTTREASONCODE_DISCONNECT_WITH_WILL_MESSAGE" [link "../_m_q_t_t_reason_codes_8h.html#aba6db0fccfa3f8972ea48117b8b2a279a55f533a6cc98417d08dac8cc69da0ed3" 1 "MQTTReasonCodes.h"];
  entry "mqttreasoncode_5fgranted_5fqos_5f0_608" "MQTTREASONCODE_GRANTED_QOS_0" [link "../_m_q_t_t_reason_codes_8h.html#aba6db0fccfa3f8972ea48117b8b2a279a3fd0d12c0e44b4df9f716aef89b61aff" 1 "MQTTReasonCodes.h"];
  entry "mqttreasoncode_5fgranted_5fqos_5f1_609" "MQTTREASONCODE_GRANTED_QOS_1" [link "../_m_q_t_t_reason_codes_8h.html#aba6db0fccfa3f8972ea48117b8b2a279a07578b30b2d72af2eeea6be268475876" 1 "MQTTReasonCodes.h"];
  entry "mqttreasoncode_5fgranted_5fqos_5f2_610" "MQTTREASONCODE_GRANTED_QOS_2" [link "../_m_q_t_t_reason_codes_8h.html#aba6db0fccfa3f8972ea48117b8b2a279a74ac34a39a849c9c369b18545a4b1f93" 1 "MQTTReasonCodes.h"];
  entry "mqttreasoncode_5fimplementation_5fspecific_5ferror_611" "MQTTREASONCODE_IMPLEMENTATION_SPECIFIC_ERROR" [link "../_m_q_t_t_reason_codes_8h.html#aba6db0fccfa3f8972ea48117b8b2a279a41629fa453cdf14ef6a5370a16d5a19c" 1 "MQTTReasonCodes.h"];
  entry "mqttreasoncode_5fkeep_5falive_5ftimeout_612" "MQTTREASONCODE_KEEP_ALIVE_TIMEOUT" [link "../_m_q_t_t_reason_codes_8h.html#aba6db0fccfa3f8972ea48117b8b2a279af21a6c320e34993d7aa169330ab23409" 1 "MQTTReasonCodes.h"];
  entry "mqttreasoncode_5fmalformed_5fpacket_613" "MQTTREASONCODE_MALFORMED_PACKET" [link "../_m_q_t_t_reason_codes_8h.html#aba6db0fccfa3f8972ea48117b8b2a279a2cbee3502c00d304bf1091195457fcf5" 1 "MQTTReasonCodes.h"];
  entry "mqttreasoncode_5fmaximum_5fconnect_5ftime_614" "MQTTREASONCODE_MAXIMUM_CONNECT_TIME" [link "../_m_q_t_t_reason_codes_8h.html#aba6db0fccfa3f8972ea48117b8b2a279a6f07c3b42690afc7b117321dc4e2657f" 1 "MQTTReasonCodes.h"];
  entry "mqttreasoncode_5fmessage_5frate_5ftoo_5fhigh_615" "MQTTREASONCODE_MESSAGE_RATE_TOO_HIGH" [link "../_m_q_t_t_reason_codes_8h.html#aba6db0fccfa3f8972ea48117b8b2a279af76d0e32fb44fa94e407b1af5dc7aa4e" 1 "MQTTReasonCodes.h"];
  entry "mqttreasoncode_5fno_5fmatching_5fsubscribers_616" "MQTTREASONCODE_NO_MATCHING_SUBSCRIBERS" [link "../_m_q_t_t_reason_codes_8h.html#aba6db0fccfa3f8972ea48117b8b2a279a1720d8b04af4c0d92e27b378d735e899" 1 "MQTTReasonCodes.h"];
  entry "mqttreasoncode_5fno_5fsubscription_5ffound_617" "MQTTREASONCODE_NO_SUBSCRIPTION_FOUND" [link "../_m_q_t_t_reason_codes_8h.html#aba6db0fccfa3f8972ea48117b8b2a279a55208c34a26f67e112d53c54be37acb9" 1 "MQTTReasonCodes.h"];
  entry "mqttreasoncode_5fnormal_5fdisconnection_618" "MQTTREASONCODE_NORMAL_DISCONNECTION" [link "../_m_q_t_t_reason_codes_8h.html#aba6db0fccfa3f8972ea48117b8b2a279a3590f41d984646bc58c82734c1516c92" 1 "MQTTReasonCodes.h"];
  entry "mqttreasoncode_5fnot_5fauthorized_619" "MQTTREASONCODE_NOT_AUTHORIZED" [link "../_m_q_t_t_reason_codes_8h.html#aba6db0fccfa3f8972ea48117b8b2a279a91a14fc763349cf4a7047d24f13d0803" 1 "MQTTReasonCodes.h"];
  entry "mqttreasoncode_5fpacket_5fidentifier_5fin_5fuse_620" "MQTTREASONCODE_PACKET_IDENTIFIER_IN_USE" [link "../_m_q_t_t_reason_codes_8h.html#aba6db0fccfa3f8972ea48117b8b2a279adaee01dbc97a0773b5032a29c797613a" 1 "MQTTReasonCodes.h"];
  entry "mqttreasoncode_5fpacket_5fidentifier_5fnot_5ffound_621" "MQTTREASONCODE_PACKET_IDENTIFIER_NOT_FOUND" [link "../_m_q_t_t_reason_codes_8h.html#aba6db0fccfa3f8972ea48117b8b2a279a4908a8293054f8ff8d6c47fe0cf31932" 1 "MQTTReasonCodes.h"];
  entry "mqttreasoncode_5fpacket_5ftoo_5flarge_622" "MQTTREASONCODE_PACKET_TOO_LARGE" [link "../_m_q_t_t_reason_codes_8h.html#aba6db0fccfa3f8972ea48117b8b2a279a11a587e15c468bf1c6ba9df7e8fd78aa" 1 "MQTTReasonCodes.h"];
  entry "mqttreasoncode_5fpayload_5fformat_5finvalid_623" "MQTTREASONCODE_PAYLOAD_FORMAT_INVALID" [link "../_m_q_t_t_reason_codes_8h.html#aba6db0fccfa3f8972ea48117b8b2a279a2d629400116e1723c5e2e597bbfe29ca" 1 "MQTTReasonCodes.h"];
  entry "mqttreasoncode_5fprotocol_5ferror_624" "MQTTREASONCODE_PROTOCOL_ERROR" [link "../_m_q_t_t_reason_codes_8h.html#aba6db0fccfa3f8972ea48117b8b2a279ae0dad403f352e31449764e2ac94c7756" 1 "MQTTReasonCodes.h"];
  entry "mqttreasoncode_5fqos_5fnot_5fsupported_625" "MQTTREASONCODE_QOS_NOT_SUPPORTED" [link "../_m_q_t_t_reason_codes_8h.html#aba6db0fccfa3f8972ea48117b8b2a279a83865a2440b512e5602152521e3810bb" 1 "MQTTReasonCodes.h"];
  entry "mqttreasoncode_5fquota_5fexceeded_626" "MQTTREASONCODE_QUOTA_EXCEEDED" [link "../_m_q_t_t_reason_codes_8h.html#aba6db0fccfa3f8972ea48117b8b2a279a954fcabf6e88925b2a57bcd84032d9f9" 1 "MQTTReasonCodes.h"];
  entry "mqttreasoncode_5fre_5fauthenticate_627" "MQTTREASONCODE_RE_AUTHENTICATE" [link "../_m_q_t_t_reason_codes_8h.html#aba6db0fccfa3f8972ea48117b8b2a279a6cc1b342856c1d96d54c368148b536f7" 1 "MQTTReasonCodes.h"];
  entry "mqttreasoncode_5freceive_5fmaximum_5fexceeded_628" "MQTTREASONCODE_RECEIVE_MAXIMUM_EXCEEDED" [link "../_m_q_t_t_reason_codes_8h.html#aba6db0fccfa3f8972ea48117b8b2a279a45afaacbefd2d816fddf9fe9804b61d1" 1 "MQTTReasonCodes.h"];
  entry "mqttreasoncode_5fretain_5fnot_5fsupported_629" "MQTTREASONCODE_RETAIN_NOT_SUPPORTED" [link "../_m_q_t_t_reason_codes_8h.html#aba6db0fccfa3f8972ea48117b8b2a279aa4378012148d98599398bc4a3480c38f" 1 "MQTTReasonCodes.h"];
  entry "mqttreasoncode_5fserver_5fbusy_630" "MQTTREASONCODE_SERVER_BUSY" [link "../_m_q_t_t_reason_codes_8h.html#aba6db0fccfa3f8972ea48117b8b2a279af507e75147b0b34f36955c9f62389a74" 1 "MQTTReasonCodes.h"];
  entry "mqttreasoncode_5fserver_5fmoved_631" "MQTTREASONCODE_SERVER_MOVED" [link "../_m_q_t_t_reason_codes_8h.html#aba6db0fccfa3f8972ea48117b8b2a279a783254c7acf8de52ee345bc176f9d6c0" 1 "MQTTReasonCodes.h"];
  entry "mqttreasoncode_5fserver_5fshutting_5fdown_632" "MQTTREASONCODE_SERVER_SHUTTING_DOWN" [link "../_m_q_t_t_reason_codes_8h.html#aba6db0fccfa3f8972ea48117b8b2a279a085e1572ffce61838807b7429b691113" 1 "MQTTReasonCodes.h"];
  entry "mqttreasoncode_5fserver_5funavailable_633" "MQTTREASONCODE_SERVER_UNAVAILABLE" [link "../_m_q_t_t_reason_codes_8h.html#aba6db0fccfa3f8972ea48117b8b2a279a0cfd4de78870b3fb0499b916d06d40bb" 1 "MQTTReasonCodes.h"];
  entry "mqttreasoncode_5fsession_5ftaken_5fover_634" "MQTTREASONCODE_SESSION_TAKEN_OVER" [link "../_m_q_t_t_reason_codes_8h.html#aba6db0fccfa3f8972ea48117b8b2a279ad15ffa6884f97976e237afafcbccea21" 1 "MQTTReasonCodes.h"];
  entry "mqttreasoncode_5fshared_5fsubscriptions_5fnot_5fsupported_635" "MQTTREASONCODE_SHARED_SUBSCRIPTIONS_NOT_SUPPORTED" [link "../_m_q_t_t_reason_codes_8h.html#aba6db0fccfa3f8972ea48117b8b2a279a1c694648e36a40162939a2785450b6bd" 1 "MQTTReasonCodes.h"];
  entry "mqttreasoncode_5fsubscription_5fidentifiers_5fnot_5fsupported_636" "MQTTREASONCODE_SUBSCRIPTION_IDENTIFIERS_NOT_SUPPORTED" [link "../_m_q_t_t_reason_codes_8h.html#aba6db0fccfa3f8972ea48117b8b2a279a7bcd0f9b21c398a217667aebb4107842" 1 "MQTTReasonCodes.h"];
  entry "mqttreasoncode_5fsuccess_637" "MQTTREASONCODE_SUCCESS" [link "../_m_q_t_t_reason_codes_8h.html#aba6db0fccfa3f8972ea48117b8b2a279a63b379af5fba8c0512b381a4dbe26969" 1 "MQTTReasonCodes.h"];
  entry "mqttreasoncode_5ftopic_5falias_5finvalid_638" "MQTTREASONCODE_TOPIC_ALIAS_INVALID" [link "../_m_q_t_t_reason_codes_8h.html#aba6db0fccfa3f8972ea48117b8b2a279a8e0fcdd051e154e319058600b58652ec" 1 "MQTTReasonCodes.h"];
  entry "mqttreasoncode_5ftopic_5ffilter_5finvalid_639" "MQTTREASONCODE_TOPIC_FILTER_INVALID" [link "../_m_q_t_t_reason_codes_8h.html#aba6db0fccfa3f8972ea48117b8b2a279a00319b171f469824dd6938cbd0212b5b" 1 "MQTTReasonCodes.h"];
  entry "mqttreasoncode_5ftopic_5fname_5finvalid_640" "MQTTREASONCODE_TOPIC_NAME_INVALID" [link "../_m_q_t_t_reason_codes_8h.html#aba6db0fccfa3f8972ea48117b8b2a279a6268968177868576f6b9239aa9afd8ac" 1 "MQTTReasonCodes.h"];
  entry "mqttreasoncode_5funspecified_5ferror_641" "MQTTREASONCODE_UNSPECIFIED_ERROR" [link "../_m_q_t_t_reason_codes_8h.html#aba6db0fccfa3f8972ea48117b8b2a279a1881ee597bfef9157f0034a1377328e3" 1 "MQTTReasonCodes.h"];
  entry "mqttreasoncode_5funsupported_5fprotocol_5fversion_642" "MQTTREASONCODE_UNSUPPORTED_PROTOCOL_VERSION" [link "../_m_q_t_t_reason_codes_8h.html#aba6db0fccfa3f8972ea48117b8b2a279a021ceca20e6d35279075a2b93ece973d" 1 "MQTTReasonCodes.h"];
  entry "mqttreasoncode_5fuse_5fanother_5fserver_643" "MQTTREASONCODE_USE_ANOTHER_SERVER" [link "../_m_q_t_t_reason_codes_8h.html#aba6db0fccfa3f8972ea48117b8b2a279aabaee4062c4e4941b9eed59f09e9440c" 1 "MQTTReasonCodes.h"];
  entry "mqttreasoncode_5fwildcard_5fsubscriptions_5fnot_5fsupported_644" "MQTTREASONCODE_WILDCARD_SUBSCRIPTIONS_NOT_SUPPORTED" [link "../_m_q_t_t_reason_codes_8h.html#aba6db0fccfa3f8972ea48117b8b2a279a81b5708f676f52594b680f085e444e1f" 1 "MQTTReasonCodes.h"]].
Definition defines_0 : list SearchEntry := [
  entry "mqtt_5fbad_5fsubscribe_645" "MQTT_BAD_SUBSCRIBE" [link "../_m_q_t_t_async_8h.html#ade337b363b7f4bc7c1a7b2858e0380bd" 1 "MQTTAsync.h"];
  entry "mqtt_5finvalid_5fproperty_5fid_646" "MQTT_INVALID_PROPERTY_ID" [link "../_m_q_t_t_properties_8h.html#afc56d2e8937a0c8f180d68ad93945945" 1 "MQTTProperties.h"];
  entry "mqtt_5fssl_5fversion_5fdefault_647" "MQTT_SSL_VERSION_DEFAULT" [link "../_m_q_t_t_async_8h.html#a2549ea897af26c76198284731db9e721" 1 "MQTTAsync.h"];
  entry "mqtt_5fssl_5fversion_5ftls_5f1_5f0_648" "MQTT_SSL_VERSION_TLS_1_0" [link "../_m_q_t_t_async_8h.html#a7e5da3d6f0d2b53409bbfcf6e56f3d2d" 1 "MQTTAsync.h"];
  entry "mqtt_5fssl_5fversion_5ftls_5f1_5f1_649" "MQTT_SSL_VERSION_TLS_1_1" [link "../_m_q_t_t_async_8h.html#abdff87efa3f2ee473a1591e10638b537" 1 "MQTTAsync.h"];
  entry "mqtt_5fssl_5fversion_5ftls_5f1_5f2_650" "MQTT_SSL_VERSION_TLS_1_2" [link "../_m_q_t_t_async_8h.html#a3a94dbdeafbb73c73a068e7c2085fbab" 1 "MQTTAsync.h"];
  entry "mqttasync_5f0_5flen_5fwill_5ftopic_651" "MQTTASYNC_0_LEN_WILL_TOPIC" [link "../_m_q_t_t_async_8h.html#a47b3aed75983f48a503e1cad6c862004" 1 "MQTTAsync.h"];
  entry "mqttasync_5fbad_5fmqtt_5foption_652" "MQTTASYNC_BAD_MQTT_OPTION" [link "../_m_q_t_t_async_8h.html#af6f97562573876867ba77460a51ca1d1" 1 "MQTTAsync.h"];
  entry "mqttasync_5fbad_5fprotocol_653" "MQTTASYNC_BAD_PROTOCOL" [link "../_m_q_t_t_async_8h.html#a785250cd4a1938ffeeff67b3538abfba" 1 "MQTTAsync.h"];
  entry "mqttasync_5fbad_5fqos_654" "MQTTASYNC_BAD_QOS" [link "../_m_q_t_t_async_8h.html#a64d111778ce4e0d3a62808f6db11f224" 1 "MQTTAsync.h"];
  entry "mqttasync_5fbad_5fstructure_655" "MQTTASYNC_BAD_STRUCTURE" [link "../_m_q_t_t_async_8h.html#a241fc8db46dca132d591bc2be92247ba" 1 "MQTTAsync.h"];
  entry "mqttasync_5fbad_5futf8_5fstring_656" "MQTTASYNC_BAD_UTF8_STRING" [link "../_m_q_t_t_async_8h.html#a80cbe091930c11b67ca719b3e385aa26" 1 "MQTTAsync.h"];
  entry "mqttasync_5fcalloptions_5finitializer_657" "MQTTAsync_callOptions_initializer" [link "../_m_q_t_t_async_8h.html#a570185766fc8a9da410a6f84915b6df5" 1 "MQTTAsync.h"];
  entry "mqttasync_5fcommand_5fignored_658" "MQTTASYNC_COMMAND_IGNORED" [link "../_m_q_t_t_async_8h.html#a8278cf4b50dd818c31fa12e45f074b5c" 1 "MQTTAsync.h"];
  entry "mqttasync_5fconnectdata_5finitializer_659" "MQTTAsync_connectData_initializer" [link "../_m_q_t_t_async_8h.html#a2e415e68016ae56f6bbbbdc9840a9c6e" 1 "MQTTAsync.h"];
  entry "mqttasync_5fconnectoptions_5finitializer_660" "MQTTAsync_connectOptions_initializer" [link "../_m_q_t_t_async_8h.html#ae18b51f22784a43803eb809d6a0c2492" 1 "MQTTAsync.h"];
  entry "mqttasync_5fconnectoptions_5finitializer5_661" "MQTTAsync_connectOptions_initializer5" [link "../_m_q_t_t_async_8h.html#abd403ce21f7aa0348ae1d3eefd031a5d" 1 "MQTTAsync.h"];
  entry "mqttasync_5fconnectoptions_5finitializer5_5fws_662" "MQTTAsync_connectOptions_initializer5_ws" [link "../_m_q_t_t_async_8h.html#a513bfbec7b7d39c827240db75aa4044b" 1 "MQTTAsync.h"];
  entry "mqttasync_5fconnectoptions_5finitializer_5fws_663" "MQTTAsync_connectOptions_initializer_ws" [link "../_m_q_t_t_async_8h.html#a080951d916d7a58c4ceff8c6bacfe313" 1 "MQTTAsync.h"];
  entry "mqttasync_5fcreateoptions_5finitializer_664" "MQTTAsync_createOptions_initializer" [link "../_m_q_t_t_async_8h.html#a5fedeafef4753f09b1bcb92773564786" 1 "MQTTAsync.h"];
  entry "mqttasync_5fcreateoptions_5finitializer5_665" "MQTTAsync_createOptions_initializer5" [link "../_m_q_t_t_async_8h.html#a0008776a46e7268ccbef4774ce3d4579" 1 "MQTTAsync.h"];
  entry "mqttasync_5fdisconnected_666" "MQTTASYNC_DISCONNECTED" [link "../_m_q_t_t_async_8h.html#a66c0f30b329bc770145c2f04b3929df6" 1 "MQTTAsync.h"];
  entry "mqttasync_5fdisconnectoptions_5finitializer_667" "MQTTAsync_disconnectOptions_initializer" [link "../_m_q_t_t_async_8h.html#a2fd5d6df31928ae468f3f2e522b9c707" 1 "MQTTAsync.h"];
  entry "mqttasync_5fdisconnectoptions_5finitializer5_668" "MQTTAsync_disconnectOptions_initializer5" [link "../_m_q_t_t_async_8h.html#aaa278001953dc129003eff83c8e7b3db" 1 "MQTTAsync.h"];
  entry "mqttasync_5ffailure_669" "MQTTASYNC_FAILURE" [link "../_m_q_t_t_async_8h.html#a7c8230fef85fc04b8a1035501f3be406" 1 "MQTTAsync.h"];
  entry "mqttasync_5ffailuredata5_5finitializer_670" "MQTTAsync_failureData5_initializer" [link "../_m_q_t_t_async_8h.html#a53ce2002ae2c2579575bb41c48c51c29" 1 "MQTTAsync.h"];
  entry "mqttasync_5finit_5foptions_5finitializer_671" "MQTTAsync_init_options_initializer" [link "../_m_q_t_t_async_8h.html#a866e023f70141969d48597930c0ee313" 1 "MQTTAsync.h"];
  entry "mqttasync_5fmax_5fbuffered_672" "MQTTASYNC_MAX_BUFFERED" [link "../_m_q_t_t_async_8h.html#a2efee8e190e2c3690c680bde060f78ab" 1 "MQTTAsync.h"];
  entry "mqttasync_5fmax_5fbuffered_5fmessages_673" "MQTTASYNC_MAX_BUFFERED_MESSAGES" [link "../_m_q_t_t_async_8h.html#a4e338072cfd5291b579e4f0c99a6e773" 1 "MQTTAsync.h"];
  entry "mqttasync_5fmax_5fmessages_5finflight_674" "MQTTASYNC_MAX_MESSAGES_INFLIGHT" [link "../_m_q_t_t_async_8h.html#ad577286d43c72fbc49818aac42f4e24a" 1 "MQTTAsync.h"];
  entry "mqttasync_5fmessage_5finitializer_675" "MQTTAsync_message_initializer" [link "../_m_q_t_t_async_8h.html#a6a85061dadab532f28e96e5ab3c600e9" 1 "MQTTAsync.h"];
  entry "mqttasync_5fno_5fmore_5fmsgids_676" "MQTTASYNC_NO_MORE_MSGIDS" [link "../_m_q_t_t_async_8h.html#ab0f54d0bae2c74849022a8009e5d6ff7" 1 "MQTTAsync.h"];
  entry "mqttasync_5fnull_5fparameter_677" "MQTTASYNC_NULL_PARAMETER" [link "../_m_q_t_t_async_8h.html#ab88e1ebcee991099a72429e52a8253fd" 1 "MQTTAsync.h"];
  entry "mqttasync_5foperation_5fincomplete_678" "MQTTASYNC_OPERATION_INCOMPLETE" [link "../_m_q_t_t_async_8h.html#aee1b79d0632bec0fe49eb7ea1abd3b2e" 1 "MQTTAsync.h"];
  entry "mqttasync_5fpersistence_5ferror_679" "MQTTASYNC_PERSISTENCE_ERROR" [link "../_m_q_t_t_async_8h.html#a4edf1249c75abd4975fec8ddeae2cdc9" 1 "MQTTAsync.h"];
  entry "mqttasync_5fresponseoptions_5finitializer_680" "MQTTAsync_responseOptions_initializer" [link "../_m_q_t_t_async_8h.html#a3f8b408243b5c2369bc9758f2edf0878" 1 "MQTTAsync.h"];
  entry "mqttasync_5fssl_5fnot_5fsupported_681" "MQTTASYNC_SSL_NOT_SUPPORTED" [link "../_m_q_t_t_async_8h.html#a6992c00553db1608aef9e162c161d73c" 1 "MQTTAsync.h"];
  entry "mqttasync_5fssloptions_5finitializer_682" "MQTTAsync_SSLOptions_initializer" [link "../_m_q_t_t_async_8h.html#aac935e2e9d770a53ee8189f128530511" 1 "MQTTAsync.h"];
  entry "mqttasync_5fsuccess_683" "MQTTASYNC_SUCCESS" [link "../_m_q_t_t_async_8h.html#afe0cffcce8efe25186f79c51ac44e16f" 1 "MQTTAsync.h"];
  entry "mqttasync_5fsuccessdata5_5finitializer_684" "MQTTAsync_successData5_initializer" [link "../_m_q_t_t_async_8h.html#a6182ec90ec4a134465f627b324ac5a41" 1 "MQTTAsync.h"];
  entry "mqttasync_5ftopicname_5ftruncated_685" "MQTTASYNC_TOPICNAME_TRUNCATED" [link "../_m_q_t_t_async_8h.html#a77a7106d97ff60be3fe70f90b1867800" 1 "MQTTAsync.h"];
  entry "mqttasync_5ftrue_686" "MQTTASYNC_TRUE" [link "../_m_q_t_t_async_8h.html#a61e6ee632e63312d382e2fcbe427f01a" 1 "MQTTAsync.h"];
  entry "mqttasync_5fwilloptions_5finitializer_687" "MQTTAsync_willOptions_initializer" [link "../_m_q_t_t_async_8h.html#a6c45768e1b28844f2ac0f6ac68709730" 1 "MQTTAsync.h"];
  entry "mqttasync_5fwrong_5fmqtt_5fversion_688" "MQTTASYNC_WRONG_MQTT_VERSION" [link "../_m_q_t_t_async_8h.html#af5df806e9767e1e3182fe089a8ee551b" 1 "MQTTAsync.h"];
  entry "mqttclient_5fpersistence_5fdefault_689" "MQTTCLIENT_PERSISTENCE_DEFAULT" [link "../_m_q_t_t_client_persistence_8h.html#aaa948291718a9c06369b854b0f64bc32" 1 "MQTTClientPersistence.h"];
  entry "mqttclient_5fpersistence_5ferror_690" "MQTTCLIENT_PERSISTENCE_ERROR" [link "../_m_q_t_t_client_persistence_8h.html#ab716e21e53c84a5ad62aa962a2a8f7db" 1 "MQTTClientPersistence.h"];
  entry "mqttclient_5fpersistence_5fnone_691" "MQTTCLIENT_PERSISTENCE_NONE" [link "../_m_q_t_t_client_persistence_8h.html#ae01e089313a65ac4661ed216b6ac00fa" 1 "MQTTClientPersistence.h"];
  entry "mqttclient_5fpersistence_5fuser_692" "MQTTCLIENT_PERSISTENCE_USER" [link "../_m_q_t_t_client_persistence_8h.html#a5dc68b8616e4041e037bad94ce07681b" 1 "MQTTClientPersistence.h"];
  entry "mqttproperties_5finitializer_693" "MQTTProperties_initializer" [link "../_m_q_t_t_properties_8h.html#a5a80e158486a414ccdfcdd7f75f23988" 1 "MQTTProperties.h"];
  entry "mqttsubscribe_5foptions_5finitializer_694" "MQTTSubscribe_options_initializer" [link "../_m_q_t_t_subscribe_opts_8h.html#aec3b45fd0367106eea344396f87cfda7" 1 "MQTTSubscribeOpts.h"];
  entry "mqttversion_5f3_5f1_695" "MQTTVERSION_3_1" [link "../_m_q_t_t_async_8h.html#a4603b988e76872e1f23f135d225ce2fb" 1 "MQTTAsync.h"];
  entry "mqttversion_5f3_5f1_5f1_696" "MQTTVERSION_3_1_1" [link "../_m_q_t_t_async_8h.html#ac79cc6fdeaa9e3f4ee12c3418898b1ef" 1 "MQTTAsync.h"];
  entry "mqttversion_5f5_697" "MQTTVERSION_5" [link "../_m_q_t_t_async_8h.html#af8b176fa4d5b89789767ce972338e1e3" 1 "MQTTAsync.h"];
  entry "mqttversion_5fdefault_698" "MQTTVERSION_DEFAULT" [link "../_m_q_t_t_async_8h.html#a75b80b01f98d5a1ffa2a4d42995a8397" 1 "MQTTAsync.h"]].
Definition pages_0 : list SearchEntry := [
  entry "asynchronous_20mqtt_20client_20library_20for_20c_20_28mqttasync_29_699" "Asynchronous MQTT client library for C (MQTTAsync)" [link "../index.html" 1 EmptyString];
  entry "automatic_20reconnect_700" "Automatic Reconnect" [link "../auto_reconnect.html" 1 EmptyString]].
Definition pages_1 : list SearchEntry := [
  entry "callbacks_701" "Callbacks" [link "../callbacks.html" 1 EmptyString]].
Definition pages_2 : list SearchEntry := [
  entry "publication_20example_702" "Publication example" [link "../publish.html" 1 EmptyString];
  entry "publish_20while_20disconnected_703" "Publish While Disconnected" [link "../offline_publish.html" 1 EmptyString]].
Definition pages_3 : list SearchEntry := [
  entry "quality_20of_20service_704" "Quality of service" [link "../qos.html" 1 EmptyString]].
Definition pages_4 : list SearchEntry := [
  entry "subscription_20example_705" "Subscription example" [link "../subscribe.html" 1 EmptyString];
  entry "subscription_20wildcards_706" "Subscription wildcards" [link "../wildcard.html" 1 EmptyString]].
Definition pages_5 : list SearchEntry := [
  entry "threading_707" "Threading" [link "../async.html" 1 EmptyString];
  entry "tracing_708" "Tracing" [link "../tracing.html" 1 EmptyString]].

Definition indexSectionsWithContent : list string := [
  "abcdehiklmnopqrstuvw"; "m"; "m"; "m"; "abcdehiklmnopqrstuvw"; "mp"; "m"; "m"; "m"; "acpqst"].

Definition indexSectionNames : list string := [
  "all"; "classes"; "files"; "functions"; "variables"; "typedefs"; "enums"; "enumvalues"; "defines"; "pages"].

Definition indexSectionLabels : list string := [
  "All"; "Data Structures"; "Files"; "Functions"; "Variables"; "Typedefs"; "Enumerations"; "Enumerator"; "Macros"; "Pages"].

Definition menudata : list MenuItem := [
  item "Main Page" "index.html" [];
  item "Related Pages" "pages.html" [];
  item "Data Structures" "annotated.html" [
    item "Data Structures" "annotated.html" [];
    item "Data Fields" "functions.html" [
      item "All" "functions.html" [
        item "a" "functions.html#index_a" [];
        item "b" "functions.html#index_b" [];
        item "c" "functions.html#index_c" [];
        item "d" "functions.html#index_d" [];
        item "e" "functions.html#index_e" [];
        item "h" "functions.html#index_h" [];
        item "i" "functions.html#index_i" [];
        item "k" "functions.html#index_k" [];
        item "l" "functions.html#index_l" [];
        item "m" "functions.html#index_m" [];
        item "n" "functions.html#index_n" [];
        item "o" "functions.html#index_o" [];
        item "p" "functions.html#index_p" [];
        item "q" "functions.html#index_q" [];
        item "r" "functions.html#index_r" [];
        item "s" "functions.html#index_s" [];
        item "t" "functions.html#index_t" [];
        item "u" "functions.html#index_u" [];
        item "v" "functions.html#index_v" [];
        item "w" "functions.html#index_w" []];
      item "Variables" "functions_vars.html" [
        item "a" "functions_vars.html#index_a" [];
        item "b" "functions_vars.html#index_b" [];
        item "c" "functions_vars.html#index_c" [];
        item "d" "functions_vars.html#index_d" [];
        item "e" "functions_vars.html#index_e" [];
        item "h" "functions_vars.html#index_h" [];
        item "i" "functions_vars.html#index_i" [];
        item "k" "functions_vars.html#index_k" [];
        item "l" "functions_vars.html#index_l" [];
        item "m" "functions_vars.html#index_m" [];
        item "n" "functions_vars.html#index_n" [];
        item "o" "functions_vars.html#index_o" [];
        item "p" "functions_vars.html#index_p" [];
        item "q" "functions_vars.html#index_q" [];
        item "r" "functions_vars.html#index_r" [];
        item "s" "functions_vars.html#index_s" [];
        item "t" "functions_vars.html#index_t" [];
        item "u" "functions_vars.html#index_u" [];
        item "v" "functions_vars.html#index_v" [];
        item "w" "functions_vars.html#index_w" []]]];
  item "Files" "files.html" [
    item "File List" "files.html" [];
    item "Globals" "globals.html" [
      item "All" "globals.html" [
        item "m" "globals.html#index_m" [];
        item "p" "globals_p.html#index_p" []];
      item "Functions" "globals_func.html" [
        item "m" "globals_func.html#index_m" []];
      item "Typedefs" "globals_type.html" [];
      item "Enumerations" "globals_enum.html" [];
      item "Enumerator" "globals_eval.html" [
        item "m" "globals_eval.html#index_m" []];
      item "Macros" "globals_defs.html" [
        item "m" "globals_defs.html#index_m" []]]]].

Definition pages : list (string * list SearchEntry) := [
  ("all_0", all_0);
  ("all_1", all_1);
  ("all_2", all_2);
  ("all_3", all_3);
  ("all_4", all_4);
  ("all_5", all_5);
  ("all_6", all_6);
  ("all_7", all_7);
  ("all_8", all_8);
  ("all_9", all_9);
  ("all_a", all_a);
  ("all_b", all_b);
  ("all_c", all_c);
  ("all_d", all_d);
  ("all_e", all_e);
  ("all_f", all_f);
  ("all_10", all_10);
  ("all_11", all_11);
  ("all_12", all_12);
  ("all_13", all_13);
  ("classes_0", classes_0);
  ("files_0", files_0);
  ("functions_0", functions_0);
  ("variables_0", variables_0);
  ("variables_1", variables_1);
  ("variables_2", variables_2);
  ("variables_3", variables_3);
  ("variables_4", variables_4);
  ("variables_5", variables_5);
  ("variables_6", variables_6);
  ("variables_7", variables_7);
  ("variables_8", variables_8);
  ("variables_9", variables_9);
  ("variables_a", variables_a);
  ("variables_b", variables_b);
  ("variables_c", variables_c);
  ("variables_d", variables_d);
  ("variables_e", variables_e);
  ("variables_f", variables_f);
  ("variables_10", variables_10);
  ("variables_11", variables_11);
  ("variables_12", variables_12);
  ("variables_13", variables_13);
  ("typedefs_0", typedefs_0);
  ("typedefs_1", typedefs_1);
  ("enums_0", enums_0);
  ("enumvalues_0", enumvalues_0);
  ("defines_0", defines_0);
  ("pages_0", pages_0);
  ("pages_1", pages_1);
  ("pages_2", pages_2);
  ("pages_3", pages_3);
  ("pages_4", pages_4);
  ("pages_5", pages_5)].

Definition site : Site :=
  mkSite pages indexSectionsWithContent indexSectionNames indexSectionLabels menudata.
