(* ===== verification/ClientIndex.v ===== *)
(** * The search index of the pages about the synchronous client

    The tables of src/docs/MQTTClient/html: a list [searchData] of entries for
    each file of html/search, the sections of searchdata.js, and the menu of
    menudata.js. *)
From S2P Require Import Prelude SearchData.
Local Open Scope string_scope.

Definition all_0 : list SearchEntry := [
  entry "array_0" "array" [link "../struct_m_q_t_t_properties.html#a3ac4c38b423393c1553dcf8b71e7dd58" 1 "MQTTProperties"];
  entry "asynchronous_20publication_20example_1" "Asynchronous publication example" [link "../pubasync.html" 1 EmptyString];
  entry "asynchronous_20subscription_20example_2" "Asynchronous subscription example" [link "../subasync.html" 1 EmptyString];
  entry "asynchronous_20vs_20synchronous_20client_20applications_3" "Asynchronous vs synchronous client applications" [link "../async.html" 1 EmptyString]].
Definition all_1 : list SearchEntry := [
  entry "binarypwd_4" "binarypwd" [link "../struct_m_q_t_t_client__connect_options.html#ae7280d284792990b5d8f6f29d4e0b113" 1 "MQTTClient_connectOptions"];
  entry "byte_5" "byte" [link "../struct_m_q_t_t_property.html#a1581cde4f73c9a797ae1e7afcc1bb3de" 1 "MQTTProperty"]].
Definition all_2 : list SearchEntry := [
  entry "callbacks_6" "Callbacks" [link "../callbacks.html" 1 EmptyString];
  entry "capath_7" "CApath" [link "../struct_m_q_t_t_client___s_s_l_options.html#a3078b3c824cc9753a57898072445c34d" 1 "MQTTClient_SSLOptions"];
  entry "cleansession_8" "cleansession" [link "../struct_m_q_t_t_client__connect_options.html#a036c36a2a4d3a3ffae9ab4dd8b3e7f7b" 1 "MQTTClient_connectOptions"];
  entry "cleanstart_9" "cleanstart" [link "../struct_m_q_t_t_client__connect_options.html#acdcb75a5d5981da027bce83849140f7b" 1 "MQTTClient_connectOptions"];
  entry "connecttimeout_10" "connectTimeout" [link "../struct_m_q_t_t_client__connect_options.html#a38c6aa24b36d981c49405db425c24db0" 1 "MQTTClient_connectOptions"];
  entry "context_11" "context" [link "../struct_m_q_t_t_client__persistence.html#ae376f130b17d169ee51be68077a89ed0" 1 "MQTTClient_persistence"];
  entry "count_12" "count" [link "../struct_m_q_t_t_properties.html#ad43c3812e6d13e0518d9f8b8f463ffcf" 1 "MQTTProperties"]].
Definition all_3 : list SearchEntry := [
  entry "data_13" "data" [link "../struct_m_q_t_t_client__will_options.html#a0d49d74db4c035719c3867723cf7e779" 1 "MQTTClient_willOptions::data()"; link "../struct_m_q_t_t_client__connect_options.html#a0d49d74db4c035719c3867723cf7e779" 1 "MQTTClient_connectOptions::data()"; link "../struct_m_q_t_t_len_string.html#a91a70b77df95bd8b0830b49a094c2acb" 1 "MQTTLenString::data()"; link "../struct_m_q_t_t_property.html#aa43ebcb9f97210421431a671384ef159" 1 "MQTTProperty::data()"];
  entry "disabledefaulttruststore_14" "disableDefaultTrustStore" [link "../struct_m_q_t_t_client___s_s_l_options.html#a0826fcae7c2816e04772c61542c6846b" 1 "MQTTClient_SSLOptions"];
  entry "do_5fopenssl_5finit_15" "do_openssl_init" [link "../struct_m_q_t_t_client__init__options.html#a5929146596391e2838ef95feb89776da" 1 "MQTTClient_init_options"];
  entry "dup_16" "dup" [link "../struct_m_q_t_t_client__message.html#adc4cf3f551bb367858644559d69cfdf5" 1 "MQTTClient_message"]].
Definition all_4 : list SearchEntry := [
  entry "enabledciphersuites_17" "enabledCipherSuites" [link "../struct_m_q_t_t_client___s_s_l_options.html#aa683926d52134077f27d6dc67bda13ab" 1 "MQTTClient_SSLOptions"];
  entry "enableservercertauth_18" "enableServerCertAuth" [link "../struct_m_q_t_t_client___s_s_l_options.html#a75f6c13b7634e15f96dd9f17db6cf0be" 1 "MQTTClient_SSLOptions"]].
Definition all_5 : list SearchEntry := [
  entry "httpheaders_19" "httpHeaders" [link "../struct_m_q_t_t_client__connect_options.html#a018eec60631f40c01e6dcb727bffd33f" 1 "MQTTClient_connectOptions"];
  entry "httpproxy_20" "httpProxy" [link "../struct_m_q_t_t_client__connect_options.html#add124780ab2de397a96780576c2f112c" 1 "MQTTClient_connectOptions"];
  entry "httpsproxy_21" "httpsProxy" [link "../struct_m_q_t_t_client__connect_options.html#a388b78d8a75658928238f700f207ad92" 1 "MQTTClient_connectOptions"]].
Definition all_6 : list SearchEntry := [
  entry "identifier_22" "identifier" [link "../struct_m_q_t_t_property.html#a2ff04e8cc70fbaa9bcb9a4fb3d510882" 1 "MQTTProperty"];
  entry "integer2_23" "integer2" [link "../struct_m_q_t_t_property.html#a0289ec2e0df8789139386b0ddf5c71c3" 1 "MQTTProperty"];
  entry "integer4_24" "integer4" [link "../struct_m_q_t_t_property.html#a813425ef31abb5ef0091e3043e8a366b" 1 "MQTTProperty"]].
Definition all_7 : list SearchEntry := [
  entry "keepaliveinterval_25" "keepAliveInterval" [link "../struct_m_q_t_t_client__connect_options.html#ac8dd0930672a9c7d71fc645aa1f0521d" 1 "MQTTClient_connectOptions"];
  entry "keystore_26" "keyStore" [link "../struct_m_q_t_t_client___s_s_l_options.html#a32b476382955289ce427112b59f21c3e" 1 "MQTTClient_SSLOptions"]].
Definition all_8 : list SearchEntry := [
  entry "len_27" "len" [link "../struct_m_q_t_t_client__will_options.html#afed088663f8704004425cdae2120b9b3" 1 "MQTTClient_willOptions::len()"; link "../struct_m_q_t_t_client__connect_options.html#afed088663f8704004425cdae2120b9b3" 1 "MQTTClient_connectOptions::len()"; link "../struct_m_q_t_t_len_string.html#afed088663f8704004425cdae2120b9b3" 1 "MQTTLenString::len()"];
  entry "length_28" "length" [link "../struct_m_q_t_t_properties.html#a9f59b34b1f25fe00023291b678246bcc" 1 "MQTTProperties"]].
Definition all_9 : list SearchEntry := [
  entry "max_5fcount_29" "max_count" [link "../struct_m_q_t_t_properties.html#a8de324382d8fd2f5939bf3372e059383" 1 "MQTTProperties"];
  entry "maxinflightmessages_30" "maxInflightMessages" [link "../struct_m_q_t_t_client__connect_options.html#ae3f99bf4663ab7b9e9259feeba41fab2" 1 "MQTTClient_connectOptions"];
  entry "message_31" "message" [link "../struct_m_q_t_t_client__will_options.html#a254bf0858da09c96a48daf64404eb4f8" 1 "MQTTClient_willOptions"];
  entry "mqtt_20client_20library_20for_20c_20_28mqttclient_29_32" "MQTT Client library for C (MQTTClient)" [link "../index.html" 1 EmptyString];
  entry "mqtt_5fbad_5fsubscribe_33" "MQTT_BAD_SUBSCRIBE" [link "../_m_q_t_t_client_8h.html#ade337b363b7f4bc7c1a7b2858e0380bd" 1 "MQTTClient.h"];
  entry "mqtt_5finvalid_5fproperty_5fid_34" "MQTT_INVALID_PROPERTY_ID" [link "../_m_q_t_t_properties_8h.html#afc56d2e8937a0c8f180d68ad93945945" 1 "MQTTProperties.h"];
  entry "mqtt_5fssl_5fversion_5fdefault_35" "MQTT_SSL_VERSION_DEFAULT" [link "../_m_q_t_t_client_8h.html#a2549ea897af26c76198284731db9e721" 1 "MQTTClient.h"];
  entry "mqtt_5fssl_5fversion_5ftls_5f1_5f0_36" "MQTT_SSL_VERSION_TLS_1_0" [link "../_m_q_t_t_client_8h.html#a7e5da3d6f0d2b53409bbfcf6e56f3d2d" 1 "MQTTClient.h"];
  entry "mqtt_5fssl_5fversion_5ftls_5f1_5f1_37" "MQTT_SSL_VERSION_TLS_1_1" [link "../_m_q_t_t_client_8h.html#abdff87efa3f2ee473a1591e10638b537" 1 "MQTTClient.h"];
  entry "mqtt_5fssl_5fversion_5ftls_5f1_5f2_38" "MQTT_SSL_VERSION_TLS_1_2" [link "../_m_q_t_t_client_8h.html#a3a94dbdeafbb73c73a068e7c2085fbab" 1 "MQTTClient.h"];
  entry "mqttclient_39" "MQTTClient" [link "../_m_q_t_t_client_8h.html#a7649e3913f9a216424d296f88a969c59" 1 "MQTTClient.h"];
  entry "mqttclient_2eh_40" "MQTTClient.h" [link "../_m_q_t_t_client_8h.html" 1 EmptyString];
  entry "mqttclient_5f0_5flen_5fwill_5ftopic_41" "MQTTCLIENT_0_LEN_WILL_TOPIC" [link "../_m_q_t_t_client_8h.html#aacf90ba5292e25122e6fd5ec2a38efe5" 1 "MQTTClient.h"];
  entry "mqttclient_5fbad_5fmqtt_5foption_42" "MQTTCLIENT_BAD_MQTT_OPTION" [link "../_m_q_t_t_client_8h.html#a1babaca56ffae802fa1e246a2649927e" 1 "MQTTClient.h"];
  entry "mqttclient_5fbad_5fmqtt_5fversion_43" "MQTTCLIENT_BAD_MQTT_VERSION" [link "../_m_q_t_t_client_8h.html#aab84cecd25638896eb45b8f5ffd82bf7" 1 "MQTTClient.h"];
  entry "mqttclient_5fbad_5fprotocol_44" "MQTTCLIENT_BAD_PROTOCOL" [link "../_m_q_t_t_client_8h.html#a1d0cb25b450136f036a238546487344a" 1 "MQTTClient.h"];
  entry "mqttclient_5fbad_5fqos_45" "MQTTCLIENT_BAD_QOS" [link "../_m_q_t_t_client_8h.html#a51cc8ca032acf4ae14f83996524b8cdc" 1 "MQTTClient.h"];
  entry "mqttclient_5fbad_5fstructure_46" "MQTTCLIENT_BAD_STRUCTURE" [link "../_m_q_t_t_client_8h.html#a747615d8064e3fe024ae5565ec63e1ce" 1 "MQTTClient.h"];
  entry "mqttclient_5fbad_5futf8_5fstring_47" "MQTTCLIENT_BAD_UTF8_STRING" [link "../_m_q_t_t_client_8h.html#a678a4744192de9c8dca220d9965809dd" 1 "MQTTClient.h"];
  entry "mqttclient_5fconnect_48" "MQTTClient_connect" [link "../_m_q_t_t_client_8h.html#aaa8ae61cd65c9dc0846df10122d7bd4e" 1 "MQTTClient.h"];
  entry "mqttclient_5fconnect5_49" "MQTTClient_connect5" [link "../_m_q_t_t_client_8h.html#aa777f80cb3eec5610f976aff30b8c0d6" 1 "MQTTClient.h"];
  entry "mqttclient_5fconnectionlost_50" "MQTTClient_connectionLost" [link "../_m_q_t_t_client_8h.html#a6bb253f16754e7cc81798c9fda0e36cf" 1 "MQTTClient.h"];
  entry "mqttclient_5fconnectoptions_51" "MQTTClient_connectOptions" [link "../struct_m_q_t_t_client__connect_options.html" 1 EmptyString];
  entry "mqttclient_5fconnectoptions_5finitializer_52" "MQTTClient_connectOptions_initializer" [link "../_m_q_t_t_client_8h.html#aefd7c865f2641c8155b763fdf3061c25" 1 "MQTTClient.h"];
  entry "mqttclient_5fconnectoptions_5finitializer5_53" "MQTTClient_connectOptions_initializer5" [link "../_m_q_t_t_client_8h.html#a1f0c7608262ac9c00cb94e9c8f9fc984" 1 "MQTTClient.h"];
  entry "mqttclient_5fconnectoptions_5finitializer5_5fws_54" "MQTTClient_connectOptions_initializer5_ws" [link "../_m_q_t_t_client_8h.html#a8c37c9f77f0b67e2520c8f91acf1afea" 1 "MQTTClient.h"];
  entry "mqttclient_5fconnectoptions_5finitializer_5fws_55" "MQTTClient_connectOptions_initializer_ws" [link "../_m_q_t_t_client_8h.html#a0a98fda162a78ee8c8cbd7d9d39494f4" 1 "MQTTClient.h"];
  entry "mqttclient_5fcreate_56" "MQTTClient_create" [link "../_m_q_t_t_client_8h.html#a9a0518d9ca924d12c1329dbe3de5f2b6" 1 "MQTTClient.h"];
  entry "mqttclient_5fcreateoptions_57" "MQTTClient_createOptions" [link "../struct_m_q_t_t_client__create_options.html" 1 EmptyString];
  entry "mqttclient_5fcreateoptions_5finitializer_58" "MQTTClient_createOptions_initializer" [link "../_m_q_t_t_client_8h.html#a763e477a5aceb6aff279111c7693e691" 1 "MQTTClient.h"];
  entry "mqttclient_5fcreatewithoptions_59" "MQTTClient_createWithOptions" [link "../_m_q_t_t_client_8h.html#ade24f717a9b39d38b081e1d5e0db1661" 1 "MQTTClient.h"];
  entry "mqttclient_5fdeliverycomplete_60" "MQTTClient_deliveryComplete" [link "../_m_q_t_t_client_8h.html#abef83794d8252551ed248cde6eb845a6" 1 "MQTTClient.h"];
  entry "mqttclient_5fdeliverytoken_61" "MQTTClient_deliveryToken" [link "../_m_q_t_t_client_8h.html#a73e49030fd8b7074aa1aa45669b7fe8d" 1 "MQTTClient.h"];
  entry "mqttclient_5fdestroy_62" "MQTTClient_destroy" [link "../_m_q_t_t_client_8h.html#ae700c3f5cfea3813264ce95e7c8cf498" 1 "MQTTClient.h"];
  entry "mqttclient_5fdisconnect_63" "MQTTClient_disconnect" [link "../_m_q_t_t_client_8h.html#a1e4d90c13a3c0705bc4a13bfe64e6525" 1 "MQTTClient.h"];
  entry "mqttclient_5fdisconnect5_64" "MQTTClient_disconnect5" [link "../_m_q_t_t_client_8h.html#a1762c469715b7f718c4e63a427e6c13c" 1 "MQTTClient.h"];
  entry "mqttclient_5fdisconnected_65" "MQTTCLIENT_DISCONNECTED" [link "../_m_q_t_t_client_8h.html#a561d053311cb492cf7226f419ee0d516" 1 "MQTTClient.h"];
  entry "mqttclient_5fdisconnected_66" "MQTTClient_disconnected" [link "../_m_q_t_t_client_8h.html#a41108d4cccb67a9d6884ebae52211c46" 1 "MQTTClient.h"];
  entry "mqttclient_5ffailure_67" "MQTTCLIENT_FAILURE" [link "../_m_q_t_t_client_8h.html#af33a6d6c0e8a6a747bf39638e0bba36b" 1 "MQTTClient.h"];
  entry "mqttclient_5ffree_68" "MQTTClient_free" [link "../_m_q_t_t_client_8h.html#a203b545c999beb6b825ec99b6aea79ab" 1 "MQTTClient.h"];
  entry "mqttclient_5ffreemessage_69" "MQTTClient_freeMessage" [link "../_m_q_t_t_client_8h.html#abd8abde4f39d3e689029de27f7a98a65" 1 "MQTTClient.h"];
  entry "mqttclient_5fgetpendingdeliverytokens_70" "MQTTClient_getPendingDeliveryTokens" [link "../_m_q_t_t_client_8h.html#a2a617c6b0492c04a4ddea592f5e53604" 1 "MQTTClient.h"];
  entry "mqttclient_5fgetversioninfo_71" "MQTTClient_getVersionInfo" [link "../_m_q_t_t_client_8h.html#abe842456c914ce9201d277a972cc085e" 1 "MQTTClient.h"];
  entry "mqttclient_5fglobal_5finit_72" "MQTTClient_global_init" [link "../_m_q_t_t_client_8h.html#a21804ede1a506d1d69a472bc30acc8ba" 1 "MQTTClient.h"];
  entry "mqttclient_5finit_5foptions_73" "MQTTClient_init_options" [link "../struct_m_q_t_t_client__init__options.html" 1 EmptyString];
  entry "mqttclient_5finit_5foptions_5finitializer_74" "MQTTClient_init_options_initializer" [link "../_m_q_t_t_client_8h.html#ac17057c8c22c0717d3adf4e040440f73" 1 "MQTTClient.h"];
  entry "mqttclient_5fisconnected_75" "MQTTClient_isConnected" [link "../_m_q_t_t_client_8h.html#a6e8231e8c47f6f67f7ebbb5dcb4c69c0" 1 "MQTTClient.h"];
  entry "mqttclient_5fmalloc_76" "MQTTClient_malloc" [link "../_m_q_t_t_client_8h.html#a9a6a07529e252574db1f95d40ccc0784" 1 "MQTTClient.h"];
  entry "mqttclient_5fmax_5fmessages_5finflight_77" "MQTTCLIENT_MAX_MESSAGES_INFLIGHT" [link "../_m_q_t_t_client_8h.html#a8fc442fc2e9dfb422a163ab1fa02e0cb" 1 "MQTTClient.h"];
  entry "mqttclient_5fmessage_78" "MQTTClient_message" [link "../struct_m_q_t_t_client__message.html" 1 EmptyString];
  entry "mqttclient_5fmessage_5finitializer_79" "MQTTClient_message_initializer" [link "../_m_q_t_t_client_8h.html#aa1fd995924d3df75959fcf57e87aefac" 1 "MQTTClient.h"];
  entry "mqttclient_5fmessagearrived_80" "MQTTClient_messageArrived" [link "../_m_q_t_t_client_8h.html#aa42130dd069e7e949bcab37b6dce64a5" 1 "MQTTClient.h"];
  entry "mqttclient_5fnamevalue_81" "MQTTClient_nameValue" [link "../struct_m_q_t_t_client__name_value.html" 1 EmptyString];
  entry "mqttclient_5fnull_5fparameter_82" "MQTTCLIENT_NULL_PARAMETER" [link "../_m_q_t_t_client_8h.html#ac3232abd7f86bbba26faea0e2b132c3c" 1 "MQTTClient.h"];
  entry "mqttclient_5fpersistence_83" "MQTTClient_persistence" [link "../struct_m_q_t_t_client__persistence.html" 1 EmptyString];
  entry "mqttclient_5fpersistence_5fdefault_84" "MQTTCLIENT_PERSISTENCE_DEFAULT" [link "../_m_q_t_t_client_persistence_8h.html#aaa948291718a9c06369b854b0f64bc32" 1 "MQTTClientPersistence.h"];
  entry "mqttclient_5fpersistence_5ferror_85" "MQTTCLIENT_PERSISTENCE_ERROR" [link "../_m_q_t_t_client_persistence_8h.html#ab716e21e53c84a5ad62aa962a2a8f7db" 1 "MQTTClientPersistence.h"];
  entry "mqttclient_5fpersistence_5fnone_86" "MQTTCLIENT_PERSISTENCE_NONE" [link "../_m_q_t_t_client_persistence_8h.html#ae01e089313a65ac4661ed216b6ac00fa" 1 "MQTTClientPersistence.h"];
  entry "mqttclient_5fpersistence_5fuser_87" "MQTTCLIENT_PERSISTENCE_USER" [link "../_m_q_t_t_client_persistence_8h.html#a5dc68b8616e4041e037bad94ce07681b" 1 "MQTTClientPersistence.h"];
  entry "mqttclient_5fpublish_88" "MQTTClient_publish" [link "../_m_q_t_t_client_8h.html#afe9c34013c3511b8ef6cd36bf703678d" 1 "MQTTClient.h"];
  entry "mqttclient_5fpublish5_89" "MQTTClient_publish5" [link "../_m_q_t_t_client_8h.html#a8148186cc7683a6bb57f621653df51df" 1 "MQTTClient.h"];
  entry "mqttclient_5fpublished_90" "MQTTClient_published" [link "../_m_q_t_t_client_8h.html#a6c3f51e50e2c47328eee1b0c920ed103" 1 "MQTTClient.h"];
  entry "mqttclient_5fpublishmessage_91" "MQTTClient_publishMessage" [link "../_m_q_t_t_client_8h.html#ace320b8a92c7087d9dd5cf242d50389d" 1 "MQTTClient.h"];
  entry "mqttclient_5fpublishmessage5_92" "MQTTClient_publishMessage5" [link "../_m_q_t_t_client_8h.html#a362042ce973c012bad6a1aa3b5984f5d" 1 "MQTTClient.h"];
  entry "mqttclient_5freceive_93" "MQTTClient_receive" [link "../_m_q_t_t_client_8h.html#a4c2df88d00a3dadd510a8cb774739366" 1 "MQTTClient.h"];
  entry "mqttclient_5fsetcallbacks_94" "MQTTClient_setCallbacks" [link "../_m_q_t_t_client_8h.html#aad27d07782991a4937ebf2f39a021f83" 1 "MQTTClient.h"];
  entry "mqttclient_5fsetcommandtimeout_95" "MQTTClient_setCommandTimeout" [link "../_m_q_t_t_client_8h.html#a96067a2fb74d2a61c7e93015629548e0" 1 "MQTTClient.h"];
  entry "mqttclient_5fsetdisconnected_96" "MQTTClient_setDisconnected" [link "../_m_q_t_t_client_8h.html#a8adea083a162735d5c7592160088eea0" 1 "MQTTClient.h"];
  entry "mqttclient_5fsetpublished_97" "MQTTClient_setPublished" [link "../_m_q_t_t_client_8h.html#a9f13911351a3de6b1ebdabd4cb4116ba" 1 "MQTTClient.h"];
  entry "mqttclient_5fsettracecallback_98" "MQTTClient_setTraceCallback" [link "../_m_q_t_t_client_8h.html#a22870f94aa4cb1827626612f1ded7c69" 1 "MQTTClient.h"];
  entry "mqttclient_5fsettracelevel_99" "MQTTClient_setTraceLevel" [link "../_m_q_t_t_client_8h.html#a4dfa35d29db54b10b15b8ac2d9a778be" 1 "MQTTClient.h"];
  entry "mqttclient_5fssl_5fnot_5fsupported_100" "MQTTCLIENT_SSL_NOT_SUPPORTED" [link "../_m_q_t_t_client_8h.html#a1c67fc83ba1a8f26236aa49b127bdb61" 1 "MQTTClient.h"];
  entry "mqttclient_5fssloptions_101" "MQTTClient_SSLOptions" [link "../struct_m_q_t_t_client___s_s_l_options.html" 1 EmptyString];
  entry "mqttclient_5fssloptions_5finitializer_102" "MQTTClient_SSLOptions_initializer" [link "../_m_q_t_t_client_8h.html#ab9b2a2c6b52dbb2ac842ad99a9ce6d99" 1 "MQTTClient.h"];
  entry "mqttclient_5fstrerror_103" "MQTTClient_strerror" [link "../_m_q_t_t_client_8h.html#a9defda2979f6fedaae64fd85f5c2f617" 1 "MQTTClient.h"];
  entry "mqttclient_5fsubscribe_104" "MQTTClient_subscribe" [link "../_m_q_t_t_client_8h.html#a9c1c28258f0d5c6a44ff53a98618f5f3" 1 "MQTTClient.h"];
  entry "mqttclient_5fsubscribe5_105" "MQTTClient_subscribe5" [link "../_m_q_t_t_client_8h.html#af35ab7375435f7b6388c5ff4610dad3d" 1 "MQTTClient.h"];
  entry "mqttclient_5fsubscribemany_106" "MQTTClient_subscribeMany" [link "../_m_q_t_t_client_8h.html#a92fa1c13f3db8399e042fbdbdfb692b3" 1 "MQTTClient.h"];
  entry "mqttclient_5fsubscribemany5_107" "MQTTClient_subscribeMany5" [link "../_m_q_t_t_client_8h.html#a5390c2402f135c12826ffbf6fc261f7c" 1 "MQTTClient.h"];
  entry "mqttclient_5fsuccess_108" "MQTTCLIENT_SUCCESS" [link "../_m_q_t_t_client_8h.html#acba095704d79e5a1996389fa26203f73" 1 "MQTTClient.h"];
  entry "mqttclient_5ftoken_109" "MQTTClient_token" [link "../_m_q_t_t_client_8h.html#a8b2beb5227708f8127b666f5a7fc41b3" 1 "MQTTClient.h"];
  entry "mqttclient_5ftopicname_5ftruncated_110" "MQTTCLIENT_TOPICNAME_TRUNCATED" [link "../_m_q_t_t_client_8h.html#a29afebfce0bdf6cda1e37abc0c4b6690" 1 "MQTTClient.h"];
  entry "mqttclient_5ftrace_5ferror_111" "MQTTCLIENT_TRACE_ERROR" [link "../_m_q_t_t_client_8h.html#aa0ae95caa9c16d152b5036b1bac2e09ba6eefffc98c1ba698224ba351f12e6a91" 1 "MQTTClient.h"];
  entry "mqttclient_5ftrace_5ffatal_112" "MQTTCLIENT_TRACE_FATAL" [link "../_m_q_t_t_client_8h.html#aa0ae95caa9c16d152b5036b1bac2e09ba35626cc4876d074c4c21f8c4f54fdf38" 1 "MQTTClient.h"];
  entry "mqttclient_5ftrace_5flevels_113" "MQTTCLIENT_TRACE_LEVELS" [link "../_m_q_t_t_client_8h.html#aa0ae95caa9c16d152b5036b1bac2e09b" 1 "MQTTClient.h"];
  entry "mqttclient_5ftrace_5fmaximum_114" "MQTTCLIENT_TRACE_MAXIMUM" [link "../_m_q_t_t_client_8h.html#aa0ae95caa9c16d152b5036b1bac2e09ba38a4c3c4e2fc99711793ee2815aee40c" 1 "MQTTClient.h"];
  entry "mqttclient_5ftrace_5fmedium_115" "MQTTCLIENT_TRACE_MEDIUM" [link "../_m_q_t_t_client_8h.html#aa0ae95caa9c16d152b5036b1bac2e09ba4bb7e7221b59e9be4515f2182c03ea99" 1 "MQTTClient.h"];
  entry "mqttclient_5ftrace_5fminimum_116" "MQTTCLIENT_TRACE_MINIMUM" [link "../_m_q_t_t_client_8h.html#aa0ae95caa9c16d152b5036b1bac2e09bacf029d9a231bd07e5e1a6f3bd0b6004e" 1 "MQTTClient.h"];
  entry "mqttclient_5ftrace_5fprotocol_117" "MQTTCLIENT_TRACE_PROTOCOL" [link "../_m_q_t_t_client_8h.html#aa0ae95caa9c16d152b5036b1bac2e09ba29f21f77cf34ab2467520d7738fd8eb1" 1 "MQTTClient.h"];
  entry "mqttclient_5ftrace_5fsevere_118" "MQTTCLIENT_TRACE_SEVERE" [link "../_m_q_t_t_client_8h.html#aa0ae95caa9c16d152b5036b1bac2e09baf060569bdbb4015cfce028937b4cfa69" 1 "MQTTClient.h"];
  entry "mqttclient_5ftracecallback_119" "MQTTClient_traceCallback" [link "../_m_q_t_t_client_8h.html#afa5758290a1162e5135bca97bbfd5774" 1 "MQTTClient.h"];
  entry "mqttclient_5funsubscribe_120" "MQTTClient_unsubscribe" [link "../_m_q_t_t_client_8h.html#aa8731be3dbc6a25f41f037f8bbbb054b" 1 "MQTTClient.h"];
  entry "mqttclient_5funsubscribe5_121" "MQTTClient_unsubscribe5" [link "../_m_q_t_t_client_8h.html#a58356c13867f18df60fd4c7ec9457c48" 1 "MQTTClient.h"];
  entry "mqttclient_5funsubscribemany_122" "MQTTClient_unsubscribeMany" [link "../_m_q_t_t_client_8h.html#a50abbce720d50b9f84b97ff9fa1f546d" 1 "MQTTClient.h"];
  entry "mqttclient_5funsubscribemany5_123" "MQTTClient_unsubscribeMany5" [link "../_m_q_t_t_client_8h.html#a46bdb532d2153110ccffb2f0748d1ba5" 1 "MQTTClient.h"];
  entry "mqttclient_5fwaitforcompletion_124" "MQTTClient_waitForCompletion" [link "../_m_q_t_t_client_8h.html#a83807ec81fe8c3941e368ab329d43067" 1 "MQTTClient.h"];
  entry "mqttclient_5fwilloptions_125" "MQTTClient_willOptions" [link "../struct_m_q_t_t_client__will_options.html" 1 EmptyString];
  entry "mqttclient_5fwilloptions_5finitializer_126" "MQTTClient_willOptions_initializer" [link "../_m_q_t_t_client_8h.html#aae0811659c59f5dad0467544f91645eb" 1 "MQTTClient.h"];
  entry "mqttclient_5fwrong_5fmqtt_5fversion_127" "MQTTCLIENT_WRONG_MQTT_VERSION" [link "../_m_q_t_t_client_8h.html#ae9070d21de569f999a9575049cdd6da1" 1 "MQTTClient.h"];
  entry "mqttclient_5fyield_128" "MQTTClient_yield" [link "../_m_q_t_t_client_8h.html#a8ad3d29864a9ca08202b0832e0f6678e" 1 "MQTTClient.h"];
  entry "mqttclientpersistence_2eh_129" "MQTTClientPersistence.h" [link "../_m_q_t_t_client_persistence_8h.html" 1 EmptyString];
  entry "mqttlenstring_130" "MQTTLenString" [link "../struct_m_q_t_t_len_string.html" 1 EmptyString];
  entry "mqttpersistence_5fafterread_131" "MQTTPersistence_afterRead" [link "../_m_q_t_t_client_persistence_8h.html#af5a966a574c6ad7a35f1ebb7edd5c1c4" 1 "MQTTClientPersistence.h"];
  entry "mqttpersistence_5fbeforewrite_132" "MQTTPersistence_beforeWrite" [link "../_m_q_t_t_client_persistence_8h.html#ab865640a1cc53b68622004c5a2d29fae" 1 "MQTTClientPersistence.h"];
  entry "mqttproperties_133" "MQTTProperties" [link "../_m_q_t_t_properties_8h.html#a7758f1a5eceb6f46c8540630e39e2fb4" 1 "MQTTProperties():&#160;MQTTProperties.h"; link "../struct_m_q_t_t_properties.html" 1 "MQTTProperties"];
  entry "mqttproperties_2eh_134" "MQTTProperties.h" [link "../_m_q_t_t_properties_8h.html" 1 EmptyString];
  entry "mqttproperties_5fadd_135" "MQTTProperties_add" [link "../_m_q_t_t_properties_8h.html#a88f1d21556c2d23330d71357cd226a15" 1 "MQTTProperties.h"];
  entry "mqttproperties_5fcopy_136" "MQTTProperties_copy" [link "../_m_q_t_t_properties_8h.html#a69b3e474ee2f828e5b827d615fe0fe72" 1 "MQTTProperties.h"];
  entry "mqttproperties_5ffree_137" "MQTTProperties_free" [link "../_m_q_t_t_properties_8h.html#ab68247ed365ee51170a9309c828b1823" 1 "MQTTProperties.h"];
  entry "mqttproperties_5fgetnumericvalue_138" "MQTTProperties_getNumericValue" [link "../_m_q_t_t_properties_8h.html#afa777eb796532a3c0c59ddc40aca3792" 1 "MQTTProperties.h"];
  entry "mqttproperties_5fgetnumericvalueat_139" "MQTTProperties_getNumericValueAt" [link "../_m_q_t_t_properties_8h.html#abc6bc80d9bb644c9b4a66b6808829a53" 1 "MQTTProperties.h"];
  entry "mqttproperties_5fgetproperty_140" "MQTTProperties_getProperty" [link "../_m_q_t_t_properties_8h.html#a788b033cbed8a7906799fccbb1463f20" 1 "MQTTProperties.h"];
  entry "mqttproperties_5fgetpropertyat_141" "MQTTProperties_getPropertyAt" [link "../_m_q_t_t_properties_8h.html#ac6942d8fafb5794591fc558b4bb06beb" 1 "MQTTProperties.h"];
  entry "mqttproperties_5fhasproperty_142" "MQTTProperties_hasProperty" [link "../_m_q_t_t_properties_8h.html#a4ccdf6a712c3d803a16a4d3f00f9be2f" 1 "MQTTProperties.h"];
  entry "mqttproperties_5finitializer_143" "MQTTProperties_initializer" [link "../_m_q_t_t_properties_8h.html#a5a80e158486a414ccdfcdd7f75f23988" 1 "MQTTProperties.h"];
  entry "mqttproperties_5flen_144" "MQTTProperties_len" [link "../_m_q_t_t_properties_8h.html#ab7ad6f14e2dc7576d35827a28b0dc81d" 1 "MQTTProperties.h"];
  entry "mqttproperties_5fpropertycount_145" "MQTTProperties_propertyCount" [link "../_m_q_t_t_properties_8h.html#a6f0d8b230c2e7008c7639cfce1c04429" 1 "MQTTProperties.h"];
  entry "mqttproperties_5fread_146" "MQTTProperties_read" [link "../_m_q_t_t_properties_8h.html#afcb874dfcc9f0eaa0b063e2fad740871" 1 "MQTTProperties.h"];
  entry "mqttproperties_5fwrite_147" "MQTTProperties_write" [link "../_m_q_t_t_properties_8h.html#ade0027a4e571bd288fe40271ff7aa497" 1 "MQTTProperties.h"];
  entry "mqttproperty_148" "MQTTProperty" [link "../struct_m_q_t_t_property.html" 1 EmptyString];
  entry "mqttproperty_5fcode_5fassigned_5fclient_5fidentifer_149" "MQTTPROPERTY_CODE_ASSIGNED_CLIENT_IDENTIFER" [link "../_m_q_t_t_properties_8h.html#af623c1b670dfe3fda633c068e054d8b4a768d84858fd18d5d5a7dee394929c672" 1 "MQTTProperties.h"];
  entry "mqttproperty_5fcode_5fauthentication_5fdata_150" "MQTTPROPERTY_CODE_AUTHENTICATION_DATA" [link "../_m_q_t_t_properties_8h.html#af623c1b670dfe3fda633c068e054d8b4abdf9feec165aceefbe7aa46764f6ab6e" 1 "MQTTProperties.h"];
  entry "mqttproperty_5fcode_5fauthentication_5fmethod_151" "MQTTPROPERTY_CODE_AUTHENTICATION_METHOD" [link "../_m_q_t_t_properties_8h.html#af623c1b670dfe3fda633c068e054d8b4a7c53f1e414b577d787b5d51af3204100" 1 "MQTTProperties.h"];
  entry "mqttproperty_5fcode_5fcontent_5ftype_152" "MQTTPROPERTY_CODE_CONTENT_TYPE" [link "../_m_q_t_t_properties_8h.html#af623c1b670dfe3fda633c068e054d8b4a4027d9e0fb53a62ae35963e700b56198" 1 "MQTTProperties.h"];
  entry "mqttproperty_5fcode_5fcorrelation_5fdata_153" "MQTTPROPERTY_CODE_CORRELATION_DATA" [link "../_m_q_t_t_properties_8h.html#af623c1b670dfe3fda633c068e054d8b4a887d3dd3f0ce31255324f5a1ba8b72c5" 1 "MQTTProperties.h"];
  entry "mqttproperty_5fcode_5fmaximum_5fpacket_5fsize_154" "MQTTPROPERTY_CODE_MAXIMUM_PACKET_SIZE" [link "../_m_q_t_t_properties_8h.html#af623c1b670dfe3fda633c068e054d8b4a6834ea9878f028d5fbdeccaaeae492e5" 1 "MQTTProperties.h"];
  entry "mqttproperty_5fcode_5fmaximum_5fqos_155" "MQTTPROPERTY_CODE_MAXIMUM_QOS" [link "../_m_q_t_t_properties_8h.html#af623c1b670dfe3fda633c068e054d8b4a506faeb89c407cf78853c777d750fa59" 1 "MQTTProperties.h"];
  entry "mqttproperty_5fcode_5fmessage_5fexpiry_5finterval_156" "MQTTPROPERTY_CODE_MESSAGE_EXPIRY_INTERVAL" [link "../_m_q_t_t_properties_8h.html#af623c1b670dfe3fda633c068e054d8b4a284c0e62d47ee8d358b16a8075632b4a" 1 "MQTTProperties.h"];
  entry "mqttproperty_5fcode_5fpayload_5fformat_5findicator_157" "MQTTPROPERTY_CODE_PAYLOAD_FORMAT_INDICATOR" [link "../_m_q_t_t_properties_8h.html#af623c1b670dfe3fda633c068e054d8b4ae5d077520427d03b44096f631411575d" 1 "MQTTProperties.h"];
  entry "mqttproperty_5fcode_5freason_5fstring_158" "MQTTPROPERTY_CODE_REASON_STRING" [link "../_m_q_t_t_properties_8h.html#af623c1b670dfe3fda633c068e054d8b4a3dce8f679474e901ce4aec076e9e59e1" 1 "MQTTProperties.h"];
  entry "mqttproperty_5fcode_5freceive_5fmaximum_159" "MQTTPROPERTY_CODE_RECEIVE_MAXIMUM" [link "../_m_q_t_t_properties_8h.html#af623c1b670dfe3fda633c068e054d8b4ab2688fe8d7d263c27c00d41776cb8f9f" 1 "MQTTProperties.h"];
  entry "mqttproperty_5fcode_5frequest_5fproblem_5finformation_160" "MQTTPROPERTY_CODE_REQUEST_PROBLEM_INFORMATION" [link "../_m_q_t_t_properties_8h.html#af623c1b670dfe3fda633c068e054d8b4a3954daf1d5772b5d56eefa1ab6a28aa1" 1 "MQTTProperties.h"];
  entry "mqttproperty_5fcode_5frequest_5fresponse_5finformation_161" "MQTTPROPERTY_CODE_REQUEST_RESPONSE_INFORMATION" [link "../_m_q_t_t_properties_8h.html#af623c1b670dfe3fda633c068e054d8b4a420b882a337dc1fd5f336ac6cd0529bf" 1 "MQTTProperties.h"];
  entry "mqttproperty_5fcode_5fresponse_5finformation_162" "MQTTPROPERTY_CODE_RESPONSE_INFORMATION" [link "../_m_q_t_t_properties_8h.html#af623c1b670dfe3fda633c068e054d8b4a2584b050f016af496c7f0b46692dbc00" 1 "MQTTProperties.h"];
  entry "mqttproperty_5fcode_5fresponse_5ftopic_163" "MQTTPROPERTY_CODE_RESPONSE_TOPIC" [link "../_m_q_t_t_properties_8h.html#af623c1b670dfe3fda633c068e054d8b4a7fa9996eef721d318504fbb0a8d4bac5" 1 "MQTTProperties.h"];
  entry "mqttproperty_5fcode_5fretain_5favailable_164" "MQTTPROPERTY_CODE_RETAIN_AVAILABLE" [link "../_m_q_t_t_properties_8h.html#af623c1b670dfe3fda633c068e054d8b4a448b3a40afaa5f7195701e7dc8bed30c" 1 "MQTTProperties.h"];
  entry "mqttproperty_5fcode_5fserver_5fkeep_5falive_165" "MQTTPROPERTY_CODE_SERVER_KEEP_ALIVE" [link "../_m_q_t_t_properties_8h.html#af623c1b670dfe3fda633c068e054d8b4ab106f320e7537b79644f25d3efcd68c7" 1 "MQTTProperties.h"];
  entry "mqttproperty_5fcode_5fserver_5freference_166" "MQTTPROPERTY_CODE_SERVER_REFERENCE" [link "../_m_q_t_t_properties_8h.html#af623c1b670dfe3fda633c068e054d8b4a0168e8a59f7994c02b7a7fd2fc3735c4" 1 "MQTTProperties.h"];
  entry "mqttproperty_5fcode_5fsession_5fexpiry_5finterval_167" "MQTTPROPERTY_CODE_SESSION_EXPIRY_INTERVAL" [link "../_m_q_t_t_properties_8h.html#af623c1b670dfe3fda633c068e054d8b4a22e4caa63f63ca3f9b1c1330711ee766" 1 "MQTTProperties.h"];
  entry "mqttproperty_5fcode_5fshared_5fsubscription_5favailable_168" "MQTTPROPERTY_CODE_SHARED_SUBSCRIPTION_AVAILABLE" [link "../_m_q_t_t_properties_8h.html#af623c1b670dfe3fda633c068e054d8b4ae04a7356f9e11654f15a3b21f2aae636" 1 "MQTTProperties.h"];
  entry "mqttproperty_5fcode_5fsubscription_5fidentifier_169" "MQTTPROPERTY_CODE_SUBSCRIPTION_IDENTIFIER" [link "../_m_q_t_t_properties_8h.html#af623c1b670dfe3fda633c068e054d8b4a70ead9c93f06396a4d9469b65bff0c96" 1 "MQTTProperties.h"];
  entry "mqttproperty_5fcode_5fsubscription_5fidentifiers_5favailable_170" "MQTTPROPERTY_CODE_SUBSCRIPTION_IDENTIFIERS_AVAILABLE" [link "../_m_q_t_t_properties_8h.html#af623c1b670dfe3fda633c068e054d8b4a8b366cfd8bd3f388bafb67f3ebf83505" 1 "MQTTProperties.h"];
  entry "mqttproperty_5fcode_5ftopic_5falias_171" "MQTTPROPERTY_CODE_TOPIC_ALIAS" [link "../_m_q_t_t_properties_8h.html#af623c1b670dfe3fda633c068e054d8b4ad4dfb37d341ea190afc144668e5e3bee" 1 "MQTTProperties.h"];
  entry "mqttproperty_5fcode_5ftopic_5falias_5fmaximum_172" "MQTTPROPERTY_CODE_TOPIC_ALIAS_MAXIMUM" [link "../_m_q_t_t_properties_8h.html#af623c1b670dfe3fda633c068e054d8b4a0a0b0b0715ecc9ccf471c75aa4c21c23" 1 "MQTTProperties.h"];
  entry "mqttproperty_5fcode_5fuser_5fproperty_173" "MQTTPROPERTY_CODE_USER_PROPERTY" [link "../_m_q_t_t_properties_8h.html#af623c1b670dfe3fda633c068e054d8b4a596ff540370235d3eca693ce30dd4af8" 1 "MQTTProperties.h"];
  entry "mqttproperty_5fcode_5fwildcard_5fsubscription_5favailable_174" "MQTTPROPERTY_CODE_WILDCARD_SUBSCRIPTION_AVAILABLE" [link "../_m_q_t_t_properties_8h.html#af623c1b670dfe3fda633c068e054d8b4ad05993f90baaee0ba7094ccef4d378b9" 1 "MQTTProperties.h"];
  entry "mqttproperty_5fcode_5fwill_5fdelay_5finterval_175" "MQTTPROPERTY_CODE_WILL_DELAY_INTERVAL" [link "../_m_q_t_t_properties_8h.html#af623c1b670dfe3fda633c068e054d8b4a53fd81bc554f152a2772d282be7ce5ef" 1 "MQTTProperties.h"];
  entry "mqttproperty_5fgettype_176" "MQTTProperty_getType" [link "../_m_q_t_t_properties_8h.html#a7d30ad0520bc9b9366e700d4b493b173" 1 "MQTTProperties.h"];
  entry "mqttproperty_5ftype_5fbinary_5fdata_177" "MQTTPROPERTY_TYPE_BINARY_DATA" [link "../_m_q_t_t_properties_8h.html#a942f52ef7c232829f6df5c86e07cc958a6643aed682b9b07f98159856776fe7b4" 1 "MQTTProperties.h"];
  entry "mqttproperty_5ftype_5fbyte_178" "MQTTPROPERTY_TYPE_BYTE" [link "../_m_q_t_t_properties_8h.html#a942f52ef7c232829f6df5c86e07cc958ac36f96ce58c98a8ebbe0783df030726a" 1 "MQTTProperties.h"];
  entry "mqttproperty_5ftype_5ffour_5fbyte_5finteger_179" "MQTTPROPERTY_TYPE_FOUR_BYTE_INTEGER" [link "../_m_q_t_t_properties_8h.html#a942f52ef7c232829f6df5c86e07cc958aa49c558733bd735ae872fd87ad0d7e15" 1 "MQTTProperties.h"];
  entry "mqttproperty_5ftype_5ftwo_5fbyte_5finteger_180" "MQTTPROPERTY_TYPE_TWO_BYTE_INTEGER" [link "../_m_q_t_t_properties_8h.html#a942f52ef7c232829f6df5c86e07cc958ae301a9e68326cc2d8bfefeca401e78e6" 1 "MQTTProperties.h"];
  entry "mqttproperty_5ftype_5futf_5f8_5fencoded_5fstring_181" "MQTTPROPERTY_TYPE_UTF_8_ENCODED_STRING" [link "../_m_q_t_t_properties_8h.html#a942f52ef7c232829f6df5c86e07cc958ad45c866a5bef6c5048a7af21405734d1" 1 "MQTTProperties.h"];
  entry "mqttproperty_5ftype_5futf_5f8_5fstring_5fpair_182" "MQTTPROPERTY_TYPE_UTF_8_STRING_PAIR" [link "../_m_q_t_t_properties_8h.html#a942f52ef7c232829f6df5c86e07cc958a28ab5fe5b159f3b3a8884b0f61527214" 1 "MQTTProperties.h"];
  entry "mqttproperty_5ftype_5fvariable_5fbyte_5finteger_183" "MQTTPROPERTY_TYPE_VARIABLE_BYTE_INTEGER" [link "../_m_q_t_t_properties_8h.html#a942f52ef7c232829f6df5c86e07cc958a27bbcb5bc4f584f96612c0cec329c6a7" 1 "MQTTProperties.h"];
  entry "mqttpropertycodes_184" "MQTTPropertyCodes" [link "../_m_q_t_t_properties_8h.html#af623c1b670dfe3fda633c068e054d8b4" 1 "MQTTProperties.h"];
  entry "mqttpropertyname_185" "MQTTPropertyName" [link "../_m_q_t_t_properties_8h.html#afa0a7306d7b6174c5bc417ca49d99851" 1 "MQTTProperties.h"];
  entry "mqttpropertytypes_186" "MQTTPropertyTypes" [link "../_m_q_t_t_properties_8h.html#a942f52ef7c232829f6df5c86e07cc958" 1 "MQTTProperties.h"];
  entry "mqttreasoncode_5fadministrative_5faction_187" "MQTTREASONCODE_ADMINISTRATIVE_ACTION" [link "../_m_q_t_t_reason_codes_8h.html#aba6db0fccfa3f8972ea48117b8b2a279ae1e3b428072be26d2cbf6f88361f76cc" 1 "MQTTReasonCodes.h"];
  entry "mqttreasoncode_5fbad_5fauthentication_5fmethod_188" "MQTTREASONCODE_BAD_AUTHENTICATION_METHOD" [link "../_m_q_t_t_reason_codes_8h.html#aba6db0fccfa3f8972ea48117b8b2a279af62e569703d7a7f0acffaa59522b9dc3" 1 "MQTTReasonCodes.h"];
  entry "mqttreasoncode_5fbad_5fuser_5fname_5for_5fpassword_189" "MQTTREASONCODE_BAD_USER_NAME_OR_PASSWORD" [link "../_m_q_t_t_reason_codes_8h.html#aba6db0fccfa3f8972ea48117b8b2a279abfc617112d5856722108912c5c6633ff" 1 "MQTTReasonCodes.h"];
  entry "mqttreasoncode_5fbanned_190" "MQTTREASONCODE_BANNED" [link "../_m_q_t_t_reason_codes_8h.html#aba6db0fccfa3f8972ea48117b8b2a279ab4cf7578f0078293fa66a4cd5e5d4aa4" 1 "MQTTReasonCodes.h"];
  entry "mqttreasoncode_5fclient_5fidentifier_5fnot_5fvalid_191" "MQTTREASONCODE_CLIENT_IDENTIFIER_NOT_VALID" [link "../_m_q_t_t_reason_codes_8h.html#aba6db0fccfa3f8972ea48117b8b2a279ab58bb236e7dbd000a56c590c01bc73fd" 1 "MQTTReasonCodes.h"];
  entry "mqttreasoncode_5fconnection_5frate_5fexceeded_192" "MQTTREASONCODE_CONNECTION_RATE_EXCEEDED" [link "../_m_q_t_t_reason_codes_8h.html#aba6db0fccfa3f8972ea48117b8b2a279a879c56ed34fa2dd6492e7a34a9747bc1" 1 "MQTTReasonCodes.h"];
  entry "mqttreasoncode_5fcontinue_5fauthentication_193" "MQTTREASONCODE_CONTINUE_AUTHENTICATION" [link "../_m_q_t_t_reason_codes_8h.html#aba6db0fccfa3f8972ea48117b8b2a279a0c0726c0e87eaddd636708497c69d055" 1 "MQTTReasonCodes.h"];
  entry "mqttreasoncode_5fdisconnect_5fwith_5fwill_5fmessage_194" "MQTTREASONCODE_DISCONNECT_WITH_WILL_MESSAGE" [link "../_m_q_t_t_reason_codes_8h.html#aba6db0fccfa3f8972ea48117b8b2a279a55f533a6cc98417d08dac8cc69da0ed3" 1 "MQTTReasonCodes.h"];
  entry "mqttreasoncode_5fgranted_5fqos_5f0_195" "MQTTREASONCODE_GRANTED_QOS_0" [link "../_m_q_t_t_reason_codes_8h.html#aba6db0fccfa3f8972ea48117b8b2a279a3fd0d12c0e44b4df9f716aef89b61aff" 1 "MQTTReasonCodes.h"];
  entry "mqttreasoncode_5fgranted_5fqos_5f1_196" "MQTTREASONCODE_GRANTED_QOS_1" [link "../_m_q_t_t_reason_codes_8h.html#aba6db0fccfa3f8972ea48117b8b2a279a07578b30b2d72af2eeea6be268475876" 1 "MQTTReasonCodes.h"];
  entry "mqttreasoncode_5fgranted_5fqos_5f2_197" "MQTTREASONCODE_GRANTED_QOS_2" [link "../_m_q_t_t_reason_codes_8h.html#aba6db0fccfa3f8972ea48117b8b2a279a74ac34a39a849c9c369b18545a4b1f93" 1 "MQTTReasonCodes.h"];
  entry "mqttreasoncode_5fimplementation_5fspecific_5ferror_198" "MQTTREASONCODE_IMPLEMENTATION_SPECIFIC_ERROR" [link "../_m_q_t_t_reason_codes_8h.html#aba6db0fccfa3f8972ea48117b8b2a279a41629fa453cdf14ef6a5370a16d5a19c" 1 "MQTTReasonCodes.h"];
  entry "mqttreasoncode_5fkeep_5falive_5ftimeout_199" "MQTTREASONCODE_KEEP_ALIVE_TIMEOUT" [link "../_m_q_t_t_reason_codes_8h.html#aba6db0fccfa3f8972ea48117b8b2a279af21a6c320e34993d7aa169330ab23409" 1 "MQTTReasonCodes.h"];
  entry "mqttreasoncode_5fmalformed_5fpacket_200" "MQTTREASONCODE_MALFORMED_PACKET" [link "../_m_q_t_t_reason_codes_8h.html#aba6db0fccfa3f8972ea48117b8b2a279a2cbee3502c00d304bf1091195457fcf5" 1 "MQTTReasonCodes.h"];
  entry "mqttreasoncode_5fmaximum_5fconnect_5ftime_201" "MQTTREASONCODE_MAXIMUM_CONNECT_TIME" [link "../_m_q_t_t_reason_codes_8h.html#aba6db0fccfa3f8972ea48117b8b2a279a6f07c3b42690afc7b117321dc4e2657f" 1 "MQTTReasonCodes.h"];
  entry "mqttreasoncode_5fmessage_5frate_5ftoo_5fhigh_202" "MQTTREASONCODE_MESSAGE_RATE_TOO_HIGH" [link "../_m_q_t_t_reason_codes_8h.html#aba6db0fccfa3f8972ea48117b8b2a279af76d0e32fb44fa94e407b1af5dc7aa4e" 1 "MQTTReasonCodes.h"];
  entry "mqttreasoncode_5fno_5fmatching_5fsubscribers_203" "MQTTREASONCODE_NO_MATCHING_SUBSCRIBERS" [link "../_m_q_t_t_reason_codes_8h.html#aba6db0fccfa3f8972ea48117b8b2a279a1720d8b04af4c0d92e27b378d735e899" 1 "MQTTReasonCodes.h"];
  entry "mqttreasoncode_5fno_5fsubscription_5ffound_204" "MQTTREASONCODE_NO_SUBSCRIPTION_FOUND" [link "../_m_q_t_t_reason_codes_8h.html#aba6db0fccfa3f8972ea48117b8b2a279a55208c34a26f67e112d53c54be37acb9" 1 "MQTTReasonCodes.h"];
  entry "mqttreasoncode_5fnormal_5fdisconnection_205" "MQTTREASONCODE_NORMAL_DISCONNECTION" [link "../_m_q_t_t_reason_codes_8h.html#aba6db0fccfa3f8972ea48117b8b2a279a3590f41d984646bc58c82734c1516c92" 1 "MQTTReasonCodes.h"];
  entry "mqttreasoncode_5fnot_5fauthorized_206" "MQTTREASONCODE_NOT_AUTHORIZED" [link "../_m_q_t_t_reason_codes_8h.html#aba6db0fccfa3f8972ea48117b8b2a279a91a14fc763349cf4a7047d24f13d0803" 1 "MQTTReasonCodes.h"];
  entry "mqttreasoncode_5fpacket_5fidentifier_5fin_5fuse_207" "MQTTREASONCODE_PACKET_IDENTIFIER_IN_USE" [link "../_m_q_t_t_reason_codes_8h.html#aba6db0fccfa3f8972ea48117b8b2a279adaee01dbc97a0773b5032a29c797613a" 1 "MQTTReasonCodes.h"];
  entry "mqttreasoncode_5fpacket_5fidentifier_5fnot_5ffound_208" "MQTTREASONCODE_PACKET_IDENTIFIER_NOT_FOUND" [link "../_m_q_t_t_reason_codes_8h.html#aba6db0fccfa3f8972ea48117b8b2a279a4908a8293054f8ff8d6c47fe0cf31932" 1 "MQTTReasonCodes.h"];
  entry "mqttreasoncode_5fpacket_5ftoo_5flarge_209" "MQTTREASONCODE_PACKET_TOO_LARGE" [link "../_m_q_t_t_reason_codes_8h.html#aba6db0fccfa3f8972ea48117b8b2a279a11a587e15c468bf1c6ba9df7e8fd78aa" 1 "MQTTReasonCodes.h"];
  entry "mqttreasoncode_5fpayload_5fformat_5finvalid_210" "MQTTREASONCODE_PAYLOAD_FORMAT_INVALID" [link "../_m_q_t_t_reason_codes_8h.html#aba6db0fccfa3f8972ea48117b8b2a279a2d629400116e1723c5e2e597bbfe29ca" 1 "MQTTReasonCodes.h"];
  entry "mqttreasoncode_5fprotocol_5ferror_211" "MQTTREASONCODE_PROTOCOL_ERROR" [link "../_m_q_t_t_reason_codes_8h.html#aba6db0fccfa3f8972ea48117b8b2a279ae0dad403f352e31449764e2ac94c7756" 1 "MQTTReasonCodes.h"];
  entry "mqttreasoncode_5fqos_5fnot_5fsupported_212" "MQTTREASONCODE_QOS_NOT_SUPPORTED" [link "../_m_q_t_t_reason_codes_8h.html#aba6db0fccfa3f8972ea48117b8b2a279a83865a2440b512e5602152521e3810bb" 1 "MQTTReasonCodes.h"];
  entry "mqttreasoncode_5fquota_5fexceeded_213" "MQTTREASONCODE_QUOTA_EXCEEDED" [link "../_m_q_t_t_reason_codes_8h.html#aba6db0fccfa3f8972ea48117b8b2a279a954fcabf6e88925b2a57bcd84032d9f9" 1 "MQTTReasonCodes.h"];
  entry "mqttreasoncode_5fre_5fauthenticate_214" "MQTTREASONCODE_RE_AUTHENTICATE" [link "../_m_q_t_t_reason_codes_8h.html#aba6db0fccfa3f8972ea48117b8b2a279a6cc1b342856c1d96d54c368148b536f7" 1 "MQTTReasonCodes.h"];
  entry "mqttreasoncode_5freceive_5fmaximum_5fexceeded_215" "MQTTREASONCODE_RECEIVE_MAXIMUM_EXCEEDED" [link "../_m_q_t_t_reason_codes_8h.html#aba6db0fccfa3f8972ea48117b8b2a279a45afaacbefd2d816fddf9fe9804b61d1" 1 "MQTTReasonCodes.h"];
  entry "mqttreasoncode_5fretain_5fnot_5fsupported_216" "MQTTREASONCODE_RETAIN_NOT_SUPPORTED" [link "../_m_q_t_t_reason_codes_8h.html#aba6db0fccfa3f8972ea48117b8b2a279aa4378012148d98599398bc4a3480c38f" 1 "MQTTReasonCodes.h"];
  entry "mqttreasoncode_5fserver_5fbusy_217" "MQTTREASONCODE_SERVER_BUSY" [link "../_m_q_t_t_reason_codes_8h.html#aba6db0fccfa3f8972ea48117b8b2a279af507e75147b0b34f36955c9f62389a74" 1 "MQTTReasonCodes.h"];
  entry "mqttreasoncode_5fserver_5fmoved_218" "MQTTREASONCODE_SERVER_MOVED" [link "../_m_q_t_t_reason_codes_8h.html#aba6db0fccfa3f8972ea48117b8b2a279a783254c7acf8de52ee345bc176f9d6c0" 1 "MQTTReasonCodes.h"];
  entry "mqttreasoncode_5fserver_5fshutting_5fdown_219" "MQTTREASONCODE_SERVER_SHUTTING_DOWN" [link "../_m_q_t_t_reason_codes_8h.html#aba6db0fccfa3f8972ea48117b8b2a279a085e1572ffce61838807b7429b691113" 1 "MQTTReasonCodes.h"];
  entry "mqttreasoncode_5fserver_5funavailable_220" "MQTTREASONCODE_SERVER_UNAVAILABLE" [link "../_m_q_t_t_reason_codes_8h.html#aba6db0fccfa3f8972ea48117b8b2a279a0cfd4de78870b3fb0499b916d06d40bb" 1 "MQTTReasonCodes.h"];
  entry "mqttreasoncode_5fsession_5ftaken_5fover_221" "MQTTREASONCODE_SESSION_TAKEN_OVER" [link "../_m_q_t_t_reason_codes_8h.html#aba6db0fccfa3f8972ea48117b8b2a279ad15ffa6884f97976e237afafcbccea21" 1 "MQTTReasonCodes.h"];
  entry "mqttreasoncode_5fshared_5fsubscriptions_5fnot_5fsupported_222" "MQTTREASONCODE_SHARED_SUBSCRIPTIONS_NOT_SUPPORTED" [link "../_m_q_t_t_reason_codes_8h.html#aba6db0fccfa3f8972ea48117b8b2a279a1c694648e36a40162939a2785450b6bd" 1 "MQTTReasonCodes.h"];
  entry "mqttreasoncode_5fsubscription_5fidentifiers_5fnot_5fsupported_223" "MQTTREASONCODE_SUBSCRIPTION_IDENTIFIERS_NOT_SUPPORTED" [link "../_m_q_t_t_reason_codes_8h.html#aba6db0fccfa3f8972ea48117b8b2a279a7bcd0f9b21c398a217667aebb4107842" 1 "MQTTReasonCodes.h"];
  entry "mqttreasoncode_5fsuccess_224" "MQTTREASONCODE_SUCCESS" [link "../_m_q_t_t_reason_codes_8h.html#aba6db0fccfa3f8972ea48117b8b2a279a63b379af5fba8c0512b381a4dbe26969" 1 "MQTTReasonCodes.h"];
  entry "mqttreasoncode_5ftopic_5falias_5finvalid_225" "MQTTREASONCODE_TOPIC_ALIAS_INVALID" [link "../_m_q_t_t_reason_codes_8h.html#aba6db0fccfa3f8972ea48117b8b2a279a8e0fcdd051e154e319058600b58652ec" 1 "MQTTReasonCodes.h"];
  entry "mqttreasoncode_5ftopic_5ffilter_5finvalid_226" "MQTTREASONCODE_TOPIC_FILTER_INVALID" [link "../_m_q_t_t_reason_codes_8h.html#aba6db0fccfa3f8972ea48117b8b2a279a00319b171f469824dd6938cbd0212b5b" 1 "MQTTReasonCodes.h"];
  entry "mqttreasoncode_5ftopic_5fname_5finvalid_227" "MQTTREASONCODE_TOPIC_NAME_INVALID" [link "../_m_q_t_t_reason_codes_8h.html#aba6db0fccfa3f8972ea48117b8b2a279a6268968177868576f6b9239aa9afd8ac" 1 "MQTTReasonCodes.h"];
  entry "mqttreasoncode_5ftostring_228" "MQTTReasonCode_toString" [link "../_m_q_t_t_reason_codes_8h.html#a91922a5e3c1e5ec7670b6e296854f1b7" 1 "MQTTReasonCodes.h"];
  entry "mqttreasoncode_5funspecified_5ferror_229" "MQTTREASONCODE_UNSPECIFIED_ERROR" [link "../_m_q_t_t_reason_codes_8h.html#aba6db0fccfa3f8972ea48117b8b2a279a1881ee597bfef9157f0034a1377328e3" 1 "MQTTReasonCodes.h"];
  entry "mqttreasoncode_5funsupported_5fprotocol_5fversion_230" "MQTTREASONCODE_UNSUPPORTED_PROTOCOL_VERSION" [link "../_m_q_t_t_reason_codes_8h.html#aba6db0fccfa3f8972ea48117b8b2a279a021ceca20e6d35279075a2b93ece973d" 1 "MQTTReasonCodes.h"];
  entry "mqttreasoncode_5fuse_5fanother_5fserver_231" "MQTTREASONCODE_USE_ANOTHER_SERVER" [link "../_m_q_t_t_reason_codes_8h.html#aba6db0fccfa3f8972ea48117b8b2a279aabaee4062c4e4941b9eed59f09e9440c" 1 "MQTTReasonCodes.h"];
  entry "mqttreasoncode_5fwildcard_5fsubscriptions_5fnot_5fsupported_232" "MQTTREASONCODE_WILDCARD_SUBSCRIPTIONS_NOT_SUPPORTED" [link "../_m_q_t_t_reason_codes_8h.html#aba6db0fccfa3f8972ea48117b8b2a279a81b5708f676f52594b680f085e444e1f" 1 "MQTTReasonCodes.h"];
  entry "mqttreasoncodes_233" "MQTTReasonCodes" [link "../_m_q_t_t_reason_codes_8h.html#aba6db0fccfa3f8972ea48117b8b2a279" 1 "MQTTReasonCodes.h"];
  entry "mqttreasoncodes_2eh_234" "MQTTReasonCodes.h" [link "../_m_q_t_t_reason_codes_8h.html" 1 EmptyString];
  entry "mqttresponse_235" "MQTTResponse" [link "../struct_m_q_t_t_response.html" 1 "MQTTResponse"; link "../_m_q_t_t_client_8h.html#a0d31d490adbe677902b99eca127bee56" 1 "MQTTResponse():&#160;MQTTClient.h"];
  entry "mqttresponse_5ffree_236" "MQTTResponse_free" [link "../_m_q_t_t_client_8h.html#a01bd2c5f98ec5c0636a106db33f2b01b" 1 "MQTTClient.h"];
  entry "mqttresponse_5finitializer_237" "MQTTResponse_initializer" [link "../_m_q_t_t_client_8h.html#a17f171200136bcfa933eb50ef21531a7" 1 "MQTTClient.h"];
  entry "mqttsubscribe_5foptions_238" "MQTTSubscribe_options" [link "../struct_m_q_t_t_subscribe__options.html" 1 "MQTTSubscribe_options"; link "../_m_q_t_t_subscribe_opts_8h.html#aa68db3eaed272ae1aaea294401079d8a" 1 "MQTTSubscribe_options():&#160;MQTTSubscribeOpts.h"];
  entry "mqttsubscribe_5foptions_5finitializer_239" "MQTTSubscribe_options_initializer" [link "../_m_q_t_t_subscribe_opts_8h.html#aec3b45fd0367106eea344396f87cfda7" 1 "MQTTSubscribeOpts.h"];
  entry "mqttsubscribeopts_2eh_240" "MQTTSubscribeOpts.h" [link "../_m_q_t_t_subscribe_opts_8h.html" 1 EmptyString];
  entry "mqttversion_241" "MQTTVersion" [link "../struct_m_q_t_t_client__create_options.html#a12d546fd0ccf4e1091b18e1b735c7240" 1 "MQTTClient_createOptions::MQTTVersion()"; link "../struct_m_q_t_t_client__connect_options.html#a12d546fd0ccf4e1091b18e1b735c7240" 1 "MQTTClient_connectOptions::MQTTVersion()"];
  entry "mqttversion_5f3_5f1_242" "MQTTVERSION_3_1" [link "../_m_q_t_t_client_8h.html#a4603b988e76872e1f23f135d225ce2fb" 1 "MQTTClient.h"];
  entry "mqttversion_5f3_5f1_5f1_243" "MQTTVERSION_3_1_1" [link "../_m_q_t_t_client_8h.html#ac79cc6fdeaa9e3f4ee12c3418898b1ef" 1 "MQTTClient.h"];
  entry "mqttversion_5f5_244" "MQTTVERSION_5" [link "../_m_q_t_t_client_8h.html#af8b176fa4d5b89789767ce972338e1e3" 1 "MQTTClient.h"];
  entry "mqttversion_5fdefault_245" "MQTTVERSION_DEFAULT" [link "../_m_q_t_t_client_8h.html#a75b80b01f98d5a1ffa2a4d42995a8397" 1 "MQTTClient.h"];
  entry "msgid_246" "msgid" [link "../struct_m_q_t_t_client__message.html#a6174c42da8c55c86e7255be2848dc4ac" 1 "MQTTClient_message"]].
Definition all_a : list SearchEntry := [
  entry "name_247" "name" [link "../struct_m_q_t_t_client__name_value.html#a8f8f80d37794cde9472343e4487ba3eb" 1 "MQTTClient_nameValue"];
  entry "nolocal_248" "noLocal" [link "../struct_m_q_t_t_subscribe__options.html#abbb6a188886c12f305cbe69358515d8b" 1 "MQTTSubscribe_options"]].
Definition all_b : list SearchEntry := [
  entry "password_249" "password" [link "../struct_m_q_t_t_client__connect_options.html#aa4a2ebcb494493f648ae1e6975672575" 1 "MQTTClient_connectOptions"];
  entry "payload_250" "payload" [link "../struct_m_q_t_t_client__message.html#a9eff55064941fb604452abb0050ea99d" 1 "MQTTClient_message::payload()"; link "../struct_m_q_t_t_client__will_options.html#a0e9356b973a918c25981982fe84e35d7" 1 "MQTTClient_willOptions::payload()"];
  entry "payloadlen_251" "payloadlen" [link "../struct_m_q_t_t_client__message.html#aa3cb44feb3ae6d11b3a4cad2d94cb33a" 1 "MQTTClient_message"];
  entry "pclear_252" "pclear" [link "../struct_m_q_t_t_client__persistence.html#abc192dc88113c7d933b29d3561badbf5" 1 "MQTTClient_persistence"];
  entry "pclose_253" "pclose" [link "../struct_m_q_t_t_client__persistence.html#a7e50506912d2ec0e014cc25ec28fb402" 1 "MQTTClient_persistence"];
  entry "pcontainskey_254" "pcontainskey" [link "../struct_m_q_t_t_client__persistence.html#ac103711576267f791325f2b70b6dc49d" 1 "MQTTClient_persistence"];
  entry "persistence_5fclear_255" "Persistence_clear" [link "../_m_q_t_t_client_persistence_8h.html#acee7097c1a0ab44b98c870f533687887" 1 "MQTTClientPersistence.h"];
  entry "persistence_5fclose_256" "Persistence_close" [link "../_m_q_t_t_client_persistence_8h.html#a3582de2c87e89f617e8e553b2a0e279a" 1 "MQTTClientPersistence.h"];
  entry "persistence_5fcontainskey_257" "Persistence_containskey" [link "../_m_q_t_t_client_persistence_8h.html#a753a0f9a9c51284d63a907af19c7bbba" 1 "MQTTClientPersistence.h"];
  entry "persistence_5fget_258" "Persistence_get" [link "../_m_q_t_t_client_persistence_8h.html#adc3aff3c570fa5509e9d6814a85ab867" 1 "MQTTClientPersistence.h"];
  entry "persistence_5fkeys_259" "Persistence_keys" [link "../_m_q_t_t_client_persistence_8h.html#a2601cc91eeabdbf9578f8dd45e4997a8" 1 "MQTTClientPersistence.h"];
  entry "persistence_5fopen_260" "Persistence_open" [link "../_m_q_t_t_client_persistence_8h.html#a4c7d332bb16907058ae3b375488b6008" 1 "MQTTClientPersistence.h"];
  entry "persistence_5fput_261" "Persistence_put" [link "../_m_q_t_t_client_persistence_8h.html#a44679cab77cfbd6e2a4639cdd27ac80c" 1 "MQTTClientPersistence.h"];
  entry "persistence_5fremove_262" "Persistence_remove" [link "../_m_q_t_t_client_persistence_8h.html#a73350bf7208658bf5434a59f7bdbae90" 1 "MQTTClientPersistence.h"];
  entry "pget_263" "pget" [link "../struct_m_q_t_t_client__persistence.html#a49155000b82a28ac3b3cb878f3a092d4" 1 "MQTTClient_persistence"];
  entry "pkeys_264" "pkeys" [link "../struct_m_q_t_t_client__persistence.html#a407e86a809e4b0b098a8c158f53b9606" 1 "MQTTClient_persistence"];
  entry "popen_265" "popen" [link "../struct_m_q_t_t_client__persistence.html#a1bae211b32415e6b349d5ae71599f9f4" 1 "MQTTClient_persistence"];
  entry "pput_266" "pput" [link "../struct_m_q_t_t_client__persistence.html#a4114d9b9971cee18d7e4b9dd5736a608" 1 "MQTTClient_persistence"];
  entry "premove_267" "premove" [link "../struct_m_q_t_t_client__persistence.html#a53150e443ca721b8623689371c2fbdb9" 1 "MQTTClient_persistence"];
  entry "privatekey_268" "privateKey" [link "../struct_m_q_t_t_client___s_s_l_options.html#a7dd436cbb916fba200595c3519f09ec4" 1 "MQTTClient_SSLOptions"];
  entry "privatekeypassword_269" "privateKeyPassword" [link "../struct_m_q_t_t_client___s_s_l_options.html#abb427571ba37b51f6985f1a6906ca031" 1 "MQTTClient_SSLOptions"];
  entry "properties_270" "properties" [link "../struct_m_q_t_t_response.html#a72e9294467b8329a78bc840fe6c5b230" 1 "MQTTResponse::properties()"; link "../struct_m_q_t_t_client__message.html#a1594008402f7307e4de8fa6131656dde" 1 "MQTTClient_message::properties()"];
  entry "protos_271" "protos" [link "../struct_m_q_t_t_client___s_s_l_options.html#a4f8661600fb8bacf031150f8dcd293a5" 1 "MQTTClient_SSLOptions"];
  entry "protos_5flen_272" "protos_len" [link "../struct_m_q_t_t_client___s_s_l_options.html#a26f5d839c92f9772c2a5d05486277a42" 1 "MQTTClient_SSLOptions"]].
Definition all_c : list SearchEntry := [
  entry "qos_273" "qos" [link "../struct_m_q_t_t_client__message.html#a35738099155a0e4f54050da474bab2e7" 1 "MQTTClient_message::qos()"; link "../struct_m_q_t_t_client__will_options.html#a35738099155a0e4f54050da474bab2e7" 1 "MQTTClient_willOptions::qos()"];
  entry "quality_20of_20service_274" "Quality of service" [link "../qos.html" 1 EmptyString]].
Definition all_d : list SearchEntry := [
  entry "reasoncode_275" "reasonCode" [link "../struct_m_q_t_t_response.html#a580d8a8ecb285f5a86c2a3865438f8ee" 1 "MQTTResponse"];
  entry "reasoncodecount_276" "reasonCodeCount" [link "../struct_m_q_t_t_response.html#ac97316626bd4faa6b71277c221275f4b" 1 "MQTTResponse"];
  entry "reasoncodes_277" "reasonCodes" [link "../struct_m_q_t_t_response.html#a2199c9d905dbfa279895cf8123c10f4f" 1 "MQTTResponse"];
  entry "reliable_278" "reliable" [link "../struct_m_q_t_t_client__connect_options.html#a9f1cdffc99659fd4e2d20e6de3c64df0" 1 "MQTTClient_connectOptions"];
  entry "retainaspublished_279" "retainAsPublished" [link "../struct_m_q_t_t_subscribe__options.html#a8ba074ad218224ee4a8ca802c5e36944" 1 "MQTTSubscribe_options"];
  entry "retained_280" "retained" [link "../struct_m_q_t_t_client__message.html#a6a4904c112507a43e7dc8495b62cc0fc" 1 "MQTTClient_message::retained()"; link "../struct_m_q_t_t_client__will_options.html#a6a4904c112507a43e7dc8495b62cc0fc" 1 "MQTTClient_willOptions::retained()"];
  entry "retainhandling_281" "retainHandling" [link "../struct_m_q_t_t_subscribe__options.html#a11f17b62e40ecdfe107101ae164367a3" 1 "MQTTSubscribe_options"];
  entry "retryinterval_282" "retryInterval" [link "../struct_m_q_t_t_client__connect_options.html#ac73f57846c42bcaa9a47e6721a957748" 1 "MQTTClient_connectOptions"];
  entry "returned_283" "returned" [link "../struct_m_q_t_t_client__connect_options.html#afbca347de18f7a8c57de1f16d3dadde6" 1 "MQTTClient_connectOptions"]].
Definition all_e : list SearchEntry := [
  entry "serveruri_284" "serverURI" [link "../struct_m_q_t_t_client__connect_options.html#a313446ca7679b36652722ffe53d05228" 1 "MQTTClient_connectOptions"];
  entry "serveruricount_285" "serverURIcount" [link "../struct_m_q_t_t_client__connect_options.html#aa82629005937abd92e97084a428cd61f" 1 "MQTTClient_connectOptions"];
  entry "serveruris_286" "serverURIs" [link "../struct_m_q_t_t_client__connect_options.html#aba22d81c407fb2ba590dba476240d3e9" 1 "MQTTClient_connectOptions"];
  entry "sessionpresent_287" "sessionPresent" [link "../struct_m_q_t_t_client__connect_options.html#a44baf2cb9a0bbcec3ed2eace43f832d1" 1 "MQTTClient_connectOptions"];
  entry "ssl_288" "ssl" [link "../struct_m_q_t_t_client__connect_options.html#a8a0b0f0fc7c675312dc232e2458078c7" 1 "MQTTClient_connectOptions"];
  entry "ssl_5ferror_5fcb_289" "ssl_error_cb" [link "../struct_m_q_t_t_client___s_s_l_options.html#a21b6ca8a73ba197e65f6a93365d39c04" 1 "MQTTClient_SSLOptions"];
  entry "ssl_5ferror_5fcontext_290" "ssl_error_context" [link "../struct_m_q_t_t_client___s_s_l_options.html#a189f11195f4d5a70024adffdb050885f" 1 "MQTTClient_SSLOptions"];
  entry "ssl_5fpsk_5fcb_291" "ssl_psk_cb" [link "../struct_m_q_t_t_client___s_s_l_options.html#a94317cdaf352f9ae496976f8a30f8fee" 1 "MQTTClient_SSLOptions"];
  entry "ssl_5fpsk_5fcontext_292" "ssl_psk_context" [link "../struct_m_q_t_t_client___s_s_l_options.html#ab7f597518dd5b9db5a515081f8e0bd1f" 1 "MQTTClient_SSLOptions"];
  entry "sslversion_293" "sslVersion" [link "../struct_m_q_t_t_client___s_s_l_options.html#a3543ea1481b68d73cdde833280bb9c45" 1 "MQTTClient_SSLOptions"];
  entry "struct_5fid_294" "struct_id" [link "../struct_m_q_t_t_client__will_options.html#aa5326df180cb23c59afbcab711a06479" 1 "MQTTClient_willOptions::struct_id()"; link "../struct_m_q_t_t_subscribe__options.html#aa5326df180cb23c59afbcab711a06479" 1 "MQTTSubscribe_options::struct_id()"; link "../struct_m_q_t_t_client__connect_options.html#aa5326df180cb23c59afbcab711a06479" 1 "MQTTClient_connectOptions::struct_id()"; link "../struct_m_q_t_t_client___s_s_l_options.html#aa5326df180cb23c59afbcab711a06479" 1 "MQTTClient_SSLOptions::struct_id()"; link "../struct_m_q_t_t_client__create_options.html#aa5326df180cb23c59afbcab711a06479" 1 "MQTTClient_createOptions::struct_id()"; link "../struct_m_q_t_t_client__message.html#aa5326df180cb23c59afbcab711a06479" 1 "MQTTClient_message::struct_id()"; link "../struct_m_q_t_t_client__init__options.html#aa5326df180cb23c59afbcab711a06479" 1 "MQTTClient_init_options::struct_id()"];
  entry "struct_5fversion_295" "struct_version" [link "../struct_m_q_t_t_client__init__options.html#a0761a5e5be0383882e42924de8e51f82" 1 "MQTTClient_init_options::struct_version()"; link "../struct_m_q_t_t_client__message.html#a0761a5e5be0383882e42924de8e51f82" 1 "MQTTClient_message::struct_version()"; link "../struct_m_q_t_t_client__create_options.html#a0761a5e5be0383882e42924de8e51f82" 1 "MQTTClient_createOptions::struct_version()"; link "../struct_m_q_t_t_client__will_options.html#a0761a5e5be0383882e42924de8e51f82" 1 "MQTTClient_willOptions::struct_version()"; link "../struct_m_q_t_t_client___s_s_l_options.html#a0761a5e5be0383882e42924de8e51f82" 1 "MQTTClient_SSLOptions::struct_version()"; link "../struct_m_q_t_t_client__connect_options.html#a0761a5e5be0383882e42924de8e51f82" 1 "MQTTClient_connectOptions::struct_version()"; link "../struct_m_q_t_t_subscribe__options.html#a0761a5e5be0383882e42924de8e51f82" 1 "MQTTSubscribe_options::struct_version()"];
  entry "subscription_20wildcards_296" "Subscription wildcards" [link "../wildcard.html" 1 EmptyString];
  entry "synchronous_20publication_20example_297" "Synchronous publication example" [link "../pubsync.html" 1 EmptyString]].
Definition all_f : list SearchEntry := [
  entry "topicname_298" "topicName" [link "../struct_m_q_t_t_client__will_options.html#a0e20a7b350881d05108d6342884198a5" 1 "MQTTClient_willOptions"];
  entry "tracing_299" "Tracing" [link "../tracing.html" 1 EmptyString];
  entry "truststore_300" "trustStore" [link "../struct_m_q_t_t_client___s_s_l_options.html#a032835d4c4a1c1e19b53c330a673a6e0" 1 "MQTTClient_SSLOptions"]].
Definition all_10 : list SearchEntry := [
  entry "username_301" "username" [link "../struct_m_q_t_t_client__connect_options.html#aba2dfcdfda80edcb531a5a7115d3e043" 1 "MQTTClient_connectOptions"]].
Definition all_11 : list SearchEntry := [
  entry "value_302" "value" [link "../struct_m_q_t_t_client__name_value.html#a8556878012feffc9e0beb86cd78f424d" 1 "MQTTClient_nameValue::value()"; link "../struct_m_q_t_t_property.html#a09e85ff5ad73824d6c2edc1ce4283a17" 1 "MQTTProperty::value()"; link "../struct_m_q_t_t_property.html#a51e698f2da26ad8f7c9e3d0b81e188ad" 1 "MQTTProperty::value()"];
  entry "verify_303" "verify" [link "../struct_m_q_t_t_client___s_s_l_options.html#a94900629685d5ed08f66fd2931f573ce" 1 "MQTTClient_SSLOptions"];
  entry "version_304" "version" [link "../struct_m_q_t_t_response.html#aad880fc4455c253781e8968f2239d56f" 1 "MQTTResponse"]].
Definition all_12 : list SearchEntry := [
  entry "will_305" "will" [link "../struct_m_q_t_t_client__connect_options.html#a0a880e99d47eb2efe552abe5079bdc9d" 1 "MQTTClient_connectOptions"]].
Definition classes_0 : list SearchEntry := [
  entry "mqttclient_5fconnectoptions_306" "MQTTClient_connectOptions" [link "../struct_m_q_t_t_client__connect_options.html" 1 EmptyString];
  entry "mqttclient_5fcreateoptions_307" "MQTTClient_createOptions" [link "../struct_m_q_t_t_client__create_options.html" 1 EmptyString];
  entry "mqttclient_5finit_5foptions_308" "MQTTClient_init_options" [link "../struct_m_q_t_t_client__init__options.html" 1 EmptyString];
  entry "mqttclient_5fmessage_309" "MQTTClient_message" [link "../struct_m_q_t_t_client__message.html" 1 EmptyString];
  entry "mqttclient_5fnamevalue_310" "MQTTClient_nameValue" [link "../struct_m_q_t_t_client__name_value.html" 1 EmptyString];
  entry "mqttclient_5fpersistence_311" "MQTTClient_persistence" [link "../struct_m_q_t_t_client__persistence.html" 1 EmptyString];
  entry "mqttclient_5fssloptions_312" "MQTTClient_SSLOptions" [link "../struct_m_q_t_t_client___s_s_l_options.html" 1 EmptyString];
  entry "mqttclient_5fwilloptions_313" "MQTTClient_willOptions" [link "../struct_m_q_t_t_client__will_options.html" 1 EmptyString];
  entry "mqttlenstring_314" "MQTTLenString" [link "../struct_m_q_t_t_len_string.html" 1 EmptyString];
  entry "mqttproperties_315" "MQTTProperties" [link "../struct_m_q_t_t_properties.html" 1 EmptyString];
  entry "mqttproperty_316" "MQTTProperty" [link "../struct_m_q_t_t_property.html" 1 EmptyString];
  entry "mqttresponse_317" "MQTTResponse" [link "../struct_m_q_t_t_response.html" 1 EmptyString];
  entry "mqttsubscribe_5foptions_318" "MQTTSubscribe_options" [link "../struct_m_q_t_t_subscribe__options.html" 1 EmptyString]].
Definition files_0 : list SearchEntry := [
  entry "mqttclient_2eh_319" "MQTTClient.h" [link "../_m_q_t_t_client_8h.html" 1 EmptyString];
  entry "mqttclientpersistence_2eh_320" "MQTTClientPersistence.h" [link "../_m_q_t_t_client_persistence_8h.html" 1 EmptyString];
  entry "mqttproperties_2eh_321" "MQTTProperties.h" [link "../_m_q_t_t_properties_8h.html" 1 EmptyString];
  entry "mqttreasoncodes_2eh_322" "MQTTReasonCodes.h" [link "../_m_q_t_t_reason_codes_8h.html" 1 EmptyString];
  entry "mqttsubscribeopts_2eh_323" "MQTTSubscribeOpts.h" [link "../_m_q_t_t_subscribe_opts_8h.html" 1 EmptyString]].
Definition functions_0 : list SearchEntry := [
  entry "mqttclient_5fconnect_324" "MQTTClient_connect" [link "../_m_q_t_t_client_8h.html#aaa8ae61cd65c9dc0846df10122d7bd4e" 1 "MQTTClient.h"];
  entry "mqttclient_5fconnect5_325" "MQTTClient_connect5" [link "../_m_q_t_t_client_8h.html#aa777f80cb3eec5610f976aff30b8c0d6" 1 "MQTTClient.h"];
  entry "mqttclient_5fcreate_326" "MQTTClient_create" [link "../_m_q_t_t_client_8h.html#a9a0518d9ca924d12c1329dbe3de5f2b6" 1 "MQTTClient.h"];
  entry "mqttclient_5fcreatewithoptions_327" "MQTTClient_createWithOptions" [link "../_m_q_t_t_client_8h.html#ade24f717a9b39d38b081e1d5e0db1661" 1 "MQTTClient.h"];
  entry "mqttclient_5fdestroy_328" "MQTTClient_destroy" [link "../_m_q_t_t_client_8h.html#ae700c3f5cfea3813264ce95e7c8cf498" 1 "MQTTClient.h"];
  entry "mqttclient_5fdisconnect_329" "MQTTClient_disconnect" [link "../_m_q_t_t_client_8h.html#a1e4d90c13a3c0705bc4a13bfe64e6525" 1 "MQTTClient.h"];
  entry "mqttclient_5fdisconnect5_330" "MQTTClient_disconnect5" [link "../_m_q_t_t_client_8h.html#a1762c469715b7f718c4e63a427e6c13c" 1 "MQTTClient.h"];
  entry "mqttclient_5ffree_331" "MQTTClient_free" [link "../_m_q_t_t_client_8h.html#a203b545c999beb6b825ec99b6aea79ab" 1 "MQTTClient.h"];
  entry "mqttclient_5ffreemessage_332" "MQTTClient_freeMessage" [link "../_m_q_t_t_client_8h.html#abd8abde4f39d3e689029de27f7a98a65" 1 "MQTTClient.h"];
  entry "mqttclient_5fgetpendingdeliverytokens_333" "MQTTClient_getPendingDeliveryTokens" [link "../_m_q_t_t_client_8h.html#a2a617c6b0492c04a4ddea592f5e53604" 1 "MQTTClient.h"];
  entry "mqttclient_5fgetversioninfo_334" "MQTTClient_getVersionInfo" [link "../_m_q_t_t_client_8h.html#abe842456c914ce9201d277a972cc085e" 1 "MQTTClient.h"];
  entry "mqttclient_5fglobal_5finit_335" "MQTTClient_global_init" [link "../_m_q_t_t_client_8h.html#a21804ede1a506d1d69a472bc30acc8ba" 1 "MQTTClient.h"];
  entry "mqttclient_5fisconnected_336" "MQTTClient_isConnected" [link "../_m_q_t_t_client_8h.html#a6e8231e8c47f6f67f7ebbb5dcb4c69c0" 1 "MQTTClient.h"];
  entry "mqttclient_5fmalloc_337" "MQTTClient_malloc" [link "../_m_q_t_t_client_8h.html#a9a6a07529e252574db1f95d40ccc0784" 1 "MQTTClient.h"];
  entry "mqttclient_5fpublish_338" "MQTTClient_publish" [link "../_m_q_t_t_client_8h.html#afe9c34013c3511b8ef6cd36bf703678d" 1 "MQTTClient.h"];
  entry "mqttclient_5fpublish5_339" "MQTTClient_publish5" [link "../_m_q_t_t_client_8h.html#a8148186cc7683a6bb57f621653df51df" 1 "MQTTClient.h"];
  entry "mqttclient_5fpublishmessage_340" "MQTTClient_publishMessage" [link "../_m_q_t_t_client_8h.html#ace320b8a92c7087d9dd5cf242d50389d" 1 "MQTTClient.h"];
  entry "mqttclient_5fpublishmessage5_341" "MQTTClient_publishMessage5" [link "../_m_q_t_t_client_8h.html#a362042ce973c012bad6a1aa3b5984f5d" 1 "MQTTClient.h"];
  entry "mqttclient_5freceive_342" "MQTTClient_receive" [link "../_m_q_t_t_client_8h.html#a4c2df88d00a3dadd510a8cb774739366" 1 "MQTTClient.h"];
  entry "mqttclient_5fsetcallbacks_343" "MQTTClient_setCallbacks" [link "../_m_q_t_t_client_8h.html#aad27d07782991a4937ebf2f39a021f83" 1 "MQTTClient.h"];
  entry "mqttclient_5fsetcommandtimeout_344" "MQTTClient_setCommandTimeout" [link "../_m_q_t_t_client_8h.html#a96067a2fb74d2a61c7e93015629548e0" 1 "MQTTClient.h"];
  entry "mqttclient_5fsetdisconnected_345" "MQTTClient_setDisconnected" [link "../_m_q_t_t_client_8h.html#a8adea083a162735d5c7592160088eea0" 1 "MQTTClient.h"];
  entry "mqttclient_5fsetpublished_346" "MQTTClient_setPublished" [link "../_m_q_t_t_client_8h.html#a9f13911351a3de6b1ebdabd4cb4116ba" 1 "MQTTClient.h"];
  entry "mqttclient_5fsettracecallback_347" "MQTTClient_setTraceCallback" [link "../_m_q_t_t_client_8h.html#a22870f94aa4cb1827626612f1ded7c69" 1 "MQTTClient.h"];
  entry "mqttclient_5fsettracelevel_348" "MQTTClient_setTraceLevel" [link "../_m_q_t_t_client_8h.html#a4dfa35d29db54b10b15b8ac2d9a778be" 1 "MQTTClient.h"];
  entry "mqttclient_5fstrerror_349" "MQTTClient_strerror" [link "../_m_q_t_t_client_8h.html#a9defda2979f6fedaae64fd85f5c2f617" 1 "MQTTClient.h"];
  entry "mqttclient_5fsubscribe_350" "MQTTClient_subscribe" [link "../_m_q_t_t_client_8h.html#a9c1c28258f0d5c6a44ff53a98618f5f3" 1 "MQTTClient.h"];
  entry "mqttclient_5fsubscribe5_351" "MQTTClient_subscribe5" [link "../_m_q_t_t_client_8h.html#af35ab7375435f7b6388c5ff4610dad3d" 1 "MQTTClient.h"];
  entry "mqttclient_5fsubscribemany_352" "MQTTClient_subscribeMany" [link "../_m_q_t_t_client_8h.html#a92fa1c13f3db8399e042fbdbdfb692b3" 1 "MQTTClient.h"];
  entry "mqttclient_5fsubscribemany5_353" "MQTTClient_subscribeMany5" [link "../_m_q_t_t_client_8h.html#a5390c2402f135c12826ffbf6fc261f7c" 1 "MQTTClient.h"];
  entry "mqttclient_5funsubscribe_354" "MQTTClient_unsubscribe" [link "../_m_q_t_t_client_8h.html#aa8731be3dbc6a25f41f037f8bbbb054b" 1 "MQTTClient.h"];
  entry "mqttclient_5funsubscribe5_355" "MQTTClient_unsubscribe5" [link "../_m_q_t_t_client_8h.html#a58356c13867f18df60fd4c7ec9457c48" 1 "MQTTClient.h"];
  entry "mqttclient_5funsubscribemany_356" "MQTTClient_unsubscribeMany" [link "../_m_q_t_t_client_8h.html#a50abbce720d50b9f84b97ff9fa1f546d" 1 "MQTTClient.h"];
  entry "mqttclient_5funsubscribemany5_357" "MQTTClient_unsubscribeMany5" [link "../_m_q_t_t_client_8h.html#a46bdb532d2153110ccffb2f0748d1ba5" 1 "MQTTClient.h"];
  entry "mqttclient_5fwaitforcompletion_358" "MQTTClient_waitForCompletion" [link "../_m_q_t_t_client_8h.html#a83807ec81fe8c3941e368ab329d43067" 1 "MQTTClient.h"];
  entry "mqttclient_5fyield_359" "MQTTClient_yield" [link "../_m_q_t_t_client_8h.html#a8ad3d29864a9ca08202b0832e0f6678e" 1 "MQTTClient.h"];
  entry "mqttproperties_5fadd_360" "MQTTProperties_add" [link "../_m_q_t_t_properties_8h.html#a88f1d21556c2d23330d71357cd226a15" 1 "MQTTProperties.h"];
  entry "mqttproperties_5fcopy_361" "MQTTProperties_copy" [link "../_m_q_t_t_properties_8h.html#a69b3e474ee2f828e5b827d615fe0fe72" 1 "MQTTProperties.h"];
  entry "mqttproperties_5ffree_362" "MQTTProperties_free" [link "../_m_q_t_t_properties_8h.html#ab68247ed365ee51170a9309c828b1823" 1 "MQTTProperties.h"];
  entry "mqttproperties_5fgetnumericvalue_363" "MQTTProperties_getNumericValue" [link "../_m_q_t_t_properties_8h.html#afa777eb796532a3c0c59ddc40aca3792" 1 "MQTTProperties.h"];
  entry "mqttproperties_5fgetnumericvalueat_364" "MQTTProperties_getNumericValueAt" [link "../_m_q_t_t_properties_8h.html#abc6bc80d9bb644c9b4a66b6808829a53" 1 "MQTTProperties.h"];
  entry "mqttproperties_5fgetproperty_365" "MQTTProperties_getProperty" [link "../_m_q_t_t_properties_8h.html#a788b033cbed8a7906799fccbb1463f20" 1 "MQTTProperties.h"];
  entry "mqttproperties_5fgetpropertyat_366" "MQTTProperties_getPropertyAt" [link "../_m_q_t_t_properties_8h.html#ac6942d8fafb5794591fc558b4bb06beb" 1 "MQTTProperties.h"];
  entry "mqttproperties_5fhasproperty_367" "MQTTProperties_hasProperty" [link "../_m_q_t_t_properties_8h.html#a4ccdf6a712c3d803a16a4d3f00f9be2f" 1 "MQTTProperties.h"];
  entry "mqttproperties_5flen_368" "MQTTProperties_len" [link "../_m_q_t_t_properties_8h.html#ab7ad6f14e2dc7576d35827a28b0dc81d" 1 "MQTTProperties.h"];
  entry "mqttproperties_5fpropertycount_369" "MQTTProperties_propertyCount" [link "../_m_q_t_t_properties_8h.html#a6f0d8b230c2e7008c7639cfce1c04429" 1 "MQTTProperties.h"];
  entry "mqttproperties_5fread_370" "MQTTProperties_read" [link "../_m_q_t_t_properties_8h.html#afcb874dfcc9f0eaa0b063e2fad740871" 1 "MQTTProperties.h"];
  entry "mqttproperties_5fwrite_371" "MQTTProperties_write" [link "../_m_q_t_t_properties_8h.html#ade0027a4e571bd288fe40271ff7aa497" 1 "MQTTProperties.h"];
  entry "mqttproperty_5fgettype_372" "MQTTProperty_getType" [link "../_m_q_t_t_properties_8h.html#a7d30ad0520bc9b9366e700d4b493b173" 1 "MQTTProperties.h"];
  entry "mqttpropertyname_373" "MQTTPropertyName" [link "../_m_q_t_t_properties_8h.html#afa0a7306d7b6174c5bc417ca49d99851" 1 "MQTTProperties.h"];
  entry "mqttreasoncode_5ftostring_374" "MQTTReasonCode_toString" [link "../_m_q_t_t_reason_codes_8h.html#a91922a5e3c1e5ec7670b6e296854f1b7" 1 "MQTTReasonCodes.h"];
  entry "mqttresponse_5ffree_375" "MQTTResponse_free" [link "../_m_q_t_t_client_8h.html#a01bd2c5f98ec5c0636a106db33f2b01b" 1 "MQTTClient.h"]].
Definition variables_0 : list SearchEntry := [
  entry "array_376" "array" [link "../struct_m_q_t_t_properties.html#a3ac4c38b423393c1553dcf8b71e7dd58" 1 "MQTTProperties"]].
Definition variables_1 : list SearchEntry := [
  entry "binarypwd_377" "binarypwd" [link "../struct_m_q_t_t_client__connect_options.html#ae7280d284792990b5d8f6f29d4e0b113" 1 "MQTTClient_connectOptions"];
  entry "byte_378" "byte" [link "../struct_m_q_t_t_property.html#a1581cde4f73c9a797ae1e7afcc1bb3de" 1 "MQTTProperty"]].
Definition variables_2 : list SearchEntry := [
  entry "capath_379" "CApath" [link "../struct_m_q_t_t_client___s_s_l_options.html#a3078b3c824cc9753a57898072445c34d" 1 "MQTTClient_SSLOptions"];
  entry "cleansession_380" "cleansession" [link "../struct_m_q_t_t_client__connect_options.html#a036c36a2a4d3a3ffae9ab4dd8b3e7f7b" 1 "MQTTClient_connectOptions"];
  entry "cleanstart_381" "cleanstart" [link "../struct_m_q_t_t_client__connect_options.html#acdcb75a5d5981da027bce83849140f7b" 1 "MQTTClient_connectOptions"];
  entry "connecttimeout_382" "connectTimeout" [link "../struct_m_q_t_t_client__connect_options.html#a38c6aa24b36d981c49405db425c24db0" 1 "MQTTClient_connectOptions"];
  entry "context_383" "context" [link "../struct_m_q_t_t_client__persistence.html#ae376f130b17d169ee51be68077a89ed0" 1 "MQTTClient_persistence"];
  entry "count_384" "count" [link "../struct_m_q_t_t_properties.html#ad43c3812e6d13e0518d9f8b8f463ffcf" 1 "MQTTProperties"]].
Definition variables_3 : list SearchEntry := [
  entry "data_385" "data" [link "../struct_m_q_t_t_client__will_options.html#a0d49d74db4c035719c3867723cf7e779" 1 "MQTTClient_willOptions::data()"; link "../struct_m_q_t_t_client__connect_options.html#a0d49d74db4c035719c3867723cf7e779" 1 "MQTTClient_connectOptions::data()"; link "../struct_m_q_t_t_len_string.html#a91a70b77df95bd8b0830b49a094c2acb" 1 "MQTTLenString::data()"; link "../struct_m_q_t_t_property.html#aa43ebcb9f97210421431a671384ef159" 1 "MQTTProperty::data()"];
  entry "disabledefaulttruststore_386" "disableDefaultTrustStore" [link "../struct_m_q_t_t_client___s_s_l_options.html#a0826fcae7c2816e04772c61542c6846b" 1 "MQTTClient_SSLOptions"];
  entry "do_5fopenssl_5finit_387" "do_openssl_init" [link "../struct_m_q_t_t_client__init__options.html#a5929146596391e2838ef95feb89776da" 1 "MQTTClient_init_options"];
  entry "dup_388" "dup" [link "../struct_m_q_t_t_client__message.html#adc4cf3f551bb367858644559d69cfdf5" 1 "MQTTClient_message"]].
Definition variables_4 : list SearchEntry := [
  entry "enabledciphersuites_389" "enabledCipherSuites" [link "../struct_m_q_t_t_client___s_s_l_options.html#aa683926d52134077f27d6dc67bda13ab" 1 "MQTTClient_SSLOptions"];
  entry "enableservercertauth_390" "enableServerCertAuth" [link "../struct_m_q_t_t_client___s_s_l_options.html#a75f6c13b7634e15f96dd9f17db6cf0be" 1 "MQTTClient_SSLOptions"]].
Definition variables_5 : list SearchEntry := [
  entry "httpheaders_391" "httpHeaders" [link "../struct_m_q_t_t_client__connect_options.html#a018eec60631f40c01e6dcb727bffd33f" 1 "MQTTClient_connectOptions"];
  entry "httpproxy_392" "httpProxy" [link "../struct_m_q_t_t_client__connect_options.html#add124780ab2de397a96780576c2f112c" 1 "MQTTClient_connectOptions"];
  entry "httpsproxy_393" "httpsProxy" [link "../struct_m_q_t_t_client__connect_options.html#a388b78d8a75658928238f700f207ad92" 1 "MQTTClient_connectOptions"]].
Definition variables_6 : list SearchEntry := [
  entry "identifier_394" "identifier" [link "../struct_m_q_t_t_property.html#a2ff04e8cc70fbaa9bcb9a4fb3d510882" 1 "MQTTProperty"];
  entry "integer2_395" "integer2" [link "../struct_m_q_t_t_property.html#a0289ec2e0df8789139386b0ddf5c71c3" 1 "MQTTProperty"];
  entry "integer4_396" "integer4" [link "../struct_m_q_t_t_property.html#a813425ef31abb5ef0091e3043e8a366b" 1 "MQTTProperty"]].
Definition variables_7 : list SearchEntry := [
  entry "keepaliveinterval_397" "keepAliveInterval" [link "../struct_m_q_t_t_client__connect_options.html#ac8dd0930672a9c7d71fc645aa1f0521d" 1 "MQTTClient_connectOptions"];
  entry "keystore_398" "keyStore" [link "../struct_m_q_t_t_client___s_s_l_options.html#a32b476382955289ce427112b59f21c3e" 1 "MQTTClient_SSLOptions"]].
Definition variables_8 : list SearchEntry := [
  entry "len_399" "len" [link "../struct_m_q_t_t_client__will_options.html#afed088663f8704004425cdae2120b9b3" 1 "MQTTClient_willOptions::len()"; link "../struct_m_q_t_t_client__connect_options.html#afed088663f8704004425cdae2120b9b3" 1 "MQTTClient_connectOptions::len()"; link "../struct_m_q_t_t_len_string.html#afed088663f8704004425cdae2120b9b3" 1 "MQTTLenString::len()"];
  entry "length_400" "length" [link "../struct_m_q_t_t_properties.html#a9f59b34b1f25fe00023291b678246bcc" 1 "MQTTProperties"]].
Definition variables_9 : list SearchEntry := [
  entry "max_5fcount_401" "max_count" [link "../struct_m_q_t_t_properties.html#a8de324382d8fd2f5939bf3372e059383" 1 "MQTTProperties"];
  entry "maxinflightmessages_402" "maxInflightMessages" [link "../struct_m_q_t_t_client__connect_options.html#ae3f99bf4663ab7b9e9259feeba41fab2" 1 "MQTTClient_connectOptions"];
  entry "message_403" "message" [link "../struct_m_q_t_t_client__will_options.html#a254bf0858da09c96a48daf64404eb4f8" 1 "MQTTClient_willOptions"];
  entry "mqttversion_404" "MQTTVersion" [link "../struct_m_q_t_t_client__create_options.html#a12d546fd0ccf4e1091b18e1b735c7240" 1 "MQTTClient_createOptions::MQTTVersion()"; link "../struct_m_q_t_t_client__connect_options.html#a12d546fd0ccf4e1091b18e1b735c7240" 1 "MQTTClient_connectOptions::MQTTVersion()"];
  entry "msgid_405" "msgid" [link "../struct_m_q_t_t_client__message.html#a6174c42da8c55c86e7255be2848dc4ac" 1 "MQTTClient_message"]].
Definition variables_a : list SearchEntry := [
  entry "name_406" "name" [link "../struct_m_q_t_t_client__name_value.html#a8f8f80d37794cde9472343e4487ba3eb" 1 "MQTTClient_nameValue"];
  entry "nolocal_407" "noLocal" [link "../struct_m_q_t_t_subscribe__options.html#abbb6a188886c12f305cbe69358515d8b" 1 "MQTTSubscribe_options"]].
Definition variables_b : list SearchEntry := [
  entry "password_408" "password" [link "../struct_m_q_t_t_client__connect_options.html#aa4a2ebcb494493f648ae1e6975672575" 1 "MQTTClient_connectOptions"];
  entry "payload_409" "payload" [link "../struct_m_q_t_t_client__message.html#a9eff55064941fb604452abb0050ea99d" 1 "MQTTClient_message::payload()"; link "../struct_m_q_t_t_client__will_options.html#a0e9356b973a918c25981982fe84e35d7" 1 "MQTTClient_willOptions::payload()"];
  entry "payloadlen_410" "payloadlen" [link "../struct_m_q_t_t_client__message.html#aa3cb44feb3ae6d11b3a4cad2d94cb33a" 1 "MQTTClient_message"];
  entry "pclear_411" "pclear" [link "../struct_m_q_t_t_client__persistence.html#abc192dc88113c7d933b29d3561badbf5" 1 "MQTTClient_persistence"];
  entry "pclose_412" "pclose" [link "../struct_m_q_t_t_client__persistence.html#a7e50506912d2ec0e014cc25ec28fb402" 1 "MQTTClient_persistence"];
  entry "pcontainskey_413" "pcontainskey" [link "../struct_m_q_t_t_client__persistence.html#ac103711576267f791325f2b70b6dc49d" 1 "MQTTClient_persistence"];
  entry "pget_414" "pget" [link "../struct_m_q_t_t_client__persistence.html#a49155000b82a28ac3b3cb878f3a092d4" 1 "MQTTClient_persistence"];
  entry "pkeys_415" "pkeys" [link "../struct_m_q_t_t_client__persistence.html#a407e86a809e4b0b098a8c158f53b9606" 1 "MQTTClient_persistence"];
  entry "popen_416" "popen" [link "../struct_m_q_t_t_client__persistence.html#a1bae211b32415e6b349d5ae71599f9f4" 1 "MQTTClient_persistence"];
  entry "pput_417" "pput" [link "../struct_m_q_t_t_client__persistence.html#a4114d9b9971cee18d7e4b9dd5736a608" 1 "MQTTClient_persistence"];
  entry "premove_418" "premove" [link "../struct_m_q_t_t_client__persistence.html#a53150e443ca721b8623689371c2fbdb9" 1 "MQTTClient_persistence"];
  entry "privatekey_419" "privateKey" [link "../struct_m_q_t_t_client___s_s_l_options.html#a7dd436cbb916fba200595c3519f09ec4" 1 "MQTTClient_SSLOptions"];
  entry "privatekeypassword_420" "privateKeyPassword" [link "../struct_m_q_t_t_client___s_s_l_options.html#abb427571ba37b51f6985f1a6906ca031" 1 "MQTTClient_SSLOptions"];
  entry "properties_421" "properties" [link "../struct_m_q_t_t_client__message.html#a1594008402f7307e4de8fa6131656dde" 1 "MQTTClient_message::properties()"; link "../struct_m_q_t_t_response.html#a72e9294467b8329a78bc840fe6c5b230" 1 "MQTTResponse::properties()"];
  entry "protos_422" "protos" [link "../struct_m_q_t_t_client___s_s_l_options.html#a4f8661600fb8bacf031150f8dcd293a5" 1 "MQTTClient_SSLOptions"];
  entry "protos_5flen_423" "protos_len" [link "../struct_m_q_t_t_client___s_s_l_options.html#a26f5d839c92f9772c2a5d05486277a42" 1 "MQTTClient_SSLOptions"]].
Definition variables_c : list SearchEntry := [
  entry "qos_424" "qos" [link "../struct_m_q_t_t_client__message.html#a35738099155a0e4f54050da474bab2e7" 1 "MQTTClient_message::qos()"; link "../struct_m_q_t_t_client__will_options.html#a35738099155a0e4f54050da474bab2e7" 1 "MQTTClient_willOptions::qos()"]].
Definition variables_d : list SearchEntry := [
  entry "reasoncode_425" "reasonCode" [link "../struct_m_q_t_t_response.html#a580d8a8ecb285f5a86c2a3865438f8ee" 1 "MQTTResponse"];
  entry "reasoncodecount_426" "reasonCodeCount" [link "../struct_m_q_t_t_response.html#ac97316626bd4faa6b71277c221275f4b" 1 "MQTTResponse"];
  entry "reasoncodes_427" "reasonCodes" [link "../struct_m_q_t_t_response.html#a2199c9d905dbfa279895cf8123c10f4f" 1 "MQTTResponse"];
  entry "reliable_428" "reliable" [link "../struct_m_q_t_t_client__connect_options.html#a9f1cdffc99659fd4e2d20e6de3c64df0" 1 "MQTTClient_connectOptions"];
  entry "retainaspublished_429" "retainAsPublished" [link "../struct_m_q_t_t_subscribe__options.html#a8ba074ad218224ee4a8ca802c5e36944" 1 "MQTTSubscribe_options"];
  entry "retained_430" "retained" [link "../struct_m_q_t_t_client__message.html#a6a4904c112507a43e7dc8495b62cc0fc" 1 "MQTTClient_message::retained()"; link "../struct_m_q_t_t_client__will_options.html#a6a4904c112507a43e7dc8495b62cc0fc" 1 "MQTTClient_willOptions::retained()"];
  entry "retainhandling_431" "retainHandling" [link "../struct_m_q_t_t_subscribe__options.html#a11f17b62e40ecdfe107101ae164367a3" 1 "MQTTSubscribe_options"];
  entry "retryinterval_432" "retryInterval" [link "../struct_m_q_t_t_client__connect_options.html#ac73f57846c42bcaa9a47e6721a957748" 1 "MQTTClient_connectOptions"];
  entry "returned_433" "returned" [link "../struct_m_q_t_t_client__connect_options.html#afbca347de18f7a8c57de1f16d3dadde6" 1 "MQTTClient_connectOptions"]].
Definition variables_e : list SearchEntry := [
  entry "serveruri_434" "serverURI" [link "../struct_m_q_t_t_client__connect_options.html#a313446ca7679b36652722ffe53d05228" 1 "MQTTClient_connectOptions"];
  entry "serveruricount_435" "serverURIcount" [link "../struct_m_q_t_t_client__connect_options.html#aa82629005937abd92e97084a428cd61f" 1 "MQTTClient_connectOptions"];
  entry "serveruris_436" "serverURIs" [link "../struct_m_q_t_t_client__connect_options.html#aba22d81c407fb2ba590dba476240d3e9" 1 "MQTTClient_connectOptions"];
  entry "sessionpresent_437" "sessionPresent" [link "../struct_m_q_t_t_client__connect_options.html#a44baf2cb9a0bbcec3ed2eace43f832d1" 1 "MQTTClient_connectOptions"];
  entry "ssl_438" "ssl" [link "../struct_m_q_t_t_client__connect_options.html#a8a0b0f0fc7c675312dc232e2458078c7" 1 "MQTTClient_connectOptions"];
  entry "ssl_5ferror_5fcb_439" "ssl_error_cb" [link "../struct_m_q_t_t_client___s_s_l_options.html#a21b6ca8a73ba197e65f6a93365d39c04" 1 "MQTTClient_SSLOptions"];
  entry "ssl_5ferror_5fcontext_440" "ssl_error_context" [link "../struct_m_q_t_t_client___s_s_l_options.html#a189f11195f4d5a70024adffdb050885f" 1 "MQTTClient_SSLOptions"];
  entry "ssl_5fpsk_5fcb_441" "ssl_psk_cb" [link "../struct_m_q_t_t_client___s_s_l_options.html#a94317cdaf352f9ae496976f8a30f8fee" 1 "MQTTClient_SSLOptions"];
  entry "ssl_5fpsk_5fcontext_442" "ssl_psk_context" [link "../struct_m_q_t_t_client___s_s_l_options.html#ab7f597518dd5b9db5a515081f8e0bd1f" 1 "MQTTClient_SSLOptions"];
  entry "sslversion_443" "sslVersion" [link "../struct_m_q_t_t_client___s_s_l_options.html#a3543ea1481b68d73cdde833280bb9c45" 1 "MQTTClient_SSLOptions"];
  entry "struct_5fid_444" "struct_id" [link "../struct_m_q_t_t_client__create_options.html#aa5326df180cb23c59afbcab711a06479" 1 "MQTTClient_createOptions::struct_id()"; link "../struct_m_q_t_t_subscribe__options.html#aa5326df180cb23c59afbcab711a06479" 1 "MQTTSubscribe_options::struct_id()"; link "../struct_m_q_t_t_client__connect_options.html#aa5326df180cb23c59afbcab711a06479" 1 "MQTTClient_connectOptions::struct_id()"; link "../struct_m_q_t_t_client___s_s_l_options.html#aa5326df180cb23c59afbcab711a06479" 1 "MQTTClient_SSLOptions::struct_id()"; link "../struct_m_q_t_t_client__will_options.html#aa5326df180cb23c59afbcab711a06479" 1 "MQTTClient_willOptions::struct_id()"; link "../struct_m_q_t_t_client__message.html#aa5326df180cb23c59afbcab711a06479" 1 "MQTTClient_message::struct_id()"; link "../struct_m_q_t_t_client__init__options.html#aa5326df180cb23c59afbcab711a06479" 1 "MQTTClient_init_options::struct_id()"];
  entry "struct_5fversion_445" "struct_version" [link "../struct_m_q_t_t_client__init__options.html#a0761a5e5be0383882e42924de8e51f82" 1 "MQTTClient_init_options::struct_version()"; link "../struct_m_q_t_t_client__message.html#a0761a5e5be0383882e42924de8e51f82" 1 "MQTTClient_message::struct_version()"; link "../struct_m_q_t_t_client__create_options.html#a0761a5e5be0383882e42924de8e51f82" 1 "MQTTClient_createOptions::struct_version()"; link "../struct_m_q_t_t_client__will_options.html#a0761a5e5be0383882e42924de8e51f82" 1 "MQTTClient_willOptions::struct_version()"; link "../struct_m_q_t_t_client___s_s_l_options.html#a0761a5e5be0383882e42924de8e51f82" 1 "MQTTClient_SSLOptions::struct_version()"; link "../struct_m_q_t_t_client__connect_options.html#a0761a5e5be0383882e42924de8e51f82" 1 "MQTTClient_connectOptions::struct_version()"; link "../struct_m_q_t_t_subscribe__options.html#a0761a5e5be0383882e42924de8e51f82" 1 "MQTTSubscribe_options::struct_version()"]].
Definition variables_f : list SearchEntry := [
  entry "topicname_446" "topicName" [link "../struct_m_q_t_t_client__will_options.html#a0e20a7b350881d05108d6342884198a5" 1 "MQTTClient_willOptions"];
  entry "truststore_447" "trustStore" [link "../struct_m_q_t_t_client___s_s_l_options.html#a032835d4c4a1c1e19b53c330a673a6e0" 1 "MQTTClient_SSLOptions"]].
Definition variables_10 : list SearchEntry := [
  entry "username_448" "username" [link "../struct_m_q_t_t_client__connect_options.html#aba2dfcdfda80edcb531a5a7115d3e043" 1 "MQTTClient_connectOptions"]].
Definition variables_11 : list SearchEntry := [
  entry "value_449" "value" [link "../struct_m_q_t_t_client__name_value.html#a8556878012feffc9e0beb86cd78f424d" 1 "MQTTClient_nameValue::value()"; link "../struct_m_q_t_t_property.html#a09e85ff5ad73824d6c2edc1ce4283a17" 1 "MQTTProperty::value()"; link "../struct_m_q_t_t_property.html#a51e698f2da26ad8f7c9e3d0b81e188ad" 1 "MQTTProperty::value()"];
  entry "verify_450" "verify" [link "../struct_m_q_t_t_client___s_s_l_options.html#a94900629685d5ed08f66fd2931f573ce" 1 "MQTTClient_SSLOptions"];
  entry "version_451" "version" [link "../struct_m_q_t_t_response.html#aad880fc4455c253781e8968f2239d56f" 1 "MQTTResponse"]].
Definition variables_12 : list SearchEntry := [
  entry "will_452" "will" [link "../struct_m_q_t_t_client__connect_options.html#a0a880e99d47eb2efe552abe5079bdc9d" 1 "MQTTClient_connectOptions"]].
Definition typedefs_0 : list SearchEntry := [
  entry "mqttclient_453" "MQTTClient" [link "../_m_q_t_t_client_8h.html#a7649e3913f9a216424d296f88a969c59" 1 "MQTTClient.h"];
  entry "mqttclient_5fconnectionlost_454" "MQTTClient_connectionLost" [link "../_m_q_t_t_client_8h.html#a6bb253f16754e7cc81798c9fda0e36cf" 1 "MQTTClient.h"];
  entry "mqttclient_5fdeliverycomplete_455" "MQTTClient_deliveryComplete" [link "../_m_q_t_t_client_8h.html#abef83794d8252551ed248cde6eb845a6" 1 "MQTTClient.h"];
  entry "mqttclient_5fdeliverytoken_456" "MQTTClient_deliveryToken" [link "../_m_q_t_t_client_8h.html#a73e49030fd8b7074aa1aa45669b7fe8d" 1 "MQTTClient.h"];
  entry "mqttclient_5fdisconnected_457" "MQTTClient_disconnected" [link "../_m_q_t_t_client_8h.html#a41108d4cccb67a9d6884ebae52211c46" 1 "MQTTClient.h"];
  entry "mqttclient_5fmessagearrived_458" "MQTTClient_messageArrived" [link "../_m_q_t_t_client_8h.html#aa42130dd069e7e949bcab37b6dce64a5" 1 "MQTTClient.h"];
  entry "mqttclient_5fpublished_459" "MQTTClient_published" [link "../_m_q_t_t_client_8h.html#a6c3f51e50e2c47328eee1b0c920ed103" 1 "MQTTClient.h"];
  entry "mqttclient_5ftoken_460" "MQTTClient_token" [link "../_m_q_t_t_client_8h.html#a8b2beb5227708f8127b666f5a7fc41b3" 1 "MQTTClient.h"];
  entry "mqttclient_5ftracecallback_461" "MQTTClient_traceCallback" [link "../_m_q_t_t_client_8h.html#afa5758290a1162e5135bca97bbfd5774" 1 "MQTTClient.h"];
  entry "mqttpersistence_5fafterread_462" "MQTTPersistence_afterRead" [link "../_m_q_t_t_client_persistence_8h.html#af5a966a574c6ad7a35f1ebb7edd5c1c4" 1 "MQTTClientPersistence.h"];
  entry "mqttpersistence_5fbeforewrite_463" "MQTTPersistence_beforeWrite" [link "../_m_q_t_t_client_persistence_8h.html#ab865640a1cc53b68622004c5a2d29fae" 1 "MQTTClientPersistence.h"];
  entry "mqttproperties_464" "MQTTProperties" [link "../_m_q_t_t_properties_8h.html#a7758f1a5eceb6f46c8540630e39e2fb4" 1 "MQTTProperties.h"];
  entry "mqttresponse_465" "MQTTResponse" [link "../_m_q_t_t_client_8h.html#a0d31d490adbe677902b99eca127bee56" 1 "MQTTClient.h"];
  entry "mqttsubscribe_5foptions_466" "MQTTSubscribe_options" [link "../_m_q_t_t_subscribe_opts_8h.html#aa68db3eaed272ae1aaea294401079d8a" 1 "MQTTSubscribeOpts.h"]].
Definition typedefs_1 : list SearchEntry := [
  entry "persistence_5fclear_467" "Persistence_clear" [link "../_m_q_t_t_client_persistence_8h.html#acee7097c1a0ab44b98c870f533687887" 1 "MQTTClientPersistence.h"];
  entry "persistence_5fclose_468" "Persistence_close" [link "../_m_q_t_t_client_persistence_8h.html#a3582de2c87e89f617e8e553b2a0e279a" 1 "MQTTClientPersistence.h"];
  entry "persistence_5fcontainskey_469" "Persistence_containskey" [link "../_m_q_t_t_client_persistence_8h.html#a753a0f9a9c51284d63a907af19c7bbba" 1 "MQTTClientPersistence.h"];
  entry "persistence_5fget_470" "Persistence_get" [link "../_m_q_t_t_client_persistence_8h.html#adc3aff3c570fa5509e9d6814a85ab867" 1 "MQTTClientPersistence.h"];
  entry "persistence_5fkeys_471" "Persistence_keys" [link "../_m_q_t_t_client_persistence_8h.html#a2601cc91eeabdbf9578f8dd45e4997a8" 1 "MQTTClientPersistence.h"];
  entry "persistence_5fopen_472" "Persistence_open" [link "../_m_q_t_t_client_persistence_8h.html#a4c7d332bb16907058ae3b375488b6008" 1 "MQTTClientPersistence.h"];
  entry "persistence_5fput_473" "Persistence_put" [link "../_m_q_t_t_client_persistence_8h.html#a44679cab77cfbd6e2a4639cdd27ac80c" 1 "MQTTClientPersistence.h"];
  entry "persistence_5fremove_474" "Persistence_remove" [link "../_m_q_t_t_client_persistence_8h.html#a73350bf7208658bf5434a59f7bdbae90" 1 "MQTTClientPersistence.h"]].
Definition enums_0 : list SearchEntry := [
  entry "mqttclient_5ftrace_5flevels_475" "MQTTCLIENT_TRACE_LEVELS" [link "../_m_q_t_t_client_8h.html#aa0ae95caa9c16d152b5036b1bac2e09b" 1 "MQTTClient.h"];
  entry "mqttpropertycodes_476" "MQTTPropertyCodes" [link "../_m_q_t_t_properties_8h.html#af623c1b670dfe3fda633c068e054d8b4" 1 "MQTTProperties.h"];
  entry "mqttpropertytypes_477" "MQTTPropertyTypes" [link "../_m_q_t_t_properties_8h.html#a942f52ef7c232829f6df5c86e07cc958" 1 "MQTTProperties.h"];
  entry "mqttreasoncodes_478" "MQTTReasonCodes" [link "../_m_q_t_t_reason_codes_8h.html#aba6db0fccfa3f8972ea48117b8b2a279" 1 "MQTTReasonCodes.h"]].
Definition enumvalues_0 : list SearchEntry := [
  entry "mqttclient_5ftrace_5ferror_479" "MQTTCLIENT_TRACE_ERROR" [link "../_m_q_t_t_client_8h.html#aa0ae95caa9c16d152b5036b1bac2e09ba6eefffc98c1ba698224ba351f12e6a91" 1 "MQTTClient.h"];
  entry "mqttclient_5ftrace_5ffatal_480" "MQTTCLIENT_TRACE_FATAL" [link "../_m_q_t_t_client_8h.html#aa0ae95caa9c16d152b5036b1bac2e09ba35626cc4876d074c4c21f8c4f54fdf38" 1 "MQTTClient.h"];
  entry "mqttclient_5ftrace_5fmaximum_481" "MQTTCLIENT_TRACE_MAXIMUM" [link "../_m_q_t_t_client_8h.html#aa0ae95caa9c16d152b5036b1bac2e09ba38a4c3c4e2fc99711793ee2815aee40c" 1 "MQTTClient.h"];
  entry "mqttclient_5ftrace_5fmedium_482" "MQTTCLIENT_TRACE_MEDIUM" [link "../_m_q_t_t_client_8h.html#aa0ae95caa9c16d152b5036b1bac2e09ba4bb7e7221b59e9be4515f2182c03ea99" 1 "MQTTClient.h"];
  entry "mqttclient_5ftrace_5fminimum_483" "MQTTCLIENT_TRACE_MINIMUM" [link "../_m_q_t_t_client_8h.html#aa0ae95caa9c16d152b5036b1bac2e09bacf029d9a231bd07e5e1a6f3bd0b6004e" 1 "MQTTClient.h"];
  entry "mqttclient_5ftrace_5fprotocol_484" "MQTTCLIENT_TRACE_PROTOCOL" [link "../_m_q_t_t_client_8h.html#aa0ae95caa9c16d152b5036b1bac2e09ba29f21f77cf34ab2467520d7738fd8eb1" 1 "MQTTClient.h"];
  entry "mqttclient_5ftrace_5fsevere_485" "MQTTCLIENT_TRACE_SEVERE" [link "../_m_q_t_t_client_8h.html#aa0ae95caa9c16d152b5036b1bac2e09baf060569bdbb4015cfce028937b4cfa69" 1 "MQTTClient.h"];
  entry "mqttproperty_5fcode_5fassigned_5fclient_5fidentifer_486" "MQTTPROPERTY_CODE_ASSIGNED_CLIENT_IDENTIFER" [link "../_m_q_t_t_properties_8h.html#af623c1b670dfe3fda633c068e054d8b4a768d84858fd18d5d5a7dee394929c672" 1 "MQTTProperties.h"];
  entry "mqttproperty_5fcode_5fauthentication_5fdata_487" "MQTTPROPERTY_CODE_AUTHENTICATION_DATA" [link "../_m_q_t_t_properties_8h.html#af623c1b670dfe3fda633c068e054d8b4abdf9feec165aceefbe7aa46764f6ab6e" 1 "MQTTProperties.h"];
  entry "mqttproperty_5fcode_5fauthentication_5fmethod_488" "MQTTPROPERTY_CODE_AUTHENTICATION_METHOD" [link "../_m_q_t_t_properties_8h.html#af623c1b670dfe3fda633c068e054d8b4a7c53f1e414b577d787b5d51af3204100" 1 "MQTTProperties.h"];
  entry "mqttproperty_5fcode_5fcontent_5ftype_489" "MQTTPROPERTY_CODE_CONTENT_TYPE" [link "../_m_q_t_t_properties_8h.html#af623c1b670dfe3fda633c068e054d8b4a4027d9e0fb53a62ae35963e700b56198" 1 "MQTTProperties.h"];
  entry "mqttproperty_5fcode_5fcorrelation_5fdata_490" "MQTTPROPERTY_CODE_CORRELATION_DATA" [link "../_m_q_t_t_properties_8h.html#af623c1b670dfe3fda633c068e054d8b4a887d3dd3f0ce31255324f5a1ba8b72c5" 1 "MQTTProperties.h"];
  entry "mqttproperty_5fcode_5fmaximum_5fpacket_5fsize_491" "MQTTPROPERTY_CODE_MAXIMUM_PACKET_SIZE" [link "../_m_q_t_t_properties_8h.html#af623c1b670dfe3fda633c068e054d8b4a6834ea9878f028d5fbdeccaaeae492e5" 1 "MQTTProperties.h"];
  entry "mqttproperty_5fcode_5fmaximum_5fqos_492" "MQTTPROPERTY_CODE_MAXIMUM_QOS" [link "../_m_q_t_t_properties_8h.html#af623c1b670dfe3fda633c068e054d8b4a506faeb89c407cf78853c777d750fa59" 1 "MQTTProperties.h"];
  entry "mqttproperty_5fcode_5fmessage_5fexpiry_5finterval_493" "MQTTPROPERTY_CODE_MESSAGE_EXPIRY_INTERVAL" [link "../_m_q_t_t_properties_8h.html#af623c1b670dfe3fda633c068e054d8b4a284c0e62d47ee8d358b16a8075632b4a" 1 "MQTTProperties.h"];
  entry "mqttproperty_5fcode_5fpayload_5fformat_5findicator_494" "MQTTPROPERTY_CODE_PAYLOAD_FORMAT_INDICATOR" [link "../_m_q_t_t_properties_8h.html#af623c1b670dfe3fda633c068e054d8b4ae5d077520427d03b44096f631411575d" 1 "MQTTProperties.h"];
  entry "mqttproperty_5fcode_5freason_5fstring_495" "MQTTPROPERTY_CODE_REASON_STRING" [link "../_m_q_t_t_properties_8h.html#af623c1b670dfe3fda633c068e054d8b4a3dce8f679474e901ce4aec076e9e59e1" 1 "MQTTProperties.h"];
  entry "mqttproperty_5fcode_5freceive_5fmaximum_496" "MQTTPROPERTY_CODE_RECEIVE_MAXIMUM" [link "../_m_q_t_t_properties_8h.html#af623c1b670dfe3fda633c068e054d8b4ab2688fe8d7d263c27c00d41776cb8f9f" 1 "MQTTProperties.h"];
  entry "mqttproperty_5fcode_5frequest_5fproblem_5finformation_497" "MQTTPROPERTY_CODE_REQUEST_PROBLEM_INFORMATION" [link "../_m_q_t_t_properties_8h.html#af623c1b670dfe3fda633c068e054d8b4a3954daf1d5772b5d56eefa1ab6a28aa1" 1 "MQTTProperties.h"];
  entry "mqttproperty_5fcode_5frequest_5fresponse_5finformation_498" "MQTTPROPERTY_CODE_REQUEST_RESPONSE_INFORMATION" [link "../_m_q_t_t_properties_8h.html#af623c1b670dfe3fda633c068e054d8b4a420b882a337dc1fd5f336ac6cd0529bf" 1 "MQTTProperties.h"];
  entry "mqttproperty_5fcode_5fresponse_5finformation_499" "MQTTPROPERTY_CODE_RESPONSE_INFORMATION" [link "../_m_q_t_t_properties_8h.html#af623c1b670dfe3fda633c068e054d8b4a2584b050f016af496c7f0b46692dbc00" 1 "MQTTProperties.h"];
  entry "mqttproperty_5fcode_5fresponse_5ftopic_500" "MQTTPROPERTY_CODE_RESPONSE_TOPIC" [link "../_m_q_t_t_properties_8h.html#af623c1b670dfe3fda633c068e054d8b4a7fa9996eef721d318504fbb0a8d4bac5" 1 "MQTTProperties.h"];
  entry "mqttproperty_5fcode_5fretain_5favailable_501" "MQTTPROPERTY_CODE_RETAIN_AVAILABLE" [link "../_m_q_t_t_properties_8h.html#af623c1b670dfe3fda633c068e054d8b4a448b3a40afaa5f7195701e7dc8bed30c" 1 "MQTTProperties.h"];
  entry "mqttproperty_5fcode_5fserver_5fkeep_5falive_502" "MQTTPROPERTY_CODE_SERVER_KEEP_ALIVE" [link "../_m_q_t_t_properties_8h.html#af623c1b670dfe3fda633c068e054d8b4ab106f320e7537b79644f25d3efcd68c7" 1 "MQTTProperties.h"];
  entry "mqttproperty_5fcode_5fserver_5freference_503" "MQTTPROPERTY_CODE_SERVER_REFERENCE" [link "../_m_q_t_t_properties_8h.html#af623c1b670dfe3fda633c068e054d8b4a0168e8a59f7994c02b7a7fd2fc3735c4" 1 "MQTTProperties.h"];
  entry "mqttproperty_5fcode_5fsession_5fexpiry_5finterval_504" "MQTTPROPERTY_CODE_SESSION_EXPIRY_INTERVAL" [link "../_m_q_t_t_properties_8h.html#af623c1b670dfe3fda633c068e054d8b4a22e4caa63f63ca3f9b1c1330711ee766" 1 "MQTTProperties.h"];
  entry "mqttproperty_5fcode_5fshared_5fsubscription_5favailable_505" "MQTTPROPERTY_CODE_SHARED_SUBSCRIPTION_AVAILABLE" [link "../_m_q_t_t_properties_8h.html#af623c1b670dfe3fda633c068e054d8b4ae04a7356f9e11654f15a3b21f2aae636" 1 "MQTTProperties.h"];
  entry "mqttproperty_5fcode_5fsubscription_5fidentifier_506" "MQTTPROPERTY_CODE_SUBSCRIPTION_IDENTIFIER" [link "../_m_q_t_t_properties_8h.html#af623c1b670dfe3fda633c068e054d8b4a70ead9c93f06396a4d9469b65bff0c96" 1 "MQTTProperties.h"];
  entry "mqttproperty_5fcode_5fsubscription_5fidentifiers_5favailable_507" "MQTTPROPERTY_CODE_SUBSCRIPTION_IDENTIFIERS_AVAILABLE" [link "../_m_q_t_t_properties_8h.html#af623c1b670dfe3fda633c068e054d8b4a8b366cfd8bd3f388bafb67f3ebf83505" 1 "MQTTProperties.h"];
  entry "mqttproperty_5fcode_5ftopic_5falias_508" "MQTTPROPERTY_CODE_TOPIC_ALIAS" [link "../_m_q_t_t_properties_8h.html#af623c1b670dfe3fda633c068e054d8b4ad4dfb37d341ea190afc144668e5e3bee" 1 "MQTTProperties.h"];
  entry "mqttproperty_5fcode_5ftopic_5falias_5fmaximum_509" "MQTTPROPERTY_CODE_TOPIC_ALIAS_MAXIMUM" [link "../_m_q_t_t_properties_8h.html#af623c1b670dfe3fda633c068e054d8b4a0a0b0b0715ecc9ccf471c75aa4c21c23" 1 "MQTTProperties.h"];
  entry "mqttproperty_5fcode_5fuser_5fproperty_510" "MQTTPROPERTY_CODE_USER_PROPERTY" [link "../_m_q_t_t_properties_8h.html#af623c1b670dfe3fda633c068e054d8b4a596ff540370235d3eca693ce30dd4af8" 1 "MQTTProperties.h"];
  entry "mqttproperty_5fcode_5fwildcard_5fsubscription_5favailable_511" "MQTTPROPERTY_CODE_WILDCARD_SUBSCRIPTION_AVAILABLE" [link "../_m_q_t_t_properties_8h.html#af623c1b670dfe3fda633c068e054d8b4ad05993f90baaee0ba7094ccef4d378b9" 1 "MQTTProperties.h"];
  entry "mqttproperty_5fcode_5fwill_5fdelay_5finterval_512" "MQTTPROPERTY_CODE_WILL_DELAY_INTERVAL" [link "../_m_q_t_t_properties_8h.html#af623c1b670dfe3fda633c068e054d8b4a53fd81bc554f152a2772d282be7ce5ef" 1 "MQTTProperties.h"];
  entry "mqttproperty_5ftype_5fbinary_5fdata_513" "MQTTPROPERTY_TYPE_BINARY_DATA" [link "../_m_q_t_t_properties_8h.html#a942f52ef7c232829f6df5c86e07cc958a6643aed682b9b07f98159856776fe7b4" 1 "MQTTProperties.h"];
  entry "mqttproperty_5ftype_5fbyte_514" "MQTTPROPERTY_TYPE_BYTE" [link "../_m_q_t_t_properties_8h.html#a942f52ef7c232829f6df5c86e07cc958ac36f96ce58c98a8ebbe0783df030726a" 1 "MQTTProperties.h"];
  entry "mqttproperty_5ftype_5ffour_5fbyte_5finteger_515" "MQTTPROPERTY_TYPE_FOUR_BYTE_INTEGER" [link "../_m_q_t_t_properties_8h.html#a942f52ef7c232829f6df5c86e07cc958aa49c558733bd735ae872fd87ad0d7e15" 1 "MQTTProperties.h"];
  entry "mqttproperty_5ftype_5ftwo_5fbyte_5finteger_516" "MQTTPROPERTY_TYPE_TWO_BYTE_INTEGER" [link "../_m_q_t_t_properties_8h.html#a942f52ef7c232829f6df5c86e07cc958ae301a9e68326cc2d8bfefeca401e78e6" 1 "MQTTProperties.h"];
  entry "mqttproperty_5ftype_5futf_5f8_5fencoded_5fstring_517" "MQTTPROPERTY_TYPE_UTF_8_ENCODED_STRING" [link "../_m_q_t_t_properties_8h.html#a942f52ef7c232829f6df5c86e07cc958ad45c866a5bef6c5048a7af21405734d1" 1 "MQTTProperties.h"];
  entry "mqttproperty_5ftype_5futf_5f8_5fstring_5fpair_518" "MQTTPROPERTY_TYPE_UTF_8_STRING_PAIR" [link "../_m_q_t_t_properties_8h.html#a942f52ef7c232829f6df5c86e07cc958a28ab5fe5b159f3b3a8884b0f61527214" 1 "MQTTProperties.h"];
  entry "mqttproperty_5ftype_5fvariable_5fbyte_5finteger_519" "MQTTPROPERTY_TYPE_VARIABLE_BYTE_INTEGER" [link "../_m_q_t_t_properties_8h.html#a942f52ef7c232829f6df5c86e07cc958a27bbcb5bc4f584f96612c0cec329c6a7" 1 "MQTTProperties.h"];
  entry "mqttreasoncode_5fadministrative_5faction_520" "MQTTREASONCODE_ADMINISTRATIVE_ACTION" [link "../_m_q_t_t_reason_codes_8h.html#aba6db0fccfa3f8972ea48117b8b2a279ae1e3b428072be26d2cbf6f88361f76cc" 1 "MQTTReasonCodes.h"];
  entry "mqttreasoncode_5fbad_5fauthentication_5fmethod_521" "MQTTREASONCODE_BAD_AUTHENTICATION_METHOD" [link "../_m_q_t_t_reason_codes_8h.html#aba6db0fccfa3f8972ea48117b8b2a279af62e569703d7a7f0acffaa59522b9dc3" 1 "MQTTReasonCodes.h"];
  entry "mqttreasoncode_5fbad_5fuser_5fname_5for_5fpassword_522" "MQTTREASONCODE_BAD_USER_NAME_OR_PASSWORD" [link "../_m_q_t_t_reason_codes_8h.html#aba6db0fccfa3f8972ea48117b8b2a279abfc617112d5856722108912c5c6633ff" 1 "MQTTReasonCodes.h"];
  entry "mqttreasoncode_5fbanned_523" "MQTTREASONCODE_BANNED" [link "../_m_q_t_t_reason_codes_8h.html#aba6db0fccfa3f8972ea48117b8b2a279ab4cf7578f0078293fa66a4cd5e5d4aa4" 1 "MQTTReasonCodes.h"];
  entry "mqttreasoncode_5fclient_5fidentifier_5fnot_5fvalid_524" "MQTTREASONCODE_CLIENT_IDENTIFIER_NOT_VALID" [link "../_m_q_t_t_reason_codes_8h.html#aba6db0fccfa3f8972ea48117b8b2a279ab58bb236e7dbd000a56c590c01bc73fd" 1 "MQTTReasonCodes.h"];
  entry "mqttreasoncode_5fconnection_5frate_5fexceeded_525" "MQTTREASONCODE_CONNECTION_RATE_EXCEEDED" [link "../_m_q_t_t_reason_codes_8h.html#aba6db0fccfa3f8972ea48117b8b2a279a879c56ed34fa2dd6492e7a34a9747bc1" 1 "MQTTReasonCodes.h"];
  entry "mqttreasoncode_5fcontinue_5fauthentication_526" "MQTTREASONCODE_CONTINUE_AUTHENTICATION" [link "../_m_q_t_t_reason_codes_8h.html#aba6db0fccfa3f8972ea48117b8b2a279a0c0726c0e87eaddd636708497c69d055" 1 "MQTTReasonCodes.h"];
  entry "mqttreasoncode_5fdisconnect_5fwith_5fwill_5fmessage_527" "MQTTREASONCODE_DISCONNECT_WITH_WILL_MESSAGE" [link "../_m_q_t_t_reason_codes_8h.html#aba6db0fccfa3f8972ea48117b8b2a279a55f533a6cc98417d08dac8cc69da0ed3" 1 "MQTTReasonCodes.h"];
  entry "mqttreasoncode_5fgranted_5fqos_5f0_528" "MQTTREASONCODE_GRANTED_QOS_0" [link "../_m_q_t_t_reason_codes_8h.html#aba6db0fccfa3f8972ea48117b8b2a279a3fd0d12c0e44b4df9f716aef89b61aff" 1 "MQTTReasonCodes.h"];
  entry "mqttreasoncode_5fgranted_5fqos_5f1_529" "MQTTREASONCODE_GRANTED_QOS_1" [link "../_m_q_t_t_reason_codes_8h.html#aba6db0fccfa3f8972ea48117b8b2a279a07578b30b2d72af2eeea6be268475876" 1 "MQTTReasonCodes.h"];
  entry "mqttreasoncode_5fgranted_5fqos_5f2_530" "MQTTREASONCODE_GRANTED_QOS_2" [link "../_m_q_t_t_reason_codes_8h.html#aba6db0fccfa3f8972ea48117b8b2a279a74ac34a39a849c9c369b18545a4b1f93" 1 "MQTTReasonCodes.h"];
  entry "mqttreasoncode_5fimplementation_5fspecific_5ferror_531" "MQTTREASONCODE_IMPLEMENTATION_SPECIFIC_ERROR" [link "../_m_q_t_t_reason_codes_8h.html#aba6db0fccfa3f8972ea48117b8b2a279a41629fa453cdf14ef6a5370a16d5a19c" 1 "MQTTReasonCodes.h"];
  entry "mqttreasoncode_5fkeep_5falive_5ftimeout_532" "MQTTREASONCODE_KEEP_ALIVE_TIMEOUT" [link "../_m_q_t_t_reason_codes_8h.html#aba6db0fccfa3f8972ea48117b8b2a279af21a6c320e34993d7aa169330ab23409" 1 "MQTTReasonCodes.h"];
  entry "mqttreasoncode_5fmalformed_5fpacket_533" "MQTTREASONCODE_MALFORMED_PACKET" [link "../_m_q_t_t_reason_codes_8h.html#aba6db0fccfa3f8972ea48117b8b2a279a2cbee3502c00d304bf1091195457fcf5" 1 "MQTTReasonCodes.h"];
  entry "mqttreasoncode_5fmaximum_5fconnect_5ftime_534" "MQTTREASONCODE_MAXIMUM_CONNECT_TIME" [link "../_m_q_t_t_reason_codes_8h.html#aba6db0fccfa3f8972ea48117b8b2a279a6f07c3b42690afc7b117321dc4e2657f" 1 "MQTTReasonCodes.h"];
  entry "mqttreasoncode_5fmessage_5frate_5ftoo_5fhigh_535" "MQTTREASONCODE_MESSAGE_RATE_TOO_HIGH" [link "../_m_q_t_t_reason_codes_8h.html#aba6db0fccfa3f8972ea48117b8b2a279af76d0e32fb44fa94e407b1af5dc7aa4e" 1 "MQTTReasonCodes.h"];
  entry "mqttreasoncode_5fno_5fmatching_5fsubscribers_536" "MQTTREASONCODE_NO_MATCHING_SUBSCRIBERS" [link "../_m_q_t_t_reason_codes_8h.html#aba6db0fccfa3f8972ea48117b8b2a279a1720d8b04af4c0d92e27b378d735e899" 1 "MQTTReasonCodes.h"];
  entry "mqttreasoncode_5fno_5fsubscription_5ffound_537" "MQTTREASONCODE_NO_SUBSCRIPTION_FOUND" [link "../_m_q_t_t_reason_codes_8h.html#aba6db0fccfa3f8972ea48117b8b2a279a55208c34a26f67e112d53c54be37acb9" 1 "MQTTReasonCodes.h"];
  entry "mqttreasoncode_5fnormal_5fdisconnection_538" "MQTTREASONCODE_NORMAL_DISCONNECTION" [link "../_m_q_t_t_reason_codes_8h.html#aba6db0fccfa3f8972ea48117b8b2a279a3590f41d984646bc58c82734c1516c92" 1 "MQTTReasonCodes.h"];
  entry "mqttreasoncode_5fnot_5fauthorized_539" "MQTTREASONCODE_NOT_AUTHORIZED" [link "../_m_q_t_t_reason_codes_8h.html#aba6db0fccfa3f8972ea48117b8b2a279a91a14fc763349cf4a7047d24f13d0803" 1 "MQTTReasonCodes.h"];
  entry "mqttreasoncode_5fpacket_5fidentifier_5fin_5fuse_540" "MQTTREASONCODE_PACKET_IDENTIFIER_IN_USE" [link "../_m_q_t_t_reason_codes_8h.html#aba6db0fccfa3f8972ea48117b8b2a279adaee01dbc97a0773b5032a29c797613a" 1 "MQTTReasonCodes.h"];
  entry "mqttreasoncode_5fpacket_5fidentifier_5fnot_5ffound_541" "MQTTREASONCODE_PACKET_IDENTIFIER_NOT_FOUND" [link "../_m_q_t_t_reason_codes_8h.html#aba6db0fccfa3f8972ea48117b8b2a279a4908a8293054f8ff8d6c47fe0cf31932" 1 "MQTTReasonCodes.h"];
  entry "mqttreasoncode_5fpacket_5ftoo_5flarge_542" "MQTTREASONCODE_PACKET_TOO_LARGE" [link "../_m_q_t_t_reason_codes_8h.html#aba6db0fccfa3f8972ea48117b8b2a279a11a587e15c468bf1c6ba9df7e8fd78aa" 1 "MQTTReasonCodes.h"];
  entry "mqttreasoncode_5fpayload_5fformat_5finvalid_543" "MQTTREASONCODE_PAYLOAD_FORMAT_INVALID" [link "../_m_q_t_t_reason_codes_8h.html#aba6db0fccfa3f8972ea48117b8b2a279a2d629400116e1723c5e2e597bbfe29ca" 1 "MQTTReasonCodes.h"];
  entry "mqttreasoncode_5fprotocol_5ferror_544" "MQTTREASONCODE_PROTOCOL_ERROR" [link "../_m_q_t_t_reason_codes_8h.html#aba6db0fccfa3f8972ea48117b8b2a279ae0dad403f352e31449764e2ac94c7756" 1 "MQTTReasonCodes.h"];
  entry "mqttreasoncode_5fqos_5fnot_5fsupported_545" "MQTTREASONCODE_QOS_NOT_SUPPORTED" [link "../_m_q_t_t_reason_codes_8h.html#aba6db0fccfa3f8972ea48117b8b2a279a83865a2440b512e5602152521e3810bb" 1 "MQTTReasonCodes.h"];
  entry "mqttreasoncode_5fquota_5fexceeded_546" "MQTTREASONCODE_QUOTA_EXCEEDED" [link "../_m_q_t_t_reason_codes_8h.html#aba6db0fccfa3f8972ea48117b8b2a279a954fcabf6e88925b2a57bcd84032d9f9" 1 "MQTTReasonCodes.h"];
  entry "mqttreasoncode_5fre_5fauthenticate_547" "MQTTREASONCODE_RE_AUTHENTICATE" [link "../_m_q_t_t_reason_codes_8h.html#aba6db0fccfa3f8972ea48117b8b2a279a6cc1b342856c1d96d54c368148b536f7" 1 "MQTTReasonCodes.h"];
  entry "mqttreasoncode_5freceive_5fmaximum_5fexceeded_548" "MQTTREASONCODE_RECEIVE_MAXIMUM_EXCEEDED" [link "../_m_q_t_t_reason_codes_8h.html#aba6db0fccfa3f8972ea48117b8b2a279a45afaacbefd2d816fddf9fe9804b61d1" 1 "MQTTReasonCodes.h"];
  entry "mqttreasoncode_5fretain_5fnot_5fsupported_549" "MQTTREASONCODE_RETAIN_NOT_SUPPORTED" [link "../_m_q_t_t_reason_codes_8h.html#aba6db0fccfa3f8972ea48117b8b2a279aa4378012148d98599398bc4a3480c38f" 1 "MQTTReasonCodes.h"];
  entry "mqttreasoncode_5fserver_5fbusy_550" "MQTTREASONCODE_SERVER_BUSY" [link "../_m_q_t_t_reason_codes_8h.html#aba6db0fccfa3f8972ea48117b8b2a279af507e75147b0b34f36955c9f62389a74" 1 "MQTTReasonCodes.h"];
  entry "mqttreasoncode_5fserver_5fmoved_551" "MQTTREASONCODE_SERVER_MOVED" [link "../_m_q_t_t_reason_codes_8h.html#aba6db0fccfa3f8972ea48117b8b2a279a783254c7acf8de52ee345bc176f9d6c0" 1 "MQTTReasonCodes.h"];
  entry "mqttreasoncode_5fserver_5fshutting_5fdown_552" "MQTTREASONCODE_SERVER_SHUTTING_DOWN" [link "../_m_q_t_t_reason_codes_8h.html#aba6db0fccfa3f8972ea48117b8b2a279a085e1572ffce61838807b7429b691113" 1 "MQTTReasonCodes.h"];
  entry "mqttreasoncode_5fserver_5funavailable_553" "MQTTREASONCODE_SERVER_UNAVAILABLE" [link "../_m_q_t_t_reason_codes_8h.html#aba6db0fccfa3f8972ea48117b8b2a279a0cfd4de78870b3fb0499b916d06d40bb" 1 "MQTTReasonCodes.h"];
  entry "mqttreasoncode_5fsession_5ftaken_5fover_554" "MQTTREASONCODE_SESSION_TAKEN_OVER" [link "../_m_q_t_t_reason_codes_8h.html#aba6db0fccfa3f8972ea48117b8b2a279ad15ffa6884f97976e237afafcbccea21" 1 "MQTTReasonCodes.h"];
  entry "mqttreasoncode_5fshared_5fsubscriptions_5fnot_5fsupported_555" "MQTTREASONCODE_SHARED_SUBSCRIPTIONS_NOT_SUPPORTED" [link "../_m_q_t_t_reason_codes_8h.html#aba6db0fccfa3f8972ea48117b8b2a279a1c694648e36a40162939a2785450b6bd" 1 "MQTTReasonCodes.h"];
  entry "mqttreasoncode_5fsubscription_5fidentifiers_5fnot_5fsupported_556" "MQTTREASONCODE_SUBSCRIPTION_IDENTIFIERS_NOT_SUPPORTED" [link "../_m_q_t_t_reason_codes_8h.html#aba6db0fccfa3f8972ea48117b8b2a279a7bcd0f9b21c398a217667aebb4107842" 1 "MQTTReasonCodes.h"];
  entry "mqttreasoncode_5fsuccess_557" "MQTTREASONCODE_SUCCESS" [link "../_m_q_t_t_reason_codes_8h.html#aba6db0fccfa3f8972ea48117b8b2a279a63b379af5fba8c0512b381a4dbe26969" 1 "MQTTReasonCodes.h"];
  entry "mqttreasoncode_5ftopic_5falias_5finvalid_558" "MQTTREASONCODE_TOPIC_ALIAS_INVALID" [link "../_m_q_t_t_reason_codes_8h.html#aba6db0fccfa3f8972ea48117b8b2a279a8e0fcdd051e154e319058600b58652ec" 1 "MQTTReasonCodes.h"];
  entry "mqttreasoncode_5ftopic_5ffilter_5finvalid_559" "MQTTREASONCODE_TOPIC_FILTER_INVALID" [link "../_m_q_t_t_reason_codes_8h.html#aba6db0fccfa3f8972ea48117b8b2a279a00319b171f469824dd6938cbd0212b5b" 1 "MQTTReasonCodes.h"];
  entry "mqttreasoncode_5ftopic_5fname_5finvalid_560" "MQTTREASONCODE_TOPIC_NAME_INVALID" [link "../_m_q_t_t_reason_codes_8h.html#aba6db0fccfa3f8972ea48117b8b2a279a6268968177868576f6b9239aa9afd8ac" 1 "MQTTReasonCodes.h"];
  entry "mqttreasoncode_5funspecified_5ferror_561" "MQTTREASONCODE_UNSPECIFIED_ERROR" [link "../_m_q_t_t_reason_codes_8h.html#aba6db0fccfa3f8972ea48117b8b2a279a1881ee597bfef9157f0034a1377328e3" 1 "MQTTReasonCodes.h"];
  entry "mqttreasoncode_5funsupported_5fprotocol_5fversion_562" "MQTTREASONCODE_UNSUPPORTED_PROTOCOL_VERSION" [link "../_m_q_t_t_reason_codes_8h.html#aba6db0fccfa3f8972ea48117b8b2a279a021ceca20e6d35279075a2b93ece973d" 1 "MQTTReasonCodes.h"];
  entry "mqttreasoncode_5fuse_5fanother_5fserver_563" "MQTTREASONCODE_USE_ANOTHER_SERVER" [link "../_m_q_t_t_reason_codes_8h.html#aba6db0fccfa3f8972ea48117b8b2a279aabaee4062c4e4941b9eed59f09e9440c" 1 "MQTTReasonCodes.h"];
  entry "mqttreasoncode_5fwildcard_5fsubscriptions_5fnot_5fsupported_564" "MQTTREASONCODE_WILDCARD_SUBSCRIPTIONS_NOT_SUPPORTED" [link "../_m_q_t_t_reason_codes_8h.html#aba6db0fccfa3f8972ea48117b8b2a279a81b5708f676f52594b680f085e444e1f" 1 "MQTTReasonCodes.h"]].
Definition defines_0 : list SearchEntry := [
  entry "mqtt_5fbad_5fsubscribe_565" "MQTT_BAD_SUBSCRIBE" [link "../_m_q_t_t_client_8h.html#ade337b363b7f4bc7c1a7b2858e0380bd" 1 "MQTTClient.h"];
  entry "mqtt_5finvalid_5fproperty_5fid_566" "MQTT_INVALID_PROPERTY_ID" [link "../_m_q_t_t_properties_8h.html#afc56d2e8937a0c8f180d68ad93945945" 1 "MQTTProperties.h"];
  entry "mqtt_5fssl_5fversion_5fdefault_567" "MQTT_SSL_VERSION_DEFAULT" [link "../_m_q_t_t_client_8h.html#a2549ea897af26c76198284731db9e721" 1 "MQTTClient.h"];
  entry "mqtt_5fssl_5fversion_5ftls_5f1_5f0_568" "MQTT_SSL_VERSION_TLS_1_0" [link "../_m_q_t_t_client_8h.html#a7e5da3d6f0d2b53409bbfcf6e56f3d2d" 1 "MQTTClient.h"];
  entry "mqtt_5fssl_5fversion_5ftls_5f1_5f1_569" "MQTT_SSL_VERSION_TLS_1_1" [link "../_m_q_t_t_client_8h.html#abdff87efa3f2ee473a1591e10638b537" 1 "MQTTClient.h"];
  entry "mqtt_5fssl_5fversion_5ftls_5f1_5f2_570" "MQTT_SSL_VERSION_TLS_1_2" [link "../_m_q_t_t_client_8h.html#a3a94dbdeafbb73c73a068e7c2085fbab" 1 "MQTTClient.h"];
  entry "mqttclient_5f0_5flen_5fwill_5ftopic_571" "MQTTCLIENT_0_LEN_WILL_TOPIC" [link "../_m_q_t_t_client_8h.html#aacf90ba5292e25122e6fd5ec2a38efe5" 1 "MQTTClient.h"];
  entry "mqttclient_5fbad_5fmqtt_5foption_572" "MQTTCLIENT_BAD_MQTT_OPTION" [link "../_m_q_t_t_client_8h.html#a1babaca56ffae802fa1e246a2649927e" 1 "MQTTClient.h"];
  entry "mqttclient_5fbad_5fmqtt_5fversion_573" "MQTTCLIENT_BAD_MQTT_VERSION" [link "../_m_q_t_t_client_8h.html#aab84cecd25638896eb45b8f5ffd82bf7" 1 "MQTTClient.h"];
  entry "mqttclient_5fbad_5fprotocol_574" "MQTTCLIENT_BAD_PROTOCOL" [link "../_m_q_t_t_client_8h.html#a1d0cb25b450136f036a238546487344a" 1 "MQTTClient.h"];
  entry "mqttclient_5fbad_5fqos_575" "MQTTCLIENT_BAD_QOS" [link "../_m_q_t_t_client_8h.html#a51cc8ca032acf4ae14f83996524b8cdc" 1 "MQTTClient.h"];
  entry "mqttclient_5fbad_5fstructure_576" "MQTTCLIENT_BAD_STRUCTURE" [link "../_m_q_t_t_client_8h.html#a747615d8064e3fe024ae5565ec63e1ce" 1 "MQTTClient.h"];
  entry "mqttclient_5fbad_5futf8_5fstring_577" "MQTTCLIENT_BAD_UTF8_STRING" [link "../_m_q_t_t_client_8h.html#a678a4744192de9c8dca220d9965809dd" 1 "MQTTClient.h"];
  entry "mqttclient_5fconnectoptions_5finitializer_578" "MQTTClient_connectOptions_initializer" [link "../_m_q_t_t_client_8h.html#aefd7c865f2641c8155b763fdf3061c25" 1 "MQTTClient.h"];
  entry "mqttclient_5fconnectoptions_5finitializer5_579" "MQTTClient_connectOptions_initializer5" [link "../_m_q_t_t_client_8h.html#a1f0c7608262ac9c00cb94e9c8f9fc984" 1 "MQTTClient.h"];
  entry "mqttclient_5fconnectoptions_5finitializer5_5fws_580" "MQTTClient_connectOptions_initializer5_ws" [link "../_m_q_t_t_client_8h.html#a8c37c9f77f0b67e2520c8f91acf1afea" 1 "MQTTClient.h"];
  entry "mqttclient_5fconnectoptions_5finitializer_5fws_581" "MQTTClient_connectOptions_initializer_ws" [link "../_m_q_t_t_client_8h.html#a0a98fda162a78ee8c8cbd7d9d39494f4" 1 "MQTTClient.h"];
  entry "mqttclient_5fcreateoptions_5finitializer_582" "MQTTClient_createOptions_initializer" [link "../_m_q_t_t_client_8h.html#a763e477a5aceb6aff279111c7693e691" 1 "MQTTClient.h"];
  entry "mqttclient_5fdisconnected_583" "MQTTCLIENT_DISCONNECTED" [link "../_m_q_t_t_client_8h.html#a561d053311cb492cf7226f419ee0d516" 1 "MQTTClient.h"];
  entry "mqttclient_5ffailure_584" "MQTTCLIENT_FAILURE" [link "../_m_q_t_t_client_8h.html#af33a6d6c0e8a6a747bf39638e0bba36b" 1 "MQTTClient.h"];
  entry "mqttclient_5finit_5foptions_5finitializer_585" "MQTTClient_init_options_initializer" [link "../_m_q_t_t_client_8h.html#ac17057c8c22c0717d3adf4e040440f73" 1 "MQTTClient.h"];
  entry "mqttclient_5fmax_5fmessages_5finflight_586" "MQTTCLIENT_MAX_MESSAGES_INFLIGHT" [link "../_m_q_t_t_client_8h.html#a8fc442fc2e9dfb422a163ab1fa02e0cb" 1 "MQTTClient.h"];
  entry "mqttclient_5fmessage_5finitializer_587" "MQTTClient_message_initializer" [link "../_m_q_t_t_client_8h.html#aa1fd995924d3df75959fcf57e87aefac" 1 "MQTTClient.h"];
  entry "mqttclient_5fnull_5fparameter_588" "MQTTCLIENT_NULL_PARAMETER" [link "../_m_q_t_t_client_8h.html#ac3232abd7f86bbba26faea0e2b132c3c" 1 "MQTTClient.h"];
  entry "mqttclient_5fpersistence_5fdefault_589" "MQTTCLIENT_PERSISTENCE_DEFAULT" [link "../_m_q_t_t_client_persistence_8h.html#aaa948291718a9c06369b854b0f64bc32" 1 "MQTTClientPersistence.h"];
  entry "mqttclient_5fpersistence_5ferror_590" "MQTTCLIENT_PERSISTENCE_ERROR" [link "../_m_q_t_t_client_persistence_8h.html#ab716e21e53c84a5ad62aa962a2a8f7db" 1 "MQTTClientPersistence.h"];
  entry "mqttclient_5fpersistence_5fnone_591" "MQTTCLIENT_PERSISTENCE_NONE" [link "../_m_q_t_t_client_persistence_8h.html#ae01e089313a65ac4661ed216b6ac00fa" 1 "MQTTClientPersistence.h"];
  entry "mqttclient_5fpersistence_5fuser_592" "MQTTCLIENT_PERSISTENCE_USER" [link "../_m_q_t_t_client_persistence_8h.html#a5dc68b8616e4041e037bad94ce07681b" 1 "MQTTClientPersistence.h"];
  entry "mqttclient_5fssl_5fnot_5fsupported_593" "MQTTCLIENT_SSL_NOT_SUPPORTED" [link "../_m_q_t_t_client_8h.html#a1c67fc83ba1a8f26236aa49b127bdb61" 1 "MQTTClient.h"];
  entry "mqttclient_5fssloptions_5finitializer_594" "MQTTClient_SSLOptions_initializer" [link "../_m_q_t_t_client_8h.html#ab9b2a2c6b52dbb2ac842ad99a9ce6d99" 1 "MQTTClient.h"];
  entry "mqttclient_5fsuccess_595" "MQTTCLIENT_SUCCESS" [link "../_m_q_t_t_client_8h.html#acba095704d79e5a1996389fa26203f73" 1 "MQTTClient.h"];
  entry "mqttclient_5ftopicname_5ftruncated_596" "MQTTCLIENT_TOPICNAME_TRUNCATED" [link "../_m_q_t_t_client_8h.html#a29afebfce0bdf6cda1e37abc0c4b6690" 1 "MQTTClient.h"];
  entry "mqttclient_5fwilloptions_5finitializer_597" "MQTTClient_willOptions_initializer" [link "../_m_q_t_t_client_8h.html#aae0811659c59f5dad0467544f91645eb" 1 "MQTTClient.h"];
  entry "mqttclient_5fwrong_5fmqtt_5fversion_598" "MQTTCLIENT_WRONG_MQTT_VERSION" [link "../_m_q_t_t_client_8h.html#ae9070d21de569f999a9575049cdd6da1" 1 "MQTTClient.h"];
  entry "mqttproperties_5finitializer_599" "MQTTProperties_initializer" [link "../_m_q_t_t_properties_8h.html#a5a80e158486a414ccdfcdd7f75f23988" 1 "MQTTProperties.h"];
  entry "mqttresponse_5finitializer_600" "MQTTResponse_initializer" [link "../_m_q_t_t_client_8h.html#a17f171200136bcfa933eb50ef21531a7" 1 "MQTTClient.h"];
  entry "mqttsubscribe_5foptions_5finitializer_601" "MQTTSubscribe_options_initializer" [link "../_m_q_t_t_subscribe_opts_8h.html#aec3b45fd0367106eea344396f87cfda7" 1 "MQTTSubscribeOpts.h"];
  entry "mqttversion_5f3_5f1_602" "MQTTVERSION_3_1" [link "../_m_q_t_t_client_8h.html#a4603b988e76872e1f23f135d225ce2fb" 1 "MQTTClient.h"];
  entry "mqttversion_5f3_5f1_5f1_603" "MQTTVERSION_3_1_1" [link "../_m_q_t_t_client_8h.html#ac79cc6fdeaa9e3f4ee12c3418898b1ef" 1 "MQTTClient.h"];
  entry "mqttversion_5f5_604" "MQTTVERSION_5" [link "../_m_q_t_t_client_8h.html#af8b176fa4d5b89789767ce972338e1e3" 1 "MQTTClient.h"];
  entry "mqttversion_5fdefault_605" "MQTTVERSION_DEFAULT" [link "../_m_q_t_t_client_8h.html#a75b80b01f98d5a1ffa2a4d42995a8397" 1 "MQTTClient.h"]].
Definition pages_0 : list SearchEntry := [
  entry "asynchronous_20publication_20example_606" "Asynchronous publication example" [link "../pubasync.html" 1 EmptyString];
  entry "asynchronous_20subscription_20example_607" "Asynchronous subscription example" [link "../subasync.html" 1 EmptyString];
  entry "asynchronous_20vs_20synchronous_20client_20applications_608" "Asynchronous vs synchronous client applications" [link "../async.html" 1 EmptyString]].
Definition pages_1 : list SearchEntry := [
  entry "callbacks_609" "Callbacks" [link "../callbacks.html" 1 EmptyString]].
Definition pages_2 : list SearchEntry := [
  entry "mqtt_20client_20library_20for_20c_20_28mqttclient_29_610" "MQTT Client library for C (MQTTClient)" [link "../index.html" 1 EmptyString]].
Definition pages_3 : list SearchEntry := [
  entry "quality_20of_20service_611" "Quality of service" [link "../qos.html" 1 EmptyString]].
Definition pages_4 : list SearchEntry := [
  entry "subscription_20wildcards_612" "Subscription wildcards" [link "../wildcard.html" 1 EmptyString];
  entry "synchronous_20publication_20example_613" "Synchronous publication example" [link "../pubsync.html" 1 EmptyString]].
Definition pages_5 : list SearchEntry := [
  entry "tracing_614" "Tracing" [link "../tracing.html" 1 EmptyString]].

Definition indexSectionsWithContent : list string := [
  "abcdehiklmnpqrstuvw"; "m"; "m"; "m"; "abcdehiklmnpqrstuvw"; "mp"; "m"; "m"; "m"; "acmqst"].

Definition indexSectionNames : list string := [
  "all"; "classes"; "files"; "functions"; "variables"; "typedefs"; "enums"; "enumvalues"; "defines"; "pages"].

Definition indexSectionLabels : list string := [
  "All"; "Data Structures"; "Files"; "Functions"; "Variables"; "Typedefs"; "Enumerations"; "Enumerator"; "Macros"; "Pages"].

Definition menudata : list MenuItem := [
  item "Main Page" "index.html" [];
  item "Related Pages" "pages.html" [];
  item "Data Structures" "annotated.html" [
    item "Data Structures" "annotated.html" [];
    item "Data Fields" "functions.html" [
      item "All" "functions.html" [
        item "a" "functions.html#index_a" [];
        item "b" "functions.html#index_b" [];
        item "c" "functions.html#index_c" [];
        item "d" "functions.html#index_d" [];
        item "e" "functions.html#index_e" [];
        item "h" "functions.html#index_h" [];
        item "i" "functions.html#index_i" [];
        item "k" "functions.html#index_k" [];
        item "l" "functions.html#index_l" [];
        item "m" "functions.html#index_m" [];
        item "n" "functions.html#index_n" [];
        item "p" "functions.html#index_p" [];
        item "q" "functions.html#index_q" [];
        item "r" "functions.html#index_r" [];
        item "s" "functions.html#index_s" [];
        item "t" "functions.html#index_t" [];
        item "u" "functions.html#index_u" [];
        item "v" "functions.html#index_v" [];
        item "w" "functions.html#index_w" []];
      item "Variables" "functions_vars.html" [
        item "a" "functions_vars.html#index_a" [];
        item "b" "functions_vars.html#index_b" [];
        item "c" "functions_vars.html#index_c" [];
        item "d" "functions_vars.html#index_d" [];
        item "e" "functions_vars.html#index_e" [];
        item "h" "functions_vars.html#index_h" [];
        item "i" "functions_vars.html#index_i" [];
        item "k" "functions_vars.html#index_k" [];
        item "l" "functions_vars.html#index_l" [];
        item "m" "functions_vars.html#index_m" [];
        item "n" "functions_vars.html#index_n" [];
        item "p" "functions_vars.html#index_p" [];
        item "q" "functions_vars.html#index_q" [];
        item "r" "functions_vars.html#index_r" [];
        item "s" "functions_vars.html#index_s" [];
        item "t" "functions_vars.html#index_t" [];
        item "u" "functions_vars.html#index_u" [];
        item "v" "functions_vars.html#index_v" [];
        item "w" "functions_vars.html#index_w" []]]];
  item "Files" "files.html" [
    item "File List" "files.html" [];
    item "Globals" "globals.html" [
      item "All" "globals.html" [
        item "m" "globals.html#index_m" [];
        item "p" "globals_p.html#index_p" []];
      item "Functions" "globals_func.html" [
        item "m" "globals_func.html#index_m" []];
      item "Typedefs" "globals_type.html" [];
      item "Enumerations" "globals_enum.html" [];
      item "Enumerator" "globals_eval.html" [
        item "m" "globals_eval.html#index_m" []];
      item "Macros" "globals_defs.html" [
        item "m" "globals_defs.html#index_m" []]]]].

Definition pages : list (string * list SearchEntry) := [
  ("all_0", all_0);
  ("all_1", all_1);
  ("all_2", all_2);
  ("all_3", all_3);
  ("all_4", all_4);
  ("all_5", all_5);
  ("all_6", all_6);
  ("all_7", all_7);
  ("all_8", all_8);
  ("all_9", all_9);
  ("all_a", all_a);
  ("all_b", all_b);
  ("all_c", all_c);
  ("all_d", all_d);
  ("all_e", all_e);
  ("all_f", all_f);
  ("all_10", all_10);
  ("all_11", all_11);
  ("all_12", all_12);
  ("classes_0", classes_0);
  ("files_0", files_0);
  ("functions_0", functions_0);
  ("variables_0", variables_0);
  ("variables_1", variables_1);
  ("variables_2", variables_2);
  ("variables_3", variables_3);
  ("variables_4", variables_4);
  ("variables_5", variables_5);
  ("variables_6", variables_6);
  ("variables_7", variables_7);
  ("variables_8", variables_8);
  ("variables_9", variables_9);
  ("variables_a", variables_a);
  ("variables_b", variables_b);
  ("variables_c", variables_c);
  ("variables_d", variables_d);
  ("variables_e", variables_e);
  ("variables_f", variables_f);
  ("variables_10", variables_10);
  ("variables_11", variables_11);
  ("variables_12", variables_12);
  ("typedefs_0", typedefs_0);
  ("typedefs_1", typedefs_1);
  ("enums_0", enums_0);
  ("enumvalues_0", enumvalues_0);
  ("defines_0", defines_0);
  ("pages_0", pages_0);
  ("pages_1", pages_1);
  ("pages_2", pages_2);
  ("pages_3", pages_3);
  ("pages_4", pages_4);
  ("pages_5", pages_5)].

Definition site : Site :=
  mkSite pages indexSectionsWithContent indexSectionNames indexSectionLabels menudata.
