(* ===== verification/InternalIndex.v ===== *)
(** * The search index of the pages about the internals of the library

    The tables of src/docs/MQTTClient_internal/html: a list [searchData] of entries for
    each file of html/search, the sections of searchdata.js, and the menu of
    menudata.js. *)
From S2P Require Import Prelude SearchData.
Local Open Scope string_scope.

Definition all_0 : list SearchEntry := [
  entry "_5f_5fpad0_5f_5f_0" "__pad0__" [link "../structConnect.html#a9a33c7cfd83c02e341a8326683fa84d8" 1 "Connect"];
  entry "_5funlink_1" "_unlink" [link "../Log_8c.html#a411530253569ea29a964f13204da8848" 1 "Log.c"]].
Definition all_1 : list SearchEntry := [
  entry "ack_2" "Ack" [link "../structAck.html" 1 EmptyString];
  entry "ackrequest_3" "AckRequest" [link "../structAckRequest.html" 1 EmptyString];
  entry "afterread_4" "afterRead" [link "../structClients.html#a32899a8e944eef969c834833388fb91e" 1 "Clients"];
  entry "afterread_5fcontext_5" "afterRead_context" [link "../structClients.html#a429110f440ce0de51d60324fa8b8cc57" 1 "Clients"];
  entry "all_6" "all" [link "../structConnect.html#a7a4ee927261ade96ec6a800978f37970" 1 "Connect::all()"; link "../structConnack.html#aa2355d305cb311d356af339c44a852c7" 1 "Connack::all()"];
  entry "allow_5fduplicates_7" "allow_duplicates" [link "../structTree.html#a4098c257d75639b6775553b27e13bbfd" 1 "Tree"];
  entry "allowdisconnectedsendatanytime_8" "allowDisconnectedSendAtAnyTime" [link "../structMQTTAsync__createOptions.html#a8ab45ad21f70abfea24a248b7a83d9f7" 1 "MQTTAsync_createOptions"];
  entry "alt_9" "alt" [link "../structMQTTAsync__successData.html#af2b2a98191b00dbd7c592f2ef013ba87" 1 "MQTTAsync_successData::alt()"; link "../structMQTTAsync__successData5.html#ab8c810f026ac58874c1fd0b112bdda71" 1 "MQTTAsync_successData5::alt()"];
  entry "array_10" "array" [link "../structMQTTProperties.html#af2d57fd95f759ef758ff77b07e8683cd" 1 "MQTTProperties"];
  entry "array_5fsize_11" "ARRAY_SIZE" [link "../utf-8_8c.html#a25f003de16c08a4888b69f619d70f427" 1 "utf-8.c"];
  entry "automaticreconnect_12" "automaticReconnect" [link "../structMQTTAsync__connectOptions.html#acc2d253ca78b0c32813dbdc24b0c5f7a" 1 "MQTTAsync_connectOptions"]].
Definition all_2 : list SearchEntry := [
  entry "beforewrite_13" "beforeWrite" [link "../structClients.html#acb5a2bdb04148e714a123b6a14b34cb9" 1 "Clients"];
  entry "beforewrite_5fcontext_14" "beforeWrite_context" [link "../structClients.html#a57ec2f443b8de574ede8a62a6a3212db" 1 "Clients"];
  entry "binarypwd_15" "binarypwd" [link "../structMQTTAsync__connectData.html#a8643b5dacde868343c91cf6ad68d56b8" 1 "MQTTAsync_connectData::binarypwd()"; link "../structMQTTAsync__connectOptions.html#a71b40f4b4aeb26270f4d5df001656d41" 1 "MQTTAsync_connectOptions::binarypwd()"; link "../structMQTTClient__connectOptions.html#acfff5a62e87b80f205a1f83fdde5653d" 1 "MQTTClient_connectOptions::binarypwd()"];
  entry "buffers_16" "buffers" [link "../structPacketBuffers.html#a286d27793c957cc729d40272b31a1b53" 1 "PacketBuffers"];
  entry "buflen_17" "buflen" [link "../structsocket__queue.html#ab38f6d48de7c8905c3124ee1de4eac71" 1 "socket_queue"];
  entry "buflens_18" "buflens" [link "../structPacketBuffers.html#a359895b0df7be5369344eb2e6122c067" 1 "PacketBuffers"];
  entry "byte_19" "byte" [link "../unionHeader.html#a75d550e644fb0f4ae2be1a33d0d89ec6" 1 "Header::byte()"; link "../structMQTTProperty.html#acf819eac134fafe7e284598b4e6897e3" 1 "MQTTProperty::byte()"];
  entry "bytes_20" "bytes" [link "../utf-8_8c.html#abf4b7aec66b165e9a0a8e3a4ad69f863" 1 "utf-8.c"]].
Definition all_3 : list SearchEntry := [
  entry "call_5fdisconnected_21" "call_disconnected" [link "../MQTTClient_8c.html#adbcf69dbaf0a0dcbcc87d23f99e73fca" 1 "MQTTClient.c"];
  entry "capath_22" "CApath" [link "../structMQTTAsync__SSLOptions.html#a2c5cc887b0fd4a388b0bef9163d5b1ab" 1 "MQTTAsync_SSLOptions::CApath()"; link "../structMQTTClient__SSLOptions.html#a1901b5590afdc86db8e542c0d49f5106" 1 "MQTTClient_SSLOptions::CApath()"];
  entry "child_23" "child" [link "../structNodeStruct.html#a6f84842a1ac8bf4ea19a3bb6b4af9c4d" 1 "NodeStruct"];
  entry "cleansession_24" "cleansession" [link "../structMQTTClient__connectOptions.html#a03a2cfaf17483f1b0aab2a70f3ef30d9" 1 "MQTTClient_connectOptions::cleansession()"; link "../structMQTTAsync__connectOptions.html#ac4addd2c4614cfc12c9dd7e199a989ff" 1 "MQTTAsync_connectOptions::cleansession()"; link "../structClients.html#a9853b4a06c38478148ab09fe9ccff423" 1 "Clients::cleansession()"];
  entry "cleanstart_25" "cleanstart" [link "../structClients.html#a8e1ca3c305b51f86c29d246a60d0fec2" 1 "Clients::cleanstart()"; link "../structConnect.html#a1ecdff766bc9f572a2d1a3ae22bd0bca" 1 "Connect::cleanstart()"];
  entry "clientid_26" "clientID" [link "../structClients.html#aab6a37dbb279f1f1819bd89f75695e92" 1 "Clients::clientID()"; link "../structConnect.html#aa0063fa6349a7fb5be89cf1cbe4043b4" 1 "Connect::clientID()"];
  entry "clientidcompare_27" "clientIDCompare" [link "../Clients_8c.html#a961b1c46020c65b7ffd662500d1c849d" 1 "Clients.c"];
  entry "clients_28" "Clients" [link "../structClients.html" 1 EmptyString];
  entry "clients_2ec_29" "Clients.c" [link "../Clients_8c.html" 1 EmptyString];
  entry "clientsockcompare_30" "clientSockCompare" [link "../MQTTClient_8c.html#ac35494adea1f11d3480b50b8a7f0c17d" 1 "MQTTClient.c"];
  entry "clientsocketcompare_31" "clientSocketCompare" [link "../Clients_8c.html#a82dc4e265fecdaea2810ccdeab0abf52" 1 "Clients.c"];
  entry "clientstates_32" "ClientStates" [link "../structClientStates.html" 1 EmptyString];
  entry "code_33" "code" [link "../structMQTTAsync__failureData5.html#ac92de089ce2d9ae81b2c4b0dc1f97792" 1 "MQTTAsync_failureData5::code()"; link "../structMQTTAsync__failureData.html#acbdff200c2c6ac593c88cd0b677921e2" 1 "MQTTAsync_failureData::code()"];
  entry "compare_34" "compare" [link "../structTree.html#a9c7cc2fbf66ff51c0d90be03f3562c84" 1 "Tree"];
  entry "cond_5ftype_5fstruct_35" "cond_type_struct" [link "../structcond__type__struct.html" 1 EmptyString];
  entry "conlost_5fsync_5fdata_36" "conlost_sync_data" [link "../structconlost__sync__data.html" 1 EmptyString];
  entry "connack_37" "Connack" [link "../structConnack.html" 1 EmptyString];
  entry "connect_38" "Connect" [link "../structConnect.html" 1 EmptyString];
  entry "connect_5fcount_39" "connect_count" [link "../structClients.html#a46550d6ea8cf3480bb754afa56f516d5" 1 "Clients"];
  entry "connect_5fpending_40" "connect_pending" [link "../structSockets.html#ac1b74c5f7fd463159318d2ef3c8fcee6" 1 "Sockets"];
  entry "connect_5fsent_41" "connect_sent" [link "../structClients.html#a02e9acc54d3df8770178f16694c1f405" 1 "Clients"];
  entry "connected_42" "connected" [link "../structClients.html#adc2f2a83ccacde92ad6b4ee304fc3e6a" 1 "Clients"];
  entry "connectionlost_5fcall_43" "connectionLost_call" [link "../MQTTClient_8c.html#a0c0d8194bf8a449928881cf83276728e" 1 "MQTTClient.c"];
  entry "connectproperties_44" "connectProperties" [link "../structMQTTAsync__connectOptions.html#ad10d2f263a6802ec6a3a74e0cf9a7453" 1 "MQTTAsync_connectOptions"];
  entry "connecttimeout_45" "connectTimeout" [link "../structMQTTAsync__connectOptions.html#a0f2fb050e48f46332523fe1e48c04980" 1 "MQTTAsync_connectOptions::connectTimeout()"; link "../structMQTTClient__connectOptions.html#ab6713be91e99a94a7168bbcac02f6beb" 1 "MQTTClient_connectOptions::connectTimeout()"];
  entry "content_46" "content" [link "../structNodeStruct.html#aa605b943d1cb013da384c37f5a074285" 1 "NodeStruct::content()"; link "../structListElementStruct.html#a808c5a8a407bec041d0817705561ffd5" 1 "ListElementStruct::content()"];
  entry "context_47" "context" [link "../structMQTTClient__persistence.html#a2066e737e00f3fcb016152b4a9cedad6" 1 "MQTTClient_persistence::context()"; link "../structMQTTAsync__disconnectOptions.html#a6c8a7ef5c761e46d17750919eb4dadd3" 1 "MQTTAsync_disconnectOptions::context()"; link "../structMQTTAsync__connectOptions.html#ab1def8c5155a84603d6827664d59537c" 1 "MQTTAsync_connectOptions::context()"; link "../structMQTTAsync__responseOptions.html#a1d39a3f47712791b00ec7faab14c839a" 1 "MQTTAsync_responseOptions::context()"; link "../structClients.html#ae0c3a79f1943071fe9d336014cf5826a" 1 "Clients::context()"];
  entry "count_48" "count" [link "../structList.html#a7d50f0a95a04faab8c250bc6ea28a67d" 1 "List::count()"; link "../structMQTTProperties.html#a0eaa838640c90af2a963d7e0b23ff4e5" 1 "MQTTProperties::count()"; link "../structTree.html#ad13cc776048feb0a19c640c8f1d1ffd6" 1 "Tree::count()"];
  entry "cur_5ffd_49" "cur_fd" [link "../structSockets.html#a4ebc1178e3d1516f31b7dbc276cfde2b" 1 "Sockets"];
  entry "current_50" "current" [link "../structList.html#a76dacd2c880fb9a86ab7c0f3aa4ee624" 1 "List"];
  entry "current_5fsize_51" "current_size" [link "../structheap__info.html#a26c9bfacf416872c953138adc64e1a3d" 1 "heap_info"]].
Definition all_4 : list SearchEntry := [
  entry "data_52" "data" [link "../structMQTTAsync__willOptions.html#a9e18ae16bb17c09708e7f767390a9638" 1 "MQTTAsync_willOptions::data()"; link "../structMQTTAsync__connectOptions.html#aad75b20bff67aa3462602fe41465931a" 1 "MQTTAsync_connectOptions::data()"; link "../structMQTTClient__willOptions.html#aceaee06cb85a7dd485e58f0cd26c289d" 1 "MQTTClient_willOptions::data()"; link "../structMQTTClient__connectOptions.html#aaa44742ad0345bf7f3aea7628dea6bca" 1 "MQTTClient_connectOptions::data()"; link "../structMQTTLenString.html#ac875ffa1e0af752d17a10be055c33377" 1 "MQTTLenString::data()"; link "../structMQTTProperty.html#af08778d86fb08643620cefabd205bc11" 1 "MQTTProperty::data()"; link "../structMQTTAsync__connectData.html#a3a5188d10f6aab79d85d0468a56e5033" 1 "MQTTAsync_connectData::data()"];
  entry "datalen_53" "datalen" [link "../structsocket__queue.html#a812ce9bb00766c3e91a593842414b693" 1 "socket_queue"];
  entry "def_5fqueue_54" "def_queue" [link "../SocketBuffer_8c.html#ace376d23d15b97a487298fa0c8a238ea" 1 "SocketBuffer.c"];
  entry "destinationname_55" "destinationName" [link "../structMQTTAsync__successData5.html#a3aa03bcf1e08deeaacb237d014181e80" 1 "MQTTAsync_successData5::destinationName()"; link "../structMQTTAsync__successData.html#af3eef8b306fc96c9a0e36f2d0fd1e322" 1 "MQTTAsync_successData::destinationName()"];
  entry "disabledefaulttruststore_56" "disableDefaultTrustStore" [link "../structMQTTAsync__SSLOptions.html#a349454d7fe6021b62004874d7efa6277" 1 "MQTTAsync_SSLOptions::disableDefaultTrustStore()"; link "../structMQTTClient__SSLOptions.html#a09caf7e179009d70fff6205e89fcc434" 1 "MQTTClient_SSLOptions::disableDefaultTrustStore()"];
  entry "do_5fopenssl_5finit_57" "do_openssl_init" [link "../structMQTTAsync__init__options.html#a97caac4b94254b6b9251c07e9532f18b" 1 "MQTTAsync_init_options::do_openssl_init()"; link "../structMQTTClient__init__options.html#acb4f69163cbb7cf8fcc44ca086354dbc" 1 "MQTTClient_init_options::do_openssl_init()"];
  entry "dup_58" "dup" [link "../structMQTTAsync__message.html#aa9da73253863089ee90033c7f0dd28bf" 1 "MQTTAsync_message::dup()"; link "../structMQTTClient__message.html#abbb5f23377bd9f39cc79756786fa45cc" 1 "MQTTClient_message::dup()"; link "../unionHeader.html#a35c1c5537424b9307f4ff0803f16a25f" 1 "Header::dup()"]].
Definition all_5 : list SearchEntry := [
  entry "enabledciphersuites_59" "enabledCipherSuites" [link "../structMQTTAsync__SSLOptions.html#a45ea4eb5a79cb0b6150c86d15c3143c9" 1 "MQTTAsync_SSLOptions::enabledCipherSuites()"; link "../structMQTTClient__SSLOptions.html#a0e07f3de1807ab841646cbb8bfa94657" 1 "MQTTClient_SSLOptions::enabledCipherSuites()"];
  entry "enableservercertauth_60" "enableServerCertAuth" [link "../structMQTTAsync__SSLOptions.html#ab349eef3682c23527cf73bd9cea8782c" 1 "MQTTAsync_SSLOptions::enableServerCertAuth()"; link "../structMQTTClient__SSLOptions.html#ac21e3ad623dd35533e7101001299fb6f" 1 "MQTTClient_SSLOptions::enableServerCertAuth()"]].
Definition all_6 : list SearchEntry := [
  entry "fds_5fread_61" "fds_read" [link "../structSockets.html#a9e91e6577708542a4aab9c43976f7923" 1 "Sockets"];
  entry "file_62" "file" [link "../structstorageElement.html#aa13f42ed8f43459d289dec1bc4e259dd" 1 "storageElement"];
  entry "findstring_63" "FindString" [link "../MQTTVersion_8c.html#a60231c316988ddb6d3ecf20a3195fe8d" 1 "MQTTVersion.c"];
  entry "first_64" "first" [link "../structList.html#ab6dd52dbb617d263723015ef055caffe" 1 "List"];
  entry "fixed_5fheader_65" "fixed_header" [link "../structsocket__queue.html#a8cc2b561b0b418fbbcc7ede680c71169" 1 "socket_queue"];
  entry "flags_66" "flags" [link "../structConnect.html#a0c84bf238adaf04ea32a2b759247d80a" 1 "Connect::flags()"; link "../structConnack.html#a296f82b2061fa92586c8c2212ffd6efd" 1 "Connack::flags()"];
  entry "framedata_67" "frameData" [link "../structframeData.html" 1 EmptyString];
  entry "frees_68" "frees" [link "../structPacketBuffers.html#a3cd5992bdafa89f7e7a7083b20ff9390" 1 "PacketBuffers"]].
Definition all_7 : list SearchEntry := [
  entry "good_69" "good" [link "../structClients.html#a45dde398d2d928794de3886c74c435f6" 1 "Clients"]].
Definition all_8 : list SearchEntry := [
  entry "header_70" "header" [link "../structConnect.html#a64c92596b5ce2c01452d53d91fdf41c4" 1 "Connect::header()"; link "../structConnack.html#af532b37a9b73aaf2254d9e5789814d71" 1 "Connack::header()"; link "../structMQTTPacket.html#a0f16e8684e0dd97e5b61785b18c48151" 1 "MQTTPacket::header()"; link "../structSuback.html#a18c1a08ef8f60791bd6495d4ecba0066" 1 "Suback::header()"; link "../structUnsuback.html#a7751d1086fd1c6d9ba948b10e816a0dc" 1 "Unsuback::header()"; link "../structPublish.html#a05131ded5e4a7768aee72f66df37f67d" 1 "Publish::header()"; link "../structAck.html#a8be1d032b4a67550dc6020d450ad65b6" 1 "Ack::header()"];
  entry "header_71" "Header" [link "../unionHeader.html" 1 EmptyString];
  entry "heap_72" "heap" [link "../Heap_8c.html#aa337931db6f2e3b78d5dce6a8d228257" 1 "Heap.c"];
  entry "heap_2ec_73" "Heap.c" [link "../Heap_8c.html" 1 EmptyString];
  entry "heap_5ffinditem_74" "Heap_findItem" [link "../Heap_8c.html#a0f10ff94faca02a6f81953c889802954" 1 "Heap.c"];
  entry "heap_5fget_5finfo_75" "Heap_get_info" [link "../Heap_8c.html#a20faecf28cdd9d2fbf7d975c5b0863ef" 1 "Heap.c"];
  entry "heap_5finfo_76" "heap_info" [link "../structheap__info.html" 1 EmptyString];
  entry "heap_5finitialize_77" "Heap_initialize" [link "../Heap_8c.html#a7fb8bd5f7469fc9c1e48c3a1f17de88a" 1 "Heap.c"];
  entry "heap_5froundup_78" "Heap_roundup" [link "../Heap_8c.html#ae75b06db0cdfce5c281f8672e8577854" 1 "Heap.c"];
  entry "heap_5fterminate_79" "Heap_terminate" [link "../Heap_8c.html#a669dfefa789daec52dd8ddc03ff1f9f9" 1 "Heap.c"];
  entry "heap_5ftracking_80" "heap_tracking" [link "../structTree.html#ad3f36479166a4a7d4124c6a79ee770f4" 1 "Tree"];
  entry "heap_5funlink_81" "Heap_unlink" [link "../Heap_8c.html#a5f453bffe39551109e282c904a6f2902" 1 "Heap.c"];
  entry "heapdump_82" "HeapDump" [link "../Heap_8c.html#aea7ea58998f69f14e16a3237c1d02d8a" 1 "Heap.c"];
  entry "heapdumpstring_83" "HeapDumpString" [link "../Heap_8c.html#a6cdadd76da21b7269cf5d9fc92dedb68" 1 "Heap.c"];
  entry "heapscan_84" "HeapScan" [link "../Heap_8c.html#aafff91620a02cc5f8160ee55dc1d7bf4" 1 "Heap.c"];
  entry "httpheaders_85" "httpHeaders" [link "../structMQTTClient__connectOptions.html#a843b077a0524dcc6a1ce6db12d2e7412" 1 "MQTTClient_connectOptions::httpHeaders()"; link "../structMQTTAsync__connectOptions.html#a804e7ee013338a83a6f573f6644829ca" 1 "MQTTAsync_connectOptions::httpHeaders()"];
  entry "httpproxy_86" "httpProxy" [link "../structMQTTClient__connectOptions.html#a4c801d96d7a0013928d6a475fd48fe3c" 1 "MQTTClient_connectOptions::httpProxy()"; link "../structMQTTAsync__connectOptions.html#a2290cec827700b22efca37ea4bce3abd" 1 "MQTTAsync_connectOptions::httpProxy()"; link "../structClients.html#a70540b5d48c05815309215b18de69f8a" 1 "Clients::httpProxy()"];
  entry "httpsproxy_87" "httpsProxy" [link "../structMQTTClient__connectOptions.html#aff577bef3a72e4aa9022fda4cffd4544" 1 "MQTTClient_connectOptions::httpsProxy()"; link "../structMQTTAsync__connectOptions.html#ad4937ddf0e089fb0e0e054ae3a3aea55" 1 "MQTTAsync_connectOptions::httpsProxy()"; link "../structClients.html#a3864bdb9426f9fc646eff80109a831b3" 1 "Clients::httpsProxy()"]].
Definition all_9 : list SearchEntry := [
  entry "identifier_88" "identifier" [link "../structMQTTProperty.html#a5e407f4d2a2ba51cc784b7660fc06e6f" 1 "MQTTProperty"];
  entry "inboundmsgs_89" "inboundMsgs" [link "../structClients.html#a6e1576ebc386f04d2a70b943677b54d6" 1 "Clients"];
  entry "indexes_90" "indexes" [link "../structTree.html#a970b46e9c386139ad4fe213c043238e5" 1 "Tree"];
  entry "intcompare_91" "intcompare" [link "../LinkedList_8c.html#a1738915a6d6f10022e9ee1481c0ae452" 1 "LinkedList.c"];
  entry "integer2_92" "integer2" [link "../structMQTTProperty.html#a940cbb3bf8211c5f207e3e1b6495c573" 1 "MQTTProperty"];
  entry "integer4_93" "integer4" [link "../structMQTTProperty.html#a64f07dae61291856a24828ff9fd70dd2" 1 "MQTTProperty"];
  entry "internal_5fheap_5funlink_94" "Internal_heap_unlink" [link "../Heap_8c.html#ac23c370399a3c7b9aa9fa9d0672be122" 1 "Heap.c"];
  entry "isready_95" "isReady" [link "../Socket_8c.html#a42a217310f6f55473525764038ac367d" 1 "Socket.c"]].
Definition all_a : list SearchEntry := [
  entry "keepaliveinterval_96" "keepAliveInterval" [link "../structClients.html#a0c9720f6d2df33e40ca5a28ced0036bb" 1 "Clients::keepAliveInterval()"; link "../structMQTTAsync__connectOptions.html#ad6ed277d7db13a98ecef45ff3dd10044" 1 "MQTTAsync_connectOptions::keepAliveInterval()"; link "../structMQTTClient__connectOptions.html#a7de757dd172a63d699290d582aa0f798" 1 "MQTTClient_connectOptions::keepAliveInterval()"];
  entry "keepalivetimer_97" "keepAliveTimer" [link "../structConnect.html#a5274defe9badb8c5e46e7b674c548441" 1 "Connect"];
  entry "keystore_98" "keyStore" [link "../structMQTTAsync__SSLOptions.html#ac1b1a5ae74a807d672b5d44c7ecc4a9b" 1 "MQTTAsync_SSLOptions::keyStore()"; link "../structMQTTClient__SSLOptions.html#aab300df31cebc087303c4e5b8071e12c" 1 "MQTTClient_SSLOptions::keyStore()"]].
Definition all_b : list SearchEntry := [
  entry "last_99" "last" [link "../structList.html#a7be27419b0df1734d1028fa1729eb96c" 1 "List"];
  entry "len_100" "len" [link "../utf-8_8c.html#afed088663f8704004425cdae2120b9b3" 1 "len():&#160;utf-8.c"; link "../structMessages.html#a4751604bf85bccbff2273a069f976679" 1 "Messages::len()"; link "../structMQTTAsync__connectData.html#a34da6971227839d7ae96394a8bb2c31c" 1 "MQTTAsync_connectData::len()"; link "../structMQTTAsync__willOptions.html#af6f445357e4993806ceedbe7bafb2c20" 1 "MQTTAsync_willOptions::len()"; link "../structMQTTAsync__connectOptions.html#ac6d0d8d8e9c2f55f24b3219c18886be5" 1 "MQTTAsync_connectOptions::len()"; link "../structMQTTClient__willOptions.html#abfa72c814f19cbd87bf777da96ff2860" 1 "MQTTClient_willOptions::len()"; link "../structMQTTClient__connectOptions.html#a3e0d107b093f17c9623f4d1b76d18db6" 1 "MQTTClient_connectOptions::len()"; link "../structMQTTLenString.html#a7eb20db2b77f5e224e12d94c78573fa3" 1 "MQTTLenString::len()"; link "../structws__frame.html#a39b63d46db10302225327f57a20ce099" 1 "ws_frame::len()"];
  entry "length_101" "length" [link "../structMQTTProperties.html#a9538dfb5688661da09829a64f582c3c2" 1 "MQTTProperties"];
  entry "line_102" "line" [link "../structstorageElement.html#aa378660045dffaebb2804fd8ba6c5982" 1 "storageElement"];
  entry "lines_5fwritten_103" "lines_written" [link "../Log_8c.html#af6d2621ee2d6d01ab6b42b9afbc1c56e" 1 "Log.c"];
  entry "linkedlist_2ec_104" "LinkedList.c" [link "../LinkedList_8c.html" 1 EmptyString];
  entry "list_105" "List" [link "../structList.html" 1 EmptyString];
  entry "listappend_106" "ListAppend" [link "../LinkedList_8c.html#abc7a28449893dfa775c2f709349968b4" 1 "LinkedList.c"];
  entry "listappendnomalloc_107" "ListAppendNoMalloc" [link "../LinkedList_8c.html#a321a3598d6979c7af3f995b77ea2cec3" 1 "LinkedList.c"];
  entry "listdetach_108" "ListDetach" [link "../LinkedList_8c.html#ab2bcc1897abf1d98490ea81c474dba52" 1 "LinkedList.c"];
  entry "listdetachhead_109" "ListDetachHead" [link "../LinkedList_8c.html#ab0f3597d344e09ad6636c8bc72029337" 1 "LinkedList.c"];
  entry "listdetachitem_110" "ListDetachItem" [link "../LinkedList_8c.html#a9ed745f7ba486d16d009e86433fece7b" 1 "LinkedList.c"];
  entry "listelementstruct_111" "ListElementStruct" [link "../structListElementStruct.html" 1 EmptyString];
  entry "listempty_112" "ListEmpty" [link "../LinkedList_8c.html#a3cf8578dba23f97dd0411e85fe3b7ff2" 1 "LinkedList.c"];
  entry "listfind_113" "ListFind" [link "../LinkedList_8c.html#ad2879a10b723fb7c1f95c0ad0abdbc50" 1 "LinkedList.c"];
  entry "listfinditem_114" "ListFindItem" [link "../LinkedList_8c.html#acad319e9ce896ff1fff30ddbeb06d22d" 1 "LinkedList.c"];
  entry "listfree_115" "ListFree" [link "../LinkedList_8c.html#a276950531b3f54e0dda27d597572c192" 1 "LinkedList.c"];
  entry "listfreenocontent_116" "ListFreeNoContent" [link "../LinkedList_8c.html#a8b3e61bc873a90ad2ea43a15e6c001f4" 1 "LinkedList.c"];
  entry "listinitialize_117" "ListInitialize" [link "../LinkedList_8c.html#a27e2cccab9752618ead91eafbe2a9a46" 1 "LinkedList.c"];
  entry "listinsert_118" "ListInsert" [link "../LinkedList_8c.html#aabca387fa4b86475bc9e4da40c3977fc" 1 "LinkedList.c"];
  entry "listnextelement_119" "ListNextElement" [link "../LinkedList_8c.html#a7c6fba7f4b569c69829676bed2852ee9" 1 "LinkedList.c"];
  entry "listpoptail_120" "ListPopTail" [link "../LinkedList_8c.html#a84b0ad14e7cebcd7b9ebab89a8d48321" 1 "LinkedList.c"];
  entry "listprevelement_121" "ListPrevElement" [link "../LinkedList_8c.html#a371f4a5021e6aa639bab6ab1457fc1d2" 1 "LinkedList.c"];
  entry "listremove_122" "ListRemove" [link "../LinkedList_8c.html#a8430370b2b15c56ec95bb8e7e36753a5" 1 "LinkedList.c"];
  entry "listremovehead_123" "ListRemoveHead" [link "../LinkedList_8c.html#a5ee7cd1d29fd9299231d40c011174fcd" 1 "LinkedList.c"];
  entry "listremoveitem_124" "ListRemoveItem" [link "../LinkedList_8c.html#a4bb7c34fe9a5832d65f530091e0fad0d" 1 "LinkedList.c"];
  entry "listunlink_125" "ListUnlink" [link "../LinkedList_8c.html#ab82181e0c1d96954f82dee67cee41296" 1 "LinkedList.c"];
  entry "listzero_126" "ListZero" [link "../LinkedList_8c.html#aa254fb1eab8e30d0e03859b333dc22ed" 1 "LinkedList.c"];
  entry "log_127" "Log" [link "../Log_8c.html#a669722e3f57811871f97c12392aba85d" 1 "Log.c"];
  entry "log_2ec_128" "Log.c" [link "../Log_8c.html" 1 EmptyString];
  entry "log_5fnamevalue_129" "Log_nameValue" [link "../structLog__nameValue.html" 1 EmptyString];
  entry "log_5fstacktrace_130" "Log_stackTrace" [link "../Log_8c.html#aeb93e137086d574a96548cecca9e9217" 1 "Log.c"];
  entry "lower_131" "lower" [link "../utf-8_8c.html#a17ae1b83727db4230c8df98b4ee953fc" 1 "utf-8.c"]].
Definition all_c : list SearchEntry := [
  entry "mask_132" "mask" [link "../structPublish.html#a8a70d60f90d1418ebf501ad33eba2e11" 1 "Publish::mask()"; link "../structPacketBuffers.html#a9f29c58d295427b93e1e52fa7fd043ce" 1 "PacketBuffers::mask()"];
  entry "max_5fcount_133" "max_count" [link "../structMQTTProperties.html#ad3bd5700ed60fb16c072e8a65672a581" 1 "MQTTProperties"];
  entry "max_5flines_5fper_5ffile_134" "max_lines_per_file" [link "../Log_8c.html#ab0c0e8addd9dc5b2a54aafa15b606435" 1 "Log.c"];
  entry "max_5fsize_135" "max_size" [link "../structheap__info.html#acca9bc1ad656bc11b35406f8588d2c43" 1 "heap_info"];
  entry "max_5ftrace_5fentries_136" "max_trace_entries" [link "../structtrace__settings__type.html#acecf92991c3008b020b44f44f661f03f" 1 "trace_settings_type"];
  entry "maxbufferedmessages_137" "maxBufferedMessages" [link "../structMQTTAsync__createOptions.html#a39d76a63782adbd9526bad0b33603522" 1 "MQTTAsync_createOptions"];
  entry "maxinflight_138" "maxInflight" [link "../structMQTTAsync__connectOptions.html#afbcfee31a89fb634456290f22c4e32da" 1 "MQTTAsync_connectOptions"];
  entry "maxinflightmessages_139" "maxInflightMessages" [link "../structMQTTClient__connectOptions.html#a23eefc54da515a0c189ed6d5918470b0" 1 "MQTTClient_connectOptions::maxInflightMessages()"; link "../structClients.html#af0963eb25f36dfafdd29bfc3007181b7" 1 "Clients::maxInflightMessages()"];
  entry "maxretryinterval_140" "maxRetryInterval" [link "../structMQTTAsync__connectOptions.html#a7d1e6443a9050f3e54b02dfa6854feb4" 1 "MQTTAsync_connectOptions"];
  entry "message_141" "message" [link "../structMQTTClient__willOptions.html#af367d507f25f09942ff12376b50a5ffb" 1 "MQTTClient_willOptions::message()"; link "../structMQTTAsync__willOptions.html#a0a4c40ef8b1f73a67326cd9987fd1894" 1 "MQTTAsync_willOptions::message()"; link "../structMQTTAsync__successData5.html#a83d34de369f169d5c1ee099720b964cf" 1 "MQTTAsync_successData5::message()"; link "../structMQTTAsync__successData.html#a0b2e85af2333e5775907d3f2b53907d4" 1 "MQTTAsync_successData::message()"; link "../structMQTTAsync__failureData5.html#a2f82528951018af0eb73b313b94a470e" 1 "MQTTAsync_failureData5::message()"; link "../structMQTTAsync__failureData.html#a13f03bf80fd0024437af833d0964304d" 1 "MQTTAsync_failureData::message()"];
  entry "messageidcompare_142" "messageIDCompare" [link "../MQTTProtocolClient_8c.html#a286c2ef2904b5eb4a0ffa5b598961c67" 1 "MQTTProtocolClient.c"];
  entry "messagequeue_143" "messageQueue" [link "../structClients.html#a19263eecc43962ac977832e124b4529f" 1 "Clients"];
  entry "messages_144" "Messages" [link "../structMessages.html" 1 EmptyString];
  entry "messages_2ec_145" "Messages.c" [link "../Messages_8c.html" 1 EmptyString];
  entry "messages_5fget_146" "Messages_get" [link "../Messages_8c.html#ab0c342273f8f7d3c206314ae8215a14c" 1 "Messages.c"];
  entry "minretryinterval_147" "minRetryInterval" [link "../structMQTTAsync__connectOptions.html#a60bb7a0c6afaaff456f7fa4f18c84b66" 1 "MQTTAsync_connectOptions"];
  entry "mod_5fs_148" "mod_s" [link "../Socket_8c.html#a6caeed4a8d4f884c57a815034cee275e" 1 "Socket.c"];
  entry "mqtt_20client_20library_20internals_149" "MQTT Client Library Internals" [link "../index.html" 1 EmptyString];
  entry "mqttasync_5fcommand_150" "MQTTAsync_command" [link "../structMQTTAsync__command.html" 1 EmptyString];
  entry "mqttasync_5fconnectdata_151" "MQTTAsync_connectData" [link "../structMQTTAsync__connectData.html" 1 EmptyString];
  entry "mqttasync_5fconnectoptions_152" "MQTTAsync_connectOptions" [link "../structMQTTAsync__connectOptions.html" 1 EmptyString];
  entry "mqttasync_5fcreateoptions_153" "MQTTAsync_createOptions" [link "../structMQTTAsync__createOptions.html" 1 EmptyString];
  entry "mqttasync_5fdisconnectoptions_154" "MQTTAsync_disconnectOptions" [link "../structMQTTAsync__disconnectOptions.html" 1 EmptyString];
  entry "mqttasync_5ffailuredata_155" "MQTTAsync_failureData" [link "../structMQTTAsync__failureData.html" 1 EmptyString];
  entry "mqttasync_5ffailuredata5_156" "MQTTAsync_failureData5" [link "../structMQTTAsync__failureData5.html" 1 EmptyString];
  entry "mqttasync_5finit_5foptions_157" "MQTTAsync_init_options" [link "../structMQTTAsync__init__options.html" 1 EmptyString];
  entry "mqttasync_5fmessage_158" "MQTTAsync_message" [link "../structMQTTAsync__message.html" 1 EmptyString];
  entry "mqttasync_5fnamevalue_159" "MQTTAsync_nameValue" [link "../structMQTTAsync__nameValue.html" 1 EmptyString];
  entry "mqttasync_5fqueuedcommand_160" "MQTTAsync_queuedCommand" [link "../structMQTTAsync__queuedCommand.html" 1 EmptyString];
  entry "mqttasync_5fresponseoptions_161" "MQTTAsync_responseOptions" [link "../structMQTTAsync__responseOptions.html" 1 EmptyString];
  entry "mqttasync_5fssloptions_162" "MQTTAsync_SSLOptions" [link "../structMQTTAsync__SSLOptions.html" 1 EmptyString];
  entry "mqttasync_5fstruct_163" "MQTTAsync_struct" [link "../structMQTTAsync__struct.html" 1 EmptyString];
  entry "mqttasync_5fsuccessdata_164" "MQTTAsync_successData" [link "../structMQTTAsync__successData.html" 1 EmptyString];
  entry "mqttasync_5fsuccessdata5_165" "MQTTAsync_successData5" [link "../structMQTTAsync__successData5.html" 1 EmptyString];
  entry "mqttasync_5fwilloptions_166" "MQTTAsync_willOptions" [link "../structMQTTAsync__willOptions.html" 1 EmptyString];
  entry "mqttclient_2ec_167" "MQTTClient.c" [link "../MQTTClient_8c.html" 1 EmptyString];
  entry "mqttclient_5fconnect_168" "MQTTClient_connect" [link "../MQTTClient_8c.html#aaa8ae61cd65c9dc0846df10122d7bd4e" 1 "MQTTClient.c"];
  entry "mqttclient_5fconnect5_169" "MQTTClient_connect5" [link "../MQTTClient_8c.html#aa777f80cb3eec5610f976aff30b8c0d6" 1 "MQTTClient.c"];
  entry "mqttclient_5fconnectoptions_170" "MQTTClient_connectOptions" [link "../structMQTTClient__connectOptions.html" 1 EmptyString];
  entry "mqttclient_5fcreate_171" "MQTTClient_create" [link "../MQTTClient_8c.html#a9a0518d9ca924d12c1329dbe3de5f2b6" 1 "MQTTClient.c"];
  entry "mqttclient_5fcreateoptions_172" "MQTTClient_createOptions" [link "../structMQTTClient__createOptions.html" 1 EmptyString];
  entry "mqttclient_5fcreatewithoptions_173" "MQTTClient_createWithOptions" [link "../MQTTClient_8c.html#ade24f717a9b39d38b081e1d5e0db1661" 1 "MQTTClient.c"];
  entry "mqttclient_5fdestroy_174" "MQTTClient_destroy" [link "../MQTTClient_8c.html#ae700c3f5cfea3813264ce95e7c8cf498" 1 "MQTTClient.c"];
  entry "mqttclient_5fdisconnect_175" "MQTTClient_disconnect" [link "../MQTTClient_8c.html#a1e4d90c13a3c0705bc4a13bfe64e6525" 1 "MQTTClient.c"];
  entry "mqttclient_5fdisconnect1_176" "MQTTClient_disconnect1" [link "../MQTTClient_8c.html#a2eeb63b405d9aed880a79b38addf6df7" 1 "MQTTClient.c"];
  entry "mqttclient_5fdisconnect_5finternal_177" "MQTTClient_disconnect_internal" [link "../MQTTClient_8c.html#a6a08562ce9b763bf79c71029b94cd9f5" 1 "MQTTClient.c"];
  entry "mqttclient_5ffree_178" "MQTTClient_free" [link "../MQTTClient_8c.html#ab217acbfaf47603355ca430983f93095" 1 "MQTTClient.c"];
  entry "mqttclient_5ffreemessage_179" "MQTTClient_freeMessage" [link "../MQTTClient_8c.html#a2bc00ce11e0cac5dbc0938c512b4ab31" 1 "MQTTClient.c"];
  entry "mqttclient_5fgetpendingdeliverytokens_180" "MQTTClient_getPendingDeliveryTokens" [link "../MQTTClient_8c.html#a2a617c6b0492c04a4ddea592f5e53604" 1 "MQTTClient.c"];
  entry "mqttclient_5fgetversioninfo_181" "MQTTClient_getVersionInfo" [link "../MQTTClient_8c.html#abe842456c914ce9201d277a972cc085e" 1 "MQTTClient.c"];
  entry "mqttclient_5fglobal_5finit_182" "MQTTClient_global_init" [link "../MQTTClient_8c.html#a21804ede1a506d1d69a472bc30acc8ba" 1 "MQTTClient.c"];
  entry "mqttclient_5finit_5foptions_183" "MQTTClient_init_options" [link "../structMQTTClient__init__options.html" 1 EmptyString];
  entry "mqttclient_5fisconnected_184" "MQTTClient_isConnected" [link "../MQTTClient_8c.html#a6e8231e8c47f6f67f7ebbb5dcb4c69c0" 1 "MQTTClient.c"];
  entry "mqttclient_5fmalloc_185" "MQTTClient_malloc" [link "../MQTTClient_8c.html#a9a6a07529e252574db1f95d40ccc0784" 1 "MQTTClient.c"];
  entry "mqttclient_5fmessage_186" "MQTTClient_message" [link "../structMQTTClient__message.html" 1 EmptyString];
  entry "mqttclient_5fnamevalue_187" "MQTTClient_nameValue" [link "../structMQTTClient__nameValue.html" 1 EmptyString];
  entry "mqttclient_5fpersistence_188" "MQTTClient_persistence" [link "../structMQTTClient__persistence.html" 1 EmptyString];
  entry "mqttclient_5fpersistence_5fdefault_189" "MQTTCLIENT_PERSISTENCE_DEFAULT" [link "../MQTTClientPersistence_8h.html#aaa948291718a9c06369b854b0f64bc32" 1 "MQTTClientPersistence.h"];
  entry "mqttclient_5fpersistence_5ferror_190" "MQTTCLIENT_PERSISTENCE_ERROR" [link "../MQTTClientPersistence_8h.html#ab716e21e53c84a5ad62aa962a2a8f7db" 1 "MQTTClientPersistence.h"];
  entry "mqttclient_5fpersistence_5fnone_191" "MQTTCLIENT_PERSISTENCE_NONE" [link "../MQTTClientPersistence_8h.html#ae01e089313a65ac4661ed216b6ac00fa" 1 "MQTTClientPersistence.h"];
  entry "mqttclient_5fpersistence_5fuser_192" "MQTTCLIENT_PERSISTENCE_USER" [link "../MQTTClientPersistence_8h.html#a5dc68b8616e4041e037bad94ce07681b" 1 "MQTTClientPersistence.h"];
  entry "mqttclient_5fpublish_193" "MQTTClient_publish" [link "../MQTTClient_8c.html#a3cd7a94b48d1d9c6b8af4b9203d69d37" 1 "MQTTClient.c"];
  entry "mqttclient_5fpublish5_194" "MQTTClient_publish5" [link "../MQTTClient_8c.html#a3c0ca97b393eee10d4f441ba68830e83" 1 "MQTTClient.c"];
  entry "mqttclient_5fpublishmessage_195" "MQTTClient_publishMessage" [link "../MQTTClient_8c.html#a5e0cfa14237d7557bee2a59747ecadd3" 1 "MQTTClient.c"];
  entry "mqttclient_5fpublishmessage5_196" "MQTTClient_publishMessage5" [link "../MQTTClient_8c.html#ae54936bf7680dcde353e6fc785a44461" 1 "MQTTClient.c"];
  entry "mqttclient_5freceive_197" "MQTTClient_receive" [link "../MQTTClient_8c.html#a4c2df88d00a3dadd510a8cb774739366" 1 "MQTTClient.c"];
  entry "mqttclient_5fsetcallbacks_198" "MQTTClient_setCallbacks" [link "../MQTTClient_8c.html#aad27d07782991a4937ebf2f39a021f83" 1 "MQTTClient.c"];
  entry "mqttclient_5fsetcommandtimeout_199" "MQTTClient_setCommandTimeout" [link "../MQTTClient_8c.html#a96067a2fb74d2a61c7e93015629548e0" 1 "MQTTClient.c"];
  entry "mqttclient_5fsetdisconnected_200" "MQTTClient_setDisconnected" [link "../MQTTClient_8c.html#adc7d708419664670063a0e7fd9c27bca" 1 "MQTTClient.c"];
  entry "mqttclient_5fsettracecallback_201" "MQTTClient_setTraceCallback" [link "../MQTTClient_8c.html#a22870f94aa4cb1827626612f1ded7c69" 1 "MQTTClient.c"];
  entry "mqttclient_5fsettracelevel_202" "MQTTClient_setTraceLevel" [link "../MQTTClient_8c.html#a4dfa35d29db54b10b15b8ac2d9a778be" 1 "MQTTClient.c"];
  entry "mqttclient_5fssloptions_203" "MQTTClient_SSLOptions" [link "../structMQTTClient__SSLOptions.html" 1 EmptyString];
  entry "mqttclient_5fstrerror_204" "MQTTClient_strerror" [link "../MQTTClient_8c.html#a9defda2979f6fedaae64fd85f5c2f617" 1 "MQTTClient.c"];
  entry "mqttclient_5fsubscribe_205" "MQTTClient_subscribe" [link "../MQTTClient_8c.html#a9c1c28258f0d5c6a44ff53a98618f5f3" 1 "MQTTClient.c"];
  entry "mqttclient_5fsubscribe5_206" "MQTTClient_subscribe5" [link "../MQTTClient_8c.html#af35ab7375435f7b6388c5ff4610dad3d" 1 "MQTTClient.c"];
  entry "mqttclient_5fsubscribemany_207" "MQTTClient_subscribeMany" [link "../MQTTClient_8c.html#a92fa1c13f3db8399e042fbdbdfb692b3" 1 "MQTTClient.c"];
  entry "mqttclient_5fsubscribemany5_208" "MQTTClient_subscribeMany5" [link "../MQTTClient_8c.html#a5390c2402f135c12826ffbf6fc261f7c" 1 "MQTTClient.c"];
  entry "mqttclient_5funsubscribe_209" "MQTTClient_unsubscribe" [link "../MQTTClient_8c.html#aa8731be3dbc6a25f41f037f8bbbb054b" 1 "MQTTClient.c"];
  entry "mqttclient_5funsubscribe5_210" "MQTTClient_unsubscribe5" [link "../MQTTClient_8c.html#a58356c13867f18df60fd4c7ec9457c48" 1 "MQTTClient.c"];
  entry "mqttclient_5funsubscribemany_211" "MQTTClient_unsubscribeMany" [link "../MQTTClient_8c.html#a50abbce720d50b9f84b97ff9fa1f546d" 1 "MQTTClient.c"];
  entry "mqttclient_5funsubscribemany5_212" "MQTTClient_unsubscribeMany5" [link "../MQTTClient_8c.html#a46bdb532d2153110ccffb2f0748d1ba5" 1 "MQTTClient.c"];
  entry "mqttclient_5fwaitforcompletion_213" "MQTTClient_waitForCompletion" [link "../MQTTClient_8c.html#ab8786efdd6c3a50c6ca33cfb5d8fc283" 1 "MQTTClient.c"];
  entry "mqttclient_5fwilloptions_214" "MQTTClient_willOptions" [link "../structMQTTClient__willOptions.html" 1 EmptyString];
  entry "mqttclient_5fyield_215" "MQTTClient_yield" [link "../MQTTClient_8c.html#a8ad3d29864a9ca08202b0832e0f6678e" 1 "MQTTClient.c"];
  entry "mqttclientpersistence_2eh_216" "MQTTClientPersistence.h" [link "../MQTTClientPersistence_8h.html" 1 EmptyString];
  entry "mqttclients_217" "MQTTClients" [link "../structMQTTClients.html" 1 EmptyString];
  entry "mqttlenstring_218" "MQTTLenString" [link "../structMQTTLenString.html" 1 EmptyString];
  entry "mqttpacket_219" "MQTTPacket" [link "../structMQTTPacket.html" 1 EmptyString];
  entry "mqttpacket_2ec_220" "MQTTPacket.c" [link "../MQTTPacket_8c.html" 1 EmptyString];
  entry "mqttpacket_5fack_221" "MQTTPacket_ack" [link "../MQTTPacket_8c.html#a93c155059c80bd01b4a1561d9bec1d13" 1 "MQTTPacket.c"];
  entry "mqttpacket_5fconnack_222" "MQTTPacket_connack" [link "../MQTTPacketOut_8c.html#ad05dd32a547e82e0741d9d8279568a65" 1 "MQTTPacketOut.c"];
  entry "mqttpacket_5fdecode_223" "MQTTPacket_decode" [link "../MQTTPacket_8c.html#ac1f61e571640513a9785b3164141dfbc" 1 "MQTTPacket.c"];
  entry "mqttpacket_5fencode_224" "MQTTPacket_encode" [link "../MQTTPacket_8c.html#aadd77a4fa1b2d5c7791e3542c56af856" 1 "MQTTPacket.c"];
  entry "mqttpacket_5ffactory_225" "MQTTPacket_Factory" [link "../MQTTPacket_8c.html#af922033c495b05fe4242afc54211f20d" 1 "MQTTPacket.c"];
  entry "mqttpacket_5ffree_5fpacket_226" "MQTTPacket_free_packet" [link "../MQTTPacket_8c.html#a28f1754fe1f090d54bc3b5687fb2dd8c" 1 "MQTTPacket.c"];
  entry "mqttpacket_5ffreeack_227" "MQTTPacket_freeAck" [link "../MQTTPacket_8c.html#a0ef92fb0207ed6272de9ebc749745d0c" 1 "MQTTPacket.c"];
  entry "mqttpacket_5ffreeconnack_228" "MQTTPacket_freeConnack" [link "../MQTTPacketOut_8c.html#a49e8e6789e17a29f5a448b8fab0a4137" 1 "MQTTPacketOut.c"];
  entry "mqttpacket_5ffreepublish_229" "MQTTPacket_freePublish" [link "../MQTTPacket_8c.html#a642e5f62d21f14e81f8fc70b491d89c8" 1 "MQTTPacket.c"];
  entry "mqttpacket_5ffreesuback_230" "MQTTPacket_freeSuback" [link "../MQTTPacket_8c.html#a4262b8f35885dc123f59268fb74cec3d" 1 "MQTTPacket.c"];
  entry "mqttpacket_5ffreeunsuback_231" "MQTTPacket_freeUnsuback" [link "../MQTTPacket_8c.html#a9dd0446112e7bc982f8e3bb8bbb6b409" 1 "MQTTPacket.c"];
  entry "mqttpacket_5fheader_5fonly_232" "MQTTPacket_header_only" [link "../MQTTPacket_8c.html#af3ddd9c1a35d51bf70f44a1aa6fa0bba" 1 "MQTTPacket.c"];
  entry "mqttpacket_5fname_233" "MQTTPacket_name" [link "../MQTTPacket_8c.html#a9f9e58aba3ed5d513862d76bc5e29743" 1 "MQTTPacket.c"];
  entry "mqttpacket_5fpublish_234" "MQTTPacket_publish" [link "../MQTTPacket_8c.html#a58feb89ee5616f2ea6d222bbbef927bb" 1 "MQTTPacket.c"];
  entry "mqttpacket_5fsend_235" "MQTTPacket_send" [link "../MQTTPacket_8c.html#a51f58f1c7864f9fe87b55cc6ccb10129" 1 "MQTTPacket.c"];
  entry "mqttpacket_5fsend_5fack_236" "MQTTPacket_send_ack" [link "../MQTTPacket_8c.html#ad89e627a37f7f7eb4355b076cd46e0b0" 1 "MQTTPacket.c"];
  entry "mqttpacket_5fsend_5fconnect_237" "MQTTPacket_send_connect" [link "../MQTTPacketOut_8c.html#ad3c3f0919760286998e9b9eafaa47a36" 1 "MQTTPacketOut.c"];
  entry "mqttpacket_5fsend_5fdisconnect_238" "MQTTPacket_send_disconnect" [link "../MQTTPacket_8c.html#aa9e17261b4d09d802dba6a65bcdc44fa" 1 "MQTTPacket.c"];
  entry "mqttpacket_5fsend_5fpingreq_239" "MQTTPacket_send_pingreq" [link "../MQTTPacketOut_8c.html#acf4b3402e224ac22ffbe74731f374fe0" 1 "MQTTPacketOut.c"];
  entry "mqttpacket_5fsend_5fpuback_240" "MQTTPacket_send_puback" [link "../MQTTPacket_8c.html#a8b93325a6a336406497b20b489d6c46a" 1 "MQTTPacket.c"];
  entry "mqttpacket_5fsend_5fpubcomp_241" "MQTTPacket_send_pubcomp" [link "../MQTTPacket_8c.html#a908f81381b1720e4a53d15c1c4690f5c" 1 "MQTTPacket.c"];
  entry "mqttpacket_5fsend_5fpublish_242" "MQTTPacket_send_publish" [link "../MQTTPacket_8c.html#a9ebcf93ff2ba3bd103f016c975e9c9c4" 1 "MQTTPacket.c"];
  entry "mqttpacket_5fsend_5fpubrec_243" "MQTTPacket_send_pubrec" [link "../MQTTPacket_8c.html#a8167e3188a4bdcfb30c10e0d76c82afe" 1 "MQTTPacket.c"];
  entry "mqttpacket_5fsend_5fpubrel_244" "MQTTPacket_send_pubrel" [link "../MQTTPacket_8c.html#adec2c812b12255dab78f75163a4f1960" 1 "MQTTPacket.c"];
  entry "mqttpacket_5fsend_5fsubscribe_245" "MQTTPacket_send_subscribe" [link "../MQTTPacketOut_8c.html#a90212ed29c311f52a1dce0617133b1a7" 1 "MQTTPacketOut.c"];
  entry "mqttpacket_5fsend_5funsubscribe_246" "MQTTPacket_send_unsubscribe" [link "../MQTTPacketOut_8c.html#a1ad4c9b76c6ab88c394ee925eb4dcd44" 1 "MQTTPacketOut.c"];
  entry "mqttpacket_5fsends_247" "MQTTPacket_sends" [link "../MQTTPacket_8c.html#a3635fd8035177b20c478daea6bad9328" 1 "MQTTPacket.c"];
  entry "mqttpacket_5fsuback_248" "MQTTPacket_suback" [link "../MQTTPacketOut_8c.html#aee4b3e106128629671828ae7bfa70850" 1 "MQTTPacketOut.c"];
  entry "mqttpacket_5funsuback_249" "MQTTPacket_unsuback" [link "../MQTTPacketOut_8c.html#a93f6aa4b23d30f6c8c5be87b0b58e37c" 1 "MQTTPacketOut.c"];
  entry "mqttpacket_5fvbidecode_250" "MQTTPacket_VBIdecode" [link "../MQTTPacket_8c.html#a4fc1ee4d2cf8fd9bd59d89aadab222df" 1 "MQTTPacket.c"];
  entry "mqttpacketout_2ec_251" "MQTTPacketOut.c" [link "../MQTTPacketOut_8c.html" 1 EmptyString];
  entry "mqttpersistence_2ec_252" "MQTTPersistence.c" [link "../MQTTPersistence_8c.html" 1 EmptyString];
  entry "mqttpersistence_5fafterread_253" "MQTTPersistence_afterRead" [link "../MQTTClientPersistence_8h.html#af5a966a574c6ad7a35f1ebb7edd5c1c4" 1 "MQTTClientPersistence.h"];
  entry "mqttpersistence_5fbeforewrite_254" "MQTTPersistence_beforeWrite" [link "../MQTTClientPersistence_8h.html#ab865640a1cc53b68622004c5a2d29fae" 1 "MQTTClientPersistence.h"];
  entry "mqttpersistence_5fclear_255" "MQTTPersistence_clear" [link "../MQTTPersistence_8c.html#a6f6056b7418b66a3786a5028b2357a86" 1 "MQTTPersistence.c"];
  entry "mqttpersistence_5fclose_256" "MQTTPersistence_close" [link "../MQTTPersistence_8c.html#a385b6c191dbf51652d3e3a81813848f1" 1 "MQTTPersistence.c"];
  entry "mqttpersistence_5fcreate_257" "MQTTPersistence_create" [link "../MQTTPersistence_8c.html#a75e756280e499db530896c5b74b8d3b5" 1 "MQTTPersistence.c"];
  entry "mqttpersistence_5finitialize_258" "MQTTPersistence_initialize" [link "../MQTTPersistence_8c.html#a65b64467da967b6930966b98f249406e" 1 "MQTTPersistence.c"];
  entry "mqttpersistence_5finsertinorder_259" "MQTTPersistence_insertInOrder" [link "../MQTTPersistence_8c.html#a568adcd6ad3542d6f631a7f7a2e682e5" 1 "MQTTPersistence.c"];
  entry "mqttpersistence_5fmessage_260" "MQTTPersistence_message" [link "../structMQTTPersistence__message.html" 1 EmptyString];
  entry "mqttpersistence_5fputpacket_261" "MQTTPersistence_putPacket" [link "../MQTTPersistence_8c.html#a18eab666c3e6aecd92a6c8f10df808e3" 1 "MQTTPersistence.c"];
  entry "mqttpersistence_5fqentry_262" "MQTTPersistence_qEntry" [link "../structMQTTPersistence__qEntry.html" 1 EmptyString];
  entry "mqttpersistence_5fremove_263" "MQTTPersistence_remove" [link "../MQTTPersistence_8c.html#aba48f1a44c540fa37bca207cae3cbbd3" 1 "MQTTPersistence.c"];
  entry "mqttpersistence_5frestoremessagequeue_264" "MQTTPersistence_restoreMessageQueue" [link "../MQTTPersistence_8c.html#ab4f6437946ac80d5f9e882e92e59cc5c" 1 "MQTTPersistence.c"];
  entry "mqttpersistence_5frestorepacket_265" "MQTTPersistence_restorePacket" [link "../MQTTPersistence_8c.html#a6bc55eebf10d7a7f7e2849b3e33716d1" 1 "MQTTPersistence.c"];
  entry "mqttpersistence_5frestorepackets_266" "MQTTPersistence_restorePackets" [link "../MQTTPersistence_8c.html#a3e607d17e088a493097af07e9c7b0006" 1 "MQTTPersistence.c"];
  entry "mqttpersistence_5fwrapmsgid_267" "MQTTPersistence_wrapMsgID" [link "../MQTTPersistence_8c.html#adbf5881a3c6ce9bd7062182dfffe27fa" 1 "MQTTPersistence.c"];
  entry "mqttpersistencedefault_2ec_268" "MQTTPersistenceDefault.c" [link "../MQTTPersistenceDefault_8c.html" 1 EmptyString];
  entry "mqttproperties_269" "MQTTProperties" [link "../structMQTTProperties.html" 1 EmptyString];
  entry "mqttproperty_270" "MQTTProperty" [link "../structMQTTProperty.html" 1 EmptyString];
  entry "mqttprotocol_271" "MQTTProtocol" [link "../structMQTTProtocol.html" 1 EmptyString];
  entry "mqttprotocol_5faddressport_272" "MQTTProtocol_addressPort" [link "../MQTTProtocolOut_8c.html#ae9a2970a33893540e42ff5a8d95411dc" 1 "MQTTProtocolOut.c"];
  entry "mqttprotocol_5fassignmsgid_273" "MQTTProtocol_assignMsgId" [link "../MQTTProtocolClient_8c.html#a0fa824f9702cb6b0d7c800fd65198fce" 1 "MQTTProtocolClient.c"];
  entry "mqttprotocol_5fcheckpendingwrites_274" "MQTTProtocol_checkPendingWrites" [link "../MQTTClient_8c.html#acdcf1aefca1dbb3d1b3d36c9bbaf3760" 1 "MQTTClient.c"];
  entry "mqttprotocol_5fclosesession_275" "MQTTProtocol_closeSession" [link "../MQTTClient_8c.html#a9f7b0789ff9ca9ded72dbad2e747b333" 1 "MQTTClient.c"];
  entry "mqttprotocol_5fconnect_276" "MQTTProtocol_connect" [link "../MQTTProtocolOut_8c.html#ad9baf307647cbe6516eadbbe975cda8c" 1 "MQTTProtocolOut.c"];
  entry "mqttprotocol_5fcreatemessage_277" "MQTTProtocol_createMessage" [link "../MQTTProtocolClient_8c.html#afbf121be11a48fcda3e0d639bc47472b" 1 "MQTTProtocolClient.c"];
  entry "mqttprotocol_5femptymessagelist_278" "MQTTProtocol_emptyMessageList" [link "../MQTTProtocolClient_8c.html#ab9c5a22f0cbd4fa648663de7ae7118ab" 1 "MQTTProtocolClient.c"];
  entry "mqttprotocol_5ffreeclient_279" "MQTTProtocol_freeClient" [link "../MQTTProtocolClient_8c.html#a52e062f52e5a42275471eeb23040fc0e" 1 "MQTTProtocolClient.c"];
  entry "mqttprotocol_5ffreemessagelist_280" "MQTTProtocol_freeMessageList" [link "../MQTTProtocolClient_8c.html#a8514ddc8d0f346c0da19ab4d59b4062f" 1 "MQTTProtocolClient.c"];
  entry "mqttprotocol_5fhandledisconnects_281" "MQTTProtocol_handleDisconnects" [link "../MQTTProtocolOut_8c.html#a4f914518a8e2d68cc9d9fbb2c22cdf6f" 1 "MQTTProtocolOut.c"];
  entry "mqttprotocol_5fhandlepingresps_282" "MQTTProtocol_handlePingresps" [link "../MQTTProtocolOut_8c.html#ad298c92c74b5f1acda774fc95e3d61c3" 1 "MQTTProtocolOut.c"];
  entry "mqttprotocol_5fhandlepubacks_283" "MQTTProtocol_handlePubacks" [link "../MQTTProtocolClient_8c.html#aa9f454819a84c7a43009253fabcea3f3" 1 "MQTTProtocolClient.c"];
  entry "mqttprotocol_5fhandlepubcomps_284" "MQTTProtocol_handlePubcomps" [link "../MQTTProtocolClient_8c.html#a9aa163c85710d4936ae368b8b9412440" 1 "MQTTProtocolClient.c"];
  entry "mqttprotocol_5fhandlepublishes_285" "MQTTProtocol_handlePublishes" [link "../MQTTProtocolClient_8c.html#a2d7897d575be486bf1ed0459d7b2b8e7" 1 "MQTTProtocolClient.c"];
  entry "mqttprotocol_5fhandlepubrecs_286" "MQTTProtocol_handlePubrecs" [link "../MQTTProtocolClient_8c.html#ac09429577a185297d8797d791b7116a2" 1 "MQTTProtocolClient.c"];
  entry "mqttprotocol_5fhandlepubrels_287" "MQTTProtocol_handlePubrels" [link "../MQTTProtocolClient_8c.html#a362e0560d6f4f0e50237664a1a8e89a7" 1 "MQTTProtocolClient.c"];
  entry "mqttprotocol_5fhandlesubacks_288" "MQTTProtocol_handleSubacks" [link "../MQTTProtocolOut_8c.html#a5424115bf427436c2d40058f15261ed0" 1 "MQTTProtocolOut.c"];
  entry "mqttprotocol_5fhandleunsubacks_289" "MQTTProtocol_handleUnsubacks" [link "../MQTTProtocolOut_8c.html#a0b9648549a1a132eecadb74df2e84f57" 1 "MQTTProtocolOut.c"];
  entry "mqttprotocol_5fkeepalive_290" "MQTTProtocol_keepalive" [link "../MQTTProtocolClient_8c.html#a218a69c333badc4a61b321bc830ac1e0" 1 "MQTTProtocolClient.c"];
  entry "mqttprotocol_5fqueueack_291" "MQTTProtocol_queueAck" [link "../MQTTProtocolClient_8c.html#a68e5f17517e75326c0869a22c7995358" 1 "MQTTProtocolClient.c"];
  entry "mqttprotocol_5fremovepublication_292" "MQTTProtocol_removePublication" [link "../MQTTProtocolClient_8c.html#a900fa28a8774ad6f5535104bb62e7abf" 1 "MQTTProtocolClient.c"];
  entry "mqttprotocol_5fretries_293" "MQTTProtocol_retries" [link "../MQTTProtocolClient_8c.html#ad2f52c0fff61c891b174d69b95bcd173" 1 "MQTTProtocolClient.c"];
  entry "mqttprotocol_5fretry_294" "MQTTProtocol_retry" [link "../MQTTProtocolClient_8c.html#a3a1acc3bd7b09ab9d52e15e4a97c4cb2" 1 "MQTTProtocolClient.c"];
  entry "mqttprotocol_5fspecialchars_295" "MQTTProtocol_specialChars" [link "../MQTTProtocolOut_8c.html#a6b8949d7db9299fa5fd940e8e58f31b6" 1 "MQTTProtocolOut.c"];
  entry "mqttprotocol_5fstartpublish_296" "MQTTProtocol_startPublish" [link "../MQTTProtocolClient_8c.html#a0f86c2cc2debfa39e275d3c76d5d0073" 1 "MQTTProtocolClient.c"];
  entry "mqttprotocol_5fstartpublishcommon_297" "MQTTProtocol_startPublishCommon" [link "../MQTTProtocolClient_8c.html#a4502a4b9257b32508fac87e42fb1d85a" 1 "MQTTProtocolClient.c"];
  entry "mqttprotocol_5fstorepublication_298" "MQTTProtocol_storePublication" [link "../MQTTProtocolClient_8c.html#ac753a3ad12292a0a9c2f4343bd33817e" 1 "MQTTProtocolClient.c"];
  entry "mqttprotocol_5fsubscribe_299" "MQTTProtocol_subscribe" [link "../MQTTProtocolOut_8c.html#a460d021d06dd24cf975dfe20e17ab1ba" 1 "MQTTProtocolOut.c"];
  entry "mqttprotocol_5funsubscribe_300" "MQTTProtocol_unsubscribe" [link "../MQTTProtocolOut_8c.html#a69083f5a059d129d1030140ec1cd3d58" 1 "MQTTProtocolOut.c"];
  entry "mqttprotocol_5fwriteavailable_301" "MQTTProtocol_writeAvailable" [link "../MQTTProtocolClient_8c.html#a5906689ff10dc091d1a2b317295d39b0" 1 "MQTTProtocolClient.c"];
  entry "mqttprotocolclient_2ec_302" "MQTTProtocolClient.c" [link "../MQTTProtocolClient_8c.html" 1 EmptyString];
  entry "mqttprotocolout_2ec_303" "MQTTProtocolOut.c" [link "../MQTTProtocolOut_8c.html" 1 EmptyString];
  entry "mqttresponse_304" "MQTTResponse" [link "../structMQTTResponse.html" 1 EmptyString];
  entry "mqttresponse_5ffree_305" "MQTTResponse_free" [link "../MQTTClient_8c.html#a01bd2c5f98ec5c0636a106db33f2b01b" 1 "MQTTClient.c"];
  entry "mqttstrdup_306" "MQTTStrdup" [link "../MQTTProtocolClient_8c.html#a89588f085edc5cee4eb650e8ad114df4" 1 "MQTTProtocolClient.c"];
  entry "mqttstrncpy_307" "MQTTStrncpy" [link "../MQTTProtocolClient_8c.html#a447b65c664ebedef8fecb70e29dc1767" 1 "MQTTProtocolClient.c"];
  entry "mqttsubscribe_5foptions_308" "MQTTSubscribe_options" [link "../structMQTTSubscribe__options.html" 1 EmptyString];
  entry "mqttversion_309" "MQTTVersion" [link "../structMQTTClient__connectOptions.html#ac5990907e10165a71e6b3c163f2f1eef" 1 "MQTTClient_connectOptions::MQTTVersion()"; link "../structAck.html#a542acd6ed107a1dfffd225b668c0d961" 1 "Ack::MQTTVersion()"; link "../structPublish.html#a5e5bc5c8445b9f8bdbc02315f91921a0" 1 "Publish::MQTTVersion()"; link "../structUnsuback.html#a25413381d1f688248d64a82e67746108" 1 "Unsuback::MQTTVersion()"; link "../structSuback.html#aec7bfa50ec92509a7d7f9466173a064e" 1 "Suback::MQTTVersion()"; link "../structConnack.html#af1a10784220b77ccfbf549b2443f2332" 1 "Connack::MQTTVersion()"; link "../structMQTTClient__createOptions.html#ae15c5b3e67be5967deb87d2830805565" 1 "MQTTClient_createOptions::MQTTVersion()"; link "../structMQTTAsync__command.html#aab15c3354653ca0d03644bcaa98f77fb" 1 "MQTTAsync_command::MQTTVersion()"; link "../structMQTTAsync__connectOptions.html#a03bb9a21cbbd0f9a2258204c1890ca40" 1 "MQTTAsync_connectOptions::MQTTVersion()"; link "../structMQTTAsync__createOptions.html#a538f8ca0715d75b79be91e8050a44402" 1 "MQTTAsync_createOptions::MQTTVersion()"; link "../structMQTTAsync__successData5.html#a2a1956f782970dfdc24bb521bd90452b" 1 "MQTTAsync_successData5::MQTTVersion()"; link "../structMQTTAsync__successData.html#a2803f7c3e77845d14d7d54004b6c16f9" 1 "MQTTAsync_successData::MQTTVersion()"; link "../structClients.html#a9cb1ad103af7c3aaf00e79037e6befba" 1 "Clients::MQTTVersion()"];
  entry "mqttversion_2ec_310" "MQTTVersion.c" [link "../MQTTVersion_8c.html" 1 EmptyString];
  entry "msgid_311" "msgid" [link "../structMQTTAsync__message.html#a2c8572ec595842768848982321835bfe" 1 "MQTTAsync_message"];
  entry "msgid_312" "msgId" [link "../structAck.html#aacfdbab79ac27e1a5ff80bccac4427a9" 1 "Ack"];
  entry "msgid_313" "msgid" [link "../structMQTTClient__message.html#a3be81df63644606036c0a139564a1d92" 1 "MQTTClient_message"];
  entry "msgid_314" "msgID" [link "../structClients.html#ad0aaa6d9fce1f8196ff859df00716055" 1 "Clients"];
  entry "msgid_315" "msgId" [link "../structPublish.html#ac1076c8b1dc5793c498f098f0a0d78cd" 1 "Publish::msgId()"; link "../structUnsuback.html#a804d221a84b2306cb6040f405315abc3" 1 "Unsuback::msgId()"; link "../structSuback.html#acb5971c2ca02372e41da6f1ccf202dba" 1 "Suback::msgId()"];
  entry "myfree_316" "myfree" [link "../Heap_8c.html#a25214c297c998eba3cfc8282b1162c69" 1 "Heap.c"];
  entry "mymalloc_317" "mymalloc" [link "../Heap_8c.html#a59e53a989d69c3da767487596d9bfa1f" 1 "Heap.c"];
  entry "myrealloc_318" "myrealloc" [link "../Heap_8c.html#a699e6722cc8f195f853f09ac274413a3" 1 "Heap.c"]].
Definition all_d : list SearchEntry := [
  entry "name_319" "name" [link "../structMQTTAsync__nameValue.html#ad14f405ef73f1f2aa632bb22e6b26f51" 1 "MQTTAsync_nameValue"];
  entry "nametotype_320" "nameToType" [link "../structnameToType.html" 1 EmptyString];
  entry "net_321" "net" [link "../structClients.html#a8521f3c0d7728e0bac41c1601ca8bbb9" 1 "Clients"];
  entry "networkhandles_322" "networkHandles" [link "../structnetworkHandles.html" 1 EmptyString];
  entry "new_5fpackets_323" "new_packets" [link "../MQTTPacket_8c.html#a210a7b616c27aa7247824022285da784" 1 "MQTTPacket.c"];
  entry "next_324" "next" [link "../structListElementStruct.html#ae087afc0ce4e6e17592420764902f301" 1 "ListElementStruct"];
  entry "nextmessagetype_325" "nextMessageType" [link "../structMessages.html#aa31b6d8af2e0230eccdcc6ee7f2cefb1" 1 "Messages"];
  entry "nfds_326" "nfds" [link "../structSockets.html#a9bee5974437201a4b7728955de2ebd50" 1 "Sockets"];
  entry "nodestruct_327" "NodeStruct" [link "../structNodeStruct.html" 1 EmptyString];
  entry "nolocal_328" "noLocal" [link "../structMQTTSubscribe__options.html#a52989a1198bc251aad22638e85f2b7b4" 1 "MQTTSubscribe_options"]].
Definition all_e : list SearchEntry := [
  entry "onfailure_329" "onFailure" [link "../structMQTTAsync__responseOptions.html#a180b2c728942d606a3fc4a4a79bb81f4" 1 "MQTTAsync_responseOptions::onFailure()"; link "../structMQTTAsync__connectOptions.html#a703d2a77602f3737eccf5123e16bb428" 1 "MQTTAsync_connectOptions::onFailure()"; link "../structMQTTAsync__disconnectOptions.html#a7719db20d0649fd1bd0edc239c289cdb" 1 "MQTTAsync_disconnectOptions::onFailure()"];
  entry "onfailure5_330" "onFailure5" [link "../structMQTTAsync__responseOptions.html#a134555eea729d1eeeb9427057834fa38" 1 "MQTTAsync_responseOptions::onFailure5()"; link "../structMQTTAsync__connectOptions.html#a48bd502d8028bb13afbce0793ebe3c76" 1 "MQTTAsync_connectOptions::onFailure5()"; link "../structMQTTAsync__disconnectOptions.html#a8d78996c4b349f10196450fe9900b943" 1 "MQTTAsync_disconnectOptions::onFailure5()"];
  entry "onsuccess_331" "onSuccess" [link "../structMQTTAsync__responseOptions.html#a4a6dffebf9a6f4ffb9fe2a5d949d8090" 1 "MQTTAsync_responseOptions::onSuccess()"; link "../structMQTTAsync__connectOptions.html#a99c3f6fd2c5238112a6ae90ce1013f10" 1 "MQTTAsync_connectOptions::onSuccess()"; link "../structMQTTAsync__disconnectOptions.html#afe4eec80b7037a59e459fb8643bed3e3" 1 "MQTTAsync_disconnectOptions::onSuccess()"];
  entry "onsuccess5_332" "onSuccess5" [link "../structMQTTAsync__responseOptions.html#a1294e96bc2d81fca8808fdca3bf4dd2e" 1 "MQTTAsync_responseOptions::onSuccess5()"; link "../structMQTTAsync__connectOptions.html#af108a647db655523e892938d3a67d6b4" 1 "MQTTAsync_connectOptions::onSuccess5()"; link "../structMQTTAsync__disconnectOptions.html#ad8a30361f986c6f32ee33e59591d736b" 1 "MQTTAsync_disconnectOptions::onSuccess5()"];
  entry "outboundmsgs_333" "outboundMsgs" [link "../structClients.html#a1d9f8325aa92c6f65a285e823091bbe1" 1 "Clients"];
  entry "outboundqueue_334" "outboundQueue" [link "../structClients.html#a9495d5b5b191a897c05ea8d298e6d6b5" 1 "Clients"]].
Definition all_f : list SearchEntry := [
  entry "packet_5fnames_335" "packet_names" [link "../MQTTPacket_8c.html#a4536b1c36ed06171f20baeb69c01aa02" 1 "MQTTPacket.c"];
  entry "packet_5ftype_336" "packet_type" [link "../structMQTTAsync__failureData5.html#a20603650f6fd4e429fc4c246d5005843" 1 "MQTTAsync_failureData5"];
  entry "packetbuffers_337" "PacketBuffers" [link "../structPacketBuffers.html" 1 EmptyString];
  entry "paho_5fthread_5fcreate_5fmutex_338" "Paho_thread_create_mutex" [link "../Thread_8c.html#a4dc03e919803e0af06fabbd4f394a51c" 1 "Thread.c"];
  entry "paho_5fthread_5fdestroy_5fmutex_339" "Paho_thread_destroy_mutex" [link "../Thread_8c.html#ad2c1a28aa3f8ae9cdd6677fd5477b8e4" 1 "Thread.c"];
  entry "paho_5fthread_5fgetid_340" "Paho_thread_getid" [link "../Thread_8c.html#aa3e166167a73a02b488d49e724d161c4" 1 "Thread.c"];
  entry "paho_5fthread_5flock_5fmutex_341" "Paho_thread_lock_mutex" [link "../Thread_8c.html#a1c9cd0a1556e72719a5ed3f9cdf6686f" 1 "Thread.c"];
  entry "paho_5fthread_5fstart_342" "Paho_thread_start" [link "../Thread_8c.html#a342744cc2c60c981c4558475a759ca6c" 1 "Thread.c"];
  entry "paho_5fthread_5funlock_5fmutex_343" "Paho_thread_unlock_mutex" [link "../Thread_8c.html#a1c21203efa0c10544d24585870fe4757" 1 "Thread.c"];
  entry "parent_344" "parent" [link "../structNodeStruct.html#a1a00514fc5241f8b1391fa0eb433a128" 1 "NodeStruct"];
  entry "password_345" "password" [link "../structClients.html#a9f88bf65b015c91ec6ae7bc827513d66" 1 "Clients::password()"; link "../structMQTTAsync__connectOptions.html#a52a773222e567d8480c85b6a27bf36f2" 1 "MQTTAsync_connectOptions::password()"; link "../structMQTTClient__connectOptions.html#a8f0e7e9e217a913fa8e200e2d5e45f6e" 1 "MQTTClient_connectOptions::password()"; link "../structConnect.html#a5ad7b3bbaab88cc22692b849f31b2756" 1 "Connect::password()"];
  entry "passwordlen_346" "passwordlen" [link "../structClients.html#a9fc28cb6abab3247752403043c346aa1" 1 "Clients"];
  entry "payload_347" "payload" [link "../structMQTTClient__message.html#a90437a223f235ad4412d0c7c69f08125" 1 "MQTTClient_message::payload()"; link "../structPublish.html#abe2b6e569277a3c7fda52449e1ea31b6" 1 "Publish::payload()"; link "../structMQTTClient__willOptions.html#a7553866f76f2f01ee59bc2114da9a169" 1 "MQTTClient_willOptions::payload()"; link "../structMQTTAsync__willOptions.html#a359707f9e88d705bce91d482d9816e33" 1 "MQTTAsync_willOptions::payload()"; link "../structMQTTAsync__message.html#a13d88e9c871b5b39b73370a0784331af" 1 "MQTTAsync_message::payload()"];
  entry "payloadlen_348" "payloadlen" [link "../structMQTTAsync__message.html#a9271900e2789ff81e382a47842aaee8f" 1 "MQTTAsync_message::payloadlen()"; link "../structMQTTClient__message.html#a85b39bde61ef9f5ed853ad6489145a94" 1 "MQTTClient_message::payloadlen()"; link "../structPublish.html#ac250077e84d98fc44f95530793bae79b" 1 "Publish::payloadlen()"];
  entry "pclear_349" "pclear" [link "../structMQTTClient__persistence.html#a4eb919940dcc01a005abcdeb08a7eb10" 1 "MQTTClient_persistence"];
  entry "pclose_350" "pclose" [link "../structMQTTClient__persistence.html#a1bcc2ebaee1ab155b906493b14088a33" 1 "MQTTClient_persistence"];
  entry "pcontainskey_351" "pcontainskey" [link "../structMQTTClient__persistence.html#a049d548dc2bbe906309a9f869a60653c" 1 "MQTTClient_persistence"];
  entry "pending_5fsocketcompare_352" "pending_socketcompare" [link "../SocketBuffer_8c.html#a39f1ee9c98bc12a7be4d7a40b03550d5" 1 "SocketBuffer.c"];
  entry "pending_5fwrite_353" "pending_write" [link "../structpending__write.html" 1 EmptyString];
  entry "pending_5fwrites_354" "pending_writes" [link "../structpending__writes.html" 1 EmptyString];
  entry "persistence_355" "persistence" [link "../structClients.html#a8745ab9f05600fd3f97bf695e99a7f17" 1 "Clients"];
  entry "persistence_5fclear_356" "Persistence_clear" [link "../MQTTClientPersistence_8h.html#acee7097c1a0ab44b98c870f533687887" 1 "MQTTClientPersistence.h"];
  entry "persistence_5fclose_357" "Persistence_close" [link "../MQTTClientPersistence_8h.html#a3582de2c87e89f617e8e553b2a0e279a" 1 "MQTTClientPersistence.h"];
  entry "persistence_5fcontainskey_358" "Persistence_containskey" [link "../MQTTClientPersistence_8h.html#a753a0f9a9c51284d63a907af19c7bbba" 1 "MQTTClientPersistence.h"];
  entry "persistence_5fget_359" "Persistence_get" [link "../MQTTClientPersistence_8h.html#adc3aff3c570fa5509e9d6814a85ab867" 1 "MQTTClientPersistence.h"];
  entry "persistence_5fkeys_360" "Persistence_keys" [link "../MQTTClientPersistence_8h.html#a2601cc91eeabdbf9578f8dd45e4997a8" 1 "MQTTClientPersistence.h"];
  entry "persistence_5fopen_361" "Persistence_open" [link "../MQTTClientPersistence_8h.html#a4c7d332bb16907058ae3b375488b6008" 1 "MQTTClientPersistence.h"];
  entry "persistence_5fput_362" "Persistence_put" [link "../MQTTClientPersistence_8h.html#a44679cab77cfbd6e2a4639cdd27ac80c" 1 "MQTTClientPersistence.h"];
  entry "persistence_5fremove_363" "Persistence_remove" [link "../MQTTClientPersistence_8h.html#a73350bf7208658bf5434a59f7bdbae90" 1 "MQTTClientPersistence.h"];
  entry "pget_364" "pget" [link "../structMQTTClient__persistence.html#a0f9fe9edd3946f0647862de7904e4098" 1 "MQTTClient_persistence"];
  entry "phandle_365" "phandle" [link "../structClients.html#a1a0ca8e87f5d963ea3ab5c2e7748aaa5" 1 "Clients"];
  entry "ping_5fdue_366" "ping_due" [link "../structClients.html#a121c64145977cb25dfd05a3297a4d6f1" 1 "Clients"];
  entry "ping_5fdue_5ftime_367" "ping_due_time" [link "../structClients.html#a4e6f0b2b23c1a2b86899c9ca7b06b29b" 1 "Clients"];
  entry "pkeys_368" "pkeys" [link "../structMQTTClient__persistence.html#a36a69926a618f7e0f5098db61ece101b" 1 "MQTTClient_persistence"];
  entry "popen_369" "popen" [link "../structMQTTClient__persistence.html#ae58084438624ad267f7c050debd1b2ff" 1 "MQTTClient_persistence"];
  entry "pos_370" "pos" [link "../structws__frame.html#a03099256dd943b73f0558039b6ff4c6b" 1 "ws_frame"];
  entry "pput_371" "pput" [link "../structMQTTClient__persistence.html#a0f7846e9b4118a7a63702c504f4c8e9d" 1 "MQTTClient_persistence"];
  entry "premove_372" "premove" [link "../structMQTTClient__persistence.html#a815d4110bfd7f2678a60f9264b13e075" 1 "MQTTClient_persistence"];
  entry "prev_373" "prev" [link "../structListElementStruct.html#a988db5828265edf844721e841e71fffe" 1 "ListElementStruct"];
  entry "prieyecatcher_374" "PRIeyecatcher" [link "../Heap_8c.html#a8ee400b3ef078dd6b8075360a3b656a8" 1 "Heap.c"];
  entry "privatekey_375" "privateKey" [link "../structMQTTClient__SSLOptions.html#a5f3cc2c0f36991db85aae88ccd4985f9" 1 "MQTTClient_SSLOptions::privateKey()"; link "../structMQTTAsync__SSLOptions.html#a8b56d6075568072840f02abc8c642f6a" 1 "MQTTAsync_SSLOptions::privateKey()"];
  entry "privatekeypassword_376" "privateKeyPassword" [link "../structMQTTClient__SSLOptions.html#a183af235478d93a6b14c204e9e291bab" 1 "MQTTClient_SSLOptions::privateKeyPassword()"; link "../structMQTTAsync__SSLOptions.html#a498e4dfcb65894bfc04290ace6b9a4cd" 1 "MQTTAsync_SSLOptions::privateKeyPassword()"];
  entry "properties_377" "properties" [link "../structMQTTAsync__responseOptions.html#abc19c474b6908b2bcbd42f8410d46336" 1 "MQTTAsync_responseOptions::properties()"; link "../structMQTTAsync__message.html#a48ff43122b16a12b6b8a9890ebfb6410" 1 "MQTTAsync_message::properties()"; link "../structMQTTAsync__failureData5.html#a9c1807e86e398de6f4846d90b4a5eda6" 1 "MQTTAsync_failureData5::properties()"; link "../structMQTTAsync__successData5.html#ac425dfec67b3245e95a3e415d93ba5bf" 1 "MQTTAsync_successData5::properties()"; link "../structAck.html#a7eff67c84b323fc798eb3282b2981069" 1 "Ack::properties()"; link "../structPublish.html#a99fce902e497cd379686c6d447a17be3" 1 "Publish::properties()"; link "../structUnsuback.html#adc48396a054907a9806fef1dd46d1055" 1 "Unsuback::properties()"; link "../structSuback.html#a57c418a7021b10c92aec4c4d010b7f67" 1 "Suback::properties()"; link "../structConnack.html#ab5d35213eadd6bbecd56627b9680ac0c" 1 "Connack::properties()"; link "../structMQTTClient__message.html#aa24d24d388481c0616a704cabb041f95" 1 "MQTTClient_message::properties()"; link "../structMQTTAsync__disconnectOptions.html#a2df711f7d216b57a584195691ac5630f" 1 "MQTTAsync_disconnectOptions::properties()"];
  entry "props_5frc_5fparms_378" "props_rc_parms" [link "../structprops__rc__parms.html" 1 EmptyString];
  entry "protocol_379" "Protocol" [link "../structConnect.html#ab87417598de200c235ce28e8947f8804" 1 "Connect"];
  entry "protos_380" "protos" [link "../structMQTTClient__SSLOptions.html#ad3db47e7874990570d03758a3fa28dad" 1 "MQTTClient_SSLOptions::protos()"; link "../structMQTTAsync__SSLOptions.html#a9947024802d3fb16fc050f4741a46e04" 1 "MQTTAsync_SSLOptions::protos()"];
  entry "protos_5flen_381" "protos_len" [link "../structMQTTClient__SSLOptions.html#ac2df368c72cfaa432f90e3b657bd0883" 1 "MQTTClient_SSLOptions::protos_len()"; link "../structMQTTAsync__SSLOptions.html#ad9e390b02afbf856c5a9267d30f09208" 1 "MQTTAsync_SSLOptions::protos_len()"];
  entry "pstclear_382" "pstclear" [link "../MQTTPersistenceDefault_8c.html#a15b1457f7fd20dde1fd51ed434321e1a" 1 "MQTTPersistenceDefault.c"];
  entry "pstclose_383" "pstclose" [link "../MQTTPersistenceDefault_8c.html#a24f38d19ff3db61292d7b463e59174ef" 1 "MQTTPersistenceDefault.c"];
  entry "pstcontainskey_384" "pstcontainskey" [link "../MQTTPersistenceDefault_8c.html#a2a55461def3359a2b0aff6b3bb0644ad" 1 "MQTTPersistenceDefault.c"];
  entry "pstget_385" "pstget" [link "../MQTTPersistenceDefault_8c.html#a3aef9f9af29882fac9e76984e4c2954c" 1 "MQTTPersistenceDefault.c"];
  entry "pstkeys_386" "pstkeys" [link "../MQTTPersistenceDefault_8c.html#a9f358375b8e254983d00f8b057e97dd6" 1 "MQTTPersistenceDefault.c"];
  entry "pstmkdir_387" "pstmkdir" [link "../MQTTPersistenceDefault_8c.html#aecfbfa761dfca1b551d9ade325f480b1" 1 "MQTTPersistenceDefault.c"];
  entry "pstopen_388" "pstopen" [link "../MQTTPersistenceDefault_8c.html#a919cf4710a1f7d7ce0878599e9aa4700" 1 "MQTTPersistenceDefault.c"];
  entry "pstput_389" "pstput" [link "../MQTTPersistenceDefault_8c.html#a64e0c1a2fd06375b975d6643175572d8" 1 "MQTTPersistenceDefault.c"];
  entry "pstremove_390" "pstremove" [link "../MQTTPersistenceDefault_8c.html#a64b106b9a2778f97d271af7c9a7940f2" 1 "MQTTPersistenceDefault.c"];
  entry "ptr_391" "ptr" [link "../structstorageElement.html#a0d617635e796eaa92ace8cb5cd6d0925" 1 "storageElement"];
  entry "ptrcompare_392" "ptrCompare" [link "../Heap_8c.html#a45db32d4f454f94d7f4574deced5ee33" 1 "Heap.c"];
  entry "pub_393" "pub" [link "../structMQTTAsync__successData5.html#a7e75879a42ba01477a3c921487e3c564" 1 "MQTTAsync_successData5::pub()"; link "../structMQTTAsync__successData.html#a61d994959ff1350ab2a0986d33ecd204" 1 "MQTTAsync_successData::pub()"];
  entry "publications_394" "Publications" [link "../structPublications.html" 1 EmptyString];
  entry "publish_395" "Publish" [link "../structPublish.html" 1 EmptyString]].
Definition all_10 : list SearchEntry := [
  entry "qentry_396" "qEntry" [link "../structqEntry.html" 1 EmptyString];
  entry "qos_397" "qos" [link "../structMQTTAsync__message.html#a6e0971dbde0f04b6dd3bfab97ad5cdb7" 1 "MQTTAsync_message::qos()"; link "../structMQTTAsync__successData.html#af12fc9f6b7a42449f8299e5a8e4f0e7e" 1 "MQTTAsync_successData::qos()"; link "../structMQTTAsync__willOptions.html#add4a18313308fec634c69842f6ab9809" 1 "MQTTAsync_willOptions::qos()"; link "../structMQTTClient__message.html#ab981c28422ec70dbf8127a4f7164d964" 1 "MQTTClient_message::qos()"; link "../structMQTTClient__willOptions.html#a10a24c6ed7a204e6eb21d48ad8fb13cb" 1 "MQTTClient_willOptions::qos()"; link "../unionHeader.html#ae74f40c0e3656880e35ee93e79331f84" 1 "Header::qos()"];
  entry "qoslist_398" "qosList" [link "../structMQTTAsync__successData.html#aa4ad4a4023c5b9796e44b9dfd0df53e7" 1 "MQTTAsync_successData"];
  entry "qoss_399" "qoss" [link "../structSuback.html#a7769bd0751e462641636354d36505c28" 1 "Suback"];
  entry "queues_400" "queues" [link "../SocketBuffer_8c.html#aa8b85db4dca13d13c2b7fc704420323a" 1 "SocketBuffer.c"]].
Definition all_11 : list SearchEntry := [
  entry "rc_401" "rc" [link "../structAck.html#a54d6ed9d045c38877e27bdf5802e3efe" 1 "Ack::rc()"; link "../structConnack.html#a5a963839f48e7f1319af687621f6e3ec" 1 "Connack::rc()"];
  entry "readchar_402" "readChar" [link "../MQTTPacket_8c.html#aff1d10b221f5b4ce421b4c2588cbe511" 1 "MQTTPacket.c"];
  entry "readint_403" "readInt" [link "../MQTTPacket_8c.html#a132d2d5b304d37cd2348a973f7b315de" 1 "MQTTPacket.c"];
  entry "readint4_404" "readInt4" [link "../MQTTPacket_8c.html#a84586f1ffeb9d37e7aeb695ec5bebe1d" 1 "MQTTPacket.c"];
  entry "readutf_405" "readUTF" [link "../MQTTPacket_8c.html#adca3afbe588ae7e6f342c5a697e4ee45" 1 "MQTTPacket.c"];
  entry "readutflen_406" "readUTFlen" [link "../MQTTPacket_8c.html#ae1ec2d8714335c6ec88c93e957b644d2" 1 "MQTTPacket.c"];
  entry "reasoncode_407" "reasonCode" [link "../structMQTTAsync__failureData5.html#a42afb6bf2c55f9830dc1d0984b251019" 1 "MQTTAsync_failureData5::reasonCode()"; link "../structMQTTAsync__successData5.html#a966b7fc75d0b1fbbc9791aa3eeef06a5" 1 "MQTTAsync_successData5::reasonCode()"; link "../structMQTTAsync__disconnectOptions.html#af99498836b80011b4e38a9aa18772921" 1 "MQTTAsync_disconnectOptions::reasonCode()"];
  entry "reasoncodecount_408" "reasonCodeCount" [link "../structMQTTAsync__successData5.html#a0bfa041c9ce783614786235c650a80aa" 1 "MQTTAsync_successData5"];
  entry "reasoncodes_409" "reasonCodes" [link "../structUnsuback.html#ac5fabab5aa00869b6ef4901cb4849122" 1 "Unsuback::reasonCodes()"; link "../structMQTTAsync__successData5.html#abe4fb1e0907a7a1e77fdb6851879b605" 1 "MQTTAsync_successData5::reasonCodes()"];
  entry "reliable_410" "reliable" [link "../structMQTTClient__connectOptions.html#acd6367d7a402e7b668f8ec9760cd42c8" 1 "MQTTClient_connectOptions"];
  entry "reserved_411" "reserved" [link "../structConnack.html#a455bf40d0da52ccfd9b546e7fa23b1d0" 1 "Connack"];
  entry "retain_412" "retain" [link "../unionHeader.html#afa52b52e4b84075cf31612a6ac3a0299" 1 "Header"];
  entry "retainaspublished_413" "retainAsPublished" [link "../structMQTTSubscribe__options.html#a9c66f0773c0484dde0e582b4c47d9bf7" 1 "MQTTSubscribe_options"];
  entry "retained_414" "retained" [link "../structMQTTClient__message.html#aad83220f265db124174ad79f528bb367" 1 "MQTTClient_message::retained()"; link "../structMQTTClient__willOptions.html#a09d69c3e208f40ab963dbd0ac2edcd5b" 1 "MQTTClient_willOptions::retained()"; link "../structMQTTAsync__willOptions.html#ab61a8f7cd82a4cbd919625031b1b51d6" 1 "MQTTAsync_willOptions::retained()"; link "../structMQTTAsync__message.html#a680f5368d5a13ff605466ab6a3d881bd" 1 "MQTTAsync_message::retained()"];
  entry "retainhandling_415" "retainHandling" [link "../structMQTTSubscribe__options.html#a8375543f39c16e32698226db118076e6" 1 "MQTTSubscribe_options"];
  entry "retryinterval_416" "retryInterval" [link "../structClients.html#a6b2188e352433ff089b1b7d08976a63b" 1 "Clients::retryInterval()"; link "../structMQTTAsync__connectOptions.html#a7f4026dad0479c6658aac68d719950a1" 1 "MQTTAsync_connectOptions::retryInterval()"; link "../structMQTTClient__connectOptions.html#aabeb07cc7a2aa18fc1fb365503185c62" 1 "MQTTClient_connectOptions::retryInterval()"];
  entry "returned_417" "returned" [link "../structMQTTClient__connectOptions.html#a198e91c4adb81b5851cbd5c2eb14424e" 1 "MQTTClient_connectOptions"];
  entry "root_418" "root" [link "../structTree.html#ad8e46ce0aead5778cbdd784d1e370d5f" 1 "Tree"]].
Definition all_12 : list SearchEntry := [
  entry "sendwhiledisconnected_419" "sendWhileDisconnected" [link "../structMQTTAsync__createOptions.html#a7142a01ee58f39a950f8627c4bb05318" 1 "MQTTAsync_createOptions"];
  entry "serveruri_420" "serverURI" [link "../structMQTTClient__connectOptions.html#a31f882b2966272a53b2bee33cb1aea8c" 1 "MQTTClient_connectOptions::serverURI()"; link "../structMQTTAsync__successData5.html#ad5af721250d01a2d0a4d1cd7932b81eb" 1 "MQTTAsync_successData5::serverURI()"; link "../structMQTTAsync__successData.html#a622eceefeaf9679af35841b1e7564f48" 1 "MQTTAsync_successData::serverURI()"];
  entry "serveruricount_421" "serverURIcount" [link "../structMQTTClient__connectOptions.html#a71667cbc2aa857db5b831a1e6a4a1ec9" 1 "MQTTClient_connectOptions::serverURIcount()"; link "../structMQTTAsync__connectOptions.html#ae772aa4b3707c5c11d6be39f51ec4551" 1 "MQTTAsync_connectOptions::serverURIcount()"];
  entry "serveruris_422" "serverURIs" [link "../structMQTTClient__connectOptions.html#aec63485af96db24d26868d3a19a83504" 1 "MQTTClient_connectOptions::serverURIs()"; link "../structMQTTAsync__connectOptions.html#a50f0a294c8f7311ccd7f7803b432bb69" 1 "MQTTAsync_connectOptions::serverURIs()"];
  entry "sessionexpiry_423" "sessionExpiry" [link "../structClients.html#a54641954e17c0aef4e742c0a1e3e8391" 1 "Clients"];
  entry "sessionpresent_424" "sessionPresent" [link "../structMQTTAsync__successData5.html#ab8a0f5e336f3abe06921a22a5a134ab2" 1 "MQTTAsync_successData5::sessionPresent()"; link "../structMQTTAsync__successData.html#a71879fec2eb0c6b891a48ed813b2a9da" 1 "MQTTAsync_successData::sessionPresent()"; link "../structMQTTClient__connectOptions.html#a2ed78107fecaa4639a170f63ca42d507" 1 "MQTTClient_connectOptions::sessionPresent()"; link "../structConnack.html#a57f2834e64d4e3ff4f73012491f73f48" 1 "Connack::sessionPresent()"];
  entry "sha_5fctx_5fs_425" "SHA_CTX_S" [link "../structSHA__CTX__S.html" 1 EmptyString];
  entry "size_426" "size" [link "../structstorageElement.html#ac19ad736a483a3d3b3a5d6d6cd3ecfcf" 1 "storageElement::size()"; link "../structList.html#a166530a166abd81afec0e6b0283f7e80" 1 "List::size()"; link "../structNodeStruct.html#a4ac882ab7e5ab868d9449aec51a25adb" 1 "NodeStruct::size()"; link "../structTree.html#a784563aee04c7123724fceb5d56a0e6a" 1 "Tree::size()"];
  entry "socket_2ec_427" "Socket.c" [link "../Socket_8c.html" 1 EmptyString];
  entry "socket_5fabortwrite_428" "Socket_abortWrite" [link "../Socket_8c.html#aa24d7c85b03f09f16c78de0c1a9b3580" 1 "Socket.c"];
  entry "socket_5faddpendingwrite_429" "Socket_addPendingWrite" [link "../Socket_8c.html#a65be62649c8529bcafa111e37ffcb5d2" 1 "Socket.c"];
  entry "socket_5faddsocket_430" "Socket_addSocket" [link "../Socket_8c.html#a4c933d467e9ab2848b9590fe45f21f2f" 1 "Socket.c"];
  entry "socket_5fclearpendingwrite_431" "Socket_clearPendingWrite" [link "../Socket_8c.html#a3274d9743dd4d1c6e9392b74164d6379" 1 "Socket.c"];
  entry "socket_5fclose_432" "Socket_close" [link "../Socket_8c.html#a9da80ce7e69ae76dee95c94a2349c462" 1 "Socket.c"];
  entry "socket_5fclose_5fonly_433" "Socket_close_only" [link "../Socket_8c.html#a0e0f2981efa6caf604e8f0fc1072af90" 1 "Socket.c"];
  entry "socket_5fcontinuewrite_434" "Socket_continueWrite" [link "../Socket_8c.html#aa77cff9e8173f9b8d35d062558d0cb57" 1 "Socket.c"];
  entry "socket_5fcontinuewrites_435" "Socket_continueWrites" [link "../Socket_8c.html#ac176152ef036b6cfd7330a9481a7b2ed" 1 "Socket.c"];
  entry "socket_5ferror_436" "Socket_error" [link "../Socket_8c.html#a39a32a0495e5cba033f3c7fee72ae797" 1 "Socket.c"];
  entry "socket_5fgetaddrname_437" "Socket_getaddrname" [link "../Socket_8c.html#a212e51c4ce12e19be59c4d0f93cfb5d9" 1 "Socket.c"];
  entry "socket_5fgetch_438" "Socket_getch" [link "../Socket_8c.html#a01e567eb0c5db3193aaa02f117fd1137" 1 "Socket.c"];
  entry "socket_5fgetdata_439" "Socket_getdata" [link "../Socket_8c.html#a12c397b0fb6187db7a66a44041055a13" 1 "Socket.c"];
  entry "socket_5fgetpeer_440" "Socket_getpeer" [link "../Socket_8c.html#af10088907080a5c517ee23ac022f6538" 1 "Socket.c"];
  entry "socket_5fgetreadysocket_441" "Socket_getReadySocket" [link "../Socket_8c.html#ab33a53c9fce80d5dfeb26426b157034a" 1 "Socket.c"];
  entry "socket_5fnew_442" "Socket_new" [link "../Socket_8c.html#accf7d8d1529e31b2ad8286627cb662c0" 1 "Socket.c"];
  entry "socket_5fnopendingwrites_443" "Socket_noPendingWrites" [link "../Socket_8c.html#a457d9a6a9d8e886c46fcd0c096f45614" 1 "Socket.c"];
  entry "socket_5foutinitialize_444" "Socket_outInitialize" [link "../Socket_8c.html#a573a6eea727016f3e8770f60e5eed958" 1 "Socket.c"];
  entry "socket_5foutterminate_445" "Socket_outTerminate" [link "../Socket_8c.html#af365aa1d5a29ffcb83bb15edaf3401e6" 1 "Socket.c"];
  entry "socket_5fputdatas_446" "Socket_putdatas" [link "../Socket_8c.html#a8fac284bb799c180ef68bb5c7b4b1df4" 1 "Socket.c"];
  entry "socket_5fqueue_447" "socket_queue" [link "../structsocket__queue.html" 1 EmptyString];
  entry "socket_5fsetnonblocking_448" "Socket_setnonblocking" [link "../Socket_8c.html#ab8ff50df7c89391178aa754083d2f828" 1 "Socket.c"];
  entry "socket_5fwritev_449" "Socket_writev" [link "../Socket_8c.html#a550291985042dc080825ab27b16894fb" 1 "Socket.c"];
  entry "socketbuffer_2ec_450" "SocketBuffer.c" [link "../SocketBuffer_8c.html" 1 EmptyString];
  entry "socketbuffer_5fcleanup_451" "SocketBuffer_cleanup" [link "../SocketBuffer_8c.html#abb5eae96f4c62d1e6fefed8d078ecba8" 1 "SocketBuffer.c"];
  entry "socketbuffer_5fcomplete_452" "SocketBuffer_complete" [link "../SocketBuffer_8c.html#a8b7b6acbf2ec65796c32da7fd55c3ee8" 1 "SocketBuffer.c"];
  entry "socketbuffer_5ffreedefq_453" "SocketBuffer_freeDefQ" [link "../SocketBuffer_8c.html#acb4511a3a4767187a2607027aff718b8" 1 "SocketBuffer.c"];
  entry "socketbuffer_5fgetqueuedchar_454" "SocketBuffer_getQueuedChar" [link "../SocketBuffer_8c.html#a999ec229faa4b2e2c0f7db87693bc1f8" 1 "SocketBuffer.c"];
  entry "socketbuffer_5fgetqueueddata_455" "SocketBuffer_getQueuedData" [link "../SocketBuffer_8c.html#afcc9b9b6bd255b0a6e4c7e4f5a36bb37" 1 "SocketBuffer.c"];
  entry "socketbuffer_5fgetwrite_456" "SocketBuffer_getWrite" [link "../SocketBuffer_8c.html#a524311e577a7225a09fb944904c17886" 1 "SocketBuffer.c"];
  entry "socketbuffer_5finitialize_457" "SocketBuffer_initialize" [link "../SocketBuffer_8c.html#abc8599ffc6f7ad91a7748e5d78bbd926" 1 "SocketBuffer.c"];
  entry "socketbuffer_5finterrupted_458" "SocketBuffer_interrupted" [link "../SocketBuffer_8c.html#a412a40b44b12901e63e662ac0e5be0af" 1 "SocketBuffer.c"];
  entry "socketbuffer_5fnewdefq_459" "SocketBuffer_newDefQ" [link "../SocketBuffer_8c.html#a9293d4ef45aa2a51baab9be4eb73091b" 1 "SocketBuffer.c"];
  entry "socketbuffer_5fpendingwrite_460" "SocketBuffer_pendingWrite" [link "../SocketBuffer_8c.html#aa61a564b814b06d9cfd3fe9ce7ab1cf7" 1 "SocketBuffer.c"];
  entry "socketbuffer_5fqueuechar_461" "SocketBuffer_queueChar" [link "../SocketBuffer_8c.html#a2f6bac9a46fd116e58071ff49152d716" 1 "SocketBuffer.c"];
  entry "socketbuffer_5fterminate_462" "SocketBuffer_terminate" [link "../SocketBuffer_8c.html#a4a8d6188b4775789810a44396d05cf19" 1 "SocketBuffer.c"];
  entry "socketbuffer_5fupdatewrite_463" "SocketBuffer_updateWrite" [link "../SocketBuffer_8c.html#a7ba9075e011f49302304ce7b2d8e5b59" 1 "SocketBuffer.c"];
  entry "socketbuffer_5fwritecomplete_464" "SocketBuffer_writeComplete" [link "../SocketBuffer_8c.html#ae8667990c5933c3af9b90a163bba34dc" 1 "SocketBuffer.c"];
  entry "socketcompare_465" "socketcompare" [link "../SocketBuffer_8c.html#acebc1cbb93be4588f33b04ed404f6dbf" 1 "SocketBuffer.c"];
  entry "sockets_466" "Sockets" [link "../structSockets.html" 1 EmptyString];
  entry "ssl_467" "ssl" [link "../structMQTTClient__connectOptions.html#a4e6be3b2292800db30c65dd66af85976" 1 "MQTTClient_connectOptions::ssl()"; link "../structMQTTAsync__connectOptions.html#a04c88f4a4aba7ca2cfbd9ee5455f0850" 1 "MQTTAsync_connectOptions::ssl()"];
  entry "ssl_5ferror_5fcb_468" "ssl_error_cb" [link "../structMQTTClient__SSLOptions.html#a997877b8c152310bc342202807ea1165" 1 "MQTTClient_SSLOptions::ssl_error_cb()"; link "../structMQTTAsync__SSLOptions.html#a5214f2bfb8c6571c231792bb9560b00b" 1 "MQTTAsync_SSLOptions::ssl_error_cb()"];
  entry "ssl_5ferror_5fcontext_469" "ssl_error_context" [link "../structMQTTClient__SSLOptions.html#aeb2a43fde9dfc5627fda508a373bccfc" 1 "MQTTClient_SSLOptions::ssl_error_context()"; link "../structMQTTAsync__SSLOptions.html#aa3af8ec1e7dd0f3921cb5eaddffe955d" 1 "MQTTAsync_SSLOptions::ssl_error_context()"];
  entry "ssl_5fpsk_5fcb_470" "ssl_psk_cb" [link "../structMQTTClient__SSLOptions.html#a38ecc397cbe9e2042b77c7a52c9ccc35" 1 "MQTTClient_SSLOptions::ssl_psk_cb()"; link "../structMQTTAsync__SSLOptions.html#a6ccefb9910bc96b326298c0db67ce185" 1 "MQTTAsync_SSLOptions::ssl_psk_cb()"];
  entry "ssl_5fpsk_5fcontext_471" "ssl_psk_context" [link "../structMQTTClient__SSLOptions.html#ad459c7e3ab9f4558e9f239bf9b15f131" 1 "MQTTClient_SSLOptions::ssl_psk_context()"; link "../structMQTTAsync__SSLOptions.html#a9cf93d98a2382b374b1e9bbf9a910d5e" 1 "MQTTAsync_SSLOptions::ssl_psk_context()"];
  entry "sslsocket_2ec_472" "SSLSocket.c" [link "../SSLSocket_8c.html" 1 EmptyString];
  entry "sslversion_473" "sslVersion" [link "../structMQTTClient__SSLOptions.html#ace536bef1f2e763f28e761c0e3e3bdbe" 1 "MQTTClient_SSLOptions::sslVersion()"; link "../structMQTTAsync__SSLOptions.html#ad14df49c90828d0d0efd93e707c3a4a6" 1 "MQTTAsync_SSLOptions::sslVersion()"];
  entry "stackentry_474" "stackEntry" [link "../structstackEntry.html" 1 EmptyString];
  entry "state_475" "state" [link "../Heap_8c.html#a20b83c8e52be131ca41d22b8bf2c3b38" 1 "Heap.c"];
  entry "storageelement_476" "storageElement" [link "../structstorageElement.html" 1 EmptyString];
  entry "stringcompare_477" "stringcompare" [link "../LinkedList_8c.html#a936806c4b6f6c10d91cc128b63ab110c" 1 "LinkedList.c"];
  entry "struct_5fid_478" "struct_id" [link "../structMQTTAsync__SSLOptions.html#a43ec1e81ca408162f4b8496ba7f6da75" 1 "MQTTAsync_SSLOptions::struct_id()"; link "../structMQTTSubscribe__options.html#a2fe9d45e9ee31af976a232584d5a2409" 1 "MQTTSubscribe_options::struct_id()"; link "../structMQTTClient__connectOptions.html#ab2e2302e3cc1105d6c93ae1e8205d60c" 1 "MQTTClient_connectOptions::struct_id()"; link "../structMQTTClient__SSLOptions.html#a931062a739a44b9879bb181514070d75" 1 "MQTTClient_SSLOptions::struct_id()"; link "../structMQTTClient__willOptions.html#a6b64d983ab8586bc87c9c22b352a9717" 1 "MQTTClient_willOptions::struct_id()"; link "../structMQTTClient__createOptions.html#ada7ad105de2fd2307a48a75fa598854f" 1 "MQTTClient_createOptions::struct_id()"; link "../structMQTTClient__message.html#a7f5160eeef15b17f7c8ac493015f558d" 1 "MQTTClient_message::struct_id()"; link "../structMQTTClient__init__options.html#a1f162f079abc3f79c054715c0e5f71ad" 1 "MQTTClient_init_options::struct_id()"; link "../structMQTTAsync__disconnectOptions.html#a4a436daa9d391038e6e5748c31efb257" 1 "MQTTAsync_disconnectOptions::struct_id()"; link "../structMQTTAsync__connectOptions.html#ae6831f945c1353cd1fce5d94a5d0f54d" 1 "MQTTAsync_connectOptions::struct_id()"; link "../structMQTTAsync__willOptions.html#acc521d748a6a9806d8c839075e178a90" 1 "MQTTAsync_willOptions::struct_id()"; link "../structMQTTAsync__createOptions.html#afff54eb461a8ec8544a36f09d33f07c2" 1 "MQTTAsync_createOptions::struct_id()"; link "../structMQTTAsync__responseOptions.html#a4b82d5aca6f990de991c87c34f8a7d02" 1 "MQTTAsync_responseOptions::struct_id()"; link "../structMQTTAsync__successData5.html#a25e5058a92e35c2cb7c86a5de45cba9d" 1 "MQTTAsync_successData5::struct_id()"; link "../structMQTTAsync__failureData5.html#ab1408c66810d6761ec8b77190581f3bb" 1 "MQTTAsync_failureData5::struct_id()"; link "../structMQTTAsync__connectData.html#a0a5e8e4e111450187e0760dc04a6f26e" 1 "MQTTAsync_connectData::struct_id()"; link "../structMQTTAsync__message.html#a4621b522c9923c68003d30e9dba9aa4e" 1 "MQTTAsync_message::struct_id()"; link "../structMQTTAsync__init__options.html#a1f3cf365b97f7b7a362c4a6ca8eb5a42" 1 "MQTTAsync_init_options::struct_id()"];
  entry "struct_5fversion_479" "struct_version" [link "../structMQTTSubscribe__options.html#aed5f22c185be62363ac36df1d3778c6d" 1 "MQTTSubscribe_options::struct_version()"; link "../structMQTTAsync__message.html#af79efdfc9a4e082cbbafaed8fd333ce1" 1 "MQTTAsync_message::struct_version()"; link "../structMQTTClient__connectOptions.html#a0b07612dc569b59f7f937ff0c518a1bb" 1 "MQTTClient_connectOptions::struct_version()"; link "../structMQTTClient__SSLOptions.html#a770248be4bf5020b0f57f770afdaca7d" 1 "MQTTClient_SSLOptions::struct_version()"; link "../structMQTTClient__willOptions.html#af05e1e3e865af050c5fefac5e597cc7a" 1 "MQTTClient_willOptions::struct_version()"; link "../structMQTTClient__createOptions.html#ae94f345f0f147ed31b8fbd0cb6ebc784" 1 "MQTTClient_createOptions::struct_version()"; link "../structMQTTClient__message.html#a27b983a1ac95eb5c335d40840129c0c8" 1 "MQTTClient_message::struct_version()"; link "../structMQTTClient__init__options.html#abf7d43d1e40265cf8ff1ca4266fff0e6" 1 "MQTTClient_init_options::struct_version()"; link "../structMQTTAsync__disconnectOptions.html#aef6853e3c56c83ca3b49250578417848" 1 "MQTTAsync_disconnectOptions::struct_version()"; link "../structMQTTAsync__connectOptions.html#a013018a3b17149d482051a1be78ac984" 1 "MQTTAsync_connectOptions::struct_version()"; link "../structMQTTAsync__SSLOptions.html#a6240108041774c99720c17afa45d4814" 1 "MQTTAsync_SSLOptions::struct_version()"; link "../structMQTTAsync__willOptions.html#a1b53c99ddd236e4b796bb90e035ed30b" 1 "MQTTAsync_willOptions::struct_version()"; link "../structMQTTAsync__createOptions.html#a884363e807ef160450e64f7eb6ef0044" 1 "MQTTAsync_createOptions::struct_version()"; link "../structMQTTAsync__responseOptions.html#aabf57368b8266f17e7951579897f7f66" 1 "MQTTAsync_responseOptions::struct_version()"; link "../structMQTTAsync__successData5.html#a52c4260e2005d2067f3cccc70d7b4758" 1 "MQTTAsync_successData5::struct_version()"; link "../structMQTTAsync__failureData5.html#afc4100c8f3126342b75e60dcd720836f" 1 "MQTTAsync_failureData5::struct_version()"; link "../structMQTTAsync__connectData.html#afb621feeaf54da918d9c5cfd084a1656" 1 "MQTTAsync_connectData::struct_version()"; link "../structMQTTAsync__init__options.html#ad2a3507b60ec188dff83962192153991" 1 "MQTTAsync_init_options::struct_version()"];
  entry "sub_480" "sub" [link "../structMQTTAsync__successData5.html#ab3131c77b8bf772ea06ee580816ebc32" 1 "MQTTAsync_successData5"];
  entry "suback_481" "Suback" [link "../structSuback.html" 1 EmptyString]].
Definition all_13 : list SearchEntry := [
  entry "thread_2ec_482" "Thread.c" [link "../Thread_8c.html" 1 EmptyString];
  entry "thread_5fcheck_5fsem_483" "Thread_check_sem" [link "../Thread_8c.html#ad327c467c568b27be4c3676fc698e129" 1 "Thread.c"];
  entry "thread_5fcreate_5fcond_484" "Thread_create_cond" [link "../Thread_8c.html#afdd152c518f968c777012d7dfb20ef96" 1 "Thread.c"];
  entry "thread_5fcreate_5fsem_485" "Thread_create_sem" [link "../Thread_8c.html#a3b9b6cb543ee55442d2037a971f651db" 1 "Thread.c"];
  entry "thread_5fdestroy_5fcond_486" "Thread_destroy_cond" [link "../Thread_8c.html#a95309628f2c15de1f3ea8047b086a707" 1 "Thread.c"];
  entry "thread_5fdestroy_5fsem_487" "Thread_destroy_sem" [link "../Thread_8c.html#ad075ec07f801ac1a2a7dee7097048182" 1 "Thread.c"];
  entry "thread_5fpost_5fsem_488" "Thread_post_sem" [link "../Thread_8c.html#ac023f527bed9c6c3a20244fa7efe272c" 1 "Thread.c"];
  entry "thread_5fsignal_5fcond_489" "Thread_signal_cond" [link "../Thread_8c.html#a7b0d40dc1603a6e93db0ee970bb6750f" 1 "Thread.c"];
  entry "thread_5fwait_5fcond_490" "Thread_wait_cond" [link "../Thread_8c.html#acd23266878de6faaee0a972ef74c4db6" 1 "Thread.c"];
  entry "thread_5fwait_5fsem_491" "Thread_wait_sem" [link "../Thread_8c.html#a4d0bbfc059da3cd10626244d3468d319" 1 "Thread.c"];
  entry "threadentry_492" "threadEntry" [link "../structthreadEntry.html" 1 EmptyString];
  entry "timeout_493" "timeout" [link "../structMQTTAsync__disconnectOptions.html#a71f6175d58e01af30b064c19967d42ca" 1 "MQTTAsync_disconnectOptions"];
  entry "token_494" "token" [link "../structMQTTAsync__successData.html#afd00f6f09b4cd92b5815202fc339be68" 1 "MQTTAsync_successData::token()"; link "../structMQTTAsync__successData5.html#ab31fe8cffc2ff14c1ebaee1a12feb787" 1 "MQTTAsync_successData5::token()"; link "../structMQTTAsync__responseOptions.html#aaf6926989620579f2590cdaf1ff16bfe" 1 "MQTTAsync_responseOptions::token()"; link "../structMQTTAsync__failureData5.html#af3be141ec32e131429a1ea9df6386eb5" 1 "MQTTAsync_failureData5::token()"; link "../structMQTTAsync__failureData.html#a9f3af8dc8c24876c319bc466188440d7" 1 "MQTTAsync_failureData::token()"];
  entry "topic_495" "topic" [link "../structPublish.html#af25a32a9a9bccf70af72fa5a19fa7864" 1 "Publish"];
  entry "topicname_496" "topicName" [link "../structMQTTAsync__willOptions.html#a19983de96d2ae2df35c588e36200374e" 1 "MQTTAsync_willOptions::topicName()"; link "../structMQTTClient__willOptions.html#a9273da2e77ed9b60b018b43c8d868d47" 1 "MQTTClient_willOptions::topicName()"];
  entry "trace_5fdestination_497" "trace_destination" [link "../Log_8c.html#a29606f1185cb957cd23842125d7d8ecd" 1 "Log.c"];
  entry "trace_5fdestination_5fbackup_5fname_498" "trace_destination_backup_name" [link "../Log_8c.html#a6e2c5a6602ec82079f7b7c3c1a622f8a" 1 "Log.c"];
  entry "trace_5fdestination_5fname_499" "trace_destination_name" [link "../Log_8c.html#aa46cc371a2f34c92be9e5df8ac162566" 1 "Log.c"];
  entry "trace_5flevel_500" "trace_level" [link "../structtrace__settings__type.html#a169138f5e03c0408ca30820418dcf186" 1 "trace_settings_type"];
  entry "trace_5foutput_5flevel_501" "trace_output_level" [link "../structtrace__settings__type.html#af861eec94e990b63af949f50d630ee0d" 1 "trace_settings_type"];
  entry "trace_5fsettings_5ftype_502" "trace_settings_type" [link "../structtrace__settings__type.html" 1 EmptyString];
  entry "traceentry_503" "traceEntry" [link "../structtraceEntry.html" 1 EmptyString];
  entry "tree_504" "Tree" [link "../structTree.html" 1 EmptyString];
  entry "tree_2ec_505" "Tree.c" [link "../Tree_8c.html" 1 EmptyString];
  entry "treeaddbyindex_506" "TreeAddByIndex" [link "../Tree_8c.html#afa8473167abb71831644bf8a322bc3b6" 1 "Tree.c"];
  entry "treeinitialize_507" "TreeInitialize" [link "../Tree_8c.html#aa5ee1e466d266b289dc45cbd97116b83" 1 "Tree.c"];
  entry "treeremoveindex_508" "TreeRemoveIndex" [link "../Tree_8c.html#a1263bdfc6a906db3023ca1a6ad5302a4" 1 "Tree.c"];
  entry "treeremovenodeindex_509" "TreeRemoveNodeIndex" [link "../Tree_8c.html#a9c3b81e7e63498e3a8f7bd28c4caec10" 1 "Tree.c"];
  entry "truststore_510" "trustStore" [link "../structMQTTClient__SSLOptions.html#a4583779998f6b3b51c7c1d3226701a4c" 1 "MQTTClient_SSLOptions::trustStore()"; link "../structMQTTAsync__SSLOptions.html#a90760033b5ae9962126770c3527603fd" 1 "MQTTAsync_SSLOptions::trustStore()"];
  entry "type_511" "type" [link "../unionHeader.html#a05b7c9c6b02e41c54899caee9fdd50d6" 1 "Header"]].
Definition all_14 : list SearchEntry := [
  entry "unsub_512" "unsub" [link "../structMQTTAsync__successData5.html#a8f6209416359018b215c22008f08bc9c" 1 "MQTTAsync_successData5"];
  entry "unsuback_513" "Unsuback" [link "../structUnsuback.html" 1 EmptyString];
  entry "upper_514" "upper" [link "../utf-8_8c.html#a716463de5d02ad40678f2376abcdd90a" 1 "utf-8.c"];
  entry "username_515" "username" [link "../structClients.html#af8cc24a8d289b4950b7c929b03cba031" 1 "Clients::username()"; link "../structMQTTAsync__connectData.html#ac239ae2f64049458d1b7ae6110c86657" 1 "MQTTAsync_connectData::username()"; link "../structMQTTAsync__connectOptions.html#ae03dec50fd54f49582e50883072ea81e" 1 "MQTTAsync_connectOptions::username()"; link "../structMQTTClient__connectOptions.html#a82e337534835601827defa911325299a" 1 "MQTTClient_connectOptions::username()"; link "../structConnect.html#a68d27f5f6b5fad14969d69340acfc5e9" 1 "Connect::username()"];
  entry "utf_2d8_2ec_516" "utf-8.c" [link "../utf-8_8c.html" 1 EmptyString];
  entry "utf8_5fchar_5fvalidate_517" "UTF8_char_validate" [link "../utf-8_8c.html#a9727caa7417e6bed8cfad4121a22628d" 1 "utf-8.c"];
  entry "utf8_5fvalidate_518" "UTF8_validate" [link "../utf-8_8c.html#ad2012627fca4b4bdd9f67bde49b0d1cb" 1 "utf-8.c"];
  entry "utf8_5fvalidatestring_519" "UTF8_validateString" [link "../utf-8_8c.html#a4f3cf77538d867bb5b421bcb687dccdf" 1 "utf-8.c"]].
Definition all_15 : list SearchEntry := [
  entry "valid_5franges_520" "valid_ranges" [link "../utf-8_8c.html#a03bdcd5f0e47e86161d8f8a6e6d2ed1d" 1 "utf-8.c"];
  entry "value_521" "value" [link "../structMQTTAsync__nameValue.html#abbedbc0cab6677016451fe6c62553f35" 1 "MQTTAsync_nameValue::value()"; link "../structMQTTProperty.html#a43389d2bd2814580edc9ea59933cbe25" 1 "MQTTProperty::value()"; link "../structMQTTProperty.html#a1d54fb750a1783debd04c57ecb907332" 1 "MQTTProperty::value()"];
  entry "verify_522" "verify" [link "../structMQTTAsync__SSLOptions.html#af3a54c718001dc76eb77d2f35fc31301" 1 "MQTTAsync_SSLOptions::verify()"; link "../structMQTTClient__SSLOptions.html#a61dd2a56858da45451f45640b056189d" 1 "MQTTClient_SSLOptions::verify()"];
  entry "version_523" "version" [link "../structConnect.html#a35cba4252092877e572c5c74b41be6e2" 1 "Connect"]].
Definition all_16 : list SearchEntry := [
  entry "websocket_524" "websocket" [link "../structnetworkHandles.html#a01839c3f477c9f737c13f7e2c994e5cc" 1 "networkHandles"];
  entry "will_525" "will" [link "../structClients.html#ad593ed8add1448fe1f1e01b4d60f28a7" 1 "Clients::will()"; link "../structMQTTAsync__connectOptions.html#a2190db10b854d016a291ccb378c3eda2" 1 "MQTTAsync_connectOptions::will()"; link "../structMQTTClient__connectOptions.html#a8d51a29a49d2a964d5079c9bae3fcffd" 1 "MQTTClient_connectOptions::will()"; link "../structConnect.html#a9dc30d7b95feb8e55e98514cad4066bd" 1 "Connect::will()"];
  entry "willmessages_526" "willMessages" [link "../structwillMessages.html" 1 EmptyString];
  entry "willmsg_527" "willMsg" [link "../structConnect.html#a525eb0974d4e5b3158808e0bb23f03e6" 1 "Connect"];
  entry "willproperties_528" "willProperties" [link "../structMQTTAsync__connectOptions.html#ab72dbcdcff60e5dd79ac8fcea0e31478" 1 "MQTTAsync_connectOptions"];
  entry "willqos_529" "willQoS" [link "../structConnect.html#a91e5dd7084da0e9a40397c5532de5ef9" 1 "Connect"];
  entry "willretain_530" "willRetain" [link "../structConnect.html#a0810709a016db0b8be49fc6f859bab39" 1 "Connect"];
  entry "willtopic_531" "willTopic" [link "../structConnect.html#a8e0ff745f3800cf1a56a0cd467b5138e" 1 "Connect"];
  entry "write_5fpending_532" "write_pending" [link "../structSockets.html#a852db7c3edf654d8ee451be18b3f5743" 1 "Sockets"];
  entry "writechar_533" "writeChar" [link "../MQTTPacket_8c.html#ad29ec8b2fbf0ec0195621b44f8945923" 1 "MQTTPacket.c"];
  entry "writedata_534" "writeData" [link "../MQTTPacket_8c.html#a8886398fbf89872f8e593444d351a5aa" 1 "MQTTPacket.c"];
  entry "writeint_535" "writeInt" [link "../MQTTPacket_8c.html#a07aa0146eda3d32979142e7df8ad5fc3" 1 "MQTTPacket.c"];
  entry "writeint4_536" "writeInt4" [link "../MQTTPacket_8c.html#aa9130985a524757f3f0d4e00d21cd680" 1 "MQTTPacket.c"];
  entry "writes_537" "writes" [link "../SocketBuffer_8c.html#a913f78789f0cbfb26a5dcf6618d51d87" 1 "SocketBuffer.c"];
  entry "writeutf_538" "writeUTF" [link "../MQTTPacket_8c.html#af0fcaa11ac05ce448a433a53f9cae420" 1 "MQTTPacket.c"];
  entry "ws_5fframe_539" "ws_frame" [link "../structws__frame.html" 1 EmptyString]].
Definition classes_0 : list SearchEntry := [
  entry "ack_540" "Ack" [link "../structAck.html" 1 EmptyString];
  entry "ackrequest_541" "AckRequest" [link "../structAckRequest.html" 1 EmptyString]].
Definition classes_1 : list SearchEntry := [
  entry "clients_542" "Clients" [link "../structClients.html" 1 EmptyString];
  entry "clientstates_543" "ClientStates" [link "../structClientStates.html" 1 EmptyString];
  entry "cond_5ftype_5fstruct_544" "cond_type_struct" [link "../structcond__type__struct.html" 1 EmptyString];
  entry "conlost_5fsync_5fdata_545" "conlost_sync_data" [link "../structconlost__sync__data.html" 1 EmptyString];
  entry "connack_546" "Connack" [link "../structConnack.html" 1 EmptyString];
  entry "connect_547" "Connect" [link "../structConnect.html" 1 EmptyString]].
Definition classes_2 : list SearchEntry := [
  entry "framedata_548" "frameData" [link "../structframeData.html" 1 EmptyString]].
Definition classes_3 : list SearchEntry := [
  entry "header_549" "Header" [link "../unionHeader.html" 1 EmptyString];
  entry "heap_5finfo_550" "heap_info" [link "../structheap__info.html" 1 EmptyString]].
Definition classes_4 : list SearchEntry := [
  entry "list_551" "List" [link "../structList.html" 1 EmptyString];
  entry "listelementstruct_552" "ListElementStruct" [link "../structListElementStruct.html" 1 EmptyString];
  entry "log_5fnamevalue_553" "Log_nameValue" [link "../structLog__nameValue.html" 1 EmptyString]].
Definition classes_5 : list SearchEntry := [
  entry "messages_554" "Messages" [link "../structMessages.html" 1 EmptyString];
  entry "mqttasync_5fcommand_555" "MQTTAsync_command" [link "../structMQTTAsync__command.html" 1 EmptyString];
  entry "mqttasync_5fconnectdata_556" "MQTTAsync_connectData" [link "../structMQTTAsync__connectData.html" 1 EmptyString];
  entry "mqttasync_5fconnectoptions_557" "MQTTAsync_connectOptions" [link "../structMQTTAsync__connectOptions.html" 1 EmptyString];
  entry "mqttasync_5fcreateoptions_558" "MQTTAsync_createOptions" [link "../structMQTTAsync__createOptions.html" 1 EmptyString];
  entry "mqttasync_5fdisconnectoptions_559" "MQTTAsync_disconnectOptions" [link "../structMQTTAsync__disconnectOptions.html" 1 EmptyString];
  entry "mqttasync_5ffailuredata_560" "MQTTAsync_failureData" [link "../structMQTTAsync__failureData.html" 1 EmptyString];
  entry "mqttasync_5ffailuredata5_561" "MQTTAsync_failureData5" [link "../structMQTTAsync__failureData5.html" 1 EmptyString];
  entry "mqttasync_5finit_5foptions_562" "MQTTAsync_init_options" [link "../structMQTTAsync__init__options.html" 1 EmptyString];
  entry "mqttasync_5fmessage_563" "MQTTAsync_message" [link "../structMQTTAsync__message.html" 1 EmptyString];
  entry "mqttasync_5fnamevalue_564" "MQTTAsync_nameValue" [link "../structMQTTAsync__nameValue.html" 1 EmptyString];
  entry "mqttasync_5fqueuedcommand_565" "MQTTAsync_queuedCommand" [link "../structMQTTAsync__queuedCommand.html" 1 EmptyString];
  entry "mqttasync_5fresponseoptions_566" "MQTTAsync_responseOptions" [link "../structMQTTAsync__responseOptions.html" 1 EmptyString];
  entry "mqttasync_5fssloptions_567" "MQTTAsync_SSLOptions" [link "../structMQTTAsync__SSLOptions.html" 1 EmptyString];
  entry "mqttasync_5fstruct_568" "MQTTAsync_struct" [link "../structMQTTAsync__struct.html" 1 EmptyString];
  entry "mqttasync_5fsuccessdata_569" "MQTTAsync_successData" [link "../structMQTTAsync__successData.html" 1 EmptyString];
  entry "mqttasync_5fsuccessdata5_570" "MQTTAsync_successData5" [link "../structMQTTAsync__successData5.html" 1 EmptyString];
  entry "mqttasync_5fwilloptions_571" "MQTTAsync_willOptions" [link "../structMQTTAsync__willOptions.html" 1 EmptyString];
  entry "mqttclient_5fconnectoptions_572" "MQTTClient_connectOptions" [link "../structMQTTClient__connectOptions.html" 1 EmptyString];
  entry "mqttclient_5fcreateoptions_573" "MQTTClient_createOptions" [link "../structMQTTClient__createOptions.html" 1 EmptyString];
  entry "mqttclient_5finit_5foptions_574" "MQTTClient_init_options" [link "../structMQTTClient__init__options.html" 1 EmptyString];
  entry "mqttclient_5fmessage_575" "MQTTClient_message" [link "../structMQTTClient__message.html" 1 EmptyString];
  entry "mqttclient_5fnamevalue_576" "MQTTClient_nameValue" [link "../structMQTTClient__nameValue.html" 1 EmptyString];
  entry "mqttclient_5fpersistence_577" "MQTTClient_persistence" [link "../structMQTTClient__persistence.html" 1 EmptyString];
  entry "mqttclient_5fssloptions_578" "MQTTClient_SSLOptions" [link "../structMQTTClient__SSLOptions.html" 1 EmptyString];
  entry "mqttclient_5fwilloptions_579" "MQTTClient_willOptions" [link "../structMQTTClient__willOptions.html" 1 EmptyString];
  entry "mqttclients_580" "MQTTClients" [link "../structMQTTClients.html" 1 EmptyString];
  entry "mqttlenstring_581" "MQTTLenString" [link "../structMQTTLenString.html" 1 EmptyString];
  entry "mqttpacket_582" "MQTTPacket" [link "../structMQTTPacket.html" 1 EmptyString];
  entry "mqttpersistence_5fmessage_583" "MQTTPersistence_message" [link "../structMQTTPersistence__message.html" 1 EmptyString];
  entry "mqttpersistence_5fqentry_584" "MQTTPersistence_qEntry" [link "../structMQTTPersistence__qEntry.html" 1 EmptyString];
  entry "mqttproperties_585" "MQTTProperties" [link "../structMQTTProperties.html" 1 EmptyString];
  entry "mqttproperty_586" "MQTTProperty" [link "../structMQTTProperty.html" 1 EmptyString];
  entry "mqttprotocol_587" "MQTTProtocol" [link "../structMQTTProtocol.html" 1 EmptyString];
  entry "mqttresponse_588" "MQTTResponse" [link "../structMQTTResponse.html" 1 EmptyString];
  entry "mqttsubscribe_5foptions_589" "MQTTSubscribe_options" [link "../structMQTTSubscribe__options.html" 1 EmptyString]].
Definition classes_6 : list SearchEntry := [
  entry "nametotype_590" "nameToType" [link "../structnameToType.html" 1 EmptyString];
  entry "networkhandles_591" "networkHandles" [link "../structnetworkHandles.html" 1 EmptyString];
  entry "nodestruct_592" "NodeStruct" [link "../structNodeStruct.html" 1 EmptyString]].
Definition classes_7 : list SearchEntry := [
  entry "packetbuffers_593" "PacketBuffers" [link "../structPacketBuffers.html" 1 EmptyString];
  entry "pending_5fwrite_594" "pending_write" [link "../structpending__write.html" 1 EmptyString];
  entry "pending_5fwrites_595" "pending_writes" [link "../structpending__writes.html" 1 EmptyString];
  entry "props_5frc_5fparms_596" "props_rc_parms" [link "../structprops__rc__parms.html" 1 EmptyString];
  entry "publications_597" "Publications" [link "../structPublications.html" 1 EmptyString];
  entry "publish_598" "Publish" [link "../structPublish.html" 1 EmptyString]].
Definition classes_8 : list SearchEntry := [
  entry "qentry_599" "qEntry" [link "../structqEntry.html" 1 EmptyString]].
Definition classes_9 : list SearchEntry := [
  entry "sha_5fctx_5fs_600" "SHA_CTX_S" [link "../structSHA__CTX__S.html" 1 EmptyString];
  entry "socket_5fqueue_601" "socket_queue" [link "../structsocket__queue.html" 1 EmptyString];
  entry "sockets_602" "Sockets" [link "../structSockets.html" 1 EmptyString];
  entry "stackentry_603" "stackEntry" [link "../structstackEntry.html" 1 EmptyString];
  entry "storageelement_604" "storageElement" [link "../structstorageElement.html" 1 EmptyString];
  entry "suback_605" "Suback" [link "../structSuback.html" 1 EmptyString]].
Definition classes_a : list SearchEntry := [
  entry "threadentry_606" "threadEntry" [link "../structthreadEntry.html" 1 EmptyString];
  entry "trace_5fsettings_5ftype_607" "trace_settings_type" [link "../structtrace__settings__type.html" 1 EmptyString];
  entry "traceentry_608" "traceEntry" [link "../structtraceEntry.html" 1 EmptyString];
  entry "tree_609" "Tree" [link "../structTree.html" 1 EmptyString]].
Definition classes_b : list SearchEntry := [
  entry "unsuback_610" "Unsuback" [link "../structUnsuback.html" 1 EmptyString]].
Definition classes_c : list SearchEntry := [
  entry "willmessages_611" "willMessages" [link "../structwillMessages.html" 1 EmptyString];
  entry "ws_5fframe_612" "ws_frame" [link "../structws__frame.html" 1 EmptyString]].
Definition files_0 : list SearchEntry := [
  entry "clients_2ec_613" "Clients.c" [link "../Clients_8c.html" 1 EmptyString]].
Definition files_1 : list SearchEntry := [
  entry "heap_2ec_614" "Heap.c" [link "../Heap_8c.html" 1 EmptyString]].
Definition files_2 : list SearchEntry := [
  entry "linkedlist_2ec_615" "LinkedList.c" [link "../LinkedList_8c.html" 1 EmptyString];
  entry "log_2ec_616" "Log.c" [link "../Log_8c.html" 1 EmptyString]].
Definition files_3 : list SearchEntry := [
  entry "messages_2ec_617" "Messages.c" [link "../Messages_8c.html" 1 EmptyString];
  entry "mqttclient_2ec_618" "MQTTClient.c" [link "../MQTTClient_8c.html" 1 EmptyString];
  entry "mqttclientpersistence_2eh_619" "MQTTClientPersistence.h" [link "../MQTTClientPersistence_8h.html" 1 EmptyString];
  entry "mqttpacket_2ec_620" "MQTTPacket.c" [link "../MQTTPacket_8c.html" 1 EmptyString];
  entry "mqttpacketout_2ec_621" "MQTTPacketOut.c" [link "../MQTTPacketOut_8c.html" 1 EmptyString];
  entry "mqttpersistence_2ec_622" "MQTTPersistence.c" [link "../MQTTPersistence_8c.html" 1 EmptyString];
  entry "mqttpersistencedefault_2ec_623" "MQTTPersistenceDefault.c" [link "../MQTTPersistenceDefault_8c.html" 1 EmptyString];
  entry "mqttprotocolclient_2ec_624" "MQTTProtocolClient.c" [link "../MQTTProtocolClient_8c.html" 1 EmptyString];
  entry "mqttprotocolout_2ec_625" "MQTTProtocolOut.c" [link "../MQTTProtocolOut_8c.html" 1 EmptyString];
  entry "mqttversion_2ec_626" "MQTTVersion.c" [link "../MQTTVersion_8c.html" 1 EmptyString]].
Definition files_4 : list SearchEntry := [
  entry "socket_2ec_627" "Socket.c" [link "../Socket_8c.html" 1 EmptyString];
  entry "socketbuffer_2ec_628" "SocketBuffer.c" [link "../SocketBuffer_8c.html" 1 EmptyString];
  entry "sslsocket_2ec_629" "SSLSocket.c" [link "../SSLSocket_8c.html" 1 EmptyString]].
Definition files_5 : list SearchEntry := [
  entry "thread_2ec_630" "Thread.c" [link "../Thread_8c.html" 1 EmptyString];
  entry "tree_2ec_631" "Tree.c" [link "../Tree_8c.html" 1 EmptyString]].
Definition files_6 : list SearchEntry := [
  entry "utf_2d8_2ec_632" "utf-8.c" [link "../utf-8_8c.html" 1 EmptyString]].
Definition functions_0 : list SearchEntry := [
  entry "call_5fdisconnected_633" "call_disconnected" [link "../MQTTClient_8c.html#adbcf69dbaf0a0dcbcc87d23f99e73fca" 1 "MQTTClient.c"];
  entry "clientidcompare_634" "clientIDCompare" [link "../Clients_8c.html#a961b1c46020c65b7ffd662500d1c849d" 1 "Clients.c"];
  entry "clientsockcompare_635" "clientSockCompare" [link "../MQTTClient_8c.html#ac35494adea1f11d3480b50b8a7f0c17d" 1 "MQTTClient.c"];
  entry "clientsocketcompare_636" "clientSocketCompare" [link "../Clients_8c.html#a82dc4e265fecdaea2810ccdeab0abf52" 1 "Clients.c"];
  entry "connectionlost_5fcall_637" "connectionLost_call" [link "../MQTTClient_8c.html#a0c0d8194bf8a449928881cf83276728e" 1 "MQTTClient.c"]].
Definition functions_1 : list SearchEntry := [
  entry "findstring_638" "FindString" [link "../MQTTVersion_8c.html#a60231c316988ddb6d3ecf20a3195fe8d" 1 "MQTTVersion.c"]].
Definition functions_2 : list SearchEntry := [
  entry "heap_5ffinditem_639" "Heap_findItem" [link "../Heap_8c.html#a0f10ff94faca02a6f81953c889802954" 1 "Heap.c"];
  entry "heap_5fget_5finfo_640" "Heap_get_info" [link "../Heap_8c.html#a20faecf28cdd9d2fbf7d975c5b0863ef" 1 "Heap.c"];
  entry "heap_5finitialize_641" "Heap_initialize" [link "../Heap_8c.html#a7fb8bd5f7469fc9c1e48c3a1f17de88a" 1 "Heap.c"];
  entry "heap_5froundup_642" "Heap_roundup" [link "../Heap_8c.html#ae75b06db0cdfce5c281f8672e8577854" 1 "Heap.c"];
  entry "heap_5fterminate_643" "Heap_terminate" [link "../Heap_8c.html#a669dfefa789daec52dd8ddc03ff1f9f9" 1 "Heap.c"];
  entry "heap_5funlink_644" "Heap_unlink" [link "../Heap_8c.html#a5f453bffe39551109e282c904a6f2902" 1 "Heap.c"];
  entry "heapdump_645" "HeapDump" [link "../Heap_8c.html#aea7ea58998f69f14e16a3237c1d02d8a" 1 "Heap.c"];
  entry "heapdumpstring_646" "HeapDumpString" [link "../Heap_8c.html#a6cdadd76da21b7269cf5d9fc92dedb68" 1 "Heap.c"];
  entry "heapscan_647" "HeapScan" [link "../Heap_8c.html#aafff91620a02cc5f8160ee55dc1d7bf4" 1 "Heap.c"]].
Definition functions_3 : list SearchEntry := [
  entry "intcompare_648" "intcompare" [link "../LinkedList_8c.html#a1738915a6d6f10022e9ee1481c0ae452" 1 "LinkedList.c"];
  entry "internal_5fheap_5funlink_649" "Internal_heap_unlink" [link "../Heap_8c.html#ac23c370399a3c7b9aa9fa9d0672be122" 1 "Heap.c"];
  entry "isready_650" "isReady" [link "../Socket_8c.html#a42a217310f6f55473525764038ac367d" 1 "Socket.c"]].
Definition functions_4 : list SearchEntry := [
  entry "listappend_651" "ListAppend" [link "../LinkedList_8c.html#abc7a28449893dfa775c2f709349968b4" 1 "LinkedList.c"];
  entry "listappendnomalloc_652" "ListAppendNoMalloc" [link "../LinkedList_8c.html#a321a3598d6979c7af3f995b77ea2cec3" 1 "LinkedList.c"];
  entry "listdetach_653" "ListDetach" [link "../LinkedList_8c.html#ab2bcc1897abf1d98490ea81c474dba52" 1 "LinkedList.c"];
  entry "listdetachhead_654" "ListDetachHead" [link "../LinkedList_8c.html#ab0f3597d344e09ad6636c8bc72029337" 1 "LinkedList.c"];
  entry "listdetachitem_655" "ListDetachItem" [link "../LinkedList_8c.html#a9ed745f7ba486d16d009e86433fece7b" 1 "LinkedList.c"];
  entry "listempty_656" "ListEmpty" [link "../LinkedList_8c.html#a3cf8578dba23f97dd0411e85fe3b7ff2" 1 "LinkedList.c"];
  entry "listfind_657" "ListFind" [link "../LinkedList_8c.html#ad2879a10b723fb7c1f95c0ad0abdbc50" 1 "LinkedList.c"];
  entry "listfinditem_658" "ListFindItem" [link "../LinkedList_8c.html#acad319e9ce896ff1fff30ddbeb06d22d" 1 "LinkedList.c"];
  entry "listfree_659" "ListFree" [link "../LinkedList_8c.html#a276950531b3f54e0dda27d597572c192" 1 "LinkedList.c"];
  entry "listfreenocontent_660" "ListFreeNoContent" [link "../LinkedList_8c.html#a8b3e61bc873a90ad2ea43a15e6c001f4" 1 "LinkedList.c"];
  entry "listinitialize_661" "ListInitialize" [link "../LinkedList_8c.html#a27e2cccab9752618ead91eafbe2a9a46" 1 "LinkedList.c"];
  entry "listinsert_662" "ListInsert" [link "../LinkedList_8c.html#aabca387fa4b86475bc9e4da40c3977fc" 1 "LinkedList.c"];
  entry "listnextelement_663" "ListNextElement" [link "../LinkedList_8c.html#a7c6fba7f4b569c69829676bed2852ee9" 1 "LinkedList.c"];
  entry "listpoptail_664" "ListPopTail" [link "../LinkedList_8c.html#a84b0ad14e7cebcd7b9ebab89a8d48321" 1 "LinkedList.c"];
  entry "listprevelement_665" "ListPrevElement" [link "../LinkedList_8c.html#a371f4a5021e6aa639bab6ab1457fc1d2" 1 "LinkedList.c"];
  entry "listremove_666" "ListRemove" [link "../LinkedList_8c.html#a8430370b2b15c56ec95bb8e7e36753a5" 1 "LinkedList.c"];
  entry "listremovehead_667" "ListRemoveHead" [link "../LinkedList_8c.html#a5ee7cd1d29fd9299231d40c011174fcd" 1 "LinkedList.c"];
  entry "listremoveitem_668" "ListRemoveItem" [link "../LinkedList_8c.html#a4bb7c34fe9a5832d65f530091e0fad0d" 1 "LinkedList.c"];
  entry "listunlink_669" "ListUnlink" [link "../LinkedList_8c.html#ab82181e0c1d96954f82dee67cee41296" 1 "LinkedList.c"];
  entry "listzero_670" "ListZero" [link "../LinkedList_8c.html#aa254fb1eab8e30d0e03859b333dc22ed" 1 "LinkedList.c"];
  entry "log_671" "Log" [link "../Log_8c.html#a669722e3f57811871f97c12392aba85d" 1 "Log.c"];
  entry "log_5fstacktrace_672" "Log_stackTrace" [link "../Log_8c.html#aeb93e137086d574a96548cecca9e9217" 1 "Log.c"]].
Definition functions_5 : list SearchEntry := [
  entry "messageidcompare_673" "messageIDCompare" [link "../MQTTProtocolClient_8c.html#a286c2ef2904b5eb4a0ffa5b598961c67" 1 "MQTTProtocolClient.c"];
  entry "messages_5fget_674" "Messages_get" [link "../Messages_8c.html#ab0c342273f8f7d3c206314ae8215a14c" 1 "Messages.c"];
  entry "mqttclient_5fconnect_675" "MQTTClient_connect" [link "../MQTTClient_8c.html#aaa8ae61cd65c9dc0846df10122d7bd4e" 1 "MQTTClient.c"];
  entry "mqttclient_5fconnect5_676" "MQTTClient_connect5" [link "../MQTTClient_8c.html#aa777f80cb3eec5610f976aff30b8c0d6" 1 "MQTTClient.c"];
  entry "mqttclient_5fcreate_677" "MQTTClient_create" [link "../MQTTClient_8c.html#a9a0518d9ca924d12c1329dbe3de5f2b6" 1 "MQTTClient.c"];
  entry "mqttclient_5fcreatewithoptions_678" "MQTTClient_createWithOptions" [link "../MQTTClient_8c.html#ade24f717a9b39d38b081e1d5e0db1661" 1 "MQTTClient.c"];
  entry "mqttclient_5fdestroy_679" "MQTTClient_destroy" [link "../MQTTClient_8c.html#ae700c3f5cfea3813264ce95e7c8cf498" 1 "MQTTClient.c"];
  entry "mqttclient_5fdisconnect_680" "MQTTClient_disconnect" [link "../MQTTClient_8c.html#a1e4d90c13a3c0705bc4a13bfe64e6525" 1 "MQTTClient.c"];
  entry "mqttclient_5fdisconnect1_681" "MQTTClient_disconnect1" [link "../MQTTClient_8c.html#a2eeb63b405d9aed880a79b38addf6df7" 1 "MQTTClient.c"];
  entry "mqttclient_5fdisconnect_5finternal_682" "MQTTClient_disconnect_internal" [link "../MQTTClient_8c.html#a6a08562ce9b763bf79c71029b94cd9f5" 1 "MQTTClient.c"];
  entry "mqttclient_5ffree_683" "MQTTClient_free" [link "../MQTTClient_8c.html#ab217acbfaf47603355ca430983f93095" 1 "MQTTClient.c"];
  entry "mqttclient_5ffreemessage_684" "MQTTClient_freeMessage" [link "../MQTTClient_8c.html#a2bc00ce11e0cac5dbc0938c512b4ab31" 1 "MQTTClient.c"];
  entry "mqttclient_5fgetpendingdeliverytokens_685" "MQTTClient_getPendingDeliveryTokens" [link "../MQTTClient_8c.html#a2a617c6b0492c04a4ddea592f5e53604" 1 "MQTTClient.c"];
  entry "mqttclient_5fgetversioninfo_686" "MQTTClient_getVersionInfo" [link "../MQTTClient_8c.html#abe842456c914ce9201d277a972cc085e" 1 "MQTTClient.c"];
  entry "mqttclient_5fglobal_5finit_687" "MQTTClient_global_init" [link "../MQTTClient_8c.html#a21804ede1a506d1d69a472bc30acc8ba" 1 "MQTTClient.c"];
  entry "mqttclient_5fisconnected_688" "MQTTClient_isConnected" [link "../MQTTClient_8c.html#a6e8231e8c47f6f67f7ebbb5dcb4c69c0" 1 "MQTTClient.c"];
  entry "mqttclient_5fmalloc_689" "MQTTClient_malloc" [link "../MQTTClient_8c.html#a9a6a07529e252574db1f95d40ccc0784" 1 "MQTTClient.c"];
  entry "mqttclient_5fpublish_690" "MQTTClient_publish" [link "../MQTTClient_8c.html#a3cd7a94b48d1d9c6b8af4b9203d69d37" 1 "MQTTClient.c"];
  entry "mqttclient_5fpublish5_691" "MQTTClient_publish5" [link "../MQTTClient_8c.html#a3c0ca97b393eee10d4f441ba68830e83" 1 "MQTTClient.c"];
  entry "mqttclient_5fpublishmessage_692" "MQTTClient_publishMessage" [link "../MQTTClient_8c.html#a5e0cfa14237d7557bee2a59747ecadd3" 1 "MQTTClient.c"];
  entry "mqttclient_5fpublishmessage5_693" "MQTTClient_publishMessage5" [link "../MQTTClient_8c.html#ae54936bf7680dcde353e6fc785a44461" 1 "MQTTClient.c"];
  entry "mqttclient_5freceive_694" "MQTTClient_receive" [link "../MQTTClient_8c.html#a4c2df88d00a3dadd510a8cb774739366" 1 "MQTTClient.c"];
  entry "mqttclient_5fsetcallbacks_695" "MQTTClient_setCallbacks" [link "../MQTTClient_8c.html#aad27d07782991a4937ebf2f39a021f83" 1 "MQTTClient.c"];
  entry "mqttclient_5fsetcommandtimeout_696" "MQTTClient_setCommandTimeout" [link "../MQTTClient_8c.html#a96067a2fb74d2a61c7e93015629548e0" 1 "MQTTClient.c"];
  entry "mqttclient_5fsetdisconnected_697" "MQTTClient_setDisconnected" [link "../MQTTClient_8c.html#adc7d708419664670063a0e7fd9c27bca" 1 "MQTTClient.c"];
  entry "mqttclient_5fsettracecallback_698" "MQTTClient_setTraceCallback" [link "../MQTTClient_8c.html#a22870f94aa4cb1827626612f1ded7c69" 1 "MQTTClient.c"];
  entry "mqttclient_5fsettracelevel_699" "MQTTClient_setTraceLevel" [link "../MQTTClient_8c.html#a4dfa35d29db54b10b15b8ac2d9a778be" 1 "MQTTClient.c"];
  entry "mqttclient_5fstrerror_700" "MQTTClient_strerror" [link "../MQTTClient_8c.html#a9defda2979f6fedaae64fd85f5c2f617" 1 "MQTTClient.c"];
  entry "mqttclient_5fsubscribe_701" "MQTTClient_subscribe" [link "../MQTTClient_8c.html#a9c1c28258f0d5c6a44ff53a98618f5f3" 1 "MQTTClient.c"];
  entry "mqttclient_5fsubscribe5_702" "MQTTClient_subscribe5" [link "../MQTTClient_8c.html#af35ab7375435f7b6388c5ff4610dad3d" 1 "MQTTClient.c"];
  entry "mqttclient_5fsubscribemany_703" "MQTTClient_subscribeMany" [link "../MQTTClient_8c.html#a92fa1c13f3db8399e042fbdbdfb692b3" 1 "MQTTClient.c"];
  entry "mqttclient_5fsubscribemany5_704" "MQTTClient_subscribeMany5" [link "../MQTTClient_8c.html#a5390c2402f135c12826ffbf6fc261f7c" 1 "MQTTClient.c"];
  entry "mqttclient_5funsubscribe_705" "MQTTClient_unsubscribe" [link "../MQTTClient_8c.html#aa8731be3dbc6a25f41f037f8bbbb054b" 1 "MQTTClient.c"];
  entry "mqttclient_5funsubscribe5_706" "MQTTClient_unsubscribe5" [link "../MQTTClient_8c.html#a58356c13867f18df60fd4c7ec9457c48" 1 "MQTTClient.c"];
  entry "mqttclient_5funsubscribemany_707" "MQTTClient_unsubscribeMany" [link "../MQTTClient_8c.html#a50abbce720d50b9f84b97ff9fa1f546d" 1 "MQTTClient.c"];
  entry "mqttclient_5funsubscribemany5_708" "MQTTClient_unsubscribeMany5" [link "../MQTTClient_8c.html#a46bdb532d2153110ccffb2f0748d1ba5" 1 "MQTTClient.c"];
  entry "mqttclient_5fwaitforcompletion_709" "MQTTClient_waitForCompletion" [link "../MQTTClient_8c.html#ab8786efdd6c3a50c6ca33cfb5d8fc283" 1 "MQTTClient.c"];
  entry "mqttclient_5fyield_710" "MQTTClient_yield" [link "../MQTTClient_8c.html#a8ad3d29864a9ca08202b0832e0f6678e" 1 "MQTTClient.c"];
  entry "mqttpacket_5fack_711" "MQTTPacket_ack" [link "../MQTTPacket_8c.html#a93c155059c80bd01b4a1561d9bec1d13" 1 "MQTTPacket.c"];
  entry "mqttpacket_5fconnack_712" "MQTTPacket_connack" [link "../MQTTPacketOut_8c.html#ad05dd32a547e82e0741d9d8279568a65" 1 "MQTTPacketOut.c"];
  entry "mqttpacket_5fdecode_713" "MQTTPacket_decode" [link "../MQTTPacket_8c.html#ac1f61e571640513a9785b3164141dfbc" 1 "MQTTPacket.c"];
  entry "mqttpacket_5fencode_714" "MQTTPacket_encode" [link "../MQTTPacket_8c.html#aadd77a4fa1b2d5c7791e3542c56af856" 1 "MQTTPacket.c"];
  entry "mqttpacket_5ffactory_715" "MQTTPacket_Factory" [link "../MQTTPacket_8c.html#af922033c495b05fe4242afc54211f20d" 1 "MQTTPacket.c"];
  entry "mqttpacket_5ffree_5fpacket_716" "MQTTPacket_free_packet" [link "../MQTTPacket_8c.html#a28f1754fe1f090d54bc3b5687fb2dd8c" 1 "MQTTPacket.c"];
  entry "mqttpacket_5ffreeack_717" "MQTTPacket_freeAck" [link "../MQTTPacket_8c.html#a0ef92fb0207ed6272de9ebc749745d0c" 1 "MQTTPacket.c"];
  entry "mqttpacket_5ffreeconnack_718" "MQTTPacket_freeConnack" [link "../MQTTPacketOut_8c.html#a49e8e6789e17a29f5a448b8fab0a4137" 1 "MQTTPacketOut.c"];
  entry "mqttpacket_5ffreepublish_719" "MQTTPacket_freePublish" [link "../MQTTPacket_8c.html#a642e5f62d21f14e81f8fc70b491d89c8" 1 "MQTTPacket.c"];
  entry "mqttpacket_5ffreesuback_720" "MQTTPacket_freeSuback" [link "../MQTTPacket_8c.html#a4262b8f35885dc123f59268fb74cec3d" 1 "MQTTPacket.c"];
  entry "mqttpacket_5ffreeunsuback_721" "MQTTPacket_freeUnsuback" [link "../MQTTPacket_8c.html#a9dd0446112e7bc982f8e3bb8bbb6b409" 1 "MQTTPacket.c"];
  entry "mqttpacket_5fheader_5fonly_722" "MQTTPacket_header_only" [link "../MQTTPacket_8c.html#af3ddd9c1a35d51bf70f44a1aa6fa0bba" 1 "MQTTPacket.c"];
  entry "mqttpacket_5fname_723" "MQTTPacket_name" [link "../MQTTPacket_8c.html#a9f9e58aba3ed5d513862d76bc5e29743" 1 "MQTTPacket.c"];
  entry "mqttpacket_5fpublish_724" "MQTTPacket_publish" [link "../MQTTPacket_8c.html#a58feb89ee5616f2ea6d222bbbef927bb" 1 "MQTTPacket.c"];
  entry "mqttpacket_5fsend_725" "MQTTPacket_send" [link "../MQTTPacket_8c.html#a51f58f1c7864f9fe87b55cc6ccb10129" 1 "MQTTPacket.c"];
  entry "mqttpacket_5fsend_5fack_726" "MQTTPacket_send_ack" [link "../MQTTPacket_8c.html#ad89e627a37f7f7eb4355b076cd46e0b0" 1 "MQTTPacket.c"];
  entry "mqttpacket_5fsend_5fconnect_727" "MQTTPacket_send_connect" [link "../MQTTPacketOut_8c.html#ad3c3f0919760286998e9b9eafaa47a36" 1 "MQTTPacketOut.c"];
  entry "mqttpacket_5fsend_5fdisconnect_728" "MQTTPacket_send_disconnect" [link "../MQTTPacket_8c.html#aa9e17261b4d09d802dba6a65bcdc44fa" 1 "MQTTPacket.c"];
  entry "mqttpacket_5fsend_5fpingreq_729" "MQTTPacket_send_pingreq" [link "../MQTTPacketOut_8c.html#acf4b3402e224ac22ffbe74731f374fe0" 1 "MQTTPacketOut.c"];
  entry "mqttpacket_5fsend_5fpuback_730" "MQTTPacket_send_puback" [link "../MQTTPacket_8c.html#a8b93325a6a336406497b20b489d6c46a" 1 "MQTTPacket.c"];
  entry "mqttpacket_5fsend_5fpubcomp_731" "MQTTPacket_send_pubcomp" [link "../MQTTPacket_8c.html#a908f81381b1720e4a53d15c1c4690f5c" 1 "MQTTPacket.c"];
  entry "mqttpacket_5fsend_5fpublish_732" "MQTTPacket_send_publish" [link "../MQTTPacket_8c.html#a9ebcf93ff2ba3bd103f016c975e9c9c4" 1 "MQTTPacket.c"];
  entry "mqttpacket_5fsend_5fpubrec_733" "MQTTPacket_send_pubrec" [link "../MQTTPacket_8c.html#a8167e3188a4bdcfb30c10e0d76c82afe" 1 "MQTTPacket.c"];
  entry "mqttpacket_5fsend_5fpubrel_734" "MQTTPacket_send_pubrel" [link "../MQTTPacket_8c.html#adec2c812b12255dab78f75163a4f1960" 1 "MQTTPacket.c"];
  entry "mqttpacket_5fsend_5fsubscribe_735" "MQTTPacket_send_subscribe" [link "../MQTTPacketOut_8c.html#a90212ed29c311f52a1dce0617133b1a7" 1 "MQTTPacketOut.c"];
  entry "mqttpacket_5fsend_5funsubscribe_736" "MQTTPacket_send_unsubscribe" [link "../MQTTPacketOut_8c.html#a1ad4c9b76c6ab88c394ee925eb4dcd44" 1 "MQTTPacketOut.c"];
  entry "mqttpacket_5fsends_737" "MQTTPacket_sends" [link "../MQTTPacket_8c.html#a3635fd8035177b20c478daea6bad9328" 1 "MQTTPacket.c"];
  entry "mqttpacket_5fsuback_738" "MQTTPacket_suback" [link "../MQTTPacketOut_8c.html#aee4b3e106128629671828ae7bfa70850" 1 "MQTTPacketOut.c"];
  entry "mqttpacket_5funsuback_739" "MQTTPacket_unsuback" [link "../MQTTPacketOut_8c.html#a93f6aa4b23d30f6c8c5be87b0b58e37c" 1 "MQTTPacketOut.c"];
  entry "mqttpacket_5fvbidecode_740" "MQTTPacket_VBIdecode" [link "../MQTTPacket_8c.html#a4fc1ee4d2cf8fd9bd59d89aadab222df" 1 "MQTTPacket.c"];
  entry "mqttpersistence_5fclear_741" "MQTTPersistence_clear" [link "../MQTTPersistence_8c.html#a6f6056b7418b66a3786a5028b2357a86" 1 "MQTTPersistence.c"];
  entry "mqttpersistence_5fclose_742" "MQTTPersistence_close" [link "../MQTTPersistence_8c.html#a385b6c191dbf51652d3e3a81813848f1" 1 "MQTTPersistence.c"];
  entry "mqttpersistence_5fcreate_743" "MQTTPersistence_create" [link "../MQTTPersistence_8c.html#a75e756280e499db530896c5b74b8d3b5" 1 "MQTTPersistence.c"];
  entry "mqttpersistence_5finitialize_744" "MQTTPersistence_initialize" [link "../MQTTPersistence_8c.html#a65b64467da967b6930966b98f249406e" 1 "MQTTPersistence.c"];
  entry "mqttpersistence_5finsertinorder_745" "MQTTPersistence_insertInOrder" [link "../MQTTPersistence_8c.html#a568adcd6ad3542d6f631a7f7a2e682e5" 1 "MQTTPersistence.c"];
  entry "mqttpersistence_5fputpacket_746" "MQTTPersistence_putPacket" [link "../MQTTPersistence_8c.html#a18eab666c3e6aecd92a6c8f10df808e3" 1 "MQTTPersistence.c"];
  entry "mqttpersistence_5fremove_747" "MQTTPersistence_remove" [link "../MQTTPersistence_8c.html#aba48f1a44c540fa37bca207cae3cbbd3" 1 "MQTTPersistence.c"];
  entry "mqttpersistence_5frestoremessagequeue_748" "MQTTPersistence_restoreMessageQueue" [link "../MQTTPersistence_8c.html#ab4f6437946ac80d5f9e882e92e59cc5c" 1 "MQTTPersistence.c"];
  entry "mqttpersistence_5frestorepacket_749" "MQTTPersistence_restorePacket" [link "../MQTTPersistence_8c.html#a6bc55eebf10d7a7f7e2849b3e33716d1" 1 "MQTTPersistence.c"];
  entry "mqttpersistence_5frestorepackets_750" "MQTTPersistence_restorePackets" [link "../MQTTPersistence_8c.html#a3e607d17e088a493097af07e9c7b0006" 1 "MQTTPersistence.c"];
  entry "mqttpersistence_5fwrapmsgid_751" "MQTTPersistence_wrapMsgID" [link "../MQTTPersistence_8c.html#adbf5881a3c6ce9bd7062182dfffe27fa" 1 "MQTTPersistence.c"];
  entry "mqttprotocol_5faddressport_752" "MQTTProtocol_addressPort" [link "../MQTTProtocolOut_8c.html#ae9a2970a33893540e42ff5a8d95411dc" 1 "MQTTProtocolOut.c"];
  entry "mqttprotocol_5fassignmsgid_753" "MQTTProtocol_assignMsgId" [link "../MQTTProtocolClient_8c.html#a0fa824f9702cb6b0d7c800fd65198fce" 1 "MQTTProtocolClient.c"];
  entry "mqttprotocol_5fcheckpendingwrites_754" "MQTTProtocol_checkPendingWrites" [link "../MQTTClient_8c.html#acdcf1aefca1dbb3d1b3d36c9bbaf3760" 1 "MQTTClient.c"];
  entry "mqttprotocol_5fclosesession_755" "MQTTProtocol_closeSession" [link "../MQTTClient_8c.html#a9f7b0789ff9ca9ded72dbad2e747b333" 1 "MQTTClient.c"];
  entry "mqttprotocol_5fconnect_756" "MQTTProtocol_connect" [link "../MQTTProtocolOut_8c.html#ad9baf307647cbe6516eadbbe975cda8c" 1 "MQTTProtocolOut.c"];
  entry "mqttprotocol_5fcreatemessage_757" "MQTTProtocol_createMessage" [link "../MQTTProtocolClient_8c.html#afbf121be11a48fcda3e0d639bc47472b" 1 "MQTTProtocolClient.c"];
  entry "mqttprotocol_5femptymessagelist_758" "MQTTProtocol_emptyMessageList" [link "../MQTTProtocolClient_8c.html#ab9c5a22f0cbd4fa648663de7ae7118ab" 1 "MQTTProtocolClient.c"];
  entry "mqttprotocol_5ffreeclient_759" "MQTTProtocol_freeClient" [link "../MQTTProtocolClient_8c.html#a52e062f52e5a42275471eeb23040fc0e" 1 "MQTTProtocolClient.c"];
  entry "mqttprotocol_5ffreemessagelist_760" "MQTTProtocol_freeMessageList" [link "../MQTTProtocolClient_8c.html#a8514ddc8d0f346c0da19ab4d59b4062f" 1 "MQTTProtocolClient.c"];
  entry "mqttprotocol_5fhandledisconnects_761" "MQTTProtocol_handleDisconnects" [link "../MQTTProtocolOut_8c.html#a4f914518a8e2d68cc9d9fbb2c22cdf6f" 1 "MQTTProtocolOut.c"];
  entry "mqttprotocol_5fhandlepingresps_762" "MQTTProtocol_handlePingresps" [link "../MQTTProtocolOut_8c.html#ad298c92c74b5f1acda774fc95e3d61c3" 1 "MQTTProtocolOut.c"];
  entry "mqttprotocol_5fhandlepubacks_763" "MQTTProtocol_handlePubacks" [link "../MQTTProtocolClient_8c.html#aa9f454819a84c7a43009253fabcea3f3" 1 "MQTTProtocolClient.c"];
  entry "mqttprotocol_5fhandlepubcomps_764" "MQTTProtocol_handlePubcomps" [link "../MQTTProtocolClient_8c.html#a9aa163c85710d4936ae368b8b9412440" 1 "MQTTProtocolClient.c"];
  entry "mqttprotocol_5fhandlepublishes_765" "MQTTProtocol_handlePublishes" [link "../MQTTProtocolClient_8c.html#a2d7897d575be486bf1ed0459d7b2b8e7" 1 "MQTTProtocolClient.c"];
  entry "mqttprotocol_5fhandlepubrecs_766" "MQTTProtocol_handlePubrecs" [link "../MQTTProtocolClient_8c.html#ac09429577a185297d8797d791b7116a2" 1 "MQTTProtocolClient.c"];
  entry "mqttprotocol_5fhandlepubrels_767" "MQTTProtocol_handlePubrels" [link "../MQTTProtocolClient_8c.html#a362e0560d6f4f0e50237664a1a8e89a7" 1 "MQTTProtocolClient.c"];
  entry "mqttprotocol_5fhandlesubacks_768" "MQTTProtocol_handleSubacks" [link "../MQTTProtocolOut_8c.html#a5424115bf427436c2d40058f15261ed0" 1 "MQTTProtocolOut.c"];
  entry "mqttprotocol_5fhandleunsubacks_769" "MQTTProtocol_handleUnsubacks" [link "../MQTTProtocolOut_8c.html#a0b9648549a1a132eecadb74df2e84f57" 1 "MQTTProtocolOut.c"];
  entry "mqttprotocol_5fkeepalive_770" "MQTTProtocol_keepalive" [link "../MQTTProtocolClient_8c.html#a218a69c333badc4a61b321bc830ac1e0" 1 "MQTTProtocolClient.c"];
  entry "mqttprotocol_5fqueueack_771" "MQTTProtocol_queueAck" [link "../MQTTProtocolClient_8c.html#a68e5f17517e75326c0869a22c7995358" 1 "MQTTProtocolClient.c"];
  entry "mqttprotocol_5fremovepublication_772" "MQTTProtocol_removePublication" [link "../MQTTProtocolClient_8c.html#a900fa28a8774ad6f5535104bb62e7abf" 1 "MQTTProtocolClient.c"];
  entry "mqttprotocol_5fretries_773" "MQTTProtocol_retries" [link "../MQTTProtocolClient_8c.html#ad2f52c0fff61c891b174d69b95bcd173" 1 "MQTTProtocolClient.c"];
  entry "mqttprotocol_5fretry_774" "MQTTProtocol_retry" [link "../MQTTProtocolClient_8c.html#a3a1acc3bd7b09ab9d52e15e4a97c4cb2" 1 "MQTTProtocolClient.c"];
  entry "mqttprotocol_5fspecialchars_775" "MQTTProtocol_specialChars" [link "../MQTTProtocolOut_8c.html#a6b8949d7db9299fa5fd940e8e58f31b6" 1 "MQTTProtocolOut.c"];
  entry "mqttprotocol_5fstartpublish_776" "MQTTProtocol_startPublish" [link "../MQTTProtocolClient_8c.html#a0f86c2cc2debfa39e275d3c76d5d0073" 1 "MQTTProtocolClient.c"];
  entry "mqttprotocol_5fstartpublishcommon_777" "MQTTProtocol_startPublishCommon" [link "../MQTTProtocolClient_8c.html#a4502a4b9257b32508fac87e42fb1d85a" 1 "MQTTProtocolClient.c"];
  entry "mqttprotocol_5fstorepublication_778" "MQTTProtocol_storePublication" [link "../MQTTProtocolClient_8c.html#ac753a3ad12292a0a9c2f4343bd33817e" 1 "MQTTProtocolClient.c"];
  entry "mqttprotocol_5fsubscribe_779" "MQTTProtocol_subscribe" [link "../MQTTProtocolOut_8c.html#a460d021d06dd24cf975dfe20e17ab1ba" 1 "MQTTProtocolOut.c"];
  entry "mqttprotocol_5funsubscribe_780" "MQTTProtocol_unsubscribe" [link "../MQTTProtocolOut_8c.html#a69083f5a059d129d1030140ec1cd3d58" 1 "MQTTProtocolOut.c"];
  entry "mqttprotocol_5fwriteavailable_781" "MQTTProtocol_writeAvailable" [link "../MQTTProtocolClient_8c.html#a5906689ff10dc091d1a2b317295d39b0" 1 "MQTTProtocolClient.c"];
  entry "mqttresponse_5ffree_782" "MQTTResponse_free" [link "../MQTTClient_8c.html#a01bd2c5f98ec5c0636a106db33f2b01b" 1 "MQTTClient.c"];
  entry "mqttstrdup_783" "MQTTStrdup" [link "../MQTTProtocolClient_8c.html#a89588f085edc5cee4eb650e8ad114df4" 1 "MQTTProtocolClient.c"];
  entry "mqttstrncpy_784" "MQTTStrncpy" [link "../MQTTProtocolClient_8c.html#a447b65c664ebedef8fecb70e29dc1767" 1 "MQTTProtocolClient.c"];
  entry "myfree_785" "myfree" [link "../Heap_8c.html#a25214c297c998eba3cfc8282b1162c69" 1 "Heap.c"];
  entry "mymalloc_786" "mymalloc" [link "../Heap_8c.html#a59e53a989d69c3da767487596d9bfa1f" 1 "Heap.c"];
  entry "myrealloc_787" "myrealloc" [link "../Heap_8c.html#a699e6722cc8f195f853f09ac274413a3" 1 "Heap.c"]].
Definition functions_6 : list SearchEntry := [
  entry "paho_5fthread_5fcreate_5fmutex_788" "Paho_thread_create_mutex" [link "../Thread_8c.html#a4dc03e919803e0af06fabbd4f394a51c" 1 "Thread.c"];
  entry "paho_5fthread_5fdestroy_5fmutex_789" "Paho_thread_destroy_mutex" [link "../Thread_8c.html#ad2c1a28aa3f8ae9cdd6677fd5477b8e4" 1 "Thread.c"];
  entry "paho_5fthread_5fgetid_790" "Paho_thread_getid" [link "../Thread_8c.html#aa3e166167a73a02b488d49e724d161c4" 1 "Thread.c"];
  entry "paho_5fthread_5flock_5fmutex_791" "Paho_thread_lock_mutex" [link "../Thread_8c.html#a1c9cd0a1556e72719a5ed3f9cdf6686f" 1 "Thread.c"];
  entry "paho_5fthread_5fstart_792" "Paho_thread_start" [link "../Thread_8c.html#a342744cc2c60c981c4558475a759ca6c" 1 "Thread.c"];
  entry "paho_5fthread_5funlock_5fmutex_793" "Paho_thread_unlock_mutex" [link "../Thread_8c.html#a1c21203efa0c10544d24585870fe4757" 1 "Thread.c"];
  entry "pending_5fsocketcompare_794" "pending_socketcompare" [link "../SocketBuffer_8c.html#a39f1ee9c98bc12a7be4d7a40b03550d5" 1 "SocketBuffer.c"];
  entry "pstclear_795" "pstclear" [link "../MQTTPersistenceDefault_8c.html#a15b1457f7fd20dde1fd51ed434321e1a" 1 "MQTTPersistenceDefault.c"];
  entry "pstclose_796" "pstclose" [link "../MQTTPersistenceDefault_8c.html#a24f38d19ff3db61292d7b463e59174ef" 1 "MQTTPersistenceDefault.c"];
  entry "pstcontainskey_797" "pstcontainskey" [link "../MQTTPersistenceDefault_8c.html#a2a55461def3359a2b0aff6b3bb0644ad" 1 "MQTTPersistenceDefault.c"];
  entry "pstget_798" "pstget" [link "../MQTTPersistenceDefault_8c.html#a3aef9f9af29882fac9e76984e4c2954c" 1 "MQTTPersistenceDefault.c"];
  entry "pstkeys_799" "pstkeys" [link "../MQTTPersistenceDefault_8c.html#a9f358375b8e254983d00f8b057e97dd6" 1 "MQTTPersistenceDefault.c"];
  entry "pstmkdir_800" "pstmkdir" [link "../MQTTPersistenceDefault_8c.html#aecfbfa761dfca1b551d9ade325f480b1" 1 "MQTTPersistenceDefault.c"];
  entry "pstopen_801" "pstopen" [link "../MQTTPersistenceDefault_8c.html#a919cf4710a1f7d7ce0878599e9aa4700" 1 "MQTTPersistenceDefault.c"];
  entry "pstput_802" "pstput" [link "../MQTTPersistenceDefault_8c.html#a64e0c1a2fd06375b975d6643175572d8" 1 "MQTTPersistenceDefault.c"];
  entry "pstremove_803" "pstremove" [link "../MQTTPersistenceDefault_8c.html#a64b106b9a2778f97d271af7c9a7940f2" 1 "MQTTPersistenceDefault.c"];
  entry "ptrcompare_804" "ptrCompare" [link "../Heap_8c.html#a45db32d4f454f94d7f4574deced5ee33" 1 "Heap.c"]].
Definition functions_7 : list SearchEntry := [
  entry "readchar_805" "readChar" [link "../MQTTPacket_8c.html#aff1d10b221f5b4ce421b4c2588cbe511" 1 "MQTTPacket.c"];
  entry "readint_806" "readInt" [link "../MQTTPacket_8c.html#a132d2d5b304d37cd2348a973f7b315de" 1 "MQTTPacket.c"];
  entry "readint4_807" "readInt4" [link "../MQTTPacket_8c.html#a84586f1ffeb9d37e7aeb695ec5bebe1d" 1 "MQTTPacket.c"];
  entry "readutf_808" "readUTF" [link "../MQTTPacket_8c.html#adca3afbe588ae7e6f342c5a697e4ee45" 1 "MQTTPacket.c"];
  entry "readutflen_809" "readUTFlen" [link "../MQTTPacket_8c.html#ae1ec2d8714335c6ec88c93e957b644d2" 1 "MQTTPacket.c"]].
Definition functions_8 : list SearchEntry := [
  entry "socket_5fabortwrite_810" "Socket_abortWrite" [link "../Socket_8c.html#aa24d7c85b03f09f16c78de0c1a9b3580" 1 "Socket.c"];
  entry "socket_5faddpendingwrite_811" "Socket_addPendingWrite" [link "../Socket_8c.html#a65be62649c8529bcafa111e37ffcb5d2" 1 "Socket.c"];
  entry "socket_5faddsocket_812" "Socket_addSocket" [link "../Socket_8c.html#a4c933d467e9ab2848b9590fe45f21f2f" 1 "Socket.c"];
  entry "socket_5fclearpendingwrite_813" "Socket_clearPendingWrite" [link "../Socket_8c.html#a3274d9743dd4d1c6e9392b74164d6379" 1 "Socket.c"];
  entry "socket_5fclose_814" "Socket_close" [link "../Socket_8c.html#a9da80ce7e69ae76dee95c94a2349c462" 1 "Socket.c"];
  entry "socket_5fclose_5fonly_815" "Socket_close_only" [link "../Socket_8c.html#a0e0f2981efa6caf604e8f0fc1072af90" 1 "Socket.c"];
  entry "socket_5fcontinuewrite_816" "Socket_continueWrite" [link "../Socket_8c.html#aa77cff9e8173f9b8d35d062558d0cb57" 1 "Socket.c"];
  entry "socket_5fcontinuewrites_817" "Socket_continueWrites" [link "../Socket_8c.html#ac176152ef036b6cfd7330a9481a7b2ed" 1 "Socket.c"];
  entry "socket_5ferror_818" "Socket_error" [link "../Socket_8c.html#a39a32a0495e5cba033f3c7fee72ae797" 1 "Socket.c"];
  entry "socket_5fgetaddrname_819" "Socket_getaddrname" [link "../Socket_8c.html#a212e51c4ce12e19be59c4d0f93cfb5d9" 1 "Socket.c"];
  entry "socket_5fgetch_820" "Socket_getch" [link "../Socket_8c.html#a01e567eb0c5db3193aaa02f117fd1137" 1 "Socket.c"];
  entry "socket_5fgetdata_821" "Socket_getdata" [link "../Socket_8c.html#a12c397b0fb6187db7a66a44041055a13" 1 "Socket.c"];
  entry "socket_5fgetpeer_822" "Socket_getpeer" [link "../Socket_8c.html#af10088907080a5c517ee23ac022f6538" 1 "Socket.c"];
  entry "socket_5fgetreadysocket_823" "Socket_getReadySocket" [link "../Socket_8c.html#ab33a53c9fce80d5dfeb26426b157034a" 1 "Socket.c"];
  entry "socket_5fnew_824" "Socket_new" [link "../Socket_8c.html#accf7d8d1529e31b2ad8286627cb662c0" 1 "Socket.c"];
  entry "socket_5fnopendingwrites_825" "Socket_noPendingWrites" [link "../Socket_8c.html#a457d9a6a9d8e886c46fcd0c096f45614" 1 "Socket.c"];
  entry "socket_5foutinitialize_826" "Socket_outInitialize" [link "../Socket_8c.html#a573a6eea727016f3e8770f60e5eed958" 1 "Socket.c"];
  entry "socket_5foutterminate_827" "Socket_outTerminate" [link "../Socket_8c.html#af365aa1d5a29ffcb83bb15edaf3401e6" 1 "Socket.c"];
  entry "socket_5fputdatas_828" "Socket_putdatas" [link "../Socket_8c.html#a8fac284bb799c180ef68bb5c7b4b1df4" 1 "Socket.c"];
  entry "socket_5fsetnonblocking_829" "Socket_setnonblocking" [link "../Socket_8c.html#ab8ff50df7c89391178aa754083d2f828" 1 "Socket.c"];
  entry "socket_5fwritev_830" "Socket_writev" [link "../Socket_8c.html#a550291985042dc080825ab27b16894fb" 1 "Socket.c"];
  entry "socketbuffer_5fcleanup_831" "SocketBuffer_cleanup" [link "../SocketBuffer_8c.html#abb5eae96f4c62d1e6fefed8d078ecba8" 1 "SocketBuffer.c"];
  entry "socketbuffer_5fcomplete_832" "SocketBuffer_complete" [link "../SocketBuffer_8c.html#a8b7b6acbf2ec65796c32da7fd55c3ee8" 1 "SocketBuffer.c"];
  entry "socketbuffer_5ffreedefq_833" "SocketBuffer_freeDefQ" [link "../SocketBuffer_8c.html#acb4511a3a4767187a2607027aff718b8" 1 "SocketBuffer.c"];
  entry "socketbuffer_5fgetqueuedchar_834" "SocketBuffer_getQueuedChar" [link "../SocketBuffer_8c.html#a999ec229faa4b2e2c0f7db87693bc1f8" 1 "SocketBuffer.c"];
  entry "socketbuffer_5fgetqueueddata_835" "SocketBuffer_getQueuedData" [link "../SocketBuffer_8c.html#afcc9b9b6bd255b0a6e4c7e4f5a36bb37" 1 "SocketBuffer.c"];
  entry "socketbuffer_5fgetwrite_836" "SocketBuffer_getWrite" [link "../SocketBuffer_8c.html#a524311e577a7225a09fb944904c17886" 1 "SocketBuffer.c"];
  entry "socketbuffer_5finitialize_837" "SocketBuffer_initialize" [link "../SocketBuffer_8c.html#abc8599ffc6f7ad91a7748e5d78bbd926" 1 "SocketBuffer.c"];
  entry "socketbuffer_5finterrupted_838" "SocketBuffer_interrupted" [link "../SocketBuffer_8c.html#a412a40b44b12901e63e662ac0e5be0af" 1 "SocketBuffer.c"];
  entry "socketbuffer_5fnewdefq_839" "SocketBuffer_newDefQ" [link "../SocketBuffer_8c.html#a9293d4ef45aa2a51baab9be4eb73091b" 1 "SocketBuffer.c"];
  entry "socketbuffer_5fpendingwrite_840" "SocketBuffer_pendingWrite" [link "../SocketBuffer_8c.html#aa61a564b814b06d9cfd3fe9ce7ab1cf7" 1 "SocketBuffer.c"];
  entry "socketbuffer_5fqueuechar_841" "SocketBuffer_queueChar" [link "../SocketBuffer_8c.html#a2f6bac9a46fd116e58071ff49152d716" 1 "SocketBuffer.c"];
  entry "socketbuffer_5fterminate_842" "SocketBuffer_terminate" [link "../SocketBuffer_8c.html#a4a8d6188b4775789810a44396d05cf19" 1 "SocketBuffer.c"];
  entry "socketbuffer_5fupdatewrite_843" "SocketBuffer_updateWrite" [link "../SocketBuffer_8c.html#a7ba9075e011f49302304ce7b2d8e5b59" 1 "SocketBuffer.c"];
  entry "socketbuffer_5fwritecomplete_844" "SocketBuffer_writeComplete" [link "../SocketBuffer_8c.html#ae8667990c5933c3af9b90a163bba34dc" 1 "SocketBuffer.c"];
  entry "socketcompare_845" "socketcompare" [link "../SocketBuffer_8c.html#acebc1cbb93be4588f33b04ed404f6dbf" 1 "SocketBuffer.c"];
  entry "stringcompare_846" "stringcompare" [link "../LinkedList_8c.html#a936806c4b6f6c10d91cc128b63ab110c" 1 "LinkedList.c"]].
Definition functions_9 : list SearchEntry := [
  entry "thread_5fcheck_5fsem_847" "Thread_check_sem" [link "../Thread_8c.html#ad327c467c568b27be4c3676fc698e129" 1 "Thread.c"];
  entry "thread_5fcreate_5fcond_848" "Thread_create_cond" [link "../Thread_8c.html#afdd152c518f968c777012d7dfb20ef96" 1 "Thread.c"];
  entry "thread_5fcreate_5fsem_849" "Thread_create_sem" [link "../Thread_8c.html#a3b9b6cb543ee55442d2037a971f651db" 1 "Thread.c"];
  entry "thread_5fdestroy_5fcond_850" "Thread_destroy_cond" [link "../Thread_8c.html#a95309628f2c15de1f3ea8047b086a707" 1 "Thread.c"];
  entry "thread_5fdestroy_5fsem_851" "Thread_destroy_sem" [link "../Thread_8c.html#ad075ec07f801ac1a2a7dee7097048182" 1 "Thread.c"];
  entry "thread_5fpost_5fsem_852" "Thread_post_sem" [link "../Thread_8c.html#ac023f527bed9c6c3a20244fa7efe272c" 1 "Thread.c"];
  entry "thread_5fsignal_5fcond_853" "Thread_signal_cond" [link "../Thread_8c.html#a7b0d40dc1603a6e93db0ee970bb6750f" 1 "Thread.c"];
  entry "thread_5fwait_5fcond_854" "Thread_wait_cond" [link "../Thread_8c.html#acd23266878de6faaee0a972ef74c4db6" 1 "Thread.c"];
  entry "thread_5fwait_5fsem_855" "Thread_wait_sem" [link "../Thread_8c.html#a4d0bbfc059da3cd10626244d3468d319" 1 "Thread.c"];
  entry "treeaddbyindex_856" "TreeAddByIndex" [link "../Tree_8c.html#afa8473167abb71831644bf8a322bc3b6" 1 "Tree.c"];
  entry "treeinitialize_857" "TreeInitialize" [link "../Tree_8c.html#aa5ee1e466d266b289dc45cbd97116b83" 1 "Tree.c"];
  entry "treeremoveindex_858" "TreeRemoveIndex" [link "../Tree_8c.html#a1263bdfc6a906db3023ca1a6ad5302a4" 1 "Tree.c"];
  entry "treeremovenodeindex_859" "TreeRemoveNodeIndex" [link "../Tree_8c.html#a9c3b81e7e63498e3a8f7bd28c4caec10" 1 "Tree.c"]].
Definition functions_a : list SearchEntry := [
  entry "utf8_5fchar_5fvalidate_860" "UTF8_char_validate" [link "../utf-8_8c.html#a9727caa7417e6bed8cfad4121a22628d" 1 "utf-8.c"];
  entry "utf8_5fvalidate_861" "UTF8_validate" [link "../utf-8_8c.html#ad2012627fca4b4bdd9f67bde49b0d1cb" 1 "utf-8.c"];
  entry "utf8_5fvalidatestring_862" "UTF8_validateString" [link "../utf-8_8c.html#a4f3cf77538d867bb5b421bcb687dccdf" 1 "utf-8.c"]].
Definition functions_b : list SearchEntry := [
  entry "writechar_863" "writeChar" [link "../MQTTPacket_8c.html#ad29ec8b2fbf0ec0195621b44f8945923" 1 "MQTTPacket.c"];
  entry "writedata_864" "writeData" [link "../MQTTPacket_8c.html#a8886398fbf89872f8e593444d351a5aa" 1 "MQTTPacket.c"];
  entry "writeint_865" "writeInt" [link "../MQTTPacket_8c.html#a07aa0146eda3d32979142e7df8ad5fc3" 1 "MQTTPacket.c"];
  entry "writeint4_866" "writeInt4" [link "../MQTTPacket_8c.html#aa9130985a524757f3f0d4e00d21cd680" 1 "MQTTPacket.c"];
  entry "writeutf_867" "writeUTF" [link "../MQTTPacket_8c.html#af0fcaa11ac05ce448a433a53f9cae420" 1 "MQTTPacket.c"]].
Definition variables_0 : list SearchEntry := [
  entry "_5f_5fpad0_5f_5f_868" "__pad0__" [link "../structConnect.html#a9a33c7cfd83c02e341a8326683fa84d8" 1 "Connect"]].
Definition variables_1 : list SearchEntry := [
  entry "afterread_869" "afterRead" [link "../structClients.html#a32899a8e944eef969c834833388fb91e" 1 "Clients"];
  entry "afterread_5fcontext_870" "afterRead_context" [link "../structClients.html#a429110f440ce0de51d60324fa8b8cc57" 1 "Clients"];
  entry "all_871" "all" [link "../structConnect.html#a7a4ee927261ade96ec6a800978f37970" 1 "Connect::all()"; link "../structConnack.html#aa2355d305cb311d356af339c44a852c7" 1 "Connack::all()"];
  entry "allow_5fduplicates_872" "allow_duplicates" [link "../structTree.html#a4098c257d75639b6775553b27e13bbfd" 1 "Tree"];
  entry "allowdisconnectedsendatanytime_873" "allowDisconnectedSendAtAnyTime" [link "../structMQTTAsync__createOptions.html#a8ab45ad21f70abfea24a248b7a83d9f7" 1 "MQTTAsync_createOptions"];
  entry "alt_874" "alt" [link "../structMQTTAsync__successData.html#af2b2a98191b00dbd7c592f2ef013ba87" 1 "MQTTAsync_successData::alt()"; link "../structMQTTAsync__successData5.html#ab8c810f026ac58874c1fd0b112bdda71" 1 "MQTTAsync_successData5::alt()"];
  entry "array_875" "array" [link "../structMQTTProperties.html#af2d57fd95f759ef758ff77b07e8683cd" 1 "MQTTProperties"];
  entry "automaticreconnect_876" "automaticReconnect" [link "../structMQTTAsync__connectOptions.html#acc2d253ca78b0c32813dbdc24b0c5f7a" 1 "MQTTAsync_connectOptions"]].
Definition variables_2 : list SearchEntry := [
  entry "beforewrite_877" "beforeWrite" [link "../structClients.html#acb5a2bdb04148e714a123b6a14b34cb9" 1 "Clients"];
  entry "beforewrite_5fcontext_878" "beforeWrite_context" [link "../structClients.html#a57ec2f443b8de574ede8a62a6a3212db" 1 "Clients"];
  entry "binarypwd_879" "binarypwd" [link "../structMQTTAsync__connectData.html#a8643b5dacde868343c91cf6ad68d56b8" 1 "MQTTAsync_connectData::binarypwd()"; link "../structMQTTAsync__connectOptions.html#a71b40f4b4aeb26270f4d5df001656d41" 1 "MQTTAsync_connectOptions::binarypwd()"; link "../structMQTTClient__connectOptions.html#acfff5a62e87b80f205a1f83fdde5653d" 1 "MQTTClient_connectOptions::binarypwd()"];
  entry "buffers_880" "buffers" [link "../structPacketBuffers.html#a286d27793c957cc729d40272b31a1b53" 1 "PacketBuffers"];
  entry "buflen_881" "buflen" [link "../structsocket__queue.html#ab38f6d48de7c8905c3124ee1de4eac71" 1 "socket_queue"];
  entry "buflens_882" "buflens" [link "../structPacketBuffers.html#a359895b0df7be5369344eb2e6122c067" 1 "PacketBuffers"];
  entry "byte_883" "byte" [link "../unionHeader.html#a75d550e644fb0f4ae2be1a33d0d89ec6" 1 "Header::byte()"; link "../structMQTTProperty.html#acf819eac134fafe7e284598b4e6897e3" 1 "MQTTProperty::byte()"];
  entry "bytes_884" "bytes" [link "../utf-8_8c.html#abf4b7aec66b165e9a0a8e3a4ad69f863" 1 "utf-8.c"]].
Definition variables_3 : list SearchEntry := [
  entry "capath_885" "CApath" [link "../structMQTTClient__SSLOptions.html#a1901b5590afdc86db8e542c0d49f5106" 1 "MQTTClient_SSLOptions::CApath()"; link "../structMQTTAsync__SSLOptions.html#a2c5cc887b0fd4a388b0bef9163d5b1ab" 1 "MQTTAsync_SSLOptions::CApath()"];
  entry "child_886" "child" [link "../structNodeStruct.html#a6f84842a1ac8bf4ea19a3bb6b4af9c4d" 1 "NodeStruct"];
  entry "cleansession_887" "cleansession" [link "../structClients.html#a9853b4a06c38478148ab09fe9ccff423" 1 "Clients::cleansession()"; link "../structMQTTAsync__connectOptions.html#ac4addd2c4614cfc12c9dd7e199a989ff" 1 "MQTTAsync_connectOptions::cleansession()"; link "../structMQTTClient__connectOptions.html#a03a2cfaf17483f1b0aab2a70f3ef30d9" 1 "MQTTClient_connectOptions::cleansession()"];
  entry "cleanstart_888" "cleanstart" [link "../structClients.html#a8e1ca3c305b51f86c29d246a60d0fec2" 1 "Clients::cleanstart()"; link "../structConnect.html#a1ecdff766bc9f572a2d1a3ae22bd0bca" 1 "Connect::cleanstart()"];
  entry "clientid_889" "clientID" [link "../structClients.html#aab6a37dbb279f1f1819bd89f75695e92" 1 "Clients::clientID()"; link "../structConnect.html#aa0063fa6349a7fb5be89cf1cbe4043b4" 1 "Connect::clientID()"];
  entry "code_890" "code" [link "../structMQTTAsync__failureData.html#acbdff200c2c6ac593c88cd0b677921e2" 1 "MQTTAsync_failureData::code()"; link "../structMQTTAsync__failureData5.html#ac92de089ce2d9ae81b2c4b0dc1f97792" 1 "MQTTAsync_failureData5::code()"];
  entry "compare_891" "compare" [link "../structTree.html#a9c7cc2fbf66ff51c0d90be03f3562c84" 1 "Tree"];
  entry "connect_5fcount_892" "connect_count" [link "../structClients.html#a46550d6ea8cf3480bb754afa56f516d5" 1 "Clients"];
  entry "connect_5fpending_893" "connect_pending" [link "../structSockets.html#ac1b74c5f7fd463159318d2ef3c8fcee6" 1 "Sockets"];
  entry "connect_5fsent_894" "connect_sent" [link "../structClients.html#a02e9acc54d3df8770178f16694c1f405" 1 "Clients"];
  entry "connected_895" "connected" [link "../structClients.html#adc2f2a83ccacde92ad6b4ee304fc3e6a" 1 "Clients"];
  entry "connectproperties_896" "connectProperties" [link "../structMQTTAsync__connectOptions.html#ad10d2f263a6802ec6a3a74e0cf9a7453" 1 "MQTTAsync_connectOptions"];
  entry "connecttimeout_897" "connectTimeout" [link "../structMQTTAsync__connectOptions.html#a0f2fb050e48f46332523fe1e48c04980" 1 "MQTTAsync_connectOptions::connectTimeout()"; link "../structMQTTClient__connectOptions.html#ab6713be91e99a94a7168bbcac02f6beb" 1 "MQTTClient_connectOptions::connectTimeout()"];
  entry "content_898" "content" [link "../structListElementStruct.html#a808c5a8a407bec041d0817705561ffd5" 1 "ListElementStruct::content()"; link "../structNodeStruct.html#aa605b943d1cb013da384c37f5a074285" 1 "NodeStruct::content()"];
  entry "context_899" "context" [link "../structClients.html#ae0c3a79f1943071fe9d336014cf5826a" 1 "Clients::context()"; link "../structMQTTAsync__responseOptions.html#a1d39a3f47712791b00ec7faab14c839a" 1 "MQTTAsync_responseOptions::context()"; link "../structMQTTAsync__connectOptions.html#ab1def8c5155a84603d6827664d59537c" 1 "MQTTAsync_connectOptions::context()"; link "../structMQTTAsync__disconnectOptions.html#a6c8a7ef5c761e46d17750919eb4dadd3" 1 "MQTTAsync_disconnectOptions::context()"; link "../structMQTTClient__persistence.html#a2066e737e00f3fcb016152b4a9cedad6" 1 "MQTTClient_persistence::context()"];
  entry "count_900" "count" [link "../structList.html#a7d50f0a95a04faab8c250bc6ea28a67d" 1 "List::count()"; link "../structMQTTProperties.html#a0eaa838640c90af2a963d7e0b23ff4e5" 1 "MQTTProperties::count()"; link "../structTree.html#ad13cc776048feb0a19c640c8f1d1ffd6" 1 "Tree::count()"];
  entry "cur_5ffd_901" "cur_fd" [link "../structSockets.html#a4ebc1178e3d1516f31b7dbc276cfde2b" 1 "Sockets"];
  entry "current_902" "current" [link "../structList.html#a76dacd2c880fb9a86ab7c0f3aa4ee624" 1 "List"];
  entry "current_5fsize_903" "current_size" [link "../structheap__info.html#a26c9bfacf416872c953138adc64e1a3d" 1 "heap_info"]].
Definition variables_4 : list SearchEntry := [
  entry "data_904" "data" [link "../structMQTTAsync__willOptions.html#a9e18ae16bb17c09708e7f767390a9638" 1 "MQTTAsync_willOptions::data()"; link "../structMQTTAsync__connectOptions.html#aad75b20bff67aa3462602fe41465931a" 1 "MQTTAsync_connectOptions::data()"; link "../structMQTTClient__willOptions.html#aceaee06cb85a7dd485e58f0cd26c289d" 1 "MQTTClient_willOptions::data()"; link "../structMQTTClient__connectOptions.html#aaa44742ad0345bf7f3aea7628dea6bca" 1 "MQTTClient_connectOptions::data()"; link "../structMQTTLenString.html#ac875ffa1e0af752d17a10be055c33377" 1 "MQTTLenString::data()"; link "../structMQTTProperty.html#af08778d86fb08643620cefabd205bc11" 1 "MQTTProperty::data()"; link "../structMQTTAsync__connectData.html#a3a5188d10f6aab79d85d0468a56e5033" 1 "MQTTAsync_connectData::data()"];
  entry "datalen_905" "datalen" [link "../structsocket__queue.html#a812ce9bb00766c3e91a593842414b693" 1 "socket_queue"];
  entry "def_5fqueue_906" "def_queue" [link "../SocketBuffer_8c.html#ace376d23d15b97a487298fa0c8a238ea" 1 "SocketBuffer.c"];
  entry "destinationname_907" "destinationName" [link "../structMQTTAsync__successData5.html#a3aa03bcf1e08deeaacb237d014181e80" 1 "MQTTAsync_successData5::destinationName()"; link "../structMQTTAsync__successData.html#af3eef8b306fc96c9a0e36f2d0fd1e322" 1 "MQTTAsync_successData::destinationName()"];
  entry "disabledefaulttruststore_908" "disableDefaultTrustStore" [link "../structMQTTAsync__SSLOptions.html#a349454d7fe6021b62004874d7efa6277" 1 "MQTTAsync_SSLOptions::disableDefaultTrustStore()"; link "../structMQTTClient__SSLOptions.html#a09caf7e179009d70fff6205e89fcc434" 1 "MQTTClient_SSLOptions::disableDefaultTrustStore()"];
  entry "do_5fopenssl_5finit_909" "do_openssl_init" [link "../structMQTTAsync__init__options.html#a97caac4b94254b6b9251c07e9532f18b" 1 "MQTTAsync_init_options::do_openssl_init()"; link "../structMQTTClient__init__options.html#acb4f69163cbb7cf8fcc44ca086354dbc" 1 "MQTTClient_init_options::do_openssl_init()"];
  entry "dup_910" "dup" [link "../structMQTTAsync__message.html#aa9da73253863089ee90033c7f0dd28bf" 1 "MQTTAsync_message::dup()"; link "../structMQTTClient__message.html#abbb5f23377bd9f39cc79756786fa45cc" 1 "MQTTClient_message::dup()"; link "../unionHeader.html#a35c1c5537424b9307f4ff0803f16a25f" 1 "Header::dup()"]].
Definition variables_5 : list SearchEntry := [
  entry "enabledciphersuites_911" "enabledCipherSuites" [link "../structMQTTAsync__SSLOptions.html#a45ea4eb5a79cb0b6150c86d15c3143c9" 1 "MQTTAsync_SSLOptions::enabledCipherSuites()"; link "../structMQTTClient__SSLOptions.html#a0e07f3de1807ab841646cbb8bfa94657" 1 "MQTTClient_SSLOptions::enabledCipherSuites()"];
  entry "enableservercertauth_912" "enableServerCertAuth" [link "../structMQTTAsync__SSLOptions.html#ab349eef3682c23527cf73bd9cea8782c" 1 "MQTTAsync_SSLOptions::enableServerCertAuth()"; link "../structMQTTClient__SSLOptions.html#ac21e3ad623dd35533e7101001299fb6f" 1 "MQTTClient_SSLOptions::enableServerCertAuth()"]].
Definition variables_6 : list SearchEntry := [
  entry "fds_5fread_913" "fds_read" [link "../structSockets.html#a9e91e6577708542a4aab9c43976f7923" 1 "Sockets"];
  entry "file_914" "file" [link "../structstorageElement.html#aa13f42ed8f43459d289dec1bc4e259dd" 1 "storageElement"];
  entry "first_915" "first" [link "../structList.html#ab6dd52dbb617d263723015ef055caffe" 1 "List"];
  entry "fixed_5fheader_916" "fixed_header" [link "../structsocket__queue.html#a8cc2b561b0b418fbbcc7ede680c71169" 1 "socket_queue"];
  entry "flags_917" "flags" [link "../structConnect.html#a0c84bf238adaf04ea32a2b759247d80a" 1 "Connect::flags()"; link "../structConnack.html#a296f82b2061fa92586c8c2212ffd6efd" 1 "Connack::flags()"];
  entry "frees_918" "frees" [link "../structPacketBuffers.html#a3cd5992bdafa89f7e7a7083b20ff9390" 1 "PacketBuffers"]].
Definition variables_7 : list SearchEntry := [
  entry "good_919" "good" [link "../structClients.html#a45dde398d2d928794de3886c74c435f6" 1 "Clients"]].
Definition variables_8 : list SearchEntry := [
  entry "header_920" "header" [link "../structConnack.html#af532b37a9b73aaf2254d9e5789814d71" 1 "Connack::header()"; link "../structMQTTPacket.html#a0f16e8684e0dd97e5b61785b18c48151" 1 "MQTTPacket::header()"; link "../structSuback.html#a18c1a08ef8f60791bd6495d4ecba0066" 1 "Suback::header()"; link "../structUnsuback.html#a7751d1086fd1c6d9ba948b10e816a0dc" 1 "Unsuback::header()"; link "../structPublish.html#a05131ded5e4a7768aee72f66df37f67d" 1 "Publish::header()"; link "../structAck.html#a8be1d032b4a67550dc6020d450ad65b6" 1 "Ack::header()"; link "../structConnect.html#a64c92596b5ce2c01452d53d91fdf41c4" 1 "Connect::header()"];
  entry "heap_921" "heap" [link "../Heap_8c.html#aa337931db6f2e3b78d5dce6a8d228257" 1 "Heap.c"];
  entry "heap_5ftracking_922" "heap_tracking" [link "../structTree.html#ad3f36479166a4a7d4124c6a79ee770f4" 1 "Tree"];
  entry "httpheaders_923" "httpHeaders" [link "../structMQTTAsync__connectOptions.html#a804e7ee013338a83a6f573f6644829ca" 1 "MQTTAsync_connectOptions::httpHeaders()"; link "../structMQTTClient__connectOptions.html#a843b077a0524dcc6a1ce6db12d2e7412" 1 "MQTTClient_connectOptions::httpHeaders()"];
  entry "httpproxy_924" "httpProxy" [link "../structClients.html#a70540b5d48c05815309215b18de69f8a" 1 "Clients::httpProxy()"; link "../structMQTTAsync__connectOptions.html#a2290cec827700b22efca37ea4bce3abd" 1 "MQTTAsync_connectOptions::httpProxy()"; link "../structMQTTClient__connectOptions.html#a4c801d96d7a0013928d6a475fd48fe3c" 1 "MQTTClient_connectOptions::httpProxy()"];
  entry "httpsproxy_925" "httpsProxy" [link "../structClients.html#a3864bdb9426f9fc646eff80109a831b3" 1 "Clients::httpsProxy()"; link "../structMQTTAsync__connectOptions.html#ad4937ddf0e089fb0e0e054ae3a3aea55" 1 "MQTTAsync_connectOptions::httpsProxy()"; link "../structMQTTClient__connectOptions.html#aff577bef3a72e4aa9022fda4cffd4544" 1 "MQTTClient_connectOptions::httpsProxy()"]].
Definition variables_9 : list SearchEntry := [
  entry "identifier_926" "identifier" [link "../structMQTTProperty.html#a5e407f4d2a2ba51cc784b7660fc06e6f" 1 "MQTTProperty"];
  entry "inboundmsgs_927" "inboundMsgs" [link "../structClients.html#a6e1576ebc386f04d2a70b943677b54d6" 1 "Clients"];
  entry "indexes_928" "indexes" [link "../structTree.html#a970b46e9c386139ad4fe213c043238e5" 1 "Tree"];
  entry "integer2_929" "integer2" [link "../structMQTTProperty.html#a940cbb3bf8211c5f207e3e1b6495c573" 1 "MQTTProperty"];
  entry "integer4_930" "integer4" [link "../structMQTTProperty.html#a64f07dae61291856a24828ff9fd70dd2" 1 "MQTTProperty"]].
Definition variables_a : list SearchEntry := [
  entry "keepaliveinterval_931" "keepAliveInterval" [link "../structClients.html#a0c9720f6d2df33e40ca5a28ced0036bb" 1 "Clients::keepAliveInterval()"; link "../structMQTTAsync__connectOptions.html#ad6ed277d7db13a98ecef45ff3dd10044" 1 "MQTTAsync_connectOptions::keepAliveInterval()"; link "../structMQTTClient__connectOptions.html#a7de757dd172a63d699290d582aa0f798" 1 "MQTTClient_connectOptions::keepAliveInterval()"];
  entry "keepalivetimer_932" "keepAliveTimer" [link "../structConnect.html#a5274defe9badb8c5e46e7b674c548441" 1 "Connect"];
  entry "keystore_933" "keyStore" [link "../structMQTTAsync__SSLOptions.html#ac1b1a5ae74a807d672b5d44c7ecc4a9b" 1 "MQTTAsync_SSLOptions::keyStore()"; link "../structMQTTClient__SSLOptions.html#aab300df31cebc087303c4e5b8071e12c" 1 "MQTTClient_SSLOptions::keyStore()"]].
Definition variables_b : list SearchEntry := [
  entry "last_934" "last" [link "../structList.html#a7be27419b0df1734d1028fa1729eb96c" 1 "List"];
  entry "len_935" "len" [link "../structMessages.html#a4751604bf85bccbff2273a069f976679" 1 "Messages::len()"; link "../structMQTTAsync__connectData.html#a34da6971227839d7ae96394a8bb2c31c" 1 "MQTTAsync_connectData::len()"; link "../structMQTTAsync__willOptions.html#af6f445357e4993806ceedbe7bafb2c20" 1 "MQTTAsync_willOptions::len()"; link "../structMQTTAsync__connectOptions.html#ac6d0d8d8e9c2f55f24b3219c18886be5" 1 "MQTTAsync_connectOptions::len()"; link "../structMQTTClient__willOptions.html#abfa72c814f19cbd87bf777da96ff2860" 1 "MQTTClient_willOptions::len()"; link "../structMQTTClient__connectOptions.html#a3e0d107b093f17c9623f4d1b76d18db6" 1 "MQTTClient_connectOptions::len()"; link "../structMQTTLenString.html#a7eb20db2b77f5e224e12d94c78573fa3" 1 "MQTTLenString::len()"; link "../structws__frame.html#a39b63d46db10302225327f57a20ce099" 1 "ws_frame::len()"; link "../utf-8_8c.html#afed088663f8704004425cdae2120b9b3" 1 "len():&#160;utf-8.c"];
  entry "length_936" "length" [link "../structMQTTProperties.html#a9538dfb5688661da09829a64f582c3c2" 1 "MQTTProperties"];
  entry "line_937" "line" [link "../structstorageElement.html#aa378660045dffaebb2804fd8ba6c5982" 1 "storageElement"];
  entry "lines_5fwritten_938" "lines_written" [link "../Log_8c.html#af6d2621ee2d6d01ab6b42b9afbc1c56e" 1 "Log.c"];
  entry "lower_939" "lower" [link "../utf-8_8c.html#a17ae1b83727db4230c8df98b4ee953fc" 1 "utf-8.c"]].
Definition variables_c : list SearchEntry := [
  entry "mask_940" "mask" [link "../structPacketBuffers.html#a9f29c58d295427b93e1e52fa7fd043ce" 1 "PacketBuffers::mask()"; link "../structPublish.html#a8a70d60f90d1418ebf501ad33eba2e11" 1 "Publish::mask()"];
  entry "max_5fcount_941" "max_count" [link "../structMQTTProperties.html#ad3bd5700ed60fb16c072e8a65672a581" 1 "MQTTProperties"];
  entry "max_5flines_5fper_5ffile_942" "max_lines_per_file" [link "../Log_8c.html#ab0c0e8addd9dc5b2a54aafa15b606435" 1 "Log.c"];
  entry "max_5fsize_943" "max_size" [link "../structheap__info.html#acca9bc1ad656bc11b35406f8588d2c43" 1 "heap_info"];
  entry "max_5ftrace_5fentries_944" "max_trace_entries" [link "../structtrace__settings__type.html#acecf92991c3008b020b44f44f661f03f" 1 "trace_settings_type"];
  entry "maxbufferedmessages_945" "maxBufferedMessages" [link "../structMQTTAsync__createOptions.html#a39d76a63782adbd9526bad0b33603522" 1 "MQTTAsync_createOptions"];
  entry "maxinflight_946" "maxInflight" [link "../structMQTTAsync__connectOptions.html#afbcfee31a89fb634456290f22c4e32da" 1 "MQTTAsync_connectOptions"];
  entry "maxinflightmessages_947" "maxInflightMessages" [link "../structClients.html#af0963eb25f36dfafdd29bfc3007181b7" 1 "Clients::maxInflightMessages()"; link "../structMQTTClient__connectOptions.html#a23eefc54da515a0c189ed6d5918470b0" 1 "MQTTClient_connectOptions::maxInflightMessages()"];
  entry "maxretryinterval_948" "maxRetryInterval" [link "../structMQTTAsync__connectOptions.html#a7d1e6443a9050f3e54b02dfa6854feb4" 1 "MQTTAsync_connectOptions"];
  entry "message_949" "message" [link "../structMQTTAsync__failureData.html#a13f03bf80fd0024437af833d0964304d" 1 "MQTTAsync_failureData::message()"; link "../structMQTTAsync__failureData5.html#a2f82528951018af0eb73b313b94a470e" 1 "MQTTAsync_failureData5::message()"; link "../structMQTTAsync__successData.html#a0b2e85af2333e5775907d3f2b53907d4" 1 "MQTTAsync_successData::message()"; link "../structMQTTAsync__successData5.html#a83d34de369f169d5c1ee099720b964cf" 1 "MQTTAsync_successData5::message()"; link "../structMQTTAsync__willOptions.html#a0a4c40ef8b1f73a67326cd9987fd1894" 1 "MQTTAsync_willOptions::message()"; link "../structMQTTClient__willOptions.html#af367d507f25f09942ff12376b50a5ffb" 1 "MQTTClient_willOptions::message()"];
  entry "messagequeue_950" "messageQueue" [link "../structClients.html#a19263eecc43962ac977832e124b4529f" 1 "Clients"];
  entry "minretryinterval_951" "minRetryInterval" [link "../structMQTTAsync__connectOptions.html#a60bb7a0c6afaaff456f7fa4f18c84b66" 1 "MQTTAsync_connectOptions"];
  entry "mod_5fs_952" "mod_s" [link "../Socket_8c.html#a6caeed4a8d4f884c57a815034cee275e" 1 "Socket.c"];
  entry "mqttversion_953" "MQTTVersion" [link "../structAck.html#a542acd6ed107a1dfffd225b668c0d961" 1 "Ack::MQTTVersion()"; link "../structClients.html#a9cb1ad103af7c3aaf00e79037e6befba" 1 "Clients::MQTTVersion()"; link "../structMQTTAsync__successData.html#a2803f7c3e77845d14d7d54004b6c16f9" 1 "MQTTAsync_successData::MQTTVersion()"; link "../structMQTTAsync__successData5.html#a2a1956f782970dfdc24bb521bd90452b" 1 "MQTTAsync_successData5::MQTTVersion()"; link "../structPublish.html#a5e5bc5c8445b9f8bdbc02315f91921a0" 1 "Publish::MQTTVersion()"; link "../structUnsuback.html#a25413381d1f688248d64a82e67746108" 1 "Unsuback::MQTTVersion()"; link "../structSuback.html#aec7bfa50ec92509a7d7f9466173a064e" 1 "Suback::MQTTVersion()"; link "../structConnack.html#af1a10784220b77ccfbf549b2443f2332" 1 "Connack::MQTTVersion()"; link "../structMQTTClient__connectOptions.html#ac5990907e10165a71e6b3c163f2f1eef" 1 "MQTTClient_connectOptions::MQTTVersion()"; link "../structMQTTClient__createOptions.html#ae15c5b3e67be5967deb87d2830805565" 1 "MQTTClient_createOptions::MQTTVersion()"; link "../structMQTTAsync__command.html#aab15c3354653ca0d03644bcaa98f77fb" 1 "MQTTAsync_command::MQTTVersion()"; link "../structMQTTAsync__connectOptions.html#a03bb9a21cbbd0f9a2258204c1890ca40" 1 "MQTTAsync_connectOptions::MQTTVersion()"; link "../structMQTTAsync__createOptions.html#a538f8ca0715d75b79be91e8050a44402" 1 "MQTTAsync_createOptions::MQTTVersion()"];
  entry "msgid_954" "msgId" [link "../structSuback.html#acb5971c2ca02372e41da6f1ccf202dba" 1 "Suback::msgId()"; link "../structUnsuback.html#a804d221a84b2306cb6040f405315abc3" 1 "Unsuback::msgId()"; link "../structPublish.html#ac1076c8b1dc5793c498f098f0a0d78cd" 1 "Publish::msgId()"; link "../structAck.html#aacfdbab79ac27e1a5ff80bccac4427a9" 1 "Ack::msgId()"];
  entry "msgid_955" "msgid" [link "../structMQTTAsync__message.html#a2c8572ec595842768848982321835bfe" 1 "MQTTAsync_message::msgid()"; link "../structMQTTClient__message.html#a3be81df63644606036c0a139564a1d92" 1 "MQTTClient_message::msgid()"];
  entry "msgid_956" "msgID" [link "../structClients.html#ad0aaa6d9fce1f8196ff859df00716055" 1 "Clients"]].
Definition variables_d : list SearchEntry := [
  entry "name_957" "name" [link "../structMQTTAsync__nameValue.html#ad14f405ef73f1f2aa632bb22e6b26f51" 1 "MQTTAsync_nameValue"];
  entry "net_958" "net" [link "../structClients.html#a8521f3c0d7728e0bac41c1601ca8bbb9" 1 "Clients"];
  entry "new_5fpackets_959" "new_packets" [link "../MQTTPacket_8c.html#a210a7b616c27aa7247824022285da784" 1 "MQTTPacket.c"];
  entry "next_960" "next" [link "../structListElementStruct.html#ae087afc0ce4e6e17592420764902f301" 1 "ListElementStruct"];
  entry "nextmessagetype_961" "nextMessageType" [link "../structMessages.html#aa31b6d8af2e0230eccdcc6ee7f2cefb1" 1 "Messages"];
  entry "nfds_962" "nfds" [link "../structSockets.html#a9bee5974437201a4b7728955de2ebd50" 1 "Sockets"];
  entry "nolocal_963" "noLocal" [link "../structMQTTSubscribe__options.html#a52989a1198bc251aad22638e85f2b7b4" 1 "MQTTSubscribe_options"]].
Definition variables_e : list SearchEntry := [
  entry "onfailure_964" "onFailure" [link "../structMQTTAsync__responseOptions.html#a180b2c728942d606a3fc4a4a79bb81f4" 1 "MQTTAsync_responseOptions::onFailure()"; link "../structMQTTAsync__connectOptions.html#a703d2a77602f3737eccf5123e16bb428" 1 "MQTTAsync_connectOptions::onFailure()"; link "../structMQTTAsync__disconnectOptions.html#a7719db20d0649fd1bd0edc239c289cdb" 1 "MQTTAsync_disconnectOptions::onFailure()"];
  entry "onfailure5_965" "onFailure5" [link "../structMQTTAsync__responseOptions.html#a134555eea729d1eeeb9427057834fa38" 1 "MQTTAsync_responseOptions::onFailure5()"; link "../structMQTTAsync__connectOptions.html#a48bd502d8028bb13afbce0793ebe3c76" 1 "MQTTAsync_connectOptions::onFailure5()"; link "../structMQTTAsync__disconnectOptions.html#a8d78996c4b349f10196450fe9900b943" 1 "MQTTAsync_disconnectOptions::onFailure5()"];
  entry "onsuccess_966" "onSuccess" [link "../structMQTTAsync__responseOptions.html#a4a6dffebf9a6f4ffb9fe2a5d949d8090" 1 "MQTTAsync_responseOptions::onSuccess()"; link "../structMQTTAsync__connectOptions.html#a99c3f6fd2c5238112a6ae90ce1013f10" 1 "MQTTAsync_connectOptions::onSuccess()"; link "../structMQTTAsync__disconnectOptions.html#afe4eec80b7037a59e459fb8643bed3e3" 1 "MQTTAsync_disconnectOptions::onSuccess()"];
  entry "onsuccess5_967" "onSuccess5" [link "../structMQTTAsync__responseOptions.html#a1294e96bc2d81fca8808fdca3bf4dd2e" 1 "MQTTAsync_responseOptions::onSuccess5()"; link "../structMQTTAsync__connectOptions.html#af108a647db655523e892938d3a67d6b4" 1 "MQTTAsync_connectOptions::onSuccess5()"; link "../structMQTTAsync__disconnectOptions.html#ad8a30361f986c6f32ee33e59591d736b" 1 "MQTTAsync_disconnectOptions::onSuccess5()"];
  entry "outboundmsgs_968" "outboundMsgs" [link "../structClients.html#a1d9f8325aa92c6f65a285e823091bbe1" 1 "Clients"];
  entry "outboundqueue_969" "outboundQueue" [link "../structClients.html#a9495d5b5b191a897c05ea8d298e6d6b5" 1 "Clients"]].
Definition variables_f : list SearchEntry := [
  entry "packet_5fnames_970" "packet_names" [link "../MQTTPacket_8c.html#a4536b1c36ed06171f20baeb69c01aa02" 1 "MQTTPacket.c"];
  entry "packet_5ftype_971" "packet_type" [link "../structMQTTAsync__failureData5.html#a20603650f6fd4e429fc4c246d5005843" 1 "MQTTAsync_failureData5"];
  entry "parent_972" "parent" [link "../structNodeStruct.html#a1a00514fc5241f8b1391fa0eb433a128" 1 "NodeStruct"];
  entry "password_973" "password" [link "../structMQTTClient__connectOptions.html#a8f0e7e9e217a913fa8e200e2d5e45f6e" 1 "MQTTClient_connectOptions::password()"; link "../structClients.html#a9f88bf65b015c91ec6ae7bc827513d66" 1 "Clients::password()"; link "../structConnect.html#a5ad7b3bbaab88cc22692b849f31b2756" 1 "Connect::password()"; link "../structMQTTAsync__connectOptions.html#a52a773222e567d8480c85b6a27bf36f2" 1 "MQTTAsync_connectOptions::password()"];
  entry "passwordlen_974" "passwordlen" [link "../structClients.html#a9fc28cb6abab3247752403043c346aa1" 1 "Clients"];
  entry "payload_975" "payload" [link "../structMQTTClient__message.html#a90437a223f235ad4412d0c7c69f08125" 1 "MQTTClient_message::payload()"; link "../structMQTTAsync__message.html#a13d88e9c871b5b39b73370a0784331af" 1 "MQTTAsync_message::payload()"; link "../structPublish.html#abe2b6e569277a3c7fda52449e1ea31b6" 1 "Publish::payload()"; link "../structMQTTClient__willOptions.html#a7553866f76f2f01ee59bc2114da9a169" 1 "MQTTClient_willOptions::payload()"; link "../structMQTTAsync__willOptions.html#a359707f9e88d705bce91d482d9816e33" 1 "MQTTAsync_willOptions::payload()"];
  entry "payloadlen_976" "payloadlen" [link "../structMQTTAsync__message.html#a9271900e2789ff81e382a47842aaee8f" 1 "MQTTAsync_message::payloadlen()"; link "../structPublish.html#ac250077e84d98fc44f95530793bae79b" 1 "Publish::payloadlen()"; link "../structMQTTClient__message.html#a85b39bde61ef9f5ed853ad6489145a94" 1 "MQTTClient_message::payloadlen()"];
  entry "pclear_977" "pclear" [link "../structMQTTClient__persistence.html#a4eb919940dcc01a005abcdeb08a7eb10" 1 "MQTTClient_persistence"];
  entry "pclose_978" "pclose" [link "../structMQTTClient__persistence.html#a1bcc2ebaee1ab155b906493b14088a33" 1 "MQTTClient_persistence"];
  entry "pcontainskey_979" "pcontainskey" [link "../structMQTTClient__persistence.html#a049d548dc2bbe906309a9f869a60653c" 1 "MQTTClient_persistence"];
  entry "persistence_980" "persistence" [link "../structClients.html#a8745ab9f05600fd3f97bf695e99a7f17" 1 "Clients"];
  entry "pget_981" "pget" [link "../structMQTTClient__persistence.html#a0f9fe9edd3946f0647862de7904e4098" 1 "MQTTClient_persistence"];
  entry "phandle_982" "phandle" [link "../structClients.html#a1a0ca8e87f5d963ea3ab5c2e7748aaa5" 1 "Clients"];
  entry "ping_5fdue_983" "ping_due" [link "../structClients.html#a121c64145977cb25dfd05a3297a4d6f1" 1 "Clients"];
  entry "ping_5fdue_5ftime_984" "ping_due_time" [link "../structClients.html#a4e6f0b2b23c1a2b86899c9ca7b06b29b" 1 "Clients"];
  entry "pkeys_985" "pkeys" [link "../structMQTTClient__persistence.html#a36a69926a618f7e0f5098db61ece101b" 1 "MQTTClient_persistence"];
  entry "popen_986" "popen" [link "../structMQTTClient__persistence.html#ae58084438624ad267f7c050debd1b2ff" 1 "MQTTClient_persistence"];
  entry "pos_987" "pos" [link "../structws__frame.html#a03099256dd943b73f0558039b6ff4c6b" 1 "ws_frame"];
  entry "pput_988" "pput" [link "../structMQTTClient__persistence.html#a0f7846e9b4118a7a63702c504f4c8e9d" 1 "MQTTClient_persistence"];
  entry "premove_989" "premove" [link "../structMQTTClient__persistence.html#a815d4110bfd7f2678a60f9264b13e075" 1 "MQTTClient_persistence"];
  entry "prev_990" "prev" [link "../structListElementStruct.html#a988db5828265edf844721e841e71fffe" 1 "ListElementStruct"];
  entry "privatekey_991" "privateKey" [link "../structMQTTClient__SSLOptions.html#a5f3cc2c0f36991db85aae88ccd4985f9" 1 "MQTTClient_SSLOptions::privateKey()"; link "../structMQTTAsync__SSLOptions.html#a8b56d6075568072840f02abc8c642f6a" 1 "MQTTAsync_SSLOptions::privateKey()"];
  entry "privatekeypassword_992" "privateKeyPassword" [link "../structMQTTClient__SSLOptions.html#a183af235478d93a6b14c204e9e291bab" 1 "MQTTClient_SSLOptions::privateKeyPassword()"; link "../structMQTTAsync__SSLOptions.html#a498e4dfcb65894bfc04290ace6b9a4cd" 1 "MQTTAsync_SSLOptions::privateKeyPassword()"];
  entry "properties_993" "properties" [link "../structMQTTAsync__responseOptions.html#abc19c474b6908b2bcbd42f8410d46336" 1 "MQTTAsync_responseOptions::properties()"; link "../structMQTTAsync__disconnectOptions.html#a2df711f7d216b57a584195691ac5630f" 1 "MQTTAsync_disconnectOptions::properties()"; link "../structMQTTClient__message.html#aa24d24d388481c0616a704cabb041f95" 1 "MQTTClient_message::properties()"; link "../structMQTTAsync__message.html#a48ff43122b16a12b6b8a9890ebfb6410" 1 "MQTTAsync_message::properties()"; link "../structConnack.html#ab5d35213eadd6bbecd56627b9680ac0c" 1 "Connack::properties()"; link "../structSuback.html#a57c418a7021b10c92aec4c4d010b7f67" 1 "Suback::properties()"; link "../structMQTTAsync__failureData5.html#a9c1807e86e398de6f4846d90b4a5eda6" 1 "MQTTAsync_failureData5::properties()"; link "../structUnsuback.html#adc48396a054907a9806fef1dd46d1055" 1 "Unsuback::properties()"; link "../structPublish.html#a99fce902e497cd379686c6d447a17be3" 1 "Publish::properties()"; link "../structMQTTAsync__successData5.html#ac425dfec67b3245e95a3e415d93ba5bf" 1 "MQTTAsync_successData5::properties()"; link "../structAck.html#a7eff67c84b323fc798eb3282b2981069" 1 "Ack::properties()"];
  entry "protocol_994" "Protocol" [link "../structConnect.html#ab87417598de200c235ce28e8947f8804" 1 "Connect"];
  entry "protos_995" "protos" [link "../structMQTTAsync__SSLOptions.html#a9947024802d3fb16fc050f4741a46e04" 1 "MQTTAsync_SSLOptions::protos()"; link "../structMQTTClient__SSLOptions.html#ad3db47e7874990570d03758a3fa28dad" 1 "MQTTClient_SSLOptions::protos()"];
  entry "protos_5flen_996" "protos_len" [link "../structMQTTAsync__SSLOptions.html#ad9e390b02afbf856c5a9267d30f09208" 1 "MQTTAsync_SSLOptions::protos_len()"; link "../structMQTTClient__SSLOptions.html#ac2df368c72cfaa432f90e3b657bd0883" 1 "MQTTClient_SSLOptions::protos_len()"];
  entry "ptr_997" "ptr" [link "../structstorageElement.html#a0d617635e796eaa92ace8cb5cd6d0925" 1 "storageElement"];
  entry "pub_998" "pub" [link "../structMQTTAsync__successData.html#a61d994959ff1350ab2a0986d33ecd204" 1 "MQTTAsync_successData::pub()"; link "../structMQTTAsync__successData5.html#a7e75879a42ba01477a3c921487e3c564" 1 "MQTTAsync_successData5::pub()"]].
Definition variables_10 : list SearchEntry := [
  entry "qos_999" "qos" [link "../structMQTTAsync__message.html#a6e0971dbde0f04b6dd3bfab97ad5cdb7" 1 "MQTTAsync_message::qos()"; link "../structMQTTAsync__successData.html#af12fc9f6b7a42449f8299e5a8e4f0e7e" 1 "MQTTAsync_successData::qos()"; link "../structMQTTAsync__willOptions.html#add4a18313308fec634c69842f6ab9809" 1 "MQTTAsync_willOptions::qos()"; link "../structMQTTClient__message.html#ab981c28422ec70dbf8127a4f7164d964" 1 "MQTTClient_message::qos()"; link "../structMQTTClient__willOptions.html#a10a24c6ed7a204e6eb21d48ad8fb13cb" 1 "MQTTClient_willOptions::qos()"; link "../unionHeader.html#ae74f40c0e3656880e35ee93e79331f84" 1 "Header::qos()"];
  entry "qoslist_1000" "qosList" [link "../structMQTTAsync__successData.html#aa4ad4a4023c5b9796e44b9dfd0df53e7" 1 "MQTTAsync_successData"];
  entry "qoss_1001" "qoss" [link "../structSuback.html#a7769bd0751e462641636354d36505c28" 1 "Suback"];
  entry "queues_1002" "queues" [link "../SocketBuffer_8c.html#aa8b85db4dca13d13c2b7fc704420323a" 1 "SocketBuffer.c"]].
Definition variables_11 : list SearchEntry := [
  entry "rc_1003" "rc" [link "../structAck.html#a54d6ed9d045c38877e27bdf5802e3efe" 1 "Ack::rc()"; link "../structConnack.html#a5a963839f48e7f1319af687621f6e3ec" 1 "Connack::rc()"];
  entry "reasoncode_1004" "reasonCode" [link "../structMQTTAsync__failureData5.html#a42afb6bf2c55f9830dc1d0984b251019" 1 "MQTTAsync_failureData5::reasonCode()"; link "../structMQTTAsync__successData5.html#a966b7fc75d0b1fbbc9791aa3eeef06a5" 1 "MQTTAsync_successData5::reasonCode()"; link "../structMQTTAsync__disconnectOptions.html#af99498836b80011b4e38a9aa18772921" 1 "MQTTAsync_disconnectOptions::reasonCode()"];
  entry "reasoncodecount_1005" "reasonCodeCount" [link "../structMQTTAsync__successData5.html#a0bfa041c9ce783614786235c650a80aa" 1 "MQTTAsync_successData5"];
  entry "reasoncodes_1006" "reasonCodes" [link "../structMQTTAsync__successData5.html#abe4fb1e0907a7a1e77fdb6851879b605" 1 "MQTTAsync_successData5::reasonCodes()"; link "../structUnsuback.html#ac5fabab5aa00869b6ef4901cb4849122" 1 "Unsuback::reasonCodes()"];
  entry "reliable_1007" "reliable" [link "../structMQTTClient__connectOptions.html#acd6367d7a402e7b668f8ec9760cd42c8" 1 "MQTTClient_connectOptions"];
  entry "reserved_1008" "reserved" [link "../structConnack.html#a455bf40d0da52ccfd9b546e7fa23b1d0" 1 "Connack"];
  entry "retain_1009" "retain" [link "../unionHeader.html#afa52b52e4b84075cf31612a6ac3a0299" 1 "Header"];
  entry "retainaspublished_1010" "retainAsPublished" [link "../structMQTTSubscribe__options.html#a9c66f0773c0484dde0e582b4c47d9bf7" 1 "MQTTSubscribe_options"];
  entry "retained_1011" "retained" [link "../structMQTTAsync__message.html#a680f5368d5a13ff605466ab6a3d881bd" 1 "MQTTAsync_message::retained()"; link "../structMQTTAsync__willOptions.html#ab61a8f7cd82a4cbd919625031b1b51d6" 1 "MQTTAsync_willOptions::retained()"; link "../structMQTTClient__message.html#aad83220f265db124174ad79f528bb367" 1 "MQTTClient_message::retained()"; link "../structMQTTClient__willOptions.html#a09d69c3e208f40ab963dbd0ac2edcd5b" 1 "MQTTClient_willOptions::retained()"];
  entry "retainhandling_1012" "retainHandling" [link "../structMQTTSubscribe__options.html#a8375543f39c16e32698226db118076e6" 1 "MQTTSubscribe_options"];
  entry "retryinterval_1013" "retryInterval" [link "../structClients.html#a6b2188e352433ff089b1b7d08976a63b" 1 "Clients::retryInterval()"; link "../structMQTTAsync__connectOptions.html#a7f4026dad0479c6658aac68d719950a1" 1 "MQTTAsync_connectOptions::retryInterval()"; link "../structMQTTClient__connectOptions.html#aabeb07cc7a2aa18fc1fb365503185c62" 1 "MQTTClient_connectOptions::retryInterval()"];
  entry "returned_1014" "returned" [link "../structMQTTClient__connectOptions.html#a198e91c4adb81b5851cbd5c2eb14424e" 1 "MQTTClient_connectOptions"];
  entry "root_1015" "root" [link "../structTree.html#ad8e46ce0aead5778cbdd784d1e370d5f" 1 "Tree"]].
Definition variables_12 : list SearchEntry := [
  entry "sendwhiledisconnected_1016" "sendWhileDisconnected" [link "../structMQTTAsync__createOptions.html#a7142a01ee58f39a950f8627c4bb05318" 1 "MQTTAsync_createOptions"];
  entry "serveruri_1017" "serverURI" [link "../structMQTTAsync__successData.html#a622eceefeaf9679af35841b1e7564f48" 1 "MQTTAsync_successData::serverURI()"; link "../structMQTTClient__connectOptions.html#a31f882b2966272a53b2bee33cb1aea8c" 1 "MQTTClient_connectOptions::serverURI()"; link "../structMQTTAsync__successData5.html#ad5af721250d01a2d0a4d1cd7932b81eb" 1 "MQTTAsync_successData5::serverURI()"];
  entry "serveruricount_1018" "serverURIcount" [link "../structMQTTAsync__connectOptions.html#ae772aa4b3707c5c11d6be39f51ec4551" 1 "MQTTAsync_connectOptions::serverURIcount()"; link "../structMQTTClient__connectOptions.html#a71667cbc2aa857db5b831a1e6a4a1ec9" 1 "MQTTClient_connectOptions::serverURIcount()"];
  entry "serveruris_1019" "serverURIs" [link "../structMQTTAsync__connectOptions.html#a50f0a294c8f7311ccd7f7803b432bb69" 1 "MQTTAsync_connectOptions::serverURIs()"; link "../structMQTTClient__connectOptions.html#aec63485af96db24d26868d3a19a83504" 1 "MQTTClient_connectOptions::serverURIs()"];
  entry "sessionexpiry_1020" "sessionExpiry" [link "../structClients.html#a54641954e17c0aef4e742c0a1e3e8391" 1 "Clients"];
  entry "sessionpresent_1021" "sessionPresent" [link "../structMQTTAsync__successData.html#a71879fec2eb0c6b891a48ed813b2a9da" 1 "MQTTAsync_successData::sessionPresent()"; link "../structMQTTAsync__successData5.html#ab8a0f5e336f3abe06921a22a5a134ab2" 1 "MQTTAsync_successData5::sessionPresent()"; link "../structMQTTClient__connectOptions.html#a2ed78107fecaa4639a170f63ca42d507" 1 "MQTTClient_connectOptions::sessionPresent()"; link "../structConnack.html#a57f2834e64d4e3ff4f73012491f73f48" 1 "Connack::sessionPresent()"];
  entry "size_1022" "size" [link "../structTree.html#a784563aee04c7123724fceb5d56a0e6a" 1 "Tree::size()"; link "../structNodeStruct.html#a4ac882ab7e5ab868d9449aec51a25adb" 1 "NodeStruct::size()"; link "../structList.html#a166530a166abd81afec0e6b0283f7e80" 1 "List::size()"; link "../structstorageElement.html#ac19ad736a483a3d3b3a5d6d6cd3ecfcf" 1 "storageElement::size()"];
  entry "ssl_1023" "ssl" [link "../structMQTTAsync__connectOptions.html#a04c88f4a4aba7ca2cfbd9ee5455f0850" 1 "MQTTAsync_connectOptions::ssl()"; link "../structMQTTClient__connectOptions.html#a4e6be3b2292800db30c65dd66af85976" 1 "MQTTClient_connectOptions::ssl()"];
  entry "ssl_5ferror_5fcb_1024" "ssl_error_cb" [link "../structMQTTAsync__SSLOptions.html#a5214f2bfb8c6571c231792bb9560b00b" 1 "MQTTAsync_SSLOptions::ssl_error_cb()"; link "../structMQTTClient__SSLOptions.html#a997877b8c152310bc342202807ea1165" 1 "MQTTClient_SSLOptions::ssl_error_cb()"];
  entry "ssl_5ferror_5fcontext_1025" "ssl_error_context" [link "../structMQTTAsync__SSLOptions.html#aa3af8ec1e7dd0f3921cb5eaddffe955d" 1 "MQTTAsync_SSLOptions::ssl_error_context()"; link "../structMQTTClient__SSLOptions.html#aeb2a43fde9dfc5627fda508a373bccfc" 1 "MQTTClient_SSLOptions::ssl_error_context()"];
  entry "ssl_5fpsk_5fcb_1026" "ssl_psk_cb" [link "../structMQTTAsync__SSLOptions.html#a6ccefb9910bc96b326298c0db67ce185" 1 "MQTTAsync_SSLOptions::ssl_psk_cb()"; link "../structMQTTClient__SSLOptions.html#a38ecc397cbe9e2042b77c7a52c9ccc35" 1 "MQTTClient_SSLOptions::ssl_psk_cb()"];
  entry "ssl_5fpsk_5fcontext_1027" "ssl_psk_context" [link "../structMQTTAsync__SSLOptions.html#a9cf93d98a2382b374b1e9bbf9a910d5e" 1 "MQTTAsync_SSLOptions::ssl_psk_context()"; link "../structMQTTClient__SSLOptions.html#ad459c7e3ab9f4558e9f239bf9b15f131" 1 "MQTTClient_SSLOptions::ssl_psk_context()"];
  entry "sslversion_1028" "sslVersion" [link "../structMQTTAsync__SSLOptions.html#ad14df49c90828d0d0efd93e707c3a4a6" 1 "MQTTAsync_SSLOptions::sslVersion()"; link "../structMQTTClient__SSLOptions.html#ace536bef1f2e763f28e761c0e3e3bdbe" 1 "MQTTClient_SSLOptions::sslVersion()"];
  entry "state_1029" "state" [link "../Heap_8c.html#a20b83c8e52be131ca41d22b8bf2c3b38" 1 "Heap.c"];
  entry "struct_5fid_1030" "struct_id" [link "../structMQTTAsync__connectData.html#a0a5e8e4e111450187e0760dc04a6f26e" 1 "MQTTAsync_connectData::struct_id()"; link "../structMQTTAsync__init__options.html#a1f3cf365b97f7b7a362c4a6ca8eb5a42" 1 "MQTTAsync_init_options::struct_id()"; link "../structMQTTSubscribe__options.html#a2fe9d45e9ee31af976a232584d5a2409" 1 "MQTTSubscribe_options::struct_id()"; link "../structMQTTClient__connectOptions.html#ab2e2302e3cc1105d6c93ae1e8205d60c" 1 "MQTTClient_connectOptions::struct_id()"; link "../structMQTTClient__SSLOptions.html#a931062a739a44b9879bb181514070d75" 1 "MQTTClient_SSLOptions::struct_id()"; link "../structMQTTClient__willOptions.html#a6b64d983ab8586bc87c9c22b352a9717" 1 "MQTTClient_willOptions::struct_id()"; link "../structMQTTClient__createOptions.html#ada7ad105de2fd2307a48a75fa598854f" 1 "MQTTClient_createOptions::struct_id()"; link "../structMQTTClient__message.html#a7f5160eeef15b17f7c8ac493015f558d" 1 "MQTTClient_message::struct_id()"; link "../structMQTTClient__init__options.html#a1f162f079abc3f79c054715c0e5f71ad" 1 "MQTTClient_init_options::struct_id()"; link "../structMQTTAsync__connectOptions.html#ae6831f945c1353cd1fce5d94a5d0f54d" 1 "MQTTAsync_connectOptions::struct_id()"; link "../structMQTTAsync__message.html#a4621b522c9923c68003d30e9dba9aa4e" 1 "MQTTAsync_message::struct_id()"; link "../structMQTTAsync__failureData5.html#ab1408c66810d6761ec8b77190581f3bb" 1 "MQTTAsync_failureData5::struct_id()"; link "../structMQTTAsync__successData5.html#a25e5058a92e35c2cb7c86a5de45cba9d" 1 "MQTTAsync_successData5::struct_id()"; link "../structMQTTAsync__responseOptions.html#a4b82d5aca6f990de991c87c34f8a7d02" 1 "MQTTAsync_responseOptions::struct_id()"; link "../structMQTTAsync__willOptions.html#acc521d748a6a9806d8c839075e178a90" 1 "MQTTAsync_willOptions::struct_id()"; link "../structMQTTAsync__disconnectOptions.html#a4a436daa9d391038e6e5748c31efb257" 1 "MQTTAsync_disconnectOptions::struct_id()"; link "../structMQTTAsync__createOptions.html#afff54eb461a8ec8544a36f09d33f07c2" 1 "MQTTAsync_createOptions::struct_id()"; link "../structMQTTAsync__SSLOptions.html#a43ec1e81ca408162f4b8496ba7f6da75" 1 "MQTTAsync_SSLOptions::struct_id()"];
  entry "struct_5fversion_1031" "struct_version" [link "../structMQTTAsync__connectOptions.html#a013018a3b17149d482051a1be78ac984" 1 "MQTTAsync_connectOptions::struct_version()"; link "../structMQTTSubscribe__options.html#aed5f22c185be62363ac36df1d3778c6d" 1 "MQTTSubscribe_options::struct_version()"; link "../structMQTTClient__connectOptions.html#a0b07612dc569b59f7f937ff0c518a1bb" 1 "MQTTClient_connectOptions::struct_version()"; link "../structMQTTClient__SSLOptions.html#a770248be4bf5020b0f57f770afdaca7d" 1 "MQTTClient_SSLOptions::struct_version()"; link "../structMQTTClient__willOptions.html#af05e1e3e865af050c5fefac5e597cc7a" 1 "MQTTClient_willOptions::struct_version()"; link "../structMQTTClient__createOptions.html#ae94f345f0f147ed31b8fbd0cb6ebc784" 1 "MQTTClient_createOptions::struct_version()"; link "../structMQTTClient__message.html#a27b983a1ac95eb5c335d40840129c0c8" 1 "MQTTClient_message::struct_version()"; link "../structMQTTClient__init__options.html#abf7d43d1e40265cf8ff1ca4266fff0e6" 1 "MQTTClient_init_options::struct_version()"; link "../structMQTTAsync__disconnectOptions.html#aef6853e3c56c83ca3b49250578417848" 1 "MQTTAsync_disconnectOptions::struct_version()"; link "../structMQTTAsync__SSLOptions.html#a6240108041774c99720c17afa45d4814" 1 "MQTTAsync_SSLOptions::struct_version()"; link "../structMQTTAsync__willOptions.html#a1b53c99ddd236e4b796bb90e035ed30b" 1 "MQTTAsync_willOptions::struct_version()"; link "../structMQTTAsync__createOptions.html#a884363e807ef160450e64f7eb6ef0044" 1 "MQTTAsync_createOptions::struct_version()"; link "../structMQTTAsync__responseOptions.html#aabf57368b8266f17e7951579897f7f66" 1 "MQTTAsync_responseOptions::struct_version()"; link "../structMQTTAsync__successData5.html#a52c4260e2005d2067f3cccc70d7b4758" 1 "MQTTAsync_successData5::struct_version()"; link "../structMQTTAsync__failureData5.html#afc4100c8f3126342b75e60dcd720836f" 1 "MQTTAsync_failureData5::struct_version()"; link "../structMQTTAsync__connectData.html#afb621feeaf54da918d9c5cfd084a1656" 1 "MQTTAsync_connectData::struct_version()"; link "../structMQTTAsync__message.html#af79efdfc9a4e082cbbafaed8fd333ce1" 1 "MQTTAsync_message::struct_version()"; link "../structMQTTAsync__init__options.html#ad2a3507b60ec188dff83962192153991" 1 "MQTTAsync_init_options::struct_version()"];
  entry "sub_1032" "sub" [link "../structMQTTAsync__successData5.html#ab3131c77b8bf772ea06ee580816ebc32" 1 "MQTTAsync_successData5"]].
Definition variables_13 : list SearchEntry := [
  entry "timeout_1033" "timeout" [link "../structMQTTAsync__disconnectOptions.html#a71f6175d58e01af30b064c19967d42ca" 1 "MQTTAsync_disconnectOptions"];
  entry "token_1034" "token" [link "../structMQTTAsync__failureData.html#a9f3af8dc8c24876c319bc466188440d7" 1 "MQTTAsync_failureData::token()"; link "../structMQTTAsync__failureData5.html#af3be141ec32e131429a1ea9df6386eb5" 1 "MQTTAsync_failureData5::token()"; link "../structMQTTAsync__successData.html#afd00f6f09b4cd92b5815202fc339be68" 1 "MQTTAsync_successData::token()"; link "../structMQTTAsync__successData5.html#ab31fe8cffc2ff14c1ebaee1a12feb787" 1 "MQTTAsync_successData5::token()"; link "../structMQTTAsync__responseOptions.html#aaf6926989620579f2590cdaf1ff16bfe" 1 "MQTTAsync_responseOptions::token()"];
  entry "topic_1035" "topic" [link "../structPublish.html#af25a32a9a9bccf70af72fa5a19fa7864" 1 "Publish"];
  entry "topicname_1036" "topicName" [link "../structMQTTClient__willOptions.html#a9273da2e77ed9b60b018b43c8d868d47" 1 "MQTTClient_willOptions::topicName()"; link "../structMQTTAsync__willOptions.html#a19983de96d2ae2df35c588e36200374e" 1 "MQTTAsync_willOptions::topicName()"];
  entry "trace_5fdestination_1037" "trace_destination" [link "../Log_8c.html#a29606f1185cb957cd23842125d7d8ecd" 1 "Log.c"];
  entry "trace_5fdestination_5fbackup_5fname_1038" "trace_destination_backup_name" [link "../Log_8c.html#a6e2c5a6602ec82079f7b7c3c1a622f8a" 1 "Log.c"];
  entry "trace_5fdestination_5fname_1039" "trace_destination_name" [link "../Log_8c.html#aa46cc371a2f34c92be9e5df8ac162566" 1 "Log.c"];
  entry "trace_5flevel_1040" "trace_level" [link "../structtrace__settings__type.html#a169138f5e03c0408ca30820418dcf186" 1 "trace_settings_type"];
  entry "trace_5foutput_5flevel_1041" "trace_output_level" [link "../structtrace__settings__type.html#af861eec94e990b63af949f50d630ee0d" 1 "trace_settings_type"];
  entry "truststore_1042" "trustStore" [link "../structMQTTAsync__SSLOptions.html#a90760033b5ae9962126770c3527603fd" 1 "MQTTAsync_SSLOptions::trustStore()"; link "../structMQTTClient__SSLOptions.html#a4583779998f6b3b51c7c1d3226701a4c" 1 "MQTTClient_SSLOptions::trustStore()"];
  entry "type_1043" "type" [link "../unionHeader.html#a05b7c9c6b02e41c54899caee9fdd50d6" 1 "Header"]].
Definition variables_14 : list SearchEntry := [
  entry "unsub_1044" "unsub" [link "../structMQTTAsync__successData5.html#a8f6209416359018b215c22008f08bc9c" 1 "MQTTAsync_successData5"];
  entry "upper_1045" "upper" [link "../utf-8_8c.html#a716463de5d02ad40678f2376abcdd90a" 1 "utf-8.c"];
  entry "username_1046" "username" [link "../structClients.html#af8cc24a8d289b4950b7c929b03cba031" 1 "Clients::username()"; link "../structMQTTAsync__connectData.html#ac239ae2f64049458d1b7ae6110c86657" 1 "MQTTAsync_connectData::username()"; link "../structMQTTAsync__connectOptions.html#ae03dec50fd54f49582e50883072ea81e" 1 "MQTTAsync_connectOptions::username()"; link "../structMQTTClient__connectOptions.html#a82e337534835601827defa911325299a" 1 "MQTTClient_connectOptions::username()"; link "../structConnect.html#a68d27f5f6b5fad14969d69340acfc5e9" 1 "Connect::username()"]].
Definition variables_15 : list SearchEntry := [
  entry "valid_5franges_1047" "valid_ranges" [link "../utf-8_8c.html#a03bdcd5f0e47e86161d8f8a6e6d2ed1d" 1 "utf-8.c"];
  entry "value_1048" "value" [link "../structMQTTAsync__nameValue.html#abbedbc0cab6677016451fe6c62553f35" 1 "MQTTAsync_nameValue::value()"; link "../structMQTTProperty.html#a43389d2bd2814580edc9ea59933cbe25" 1 "MQTTProperty::value()"; link "../structMQTTProperty.html#a1d54fb750a1783debd04c57ecb907332" 1 "MQTTProperty::value()"];
  entry "verify_1049" "verify" [link "../structMQTTAsync__SSLOptions.html#af3a54c718001dc76eb77d2f35fc31301" 1 "MQTTAsync_SSLOptions::verify()"; link "../structMQTTClient__SSLOptions.html#a61dd2a56858da45451f45640b056189d" 1 "MQTTClient_SSLOptions::verify()"];
  entry "version_1050" "version" [link "../structConnect.html#a35cba4252092877e572c5c74b41be6e2" 1 "Connect"]].
Definition variables_16 : list SearchEntry := [
  entry "websocket_1051" "websocket" [link "../structnetworkHandles.html#a01839c3f477c9f737c13f7e2c994e5cc" 1 "networkHandles"];
  entry "will_1052" "will" [link "../structClients.html#ad593ed8add1448fe1f1e01b4d60f28a7" 1 "Clients::will()"; link "../structMQTTAsync__connectOptions.html#a2190db10b854d016a291ccb378c3eda2" 1 "MQTTAsync_connectOptions::will()"; link "../structMQTTClient__connectOptions.html#a8d51a29a49d2a964d5079c9bae3fcffd" 1 "MQTTClient_connectOptions::will()"; link "../structConnect.html#a9dc30d7b95feb8e55e98514cad4066bd" 1 "Connect::will()"];
  entry "willmsg_1053" "willMsg" [link "../structConnect.html#a525eb0974d4e5b3158808e0bb23f03e6" 1 "Connect"];
  entry "willproperties_1054" "willProperties" [link "../structMQTTAsync__connectOptions.html#ab72dbcdcff60e5dd79ac8fcea0e31478" 1 "MQTTAsync_connectOptions"];
  entry "willqos_1055" "willQoS" [link "../structConnect.html#a91e5dd7084da0e9a40397c5532de5ef9" 1 "Connect"];
  entry "willretain_1056" "willRetain" [link "../structConnect.html#a0810709a016db0b8be49fc6f859bab39" 1 "Connect"];
  entry "willtopic_1057" "willTopic" [link "../structConnect.html#a8e0ff745f3800cf1a56a0cd467b5138e" 1 "Connect"];
  entry "write_5fpending_1058" "write_pending" [link "../structSockets.html#a852db7c3edf654d8ee451be18b3f5743" 1 "Sockets"];
  entry "writes_1059" "writes" [link "../SocketBuffer_8c.html#a913f78789f0cbfb26a5dcf6618d51d87" 1 "SocketBuffer.c"]].
Definition typedefs_0 : list SearchEntry := [
  entry "mqttpersistence_5fafterread_1060" "MQTTPersistence_afterRead" [link "../MQTTClientPersistence_8h.html#af5a966a574c6ad7a35f1ebb7edd5c1c4" 1 "MQTTClientPersistence.h"];
  entry "mqttpersistence_5fbeforewrite_1061" "MQTTPersistence_beforeWrite" [link "../MQTTClientPersistence_8h.html#ab865640a1cc53b68622004c5a2d29fae" 1 "MQTTClientPersistence.h"]].
Definition typedefs_1 : list SearchEntry := [
  entry "persistence_5fclear_1062" "Persistence_clear" [link "../MQTTClientPersistence_8h.html#acee7097c1a0ab44b98c870f533687887" 1 "MQTTClientPersistence.h"];
  entry "persistence_5fclose_1063" "Persistence_close" [link "../MQTTClientPersistence_8h.html#a3582de2c87e89f617e8e553b2a0e279a" 1 "MQTTClientPersistence.h"];
  entry "persistence_5fcontainskey_1064" "Persistence_containskey" [link "../MQTTClientPersistence_8h.html#a753a0f9a9c51284d63a907af19c7bbba" 1 "MQTTClientPersistence.h"];
  entry "persistence_5fget_1065" "Persistence_get" [link "../MQTTClientPersistence_8h.html#adc3aff3c570fa5509e9d6814a85ab867" 1 "MQTTClientPersistence.h"];
  entry "persistence_5fkeys_1066" "Persistence_keys" [link "../MQTTClientPersistence_8h.html#a2601cc91eeabdbf9578f8dd45e4997a8" 1 "MQTTClientPersistence.h"];
  entry "persistence_5fopen_1067" "Persistence_open" [link "../MQTTClientPersistence_8h.html#a4c7d332bb16907058ae3b375488b6008" 1 "MQTTClientPersistence.h"];
  entry "persistence_5fput_1068" "Persistence_put" [link "../MQTTClientPersistence_8h.html#a44679cab77cfbd6e2a4639cdd27ac80c" 1 "MQTTClientPersistence.h"];
  entry "persistence_5fremove_1069" "Persistence_remove" [link "../MQTTClientPersistence_8h.html#a73350bf7208658bf5434a59f7bdbae90" 1 "MQTTClientPersistence.h"]].
Definition defines_0 : list SearchEntry := [
  entry "_5funlink_1070" "_unlink" [link "../Log_8c.html#a411530253569ea29a964f13204da8848" 1 "Log.c"]].
Definition defines_1 : list SearchEntry := [
  entry "array_5fsize_1071" "ARRAY_SIZE" [link "../utf-8_8c.html#a25f003de16c08a4888b69f619d70f427" 1 "utf-8.c"]].
Definition defines_2 : list SearchEntry := [
  entry "mqttclient_5fpersistence_5fdefault_1072" "MQTTCLIENT_PERSISTENCE_DEFAULT" [link "../MQTTClientPersistence_8h.html#aaa948291718a9c06369b854b0f64bc32" 1 "MQTTClientPersistence.h"];
  entry "mqttclient_5fpersistence_5ferror_1073" "MQTTCLIENT_PERSISTENCE_ERROR" [link "../MQTTClientPersistence_8h.html#ab716e21e53c84a5ad62aa962a2a8f7db" 1 "MQTTClientPersistence.h"];
  entry "mqttclient_5fpersistence_5fnone_1074" "MQTTCLIENT_PERSISTENCE_NONE" [link "../MQTTClientPersistence_8h.html#ae01e089313a65ac4661ed216b6ac00fa" 1 "MQTTClientPersistence.h"];
  entry "mqttclient_5fpersistence_5fuser_1075" "MQTTCLIENT_PERSISTENCE_USER" [link "../MQTTClientPersistence_8h.html#a5dc68b8616e4041e037bad94ce07681b" 1 "MQTTClientPersistence.h"]].
Definition defines_3 : list SearchEntry := [
  entry "prieyecatcher_1076" "PRIeyecatcher" [link "../Heap_8c.html#a8ee400b3ef078dd6b8075360a3b656a8" 1 "Heap.c"]].
Definition pages_0 : list SearchEntry := [
  entry "mqtt_20client_20library_20internals_1077" "MQTT Client Library Internals" [link "../index.html" 1 EmptyString]].

Definition indexSectionsWithContent : list string := [
  "_abcdefghiklmnopqrstuvw"; "acfhlmnpqstuw"; "chlmstu"; "cfhilmprstuw"; "_abcdefghiklmnopqrstuvw"; "mp"; "_amp"; "m"].

Definition indexSectionNames : list string := [
  "all"; "classes"; "files"; "functions"; "variables"; "typedefs"; "defines"; "pages"].

Definition indexSectionLabels : list string := [
  "All"; "Data Structures"; "Files"; "Functions"; "Variables"; "Typedefs"; "Macros"; "Pages"].

Definition menudata : list MenuItem := [
  item "Main Page" "index.html" [];
  item "Data Structures" "annotated.html" [
    item "Data Structures" "annotated.html" [];
    item "Data Fields" "functions.html" [
      item "All" "functions.html" [
        item "_" "functions.html#index__5F" [];
        item "a" "functions_a.html#index_a" [];
        item "b" "functions_b.html#index_b" [];
        item "c" "functions_c.html#index_c" [];
        item "d" "functions_d.html#index_d" [];
        item "e" "functions_e.html#index_e" [];
        item "f" "functions_f.html#index_f" [];
        item "g" "functions_g.html#index_g" [];
        item "h" "functions_h.html#index_h" [];
        item "i" "functions_i.html#index_i" [];
        item "k" "functions_k.html#index_k" [];
        item "l" "functions_l.html#index_l" [];
        item "m" "functions_m.html#index_m" [];
        item "n" "functions_n.html#index_n" [];
        item "o" "functions_o.html#index_o" [];
        item "p" "functions_p.html#index_p" [];
        item "q" "functions_q.html#index_q" [];
        item "r" "functions_r.html#index_r" [];
        item "s" "functions_s.html#index_s" [];
        item "t" "functions_t.html#index_t" [];
        item "u" "functions_u.html#index_u" [];
        item "v" "functions_v.html#index_v" [];
        item "w" "functions_w.html#index_w" []];
      item "Variables" "functions_vars.html" [
        item "_" "functions_vars.html#index__5F" [];
        item "a" "functions_vars_a.html#index_a" [];
        item "b" "functions_vars_b.html#index_b" [];
        item "c" "functions_vars_c.html#index_c" [];
        item "d" "functions_vars_d.html#index_d" [];
        item "e" "functions_vars_e.html#index_e" [];
        item "f" "functions_vars_f.html#index_f" [];
        item "g" "functions_vars_g.html#index_g" [];
        item "h" "functions_vars_h.html#index_h" [];
        item "i" "functions_vars_i.html#index_i" [];
        item "k" "functions_vars_k.html#index_k" [];
        item "l" "functions_vars_l.html#index_l" [];
        item "m" "functions_vars_m.html#index_m" [];
        item "n" "functions_vars_n.html#index_n" [];
        item "o" "functions_vars_o.html#index_o" [];
        item "p" "functions_vars_p.html#index_p" [];
        item "q" "functions_vars_q.html#index_q" [];
        item "r" "functions_vars_r.html#index_r" [];
        item "s" "functions_vars_s.html#index_s" [];
        item "t" "functions_vars_t.html#index_t" [];
        item "u" "functions_vars_u.html#index_u" [];
        item "v" "functions_vars_v.html#index_v" [];
        item "w" "functions_vars_w.html#index_w" []]]];
  item "Files" "files.html" [
    item "File List" "files.html" [];
    item "Globals" "globals.html" [
      item "All" "globals.html" [
        item "_" "globals.html#index__5F" [];
        item "a" "globals_a.html#index_a" [];
        item "b" "globals_b.html#index_b" [];
        item "c" "globals_c.html#index_c" [];
        item "d" "globals_d.html#index_d" [];
        item "f" "globals_f.html#index_f" [];
        item "h" "globals_h.html#index_h" [];
        item "i" "globals_i.html#index_i" [];
        item "l" "globals_l.html#index_l" [];
        item "m" "globals_m.html#index_m" [];
        item "n" "globals_n.html#index_n" [];
        item "p" "globals_p.html#index_p" [];
        item "q" "globals_q.html#index_q" [];
        item "r" "globals_r.html#index_r" [];
        item "s" "globals_s.html#index_s" [];
        item "t" "globals_t.html#index_t" [];
        item "u" "globals_u.html#index_u" [];
        item "v" "globals_v.html#index_v" [];
        item "w" "globals_w.html#index_w" []];
      item "Functions" "globals_func.html" [
        item "c" "globals_func.html#index_c" [];
        item "f" "globals_func_f.html#index_f" [];
        item "h" "globals_func_h.html#index_h" [];
        item "i" "globals_func_i.html#index_i" [];
        item "l" "globals_func_l.html#index_l" [];
        item "m" "globals_func_m.html#index_m" [];
        item "p" "globals_func_p.html#index_p" [];
        item "r" "globals_func_r.html#index_r" [];
        item "s" "globals_func_s.html#index_s" [];
        item "t" "globals_func_t.html#index_t" [];
        item "u" "globals_func_u.html#index_u" [];
        item "w" "globals_func_w.html#index_w" []];
      item "Variables" "globals_vars.html" [];
      item "Typedefs" "globals_type.html" [];
      item "Macros" "globals_defs.html" []]]].

Definition pages : list (string * list SearchEntry) := [
  ("all_0", all_0);
  ("all_1", all_1);
  ("all_2", all_2);
  ("all_3", all_3);
  ("all_4", all_4);
  ("all_5", all_5);
  ("all_6", all_6);
  ("all_7", all_7);
  ("all_8", all_8);
  ("all_9", all_9);
  ("all_a", all_a);
  ("all_b", all_b);
  ("all_c", all_c);
  ("all_d", all_d);
  ("all_e", all_e);
  ("all_f", all_f);
  ("all_10", all_10);
  ("all_11", all_11);
  ("all_12", all_12);
  ("all_13", all_13);
  ("all_14", all_14);
  ("all_15", all_15);
  ("all_16", all_16);
  ("classes_0", classes_0);
  ("classes_1", classes_1);
  ("classes_2", classes_2);
  ("classes_3", classes_3);
  ("classes_4", classes_4);
  ("classes_5", classes_5);
  ("classes_6", classes_6);
  ("classes_7", classes_7);
  ("classes_8", classes_8);
  ("classes_9", classes_9);
  ("classes_a", classes_a);
  ("classes_b", classes_b);
  ("classes_c", classes_c);
  ("files_0", files_0);
  ("files_1", files_1);
  ("files_2", files_2);
  ("files_3", files_3);
  ("files_4", files_4);
  ("files_5", files_5);
  ("files_6", files_6);
  ("functions_0", functions_0);
  ("functions_1", functions_1);
  ("functions_2", functions_2);
  ("functions_3", functions_3);
  ("functions_4", functions_4);
  ("functions_5", functions_5);
  ("functions_6", functions_6);
  ("functions_7", functions_7);
  ("functions_8", functions_8);
  ("functions_9", functions_9);
  ("functions_a", functions_a);
  ("functions_b", functions_b);
  ("variables_0", variables_0);
  ("variables_1", variables_1);
  ("variables_2", variables_2);
  ("variables_3", variables_3);
  ("variables_4", variables_4);
  ("variables_5", variables_5);
  ("variables_6", variables_6);
  ("variables_7", variables_7);
  ("variables_8", variables_8);
  ("variables_9", variables_9);
  ("variables_a", variables_a);
  ("variables_b", variables_b);
  ("variables_c", variables_c);
  ("variables_d", variables_d);
  ("variables_e", variables_e);
  ("variables_f", variables_f);
  ("variables_10", variables_10);
  ("variables_11", variables_11);
  ("variables_12", variables_12);
  ("variables_13", variables_13);
  ("variables_14", variables_14);
  ("variables_15", variables_15);
  ("variables_16", variables_16);
  ("typedefs_0", typedefs_0);
  ("typedefs_1", typedefs_1);
  ("defines_0", defines_0);
  ("defines_1", defines_1);
  ("defines_2", defines_2);
  ("defines_3", defines_3);
  ("pages_0", pages_0)].

Definition site : Site :=
  mkSite pages indexSectionsWithContent indexSectionNames indexSectionLabels menudata.
