(* ===== verification/SearchSite.v ===== *)
(** * Searching a site

    The pages of a site as the results frame loads them, and what a search
    finds in the tables of the three sites. *)
From stdpp Require Import sorting.
From S2P Require Import Prelude JsString Dom SearchData SearchResults ResultsFacts.
From S2P Require Import ResultsPage SearchBox BoxFacts AsyncIndex ClientIndex InternalIndex.
Local Open Scope Z_scope.

Definition sites : list Site := [AsyncIndex.site; ClientIndex.site; InternalIndex.site].

(** ** Loading a results page *)

(** The table of a page: the page <name>.html loads <name>.js. *)
Definition page_table (site : Site) (name : jstr) : option (list SearchEntry) :=
  p ← list_find (λ p, js (fst p) = name) (s_pages site); Some (snd (snd p)).

(** The path of a URL and its query, with the question mark. *)
Fixpoint split_query (u : jstr) : jstr * jstr :=
  match u with
  | [] => ([], [])
  | c :: u' =>
    if decide (c = 63) then ([], u)
    else let '(path, query) := split_query u' in (c :: path, query)
  end.

Definition page_file (cfg : box_config) (name : jstr) : jstr :=
  resultsPath cfg ++ js "/" ++ name ++ extension cfg.

(** The table and the query of the page a URL names, none for nomatches. *)
Definition load (cfg : box_config) (site : Site) (url : jstr) : option (list SearchEntry * jstr) :=
  let '(path, query) := split_query url in
  p ← list_find (λ p, page_file cfg (js (fst p)) = path) (s_pages site);
  Some (snd (snd p), query).

(** The entries whose rows are displayed. *)
Fixpoint shown_from (k : nat) (d : dom) (searchData : list SearchEntry) : list SearchEntry :=
  match searchData with
  | [] => []
  | e :: searchData =>
    if decide (display <$> elem_at [0; 1; k]%nat d = Some "block"%string)
    then e :: shown_from (S k) d searchData
    else shown_from (S k) d searchData
  end.

(** What the results frame shows for a URL. *)
Definition open_url `{Unicode} (cfg : box_config) (site : Site) (url : jstr) : res (list SearchEntry) :=
  match load cfg site url with
  | None => Ok []
  | Some (searchData, query) =>
    match open_page searchData query (SearchResults fresh_page) with
    | Ok (_, s) => Ok (shown_from 0 (page s) searchData)
    | Err f => Err f
    end
  end.

(** ** The entries of a section *)

(** The entries of all the pages of a section, [content] having a character
    for each page. *)
Definition section_table (site : Site) (name content : string) : list SearchEntry :=
  concat (imap (λ i _, default [] (page_table site (page_name (Some name) (Z.of_nat i)))) (js content)).
Definition section_entries (site : Site) (k : nat) : list SearchEntry :=
  match s_names site !! k, s_content site !! k with
  | Some name, Some content => section_table site name content
  | _, _ => []
  end.

(** The query a value of the search field stands for, and the entries it
    means: those whose names it begins, without regard to case.  An entry whose
    name is followed by an escape that reads like the entry's number is found
    too. *)
Definition query (value : jstr) : jstr := lower_ascii <$> strip_trailing (strip_leading value).

Definition lower_name (e : SearchEntry) : jstr := lower_ascii <$> js (e_name e).
Definition entry_number (e : SearchEntry) : jstr :=
  drop (length (convertToId (lower_name e))) (js (e_id e)).
Definition name_found (q : jstr) (e : SearchEntry) : Prop :=
  q `prefix_of` lower_name e ∨
  lower_name e `prefix_of` q ∧
  convertToId (drop (length (lower_name e)) q) `prefix_of` entry_number e.
#[export] Instance name_found_dec q e : Decision (name_found q e).
Proof. unfold name_found. apply _. Defined.

(** ** The shape of the tables *)
Definition id_ok (e : SearchEntry) : Prop :=
  Forall (λ c, ascii_unit c ∧ lower_ascii c = c) (js (e_id e)).
Definition entry_ok (c : Z) (e : SearchEntry) : Prop :=
  id_ok e ∧ ascii_units (js (e_name e)) ∧ head (lower_name e) = Some c ∧
  convertToId (lower_name e) ++ [95] `prefix_of` js (e_id e).
#[export] Instance entry_ok_dec c e : Decision (entry_ok c e).
Proof. unfold entry_ok, id_ok. apply _. Defined.

Definition page_ok (site : Site) (name : string) (ic : nat * Z) : Prop :=
  match page_table site (page_name (Some name) (Z.of_nat (fst ic))) with
  | Some sd => Forall (entry_ok (snd ic)) sd
  | None => False
  end.
#[export] Instance page_ok_dec site name ic : Decision (page_ok site name ic).
Proof. unfold page_ok. destruct (page_table _ _); apply _. Defined.

Definition section_ok (site : Site) (nc : string * string) : Prop :=
  Forall (page_ok site (fst nc)) (imap pair (js (snd nc))) ∧ NoDup (js (snd nc)).
#[export] Instance section_ok_dec site nc : Decision (section_ok site nc).
Proof. unfold section_ok. apply _. Defined.

Record site_ok (site : Site) : Prop := {
  site_content : length (s_content site) = length (s_labels site);
  site_names : length (s_names site) = length (s_labels site);
  site_some : (0 < length (s_labels site))%nat;
  site_files : Forall (λ p, 63 ∉ js (fst p) ∧ js (fst p) ≠ js "nomatches") (s_pages site);
  site_sections : Forall (section_ok site) (zip (s_names site) (s_content site));
}.

Definition site_ok_bool (site : Site) : bool :=
  bool_decide (length (s_content site) = length (s_labels site)) &&
  bool_decide (length (s_names site) = length (s_labels site)) &&
  bool_decide (0 < length (s_labels site))%nat &&
  bool_decide (Forall (λ p, 63 ∉ js (fst p) ∧ js (fst p) ≠ js "nomatches") (s_pages site)) &&
  bool_decide (Forall (section_ok site) (zip (s_names site) (s_content site))).

Lemma site_ok_check site : site_ok_bool site = true → site_ok site.
Proof.
  unfold site_ok_bool. rewrite !andb_true_iff, !bool_decide_eq_true.
  intros [[[[]]]]. by constructor.
Qed.

Lemma sites_ok : Forall site_ok sites.
Proof.
  repeat (apply Forall_cons; split; [apply site_ok_check; by vm_compute |]). by apply Forall_nil.
Qed.

(** The names of the entries with what they link to. *)
Definition entry_targets (e : SearchEntry) : list (string * string) :=
  (λ l, (e_name e, l_href l)) <$> e_links e.
Definition section_targets (site : Site) (k : nat) : list (string * string) :=
  section_entries site k ≫= entry_targets.
Definition other_targets (site : Site) : list (string * string) :=
  seq 1 (length (s_names site) - 1) ≫= section_targets site.

(** The order in which targets are sorted to compare them. *)
Definition target_le (a b : string * string) : Prop :=
  String.leb (fst a +:+ snd a) (fst b +:+ snd b) = true.
#[export] Instance target_le_dec a b : Decision (target_le a b).
Proof. unfold target_le. apply _. Defined.

Definition site_entries (site : Site) : list SearchEntry := concat (snd <$> s_pages site).

(** The entries of a site are numbered through its pages, every page has some,
    and the first section has the targets of all the others. *)
Record site_consistent (site : Site) : Prop := {
  consistent_ids :
    js ∘ e_id <$> site_entries site =
    imap (λ i e, convertToId (lower_name e) ++ js "_" ++ toString10 (Z.of_nat i)) (site_entries site);
  consistent_links : Forall (λ e, e_links e ≠ []) (site_entries site);
  consistent_pages : Forall (λ p, snd p ≠ []) (s_pages site);
  consistent_all : section_targets site 0 ≡ₚ other_targets site;
}.

Definition site_consistent_bool (site : Site) : bool :=
  bool_decide (js ∘ e_id <$> site_entries site =
    imap (λ i e, convertToId (lower_name e) ++ js "_" ++ toString10 (Z.of_nat i)) (site_entries site)) &&
  bool_decide (Forall (λ e, e_links e ≠ []) (site_entries site)) &&
  bool_decide (Forall (λ p, snd p ≠ []) (s_pages site)) &&
  bool_decide (merge_sort target_le (section_targets site 0) = merge_sort target_le (other_targets site)).

Lemma site_consistent_check site : site_consistent_bool site = true → site_consistent site.
Proof.
  unfold site_consistent_bool. rewrite !andb_true_iff, !bool_decide_eq_true.
  intros [[[]] Hsort]. constructor; [done.. |].
  rewrite <- (merge_sort_Permutation target_le (section_targets site 0)), Hsort.
  apply merge_sort_Permutation.
Qed.

Lemma sites_consistent : Forall site_consistent sites.
Proof.
  repeat (apply Forall_cons; split; [apply site_consistent_check; by vm_compute |]). by apply Forall_nil.
Qed.

(** ** Lemmas on lists *)
Lemma indexOf_unit_from k c l :
  index_from k [c] l = -1 ∧ c ∉ l ∨ ∃ i, index_from k [c] l = k + Z.of_nat i ∧ l !! i = Some c.
Proof.
  revert k. induction l as [| x l IH]; intros k; cbn [index_from].
  - rewrite decide_False by (by intros ?%prefix_nil_not). left. split; [done | apply not_elem_of_nil].
  - destruct (decide ([c] `prefix_of` x :: l)) as [Hp | Hp].
    + apply prefix_cons_inv_1 in Hp as ->. right. exists 0%nat. split; [lia | done].
    + assert (c ≠ x) as Hne by (intros ->; apply Hp, prefix_cons, prefix_nil).
      destruct (IH (k + 1)) as [[-> Hc] | (i & -> & Hi)].
      * left. split; [done |]. by apply not_elem_of_cons.
      * right. exists (S i). split; [lia | done].
Qed.

Lemma indexOf_unit c l :
  indexOf [c] l = -1 ∧ c ∉ l ∨ ∃ i, indexOf [c] l = Z.of_nat i ∧ l !! i = Some c.
Proof.
  destruct (indexOf_unit_from 0 c l) as [? | (i & Hi & ?)]; [by left | right; by exists i].
Qed.

(** ** Strings of the search *)
Lemma strip_leading_idem s : strip_leading (strip_leading s) = strip_leading s.
Proof. induction s as [| c s IH]; [done |]. cbn. destruct (decide (c = 32)) eqn:Hc; [done |]. cbn. by rewrite Hc. Qed.

Lemma strip_leading_forall P s : Forall P s → Forall P (strip_leading s).
Proof. induction 1; cbn; [done |]. case_decide; [done | by constructor]. Qed.

Lemma strip_trailing_forall P s : Forall P s → Forall P (strip_trailing s).
Proof. intros. unfold strip_trailing. by apply Forall_reverse, strip_leading_forall, Forall_reverse. Qed.

(** A word that begins with another character than a space keeps it. *)
Lemma strip_leading_app_ne s c : c ≠ 32 → ∃ t, strip_leading (s ++ [c]) = t ++ [c].
Proof.
  intros Hc. induction s as [| x s [t IH]]; cbn.
  - rewrite decide_False by done. by exists [].
  - case_decide; [by exists t | by exists (x :: s)].
Qed.

Lemma strip_trailing_cons c s : c ≠ 32 → ∃ t, strip_trailing (c :: s) = c :: t.
Proof.
  intros Hc. unfold strip_trailing. rewrite reverse_cons.
  destruct (strip_leading_app_ne (reverse s) c Hc) as [t ->]. rewrite reverse_snoc. by eexists.
Qed.

Lemma strip_leading_head s c t : strip_leading s = c :: t → c ≠ 32.
Proof. induction s as [| x s IH]; cbn; [done |]. case_decide; [done |]. congruence. Qed.

Lemma strip_all_leading s : strip_all s ≠ [] → strip_leading s ≠ [].
Proof.
  unfold strip_all. induction s as [| c s IH]; cbn; [done |].
  destruct (decide (c = 32)) as [-> | Hc]; [| done]. by rewrite decide_False by auto.
Qed.

Lemma lower_ascii_unit c : ascii_unit c → ascii_unit (lower_ascii c).
Proof. unfold ascii_unit, lower_ascii. case_decide; lia. Qed.

Lemma ascii_code s : ascii_units s → code_units s.
Proof. intros Hs. eapply Forall_impl; [exact Hs |]. unfold ascii_unit, code_unit. lia. Qed.

Lemma lower_code s : ascii_units s → code_units (lower_ascii <$> s).
Proof. intros Hs. apply ascii_code, Forall_fmap. eapply Forall_impl; [exact Hs |]. apply lower_ascii_unit. Qed.

Lemma query_ascii v : ascii_units v → ascii_units (strip_trailing (strip_leading v)).
Proof. intros. by apply strip_trailing_forall, strip_leading_forall. Qed.

Section Words.
Context `{Unicode}.

Lemma toLowerCase_ascii s : ascii_units s → toLowerCase s = lower_ascii <$> s.
Proof. intros Hs. unfold toLowerCase. by rewrite decide_True. Qed.

(** The word a results page searches for, from the URL the box opened. *)
Lemma search_word_query v :
  ascii_units v → search_word (js "?" ++ escape (strip_leading v)) None = convertToId (query v).
Proof.
  intros Hv. unfold search_word. change (drop 1 (js "?" ++ ?x)) with x.
  rewrite unescape_escape by (by apply strip_leading_forall, ascii_code).
  rewrite strip_leading_idem, toLowerCase_ascii by (by apply query_ascii). done.
Qed.

(** The row of an entry matches when the word begins the id of the entry. *)
Lemma entry_matches_id w e : id_ok e → entry_matches w e ↔ w `prefix_of` js (e_id e).
Proof.
  intros He. unfold entry_matches, row_matches.
  assert (ascii_units (js "SR_" ++ js (e_id e))) as Ha.
  { apply Forall_app. split; [by apply (bool_decide_unpack _) |].
    eapply Forall_impl; [exact He |]. by intros c []. }
  rewrite toLowerCase_ascii by done.
  assert (lower_ascii <$> js (e_id e) = js (e_id e)) as Hl.
  { clear Ha. unfold id_ok in He. induction He as [| c l [_ Hc] _ IH]; [done |]. cbn. by rewrite Hc, IH. }
  rewrite fmap_app, Hl. set (id := js (e_id e)).
  replace (strip_sr ((lower_ascii <$> js "SR_") ++ id)) with id by done.
  split.
  - intros [_ Heq]. rewrite <- Heq. apply prefix_take.
  - intros [t ->]. rewrite length_app, take_app_length. split; [lia | done].
Qed.

Lemma entry_found c q e :
  entry_ok c e → ascii_units q →
  entry_matches (convertToId q) e ↔ name_found q e.
Proof.
  intros (Hid & Hn & _ & [ds Hds]) Hq. rewrite entry_matches_id by done.
  unfold name_found, entry_number. rewrite Hds, <- (assoc_L (++)), drop_app_length.
  rewrite convertToId_entry_iff; [| by apply ascii_code | by apply lower_code].
  split.
  - intros [? | (r & _ & -> & Hr)]; [by left | right]. split; [by eexists | by rewrite drop_app_length].
  - intros [? | [[r ->] Hr]]; [by left |]. rewrite drop_app_length in Hr.
    destruct r as [| x r]; [left; by rewrite app_nil_r |]. right. by exists (x :: r).
Qed.

(** A name that is found begins with the first character of the query. *)
Lemma name_found_head c c' q e : entry_ok c e → head q = Some c' → name_found q e → c = c'.
Proof.
  intros (_ & _ & Hc & _) Hq [Hp | [Hp _]].
  - pose proof (head_prefix _ _ _ Hq Hp). congruence.
  - pose proof (head_prefix _ _ _ Hc Hp). congruence.
Qed.
End Words.

(** ** The pages of a section *)
Lemma split_query_file f q :
  63 ∉ f → q = [] ∨ head q = Some 63 → split_query (f ++ q) = (f, q).
Proof.
  intros Hf Hq. induction f as [| c f IH].
  - destruct q as [| c q]; [done |]. destruct Hq as [| [= ->]]; [done |]. done.
  - apply not_elem_of_cons in Hf as [Hc Hf]. cbn [app split_query].
    rewrite decide_False by done. by rewrite IH.
Qed.

Lemma page_file_inj cfg a b : page_file cfg a = page_file cfg b → a = b.
Proof. unfold page_file. intros H%app_inv_head. by apply app_inv_head, app_inv_tail in H. Qed.

Lemma list_find_page cfg site name :
  list_find (λ p, page_file cfg (js (fst p)) = page_file cfg name) (s_pages site) =
  list_find (λ p, js (fst p) = name) (s_pages site).
Proof.
  apply list_find_ext. intros [s l]. cbn. split; [apply page_file_inj | by intros ->].
Qed.

Definition path_ok (cfg : box_config) : Prop := 63 ∉ resultsPath cfg ∧ 63 ∉ extension cfg.
#[export] Instance path_ok_dec cfg : Decision (path_ok cfg).
Proof. unfold path_ok. apply _. Defined.

Lemma load_page cfg site name q :
  path_ok cfg → 63 ∉ name → q = [] ∨ head q = Some 63 →
  load cfg site (page_file cfg name ++ q) = (λ sd, (sd, q)) <$> page_table site name.
Proof.
  intros [H1 H2] Hn Hq. unfold load. rewrite split_query_file; [| | done].
  - rewrite list_find_page. unfold page_table. by destruct (list_find _ _).
  - unfold page_file. rewrite !not_elem_of_app. repeat split; [done | | done | done].
    by apply (bool_decide_unpack _).
Qed.

Lemma page_table_name site name sd :
  site_ok site → page_table site name = Some sd → 63 ∉ name ∧ name ≠ js "nomatches".
Proof.
  intros Hs Ht. unfold page_table in Ht. destruct (list_find _ _) as [[i p] |] eqn:Hf; [| done].
  apply list_find_Some in Hf as (Hp & <- & _). pose proof (site_files _ Hs) as Hall.
  rewrite Forall_forall in Hall. by apply Hall, (list_elem_of_lookup_2 _ i).
Qed.

Lemma page_table_nomatches site : site_ok site → page_table site (js "nomatches") = None.
Proof.
  intros Hs. destruct (page_table _ _) eqn:Ht; [| done]. by apply page_table_name in Ht as [_ []].
Qed.

Lemma page_entries site name content i c :
  section_ok site (name, content) → js content !! i = Some c →
  ∃ sd, page_table site (page_name (Some name) (Z.of_nat i)) = Some sd ∧ Forall (entry_ok c) sd.
Proof.
  intros [Hp _] Hi. cbn [fst snd] in Hp. rewrite Forall_forall in Hp.
  assert ((i, c) ∈ imap pair (js content)) as Hin.
  { apply (list_elem_of_lookup_2 _ i). by rewrite list_lookup_imap, Hi. }
  specialize (Hp _ Hin). unfold page_ok in Hp. cbn [fst snd] in Hp.
  destruct (page_table _ _) as [sd |]; [by exists sd | done].
Qed.

Section Section.
Context `{Unicode} (site : Site) (name content : string).
Hypothesis Hsection : section_ok site (name, content).

Lemma section_nth j l :
  imap (λ i _, default [] (page_table site (page_name (Some name) (Z.of_nat i)))) (js content) !! j = Some l →
  ∃ c, js content !! j = Some c ∧ Forall (entry_ok c) l.
Proof.
  rewrite list_lookup_imap. destruct (js content !! j) as [c |] eqn:Hj; [| done].
  destruct (page_entries _ _ _ _ _ Hsection Hj) as (sd & Hsd & Hok).
  intros [= <-]. exists c. by rewrite Hsd.
Qed.

Lemma page_none c' c q l : Forall (entry_ok c) l → head q = Some c' → c ≠ c' → filter (name_found q) l = [].
Proof.
  intros Hl Hq Hne. apply filter_none. eapply Forall_impl; [exact Hl |].
  intros e He Hf. by apply Hne, (name_found_head _ _ q e).
Qed.

(** A query has its results on the page of its first character. *)
Lemma section_search_none q c :
  head q = Some c → c ∉ js content → filter (name_found q) (section_table site name content) = [].
Proof.
  intros Hq Hc. apply filter_concat_nil. intros l [j Hl]%list_elem_of_lookup.
  apply section_nth in Hl as (c' & Hc' & Hl). apply (page_none c c'); [done.. |].
  intros ->. by apply Hc, (list_elem_of_lookup_2 _ j).
Qed.

Lemma section_search q c i :
  head q = Some c → js content !! i = Some c →
  ∃ sd, page_table site (page_name (Some name) (Z.of_nat i)) = Some sd ∧ Forall (entry_ok c) sd ∧
    filter (name_found q) (section_table site name content) = filter (name_found q) sd.
Proof.
  intros Hq Hi. destruct (page_entries _ _ _ _ _ Hsection Hi) as (sd & Hsd & Hok).
  exists sd. split; [done |]. split; [done |].
  apply (filter_concat_one _ _ i).
  - rewrite list_lookup_imap, Hi. cbn [fmap option_fmap option_map]. by rewrite Hsd.
  - intros j l Hl Hne. apply section_nth in Hl as (c' & Hc' & Hl).
    apply (page_none c c'); [done.. |]. intros ->.
    apply Hne. eapply NoDup_lookup; [apply Hsection | done | done].
Qed.
End Section.

(** ** The results a page shows *)
Lemma shown_from_filter (P : SearchEntry → Prop) `{!∀ e, Decision (P e)} d k sd :
  (∀ j e, sd !! j = Some e → (display <$> elem_at [0; 1; k + j]%nat d) =
     Some (if decide (P e) then "block" else "none")%string) →
  shown_from k d sd = filter P sd.
Proof.
  revert k. induction sd as [| e sd IH]; intros k Hsd; [done |].
  cbn [shown_from]. rewrite filter_cons. pose proof (Hsd 0%nat e eq_refl) as He.
  rewrite Nat.add_0_r in He. rewrite He, IH.
  - destruct (decide (P e)); [by rewrite decide_True | by rewrite decide_False].
  - intros j x Hx. replace (S k + j)%nat with (k + S j)%nat by lia. by apply Hsd.
Qed.

Section Shown.
Context `{Unicode}.

Lemma searched_shown w sd s : searched w sd s → shown_from 0 (page s) sd = filter (entry_matches w) sd.
Proof.
  intros Hs. apply shown_from_filter. intros j e Hj. change (0 + j)%nat with j.
  by rewrite (searched_rows _ _ _ Hs j e Hj).
Qed.

Lemma open_url_page cfg site name u sd :
  path_ok cfg → 63 ∉ name → head u = Some 63 → page_table site name = Some sd →
  open_url cfg site (page_file cfg name ++ u) = Ok (filter (entry_matches (search_word u None)) sd).
Proof.
  intros Hp Hn Hu Ht. unfold open_url. rewrite load_page by auto. rewrite Ht. cbn [fmap option_fmap option_map].
  destruct (open_page_searched sd u) as (s' & -> & Hs'). by rewrite (searched_shown _ _ _ Hs').
Qed.

Lemma open_url_nomatches cfg site :
  path_ok cfg → site_ok site → open_url cfg site (page_file cfg (js "nomatches")) = Ok [].
Proof.
  intros Hp Hs. unfold open_url. rewrite <- (app_nil_r (page_file _ _)), load_page; [| done | | by left].
  - by rewrite page_table_nomatches.
  - by apply (bool_decide_unpack _).
Qed.
End Shown.
