(* ===== verification/Searching.v ===== *)
(** * The search of a site

    The theorems about the search pages: from what is typed in the search box
    to the entries the results page shows. *)
From S2P Require Import Prelude JsString Dom SearchData ClientIndex SearchResults.
From S2P Require Import ResultsFacts ResultsPage ResultsNav SearchBox BoxFacts SearchSite.
Local Open Scope Z_scope.

(** The box of a page of a site. *)
Record site_box (site : Site) (cfg : box_config) : Prop := {
  box_content : indexSectionsWithContent cfg = s_content site;
  box_names : indexSectionNames cfg = s_names site;
  box_labels : indexSectionLabels cfg = s_labels site;
  box_path : path_ok cfg;
}.

Lemma site_box_ok site cfg : site_ok site → site_box site cfg → config_ok cfg.
Proof. intros [] []. constructor; congruence. Qed.

Section Box.
Context `{Unicode} (cfg : box_config).

(** The states the box can come to. *)
Inductive box_reached : searchBox → Prop :=
  | reached_init s : init_search cfg (newSearchBox cfg) = Ok (tt, s) → box_reached s
  | reached_event s e s' :
    box_reached s → box_enabled cfg s e → run_event cfg e s = Ok (tt, s') → box_reached s'.

Lemma reached_box_ok s : config_ok cfg → box_reached s → box_ok cfg s.
Proof.
  intros Hcfg. induction 1 as [s Hs | s e s' _ IH He Hs'].
  - pose proof (init_ok cfg Hcfg) as Hi. unfold wp in Hi. rewrite Hs in Hi. by destruct Hi.
  - pose proof (wp_event cfg e s Hcfg IH He) as Hw. unfold wp in Hw. by rewrite Hs' in Hw.
Qed.
End Box.

(** What the box asks the results frame to load finds what the value means. *)
Lemma open_search `{Unicode} site cfg k name content v :
  site ∈ sites → site_box site cfg → ascii_units v → strip_leading v ≠ [] →
  s_names site !! k = Some name → s_content site !! k = Some content →
  let r := results_page_of cfg content (Some name) (strip_leading v) in
  open_url cfg site (if snd r then fst r ++ js "?" ++ escape (strip_leading v) else fst r) =
    Ok (filter (name_found (query v)) (section_entries site k)).
Proof.
  intros Hsite Hbox Hv Hne Hname Hcontent. pose proof sites_ok as Hall.
  rewrite Forall_forall in Hall. pose proof (Hall _ Hsite) as Hok. clear Hall.
  pose proof (box_path _ _ Hbox) as Hpath.
  assert (section_ok site (name, content)) as Hsec.
  { pose proof (site_sections _ Hok) as Hs. rewrite Forall_forall in Hs. apply Hs.
    apply (list_elem_of_lookup_2 _ k). rewrite lookup_zip_with, Hname, Hcontent. done. }
  destruct (strip_leading v) as [| c w] eqn:Hw; [done |].
  pose proof (strip_leading_head _ _ _ Hw) as Hc.
  pose proof (strip_leading_forall _ _ Hv) as Hwa. rewrite Hw in Hwa.
  apply Forall_cons in Hwa as Hca. destruct Hca as [Hca _].
  assert (head (query v) = Some (lower_ascii c)) as Hhead.
  { unfold query. rewrite Hw. by destruct (strip_trailing_cons c w Hc) as [t ->]. }
  unfold section_entries. rewrite Hname, Hcontent.
  assert (index_char (c :: w) = [lower_ascii c]) as Hindex.
  { unfold index_char. cbn [take]. rewrite take_0.
    by rewrite toLowerCase_ascii by (apply Forall_cons; split; [done | apply Forall_nil; done]). }
  unfold results_page_of. rewrite Hindex.
  destruct (indexOf_unit (lower_ascii c) (js content)) as [[-> Hin] | (i & -> & Hi)].
  - rewrite decide_False by (intros Hn; exact (Hn eq_refl)). cbn [fst snd].
    change (resultsPath cfg ++ js "/nomatches" ++ extension cfg) with (page_file cfg (js "nomatches")).
    rewrite open_url_nomatches by done.
    by rewrite (section_search_none _ _ _ Hsec _ _ Hhead Hin).
  - rewrite decide_True by lia. cbn [fst snd].
    destruct (section_search _ _ _ Hsec _ _ _ Hhead Hi) as (sd & Hsd & Hent & ->).
    pose proof (page_table_name _ _ _ Hok Hsd) as [Hq _].
    change (resultsPath cfg ++ js "/" ++ page_name (Some name) (Z.of_nat i) ++ extension cfg)
      with (page_file cfg (page_name (Some name) (Z.of_nat i))).
    rewrite (open_url_page _ _ _ _ sd) by done. f_equal.
    rewrite <- Hw, search_word_query by done.
    apply filter_ext_in. intros e He. rewrite Forall_forall in Hent.
    apply (entry_found (lower_ascii c)); [by apply Hent |].
    unfold query. apply Forall_fmap. eapply Forall_impl; [by apply query_ascii |].
    apply lower_ascii_unit.
Qed.

(** C13: typing in the search box of any of the three sites finds what the
    search is for.  From every state the box can come to, when the user enters
    a value that is not blank and differs from the last search, the key starts
    the timer; when it fires, the results frame loads a page that runs without
    an exception and shows exactly the entries of the selected section whose
    names the value begins without regard to case (spaces around it left out)
    and those an entry number completes, in the order of the tables, no matter
    on which page of the section they are; and the results window is open. *)
Theorem typed_search_finds `{Unicode} site cfg s v :
  site ∈ sites → site_box site cfg → box_reached cfg s →
  ascii_units v → strip_all v ≠ [] → strip_all v ≠ lastSearchValue s →
  ∃ s1 s2 url,
    run_events cfg [FieldInput v; FieldKey 0 false] s = Ok (tt, s1) ∧
    run_event cfg (TimerFires (keyTimeout s1)) s1 = Ok (tt, s2) ∧
    location s2 = Some url ∧ popup s2 = "block"%string ∧ lastSearchValue s2 = strip_leading v ∧
    open_url cfg site url =
      Ok (filter (name_found (query v)) (section_entries site (Z.to_nat (searchIndex s)))).
Proof.
  intros Hsite Hbox Hs Hv Hne Hlast. pose proof sites_ok as Hall. rewrite Forall_forall in Hall.
  pose proof (site_box_ok _ _ (Hall _ Hsite) Hbox) as Hcfg. clear Hall.
  apply reached_box_ok in Hs; [| done]. pose proof (ok_range _ _ Hs) as Hr.
  destruct (typed_search cfg v s Hcfg Hs Hne Hlast)
    as (s1 & s2 & content & R1 & R2 & _ & Hcontent & Hloc & Hval & Hpop).
  destruct (lookup_lt_is_Some_2 (indexSectionNames cfg) (Z.to_nat (searchIndex s))) as [name Hname].
  { rewrite (config_names _ Hcfg). lia. }
  assert (section (indexSectionNames cfg) (searchIndex s) = Some name) as Hsec.
  { unfold section. by rewrite decide_True by lia. }
  rewrite Hsec in Hloc. exists s1, s2. eexists. split_and!; [done | done | exact Hloc | done | done |].
  rewrite (box_content _ _ Hbox) in Hcontent. rewrite (box_names _ _ Hbox) in Hname.
  apply open_search; [done | done | done | by apply strip_all_leading | done | done].
Qed.

(** The box of the pages of the synchronous client, on a page with a layout. *)
Definition example_layout : layout := mkLayout 20 19 [(400, 3); (10, 5)].
Definition client_box : box_config :=
  mkConfig (js "search") false (js "Search") (js ".html")
    (s_content ClientIndex.site) (s_names ClientIndex.site) (s_labels ClientIndex.site)
    example_layout example_layout example_layout example_layout 1024.

(** A browser whose tables map no other character. *)
#[local] Instance plain_unicode : Unicode := λ s, s.

Definition first_state : searchBox :=
  match init_search client_box (newSearchBox client_box) with Ok (_, s) => s | Err _ => newSearchBox client_box end.

Lemma client_site : ClientIndex.site ∈ sites.
Proof. apply list_elem_of_further, list_elem_of_here. Qed.

Lemma client_box_site : site_box ClientIndex.site client_box.
Proof. constructor; [done.. |]. by apply (bool_decide_unpack _). Qed.

Lemma first_reached : box_reached client_box first_state.
Proof. apply reached_init. by vm_compute. Qed.

Lemma typed_search_finds_witness : ∃ s1 s2 url,
  run_events client_box [FieldInput (js "  KeepAlive "); FieldKey 0 false] first_state = Ok (tt, s1) ∧
  run_event client_box (TimerFires (keyTimeout s1)) s1 = Ok (tt, s2) ∧
  location s2 = Some url ∧ popup s2 = "block"%string ∧
  lastSearchValue s2 = strip_leading (js "  KeepAlive ") ∧
  open_url client_box ClientIndex.site url =
    Ok (filter (name_found (query (js "  KeepAlive "))) (section_entries ClientIndex.site 0)).
Proof.
  apply (typed_search_finds ClientIndex.site client_box first_state (js "  KeepAlive ") client_site
    client_box_site first_reached); [by apply (bool_decide_unpack _) | done | done].
Defined.

(** C14: the box is safe: from every state it can come to, every event of the
    page but the key Down on the last section is handled without an exception
    and leaves the box in order: a section of the site is selected and its item
    of the menu alone is marked, the results window and its close button are
    shown together, timers have different ids, and the timer the box will
    cancel on the next key is a pending search. *)
Theorem box_events_safe `{Unicode} cfg s e :
  config_ok cfg → box_reached cfg s → box_enabled cfg s e →
  ∃ s', run_event cfg e s = Ok (tt, s') ∧
    0 ≤ searchIndex s' < Z.of_nat (length (indexSectionLabels cfg)) ∧
    marks s' = marks_for (searchIndex s') (length (indexSectionLabels cfg)) ∧
    (popup s' = "block"%string ↔ close_button s' = "inline-block"%string) ∧
    NoDup (timer_id <$> timers s') ∧
    (keyTimeout s' ≠ 0 → (keyTimeout s', keyTimeoutLength, RunSearch) ∈ timers s').
Proof.
  intros Hcfg Hs He. apply reached_box_ok in Hs; [| done].
  pose proof (proj1 (wp_ok _ _ _) (wp_event cfg e s Hcfg Hs He)) as ([] & s' & Hr & [Hf [_ Hm] Hrange]).
  exists s'. destruct Hf. by repeat (split; [assumption |]).
Qed.

Lemma client_config_ok : config_ok client_box.
Proof. constructor; [done | done | cbn; lia]. Qed.

Lemma box_events_safe_witness : ∃ s', run_event client_box (SelectKey 40) first_state = Ok (tt, s') ∧
  0 ≤ searchIndex s' < Z.of_nat (length (indexSectionLabels client_box)) ∧
  marks s' = marks_for (searchIndex s') (length (indexSectionLabels client_box)) ∧
  (popup s' = "block"%string ↔ close_button s' = "inline-block"%string) ∧
  NoDup (timer_id <$> timers s') ∧
  (keyTimeout s' ≠ 0 → (keyTimeout s', keyTimeoutLength, RunSearch) ∈ timers s').
Proof. apply (box_events_safe client_box first_state (SelectKey 40) client_config_ok first_reached). done. Defined.

(** C17: the key Down on the last section of the menu passes the end of the
    sections, since the item count is compared with the index of the selected
    item: if the field holds a search, the search for the section that is not
    there throws an exception; if not, no item of the menu is marked and the
    next search throws. *)
Theorem down_on_last `{Unicode} cfg s :
  config_ok cfg → box_reached cfg s →
  searchIndex s + 1 = Z.of_nat (length (indexSectionLabels cfg)) →
  (strip_all (field s) ≠ [] ∧ searchActive s = true →
    run_event cfg (SelectKey 40) s = Err TypeError) ∧
  (¬ (strip_all (field s) ≠ [] ∧ searchActive s = true) →
    ∃ s', run_event cfg (SelectKey 40) s = Ok (tt, s') ∧
      Forall (λ m, m = no_bullet) (marks s') ∧ box_Search cfg s' = Err TypeError).
Proof.
  intros Hcfg Hs Hlast. apply reached_box_ok in Hs; [| done]. destruct Hs as [_ [_ Hm] _].
  set (n := length (indexSectionLabels cfg)) in *.
  assert (length (marks s) = n) as Hlen by (rewrite Hm; unfold marks_for; by rewrite length_fmap, length_seq).
  set (s1 := set_index (searchIndex s + 1) (marks_for (searchIndex s + 1) (length (marks s)))
               (set_index (searchIndex s + 1) (marks s) s)).
  assert (OnSearchSelectKey cfg 40 s =
    ((if decide (strip_all (field s) ≠ [] ∧ searchActive s = true) then box_Search cfg else mret tt)
     ≫= λ _, mret false) s1) as Hrun.
  { unfold OnSearchSelectKey. unfold mbind at 1, M_bind at 1. cbn [get].
    unfold SelectItemCount. rewrite gets_bind. rewrite decide_True by (split; [done | lia]).
    unfold OnSelectItem, SelectItemSet. rewrite bind_assoc_run, modify_bind, bind_assoc_run, modify_bind.
    rewrite bind_assoc_run. unfold mbind at 1, M_bind at 1. cbn [get]. done. }
  assert (box_Search cfg s1 = Err TypeError) as Hthrow.
  { apply Search_throws; [done |]. cbn. by rewrite Hlast. }
  cbn [run_event]. split.
  - intros Hd. rewrite decide_True in Hrun by done.
    rewrite (bind_err _ _ _ _ Hthrow) in Hrun. by apply bind_err.
  - intros Hd. rewrite decide_False in Hrun by done. exists s1. split_and!; [by rewrite (bind_ok _ _ _ _ _ Hrun) | | done].
    cbn [s1 marks set_index]. rewrite Hlen, Hlast. apply Forall_fmap, Forall_forall.
    intros j Hj%elem_of_seq. cbn. by rewrite decide_False by lia.
Qed.

Definition last_state : searchBox :=
  match run_event client_box (SelectItem 9) first_state with Ok (_, s) => s | Err _ => first_state end.

Lemma last_reached : box_reached client_box last_state.
Proof.
  apply (reached_event client_box first_state (SelectItem 9)); [exact first_reached | | by vm_compute].
  by apply (bool_decide_unpack _).
Qed.

Lemma down_on_last_witness :
  (strip_all (field last_state) ≠ [] ∧ searchActive last_state = true →
    run_event client_box (SelectKey 40) last_state = Err TypeError) ∧
  (¬ (strip_all (field last_state) ≠ [] ∧ searchActive last_state = true) →
    ∃ s', run_event client_box (SelectKey 40) last_state = Ok (tt, s') ∧
      Forall (λ m, m = no_bullet) (marks s') ∧ box_Search client_box s' = Err TypeError).
Proof. apply (down_on_last client_box last_state client_config_ok last_reached). by vm_compute. Defined.

(** C15: a results page shows what it was opened for: for every table and every
    URL, the scripts of the page run without an exception and leave the row of
    each entry displayed if the id of the entry, after the prefix of the row, in
    lower case, begins with the encoded search word, and hidden if not; the
    match count is their number, the note that there are none is displayed just
    when there are none, and the rows and every other node are those that
    createResults made, but for their display. *)
Theorem opened_page `{Unicode} sd u :
  let w := search_word u None in
  ∃ s, open_page sd u (SearchResults fresh_page) = Ok (tt, s) ∧
    (∀ k e, sd !! k = Some e →
      (display <$> elem_at [0; 1; k]%nat (page s)) =
        Some (if decide (row_matches w (js "SR_" ++ js (e_id e))) then "block" else "none")%string) ∧
    shown_from 0 (page s) sd = filter (λ e, row_matches w (js "SR_" ++ js (e_id e))) sd ∧
    lastMatchCount s = Z.of_nat (length (shown_from 0 (page s) sd)) ∧
    ((display <$> elem_at [0; 4]%nat (page s)) = Some "block"%string ↔ lastMatchCount s = 0) ∧
    (∀ p, set_display EmptyString <$> elem_at p (page s) =
          set_display EmptyString <$> elem_at p (results_page (imap result_row sd))).
Proof.
  intros w. destruct (open_page_searched sd u) as (s & Hs & Hsearched). exists s.
  pose proof (searched_shown _ _ _ Hsearched) as Hshown. fold w in Hsearched, Hshown.
  split; [exact Hs |]. split; [| split; [exact Hshown |]].
  { intros k e Hk. by rewrite (searched_rows _ _ _ Hsearched k e Hk). }
  rewrite Hshown, (searched_count _ _ _ Hsearched). split; [done |].
  split; [| apply (searched_elems _ _ _ Hsearched)].
  rewrite (searched_nomatches _ _ _ Hsearched).
  destruct (filter (entry_matches w) sd) as [| e l]; cbn [length].
  - by rewrite decide_True.
  - rewrite decide_False by done. split; [done | lia].
Qed.

(** C16: the encoding of a search word: one string begins another exactly when
    its encoding begins the other's, so different strings have different
    encodings, and the encoding has only lower case letters, digits,
    underscores and characters above 127. *)
Theorem convertToId_embeds s t :
  code_units s → code_units t →
  (convertToId s `prefix_of` convertToId t ↔ s `prefix_of` t) ∧
  (convertToId s = convertToId t ↔ s = t) ∧
  Forall (λ c, id_unit c ∨ c = 95) (convertToId s).
Proof.
  intros Hs Ht. split; [by apply convertToId_prefix_iff |]. split.
  - split; [| by intros ->]. intros Heq.
    apply (anti_symm prefix); apply convertToId_prefix_iff; [done | done | by rewrite Heq | done | done | by rewrite Heq].
  - rewrite convertToId_bind. apply Forall_bind. eapply Forall_impl; [exact Hs |].
    apply id_of_unit_alphabet.
Qed.

Lemma convertToId_embeds_witness :
  (convertToId (js "qos ") `prefix_of` convertToId (js "qos (2)") ↔ js "qos " `prefix_of` js "qos (2)") ∧
  (convertToId (js "qos ") = convertToId (js "qos (2)") ↔ js "qos " = js "qos (2)") ∧
  Forall (λ c, id_unit c ∨ c = 95) (convertToId (js "qos ")).
Proof. apply convertToId_embeds; by apply (bool_decide_unpack _). Defined.

(** C19: FindChildElement finds in document order: it returns the first node
    below the element with the id that is a div of the class SRChildren and is
    reached through div elements only, null when there is none, and it always
    ends; an id that no element has throws an exception. *)
Theorem FindChildElement_first i s :
  FindChildElement i s =
    match getElementById i (page s) with
    | Some p =>
      match subtree p (page s) with
      | Some root =>
        Ok ((p ++.) <$> head (filter (λ q, children_at root q = true) (filter (below root) (positions root))), s)
      | None => Err TypeError
      end
    | None => Err TypeError
    end.
Proof.
  destruct (getElementById i (page s)) as [p |] eqn:Hp.
  2: { unfold FindChildElement, byId. by rewrite gets_bind, Hp. }
  destruct (subtree p (page s)) as [root |] eqn:Hroot.
  2: { apply getElementById_some in Hp as [_ Hp%elem_of_positions]. rewrite Hroot in Hp. by destruct Hp. }
  rewrite (FindChildElement_run _ _ _ _ Hp Hroot). do 3 f_equal.
  rewrite (child_visits_filter root _ 0); [| by rewrite drop_0 |].
  2: { apply Forall_forall. intros c _. apply visited_filter. }
  rewrite first_filter. do 2 f_equal. destruct root as [e cs | t]; [| done].
  rewrite positions_node, filter_cons, decide_False by (by intros []). done.
Qed.

(** The arrow keys move between the matches: on a page opened for a search,
    NavNext from an index of a row and NavPrev from an index of a row end, and
    give the item of the nearest entry at or after (before) it that matches the
    search, null when there is none; no entry between matches. *)
Theorem nav_between_matches `{Unicode} sd u s step index :
  open_page sd u (SearchResults fresh_page) = Ok (tt, s) →
  step = 1 ∨ step = -1 → 0 ≤ index < Z.of_nat (length sd) →
  ∃ r, (if decide (step = 1) then NavNext index else NavPrev index) s = Ok (r, s) ∧
    match r with
    | Some p => ∃ k e, p = [0; 1; k; 0; 0]%nat ∧ sd !! k = Some e ∧
        entry_matches (search_word u None) e ∧ 0 ≤ step * (Z.of_nat k - index) ∧
        ∀ j x, 0 ≤ step * (Z.of_nat j - index) < step * (Z.of_nat k - index) →
          sd !! j = Some x → ¬ entry_matches (search_word u None) x
    | None => ∀ j x, 0 ≤ step * (Z.of_nat j - index) →
        sd !! j = Some x → ¬ entry_matches (search_word u None) x
    end.
Proof.
  intros Hopen Hstep Hindex. destruct (open_page_searched sd u) as (s' & Hs & Hsearched).
  rewrite Hopen in Hs. injection Hs as <-.
  destruct (searched_nav_run _ _ _ Hsearched step index Hstep) as (r & Hr & Hf).
  exists r. split.
  - unfold NavNext, NavPrev, nav_fuel. destruct Hstep as [-> | ->]; [rewrite decide_True by done | rewrite decide_False by done];
      by rewrite gets_bind.
  - pose proof (searched_nav _ _ _ Hsearched step index r Hstep Hf) as Hres.
    destruct r as [p |]; [exact Hres | exact (Hres Hindex)].
Qed.

(** C24: the tables of the three sites fit the search: each section has a page
    for every character of its string, the entries of the page have names that
    begin with the character; the entries of a site are numbered through its
    pages, the id of each is its encoded name, an underscore and its number, and
    it has a link; and the section All has the names and targets of all the
    other sections together, each as often as they have it. *)
Theorem sites_tables site :
  site ∈ sites →
  (∀ k name content i c, s_names site !! k = Some name → s_content site !! k = Some content →
    js content !! i = Some c →
    ∃ sd, page_table site (page_name (Some name) (Z.of_nat i)) = Some sd ∧
      Forall (λ e, head (lower_name e) = Some c) sd) ∧
  (∀ i e, site_entries site !! i = Some e → e_links e ≠ [] ∧
    js (e_id e) = convertToId (lower_name e) ++ js "_" ++ toString10 (Z.of_nat i)) ∧
  section_targets site 0 ≡ₚ other_targets site.
Proof.
  intros Hsite. pose proof sites_ok as Hall. rewrite Forall_forall in Hall.
  pose proof sites_consistent as Hcons. rewrite Forall_forall in Hcons.
  specialize (Hall _ Hsite). destruct (Hcons _ Hsite) as [Hids Hlinks _ Hperm]. split_and!; [| | done].
  - intros k name content i c Hn Hc Hi.
    assert (section_ok site (name, content)) as Hsec.
    { pose proof (site_sections _ Hall) as Hs. rewrite Forall_forall in Hs. apply Hs.
      apply (list_elem_of_lookup_2 _ k). by rewrite lookup_zip_with, Hn, Hc. }
    destruct (page_entries _ _ _ _ _ Hsec Hi) as (sd & Hsd & Hent). exists sd. split; [done |].
    eapply Forall_impl; [exact Hent |]. by intros e (_ & _ & ? & _).
  - intros i e He. split; [by apply (proj1 (Forall_lookup _ _) Hlinks i) |].
    apply (f_equal (lookup i)) in Hids.
    rewrite list_lookup_fmap, list_lookup_imap, He in Hids. by injection Hids.
Qed.

Lemma sites_tables_witness :
  section_targets ClientIndex.site 0 ≡ₚ other_targets ClientIndex.site.
Proof. apply (sites_tables ClientIndex.site client_site). Defined.

(** C18: the key Down on a result moves the focus to the next match: on a page
    opened for a search, the handler of a row's link for the key press ends
    without an exception, asks the browser not to handle the key, changes no
    element of the page, and focuses the link of the first later entry that
    matches, or nothing when there is none. *)
Theorem down_key_next `{Unicode} sd u s (k : nat) :
  open_page sd u (SearchResults fresh_page) = Ok (tt, s) → (k < length sd)%nat →
  ∃ s' r, Nav (mkEvent keydown 40) (Z.of_nat k) s = Ok (false, s') ∧
    page s' = page s ∧ lastKey s' = 40 ∧
    effects s' = effects s ++ (match r with Some j => [Focus [0; 1; j; 0; 0]%nat] | None => [] end) ∧
    match r with
    | Some j => (k < j)%nat ∧ (∃ e, sd !! j = Some e ∧ entry_matches (search_word u None) e) ∧
        ∀ i x, (k < i < j)%nat → sd !! i = Some x → ¬ entry_matches (search_word u None) x
    | None => ∀ i x, (k < i)%nat → sd !! i = Some x → ¬ entry_matches (search_word u None) x
    end.
Proof.
  intros Hopen Hk. destruct (open_page_searched sd u) as (s0 & Hs & Hsearched).
  rewrite Hopen in Hs. injection Hs as <-. set (w := search_word u None) in *.
  apply (searched_key w sd s 40 false) in Hsearched. set (s1 := set_key 40 false s) in *.
  destruct (nav_down_run w sd s1 Hsearched k Hk) as (r & Hf & Hrun).
  pose proof (searched_nav w sd s1 Hsearched 1 (Z.of_nat k + 1) r (or_introl eq_refl) Hf) as Hres.
  set (s2 := match r with Some p => add_effect (Focus p) s1 | None => s1 end) in *.
  assert (Nav (mkEvent keydown 40) (Z.of_nat k) s = Ok (false, s2)) as HNav.
  { unfold Nav. rewrite decide_False by done. rewrite (bind_ok _ _ s true s1) by done. cbn [negb].
    rewrite gets_bind. rewrite decide_False by done. rewrite decide_True by done.
    by rewrite (bind_ok _ _ _ _ _ Hrun). }
  destruct r as [p |].
  - destruct Hres as (j & e & -> & He & Hm & Hge & Hbetween). exists s2, (Some j).
    split_and!; [done | done | done | done | lia | by exists e |].
    intros i x Hi. apply (Hbetween i x). lia.
  - exists s2, None. split_and!; [done | done | done | by rewrite app_nil_r |].
    intros i x Hi Hx. pose proof (lookup_lt_Some _ _ _ Hx). apply (Hres ltac:(lia) i x); [lia | done].
Qed.

Definition searched_page : results :=
  match open_page ClientIndex.all_2 (js "?clean") (SearchResults fresh_page) with
  | Ok (_, s) => s
  | Err _ => SearchResults fresh_page
  end.

Lemma searched_page_open :
  open_page ClientIndex.all_2 (js "?clean") (SearchResults fresh_page) = Ok (tt, searched_page).
Proof. by vm_compute. Qed.

Lemma down_key_next_witness : ∃ s' r,
  Nav (mkEvent keydown 40) 2 searched_page = Ok (false, s') ∧
  page s' = page searched_page ∧ lastKey s' = 40 ∧
  effects s' = effects searched_page ++ (match r with Some j => [Focus [0; 1; j; 0; 0]%nat] | None => [] end) ∧
  match r with
  | Some j => (2 < j)%nat ∧
      (∃ e, ClientIndex.all_2 !! j = Some e ∧ entry_matches (search_word (js "?clean") None) e) ∧
      ∀ i x, (2 < i < j)%nat → ClientIndex.all_2 !! i = Some x →
        ¬ entry_matches (search_word (js "?clean") None) x
  | None => ∀ i x, (2 < i)%nat → ClientIndex.all_2 !! i = Some x →
      ¬ entry_matches (search_word (js "?clean") None) x
  end.
Proof. apply (down_key_next ClientIndex.all_2 (js "?clean") searched_page 2 searched_page_open). cbn. lia. Defined.

Lemma nav_between_matches_witness : ∃ r,
  (if decide (1 = 1) then NavNext 0 else NavPrev 0) searched_page = Ok (r, searched_page) ∧
  match r with
  | Some p => ∃ k e, p = [0; 1; k; 0; 0]%nat ∧ ClientIndex.all_2 !! k = Some e ∧
      entry_matches (search_word (js "?clean") None) e ∧ 0 ≤ 1 * (Z.of_nat k - 0) ∧
      ∀ j x, 0 ≤ 1 * (Z.of_nat j - 0) < 1 * (Z.of_nat k - 0) →
        ClientIndex.all_2 !! j = Some x → ¬ entry_matches (search_word (js "?clean") None) x
  | None => ∀ j x, 0 ≤ 1 * (Z.of_nat j - 0) →
      ClientIndex.all_2 !! j = Some x → ¬ entry_matches (search_word (js "?clean") None) x
  end.
Proof.
  apply (nav_between_matches ClientIndex.all_2 (js "?clean") searched_page 1 0 searched_page_open);
    [by left | cbn; lia].
Defined.
