(* ===== verification/Dynsections.v ===== *)
(** * Sections that open and close (src/docs/MQTTClient/html/dynsections.js)

    The rows of a directory table, shown as a tree of folders by hiding rows,
    and the sections with a trigger image.  The elements jQuery selects are the
    parts of a record; [is(':visible')] is the flag of the element. *)
From S2P Require Import Prelude JsString SearchResults.
Local Open Scope Z_scope.

(** ** Elements *)
Record span := mkSpan { s_id : jstr; s_class : list string; s_html : string }.

(** A row of table.directory with the spans in it. *)
Record row := mkRow { r_id : jstr; r_spans : list span; r_even : bool; r_visible : bool }.

Definition hasClass (c : string) (s : span) : bool := bool_decide (c ∈ s_class s).
Definition removeClass (cs : list string) (s : span) : span :=
  mkSpan (s_id s) (filter (λ c, c ∉ cs) (s_class s)) (s_html s).
Definition addClass (c : string) (s : span) : span :=
  if hasClass c s then s else mkSpan (s_id s) (s_class s ++ [c]) (s_html s).
Definition html (h : string) (s : span) : span := mkSpan (s_id s) (s_class s) h.

Definition set_spans (f : span → span) (r : row) : row :=
  mkRow (r_id r) (f <$> r_spans r) (r_even r) (r_visible r).
Definition set_visible (b : bool) (r : row) : row := mkRow (r_id r) (r_spans r) (r_even r) b.
Definition set_even (b : bool) (r : row) : row := mkRow (r_id r) (r_spans r) b (r_visible r).

Definition arrow_down : string := "&#9660;".
Definition arrow_right : string := "&#9658;".

(** ** updateStripes *)
Fixpoint stripe (k : nat) (rows : list row) : list row :=
  match rows with
  | [] => []
  | r :: rows =>
    if r_visible r then set_even (Nat.even k) r :: stripe (S k) rows
    else set_even false r :: stripe k rows
  end.
Definition updateStripes (rows : list row) : list row := stripe 0 rows.

(** ** toggleLevel *)

(** [$('#' + id)]: the first span with the id. *)
Fixpoint first_span (f : span → span) (i : jstr) (spans : list span) : option (list span) :=
  match spans with
  | [] => None
  | s :: spans =>
    if decide (s_id s = i) then Some (f s :: spans)
    else (s ::.) <$> first_span f i spans
  end.
Fixpoint update_span (f : span → span) (i : jstr) (rows : list row) : list row :=
  match rows with
  | [] => []
  | r :: rows =>
    match first_span f i (r_spans r) with
    | Some spans => mkRow (r_id r) spans (r_even r) (r_visible r) :: rows
    | None => r :: update_span f i rows
    end
  end.

(** [id.split('_').length-1] *)
Definition underscores (i : jstr) : Z := Z.of_nat (length (filter (λ c, c = 95) i)).

Definition set_icon (c : string) (s : span) : span :=
  addClass c (removeClass ["iconfopen"; "iconfclosed"]%string s).

(** The function of [each], on the row [k]. *)
Definition level_row (level : Z) (rows : list row) (k : nat) : list row :=
  match rows !! k with
  | None => rows
  | Some r =>
    let l := underscores (r_id r) in
    let i := js "img" ++ drop 3 (r_id r) in
    let a := js "arr" ++ drop 3 (r_id r) in
    if decide (l < level + 1) then
      alter (set_visible true) k (update_span (html arrow_down) a (update_span (set_icon "iconfopen") i rows))
    else if decide (l = level + 1) then
      alter (set_visible true) k (update_span (html arrow_right) a (update_span (set_icon "iconfclosed") i rows))
    else alter (set_visible false) k rows
  end.
Definition toggleLevel (level : Z) (rows : list row) : list row :=
  updateStripes (foldl (level_row level) rows (seq 0 (length rows))).

(** ** toggleFolder *)

(** [re.test(rowId)] for the expression ^row_<id>\d+_$ without regard to case;
    [id] has no character that is special in an expression. *)
Definition child_pattern (id rowId : jstr) : bool :=
  let start := lower_ascii <$> (js "row_" ++ id) in
  let rest := drop (length start) rowId in
  bool_decide (start `prefix_of` (lower_ascii <$> rowId)) &&
  bool_decide (drop_digits rest = [95]) && match rest with c :: _ => decimal_digit c | [] => false end.

Definition with_class (c : string) (f : span → span) (s : span) : span :=
  if hasClass c s then f s else s.

(** The icons and arrows of a row. *)
Definition close_row (r : row) : row :=
  set_spans (with_class "arrow" (html arrow_right))
    (set_spans (with_class "iconfopen" (addClass "iconfclosed" ∘ removeClass ["iconfopen"%string])) r).
Definition open_row (r : row) : row :=
  set_spans (with_class "arrow" (html arrow_down))
    (set_spans (with_class "iconfclosed" (addClass "iconfopen" ∘ removeClass ["iconfclosed"%string])) r).

Definition hide_below (id : jstr) (r : row) : row :=
  if decide (js "row_" ++ id `prefix_of` r_id r) then set_visible false r else r.
Definition show_child (id : jstr) (r : row) : row :=
  if child_pattern id (r_id r) then set_visible true (close_row r) else r.

Definition toggleFolder (id : jstr) (all : list row) : list row :=
  match list_find (λ r, r_id r = js "row_" ++ id) all with
  | None => updateStripes all
  | Some (k, currentRow) =>
    let rows := drop (S k) all in
    let childRows := filter (λ r, child_pattern id (r_id r) = true) rows in
    match childRows with
    | mkRow _ _ _ true :: _ =>
      updateStripes (take k all ++ close_row currentRow :: (hide_below id <$> rows))
    | _ => updateStripes (take k all ++ open_row currentRow :: (show_child id <$> rows))
    end
  end.

(** ** toggleVisibility, toggleInherit *)

(** A section with its link, and the trigger if there is one. *)
Record dyn_section := mkSection {
  link_class : list string;
  summary_visible : bool;
  content_visible : bool;
  trigger_src : option jstr;
}.

Definition without (c : string) (cs : list string) : list string := filter (λ x, x ≠ c) cs.
Definition with_added (c : string) (cs : list string) : list string :=
  if decide (c ∈ cs) then cs else cs ++ [c].

Definition closed_src (src : jstr) : jstr := take (length src - 8) src ++ js "closed.png".
Definition open_src (src : jstr) : jstr := take (length src - 10) src ++ js "open.png".

Definition toggleVisibility (s : dyn_section) : res dyn_section :=
  match trigger_src s with
  | None => Err TypeError
  | Some src =>
    if content_visible s then
      Ok (mkSection (without "opened" (with_added "closed" (link_class s))) true false (Some (closed_src src)))
    else
      Ok (mkSection (with_added "opened" (without "closed" (link_class s))) false true (Some (open_src src)))
  end.

(** The rows tr.inherit of an id, and the images of their header. *)
Record inherit := mkInherit { i_rows : list bool; i_imgs : list jstr }.

Definition toggleInherit (s : inherit) : res inherit :=
  let shown := match i_rows s with b :: _ => b | [] => false end in
  match i_imgs s with
  | [] => Err TypeError
  | src :: _ =>
    if shown : bool
    then Ok (mkInherit ((λ _, false) <$> i_rows s) ((λ _, closed_src src) <$> i_imgs s))
    else Ok (mkInherit ((λ _, true) <$> i_rows s) ((λ _, open_src src) <$> i_imgs s))
  end.
