(* ===== verification/Folders.v ===== *)
(** * Directory tables as trees of folders

    A row of a directory table is named by the path of its numbers; the rows
    that are shown are those whose folders are all open. *)
From stdpp Require Import pretty.
From S2P Require Import Prelude JsString SearchResults ResultsFacts Dynsections.
Local Open Scope Z_scope.

(** ** Ids of rows *)
Notation path := (list nat).

(** The id of a path: what the page passes to [toggleFolder], and the id of
    the row. *)
Definition seg (n : nat) : jstr := toString10 (Z.of_nat n) ++ [95].
Definition folder_id (p : path) : jstr := p ≫= seg.
Definition row_id (p : path) : jstr := js "row_" ++ folder_id p.

Lemma seg_digits n : Forall digit (toString10 (Z.of_nat n)).
Proof. apply toString10_digits. lia. Qed.

Lemma seg_nonempty n : toString10 (Z.of_nat n) ≠ [].
Proof.
  intros E. assert (toString10 (Z.of_nat n) ++ [95] = [95]) as E' by (by rewrite E).
  unfold toString10 in E. destruct (pretty (Z.of_nat n)) as [| a s] eqn:Hp; [| done].
  destruct n as [| n]; [by vm_compute in Hp |].
  assert (pretty (Z.of_nat (S n)) = pretty (N.of_nat (S n))) as Hq by done.
  rewrite Hq in Hp. clear Hq E E'. unfold pretty, pretty_N in Hp. rewrite decide_False in Hp by lia.
  assert (∀ x s, s ≠ EmptyString ∨ (0 < x)%N → pretty_N_go x s ≠ EmptyString) as Hne.
  { clear. intros x. induction x as [x IH] using (well_founded_induction N.lt_wf_0); intros s Hs.
    destruct (decide (x = 0)%N) as [-> | Hx]; [rewrite pretty_N_go_0; by destruct Hs |].
    rewrite pretty_N_go_step by lia. apply IH; [apply N.div_lt; lia | by left]. }
  apply (Hne (N.of_nat (S n)) EmptyString); [right; lia | done].
Qed.

Lemma split_underscore (a b x y : jstr) :
  95 ∉ a → 95 ∉ b → a ++ 95 :: x = b ++ 95 :: y → a = b ∧ x = y.
Proof.
  revert b. induction a as [| c a IH]; intros [| d b] Ha Hb; cbn; intros E.
  - by injection E.
  - injection E as <- _. destruct Hb. left.
  - injection E as -> _. destruct Ha. left.
  - injection E as -> E2. apply not_elem_of_cons in Ha as [_ Ha], Hb as [_ Hb].
    by destruct (IH b Ha Hb E2) as [-> ->].
Qed.

Lemma seg_split n m x y : seg n ++ x = seg m ++ y → n = m ∧ x = y.
Proof.
  unfold seg. rewrite <- !(assoc_L (++)). intros E.
  apply split_underscore in E as [E ->]; [| apply digits_no_underscore, seg_digits..].
  apply toString10_inj in E. split; [lia | done].
Qed.

Lemma folder_id_prefix p q : folder_id p `prefix_of` folder_id q ↔ p `prefix_of` q.
Proof.
  split.
  - intros [t E]. revert q E. induction p as [| n p IH]; intros q E; [apply prefix_nil |].
    cbn in E. rewrite <- (assoc_L (++)) in E. destruct q as [| m q].
    + apply (f_equal length) in E. cbn in E. unfold seg in E. rewrite !length_app in E. cbn in E. lia.
    + cbn in E. apply eq_sym, seg_split in E as [-> E]. by apply prefix_cons, IH.
  - intros [t ->]. unfold folder_id. rewrite bind_app. by eexists.
Qed.

Lemma row_id_prefix p q : js "row_" ++ folder_id p `prefix_of` row_id q ↔ p `prefix_of` q.
Proof. unfold row_id. rewrite <- folder_id_prefix. split; [apply prefix_app_inv | apply prefix_app]. Qed.

(** The number of underscores [toggleLevel] counts. *)
Lemma underscores_row p : underscores (row_id p) = 1 + Z.of_nat (length p).
Proof.
  unfold underscores, row_id. rewrite filter_app, length_app.
  assert (∀ p, length (filter (λ c, c = 95) (folder_id p)) = length p) as ->.
  2: { replace (length (filter (λ c, c = 95) (js "row_"))) with 1%nat by done. lia. }
  clear p. induction p as [| n p IH]; [done |]. unfold folder_id in *. cbn [mbind list_bind].
  rewrite filter_app, length_app, IH. unfold seg. rewrite filter_app, length_app, (filter_none _ (toString10 _)); [done |].
  eapply Forall_impl; [apply seg_digits |]. intros c Hc ->. unfold digit in Hc. lia.
Qed.

Lemma row_id_inj p q : row_id p = row_id q → p = q.
Proof.
  intros E. apply (anti_symm prefix); apply row_id_prefix; unfold row_id in *; by rewrite E.
Qed.

Lemma lower_digits s : Forall (λ c, digit c ∨ c = 95) s → lower_ascii <$> s = s.
Proof.
  induction 1 as [| c s Hc _ IH]; [done |]. rewrite fmap_cons, IH. f_equal.
  unfold lower_ascii, digit in *. rewrite decide_False; [done | lia].
Qed.

Lemma lower_folder p : lower_ascii <$> folder_id p = folder_id p.
Proof.
  apply lower_digits. unfold folder_id. apply Forall_bind, Forall_forall. intros n _.
  unfold seg. apply Forall_app. split; [| apply Forall_singleton; by right].
  eapply Forall_impl; [apply seg_digits |]. by left.
Qed.

Lemma lower_row p : lower_ascii <$> (js "row_" ++ folder_id p) = js "row_" ++ folder_id p.
Proof. rewrite fmap_app, lower_folder. done. Qed.

Lemma drop_digits_seg n x : drop_digits (seg n ++ x) = 95 :: x.
Proof.
  unfold seg. rewrite <- (assoc_L (++)). cbn [app].
  generalize (seg_digits n). generalize (toString10 (Z.of_nat n)) as s.
  induction 1 as [| c s Hc _ IH]; [done |]. cbn. unfold decimal_digit. by rewrite bool_decide_eq_true_2.
Qed.

(** The pattern of the children. *)
Lemma child_pattern_iff p q : child_pattern (folder_id p) (row_id q) = true ↔ ∃ n, q = p ++ [n].
Proof.
  unfold child_pattern. rewrite !andb_true_iff, !bool_decide_eq_true.
  unfold row_id. rewrite !lower_row, <- (length_fmap lower_ascii), lower_row. split.
  - intros [[Hp Hd] Hc]. apply row_id_prefix in Hp as [r ->]. revert Hd Hc. unfold folder_id.
    rewrite bind_app, (assoc_L (++)), drop_app_length.
    destruct r as [| n [| m r]]; cbn [mbind list_bind]; [done | by exists n |].
    rewrite drop_digits_seg. intros E _. injection E as E. unfold seg in E.
    apply (f_equal length) in E. rewrite !length_app in E. cbn in E. lia.
  - intros [n ->]. unfold folder_id. rewrite bind_app, (assoc_L (++)), drop_app_length.
    cbn [mbind list_bind]. rewrite app_nil_r. split; [split; [by eexists |] |].
    + rewrite <- (app_nil_r (seg n)). by rewrite drop_digits_seg.
    + pose proof (seg_digits n) as Hd. pose proof (seg_nonempty n) as Hne. unfold seg.
      destruct (toString10 (Z.of_nat n)) as [| c s]; [done |]. apply Forall_cons in Hd as [Hd _].
      cbn. unfold decimal_digit. by apply bool_decide_eq_true.
Qed.

(** ** The tree of a table *)
Definition opened (r : row) : bool := existsb (hasClass "iconfopen") (r_spans r).
Definition has_icon (r : row) : bool :=
  existsb (λ s, hasClass "iconfopen" s || hasClass "iconfclosed" s) (r_spans r).

(** The rows have the ids of the paths, a folder comes before what is in it,
    and has an icon. *)
Record table (paths : list path) (rows : list row) : Prop := {
  table_ids : r_id <$> rows = row_id <$> paths;
  table_nodup : NoDup paths;
  table_order i j p q : paths !! i = Some p → paths !! j = Some q → p `prefix_of` q → (i ≤ j)%nat;
  table_parent i j p n r : paths !! i = Some p → paths !! j = Some (p ++ [n]) →
    rows !! i = Some r → has_icon r = true;
}.

(** A row is shown just when its folder is shown and open. *)
Definition tree_shown (paths : list path) (rows : list row) : Prop :=
  ∀ i j p n r c, paths !! i = Some p → paths !! j = Some (p ++ [n]) →
    rows !! i = Some r → rows !! j = Some c → r_visible c = r_visible r && opened r.

(** Every other row of those shown is marked. *)
Definition striped (rows : list row) : Prop :=
  ∀ i r, rows !! i = Some r →
    r_even r = r_visible r && Nat.even (length (filter (λ r, r_visible r = true) (take i rows))).

(** Classes of a span. *)
Lemma hasClass_removeClass c cs s : hasClass c (removeClass cs s) = hasClass c s && bool_decide (c ∉ cs).
Proof.
  unfold hasClass, removeClass. cbn. apply eq_bool_prop_intro. rewrite andb_True, !bool_decide_spec.
  rewrite list_elem_of_filter. tauto.
Qed.

Lemma hasClass_addClass c d s : hasClass c (addClass d s) = hasClass c s || bool_decide (c = d).
Proof.
  unfold addClass. destruct (hasClass d s) eqn:Hd.
  - destruct (decide (c = d)) as [-> | Hne]; [by rewrite Hd |]. by rewrite bool_decide_eq_false_2, orb_false_r.
  - unfold hasClass. cbn. apply eq_bool_prop_intro. rewrite orb_True, !bool_decide_spec.
    rewrite elem_of_app, list_elem_of_singleton. tauto.
Qed.

Lemma hasClass_arrow c h s : hasClass c (with_class "arrow" (html h) s) = hasClass c s.
Proof. unfold with_class. by destruct (hasClass "arrow" s). Qed.

(** What closing and opening a row does to its icons. *)
Lemma closed_icon c s :
  hasClass c (with_class "iconfopen" (addClass "iconfclosed" ∘ removeClass ["iconfopen"%string]) s) =
    if decide (c = "iconfopen"%string) then false
    else hasClass c s || hasClass "iconfopen" s && bool_decide (c = "iconfclosed"%string).
Proof.
  unfold with_class. destruct (hasClass "iconfopen" s) eqn:Ho; cbn [compose].
  - unfold compose. rewrite hasClass_addClass, hasClass_removeClass.
    case_decide as Hc; [by subst; rewrite Ho |].
    rewrite (bool_decide_eq_true_2 (c ∉ _)), andb_true_r; [done |].
    by rewrite list_elem_of_singleton.
  - case_decide as Hc; [by subst | by rewrite orb_false_r].
Qed.

Lemma opened_icon c s :
  hasClass c (with_class "iconfclosed" (addClass "iconfopen" ∘ removeClass ["iconfclosed"%string]) s) =
    if decide (c = "iconfclosed"%string) then false
    else hasClass c s || hasClass "iconfclosed" s && bool_decide (c = "iconfopen"%string).
Proof.
  unfold with_class. destruct (hasClass "iconfclosed" s) eqn:Ho; cbn [compose].
  - unfold compose. rewrite hasClass_addClass, hasClass_removeClass.
    case_decide as Hc; [by subst; rewrite Ho |].
    rewrite (bool_decide_eq_true_2 (c ∉ _)), andb_true_r; [done |].
    by rewrite list_elem_of_singleton.
  - case_decide as Hc; [by subst | by rewrite orb_false_r].
Qed.

Lemma opened_close r : opened (close_row r) = false.
Proof.
  unfold opened, close_row, set_spans. cbn. rewrite !existsb_fmap.
  induction (r_spans r) as [| s l IH]; [done |]. cbn [existsb]. unfold compose in *.
  by rewrite hasClass_arrow, closed_icon, decide_True, IH.
Qed.

Lemma opened_open r : opened (open_row r) = has_icon r.
Proof.
  unfold opened, has_icon, open_row, set_spans. cbn. rewrite !existsb_fmap. apply existsb_ext_in.
  intros s. unfold compose. cbv beta. rewrite hasClass_arrow, opened_icon, decide_False by done.
  by rewrite bool_decide_eq_true_2, andb_true_r.
Qed.

Lemma has_icon_close r : has_icon (close_row r) = has_icon r.
Proof.
  unfold has_icon, close_row, set_spans. cbn. rewrite !existsb_fmap. apply existsb_ext_in.
  intros s. unfold compose. cbv beta. rewrite !hasClass_arrow, !closed_icon, decide_True, decide_False by done.
  rewrite bool_decide_eq_true_2, andb_true_r by done.
  by destruct (hasClass "iconfopen" s), (hasClass "iconfclosed" s).
Qed.

Lemma has_icon_open r : has_icon (open_row r) = has_icon r.
Proof.
  unfold has_icon, open_row, set_spans. cbn. rewrite !existsb_fmap. apply existsb_ext_in.
  intros s. unfold compose. cbv beta. rewrite !hasClass_arrow, !opened_icon, decide_False, decide_True by done.
  rewrite bool_decide_eq_true_2, andb_true_r by done.
  by destruct (hasClass "iconfopen" s), (hasClass "iconfclosed" s).
Qed.

(** ** Stripes *)
Definition row_kept (r r' : row) : Prop :=
  r_id r' = r_id r ∧ r_spans r' = r_spans r ∧ r_visible r' = r_visible r.

Lemma stripe_kept k rows : Forall2 row_kept rows (stripe k rows).
Proof.
  revert k. induction rows as [| r rows IH]; intros k; [constructor |]. cbn.
  destruct (r_visible r); by constructor.
Qed.

Lemma stripe_even k rows i r :
  stripe k rows !! i = Some r →
  r_even r = r_visible r && Nat.even (k + length (filter (λ r, r_visible r = true) (take i (stripe k rows)))).
Proof.
  revert k i. induction rows as [| x rows IH]; intros k i; [done |]. cbn [stripe].
  destruct (r_visible x) eqn:Hx; destruct i as [| i]; cbn [take].
  - intros [= <-]. cbn. by rewrite Hx, Nat.add_0_r.
  - cbn [lookup list_lookup]. intros Hi. rewrite (IH _ _ Hi). rewrite filter_cons, decide_True by done.
    cbn [length]. by rewrite Nat.add_succ_r.
  - intros [= <-]. cbn. by rewrite Hx.
  - cbn [lookup list_lookup]. intros Hi. rewrite (IH _ _ Hi). rewrite filter_cons, decide_False; [done |].
    cbn. by rewrite Hx.
Qed.

Lemma updateStripes_striped rows : striped (updateStripes rows).
Proof. intros i r Hi. by rewrite (stripe_even 0 rows i r Hi). Qed.

Lemma updateStripes_lookup rows i r' :
  updateStripes rows !! i = Some r' → ∃ r, rows !! i = Some r ∧ row_kept r r'.
Proof. intros Hi. destruct (Forall2_lookup_r _ _ _ _ _ (stripe_kept 0 rows) Hi) as (r & ? & ?). by exists r. Qed.

(** ** toggleFolder *)
Definition child_of (p q : path) : Prop := q ≠ [] ∧ removelast q = p.
#[export] Instance child_of_dec p q : Decision (child_of p q).
Proof. unfold child_of. apply _. Defined.

Lemma child_of_iff p q : child_of p q ↔ ∃ n, q = p ++ [n].
Proof.
  split.
  - intros [Hq <-]. exists (List.last q 0%nat). by apply app_removelast_last.
  - intros [n ->]. split; [by destruct p |]. by rewrite removelast_last.
Qed.

(** The row [r] at [j], of the path [q], after the folder [p] at [k] was
    closed, and after it was opened. *)
Definition closed_at (k : nat) (p : path) (j : nat) (q : path) (r : row) : row :=
  if decide (j = k) then close_row r
  else if decide (k < j ∧ p `prefix_of` q)%nat then set_visible false r else r.
Definition opened_at (k : nat) (p : path) (j : nat) (q : path) (r : row) : row :=
  if decide (j = k) then open_row r
  else if decide (k < j ∧ child_of p q)%nat then set_visible true (close_row r) else r.

Section Toggle.
Context (paths : list path) (rows : list row).
Hypothesis Htable : table paths rows.

Lemma table_row j q r : paths !! j = Some q → rows !! j = Some r → r_id r = row_id q.
Proof.
  intros Hq Hr. pose proof (table_ids _ _ Htable) as E. apply (f_equal (lookup j)) in E.
  rewrite !list_lookup_fmap, Hq, Hr in E. by injection E.
Qed.

Lemma table_path j r : rows !! j = Some r → ∃ q, paths !! j = Some q.
Proof.
  intros Hr. pose proof (table_ids _ _ Htable) as E. apply (f_equal (lookup j)) in E.
  rewrite !list_lookup_fmap, Hr in E. destruct (paths !! j) as [q |]; [by exists q | done].
Qed.

Lemma table_find k p r :
  paths !! k = Some p → rows !! k = Some r →
  list_find (λ r, r_id r = js "row_" ++ folder_id p) rows = Some (k, r).
Proof.
  intros Hp Hr. apply list_find_Some. split; [done |]. split; [by apply (table_row k) |].
  intros j y Hy Hj E. destruct (table_path _ _ Hy) as [q Hq].
  rewrite (table_row _ _ _ Hq Hy) in E. apply row_id_inj in E as ->.
  pose proof (NoDup_lookup _ _ _ _ (table_nodup _ _ Htable) Hq Hp). lia.
Qed.

(** The children of a folder come after it. *)
Lemma child_after k j p n : paths !! k = Some p → paths !! j = Some (p ++ [n]) → (k < j)%nat.
Proof.
  intros Hp Hq. pose proof (table_order _ _ Htable _ _ _ _ Hp Hq) as Hle.
  assert (k ≠ j) as Hne; [| specialize (Hle (ltac:(by eexists))); lia].
  intros ->. rewrite Hp in Hq. injection Hq as E. apply (f_equal length) in E. rewrite length_app in E. cbn in E. lia.
Qed.

(** The test of the first child, where the children are shown alike. *)
Lemma first_child k p (b : bool) :
  paths !! k = Some p →
  (∀ j n c, paths !! j = Some (p ++ [n]) → rows !! j = Some c → r_visible c = b) →
  match filter (λ r, child_pattern (folder_id p) (r_id r) = true) (drop (S k) rows) with
  | mkRow _ _ _ true :: _ => b = true
  | _ => b = false ∨ ∀ j n, paths !! j ≠ Some (p ++ [n])
  end.
Proof.
  intros Hp Hc. destruct (filter _ _) as [| c l] eqn:Hf.
  - right. intros j n Hq. pose proof (child_after _ _ _ _ Hp Hq) as Hkj.
    assert (∃ r, rows !! j = Some r) as [r Hr].
    { pose proof (table_ids _ _ Htable) as E. apply (f_equal (lookup j)) in E.
      rewrite !list_lookup_fmap, Hq in E. destruct (rows !! j) as [r |]; [by exists r | done]. }
    assert (r ∈ filter (λ r, child_pattern (folder_id p) (r_id r) = true) (drop (S k) rows)) as Hin.
    { apply list_elem_of_filter. rewrite (table_row _ _ _ Hq Hr). split; [by apply child_pattern_iff; exists n |].
      apply (list_elem_of_lookup_2 _ (j - S k)). rewrite lookup_drop. rewrite <- Hr. f_equal. lia. }
    rewrite Hf in Hin. by apply elem_of_nil in Hin.
  - assert (c ∈ c :: l) as Hin by left. rewrite <- Hf in Hin.
    apply list_elem_of_filter in Hin as [Hpat Hin]. apply list_elem_of_lookup in Hin as [i Hi].
    rewrite lookup_drop in Hi. destruct (table_path _ _ Hi) as [q Hq].
    rewrite (table_row _ _ _ Hq Hi) in Hpat. apply child_pattern_iff in Hpat as [n ->].
    specialize (Hc _ _ _ Hq Hi). destruct c as [? ? ? []]; cbn in Hc; [done | by left].
Qed.

(** The rows a toggle of a shown folder leaves. *)
Lemma toggleFolder_rows k p r :
  paths !! k = Some p → rows !! k = Some r → r_visible r = true → tree_shown paths rows →
  ∃ f, (f = closed_at ∧ opened r = true ∨
        f = opened_at ∧ (opened r = false ∨ ∀ j n, paths !! j ≠ Some (p ++ [n]))) ∧
    ∃ rows1, toggleFolder (folder_id p) rows = updateStripes rows1 ∧ length rows1 = length rows ∧
      ∀ j q, paths !! j = Some q → rows1 !! j = f k p j q <$> rows !! j.
Proof.
  intros Hp Hr Hv Hshown. unfold toggleFolder. rewrite (table_find k p r Hp Hr).
  assert (∀ j n c, paths !! j = Some (p ++ [n]) → rows !! j = Some c → r_visible c = opened r) as Hchild.
  { intros j n c Hq Hc. by rewrite (Hshown k j p n r c Hp Hq Hr Hc), Hv. }
  pose proof (first_child k p (opened r) Hp Hchild) as Hfirst. cbv zeta.
  assert (∀ (F G : row → row) f, (∀ j q x, paths !! j = Some q → rows !! j = Some x →
      f k p j q x = (if decide (j < k)%nat then id else if decide (j = k) then F else G) x) →
    ∀ j q, paths !! j = Some q →
      (take k rows ++ F r :: (G <$> drop (S k) rows)) !! j = f k p j q <$> rows !! j) as Hsplice.
  { intros F G f Hf j q Hq. rewrite (splice_lookup F G _ _ _ _ Hr).
    destruct (rows !! j) as [x |] eqn:Hx; [| done]. cbn. f_equal. symmetry. by apply Hf. }
  assert (∀ j q x, paths !! j = Some q → rows !! j = Some x → opened_at k p j q x =
    (if decide (j < k)%nat then id else if decide (j = k) then open_row else show_child (folder_id p)) x) as Ho.
  { intros j q x Hq Hx. unfold opened_at.
    destruct (decide (j < k)%nat), (decide (j = k)); try lia; [| done |].
    - rewrite decide_False; [done | lia].
    - unfold show_child. rewrite (table_row _ _ _ Hq Hx).
      destruct (child_pattern (folder_id p) (row_id q)) eqn:Hc.
      + apply child_pattern_iff in Hc as [m ->]. rewrite decide_True; [done |].
        split; [lia |]. apply child_of_iff. by exists m.
      + rewrite decide_False; [done |]. intros (_ & [m ->]%child_of_iff).
        by rewrite (proj2 (child_pattern_iff p (p ++ [m]))) in Hc by (by exists m). }
  assert (∀ j q x, paths !! j = Some q → rows !! j = Some x → closed_at k p j q x =
    (if decide (j < k)%nat then id else if decide (j = k) then close_row else hide_below (folder_id p)) x) as Hcl.
  { intros j q x Hq Hx. unfold closed_at.
    destruct (decide (j < k)%nat), (decide (j = k)); try lia; [| done |].
    - rewrite decide_False; [done | lia].
    - unfold hide_below. rewrite (table_row _ _ _ Hq Hx).
      destruct (decide (k < j ∧ p `prefix_of` q)%nat) as [[_ Hpre] | Hn].
      + by rewrite decide_True by (by apply row_id_prefix).
      + rewrite decide_False; [done |]. rewrite row_id_prefix. intros ?. apply Hn. split; [lia | done]. }
  assert (∀ (F G : row → row), length (take k rows ++ F r :: (G <$> drop (S k) rows)) = length rows) as Hlen.
  { intros F G. apply lookup_lt_Some in Hr. rewrite length_app, length_take. cbn.
    rewrite length_fmap, length_drop. lia. }
  destruct (filter _ _) as [| [? ? ? []] l].
  - exists opened_at. split; [by right |]. eexists. split_and!; [done | apply Hlen | by apply Hsplice].
  - exists closed_at. split; [by left |]. eexists. split_and!; [done | apply Hlen | by apply Hsplice].
  - exists opened_at. split; [by right |]. eexists. split_and!; [done | apply Hlen | by apply Hsplice].
Qed.
End Toggle.

(** The tree after a toggle, from what it does to the rows. *)
Section Result.
Context (paths : list path) (rows rows' : list row) (k : nat) (p : path) (r : row).
Hypothesis Htable : table paths rows.
Hypothesis Hshown : tree_shown paths rows.
Hypothesis Hp : paths !! k = Some p.
Hypothesis Hr : rows !! k = Some r.
Hypothesis Hv : r_visible r = true.

Definition changed_by (f : nat → path → row → row) : Prop :=
  ∀ j q x', paths !! j = Some q → rows' !! j = Some x' →
    ∃ x, rows !! j = Some x ∧ row_kept (f j q x) x'.

Lemma same_path j : paths !! j = Some p → j = k.
Proof. intros Hj. by apply (NoDup_lookup _ _ _ _ (table_nodup _ _ Htable) Hj Hp). Qed.

Lemma kept_opened x x' : row_kept x x' → opened x' = opened x ∧ r_visible x' = r_visible x ∧ has_icon x' = has_icon x.
Proof. intros (_ & Hs & Hvis). unfold opened, has_icon. by rewrite Hs. Qed.

Lemma closed_tree : opened r = true → changed_by (closed_at k p) → tree_shown paths rows'.
Proof.
  intros Ho Hch i j q n a' c' Hi Hj Ha Hc.
  destruct (Hch _ _ _ Hi Ha) as (a & Ea & Ka). destruct (Hch _ _ _ Hj Hc) as (c & Ec & Kc).
  destruct (kept_opened _ _ Ka) as (-> & -> & _), (kept_opened _ _ Kc) as (_ & -> & _). clear Ka Kc.
  pose proof (Hshown i j q n a c Hi Hj Ea Ec) as Hac. unfold closed_at.
  destruct (decide (i = k)) as [-> | Hik].
  - rewrite Hp in Hi. injection Hi as <-. pose proof (child_after _ _ Htable _ _ _ _ Hp Hj) as Hlt.
    rewrite (decide_False (P := j = k)) by lia. rewrite decide_True by (split; [done | by eexists]).
    by rewrite opened_close, andb_false_r.
  - destruct (decide (k < i ∧ p `prefix_of` q)%nat) as [[Hlt Hpre] | Hn].
    + pose proof (child_after _ _ Htable _ _ _ _ Hi Hj) as Hij.
      rewrite (decide_False (P := j = k)) by lia.
      rewrite decide_True by (split; [lia | by apply prefix_app_r]). done.
    + assert (r_visible (if decide (j = k) then close_row c else
        if decide (k < j ∧ p `prefix_of` (q ++ [n]))%nat then set_visible false c else c) = r_visible c) as ->; [| done].
      destruct (decide (j = k)) as [-> | Hjk]; [done |].
      rewrite decide_False; [done |]. intros [Hlt Hpre]. apply Hn.
      assert (p `prefix_of` q) as Hq.
      { apply prefix_snoc_inv in Hpre as [? | E]; [done |].
        destruct Hjk. apply same_path. by rewrite E. }
      split; [| done]. pose proof (table_order _ _ Htable _ _ _ _ Hp Hi Hq). lia.
Qed.

Lemma opened_tree :
  opened r = false ∨ (∀ j n, paths !! j ≠ Some (p ++ [n])) →
  changed_by (opened_at k p) → tree_shown paths rows'.
Proof.
  intros Ho Hch i j q n a' c' Hi Hj Ha Hc.
  destruct (Hch _ _ _ Hi Ha) as (a & Ea & Ka). destruct (Hch _ _ _ Hj Hc) as (c & Ec & Kc).
  destruct (kept_opened _ _ Ka) as (-> & -> & _), (kept_opened _ _ Kc) as (_ & -> & _). clear Ka Kc.
  pose proof (Hshown i j q n a c Hi Hj Ea Ec) as Hac. unfold opened_at.
  destruct (decide (i = k)) as [-> | Hik].
  - rewrite Hp in Hi. injection Hi as <-. pose proof (child_after _ _ Htable _ _ _ _ Hp Hj) as Hlt.
    rewrite (decide_False (P := j = k)) by lia.
    rewrite decide_True by (split; [done | apply child_of_iff; by exists n]).
    rewrite opened_open. rewrite (table_parent _ _ Htable _ _ _ _ _ Hp Hj Ea).
    rewrite Ea in Hr. injection Hr as <-. cbn. by rewrite Hv.
  - destruct (decide (k < i ∧ child_of p q)%nat) as [[Hlt Hq] | Hn].
    + pose proof (child_after _ _ Htable _ _ _ _ Hi Hj) as Hij.
      apply child_of_iff in Hq as [m ->].
      rewrite (decide_False (P := j = k)) by lia. rewrite decide_False.
      2: { rewrite child_of_iff. intros [_ [m' E]]. apply (f_equal length) in E.
           rewrite !length_app in E. cbn in E. lia. }
      replace (opened (set_visible true (close_row a))) with (opened (close_row a)) by done.
      rewrite opened_close, andb_false_r, Hac.
      destruct Ho as [Ho | Ho]; [| by destruct (Ho i m)].
      by rewrite (Hshown k i p m r a Hp Hi Hr Ea), Ho, andb_false_r.
    + assert (r_visible (if decide (j = k) then open_row c else
        if decide (k < j ∧ child_of p (q ++ [n]))%nat then set_visible true (close_row c) else c) = r_visible c) as ->; [| done].
      destruct (decide (j = k)) as [-> | Hjk]; [done |].
      rewrite decide_False; [done |]. intros [Hlt [m E]%child_of_iff].
      apply app_inj_tail in E as [E _]. destruct Hik. apply same_path. by rewrite <- E.
Qed.
End Result.

Lemma updateStripes_changed paths rows rows1 f :
  (∀ j q, paths !! j = Some q → rows1 !! j = f j q <$> rows !! j) →
  changed_by paths rows (updateStripes rows1) f.
Proof.
  intros Hrows j q x' Hq Hx'. destruct (updateStripes_lookup _ _ _ Hx') as (x1 & Hx1 & Hk).
  rewrite (Hrows _ _ Hq) in Hx1. destruct (rows !! j) as [x |]; [| done].
  injection Hx1 as <-. by exists x.
Qed.

Lemma updateStripes_ids rows : r_id <$> updateStripes rows = r_id <$> rows.
Proof.
  unfold updateStripes. induction (stripe_kept 0 rows) as [| x x' l l' (Hid & _) _ IH]; [done |].
  cbn. by rewrite Hid, IH.
Qed.

(** A change that keeps ids and icons keeps the table. *)
Lemma table_changed paths rows rows1 f :
  table paths rows → length rows1 = length rows → (∀ j q, paths !! j = Some q → rows1 !! j = f j q <$> rows !! j) →
  (∀ j q x, rows !! j = Some x → r_id (f j q x) = r_id x ∧ (has_icon x = true → has_icon (f j q x) = true)) →
  table paths (updateStripes rows1).
Proof.
  intros Ht Hlen Hrows Hf. pose proof (updateStripes_changed _ _ _ _ Hrows) as Hch.
  constructor; [| apply Ht | apply Ht |].
  - pose proof (table_ids _ _ Ht) as Hids. rewrite updateStripes_ids, <- Hids. apply list_eq. intros j.
    rewrite !list_lookup_fmap. destruct (paths !! j) as [q |] eqn:Hq.
    + rewrite (Hrows _ _ Hq). destruct (rows !! j) as [x |] eqn:Hx; [| done]. cbn. f_equal. by apply (Hf j q x).
    + apply (f_equal length) in Hids as Hl. rewrite !length_fmap in Hl.
      apply lookup_ge_None in Hq. by rewrite !lookup_ge_None_2 by lia.
  - intros i j q n x' Hi Hj Hx'. destruct (Hch _ _ _ Hi Hx') as (x & Hx & Hk).
    destruct (kept_opened _ _ Hk) as (_ & _ & ->). apply (Hf i q x Hx).
    by apply (table_parent _ _ Ht i j q n).
Qed.

Lemma closed_at_keeps k p j q x : r_id (closed_at k p j q x) = r_id x ∧ has_icon (closed_at k p j q x) = has_icon x.
Proof. unfold closed_at. repeat case_decide; (split; [done |]); [apply has_icon_close | done | done]. Qed.

Lemma opened_at_keeps k p j q x : r_id (opened_at k p j q x) = r_id x ∧ has_icon (opened_at k p j q x) = has_icon x.
Proof.
  unfold opened_at. repeat case_decide; (split; [done |]); [apply has_icon_open | | done].
  apply (has_icon_close x).
Qed.

(** C20: toggleFolder keeps a directory table a tree: in a table whose rows are
    named by their paths, a folder before its content, and where a row is shown
    exactly when its folder is shown and open, a click on a folder that is shown
    leaves such a table; every row directly in the folder is shown if it was not
    and hidden if it was; a row that is not below the folder is shown as before,
    and its icons are kept unless it is the folder; and every other row of those
    shown is striped. *)
Theorem toggleFolder_tree paths rows k p r :
  table paths rows → tree_shown paths rows →
  paths !! k = Some p → rows !! k = Some r → r_visible r = true →
  let rows' := toggleFolder (folder_id p) rows in
  table paths rows' ∧ tree_shown paths rows' ∧ striped rows' ∧
  (∀ j n c c', paths !! j = Some (p ++ [n]) → rows !! j = Some c → rows' !! j = Some c' →
    r_visible c' = negb (r_visible c)) ∧
  (∀ j q c c', paths !! j = Some q → rows !! j = Some c → rows' !! j = Some c' →
    (¬ p `prefix_of` q → r_visible c' = r_visible c ∧ r_spans c' = r_spans c) ∧
    (q = p → r_visible c' = true)).
Proof.
  intros Ht Hshown Hp Hr Hv rows'.
  destruct (toggleFolder_rows _ _ Ht k p r Hp Hr Hv Hshown) as (f & Hf & rows1 & Heq & Hlen & Hrows).
  assert (changed_by paths rows rows' (f k p)) as Hch.
  { unfold rows'. rewrite Heq. by apply updateStripes_changed. }
  assert (table paths rows' ∧ tree_shown paths rows') as [Ht' Hshown'].
  { unfold rows' at 1. rewrite Heq. split.
    - apply (table_changed paths rows rows1 (f k p)); [done.. |].
      destruct Hf as [[-> _] | [-> _]]; intros j q x _;
        [destruct (closed_at_keeps k p j q x) as [? ->] | destruct (opened_at_keeps k p j q x) as [? ->]]; done.
    - destruct Hf as [[-> Ho] | [-> Ho]].
      + by apply (closed_tree paths rows rows' k p r).
      + by apply (opened_tree paths rows rows' k p r). }
  split; [done |]. split; [done |]. split; [unfold rows'; rewrite Heq; apply updateStripes_striped |]. split.
  - intros j n c c' Hj Hc Hc'. destruct (Hch _ _ _ Hj Hc') as (x & Hx & Hk). rewrite Hc in Hx. injection Hx as <-.
    destruct (kept_opened _ _ Hk) as (_ & -> & _). rewrite (Hshown k j p n r c Hp Hj Hr Hc), Hv.
    pose proof (child_after _ _ Ht _ _ _ _ Hp Hj) as Hlt.
    destruct Hf as [[-> Ho] | [-> Ho]]; unfold closed_at, opened_at; rewrite (decide_False (P := j = k)) by lia.
    + rewrite decide_True by (split; [done | by eexists]). by rewrite Ho.
    + rewrite decide_True by (split; [done | apply child_of_iff; by exists n]).
      destruct Ho as [-> | Ho]; [done | by destruct (Ho j n)].
  - intros j q c c' Hj Hc Hc'. destruct (Hch _ _ _ Hj Hc') as (x & Hx & Hk). rewrite Hc in Hx. injection Hx as <-.
    destruct Hk as (_ & -> & ->). split.
    + intros Hq. assert (j ≠ k) as Hne by (intros ->; rewrite Hp in Hj; by injection Hj as ->).
      destruct Hf as [[-> _] | [-> _]]; unfold closed_at, opened_at; rewrite (decide_False (P := j = k)) by done.
      * by rewrite decide_False by (by intros [_ ?]).
      * rewrite decide_False; [done |]. intros [_ [n ->]%child_of_iff]. apply Hq. by eexists.
    + intros ->. pose proof (same_path _ _ _ _ Ht Hp j Hj) as ->.
      destruct Hf as [[-> _] | [-> _]]; unfold closed_at, opened_at; rewrite decide_True by done;
        rewrite Hr in Hc; by injection Hc as <-.
Qed.

(** A folder src with a file in it, and a file. *)
Definition icon_span (p : path) (c : string) : span := mkSpan (js "img_" ++ folder_id p) [c] EmptyString.
Definition example_paths : list path := [[0]; [0; 0]; [1]]%nat.
Definition example_rows : list row :=
  [mkRow (row_id [0%nat]) [icon_span [0%nat] "iconfclosed"] true true;
   mkRow (row_id [0; 0]%nat) [] false false;
   mkRow (row_id [1%nat]) [] false true].

Lemma example_table : table example_paths example_rows.
Proof.
  constructor; [done | by apply (bool_decide_unpack _) | |].
  - intros [| [| [| i]]] [| [| [| j]]] p q; cbn; intros [= <-] [= <-] Hp; try lia;
      exfalso; revert Hp; by apply (bool_decide_unpack _).
  - intros [| [| [| i]]] [| [| [| j]]] p n r; cbn; intros [= <-] [= E] [= <-]; done.
Qed.

Lemma example_shown : tree_shown example_paths example_rows.
Proof.
  intros [| [| [| i]]] [| [| [| j]]] p n r c; cbn; intros [= <-] [= E] [= <-] [= <-]; done.
Qed.

Lemma toggleFolder_tree_witness :
  let rows' := toggleFolder (js "0_") example_rows in
  table example_paths rows' ∧ tree_shown example_paths rows' ∧ striped rows' ∧
  (∀ j n c c', example_paths !! j = Some ([0%nat] ++ [n]) → example_rows !! j = Some c →
    rows' !! j = Some c' → r_visible c' = negb (r_visible c)) ∧
  (∀ j q c c', example_paths !! j = Some q → example_rows !! j = Some c → rows' !! j = Some c' →
    (¬ [0%nat] `prefix_of` q → r_visible c' = r_visible c ∧ r_spans c' = r_spans c) ∧
    (q = [0%nat] → r_visible c' = true)).
Proof.
  apply (toggleFolder_tree example_paths example_rows 0 [0%nat]
    (mkRow (row_id [0%nat]) [icon_span [0%nat] "iconfclosed"] true true)
    example_table example_shown); reflexivity.
Defined.
