(* ===== verification/Levels.v ===== *)
(** * The levels of a directory table

    [toggleLevel] opens the folders above a level and closes those of the
    level: what it does to each row, where the icons have the ids of their
    rows. *)
From S2P Require Import Prelude JsString SearchResults ResultsFacts Dynsections Folders.
Local Open Scope Z_scope.

(** ** A row by itself *)
Definition row_span (f : span → span) (i : jstr) (r : row) : row :=
  match first_span f i (r_spans r) with
  | Some spans => mkRow (r_id r) spans (r_even r) (r_visible r)
  | None => r
  end.

Definition img_id (r : row) : jstr := js "img" ++ drop 3 (r_id r).
Definition arr_id (r : row) : jstr := js "arr" ++ drop 3 (r_id r).

Definition leveled (icon arrow : string) (r : row) : row :=
  set_visible true (row_span (html arrow) (arr_id r) (row_span (set_icon icon) (img_id r) r)).

Definition level_one (level : Z) (r : row) : row :=
  let l := underscores (r_id r) in
  if decide (l < level + 1) then leveled "iconfopen" arrow_down r
  else if decide (l = level + 1) then leveled "iconfclosed" arrow_right r
  else set_visible false r.

(** The ids of icons and arrows are in the row they name. *)
Definition spans_named (rows : list row) : Prop :=
  ∀ k r j r' s, rows !! k = Some r → rows !! j = Some r' → s ∈ r_spans r' →
    s_id s = img_id r ∨ s_id s = arr_id r → j = k.

(** An icon of a folder has the id of its row, and no other span has it. *)
Definition icon_named (r : row) : Prop :=
  NoDup (filter (λ i, i = img_id r) (s_id <$> r_spans r)) ∧
  Forall (λ s, hasClass "iconfopen" s || hasClass "iconfclosed" s = true → s_id s = img_id r) (r_spans r).

Lemma first_span_none f i l : (∀ s, s ∈ l → s_id s ≠ i) → first_span f i l = None.
Proof.
  induction l as [| s l IH]; intros Hl; [done |]. cbn. rewrite decide_False by (apply Hl; left).
  rewrite IH; [done |]. intros x Hx. apply Hl. by right.
Qed.

(** The ids of the rows and their spans. *)
Definition same_ids (r r' : row) : Prop := r_id r' = r_id r ∧ s_id <$> r_spans r' = s_id <$> r_spans r.

Lemma row_span_ids f i r : (∀ s, s_id (f s) = s_id s) → same_ids r (row_span f i r).
Proof.
  intros Hf. unfold row_span. destruct (first_span f i (r_spans r)) as [l |] eqn:Hl; [| done].
  split; [done |]. cbn. revert l Hl. induction (r_spans r) as [| s spans IH]; intros l; cbn; [done |].
  case_decide; [intros [= <-]; cbn; by rewrite Hf |].
  destruct (first_span f i spans) as [l' |]; [| done]. intros [= <-]. cbn. by rewrite (IH l').
Qed.

Lemma set_icon_id c s : s_id (set_icon c s) = s_id s.
Proof. unfold set_icon, addClass. by case_match. Qed.

Lemma level_one_ids level r : same_ids r (level_one level r).
Proof.
  unfold level_one, leveled. assert (∀ icon arrow, same_ids r
    (row_span (html arrow) (arr_id r) (row_span (set_icon icon) (img_id r) r))) as Hrow.
  { intros icon arrow. destruct (row_span_ids (set_icon icon) (img_id r) r (set_icon_id icon)) as [H1 H2].
    destruct (row_span_ids (html arrow) (arr_id r) (row_span (set_icon icon) (img_id r) r)) as [H3 H4]; [done |].
    split; congruence. }
  repeat case_decide; first [apply Hrow | done].
Qed.

Lemma same_ids_named rows rows' :
  Forall2 same_ids rows rows' → spans_named rows → spans_named rows'.
Proof.
  intros Hall Hn k r j r' s Hk Hj Hs Hid.
  destruct (Forall2_lookup_r _ _ _ _ _ Hall Hk) as (r0 & Hk0 & [E _]).
  destruct (Forall2_lookup_r _ _ _ _ _ Hall Hj) as (r1 & Hj1 & [_ E1]).
  assert (s_id s ∈ s_id <$> r_spans r1) as Hin by (rewrite <- E1; by apply list_elem_of_fmap_2).
  apply list_elem_of_fmap in Hin as (s1 & E2 & Hs1).
  apply (Hn k r0 j r1 s1 Hk0 Hj1 Hs1). unfold img_id, arr_id in *. by rewrite <- E2, <- E.
Qed.

(** ** The loop *)
Lemma update_span_none f i rows :
  (∀ j r s, rows !! j = Some r → s ∈ r_spans r → s_id s ≠ i) → update_span f i rows = rows.
Proof.
  induction rows as [| r rows IH]; intros Hr; [done |]. cbn [update_span].
  rewrite first_span_none by (intros s; by apply (Hr 0%nat)).
  by rewrite IH by (intros j; apply (Hr (S j))).
Qed.

Lemma update_span_at f i rows k r :
  rows !! k = Some r → (∀ j r' s, rows !! j = Some r' → s ∈ r_spans r' → s_id s = i → j = k) →
  update_span f i rows = alter (row_span f i) k rows.
Proof.
  revert k. induction rows as [| r0 rows IH]; intros k Hk Hu; [done |]. cbn [update_span].
  destruct k as [| k].
  - cbn. unfold row_span. destruct (first_span f i (r_spans r0)); [done |]. f_equal.
    apply update_span_none. intros j r' s Hj Hs E. by specialize (Hu (S j) r' s Hj Hs E).
  - rewrite first_span_none by (intros s Hs E; by specialize (Hu 0%nat r0 s eq_refl Hs E)).
    cbn. f_equal. apply IH; [done |]. intros j r' s Hj Hs E.
    specialize (Hu (S j) r' s Hj Hs E). lia.
Qed.

Lemma alter_ids f k rows : (∀ r, same_ids r (f r)) → Forall2 same_ids rows (alter f k rows).
Proof.
  intros Hf. revert k. induction rows as [| r rows IH]; intros [| k]; constructor;
    [apply Hf | by apply Forall_Forall2_diag, Forall_forall | done | apply IH].
Qed.

Lemma alter_twice {A} (f g : A → A) (k : nat) (l : list A) : alter g k (alter f k l) = alter (λ x, g (f x)) k l.
Proof. revert k. induction l as [| x l IH]; intros [| k]; [done.. |]. cbn. f_equal. apply IH. Qed.

Lemma level_row_at level rows k r :
  spans_named rows → rows !! k = Some r → level_row level rows k = alter (level_one level) k rows.
Proof.
  intros Hn Hk. unfold level_row. rewrite Hk. fold (img_id r) (arr_id r).
  assert (∀ icon arrow, alter (set_visible true) k
    (update_span (html arrow) (arr_id r) (update_span (set_icon icon) (img_id r) rows)) =
    alter (leveled icon arrow) k rows) as Hlevel.
  { intros icon arrow. rewrite (update_span_at _ (img_id r) rows k r) by eauto.
    set (rows1 := alter _ k rows).
    assert (Forall2 same_ids rows rows1) as Hsame.
    { apply alter_ids. intros x. apply row_span_ids, set_icon_id. }
    assert (rows1 !! k = Some (row_span (set_icon icon) (img_id r) r)) as Hk1.
    { unfold rows1. by rewrite list_lookup_alter_eq, Hk. }
    rewrite (update_span_at _ (arr_id r) rows1 k _ Hk1).
    - unfold rows1. rewrite !alter_twice. apply list_alter_ext; [| done].
      intros x Hx. rewrite Hk in Hx. by injection Hx as <-.
    - intros j r' s Hj Hs E. apply (same_ids_named _ _ Hsame Hn k _ j r' s Hk1 Hj Hs). right.
      unfold arr_id in *. by destruct (row_span_ids (set_icon icon) (img_id r) r (set_icon_id icon)) as [-> _]. }
  unfold level_one. destruct (decide (underscores (r_id r) < level + 1)) as [H1 | H1];
    [| destruct (decide (underscores (r_id r) = level + 1)) as [H2 | H2]].
  - rewrite Hlevel. apply list_alter_ext; [| done]. intros x Hx. rewrite Hk in Hx. injection Hx as <-.
    cbv zeta. by rewrite decide_True.
  - rewrite Hlevel. apply list_alter_ext; [| done]. intros x Hx. rewrite Hk in Hx. injection Hx as <-.
    cbv zeta. by rewrite decide_False, decide_True.
  - apply list_alter_ext; [| done]. intros x Hx. rewrite Hk in Hx. injection Hx as <-.
    cbv zeta. by rewrite decide_False, decide_False.
Qed.

(** The whole loop changes each row by itself. *)
Lemma foldl_level level rows ks :
  spans_named rows → Forall (λ k, k < length rows)%nat ks →
  foldl (level_row level) rows ks = foldl (λ l k, alter (level_one level) k l) rows ks.
Proof.
  revert rows. induction ks as [| k ks IH]; intros rows Hn Hks; [done |]. cbn [foldl].
  apply Forall_cons in Hks as [Hk Hks]. destruct (lookup_lt_is_Some_2 _ _ Hk) as [r Hr].
  rewrite (level_row_at level rows k r Hn Hr). apply IH.
  - eapply same_ids_named; [apply alter_ids, level_one_ids | done].
  - by rewrite length_alter.
Qed.

Lemma foldl_alter {A} (f : A → A) l1 l2 :
  foldl (λ l k, alter f k l) (l1 ++ l2) (seq (length l1) (length l2)) = l1 ++ (f <$> l2).
Proof.
  revert l1. induction l2 as [| x l2 IH]; intros l1; [done |]. cbn [length seq foldl].
  assert (alter f (length l1) (l1 ++ x :: l2) = (l1 ++ [f x]) ++ l2) as ->.
  { clear. induction l1 as [| y l1 IH]; [done |]. cbn. f_equal. exact IH. }
  replace (S (length l1)) with (length (l1 ++ [f x])) by (rewrite length_app; cbn; lia).
  rewrite IH. by rewrite <- (assoc_L (++)).
Qed.

Lemma toggleLevel_rows level rows :
  spans_named rows → toggleLevel level rows = updateStripes (level_one level <$> rows).
Proof.
  intros Hn. unfold toggleLevel. rewrite foldl_level; [| done |].
  - f_equal. exact (foldl_alter (level_one level) [] rows).
  - apply Forall_forall. intros k Hk. apply elem_of_seq in Hk. lia.
Qed.

(** ** The icon of a row *)
Lemma set_icon_class c d s :
  d = "iconfopen"%string ∨ d = "iconfclosed"%string →
  hasClass d (set_icon c s) = bool_decide (d = c).
Proof.
  intros Hd. unfold set_icon. rewrite hasClass_addClass, hasClass_removeClass.
  rewrite (bool_decide_eq_false_2 (d ∉ _)), andb_false_r; [done |].
  intros Hn. apply Hn. destruct Hd as [-> | ->]; [left | right; left].
Qed.

Lemma existsb_row_span (f : span → bool) i h r :
  (∀ s, f (html h s) = f s) → existsb f (r_spans (row_span (html h) i r)) = existsb f (r_spans r).
Proof.
  intros Hf. unfold row_span. destruct (first_span _ i (r_spans r)) as [l |] eqn:Hl; [| done]. cbn.
  revert l Hl. induction (r_spans r) as [| s spans IH]; intros l; cbn; [done |].
  case_decide; [intros [= <-]; cbn; by rewrite Hf |].
  destruct (first_span _ i spans) as [l' |]; [| done]. intros [= <-]. cbn. by rewrite (IH l').
Qed.

(** With the icon that has the id of the row replaced, no other is left. *)
Lemma icon_spans (icon : string) i l :
  icon = "iconfopen"%string ∨ icon = "iconfclosed"%string →
  NoDup (filter (λ x, x = i) (s_id <$> l)) →
  Forall (λ s, hasClass "iconfopen" s || hasClass "iconfclosed" s = true → s_id s = i) l →
  existsb (λ s, hasClass "iconfopen" s || hasClass "iconfclosed" s) l = true →
  ∃ l', first_span (set_icon icon) i l = Some l' ∧
    existsb (hasClass "iconfopen") l' = bool_decide (icon = "iconfopen"%string) ∧
    existsb (λ s, hasClass "iconfopen" s || hasClass "iconfclosed" s) l' = true.
Proof.
  intros Hicon. induction l as [| s l IH]; [done |]. intros Hnd Hids He.
  apply Forall_cons in Hids as [Hs Hids]. cbn [first_span].
  rewrite fmap_cons, filter_cons in Hnd. destruct (decide (s_id s = i)) as [E | E].
  - eexists. split; [done |]. apply NoDup_cons in Hnd as [Hnd _].
    assert (Forall (λ x, hasClass "iconfopen" x || hasClass "iconfclosed" x = false) l) as Hrest.
    { apply Forall_forall. intros x Hx. rewrite Forall_forall in Hids. apply not_true_iff_false. intros Hc.
      apply Hnd. apply list_elem_of_filter. split; [done |].
      rewrite E, <- (Hids x Hx Hc). by apply list_elem_of_fmap_2. }
    cbn [existsb]. rewrite !set_icon_class by auto.
    assert (existsb (hasClass "iconfopen") l = false) as ->.
    { clear -Hrest. induction Hrest as [| x l Hx _ IH]; [done |]. cbn.
      apply orb_false_iff in Hx as [-> _]. exact IH. }
    by destruct Hicon as [-> | ->].
  - cbn [existsb] in He. destruct (hasClass "iconfopen" s || hasClass "iconfclosed" s) eqn:Hc.
    { by destruct (E (Hs eq_refl)). }
    destruct (IH Hnd Hids He) as (l' & -> & H1 & H2). eexists. split; [done |]. cbn [existsb].
    apply orb_false_iff in Hc as [-> ->]. split; [exact H1 | exact H2].
Qed.

Lemma leveled_icon icon arrow r :
  icon = "iconfopen"%string ∨ icon = "iconfclosed"%string → icon_named r → has_icon r = true →
  opened (leveled icon arrow r) = bool_decide (icon = "iconfopen"%string) ∧
  has_icon (leveled icon arrow r) = true.
Proof.
  intros Hicon [Hnd Hids] Hr.
  destruct (icon_spans icon (img_id r) (r_spans r) Hicon Hnd Hids Hr) as (l & Hl & H1 & H2).
  unfold opened, has_icon, leveled. cbn [set_visible r_spans].
  rewrite !existsb_row_span by done. unfold row_span. rewrite Hl. done.
Qed.

(** ** A row after the loop *)
Lemma level_one_icon level r :
  icon_named r → has_icon r = true → has_icon (level_one level r) = true.
Proof.
  intros Hn Hi. unfold level_one. cbv zeta. repeat case_decide; [| | done].
  - apply leveled_icon; auto.
  - apply leveled_icon; auto.
Qed.

Lemma level_one_shown level r q :
  r_id r = row_id q → (has_icon r = true → icon_named r) →
  r_visible (level_one level r) = bool_decide (Z.of_nat (length q) ≤ level) ∧
  (has_icon r = true → Z.of_nat (length q) ≤ level →
    opened (level_one level r) = bool_decide (Z.of_nat (length q) < level)).
Proof.
  intros Hid Hn. unfold level_one. cbv zeta. rewrite Hid, underscores_row.
  destruct (decide (1 + Z.of_nat (length q) < level + 1)) as [H1 | H1];
    [| destruct (decide (1 + Z.of_nat (length q) = level + 1)) as [H2 | H2]].
  - split; [symmetry; apply bool_decide_eq_true; lia |]. intros Hi _.
    destruct (leveled_icon "iconfopen" arrow_down r) as [-> _]; [by left | by apply Hn | done |].
    symmetry. rewrite (bool_decide_eq_true_2 (_ = _)) by done. apply bool_decide_eq_true. lia.
  - split; [symmetry; apply bool_decide_eq_true; lia |]. intros Hi _.
    destruct (leveled_icon "iconfclosed" arrow_right r) as [-> _]; [by right | by apply Hn | done |].
    symmetry. rewrite (bool_decide_eq_false_2 (_ = _)) by done. apply bool_decide_eq_false. lia.
  - split; [symmetry; apply bool_decide_eq_false; lia |]. lia.
Qed.

(** C21: toggleLevel shows a directory table to a level: in a table whose rows
    are named by their paths and whose icons and arrows by their rows, after it
    the rows down to the level are shown and no others, the folders above the
    level are open and those of the level closed, so that again a row is shown
    exactly when its folder is shown and open, and every other row of those
    shown is striped. *)
Theorem toggleLevel_tree paths rows level :
  table paths rows → spans_named rows →
  (∀ i r, rows !! i = Some r → has_icon r = true → icon_named r) →
  let rows' := toggleLevel level rows in
  table paths rows' ∧ tree_shown paths rows' ∧ striped rows' ∧
  ∀ j q r r', paths !! j = Some q → rows !! j = Some r → rows' !! j = Some r' →
    r_visible r' = bool_decide (Z.of_nat (length q) ≤ level) ∧
    (has_icon r = true → Z.of_nat (length q) ≤ level →
      opened r' = bool_decide (Z.of_nat (length q) < level)).
Proof.
  intros Ht Hn Hicons rows'.
  assert (∀ j q, paths !! j = Some q →
    (level_one level <$> rows) !! j = (λ (_ : nat) (_ : path), level_one level) j q <$> rows !! j) as Hrows
    by (intros; apply list_lookup_fmap).
  assert (changed_by paths rows rows' (λ _ _, level_one level)) as Hch.
  { unfold rows'. rewrite toggleLevel_rows by done. by apply updateStripes_changed. }
  assert (∀ j q r r', paths !! j = Some q → rows !! j = Some r → rows' !! j = Some r' →
    r_visible r' = bool_decide (Z.of_nat (length q) ≤ level) ∧
    (has_icon r = true → Z.of_nat (length q) ≤ level →
      opened r' = bool_decide (Z.of_nat (length q) < level))) as Hpoint.
  { intros j q r r' Hq Hr Hr'. destruct (Hch _ _ _ Hq Hr') as (x & Hx & Hk).
    rewrite Hr in Hx. injection Hx as <-. destruct (kept_opened _ _ Hk) as (-> & -> & _).
    apply (level_one_shown level r q (table_row _ _ Ht _ _ _ Hq Hr)). by apply (Hicons j). }
  split; [| split; [| split]].
  - unfold rows'. rewrite toggleLevel_rows by done.
    apply (table_changed paths rows _ (λ _ _, level_one level)); [done | by rewrite length_fmap | done |].
    intros j q x Hx. split; [by apply level_one_ids |]. intros Hi.
    apply level_one_icon; [by apply (Hicons j) | done].
  - intros i j q n r c Hi Hj Hr Hc.
    destruct (Hch _ _ _ Hi Hr) as (r0 & Hr0 & _), (Hch _ _ _ Hj Hc) as (c0 & Hc0 & _).
    destruct (Hpoint _ _ _ _ Hi Hr0 Hr) as [-> Ho], (Hpoint _ _ _ _ Hj Hc0 Hc) as [-> _].
    specialize (Ho (table_parent _ _ Ht _ _ _ _ _ Hi Hj Hr0)). rewrite length_app. cbn [length].
    apply eq_bool_prop_intro. rewrite andb_True, !bool_decide_spec. split.
    + intros Hle. split; [lia |]. rewrite Ho by lia. apply bool_decide_pack. lia.
    + intros [Hle Hop]. rewrite Ho in Hop by done. apply bool_decide_unpack in Hop. lia.
  - unfold rows'. rewrite toggleLevel_rows by done. apply updateStripes_striped.
  - exact Hpoint.
Qed.

(** The rows of [example_rows] to the second level. *)
Lemma example_named : spans_named example_rows.
Proof.
  intros [| [| [| k]]] r [| [| [| j]]] r' s; cbn; intros [= <-] [= <-] Hs Hid;
    try (by apply elem_of_nil in Hs); try done;
    apply list_elem_of_singleton in Hs as ->; exfalso; revert Hid; by apply (bool_decide_unpack _).
Qed.

Lemma example_icons i r : example_rows !! i = Some r → has_icon r = true → icon_named r.
Proof.
  destruct i as [| [| [| i]]]; cbn; intros [= <-]; [| done | done]. intros _.
  split; by apply (bool_decide_unpack _).
Qed.

Lemma toggleLevel_tree_witness :
  let rows' := toggleLevel 2 example_rows in
  table example_paths rows' ∧ tree_shown example_paths rows' ∧ striped rows' ∧
  ∀ j q r r', example_paths !! j = Some q → example_rows !! j = Some r → rows' !! j = Some r' →
    r_visible r' = bool_decide (Z.of_nat (length q) ≤ 2) ∧
    (has_icon r = true → Z.of_nat (length q) ≤ 2 →
      opened r' = bool_decide (Z.of_nat (length q) < 2)).
Proof. apply (toggleLevel_tree example_paths example_rows 2 example_table example_named example_icons). Defined.
