(* ===== verification/Menu.v ===== *)
(** * The menu of a page (src/docs/MQTTClient/html/menu.js)

    [initMenu] writes the tree of menudata.js as nested HTML lists and adds the
    search box.  What it does to the page are calls of jQuery on an element:
    [initMenu] is the sequence of them. *)
From S2P Require Import Prelude JsString SearchData AsyncIndex ClientIndex InternalIndex SearchSite.
Local Open Scope Z_scope.

Definition quote : jstr := [34].

(** ** makeTree

    [data] has children or, as an item with an empty list, no key for them. *)
Section Tree.
Context (relPath : jstr).

Definition open_li (text url : string) : jstr :=
  js "<li><a href=" ++ quote ++ relPath ++ js url ++ quote ++ js ">" ++ js text ++ js "</a>".

Fixpoint makeTree (data : MenuItem) : jstr :=
  match data with
  | item _ _ [] => []
  | item _ _ children =>
    js "<ul>" ++
    (fix items (l : list MenuItem) : jstr :=
       match l with
       | [] => []
       | c :: l =>
         match c with item text url _ => open_li text url ++ makeTree c ++ js "</li>" end ++ items l
       end) children ++
    js "</ul>"
  end.

Definition item_html (c : MenuItem) : jstr :=
  match c with item text url _ => open_li text url ++ makeTree c ++ js "</li>" end.
Definition items_html (l : list MenuItem) : jstr := l ≫= item_html.

Lemma makeTree_items text url c l :
  makeTree (item text url (c :: l)) = js "<ul>" ++ items_html (c :: l) ++ js "</ul>".
Proof.
  reflexivity.
Qed.
End Tree.

(** ** initMenu *)

(** A call of jQuery on the elements of a selector. *)
Inductive jquery :=
  | append (selector : string) (html : jstr)
  | addClassFirst (selector classes : string)      (* children(':first').addClass *)
  | attrFirst (selector name value : string)       (* and .attr *)
  | smartmenus (selector : string).

Definition attr (name : string) (value : jstr) : jstr := js " " ++ js name ++ js "=" ++ quote ++ value ++ quote.
Definition tag_open (name : string) (attrs : jstr) : jstr := js "<" ++ js name ++ attrs ++ js ">".
Definition tag_single (name : string) (attrs : jstr) : jstr := js "<" ++ js name ++ attrs ++ js "/>".
Definition lit (name value : string) : jstr := attr name (js value).

Definition field_focus : jstr :=
  lit "onfocus" "searchBox.OnSearchFieldFocus(true)" ++ lit "onblur" "searchBox.OnSearchFieldFocus(false)".

Definition server_box (relPath searchPage search : jstr) : jstr :=
  tag_open "li" (lit "style" "float:right") ++
  tag_open "div" (lit "id" "MSearchBox" ++ lit "class" "MSearchBoxInactive") ++
  tag_open "div" (lit "class" "left") ++
  tag_open "form" (lit "id" "FSearchBox" ++ attr "action" (relPath ++ searchPage) ++ lit "method" "get") ++
  tag_single "img" (lit "id" "MSearchSelect" ++ attr "src" (relPath ++ js "search/mag.svg") ++ attr "alt" []) ++
  tag_open "input" (lit "type" "text" ++ lit "id" "MSearchField" ++ lit "name" "query" ++
    attr "value" search ++ lit "size" "20" ++ lit "accesskey" "S" ++ field_focus) ++
  js "</form></div>" ++ tag_open "div" (lit "class" "right") ++ js "</div></div></li>".

Definition client_box (relPath search : jstr) : jstr :=
  tag_open "li" (lit "style" "float:right") ++
  tag_open "div" (lit "id" "MSearchBox" ++ lit "class" "MSearchBoxInactive") ++
  tag_open "span" (lit "class" "left") ++
  tag_single "img" (lit "id" "MSearchSelect" ++ attr "src" (relPath ++ js "search/mag_sel.svg") ++
    lit "onmouseover" "return searchBox.OnSearchSelectShow()" ++
    lit "onmouseout" "return searchBox.OnSearchSelectHide()" ++ attr "alt" []) ++
  tag_single "input" (lit "type" "text" ++ lit "id" "MSearchField" ++ attr "value" search ++
    lit "accesskey" "S" ++ field_focus ++ lit "onkeyup" "searchBox.OnSearchFieldChange(event)") ++
  js "</span>" ++ tag_open "span" (lit "class" "right") ++
  tag_open "a" (lit "id" "MSearchClose" ++ lit "href" "javascript:searchBox.CloseResultsWindow()") ++
  tag_single "img" (lit "id" "MSearchCloseImg" ++ lit "border" "0" ++
    attr "src" (relPath ++ js "search/close.svg") ++ attr "alt" []) ++
  js "</a></span></div></li>".

(** [menudata] is an object with children only. *)
Definition initMenu (menudata : list MenuItem) (relPath : jstr) (searchEnabled serverSide : bool)
    (searchPage search : jstr) : list jquery :=
  [append "#main-nav" (makeTree relPath (item EmptyString EmptyString menudata));
   addClassFirst "#main-nav" "sm sm-dox";
   attrFirst "#main-nav" "id" "main-menu"] ++
  (if searchEnabled
   then [append "#main-menu" (if serverSide then server_box relPath searchPage search
                              else client_box relPath search)]
   else []) ++
  [smartmenus "#main-menu"].

(** ** Reading a menu

    A reader of the lists: the links of a list with the lists in them. *)
Inductive link_tree := Link (text url : jstr) (children : list link_tree).

Fixpoint links_of (m : MenuItem) : link_tree :=
  match m with item text url children => Link (js text) (js url) (links_of <$> children) end.

Definition expect (t s : jstr) : option jstr :=
  if decide (t `prefix_of` s) then Some (drop (length t) s) else None.

Fixpoint until (c : Z) (s : jstr) : jstr * jstr :=
  match s with
  | [] => ([], [])
  | x :: s' => if decide (x = c) then ([], s) else let '(a, b) := until c s' in (x :: a, b)
  end.

Fixpoint read_items (fuel : nat) (relPath s : jstr) : option (list link_tree * jstr) :=
  match fuel with
  | O => None
  | S fuel =>
    match expect (js "</ul>") s with
    | Some s => Some ([], s)
    | None =>
      s ← expect (js "<li><a href=" ++ quote ++ relPath) s;
      let '(url, s) := until 34 s in
      s ← expect (quote ++ js ">") s;
      let '(text, s) := until 60 s in
      s ← expect (js "</a>") s;
      '(children, s) ← match expect (js "<ul>") s with
                       | Some s => read_items fuel relPath s
                       | None => Some ([], s)
                       end;
      s ← expect (js "</li>") s;
      '(rest, s) ← read_items fuel relPath s;
      Some (Link text url children :: rest, s)
    end
  end.

Definition read_menu (relPath html : jstr) : option (list link_tree) :=
  match html with
  | [] => Some []
  | _ => s ← expect (js "<ul>") html;
         '(items, s) ← read_items (length html) relPath s;
         if decide (s = []) then Some items else None
  end.

(** The text of an item ends where a tag begins and its URL where the
    attribute does. *)
Fixpoint menu_ok (m : MenuItem) : bool :=
  match m with
  | item text url children =>
    bool_decide (60 ∉ js text) && bool_decide (34 ∉ js url) && forallb menu_ok children
  end.

Lemma expect_app t s : expect t (t ++ s) = Some s.
Proof. unfold expect. rewrite decide_True by (by eexists). by rewrite drop_app_length. Qed.

Lemma until_app c a s : c ∉ a → until c (a ++ c :: s) = (a, c :: s).
Proof.
  induction a as [| x a IH]; intros Ha; cbn.
  - by rewrite decide_True.
  - apply not_elem_of_cons in Ha as [Hx Ha]. rewrite decide_False by done. by rewrite IH.
Qed.

Lemma expect_ne a c d t s : c ≠ d → expect (a ++ c :: t) (a ++ d :: s) = None.
Proof.
  intros Hne. unfold expect. rewrite decide_False; [done |].
  intros Hp%prefix_app_inv. by apply prefix_cons_inv_1 in Hp.
Qed.

(** The parts of an item, read one after the other. *)
Lemma read_item fuel relPath text url children l k :
  menu_ok (item text url children) = true →
  read_items (S fuel) relPath (items_html relPath (item text url children :: l) ++ js "</ul>" ++ k) =
    '(cs, s) ← match children with
               | [] => Some ([], js "</li>" ++ items_html relPath l ++ js "</ul>" ++ k)
               | _ => read_items fuel relPath
                        (items_html relPath children ++ js "</ul>" ++ js "</li>" ++ items_html relPath l ++ js "</ul>" ++ k)
               end;
    s ← expect (js "</li>") s;
    '(rest, s) ← read_items fuel relPath s;
    Some (Link (js text) (js url) cs :: rest, s).
Proof.
  cbn [menu_ok]. rewrite !andb_true_iff, !bool_decide_eq_true. intros [[Htext Hurl] _].
  cbn [items_html mbind list_bind item_html]. set (R := items_html relPath l ++ js "</ul>" ++ k).
  assert ((open_li relPath text url ++ makeTree relPath (item text url children) ++ js "</li>") ++ R =
    (js "<li><a href=" ++ quote ++ relPath) ++ js url ++ quote ++ js ">" ++ js text ++ js "</a>" ++
      makeTree relPath (item text url children) ++ js "</li>" ++ R) as E1.
  { unfold open_li. by rewrite <- !(assoc_L (++)). }
  unfold items_html in *. cbn [mbind list_bind item_html]. rewrite <- (assoc_L (++)). fold R.
  rewrite E1. cbn [read_items].
  assert (∀ x, expect (js "</ul>") ((js "<li><a href=" ++ quote ++ relPath) ++ x) = None) as ->
    by (intros x; apply (expect_ne [60] 47 108); done).
  rewrite expect_app. cbn [mbind option_bind].
  change (js url ++ quote ++ ?x) with (js url ++ 34 :: x). rewrite until_app by done.
  change (34 :: js ">" ++ ?x) with ((quote ++ js ">") ++ x). rewrite expect_app. cbn [mbind option_bind].
  change (js text ++ js "</a>" ++ ?x) with (js text ++ 60 :: (js "/a>" ++ x)). rewrite until_app by done.
  change (60 :: js "/a>" ++ ?x) with (js "</a>" ++ x). rewrite expect_app. cbn [mbind option_bind].
  destruct children as [| c children].
  - cbn [makeTree app]. assert (expect (js "<ul>") (js "</li>" ++ R) = None) as ->
      by (apply (expect_ne [60] 117 47); done). done.
  - rewrite makeTree_items. rewrite <- !(assoc_L (++)). rewrite expect_app. done.
Qed.

Lemma item_length relPath text url children :
  (length (items_html relPath children) < length (item_html relPath (item text url children)))%nat.
Proof.
  cbn [item_html]. unfold open_li. rewrite !length_app.
  destruct children as [| c children]; [cbn; lia |].
  rewrite makeTree_items, !length_app. cbn. lia.
Qed.

Lemma read_items_html fuel relPath l k :
  forallb menu_ok l = true → (length (items_html relPath l) < fuel)%nat →
  read_items fuel relPath (items_html relPath l ++ js "</ul>" ++ k) = Some (links_of <$> l, k).
Proof.
  revert l k. induction fuel as [| fuel IH]; intros l k Hok Hlen; [lia |].
  destruct l as [| [text url children] l].
  { cbn [items_html mbind list_bind app read_items]. by rewrite expect_app. }
  cbn [forallb] in Hok. apply andb_true_iff in Hok as [Hitem Hok].
  rewrite read_item by done. pose proof (item_length relPath text url children) as Hchild.
  unfold items_html at 1 in Hlen. cbn [mbind list_bind] in Hlen. rewrite length_app in Hlen.
  fold (items_html relPath l) in Hlen.
  assert (match children with
    | [] => Some ([], js "</li>" ++ items_html relPath l ++ js "</ul>" ++ k)
    | _ => read_items fuel relPath (items_html relPath children ++ js "</ul>" ++ js "</li>" ++
             items_html relPath l ++ js "</ul>" ++ k)
    end = Some (links_of <$> children, js "</li>" ++ items_html relPath l ++ js "</ul>" ++ k)) as ->.
  { destruct children as [| c children]; [done |]. apply IH; [| lia].
    cbn [menu_ok] in Hitem. by apply andb_true_iff in Hitem as [_ Hitem]. }
  cbn [mbind option_bind]. rewrite expect_app. cbn [mbind option_bind].
  rewrite IH; [done | done | lia].
Qed.

(** C23: the menu of each site survives its way into the page: initMenu appends
    to the element main-nav one piece of HTML, before it makes the list there
    the menu, and that reads back as the tree of menudata.js: every item, with
    its text and its URL relative to the page, in order, and inside it the list
    of the items below it; whatever the path to the root of the pages is. *)
Theorem initMenu_reads site relPath searchEnabled serverSide searchPage search :
  site ∈ sites →
  ∃ html calls,
    initMenu (s_menu site) relPath searchEnabled serverSide searchPage search =
      append "#main-nav" html :: addClassFirst "#main-nav" "sm sm-dox" ::
      attrFirst "#main-nav" "id" "main-menu" :: calls ∧
    (∀ h, append "#main-nav" h ∉ calls) ∧
    read_menu relPath html = Some (links_of <$> s_menu site).
Proof.
  intros Hsite. assert (Forall (λ s, s_menu s ≠ [] ∧ forallb menu_ok (s_menu s) = true) sites) as Hall.
  { by apply (bool_decide_unpack _). }
  rewrite Forall_forall in Hall. destruct (Hall _ Hsite) as [Hne Hok].
  do 2 eexists. split; [done |]. split.
  { intros h. destruct searchEnabled; cbn [app]; rewrite !elem_of_cons, elem_of_nil;
      intros Hin; repeat destruct Hin as [Hin | Hin]; done. }
  destruct (s_menu site) as [| c l]; [done |]. rewrite makeTree_items.
  set (html := js "<ul>" ++ _). assert (html ≠ []) as Hhtml by done.
  unfold read_menu. destruct html as [| x html'] eqn:Hx; [done |]. rewrite <- Hx. unfold html.
  rewrite expect_app. cbn [mbind option_bind].
  rewrite <- (app_nil_r (js "</ul>")), read_items_html; [done | done |].
  rewrite !length_app. cbn. lia.
Qed.

Lemma initMenu_reads_witness : ∃ html calls,
  initMenu (s_menu ClientIndex.site) (js "../") true false (js "search.php") (js "Search") =
    append "#main-nav" html :: addClassFirst "#main-nav" "sm sm-dox" ::
    attrFirst "#main-nav" "id" "main-menu" :: calls ∧
  (∀ h, append "#main-nav" h ∉ calls) ∧
  read_menu (js "../") html = Some (links_of <$> s_menu ClientIndex.site).
Proof. apply initMenu_reads. apply list_elem_of_further, list_elem_of_here. Defined.
